(* ===== verification/_CoqProject ===== *)
-Q . S2P
Prelude.v
Bitmap.v
Interrupt.v
DList.v
CString.v
Path.v
Paging.v
Queue.v
Keyboard.v
Thread.v
Sync.v
IoQueue.v
Sched.v
SchedInv.v
Fair.v
Memory.v
Arena.v
Heap.v
Space.v
Stdio.v
Disk.v
Ide.v
Parts.v
IdeInit.v
Inode.v
FileData.v
Dir.v
DirSpec.v
DirUpdate.v
DirDelete.v
File.v
Fs.v
Directory.v
Create.v
Session.v
Format.v
Process.v
Boot.v
Ports.v
Syscall.v
Ps.v
Shell.v
