(* ===== verification/Prelude.v ===== *)
(** * ZyOs: a verification library for the kernel

    ZyOs is a 32-bit x86 kernel in C: threads with a round-robin scheduler,
    semaphores and locks, paging and a heap, an ATA disk driver, a file system
    with directories, and a small shell. This library translates its C code
    into Rocq and proves what the parts promise. Names of definitions are those
    of the C functions; a function that is cut into pieces has further names
    that say which piece.

    ** How code is modelled

    - A w-bit integer is a [Z]; [u8] ... [i32] below truncate it where C
      converts or wraps. Buffers are lists of byte values; a [char*] is the
      list of bytes from it on, or an offset into one.
    - A run of code is of type [outcome]: [Ret] a result, [Panic] (a failed
      [ASSERT] or [PANIC]), [Fault] (an access outside the objects of the
      model, or a null pointer) or [Spin] (the code waits or loops for ever).
      Code with a state is in the monad [M S]; [zoom] runs code of one
      component on the part of a bigger state that a [lens] selects.
    - Shared objects live in stores indexed by address: list nodes, threads,
      semaphores, inodes in memory, directories, physical memory.
    - Loops are structural where the code has a bound. Where it has none, a
      fuel argument ends in [Spin]; the theorems give a bound that suffices
      and state that the result is not [Spin]. The bounds: the number of nodes
      for list walks, the length of the string for path loops, the number of
      bits for bitmap scans, 30000 polls for [busy_wait], 12 digits for
      [itoa], 140 blocks for files and directories, 513 path components for
      [sys_getcwd], the bytes of the address bitmap for the copy of a process.

    ** The parts and how they interact

    Library code. [Bitmap]: lib/kernel/bitmap.c. [CString]: lib/string.c.
    [Stdio]: lib/stdio.c and lib/kernel/stdio-kernel.c. [DList]:
    lib/kernel/list.c on a store of nodes; [Queue] has the class [ListOps]
    of queue operations with two instances, the node store and sequences, and
    [ListSim], the promise that the first simulates the second.

    Threads. [Interrupt]: the interrupt flag and the descriptor table of
    kernel/interrupt.c. [Thread]: thread/thread.c with the activation of
    userprog/process.c and userprog/tss.c. [Sync]: thread/sync.c. [IoQueue]:
    device/ioqueue.c. [Keyboard]: device/keyboard.c. [Sched] puts them
    together: a step relation in which interrupts come between instructions,
    on any [ListOps]; [SchedInv] has its invariants, [Fair] its liveness.
    [Boot]: the initialisation of the threads, the console and the keyboard's
    queue. [Ports]: the set-up of device/timer.c and of the interrupt
    controllers in kernel/interrupt.c.

    Memory. [Paging]: the page tables behind kernel/memory.c, with the
    translation of the processor. [Memory]: the frame pools, the virtual
    address pools and the page functions. [Arena]: [sys_malloc] and
    [sys_free], against the class [PageAlloc] with its laws
    [PageAllocSpec]; [Heap] shows that the page functions of [Memory] keep
    these laws and transports the results.

    Disk and files. [Disk]: the class [BlockDev] with its laws, [SectorReads] for
    sectors read one at a time and [BlockDevSpec] for transfers, and
    little-endian words. [Ide]: device/ide.c on a controller [Ata] of documented
    behaviour [AtaSpec] (the controller is hardware; [sim_ata] is a concrete one
    that has this behaviour), an instance of [BlockDev]. It keeps [SectorReads] on
    every such controller, and [BlockDevSpec], on which the file system is built,
    on those that are ready for the next block of a command at once
    ([AtaPrompt]), as emulators are: the driver waits only once for a command.
    [Parts]: the scan of partition tables in device/ide.c. [IdeInit]: the
    identification of the drives and [ide_init], on any controller.
    [Inode]: fs/inode.c and the file system's state. [FileData] and [File]:
    fs/file.c. [Dir]: fs/dir.c. [Fs] and [Format]: fs/fs.c.
    [DirSpec], [DirUpdate], [DirDelete] and [Create] describe what the
    operations do to the list of directory entries; [Directory] and [Session]
    state the results. [Path]: the paths of fs/fs.c and shell/buildin_cmd.c.

    Processes and shell. [Space]: page directories and the copy of an address
    space, of userprog/process.c and userprog/fork.c, on the memory of [Memory].
    [Process]: userprog/tss.c, the start of a process and fork, on threads, open
    files and the class [ProcMem] of the memory operations, which [Memory] and
    [Space] implement. [Syscall]: the stubs of lib/user/syscall.c, the table of
    userprog/syscall-init.c and the entry of interrupt 0x80 in kernel/kernel.S,
    against the class [Handlers] of what the table points to. [Ps]: [sys_ps] of
    thread/thread.c. [Shell]: shell/shell.c and shell/buildin_cmd.c on the
    system calls of [Fs].

    ** What is shown

    - Scheduler: [thread_init] establishes, and every transition keeps: one
      thread runs, it owns the stack pointer, the ready queue lists the ready
      threads; the pointer lists implement the queues; a used-up time slice,
      [sema_up], a lock's acquire and release do what they mean; no ready
      thread starves while the others compute.
    - Memory: [malloc_page] maps a free run of pages to distinct frames and
      touches no other translation; the heap gives out zeroed disjoint blocks,
      refuses only for the reasons of [refused], takes them back and gives up
      complete arenas; [addr_v2p] is the translation of the processor.
    - Processes: fork gives the child a copy of the parent's pages in frames of
      its own and of its control block, and keeps the scheduler's invariant; a
      new page directory sees the kernel and itself; the segments are as the
      selectors say; a system call reaches its handler with its arguments; an
      interrupt line reaches its handler.
    - Disk: at start the drives of the first channel are identified, the
      partition tables are read as they are laid out and listed; a transfer
      reads or writes the addressed sectors and leaves the channel free, for one
      sector however the controller behaves within its specification, for more
      on a prompt one; on a slow one data are lost.
    - Files: reading gives back what was written, across direct and indirect
      blocks; an inode written is the inode read; inodes are cached once;
      lookup and listing of a directory, and adding and deleting entries in one
      without a table of indirect blocks, are those on a list of entries; files created
      under the root come back after they were closed; a formatted partition
      mounts as an empty, well-formed file system.
    - Strings, paths, output, bitmaps, ring buffer, keyboard, [sys_ps], the
      shell's editor and parser: each function against a plain specification on
      lists; a session of the shell, of one-word lines in the root directory,
      shows what the builtin commands print; [cd] overruns its buffer.

    ** Not modelled

    Assembly (boot/, kernel/kernel.S but for the entry of interrupt 0x80,
    thread/switch.S, lib/kernel/print.S); what the ports do is an assumption on
    the disk controller ([AtaSpec], [AtaPrompt]) and the documented reading of the words
    written to the timer and the interrupt controllers ([Ports]). The order of
    the calls in kernel/init.c and kernel/main.c. Messages that the kernel
    prints for information are left out; what the disk driver reports at start
    and what the shell and [sys_write] print is not. The file system is run by one thread at a time: its code takes no lock
    but the channel's. fork runs with interrupts off, so it is one step. *)

From Stdlib Require Import ZArith Lia.
From stdpp Require Import base numbers list gmap.

#[global] Open Scope Z_scope.

#[global] Arguments Z.eqb : simpl never.
#[global] Arguments Z.ltb : simpl never.
#[global] Arguments Z.leb : simpl never.
#[global] Arguments Z.add : simpl never.
#[global] Arguments Z.sub : simpl never.
#[global] Arguments Z.mul : simpl never.
#[global] Arguments Z.land : simpl never.
#[global] Arguments Z.lor : simpl never.
#[global] Arguments Z.shiftl : simpl never.
#[global] Arguments Z.shiftr : simpl never.
#[global] Arguments Z.testbit : simpl never.
#[global] Arguments Z.to_nat : simpl never.
#[global] Arguments Z.of_nat : simpl never.

(** ** Machine integers (lib/stdint.h)

    A w-bit C integer is a [Z] kept in range by the truncation functions
    below, which are applied where the C code converts or where arithmetic
    can wrap. *)

Definition u8 (x : Z) : Z := x mod 256.
Definition u16 (x : Z) : Z := x mod 65536.
Definition u32 (x : Z) : Z := x mod 4294967296.
Definition i8 (x : Z) : Z := (x + 128) mod 256 - 128.
Definition i16 (x : Z) : Z := (x + 32768) mod 65536 - 32768.
Definition i32 (x : Z) : Z := (x + 2147483648) mod 4294967296 - 2147483648.

(** [DIV_ROUND_UP(X, STEP)] of kernel/global.h; the sum is 32-bit unsigned. *)
Definition DIV_ROUND_UP (x step : Z) : Z := u32 (x + step - 1) / step.

Definition is_u8 (x : Z) : Prop := 0 ≤ x < 256.
Definition is_u32 (x : Z) : Prop := 0 ≤ x < 4294967296.

(** [zlia]: linear arithmetic after turning [/] and [mod] by constants into
    their defining equations; the truncation functions are unfolded. *)
Ltac zlia :=
  unfold u8, u16, u32, i8, i16, i32, is_u8, is_u32 in *;
  Z.div_mod_to_equations; lia.

Lemma u8_id x : is_u8 x → u8 x = x.
Proof. zlia. Qed.
Lemma u32_id x : is_u32 x → u32 x = x.
Proof. zlia. Qed.
Lemma u16_id x : 0 ≤ x < 65536 → u16 x = x.
Proof. zlia. Qed.
Lemma i32_id x : -2147483648 ≤ x < 2147483648 → i32 x = x.
Proof. zlia. Qed.
Lemma i16_id x : -32768 ≤ x < 32768 → i16 x = x.
Proof. zlia. Qed.
Lemma u8_range x : is_u8 (u8 x).
Proof. zlia. Qed.
Lemma u32_range x : is_u32 (u32 x).
Proof. zlia. Qed.

(** ** Outcomes

    What a call of a kernel function can do: return, stop in [panic_spin]
    (a failed [ASSERT] or a [PANIC], kernel/debug.c, which never returns),
    touch memory outside the objects of the model (a C undefined behaviour,
    a page fault on the machine), or keep looping (a loop whose fuel runs
    out). *)
Inductive outcome (A : Type) : Type :=
  | Ret (a : A)
  | Panic
  | Fault
  | Spin.
Arguments Ret {A} a.
Arguments Panic {A}.
Arguments Fault {A}.
Arguments Spin {A}.

#[global] Instance outcome_ret : MRet outcome := λ A a, Ret a.
#[global] Instance outcome_bind : MBind outcome := λ A B f x,
  match x with
  | Ret a => f a
  | Panic => Panic
  | Fault => Fault
  | Spin => Spin
  end.
#[global] Instance outcome_fmap : FMap outcome := λ A B f x,
  match x with
  | Ret a => Ret (f a)
  | Panic => Panic
  | Fault => Fault
  | Spin => Spin
  end.

Lemma outcome_bind_Ret {A B} (x : outcome A) (f : A → outcome B) b :
  x ≫= f = Ret b ↔ ∃ a, x = Ret a ∧ f a = Ret b.
Proof. destruct x; cbn; naive_solver. Qed.

(** [ASSERT(c)] in code without state. *)
Definition assert_ (b : bool) : outcome unit := if b then Ret () else Panic.

(** ** Array accesses: a C index into an array modelled by a list. *)
Section arrays.
Context {A : Type}.

Definition load (l : list A) (i : Z) : outcome A :=
  if i <? 0 then Fault
  else match l !! Z.to_nat i with Some x => Ret x | None => Fault end.

Definition store (l : list A) (i : Z) (x : A) : outcome (list A) :=
  if (0 <=? i) && (i <? Z.of_nat (length l))
  then Ret (<[Z.to_nat i := x]> l) else Fault.

Lemma load_Ret l i x : load l i = Ret x ↔ 0 ≤ i ∧ l !! Z.to_nat i = Some x.
Proof.
  unfold load. destruct (Z.ltb_spec i 0); [split; [done|lia]|].
  destruct (l !! Z.to_nat i); naive_solver.
Qed.

Lemma load_in l i : 0 ≤ i < Z.of_nat (length l) → ∃ x, load l i = Ret x.
Proof.
  intros ?. destruct (lookup_lt_is_Some_2 l (Z.to_nat i)) as [x Hx]; [lia|].
  exists x. apply load_Ret. split; [lia|done].
Qed.

Lemma load_out l i : Z.of_nat (length l) ≤ i → load l i = Fault.
Proof.
  intros ?. unfold load. destruct (Z.ltb_spec i 0); [done|].
  by rewrite lookup_ge_None_2 by lia.
Qed.

Lemma store_in l i x :
  0 ≤ i < Z.of_nat (length l) → store l i x = Ret (<[Z.to_nat i := x]> l).
Proof.
  intros ?. unfold store.
  destruct (Z.leb_spec 0 i), (Z.ltb_spec i (Z.of_nat (length l))); done || lia.
Qed.

Lemma store_Ret l i x l' :
  store l i x = Ret l' →
  0 ≤ i < Z.of_nat (length l) ∧ l' = <[Z.to_nat i := x]> l.
Proof.
  unfold store. destruct (Z.leb_spec 0 i), (Z.ltb_spec i (Z.of_nat (length l)));
    naive_solver lia.
Qed.
End arrays.

(** ** The kernel monad: state passing with outcomes

    [M S A] is a computation over the state [S] of a component. A panic or
    a fault ends the run, so it carries no state. *)
Definition M (S A : Type) : Type := S → outcome (A * S).

#[global] Instance M_ret S : MRet (M S) := λ A a s, Ret (a, s).
#[global] Instance M_bind S : MBind (M S) := λ A B f m s,
  match m s with
  | Ret (a, s') => f a s'
  | Panic => Panic
  | Fault => Fault
  | Spin => Spin
  end.

Definition gets {S A} (f : S → A) : M S A := λ s, Ret (f s, s).
Definition modify {S} (f : S → S) : M S unit := λ s, Ret ((), f s).
Definition ASSERT {S} (b : bool) : M S unit :=
  λ s, if b then Ret ((), s) else Panic.
Definition PANIC {S A} : M S A := λ _, Panic.
Definition lift {S A} (x : outcome A) : M S A :=
  λ s, match x with
       | Ret a => Ret (a, s)
       | Panic => Panic
       | Fault => Fault
       | Spin => Spin
       end.

(** A component's state inside a larger one. *)
Record lens (S T : Type) := Lens { view : S → T; over : T → S → S }.
Arguments Lens {S T} _ _.
Arguments view {S T} _ _.
Arguments over {S T} _ _ _.

Class LensLaws {S T} (l : lens S T) : Prop := {
  view_over : ∀ t s, view l (over l t s) = t;
  over_view : ∀ s, over l (view l s) s = s;
  over_over : ∀ t t' s, over l t (over l t' s) = over l t s
}.

Definition zoom {S T A} (l : lens S T) (m : M T A) : M S A :=
  λ s, match m (view l s) with
       | Ret (a, t) => Ret (a, over l t s)
       | Panic => Panic
       | Fault => Fault
       | Spin => Spin
       end.

Section monad.
Context {S : Type}.

Lemma M_bind_Ret {A B} (m : M S A) (f : A → M S B) s a s' :
  m s = Ret (a, s') → (m ≫= f) s = f a s'.
Proof. unfold mbind, M_bind. by intros ->. Qed.

Lemma M_bind_Panic {A B} (m : M S A) (f : A → M S B) s :
  m s = Panic → (m ≫= f) s = Panic.
Proof. unfold mbind, M_bind. by intros ->. Qed.

Lemma M_bind_Fault {A B} (m : M S A) (f : A → M S B) s :
  m s = Fault → (m ≫= f) s = Fault.
Proof. unfold mbind, M_bind. by intros ->. Qed.

Lemma M_bind_inv {A B} (m : M S A) (f : A → M S B) s r :
  (m ≫= f) s = Ret r → ∃ a s', m s = Ret (a, s') ∧ f a s' = Ret r.
Proof. unfold mbind, M_bind. destruct (m s) as [[a s']| | |]; naive_solver. Qed.

Lemma bind_ret {A B} (a : A) (f : A → M S B) s : (mret a ≫= f) s = f a s.
Proof. done. Qed.
Lemma bind_gets {A B} (g : S → A) (f : A → M S B) s : (gets g ≫= f) s = f (g s) s.
Proof. done. Qed.
Lemma bind_modify {B} (g : S → S) (f : unit → M S B) s :
  (modify g ≫= f) s = f () (g s).
Proof. done. Qed.
Lemma bind_assoc {A B C} (m : M S A) (f : A → M S B) (g : B → M S C) s :
  ((m ≫= f) ≫= g) s = (m ≫= λ a, f a ≫= g) s.
Proof. unfold mbind, M_bind. by destruct (m s) as [[a s']| | |]. Qed.
Lemma bind_ext {A B} (m : M S A) (f g : A → M S B) s : (∀ a s', f a s' = g a s') → (m ≫= f) s = (m ≫= g) s.
Proof. intros H. unfold mbind, M_bind. by destruct (m s) as [[a s']| | |]. Qed.
Lemma bind_lift {A B} (a : A) (f : A → M S B) s : (lift (Ret a) ≫= f) s = f a s.
Proof. done. Qed.
Lemma bind_ASSERT_true {B} (f : unit → M S B) s : (ASSERT true ≫= f) s = f () s.
Proof. done. Qed.
Lemma bind_ASSERT_false {B} (f : unit → M S B) s : (ASSERT false ≫= f) s = Panic.
Proof. done. Qed.
Lemma bind_PANIC {A B} (f : A → M S B) s : (PANIC ≫= f) s = Panic.
Proof. done. Qed.
Lemma ret_eq {A} (a : A) (s : S) : (mret a : M S A) s = Ret (a, s).
Proof. done. Qed.
Lemma gets_eq {A} (g : S → A) (s : S) : gets g s = Ret (g s, s).
Proof. done. Qed.
Lemma modify_eq (g : S → S) (s : S) : modify g s = Ret ((), g s).
Proof. done. Qed.

Lemma bind_zoom {T A B} (l : lens S T) (m : M T A) (f : A → M S B) s a t :
  m (view l s) = Ret (a, t) → (zoom l m ≫= f) s = f a (over l t s).
Proof. intros H. unfold mbind, M_bind, zoom. by rewrite H. Qed.

Lemma zoom_Ret {T A} (l : lens S T) (m : M T A) s a t :
  m (view l s) = Ret (a, t) → zoom l m s = Ret (a, over l t s).
Proof. intros H. unfold zoom. by rewrite H. Qed.
End monad.

(** [mstep] runs the straight-line part of a computation on a state. *)
Create Rewrite HintDb monad.
#[export] Hint Rewrite @bind_ret @bind_gets @bind_modify @bind_assoc @bind_lift
  @bind_ASSERT_true @bind_ASSERT_false @bind_PANIC @ret_eq @gets_eq @modify_eq : monad.

Ltac mstep := autorewrite with monad; cbn.

(** [minv H x s1 H1] splits the returning run [H] at its first call. *)
Ltac minv H x s1 H1 := apply M_bind_inv in H as (x & s1 & H1 & H).

(** ** Simulation between two state types

    [sim R m1 m2]: from related states, whenever [m2] (the abstract side)
    returns, [m1] returns the same value and the states are related again. *)
Definition sim {S1 S2 A} (R : S1 → S2 → Prop) (m1 : M S1 A) (m2 : M S2 A) : Prop :=
  ∀ s1 s2 a s2', R s1 s2 → m2 s2 = Ret (a, s2') → ∃ s1', m1 s1 = Ret (a, s1') ∧ R s1' s2'.

Section sim.
Context {S1 S2 : Type} (R : S1 → S2 → Prop).

Lemma sim_ret {A} (a : A) : sim R (mret a) (mret a).
Proof. intros s1 s2 a' s2' HR [= <- <-]. by exists s1. Qed.

Lemma sim_bind {A B} (m1 : M S1 A) (m2 : M S2 A) (f1 : A → M S1 B) (f2 : A → M S2 B) :
  sim R m1 m2 → (∀ a, sim R (f1 a) (f2 a)) → sim R (m1 ≫= f1) (m2 ≫= f2).
Proof.
  intros Hm Hf s1 s2 b s2' HR (a & t2 & H2 & Hb)%M_bind_inv.
  destruct (Hm _ _ _ _ HR H2) as (t1 & H1 & HR').
  destruct (Hf a _ _ _ _ HR' Hb) as (s1' & Hb' & HR'').
  exists s1'. by rewrite (M_bind_Ret _ _ _ _ _ H1).
Qed.

Lemma sim_gets {A} (g1 : S1 → A) (g2 : S2 → A) :
  (∀ s1 s2, R s1 s2 → g1 s1 = g2 s2) → sim R (gets g1) (gets g2).
Proof. intros H s1 s2 a s2' HR [= <- <-]. exists s1. by rewrite <-(H _ _ HR). Qed.

Lemma sim_modify (g1 : S1 → S1) (g2 : S2 → S2) :
  (∀ s1 s2, R s1 s2 → R (g1 s1) (g2 s2)) → sim R (modify g1) (modify g2).
Proof. intros H s1 s2 a s2' HR [= <- <-]. eexists. split; [done|auto]. Qed.

Lemma sim_ASSERT b : sim R (ASSERT b) (ASSERT b).
Proof. intros s1 s2 a s2' HR. destruct b; [intros [= <- <-]; by exists s1|done]. Qed.

Lemma sim_lift {A} (x : outcome A) : sim R (lift x) (lift x).
Proof. intros s1 s2 a s2' HR. destruct x; [intros [= <- <-]; by exists s1|done..]. Qed.

Lemma sim_PANIC {A} : sim R (@PANIC S1 A) PANIC.
Proof. by intros s1 s2 a s2' HR. Qed.

Lemma sim_fail {A} (m : M S1 A) (x : outcome (A * S2)) :
  (∀ r, x ≠ Ret r) → sim R m (λ _, x).
Proof. intros Hx s1 s2 a s2' HR H. by destruct (Hx (a, s2')). Qed.

Lemma sim_if {A} (b : bool) (m1 m1' : M S1 A) (m2 m2' : M S2 A) :
  sim R m1 m2 → sim R m1' m2' → sim R (if b then m1 else m1') (if b then m2 else m2').
Proof. by destruct b. Qed.
End sim.

(** A component whose state is the same on both sides, inside larger states. *)
Lemma sim_zoom {S1 S2 T1 T2 A} (R : S1 → S2 → Prop) (Q : T1 → T2 → Prop)
    (l1 : lens S1 T1) (l2 : lens S2 T2) (m1 : M T1 A) (m2 : M T2 A) :
  (∀ s1 s2, R s1 s2 → Q (view l1 s1) (view l2 s2)) →
  (∀ s1 s2 t1 t2, R s1 s2 → Q t1 t2 → R (over l1 t1 s1) (over l2 t2 s2)) →
  sim Q m1 m2 → sim R (zoom l1 m1) (zoom l2 m2).
Proof.
  intros Hv Ho Hm s1 s2 a s2' HR. unfold zoom.
  destruct (m2 (view l2 s2)) as [[a' t2]| | |] eqn:E; try done. intros [= <- <-].
  destruct (Hm _ _ _ _ (Hv _ _ HR) E) as (t1 & -> & HQ). eauto.
Qed.

(** ** Lists *)

Section filters.
Context {A : Type} (P : A → Prop) `{∀ x, Decision (P x)}.

Lemma list_filter_all (l : list A) : (∀ x, x ∈ l → P x) → filter P l = l.
Proof.
  induction l as [|x l IH]; intros Hl; [done|]. rewrite filter_cons_True by (apply Hl; left).
  f_equal. apply IH. intros y Hy. apply Hl. by right.
Qed.

Lemma list_filter_none (l : list A) : (∀ x, x ∈ l → ¬ P x) → filter P l = [].
Proof.
  induction l as [|x l IH]; intros Hl; [done|]. rewrite filter_cons_False by (apply Hl; left).
  apply IH. intros y Hy. apply Hl. by right.
Qed.
End filters.

Lemma existsb_false {A} (f : A → bool) (l : list A) :
  existsb f l = false ↔ ∀ x, x ∈ l → f x = false.
Proof.
  induction l as [|x l IH]; cbn; [split; [intros _ y []%elem_of_nil|done]|].
  rewrite orb_false_iff, IH. split.
  - intros [Hx Hl] y [->|?]%elem_of_cons; auto.
  - intros Hl. split; [apply Hl; left|]. intros y ?. apply Hl. by right.
Qed.

Lemma existsb_eqb (b : Z) (l : list Z) : existsb (Z.eqb b) l = bool_decide (b ∈ l).
Proof.
  case_bool_decide as Hb.
  - apply List.existsb_exists. exists b. by rewrite <-list_elem_of_In, Z.eqb_refl.
  - apply existsb_false. intros x Hx. apply Z.eqb_neq. by intros ->.
Qed.
