(* ===== verification/Bitmap.v ===== *)
(** * Bitmaps (lib/kernel/bitmap.c)

    A [struct bitmap] is a byte length and a pointer to the first byte; the
    model keeps, as [bits], the bytes that are readable from that pointer on,
    of which the first [btmp_bytes_len] belong to the bitmap. [bitmap_scan]
    reads one byte behind them, so the two lengths are kept apart. *)

From Stdlib Require Import ZArith Lia.
From stdpp Require Import base numbers list.
From S2P Require Import Prelude.

Record bitmap := Bitmap {
  btmp_bytes_len : Z;
  bits : list Z
}.

Definition BITMAP_MASK : Z := 1.

Definition bitmap_init (btmp : bitmap) : outcome bitmap :=
  if Z.of_nat (length (bits btmp)) <? btmp_bytes_len btmp then Fault
  else Ret (Bitmap (btmp_bytes_len btmp)
    (replicate (Z.to_nat (btmp_bytes_len btmp)) 0 ++
     drop (Z.to_nat (btmp_bytes_len btmp)) (bits btmp))).

(** The C function returns the masked byte as an [int]: non-zero is true. *)
Definition bitmap_scan_test (btmp : bitmap) (bit_idx : Z) : outcome Z :=
  let byte_idx := bit_idx / 8 in
  let bit_odd := bit_idx mod 8 in
  x ← load (bits btmp) byte_idx;
  Ret (Z.land x (Z.shiftl BITMAP_MASK bit_odd)).

(** The first loop of [bitmap_scan]: skip the bytes equal to 0xff. *)
Fixpoint skip_full_bytes (fuel : nat) (btmp : bitmap) (idx_byte : Z) : outcome Z :=
  match fuel with
  | O => Spin
  | S fuel =>
    x ← load (bits btmp) idx_byte;
    if (0xff =? x) && (idx_byte <? btmp_bytes_len btmp)
    then skip_full_bytes fuel btmp (u32 (idx_byte + 1))
    else Ret idx_byte
  end.

(** The second loop: the first clear bit of the byte [x]; the mask is
    truncated to a byte, so it is 0 from bit 8 on. *)
Fixpoint first_clear_bit (fuel : nat) (x idx_bit : Z) : outcome Z :=
  match fuel with
  | O => Spin
  | S fuel =>
    if Z.land (u8 (Z.shiftl BITMAP_MASK idx_bit)) x =? 0 then Ret idx_bit
    else first_clear_bit fuel x (idx_bit + 1)
  end.

#[global] Arguments first_clear_bit : simpl never.

(** The third loop, [while (bit_left-- > 0)]: [bit_left] more iterations. *)
Fixpoint scan_run (bit_left : nat) (btmp : bitmap) (cnt next_bit count : Z)
  : outcome Z :=
  match bit_left with
  | O => Ret (-1)
  | S bit_left =>
    t ← bitmap_scan_test btmp next_bit;
    let count := if t =? 0 then u32 (count + 1) else 0 in
    if count =? cnt then Ret (i32 (next_bit - cnt + 1))
    else scan_run bit_left btmp cnt (u32 (next_bit + 1)) count
  end.

Definition bitmap_scan (btmp : bitmap) (cnt : Z) : outcome Z :=
  let len := btmp_bytes_len btmp in
  idx_byte ← skip_full_bytes (Z.to_nat len + 1) btmp 0;
  _ ← assert_ (idx_byte <? len);
  if idx_byte =? len then Ret (-1) else
  x ← load (bits btmp) idx_byte;
  idx_bit ← first_clear_bit 9 x 0;
  let bit_idx_start := i32 (u32 (idx_byte * 8 + idx_bit)) in
  if cnt =? 1 then Ret bit_idx_start else
  let bit_left := u32 (len * 8 - bit_idx_start) in
  let next_bit := u32 (bit_idx_start + 1) in
  scan_run (Z.to_nat bit_left) btmp cnt next_bit 1.

Definition bitmap_set (btmp : bitmap) (bit_idx value : Z) : outcome bitmap :=
  _ ← assert_ ((value =? 0) || (value =? 1));
  let byte_idx := bit_idx / 8 in
  let bit_odd := bit_idx mod 8 in
  x ← load (bits btmp) byte_idx;
  let y := if value =? 0
           then u8 (Z.land x (Z.lnot (Z.shiftl BITMAP_MASK bit_odd)))
           else u8 (Z.lor x (Z.shiftl BITMAP_MASK bit_odd)) in
  bits' ← store (bits btmp) byte_idx y;
  Ret (Bitmap (btmp_bytes_len btmp) bits').

(** ** Abstract view: the bitmap as a function from indices to bits *)

Definition bit (btmp : bitmap) (i : Z) : bool :=
  match bits btmp !! Z.to_nat (i / 8) with
  | Some x => Z.testbit x (i mod 8)
  | None => false
  end.

(** [n] consecutive free bits from [i] on. *)
Definition free_run (btmp : bitmap) (i n : Z) : Prop :=
  ∀ k, i ≤ k < i + n → bit btmp k = false.

(** A well-formed bitmap: its bytes exist and its bit indices, with those of
    one byte behind it, fit an [int]. *)
Record wf_bitmap (btmp : bitmap) : Prop := {
  wf_len : 0 ≤ btmp_bytes_len btmp < 268435455;
  wf_bits : btmp_bytes_len btmp ≤ Z.of_nat (length (bits btmp));
  wf_bytes : Forall is_u8 (bits btmp)
}.

(** A bitmap behind which one more byte is readable. *)
Definition has_guard_byte (btmp : bitmap) : Prop :=
  btmp_bytes_len btmp < Z.of_nat (length (bits btmp)).

Create HintDb bitmap discriminated.

Lemma shiftl_1_testbit k m : 0 ≤ k → Z.testbit (Z.shiftl 1 k) m = (m =? k).
Proof.
  intros ?. rewrite Z.shiftl_1_l.
  destruct (Z.eqb_spec m k) as [->|]; [by apply Z.pow2_bits_true|].
  by apply Z.pow2_bits_false.
Qed.

Lemma land_mask x k :
  0 ≤ k → (Z.land x (Z.shiftl 1 k) =? 0) = negb (Z.testbit x k).
Proof.
  intros Hk. destruct (Z.testbit x k) eqn:E; cbn.
  - apply Z.eqb_neq. intros H.
    assert (Z.testbit (Z.land x (Z.shiftl 1 k)) k = true) as Ht
      by (by rewrite Z.land_spec, shiftl_1_testbit, E, Z.eqb_refl).
    by rewrite H, Z.bits_0 in Ht.
  - apply Z.eqb_eq. apply Z.bits_inj'. intros m Hm.
    rewrite Z.land_spec, shiftl_1_testbit, Z.bits_0 by done.
    destruct (Z.eqb_spec m k) as [->|]; [by rewrite E|]. by rewrite andb_false_r.
Qed.

Lemma u8_testbit x k : 0 ≤ k < 8 → Z.testbit (u8 x) k = Z.testbit x k.
Proof. intros ?. unfold u8. change 256 with (2 ^ 8). by rewrite Z.mod_pow2_bits_low by lia. Qed.

Lemma is_u8_testbit x k : is_u8 x → 8 ≤ k → Z.testbit x k = false.
Proof.
  intros Hx Hk. destruct (decide (x = 0)) as [->|]; [by rewrite Z.bits_0|].
  apply Z.bits_above_log2; [zlia|].
  apply Z.log2_lt_pow2; [zlia|]. apply Z.lt_le_trans with (2 ^ 8); [zlia|].
  by apply Z.pow_le_mono_r.
Qed.

(** The second loop on a byte other than 0xff, checked on the 255 bytes. *)
Lemma first_clear_bit_spec x :
  is_u8 x → x ≠ 255 → ∃ k, first_clear_bit 9 x 0 = Ret k ∧ 0 ≤ k < 8 ∧
    Z.testbit x k = false ∧ ∀ j, 0 ≤ j < k → Z.testbit x j = true.
Proof.
  intros Hx Hne.
  assert (forallb (λ v, match first_clear_bit 9 v 0 with
    | Ret k => (0 <=? k) && (k <? 8) && negb (Z.testbit v k) &&
               forallb (Z.testbit v) (seqZ 0 k)
    | _ => false end) (seqZ 0 255) = true) as H by (vm_compute; reflexivity).
  rewrite forallb_forall in H. specialize (H x).
  destruct (first_clear_bit 9 x 0) as [k| | |];
    [|by discriminate H; apply list_elem_of_In, elem_of_seqZ; zlia..].
  rewrite !andb_true_iff, negb_true_iff, forallb_forall in H.
  destruct H as [[[? ?] ?] Hj]; [apply list_elem_of_In, elem_of_seqZ; zlia|].
  exists k. split_and!; [done|lia|lia|done|].
  intros j ?. apply Hj, list_elem_of_In, elem_of_seqZ. lia.
Qed.

Section scan.
Context (btmp : bitmap) (Hwf : wf_bitmap btmp).
Let len := btmp_bytes_len btmp.

Lemma lookup_byte i :
  0 ≤ i < Z.of_nat (length (bits btmp)) →
  ∃ x, load (bits btmp) i = Ret x ∧ bits btmp !! Z.to_nat i = Some x ∧ is_u8 x.
Proof.
  intros Hi. destruct (load_in (bits btmp) i Hi) as [x Hx].
  apply load_Ret in Hx as Hx'. destruct Hx' as [_ Hx']. exists x.
  split_and!; [done..|]. by eapply Forall_lookup_1; [apply Hwf|].
Qed.

Lemma bitmap_scan_test_spec i :
  0 ≤ i < 8 * Z.of_nat (length (bits btmp)) →
  ∃ t, bitmap_scan_test btmp i = Ret t ∧ (t =? 0) = negb (bit btmp i).
Proof.
  intros Hi. destruct (lookup_byte (i / 8)) as (x & Hl & Hx & _); [zlia|].
  unfold bitmap_scan_test, bit. rewrite Hl, Hx. eexists. split; [done|].
  apply land_mask. zlia.
Qed.

(** All bits of the bytes before [idx] are set. *)
Definition full_before (idx : Z) : Prop := ∀ i, 0 ≤ i < 8 * idx → bit btmp i = true.

Lemma full_before_step idx :
  0 ≤ idx → bits btmp !! Z.to_nat idx = Some 255 →
  full_before idx → full_before (idx + 1).
Proof.
  intros Hidx Hx Hf i Hi. destruct (decide (i < 8 * idx)); [apply Hf; lia|].
  unfold bit. replace (i / 8) with idx by zlia. rewrite Hx.
  apply (Z.ones_spec_low 8). zlia.
Qed.

(** The first loop ends, at the first byte that is not 0xff or at the end;
    it stays inside the bitmap when a bit is free. *)
Lemma skip_full_bytes_spec fuel idx :
  has_guard_byte btmp ∨ (∃ i, 8 * idx ≤ i < 8 * len ∧ bit btmp i = false) →
  0 ≤ idx ≤ len → full_before idx → len - idx < Z.of_nat fuel →
  ∃ r, skip_full_bytes fuel btmp idx = Ret r ∧ idx ≤ r ≤ len ∧ full_before r ∧
    (r < len → ∃ x, load (bits btmp) r = Ret x ∧
       bits btmp !! Z.to_nat r = Some x ∧ is_u8 x ∧ x ≠ 255).
Proof.
  unfold has_guard_byte. fold len. pose proof (wf_bits _ Hwf) as Hlen. fold len in Hlen.
  revert idx. induction fuel as [|fuel IH]; intros idx Hg Hidx Hf Hfuel; [lia|].
  destruct (lookup_byte idx) as (x & Hl & Hx & Hu);
    [destruct Hg as [?|(i & ? & _)]; lia|].
  cbn. rewrite Hl. cbn. fold len.
  destruct (Z.eqb_spec 255 x) as [<-|Hne]; cbn.
  - destruct (Z.ltb_spec idx len); [|by exists idx; split_and!; [done|lia|lia|done|lia]].
    pose proof (wf_len _ Hwf). rewrite u32_id by (unfold is_u32; lia).
    pose proof (full_before_step idx ltac:(lia) Hx Hf) as Hf'.
    destruct (IH (idx + 1)) as (r & ? & ? & ? & ?); [|lia|done|lia|].
    + destruct Hg as [?|(i & ? & Hi)]; [by left|]. right. exists i. split; [|done].
      destruct (decide (i < 8 * (idx + 1))); [|lia].
      rewrite Hf' in Hi by lia. done.
    + exists r. split_and!; try done; lia.
  - exists idx. split_and!; [done|lia|lia|done|]. intros _. by exists x.
Qed.

(** The byte loop and the bit loop together: the first free bit. *)
Lemma scan_start_spec i :
  0 ≤ i < 8 * len → bit btmp i = false →
  ∃ r x k, skip_full_bytes (Z.to_nat len + 1) btmp 0 = Ret r ∧ 0 ≤ r < len ∧
    load (bits btmp) r = Ret x ∧ first_clear_bit 9 x 0 = Ret k ∧ 0 ≤ k < 8 ∧
    bit btmp (r * 8 + k) = false ∧ ∀ j, 0 ≤ j < r * 8 + k → bit btmp j = true.
Proof.
  intros Hi Hbit. pose proof (wf_len _ Hwf).
  destruct (skip_full_bytes_spec (Z.to_nat len + 1) 0) as (r & Hr & Hb & Hf & Hx);
    [by right; exists i; split; [lia|]|lia|by intros k ?; lia|lia|].
  assert (r < len) as Hlt.
  { destruct (decide (r = len)); [|lia]. rewrite Hf in Hbit by lia. done. }
  destruct (Hx Hlt) as (x & Hl & Hlk & Hu & Hne).
  destruct (first_clear_bit_spec x Hu Hne) as (k & Hk & ? & Hcl & Hset).
  exists r, x, k. split_and!; try done; try lia.
  - unfold bit. replace ((r * 8 + k) / 8) with r by zlia.
    rewrite Hlk. by replace ((r * 8 + k) mod 8) with k by zlia.
  - intros j Hj. destruct (decide (j < 8 * r)); [apply Hf; lia|].
    unfold bit. replace (j / 8) with r by zlia. rewrite Hlk. apply Hset. zlia.
Qed.

(** The third loop: every run that ends before [next] has been rejected and
    exactly [count] free bits end just before it; it returns the first run
    of [cnt] bits among those tested, or -1 when there is none. *)
Lemma scan_run_spec bit_left cnt next count :
  2 ≤ cnt → 0 ≤ count < cnt → 0 ≤ next - count →
  next + Z.of_nat bit_left ≤ 8 * Z.of_nat (length (bits btmp)) →
  next + Z.of_nat bit_left ≤ 2147483647 →
  free_run btmp (next - count) count →
  (next - count = 0 ∨ bit btmp (next - count - 1) = true) →
  (∀ j, 0 ≤ j → j + cnt ≤ next → ¬ free_run btmp j cnt) →
  ∃ r, scan_run bit_left btmp cnt next count = Ret r ∧
    ((r = -1 ∧ ∀ j, 0 ≤ j → j + cnt ≤ next + Z.of_nat bit_left →
        ¬ free_run btmp j cnt) ∨
     (0 ≤ r ∧ r + cnt ≤ next + Z.of_nat bit_left ∧ free_run btmp r cnt ∧
        ∀ j, 0 ≤ j < r → ¬ free_run btmp j cnt)).
Proof.
  intros Hcnt. revert next count.
  induction bit_left as [|n IH]; intros next count Hc Hs Hlen Hmax Hrun Hm Hno.
  { exists (-1). split; [done|left]. split; [done|]. intros j ??. apply Hno; lia. }
  destruct (bitmap_scan_test_spec next) as (t & Ht & Hb); [lia|].
  cbn. rewrite Ht. cbn. rewrite Hb.
  replace (next + Z.of_nat (S n)) with (next + 1 + Z.of_nat n) by lia.
  destruct (bit btmp next) eqn:Hbit; cbn.
  - destruct (Z.eqb_spec 0 cnt); [lia|]. rewrite u32_id by (unfold is_u32; lia).
    apply IH; [lia..|by intros k ?; lia| |].
    + right. by replace (next + 1 - 0 - 1) with next by lia.
    + intros j ?? Hfr. destruct (decide (j + cnt ≤ next)); [by apply (Hno j)|].
      specialize (Hfr next). rewrite Hbit in Hfr. discriminate Hfr. lia.
  - rewrite (u32_id (count + 1)) by (unfold is_u32; lia).
    assert (free_run btmp (next - count) (count + 1)) as Hrun'.
    { intros k ?. destruct (decide (k = next)) as [->|]; [done|]. apply Hrun. lia. }
    assert (∀ j, 0 ≤ j < next - count → j + cnt ≤ next + 1 → ¬ free_run btmp j cnt) as Hno'.
    { intros j ?? Hfr. destruct (decide (j + cnt ≤ next)); [apply (Hno j); [lia..|done]|].
      destruct Hm as [?|Hm]; [lia|].
      specialize (Hfr (next - count - 1)). rewrite Hm in Hfr. discriminate Hfr. lia. }
    destruct (Z.eqb_spec (count + 1) cnt) as [<-|Hne].
    + exists (next - count). rewrite i32_id by lia. split; [f_equal; lia|right].
      split_and!; [lia|lia|done|]. intros j ?. apply Hno'; lia.
    + rewrite u32_id by (unfold is_u32; lia).
      apply IH; [lia..| | |];
        try (replace (next + 1 - (count + 1)) with (next - count) by lia; done).
      intros j ??. apply Hno'; lia.
Qed.
End scan.

(** ** bitmap_scan *)

Section bitmap_scan.
Context (btmp : bitmap) (Hwf : wf_bitmap btmp).

Lemma bitmap_scan_one i :
  0 ≤ i < 8 * btmp_bytes_len btmp → bit btmp i = false →
  ∃ r, bitmap_scan btmp 1 = Ret r ∧ 0 ≤ r ≤ i ∧ bit btmp r = false ∧
    ∀ j, 0 ≤ j < r → bit btmp j = true.
Proof.
  intros Hi Hb. pose proof (wf_len _ Hwf).
  destruct (scan_start_spec btmp Hwf i Hi Hb) as (r & x & k & Hr & ? & Hl & Hk & ? & ? & Hset).
  exists (r * 8 + k). unfold bitmap_scan. rewrite Hr. cbn.
  destruct (Z.ltb_spec r (btmp_bytes_len btmp)); [|lia]. cbn.
  destruct (Z.eqb_spec r (btmp_bytes_len btmp)); [lia|].
  rewrite Hl. cbn. rewrite Hk. cbn.
  rewrite u32_id, i32_id by (unfold is_u32; lia).
  split_and!; try done; [lia|]. destruct (decide (r * 8 + k ≤ i)); [done|].
  rewrite Hset in Hb by lia. done.
Qed.

Lemma bitmap_scan_many cnt i :
  has_guard_byte btmp → 2 ≤ cnt → 0 ≤ i < 8 * btmp_bytes_len btmp → bit btmp i = false →
  ∃ r, bitmap_scan btmp cnt = Ret r ∧
    ((r = -1 ∧ ∀ j, 0 ≤ j → j + cnt ≤ 8 * btmp_bytes_len btmp + 1 →
        ¬ free_run btmp j cnt) ∨
     (0 ≤ r ∧ r + cnt ≤ 8 * btmp_bytes_len btmp + 1 ∧ free_run btmp r cnt ∧
        ∀ j, 0 ≤ j < r → ¬ free_run btmp j cnt)).
Proof.
  unfold has_guard_byte. intros Hg Hc Hi Hb. pose proof (wf_len _ Hwf).
  destruct (scan_start_spec btmp Hwf i Hi Hb) as (r & x & k & Hr & ? & Hl & Hk & ? & ? & Hset).
  unfold bitmap_scan. rewrite Hr. cbn.
  destruct (Z.ltb_spec r (btmp_bytes_len btmp)); [|lia]. cbn.
  destruct (Z.eqb_spec r (btmp_bytes_len btmp)); [lia|].
  rewrite Hl. cbn. rewrite Hk. cbn -[scan_run].
  destruct (Z.eqb_spec cnt 1); [lia|].
  rewrite (u32_id (r * 8 + k)), i32_id by (unfold is_u32; lia).
  rewrite !u32_id by (unfold is_u32; lia).
  replace (8 * btmp_bytes_len btmp + 1) with (r * 8 + k + 1 +
    Z.of_nat (Z.to_nat (btmp_bytes_len btmp * 8 - (r * 8 + k)))) by lia.
  apply scan_run_spec; [done|lia..| | |].
  - intros j ?. by replace j with (r * 8 + k) by lia.
  - destruct (decide (r * 8 + k = 0)); [left; lia|right]. apply Hset. lia.
  - intros j ?? Hfr. specialize (Hfr j). rewrite Hset in Hfr by lia.
    discriminate Hfr. lia.
Qed.

Lemma bitmap_scan_full cnt :
  has_guard_byte btmp → (∀ i, 0 ≤ i < 8 * btmp_bytes_len btmp → bit btmp i = true) →
  bitmap_scan btmp cnt = Panic.
Proof.
  intros Hg Hall. pose proof (wf_len _ Hwf).
  destruct (skip_full_bytes_spec btmp Hwf (Z.to_nat (btmp_bytes_len btmp) + 1) 0)
    as (r & Hr & Hb & Hf & Hx); [by left|lia|by intros k ?; lia|lia|].
  unfold bitmap_scan. rewrite Hr. cbn.
  destruct (Z.ltb_spec r (btmp_bytes_len btmp)) as [Hlt|]; [|done].
  destruct (Hx Hlt) as (x & Hl & Hlk & Hu & Hne).
  destruct (first_clear_bit_spec x Hu Hne) as (k & _ & ? & Hcl & _).
  specialize (Hall (r * 8 + k) ltac:(lia)). unfold bit in Hall.
  replace ((r * 8 + k) / 8) with r in Hall by zlia. rewrite Hlk in Hall.
  replace ((r * 8 + k) mod 8) with k in Hall by zlia. congruence.
Qed.
End bitmap_scan.

(** ** bitmap_set *)

Lemma bitmap_set_spec btmp i v :
  wf_bitmap btmp → 0 ≤ i < 8 * Z.of_nat (length (bits btmp)) → v = 0 ∨ v = 1 →
  ∃ btmp', bitmap_set btmp i v = Ret btmp' ∧ wf_bitmap btmp' ∧
    btmp_bytes_len btmp' = btmp_bytes_len btmp ∧
    length (bits btmp') = length (bits btmp) ∧
    ∀ j, 0 ≤ j → bit btmp' j = if decide (j = i) then v =? 1 else bit btmp j.
Proof.
  intros Hwf Hi Hv. destruct (lookup_byte btmp Hwf (i / 8)) as (x & Hl & Hx & Hu); [zlia|].
  unfold bitmap_set. replace ((v =? 0) || (v =? 1)) with true by (destruct Hv; subst; done).
  cbn. rewrite Hl. cbn. rewrite store_in by zlia. cbn.
  eexists. split; [done|]. cbn. rewrite length_insert.
  split_and!; [|done|done|].
  - destruct Hwf. split; cbn; [done|by rewrite length_insert|].
    apply Forall_insert; [done|]. case_match; apply u8_range.
  - intros j Hj. unfold bit. cbn.
    destruct (decide (j / 8 = i / 8)) as [Heq|Hne]; cycle 1.
    { rewrite list_lookup_insert_ne by zlia. case_decide; [|done]. by subst. }
    rewrite Heq, Hx. rewrite list_lookup_insert_eq by (apply lookup_lt_is_Some; eauto).
    assert (0 ≤ j mod 8 < 8) as Hm by zlia.
    destruct Hv as [-> | ->]; rewrite ?Z.eqb_refl;
      change (1 =? 0) with false; change (0 =? 1) with false; cbn;
      rewrite u8_testbit by done;
      rewrite ?Z.land_spec, ?Z.lor_spec, ?Z.lnot_spec by lia;
      rewrite shiftl_1_testbit by zlia;
      case_decide as Hd; try subst j; try rewrite Z.eqb_refl; cbn;
      rewrite ?andb_false_r, ?orb_true_r; try done;
      (destruct (Z.eqb_spec (j mod 8) (i mod 8)) as [E|]; [exfalso; apply Hd; zlia|]);
      cbn; rewrite ?andb_true_r, ?orb_false_r; done.
Qed.

(** ** Properties *)

(** C32: [bitmap_scan] returns for every request of [cnt >= 1] bits on a
    bitmap with a free bit, and its answer is first fit over the [8 * length]
    bits of the bitmap and the one bit behind them, which the scan tests too: it
    is the lowest index from which [cnt] of these bits are free one after the
    other, or -1 exactly when there is no such run. The run is inside the bitmap
    for a single bit and whenever the bit behind the bitmap is set. *)
Theorem bitmap_scan_correct btmp cnt i :
  wf_bitmap btmp → has_guard_byte btmp → 1 ≤ cnt →
  0 ≤ i < 8 * btmp_bytes_len btmp → bit btmp i = false →
  ∃ r, bitmap_scan btmp cnt = Ret r ∧
    ((r = -1 ∧ ∀ j, 0 ≤ j → j + cnt ≤ 8 * btmp_bytes_len btmp + 1 →
        ¬ free_run btmp j cnt) ∨
     (0 ≤ r ∧ r + cnt ≤ 8 * btmp_bytes_len btmp + 1 ∧ free_run btmp r cnt ∧
        ∀ j, 0 ≤ j < r → ¬ free_run btmp j cnt)) ∧
    (r ≠ -1 → cnt = 1 ∨ bit btmp (8 * btmp_bytes_len btmp) = true → r + cnt ≤ 8 * btmp_bytes_len btmp).
Proof.
  intros Hwf Hg Hc Hi Hb. destruct (decide (cnt = 1)) as [->|].
  - destruct (bitmap_scan_one btmp Hwf i Hi Hb) as (r & Hr & ? & Hf & Hs).
    exists r. split; [done|]. split; [right|lia]. split_and!; [lia|lia| |].
    + intros k ?. by replace k with r by lia.
    + intros j Hj Hfr. specialize (Hfr j ltac:(lia)). by rewrite Hs in Hfr.
  - destruct (bitmap_scan_many btmp Hwf cnt i) as (r & Hr & Hres); [done || lia..|].
    exists r. split; [done|]. split; [done|]. intros Hne [?|Hset]; [lia|].
    destruct Hres as [[? _]|(Hr0 & Hle & Hfr & _)]; [done|].
    destruct (decide (r + cnt = 8 * btmp_bytes_len btmp + 1)) as [He|]; [|lia].
    by rewrite Hfr in Hset by lia.
Qed.

Definition ex_bitmap : bitmap := Bitmap 2 [0xf7; 0x0e; 0xff].

Lemma ex_bitmap_wf : wf_bitmap ex_bitmap ∧ has_guard_byte ex_bitmap.
Proof.
  split; [split; cbn; [lia|lia|by repeat constructor; unfold is_u8; lia]|].
  unfold has_guard_byte. cbn. lia.
Defined.

Lemma bitmap_scan_correct_witness :
  ∃ r, bitmap_scan ex_bitmap 4 = Ret r ∧
    ((r = -1 ∧ ∀ j, 0 ≤ j → j + 4 ≤ 8 * 2 + 1 → ¬ free_run ex_bitmap j 4) ∨
     (0 ≤ r ∧ r + 4 ≤ 8 * 2 + 1 ∧ free_run ex_bitmap r 4 ∧
        ∀ j, 0 ≤ j < r → ¬ free_run ex_bitmap j 4)) ∧ r + 4 ≤ 16.
Proof.
  destruct ex_bitmap_wf as [Hw Hg].
  destruct (bitmap_scan_correct ex_bitmap 4 3) as (r & Hr & Hc & Hin); [done|done|lia|cbn; lia|reflexivity|].
  exists r. split; [exact Hr|]. split; [exact Hc|]. assert (r = 12) as -> by (vm_compute in Hr; by injection Hr). lia.
Defined.

Example bitmap_scan_ex : bitmap_scan ex_bitmap 4 = Ret 12.
Proof. reflexivity. Qed.

(** [bitmap_set] on an index inside the bytes with value 0 or 1 changes
    exactly that bit and keeps the bitmap well formed; any other value stops
    in [ASSERT]. *)
Theorem bitmap_set_correct btmp i v :
  wf_bitmap btmp → 0 ≤ i < 8 * Z.of_nat (length (bits btmp)) →
  if (v =? 0) || (v =? 1) then
    ∃ btmp', bitmap_set btmp i v = Ret btmp' ∧ wf_bitmap btmp' ∧
      btmp_bytes_len btmp' = btmp_bytes_len btmp ∧
      ∀ j, 0 ≤ j → bit btmp' j = if decide (j = i) then v =? 1 else bit btmp j
  else bitmap_set btmp i v = Panic.
Proof.
  intros Hwf Hi. destruct ((v =? 0) || (v =? 1)) eqn:Hv.
  - destruct (bitmap_set_spec btmp i v Hwf Hi) as (b' & ? & ? & ? & _ & ?);
      [apply orb_true_iff in Hv; lia|]. by exists b'.
  - unfold bitmap_set. by rewrite Hv.
Qed.

Lemma bitmap_set_correct_witness :
  ∃ btmp', bitmap_set ex_bitmap 3 1 = Ret btmp' ∧ wf_bitmap btmp' ∧
    btmp_bytes_len btmp' = 2 ∧
    ∀ j, 0 ≤ j → bit btmp' j = if decide (j = 3) then true else bit ex_bitmap j.
Proof.
  apply (bitmap_set_correct ex_bitmap 3 1 (proj1 ex_bitmap_wf)). cbn. lia.
Defined.

(** On a full bitmap [bitmap_scan] never returns -1: the assertion that
    precedes the test for exhaustion stops the kernel. *)
Theorem bitmap_scan_full_panics btmp cnt :
  wf_bitmap btmp → has_guard_byte btmp →
  (∀ i, 0 ≤ i < 8 * btmp_bytes_len btmp → bit btmp i = true) →
  bitmap_scan btmp cnt = Panic.
Proof. intros Hwf. by apply bitmap_scan_full. Qed.

Lemma bitmap_scan_full_panics_witness : bitmap_scan (Bitmap 1 [0xff; 0]) 1 = Panic.
Proof.
  apply (bitmap_scan_full_panics (Bitmap 1 [0xff; 0]) 1).
  - split; cbn; [lia|lia|by repeat constructor; unfold is_u8; lia].
  - unfold has_guard_byte. cbn. lia.
  - cbn. intros i Hi.
    assert (i = 0 ∨ i = 1 ∨ i = 2 ∨ i = 3 ∨ i = 4 ∨ i = 5 ∨ i = 6 ∨ i = 7) as Hc by lia.
    repeat destruct Hc as [->|Hc]; try reflexivity. by subst.
Defined.

(** The scan tests one bit too many: when only the last bit of the bitmap
    is free and the bit behind the bitmap is clear, a request for two bits
    succeeds with a run whose second bit is not in the bitmap. *)
Theorem bitmap_scan_overrun btmp :
  wf_bitmap btmp → has_guard_byte btmp → 1 ≤ btmp_bytes_len btmp →
  (∀ i, 0 ≤ i < 8 * btmp_bytes_len btmp - 1 → bit btmp i = true) →
  free_run btmp (8 * btmp_bytes_len btmp - 1) 2 →
  bitmap_scan btmp 2 = Ret (8 * btmp_bytes_len btmp - 1).
Proof.
  intros Hwf Hg Hl Hset Hfr.
  destruct (bitmap_scan_many btmp Hwf 2 (8 * btmp_bytes_len btmp - 1) Hg)
    as (r & Hr & [[-> Hno]|(? & ? & Hfr' & Hmin)]); [lia|lia|apply Hfr; lia| |].
  - exfalso. apply (Hno (8 * btmp_bytes_len btmp - 1)); [lia..|done].
  - rewrite Hr. f_equal. destruct (decide (r < 8 * btmp_bytes_len btmp - 1)); [|lia].
    specialize (Hfr' r ltac:(lia)). rewrite Hset in Hfr' by lia. done.
Qed.

Lemma bitmap_scan_overrun_witness : bitmap_scan (Bitmap 1 [0x7f; 0]) 2 = Ret 7.
Proof.
  apply (bitmap_scan_overrun (Bitmap 1 [0x7f; 0])); cbn.
  - split; cbn; [lia|lia|by repeat constructor; unfold is_u8; lia].
  - unfold has_guard_byte. cbn. lia.
  - lia.
  - intros i Hi.
    assert (i = 0 ∨ i = 1 ∨ i = 2 ∨ i = 3 ∨ i = 4 ∨ i = 5 ∨ i = 6) as Hc by lia.
    repeat destruct Hc as [->|Hc]; try reflexivity. by subst.
  - intros k Hk. assert (k = 7 ∨ k = 8) as [->| ->] by lia; reflexivity.
Defined.
