(* ===== verification/Interrupt.v ===== *)
(** * Interrupts (kernel/interrupt.c, kernel/interrupt.h)

    The interrupt flag of [eflags] and the four functions that read, set and
    restore it; the interrupt descriptor table and its handlers. *)

From Stdlib Require Import ZArith Lia.
From stdpp Require Import base numbers list strings.
From S2P Require Import Prelude.

(** ** The interrupt flag *)

Inductive intr_status := INTR_OFF | INTR_ON.

#[global] Instance intr_status_eq_dec : EqDecision intr_status.
Proof. solve_decision. Defined.

Definition EFLAGS_IF : Z := 0x200.

(** The [sti] and [cli] instructions. *)
Definition sti : M Z unit := modify (λ eflags, Z.lor eflags EFLAGS_IF).
Definition cli : M Z unit := modify (λ eflags, Z.land eflags (Z.lnot EFLAGS_IF)).

Definition intr_get_status : M Z intr_status :=
  eflags ← gets (λ e, e);
  mret (if Z.land EFLAGS_IF eflags =? 0 then INTR_OFF else INTR_ON).

Definition intr_enable : M Z intr_status :=
  st ← intr_get_status;
  match st with
  | INTR_ON => mret INTR_ON
  | INTR_OFF => _ ← sti; mret INTR_OFF
  end.

Definition intr_disable : M Z intr_status :=
  st ← intr_get_status;
  match st with
  | INTR_ON => _ ← cli; mret INTR_ON
  | INTR_OFF => mret INTR_OFF
  end.

(** [status & INTR_ON ? intr_enable() : intr_disable()] *)
Definition intr_set_status (status : intr_status) : M Z intr_status :=
  match status with
  | INTR_ON => intr_enable
  | INTR_OFF => intr_disable
  end.

Definition if_on (eflags : Z) : bool := Z.testbit eflags 9.

Lemma status_if eflags :
  (if Z.land EFLAGS_IF eflags =? 0 then INTR_OFF else INTR_ON) =
  if if_on eflags then INTR_ON else INTR_OFF.
Proof.
  unfold if_on, EFLAGS_IF. rewrite Z.land_comm. change 0x200 with (2 ^ 9).
  destruct (Z.testbit eflags 9) eqn:E.
  - destruct (Z.eqb_spec (Z.land eflags (2 ^ 9)) 0) as [H|]; [|done].
    assert (Z.testbit (Z.land eflags (2 ^ 9)) 9 = true) as Ht
      by (by rewrite Z.land_spec, E).
    by rewrite H, Z.bits_0 in Ht.
  - destruct (Z.eqb_spec (Z.land eflags (2 ^ 9)) 0) as [|H]; [done|]. exfalso. apply H.
    apply Z.bits_inj'. intros m Hm. rewrite Z.land_spec, Z.bits_0.
    destruct (decide (m = 9)) as [->|]; [by rewrite E|].
    rewrite Z.pow2_bits_false by lia. apply andb_false_r.
Qed.

Definition cli_flags (eflags : Z) : Z := Z.land eflags (Z.lnot EFLAGS_IF).

Lemma intr_disable_eq eflags :
  intr_disable eflags =
  if if_on eflags then Ret (INTR_ON, cli_flags eflags) else Ret (INTR_OFF, eflags).
Proof.
  unfold intr_disable, intr_get_status. mstep. rewrite status_if.
  by destruct (if_on eflags).
Qed.

Lemma if_on_cli eflags : if_on (cli_flags eflags) = false.
Proof. unfold if_on, cli_flags. by rewrite Z.land_spec, andb_false_r. Qed.

Lemma cli_sti eflags :
  if_on eflags = true → Z.lor (cli_flags eflags) EFLAGS_IF = eflags.
Proof.
  unfold if_on, cli_flags. intros Hif. apply Z.bits_inj'. intros m Hm.
  unfold EFLAGS_IF. change 0x200 with (2 ^ 9).
  rewrite Z.lor_spec, Z.land_spec, Z.lnot_spec by done.
  destruct (decide (m = 9)) as [->|]; [by rewrite Hif|].
  rewrite Z.pow2_bits_false by lia. cbn. by rewrite andb_true_r, orb_false_r.
Qed.

(** Saving the status, disabling and restoring, around code that runs with
    interrupts off and leaves the flag alone. *)
Lemma intr_restore eflags :
  ∃ old eflags', intr_disable eflags = Ret (old, eflags') ∧ if_on eflags' = false ∧
    ∃ r, intr_set_status old eflags' = Ret (r, eflags).
Proof.
  rewrite intr_disable_eq. destruct (if_on eflags) eqn:E.
  - exists INTR_ON, (cli_flags eflags). split_and!; [done|apply if_on_cli|].
    eexists. unfold intr_set_status, intr_enable, intr_get_status. mstep.
    rewrite status_if, if_on_cli. unfold sti. mstep. by rewrite cli_sti.
  - exists INTR_OFF, eflags. split_and!; [done|done|]. exists INTR_OFF. cbn.
    by rewrite intr_disable_eq, E.
Qed.

(** ** The interrupt descriptor table *)

Record gate_desc := GateDesc {
  func_offset_low_word : Z;
  selector : Z;
  dcount : Z;
  attribute : Z;
  func_offset_high_word : Z
}.

(** kernel/global.h *)
Definition SELECTOR_K_CODE : Z := Z.shiftl 1 3 + Z.shiftl 0 2 + 0.
Definition IDT_DESC_ATTR_DPL0 : Z := Z.shiftl 1 7 + Z.shiftl 0 5 + 0xE.
Definition IDT_DESC_ATTR_DPL3 : Z := Z.shiftl 1 7 + Z.shiftl 3 5 + 0xE.
Definition IDT_DESC_CNT : Z := 0x81.

Definition make_idt_desc (attr function : Z) : gate_desc := {|
  func_offset_low_word := u16 (Z.land function 0x0000FFFF);
  selector := u16 SELECTOR_K_CODE;
  dcount := 0;
  attribute := u8 attr;
  func_offset_high_word := u16 (Z.shiftr (Z.land function 0xFFFF0000) 16)
|}.

(** [for (i = 0; i < IDT_DESC_CNT; i++) make_idt_desc(&idt[i], ...)] from
    index [i] on, [n] iterations left. *)
Fixpoint idt_fill (n : nat) (i : Z) (intr_entry_table : list Z) (idt : list gate_desc)
  : outcome (list gate_desc) :=
  match n with
  | O => Ret idt
  | S n =>
    f ← load intr_entry_table i;
    idt ← store idt i (make_idt_desc IDT_DESC_ATTR_DPL0 f);
    idt_fill n (i + 1) intr_entry_table idt
  end.

(** [intr_entry_table] and [syscall_handler] are the entry addresses that
    kernel/kernel.S defines. *)
Definition idt_desc_init (intr_entry_table : list Z) (syscall_handler : Z)
    (idt : list gate_desc) : outcome (list gate_desc) :=
  let lastindex := IDT_DESC_CNT - 1 in
  idt ← idt_fill (Z.to_nat IDT_DESC_CNT) 0 intr_entry_table idt;
  store idt lastindex (make_idt_desc IDT_DESC_ATTR_DPL3 syscall_handler).

(** The address the processor jumps to through a gate, and the lowest
    privilege level from which [int n] may use it. *)
Definition gate_offset (g : gate_desc) : Z :=
  Z.lor (Z.shiftl (func_offset_high_word g) 16) (func_offset_low_word g).
Definition gate_dpl (g : gate_desc) : Z := Z.land (Z.shiftr (attribute g) 5) 3.

Lemma offset_split f :
  is_u32 f →
  u16 (Z.land f 0x0000FFFF) = f mod 65536 ∧
  u16 (Z.shiftr (Z.land f 0xFFFF0000) 16) = f / 65536.
Proof.
  intros Hf. change 0x0000FFFF with (Z.ones 16). rewrite Z.land_ones by done.
  rewrite Z.shiftr_land. change (Z.shiftr 0xFFFF0000 16) with (Z.ones 16).
  rewrite Z.land_ones, Z.shiftr_div_pow2 by done.
  change (2 ^ 16) with 65536. split; zlia.
Qed.

Lemma make_idt_desc_offset attr f :
  is_u32 f → gate_offset (make_idt_desc attr f) = f.
Proof.
  intros Hf. unfold gate_offset. cbn. destruct (offset_split f Hf) as [-> ->].
  apply Z.bits_inj'. intros m Hm. rewrite Z.lor_spec.
  change 65536 with (2 ^ 16).
  destruct (decide (m < 16)).
  - rewrite Z.shiftl_spec_low, Z.mod_pow2_bits_low by lia. done.
  - rewrite Z.shiftl_spec_high, Z.mod_pow2_bits_high by lia.
    rewrite Z.div_pow2_bits, orb_false_r by lia. f_equal. lia.
Qed.

Lemma idt_fill_spec n i table idt :
  0 ≤ i → i + Z.of_nat n ≤ Z.of_nat (length table) →
  i + Z.of_nat n ≤ Z.of_nat (length idt) →
  ∃ idt', idt_fill n i table idt = Ret idt' ∧ length idt' = length idt ∧
    ∀ k : nat, idt' !! k =
      if decide (i ≤ Z.of_nat k < i + Z.of_nat n)
      then make_idt_desc IDT_DESC_ATTR_DPL0 <$> table !! k else idt !! k.
Proof.
  revert i idt. induction n as [|n IH]; intros i idt Hi Ht Hl.
  - exists idt. split_and!; [done|done|]. intros k. rewrite decide_False; [done|lia].
  - cbn. destruct (load_in table i) as [f Hf]; [lia|]. rewrite Hf. cbn.
    rewrite store_in by lia. cbn.
    destruct (IH (i + 1) (<[Z.to_nat i:=make_idt_desc IDT_DESC_ATTR_DPL0 f]> idt))
      as (idt' & -> & Hlen & Hk); [lia|lia|rewrite length_insert; lia|].
    exists idt'. split_and!; [done|by rewrite Hlen, length_insert|].
    intros k. rewrite Hk. apply load_Ret in Hf as [_ Hf].
    destruct (decide (Z.of_nat k = i)) as [Heq|Hne].
    + subst i. rewrite decide_False, decide_True by lia.
      rewrite Nat2Z.id in *. rewrite list_lookup_insert_eq by lia. by rewrite Hf.
    + rewrite list_lookup_insert_ne by lia.
      destruct (decide (i + 1 ≤ Z.of_nat k < i + 1 + Z.of_nat n));
        [rewrite decide_True by lia|rewrite decide_False by lia]; done.
Qed.

(** ** Handlers *)

(** [idt_table] holds, per vector, the C handler that the entry code calls;
    the names are printed by the general handler. *)
Inductive handler :=
  | general_intr_handler
  | intr_timer_handler
  | intr_keyboard_handler
  | intr_hd_handler.

#[global] Instance handler_eq_dec : EqDecision handler.
Proof. solve_decision. Defined.

Definition exception_names : list (nat * string) :=
  [(0, "#DE Divide Error"); (1, "#DB Debug Exception"); (2, "NMI Interrupt");
   (3, "#BP Breakpoint Exception"); (4, "#OF Overflow Exception");
   (5, "#BR BOUND Range Exceeded Exception"); (6, "#UD Invalid Opcode Exception");
   (7, "#NM Device Not Available Exception"); (8, "#DF Double Fault Exception");
   (9, "Coprocessor Segment Overrun"); (10, "#TS Invalid TSS Exception");
   (11, "#NP Segment Not Present"); (12, "#SS Stack Fault Exception");
   (13, "#GP General Protection Exception"); (14, "#PF Page-Fault Exception");
   (16, "#MF x87 FPU Floating-Point Error"); (17, "#AC Alignment Check Exception");
   (18, "#MC Machine-Check Exception"); (19, "#XF SIMD Floating-Point Exception")]%nat.

Definition exception_init : list handler * list string :=
  let n := Z.to_nat IDT_DESC_CNT in
  (replicate n general_intr_handler,
   foldl (λ names '(i, s), <[i := s]> names) (replicate n "unknown") exception_names).

Definition register_handler (idt_table : list handler) (vector_no : Z) (function : handler)
  : outcome (list handler) := store idt_table (u8 vector_no) function.

(** What [general_intr_handler] does with a vector: it returns on the two
    spurious vectors and otherwise prints the exception and loops for ever. *)
Definition general_intr (intr_name : list string) (vec_nr : Z) : outcome unit :=
  if (vec_nr =? 0x27) || (vec_nr =? 0x2f) then Ret ()
  else _ ← load intr_name vec_nr; Spin.

(** ** Properties *)

(** Disabling interrupts and restoring the saved status, the bracket of
    every critical section of the kernel, runs the section with interrupts
    off and gives back exactly the [eflags] it started from. *)
Theorem intr_bracket {A} (body : M Z A) a eflags :
  (∀ e, body e = Ret (a, e)) →
  (old ← intr_disable; x ← body; st ← intr_get_status; _ ← intr_set_status old; mret (x, st))
    eflags = Ret ((a, INTR_OFF), eflags).
Proof.
  intros Hb. destruct (intr_restore eflags) as (old & e' & Hd & Hoff & r & Hr).
  rewrite (M_bind_Ret _ _ _ _ _ Hd), (M_bind_Ret _ _ _ _ _ (Hb e')).
  unfold intr_get_status at 1. mstep. rewrite status_if, Hoff.
  by rewrite (M_bind_Ret _ _ _ _ _ Hr).
Qed.

Lemma intr_bracket_witness :
  (old ← intr_disable; x ← (mret 7 : M Z Z); st ← intr_get_status;
   _ ← intr_set_status old; mret (x, st)) 0x202 = Ret ((7, INTR_OFF), 0x202).
Proof. apply (intr_bracket (mret 7) 7 0x202). reflexivity. Defined.

(** With an entry table that has an address for every vector,
    [idt_desc_init] fills all 0x81 gates; every gate leads to the address
    it was made from, and vector 0x80, the system call, is the only one that
    ring 3 may raise with [int]. *)
Theorem idt_desc_init_correct table syscall_handler idt :
  length table = Z.to_nat IDT_DESC_CNT → length idt = Z.to_nat IDT_DESC_CNT →
  Forall is_u32 table → is_u32 syscall_handler →
  ∃ idt', idt_desc_init table syscall_handler idt = Ret idt' ∧
    length idt' = Z.to_nat IDT_DESC_CNT ∧
    ∀ k g, idt' !! k = Some g →
      (gate_dpl g = 3 ↔ k = Z.to_nat 0x80) ∧
      (if decide (k = Z.to_nat 0x80) then gate_offset g = syscall_handler
       else table !! k = Some (gate_offset g)).
Proof.
  intros Ht Hl Hu Hs.
  destruct (idt_fill_spec (Z.to_nat IDT_DESC_CNT) 0 table idt) as (d & Hd & Hlen & Hk);
    [lia|rewrite Ht; vm_compute; discriminate|rewrite Hl; vm_compute; discriminate|].
  unfold idt_desc_init. rewrite Hd. cbn.
  rewrite store_in by (rewrite Hlen, Hl; vm_compute; split; done || discriminate).
  eexists. split; [done|]. rewrite length_insert. split; [congruence|].
  intros k g Hg. destruct (decide (k = Z.to_nat 0x80)) as [->|Hne].
  - rewrite list_lookup_insert_eq in Hg by (rewrite Hlen, Hl; vm_compute; lia).
    injection Hg as <-. split; [split; done|by apply make_idt_desc_offset].
  - rewrite list_lookup_insert_ne in Hg by (by intros <-).
    rewrite Hk in Hg. case_decide; cycle 1.
    { apply lookup_lt_Some in Hg. rewrite Hl in Hg. unfold IDT_DESC_CNT in *. lia. }
    apply fmap_Some in Hg as (f & Hf & ->). split; [split; [done|by intros ->]|].
    rewrite make_idt_desc_offset; [done|]. by eapply Forall_lookup_1.
Qed.

Definition ex_gate : gate_desc := make_idt_desc 0 0.

Lemma idt_desc_init_correct_witness :
  ∃ idt', idt_desc_init (replicate 129 0xc0001500) 0xc0001600 (replicate 129 ex_gate) = Ret idt' ∧
    length idt' = 129%nat ∧
    ∀ k g, idt' !! k = Some g →
      (gate_dpl g = 3 ↔ k = 128%nat) ∧
      (if decide (k = 128%nat) then gate_offset g = 0xc0001600
       else replicate 129 0xc0001500 !! k = Some (gate_offset g)).
Proof.
  apply (idt_desc_init_correct (replicate 129 0xc0001500) 0xc0001600 (replicate 129 ex_gate)).
  - reflexivity.
  - reflexivity.
  - apply Forall_replicate. unfold is_u32. lia.
  - unfold is_u32. lia.
Defined.

(** Kernel.S defines entries for the vectors 0 .. 0x2f only; on a table of
    that size the loop of [idt_desc_init] reads past the end of it. *)
Theorem idt_desc_init_short_table table syscall_handler idt :
  length table = 48%nat → length idt = Z.to_nat IDT_DESC_CNT →
  idt_desc_init table syscall_handler idt = Fault.
Proof.
  intros Ht Hl.
  assert (∀ n i idt, 0 ≤ i ≤ 48 → 48 < i + Z.of_nat n →
    i + Z.of_nat n ≤ Z.of_nat (length idt) →
    idt_fill n i table idt = Fault) as Hfill; cycle 1.
  { unfold idt_desc_init. rewrite Hfill; [done|lia|vm_compute; done|].
    rewrite Hl. vm_compute. discriminate. }
  clear idt Hl. induction n as [|n IH]; intros i idt Hi Hn Hl; [lia|]. cbn.
  destruct (decide (i = 48)) as [->|].
  - by rewrite load_out by (rewrite Ht; lia).
  - destruct (load_in table i) as [f ->]; [rewrite Ht; lia|]. cbn.
    rewrite store_in by lia. cbn. apply IH; [lia|lia|rewrite length_insert; lia].
Qed.

Lemma idt_desc_init_short_table_witness :
  idt_desc_init (replicate 48 0xc0001500) 0xc0001600 (replicate 129 ex_gate) = Fault.
Proof. apply idt_desc_init_short_table; reflexivity. Defined.
