(* ===== verification/DList.v ===== *)
(** * Doubly linked lists (lib/kernel/list.c, lib/kernel/list.h)

    The list nodes are a shared store: [nodes] maps the address of every
    [struct list_elem] object to its two pointers, so aliasing between lists
    is visible and an access to an address that holds no node (NULL too) is a
    [Fault]. A [struct list] at address [l] has its [head] node at [l] and its
    [tail] node at [l + 8]. Loops over a list take at most as many steps as
    there are nodes. *)

From Stdlib Require Import ZArith Lia.
From stdpp Require Import base numbers list gmap.
From S2P Require Import Prelude Interrupt.

Record list_elem := Elem { prev : Z; next : Z }.

Record lstate := LState {
  l_eflags : Z;
  nodes : gmap Z list_elem
}.

Definition NULL : Z := 0.
Definition head (plist : Z) : Z := plist.
Definition tail (plist : Z) : Z := plist + 8.

Definition eflags_lens : lens lstate Z :=
  Lens l_eflags (λ e s, LState e (nodes s)).

(** ** Reading and writing the fields of a node *)

Definition get_elem (p : Z) : M lstate list_elem := λ s,
  match nodes s !! p with
  | Some e => Ret (e, s)
  | None => Fault
  end.
Definition put_elem (p : Z) (e : list_elem) : M lstate unit := λ s,
  match nodes s !! p with
  | Some _ => Ret ((), LState (l_eflags s) (<[p := e]> (nodes s)))
  | None => Fault
  end.
Definition get_prev (p : Z) : M lstate Z := e ← get_elem p; mret (prev e).
Definition get_next (p : Z) : M lstate Z := e ← get_elem p; mret (next e).
Definition set_prev (p v : Z) : M lstate unit :=
  e ← get_elem p; put_elem p (Elem v (next e)).
Definition set_next (p v : Z) : M lstate unit :=
  e ← get_elem p; put_elem p (Elem (prev e) v).

(** ** The operations *)

Definition list_init (list : Z) : M lstate unit :=
  _ ← set_prev (head list) NULL;
  _ ← set_next (head list) (tail list);
  _ ← set_prev (tail list) (head list);
  set_next (tail list) NULL.

Definition list_insert_before (before elem : Z) : M lstate unit :=
  old_status ← zoom eflags_lens intr_disable;
  p ← get_prev before;
  _ ← set_next p elem;
  p ← get_prev before;
  _ ← set_prev elem p;
  _ ← set_next elem before;
  _ ← set_prev before elem;
  _ ← zoom eflags_lens (intr_set_status old_status);
  mret ().

Definition list_push (plist elem : Z) : M lstate unit :=
  n ← get_next (head plist);
  list_insert_before n elem.

Definition list_append (plist elem : Z) : M lstate unit :=
  list_insert_before (tail plist) elem.

Definition list_remove (pelem : Z) : M lstate unit :=
  old_status ← zoom eflags_lens intr_disable;
  p ← get_prev pelem;
  n ← get_next pelem;
  _ ← set_next p n;
  n ← get_next pelem;
  p ← get_prev pelem;
  _ ← set_prev n p;
  _ ← zoom eflags_lens (intr_set_status old_status);
  mret ().

Definition list_pop (plist : Z) : M lstate Z :=
  elem ← get_next (head plist);
  _ ← list_remove elem;
  mret elem.

Definition list_empty (plist : Z) : M lstate bool :=
  n ← get_next (head plist);
  mret (n =? tail plist).

Fixpoint elem_find_loop (fuel : nat) (plist obj_elem elem : Z) : M lstate bool :=
  match fuel with
  | O => λ _, Spin
  | S fuel =>
    if elem =? tail plist then mret false
    else if elem =? obj_elem then mret true
    else n ← get_next elem; elem_find_loop fuel plist obj_elem n
  end.

Definition elem_find (plist obj_elem : Z) : M lstate bool :=
  elem ← get_next (head plist);
  fuel ← gets (λ s, size (nodes s));
  elem_find_loop fuel plist obj_elem elem.

(** The callback of [list_traversal]: it may change the state. *)
Fixpoint list_traversal_loop (fuel : nat) (plist : Z) (func : Z → Z → M lstate bool)
    (arg elem : Z) : M lstate Z :=
  match fuel with
  | O => λ _, Spin
  | S fuel =>
    if elem =? tail plist then mret NULL
    else b ← func elem arg;
      if (b : bool) then mret elem
      else n ← get_next elem; list_traversal_loop fuel plist func arg n
  end.

Definition list_traversal (plist : Z) (func : Z → Z → M lstate bool) (arg : Z) : M lstate Z :=
  elem ← get_next (head plist);
  e ← list_empty plist;
  if (e : bool) then mret NULL else
  fuel ← gets (λ s, size (nodes s));
  list_traversal_loop fuel plist func arg elem.

Fixpoint list_len_loop (fuel : nat) (plist elem length : Z) : M lstate Z :=
  match fuel with
  | O => λ _, Spin
  | S fuel =>
    if elem =? tail plist then mret length
    else n ← get_next elem; list_len_loop fuel plist n (u32 (length + 1))
  end.

Definition list_len (plist : Z) : M lstate Z :=
  elem ← get_next (head plist);
  fuel ← gets (λ s, size (nodes s));
  list_len_loop fuel plist elem 0.

(** ** Abstract lists

    [dseg h pp xs qn]: the nodes [xs] are linked in order, the first has
    [pp] as its predecessor and the last [qn] as its successor. *)
Fixpoint dseg (h : gmap Z list_elem) (pp : Z) (xs : list Z) (qn : Z) : Prop :=
  match xs with
  | [] => True
  | x :: xs => h !! x = Some (Elem pp (hd qn xs)) ∧ dseg h x xs qn
  end.

Definition chain (l : Z) (xs : list Z) : list Z := head l :: xs ++ [tail l].

(** The store [h] holds at [l] a list with the elements [xs]. *)
Record is_list (h : gmap Z list_elem) (l : Z) (xs : list Z) : Prop := {
  il_nodup : NoDup (chain l xs);
  il_seg : dseg h NULL (chain l xs) NULL
}.

Lemma dseg_app h pp xs ys qn :
  dseg h pp (xs ++ ys) qn ↔
  dseg h pp xs (hd qn ys) ∧ dseg h (List.last xs pp) ys qn.
Proof.
  revert pp. induction xs as [|x xs IH]; intros pp; cbn; [tauto|].
  rewrite IH. destruct xs as [|y xs]; cbn; [tauto|].
  assert (∀ d d', List.last (y :: xs) d = List.last (y :: xs) d') as Hlast.
  { clear. revert y. induction xs as [|z xs IH]; intros y d d'; [done|]. apply IH. }
  pose proof (Hlast x pp) as Hl. cbn in Hl. rewrite Hl. tauto.
Qed.

Lemma dseg_frame h h' pp xs qn :
  (∀ x, x ∈ xs → h' !! x = h !! x) → dseg h pp xs qn → dseg h' pp xs qn.
Proof.
  revert pp. induction xs as [|x xs IH]; intros pp Hf; cbn; [done|].
  intros [Hx Hs]. rewrite Hf by left. split; [done|]. apply IH; [|done].
  intros y ?. apply Hf. by right.
Qed.

Lemma dseg_lookup h pp xs y ys qn :
  dseg h pp (xs ++ y :: ys) qn →
  h !! y = Some (Elem (List.last xs pp) (hd qn ys)).
Proof. rewrite dseg_app. cbn. tauto. Qed.

(** ** Running the field accesses *)

Section exec.
Context {B : Type}.
Implicit Types (h : gmap Z list_elem).

Lemma bind_get_prev p (f : Z → M lstate B) e h el :
  h !! p = Some el → (get_prev p ≫= f) (LState e h) = f (prev el) (LState e h).
Proof. intros H. unfold get_prev, get_elem, mbind, M_bind. cbn. by rewrite H. Qed.

Lemma bind_get_next p (f : Z → M lstate B) e h el :
  h !! p = Some el → (get_next p ≫= f) (LState e h) = f (next el) (LState e h).
Proof. intros H. unfold get_next, get_elem, mbind, M_bind. cbn. by rewrite H. Qed.

Lemma bind_set_prev p v (f : unit → M lstate B) e h el :
  h !! p = Some el →
  (set_prev p v ≫= f) (LState e h) = f () (LState e (<[p := Elem v (next el)]> h)).
Proof.
  intros H. unfold set_prev, get_elem, put_elem, mbind, M_bind. cbn.
  rewrite H. cbn. by rewrite H.
Qed.

Lemma bind_set_next p v (f : unit → M lstate B) e h el :
  h !! p = Some el →
  (set_next p v ≫= f) (LState e h) = f () (LState e (<[p := Elem (prev el) v]> h)).
Proof.
  intros H. unfold set_next, get_elem, put_elem, mbind, M_bind. cbn.
  rewrite H. cbn. by rewrite H.
Qed.

(** A critical section: the flags are back at its end. *)
Lemma bind_intr (f : intr_status → M lstate B) e h :
  ∃ old e', (zoom eflags_lens intr_disable ≫= f) (LState e h) = f old (LState e' h) ∧
    ∀ (g : intr_status → M lstate unit) h', ∃ r,
      (zoom eflags_lens (intr_set_status old) ≫= g) (LState e' h') = g r (LState e h').
Proof.
  destruct (intr_restore e) as (old & e' & Hd & Hoff & r & Hr).
  exists old, e'. split; [by erewrite bind_zoom|].
  intros g h'. exists r. by erewrite bind_zoom by apply Hr.
Qed.
End exec.

Lemma list_insert_before_exec b e s pa na a nb ee :
  nodes s !! b = Some (Elem a nb) → nodes s !! a = Some (Elem pa na) →
  nodes s !! e = Some ee → a ≠ b → a ≠ e → b ≠ e →
  list_insert_before b e s = Ret ((), LState (l_eflags s)
    (<[b := Elem e nb]> (<[e := Elem a b]> (<[a := Elem pa e]> (nodes s))))).
Proof.
  destruct s as [fl h]. cbn. intros Hb Ha He ???. unfold list_insert_before.
  edestruct (bind_intr (B:=unit)) as (old & fl' & -> & Hr).
  erewrite bind_get_prev by done. cbn. erewrite bind_set_next by done. cbn.
  erewrite bind_get_prev by (by rewrite lookup_insert_ne). cbn.
  erewrite bind_set_prev by (by rewrite lookup_insert_ne). cbn.
  erewrite bind_set_next by (by rewrite lookup_insert_eq). cbn.
  erewrite bind_set_prev by (by rewrite !lookup_insert_ne). cbn.
  edestruct Hr as [r ->]. mstep. by rewrite insert_insert_eq.
Qed.

Lemma list_remove_exec x s a b pa nb na pb :
  nodes s !! x = Some (Elem a b) → nodes s !! a = Some (Elem pa na) →
  nodes s !! b = Some (Elem pb nb) → a ≠ b → a ≠ x → b ≠ x →
  list_remove x s = Ret ((), LState (l_eflags s)
    (<[b := Elem a nb]> (<[a := Elem pa b]> (nodes s)))).
Proof.
  destruct s as [fl h]. cbn. intros Hx Ha Hb ???. unfold list_remove.
  edestruct (bind_intr (B:=unit)) as (old & fl' & -> & Hr).
  erewrite bind_get_prev by done. erewrite bind_get_next by done. cbn.
  erewrite bind_set_next by done. cbn.
  erewrite bind_get_next, bind_get_prev by (by rewrite lookup_insert_ne). cbn.
  erewrite bind_set_prev by (by rewrite lookup_insert_ne). cbn.
  edestruct Hr as [r ->]. by mstep.
Qed.

(** ** Insertion and removal in a chain of nodes *)

Lemma elem_ne {A} (x y : A) (l : list A) : x ∈ l → y ∉ l → y ≠ x.
Proof. by intros ?? ->. Qed.

#[local] Hint Resolve elem_ne : core.

Lemma insert_chain h pp c1 a b c2 qn e :
  NoDup (c1 ++ a :: b :: c2) → e ∉ c1 ++ a :: b :: c2 →
  dseg h pp (c1 ++ a :: b :: c2) qn →
  dseg (<[b := Elem e (hd qn c2)]> (<[e := Elem a b]>
    (<[a := Elem (List.last c1 pp) e]> h))) pp (c1 ++ a :: e :: b :: c2) qn.
Proof.
  rewrite NoDup_app, !NoDup_cons, !not_elem_of_app, !not_elem_of_cons.
  intros (_ & Hc1 & [Hab Ha] & Hb & _) (He1 & Hea & Heb & He2).
  rewrite !dseg_app. cbn. intros (Hs1 & _ & _ & Hs2). split_and!.
  - eapply dseg_frame; [|done]. intros x Hx. specialize (Hc1 x Hx).
    rewrite !not_elem_of_cons in Hc1. destruct Hc1 as (? & ? & _).
    rewrite !lookup_insert_ne; eauto.
  - rewrite lookup_insert_ne, lookup_insert_ne by done. by rewrite lookup_insert_eq.
  - rewrite lookup_insert_ne by done. by rewrite lookup_insert_eq.
  - by rewrite lookup_insert_eq.
  - eapply dseg_frame; [|done]. intros x Hx. rewrite !lookup_insert_ne; eauto.
Qed.

Lemma remove_chain h pp c1 a x b c2 qn :
  NoDup (c1 ++ a :: x :: b :: c2) →
  dseg h pp (c1 ++ a :: x :: b :: c2) qn →
  dseg (<[b := Elem a (hd qn c2)]> (<[a := Elem (List.last c1 pp) b]> h))
    pp (c1 ++ a :: b :: c2) qn.
Proof.
  rewrite NoDup_app, !NoDup_cons, !not_elem_of_cons.
  intros (_ & Hc1 & (? & Hab & Ha) & [? Hx] & Hb & _).
  rewrite !dseg_app. cbn. intros (Hs1 & _ & _ & _ & Hs2). split_and!.
  - eapply dseg_frame; [|done]. intros y Hy. specialize (Hc1 y Hy).
    rewrite !not_elem_of_cons in Hc1. destruct Hc1 as (? & ? & ? & _).
    rewrite !lookup_insert_ne; eauto.
  - rewrite lookup_insert_ne by done. by rewrite lookup_insert_eq.
  - by rewrite lookup_insert_eq.
  - eapply dseg_frame; [|done]. intros y Hy. rewrite !lookup_insert_ne; eauto.
Qed.

(** ** The operations on abstract lists *)

(** Two stores with the same nodes that agree outside [c]. *)
Record same_outside (c : list Z) (h h' : gmap Z list_elem) : Prop := {
  so_dom : ∀ x, is_Some (h' !! x) ↔ is_Some (h !! x);
  so_eq : ∀ x, x ∉ c → h' !! x = h !! x
}.

Lemma is_list_frame c h h' l xs :
  same_outside c h h' → c ## chain l xs → is_list h l xs → is_list h' l xs.
Proof.
  intros [_ Heq] Hd [??]. split; [done|]. eapply dseg_frame; [|done].
  intros x Hx. apply Heq. set_solver.
Qed.

Lemma insert_is_Some (h : gmap Z list_elem) k v x :
  is_Some (h !! k) → is_Some (<[k := v]> h !! x) ↔ is_Some (h !! x).
Proof.
  intros Hk. destruct (decide (x = k)) as [->|].
  - rewrite lookup_insert_eq. split; eauto.
  - by rewrite lookup_insert_ne.
Qed.

Lemma insert_is_Some_2 (h : gmap Z list_elem) k v x :
  is_Some (h !! x) → is_Some (<[k := v]> h !! x).
Proof. rewrite lookup_insert_is_Some. destruct (decide (k = x)); auto. Qed.

Lemma chain_length_size h l xs : is_list h l xs → (length xs + 2 ≤ size h)%nat.
Proof.
  intros [Hnd Hseg].
  assert (∀ pp c qn, dseg h pp c qn → ∀ x, x ∈ c → x ∈ dom h) as Hin.
  { clear. intros pp c qn. revert pp. induction c as [|y c IH]; intros pp; [set_solver|].
    intros [Hy Hs] x Hx. apply elem_of_cons in Hx as [->|]; [|by eapply IH].
    apply elem_of_dom. eauto. }
  rewrite <-size_dom.
  replace (length xs + 2)%nat with (size (list_to_set (chain l xs) : gset Z)).
  - apply subseteq_size. intros x Hx. apply elem_of_list_to_set in Hx. by eapply Hin.
  - rewrite size_list_to_set by done. unfold chain. cbn. rewrite length_app. cbn. lia.
Qed.

(** Linking [e] in between two neighbours of the chain. *)
Lemma insert_between s l xs c1 a b c2 ys e :
  is_list (nodes s) l xs → chain l xs = c1 ++ a :: b :: c2 → chain l ys = c1 ++ a :: e :: b :: c2 →
  is_Some (nodes s !! e) → e ∉ chain l xs →
  ∃ h', list_insert_before b e s = Ret ((), LState (l_eflags s) h') ∧
    is_list h' l ys ∧ same_outside (chain l ys) (nodes s) h'.
Proof.
  intros [Hnd Hseg] Hc Hc' [ee He] Hni. rewrite Hc in *.
  pose proof (insert_chain (nodes s) NULL c1 a b c2 NULL e Hnd Hni Hseg) as Hseg'.
  pose proof (dseg_lookup _ _ _ _ _ _ Hseg) as Ha.
  assert (nodes s !! b = Some (Elem a (hd NULL c2))) as Hb.
  { rewrite (cons_middle a), app_assoc in Hseg.
    pose proof (dseg_lookup _ _ _ _ _ _ Hseg) as Hb. by rewrite last_last in Hb. }
  assert (e ≠ a ∧ e ≠ b ∧ a ≠ b) as (? & ? & ?).
  { revert Hnd Hni. rewrite NoDup_app, !NoDup_cons, !not_elem_of_app, !not_elem_of_cons.
    tauto. }
  eexists. split; [by eapply list_insert_before_exec|]. split.
  - split; [|by rewrite Hc'].
    rewrite Hc'. revert Hnd Hni. rewrite !NoDup_app, !NoDup_cons, !not_elem_of_app,
      !not_elem_of_cons. intros (?&Hd&[]&?&?) (?&?&?&?). split_and!; try done.
    intros x Hx. specialize (Hd x Hx). rewrite !not_elem_of_cons in *.
    split_and!; try tauto. by intros ->.
  - split.
    + intros x. apply mk_is_Some in Ha, Hb, He.
      by rewrite !insert_is_Some by eauto using insert_is_Some_2.
    + intros x. rewrite Hc', !not_elem_of_app, !not_elem_of_cons. intros (?&?&?&?&?).
      by rewrite !lookup_insert_ne.
Qed.

Lemma list_append_spec s l xs e :
  is_list (nodes s) l xs → is_Some (nodes s !! e) → e ∉ chain l xs →
  ∃ h', list_append l e s = Ret ((), LState (l_eflags s) h') ∧
    is_list h' l (xs ++ [e]) ∧ same_outside (chain l (xs ++ [e])) (nodes s) h'.
Proof.
  intros Hl He Hni. destruct (exists_last (l := head l :: xs)) as (c1 & a & Hc); [done|].
  apply (insert_between s l xs c1 a (tail l) []); try done.
  - unfold chain. rewrite app_comm_cons, Hc. by rewrite <-app_assoc.
  - unfold chain. rewrite app_comm_cons, app_comm_cons, Hc. by rewrite <-!app_assoc.
Qed.

Lemma list_push_spec s l xs e :
  is_list (nodes s) l xs → is_Some (nodes s !! e) → e ∉ chain l xs →
  ∃ h', list_push l e s = Ret ((), LState (l_eflags s) h') ∧
    is_list h' l (e :: xs) ∧ same_outside (chain l (e :: xs)) (nodes s) h'.
Proof.
  intros Hl He Hni. destruct Hl as [Hnd Hseg] eqn:E. clear E.
  assert (∃ b c2, xs ++ [tail l] = b :: c2) as (b & c2 & Hbc).
  { destruct xs; cbn; eauto. }
  unfold list_push. destruct s as [fl h]. cbn in *.
  destruct Hseg as [Hhd _]. erewrite bind_get_next by done. cbn. rewrite Hbc. cbn.
  eapply (insert_between (LState fl h) l xs [] (head l) b c2 (e :: xs)); try done;
    unfold chain; cbn; by rewrite Hbc.
Qed.

Lemma list_remove_spec s l xs1 x xs2 :
  is_list (nodes s) l (xs1 ++ x :: xs2) →
  ∃ h', list_remove x s = Ret ((), LState (l_eflags s) h') ∧
    is_list h' l (xs1 ++ xs2) ∧ same_outside (chain l (xs1 ++ xs2)) (nodes s) h'.
Proof.
  intros [Hnd Hseg].
  destruct (exists_last (l := head l :: xs1)) as (c1 & a & Hc); [done|].
  assert (∃ b c2, xs2 ++ [tail l] = b :: c2) as (b & c2 & Hbc).
  { destruct xs2; cbn; eauto. }
  assert (chain l (xs1 ++ x :: xs2) = c1 ++ a :: x :: b :: c2) as Hc1.
  { unfold chain. rewrite <-app_assoc. cbn. rewrite Hbc, app_comm_cons, Hc.
    by rewrite <-app_assoc. }
  assert (chain l (xs1 ++ xs2) = c1 ++ a :: b :: c2) as Hc2.
  { unfold chain. rewrite <-app_assoc, Hbc, app_comm_cons, Hc. by rewrite <-app_assoc. }
  rewrite Hc1 in Hnd, Hseg.
  pose proof (remove_chain _ _ _ _ _ _ _ _ Hnd Hseg) as Hseg'.
  pose proof (dseg_lookup _ _ _ _ _ _ Hseg) as Ha.
  revert Hseg. rewrite dseg_app. cbn. intros (_ & _ & Hx & Hb & _).
  assert (a ≠ b ∧ a ≠ x ∧ b ≠ x) as (? & ? & ?).
  { revert Hnd. rewrite NoDup_app, !NoDup_cons, !not_elem_of_cons. naive_solver. }
  eexists. split; [by eapply list_remove_exec|]. split.
  - split; [|by rewrite Hc2]. rewrite Hc2.
    revert Hnd. rewrite !NoDup_app, !NoDup_cons, !not_elem_of_cons.
    intros (?&Hd&(?&?&?)&[]&?&?). split_and!; try done.
    intros y Hy. specialize (Hd y Hy). rewrite !not_elem_of_cons in *. tauto.
  - split.
    + intros y. apply mk_is_Some in Ha, Hb.
      by rewrite !insert_is_Some by eauto using insert_is_Some_2.
    + intros y. rewrite Hc2, !not_elem_of_app, !not_elem_of_cons. intros (?&?&?&?).
      by rewrite !lookup_insert_ne.
Qed.

Lemma list_pop_spec s l x xs :
  is_list (nodes s) l (x :: xs) →
  ∃ h', list_pop l s = Ret (x, LState (l_eflags s) h') ∧
    is_list h' l xs ∧ same_outside (chain l xs) (nodes s) h'.
Proof.
  intros Hl. destruct (list_remove_spec s l [] x xs Hl) as (h' & Hr & ?).
  exists h'. split; [|done]. unfold list_pop. destruct s as [fl h].
  destruct Hl as [_ [Hhd _]]. cbn in *. erewrite bind_get_next by done. cbn.
  by rewrite (M_bind_Ret _ _ _ _ _ Hr).
Qed.

Lemma list_empty_spec s l xs :
  is_list (nodes s) l xs → list_empty l s = Ret (bool_decide (xs = []), s).
Proof.
  intros [Hnd [Hhd _]]. unfold list_empty. destruct s as [fl h]. cbn in *.
  erewrite bind_get_next by done. mstep. do 2 f_equal. destruct xs as [|x xs]; cbn.
  - by rewrite Z.eqb_refl.
  - apply Z.eqb_neq. unfold chain in Hnd. cbn in Hnd. rewrite !NoDup_cons in Hnd.
    set_solver.
Qed.

(** The loops, on the elements [ys] that are left before the tail. *)
Section loops.
Context (l e : Z) (h : gmap Z list_elem).

Lemma rest_step pp y ys :
  dseg h pp ((y :: ys) ++ [tail l]) NULL →
  h !! y = Some (Elem pp (hd (tail l) ys)) ∧ dseg h y (ys ++ [tail l]) NULL.
Proof. cbn. intros [Hy Hs]. split; [|done]. rewrite Hy. by destruct ys. Qed.

Lemma elem_find_loop_spec fuel obj pp ys :
  dseg h pp (ys ++ [tail l]) NULL → tail l ∉ ys → (length ys < fuel)%nat →
  elem_find_loop fuel l obj (hd (tail l) ys) (LState e h) =
  Ret (bool_decide (obj ∈ ys), LState e h).
Proof.
  revert fuel pp. induction ys as [|y ys IH]; intros [|fuel] pp Hs Ht Hf; cbn in *; try lia.
  - by rewrite Z.eqb_refl.
  - destruct (Z.eqb_spec y (tail l)) as [->|]; [set_solver|].
    destruct (Z.eqb_spec y obj) as [->|Hne].
    + rewrite bool_decide_eq_true_2; [done|left].
    + destruct (rest_step pp y ys Hs) as [Hy Hs'].
      erewrite bind_get_next by done. cbn. rewrite (IH fuel y); [|done|set_solver|lia].
      do 2 f_equal. apply bool_decide_ext. set_solver.
Qed.

Lemma list_len_loop_spec fuel pp ys n :
  dseg h pp (ys ++ [tail l]) NULL → tail l ∉ ys → (length ys < fuel)%nat →
  0 ≤ n → n + Z.of_nat (length ys) < 4294967296 →
  list_len_loop fuel l (hd (tail l) ys) n (LState e h) =
  Ret (n + Z.of_nat (length ys), LState e h).
Proof.
  revert fuel pp n. induction ys as [|y ys IH];
    intros [|fuel] pp n Hs Ht Hf Hn Hb; cbn in *; try lia.
  - rewrite Z.eqb_refl. mstep. do 2 f_equal. lia.
  - destruct (Z.eqb_spec y (tail l)) as [->|]; [set_solver|].
    destruct (rest_step pp y ys Hs) as [Hy Hs'].
    erewrite bind_get_next by done. cbn. rewrite u32_id by (unfold is_u32; lia).
    rewrite (IH fuel y); [|done|set_solver|lia|lia|lia]. do 2 f_equal. lia.
Qed.

Lemma list_traversal_loop_spec fuel func arg (P : Z → bool) pp ys :
  dseg h pp (ys ++ [tail l]) NULL → tail l ∉ ys → (length ys < fuel)%nat →
  (∀ y, y ∈ ys → func y arg (LState e h) = Ret (P y, LState e h)) →
  list_traversal_loop fuel l func arg (hd (tail l) ys) (LState e h) =
  Ret (default NULL (snd <$> list_find P ys), LState e h).
Proof.
  revert fuel pp. induction ys as [|y ys IH];
    intros [|fuel] pp Hs Ht Hf Hfn; cbn in *; try lia.
  - by rewrite Z.eqb_refl.
  - destruct (Z.eqb_spec y (tail l)) as [->|]; [set_solver|].
    rewrite (M_bind_Ret _ _ _ _ _ (Hfn y ltac:(left))).
    destruct (P y) eqn:E; [by rewrite decide_True by done|rewrite decide_False by tauto].
    destruct (rest_step pp y ys Hs) as [Hy Hs'].
    erewrite bind_get_next by done. cbn. rewrite (IH fuel y); [|done|set_solver|lia|].
    + by destruct (list_find P ys) as [[]|].
    + intros z ?. apply Hfn. by right.
Qed.
End loops.

Section queries.
Context (l e : Z) (h : gmap Z list_elem) (xs : list Z) (Hl : is_list h l xs).

Lemma first_elem : h !! head l = Some (Elem NULL (hd (tail l) xs)).
Proof. destruct Hl as [_ [Hhd _]]. rewrite Hhd. by destruct xs. Qed.

Lemma rest_seg : dseg h (head l) (xs ++ [tail l]) NULL ∧ (tail l ∉ xs) ∧
  (length xs < size h)%nat.
Proof.
  pose proof (chain_length_size _ _ _ Hl). destruct Hl as [Hnd [_ Hs]].
  split_and!; [done| |lia]. unfold chain in Hnd. rewrite NoDup_cons, NoDup_app in Hnd.
  set_solver.
Qed.

Lemma elem_find_spec obj :
  elem_find l obj (LState e h) = Ret (bool_decide (obj ∈ xs), LState e h).
Proof.
  destruct rest_seg as (? & ? & ?). unfold elem_find.
  erewrite bind_get_next by apply first_elem. mstep.
  by apply (elem_find_loop_spec l e h _ obj (head l)).
Qed.

Lemma list_len_spec :
  Z.of_nat (length xs) < 4294967296 →
  list_len l (LState e h) = Ret (Z.of_nat (length xs), LState e h).
Proof.
  destruct rest_seg as (? & ? & ?). intros ?. unfold list_len.
  erewrite bind_get_next by apply first_elem. mstep.
  by rewrite (list_len_loop_spec l e h _ (head l)).
Qed.

Lemma list_traversal_spec func arg (P : Z → bool) :
  (∀ y, y ∈ xs → func y arg (LState e h) = Ret (P y, LState e h)) →
  list_traversal l func arg (LState e h) =
  Ret (default NULL (snd <$> list_find P xs), LState e h).
Proof.
  destruct rest_seg as (? & ? & ?). intros Hf. unfold list_traversal.
  erewrite bind_get_next by apply first_elem. cbn.
  rewrite (M_bind_Ret _ _ _ _ _ (list_empty_spec (LState e h) l xs Hl)).
  case_bool_decide as Hn; [by rewrite Hn|]. mstep.
  by apply (list_traversal_loop_spec l e h _ func arg P (head l)).
Qed.
End queries.

Lemma list_init_spec l s :
  is_Some (nodes s !! head l) → is_Some (nodes s !! tail l) →
  ∃ h', list_init l s = Ret ((), LState (l_eflags s) h') ∧
    is_list h' l [] ∧ same_outside (chain l []) (nodes s) h'.
Proof.
  destruct s as [fl h]. cbn. intros Hh Ht.
  assert (head l ≠ tail l) by (unfold head, tail; lia).
  destruct Hh as [eh Hh], Ht as [et Ht]. unfold list_init.
  erewrite bind_set_prev, bind_set_next, bind_set_prev; cycle 1.
  { by rewrite !lookup_insert_ne. } { by rewrite lookup_insert_eq. } { done. }
  unfold set_next, get_elem, put_elem, mbind, M_bind. cbn.
  rewrite lookup_insert_eq. cbn. rewrite lookup_insert_eq. eexists. split; [done|].
  rewrite !insert_insert_eq. split.
  - split; cbn.
    + unfold chain. cbn. rewrite NoDup_cons. split; [set_solver|apply NoDup_singleton].
    + rewrite lookup_insert_ne, !lookup_insert_eq by done. done.
  - split.
    + intros x. apply mk_is_Some in Hh, Ht.
      by rewrite !insert_is_Some by eauto using insert_is_Some_2.
    + intros x. unfold chain. cbn. rewrite !not_elem_of_cons. intros (? & ? & _).
      by rewrite !lookup_insert_ne.
Qed.

(** ** Properties *)

(** C5: the operations that change a list are those of a sequence: on a store
    that holds the list [xs] at [l] and a node [e] outside it, [list_init]
    makes the empty list, [list_append] and [list_push] add [e] at the end
    and at the front, and [list_remove] and [list_pop] take an element out;
    every one restores the interrupt flag, leaves the store outside the list
    alone (so other lists survive) and returns. *)
Theorem list_ops_refine s l xs e :
  is_list (nodes s) l xs → is_Some (nodes s !! e) → e ∉ chain l xs →
  let post {A} (o : outcome (A * lstate)) (a : A) ys :=
    ∃ h', o = Ret (a, LState (l_eflags s) h') ∧ is_list h' l ys ∧
      same_outside (chain l ys) (nodes s) h' in
  post (list_init l s) () [] ∧
  post (list_append l e s) () (xs ++ [e]) ∧
  post (list_push l e s) () (e :: xs) ∧
  (∀ ys x zs, xs = ys ++ x :: zs → post (list_remove x s) () (ys ++ zs)) ∧
  (∀ x ys, xs = x :: ys → post (list_pop l s) x ys).
Proof.
  intros Hl He Hni post. split_and!.
  - destruct Hl as [_ Hs]. unfold chain in Hs. rewrite app_comm_cons, dseg_app in Hs.
    destruct Hs as [[Hh _] [Ht _]]. apply list_init_spec; eauto.
  - by apply list_append_spec.
  - by apply list_push_spec.
  - intros ys x zs ->. by apply list_remove_spec.
  - intros x ys ->. by apply list_pop_spec.
Qed.

(** The list at address 100 with the element 200 and a free node 300. *)
Definition ex_list : lstate := LState 0x202
  {[ 100 := Elem 0 200; 200 := Elem 100 108; 108 := Elem 200 0; 300 := Elem 0 0 ]}.

Lemma ex_list_ok : is_list (nodes ex_list) 100 [200].
Proof.
  split.
  - apply (bool_decide_unpack (NoDup [100; 200; 108])). reflexivity.
  - split; [reflexivity|]. split; [reflexivity|]. split; reflexivity.
Defined.

Lemma list_ops_refine_witness :
  ∃ h', list_append 100 300 ex_list = Ret ((), LState 0x202 h') ∧ is_list h' 100 [200; 300] ∧
    same_outside [100; 200; 300; 108] (nodes ex_list) h'.
Proof.
  apply (list_ops_refine ex_list 100 [200] 300).
  - exact ex_list_ok.
  - by eexists.
  - apply (bool_decide_unpack (300 ∉ [100; 200; 108])). reflexivity.
Defined.

(** The read-only operations on a list [xs]: [elem_find] decides
    membership, [list_len] is the length, [list_empty] tests for the empty
    sequence and [list_traversal] with a callback that only tests its argument
    returns the first element it accepts or NULL; all of them terminate and
    leave the state unchanged. *)
Theorem list_queries_correct e h l xs obj (func : Z → Z → M lstate bool) arg P :
  is_list h l xs → Z.of_nat (length xs) < 4294967296 →
  (∀ y, y ∈ xs → func y arg (LState e h) = Ret (P y, LState e h)) →
  elem_find l obj (LState e h) = Ret (bool_decide (obj ∈ xs), LState e h) ∧
  list_len l (LState e h) = Ret (Z.of_nat (length xs), LState e h) ∧
  list_empty l (LState e h) = Ret (bool_decide (xs = []), LState e h) ∧
  list_traversal l func arg (LState e h) =
    Ret (default NULL (snd <$> list_find P xs), LState e h).
Proof.
  intros Hl Hn Hf. split_and!.
  - by apply elem_find_spec.
  - by apply list_len_spec.
  - by apply list_empty_spec.
  - by apply list_traversal_spec.
Qed.

Lemma list_queries_correct_witness :
  elem_find 100 200 ex_list = Ret (true, ex_list) ∧ list_len 100 ex_list = Ret (1, ex_list) ∧
  list_empty 100 ex_list = Ret (false, ex_list) ∧
  list_traversal 100 (λ y a, mret (y =? a)) 200 ex_list = Ret (200, ex_list).
Proof.
  apply (list_queries_correct 0x202 (nodes ex_list) 100 [200] 200 (λ y a, mret (y =? a)) 200
    (λ y, y =? 200)).
  - exact ex_list_ok.
  - cbn. lia.
  - reflexivity.
Defined.

(** [list_pop] has no guard: on an empty list it removes the tail
    sentinel and follows its NULL successor. *)
Theorem list_pop_empty_faults s l :
  is_list (nodes s) l [] → nodes s !! NULL = None → list_pop l s = Fault.
Proof.
  destruct s as [fl h]. cbn. intros [Hnd [Hh [Ht _]]] H0.
  assert (head l ≠ tail l) by (unfold head, tail; lia).
  unfold list_pop. erewrite bind_get_next by done. cbn. unfold list_remove.
  rewrite bind_assoc. edestruct (bind_intr (B:=Z)) as (old & fl' & -> & _).
  rewrite bind_assoc. erewrite bind_get_prev by done.
  rewrite bind_assoc. erewrite bind_get_next by done. cbn.
  rewrite bind_assoc. erewrite bind_set_next by done. cbn.
  rewrite bind_assoc. erewrite bind_get_next by (by rewrite lookup_insert_ne).
  rewrite bind_assoc. erewrite bind_get_prev by (by rewrite lookup_insert_ne). cbn.
  rewrite bind_assoc. apply M_bind_Fault. unfold set_prev, get_elem, mbind, M_bind. cbn.
  rewrite lookup_insert_ne, H0; [done|]. intros E. rewrite E in Hh. congruence.
Qed.

Lemma list_pop_empty_faults_witness :
  list_pop 100 (LState 0 {[ 100 := Elem 0 108; 108 := Elem 100 0 ]}) = Fault.
Proof.
  apply (list_pop_empty_faults (LState 0 {[ 100 := Elem 0 108; 108 := Elem 100 0 ]}) 100).
  - split; [apply (bool_decide_unpack (NoDup [100; 108])); reflexivity|].
    split; [reflexivity|]. split; reflexivity.
  - reflexivity.
Defined.
