(* ===== verification/CString.v ===== *)
(** * Memory blocks and C strings (lib/string.c)

    A pointer argument is modelled by the bytes that are accessible from it
    on, a list of values in 0..255; the functions that return a pointer into
    their argument return its offset. Distinct arguments are distinct objects.
    Running off the end of a list is a [Fault]. [char] is signed: comparisons
    between characters read them with [i8]. *)

From Stdlib Require Import ZArith Lia.
From Stdlib Require String Ascii.
From stdpp Require Import base numbers list.
From S2P Require Import Prelude.

(** The characters of a literal, with its terminator, and with a newline at its end. *)
Definition chars (s : String.string) : list Z := map (λ a, Z.of_nat (Ascii.nat_of_ascii a)) (String.list_ascii_of_string s).
Definition text (s : String.string) : list Z := chars s ++ [0].
Definition line (s : String.string) : list Z := chars s ++ [10; 0].

(** ** The functions *)

(** The loop stores [value] while [size-- > 0]. *)
Fixpoint memset_loop (size : nat) (dst : list Z) (value : Z) : outcome (list Z) :=
  match size, dst with
  | O, _ => Ret dst
  | S _, [] => Fault
  | S size, _ :: dst => r ← memset_loop size dst value; Ret (value :: r)
  end.
Definition memset (dst : list Z) (value size : Z) : outcome (list Z) :=
  memset_loop (Z.to_nat size) dst (u8 value).

Fixpoint memcpy_loop (size : nat) (dst src : list Z) : outcome (list Z) :=
  match size, dst, src with
  | O, _, _ => Ret dst
  | S size, _ :: dst, c :: src => r ← memcpy_loop size dst src; Ret (c :: r)
  | S _, _, _ => Fault
  end.
Definition memcpy (dst src : list Z) (size : Z) : outcome (list Z) :=
  memcpy_loop (Z.to_nat size) dst src.

Fixpoint memcmp_loop (size : nat) (a b : list Z) : outcome Z :=
  match size, a, b with
  | O, _, _ => Ret 0
  | S size, x :: a, y :: b =>
    if i8 x =? i8 y then memcmp_loop size a b
    else Ret (if i8 y <? i8 x then 1 else -1)
  | S _, _, _ => Fault
  end.
Definition memcmp (a b : list Z) (size : Z) : outcome Z :=
  memcmp_loop (Z.to_nat size) a b.

(** Copy up to and including the terminator. *)
Fixpoint strcpy (dst src : list Z) : outcome (list Z) :=
  match dst, src with
  | _ :: dst, c :: src =>
    if c =? 0 then Ret (c :: dst)
    else r ← strcpy dst src; Ret (c :: r)
  | _, _ => Fault
  end.

(** [p] runs one past the terminator; the result is [p - str - 1]. *)
Fixpoint strlen_loop (str : list Z) (p : Z) : outcome Z :=
  match str with
  | [] => Fault
  | c :: str => if c =? 0 then Ret (u32 (p + 1 - 1)) else strlen_loop str (p + 1)
  end.
Definition strlen (str : list Z) : outcome Z := strlen_loop str 0.

Fixpoint strcmp (a b : list Z) : outcome Z :=
  match a, b with
  | x :: a, y :: b =>
    if negb (i8 x =? 0) && (i8 x =? i8 y) then strcmp a b
    else Ret (if i8 x <? i8 y then -1 else if i8 y <? i8 x then 1 else 0)
  | _, _ => Fault
  end.

(** The result is the offset of the character, [None] for NULL. *)
Fixpoint strchr_loop (str : list Z) (ch p : Z) : outcome (option Z) :=
  match str with
  | [] => Fault
  | c :: str =>
    if c =? 0 then Ret None
    else if i8 c =? u8 ch then Ret (Some p)
    else strchr_loop str ch (p + 1)
  end.
Definition strchr (str : list Z) (ch : Z) : outcome (option Z) := strchr_loop str ch 0.

Fixpoint strrchr_loop (str : list Z) (ch p : Z) (last_char : option Z) : outcome (option Z) :=
  match str with
  | [] => Fault
  | c :: str =>
    if c =? 0 then Ret last_char
    else strrchr_loop str ch (p + 1) (if i8 c =? u8 ch then Some p else last_char)
  end.
Definition strrchr (str : list Z) (ch : Z) : outcome (option Z) := strrchr_loop str ch 0 None.

(** Skip to the terminator of [dst] and copy from there. *)
Fixpoint strcat (dst src : list Z) : outcome (list Z) :=
  match dst with
  | [] => Fault
  | c :: dst' => if c =? 0 then strcpy dst src else r ← strcat dst' src; Ret (c :: r)
  end.

Fixpoint strchrs_loop (str : list Z) (ch ch_cnt : Z) : outcome Z :=
  match str with
  | [] => Fault
  | c :: str =>
    if c =? 0 then Ret ch_cnt
    else strchrs_loop str ch (if i8 c =? u8 ch then u32 (ch_cnt + 1) else ch_cnt)
  end.
Definition strchrs (str : list Z) (ch : Z) : outcome Z := strchrs_loop str ch 0.

(** ** Specifications *)

(** The characters of a string: non-zero bytes. *)
Definition char_ok (c : Z) : Prop := 0 < c < 256.
Abbreviation str_ok := (Forall char_ok).

Lemma i8_inj x y : is_u8 x → is_u8 y → i8 x = i8 y → x = y.
Proof. zlia. Qed.
Lemma i8_zero x : is_u8 x → i8 x = 0 ↔ x = 0.
Proof. zlia. Qed.
Lemma char_ok_nz c : char_ok c → (c =? 0) = false.
Proof. unfold char_ok. intros. apply Z.eqb_neq. lia. Qed.
Lemma char_ok_u8 c : char_ok c → is_u8 c.
Proof. unfold char_ok, is_u8. lia. Qed.
Lemma i8_ascii c : 0 ≤ c < 128 → i8 c = c.
Proof. zlia. Qed.

(** [str_ok] of a literal, by evaluation. *)
Lemma str_ok_check s : forallb (λ c, (0 <? c) && (c <? 256)) s = true → str_ok s.
Proof.
  intros Hs. apply Forall_forall. intros c Hc. rewrite forallb_forall in Hs. specialize (Hs c).
  rewrite <-list_elem_of_In in Hs. specialize (Hs Hc). unfold char_ok. lia.
Qed.

(** The string at the start of a block of memory. *)
Fixpoint c_str (l : list Z) : list Z :=
  match l with [] => [] | c :: l => if c =? 0 then [] else c :: c_str l end.

Lemma c_str_split l : Forall is_u8 l → 0 ∈ l → ∃ tl, l = c_str l ++ 0 :: tl ∧ Forall char_ok (c_str l).
Proof.
  intros Hu. induction Hu as [|c l Hc Hu IH]; [by intros []%elem_of_nil|]. cbn [c_str].
  destruct (Z.eqb_spec c 0) as [->|Hne]; [by exists l|].
  intros [|Hin]%elem_of_cons; [done|]. destruct (IH Hin) as (tl & Hl & Hok). exists tl.
  split; [cbn; by rewrite <-Hl|]. constructor; [unfold char_ok, is_u8 in *; lia|done].
Qed.

Lemma c_str_app nm tl : str_ok nm → c_str (nm ++ 0 :: tl) = nm.
Proof.
  induction 1 as [|c nm Hc Hnm IH]; [done|]. cbn [app c_str]. rewrite char_ok_nz by done. by rewrite IH.
Qed.

Lemma memset_loop_spec n v dst :
  (n ≤ length dst)%nat → memset_loop n dst v = Ret (replicate n v ++ drop n dst).
Proof.
  revert dst. induction n as [|n IH]; intros [|d dst] Hl; cbn in *; try done; try lia.
  rewrite IH by lia. done.
Qed.

Lemma memset_loop_over n v dst : (length dst < n)%nat → memset_loop n dst v = Fault.
Proof. revert dst. induction n as [|n IH]; intros [|d dst] Hl; cbn in *; [lia..|done|]. by rewrite IH by lia. Qed.

Lemma memcpy_loop_spec n dst src :
  (n ≤ length dst)%nat → (n ≤ length src)%nat →
  memcpy_loop n dst src = Ret (take n src ++ drop n dst).
Proof.
  revert dst src. induction n as [|n IH]; intros [|d dst] [|c src] Hd Hs; cbn in *;
    try done; try lia.
  rewrite IH by lia. done.
Qed.

Lemma memcpy_loop_over n dst src :
  (length dst < n)%nat ∨ (length src < n)%nat → memcpy_loop n dst src = Fault.
Proof.
  revert dst src. induction n as [|n IH]; intros [|d dst] [|c src] H; cbn in *;
    try done; try lia.
  rewrite IH by lia. done.
Qed.

Lemma strcpy_spec s tl dst :
  str_ok s → (length s < length dst)%nat →
  strcpy dst (s ++ 0 :: tl) = Ret (s ++ 0 :: drop (S (length s)) dst).
Proof.
  revert dst. induction s as [|c s IH]; intros [|d dst] Hs Hl; cbn in *; try lia.
  - done.
  - inversion Hs; subst. rewrite char_ok_nz by done. rewrite IH by (done || lia). done.
Qed.

Lemma strcpy_over s tl dst :
  str_ok s → (length dst ≤ length s)%nat → strcpy dst (s ++ 0 :: tl) = Fault.
Proof.
  revert dst. induction s as [|c s IH]; intros [|d dst] Hs Hl; cbn in *; try done; try lia.
  inversion Hs; subst. rewrite char_ok_nz by done. rewrite IH by (done || lia). done.
Qed.

Lemma strlen_loop_spec s tl p :
  str_ok s → 0 ≤ p → p + Z.of_nat (length s) < 4294967296 →
  strlen_loop (s ++ 0 :: tl) p = Ret (p + Z.of_nat (length s)).
Proof.
  revert p. induction s as [|c s IH]; intros p Hs Hp Hl; cbn in *.
  - rewrite u32_id by (unfold is_u32; lia). f_equal. lia.
  - inversion Hs; subst. rewrite char_ok_nz by done. rewrite IH by (done || lia).
    f_equal. lia.
Qed.

Lemma strlen_spec s tl :
  str_ok s → Z.of_nat (length s) < 4294967296 →
  strlen (s ++ 0 :: tl) = Ret (Z.of_nat (length s)).
Proof. intros. unfold strlen. rewrite strlen_loop_spec by (done || lia). f_equal. Qed.

Lemma strcat_spec s1 tl1 s2 tl2 :
  str_ok s1 → str_ok s2 → (length s2 ≤ length tl1)%nat →
  strcat (s1 ++ 0 :: tl1) (s2 ++ 0 :: tl2) =
  Ret (s1 ++ s2 ++ 0 :: drop (length s2) tl1).
Proof.
  intros Hs1 Hs2 Hl. induction Hs1 as [|c s1 Hc Hs1 IH].
  - cbn -[strcpy]. rewrite strcpy_spec by (done || cbn; lia). done.
  - cbn. rewrite char_ok_nz by done. by rewrite IH.
Qed.

(** The sign of the first difference, the characters read as signed. *)
Fixpoint lex_cmp (a b : list Z) : Z :=
  match a, b with
  | [], [] => 0
  | [], y :: _ => if 0 <? i8 y then -1 else 1
  | x :: _, [] => if i8 x <? 0 then -1 else 1
  | x :: a, y :: b => if i8 x =? i8 y then lex_cmp a b else if i8 x <? i8 y then -1 else 1
  end.

Lemma strcmp_spec a tla b tlb :
  str_ok a → str_ok b → strcmp (a ++ 0 :: tla) (b ++ 0 :: tlb) = Ret (lex_cmp a b).
Proof.
  intros Ha. revert b. induction Ha as [|x a Hx Ha IH]; intros b Hb;
    destruct Hb as [|y b Hy Hb]; cbn.
  - done.
  - change (i8 0) with 0. rewrite Z.eqb_refl. cbn.
    destruct (Z.ltb_spec 0 (i8 y)); [done|].
    destruct (Z.ltb_spec (i8 y) 0); [done|].
    assert (y = 0) by (apply i8_zero; [by apply char_ok_u8|lia]).
    unfold char_ok in *. lia.
  - change (i8 0) with 0.
    assert (i8 x ≠ 0) as Hnz.
    { rewrite i8_zero by (by apply char_ok_u8). unfold char_ok in *. lia. }
    destruct (Z.eqb_spec (i8 x) 0); [done|]. cbn.
    destruct (Z.ltb_spec (i8 x) 0); [done|]. destruct (Z.ltb_spec 0 (i8 x)); [done|lia].
  - assert (i8 x ≠ 0) as Hnz.
    { rewrite i8_zero by (by apply char_ok_u8). unfold char_ok in *. lia. }
    destruct (Z.eqb_spec (i8 x) 0); [done|]. cbn.
    destruct (Z.eqb_spec (i8 x) (i8 y)); [by apply IH|].
    destruct (Z.ltb_spec (i8 x) (i8 y)); [done|].
    destruct (Z.ltb_spec (i8 y) (i8 x)); [done|lia].
Qed.

Lemma lex_cmp_eq a b : str_ok a → str_ok b → lex_cmp a b = 0 ↔ a = b.
Proof.
  intros Ha. revert b. induction Ha as [|x a Hx Ha IH]; intros b Hb;
    destruct Hb as [|y b Hy Hb]; cbn.
  - done.
  - split; [by case_match|done].
  - split; [by case_match|done].
  - destruct (Z.eqb_spec (i8 x) (i8 y)) as [E|Hne].
    + apply i8_inj in E as ->; [|by apply char_ok_u8..]. rewrite IH by done. naive_solver.
    + split; [by case_match|]. intros [= -> ->]. done.
Qed.

(** Offsets of a character in a string. *)
Definition first_of (ch : Z) (s : list Z) : option Z :=
  (λ p, Z.of_nat p.1) <$> list_find (ch =.) s.
Definition last_of (ch : Z) (s : list Z) : option Z :=
  (λ i, Z.of_nat (length s) - 1 - i) <$> first_of ch (reverse s).
#[global] Arguments first_of : simpl never.
#[global] Arguments last_of : simpl never.

Lemma first_of_cons ch c s :
  first_of ch (c :: s) = if decide (ch = c) then Some 0 else (λ i, i + 1) <$> first_of ch s.
Proof.
  unfold first_of. cbn. case_decide; [done|].
  destruct (list_find (ch =.) s) as [[i x]|]; cbn; [|done]. f_equal. lia.
Qed.

Lemma list_find_snoc (ch c : Z) s :
  list_find (ch =.) (s ++ [c]) =
  match list_find (ch =.) s with
  | Some p => Some p
  | None => if decide (ch = c) then Some (length s, c) else None
  end.
Proof.
  induction s as [|x s IH]; cbn.
  - by case_decide.
  - destruct (decide (ch = x)); [done|]. rewrite IH.
    destruct (list_find (ch =.) s) as [[]|]; [done|]. by destruct (decide (ch = c)).
Qed.

Lemma last_of_cons ch c s :
  last_of ch (c :: s) =
  match last_of ch s with
  | Some i => Some (i + 1)
  | None => if decide (ch = c) then Some 0 else None
  end.
Proof.
  unfold last_of, first_of. rewrite reverse_cons, list_find_snoc. cbn [length].
  destruct (list_find (ch =.) (reverse s)) as [[i x]|]; cbn.
  - f_equal. lia.
  - case_decide; cbn; [|done]. rewrite length_reverse. f_equal. lia.
Qed.

Lemma ascii_eqb c ch :
  char_ok c → 0 < ch < 128 → (i8 c =? u8 ch) = bool_decide (ch = c).
Proof.
  unfold char_ok. intros Hc Hch. rewrite u8_id by (unfold is_u8; lia).
  case_bool_decide; [apply Z.eqb_eq|apply Z.eqb_neq]; zlia.
Qed.

Lemma strchr_loop_spec s tl ch p :
  str_ok s → 0 < ch < 128 →
  strchr_loop (s ++ 0 :: tl) ch p = Ret ((λ i, p + i) <$> first_of ch s).
Proof.
  intros Hs Hch. revert p. induction Hs as [|c s Hc Hs IH]; intros p; [done|].
  cbn. rewrite char_ok_nz, ascii_eqb, first_of_cons by done.
  destruct (decide (ch = c)).
  - rewrite bool_decide_eq_true_2 by done. cbn. do 2 f_equal. lia.
  - rewrite bool_decide_eq_false_2 by done. rewrite IH.
    destruct (first_of ch s); cbn; [|done]. do 2 f_equal. lia.
Qed.

Lemma strrchr_loop_spec s tl ch p last :
  str_ok s → 0 < ch < 128 →
  strrchr_loop (s ++ 0 :: tl) ch p last =
  Ret (match last_of ch s with Some i => Some (p + i) | None => last end).
Proof.
  intros Hs Hch. revert p last. induction Hs as [|c s Hc Hs IH]; intros p last; [done|].
  cbn. rewrite char_ok_nz, ascii_eqb, last_of_cons, IH by done.
  destruct (last_of ch s) as [i|]; [do 2 f_equal; lia|].
  destruct (decide (ch = c)).
  - rewrite bool_decide_eq_true_2 by done. do 2 f_equal. lia.
  - by rewrite bool_decide_eq_false_2.
Qed.

Lemma strchrs_loop_spec s tl ch n :
  str_ok s → 0 < ch < 128 → 0 ≤ n → n + Z.of_nat (length s) < 4294967296 →
  strchrs_loop (s ++ 0 :: tl) ch n = Ret (n + Z.of_nat (length (filter (ch =.) s))).
Proof.
  intros Hs Hch. revert n. induction Hs as [|c s Hc Hs IH]; intros n Hn Hl;
    cbn [app strchrs_loop length] in *.
  - cbn. f_equal. lia.
  - rewrite char_ok_nz, ascii_eqb by done. rewrite filter_cons. case_decide.
    + rewrite bool_decide_eq_true_2 by done. rewrite u32_id by (unfold is_u32; lia).
      rewrite IH by lia. f_equal. cbn. lia.
    + rewrite bool_decide_eq_false_2 by done. rewrite IH by lia. done.
Qed.

(** A character above 127 is never found: [*str] is negative. *)
Lemma strchr_high s tl ch : str_ok s → 128 ≤ ch < 256 → strchr (s ++ 0 :: tl) ch = Ret None.
Proof.
  intros Hs Hch. unfold strchr. generalize 0 at 2. induction Hs as [|c s Hc Hs IH]; intros p; [done|].
  cbn. rewrite char_ok_nz by done. destruct (Z.eqb_spec (i8 c) (u8 ch)); [|apply IH].
  unfold char_ok in Hc. exfalso. revert e. zlia.
Qed.

(** ** Properties *)

(** On terminated strings and large enough destinations, [strlen],
    [strcpy] and [strcat] are the length, the copy and the concatenation, with
    the terminator, of the sequences of characters, and the bytes behind are
    left alone; [strcpy] into a destination without room for the
    terminator leaves it (a [Fault]). *)
Theorem str_build_correct s tls d tld dst :
  str_ok s → str_ok d → Z.of_nat (length s) < 4294967296 →
  strlen (s ++ 0 :: tls) = Ret (Z.of_nat (length s)) ∧
  ((length s < length dst)%nat →
    strcpy dst (s ++ 0 :: tls) = Ret (s ++ 0 :: drop (S (length s)) dst)) ∧
  ((length dst ≤ length s)%nat → strcpy dst (s ++ 0 :: tls) = Fault) ∧
  ((length s ≤ length tld)%nat →
    strcat (d ++ 0 :: tld) (s ++ 0 :: tls) = Ret (d ++ s ++ 0 :: drop (length s) tld)).
Proof.
  intros. split_and!; intros.
  - by apply strlen_spec.
  - by apply strcpy_spec.
  - by apply strcpy_over.
  - by apply strcat_spec.
Qed.

Lemma str_build_correct_witness :
  strlen [97; 98; 0; 7] = Ret 2 ∧ strcat [47; 0; 1; 2; 3] [97; 98; 0; 7] = Ret [47; 97; 98; 0; 3].
Proof.
  assert (str_ok [97; 98]) as H1 by (repeat constructor; unfold char_ok; lia).
  assert (str_ok [47]) as H2 by (repeat constructor; unfold char_ok; lia).
  destruct (str_build_correct [97; 98] [7] [47] [1; 2; 3] [] H1 H2 ltac:(cbn; lia))
    as (Hl & _ & _ & Hc).
  split; [exact Hl|]. apply Hc. cbn. lia.
Defined.

(** [strcmp] orders terminated strings by their first different
    characters (as signed [char]s) and returns 0 exactly on equal strings;
    [strchr] and [strrchr] return the first and the last position of an ASCII
    character, or NULL, and [strchrs] counts its occurrences. *)
Theorem str_search_correct a tla b tlb ch :
  str_ok a → str_ok b → 0 < ch < 128 → Z.of_nat (length a) < 4294967296 →
  (∃ r, strcmp (a ++ 0 :: tla) (b ++ 0 :: tlb) = Ret r ∧ r = lex_cmp a b ∧ (r = 0 ↔ a = b)) ∧
  strchr (a ++ 0 :: tla) ch = Ret (first_of ch a) ∧
  strrchr (a ++ 0 :: tla) ch = Ret (last_of ch a) ∧
  strchrs (a ++ 0 :: tla) ch = Ret (Z.of_nat (length (filter (ch =.) a))).
Proof.
  intros. split_and!.
  - exists (lex_cmp a b). split_and!; [by apply strcmp_spec|done|by apply lex_cmp_eq].
  - unfold strchr. rewrite strchr_loop_spec by done. by destruct (first_of ch a).
  - unfold strrchr. rewrite strrchr_loop_spec by done. by destruct (last_of ch a).
  - unfold strchrs. by rewrite strchrs_loop_spec.
Qed.

Lemma str_search_correct_witness :
  strchr [47; 97; 47; 98; 0] 47 = Ret (Some 0) ∧ strrchr [47; 97; 47; 98; 0] 47 = Ret (Some 2).
Proof.
  assert (str_ok [47; 97; 47; 98]) as H1 by (repeat constructor; unfold char_ok; lia).
  destruct (str_search_correct [47; 97; 47; 98] [] [47; 97; 47; 98] [] 47 H1 H1
    ltac:(lia) ltac:(cbn; lia)) as (_ & Hf & Hl & _).
  split; [exact Hf|exact Hl].
Defined.

(** The bytes of a memory block. *)
Abbreviation bytes_ok := (Forall is_u8).

Lemma memcmp_loop_spec n a b :
  (n ≤ length a)%nat → (n ≤ length b)%nat → bytes_ok a → bytes_ok b →
  ∃ r, memcmp_loop n a b = Ret r ∧ (r = 0 ↔ take n a = take n b) ∧ (r = 0 ∨ r = 1 ∨ r = -1).
Proof.
  revert a b. induction n as [|n IH]; intros [|x a] [|y b] Ha Hb Ba Bb;
    cbn [length] in *; try lia; cbn [memcmp_loop take]; [by (exists 0; split_and!; auto)..|].
  apply Forall_cons in Ba as [? Ba]. apply Forall_cons in Bb as [? Bb].
  destruct (Z.eqb_spec (i8 x) (i8 y)) as [E|Hne].
  - apply i8_inj in E as ->; [|done..].
    destruct (IH a b ltac:(lia) ltac:(lia)) as (r & -> & Hr & ?); [done..|].
    exists r. split; [done|]. split; [rewrite Hr; split; congruence|done].
  - eexists. split; [done|]. split; [|destruct (Z.ltb_spec (i8 y) (i8 x)); lia].
    split; [destruct (Z.ltb_spec (i8 y) (i8 x)); lia|congruence].
Qed.

(** On blocks of at least [size] bytes [memset], [memcpy] and [memcmp]
    set, copy and compare exactly the first [size] bytes (comparison is 0 iff
    they are the same); a [memcpy] longer than its source or its destination
    leaves the object. *)
Theorem mem_blocks_correct a b size v :
  0 ≤ size → bytes_ok a → bytes_ok b →
  (size ≤ Z.of_nat (length a) →
    memset a v size = Ret (replicate (Z.to_nat size) (u8 v) ++ drop (Z.to_nat size) a)) ∧
  (size ≤ Z.of_nat (length a) → size ≤ Z.of_nat (length b) →
    memcpy a b size = Ret (take (Z.to_nat size) b ++ drop (Z.to_nat size) a) ∧
    ∃ r, memcmp a b size = Ret r ∧ (r = 0 ↔ take (Z.to_nat size) a = take (Z.to_nat size) b)) ∧
  (Z.of_nat (length a) < size ∨ Z.of_nat (length b) < size → memcpy a b size = Fault).
Proof.
  intros Hs Ha Hb. split_and!.
  - intros. apply memset_loop_spec. lia.
  - intros. split; [apply memcpy_loop_spec; lia|].
    destruct (memcmp_loop_spec (Z.to_nat size) a b) as (r & ? & ? & _); [lia..|done|done|].
    eauto.
  - intros. apply memcpy_loop_over. lia.
Qed.

Lemma mem_blocks_correct_witness :
  memset [1; 2; 3] 0 2 = Ret [0; 0; 3] ∧ memcpy [1; 2; 3] [200; 201; 202] 2 = Ret [200; 201; 3].
Proof.
  assert (bytes_ok [1; 2; 3]) as H1 by (repeat constructor; unfold is_u8; lia).
  assert (bytes_ok [200; 201; 202]) as H2 by (repeat constructor; unfold is_u8; lia).
  destruct (mem_blocks_correct [1; 2; 3] [200; 201; 202] 2 0 ltac:(lia) H1 H2)
    as (Hs & Hc & _).
  split; [exact (Hs ltac:(cbn; lia))|]. exact (proj1 (Hc ltac:(cbn; lia) ltac:(cbn; lia))).
Defined.
