(* ===== verification/Path.v ===== *)
(** * Path names (fs/fs.c, shell/buildin_cmd.c)

    [path_parse] and [path_depth_cnt] of the file system and the
    canonicalisation [wash_path]/[make_clear_abs_path] of the shell. A
    [char*] is the list of the bytes from it on; the [name] and path buffers
    are lists of their C length. The specifications speak of the list of
    components of a path. *)

From Stdlib Require Import ZArith Lia.
From stdpp Require Import base numbers list.
From S2P Require Import Prelude CString.

(** ** The functions *)

Definition MAX_FILE_NAME_LEN : Z := 16.
Definition MAX_PATH_LEN : Z := 512.

(** [while (pathname[1 + ...] == '/')], after the increment. *)
Fixpoint skip_slashes (pathname : list Z) : outcome (list Z) :=
  match pathname with
  | [] => Fault
  | c :: rest => if c =? 47 then skip_slashes rest else Ret pathname
  end.

(** Copies one component; it writes no terminator. *)
Fixpoint copy_name (pathname name_store : list Z) : outcome (list Z * list Z) :=
  match pathname with
  | [] => Fault
  | c :: rest =>
    if negb (c =? 47) && negb (c =? 0) then
      match name_store with
      | [] => Fault
      | _ :: ns => '(p, ns') ← copy_name rest ns; Ret (p, c :: ns')
      end
    else Ret (pathname, name_store)
  end.

(** The result is the rest of the path ([None] for NULL) and the new contents
    of [name_store]. *)
Definition path_parse (pathname name_store : list Z) : outcome (option (list Z) * list Z) :=
  match pathname with
  | [] => Fault
  | c :: rest =>
    p ← (if c =? 47 then skip_slashes rest else Ret pathname);
    '(p, ns) ← copy_name p name_store;
    c ← load p 0;
    Ret (if c =? 0 then None else Some p, ns)
  end.

(** [if (p) p = path_parse(p, name)] *)
Definition parse_next (p : option (list Z)) (name : list Z) : outcome (option (list Z) * list Z) :=
  match p with Some q => path_parse q name | None => Ret (None, name) end.

Fixpoint path_depth_loop (fuel : nat) (p : option (list Z)) (name : list Z) (depth : Z)
    : outcome Z :=
  match fuel with
  | O => Spin
  | S fuel =>
    c ← load name 0;
    if c =? 0 then Ret (i32 depth) else
    name ← memset name 0 MAX_FILE_NAME_LEN;
    '(p, name) ← parse_next p name;
    path_depth_loop fuel p name (u32 (depth + 1))
  end.

(** [name] is the uninitialised buffer on the stack. *)
Definition path_depth_cnt (name pathname : list Z) : outcome Z :=
  '(p, name) ← path_parse pathname name;
  path_depth_loop (S (S (length pathname))) p name 0.

(** One component of [wash_path]'s loop, applied to [new_abs_path]. *)
Definition wash_name (name new_abs_path : list Z) : outcome (list Z) :=
  r ← strcmp [46; 46; 0] name;
  if r =? 0 then
    slash_ptr ← strrchr new_abs_path 47;
    match slash_ptr with
    | None => Fault
    | Some o => if negb (o =? 0) then store new_abs_path o 0 else store new_abs_path (o + 1) 0
    end
  else
    r ← strcmp [46; 0] name;
    if negb (r =? 0) then
      r ← strcmp new_abs_path [47; 0];
      new_abs_path ← (if negb (r =? 0) then strcat new_abs_path [47; 0] else Ret new_abs_path);
      strcat new_abs_path name
    else Ret new_abs_path.

Fixpoint wash_loop (fuel : nat) (sub_path : option (list Z)) (name new_abs_path : list Z)
    : outcome (list Z) :=
  match fuel with
  | O => Spin
  | S fuel =>
    c ← load name 0;
    if c =? 0 then Ret new_abs_path else
    new_abs_path ← wash_name name new_abs_path;
    name ← memset name 0 MAX_FILE_NAME_LEN;
    '(sub_path, name) ← parse_next sub_path name;
    wash_loop fuel sub_path name new_abs_path
  end.

Definition wash_path (old_abs_path new_abs_path : list Z) : outcome (list Z) :=
  c ← load old_abs_path 0;
  _ ← assert_ (c =? 47);
  '(sub_path, name) ← path_parse old_abs_path (replicate (Z.to_nat MAX_FILE_NAME_LEN) 0);
  c ← load name 0;
  if c =? 0 then
    new_abs_path ← store new_abs_path 0 47;
    store new_abs_path 1 0
  else
    new_abs_path ← store new_abs_path 0 0;
    new_abs_path ← strcat new_abs_path [47; 0];
    wash_loop (S (S (length old_abs_path))) sub_path name new_abs_path.

(** [getcwd buf size] is the system call: [None] for a NULL result, else the
    new contents of the buffer. *)
Definition make_clear_abs_path (getcwd : list Z → Z → outcome (option (list Z)))
    (path final_path : list Z) : outcome (list Z) :=
  let abs_path := replicate (Z.to_nat MAX_PATH_LEN) 0 in
  c ← load path 0;
  abs_path ← (if negb (c =? 47) then
      abs_path ← memset abs_path 0 MAX_PATH_LEN;
      r ← getcwd abs_path MAX_PATH_LEN;
      match r with
      | Some abs_path =>
        c0 ← load abs_path 0; c1 ← load abs_path 1;
        if negb ((c0 =? 47) && (c1 =? 0)) then strcat abs_path [47; 0] else Ret abs_path
      | None => Ret abs_path
      end
    else Ret abs_path);
  abs_path ← strcat abs_path path;
  wash_path abs_path final_path.

(** ** Components of a path *)

Definition emit (cur : list Z) : list (list Z) := match cur with [] => [] | _ => [cur] end.

Fixpoint comps_go (p cur : list Z) : list (list Z) :=
  match p with
  | [] => emit cur
  | c :: p => if c =? 47 then emit cur ++ comps_go p [] else comps_go p (cur ++ [c])
  end.
(** The non-empty substrings between slashes. *)
Definition comps (p : list Z) : list (list Z) := comps_go p [].
#[global] Arguments comps : simpl never.

Abbreviation no_slash := (Forall (λ c, c ≠ 47)).
(** What is left after a component: nothing or a slash and more. *)
Definition boundary (q : list Z) : Prop := q = [] ∨ ∃ q', q = 47 :: q'.

Lemma comps_go_word w q cur :
  no_slash w → comps_go (w ++ q) cur = comps_go q (cur ++ w).
Proof.
  intros Hw. revert cur. induction Hw as [|c w Hc Hw IH]; intros cur; cbn.
  - by rewrite app_nil_r.
  - destruct (Z.eqb_spec c 47); [done|]. by rewrite IH, <-app_assoc.
Qed.

Lemma comps_go_boundary q cur : boundary q → comps_go q cur = emit cur ++ comps q.
Proof.
  intros [->|[q' ->]]; unfold comps; cbn; [by rewrite app_nil_r|done].
Qed.

Lemma comps_word w q :
  no_slash w → w ≠ [] → boundary q → comps (w ++ q) = w :: comps q.
Proof.
  intros Hw Hne Hq. unfold comps. rewrite comps_go_word by done.
  rewrite app_nil_l, comps_go_boundary by done. by destruct w.
Qed.

Lemma comps_slash p : comps (47 :: p) = comps p.
Proof. done. Qed.

Lemma comps_go_app_slash p q cur :
  comps_go (p ++ 47 :: q) cur = comps_go p cur ++ comps q.
Proof.
  revert cur. induction p as [|c p IH]; intros cur; cbn; [done|].
  destruct (Z.eqb_spec c 47); [by rewrite IH, <-app_assoc|apply IH].
Qed.

Lemma comps_app_slash p q : comps (p ++ 47 :: q) = comps p ++ comps q.
Proof. apply comps_go_app_slash. Qed.

Lemma split_word p : ∃ w q, p = w ++ q ∧ no_slash w ∧ boundary q.
Proof.
  induction p as [|c p (w & q & -> & Hw & Hq)]; [by exists [], []; repeat constructor|].
  destruct (decide (c = 47)) as [->|].
  - exists [], (47 :: w ++ q). split_and!; [done..|right; eauto].
  - exists (c :: w), q. split_and!; [done|by constructor|done].
Qed.

Lemma comps_go_wf p cur :
  str_ok p → no_slash cur → str_ok cur →
  Forall (λ w, str_ok w ∧ no_slash w ∧ w ≠ []) (comps_go p cur).
Proof.
  intros Hp. revert cur.
  assert (∀ cur, no_slash cur → str_ok cur →
    Forall (λ w, str_ok w ∧ no_slash w ∧ w ≠ []) (emit cur)) as He.
  { intros [|c cur] ??; [by apply Forall_nil|by apply Forall_singleton]. }
  induction Hp as [|c p Hc Hp IH]; intros cur Hn Hs; cbn; [auto|].
  destruct (Z.eqb_spec c 47).
  - apply Forall_app. auto.
  - apply IH; apply Forall_app; auto.
Qed.

Lemma comps_wf p :
  str_ok p → Forall (λ w, str_ok w ∧ no_slash w ∧ w ≠ []) (comps p).
Proof. intros. by apply comps_go_wf. Qed.

(** Bytes taken by the components with a slash before each. *)
Definition comps_size (cs : list (list Z)) : nat := sum_list_with (λ w, S (length w)) cs.

Lemma comps_go_size p cur :
  (comps_size (comps_go p cur) ≤ S (length cur) + length p)%nat.
Proof.
  revert cur. induction p as [|c p IH]; intros cur; cbn.
  - destruct cur; cbn; lia.
  - destruct (c =? 47).
    + unfold comps_size in *. rewrite sum_list_with_app. specialize (IH []). cbn in IH.
      destruct cur; cbn; lia.
    + etrans; [apply IH|]. rewrite length_app. cbn. lia.
Qed.

(** ** [path_parse] takes the first component *)

Lemma skip_slashes_spec p tl :
  str_ok p → ∃ q, skip_slashes (p ++ 0 :: tl) = Ret (q ++ 0 :: tl) ∧
    comps q = comps p ∧ (length q ≤ length p)%nat ∧ str_ok q ∧
    (q = [] ∨ ∃ c q', q = c :: q' ∧ c ≠ 47).
Proof.
  induction 1 as [|c p Hc Hp (q & IH & ? & ? & ? & ?)]; cbn.
  - exists []. split_and!; auto.
  - destruct (Z.eqb_spec c 47) as [->|].
    + exists q. rewrite IH. split_and!; try done; cbn; lia.
    + exists (c :: p). split_and!; [done|done|cbn; lia|by constructor|by eauto].
Qed.

Lemma copy_name_spec w q tl ns :
  str_ok w → no_slash w → boundary q → (length w ≤ length ns)%nat →
  copy_name (w ++ q ++ 0 :: tl) ns = Ret (q ++ 0 :: tl, w ++ drop (length w) ns).
Proof.
  intros Hs Hw Hq. revert ns. induction Hw as [|c w Hc Hw IH]; intros ns Hl.
  - destruct Hq as [->|[q' ->]]; done.
  - apply Forall_cons in Hs as [Hc' Hs]. destruct ns as [|n ns]; cbn in *; [lia|].
    rewrite char_ok_nz by done. destruct (Z.eqb_spec c 47); [done|]. cbn.
    by rewrite IH by (done || lia).
Qed.

Lemma copy_name_over w q tl ns :
  str_ok w → no_slash w → (length ns < length w)%nat →
  copy_name (w ++ q ++ 0 :: tl) ns = Fault.
Proof.
  intros Hs Hw. revert ns. induction Hw as [|c w Hc Hw IH]; intros ns Hl; cbn in *; [lia|].
  apply Forall_cons in Hs as [Hc' Hs]. rewrite char_ok_nz by done.
  destruct (Z.eqb_spec c 47); [done|]. cbn. destruct ns as [|x ns]; [done|].
  cbn in Hl. by rewrite IH by (done || lia).
Qed.

(** The rest of a path, as [path_parse] returns it. *)
Definition rest_ok (po : option (list Z)) (tl : list Z) (cs : list (list Z)) (n : nat) : Prop :=
  match po with
  | None => cs = []
  | Some r => ∃ q, r = q ++ 0 :: tl ∧ comps q = cs ∧ (length q < n)%nat ∧ str_ok q
  end.

Lemma path_parse_spec p tl ns :
  str_ok p →
  match comps p with
  | [] => path_parse (p ++ 0 :: tl) ns = Ret (None, ns)
  | w :: cs =>
    ((length w ≤ length ns)%nat → ∃ po,
      path_parse (p ++ 0 :: tl) ns = Ret (po, w ++ drop (length w) ns) ∧
      rest_ok po tl cs (length p)) ∧
    ((length ns < length w)%nat → path_parse (p ++ 0 :: tl) ns = Fault)
  end.
Proof.
  intros Hp.
  assert (∃ q, (∃ c r, p ++ 0 :: tl = c :: r ∧
     (if c =? 47 then skip_slashes r else Ret (p ++ 0 :: tl)) = Ret (q ++ 0 :: tl)) ∧
     comps q = comps p ∧ (length q ≤ length p)%nat ∧ str_ok q ∧
    (q = [] ∨ ∃ c q', q = c :: q' ∧ c ≠ 47)) as (q & (c & r & Hcr & Hsk) & Hcq & Hl & Hq & Hhd).
  { destruct Hp as [|c p Hc Hp]; [exists []; split; [by eexists 0, tl|split_and!; auto]|].
    destruct (decide (c = 47)) as [->|Hne].
    - destruct (skip_slashes_spec p tl Hp) as (q & ? & ? & ? & ? & ?).
      exists q. split_and!; [by eexists 47, _|done|cbn; lia|done|done].
    - exists (c :: p). split_and!; [exists c, (p ++ 0 :: tl)|..]; try done; [|by constructor|by eauto].
      split; [done|]. by destruct (Z.eqb_spec c 47). }
  rewrite <-Hcq. unfold path_parse. rewrite Hcr. cbn. rewrite <-Hcr, Hsk.
  destruct (split_word q) as (w & q' & -> & Hw & Hb).
  apply Forall_app in Hq as [Hsw Hsq].
  destruct (decide (w = [])) as [->|Hne].
  { destruct Hb as [->|[q'' ->]]; [done|]. naive_solver. }
  rewrite comps_word by done. rewrite <-app_assoc. split; intros Hlen; cbn.
  - rewrite copy_name_spec by done.
    destruct Hb as [->|[q'' ->]]; cbn; eexists; (split; [done|]); cbn; [done|].
    exists (47 :: q''). split_and!; [done|done| |done].
    rewrite length_app in Hl. destruct w; cbn in *; [done|lia].
  - by rewrite copy_name_over.
Qed.

(** ** The loops over the components *)

(** A component in the zeroed [name] buffer. *)
Definition namebuf (w : list Z) : list Z := w ++ replicate (16 - length w) 0.
#[global] Arguments namebuf : simpl never.
Abbreviation short := (Forall (λ w : list Z, (length w ≤ 16)%nat)).

Lemma memset_name name : length name = 16%nat → memset name 0 MAX_FILE_NAME_LEN = Ret (namebuf []).
Proof.
  intros Hl. unfold memset. change (Z.to_nat MAX_FILE_NAME_LEN) with 16%nat.
  rewrite memset_loop_spec by lia. by rewrite drop_ge by lia.
Qed.

Lemma namebuf_length w : (length w ≤ 16)%nat → length (namebuf w) = 16%nat.
Proof. intros. unfold namebuf. rewrite length_app, length_replicate. lia. Qed.

Lemma comps_head_nz p w cs name :
  str_ok p → comps p = w :: cs → ∃ c, load (w ++ name) 0 = Ret c ∧ (c =? 0) = false.
Proof.
  intros Hp Hw. apply comps_wf in Hp. rewrite Hw in Hp.
  apply Forall_cons in Hp as [(Hs & _ & Hne) _]. destruct Hs as [|c w Hc Hs]; [done|].
  exists c. split; [done|]. by apply char_ok_nz.
Qed.

(** One turn of the loops: the next component or the empty name. *)
Lemma parse_next_spec po tl cs n :
  rest_ok po tl cs n → short cs →
  match cs with
  | [] => ∃ po', parse_next po (namebuf []) = Ret (po', namebuf [])
  | w :: cs => ∃ po' n', parse_next po (namebuf []) = Ret (po', namebuf w) ∧
      rest_ok po' tl cs n' ∧
      ∃ c, load (namebuf w) 0 = Ret c ∧ (c =? 0) = false
  end.
Proof.
  destruct po as [r|]; cbn; [|intros -> _; by eexists].
  intros (q & -> & <- & _ & Hq) Hs. pose proof (path_parse_spec q tl (namebuf []) Hq) as H.
  destruct (comps q) as [|w cs] eqn:E; [by eexists|].
  apply Forall_cons in Hs as [Hw _]. destruct H as [H _].
  destruct (H ltac:(rewrite namebuf_length; cbn; lia)) as (po' & -> & Hr).
  assert (drop (length w) (namebuf []) = replicate (16 - length w) 0) as ->.
  { unfold namebuf. rewrite app_nil_l. by rewrite drop_replicate. }
  eexists po', _. split_and!; [done|done|]. by eapply comps_head_nz.
Qed.

Lemma path_depth_loop_spec fuel po tl cs n name c d :
  (S (length cs) < fuel)%nat → length name = 16%nat →
  load name 0 = Ret c → (c =? 0) = false → rest_ok po tl cs n → short cs →
  0 ≤ d → d + 1 + Z.of_nat (length cs) < 2147483648 →
  path_depth_loop fuel po name d = Ret (d + 1 + Z.of_nat (length cs)).
Proof.
  revert fuel po n name c d. induction cs as [|w cs IH];
    intros [|fuel] po n name c d Hf Hl Hc Hnz Hr Hs Hd Hb; cbn in Hf; try lia;
    cbn [path_depth_loop]; rewrite Hc; cbn; rewrite Hnz, memset_name by done; cbn;
    pose proof (parse_next_spec _ _ _ _ Hr Hs) as H.
  - destruct H as [po' ->]. cbn. destruct fuel as [|fuel]; [lia|]. cbn.
    change (load (namebuf []) 0) with (Ret 0). cbn in *.
    rewrite u32_id by (unfold is_u32; lia). rewrite i32_id by lia. f_equal. lia.
  - destruct H as (po' & n' & -> & Hr' & c' & Hc' & Hnz'). cbn.
    apply Forall_cons in Hs as [Hw Hs]. cbn [length] in *.
    rewrite u32_id by (unfold is_u32; lia).
    erewrite IH; [f_equal; lia|lia|by apply namebuf_length|done..|lia|lia].
Qed.

(** ** Canonical paths *)

Definition dot : list Z := [46].
Definition dotdot : list Z := [46; 46].

(** The stack of components, the last one first. *)
Definition norm_step (st : list (list Z)) (w : list Z) : list (list Z) :=
  if decide (w = dotdot) then tail st else if decide (w = dot) then st else w :: st.
Definition normalize (cs : list (list Z)) : list (list Z) := reverse (foldl norm_step [] cs).

(** The text of an absolute path. *)
Definition slashed (cs : list (list Z)) : list Z := concat (map (cons 47) cs).
Definition render (cs : list (list Z)) : list Z := match cs with [] => [47] | _ => slashed cs end.

Lemma slashed_snoc cs w : slashed (cs ++ [w]) = slashed cs ++ 47 :: w.
Proof. unfold slashed. by rewrite map_app, concat_app; cbn; rewrite app_nil_r. Qed.

Lemma slashed_nil cs : slashed cs = [] ↔ cs = [].
Proof. by destruct cs. Qed.

Lemma slashed_size cs : length (slashed cs) = comps_size cs.
Proof.
  induction cs as [|w cs IH]; [done|]. unfold slashed, comps_size in *. cbn.
  rewrite length_app, IH. cbn. lia.
Qed.

Lemma render_slashed cs : cs ≠ [] → render cs = slashed cs.
Proof. by destruct cs. Qed.

Definition name_wf (w : list Z) : Prop := str_ok w ∧ no_slash w ∧ w ≠ [].

Lemma slashed_str cs : Forall name_wf cs → str_ok (slashed cs).
Proof.
  induction 1 as [|w cs (Hs & _ & _) _ IH]; [constructor|]. unfold slashed in *. cbn.
  constructor; [unfold char_ok; lia|]. by apply Forall_app.
Qed.

Lemma render_str cs : Forall name_wf cs → str_ok (render cs).
Proof.
  intros. destruct cs; [constructor; [unfold char_ok; lia|constructor]|by apply slashed_str].
Qed.

(** The last slash is the one before the last component. *)
Lemma last_slash s w : no_slash w → last_of 47 (s ++ 47 :: w) = Some (Z.of_nat (length s)).
Proof.
  intros Hw. induction s as [|c s IH]; cbn [app].
  - assert (last_of 47 w = None) as Hn.
    { induction Hw as [|x w Hx Hw IH]; [done|]. rewrite last_of_cons, IH.
      by destruct (decide (47 = x)). }
    by rewrite last_of_cons, Hn.
  - rewrite last_of_cons, IH. cbn. f_equal. lia.
Qed.

(** Only "/" compares equal to "/". *)
Lemma render_root cs : Forall name_wf cs → lex_cmp (render cs) [47] = 0 ↔ cs = [].
Proof.
  intros Hwf. rewrite lex_cmp_eq by (by apply render_str || (repeat constructor; unfold char_ok; lia)).
  split; [|by intros ->]. destruct cs as [|w cs]; [done|].
  apply Forall_cons in Hwf as [(_ & _ & Hne) _]. unfold render, slashed. cbn. by destruct w.
Qed.

Lemma namebuf_str w :
  (length w ≤ 15)%nat → namebuf w = w ++ 0 :: replicate (15 - length w) 0.
Proof.
  intros. unfold namebuf. replace (16 - length w)%nat with (S (15 - length w)) by lia. done.
Qed.

(** [buf] holds the path of the stack [st]. *)
Definition holds (buf : list Z) (st : list (list Z)) : Prop :=
  ∃ rest, buf = render (reverse st) ++ 0 :: rest.

Lemma char_ok_slash : str_ok [47].
Proof. repeat constructor; unfold char_ok; lia. Qed.
Lemma dotdot_ok : str_ok dotdot.
Proof. repeat constructor; unfold char_ok; lia. Qed.
Lemma dot_ok : str_ok dot.
Proof. repeat constructor; unfold char_ok; lia. Qed.

Lemma store_mid {A} (x : list A) c y v : store (x ++ c :: y) (Z.of_nat (length x)) v = Ret (x ++ v :: y).
Proof.
  rewrite store_in by (rewrite length_app; cbn; lia). rewrite Nat2Z.id.
  rewrite insert_app_r_alt, Nat.sub_diag by done. done.
Qed.

Lemma store_0 {A} (y : A) l v : store (y :: l) 0 v = Ret (v :: l).
Proof. apply (store_mid [] y l v). Qed.
Lemma store_1 {A} (x y : A) l v : store (x :: y :: l) 1 v = Ret (x :: v :: l).
Proof. apply (store_mid [x] y l v). Qed.

(** Going up: the last slash is overwritten by the terminator. *)
Lemma wash_up st rest :
  Forall name_wf st →
  ∃ rest', (slash_ptr ← strrchr (render (reverse st) ++ 0 :: rest) 47;
    match slash_ptr with
    | None => Fault
    | Some o =>
      if negb (o =? 0) then store (render (reverse st) ++ 0 :: rest) o 0
      else store (render (reverse st) ++ 0 :: rest) (o + 1) 0
    end) = Ret (render (reverse (tail st)) ++ 0 :: rest').
Proof.
  intros Hst. unfold strrchr.
  rewrite strrchr_loop_spec by (lia || by apply render_str, Forall_reverse).
  destruct st as [|w st].
  - exists rest. apply (store_mid [47] 0 rest 0).
  - apply Forall_cons in Hst as [(Hs & Hn & Hne) Hst].
    rewrite reverse_cons, render_slashed by (by destruct (reverse st)).
    rewrite slashed_snoc, last_slash by done. cbn -[reverse slashed].
    destruct st as [|w' st]; cbn [tail].
    + exists (tail (w ++ 0 :: rest)). destruct w as [|x w]; [done|].
      apply (store_mid [47] x (w ++ 0 :: rest) 0).
    + destruct (Z.eqb_spec (0 + Z.of_nat (length (slashed (reverse (w' :: st))))) 0) as [E|_].
      { rewrite reverse_cons, slashed_snoc, length_app in E. cbn in E. lia. }
      exists (w ++ 0 :: rest). rewrite <-app_assoc. cbn -[reverse slashed]. rewrite Z.add_0_l, store_mid.
      rewrite render_slashed; [done|]. rewrite reverse_cons. by destruct (reverse st).
Qed.

(** Going down: a slash (unless at the root) and the name are appended. *)
Lemma wash_down w st rest :
  name_wf w → (length w ≤ 15)%nat → Forall name_wf st →
  (length (slashed (reverse st)) + S (length w) ≤ length (render (reverse st)) + length rest)%nat →
  ∃ rest', (r ← strcmp (render (reverse st) ++ 0 :: rest) [47; 0];
    new_abs_path ← (if negb (r =? 0) then strcat (render (reverse st) ++ 0 :: rest) [47; 0]
                    else Ret (render (reverse st) ++ 0 :: rest));
    strcat new_abs_path (namebuf w)) = Ret (render (reverse (w :: st)) ++ 0 :: rest').
Proof.
  intros (Hs & Hn & Hne) Hw Hst Hl. rewrite namebuf_str by done.
  assert (str_ok (render (reverse st))) as Hr by (by apply render_str, Forall_reverse).
  change [47; 0] with ([47] ++ 0 :: []).
  rewrite strcmp_spec by (done || apply char_ok_slash). cbn [mbind outcome_bind].
  pose proof (render_root (reverse st) (proj2 (Forall_reverse _ _) Hst)) as Hroot.
  rewrite reverse_cons, (render_slashed (_ ++ _)) by (by destruct (reverse st)).
  rewrite slashed_snoc.
  destruct (Z.eqb_spec (lex_cmp (render (reverse st)) [47]) 0) as [E|E]; cbn [negb mbind outcome_bind].
  - apply Hroot in E. rewrite E in *. cbn in Hl.
    rewrite strcat_spec by (done || cbn; lia). eauto.
  - assert (reverse st ≠ []) as Hnr by naive_solver. rewrite render_slashed in * by done.
    rewrite strcat_spec by (done || apply char_ok_slash || (cbn; lia)).
    cbn [mbind outcome_bind length]. rewrite app_assoc.
    rewrite strcat_spec; [|apply Forall_app; split; [done|apply char_ok_slash]|done|
      rewrite length_drop; lia].
    eexists. rewrite <-!app_assoc. done.
Qed.

Lemma strcat_length d s r : strcat d s = Ret r → length r = length d.
Proof.
  assert (∀ d s r, strcpy d s = Ret r → length r = length d) as Hc.
  { induction d0 as [|x d0 IH]; intros [|c s0] r0; cbn; try done.
    destruct (c =? 0); [by intros [= <-]|].
    intros (r1 & H1 & [= <-])%outcome_bind_Ret. cbn. f_equal. eauto. }
  revert r. induction d as [|x d IH]; intros r; cbn -[strcpy]; [done|].
  destruct (x =? 0); [apply Hc|].
  intros (r1 & H1 & [= <-])%outcome_bind_Ret. cbn. f_equal. eauto.
Qed.

Lemma wash_name_length w buf buf' : wash_name w buf = Ret buf' → length buf' = length buf.
Proof.
  assert (∀ (b : list Z) i x b', store b i x = Ret b' → length b' = length b) as Hst.
  { intros b i x b' [_ ->]%store_Ret. apply length_insert. }
  unfold wash_name. intros (r & _ & H)%outcome_bind_Ret. destruct (r =? 0).
  - apply outcome_bind_Ret in H as ([o|] & _ & H); [|done]. destruct (negb _); eauto.
  - apply outcome_bind_Ret in H as (r' & _ & H). destruct (negb _); [|by injection H as <-].
    apply outcome_bind_Ret in H as (r2 & _ & H). apply outcome_bind_Ret in H as (b & Hb & H).
    apply strcat_length in H. rewrite H. destruct (negb _); [by apply strcat_length in Hb|].
    by injection Hb as ->.
Qed.

Lemma wash_name_spec w st buf :
  name_wf w → (length w ≤ 15)%nat → Forall name_wf st → holds buf st →
  (length (slashed (reverse st)) + S (length w) < length buf)%nat →
  ∃ buf', wash_name (namebuf w) buf = Ret buf' ∧ length buf' = length buf ∧
    holds buf' (norm_step st w) ∧ Forall name_wf (norm_step st w) ∧
    (length (slashed (reverse (norm_step st w))) ≤ length (slashed (reverse st)) + S (length w))%nat.
Proof.
  intros Hw Hl Hst [rest ->] Hlen. pose proof Hw as (Hs & Hn & Hne).
  assert (∃ buf', wash_name (namebuf w) (render (reverse st) ++ 0 :: rest) = Ret buf' ∧
    holds buf' (norm_step st w)) as (buf' & Hbuf & Hh).
  { unfold wash_name, norm_step. rewrite namebuf_str by done.
    change [46; 46; 0] with (dotdot ++ 0 :: []).
    rewrite strcmp_spec by (done || apply dotdot_ok). cbn [mbind outcome_bind].
    pose proof (lex_cmp_eq dotdot w dotdot_ok Hs) as H1.
    pose proof (lex_cmp_eq dot w dot_ok Hs) as H2.
    destruct (Z.eqb_spec (lex_cmp dotdot w) 0) as [E|E].
    - rewrite decide_True by naive_solver.
      destruct (wash_up st rest Hst) as [rest' ->]. eexists. split; [done|by eexists].
    - rewrite decide_False by naive_solver. change [46; 0] with (dot ++ 0 :: []).
      rewrite strcmp_spec by (done || apply dot_ok). cbn [mbind outcome_bind].
      destruct (Z.eqb_spec (lex_cmp dot w) 0) as [E'|E']; cbn [negb].
      + rewrite decide_True by naive_solver. eexists. split; [done|by eexists].
      + rewrite decide_False by naive_solver. rewrite <-namebuf_str by done.
        destruct (wash_down w st rest) as [rest' ->]; [done..| |].
        { rewrite length_app in Hlen. cbn in Hlen. lia. }
        eexists. split; [done|by eexists]. }
  exists buf'. pose proof (wash_name_length _ _ _ Hbuf). split_and!; try done.
  - unfold norm_step. repeat case_decide; [|done|by constructor].
    destruct Hst; [constructor|done].
  - unfold norm_step. repeat case_decide; [|lia|].
    + destruct st as [|w' st]; [cbn; lia|]. cbn [tail].
      rewrite (reverse_cons st w'), slashed_snoc, length_app. lia.
    + rewrite reverse_cons, slashed_snoc, length_app. cbn. lia.
Qed.

Abbreviation fits := (Forall (λ w : list Z, (length w ≤ 15)%nat)).

Lemma fits_short cs : fits cs → short cs.
Proof. intros H. eapply Forall_impl; [exact H|]. cbn. lia. Qed.

Lemma wash_loop_spec fuel po tl cs n w st buf :
  (S (length cs) < fuel)%nat → Forall name_wf (w :: cs) → fits (w :: cs) →
  rest_ok po tl cs n → holds buf st → Forall name_wf st →
  (length (slashed (reverse st)) + comps_size (w :: cs) < length buf)%nat →
  ∃ buf', wash_loop fuel po (namebuf w) buf = Ret buf' ∧ length buf' = length buf ∧
    holds buf' (foldl norm_step st (w :: cs)).
Proof.
  revert fuel po n w st buf. induction cs as [|w2 cs IH];
    intros [|fuel] po n w st buf Hf [Hw Hwf]%Forall_cons [Hl Hfit]%Forall_cons Hr Hh Hst Hb;
    cbn [length] in Hf; try lia; unfold comps_size in Hb; cbn [sum_list_with] in Hb;
    destruct (wash_name_spec w st buf) as (b1 & Hb1 & Hl1 & Hh1 & Hst1 & Hs1); try done; try lia;
    cbn [wash_loop]; destruct Hw as (Hs & Hn & Hne);
    (destruct w as [|c w]; [done|]); apply Forall_cons in Hs as [Hc Hs];
    change (load (namebuf (c :: w)) 0) with (Ret c : outcome Z); cbn [mbind outcome_bind];
    rewrite char_ok_nz by done; rewrite Hb1; cbn [mbind outcome_bind];
    rewrite memset_name by (apply namebuf_length; lia); cbn [mbind outcome_bind];
    pose proof (parse_next_spec _ _ _ _ Hr (fits_short _ Hfit)) as H.
  - destruct H as [po' ->]. cbn [mbind outcome_bind]. destruct fuel as [|fuel]; [lia|].
    exists b1. done.
  - destruct H as (po' & n' & -> & Hr' & _). cbn [mbind outcome_bind].
    destruct (IH fuel po' n' w2 (norm_step st (c :: w)) b1) as (b2 & -> & Hl2 & Hh2); try done.
    + lia.
    + unfold comps_size. cbn [sum_list_with]. lia.
    + exists b2. split_and!; [done|lia|done].
Qed.

Lemma comps_slashed cs : Forall name_wf cs → comps (slashed cs) = cs.
Proof.
  induction 1 as [|w cs (Hs & Hn & Hne) Hcs IH]; [done|].
  unfold slashed in *. cbn [map concat app]. rewrite comps_slash, comps_word; [by rewrite IH|done..|].
  destruct cs; [by left|right; by eexists].
Qed.

Lemma comps_render cs : Forall name_wf cs → comps (render cs) = cs.
Proof. destruct cs; [done|apply comps_slashed]. Qed.

Lemma norm_step_clean st w :
  Forall (λ w, w ≠ dot ∧ w ≠ dotdot) st → Forall (λ w, w ≠ dot ∧ w ≠ dotdot) (norm_step st w).
Proof.
  intros Hst. unfold norm_step. repeat case_decide; [|done|by constructor].
  by destruct Hst; [apply Forall_nil|].
Qed.

Lemma norm_foldl_ind (P : list Z → Prop) st cs :
  Forall P st → Forall P cs → Forall P (foldl norm_step st cs).
Proof.
  intros Hst Hcs. revert st Hst. induction Hcs as [|w cs Hw Hcs IH]; intros st Hst; [done|].
  cbn. apply IH. unfold norm_step. repeat case_decide; [|done|by constructor].
  by destruct Hst; [apply Forall_nil|].
Qed.

Lemma normalize_clean cs : Forall (λ w, w ≠ dot ∧ w ≠ dotdot) (normalize cs).
Proof.
  unfold normalize. apply Forall_reverse. generalize (Forall_nil_2 (λ w, w ≠ dot ∧ w ≠ dotdot)).
  generalize (@nil (list Z)). induction cs as [|w cs IH]; intros st Hst; [done|].
  cbn. by apply IH, norm_step_clean.
Qed.

Lemma normalize_idem cs :
  Forall (λ w, w ≠ dot ∧ w ≠ dotdot) cs → normalize cs = cs.
Proof.
  intros Hcs. unfold normalize.
  assert (∀ st, foldl norm_step st cs = reverse cs ++ st) as ->.
  { induction Hcs as [|w cs [H1 H2] _ IH]; intros st; [done|].
    cbn [foldl]. rewrite IH, reverse_cons, <-app_assoc. unfold norm_step.
    by rewrite !decide_False. }
  by rewrite app_nil_r, reverse_involutive.
Qed.

Lemma normalize_wf cs : Forall name_wf cs → Forall name_wf (normalize cs).
Proof. intros. by apply Forall_reverse, norm_foldl_ind. Qed.

Lemma wash_path_spec p tl buf :
  str_ok p → fits (comps p) → (S (length p) < length buf)%nat →
  ∃ rest, wash_path (47 :: p ++ 0 :: tl) buf = Ret (render (normalize (comps p)) ++ 0 :: rest) ∧
    length (render (normalize (comps p)) ++ 0 :: rest) = length buf.
Proof.
  intros Hp Hf Hb. unfold wash_path. cbn -[path_parse replicate wash_loop].
  assert (str_ok (47 :: p)) as Hp' by (constructor; [unfold char_ok; lia|done]).
  pose proof (path_parse_spec (47 :: p) tl (replicate (Z.to_nat MAX_FILE_NAME_LEN) 0) Hp') as H.
  pose proof (comps_wf p Hp) as Hwf. pose proof (comps_go_size p []) as Hsz. fold (comps p) in Hsz.
  rewrite comps_slash in H. cbn [app] in H.
  destruct (comps p) as [|w cs] eqn:E.
  - rewrite H. cbn. destruct buf as [|b0 [|b1 buf]]; cbn in Hb; [lia|lia|].
    exists buf. rewrite store_0. cbn. by rewrite store_1.
  - pose proof (Forall_inv Hf) as Hl. cbn in Hl. destruct H as [H _].
    change (Z.to_nat MAX_FILE_NAME_LEN) with 16%nat in *.
    destruct H as (po & -> & Hr). { rewrite length_replicate. lia. }
    assert (w ++ drop (length w) (replicate 16 0) = namebuf w) as ->.
    { unfold namebuf. rewrite drop_replicate. done. }
    cbn [mbind outcome_bind].
    assert (∃ c, load (namebuf w) 0 = Ret c ∧ (c =? 0) = false) as (c & -> & Hnz)
      by by eapply comps_head_nz.
    cbn [mbind outcome_bind]. rewrite Hnz.
    destruct buf as [|b0 buf]; cbn in Hb; [lia|].
    rewrite store_0. cbn [mbind outcome_bind app].
    change [47; 0] with ([47] ++ 0 :: []). change (0 :: buf) with ([] ++ 0 :: buf).
    rewrite strcat_spec by (apply char_ok_slash || constructor || (cbn; lia)).
    cbn [mbind outcome_bind app length]. destruct buf as [|b1 buf]; [cbn in Hb; lia|].
    destruct (wash_loop_spec (S (S (length (47 :: p ++ 0 :: tl)))) po tl cs (length (47 :: p)) w []
      (47 :: 0 :: drop 1 (b1 :: buf))) as (b & Hw & Hl' & [rest Hh]); try done.
    + assert (length (w :: cs) ≤ comps_size (w :: cs))%nat.
      { unfold comps_size. clear. induction (w :: cs) as [|x l IH]; cbn; lia. }
      cbn in *. rewrite length_app. lia.
    + by exists (drop 1 (b1 :: buf)).
    + change (length (slashed (reverse []))) with O.
      change (length (47 :: 0 :: drop 1 (b1 :: buf))) with (S (S (length buf))).
      cbn [length] in *. lia.
    + exists rest. split; [etrans; [exact Hw|by rewrite Hh]|].
      unfold normalize. by rewrite <-Hh, Hl'.
Qed.

Lemma comps_size_length cs : (length cs ≤ comps_size cs)%nat.
Proof. unfold comps_size. induction cs; cbn; lia. Qed.

Lemma path_depth_loop_over fuel po tl cs n name c d :
  (S (length cs) < fuel)%nat → length name = 16%nat →
  load name 0 = Ret c → (c =? 0) = false → rest_ok po tl cs n → ¬ short cs →
  path_depth_loop fuel po name d = Fault.
Proof.
  revert fuel po n name c d. induction cs as [|w cs IH];
    intros [|fuel] po n name c d Hf Hl Hc Hnz Hr Hs; cbn in Hf; try lia; [by destruct Hs|].
  cbn [path_depth_loop]. rewrite Hc. cbn. rewrite Hnz, memset_name by done. cbn.
  destruct po as [r|]; [|done]. destruct Hr as (q & -> & Hq & Hlq & Hsq). cbn [parse_next].
  pose proof (path_parse_spec q tl (namebuf []) Hsq) as H. rewrite Hq in H.
  rewrite namebuf_length in H by (cbn; lia). destruct H as [Hin Hout].
  destruct (decide (length w ≤ 16)%nat) as [Hw|Hw]; [|rewrite Hout by lia; done].
  destruct (Hin Hw) as (po' & -> & Hr'). cbn.
  destruct (comps_head_nz _ _ _ (drop (length w) (namebuf [])) Hsq Hq) as (c' & ? & ?).
  eapply IH; [lia| |done..|].
  - rewrite length_app, length_drop, namebuf_length by (cbn; lia). lia.
  - intros ?. destruct Hs. by constructor.
Qed.

(** ** Properties *)

(** [path_depth_cnt] of an absolute or relative path with at least one
    component is the number of its components, whatever the uninitialised
    [name] buffer held; it reads past its 16-byte [name] buffer exactly when
    some component is longer than 16 characters. *)
Theorem path_depth_cnt_correct p tl name :
  str_ok p → comps p ≠ [] → length name = 16%nat → Z.of_nat (length p) < 2147483647 →
  (short (comps p) → path_depth_cnt name (p ++ 0 :: tl) = Ret (Z.of_nat (length (comps p)))) ∧
  (¬ short (comps p) → path_depth_cnt name (p ++ 0 :: tl) = Fault).
Proof.
  intros Hp Hne Hl Hlen. unfold path_depth_cnt.
  pose proof (path_parse_spec p tl name Hp) as H.
  pose proof (comps_go_size p []) as Hsz. fold (comps p) in Hsz. cbn [length] in Hsz.
  pose proof (comps_size_length (comps p)).
  destruct (comps p) as [|w cs] eqn:E; [done|]. rewrite Hl in H. destruct H as [Hin Hout].
  cbn [length] in *.
  assert (length (w ++ drop (length w) name) = 16%nat ∨ (16 < length w)%nat) as Hb.
  { rewrite length_app, length_drop. lia. }
  destruct (comps_head_nz _ _ _ (drop (length w) name) Hp E) as (c & Hc & Hnz).
  split; intros Hs.
  - apply Forall_cons in Hs as [Hw Hs]. destruct (Hin Hw) as (po & -> & Hr). cbn [mbind outcome_bind].
    erewrite (path_depth_loop_spec _ _ tl cs); [f_equal; lia| |lia|done..|lia|lia].
    rewrite length_app. cbn. lia.
  - destruct (decide (length w ≤ 16)%nat) as [Hw|Hw]; [|rewrite Hout by lia; done].
    destruct (Hin Hw) as (po & -> & Hr). cbn [mbind outcome_bind].
    eapply path_depth_loop_over; [|lia|done..|].
    + rewrite length_app. cbn. lia.
    + intros ?. destruct Hs. by constructor.
Qed.

Lemma path_depth_cnt_correct_witness :
  path_depth_cnt (replicate 16 165) [47; 97; 47; 47; 98; 99; 0] = Ret 2.
Proof.
  assert (str_ok [47; 97; 47; 47; 98; 99]) as H1 by (repeat constructor; unfold char_ok; lia).
  destruct (path_depth_cnt_correct [47; 97; 47; 47; 98; 99] [] (replicate 16 165) H1
    ltac:(done) ltac:(done) ltac:(cbn; lia)) as [H _].
  apply H. repeat constructor; cbn; lia.
Defined.

(** C31: [wash_path] turns an absolute path whose components have at most 15
    characters into the canonical path of its normalised component list ("."
    dropped, ".." going up, never above the root), within the destination
    buffer; the result has neither "." nor ".." and washing it changes nothing. *)
Theorem wash_path_correct p tl buf :
  str_ok p → fits (comps p) → (S (length p) < length buf)%nat →
  ∃ rest, wash_path (47 :: p ++ 0 :: tl) buf = Ret (render (normalize (comps p)) ++ 0 :: rest) ∧
    length (render (normalize (comps p)) ++ 0 :: rest) = length buf ∧
    Forall (λ w, w ≠ dot ∧ w ≠ dotdot) (comps (render (normalize (comps p)))) ∧
    normalize (comps (render (normalize (comps p)))) = normalize (comps p).
Proof.
  intros Hp Hf Hb. destruct (wash_path_spec p tl buf Hp Hf Hb) as (rest & Hw & Hl).
  exists rest. rewrite comps_render by (by apply normalize_wf, comps_wf).
  split_and!; [done|done|apply normalize_clean|]. apply normalize_idem, normalize_clean.
Qed.

Lemma wash_path_correct_witness :
  ∃ rest, wash_path [47; 97; 47; 46; 46; 47; 46; 47; 98; 0] (replicate 12 7) =
    Ret (47 :: 98 :: 0 :: rest).
Proof.
  assert (str_ok [97; 47; 46; 46; 47; 46; 47; 98]) as H1
    by (repeat constructor; unfold char_ok; lia).
  assert (fits (comps [97; 47; 46; 46; 47; 46; 47; 98])) as H2 by (repeat constructor; cbn; lia).
  destruct (wash_path_correct [97; 47; 46; 46; 47; 46; 47; 98] [] (replicate 12 7) H1 H2
    ltac:(cbn; lia)) as (rest & H & _).
  exists rest. exact H.
Defined.

(** With a working [getcwd], [make_clear_abs_path] canonicalises an
    absolute path as it is and a relative one below the current directory. *)
Theorem make_clear_abs_path_correct getcwd cwd tlc p tl buf :
  getcwd (replicate 512 0) MAX_PATH_LEN = Ret (Some (47 :: cwd ++ 0 :: tlc)) →
  str_ok cwd → length (47 :: cwd ++ 0 :: tlc) = 512%nat → str_ok p → p ≠ [] → (length cwd + length p + 2 < 512)%nat → length buf = 512%nat →
  let cs := if decide (head p = Some 47) then comps p else comps cwd ++ comps p in
  fits cs →
  ∃ rest, make_clear_abs_path getcwd (p ++ 0 :: tl) buf = Ret (render (normalize cs) ++ 0 :: rest).
Proof.
  intros Hcwd Hsc Hlc Hp Hne Hlen Hb cs. subst cs. intros Hfit.
  unfold make_clear_abs_path. change (Z.to_nat MAX_PATH_LEN) with 512%nat.
  destruct p as [|c p]; [done|]. change (load ((c :: p) ++ 0 :: tl) 0) with (Ret c).
  cbn [head length] in Hfit, Hlen |- *. cbn [mbind outcome_bind]. rewrite length_cons in Hlc.
  assert (str_ok (47 :: cwd)) as Hsc' by (constructor; [unfold char_ok; lia|done]).
  rewrite length_app, length_cons in Hlc.
  destruct (Z.eqb_spec c 47) as [->|Hc]; cbn [negb mbind outcome_bind].
  - rewrite decide_True in Hfit |- * by done. change (replicate 512 0) with ([] ++ 0 :: replicate 511 0).
    rewrite strcat_spec by (done || (rewrite length_replicate; cbn; lia) || apply Forall_nil_2).
    cbn [app mbind outcome_bind]. apply Forall_cons in Hp as [_ Hp].
    destruct (wash_path_spec p (drop (length (47 :: p)) (replicate 511 0)) buf Hp)
      as (rest & Hw & _); [exact Hfit|lia|]. by exists rest.
  - rewrite decide_False in Hfit |- * by congruence.
    unfold memset. change (Z.to_nat MAX_PATH_LEN) with 512%nat.
    rewrite memset_loop_spec by done. rewrite drop_ge, app_nil_r by done.
    cbn [mbind outcome_bind]. change (u8 0) with 0. rewrite Hcwd. cbn [mbind outcome_bind].
    change (load (47 :: cwd ++ 0 :: tlc) 0) with (Ret 47). cbn [mbind outcome_bind].
    destruct cwd as [|c' cwd].
    + change (load (47 :: [] ++ 0 :: tlc) 1) with (Ret 0). cbn [mbind outcome_bind]. rewrite !Z.eqb_refl.
      cbn [negb andb mbind outcome_bind].
      change (47 :: [] ++ 0 :: tlc) with ([47] ++ 0 :: tlc).
      rewrite strcat_spec by (done || apply char_ok_slash || (cbn in *; lia)).
      destruct (wash_path_spec (c :: p) (drop (length (c :: p)) tlc) buf Hp)
        as (rest & Hw & _); [exact Hfit|cbn; lia|]. by exists rest.
    + change (load (47 :: (c' :: cwd) ++ 0 :: tlc) 1) with (Ret c'). cbn [mbind outcome_bind].
      apply Forall_cons in Hsc as [Hc' Hsc]. rewrite char_ok_nz by done. rewrite andb_false_r.
      cbn [negb]. change [47; 0] with ([47] ++ 0 :: []).
      change (47 :: (c' :: cwd) ++ 0 :: tlc) with ((47 :: c' :: cwd) ++ 0 :: tlc).
      rewrite strcat_spec by (done || apply char_ok_slash || (cbn in *; lia)).
      cbn [mbind outcome_bind]. rewrite app_assoc.
      rewrite strcat_spec; [|apply Forall_app; split; [done|apply char_ok_slash]|done|
        rewrite length_drop; cbn in *; lia].
      rewrite <-!app_assoc. cbn [mbind outcome_bind].
      assert (str_ok (c' :: cwd ++ 47 :: c :: p)) as Hs.
      { constructor; [done|]. apply Forall_app; split; [done|].
        constructor; [unfold char_ok; lia|done]. }
      assert (comps (c' :: cwd ++ 47 :: c :: p) = comps (c' :: cwd) ++ comps (c :: p)) as Hcs
        by apply (comps_app_slash (c' :: cwd)).
      destruct (wash_path_spec (c' :: cwd ++ 47 :: c :: p)
        (drop (length (c :: p)) (drop (length [47]) tlc)) buf Hs) as (rest & Hw & _).
      * by rewrite Hcs.
      * cbn in *. rewrite length_app. cbn. lia.
      * exists rest. rewrite Hcs in Hw. cbn [app] in *. rewrite <-app_assoc in Hw. exact Hw.
Qed.

Lemma make_clear_abs_path_correct_witness :
  ∃ rest, make_clear_abs_path (λ _ _, Ret (Some (47 :: 100 :: 0 :: replicate 509 0)))
    [46; 46; 47; 98; 0] (replicate 512 7) = Ret (47 :: 98 :: 0 :: rest).
Proof.
  assert (str_ok [100]) as H1 by (repeat constructor; unfold char_ok; lia).
  assert (str_ok [46; 46; 47; 98]) as H2 by (repeat constructor; unfold char_ok; lia).
  apply (make_clear_abs_path_correct (λ _ _, Ret (Some (47 :: 100 :: 0 :: replicate 509 0)))
    [100] (replicate 509 0) [46; 46; 47; 98] [] (replicate 512 7)); try done; [cbn; lia|].
  repeat constructor; cbn; lia.
Defined.
