(* ===== verification/Paging.v ===== *)
(** * Page tables (kernel/memory.c: pte_ptr, pde_ptr, addr_v2p, page_table_pte_remove)

    Physical memory is a map from dword addresses to 32-bit words. [walk] is
    the translation of the processor (two levels, 4 KB pages); the kernel
    reaches the page tables only through virtual addresses, so every access
    of the C code goes through [walk]. *)

From Stdlib Require Import ZArith Lia.
From stdpp Require Import base numbers list gmap.
From S2P Require Import Prelude.

(** ** The machine *)

Record pmem := PMem { phys : gmap Z Z; cr3 : Z }.

Definition PDE_IDX (addr : Z) : Z := Z.shiftr (Z.land addr 0xffc00000) 22.
Definition PTE_IDX (addr : Z) : Z := Z.shiftr (Z.land addr 0x003ff000) 12.
(** The frame number bits and the present bit of an entry. *)
Definition frame (e : Z) : Z := Z.land e 0xfffff000.
Definition present (e : Z) : bool := negb (Z.land e 1 =? 0).

(** Physical addresses of the page directory entry and page table entry of
    a virtual address. *)
Definition pde_slot (m : pmem) (v : Z) : Z := frame (cr3 m) + PDE_IDX v * 4.
Definition pte_slot (m : pmem) (v : Z) : option Z :=
  match phys m !! pde_slot m v with
  | Some pde => if present pde then Some (frame pde + PTE_IDX v * 4) else None
  | None => None
  end.
Definition walk (m : pmem) (v : Z) : option Z :=
  match pte_slot m v with
  | Some a =>
    match phys m !! a with
    | Some pte => if present pte then Some (frame pte + Z.land v 0xfff) else None
    | None => None
    end
  | None => None
  end.

(** [*p] and [*p = w] for a [uint32_t* p]: a page fault if unmapped. *)
Definition load32 (p : Z) : M pmem Z := λ m,
  match walk m p with
  | Some a => match phys m !! a with Some w => Ret (w, m) | None => Fault end
  | None => Fault
  end.
Definition store32 (p w : Z) : M pmem unit := λ m,
  match walk m p with
  | Some a =>
    match phys m !! a with
    | Some _ => Ret ((), PMem (<[a := u32 w]> (phys m)) (cr3 m))
    | None => Fault
    end
  | None => Fault
  end.

(** ** The kernel's functions *)

Definition pte_ptr (vaddr : Z) : Z :=
  u32 (0xffc00000 + Z.shiftr (Z.land vaddr 0xffc00000) 10 + PTE_IDX vaddr * 4).
Definition pde_ptr (vaddr : Z) : Z := u32 (0xfffff000 + PDE_IDX vaddr * 4).

Definition addr_v2p (vaddr : Z) : M pmem Z :=
  pte ← load32 (pte_ptr vaddr);
  mret (u32 (Z.land pte 0xfffff000 + Z.land vaddr 0x00000fff)).

(** [*pte &= ~PG_P_1]; the TLB is not modelled, so [invlpg] is a no-op. *)
Definition page_table_pte_remove (vaddr : Z) : M pmem unit :=
  pte ← load32 (pte_ptr vaddr);
  store32 (pte_ptr vaddr) (Z.land pte (Z.lnot 1)).

(** ** Masks are divisions *)

Lemma land_high v k : 0 ≤ k → 0 ≤ v < 4294967296 → k ≤ 32 →
  Z.land v (2 ^ 32 - 2 ^ k) = v / 2 ^ k * 2 ^ k.
Proof.
  intros Hk Hv Hk'. replace (2 ^ 32 - 2 ^ k) with (Z.shiftl (Z.ones (32 - k)) k).
  2:{ rewrite Z.shiftl_mul_pow2, Z.ones_equiv by lia.
      replace (2 ^ 32) with (2 ^ (32 - k) * 2 ^ k) by (rewrite <-Z.pow_add_r by lia; f_equal; lia).
      lia. }
  rewrite <-Z.shiftr_div_pow2, <-Z.shiftl_mul_pow2 by lia.
  apply Z.bits_inj_iff'. intros n Hn. rewrite Z.land_spec, !Z.shiftl_spec by lia.
  destruct (Z.lt_ge_cases n k).
  - rewrite (Z.testbit_neg_r (Z.ones _)), (Z.testbit_neg_r (Z.shiftr _ _)) by lia.
    apply andb_false_r.
  - rewrite Z.shiftr_spec, Z.testbit_ones by lia. replace (n - k + k) with n by lia.
    destruct (Z.lt_ge_cases n 32) as [Hn32|Hn32].
    + destruct (Z.leb_spec 0 (n - k)), (Z.ltb_spec (n - k) (32 - k)); try lia. apply andb_true_r.
    + destruct (Z.ltb_spec (n - k) (32 - k)); [lia|].
      rewrite (andb_false_r (0 <=? n - k)), andb_false_r. symmetry.
      destruct (decide (v = 0)) as [->|Hv0]; [apply Z.bits_0|].
      apply Z.bits_above_log2; [lia|].
      assert (Z.log2 v < 32); [|lia]. apply Z.log2_lt_pow2; lia.
Qed.

Lemma frame_eq v : is_u32 v → frame v = v / 4096 * 4096.
Proof. intros. apply (land_high v 12); done. Qed.
Lemma dir_part v : is_u32 v → Z.land v 0xffc00000 = v / 4194304 * 4194304.
Proof. intros. apply (land_high v 22); done. Qed.
Lemma land_fff v : Z.land v 0xfff = v mod 4096.
Proof. apply (Z.land_ones v 12). done. Qed.
Lemma PDE_IDX_eq v : is_u32 v → PDE_IDX v = v / 4194304.
Proof.
  intros. unfold PDE_IDX. rewrite dir_part, Z.shiftr_div_pow2 by done. zlia.
Qed.
Lemma PTE_IDX_eq v : is_u32 v → PTE_IDX v = v / 4096 mod 1024.
Proof.
  intros. unfold PTE_IDX.
  change 0x003ff000 with (Z.shiftl (Z.ones 10) 12).
  rewrite Z.shiftr_land, Z.shiftr_shiftl_l, Z.shiftr_div_pow2 by done.
  change (12 - 12) with 0. rewrite Z.shiftl_0_r. by apply Z.land_ones.
Qed.

Lemma PDE_IDX_range v : is_u32 v → 0 ≤ PDE_IDX v < 1024.
Proof. intros. rewrite PDE_IDX_eq by done. zlia. Qed.
Lemma PTE_IDX_range v : is_u32 v → 0 ≤ PTE_IDX v < 1024.
Proof. intros. rewrite PTE_IDX_eq by done. zlia. Qed.

Lemma pte_ptr_eq v : is_u32 v → pte_ptr v = 1023 * 4194304 + PDE_IDX v * 4096 + PTE_IDX v * 4.
Proof.
  intros H. unfold pte_ptr. rewrite dir_part, PDE_IDX_eq by done.
  pose proof (PTE_IDX_range v H). rewrite Z.shiftr_div_pow2 by done. zlia.
Qed.
Lemma pde_ptr_eq v : is_u32 v → pde_ptr v = 1023 * 4194304 + 1023 * 4096 + PDE_IDX v * 4.
Proof.
  intros H. unfold pde_ptr. pose proof (PDE_IDX_range v H). zlia.
Qed.

(** The parts of an address in the page table window. *)
Lemma window_parts v : is_u32 v →
  is_u32 (pte_ptr v) ∧ PDE_IDX (pte_ptr v) = 1023 ∧ PTE_IDX (pte_ptr v) = PDE_IDX v ∧
  Z.land (pte_ptr v) 0xfff = PTE_IDX v * 4.
Proof.
  intros H. pose proof (PDE_IDX_range v H). pose proof (PTE_IDX_range v H).
  assert (is_u32 (pte_ptr v)) as Hp by (rewrite pte_ptr_eq by done; unfold is_u32; lia).
  rewrite (PDE_IDX_eq (pte_ptr v)), (PTE_IDX_eq (pte_ptr v)), land_fff by done.
  rewrite pte_ptr_eq by done. split_and!; [zlia..].
Qed.

Lemma pde_window v : is_u32 v → pde_ptr v = pte_ptr (pte_ptr v) - PTE_IDX (pte_ptr v) * 4 + PDE_IDX v * 4.
Proof.
  intros H. pose proof (window_parts v H) as (Hp & Hd & Ht & _).
  rewrite (pte_ptr_eq (pte_ptr v)), pde_ptr_eq, Hd, Ht by done. lia.
Qed.

(** ** The recursive entry *)

(** The last entry of the page directory refers to the directory itself. *)
Record self_map (m : pmem) : Prop := {
  sm_cr3 : is_u32 (cr3 m);
  sm_entry : ∃ e, phys m !! (frame (cr3 m) + 1023 * 4) = Some e ∧ present e = true ∧
    frame e = frame (cr3 m)
}.

Lemma self_slot m v : self_map m → is_u32 v → PDE_IDX v = 1023 →
  pte_slot m v = Some (frame (cr3 m) + PTE_IDX v * 4).
Proof.
  intros [_ (e & He & Hp & Hf)] Hv Hi. unfold pte_slot, pde_slot. by rewrite Hi, He, Hp, Hf.
Qed.

Lemma walk_pte_ptr m v : self_map m → is_u32 v → walk m (pte_ptr v) = pte_slot m v.
Proof.
  intros Hm Hv. destruct (window_parts v Hv) as (Hp & Hd & Ht & Ho).
  unfold walk. rewrite (self_slot m), Ht, Ho by done. unfold pte_slot. fold (pde_slot m v).
  done.
Qed.

Lemma walk_pde_ptr m v : self_map m → is_u32 v → walk m (pde_ptr v) = Some (pde_slot m v).
Proof.
  intros Hm Hv. pose proof (PDE_IDX_range v Hv).
  assert (is_u32 (pde_ptr v)) as Hp by (rewrite pde_ptr_eq by done; unfold is_u32; lia).
  assert (PDE_IDX (pde_ptr v) = 1023 ∧ PTE_IDX (pde_ptr v) = 1023 ∧
    Z.land (pde_ptr v) 0xfff = PDE_IDX v * 4) as (Hd & Ht & Ho).
  { rewrite (PDE_IDX_eq (pde_ptr v)), (PTE_IDX_eq (pde_ptr v)), land_fff by done.
    rewrite pde_ptr_eq by done. split_and!; zlia. }
  unfold walk. rewrite (self_slot m), Ht by done.
  destruct (sm_entry m Hm) as (e & He & Hpe & Hf). by rewrite He, Hpe, Hf, Ho.
Qed.

Lemma load_pte m v a pte : self_map m → is_u32 v →
  pte_slot m v = Some a → phys m !! a = Some pte → load32 (pte_ptr v) m = Ret (pte, m).
Proof. intros Hm Hv Ha Hp. unfold load32. by rewrite walk_pte_ptr, Ha, Hp. Qed.

Lemma store_pte m v a pte w : self_map m → is_u32 v →
  pte_slot m v = Some a → phys m !! a = Some pte →
  store32 (pte_ptr v) w m = Ret ((), PMem (<[a := u32 w]> (phys m)) (cr3 m)).
Proof. intros Hm Hv Ha Hp. unfold store32. by rewrite walk_pte_ptr, Ha, Hp. Qed.

(** A write to the dword [a] leaves translations that do not use it. *)
Lemma walk_frame m a w v :
  pde_slot m v ≠ a → pte_slot m v ≠ Some a →
  walk (PMem (<[a := w]> (phys m)) (cr3 m)) v = walk m v.
Proof.
  intros Hd Ht. unfold walk, pte_slot in *. cbn. unfold pde_slot in *. cbn.
  rewrite lookup_insert_ne by done.
  destruct (phys m !! (frame (cr3 m) + PDE_IDX v * 4)) as [pde|]; [|done].
  destruct (present pde); [|done]. rewrite lookup_insert_ne by congruence. done.
Qed.

Lemma pte_slot_write m a w v :
  pde_slot m v ≠ a → pte_slot (PMem (<[a := w]> (phys m)) (cr3 m)) v = pte_slot m v.
Proof.
  intros Hd. unfold pte_slot, pde_slot in *. cbn. by rewrite lookup_insert_ne.
Qed.

Lemma present_clear w : present (u32 (Z.land w (Z.lnot 1))) = false.
Proof.
  unfold present. apply negb_false_iff, Z.eqb_eq. unfold u32.
  change 4294967296 with (2 ^ 32). rewrite <-Z.land_ones by done.
  rewrite <-!Z.land_assoc. apply Z.bits_inj_iff'. intros n Hn.
  rewrite !Z.land_spec, Z.bits_0, Z.lnot_spec by done.
  destruct (decide (n = 0)) as [->|]; [by rewrite !andb_false_r|].
  assert (Z.testbit 1 n = false) as -> by (apply Z.bits_above_log2; cbn; lia).
  by rewrite !andb_false_r.
Qed.

(** Memory words are 32 bits wide. *)
Definition words_ok (m : pmem) : Prop := map_Forall (λ _ w, is_u32 w) (phys m).

Lemma walk_Some m v p :
  walk m v = Some p ↔ ∃ a pte, pte_slot m v = Some a ∧ phys m !! a = Some pte ∧
    present pte = true ∧ p = frame pte + Z.land v 0xfff.
Proof.
  unfold walk. split.
  - intros H. repeat case_match; try done. injection H as <-. eauto 10.
  - by intros (a & pte & -> & -> & -> & ->).
Qed.

(** ** Properties *)

(** C33: with the recursive directory entry, the address [pte_ptr v] translates
    to the page table entry of [v] (when its table is present) and
    [pde_ptr v] to its directory entry. *)
Theorem recursive_mapping m v :
  self_map m → is_u32 v →
  walk m (pte_ptr v) = pte_slot m v ∧ walk m (pde_ptr v) = Some (pde_slot m v).
Proof. intros Hm Hv. split; [by apply walk_pte_ptr|by apply walk_pde_ptr]. Qed.

(** A directory at 0x100000 whose entries 0x300 and 1023 are present, with a
    page table at 0x101000 that maps 0xc0001000 to 0x5000. *)
Definition ex_pmem : pmem :=
  PMem {[ 0x100ffc := 0x100007; 0x100c00 := 0x101007; 0x101004 := 0x5007; 0x101008 := 0 ]} 0x100000.

Lemma ex_pmem_ok : self_map ex_pmem.
Proof. split; [done|]. exists 0x100007. split_and!; by vm_compute. Qed.

Lemma recursive_mapping_witness :
  walk ex_pmem (pte_ptr 0xc0001234) = Some 0x101004 ∧ walk ex_pmem (pde_ptr 0xc0001234) = Some 0x100c00.
Proof.
  destruct (recursive_mapping ex_pmem 0xc0001234 ex_pmem_ok
    ltac:(unfold is_u32; lia)) as [H1 H2].
  rewrite H1, H2. split; by vm_compute.
Defined.

(** C39: [addr_v2p] of a mapped address is the processor's translation. *)
Theorem addr_v2p_correct m v p :
  self_map m → words_ok m → is_u32 v → walk m v = Some p → addr_v2p v m = Ret (p, m).
Proof.
  intros Hm Hw Hv (a & pte & Ha & Hpte & Hp & ->)%walk_Some. unfold addr_v2p.
  rewrite (M_bind_Ret _ _ _ _ _ (load_pte m v a pte Hm Hv Ha Hpte)). mstep.
  fold (frame pte). apply Hw in Hpte as Hu. rewrite u32_id; [done|].
  rewrite frame_eq, land_fff by done. zlia.
Qed.

Lemma addr_v2p_correct_witness : addr_v2p 0xc0001234 ex_pmem = Ret (0x5234, ex_pmem).
Proof.
  apply (addr_v2p_correct ex_pmem 0xc0001234 0x5234 ex_pmem_ok); [|unfold is_u32; lia|by vm_compute].
  intros i x. unfold ex_pmem, phys. rewrite !lookup_insert_Some, lookup_singleton_Some.
  unfold is_u32. naive_solver lia.
Defined.

(** [page_table_pte_remove] of a mapped page unmaps its addresses and no
    address that is translated through other entries. *)
Theorem page_table_pte_remove_correct m v a pte :
  self_map m → is_u32 v → pte_slot m v = Some a → phys m !! a = Some pte →
  ∃ m', page_table_pte_remove v m = Ret ((), m') ∧
    (pde_slot m v ≠ a → walk m' v = None) ∧
    (∀ v', pde_slot m v' ≠ a → pte_slot m v' ≠ Some a → walk m' v' = walk m v').
Proof.
  intros Hm Hv Ha Hpte. eexists. unfold page_table_pte_remove.
  rewrite (M_bind_Ret _ _ _ _ _ (load_pte m v a pte Hm Hv Ha Hpte)).
  rewrite (store_pte m v a pte _ Hm Hv Ha Hpte). split_and!; [done| |].
  - intros Hd. unfold walk. rewrite pte_slot_write, Ha by done. cbn.
    rewrite lookup_insert_eq. by rewrite present_clear.
  - intros v' ??. by apply walk_frame.
Qed.

Lemma page_table_pte_remove_correct_witness :
  ∃ m', page_table_pte_remove 0xc0001000 ex_pmem = Ret ((), m') ∧ walk m' 0xc0001000 = None.
Proof.
  destruct (page_table_pte_remove_correct ex_pmem 0xc0001000 0x101004 0x5007 ex_pmem_ok
    ltac:(unfold is_u32; lia) ltac:(by vm_compute) ltac:(by vm_compute)) as (m' & H & Hw & _).
  exists m'. split; [exact H|]. apply Hw. by vm_compute.
Defined.
