(* ===== verification/Queue.v ===== *)
(** * Thread queues: the interface between lists and the scheduler

    The scheduler and the semaphores use the doubly linked lists through the
    operations of the class [ListOps]. Its first instance is list.c on its
    store of nodes ([DList]); its second is the specification: a map from
    list addresses to sequences of nodes. [ListSim] is what the
    implementation promises to its clients: every operation simulates the one
    on sequences. [DList] discharges it for a store that holds any number of
    disjoint lists. *)

From Stdlib Require Import ZArith Lia.
From stdpp Require Import base numbers list gmap.
From S2P Require Import Prelude Interrupt DList.

Class ListOps (L : Type) := {
  lflags : lens L Z;
  op_init : Z → M L unit;
  op_append : Z → Z → M L unit;
  op_push : Z → Z → M L unit;
  op_pop : Z → M L Z;
  op_empty : Z → M L bool;
  op_find : Z → Z → M L bool
}.

#[export] Instance dlist_ops : ListOps lstate := {|
  lflags := eflags_lens;
  op_init := list_init;
  op_append := list_append;
  op_push := list_push;
  op_pop := list_pop;
  op_empty := list_empty;
  op_find := elem_find
|}.

(** ** The specification *)

Record qstate := QState {
  q_eflags : Z;
  queues : gmap Z (list Z);
  members : gset Z
}.

Definition qflags_lens : lens qstate Z :=
  Lens q_eflags (λ e q, QState e (queues q) (members q)).

Definition set_queue (l : Z) (xs : list Z) (q : qstate) : qstate :=
  QState (q_eflags q) (<[l := xs]> (queues q)) (members q).

(** A node that is in no list, and is not the head or tail of one. *)
Definition free_node (q : qstate) (x : Z) : Prop :=
  x ∈ members q ∧ map_Forall (λ l xs, x ∉ chain l xs) (queues q).
#[export] Instance free_node_dec q x : Decision (free_node q x) := _.

Definition q_init (l : Z) : M qstate unit := λ q,
  if decide (free_node q (head l) ∧ free_node q (tail l))
  then Ret ((), set_queue l [] q) else Fault.
Definition q_append (l e : Z) : M qstate unit := λ q,
  match queues q !! l with
  | Some xs => if decide (free_node q e) then Ret ((), set_queue l (xs ++ [e]) q) else Fault
  | None => Fault
  end.
Definition q_push (l e : Z) : M qstate unit := λ q,
  match queues q !! l with
  | Some xs => if decide (free_node q e) then Ret ((), set_queue l (e :: xs) q) else Fault
  | None => Fault
  end.
Definition q_pop (l : Z) : M qstate Z := λ q,
  match queues q !! l with
  | Some (x :: xs) => Ret (x, set_queue l xs q)
  | _ => Fault
  end.
Definition q_empty (l : Z) : M qstate bool := λ q,
  match queues q !! l with
  | Some xs => Ret (bool_decide (xs = []), q)
  | None => Fault
  end.
Definition q_find (l e : Z) : M qstate bool := λ q,
  match queues q !! l with
  | Some xs => Ret (bool_decide (e ∈ xs), q)
  | None => Fault
  end.

#[export] Instance queue_ops : ListOps qstate := {|
  lflags := qflags_lens;
  op_init := q_init;
  op_append := q_append;
  op_push := q_push;
  op_pop := q_pop;
  op_empty := q_empty;
  op_find := q_find
|}.

(** ** The promise *)

Class ListSim {L1 L2 : Type} `{ListOps L1, ListOps L2} (Q : L1 → L2 → Prop) : Prop := {
  ls_view s1 s2 : Q s1 s2 → view lflags s1 = view lflags s2;
  ls_over s1 s2 e : Q s1 s2 → Q (over lflags e s1) (over lflags e s2);
  ls_init l : sim Q (op_init l) (op_init l);
  ls_append l e : sim Q (op_append l e) (op_append l e);
  ls_push l e : sim Q (op_push l e) (op_push l e);
  ls_pop l : sim Q (op_pop l) (op_pop l);
  ls_empty l : sim Q (op_empty l) (op_empty l);
  ls_find l e : sim Q (op_find l e) (op_find l e)
}.

(** The node store holds exactly the sequences of the specification, in
    lists that share no node. *)
Record lrel (c : lstate) (q : qstate) : Prop := {
  lr_flags : l_eflags c = q_eflags q;
  lr_members : ∀ x, x ∈ members q → is_Some (nodes c !! x);
  lr_lists : ∀ l xs, queues q !! l = Some xs → is_list (nodes c) l xs;
  lr_disj : ∀ l1 l2 xs1 xs2, l1 ≠ l2 → queues q !! l1 = Some xs1 →
    queues q !! l2 = Some xs2 → chain l1 xs1 ## chain l2 xs2
}.

(** One list changes, within its own nodes and free ones. *)
Lemma lrel_update c q l xs' h' chg :
  lrel c q → is_list h' l xs' → same_outside chg (nodes c) h' →
  (∀ l2 xs2, l2 ≠ l → queues q !! l2 = Some xs2 → chg ## chain l2 xs2) →
  (∀ x, x ∈ chain l xs' → x ∈ chg) →
  lrel (LState (l_eflags c) h') (set_queue l xs' q).
Proof.
  intros [Hf Hm Hl Hd] Hl' Hso Hchg Hsub. split; cbn.
  - done.
  - intros x Hx. apply (so_dom _ _ _ Hso). by apply Hm.
  - intros l2 xs2. destruct (decide (l2 = l)) as [->|Hne].
    + rewrite lookup_insert_eq. by intros [= <-].
    + rewrite lookup_insert_ne by done. intros H2.
      apply (is_list_frame _ _ _ _ _ Hso); [by eapply Hchg|by apply Hl].
  - intros l1 l2 xs1 xs2 Hne.
    destruct (decide (l1 = l)) as [->|H1], (decide (l2 = l)) as [->|H2]; try done;
      rewrite ?lookup_insert_eq, ?(lookup_insert_ne _ l) by done.
    + intros [= <-] Hq x Hx Hx2. apply Hsub in Hx. by eapply (Hchg l2).
    + intros Hq [= <-] x Hx1 Hx. apply Hsub in Hx. by eapply (Hchg l1).
    + by apply Hd.
Qed.

Lemma chain_elem x l xs : x ∈ chain l xs ↔ x = head l ∨ x ∈ xs ∨ x = tail l.
Proof. unfold chain. rewrite elem_of_cons, elem_of_app, list_elem_of_singleton. tauto. Qed.

Section dlist.
Context (c : lstate) (q : qstate) (HR : lrel c q).

(** The frame conditions of the list specifications, for a list [l] with
    contents [xs] that takes in at most a free node. *)
Lemma others_disjoint l xs ys :
  queues q !! l = Some xs →
  (∀ y, y ∈ chain l ys → y ∈ chain l xs ∨ free_node q y) →
  ∀ l2 xs2, l2 ≠ l → queues q !! l2 = Some xs2 → chain l ys ## chain l2 xs2.
Proof.
  intros Hq Hy l2 xs2 Hne H2 y Hy1 Hy2. destruct (Hy y Hy1) as [Hin|[_ Hfree]].
  - by eapply (lr_disj _ _ HR l l2).
  - by apply (Hfree _ _ H2).
Qed.

Lemma add_ok l xs e (add : Z → Z → M lstate unit) ys :
  queues q !! l = Some xs → free_node q e →
  (∀ y, y ∈ ys ↔ y = e ∨ y ∈ xs) →
  (is_list (nodes c) l xs → is_Some (nodes c !! e) → e ∉ chain l xs →
    ∃ h', add l e c = Ret ((), LState (l_eflags c) h') ∧
      is_list h' l ys ∧ same_outside (chain l ys) (nodes c) h') →
  ∃ c', add l e c = Ret ((), c') ∧ lrel c' (set_queue l ys q).
Proof.
  intros Hq He Hys Hadd. destruct Hadd as (h' & Ha & Hl' & Hso).
  - by apply (lr_lists _ _ HR).
  - apply (lr_members _ _ HR), He.
  - by apply (proj2 He).
  - eexists. split; [exact Ha|]. eapply lrel_update; [done|done|exact Hso| |done].
    apply (others_disjoint l xs); [done|]. intros y. rewrite !chain_elem, Hys.
    intros [?|[[->|?]|?]]; auto.
Qed.
End dlist.

#[export] Instance dlist_sim : ListSim lrel.
Proof.
  split.
  - by intros s1 s2 [].
  - intros s1 s2 e []. by split.
  - intros l c q [] q' HR. cbn. unfold q_init. case_decide as Hf; [|done]. intros [= <-].
    destruct Hf as [[Hh Hh2] [Ht Ht2]].
    destruct (list_init_spec l c) as (h' & Hi & Hl' & Hso); [by apply (lr_members _ _ HR)..|].
    eexists. split; [exact Hi|]. eapply lrel_update; [done|done|exact Hso| |done].
    intros l2 xs2 _ H2 y. rewrite chain_elem. intros [->|[[]%elem_of_nil| ->]];
      [by apply (Hh2 _ _ H2)|by apply (Ht2 _ _ H2)].
  - intros l e c q [] q' HR. cbn. unfold q_append. case_match eqn:Hq; [|done].
    case_decide; [|done]. intros [= <-].
    eapply (add_ok c q HR l _ e list_append); [done|done| |by apply list_append_spec].
    intros y. rewrite elem_of_app, list_elem_of_singleton. tauto.
  - intros l e c q [] q' HR. cbn. unfold q_push. case_match eqn:Hq; [|done].
    case_decide; [|done]. intros [= <-].
    eapply (add_ok c q HR l _ e list_push); [done|done| |by apply list_push_spec].
    intros y. by rewrite elem_of_cons.
  - intros l c q x q' HR. cbn. unfold q_pop.
    destruct (queues q !! l) as [[|y xs]|] eqn:Hq; [done| |done]. intros [= <- <-].
    destruct (list_pop_spec c l y xs) as (h' & Hp & Hl' & Hso); [by apply (lr_lists _ _ HR)|].
    eexists. split; [exact Hp|]. eapply lrel_update; [done|done|exact Hso| |done].
    eapply (others_disjoint c q HR); [done|]. intros z. rewrite !chain_elem, elem_of_cons. tauto.
  - intros l c q b q' HR. cbn. unfold q_empty. case_match eqn:Hq; [|done]. intros [= <- <-].
    eexists. split; [|done]. apply list_empty_spec. by apply (lr_lists _ _ HR).
  - intros l e c q b q' HR. cbn. unfold q_find. case_match eqn:Hq; [|done]. intros [= <- <-].
    eexists. split; [|done]. destruct c as [fl h].
    apply elem_find_spec. by apply (lr_lists _ _ HR) in Hq.
Qed.
