(* ===== verification/Keyboard.v ===== *)
(** * Keyboard driver (device/keyboard.c)

    The interrupt handler turns the scan codes of set 1 into characters. It
    is a function of the five status variables and of the byte read from the
    port; its result is the new status and what it does next: nothing, print
    "unknown key", or offer a character to the keyboard buffer. *)

From Stdlib Require Import ZArith Lia.
From stdpp Require Import base numbers list.
From S2P Require Import Prelude.

Record kbd := Kbd {
  ctrl_status : bool;
  shift_status : bool;
  alt_status : bool;
  caps_lock_status : bool;
  ext_scancode : bool
}.

Definition esc : Z := 27.
Definition backspace : Z := 8.
Definition tab : Z := 9.
Definition enter : Z := 13.
Definition char_invisible : Z := 0.

Definition shift_l_make : Z := 0x2a.
Definition shift_r_make : Z := 0x36.
Definition alt_l_make : Z := 0x38.
Definition alt_r_make : Z := 0xe038.
Definition ctrl_l_make : Z := 0x1d.
Definition ctrl_r_make : Z := 0xe01d.
Definition caps_lock_make : Z := 0x3a.

(** Without and with shift, by make code. *)
Definition keymap : list (Z * Z) := [
  (0, 0); (esc, esc);
  (49, 33); (50, 64); (51, 35); (52, 36); (53, 37); (54, 94); (55, 38); (56, 42);
  (57, 40); (48, 41); (45, 95); (61, 43);
  (backspace, backspace); (tab, tab);
  (113, 81); (119, 87); (101, 69); (114, 82); (116, 84); (121, 89); (117, 85); (105, 73);
  (111, 79); (112, 80); (91, 123); (93, 125);
  (enter, enter); (char_invisible, char_invisible);
  (97, 65); (115, 83); (100, 68); (102, 70); (103, 71); (104, 72); (106, 74); (107, 75);
  (108, 76); (59, 58); (39, 34); (96, 126);
  (char_invisible, char_invisible); (92, 124);
  (122, 90); (120, 88); (99, 67); (118, 86); (98, 66); (110, 78); (109, 77);
  (44, 60); (46, 62); (47, 63);
  (char_invisible, char_invisible); (42, 42); (char_invisible, char_invisible);
  (32, 32); (char_invisible, char_invisible)
].

Inductive kbd_action :=
  | KNone
  | KUnknown
  | KChar (c : Z).

(** The keys with two characters, as opposed to the letters. *)
Definition two_char_key (scancode : Z) : bool :=
  (scancode <? 0x0e) || (scancode =? 0x29) || (scancode =? 0x1a) || (scancode =? 0x1b) ||
  (scancode =? 0x2b) || (scancode =? 0x27) || (scancode =? 0x28) || (scancode =? 0x33) ||
  (scancode =? 0x34) || (scancode =? 0x35).

Definition is_make (code l r : Z) : bool := (code =? l) || (code =? r).

(** The break code branch: key releases. *)
Definition kbd_break (s : kbd) (make_code : Z) : kbd :=
  if is_make make_code ctrl_l_make ctrl_r_make
  then Kbd false (shift_status s) (alt_status s) (caps_lock_status s) (ext_scancode s)
  else if is_make make_code shift_l_make shift_r_make
  then Kbd (ctrl_status s) false (alt_status s) (caps_lock_status s) (ext_scancode s)
  else if is_make make_code alt_l_make alt_r_make
  then Kbd (ctrl_status s) (shift_status s) false (caps_lock_status s) (ext_scancode s)
  else s.

(** The keys without a character. *)
Definition kbd_control (s : kbd) (scancode : Z) : kbd :=
  if is_make scancode ctrl_l_make ctrl_r_make
  then Kbd true (shift_status s) (alt_status s) (caps_lock_status s) (ext_scancode s)
  else if is_make scancode shift_l_make shift_r_make
  then Kbd (ctrl_status s) true (alt_status s) (caps_lock_status s) (ext_scancode s)
  else if is_make scancode alt_l_make alt_r_make
  then Kbd (ctrl_status s) (shift_status s) true (caps_lock_status s) (ext_scancode s)
  else if scancode =? caps_lock_make
  then Kbd (ctrl_status s) (shift_status s) (alt_status s) (negb (caps_lock_status s))
         (ext_scancode s)
  else s.

Definition use_shift (s : kbd) (scancode : Z) : bool :=
  if two_char_key scancode then shift_status s
  else if shift_status s && caps_lock_status s then false
  else shift_status s || caps_lock_status s.

(** The make code branch; [scancode] is in the table or a right alt or ctrl. *)
Definition kbd_make (s : kbd) (scancode : Z) : outcome (kbd * kbd_action) :=
  let shift := use_shift s scancode in
  let scancode := Z.land scancode 0x00ff in
  let index := u8 scancode in
  row ← load keymap index;
  let cur_char := if (shift : bool) then row.2 else row.1 in
  if negb (cur_char =? 0) then
    let cur_char :=
      if (ctrl_status s && (cur_char =? 108)) || (ctrl_status s && (cur_char =? 117))
      then i8 (cur_char - 97) else cur_char in
    Ret (s, KChar cur_char)
  else Ret (kbd_control s scancode, KNone).

(** [byte] is what [inb(KBD_BUF_PORT)] returns. *)
Definition intr_keyboard_handler (s : kbd) (byte : Z) : outcome (kbd * kbd_action) :=
  let scancode := u16 byte in
  if scancode =? 0xe0 then
    Ret (Kbd (ctrl_status s) (shift_status s) (alt_status s) (caps_lock_status s) true, KNone)
  else
  let '(s, scancode) :=
    if ext_scancode s
    then (Kbd (ctrl_status s) (shift_status s) (alt_status s) (caps_lock_status s) false,
          Z.lor 0xe000 scancode)
    else (s, scancode) in
  if negb (Z.land scancode 0x0080 =? 0) then
    Ret (kbd_break s (Z.land scancode 0xff7f), KNone)
  else if ((0x00 <? scancode) && (scancode <? 0x3b)) || (scancode =? alt_r_make) ||
          (scancode =? ctrl_r_make)
  then kbd_make s scancode
  else Ret (s, KUnknown).

Definition kbd_init : kbd := Kbd false false false false false.

(** ** Enumerating scan codes *)

(** A bool test that holds for every byte holds for each. *)
Definition all_bytes (P : Z → bool) : bool := forallb P (seqZ 0 256).

Lemma all_bytes_spec P b : all_bytes P = true → is_u8 b → P b = true.
Proof.
  unfold all_bytes. rewrite forallb_forall. intros H Hb. apply H.
  apply list_elem_of_In, elem_of_seqZ. unfold is_u8 in Hb. lia.
Qed.

(** Every combination of the five status variables. *)
Definition all_kbd (P : kbd → bool) : bool :=
  let bs := [true; false] in
  forallb (λ a, forallb (λ b, forallb (λ c, forallb (λ d, forallb (λ e,
    P (Kbd a b c d e)) bs) bs) bs) bs) bs.

Lemma both_bools (P : bool → bool) b : forallb P [true; false] = true → P b = true.
Proof. cbn. rewrite !andb_true_iff. by destruct b; intros (? & ? & _). Qed.

Lemma all_kbd_spec P s : all_kbd P = true → P s = true.
Proof.
  unfold all_kbd. cbv zeta. intros H. destruct s as [a b c d e].
  apply (both_bools _ a) in H. apply (both_bools _ b) in H. apply (both_bools _ c) in H.
  apply (both_bools _ d) in H. by apply (both_bools _ e) in H.
Qed.

(** Checking a property of the handler on all its inputs. *)
Lemma handler_cases (P : kbd → Z → outcome (kbd * kbd_action) → bool) s b :
  all_bytes (λ b, all_kbd (λ s, P s b (intr_keyboard_handler s b))) = true →
  is_u8 b → P s b (intr_keyboard_handler s b) = true.
Proof.
  intros H Hb. apply (all_bytes_spec _ b) in H; [|done]. by apply (all_kbd_spec _ s) in H.
Qed.

(** ** Properties *)

(** The modifier variables, without the prefix marker. *)
Definition mods (s : kbd) : bool * bool * bool * bool :=
  (ctrl_status s, shift_status s, alt_status s, caps_lock_status s).

Definition handler_safe (s : kbd) (b : Z) (r : outcome (kbd * kbd_action)) : bool :=
  match r with
  | Ret (s', KChar c) => (0 <? c) && (c <? 128) && bool_decide (mods s' = mods s)
  | Ret (s', _) =>
    (Z.b2z (xorb (ctrl_status s') (ctrl_status s)) + Z.b2z (xorb (shift_status s') (shift_status s)) +
     Z.b2z (xorb (alt_status s') (alt_status s)) +
     Z.b2z (xorb (caps_lock_status s') (caps_lock_status s)) <=? 1) &&
    bool_decide (ext_scancode s' = bool_decide (b = 0xe0))
  | _ => false
  end.

(** For every status and every byte of the port the handler stays within
    [keymap] and returns; a character it produces is ASCII and not 0 and
    leaves the modifiers alone; any other scan code changes at most one
    modifier and the prefix marker is set exactly by 0xe0. *)
Theorem keyboard_handler_safe s b :
  is_u8 b → ∃ s' act, intr_keyboard_handler s b = Ret (s', act) ∧
  match act with
  | KChar c => 0 < c < 128 ∧ mods s' = mods s
  | _ => ext_scancode s' = bool_decide (b = 0xe0) ∧
    Z.b2z (xorb (ctrl_status s') (ctrl_status s)) + Z.b2z (xorb (shift_status s') (shift_status s)) +
    Z.b2z (xorb (alt_status s') (alt_status s)) +
    Z.b2z (xorb (caps_lock_status s') (caps_lock_status s)) ≤ 1
  end.
Proof.
  intros Hb. pose proof (handler_cases handler_safe s b ltac:(by vm_compute) Hb) as H.
  unfold handler_safe in H. destruct (intr_keyboard_handler s b) as [[s' act]| | |]; try done.
  exists s', act. split; [done|]. destruct act as [| |c];
    rewrite ?andb_true_iff, ?Z.ltb_lt, ?Z.leb_le, ?bool_decide_eq_true in H; tauto.
Qed.

Lemma keyboard_handler_safe_witness :
  ∃ s' act, intr_keyboard_handler kbd_init 0x1e = Ret (s', act).
Proof.
  destruct (keyboard_handler_safe kbd_init 0x1e ltac:(unfold is_u8; lia)) as (s' & act & H & _).
  exists s', act. exact H.
Defined.

(** The unshifted and shifted character of a key. *)
Definition key_row (b : Z) : Z * Z := default (0, 0) (keymap !! Z.to_nat b).
Definition is_letter (c : Z) : bool := (97 <=? c) && (c <=? 122).

(** What a make code should type: letters are upper case under exactly one
    of shift and caps lock, other keys follow shift alone; control with l or
    u gives 11 or 20. *)
Definition typed (s : kbd) (b : Z) : Z :=
  let '(lo, hi) := key_row b in
  let c := if is_letter lo
    then (if xorb (shift_status s) (caps_lock_status s) then lo - 32 else lo)
    else if shift_status s then hi else lo in
  if ctrl_status s && ((c =? 108) || (c =? 117)) then c - 97 else c.

Definition handler_types (s : kbd) (b : Z) (r : outcome (kbd * kbd_action)) : bool :=
  if negb (ext_scancode s) && (b <? 0x3b) && negb ((key_row b).1 =? 0)
  then match r with
       | Ret (s', KChar c) => c =? typed s b
       | _ => false
       end
  else true.

(** C40: the make code of a key that has a character types the character that
    shift, caps lock and control select. *)
Theorem keyboard_types s b :
  0 ≤ b < 0x3b → ext_scancode s = false → (key_row b).1 ≠ 0 →
  ∃ s', intr_keyboard_handler s b = Ret (s', KChar (typed s b)).
Proof.
  intros Hb Hext Hrow.
  pose proof (handler_cases handler_types s b ltac:(by vm_compute) ltac:(unfold is_u8; lia)) as H.
  unfold handler_types in H. rewrite Hext in H. destruct (Z.ltb_spec b 0x3b); [|lia].
  destruct (Z.eqb_spec (key_row b).1 0); [done|]. cbn in H.
  destruct (intr_keyboard_handler s b) as [[s' [| |c]]| | |]; try done.
  exists s'. by apply Z.eqb_eq in H as ->.
Qed.

Lemma keyboard_types_witness :
  ∃ s', intr_keyboard_handler (Kbd false true false false false) 0x1e = Ret (s', KChar 65).
Proof.
  destruct (keyboard_types (Kbd false true false false false) 0x1e ltac:(lia) ltac:(done)
    ltac:(by vm_compute)) as [s' H].
  exists s'. exact H.
Defined.
