(* ===== verification/Thread.v ===== *)
(** * Threads and the scheduler (thread/thread.c, userprog/process.c, userprog/tss.c)

    The state of the kernel as the thread code sees it, and the thread
    operations that run with interrupts disabled from begin to end. The
    operations use the queues through [ListOps], so they run on the
    node store of list.c and on sequences alike. What a thread still has to
    do is its program, a list of [instr]; the program of a thread that is not
    running stands for its kernel stack. *)

From Stdlib Require Import ZArith Lia.
From stdpp Require Import base numbers list gmap.
From S2P Require Import Prelude Interrupt DList Paging Queue Keyboard CString.

(** ** Data *)

Inductive task_status :=
  | TASK_RUNNING | TASK_READY | TASK_BLOCKED | TASK_WAITING | TASK_HANGING | TASK_DIED.
#[export] Instance task_status_eq_dec : EqDecision task_status.
Proof. solve_decision. Defined.

(** [struct task_struct]; its two list tags are nodes of the list store, at
    the offsets below. The user address space fields are those of the memory
    management. *)
Record task_struct := Task {
  self_kstack : Z;
  pid : Z;
  status : task_status;
  name : list Z;
  priority : Z;
  ticks : Z;
  elapsed_ticks : Z;
  fd_table : list Z;
  pgdir : Z;
  cwd_inode_nr : Z;
  parent_pid : Z;
  stack_magic : Z
}.

Definition offset_general_tag : Z := 68.
Definition offset_all_list_tag : Z := 76.
Definition general_tag (pthread : Z) : Z := pthread + offset_general_tag.
Definition all_list_tag (pthread : Z) : Z := pthread + offset_all_list_tag.
(** [elem2entry(struct task_struct, general_tag, tag)] *)
Definition tag2task (tag : Z) : Z := tag - offset_general_tag.

Definition PG_SIZE : Z := 4096.
Definition MAX_FILES_OPEN_PER_PROC : nat := 8.

(** What a thread has still to do: the calls of the kernel in progress and
    the rest of its own code. An instruction is a piece of code that no
    interrupt divides; the rest of a call is given back as instructions. *)
Inductive instr :=
  | IIntrEnable
  | IIntrSet (old : intr_status)
  | IIret (eflags : Z)
  | IThreadBlock (stat : task_status)
  | IThreadYield
  | ITimer
  | ISemaDown (psema : Z)
  | ISemaLoop (psema : Z) (old : intr_status)
  | ISemaUp (psema : Z)
  | ILockAcquire (plock : Z)
  | ILockSetHolder (plock : Z)
  | ILockSetNr (plock : Z)
  | ILockRelease (plock : Z)
  | ILockClearNr (plock : Z)
  | IIoqGet (ioq : Z) (k : Z → list instr)
  | IIoqGetLoop (ioq : Z) (k : Z → list instr)
  | IIoqPut (ioq byte : Z)
  | IIoqPutLoop (ioq byte : Z)
  | IIoqWaitConsumer (ioq : Z)
  | IIoqWaitProducer (ioq : Z)
  | IKeyboard (byte : Z)
  | IAllocatePid (k : Z → list instr)
  | INextPid
  | IReturnPid (k : Z → list instr)
  | IInitThread (pthread : Z) (name : list Z) (prio : Z)
  | IInitThreadRest (pthread : Z) (name : list Z) (prio pid : Z)
  | IThreadStart (thread : Z) (name : list Z) (prio : Z) (function : list instr)
  | IThreadReady (thread : Z) (function : list instr)
  | IThreadAll (thread : Z)
  | IMtimeSleep (m_seconds : Z)
  | ITicksToSleep (start_tick sleep_ticks : Z)
  | IConsolePutStr (str : list Z)
  | IPutStr (str : list Z)
  | IIdle
  | IStiHlt.

(** [struct lock] without its semaphore, which has its own address. *)
Record lock := Lock { holder : Z; holder_repeat_nr : Z }.

(** [struct ioqueue] without its lock, which is at the same address. *)
Record ioqueue := IoQueue {
  producer : Z;
  consumer : Z;
  buf : list Z;
  ihead : Z;
  itail : Z
}.

(** The kernel's state: the list store, the thread control blocks and saved
    programs by address, the stack pointer, page tables and [tss.esp0], the
    semaphores' values, the locks and io queues by address, the keyboard, the
    clock and what was printed. *)
Record kstate (L : Type) := KState {
  lists : L;
  tasks : gmap Z task_struct;
  progs : gmap Z (list instr);
  esp : Z;
  vm : pmem;
  tss_esp0 : Z;
  sems : gmap Z Z;
  locks : gmap Z lock;
  ioqs : gmap Z ioqueue;
  kbd_st : kbd;
  clock : Z;
  next_pid : Z;
  idle_thread : Z;
  main_thread : Z;
  screen : list Z
}.
Arguments KState {L}.
Arguments lists {L}. Arguments tasks {L}. Arguments progs {L}. Arguments esp {L}.
Arguments vm {L}. Arguments tss_esp0 {L}. Arguments sems {L}. Arguments locks {L}.
Arguments ioqs {L}. Arguments kbd_st {L}. Arguments clock {L}. Arguments next_pid {L}.
Arguments idle_thread {L}. Arguments main_thread {L}. Arguments screen {L}.

(** Field updates. *)
Definition set_lists {L} (x : L) (s : kstate L) : kstate L :=
  KState x (tasks s) (progs s) (esp s) (vm s) (tss_esp0 s) (sems s) (locks s) (ioqs s)
    (kbd_st s) (clock s) (next_pid s) (idle_thread s) (main_thread s) (screen s).
Definition set_tasks {L} (x : gmap Z task_struct) (s : kstate L) : kstate L :=
  KState (lists s) x (progs s) (esp s) (vm s) (tss_esp0 s) (sems s) (locks s) (ioqs s)
    (kbd_st s) (clock s) (next_pid s) (idle_thread s) (main_thread s) (screen s).
Definition set_progs {L} (x : gmap Z (list instr)) (s : kstate L) : kstate L :=
  KState (lists s) (tasks s) x (esp s) (vm s) (tss_esp0 s) (sems s) (locks s) (ioqs s)
    (kbd_st s) (clock s) (next_pid s) (idle_thread s) (main_thread s) (screen s).
Definition set_esp {L} (x : Z) (s : kstate L) : kstate L :=
  KState (lists s) (tasks s) (progs s) x (vm s) (tss_esp0 s) (sems s) (locks s) (ioqs s)
    (kbd_st s) (clock s) (next_pid s) (idle_thread s) (main_thread s) (screen s).
Definition set_vm {L} (x : pmem) (s : kstate L) : kstate L :=
  KState (lists s) (tasks s) (progs s) (esp s) x (tss_esp0 s) (sems s) (locks s) (ioqs s)
    (kbd_st s) (clock s) (next_pid s) (idle_thread s) (main_thread s) (screen s).
Definition set_tss_esp0 {L} (x : Z) (s : kstate L) : kstate L :=
  KState (lists s) (tasks s) (progs s) (esp s) (vm s) x (sems s) (locks s) (ioqs s)
    (kbd_st s) (clock s) (next_pid s) (idle_thread s) (main_thread s) (screen s).
Definition set_sems {L} (x : gmap Z Z) (s : kstate L) : kstate L :=
  KState (lists s) (tasks s) (progs s) (esp s) (vm s) (tss_esp0 s) x (locks s) (ioqs s)
    (kbd_st s) (clock s) (next_pid s) (idle_thread s) (main_thread s) (screen s).
Definition set_locks {L} (x : gmap Z lock) (s : kstate L) : kstate L :=
  KState (lists s) (tasks s) (progs s) (esp s) (vm s) (tss_esp0 s) (sems s) x (ioqs s)
    (kbd_st s) (clock s) (next_pid s) (idle_thread s) (main_thread s) (screen s).
Definition set_ioqs {L} (x : gmap Z ioqueue) (s : kstate L) : kstate L :=
  KState (lists s) (tasks s) (progs s) (esp s) (vm s) (tss_esp0 s) (sems s) (locks s) x
    (kbd_st s) (clock s) (next_pid s) (idle_thread s) (main_thread s) (screen s).
Definition set_kbd {L} (x : kbd) (s : kstate L) : kstate L :=
  KState (lists s) (tasks s) (progs s) (esp s) (vm s) (tss_esp0 s) (sems s) (locks s) (ioqs s)
    x (clock s) (next_pid s) (idle_thread s) (main_thread s) (screen s).
Definition set_clock {L} (x : Z) (s : kstate L) : kstate L :=
  KState (lists s) (tasks s) (progs s) (esp s) (vm s) (tss_esp0 s) (sems s) (locks s) (ioqs s)
    (kbd_st s) x (next_pid s) (idle_thread s) (main_thread s) (screen s).
Definition set_next_pid {L} (x : Z) (s : kstate L) : kstate L :=
  KState (lists s) (tasks s) (progs s) (esp s) (vm s) (tss_esp0 s) (sems s) (locks s) (ioqs s)
    (kbd_st s) (clock s) x (idle_thread s) (main_thread s) (screen s).
Definition set_screen {L} (x : list Z) (s : kstate L) : kstate L :=
  KState (lists s) (tasks s) (progs s) (esp s) (vm s) (tss_esp0 s) (sems s) (locks s) (ioqs s)
    (kbd_st s) (clock s) (next_pid s) (idle_thread s) (main_thread s) x.

Definition task_status_set (x : task_status) (t : task_struct) : task_struct :=
  Task (self_kstack t) (pid t) x (name t) (priority t) (ticks t) (elapsed_ticks t)
    (fd_table t) (pgdir t) (cwd_inode_nr t) (parent_pid t) (stack_magic t).
Definition task_ticks_set (x : Z) (t : task_struct) : task_struct :=
  Task (self_kstack t) (pid t) (status t) (name t) (priority t) x (elapsed_ticks t)
    (fd_table t) (pgdir t) (cwd_inode_nr t) (parent_pid t) (stack_magic t).
Definition task_elapsed_set (x : Z) (t : task_struct) : task_struct :=
  Task (self_kstack t) (pid t) (status t) (name t) (priority t) (ticks t) x
    (fd_table t) (pgdir t) (cwd_inode_nr t) (parent_pid t) (stack_magic t).
Definition task_kstack_set (x : Z) (t : task_struct) : task_struct :=
  Task x (pid t) (status t) (name t) (priority t) (ticks t) (elapsed_ticks t)
    (fd_table t) (pgdir t) (cwd_inode_nr t) (parent_pid t) (stack_magic t).

(** ** Operations *)

Section ops.
Context {L : Type} `{ListOps L}.
Context (thread_ready_list thread_all_list : Z).
Abbreviation K := (M (kstate L)).

Definition lists_lens : lens (kstate L) L := Lens lists set_lists.
Definition flags_lens : lens (kstate L) Z :=
  Lens (λ s, view lflags (lists s)) (λ e s, set_lists (over lflags e (lists s)) s).
Definition vm_lens : lens (kstate L) pmem := Lens vm set_vm.

(** [(struct task_struct* )(esp & 0xfffff000)] *)
Definition running_thread : K Z := gets (λ s, Z.land (esp s) 0xfffff000).

(** A field access through a pointer to a thread control block. *)
Definition get_task (p : Z) : K task_struct := λ s,
  match tasks s !! p with Some t => Ret (t, s) | None => Fault end.
Definition upd_task (p : Z) (f : task_struct → task_struct) : K unit := λ s,
  match tasks s !! p with
  | Some t => Ret ((), set_tasks (<[p := f t]> (tasks s)) s)
  | None => Fault
  end.

Definition k_find (l e : Z) : K bool := zoom lists_lens (op_find l e).
Definition k_empty (l : Z) : K bool := zoom lists_lens (op_empty l).
Definition k_append (l e : Z) : K unit := zoom lists_lens (op_append l e).
Definition k_push (l e : Z) : K unit := zoom lists_lens (op_push l e).
Definition k_pop (l : Z) : K Z := zoom lists_lens (op_pop l).
Definition k_disable : K intr_status := zoom flags_lens intr_disable.
Definition k_set_status (old : intr_status) : K unit :=
  _ ← zoom flags_lens (intr_set_status old); mret ().
Definition k_ASSERT_off : K unit :=
  st ← zoom flags_lens intr_get_status; ASSERT (bool_decide (st = INTR_OFF)).

Definition page_dir_activate (p_thread : Z) : K unit :=
  t ← get_task p_thread;
  pagedir_phy_addr ← (if negb (pgdir t =? NULL) then zoom vm_lens (addr_v2p (pgdir t))
                      else mret 0x100000);
  modify (λ s, set_vm (PMem (phys (vm s)) pagedir_phy_addr) s).

Definition update_tss_esp (pthread : Z) : K unit := modify (set_tss_esp0 (u32 (pthread + PG_SIZE))).

Definition process_activate (p_thread : Z) : K unit :=
  _ ← ASSERT (negb (p_thread =? NULL));
  _ ← page_dir_activate p_thread;
  t ← get_task p_thread;
  if negb (pgdir t =? 0) then update_tss_esp p_thread else mret ().

(** The stack pointer is saved in the old thread and loaded from the next;
    the registers the assembly routine saves are part of the programs. *)
Definition switch_to (cur next : Z) : K unit :=
  sp ← gets esp;
  _ ← upd_task cur (task_kstack_set sp);
  t ← get_task next;
  modify (set_esp (self_kstack t)).

Definition is_blocked (st : task_status) : bool :=
  bool_decide (st = TASK_BLOCKED) || bool_decide (st = TASK_WAITING) ||
  bool_decide (st = TASK_HANGING).

Definition thread_unblock (pthread : Z) : K unit :=
  old_status ← k_disable;
  t ← get_task pthread;
  _ ← ASSERT (is_blocked (status t));
  _ ← (if negb (bool_decide (status t = TASK_READY)) then
      b ← k_find thread_ready_list (general_tag pthread);
      _ ← ASSERT (negb b);
      b ← k_find thread_ready_list (general_tag pthread);
      _ ← (if (b : bool) then PANIC else mret ());
      _ ← k_push thread_ready_list (general_tag pthread);
      upd_task pthread (task_status_set TASK_READY)
    else mret ());
  k_set_status old_status.

Definition schedule : K unit :=
  _ ← k_ASSERT_off;
  cur ← running_thread;
  t ← get_task cur;
  _ ← (if bool_decide (status t = TASK_RUNNING) then
      b ← k_find thread_ready_list (general_tag cur);
      _ ← ASSERT (negb b);
      _ ← k_append thread_ready_list (general_tag cur);
      upd_task cur (λ t, task_status_set TASK_READY (task_ticks_set (priority t) t))
    else mret ());
  e ← k_empty thread_ready_list;
  _ ← (if (e : bool) then i ← gets idle_thread; thread_unblock i else mret ());
  e ← k_empty thread_ready_list;
  _ ← ASSERT (negb e);
  thread_tag ← k_pop thread_ready_list;
  let next := tag2task thread_tag in
  _ ← upd_task next (task_status_set TASK_RUNNING);
  _ ← process_activate next;
  switch_to cur next.

(** [thread_block] up to the switch; the status is restored when the thread
    runs again. *)
Definition thread_block (stat : task_status) : K (list instr) :=
  _ ← ASSERT (is_blocked stat);
  old_status ← k_disable;
  cur_thread ← running_thread;
  _ ← upd_task cur_thread (task_status_set stat);
  _ ← schedule;
  mret [IIntrSet old_status].

Definition thread_yield : K (list instr) :=
  cur ← running_thread;
  old_status ← k_disable;
  b ← k_find thread_ready_list (general_tag cur);
  _ ← ASSERT (negb b);
  _ ← k_append thread_ready_list (general_tag cur);
  _ ← upd_task cur (task_status_set TASK_READY);
  _ ← schedule;
  mret [IIntrSet old_status].

(** ** Creation *)

Definition zero_task : task_struct :=
  Task 0 0 TASK_RUNNING (replicate 16 0) 0 0 0 (replicate MAX_FILES_OPEN_PER_PROC 0) 0 0 0 0.

(** [memset(pthread, 0, sizeof( *pthread))] *)
Definition init_thread_clear (pthread : Z) : K unit := upd_task pthread (λ _, zero_task).

(** The rest of [init_thread], after [allocate_pid]. *)
Definition init_thread_rest (pthread : Z) (nm : list Z) (prio new_pid : Z) : K unit :=
  t ← get_task pthread;
  nm ← lift (strcpy (name t) nm);
  main ← gets main_thread;
  upd_task pthread (λ t,
    Task (u32 (pthread + PG_SIZE)) (i16 new_pid)
      (if pthread =? main then TASK_RUNNING else TASK_READY)
      nm (u8 prio) (u8 prio) 0
      ([0; 1; 2] ++ replicate (MAX_FILES_OPEN_PER_PROC - 3) (-1))
      0 0 (-1) 0x19870916).

(** [self_kstack] points to dwords: the two [sizeof]s are scaled by 4. *)
Definition sizeof_intr_stack : Z := 76.
Definition sizeof_thread_stack : Z := 32.
(** The thread starts in [kernel_thread], which calls the function. *)
Definition kernel_thread (function : list instr) : list instr := IIntrEnable :: function.
Definition thread_create (pthread : Z) (function : list instr) : K unit :=
  _ ← upd_task pthread (λ t,
    task_kstack_set (u32 (self_kstack t - sizeof_intr_stack * 4 - sizeof_thread_stack * 4)) t);
  modify (λ s, set_progs (<[pthread := kernel_thread function]> (progs s)) s).

(** The assertion and the append for one of the two lists. The two together are a
    step here, the two lists are two steps of [thread_start] in [Sched]; in [Boot]
    and [Process] interrupts are off. *)
Definition thread_enqueue (l tag : Z) : K unit :=
  b ← k_find l tag;
  _ ← ASSERT (negb b);
  k_append l tag.
End ops.
