(* ===== verification/Sync.v ===== *)
(** * Semaphores and locks (thread/sync.c)

    A [struct semaphore] at address [p] has its value in [sems] and its
    waiters list at [p + 4]; the semaphore of the lock at [p] is at [p + 4].
    Each function is cut where interrupts may come or where the thread
    blocks; a piece gives back what is left of the call. *)

From Stdlib Require Import ZArith Lia.
From stdpp Require Import base numbers list gmap.
From S2P Require Import Prelude Interrupt DList Queue Thread.

Definition waiters (psema : Z) : Z := psema + 4.
Definition lock_sema (plock : Z) : Z := plock + 4.

Section ops.
Context {L : Type} `{ListOps L}.
Context (thread_ready_list : Z).
Abbreviation K := (M (kstate L)).

Definition get_sema (p : Z) : K Z := λ s,
  match sems s !! p with Some v => Ret (v, s) | None => Fault end.
Definition set_sema (p v : Z) : K unit :=
  modify (λ s, set_sems (<[p := u8 v]> (sems s)) s).
Definition get_lock (p : Z) : K lock := λ s,
  match locks s !! p with Some k => Ret (k, s) | None => Fault end.
Definition set_lock (p : Z) (k : lock) : K unit :=
  modify (λ s, set_locks (<[p := k]> (locks s)) s).

Definition sema_init (psema value : Z) : K unit :=
  _ ← set_sema psema value;
  zoom lists_lens (op_init (waiters psema)).

Definition lock_init (plock : Z) : K unit :=
  _ ← set_lock plock (Lock NULL 0);
  sema_init (lock_sema plock) 1.

(** [sema_down]: interrupts go off, then the [while] loop. *)
Definition sema_down (psema : Z) : K (list instr) :=
  old_status ← k_disable;
  mret [ISemaLoop psema old_status].

(** One evaluation of the loop condition: either a turn, which blocks, or
    the code behind the loop. *)
Definition sema_loop (psema : Z) (old_status : intr_status) : K (list instr) :=
  v ← get_sema psema;
  if v =? 0 then
    cur ← running_thread;
    b ← k_find (waiters psema) (general_tag cur);
    _ ← ASSERT (negb b);
    b ← k_find (waiters psema) (general_tag cur);
    _ ← (if (b : bool) then PANIC else mret ());
    _ ← k_append (waiters psema) (general_tag cur);
    todo ← thread_block thread_ready_list TASK_BLOCKED;
    mret (todo ++ [ISemaLoop psema old_status])
  else
    _ ← set_sema psema (v - 1);
    v ← get_sema psema;
    _ ← ASSERT (v =? 0);
    _ ← k_set_status old_status;
    mret [].

Definition sema_up (psema : Z) : K unit :=
  old_status ← k_disable;
  v ← get_sema psema;
  _ ← ASSERT (v =? 0);
  e ← k_empty (waiters psema);
  _ ← (if negb e then
      tag ← k_pop (waiters psema);
      thread_unblock thread_ready_list (tag2task tag)
    else mret ());
  v ← get_sema psema;
  _ ← set_sema psema (v + 1);
  v ← get_sema psema;
  _ ← ASSERT (v =? 1);
  k_set_status old_status.

Definition lock_acquire (plock : Z) : K (list instr) :=
  k ← get_lock plock;
  cur ← running_thread;
  if negb (holder k =? cur) then
    mret [ISemaDown (lock_sema plock); ILockSetHolder plock; ILockSetNr plock]
  else
    _ ← set_lock plock (Lock (holder k) (u32 (holder_repeat_nr k + 1)));
    mret [].

(** [plock->holder = running_thread()] *)
Definition lock_set_holder (plock : Z) : K unit :=
  k ← get_lock plock;
  cur ← running_thread;
  set_lock plock (Lock cur (holder_repeat_nr k)).

(** [ASSERT(plock->holder_repeat_nr == 0); plock->holder_repeat_nr = 1] *)
Definition lock_set_nr (plock : Z) : K unit :=
  k ← get_lock plock;
  _ ← ASSERT (holder_repeat_nr k =? 0);
  set_lock plock (Lock (holder k) 1).

Definition lock_release (plock : Z) : K (list instr) :=
  k ← get_lock plock;
  cur ← running_thread;
  _ ← ASSERT (holder k =? cur);
  if 1 <? holder_repeat_nr k then
    _ ← set_lock plock (Lock (holder k) (u32 (holder_repeat_nr k - 1)));
    mret []
  else
    _ ← ASSERT (holder_repeat_nr k =? 1);
    _ ← set_lock plock (Lock NULL (holder_repeat_nr k));
    mret [ILockClearNr plock; ISemaUp (lock_sema plock)].

(** [plock->holder_repeat_nr = 0] *)
Definition lock_clear_nr (plock : Z) : K unit :=
  k ← get_lock plock;
  set_lock plock (Lock (holder k) 0).
End ops.
