(* ===== verification/IoQueue.v ===== *)
(** * Bounded buffers between threads (device/ioqueue.c)

    The ring buffer of 64 characters and its two waiters. A call of
    [ioq_getchar] or [ioq_putchar] is cut at its loop, in which the thread
    may block. *)

From Stdlib Require Import ZArith Lia.
From stdpp Require Import base numbers list gmap.
From S2P Require Import Prelude Interrupt DList Queue Thread.

Definition bufsize : Z := 64.

(** ** The ring *)

Definition next_pos (pos : Z) : Z := Z.rem (i32 (pos + 1)) bufsize.
Definition ring_full (q : ioqueue) : bool := next_pos (ihead q) =? itail q.
Definition ring_empty (q : ioqueue) : bool := ihead q =? itail q.

(** [byte = ioq->buf[ioq->tail]; ioq->tail = next_pos(ioq->tail)] *)
Definition ring_get (q : ioqueue) : outcome (Z * ioqueue) :=
  byte ← load (buf q) (itail q);
  Ret (byte, IoQueue (producer q) (consumer q) (buf q) (ihead q) (next_pos (itail q))).

(** [ioq->buf[ioq->head] = byte; ioq->head = next_pos(ioq->head)] *)
Definition ring_put (q : ioqueue) (byte : Z) : outcome ioqueue :=
  b ← store (buf q) (ihead q) (u8 byte);
  Ret (IoQueue (producer q) (consumer q) b (next_pos (ihead q)) (itail q)).

(** ** Blocking operations *)

Section ops.
Context {L : Type} `{ListOps L}.
Context (thread_ready_list : Z).
Abbreviation K := (M (kstate L)).

Definition get_ioq (p : Z) : K ioqueue := λ s,
  match ioqs s !! p with Some q => Ret (q, s) | None => Fault end.
Definition set_ioq (p : Z) (q : ioqueue) : K unit :=
  modify (λ s, set_ioqs (<[p := q]> (ioqs s)) s).

(** The lock at the same address is initialised by [lock_init]. *)
Definition ioqueue_init_fields (ioq : Z) (b : list Z) : K unit :=
  set_ioq ioq (IoQueue NULL NULL b 0 0).

Definition ioq_full (ioq : Z) : K bool :=
  _ ← k_ASSERT_off;
  q ← get_ioq ioq;
  mret (ring_full q).
Definition ioq_empty (ioq : Z) : K bool :=
  _ ← k_ASSERT_off;
  q ← get_ioq ioq;
  mret (ring_empty q).

Definition with_consumer (t : Z) (q : ioqueue) : ioqueue :=
  IoQueue (producer q) t (buf q) (ihead q) (itail q).
Definition with_producer (t : Z) (q : ioqueue) : ioqueue :=
  IoQueue t (consumer q) (buf q) (ihead q) (itail q).

(** [ioq_wait(&ioq->consumer)] and [ioq_wait(&ioq->producer)]. *)
Definition ioq_wait_consumer (ioq : Z) : K (list instr) :=
  q ← get_ioq ioq;
  _ ← ASSERT (consumer q =? NULL);
  cur ← running_thread;
  _ ← set_ioq ioq (with_consumer cur q);
  thread_block thread_ready_list TASK_BLOCKED.
Definition ioq_wait_producer (ioq : Z) : K (list instr) :=
  q ← get_ioq ioq;
  _ ← ASSERT (producer q =? NULL);
  cur ← running_thread;
  _ ← set_ioq ioq (with_producer cur q);
  thread_block thread_ready_list TASK_BLOCKED.

(** [wakeup(waiter)], where [clear] sets the waiter to NULL. *)
Definition wakeup (waiter ioq : Z) (clear : ioqueue → ioqueue) : K unit :=
  _ ← ASSERT (negb (waiter =? NULL));
  _ ← thread_unblock thread_ready_list waiter;
  q ← get_ioq ioq;
  set_ioq ioq (clear q).

Definition ioq_get_loop (ioq : Z) (k : Z → list instr) : K (list instr) :=
  e ← ioq_empty ioq;
  if (e : bool) then
    mret [ILockAcquire ioq; IIoqWaitConsumer ioq; ILockRelease ioq; IIoqGetLoop ioq k]
  else
    q ← get_ioq ioq;
    '(byte, q) ← lift (ring_get q);
    _ ← set_ioq ioq q;
    _ ← (if negb (producer q =? NULL) then wakeup (producer q) ioq (with_producer NULL)
         else mret ());
    mret (k byte).

Definition ioq_getchar (ioq : Z) (k : Z → list instr) : K (list instr) :=
  _ ← k_ASSERT_off;
  mret [IIoqGetLoop ioq k].

Definition ioq_put_loop (ioq byte : Z) : K (list instr) :=
  f ← ioq_full ioq;
  if (f : bool) then
    mret [ILockAcquire ioq; IIoqWaitProducer ioq; ILockRelease ioq; IIoqPutLoop ioq byte]
  else
    q ← get_ioq ioq;
    q ← lift (ring_put q byte);
    _ ← set_ioq ioq q;
    _ ← (if negb (consumer q =? NULL) then wakeup (consumer q) ioq (with_consumer NULL)
         else mret ());
    mret [].

Definition ioq_putchar (ioq byte : Z) : K (list instr) :=
  _ ← k_ASSERT_off;
  mret [IIoqPutLoop ioq byte].
End ops.

(** ** The ring holds a sequence of at most 63 characters *)

(** [xs] are the characters from [tail] on, modulo 64, up to [head]. *)
Record ring (q : ioqueue) (xs : list Z) : Prop := {
  rg_buf : length (buf q) = 64%nat;
  rg_len : Z.of_nat (length xs) < bufsize;
  rg_tail : 0 ≤ itail q < bufsize;
  rg_head : ihead q = (itail q + Z.of_nat (length xs)) mod bufsize;
  rg_get : ∀ i x, xs !! i = Some x →
    buf q !! Z.to_nat ((itail q + Z.of_nat i) mod bufsize) = Some x
}.

Lemma next_pos_eq pos : 0 ≤ pos < bufsize → next_pos pos = (pos + 1) mod bufsize.
Proof.
  unfold next_pos, bufsize. intros. rewrite i32_id by lia. apply Z.rem_mod_nonneg; lia.
Qed.

Lemma ring_empty_spec q xs : ring q xs → ring_empty q = bool_decide (xs = []).
Proof.
  intros []. unfold ring_empty, bufsize in *. rewrite rg_head0.
  destruct xs as [|x xs]; cbn [length] in *.
  - rewrite bool_decide_eq_true_2 by done. apply Z.eqb_eq. zlia.
  - rewrite bool_decide_eq_false_2 by done. apply Z.eqb_neq. zlia.
Qed.

Lemma ring_full_spec q xs : ring q xs → ring_full q = bool_decide (length xs = 63%nat).
Proof.
  intros []. unfold ring_full. unfold bufsize in *.
  rewrite next_pos_eq by (rewrite rg_head0; unfold bufsize; zlia). unfold bufsize.
  rewrite rg_head0. case_bool_decide; [apply Z.eqb_eq|apply Z.eqb_neq]; zlia.
Qed.

Lemma ring_get_spec q x xs :
  ring q (x :: xs) → ∃ q', ring_get q = Ret (x, q') ∧ ring q' xs ∧
    producer q' = producer q ∧ consumer q' = consumer q.
Proof.
  intros []. unfold ring_get, bufsize in *. cbn [length] in *.
  pose proof (rg_get0 0%nat x eq_refl) as H0.
  assert ((itail q + Z.of_nat 0) mod 64 = itail q) as E by zlia. rewrite E in H0.
  rewrite (proj2 (load_Ret (buf q) (itail q) x)) by (split; [lia|done]). cbn.
  eexists. split; [done|]. split; [|done]. unfold bufsize.
  split; cbn; unfold bufsize; rewrite ?next_pos_eq by (unfold bufsize; lia); unfold bufsize.
  - done.
  - lia.
  - zlia.
  - rewrite rg_head0. zlia.
  - intros i y Hi. rewrite <-(rg_get0 (S i) y Hi). do 2 f_equal. zlia.
Qed.

Lemma ring_put_spec q xs c :
  ring q xs → length xs ≠ 63%nat → ∃ q', ring_put q c = Ret q' ∧ ring q' (xs ++ [u8 c]) ∧
    producer q' = producer q ∧ consumer q' = consumer q.
Proof.
  intros [] Hl. unfold ring_put, bufsize in *.
  assert (0 ≤ ihead q < 64) as Hh by (rewrite rg_head0; zlia).
  rewrite store_in by lia. cbn. eexists. split; [done|]. split; [|done].
  split; cbn; unfold bufsize; rewrite ?next_pos_eq by (unfold bufsize; lia); unfold bufsize.
  - by rewrite length_insert.
  - rewrite length_app. cbn. lia.
  - lia.
  - rewrite length_app, rg_head0. cbn. zlia.
  - intros i y. rewrite lookup_app_Some, list_lookup_singleton_Some.
    intros [Hi|(Hi & Hi' & <-)].
    + rewrite list_lookup_insert_ne; [by apply rg_get0|].
      apply lookup_lt_Some in Hi. rewrite rg_head0. zlia.
    + replace i with (length xs) by lia. rewrite <-rg_head0.
      apply list_lookup_insert_eq. lia.
Qed.

(** ** Properties *)

(** C38: the ring is a first-in first-out queue of at most 63 characters:
    empty and full are tested correctly, [ioq_getchar]'s read takes the
    oldest character and [ioq_putchar]'s write appends the newest one, and
    neither touches the waiters. *)
Theorem ring_fifo q xs c :
  ring q xs →
  ring_empty q = bool_decide (xs = []) ∧
  ring_full q = bool_decide (length xs = 63%nat) ∧
  (∀ x ys, xs = x :: ys → ∃ q', ring_get q = Ret (x, q') ∧ ring q' ys ∧
     producer q' = producer q ∧ consumer q' = consumer q) ∧
  (ring_full q = false → ∃ q', ring_put q c = Ret q' ∧ ring q' (xs ++ [u8 c]) ∧
     producer q' = producer q ∧ consumer q' = consumer q).
Proof.
  intros Hq. split_and!.
  - by apply ring_empty_spec.
  - by apply ring_full_spec.
  - intros x ys ->. by apply ring_get_spec.
  - rewrite (ring_full_spec q xs) by done. case_bool_decide; [done|]. intros _.
    by apply ring_put_spec.
Qed.

(** A ring whose contents wrap around the end of the buffer. *)
Definition ex_ring : ioqueue := IoQueue 0 0 (<[63%nat := 97]> (<[0%nat := 98]> (replicate 64 0))) 1 63.

Lemma ex_ring_ok : ring ex_ring [97; 98].
Proof.
  split; [done|by vm_compute|by vm_compute|by vm_compute|].
  intros [|[|i]] x; [intros [= <-]; by vm_compute..|done].
Qed.

Lemma ring_fifo_witness :
  ∃ q', ring_get ex_ring = Ret (97, q') ∧ ring q' [98].
Proof.
  destruct (ring_fifo ex_ring [97; 98] 99 ex_ring_ok) as (_ & _ & Hg & _).
  destruct (Hg 97 [98] eq_refl) as (q' & H & Hr & _).
  exists q'. split; [exact H|exact Hr].
Defined.
