(* ===== verification/Sched.v ===== *)
(** * The kernel as a machine of interleaved threads

    [exec] runs one instruction of the running thread; [step] takes it from
    the thread's program and puts back what is left of the call; [tick] and
    [key] are the timer and keyboard interrupts, which come between two
    instructions when the interrupt flag is set. The machine runs on the
    node store of list.c and on the queues of [Queue]; the first simulates
    the second. *)

From Stdlib Require Import ZArith Lia.
From stdpp Require Import base numbers list gmap.
From S2P Require Import Prelude Interrupt DList Paging Queue Keyboard CString Thread Sync IoQueue.

(** The addresses of the kernel's static objects. *)
Record layout := Layout {
  thread_ready_list : Z;
  thread_all_list : Z;
  pid_lock : Z;
  console_lock : Z;
  kbd_buf : Z
}.

Section machine.
Context {L : Type} `{ListOps L}.
Context (ly : layout).
Abbreviation K := (M (kstate L)).
Abbreviation ready := (thread_ready_list ly).

Definition then_done (m : K unit) : K (list instr) := _ ← m; mret [].

(** [intr_timer_handler] (device/timer.c) *)
Definition intr_timer_handler : K unit :=
  cur ← running_thread;
  t ← get_task cur;
  _ ← ASSERT (stack_magic t =? 0x19870916);
  _ ← upd_task cur (task_elapsed_set (u32 (elapsed_ticks t + 1)));
  _ ← modify (λ s, set_clock (u32 (clock s + 1)) s);
  if ticks t =? 0 then schedule ready
  else upd_task cur (task_ticks_set (u8 (ticks t - 1))).

(** [mtime_sleep] and [ticks_to_sleep] (device/timer.c); an interrupt comes
    every 10 milliseconds. *)
Definition mil_seconds_per_intr : Z := 10.
Definition mtime_sleep (m_seconds : Z) : K (list instr) :=
  let sleep_ticks := DIV_ROUND_UP m_seconds mil_seconds_per_intr in
  _ ← ASSERT (0 <? sleep_ticks);
  start_tick ← gets clock;
  mret [ITicksToSleep start_tick sleep_ticks].
Definition ticks_to_sleep (start_tick sleep_ticks : Z) : K (list instr) :=
  now ← gets clock;
  if u32 (now - start_tick) <? sleep_ticks
  then mret [IThreadYield; ITicksToSleep start_tick sleep_ticks]
  else mret [].

(** The keyboard interrupt: [intr_keyboard_handler] and the buffer. *)
Definition keyboard_intr (byte : Z) : K (list instr) :=
  k ← gets kbd_st;
  '(k, act) ← lift (intr_keyboard_handler k byte);
  _ ← modify (set_kbd k);
  match act with
  | KChar c =>
    f ← ioq_full (kbd_buf ly);
    if negb f then mret [IIoqPut (kbd_buf ly) c] else mret []
  | _ => mret []
  end.

(** [allocate_pid] returns the static counter after it released the lock. *)
Definition allocate_pid (k : Z → list instr) : K (list instr) :=
  mret [ILockAcquire (pid_lock ly); INextPid; ILockRelease (pid_lock ly); IReturnPid k].
(** [next_pid++] *)
Definition increment_pid : K unit := modify (λ s, set_next_pid (i16 (next_pid s + 1)) s).
Definition return_pid (k : Z → list instr) : K (list instr) := n ← gets next_pid; mret (k n).

Definition init_thread (pthread : Z) (nm : list Z) (prio : Z) : K (list instr) :=
  _ ← init_thread_clear pthread;
  mret [IAllocatePid (λ n, [IInitThreadRest pthread nm prio n])].

Definition thread_start (thread : Z) (nm : list Z) (prio : Z) (function : list instr)
    : K (list instr) :=
  mret [IInitThread thread nm prio; IThreadReady thread function; IThreadAll thread].
(** [thread_create] and the ready list. *)
Definition thread_ready (thread : Z) (function : list instr) : K unit :=
  _ ← thread_create thread function; thread_enqueue ready (general_tag thread).

Definition console_put_str (str : list Z) : K (list instr) :=
  mret [ILockAcquire (console_lock ly); IPutStr str; ILockRelease (console_lock ly)].

(** One turn of the loop of the idle thread. *)
Definition idle : K (list instr) := mret [IThreadBlock TASK_BLOCKED; IStiHlt; IIdle].

Definition exec (i : instr) : K (list instr) :=
  match i with
  | IIntrEnable => then_done (_ ← zoom flags_lens intr_enable; mret ())
  | IIntrSet old => then_done (k_set_status old)
  | IIret eflags => then_done (zoom flags_lens (modify (λ _, eflags)))
  | IThreadBlock stat => thread_block ready stat
  | IThreadYield => thread_yield ready
  | ITimer => then_done intr_timer_handler
  | ISemaDown p => sema_down p
  | ISemaLoop p old => sema_loop ready p old
  | ISemaUp p => then_done (sema_up ready p)
  | ILockAcquire p => lock_acquire p
  | ILockSetHolder p => then_done (lock_set_holder p)
  | ILockSetNr p => then_done (lock_set_nr p)
  | ILockRelease p => lock_release p
  | ILockClearNr p => then_done (lock_clear_nr p)
  | IIoqGet q k => ioq_getchar q k
  | IIoqGetLoop q k => ioq_get_loop ready q k
  | IIoqPut q c => ioq_putchar q c
  | IIoqPutLoop q c => ioq_put_loop ready q c
  | IIoqWaitConsumer q => ioq_wait_consumer ready q
  | IIoqWaitProducer q => ioq_wait_producer ready q
  | IKeyboard b => keyboard_intr b
  | IAllocatePid k => allocate_pid k
  | INextPid => then_done increment_pid
  | IReturnPid k => return_pid k
  | IInitThread p nm prio => init_thread p nm prio
  | IInitThreadRest p nm prio n => then_done (init_thread_rest p nm prio n)
  | IThreadStart p nm prio f => thread_start p nm prio f
  | IThreadReady p f => then_done (thread_ready p f)
  | IThreadAll p => then_done (thread_enqueue (thread_all_list ly) (all_list_tag p))
  | IMtimeSleep ms => mtime_sleep ms
  | ITicksToSleep start n => ticks_to_sleep start n
  | IConsolePutStr str => console_put_str str
  | IPutStr str => then_done (modify (λ s, set_screen (screen s ++ str) s))
  | IIdle => idle
  | IStiHlt => then_done (zoom flags_lens sti)
  end.

Definition get_prog (p : Z) : K (list instr) := λ s,
  match progs s !! p with Some prog => Ret (prog, s) | None => Fault end.
Definition set_prog (p : Z) (prog : list instr) : K unit :=
  modify (λ s, set_progs (<[p := prog]> (progs s)) s).
Definition take_instr (prog : list instr) : outcome (instr * list instr) :=
  match prog with [] => Fault | i :: rest => Ret (i, rest) end.

(** The running thread takes its next instruction; what is left of the call
    goes back in front of the program of the same thread, which may not be
    running any more. A thread whose function has returned is a [Fault]: its
    return address is arbitrary. *)
Definition step : K unit :=
  cur ← running_thread;
  prog ← get_prog cur;
  '(i, rest) ← lift (take_instr prog);
  todo ← exec i;
  set_prog cur (todo ++ rest).

(** An interrupt pushes [eflags], clears the flag and runs its handler in
    the interrupted thread. *)
Definition interrupt (handler : instr) : K unit :=
  cur ← running_thread;
  eflags ← gets (λ s, view lflags (lists s));
  prog ← get_prog cur;
  _ ← zoom flags_lens cli;
  set_prog cur (handler :: IIret eflags :: prog).

(** The transitions of the kernel. *)
Inductive kstep (s : kstate L) : kstate L → Prop :=
  | KStep s' : step s = Ret ((), s') → kstep s s'
  | KTick s' : if_on (view lflags (lists s)) = true →
      interrupt ITimer s = Ret ((), s') → kstep s s'
  | KKey b s' : if_on (view lflags (lists s)) = true → is_u8 b →
      interrupt (IKeyboard b) s = Ret ((), s') → kstep s s'.
End machine.

(** ** The list implementation is invisible *)

(** Two kernel states that differ in the list store only. *)
Record krel {L1 L2} (Q : L1 → L2 → Prop) (s1 : kstate L1) (s2 : kstate L2) : Prop := {
  kr_lists : Q (lists s1) (lists s2);
  kr_tasks : tasks s1 = tasks s2;
  kr_progs : progs s1 = progs s2;
  kr_esp : esp s1 = esp s2;
  kr_vm : vm s1 = vm s2;
  kr_esp0 : tss_esp0 s1 = tss_esp0 s2;
  kr_sems : sems s1 = sems s2;
  kr_locks : locks s1 = locks s2;
  kr_ioqs : ioqs s1 = ioqs s2;
  kr_kbd : kbd_st s1 = kbd_st s2;
  kr_clock : clock s1 = clock s2;
  kr_pid : next_pid s1 = next_pid s2;
  kr_idle : idle_thread s1 = idle_thread s2;
  kr_main : main_thread s1 = main_thread s2;
  kr_screen : screen s1 = screen s2
}.

Section refine.
Context {L1 L2 : Type} `{ListSim L1 L2 Q}.
Context (ly : layout).
Abbreviation R := (krel Q).

Lemma krel_eq s1 s2 x1 x2 : R s1 s2 → Q x1 x2 → R (set_lists x1 s1) (set_lists x2 s2).
Proof. intros [] ?. by split. Qed.

Lemma sim_list {A} (m1 : M L1 A) (m2 : M L2 A) :
  sim Q m1 m2 → sim R (zoom lists_lens m1) (zoom lists_lens m2).
Proof.
  apply sim_zoom; [by intros s1 s2 []|]. intros s1 s2 t1 t2 HR HQ. by apply krel_eq.
Qed.

Lemma sim_refl {S A} (m : M S A) : sim eq m m.
Proof. intros s ? a s' <- Hm. eauto. Qed.

Lemma sim_flags {A} (m : M Z A) :
  sim R (zoom flags_lens m) (zoom flags_lens m).
Proof.
  apply (sim_zoom _ eq); [| |apply sim_refl]; cbn.
  - intros s1 s2 []. by apply ls_view.
  - intros s1 s2 t1 t2 HR ->. apply krel_eq; [done|]. apply ls_over, (kr_lists _ _ _ HR).
Qed.

Lemma sim_vm {A} (m : M pmem A) : sim R (zoom vm_lens m) (zoom vm_lens m).
Proof.
  apply (sim_zoom _ eq); [| |apply sim_refl]; cbn.
  - by intros s1 s2 [].
  - by intros s1 s2 t1 t2 [] ->.
Qed.

(** A lookup in one of the maps both states share. *)
Lemma sim_lookup {A} (g1 : kstate L1 → option A) (g2 : kstate L2 → option A) :
  (∀ s1 s2, R s1 s2 → g1 s1 = g2 s2) →
  sim R (λ s, match g1 s with Some x => Ret (x, s) | None => Fault end)
        (λ s, match g2 s with Some x => Ret (x, s) | None => Fault end).
Proof.
  intros Hg s1 s2 a s2' HR. rewrite <-(Hg _ _ HR). destruct (g1 s1); [|done].
  intros [= <- <-]. by exists s1.
Qed.

Lemma sim_upd_task p f : sim R (upd_task p f) (upd_task p f).
Proof.
  intros s1 s2 a s2' HR. unfold upd_task. rewrite (kr_tasks _ _ _ HR).
  destruct (tasks s2 !! p); [|done]. intros [= <- <-]. eexists. split; [done|].
  destruct HR. by split.
Qed.

(** One step of a simulation proof between two runs of the same code. *)
Ltac sim1 :=
  first
    [ apply sim_bind; [|intros ?]
    | apply sim_ret | apply sim_ASSERT | apply sim_lift | apply sim_PANIC
    | apply sim_flags | apply sim_vm | apply sim_upd_task
    | apply sim_list; first [apply ls_init | apply ls_append | apply ls_push | apply ls_pop
                            | apply ls_empty | apply ls_find]
    | apply sim_gets; (intros ?? []; first [congruence | by apply ls_view])
    | apply sim_modify; (intros ?? []; split; cbn; congruence)
    | apply sim_lookup; (intros ?? []; congruence)
    | apply sim_if
    | case_match ].
Ltac sim_code := repeat sim1.

Lemma sim_thread_unblock r p : sim R (thread_unblock r p) (thread_unblock r p).
Proof. unfold thread_unblock, k_disable, k_set_status, get_task, k_find, k_push. sim_code. Qed.

Lemma sim_process_activate p : sim R (process_activate p) (process_activate p).
Proof.
  unfold process_activate, page_dir_activate, update_tss_esp, get_task. sim_code.
Qed.

Lemma sim_schedule r : sim R (schedule r) (schedule r).
Proof.
  unfold schedule, k_ASSERT_off, running_thread, get_task, k_find, k_append, k_empty, k_pop,
    switch_to.
  repeat first [apply sim_thread_unblock | apply sim_process_activate | sim1].
Qed.

Lemma sim_exec i : sim R (exec ly i) (exec ly i).
Proof.
  destruct i; cbn [exec]; unfold then_done, thread_block, thread_yield, intr_timer_handler,
    sema_down, sema_loop, sema_up, lock_acquire, lock_set_holder, lock_set_nr, lock_release,
    lock_clear_nr, ioq_getchar, ioq_get_loop, ioq_putchar, ioq_put_loop, ioq_full, ioq_empty,
    ioq_wait_consumer, ioq_wait_producer, wakeup, keyboard_intr, init_thread_clear,
    init_thread_rest, thread_create, thread_enqueue, mtime_sleep, ticks_to_sleep,
    allocate_pid, increment_pid, return_pid, init_thread, thread_start, thread_ready,
    console_put_str, idle, get_lock, set_lock, get_sema, set_sema, get_ioq, set_ioq, k_disable, k_set_status,
    k_ASSERT_off, k_find, k_append, k_empty, k_pop, running_thread, get_task;
    repeat first [apply sim_thread_unblock | apply sim_schedule | sim1].
Qed.

Lemma sim_step : sim R (step ly) (step ly).
Proof.
  unfold step, running_thread, get_prog, set_prog.
  repeat first [apply sim_exec | sim1].
Qed.

Lemma sim_interrupt h : sim R (interrupt h) (interrupt h).
Proof. unfold interrupt, running_thread, get_prog, set_prog. sim_code. Qed.
End refine.

(** C4: a transition of the kernel whose queues are sequences is matched by
    the kernel that runs on the node store of list.c: from related states
    the same instruction, timer or keyboard interrupt does not panic, does
    not leave the store, and reaches a related state. *)
Theorem kernel_refines_queues ly (s1 : kstate lstate) (s2 s2' : kstate qstate) :
  krel lrel s1 s2 → kstep ly s2 s2' → ∃ s1', kstep ly s1 s1' ∧ krel lrel s1' s2'.
Proof.
  intros HR Hs. pose proof (ls_view _ _ (kr_lists _ _ _ HR)) as Hfl.
  destruct Hs as [s2' Hs|s2' Hif Hs|b s2' Hif Hb Hs].
  - destruct (sim_step ly _ _ _ _ HR Hs) as (s1' & H1 & HR'). exists s1'. split; [by constructor|done].
  - destruct (sim_interrupt _ _ _ _ _ HR Hs) as (s1' & H1 & HR').
    exists s1'. split; [apply KTick; [by rewrite Hfl|done]|done].
  - destruct (sim_interrupt _ _ _ _ _ HR Hs) as (s1' & H1 & HR').
    exists s1'. split; [eapply KKey; [by rewrite Hfl|done|done]|done].
Qed.

(** A kernel with one running thread at 0x9e000, on either list store. *)
Definition ex_on {L} (l : L) : kstate L := {|
  lists := l; tasks := ∅; progs := {[ 0x9e000 := [IThreadYield] ]}; esp := 0x9ef00;
  vm := PMem ∅ 0x100000; tss_esp0 := 0; sems := ∅; locks := ∅; ioqs := ∅; kbd_st := kbd_init;
  clock := 0; next_pid := 1; idle_thread := 0; main_thread := 0x9e000; screen := []
|}.
Definition ex_nodes : lstate :=
  LState 0x202 {[ 0x100 := Elem 0 0x200; 0x200 := Elem 0x100 0x108; 0x108 := Elem 0x200 0;
    0x300 := Elem 0 0 ]}.
Definition ex_queues : qstate := QState 0x202 {[ 0x100 := [0x200] ]} {[ 0x200; 0x300 ]}.

Lemma ex_related : krel lrel (ex_on ex_nodes) (ex_on ex_queues).
Proof.
  split; try done. split; [done| | |].
  - intros x. cbn. rewrite elem_of_union, !elem_of_singleton.
    intros [->| ->]; by eexists.
  - intros l xs Hq. cbn in Hq. apply (lookup_singleton_Some (M := gmap Z)) in Hq as [<- <-]. split; [|done].
    apply (bool_decide_eq_true_1 (NoDup _)). by vm_compute.
  - intros l1 l2 xs1 xs2 Hne H1 H2. cbn in H1, H2. apply (lookup_singleton_Some (M := gmap Z)) in H1 as [<- _], H2 as [<- _].
    done.
Qed.

Lemma kernel_refines_queues_witness :
  ∃ s1', kstep (Layout 0x100 0x110 0 0 0) (ex_on ex_nodes) s1' ∧
    progs s1' !! 0x9e000 = Some [ITimer; IIret 0x202; IThreadYield].
Proof.
  destruct (interrupt ITimer (ex_on ex_queues)) as [[[] s2']| | |] eqn:E; [|by vm_compute in E..].
  assert (if_on (view lflags (lists (ex_on ex_queues))) = true) as Hif by (by vm_compute).
  destruct (kernel_refines_queues (Layout 0x100 0x110 0 0 0) (ex_on ex_nodes) (ex_on ex_queues) s2'
    ex_related (KTick _ (ex_on ex_queues) s2' Hif E)) as (s1' & H & HR).
  exists s1'. split; [exact H|]. rewrite (kr_progs _ _ _ HR).
  vm_compute in E. by injection E as <-.
Defined.
