(* ===== verification/SchedInv.v ===== *)
(** * Invariants of the scheduler

    On the kernel whose queues are sequences: one thread runs, the ready
    queue lists the ready threads, and the scheduler keeps it so. With
    [Sched.kernel_refines_queues] the results hold of the kernel on the node
    store of list.c. *)

From Stdlib Require Import ZArith Lia.
From stdpp Require Import base numbers list gmap.
From S2P Require Import Prelude Interrupt DList Paging Queue Keyboard Thread Sync IoQueue Sched.

Abbreviation qkernel := (kstate qstate).

Definition running (s : qkernel) : Z := Z.land (esp s) 0xfffff000.
(** A thread that has been started: it has a kernel stack to run from. *)
Definition live (s : qkernel) (p : Z) : Prop := is_Some (progs s !! p).
Definition status_of (s : qkernel) (p : Z) (st : task_status) : Prop :=
  ∃ t, tasks s !! p = Some t ∧ status t = st.

Section inv.
Context (ly : layout).
Abbreviation ready := (thread_ready_list ly).

(** What holds at every point of the scheduler. *)
Record loose (s : qkernel) : Prop := {
  lo_cur : live s (running s);
  lo_task : ∀ p, live s p → is_Some (tasks s !! p);
  lo_run : ∀ p, live s p → status_of s p TASK_RUNNING → p = running s;
  lo_ready : ∃ ps, queues (lists s) !! ready = Some (general_tag <$> ps) ∧ NoDup ps ∧
    ∀ p, p ∈ ps ↔ live s p ∧ status_of s p TASK_READY;
  lo_kstack : ∀ p t, live s p → p ≠ running s → tasks s !! p = Some t →
    Z.land (self_kstack t) 0xfffff000 = p;
  lo_waiters : ∀ l xs x, queues (lists s) !! l = Some xs → l ≠ thread_all_list ly →
    x ∈ xs → live s (tag2task x);
  lo_slots : ∀ q b, ioqs s !! q = Some b →
    (producer b = NULL ∨ live s (producer b)) ∧ (consumer b = NULL ∨ live s (consumer b));
  lo_idle : live s (idle_thread s);
  lo_sems : ∀ p, p ∈ dom (sems s) → waiters p ≠ ready ∧ waiters p ≠ thread_all_list ly
}.

(** What holds between instructions: the running thread is the only one
    whose status says so. *)
Definition kinv (s : qkernel) : Prop := loose s ∧ status_of s (running s) TASK_RUNNING.

(** The part of the state the invariant speaks of. *)
Definition core (s : qkernel) :=
  (tasks s, progs s, esp s, queues (lists s), ioqs s, idle_thread s, dom (sems s)).

Lemma core_inv s s' : core s' = core s →
  tasks s' = tasks s ∧ progs s' = progs s ∧ esp s' = esp s ∧
  queues (lists s') = queues (lists s) ∧ ioqs s' = ioqs s ∧ idle_thread s' = idle_thread s ∧ dom (sems s') = dom (sems s).
Proof. unfold core. naive_solver. Qed.

Lemma loose_core s s' : core s' = core s → loose s → loose s'.
Proof.
  intros (Ht & Hp & He & Hq & Hi & Hd & Hm)%core_inv [].
  split; unfold running, live, status_of in *; rewrite ?Ht, ?Hp, ?He, ?Hq, ?Hi, ?Hd, ?Hm; done.
Qed.

Lemma kinv_core s s' : core s' = core s → kinv s → kinv s'.
Proof.
  intros Hc [Hl Hr]. split; [by eapply loose_core|].
  apply core_inv in Hc as (Ht & _ & He & _). unfold running, status_of in *. by rewrite Ht, He.
Qed.

(** ** Code that leaves the core alone *)

Definition keeps {A} (m : M qkernel A) : Prop :=
  ∀ s a s', m s = Ret (a, s') → core s' = core s.

Lemma keeps_ret {A} (a : A) : keeps (mret a).
Proof. by intros s a' s' [= _ <-]. Qed.
Lemma keeps_bind {A B} (m : M qkernel A) (f : A → M qkernel B) :
  keeps m → (∀ a, keeps (f a)) → keeps (m ≫= f).
Proof.
  intros Hm Hf s b s' (a & s1 & H1 & H2)%M_bind_inv.
  rewrite (Hf _ _ _ _ H2). by eapply Hm.
Qed.
Lemma keeps_gets {A} (g : qkernel → A) : keeps (gets g).
Proof. by intros s a' s' [= _ <-]. Qed.
Lemma keeps_modify g : (∀ s, core (g s) = core s) → keeps (modify g).
Proof. by intros Hg s a' s' [= _ <-]. Qed.
Lemma keeps_ASSERT b : keeps (ASSERT b).
Proof. intros s a s'. destruct b; [by intros [= _ <-]|done]. Qed.
Lemma keeps_PANIC {A} : keeps (PANIC : M qkernel A).
Proof. done. Qed.
Lemma keeps_lift {A} (x : outcome A) : keeps (lift x).
Proof. intros s a s'. unfold lift. destruct x; by intros [= _ <-]. Qed.
Lemma keeps_flags {A} (m : M Z A) : keeps (zoom flags_lens m).
Proof.
  intros s a s'. unfold zoom. case_match; try done. case_match. by intros [= _ <-].
Qed.
Lemma keeps_vm {A} (m : M pmem A) : keeps (zoom vm_lens m).
Proof.
  intros s a s'. unfold zoom. case_match; try done. case_match. by intros [= _ <-].
Qed.
Lemma keeps_lookup {A} (g : qkernel → option A) :
  keeps (λ s, match g s with Some x => Ret (x, s) | None => Fault end).
Proof. intros s a s'. destruct (g s); [by intros [= _ <-]|done]. Qed.
Lemma keeps_if {A} (b : bool) (m1 m2 : M qkernel A) :
  keeps m1 → keeps m2 → keeps (if b then m1 else m2).
Proof. by destruct b. Qed.

Ltac keeps1 :=
  first
    [ apply keeps_bind; [|intros ?]
    | apply keeps_ret | apply keeps_gets | apply keeps_ASSERT | apply keeps_PANIC
    | apply keeps_lift | apply keeps_flags | apply keeps_vm
    | apply keeps_modify; done | apply keeps_lookup | apply keeps_if | case_match ].
Ltac keeps_code := repeat keeps1.

Lemma keeps_process_activate p : keeps (process_activate p).
Proof. unfold process_activate, page_dir_activate, update_tss_esp, get_task. keeps_code. Qed.

(** ** The queue operations *)

Lemma set_lists_id (s : qkernel) : set_lists (lists s) s = s.
Proof. by destruct s. Qed.

Lemma k_find_inv l e (s : qkernel) b s' : k_find l e s = Ret (b, s') →
  ∃ xs, queues (lists s) !! l = Some xs ∧ b = bool_decide (e ∈ xs) ∧ s' = s.
Proof.
  unfold k_find, zoom. cbn. unfold q_find. destruct (queues (lists s) !! l) eqn:E; [|done].
  intros [= <- <-]. rewrite set_lists_id. eauto.
Qed.
Lemma k_empty_inv l (s : qkernel) b s' : k_empty l s = Ret (b, s') →
  ∃ xs, queues (lists s) !! l = Some xs ∧ b = bool_decide (xs = []) ∧ s' = s.
Proof.
  unfold k_empty, zoom. cbn. unfold q_empty. destruct (queues (lists s) !! l) eqn:E; [|done].
  intros [= <- <-]. rewrite set_lists_id. eauto.
Qed.
Lemma k_push_inv l e (s : qkernel) a s' : k_push l e s = Ret (a, s') →
  ∃ xs, queues (lists s) !! l = Some xs ∧ free_node (lists s) e ∧
    s' = set_lists (set_queue l (e :: xs) (lists s)) s.
Proof.
  unfold k_push, zoom. cbn. unfold q_push. destruct (queues (lists s) !! l) eqn:E; [|done]. destruct (decide (free_node (lists s) e)); [|done].
  intros [= _ <-]. eauto.
Qed.
Lemma k_append_inv l e (s : qkernel) a s' : k_append l e s = Ret (a, s') →
  ∃ xs, queues (lists s) !! l = Some xs ∧ free_node (lists s) e ∧
    s' = set_lists (set_queue l (xs ++ [e]) (lists s)) s.
Proof.
  unfold k_append, zoom. cbn. unfold q_append. destruct (queues (lists s) !! l) eqn:E; [|done]. destruct (decide (free_node (lists s) e)); [|done].
  intros [= _ <-]. eauto.
Qed.
Lemma k_pop_inv l (s : qkernel) x s' : k_pop l s = Ret (x, s') →
  ∃ xs, queues (lists s) !! l = Some (x :: xs) ∧ s' = set_lists (set_queue l xs (lists s)) s.
Proof.
  unfold k_pop, zoom. cbn. unfold q_pop.
  destruct (queues (lists s) !! l) as [[|y xs]|]; [done| |done]. intros [= <- <-]. eauto.
Qed.
Lemma get_task_inv p (s : qkernel) t s' : get_task p s = Ret (t, s') →
  tasks s !! p = Some t ∧ s' = s.
Proof. unfold get_task. case_match; [|done]. by intros [= <- <-]. Qed.
Lemma upd_task_inv p f (s : qkernel) a s' : upd_task p f s = Ret (a, s') →
  ∃ t, tasks s !! p = Some t ∧ s' = set_tasks (<[p := f t]> (tasks s)) s.
Proof. unfold upd_task. case_match; [|done]. intros [= <-]. eauto. Qed.

(** ** Threads enter and leave the ready queue *)

Lemma general_tag_inj p q : general_tag p = general_tag q → p = q.
Proof. unfold general_tag. lia. Qed.
Lemma tag2task_general p : tag2task (general_tag p) = p.
Proof. unfold tag2task, general_tag. lia. Qed.
Lemma elem_of_tags p (ps : list Z) : general_tag p ∈ general_tag <$> ps ↔ p ∈ ps.
Proof.
  rewrite list_elem_of_fmap. split; [|eauto].
  intros (q & E & Hq). by apply general_tag_inj in E as ->.
Qed.

Lemma tags_inj (ps qs : list Z) : general_tag <$> ps = general_tag <$> qs → ps = qs.
Proof. apply (list_fmap_eq_inj general_tag). intros ??. apply general_tag_inj. Qed.

Lemma status_insert (s s' : qkernel) p t q st : tasks s' = <[p := t]> (tasks s) →
  status_of s' q st ↔ (if decide (q = p) then status t = st else status_of s q st).
Proof.
  unfold status_of. intros ->. case_decide; subst.
  - rewrite lookup_insert_eq. naive_solver.
  - by rewrite lookup_insert_ne.
Qed.

Lemma lookup_insert_kstack (ts : gmap Z task_struct) p t t' q tq :
  ts !! p = Some t → self_kstack t' = self_kstack t →
  <[p := t']> ts !! q = Some tq → ∃ t0, ts !! q = Some t0 ∧ self_kstack t0 = self_kstack tq.
Proof.
  intros Hp Hk. destruct (decide (q = p)) as [->|].
  - rewrite lookup_insert_eq. intros [= <-]. eauto.
  - rewrite lookup_insert_ne by done. eauto.
Qed.

Section moves.
Context (s : qkernel) (Hs : loose s) (Hlists : ready ≠ thread_all_list ly).

(** A thread gets the status [READY] and joins the queue. *)
Lemma loose_enqueue s' p t t' (ps ps' : list Z) :
  live s p → tasks s !! p = Some t → status t' = TASK_READY → self_kstack t' = self_kstack t →
  queues (lists s) !! ready = Some (general_tag <$> ps) → general_tag p ∉ general_tag <$> ps →
  ps' ≡ₚ p :: ps →
  core s' = (<[p := t']> (tasks s), progs s, esp s, <[ready := general_tag <$> ps']> (queues (lists s)),
    ioqs s, idle_thread s, dom (sems s)) →
  loose s'.
Proof.
  intros Hp Ht Hst Hk Hq Hni Hps Hc. destruct Hs.
  injection Hc as Htk Hpr He Hqs Hio Hid Hsm.
  assert (p ∉ ps) as Hnp by (by rewrite <-elem_of_tags).
  split; unfold running, live in *; rewrite ?Hpr, ?He, ?Hid, ?Hsm; try done.
  - intros q [x Hx]. rewrite Htk, lookup_insert_is_Some'. right. eauto.
  - intros q Hq1. rewrite (status_insert s s' p t' q) by done. case_decide; [congruence|auto].
  - exists ps'. rewrite Hqs, lookup_insert_eq. split; [done|].
    destruct lo_ready0 as (ps0 & Hq0 & Hnd & Hin). rewrite Hq in Hq0. injection Hq0 as E.
    apply tags_inj in E as <-.
    split; [rewrite Hps; by apply NoDup_cons|].
    intros q. rewrite (status_insert s s' p t' q), Hps, elem_of_cons, Hin by done.
    case_decide; naive_solver.
  - intros q tq Hq1 Hne. rewrite Htk. intros Htq.
    destruct (lookup_insert_kstack _ _ _ _ _ _ Ht Hk Htq) as (t0 & Ht0 & <-). eauto.
  - intros l xs x. rewrite Hqs, lookup_insert_Some. intros [[<- <-]|[Hne Hl]] Hall Hx; [|eauto].
    apply list_elem_of_fmap in Hx as (q & -> & Hx). rewrite tag2task_general.
    rewrite Hps, elem_of_cons in Hx. destruct Hx as [->|Hx]; [done|].
    rewrite <-(tag2task_general q). eapply lo_waiters0; [done|done|by apply elem_of_tags].
  - by rewrite Hio.
Qed.

(** The running thread gets a blocked status. *)
Lemma loose_block s' t st :
  status_of s (running s) TASK_RUNNING → tasks s !! running s = Some t → is_blocked st = true →
  core s' = (<[running s := task_status_set st t]> (tasks s), progs s, esp s, queues (lists s),
    ioqs s, idle_thread s, dom (sems s)) →
  loose s'.
Proof.
  intros Hr Ht Hst Hc. destruct Hs.
  injection Hc as Htk Hpr He Hqs Hio Hid Hsm.
  assert (st ≠ TASK_RUNNING ∧ st ≠ TASK_READY) as [Hn1 Hn2] by (by destruct st).
  split; unfold running, live in *; rewrite ?Hpr, ?He, ?Hid, ?Hqs, ?Hsm; try done.
  - intros q [x Hx]. rewrite Htk, lookup_insert_is_Some'. right. eauto.
  - intros q Hq1. rewrite (status_insert s s' _ _ q) by done. case_decide; [done|auto].
  - destruct lo_ready0 as (ps & Hq & Hnd & Hin). exists ps. split_and!; [done|done|].
    intros q. rewrite (status_insert s s' _ _ q), Hin by done. case_decide; [|done]. subst.
    split; [|naive_solver]. destruct Hr as (t1 & Ht1 & Hs1). intros [_ (t2 & Ht2 & Hs2)]. congruence.
  - intros q tq Hq1 Hne. rewrite Htk, lookup_insert_ne by done. eauto.
  - by rewrite Hio.
Qed.

(** The head of the queue runs: the stack pointer moves to its stack. *)
Lemma kinv_switch s' n (ps : list Z) t1 t2 sp :
  queues (lists s) !! ready = Some (general_tag <$> n :: ps) →
  ¬ status_of s (running s) TASK_RUNNING →
  tasks s !! n = Some t1 →
  <[n := task_status_set TASK_RUNNING t1]> (tasks s) !! running s = Some t2 →
  <[running s := task_kstack_set (esp s) t2]> (<[n := task_status_set TASK_RUNNING t1]> (tasks s))
    !! n = Some sp →
  core s' = (<[running s := task_kstack_set (esp s) t2]>
      (<[n := task_status_set TASK_RUNNING t1]> (tasks s)),
    progs s, self_kstack sp, <[ready := general_tag <$> ps]> (queues (lists s)),
    ioqs s, idle_thread s, dom (sems s)) →
  kinv s' ∧ running s' = n.
Proof.
  intros Hq Hnr Ht1 Ht2 Hsp Hc. destruct Hs.
  injection Hc as Htk Hpr He Hqs Hio Hid Hsm.
  destruct lo_ready0 as (ps0 & Hq0 & Hnd & Hin). rewrite Hq in Hq0. injection Hq0 as E.
  change (general_tag n :: (general_tag <$> ps)) with (general_tag <$> n :: ps) in E.
  apply (tags_inj (n :: ps)) in E as <-.
  apply NoDup_cons in Hnd as [Hnps Hnd].
  assert (live s n ∧ status_of s n TASK_READY) as [Hn Hnst] by (apply Hin; set_solver).
  assert (self_kstack sp = if decide (n = running s) then esp s else self_kstack t1) as Hsk.
  { case_decide as Hc; subst.
    - rewrite lookup_insert_eq in Hsp. by injection Hsp as <-.
    - rewrite lookup_insert_ne, lookup_insert_eq in Hsp by done. by injection Hsp as <-. }
  assert (running s' = n) as Hrun.
  { unfold running at 1. rewrite He, Hsk. case_decide as Hc; [done|]. by apply lo_kstack0. }
  assert (∀ q st, status_of s' q st ↔ if decide (q = n) then st = TASK_RUNNING else status_of s q st)
    as Hst.
  { intros q st. unfold status_of. rewrite Htk. clear Hsk Hrun.
    destruct (decide (q = n)) as [->|Hc].
    - rewrite Hsp. destruct (decide (running s = n)) as [E|Hne].
      + rewrite E in *. rewrite lookup_insert_eq in Hsp, Ht2. injection Hsp as <-.
        injection Ht2 as <-. cbn. naive_solver.
      + rewrite lookup_insert_ne, lookup_insert_eq in Hsp by done. injection Hsp as <-.
        cbn. naive_solver.
    - destruct (decide (running s = q)) as [<-|Hne].
      + rewrite lookup_insert_eq. rewrite lookup_insert_ne in Ht2 by done. rewrite Ht2.
        split; intros (t & [= <-] & ?); eauto.
      + by rewrite !lookup_insert_ne. }
  split; [|done]. split; [|by rewrite Hst, Hrun, decide_True].
  split; unfold live in *; rewrite ?Hpr, ?Hid, ?Hrun, ?Hsm; try done.
  - intros q [x Hx]. rewrite Htk, !lookup_insert_is_Some'. do 2 right. eauto.
  - intros q Hq1. rewrite Hst. destruct (decide (q = n)); [done|]. intros Hq2. exfalso. apply Hnr.
    by rewrite <-(lo_run0 q Hq1 Hq2).
  - exists ps. rewrite Hqs, lookup_insert_eq. split_and!; [done|done|].
    intros q. rewrite Hst. destruct (decide (q = n)) as [->|Hc]; [naive_solver|].
    rewrite <-Hin, elem_of_cons. naive_solver.
  - intros q tq Hq1 Hne. rewrite Htk. destruct (decide (running s = q)) as [<-|Hne2].
    + rewrite lookup_insert_eq. by intros [= <-].
    + rewrite !lookup_insert_ne by done. intros. by apply lo_kstack0.
  - intros l xs x. rewrite Hqs, lookup_insert_Some. intros [[<- <-]|[Hne Hl]] Hall Hx; [|eauto].
    eapply lo_waiters0; [done|done|]. rewrite fmap_cons. by right.
  - by rewrite Hio.
Qed.
End moves.

(** ** The scheduler's code *)

Lemma ASSERT_inv {S} b (s : S) a s' : ASSERT b s = Ret (a, s') → b = true ∧ s' = s.
Proof. destruct b; [by intros [= _ <-]|done]. Qed.
Lemma lift_inv {S A} (x : outcome A) (s : S) a s' : lift x s = Ret (a, s') → x = Ret a ∧ s' = s.
Proof. unfold lift. destruct x; [by intros [= -> ->]|done..]. Qed.
Lemma running_inv (s : qkernel) c s' : running_thread s = Ret (c, s') → c = running s ∧ s' = s.
Proof. by intros [= <- <-]. Qed.
Lemma gets_inv {S A} (g : S → A) s a s' : gets g s = Ret (a, s') → a = g s ∧ s' = s.
Proof. by intros [= <- <-]. Qed.
Lemma ret_inv {S A} (x : A) (s : S) a s' : (mret x : M S A) s = Ret (a, s') → a = x ∧ s' = s.
Proof. by intros [= <- <-]. Qed.

Lemma core_running s s' : core s' = core s → running s' = running s.
Proof. intros (_ & _ & He & _)%core_inv. unfold running. by rewrite He. Qed.
Lemma core_status s s' p st : core s' = core s → status_of s' p st ↔ status_of s p st.
Proof. intros (Ht & _)%core_inv. unfold status_of. by rewrite Ht. Qed.
Lemma core_live s s' p : core s' = core s → live s' p ↔ live s p.
Proof. intros (_ & Hp & _)%core_inv. unfold live. by rewrite Hp. Qed.

(** What a scheduler operation leaves alone. *)
Record same_frame (s s' : qkernel) : Prop := {
  sf_progs : progs s' = progs s;
  sf_esp : esp s' = esp s;
  sf_ioqs : ioqs s' = ioqs s;
  sf_idle : idle_thread s' = idle_thread s;
  sf_sems : dom (sems s') = dom (sems s)
}.
Lemma core_same_frame s s' : core s' = core s → same_frame s s'.
Proof. intros (? & ? & ? & ? & ? & ? & ?)%core_inv. by split. Qed.

Section code.
Context (Hlists : ready ≠ thread_all_list ly).

Lemma keeps_set_status old : keeps (k_set_status old).
Proof. unfold k_set_status. keeps_code. Qed.

Lemma thread_unblock_loose p s a s' :
  loose s → live s p → thread_unblock ready p s = Ret (a, s') →
  loose s' ∧ same_frame s s' ∧ (∀ q st, q ≠ p → status_of s' q st ↔ status_of s q st) ∧
  status_of s' p TASK_READY ∧ ∃ st, status_of s p st ∧ is_blocked st = true.
Proof.
  intros Hs Hp H. unfold thread_unblock in H.
  minv H old s1 H1. apply keeps_flags in H1 as (E1 & E2 & E3 & E4 & E5 & E6 & E7)%core_inv.
  minv H t s2 H2. apply get_task_inv in H2 as [Ht ->]. rewrite E1 in Ht.
  minv H u s2 H3. apply ASSERT_inv in H3 as [Hb ->].
  minv H v s2 H4. apply keeps_set_status in H as Hc5.
  rewrite bool_decide_eq_false_2 in H4 by (by destruct (status _)).
  cbn [negb] in H4. minv H4 b s3 H5. apply k_find_inv in H5 as (xs & Hq & -> & ->).
  minv H4 w s3 H6. apply ASSERT_inv in H6 as [_ ->].
  minv H4 b s3 H7. apply k_find_inv in H7 as (xs' & Hq' & -> & ->).
  minv H4 w' s3 H8. rewrite Hq in Hq'. injection Hq' as <-.
  case_bool_decide as Hni; [done|]. apply ret_inv in H8 as [_ ->].
  minv H4 w2 s3 H9. apply k_push_inv in H9 as (xs2 & Hq2 & Hf & ->).
  apply upd_task_inv in H4 as (t2 & Ht2 & ->). cbn in Ht2. rewrite E1, Ht in Ht2.
  injection Ht2 as <-. rewrite Hq in Hq2. injection Hq2 as <-. rewrite E4 in Hq.
  destruct (lo_ready _ Hs) as (ps & Hps & Hnd & Hin). rewrite Hps in Hq. injection Hq as <-.
  assert (core s' = (<[p := task_status_set TASK_READY t]> (tasks s), progs s, esp s,
    <[ready := general_tag <$> p :: ps]> (queues (lists s)), ioqs s, idle_thread s, dom (sems s))) as Hc.
  { rewrite Hc5. unfold core. cbn. by rewrite E1, E2, E3, E4, E5, E6, E7. }
  pose proof Hc as Hct. injection Hct as Hct ? ? ? ? ? ?.
  split_and!.
  - by eapply (loose_enqueue s Hs s' p t (task_status_set TASK_READY t) ps (p :: ps)).
  - by split.
  - intros q st Hne. rewrite (status_insert s s' p _ q st Hct). by rewrite decide_False.
  - rewrite (status_insert s s' p _ _ _ Hct). by rewrite decide_True.
  - exists (status t). split; [by exists t|done].
Qed.

(** The running thread goes back to the queue when it was preempted. *)
Lemma requeue_loose s t a s' :
  loose s → tasks s !! running s = Some t →
  (if bool_decide (status t = TASK_RUNNING) then
      b ← k_find ready (general_tag (running s));
      _ ← ASSERT (negb b);
      _ ← k_append ready (general_tag (running s));
      upd_task (running s) (λ t, task_status_set TASK_READY (task_ticks_set (priority t) t))
    else mret ()) s = Ret (a, s') →
  loose s' ∧ ¬ status_of s' (running s') TASK_RUNNING ∧ same_frame s s'.
Proof.
  intros Hs Ht H. case_bool_decide as Hst.
  - minv H b s1 H1. apply k_find_inv in H1 as (xs & Hq & -> & ->).
    minv H u s1 H2. apply ASSERT_inv in H2 as [Hb ->].
    minv H v s1 H3. apply k_append_inv in H3 as (xs' & Hq' & Hf & ->).
    apply upd_task_inv in H as (t2 & Ht2 & ->). cbn in Ht2. rewrite Ht in Ht2. injection Ht2 as <-.
    rewrite Hq in Hq'. injection Hq' as <-.
    destruct (lo_ready _ Hs) as (ps & Hps & Hnd & Hin). rewrite Hps in Hq. injection Hq as <-.
    case_bool_decide as Hni; [done|]. split_and!; try done.
    + eapply (loose_enqueue s Hs _ (running s) t
        (task_status_set TASK_READY (task_ticks_set (priority t) t)) ps (ps ++ [running s]));
        try done; [by apply lo_cur|by rewrite <-Permutation_cons_append|].
      unfold core. cbn. by rewrite fmap_app.
    + intros (t3 & Ht3 & Hst3). unfold running in Ht3. cbn in Ht3.
      rewrite lookup_insert_eq in Ht3. by injection Ht3 as <-.
  - apply ret_inv in H as [_ ->]. split_and!; try done.
    intros (t3 & Ht3 & Hst3). congruence.
Qed.

(** An empty queue wakes the idle thread. *)
Lemma wake_idle_loose (b : bool) s a s' :
  loose s → ¬ status_of s (running s) TASK_RUNNING →
  (if b then i ← gets idle_thread; thread_unblock ready i else mret ()) s = Ret (a, s') →
  loose s' ∧ ¬ status_of s' (running s') TASK_RUNNING ∧ same_frame s s'.
Proof.
  intros Hs Hnr H. destruct b; [|by apply ret_inv in H as [_ ->]].
  minv H i s1 H1. apply gets_inv in H1 as [-> ->].
  apply thread_unblock_loose in H as (Hl & Hf & Hst & Hrd & Hib); [|done|by apply lo_idle].
  assert (running s' = running s) as Hr by (unfold running; by rewrite (sf_esp _ _ Hf)).
  split_and!; [done| |done]. rewrite Hr. intros Hbad. apply Hnr.
  destruct (decide (running s = idle_thread s)) as [E|]; [|by apply Hst in Hbad].
  rewrite E in Hbad. destruct Hbad as (?&?&?), Hrd as (?&?&?). congruence.
Qed.

(** From any point inside the scheduler, [schedule] ends with the invariant. *)
Lemma schedule_kinv s a s' :
  loose s → schedule ready s = Ret (a, s') → kinv s' ∧ progs s' = progs s.
Proof.
  intros Hs H. unfold schedule in H.
  minv H u s1 H1. assert (core s1 = core s) as Hc1.
  { revert H1. unfold k_ASSERT_off. intros H1. revert H1.
    assert (keeps (st ← zoom flags_lens intr_get_status; ASSERT (bool_decide (st = INTR_OFF))))
      as Hk by keeps_code. apply Hk. }
  apply (loose_core _ _ Hc1) in Hs. apply core_inv in Hc1 as (_ & Hpr & _).
  rewrite <-Hpr. clear Hpr H1 s. rename s1 into s.
  minv H cur s1 H1. apply running_inv in H1 as [-> ->].
  minv H t s1 H2. apply get_task_inv in H2 as [Ht ->].
  minv H v s1 H3. apply (requeue_loose s t) in H3 as (Hs1 & Hnr & Hf1); [|done..].
  rewrite <-(sf_progs _ _ Hf1).
  assert (running s = running s1) as Hr1 by (unfold running; by rewrite (sf_esp _ _ Hf1)).
  rewrite Hr1 in H. clear Hr1 Hf1 Hs Ht t. 
  minv H e s2 H4. apply k_empty_inv in H4 as (xs & Hq & -> & ->).
  minv H w s2 H5. apply wake_idle_loose in H5 as (Hs2 & Hnr2 & Hf2); [|done..].
  rewrite <-(sf_progs _ _ Hf2).
  assert (running s1 = running s2) as Hr2 by (unfold running; by rewrite (sf_esp _ _ Hf2)).
  rewrite Hr2 in H. clear Hr2 Hf2 Hs1 Hnr Hq xs s1 s.
  minv H e s3 H6. apply k_empty_inv in H6 as (xs & Hq & -> & ->).
  minv H w' s3 H7. apply ASSERT_inv in H7 as [_ ->].
  minv H tag s3 H8. apply k_pop_inv in H8 as (xs' & Hq' & ->).
  destruct (lo_ready _ Hs2) as ([|n ps] & Hps & Hnd & Hin); rewrite Hps in Hq'; [done|].
  injection Hq' as <- <-. cbv zeta in H. rewrite tag2task_general in H.
  minv H w2 s3 H9. apply upd_task_inv in H9 as (t1 & Ht1 & ->). cbn in Ht1.
  minv H w3 s3 H10. apply keeps_process_activate in H10 as (E1 & E2 & E3 & E4 & E5 & E6 & E7)%core_inv.
  unfold switch_to in H. minv H sp s4 H11. apply gets_inv in H11 as [-> ->].
  minv H w4 s4 H12. apply upd_task_inv in H12 as (t2 & Ht2 & ->).
  minv H tn s4 H13. apply get_task_inv in H13 as [Htn ->].
  injection H as _ <-. cbn in *. rewrite E1, E3 in *. split; [|by rewrite E2].
  refine (proj1 (kinv_switch s2 Hs2 Hlists _ n ps t1 t2 tn Hps Hnr2 Ht1 Ht2 Htn _)).
  unfold core. cbn. by rewrite ?E1, ?E2, ?E3, ?E4, ?E5, ?E6, ?E7.
Qed.

(** ** Blocking and yielding *)

Lemma thread_block_kinv stat s todo s' :
  kinv s → thread_block ready stat s = Ret (todo, s') → kinv s' ∧ progs s' = progs s.
Proof.
  intros [Hs Hrs] H. unfold thread_block in H.
  minv H u s1 H1. apply ASSERT_inv in H1 as [Hb ->].
  minv H old s1 H2. apply keeps_flags in H2 as Hc.
  minv H cur s2 H3. apply running_inv in H3 as [-> ->].
  minv H v s2 H4. apply upd_task_inv in H4 as (t & Ht & ->).
  minv H w s2 H5. apply ret_inv in H as [_ ->].
  rewrite (core_running _ _ Hc) in Ht, H5.
  apply core_inv in Hc as (E1 & E2 & E3 & E4 & E5 & E6 & E7). rewrite E1 in Ht, H5.
  apply schedule_kinv in H5 as [Hk Hp]; [split; [done|by rewrite Hp]|].
  eapply (loose_block s Hs _ t stat); try done.
  unfold core. cbn. by rewrite E2, E3, E4, E5, E6, E7.
Qed.

Lemma thread_yield_kinv s todo s' :
  kinv s → thread_yield ready s = Ret (todo, s') → kinv s' ∧ progs s' = progs s.
Proof.
  intros [Hs Hrs] H. unfold thread_yield in H.
  minv H cur s1 H1. apply running_inv in H1 as [-> ->].
  minv H old s1 H2. apply keeps_flags in H2 as (E1 & E2 & E3 & E4 & E5 & E6 & E7)%core_inv.
  minv H b s2 H3. apply k_find_inv in H3 as (xs & Hq & -> & ->). rewrite E4 in Hq.
  minv H u s2 H4. apply ASSERT_inv in H4 as [Hni ->].
  minv H v s2 H5. apply k_append_inv in H5 as (xs' & Hq' & Hf & ->). rewrite E4 in Hq'.
  minv H w s2 H6. apply upd_task_inv in H6 as (t & Ht & ->). cbn in Ht. rewrite E1 in Ht.
  minv H w' s2 H7. apply ret_inv in H as [_ ->].
  destruct (lo_ready _ Hs) as (ps & Hps & Hnd & Hin). rewrite Hps in Hq, Hq'.
  injection Hq as <-. injection Hq' as <-. case_bool_decide as Hn; [done|].
  apply schedule_kinv in H7 as [Hk Hp]; [split; [done|by rewrite Hp]|].
  eapply (loose_enqueue s Hs _ (running s) t (task_status_set TASK_READY t) ps (ps ++ [running s]));
    try done; [by apply lo_cur|by rewrite <-Permutation_cons_append|].
  unfold core. cbn. by rewrite E1, E2, E3, E4, E5, E6, E7, fmap_app.
Qed.

(** Changes of a thread control block that keep status and stack. *)
Lemma loose_task s s' p t t' :
  loose s → tasks s !! p = Some t → status t' = status t → self_kstack t' = self_kstack t →
  core s' = (<[p := t']> (tasks s), progs s, esp s, queues (lists s), ioqs s, idle_thread s,
    dom (sems s)) →
  loose s' ∧ ∀ q st, status_of s' q st ↔ status_of s q st.
Proof.
  intros [] Ht Hst Hk Hc. injection Hc as Htk Hpr He Hqs Hio Hid Hsm.
  assert (∀ q st, status_of s' q st ↔ status_of s q st) as Hss.
  { intros q st. rewrite (status_insert s s' p t' q st Htk). case_decide; [|done]. subst.
    rewrite Hst. unfold status_of. rewrite Ht. naive_solver. }
  split; [|done].
  split; unfold running, live in *; rewrite ?Hpr, ?He, ?Hid, ?Hqs, ?Hsm; try done.
  - intros q Hq. rewrite Htk, lookup_insert_is_Some'. right. eauto.
  - intros q Hq. rewrite Hss. auto.
  - destruct lo_ready0 as (ps & ? & ? & Hin). exists ps. split_and!; [done..|].
    intros q. by rewrite Hss.
  - intros q tq Hq1 Hne. rewrite Htk. intros Htq.
    destruct (lookup_insert_kstack _ _ _ _ _ _ Ht Hk Htq) as (t0 & Ht0 & <-). eauto.
  - by rewrite Hio.
Qed.

(** Changes of a queue other than the ready queue. *)
Lemma loose_queue s s' l xs :
  loose s → l ≠ ready →
  (l ≠ thread_all_list ly → ∀ x, x ∈ xs → live s (tag2task x)) →
  core s' = (tasks s, progs s, esp s, <[l := xs]> (queues (lists s)), ioqs s, idle_thread s,
    dom (sems s)) →
  loose s'.
Proof.
  intros [] Hl Hx Hc. injection Hc as Htk Hpr He Hqs Hio Hid Hsm.
  split; unfold running, live, status_of in *;
    rewrite ?Htk, ?Hpr, ?He, ?Hid, ?Hqs, ?Hio, ?Hsm; try done.
  - by rewrite lookup_insert_ne.
  - intros l' ys y. rewrite lookup_insert_Some. intros [[<- <-]|[_ Hq]] Hall Hy; eauto.
Qed.

(** Changes of an io queue whose waiters are threads. *)
Lemma loose_ioq s s' p b :
  loose s → (producer b = NULL ∨ live s (producer b)) → (consumer b = NULL ∨ live s (consumer b)) →
  core s' = (tasks s, progs s, esp s, queues (lists s), <[p := b]> (ioqs s), idle_thread s,
    dom (sems s)) →
  loose s'.
Proof.
  intros [] Hp Hcn Hc. injection Hc as Htk Hpr He Hqs Hio Hid Hsm.
  split; unfold running, live, status_of in *;
    rewrite ?Htk, ?Hpr, ?He, ?Hid, ?Hqs, ?Hio, ?Hsm; try done.
  intros q b'. rewrite lookup_insert_Some. intros [[<- <-]|[_ Hq]]; eauto.
Qed.

Lemma kinv_loose s s' : kinv s → loose s' → esp s' = esp s →
  (∀ st, status_of s' (running s) st ↔ status_of s (running s) st) → kinv s'.
Proof.
  intros [_ Hr] Hl He Hst. split; [done|].
  assert (running s' = running s) as -> by (unfold running; by rewrite He). by apply Hst.
Qed.

(** Waking a thread from the running one. *)
Lemma thread_unblock_kinv p s a s' :
  kinv s → live s p → thread_unblock ready p s = Ret (a, s') → kinv s' ∧ same_frame s s'.
Proof.
  intros Hk Hp H. pose proof Hk as [Hs Hr].
  apply thread_unblock_loose in H as (Hl & Hf & Hst & _ & st & Hb & Hbl); [|done..].
  split; [|done]. apply (kinv_loose s); [done..|apply Hf|]. intros st'. apply Hst. intros E.
  rewrite E in Hr. destruct Hb as (t1&Ht1&<-), Hr as (t2&Ht2&Ht3). simplify_eq. by rewrite Ht3 in Hbl.
Qed.

Lemma intr_timer_kinv s a s' :
  kinv s → intr_timer_handler ly s = Ret (a, s') → kinv s' ∧ progs s' = progs s.
Proof.
  intros [Hs Hr] H. unfold intr_timer_handler in H.
  minv H cur s1 H1. apply running_inv in H1 as [-> ->].
  minv H t s1 H2. apply get_task_inv in H2 as [Ht ->].
  minv H u s1 H3. apply ASSERT_inv in H3 as [_ ->].
  minv H v s1 H4. apply upd_task_inv in H4 as (t' & Ht' & ->).
  rewrite Ht in Ht'. injection Ht' as <-.
  minv H w s1 H5. injection H5 as _ <-.
  set (s2 := set_clock _ _) in H.
  destruct (loose_task s s2 (running s) t (task_elapsed_set (u32 (elapsed_ticks t + 1)) t))
    as [Hl2 Hst2]; [done..|].
  case_match.
  - by apply schedule_kinv in H as [Hk Hp].
  - apply upd_task_inv in H as (t2 & Ht2 & ->).
    destruct (loose_task s2 (set_tasks (<[running s := task_ticks_set (u8 (ticks t - 1)) t2]>
      (tasks s2)) s2) (running s) t2 (task_ticks_set (u8 (ticks t - 1)) t2)) as [Hl3 Hst3]; [done..|].
    split; [|done]. apply (kinv_loose s); [done..|]. intros st. by rewrite Hst3, Hst2.
Qed.

(** ** Semaphores and io queues *)

Lemma get_sema_inv p (s : qkernel) v s' : get_sema p s = Ret (v, s') →
  sems s !! p = Some v ∧ s' = s.
Proof. unfold get_sema. case_match; [|done]. by intros [= <- <-]. Qed.
Lemma get_ioq_inv p (s : qkernel) q s' : get_ioq p s = Ret (q, s') →
  ioqs s !! p = Some q ∧ s' = s.
Proof. unfold get_ioq. case_match; [|done]. by intros [= <- <-]. Qed.
Lemma set_sema_core p v w (s : qkernel) a s' : sems s !! p = Some w →
  set_sema p v s = Ret (a, s') → core s' = core s.
Proof.
  intros Hp [= _ <-]. unfold core. cbn. f_equal. rewrite dom_insert_L.
  apply elem_of_dom_2 in Hp. set_solver.
Qed.

Lemma kinv_waiters p v s s' xs :
  kinv s → sems s !! p = Some v → (∀ x, x ∈ xs → live s (tag2task x)) →
  core s' = (tasks s, progs s, esp s, <[waiters p := xs]> (queues (lists s)), ioqs s, idle_thread s,
    dom (sems s)) →
  kinv s'.
Proof.
  intros [Hs Hr] Hp Hx Hc.
  destruct (lo_sems _ Hs p) as [H1 H2]; [by eapply elem_of_dom_2|].
  apply (kinv_loose s); [done|eapply (loose_queue s); [done|done| |done]; auto|by injection Hc|].
  injection Hc as Ht _ _ _ _ _ _. intros st. unfold status_of. by rewrite Ht.
Qed.

Lemma sema_loop_kinv p old s todo s' :
  kinv s → sema_loop ready p old s = Ret (todo, s') → kinv s' ∧ progs s' = progs s.
Proof.
  intros Hk H. unfold sema_loop in H.
  minv H v s1 H1. apply get_sema_inv in H1 as [Hv ->]. case_match.
  - minv H cur s1 H2. apply running_inv in H2 as [-> ->].
    minv H b s1 H3. apply k_find_inv in H3 as (xs & Hq & -> & ->).
    minv H u s1 H4. apply ASSERT_inv in H4 as [_ ->].
    minv H b s1 H5. apply k_find_inv in H5 as (xs' & Hq' & -> & ->).
    minv H w s1 H6. case_bool_decide; [done|]. apply ret_inv in H6 as [_ ->].
    minv H w2 s1 H7. apply k_append_inv in H7 as (xs2 & Hq2 & Hf & ->).
    minv H todo1 s1 H8. apply ret_inv in H as [_ ->].
    apply thread_block_kinv in H8; [done|]. eapply (kinv_waiters p v s); try done.
    rewrite Hq2 in Hq. injection Hq as ->. destruct Hk as [Hs Hr].
    destruct (lo_sems _ Hs p) as [? ?]; [by eapply elem_of_dom_2|].
    intros x. rewrite elem_of_app, list_elem_of_singleton. intros [Hx| ->].
    + by eapply (lo_waiters _ Hs).
    + rewrite tag2task_general. by apply lo_cur.
  - minv H u s1 H2. pose proof (set_sema_core _ _ _ _ _ _ Hv H2) as Hc1.
    minv H v' s2 H3. apply get_sema_inv in H3 as [_ ->].
    minv H w s2 H4. apply ASSERT_inv in H4 as [_ ->].
    minv H w2 s2 H5. apply keeps_set_status in H5. apply ret_inv in H as [_ ->].
    rewrite Hc1 in H5. split; [by eapply kinv_core|].
    by apply core_inv in H5 as (_ & ? & _).
Qed.

Lemma sema_up_kinv p s a s' :
  kinv s → sema_up ready p s = Ret (a, s') → kinv s' ∧ progs s' = progs s.
Proof.
  intros Hk H. unfold sema_up in H.
  minv H old s1 H1. apply keeps_flags in H1. pose proof (kinv_core _ _ H1 Hk) as Hk1.
  apply core_inv in H1 as (_ & Hpr & _). rewrite <-Hpr. clear Hpr Hk s. rename s1 into s.
  minv H v s1 H2. apply get_sema_inv in H2 as [Hv ->].
  minv H u s1 H3. apply ASSERT_inv in H3 as [_ ->].
  minv H e s1 H4. apply k_empty_inv in H4 as (xs & Hq & -> & ->).
  minv H w s1 H5.
  assert (kinv s1 ∧ progs s1 = progs s) as [Hk Hpr].
  { case_bool_decide; cbn [negb] in H5; [by apply ret_inv in H5 as [_ ->]|].
    minv H5 tag s2 H6. apply k_pop_inv in H6 as (xs' & Hq' & ->).
    rewrite Hq in Hq'. injection Hq' as ->.
    destruct (lo_sems _ (proj1 Hk1) p) as [? ?]; [by eapply elem_of_dom_2|].
    assert (∀ x, x ∈ tag :: xs' → live s (tag2task x)) as Hlv.
    { intros x Hx. by eapply (lo_waiters _ (proj1 Hk1)). }
    apply thread_unblock_kinv in H5 as [Hk2 Hf]; [by rewrite (sf_progs _ _ Hf)| |].
    - eapply (kinv_waiters p v s _ xs'); [done|done| |done]. intros x Hx. apply Hlv. by right.
    - unfold live. cbn. apply Hlv. by left. }
  rewrite <-Hpr. clear Hpr Hk1 Hv Hq H5 s. rename s1 into s.
  minv H v' s1 H6. apply get_sema_inv in H6 as [Hv' ->].
  minv H w2 s1 H7. pose proof (set_sema_core _ _ _ _ _ _ Hv' H7) as Hc1.
  minv H v2 s2 H8. apply get_sema_inv in H8 as [_ ->].
  minv H w3 s2 H9. apply ASSERT_inv in H9 as [_ ->].
  apply keeps_set_status in H. rewrite Hc1 in H. split; [by eapply kinv_core|].
  by apply core_inv in H as (_ & ? & _).
Qed.

Lemma set_ioq_kinv p b (s : qkernel) a s' :
  kinv s → (producer b = NULL ∨ live s (producer b)) → (consumer b = NULL ∨ live s (consumer b)) →
  set_ioq p b s = Ret (a, s') → kinv s' ∧ progs s' = progs s.
Proof.
  intros Hk Hp Hc [= _ <-]. split; [|done]. apply (kinv_loose s); [done| |done|done].
  eapply loose_ioq; [by destruct Hk|done|done|]. done.
Qed.

Lemma wakeup_kinv waiter ioq clear s a s' :
  kinv s → live s waiter →
  (∀ b, (producer (clear b) = NULL ∨ producer (clear b) = producer b) ∧
        (consumer (clear b) = NULL ∨ consumer (clear b) = consumer b)) →
  wakeup ready waiter ioq clear s = Ret (a, s') → kinv s' ∧ progs s' = progs s.
Proof.
  intros Hk Hw Hcl H. unfold wakeup in H.
  minv H u s1 H1. apply ASSERT_inv in H1 as [_ ->].
  minv H v s1 H2. apply thread_unblock_kinv in H2 as [Hk1 Hf]; [|done..].
  minv H q s2 H3. apply get_ioq_inv in H3 as [Hq ->]. rewrite <-(sf_progs _ _ Hf).
  destruct (lo_slots _ (proj1 Hk1) _ _ Hq) as [Hp Hc]. destruct (Hcl q) as [Hp' Hc'].
  eapply set_ioq_kinv; [done| | |exact H].
  - destruct Hp' as [->| ->]; auto.
  - destruct Hc' as [->| ->]; auto.
Qed.

Lemma keeps_off : keeps (k_ASSERT_off : M qkernel unit).
Proof. unfold k_ASSERT_off. keeps_code. Qed.

Lemma ioq_get_loop_kinv p k s todo s' :
  kinv s → ioq_get_loop ready p k s = Ret (todo, s') → kinv s' ∧ progs s' = progs s.
Proof.
  intros Hk H. unfold ioq_get_loop in H.
  minv H e s1 H1. assert (core s1 = core s) as Hc.
  { assert (keeps (@ioq_empty qstate queue_ops p)) as Hkp.
    { unfold ioq_empty, get_ioq. repeat first [apply keeps_off | keeps1]. } by apply Hkp in H1. }
  pose proof (kinv_core _ _ Hc Hk) as Hk1. apply core_inv in Hc as (_ & <- & _).
  clear Hk H1 s. rename s1 into s.
  destruct e; [by apply ret_inv in H as [_ ->]|].
  minv H q s1 H2. apply get_ioq_inv in H2 as [Hq ->].
  minv H cq s1 H3. apply lift_inv in H3 as [Hg ->]. destruct cq as [byte q'].
  apply outcome_bind_Ret in Hg as (byte' & _ & [= <- <-]).
  destruct (lo_slots _ (proj1 Hk1) _ _ Hq) as [Hp Hc].
  minv H u s1 H4. apply set_ioq_kinv in H4 as [Hk2 Hpr]; [|done..]. rewrite <-Hpr.
  minv H w s2 H5. apply ret_inv in H as [_ ->]. cbn [producer] in H5.
  destruct (Z.eqb_spec (producer q) NULL); cbn [negb] in H5; [by apply ret_inv in H5 as [_ ->]|].
  eapply wakeup_kinv; [exact Hk2| | |exact H5].
  - unfold live. rewrite Hpr. by destruct Hp.
  - intros b. cbn. auto.
Qed.

Lemma ioq_put_loop_kinv p c s todo s' :
  kinv s → ioq_put_loop ready p c s = Ret (todo, s') → kinv s' ∧ progs s' = progs s.
Proof.
  intros Hk H. unfold ioq_put_loop in H.
  minv H e s1 H1. assert (core s1 = core s) as Hc.
  { assert (keeps (@ioq_full qstate queue_ops p)) as Hkp.
    { unfold ioq_full, get_ioq. repeat first [apply keeps_off | keeps1]. } by apply Hkp in H1. }
  pose proof (kinv_core _ _ Hc Hk) as Hk1. apply core_inv in Hc as (_ & <- & _).
  clear Hk H1 s. rename s1 into s.
  destruct e; [by apply ret_inv in H as [_ ->]|].
  minv H q s1 H2. apply get_ioq_inv in H2 as [Hq ->].
  minv H q' s1 H3. apply lift_inv in H3 as [Hg ->].
  apply outcome_bind_Ret in Hg as (b' & _ & [= <-]).
  destruct (lo_slots _ (proj1 Hk1) _ _ Hq) as [Hp Hc].
  minv H u s1 H4. apply set_ioq_kinv in H4 as [Hk2 Hpr]; [|done..]. rewrite <-Hpr.
  minv H w s2 H5. apply ret_inv in H as [_ ->]. cbn [consumer] in H5.
  destruct (Z.eqb_spec (consumer q) NULL); cbn [negb] in H5; [by apply ret_inv in H5 as [_ ->]|].
  eapply wakeup_kinv; [exact Hk2| | |exact H5].
  - unfold live. rewrite Hpr. by destruct Hc.
  - intros b. cbn. auto.
Qed.

Lemma ioq_wait_kinv p (mk : Z → ioqueue → ioqueue) (get : ioqueue → Z) s todo s' :
  (∀ t b, (producer (mk t b) = t ∨ producer (mk t b) = producer b) ∧
          (consumer (mk t b) = t ∨ consumer (mk t b) = consumer b)) →
  kinv s →
  (q ← get_ioq p; _ ← ASSERT (get q =? NULL); cur ← running_thread;
   _ ← set_ioq p (mk cur q); thread_block ready TASK_BLOCKED) s = Ret (todo, s') →
  kinv s' ∧ progs s' = progs s.
Proof.
  intros Hmk Hk H. minv H q s1 H1. apply get_ioq_inv in H1 as [Hq ->].
  minv H u s1 H2. apply ASSERT_inv in H2 as [_ ->].
  minv H cur s1 H3. apply running_inv in H3 as [-> ->].
  minv H v s1 H4. destruct (lo_slots _ (proj1 Hk) _ _ Hq) as [Hp Hc].
  destruct (Hmk (running s) q) as [Hp' Hc']. pose proof (lo_cur _ (proj1 Hk)) as Hl.
  apply set_ioq_kinv in H4 as [Hk1 <-]; [by eapply thread_block_kinv|done| |].
  - destruct Hp' as [->| ->]; auto.
  - destruct Hc' as [->| ->]; auto.
Qed.

(** ** Creating threads *)

(** What the code relies on when it starts a thread: its page, from
    [get_kernel_pages], is not the page of a started thread; and when it is put
    into the ready list ([thread_start], after [init_thread]) its control block
    says READY and its stack is in its own page. *)
Definition startable (s : qkernel) (i : instr) : Prop :=
  match i with
  | IInitThread p _ _ | IInitThreadRest p _ _ _ => ¬ live s p
  | IThreadReady p _ => ¬ live s p ∧ ∃ t, tasks s !! p = Some t ∧ status t = TASK_READY ∧
      Z.land (u32 (self_kstack t - sizeof_intr_stack * 4 - sizeof_thread_stack * 4)) 0xfffff000 = p
  | _ => True
  end.

(** Writing to the control block of a thread that is not started. *)
Lemma kinv_unstarted s s' p t' :
  kinv s → ¬ live s p →
  core s' = (<[p := t']> (tasks s), progs s, esp s, queues (lists s), ioqs s, idle_thread s,
    dom (sems s)) →
  kinv s'.
Proof.
  intros [Hs Hr] Hp Hc. pose proof Hc as Hc'. injection Hc' as Htk Hpr He Hqs Hio Hid Hsm.
  assert (∀ q st, live s q → status_of s' q st ↔ status_of s q st) as Hst.
  { intros q st Hq. rewrite (status_insert s s' p t' q st Htk). rewrite decide_False; [done|].
    by intros ->. }
  pose proof (lo_cur _ Hs) as Hcur.
  apply (kinv_loose s); [done| |done|]; [|by intros st; apply Hst].
  destruct Hs. split; unfold live, running in *; rewrite ?Hpr, ?He, ?Hid, ?Hqs, ?Hio, ?Hsm; try done.
  - intros q Hq. rewrite Htk, lookup_insert_is_Some'. right. eauto.
  - intros q Hq Hq2. apply lo_run0; [done|]. by apply Hst.
  - destruct lo_ready0 as (ps & ? & ? & Hin). exists ps. split_and!; [done..|].
    intros q. rewrite Hin. split; intros [Hq Hq2]; (split; [done|]); by apply Hst.
  - intros q tq Hq Hne. rewrite Htk, lookup_insert_ne by (by intros ->). eauto.
Qed.

(** [thread_create] and the queue: the new thread is ready. *)
Lemma kinv_start s s' p t t' f (ps : list Z) :
  kinv s → ¬ live s p → tasks s !! p = Some t → status t' = TASK_READY →
  Z.land (self_kstack t') 0xfffff000 = p →
  queues (lists s) !! ready = Some (general_tag <$> ps) →
  core s' = (<[p := t']> (tasks s), <[p := f]> (progs s), esp s,
    <[ready := general_tag <$> (ps ++ [p])]> (queues (lists s)), ioqs s, idle_thread s,
    dom (sems s)) →
  kinv s'.
Proof.
  intros [Hs Hr] Hp Ht Hst Hk Hq Hc. injection Hc as Htk Hpr He Hqs Hio Hid Hsm.
  assert (∀ q, live s' q ↔ q = p ∨ live s q) as Hlv.
  { intros q. unfold live. rewrite Hpr, lookup_insert_is_Some'. naive_solver. }
  assert (∀ q st, status_of s' q st ↔ if decide (q = p) then TASK_READY = st else status_of s q st)
    as Hss.
  { intros q st. rewrite (status_insert s s' p t' q st Htk). by rewrite Hst. }
  destruct Hs. assert (running s ≠ p) as Hnp by (by intros E; rewrite E in lo_cur0).
  assert (running s' = running s) as Hrun by (unfold running; by rewrite He).
  split; [|rewrite Hrun, Hss; by rewrite decide_False].
  split; rewrite ?Hrun; try setoid_rewrite Hlv; rewrite ?Hid; auto.
  - intros q Hq1. rewrite Htk, lookup_insert_is_Some'. destruct Hq1 as [->|]; auto.
  - intros q [->|Hq1]; rewrite Hss; [by rewrite decide_True|].
    rewrite decide_False by (by intros ->). auto.
  - exists (ps ++ [p]). rewrite Hqs, lookup_insert_eq. split; [done|].
    destruct lo_ready0 as (ps0 & Hq0 & Hnd & Hin). rewrite Hq in Hq0. injection Hq0 as E.
    apply tags_inj in E as <-. split.
    + apply NoDup_app. split_and!; [done| |apply NoDup_singleton].
      intros q Hq1 ->%list_elem_of_singleton. apply Hp. by apply Hin.
    + intros q. rewrite elem_of_app, list_elem_of_singleton, Hin, Hss.
      destruct (decide (q = p)) as [->|]; [naive_solver|]. naive_solver.
  - intros q tq Hq1 Hne. rewrite Htk. destruct (decide (q = p)) as [->|Hqp].
    + rewrite lookup_insert_eq. by intros [= <-].
    + rewrite lookup_insert_ne by done. destruct Hq1; [done|eauto].
  - intros l xs x. rewrite Hqs, lookup_insert_Some. intros [[<- <-]|[Hne Hl]] Hall Hx; [|eauto].
    apply list_elem_of_fmap in Hx as (q & -> & Hx). rewrite tag2task_general.
    apply elem_of_app in Hx as [Hx|Hx%list_elem_of_singleton]; [|auto].
    destruct lo_ready0 as (ps0 & Hq0 & Hnd & Hin). rewrite Hq in Hq0. injection Hq0 as E.
    apply tags_inj in E as <-. right. by apply Hin.
  - intros q b. rewrite Hio. intros Hb. destruct (lo_slots0 q b Hb). naive_solver.
  - by rewrite Hsm.
Qed.

(** ** Every instruction keeps the invariant *)

Definition grows (s s' : qkernel) : Prop := ∀ p, live s p → live s' p.

Lemma keeps_kinv {A} (m : M qkernel A) s a s' :
  keeps m → kinv s → m s = Ret (a, s') → kinv s' ∧ grows s s'.
Proof.
  intros Hm Hk H. apply Hm in H. split; [by eapply kinv_core|].
  intros p Hp. by apply (core_live s s').
Qed.

Lemma progs_grows s s' : progs s' = progs s → grows s s'.
Proof. intros E p. unfold live. by rewrite E. Qed.

Lemma then_done_inv (m : M qkernel unit) s todo s' :
  then_done m s = Ret (todo, s') → m s = Ret ((), s') ∧ todo = [].
Proof.
  unfold then_done. intros H. minv H u s1 H1. apply ret_inv in H as [-> ->]. by destruct u.
Qed.

Lemma init_thread_kinv p f s a s' :
  kinv s → ¬ live s p → upd_task p f s = Ret (a, s') → kinv s' ∧ grows s s'.
Proof.
  intros Hk Hp H. apply upd_task_inv in H as (t & Ht & ->).
  split; [by eapply kinv_unstarted|by apply progs_grows].
Qed.

Lemma init_thread_rest_kinv p nm prio n s a s' :
  kinv s → ¬ live s p → init_thread_rest p nm prio n s = Ret (a, s') → kinv s' ∧ grows s s'.
Proof.
  intros Hk Hp H. unfold init_thread_rest in H.
  minv H t s1 H1. apply get_task_inv in H1 as [_ ->].
  minv H nm' s1 H2. apply lift_inv in H2 as [_ ->].
  minv H m s1 H3. apply gets_inv in H3 as [-> ->]. by eapply init_thread_kinv.
Qed.

Lemma thread_enqueue_inv l tag (s : qkernel) a s' : thread_enqueue l tag s = Ret (a, s') →
  ∃ xs, queues (lists s) !! l = Some xs ∧ s' = set_lists (set_queue l (xs ++ [tag]) (lists s)) s.
Proof.
  intros H. unfold thread_enqueue in H. minv H b s1 H1. apply k_find_inv in H1 as (xs & _ & _ & ->).
  minv H u s1 H2. apply ASSERT_inv in H2 as [_ ->]. apply k_append_inv in H as (xs' & ? & _ & ->).
  eauto.
Qed.

Lemma thread_start_kinv p f s a s' :
  kinv s → startable s (IThreadReady p f) →
  (_ ← thread_create p f; thread_enqueue ready (general_tag p)) s = Ret (a, s') →
  kinv s' ∧ grows s s'.
Proof.
  intros Hk [Hp (t & Ht & Hst & Hks)] H. minv H u s1 H1. unfold thread_create in H1.
  minv H1 v s2 H2. apply upd_task_inv in H2 as (t' & Ht' & ->).
  rewrite Ht in Ht'. injection Ht' as <-. injection H1 as _ <-.
  apply thread_enqueue_inv in H as (xs & Hq & ->). cbn in Hq.
  destruct (lo_ready _ (proj1 Hk)) as (ps & Hps & _). rewrite Hps in Hq. injection Hq as <-.
  split.
  - eapply (kinv_start s _ p t (task_kstack_set _ t) (IIntrEnable :: f) ps);
      [done|done|done|done|exact Hks|done|].
    unfold core. cbn. by rewrite fmap_app.
  - intros q Hq. unfold live. cbn. rewrite lookup_insert_is_Some'. by right.
Qed.

Lemma keyboard_intr_keeps b : keeps (keyboard_intr ly b : M qkernel _).
Proof.
  unfold keyboard_intr, ioq_full, get_ioq. repeat first [apply keeps_off | keeps1].
Qed.

Lemma exec_kinv i s todo s' :
  kinv s → startable s i → exec ly i s = Ret (todo, s') → kinv s' ∧ grows s s'.
Proof.
  intros Hk Hst H.
  assert (∀ m : M qkernel (list instr), keeps m → m s = Ret (todo, s') → kinv s' ∧ grows s s')
    as Hkeep by (intros m Hm; by apply keeps_kinv).
  destruct i; cbn [exec] in H;
    try (apply Hkeep in H; [done|]; unfold then_done, sema_down, lock_acquire, lock_set_holder,
      lock_set_nr, lock_release, lock_clear_nr, ioq_getchar, ioq_putchar, mtime_sleep,
      ticks_to_sleep, k_disable, k_set_status, get_lock, set_lock;
      repeat first [apply keeps_off | apply keyboard_intr_keeps | keeps1]; done).
  - apply thread_block_kinv in H as [? ?]; [split; [done|by apply progs_grows]|done].
  - apply thread_yield_kinv in H as [? ?]; [split; [done|by apply progs_grows]|done].
  - apply then_done_inv in H as [H _].
    apply intr_timer_kinv in H as [? ?]; [split; [done|by apply progs_grows]|done].
  - apply sema_loop_kinv in H as [? ?]; [split; [done|by apply progs_grows]|done].
  - apply then_done_inv in H as [H _].
    apply sema_up_kinv in H as [? ?]; [split; [done|by apply progs_grows]|done].
  - apply ioq_get_loop_kinv in H as [? ?]; [split; [done|by apply progs_grows]|done].
  - apply ioq_put_loop_kinv in H as [? ?]; [split; [done|by apply progs_grows]|done].
  - apply (ioq_wait_kinv _ with_consumer consumer) in H as [? ?];
      [split; [done|by apply progs_grows]| |done]. intros t b. cbn. auto.
  - apply (ioq_wait_kinv _ with_producer producer) in H as [? ?];
      [split; [done|by apply progs_grows]| |done]. intros t b. cbn. auto.
  - minv H u s1 H1. apply ret_inv in H as [_ ->]. by eapply init_thread_kinv.
  - apply then_done_inv in H as [H _]. by eapply init_thread_rest_kinv.
  - apply then_done_inv in H as [H _]. by eapply thread_start_kinv.
  - apply then_done_inv in H as [H _]. apply thread_enqueue_inv in H as (xs & Hq & ->).
    split; [|by apply progs_grows]. apply (kinv_loose s); [done| |done|done].
    eapply (loose_queue s); [by destruct Hk|done| |done]. done.
Qed.

Lemma kinv_set_prog p prog s : kinv s → live s p → kinv (set_progs (<[p := prog]> (progs s)) s).
Proof.
  intros [Hs Hr] Hp. split; [|done].
  assert (∀ q, is_Some (<[p := prog]> (progs s) !! q) ↔ is_Some (progs s !! q)) as Hlv.
  { intros q. rewrite lookup_insert_is_Some'. unfold live in Hp. naive_solver. }
  destruct Hs. split; unfold live, running in *; cbn; try done.
  - by apply Hlv.
  - intros q. rewrite Hlv. apply lo_task0.
  - intros q. rewrite Hlv. apply lo_run0.
  - destruct lo_ready0 as (ps & ? & ? & Hin). exists ps. split_and!; [done..|].
    intros q. by rewrite Hlv.
  - intros q t. rewrite Hlv. apply lo_kstack0.
  - intros l xs x ???. rewrite Hlv. by eapply lo_waiters0.
  - intros q b Hb. rewrite !Hlv. by eapply lo_slots0.
  - by rewrite Hlv.
Qed.
End code.

(** The next instruction of the running thread may be executed. *)
Definition next_startable (s : qkernel) : Prop :=
  ∀ i rest, progs s !! running s = Some (i :: rest) → startable s i.

Lemma get_prog_inv p (s : qkernel) prog s' : get_prog p s = Ret (prog, s') →
  progs s !! p = Some prog ∧ s' = s.
Proof. unfold get_prog. case_match; [|done]. by intros [= <- <-]. Qed.

Lemma interrupt_kinv h s s' : kinv s → interrupt h s = Ret ((), s') → kinv s'.
Proof.
  intros Hk H. unfold interrupt in H.
  minv H cur s1 H1. apply running_inv in H1 as [-> ->].
  minv H fl s1 H2. apply gets_inv in H2 as [-> ->].
  minv H prog s1 H3. apply get_prog_inv in H3 as [Hp ->].
  minv H u s1 H4. apply keeps_flags in H4. injection H as <-.
  apply kinv_set_prog; [by eapply kinv_core|]. apply (core_live s s1); [done|]. by eexists.
Qed.

Lemma step_kinv s s' : ready ≠ thread_all_list ly →
  kinv s → next_startable s → step ly s = Ret ((), s') → kinv s'.
Proof.
  intros Hl Hk Hst H. unfold step in H.
  minv H cur s1 H1. apply running_inv in H1 as [-> ->].
  minv H prog s1 H2. apply get_prog_inv in H2 as [Hp ->].
  minv H ir s1 H3. apply lift_inv in H3 as [Hi ->]. destruct prog as [|i rest]; [done|].
  injection Hi as <-. minv H todo s1 H4. injection H as <-.
  apply exec_kinv in H4 as [Hk' Hg]; [|done..|by eapply Hst].
  apply kinv_set_prog; [done|]. apply Hg. by eexists.
Qed.
End inv.

(** ** Forward execution *)

Section forward.
Context (ly : layout).
Abbreviation ready := (thread_ready_list ly).

Lemma bind_k_find {B} l e (f : bool → M qkernel B) s xs :
  queues (lists s) !! l = Some xs → (k_find l e ≫= f) s = f (bool_decide (e ∈ xs)) s.
Proof.
  intros Hq. apply M_bind_Ret. unfold k_find, zoom. cbn. unfold q_find. rewrite Hq.
  by rewrite set_lists_id.
Qed.
Lemma bind_k_empty {B} l (f : bool → M qkernel B) s xs :
  queues (lists s) !! l = Some xs → (k_empty l ≫= f) s = f (bool_decide (xs = [])) s.
Proof.
  intros Hq. apply M_bind_Ret. unfold k_empty, zoom. cbn. unfold q_empty. rewrite Hq.
  by rewrite set_lists_id.
Qed.
Lemma bind_k_append {B} l e (f : unit → M qkernel B) s xs :
  queues (lists s) !! l = Some xs → free_node (lists s) e →
  (k_append l e ≫= f) s = f () (set_lists (set_queue l (xs ++ [e]) (lists s)) s).
Proof.
  intros Hq Hf. apply M_bind_Ret. unfold k_append, zoom. cbn. unfold q_append. rewrite Hq.
  by rewrite decide_True.
Qed.
Lemma bind_k_push {B} l e (f : unit → M qkernel B) s xs :
  queues (lists s) !! l = Some xs → free_node (lists s) e →
  (k_push l e ≫= f) s = f () (set_lists (set_queue l (e :: xs) (lists s)) s).
Proof.
  intros Hq Hf. apply M_bind_Ret. unfold k_push, zoom. cbn. unfold q_push. rewrite Hq.
  by rewrite decide_True.
Qed.
Lemma bind_k_pop {B} l (f : Z → M qkernel B) s x xs :
  queues (lists s) !! l = Some (x :: xs) →
  (k_pop l ≫= f) s = f x (set_lists (set_queue l xs (lists s)) s).
Proof.
  intros Hq. apply M_bind_Ret. unfold k_pop, zoom. cbn. unfold q_pop. by rewrite Hq.
Qed.
Lemma bind_get_task {B} p (f : task_struct → M qkernel B) s t :
  tasks s !! p = Some t → (get_task p ≫= f) s = f t s.
Proof. intros Ht. apply M_bind_Ret. unfold get_task. by rewrite Ht. Qed.
Lemma bind_upd_task {B} p g (f : unit → M qkernel B) s t :
  tasks s !! p = Some t → (upd_task p g ≫= f) s = f () (set_tasks (<[p := g t]> (tasks s)) s).
Proof. intros Ht. apply M_bind_Ret. unfold upd_task. by rewrite Ht. Qed.
Lemma bind_off {B} (f : unit → M qkernel B) s :
  if_on (q_eflags (lists s)) = false → (k_ASSERT_off ≫= f) s = f () s.
Proof.
  intros Hoff. apply M_bind_Ret. unfold k_ASSERT_off.
  assert (intr_get_status (q_eflags (lists s)) = Ret (INTR_OFF, q_eflags (lists s))) as Hg.
  { unfold intr_get_status. mstep. by rewrite status_if, Hoff. }
  rewrite (bind_zoom (@flags_lens qstate queue_ops) intr_get_status _ s _ _ Hg).
  rewrite bool_decide_eq_true_2 by done. unfold ASSERT. cbn. by destruct s as [[]].
Qed.

(** A kernel thread runs on the kernel's page directory. *)
Lemma bind_activate {B} p (f : unit → M qkernel B) s t :
  p ≠ NULL → tasks s !! p = Some t → pgdir t = NULL →
  (process_activate p ≫= f) s = f () (set_vm (PMem (phys (vm s)) 0x100000) s).
Proof.
  intros Hp Ht Hpg. apply M_bind_Ret. unfold process_activate.
  destruct (Z.eqb_spec p NULL); [done|]. cbn [negb]. rewrite bind_ASSERT_true.
  unfold page_dir_activate. rewrite bind_assoc. rewrite (bind_get_task p _ s t Ht), Hpg.
  change (NULL =? NULL) with true. cbn [negb]. mstep.
  by rewrite (bind_get_task p _ _ t), Hpg.
Qed.

(** The preempted thread and the head of the queue. *)
Lemma schedule_preempt s c n (ps : list Z) tc tn :
  kinv ly s → running s = c → if_on (q_eflags (lists s)) = false →
  queues (lists s) !! ready = Some (general_tag <$> n :: ps) →
  tasks s !! c = Some tc → status tc = TASK_RUNNING → free_node (lists s) (general_tag c) →
  tasks s !! n = Some tn → pgdir tn = NULL → n ≠ NULL → c ≠ n →
  ∃ s', schedule ready s = Ret ((), s') ∧ running s' = n ∧
    queues (lists s') !! ready = Some (general_tag <$> ps ++ [c]) ∧
    tasks s' !! n = Some (task_status_set TASK_RUNNING tn) ∧
    tasks s' !! c = Some (task_kstack_set (esp s) (task_status_set TASK_READY
      (task_ticks_set (priority tc) tc))) ∧
    esp s' = self_kstack tn ∧ clock s' = clock s ∧ progs s' = progs s ∧
    (∀ p, p ≠ c → p ≠ n → tasks s' !! p = tasks s !! p) ∧
    q_eflags (lists s') = q_eflags (lists s) ∧ members (lists s') = members (lists s) ∧
    queues (lists s') = <[ready := general_tag <$> ps ++ [c]]> (queues (lists s)).
Proof.
  intros Hk Hc Hoff Hq Htc Hst Hfree Htn Hpg Hn Hcn.
  assert (c ∉ n :: ps) as Hni.
  { destruct (lo_ready _ _ (proj1 Hk)) as (ps' & Hq' & _ & Hin). rewrite Hq in Hq'.
    injection Hq' as E. apply (tags_inj (n :: ps)) in E as <-. intros [_ (t & Ht & Hs)]%Hin.
    congruence. }
  eexists. unfold schedule. rewrite bind_off by done.
  unfold running_thread. rewrite bind_gets. fold (running s). rewrite Hc.
  rewrite (bind_get_task c _ s tc Htc), Hst.
  rewrite bool_decide_eq_true_2 by done. rewrite bind_assoc, (bind_k_find _ _ _ _ _ Hq).
  rewrite bool_decide_eq_false_2 by (by rewrite elem_of_tags). cbn [negb].
  rewrite bind_assoc, bind_ASSERT_true, bind_assoc, (bind_k_append _ _ _ _ _ Hq Hfree).
  erewrite bind_upd_task by done.
  erewrite bind_k_empty by (cbn; apply lookup_insert_eq). cbn [fmap list_fmap app].
  rewrite bool_decide_eq_false_2 by done. rewrite bind_ret.
  erewrite bind_k_empty by (cbn; apply lookup_insert_eq).
  rewrite bool_decide_eq_false_2 by done. cbn [negb]. rewrite bind_ASSERT_true.
  erewrite bind_k_pop by (cbn; apply lookup_insert_eq). cbv zeta. rewrite tag2task_general.
  erewrite bind_upd_task by (cbn; by rewrite lookup_insert_ne).
  erewrite bind_activate; [|done|cbn; apply lookup_insert_eq|done].
  unfold switch_to. rewrite bind_gets.
  erewrite bind_upd_task by (cbn; rewrite lookup_insert_ne by done; apply lookup_insert_eq).
  erewrite bind_get_task by (cbn; rewrite lookup_insert_ne by done; apply lookup_insert_eq).
  rewrite modify_eq. split; [done|]. unfold running. cbn. split_and!.
  - eapply (lo_kstack _ _ (proj1 Hk)); [|by rewrite Hc|done].
    destruct (lo_ready _ _ (proj1 Hk)) as (ps' & Hq' & _ & Hin). rewrite Hq in Hq'.
    injection Hq' as E. apply (tags_inj (n :: ps)) in E as <-. apply Hin. by left.
  - by rewrite lookup_insert_eq, fmap_app.
  - by rewrite lookup_insert_ne, lookup_insert_eq by done.
  - by rewrite lookup_insert_eq.
  - done.
  - done.
  - done.
  - intros p Hp1 Hp2. by rewrite !lookup_insert_ne by done.
  - done.
  - done.
  - by rewrite !insert_insert_eq, fmap_app.
Qed.
End forward.

(** ** Properties *)

(** Transitions in which a thread that is started gets a page that is no started
    thread's, and is published with a control block that says READY and a stack in
    its own page ([startable]). *)
Definition kstep_ok (ly : layout) (s s' : qkernel) : Prop := next_startable s ∧ kstep ly s s'.

Lemma kinv_reach ly s s' : thread_ready_list ly ≠ thread_all_list ly → kinv ly s → rtc (kstep_ok ly) s s' → kinv ly s'.
Proof.
  intros Hl Hk Hs. induction Hs as [|s s1 s' [Hst Hstep] _ IH]; [done|]. apply IH.
  destruct Hstep as [s1 H|s1 _ H|b s1 _ _ H].
  - by eapply step_kinv.
  - by eapply interrupt_kinv.
  - by eapply interrupt_kinv.
Qed.

(** C1: whatever the threads execute and however the timer and the keyboard
    interrupt them, in every reachable state exactly one started thread has
    the status RUNNING, it is the one whose stack the stack pointer is in,
    and the ready queue lists exactly the READY threads, each once. Threads are
    started as [kstep_ok] says: in a page that no started thread has, with an
    initialised control block. *)
Theorem scheduler_invariant ly s s' :
  thread_ready_list ly ≠ thread_all_list ly → kinv ly s → rtc (kstep_ok ly) s s' →
  status_of s' (running s') TASK_RUNNING ∧
  (∀ p, live s' p → status_of s' p TASK_RUNNING → p = running s') ∧
  ∃ ps, queues (lists s') !! thread_ready_list ly = Some (general_tag <$> ps) ∧ NoDup ps ∧
    ∀ p, p ∈ ps ↔ live s' p ∧ status_of s' p TASK_READY.
Proof.
  intros Hl Hk Hs. destruct (kinv_reach ly s s' Hl Hk Hs) as [[] Hr]. split_and!; [done|done|]. destruct lo_ready0 as (ps & ? & ? & ?). eauto.
Qed.

(** A kernel with the running thread at 0x9e000 and the idle thread ready. *)
Definition ex_layout : layout := Layout 0x100 0x110 0x200 0x300 0x400.
Definition ex_task (p : Z) (st : task_status) : task_struct :=
  Task (p + 0xf00) 1 st (replicate 16 0) 31 0 5 (replicate 8 (-1)) NULL 0 (-1) 0x19870916.
Definition ex_kernel (eflags : Z) (prog : list instr) : qkernel := {|
  lists := QState eflags {[ 0x100 := [general_tag 0xa0000]; 0x110 := [] ]}
    {[ general_tag 0x9e000; general_tag 0xa0000 ]};
  tasks := {[ 0x9e000 := ex_task 0x9e000 TASK_RUNNING; 0xa0000 := ex_task 0xa0000 TASK_READY ]};
  progs := {[ 0x9e000 := prog; 0xa0000 := [IIntrEnable; IIdle] ]};
  esp := 0x9ef00;
  vm := PMem ∅ 0x100000;
  tss_esp0 := 0;
  sems := {[ 0x204 := 1 ]};
  locks := {[ 0x200 := Lock NULL 0 ]};
  ioqs := ∅;
  kbd_st := kbd_init;
  clock := 7;
  next_pid := 2;
  idle_thread := 0xa0000;
  main_thread := 0x9e000;
  screen := []
|}.

Lemma ex_live eflags prog p : live (ex_kernel eflags prog) p ↔ p = 0x9e000 ∨ p = 0xa0000.
Proof.
  unfold live, ex_kernel. cbn. rewrite lookup_insert_is_Some', lookup_singleton_is_Some. naive_solver.
Qed.

Lemma ex_status eflags prog p st : status_of (ex_kernel eflags prog) p st ↔
  (p = 0x9e000 ∧ st = TASK_RUNNING) ∨ (p = 0xa0000 ∧ st = TASK_READY).
Proof.
  unfold status_of, ex_kernel. cbn. split.
  - intros (t & Ht & <-). rewrite lookup_insert_Some, lookup_singleton_Some in Ht.
    destruct Ht as [[<- <-]|(? & <- & <-)]; auto.
  - intros [[-> ->]|[-> ->]]; by eexists.
Qed.

Lemma ex_kernel_inv eflags prog : kinv ex_layout (ex_kernel eflags prog).
Proof.
  assert (running (ex_kernel eflags prog) = 0x9e000) as Hr by done.
  split; [|rewrite ex_status; auto].
  split; rewrite ?Hr; repeat setoid_rewrite ex_live; repeat setoid_rewrite ex_status.
  - auto.
  - intros p [->| ->]; by eexists.
  - naive_solver.
  - exists [0xa0000]. split_and!; [done|apply NoDup_singleton|].
    intros p. rewrite list_elem_of_singleton. naive_solver.
  - intros p t [->| ->] Hne [= <-]; done.
  - intros l xs x Hq Hall Hx. cbn in Hq. rewrite lookup_insert_Some, lookup_singleton_Some in Hq.
    destruct Hq as [[<- <-]|(_ & <- & <-)]; [|done].
    apply list_elem_of_singleton in Hx as ->. auto.
  - done.
  - auto.
  - intros p. cbn. rewrite dom_singleton_L. intros ->%elem_of_singleton. done.
Qed.

Lemma scheduler_invariant_witness :
  ∃ s', kstep_ok ex_layout (ex_kernel 0x202 [IThreadYield]) s' ∧ status_of s' (running s') TASK_RUNNING.
Proof.
  destruct (step ex_layout (ex_kernel 0x202 [IThreadYield])) as [[[] s']| | |] eqn:E.
  2-4: by vm_compute in E.
  assert (kstep_ok ex_layout (ex_kernel 0x202 [IThreadYield]) s') as Hs.
  { split; [intros i rest [= <- <-]; done|by constructor]. }
  exists s'. split; [exact Hs|].
  exact (proj1 (scheduler_invariant ex_layout (ex_kernel 0x202 [IThreadYield]) s' ltac:(done)
    (ex_kernel_inv _ _) (rtc_once _ _ Hs))).
Defined.

(** Round robin: the timer interrupt of a thread whose time slice is used
    up, with a kernel thread at the head of the ready queue, makes that thread
    run; the preempted one goes to the end of the queue with a full slice
    and the stack pointer of its own stack saved. *)
Theorem timer_round_robin ly s c n (ps : list Z) tc tn :
  kinv ly s → running s = c → if_on (q_eflags (lists s)) = false →
  queues (lists s) !! thread_ready_list ly = Some (general_tag <$> n :: ps) →
  tasks s !! c = Some tc → ticks tc = 0 → stack_magic tc = 0x19870916 →
  free_node (lists s) (general_tag c) →
  tasks s !! n = Some tn → pgdir tn = NULL → n ≠ NULL →
  ∃ s', intr_timer_handler ly s = Ret ((), s') ∧ running s' = n ∧
    queues (lists s') !! thread_ready_list ly = Some (general_tag <$> ps ++ [c]) ∧
    status_of s' n TASK_RUNNING ∧ clock s' = u32 (clock s + 1) ∧
    ∃ tc', tasks s' !! c = Some tc' ∧ status tc' = TASK_READY ∧ ticks tc' = priority tc ∧
      self_kstack tc' = esp s ∧ elapsed_ticks tc' = u32 (elapsed_ticks tc + 1).
Proof.
  intros Hk Hc Hoff Hq Htc Hticks Hmagic Hfree Htn Hpg Hn.
  pose proof Hk as [Hs (tc0 & Htc0 & Hst)]. rewrite Hc, Htc in Htc0. injection Htc0 as <-.
  unfold intr_timer_handler, running_thread. rewrite bind_gets. fold (running s). rewrite Hc.
  rewrite (bind_get_task c _ s tc Htc), Hmagic, bind_ASSERT_true.
  rewrite (bind_upd_task c _ _ s tc Htc), bind_modify, Hticks. cbn [Z.eqb].
  set (s2 := set_clock _ _).
  destruct (loose_task ly s s2 c tc (task_elapsed_set (u32 (elapsed_ticks tc + 1)) tc))
    as [Hl2 Hst2]; [done..|].
  assert (c ≠ n) as Hcn.
  { intros <-. destruct (lo_ready _ _ Hs) as (ps' & Hq' & _ & Hin). rewrite Hq in Hq'.
    injection Hq' as E. apply (tags_inj (c :: ps)) in E as <-.
    destruct (proj1 (Hin c) ltac:(by left)) as [_ (t & Ht & Hb)]. congruence. }
  destruct (schedule_preempt ly s2 c n ps (task_elapsed_set (u32 (elapsed_ticks tc + 1)) tc) tn)
    as (s' & H & Hr & Hq' & Hn' & Hc' & _ & Hck & _); try done.
  - split; [done|]. apply Hst2. change (running s2) with (running s). rewrite Hc. by exists tc.
  - cbn. apply lookup_insert_eq.
  - cbn. by rewrite lookup_insert_ne.
  - exists s'. split_and!; [exact H|done|done|by eexists|by rewrite Hck|].
    eexists. split; [exact Hc'|done].
Qed.

Lemma timer_round_robin_witness :
  ∃ s', intr_timer_handler ex_layout (ex_kernel 0x2 [IIdle]) = Ret ((), s') ∧ running s' = 0xa0000.
Proof.
  destruct (timer_round_robin ex_layout (ex_kernel 0x2 [IIdle]) 0x9e000 0xa0000 []
    (ex_task 0x9e000 TASK_RUNNING) (ex_task 0xa0000 TASK_READY) (ex_kernel_inv _ _))
    as (s' & H & Hr & _); try done.
  { by apply (bool_decide_eq_true_1 (free_node _ _)); vm_compute. }
  exists s'. split; [exact H|exact Hr].
Defined.

(** ** Locks without contention *)

Section locks.
Context (ly : layout).

(** [n] instructions in a row, with no interrupt between them. *)
Fixpoint steps (n : nat) : M qkernel unit :=
  match n with O => mret () | S n => _ ← step ly; steps n end.

Lemma steps_S n s s1 s2 : step ly s = Ret ((), s1) → steps n s1 = Ret ((), s2) →
  steps (S n) s = Ret ((), s2).
Proof. intros H1 H2. cbn [steps]. by rewrite (M_bind_Ret _ _ _ _ _ H1). Qed.

Lemma step_eq s i rest todo s1 :
  progs s !! running s = Some (i :: rest) → exec ly i s = Ret (todo, s1) →
  step ly s = Ret ((), set_progs (<[running s := todo ++ rest]> (progs s1)) s1).
Proof.
  intros Hp He. unfold step, running_thread. rewrite bind_gets. fold (running s).
  assert (get_prog (running s) s = Ret (i :: rest, s)) as Hg by (unfold get_prog; by rewrite Hp).
  rewrite (M_bind_Ret _ _ _ _ _ Hg). cbn [take_instr]. rewrite bind_lift.
  by rewrite (M_bind_Ret _ _ _ _ _ He).
Qed.

Definition set_flags (e : Z) (s : qkernel) : qkernel :=
  set_lists (QState e (queues (lists s)) (members (lists s))) s.

Lemma disable_restore (s : qkernel) : ∃ old e,
  k_disable s = Ret (old, set_flags e s) ∧ if_on e = false ∧
  ∀ s2, q_eflags (lists s2) = e →
    k_set_status old s2 = Ret ((), set_flags (q_eflags (lists s)) s2).
Proof.
  destruct (intr_restore (q_eflags (lists s))) as (old & e & H1 & Hoff & r & H2).
  exists old, e. split_and!; [|done|].
  - by apply (zoom_Ret (@flags_lens qstate queue_ops)).
  - intros s2 <-. unfold k_set_status.
    by rewrite (bind_zoom (@flags_lens qstate queue_ops) (intr_set_status old) _ s2 _ _ H2).
Qed.

Lemma bind_get_lock {B} p (f : lock → M qkernel B) s k :
  locks s !! p = Some k → (get_lock p ≫= f) s = f k s.
Proof. intros Hk. apply M_bind_Ret. unfold get_lock. by rewrite Hk. Qed.
Lemma bind_get_sema {B} p (f : Z → M qkernel B) s v :
  sems s !! p = Some v → (get_sema p ≫= f) s = f v s.
Proof. intros Hk. apply M_bind_Ret. unfold get_sema. by rewrite Hk. Qed.

(** A free semaphore is taken. *)
Lemma sema_loop_free q old s : sems s !! q = Some 1 →
  sema_loop (thread_ready_list ly) q old s =
  (_ ← k_set_status old; mret []) (set_sems (<[q := 0]> (sems s)) s).
Proof.
  intros Hv. unfold sema_loop. rewrite (bind_get_sema _ _ _ _ Hv). change (1 =? 0) with false. cbv iota.
  unfold set_sema. rewrite bind_modify. change (u8 (1 - 1)) with 0.
  erewrite bind_get_sema by (cbn; apply lookup_insert_eq). change (0 =? 0) with true.
  by rewrite bind_ASSERT_true.
Qed.

(** What a lock operation leaves alone. *)
Definition same_but_locks (s s' : qkernel) : Prop :=
  lists s' = lists s ∧ tasks s' = tasks s ∧ esp s' = esp s ∧ ioqs s' = ioqs s ∧
  clock s' = clock s ∧ next_pid s' = next_pid s ∧ screen s' = screen s.

Lemma lock_acquire_free s p rest :
  running s ≠ NULL → progs s !! running s = Some (ILockAcquire p :: rest) →
  locks s !! p = Some (Lock NULL 0) → sems s !! lock_sema p = Some 1 →
  ∃ s', steps 5 s = Ret ((), s') ∧ progs s' = <[running s := rest]> (progs s) ∧
    locks s' = <[p := Lock (running s) 1]> (locks s) ∧
    sems s' = <[lock_sema p := 0]> (sems s) ∧ same_but_locks s s'.
Proof.
  intros Hcur Hp Hk Hv.
  assert (exec ly (ILockAcquire p) s =
    Ret ([ISemaDown (lock_sema p); ILockSetHolder p; ILockSetNr p], s)) as He1.
  { cbn [exec]. unfold lock_acquire. rewrite (bind_get_lock _ _ _ _ Hk).
    unfold running_thread. rewrite bind_gets. fold (running s). cbn [holder].
    destruct (Z.eqb_spec NULL (running s)); [congruence|done]. }
  pose (s1 := set_progs (<[running s :=
    ISemaDown (lock_sema p) :: ILockSetHolder p :: ILockSetNr p :: rest]> (progs s)) s).
  destruct (disable_restore s1) as (old & e & Hdis & Hoff & Hres).
  assert (running s1 = running s) as Hr1 by done.
  eexists. split.
  { eapply steps_S; [by eapply step_eq|]. cbn [app]. fold s1.
    eapply steps_S.
    { eapply (step_eq s1); [rewrite Hr1; apply lookup_insert_eq|].
      cbn [exec]. unfold sema_down. rewrite (M_bind_Ret _ _ _ _ _ Hdis). done. }
    rewrite Hr1. cbn [app].
    eapply steps_S.
    { eapply step_eq; [apply lookup_insert_eq|]. cbn [exec].
      rewrite sema_loop_free by done. erewrite M_bind_Ret by (by apply Hres). done. }
    eapply steps_S.
    { eapply step_eq; [apply lookup_insert_eq|]. cbn [exec]. unfold then_done, lock_set_holder.
      rewrite bind_assoc. erewrite bind_get_lock by done.
      unfold running_thread, set_lock. rewrite bind_assoc, bind_gets, bind_modify. done. }
    eapply steps_S.
    { eapply step_eq; [apply lookup_insert_eq|]. cbn [exec]. unfold then_done, lock_set_nr.
      rewrite bind_assoc. erewrite bind_get_lock by (cbn; apply lookup_insert_eq).
      cbn [holder_repeat_nr]. change (0 =? 0) with true. rewrite bind_assoc, bind_ASSERT_true.
      unfold set_lock. rewrite bind_modify. done. }
    done. }
  cbn. rewrite !insert_insert_eq. unfold same_but_locks. cbn. split_and!; try done.
  by destruct (lists s).
Qed.

Lemma bind_disable {B} (s : qkernel) (f : intr_status → M qkernel B) old e :
  k_disable s = Ret (old, set_flags e s) → (k_disable ≫= f) s = f old (set_flags e s).
Proof. apply M_bind_Ret. Qed.

(** Waking a blocked thread. *)
Lemma thread_unblock_fwd s w tw rq :
  queues (lists s) !! thread_ready_list ly = Some rq → general_tag w ∉ rq →
  tasks s !! w = Some tw → is_blocked (status tw) = true → free_node (lists s) (general_tag w) →
  ∃ s', thread_unblock (thread_ready_list ly) w s = Ret ((), s') ∧
    lists s' = set_queue (thread_ready_list ly) (general_tag w :: rq) (lists s) ∧
    status_of s' w TASK_READY ∧ sems s' = sems s ∧ esp s' = esp s.
Proof.
  intros Hq Hni Htw Hb Hf. destruct (disable_restore s) as (old & e & Hdis & _ & Hres).
  eexists. split.
  { unfold thread_unblock. rewrite (bind_disable _ _ _ _ Hdis).
    erewrite bind_get_task by done. rewrite Hb, bind_ASSERT_true.
    rewrite bool_decide_eq_false_2 by (by destruct (status tw)). cbn [negb].
    rewrite bind_assoc. erewrite bind_k_find by done. rewrite bool_decide_eq_false_2 by done.
    cbn [negb]. rewrite bind_assoc, bind_ASSERT_true, bind_assoc.
    erewrite bind_k_find by done. rewrite bool_decide_eq_false_2 by done.
    rewrite bind_assoc, bind_ret, bind_assoc. erewrite bind_k_push by done.
    erewrite bind_upd_task by done. by apply Hres. }
  cbn. split_and!; try done.
  eexists. split; [apply lookup_insert_eq|done].
Qed.

(** [sema_up] without waiters. *)
Lemma sema_up_free q s : sems s !! q = Some 0 → queues (lists s) !! waiters q = Some [] →
  ∃ s', sema_up (thread_ready_list ly) q s = Ret ((), s') ∧ sems s' = <[q := 1]> (sems s) ∧
    progs s' = progs s ∧ locks s' = locks s ∧ same_but_locks s s'.
Proof.
  intros Hv Hq. destruct (disable_restore s) as (old & e & Hdis & _ & Hres).
  eexists. split.
  { unfold sema_up. rewrite (bind_disable _ _ _ _ Hdis).
    erewrite bind_get_sema by done. change (0 =? 0) with true. rewrite bind_ASSERT_true.
    erewrite bind_k_empty by done. rewrite bool_decide_eq_true_2 by done. cbn [negb].
    rewrite bind_ret. erewrite bind_get_sema by done. unfold set_sema. rewrite bind_modify.
    change (u8 (0 + 1)) with 1. erewrite bind_get_sema by (cbn; apply lookup_insert_eq).
    change (1 =? 1) with true. rewrite bind_ASSERT_true. by apply Hres. }
  unfold same_but_locks. cbn. split_and!; try done. by destruct (lists s).
Qed.

Lemma lock_release_free s p rest :
  progs s !! running s = Some (ILockRelease p :: rest) →
  locks s !! p = Some (Lock (running s) 1) → sems s !! lock_sema p = Some 0 →
  queues (lists s) !! waiters (lock_sema p) = Some [] →
  ∃ s', steps 3 s = Ret ((), s') ∧ progs s' = <[running s := rest]> (progs s) ∧
    locks s' = <[p := Lock NULL 0]> (locks s) ∧
    sems s' = <[lock_sema p := 1]> (sems s) ∧ same_but_locks s s'.
Proof.
  intros Hp Hk Hv Hq.
  pose (s2 := set_locks (<[p := Lock NULL 0]> (locks s)) (set_progs (<[running s :=
    ISemaUp (lock_sema p) :: rest]> (progs s)) s)).
  destruct (sema_up_free (lock_sema p) s2 Hv Hq) as (s3 & Hup & Hsem & Hpr & Hlk & Hsame).
  exists (set_progs (<[running s := rest]> (progs s3)) s3). split.
  - eapply steps_S.
    { eapply step_eq; [done|]. cbn [exec]. unfold lock_release.
      rewrite (bind_get_lock _ _ _ _ Hk). unfold running_thread. rewrite bind_gets.
      change (Z.land (esp s) 0xfffff000) with (running s). cbn [holder holder_repeat_nr].
      rewrite (Z.eqb_refl (running s)), bind_ASSERT_true.
      change (1 <? 1) with false. cbv iota. change (1 =? 1) with true.
      rewrite bind_ASSERT_true. unfold set_lock. by rewrite bind_modify. }
    eapply steps_S.
    { eapply step_eq; [apply lookup_insert_eq|]. cbn [exec]. unfold then_done, lock_clear_nr.
      rewrite bind_assoc. erewrite bind_get_lock by (cbn; apply lookup_insert_eq).
      unfold set_lock. by rewrite bind_modify. }
    eapply steps_S; [|done].
    assert (exec ly (ISemaUp (lock_sema p)) s2 = Ret ([], s3)) as Hex.
    { cbn [exec]. unfold then_done. by rewrite (M_bind_Ret _ _ _ _ _ Hup). }
    etrans; [|apply (step_eq s2 (ISemaUp (lock_sema p)) rest [] s3);
      [apply lookup_insert_eq|done]].
    f_equal. unfold s2, set_locks, set_progs. cbn. by rewrite !insert_insert_eq.
  - cbn. rewrite Hpr, Hlk, Hsem. cbn. rewrite insert_insert_eq. done.
Qed.
End locks.

Lemma steps_add ly n m s s1 : steps ly n s = Ret ((), s1) → steps ly (n + m) s = steps ly m s1.
Proof.
  revert s. induction n as [|n IH]; intros s; cbn; [by intros [= ->]|].
  intros (u & s2 & H1 & H)%M_bind_inv. rewrite (M_bind_Ret _ _ _ _ _ H1). by apply IH.
Qed.

(** A free lock is taken without switching threads, and releasing it
    undoes the acquisition: lock, semaphore, interrupt flag, queues and
    threads are as before; in between the thread is the holder and the
    semaphore is 0. *)
Theorem lock_acquire_release ly s p rest :
  running s ≠ NULL → progs s !! running s = Some (ILockAcquire p :: ILockRelease p :: rest) →
  locks s !! p = Some (Lock NULL 0) → sems s !! lock_sema p = Some 1 →
  queues (lists s) !! waiters (lock_sema p) = Some [] →
  ∃ s1 s', steps ly 5 s = Ret ((), s1) ∧ steps ly 8 s = Ret ((), s') ∧
    locks s1 !! p = Some (Lock (running s) 1) ∧ sems s1 !! lock_sema p = Some 0 ∧
    same_but_locks s s1 ∧
    locks s' = locks s ∧ sems s' = sems s ∧ progs s' = <[running s := rest]> (progs s) ∧
    same_but_locks s s'.
Proof.
  intros Hcur Hp Hk Hv Hq.
  destruct (lock_acquire_free ly s p (ILockRelease p :: rest) Hcur Hp Hk Hv)
    as (s1 & H1 & Hp1 & Hk1 & Hv1 & Hs1).
  assert (running s1 = running s) as Hr by (unfold running; by destruct Hs1 as (_ & _ & -> & _)).
  destruct (lock_release_free ly s1 p rest) as (s' & H2 & Hp2 & Hk2 & Hv2 & Hs2).
  { by rewrite Hp1, Hr, lookup_insert_eq. }
  { by rewrite Hk1, Hr, lookup_insert_eq. }
  { by rewrite Hv1, lookup_insert_eq. }
  { by destruct Hs1 as (-> & _). }
  exists s1, s'. split_and!; try done.
  - change 8%nat with (5 + 3)%nat. by rewrite (steps_add ly 5 3 s s1).
  - by rewrite Hk1, lookup_insert_eq.
  - by rewrite Hv1, lookup_insert_eq.
  - rewrite Hk2, Hk1, insert_insert_eq. by apply insert_id.
  - rewrite Hv2, Hv1, insert_insert_eq. by apply insert_id.
  - by rewrite Hp2, Hp1, Hr, insert_insert_eq.
  - destruct Hs1 as (?&?&?&?&?&?&?), Hs2 as (?&?&?&?&?&?&?). unfold same_but_locks.
    split_and!; congruence.
Qed.

(** The same kernel with an empty waiters list for the lock at 0x200. *)
Definition ex_locked (prog : list instr) : qkernel :=
  set_lists (set_queue 0x208 [] (lists (ex_kernel 0x202 prog))) (ex_kernel 0x202 prog).

Lemma lock_acquire_release_witness :
  ∃ s', steps ex_layout 8 (ex_locked [ILockAcquire 0x200; ILockRelease 0x200; IIdle]) = Ret ((), s') ∧
    sems s' !! 0x204 = Some 1.
Proof.
  destruct (lock_acquire_release ex_layout
    (ex_locked [ILockAcquire 0x200; ILockRelease 0x200; IIdle]) 0x200 [IIdle])
    as (s1 & s' & _ & H & _ & _ & _ & _ & Hs & _); [by vm_compute..|].
  exists s'. split; [exact H|]. rewrite Hs. by vm_compute.
Defined.

(** [sema_up] with waiting threads wakes the one that waits longest: it
    leaves the waiters list, becomes READY at the front of the ready queue,
    and the semaphore is 1 for it to take; the caller goes on running with
    its interrupt flag. *)
Theorem sema_up_wakes_first ly s q w ws rq tw :
  waiters q ≠ thread_ready_list ly →
  sems s !! q = Some 0 → queues (lists s) !! waiters q = Some (general_tag <$> w :: ws) →
  queues (lists s) !! thread_ready_list ly = Some rq → general_tag w ∉ rq →
  tasks s !! w = Some tw → is_blocked (status tw) = true →
  free_node (set_queue (waiters q) (general_tag <$> ws) (lists s)) (general_tag w) →
  ∃ s', sema_up (thread_ready_list ly) q s = Ret ((), s') ∧
    queues (lists s') !! waiters q = Some (general_tag <$> ws) ∧
    queues (lists s') !! thread_ready_list ly = Some (general_tag w :: rq) ∧
    status_of s' w TASK_READY ∧ sems s' !! q = Some 1 ∧
    esp s' = esp s ∧ q_eflags (lists s') = q_eflags (lists s).
Proof.
  intros Hne Hv Hq Hrq Hni Htw Hb Hf.
  destruct (disable_restore s) as (old & e & Hdis & _ & Hres).
  (* waking the thread, from the state with the list popped *)
  pose (s2 := set_lists (set_queue (waiters q) (general_tag <$> ws)
    (lists (set_flags e s))) (set_flags e s)).
  destruct (thread_unblock_fwd ly s2 w tw rq) as (s3 & H3 & Hl3 & Hst3 & Hsm3 & Hf3).
  { cbn. by rewrite lookup_insert_ne. }
  { done. } { done. } { done. } { done. }
  eexists. split.
  { unfold sema_up. rewrite (bind_disable _ _ _ _ Hdis).
    erewrite bind_get_sema by done. change (0 =? 0) with true. rewrite bind_ASSERT_true.
    erewrite bind_k_empty by done. rewrite bool_decide_eq_false_2 by done. cbn [negb].
    rewrite bind_assoc. erewrite bind_k_pop by done. rewrite tag2task_general. fold s2.
    rewrite (M_bind_Ret _ _ _ _ _ H3).
    erewrite bind_get_sema by (by rewrite Hsm3). unfold set_sema. rewrite bind_modify.
    change (u8 (0 + 1)) with 1. erewrite bind_get_sema by (cbn; apply lookup_insert_eq).
    change (1 =? 1) with true. rewrite bind_ASSERT_true. apply Hres. cbn. by rewrite Hl3. }
  cbn. rewrite Hl3. cbn. split_and!; try done.
  - by rewrite lookup_insert_ne, lookup_insert_eq by done.
  - by rewrite lookup_insert_eq.
  - by rewrite lookup_insert_eq.
Qed.

(** The lock at 0x200 is held and the other thread waits for it. *)
Definition ex_waiting : qkernel :=
  set_sems {[ 0x204 := 0 ]}
    (set_tasks (<[0xa0000 := ex_task 0xa0000 TASK_BLOCKED]> (tasks (ex_kernel 0x202 [IIdle])))
      (set_lists (QState 0x202 {[ 0x100 := []; 0x208 := [general_tag 0xa0000] ]}
        {[ general_tag 0x9e000; general_tag 0xa0000 ]}) (ex_kernel 0x202 [IIdle]))).

Lemma sema_up_wakes_first_witness :
  ∃ s', sema_up 0x100 0x204 ex_waiting = Ret ((), s') ∧ status_of s' 0xa0000 TASK_READY.
Proof.
  destruct (sema_up_wakes_first ex_layout ex_waiting 0x204 0xa0000 [] []
    (ex_task 0xa0000 TASK_BLOCKED)) as (s' & H & _ & _ & Hst & _); try done.
  { by apply not_elem_of_nil. }
  { by apply (bool_decide_eq_true_1 (free_node _ _)); vm_compute. }
  exists s'. split; [exact H|exact Hst].
Defined.
