(* ===== verification/Fair.v ===== *)
(** * No starvation (thread/thread.c, device/timer.c)

    Threads that compute without calling the kernel share the processor: every
    thread in the ready queue runs after a number of timer interrupts that the
    time slices before it determine. *)

From Stdlib Require Import ZArith Lia.
From stdpp Require Import functions base numbers list gmap.
From S2P Require Import Prelude Interrupt DList Paging Queue Keyboard Thread Sync IoQueue Sched SchedInv.

(** ** From one timer interrupt to the next *)

Section fair.
Context (ly : layout) (Hlists : thread_ready_list ly ≠ thread_all_list ly).
Abbreviation ready := (thread_ready_list ly).

(** The running thread is interrupted by the timer; the handler runs; the
    thread that runs then goes on with the interrupts enabled. *)
Definition cycle : M qkernel unit := _ ← interrupt ITimer; _ ← step ly; step ly.
Fixpoint cycles (n : nat) : M qkernel unit :=
  match n with O => mret () | S n => _ ← cycle; cycles n end.

Lemma cycles_app n m s s1 s2 : cycles n s = Ret ((), s1) → cycles m s1 = Ret ((), s2) → cycles (n + m) s = Ret ((), s2).
Proof.
  revert s. induction n as [|n IH]; intros s; cbn [cycles Nat.add].
  - by intros [= ->].
  - intros H Hm. minv H u s3 H3. rewrite (M_bind_Ret _ _ _ _ _ H3). by apply IH.
Qed.
(** A cycle is three transitions of the kernel. *)
Lemma cycle_ksteps s s' : if_on (q_eflags (lists s)) = true → cycle s = Ret ((), s') → nsteps (kstep ly) 3 s s'.
Proof.
  intros Hon H. unfold cycle in H. minv H u1 s1 H1. minv H u2 s2 H2. destruct u1, u2.
  econstructor; [by apply KTick|]. econstructor; [by apply KStep|]. econstructor; [by apply KStep|constructor].
Qed.

(** [n] cycles, which are [3 * n] transitions of the kernel. *)
Definition runs (n : nat) (s s' : qkernel) : Prop := cycles n s = Ret ((), s') ∧ nsteps (kstep ly) (3 * n) s s'.

Lemma runs_app n m s s1 s2 : runs n s s1 → runs m s1 s2 → runs (n + m) s s2.
Proof.
  intros [H1 Hn1] [H2 Hn2]. split; [by eapply cycles_app|]. rewrite Nat.mul_add_distr_l. by eapply nsteps_trans.
Qed.
Lemma runs_1 s s' : if_on (q_eflags (lists s)) = true → cycle s = Ret ((), s') → runs 1 s s'.
Proof.
  intros Hon H. split; [|by apply cycle_ksteps]. cbn [cycles]. by rewrite (M_bind_Ret _ _ _ _ _ H).
Qed.

(** What a thread in the ready queue does first: it returns from the timer
    interrupt that preempted it, restores the flag after [thread_yield], or starts. *)
Definition resumes (i : instr) : Prop :=
  match i with
  | IIret e => if_on e = true
  | IIntrEnable | IIntrSet INTR_ON => True
  | _ => False
  end.

(** The node of a thread is in no list but the ready queue. *)
Definition queued_only (s : qkernel) (p : Z) : Prop :=
  general_tag p ∈ members (lists s) ∧ general_tag p ≠ head ready ∧ general_tag p ≠ tail ready ∧
  map_Forall (λ l xs, general_tag p ∉ chain l xs) (delete ready (queues (lists s))).

(** A kernel thread with [n] ticks left. *)
Definition sharer (s : qkernel) (p n : Z) : Prop :=
  p ≠ NULL ∧ queued_only s p ∧ 0 ≤ n < 256 ∧ ∃ t, tasks s !! p = Some t ∧ ticks t = n ∧ pgdir t = NULL ∧
    stack_magic t = 0x19870916 ∧ 0 ≤ priority t < 256.

(** The thread [c] computes, the threads [ps] wait in this order; [f] gives the ticks. *)
Record sharing (s : qkernel) (c : Z) (ps : list Z) (f : Z → Z) : Prop := {
  sh_inv : kinv ly s;
  sh_cur : running s = c;
  sh_on : if_on (q_eflags (lists s)) = true;
  sh_queue : queues (lists s) !! ready = Some (general_tag <$> ps);
  sh_tasks : Forall (λ p, sharer s p (f p)) (c :: ps);
  sh_progs : Forall (λ p, ∃ i rest, progs s !! p = Some (i :: rest) ∧ resumes i) ps
}.

Lemma sharing_nodup s c ps f : sharing s c ps f → NoDup (c :: ps).
Proof.
  intros [[Hlo (tc & Htc & Hst)] Hc _ Hq _ _]. destruct (lo_ready _ _ Hlo) as (ps' & Hq' & Hnd & Hin).
  rewrite Hq in Hq'. injection Hq' as E. apply tags_inj in E as <-. constructor; [|done].
  intros [_ (t & Ht & Hr)]%Hin. congruence.
Qed.

Lemma queued_free s p ps : queued_only s p → queues (lists s) !! ready = Some (general_tag <$> ps) → p ∉ ps →
  free_node (lists s) (general_tag p).
Proof.
  intros (Hm & Hh & Ht & Ho) Hq Hp. split; [done|]. intros l xs Hl. destruct (decide (l = ready)) as [->|].
  - rewrite Hq in Hl. injection Hl as <-. unfold chain. rewrite elem_of_cons, elem_of_app, elem_of_tags, list_elem_of_singleton.
    naive_solver.
  - apply (Ho l xs). by rewrite lookup_delete_ne.
Qed.

Lemma interrupt_eq h s prog : progs s !! running s = Some prog →
  interrupt h s = Ret ((), set_progs (<[running s := h :: IIret (q_eflags (lists s)) :: prog]> (progs s))
    (set_flags (cli_flags (q_eflags (lists s))) s)).
Proof.
  intros Hp. unfold interrupt, running_thread. rewrite bind_gets. fold (running s). rewrite bind_gets.
  erewrite M_bind_Ret by (unfold get_prog; by rewrite Hp). done.
Qed.

(** The resumed thread enables the interrupts and does nothing else. *)
Lemma resume_step s i rest : progs s !! running s = Some (i :: rest) → resumes i → if_on (q_eflags (lists s)) = false →
  ∃ e, if_on e = true ∧ step ly s = Ret ((), set_progs (<[running s := rest]> (progs s)) (set_flags e s)).
Proof.
  intros Hp Hi Hoff.
  assert (∃ e, if_on e = true ∧ exec ly i s = Ret ([], set_flags e s)) as (e & He & Hx).
  { assert (intr_enable (q_eflags (lists s)) = Ret (INTR_OFF, Z.lor (q_eflags (lists s)) EFLAGS_IF)) as Hen.
    { unfold intr_enable, intr_get_status. mstep. by rewrite status_if, Hoff. }
    assert (if_on (Z.lor (q_eflags (lists s)) EFLAGS_IF) = true) as Hon.
    { unfold if_on. rewrite Z.lor_spec. change (Z.testbit EFLAGS_IF 9) with true. apply orb_true_r. }
    destruct i; try done; cbn [exec]; unfold then_done.
    - exists (Z.lor (q_eflags (lists s)) EFLAGS_IF). split; [done|].
      rewrite bind_assoc. by rewrite (bind_zoom (@flags_lens qstate queue_ops) intr_enable _ s _ _ Hen).
    - destruct old; [done|]. exists (Z.lor (q_eflags (lists s)) EFLAGS_IF). split; [done|].
      unfold k_set_status. rewrite bind_assoc. by rewrite (bind_zoom (@flags_lens qstate queue_ops) (intr_set_status INTR_ON) _ s _ _ Hen).
    - exists eflags. done. }
  exists e. split; [done|]. by rewrite (step_eq _ _ _ _ _ _ Hp Hx).
Qed.

Lemma sharer_keep s s' p n : sharer s p n → tasks s' !! p = tasks s !! p → members (lists s') = members (lists s) →
  delete ready (queues (lists s')) = delete ready (queues (lists s)) → sharer s' p n.
Proof.
  intros (? & (Hm & Hh & Ht & Ho) & ? & t & Htk & ?) Heq Hmm Hdd. split_and!; [done| |lia|lia|].
  - unfold queued_only. by rewrite Hmm, Hdd.
  - exists t. by rewrite Heq.
Qed.

Lemma next_is s i rest : progs s !! running s = Some (i :: rest) → startable s i → next_startable s.
Proof. intros H Hst j r Hj. rewrite H in Hj. by injection Hj as <- <-. Qed.

(** The handler in the time slice. *)
Lemma timer_slice s tc : tasks s !! running s = Some tc → stack_magic tc = 0x19870916 → 0 < ticks tc < 256 →
  intr_timer_handler ly s = Ret ((), set_tasks (<[running s := task_ticks_set (ticks tc - 1)
    (task_elapsed_set (u32 (elapsed_ticks tc + 1)) tc)]> (tasks s)) (set_clock (u32 (clock s + 1)) s)).
Proof.
  intros Ht Hm Hn. unfold intr_timer_handler, running_thread. rewrite bind_gets. fold (running s).
  rewrite (bind_get_task _ _ s tc Ht), Hm, bind_ASSERT_true, (bind_upd_task _ _ _ s tc Ht), bind_modify.
  destruct (Z.eqb_spec (ticks tc) 0); [lia|].
  unfold upd_task. cbn [tasks set_tasks set_clock]. rewrite lookup_insert_eq.
  replace (u8 (ticks tc - 1)) with (ticks tc - 1) by zlia. unfold set_tasks, set_clock. cbn. by rewrite insert_insert_eq.
Qed.

(** A cycle around a run of the handler, from [handling]. *)
Definition handling (s : qkernel) (prog : list instr) : qkernel :=
  set_progs (<[running s := ITimer :: IIret (q_eflags (lists s)) :: prog]> (progs s))
    (set_flags (cli_flags (q_eflags (lists s))) s).

Lemma cycle_around s prog s2 i rest : kinv ly s → progs s !! running s = Some prog →
  intr_timer_handler ly (handling s prog) = Ret ((), s2) → if_on (q_eflags (lists s2)) = false →
  let ps := <[running s := IIret (q_eflags (lists s)) :: prog]> (progs s2) in
  ps !! running s2 = Some (i :: rest) → resumes i →
  ∃ e, let s' := set_progs (<[running s2 := rest]> ps) (set_flags e s2) in
    if_on e = true ∧ cycle s = Ret ((), s') ∧ kinv ly s'.
Proof.
  intros Hk Hp Ht Hoff ps Hp3 Hres. pose proof (interrupt_eq ITimer s prog Hp) as Hi. fold (handling s prog) in Hi.
  assert (progs (handling s prog) !! running (handling s prog) = Some (ITimer :: IIret (q_eflags (lists s)) :: prog)) as Hp1
    by apply lookup_insert_eq.
  pose proof (step_eq ly _ _ _ [] s2 Hp1) as Hs2.
  specialize (Hs2 ltac:(cbn [exec]; unfold then_done; by rewrite (M_bind_Ret _ _ _ _ _ Ht))). cbn [app] in Hs2.
  set (s3 := set_progs _ _) in Hs2.
  destruct (resume_step s3 i rest Hp3 Hres Hoff) as (e & He & Hs3).
  exists e. split_and!; [done| |].
  - unfold cycle. rewrite (M_bind_Ret _ _ _ _ _ Hi), (M_bind_Ret _ _ _ _ _ Hs2). exact Hs3.
  - assert (kinv ly (handling s prog)) as Hk1 by (eapply interrupt_kinv; [exact Hk|exact Hi]).
    assert (kinv ly s3) as Hk3 by (eapply step_kinv; [done|exact Hk1|by eapply next_is|exact Hs2]).
    eapply step_kinv; [done|exact Hk3| |exact Hs3]. eapply next_is; [exact Hp3|]. by destruct i.
Qed.

(** A timer interrupt in the time slice takes one tick. *)
Lemma cycle_slice s c ps f : sharing s c ps f → 0 < f c →
  ∃ s', cycle s = Ret ((), s') ∧ sharing s' c ps (<[c := f c - 1]> f).
Proof.
  intros Hsh Hpos. pose proof (sharing_nodup _ _ _ _ Hsh) as [Hnc _]%NoDup_cons.
  destruct Hsh as [Hk <- Hon Hq [Hsc Hts]%Forall_cons_1 Hps].
  pose proof Hsc as (Hnn & Ho & Hn & tc & Htc & Hf & Hpg & Hmg & Hpr).
  destruct (lo_cur _ _ (proj1 Hk)) as [prog Hprog].
  pose proof (timer_slice (handling s prog) tc Htc Hmg ltac:(lia)) as Ht.
  destruct (cycle_around s prog _ (IIret (q_eflags (lists s))) prog Hk Hprog Ht) as (e & He & Hcy & Hk');
    [apply if_on_cli|apply lookup_insert_eq|done|].
  eexists. split; [exact Hcy|].
  assert (∀ p, p ∈ ps → p ≠ running s) as Hne by (by intros p Hp ->).
  split; [exact Hk'|done|exact He|exact Hq| |].
  - constructor.
    + rewrite fn_lookup_insert. split_and!; [done|exact Ho|lia|lia|]. eexists. split; [apply lookup_insert_eq|]. cbn. split_and!; [lia|done|done|lia|lia].
    + eapply Forall_impl; [apply Forall_and; split; [exact Hts|apply Forall_forall, Hne]|]. intros p [Hp Hpc].
      rewrite fn_lookup_insert_ne by done. eapply sharer_keep; [exact Hp|cbn; by rewrite lookup_insert_ne|done|done].
  - eapply Forall_impl; [apply Forall_and; split; [exact Hps|apply Forall_forall, Hne]|]. intros p [Hp Hpc].
    cbn. by rewrite !lookup_insert_ne.
Qed.

(** The handler at the end of the time slice. *)
Lemma timer_switch s c n (ps : list Z) tc tn :
  kinv ly s → running s = c → if_on (q_eflags (lists s)) = false →
  queues (lists s) !! ready = Some (general_tag <$> n :: ps) → NoDup (c :: n :: ps) →
  tasks s !! c = Some tc → ticks tc = 0 → stack_magic tc = 0x19870916 → free_node (lists s) (general_tag c) →
  tasks s !! n = Some tn → pgdir tn = NULL → n ≠ NULL →
  ∃ s', intr_timer_handler ly s = Ret ((), s') ∧ running s' = n ∧ progs s' = progs s ∧
    q_eflags (lists s') = q_eflags (lists s) ∧ members (lists s') = members (lists s) ∧
    queues (lists s') = <[ready := general_tag <$> ps ++ [c]]> (queues (lists s)) ∧
    tasks s' !! n = Some (task_status_set TASK_RUNNING tn) ∧
    tasks s' !! c = Some (task_kstack_set (esp s) (task_status_set TASK_READY (task_ticks_set (priority tc)
      (task_elapsed_set (u32 (elapsed_ticks tc + 1)) tc)))) ∧
    (∀ p, p ≠ c → p ≠ n → tasks s' !! p = tasks s !! p).
Proof.
  intros Hk Hc Hoff Hq Hnd Htc Htk Hmg Hfree Htn Hpg Hnn.
  assert (c ≠ n) as Hcn by (intros ->; apply NoDup_cons in Hnd as [H _]; apply H; by left).
  pose proof Hk as [Hs (tc0 & Htc0 & Hst)]. rewrite Hc, Htc in Htc0. injection Htc0 as <-.
  unfold intr_timer_handler, running_thread. rewrite bind_gets. fold (running s). rewrite Hc.
  rewrite (bind_get_task c _ s tc Htc), Hmg, bind_ASSERT_true, (bind_upd_task c _ _ s tc Htc), bind_modify, Htk. cbn [Z.eqb].
  set (s2 := set_clock _ _). set (tc' := task_elapsed_set _ tc).
  destruct (loose_task ly s s2 c tc tc') as [Hl2 Hst2]; [done..|].
  destruct (schedule_preempt ly s2 c n ps tc' tn) as (s' & H & Hr & _ & Hn' & Hc' & _ & _ & Hpg' & Hot & Hf' & Hm' & Hq'); try done.
  - split; [done|]. apply Hst2. change (running s2) with (running s). rewrite Hc. by exists tc.
  - apply lookup_insert_eq.
  - cbn. by rewrite lookup_insert_ne.
  - exists s'. split_and!; try done. intros p Hp1 Hp2. rewrite Hot by done. cbn. by rewrite lookup_insert_ne.
Qed.

(** A timer interrupt at the end of the slice passes the processor on. *)
Lemma cycle_switch s c n ps f : sharing s c (n :: ps) f → f c = 0 →
  ∃ s' x, cycle s = Ret ((), s') ∧ sharing s' n (ps ++ [c]) (<[c := x]> f) ∧ 0 ≤ x < 256.
Proof.
  intros Hsh Hzero. pose proof (sharing_nodup _ _ _ _ Hsh) as Hnd. pose proof Hnd as [Hnc Hnd']%NoDup_cons.
  destruct Hsh as [Hk <- Hon Hq Hts Hps]. pose proof Hts as [Hsc [Hsn _]%Forall_cons_1]%Forall_cons_1.
  apply Forall_cons_1 in Hps as [(i & rest & Hpn & Hres) Hps].
  pose proof Hsc as (Hcn & Hoc & _ & tc & Htc & Hf & Hpg & Hmg & Hpr).
  pose proof Hsn as (Hnn & Hon' & Hfn & tn & Htn & Hfn' & Hpgn & Hmgn & Hprn).
  destruct (lo_cur _ _ (proj1 Hk)) as [prog Hprog].
  assert (n ≠ running s) as Hne by (intros ->; apply Hnc; by left).
  destruct (timer_switch (handling s prog) (running s) n ps tc tn) as (s2 & Ht & Hr & Hp2 & Hfl & Hm & Hq2 & Htn2 & Htc2 & Hot);
    try done.
  { eapply interrupt_kinv; [exact Hk|]. apply interrupt_eq. exact Hprog. }
  { apply if_on_cli. }
  { lia. }
  { by eapply (queued_free (handling s prog)). }
  destruct (cycle_around s prog s2 i rest Hk Hprog Ht) as (e & He & Hcy & Hk').
  { rewrite Hfl. apply if_on_cli. }
  { rewrite Hr, lookup_insert_ne, Hp2 by done. cbn. by rewrite lookup_insert_ne. }
  { done. }
  eexists. exists (priority tc). split_and!; [exact Hcy| |lia|lia].
  assert (∀ p m, sharer s p (f p) → (∃ t, tasks s2 !! p = Some t ∧ ticks t = m ∧ pgdir t = NULL ∧
    stack_magic t = 0x19870916 ∧ 0 ≤ priority t < 256) → 0 ≤ m < 256 →
    sharer (set_progs (<[running s2 := rest]> (<[running s := IIret (q_eflags (lists s)) :: prog]> (progs s2))) (set_flags e s2)) p m)
    as Hmk.
  { intros p m (? & (Hm1 & Hm2 & Hm3 & Hm4) & _) Ht2 Hrg. split_and!; [done| |lia|lia|exact Ht2].
    unfold queued_only. cbn. rewrite Hm, Hq2, delete_insert_eq. cbn. done. }
  split; [exact Hk'|exact Hr|exact He|cbn; rewrite Hq2; apply lookup_insert_eq| |].
  - assert (∀ p, p ∈ ps → sharer s p (f p)) as Hall.
    { intros p Hp. apply (proj1 (Forall_forall _ _) Hts). right. by right. }
    constructor; [|apply Forall_app; split; [|constructor; [|constructor]]].
    + rewrite fn_lookup_insert_ne by done. apply Hmk; [done| |done]. eexists. split; [exact Htn2|]. done.
    + apply Forall_forall. intros p Hp.
      assert (p ≠ running s) by (intros ->; apply Hnc; by right).
      assert (p ≠ n) by (intros ->; by apply NoDup_cons in Hnd' as [? _]).
      rewrite fn_lookup_insert_ne by done. pose proof (Hall p Hp) as Hsp. apply Hmk; [done| |apply Hsp].
      destruct Hsp as (_ & _ & _ & t & Htp & ?). exists t. by rewrite Hot.
    + rewrite fn_lookup_insert. apply Hmk; [done| |lia]. eexists. split; [exact Htc2|done].
  - apply Forall_app. split.
    + apply Forall_forall. intros p Hp.
      assert (p ≠ running s) by (intros ->; apply Hnc; by right).
      assert (p ≠ n) by (intros ->; by apply NoDup_cons in Hnd' as [? _]).
      cbn. rewrite Hr, Hp2, !lookup_insert_ne by done. cbn. rewrite lookup_insert_ne by done.
      exact (proj1 (Forall_forall _ _) Hps p Hp).
    + constructor; [|constructor]. exists (IIret (q_eflags (lists s))), prog. split; [|done].
      cbn. rewrite Hr, lookup_insert_ne by done. apply lookup_insert_eq.
Qed.

Lemma sharing_ext s c ps f g : sharing s c ps f → (∀ p, f p = g p) → sharing s c ps g.
Proof.
  intros [? ? ? ? Ht ?] Hfg. split; try done. eapply Forall_impl; [exact Ht|]. intros p. cbn. by rewrite Hfg.
Qed.
Lemma insert_twice (f : Z → Z) c x y p : <[c := y]> (<[c := x]> f) p = <[c := y]> f p.
Proof. destruct (decide (p = c)) as [->|]; by rewrite ?fn_lookup_insert, ?fn_lookup_insert_ne by done. Qed.

(** The rest of a time slice. *)
Lemma cycles_slice k s c ps f : sharing s c ps f → f c = Z.of_nat k →
  ∃ s', runs k s s' ∧ sharing s' c ps (<[c := 0]> f).
Proof.
  revert s f. induction k as [|k IH]; intros s f Hsh Hk.
  - exists s. split; [split; [done|constructor]|]. eapply sharing_ext; [exact Hsh|]. intros p. destruct (decide (p = c)) as [->|].
    + rewrite fn_lookup_insert. lia.
    + by rewrite fn_lookup_insert_ne.
  - destruct (cycle_slice s c ps f Hsh ltac:(lia)) as (s1 & H1 & Hs1).
    destruct (IH s1 _ Hs1 ltac:(rewrite fn_lookup_insert; lia)) as (s' & H2 & Hs'). exists s'. split.
    + apply (runs_app 1 k s s1); [|done]. apply runs_1; [apply Hsh|done].
    + eapply sharing_ext; [exact Hs'|]. intros p. apply insert_twice.
Qed.

(** A whole turn. *)
Lemma cycles_turn s c n ps f : sharing s c (n :: ps) f →
  ∃ s' x, runs (S (Z.to_nat (f c))) s s' ∧ sharing s' n (ps ++ [c]) (<[c := x]> f).
Proof.
  intros Hsh. assert (0 ≤ f c) by (destruct Hsh as [_ _ _ _ [(_ & _ & ? & _) _]%Forall_cons_1 _]; lia).
  destruct (cycles_slice (Z.to_nat (f c)) s c (n :: ps) f Hsh ltac:(lia)) as (s1 & H1 & Hs1).
  destruct (cycle_switch s1 c n ps _ Hs1 ltac:(by rewrite fn_lookup_insert)) as (s' & x & H2 & Hs' & _).
  exists s', x. split.
  - rewrite <-Nat.add_1_r. eapply runs_app; [exact H1|]. apply runs_1; [apply Hs1|done].
  - eapply sharing_ext; [exact Hs'|]. intros p. apply insert_twice.
Qed.

(** The timer interrupts of the turns of [ps]. *)
Definition turns (f : Z → Z) (ps : list Z) : nat := foldr (λ p n, S (Z.to_nat (f p)) + n)%nat 0%nat ps.

Lemma turns_ext f g ps : (∀ p, p ∈ ps → f p = g p) → turns f ps = turns g ps.
Proof.
  intros H. induction ps as [|p ps IH]; [done|]. cbn. rewrite (H p) by (by left).
  f_equal. f_equal. apply IH. intros q Hq. apply H. by right.
Qed.

Lemma turns_run s c a p b f : sharing s c (a ++ p :: b) f →
  ∃ s' f', runs (turns f (c :: a)) s s' ∧ sharing s' p (b ++ c :: a) f'.
Proof.
  revert s c b f. induction a as [|q a IH]; intros s c b f Hsh; pose proof (sharing_nodup _ _ _ _ Hsh) as [Hnc _]%NoDup_cons.
  - destruct (cycles_turn s c p b f Hsh) as (s' & x & Hr & Hs'). exists s', (<[c := x]> f).
    cbn [turns foldr]. by rewrite Nat.add_0_r.
  - destruct (cycles_turn s c q (a ++ p :: b) f Hsh) as (s1 & x & Hr1 & Hs1).
    rewrite <-app_assoc in Hs1. cbn [app] in Hs1.
    destruct (IH s1 q (b ++ [c]) _ Hs1) as (s' & f' & Hr & Hs'). exists s', f'. split.
    + change (turns f (c :: q :: a)) with (S (Z.to_nat (f c)) + turns f (q :: a))%nat.
      eapply runs_app; [exact Hr1|]. rewrite (turns_ext f (<[c := x]> f)); [done|].
      intros r Hr'. rewrite fn_lookup_insert_ne; [done|]. intros ->. apply Hnc. rewrite elem_of_cons in Hr'.
      rewrite elem_of_app, elem_of_cons. cbn. set_solver.
    + by rewrite <-app_assoc in Hs'.
Qed.
End fair.

(** ** Every ready thread runs *)

(** C2: no starvation: when kernel threads compute and only the timer interrupts
    them, a thread of the ready queue runs after exactly the ticks that are left
    to the running thread and to the threads before it in the queue, one more
    for each; then it is at the head of the same threads in turn, so this goes
    on for ever. *)
Theorem no_starvation ly s c a p b f : thread_ready_list ly ≠ thread_all_list ly →
  sharing ly s c (a ++ p :: b) f →
  let n := turns f (c :: a) in
  ∃ s' f', cycles ly n s = Ret ((), s') ∧ nsteps (kstep ly) (3 * n) s s' ∧ running s' = p ∧
    sharing ly s' p (b ++ c :: a) f'.
Proof.
  intros Hl Hsh n. destruct (turns_run ly Hl s c a p b f Hsh) as (s' & f' & [Hc Hn] & Hs').
  exists s', f'. split_and!; [done|done|apply Hs'|done].
Qed.

Lemma no_starvation_witness :
  ∃ s', cycles ex_layout 1 (ex_kernel 0x202 []) = Ret ((), s') ∧ running s' = 0xa0000.
Proof.
  destruct (no_starvation ex_layout (ex_kernel 0x202 []) 0x9e000 [] 0xa0000 [] (λ _, 0)) as (s' & f' & Hc & _ & Hr & _).
  - done.
  - split; [apply ex_kernel_inv|done|done|done| |].
    + repeat (constructor; [split_and!; [done|split_and!; [|done|done|]|lia|lia|eexists; split_and!; done]|]); [..|constructor].
      all: apply (bool_decide_unpack _); by vm_compute.
    + constructor; [|constructor]. by eexists _, _.
  - exists s'. split; [exact Hc|exact Hr].
Defined.
