(* ===== verification/Memory.v ===== *)
(** * Page allocation (kernel/memory.c)

    The two pools of physical frames, the pools of virtual addresses of the
    kernel and of the running process, and the functions that join them in
    the page tables of [Paging]. A run is that of one thread: a lock that
    another thread holds makes it wait ([Spin]); without contention the
    lock functions below are those of [Sync] (see
    [SchedInv.lock_acquire_release]). *)

From Stdlib Require Import ZArith Lia.
From stdpp Require Import base numbers list gmap.
From S2P Require Import Prelude Bitmap Paging DList Thread.

(** ** Data *)

Inductive pool_flags := PF_KERNEL | PF_USER.
#[export] Instance pool_flags_eq_dec : EqDecision pool_flags.
Proof. solve_decision. Defined.

Record pool := Pool {
  pool_bitmap : bitmap;
  phy_addr_start : Z;
  pool_size : Z;
  pool_lock : lock
}.

Record virtual_addr := VAddr {
  vaddr_bitmap : bitmap;
  vaddr_start : Z
}.

(** [cur] is the running thread, [cur_pgdir] and [user_vaddr] the fields
    [pgdir] and [userprog_vaddr] of its control block. *)
Record mstate := MState {
  mem : pmem;
  kernel_pool : pool;
  user_pool : pool;
  kernel_vaddr : virtual_addr;
  user_vaddr : virtual_addr;
  cur : Z;
  cur_pgdir : Z
}.

Definition K_HEAP_START : Z := 0xc0100000.
Definition MEM_BITMAP_BASE : Z := 0xc009a000.
(** [PG_US_U | PG_RW_W | PG_P_1] *)
Definition PG_FLAGS : Z := Z.lor (Z.lor 4 2) 1.

Abbreviation MM := (M mstate).

Definition mem_lens : lens mstate pmem := Lens mem (λ m s,
  MState m (kernel_pool s) (user_pool s) (kernel_vaddr s) (user_vaddr s) (cur s) (cur_pgdir s)).
Definition get_pool (pf : pool_flags) : MM pool :=
  gets (λ s, match pf with PF_KERNEL => kernel_pool s | PF_USER => user_pool s end).
Definition set_pool (pf : pool_flags) (p : pool) : MM unit := modify (λ s,
  match pf with
  | PF_KERNEL => MState (mem s) p (user_pool s) (kernel_vaddr s) (user_vaddr s) (cur s) (cur_pgdir s)
  | PF_USER => MState (mem s) (kernel_pool s) p (kernel_vaddr s) (user_vaddr s) (cur s) (cur_pgdir s)
  end).
Definition get_vaddr (pf : pool_flags) : MM virtual_addr :=
  gets (λ s, match pf with PF_KERNEL => kernel_vaddr s | PF_USER => user_vaddr s end).
Definition set_vaddr (pf : pool_flags) (v : virtual_addr) : MM unit := modify (λ s,
  match pf with
  | PF_KERNEL => MState (mem s) (kernel_pool s) (user_pool s) v (user_vaddr s) (cur s) (cur_pgdir s)
  | PF_USER => MState (mem s) (kernel_pool s) (user_pool s) (kernel_vaddr s) v (cur s) (cur_pgdir s)
  end).

(** ** Locks of one thread *)

Definition acquire (k : lock) (t : Z) : outcome lock :=
  if holder k =? t then Ret (Lock t (u32 (holder_repeat_nr k + 1)))
  else if holder k =? NULL then Ret (Lock t 1) else Spin.
Definition release (k : lock) (t : Z) : outcome lock :=
  _ ← assert_ (holder k =? t);
  if 1 <? holder_repeat_nr k then Ret (Lock t (holder_repeat_nr k - 1))
  else _ ← assert_ (holder_repeat_nr k =? 1); Ret (Lock NULL 0).

Definition pool_lock_acquire (pf : pool_flags) : MM unit :=
  p ← get_pool pf; t ← gets cur;
  k ← lift (acquire (pool_lock p) t);
  set_pool pf (Pool (pool_bitmap p) (phy_addr_start p) (pool_size p) k).
Definition pool_lock_release (pf : pool_flags) : MM unit :=
  p ← get_pool pf; t ← gets cur;
  k ← lift (release (pool_lock p) t);
  set_pool pf (Pool (pool_bitmap p) (phy_addr_start p) (pool_size p) k).

(** ** Frames and virtual addresses *)

(** [while (cnt < pg_cnt) bitmap_set(btmp, start + cnt++, value)] *)
Fixpoint set_bits (n : nat) (btmp : bitmap) (start value : Z) : outcome bitmap :=
  match n with
  | O => Ret btmp
  | S n => btmp ← bitmap_set btmp start value; set_bits n btmp (start + 1) value
  end.

Definition palloc (pf : pool_flags) : MM Z :=
  p ← get_pool pf;
  bit_idx ← lift (bitmap_scan (pool_bitmap p) 1);
  if bit_idx =? -1 then mret NULL else
  b ← lift (bitmap_set (pool_bitmap p) bit_idx 1);
  _ ← set_pool pf (Pool b (phy_addr_start p) (pool_size p) (pool_lock p));
  mret (u32 (bit_idx * PG_SIZE + phy_addr_start p)).

Definition vaddr_get (pf : pool_flags) (pg_cnt : Z) : MM Z :=
  va ← get_vaddr pf;
  bit_idx_start ← lift (bitmap_scan (vaddr_bitmap va) pg_cnt);
  if bit_idx_start =? -1 then mret NULL else
  b ← lift (set_bits (Z.to_nat pg_cnt) (vaddr_bitmap va) bit_idx_start 1);
  _ ← set_vaddr pf (VAddr b (vaddr_start va));
  let start := u32 (vaddr_start va + bit_idx_start * PG_SIZE) in
  _ ← (match pf with
       | PF_USER => ASSERT (start <? 0xc0000000 - PG_SIZE)
       | PF_KERNEL => mret ()
       end);
  mret start.

Definition pfree (pg_phy_addr : Z) : MM unit :=
  u ← gets user_pool;
  let pf := if phy_addr_start u <=? pg_phy_addr then PF_USER else PF_KERNEL in
  p ← get_pool pf;
  let bit_idx := u32 (pg_phy_addr - phy_addr_start p) / PG_SIZE in
  b ← lift (bitmap_set (pool_bitmap p) bit_idx 0);
  set_pool pf (Pool b (phy_addr_start p) (pool_size p) (pool_lock p)).

Definition vaddr_remove (pf : pool_flags) (vaddr pg_cnt : Z) : MM unit :=
  va ← get_vaddr pf;
  let bit_idx_start := u32 (vaddr - vaddr_start va) / PG_SIZE in
  b ← lift (set_bits (Z.to_nat pg_cnt) (vaddr_bitmap va) bit_idx_start 0);
  set_vaddr pf (VAddr b (vaddr_start va)).

(** ** Page tables *)

(** [memset(vaddr, 0, 4 * n)] of mapped memory, a dword at a time. *)
Fixpoint clear_dwords (n : nat) (vaddr : Z) : M pmem unit :=
  match n with
  | O => mret ()
  | S n => _ ← store32 vaddr 0; clear_dwords n (vaddr + 4)
  end.
Definition clear_pages (vaddr pg_cnt : Z) : MM unit :=
  zoom mem_lens (clear_dwords (Z.to_nat (pg_cnt * 1024)) vaddr).

Definition page_table_add (vaddr page_phyaddr : Z) : MM unit :=
  pde ← zoom mem_lens (load32 (pde_ptr vaddr));
  if present pde then
    pte ← zoom mem_lens (load32 (pte_ptr vaddr));
    _ ← ASSERT (negb (present pte));
    if negb (present pte)
    then zoom mem_lens (store32 (pte_ptr vaddr) (Z.lor page_phyaddr PG_FLAGS))
    else PANIC
  else
    pde_phyaddr ← palloc PF_KERNEL;
    _ ← zoom mem_lens (store32 (pde_ptr vaddr) (Z.lor pde_phyaddr PG_FLAGS));
    _ ← zoom mem_lens (clear_dwords 1024 (Z.land (pte_ptr vaddr) 0xfffff000));
    pte ← zoom mem_lens (load32 (pte_ptr vaddr));
    _ ← ASSERT (negb (present pte));
    zoom mem_lens (store32 (pte_ptr vaddr) (Z.lor page_phyaddr PG_FLAGS)).

(** ** Pages *)

(** [while (cnt-- > 0)] of [malloc_page]: false when a frame is missing. *)
Fixpoint map_pages (cnt : nat) (pf : pool_flags) (vaddr : Z) : MM bool :=
  match cnt with
  | O => mret true
  | S cnt =>
    page_phyaddr ← palloc pf;
    if page_phyaddr =? NULL then mret false else
    _ ← page_table_add vaddr page_phyaddr;
    map_pages cnt pf (u32 (vaddr + PG_SIZE))
  end.

Definition malloc_page (pf : pool_flags) (pg_cnt : Z) : MM Z :=
  _ ← ASSERT ((0 <? pg_cnt) && (pg_cnt <? 3840));
  vaddr_start ← vaddr_get pf pg_cnt;
  if vaddr_start =? NULL then mret NULL else
  ok ← map_pages (Z.to_nat pg_cnt) pf vaddr_start;
  mret (if (ok : bool) then vaddr_start else NULL).

Definition get_kernel_pages (pg_cnt : Z) : MM Z :=
  vaddr ← malloc_page PF_KERNEL pg_cnt;
  _ ← (if negb (vaddr =? NULL) then clear_pages vaddr pg_cnt else mret ());
  mret vaddr.

(** The result is cleared even when it is NULL. *)
Definition get_user_pages (pg_cnt : Z) : MM Z :=
  _ ← pool_lock_acquire PF_USER;
  vaddr ← malloc_page PF_USER pg_cnt;
  _ ← clear_pages vaddr pg_cnt;
  _ ← pool_lock_release PF_USER;
  mret vaddr.

(** The early return for a missing frame does not release the lock. *)
Definition get_a_page (pf : pool_flags) (vaddr : Z) : MM Z :=
  _ ← pool_lock_acquire pf;
  pgdir ← gets cur_pgdir;
  _ ← (if (negb (pgdir =? NULL) && bool_decide (pf = PF_USER)) ||
          ((pgdir =? NULL) && bool_decide (pf = PF_KERNEL)) then
      va ← get_vaddr pf;
      let bit_idx := i32 (u32 (vaddr - vaddr_start va) / PG_SIZE) in
      _ ← ASSERT (0 <? bit_idx);
      b ← lift (bitmap_set (vaddr_bitmap va) bit_idx 1);
      set_vaddr pf (VAddr b (vaddr_start va))
    else PANIC);
  page_phyaddr ← palloc pf;
  if page_phyaddr =? NULL then mret NULL else
  _ ← page_table_add vaddr page_phyaddr;
  _ ← pool_lock_release pf;
  mret vaddr.

Definition get_a_page_without_opvaddrbitmap (pf : pool_flags) (vaddr : Z) : MM Z :=
  _ ← pool_lock_acquire pf;
  page_phyaddr ← palloc pf;
  if page_phyaddr =? NULL then _ ← pool_lock_release pf; mret NULL else
  _ ← page_table_add vaddr page_phyaddr;
  _ ← pool_lock_release pf;
  mret vaddr.

(** The loops of [mfree_page]; [ok] is the assertion on the frame. *)
Fixpoint free_pages (pg_cnt : nat) (ok : Z → bool) (vaddr : Z) : MM unit :=
  match pg_cnt with
  | O => mret ()
  | S pg_cnt =>
    let vaddr := u32 (vaddr + PG_SIZE) in
    pg_phy_addr ← zoom mem_lens (addr_v2p vaddr);
    _ ← ASSERT ((pg_phy_addr mod PG_SIZE =? 0) && ok pg_phy_addr);
    _ ← pfree pg_phy_addr;
    _ ← zoom mem_lens (page_table_pte_remove vaddr);
    free_pages pg_cnt ok vaddr
  end.

Definition mfree_page (pf : pool_flags) (vaddr pg_cnt : Z) : MM unit :=
  _ ← ASSERT ((1 <=? pg_cnt) && (vaddr mod PG_SIZE =? 0));
  pg_phy_addr ← zoom mem_lens (addr_v2p vaddr);
  _ ← ASSERT ((pg_phy_addr mod PG_SIZE =? 0) && (0x102000 <=? pg_phy_addr));
  ustart ← gets (λ s, phy_addr_start (user_pool s));
  kstart ← gets (λ s, phy_addr_start (kernel_pool s));
  if ustart <=? pg_phy_addr then
    _ ← free_pages (Z.to_nat pg_cnt) (λ p, ustart <=? p) (u32 (vaddr - PG_SIZE));
    vaddr_remove pf vaddr pg_cnt
  else
    _ ← free_pages (Z.to_nat pg_cnt) (λ p, (kstart <=? p) && (p <? ustart)) (u32 (vaddr - PG_SIZE));
    vaddr_remove pf vaddr pg_cnt.

(** ** Initialisation *)

(** [mem_pool_init]: [kbits], [ubits] and [vbits] are the memory at the three
    bitmap addresses. The numbers of pages are 16-bit. *)
Definition mem_pool_init (all_mem : Z) (kbits ubits vbits : list Z)
    : outcome (pool * pool * virtual_addr) :=
  let page_table_size := PG_SIZE * 256 in
  let used_mem := page_table_size + 0x100000 in
  let free_mem := u32 (all_mem - used_mem) in
  let all_free_pages := u16 (free_mem / PG_SIZE) in
  let kernel_free_pages := all_free_pages / 2 in
  let user_free_pages := u16 (all_free_pages - kernel_free_pages) in
  let kbm_length := kernel_free_pages / 8 in
  let ubm_length := user_free_pages / 8 in
  let kp_start := used_mem in
  let up_start := u32 (kp_start + kernel_free_pages * PG_SIZE) in
  kb ← bitmap_init (Bitmap kbm_length kbits);
  ub ← bitmap_init (Bitmap ubm_length ubits);
  vb ← bitmap_init (Bitmap kbm_length vbits);
  Ret (Pool kb kp_start (u32 (kernel_free_pages * PG_SIZE)) (Lock NULL 0),
       Pool ub up_start (u32 (user_free_pages * PG_SIZE)) (Lock NULL 0),
       VAddr vb K_HEAP_START).

(** ** Frames *)

Definition pool_of (pf : pool_flags) (s : mstate) : pool :=
  match pf with PF_KERNEL => kernel_pool s | PF_USER => user_pool s end.
Definition with_pool (pf : pool_flags) (p : pool) (s : mstate) : mstate :=
  match pf with
  | PF_KERNEL => MState (mem s) p (user_pool s) (kernel_vaddr s) (user_vaddr s) (cur s) (cur_pgdir s)
  | PF_USER => MState (mem s) (kernel_pool s) p (kernel_vaddr s) (user_vaddr s) (cur s) (cur_pgdir s)
  end.
Definition with_mem (m : pmem) (s : mstate) : mstate :=
  MState m (kernel_pool s) (user_pool s) (kernel_vaddr s) (user_vaddr s) (cur s) (cur_pgdir s).
Definition with_bits (b : bitmap) (p : pool) : pool :=
  Pool b (phy_addr_start p) (pool_size p) (pool_lock p).

Lemma pool_of_with pf p s : pool_of pf (with_pool pf p s) = p.
Proof. by destruct pf. Qed.
Lemma mem_with_pool pf p s : mem (with_pool pf p s) = mem s.
Proof. by destruct pf. Qed.
Lemma with_pool_twice pf p p' s : with_pool pf p' (with_pool pf p s) = with_pool pf p' s.
Proof. by destruct pf. Qed.
Lemma with_mem_pool pf p m s : with_mem m (with_pool pf p s) = with_pool pf p (with_mem m s).
Proof. by destruct pf. Qed.
Lemma pool_of_mem pf m s : pool_of pf (with_mem m s) = pool_of pf s.
Proof. by destruct pf. Qed.

Lemma get_pool_eq pf s : get_pool pf s = Ret (pool_of pf s, s).
Proof. by destruct pf. Qed.
Lemma set_pool_eq pf p s : set_pool pf p s = Ret ((), with_pool pf p s).
Proof. by destruct pf. Qed.

(** The pool's frames fit 32-bit addresses and start behind low memory. *)
Record wf_pool (p : pool) : Prop := {
  wp_bitmap : wf_bitmap (pool_bitmap p);
  wp_start : 0x102000 ≤ phy_addr_start p;
  wp_align : phy_addr_start p mod 4096 = 0;
  wp_end : phy_addr_start p + 8 * btmp_bytes_len (pool_bitmap p) * 4096 ≤ 4294967296
}.

(** The address of frame [i] of a pool. *)
Definition frame_addr (p : pool) (i : Z) : Z := phy_addr_start p + i * 4096.
Definition frame_index (p : pool) (i : Z) : Prop := 0 ≤ i < 8 * btmp_bytes_len (pool_bitmap p).

Lemma palloc_spec pf s i :
  wf_pool (pool_of pf s) → frame_index (pool_of pf s) i → bit (pool_bitmap (pool_of pf s)) i = false →
  ∃ r b, palloc pf s =
      Ret (frame_addr (pool_of pf s) r, with_pool pf (with_bits b (pool_of pf s)) s) ∧
    frame_index (pool_of pf s) r ∧ bit (pool_bitmap (pool_of pf s)) r = false ∧
    (∀ j, 0 ≤ j < r → bit (pool_bitmap (pool_of pf s)) j = true) ∧
    wf_pool (with_bits b (pool_of pf s)) ∧
    btmp_bytes_len b = btmp_bytes_len (pool_bitmap (pool_of pf s)) ∧
    ∀ j, 0 ≤ j → bit b j = if decide (j = r) then true else bit (pool_bitmap (pool_of pf s)) j.
Proof.
  intros [Hwf Hst Hal Hend] Hi Hb. unfold frame_index in *.
  destruct (bitmap_scan_one _ Hwf i Hi Hb) as (r & Hr & Hri & Hbr & Hmin).
  destruct (bitmap_set_spec (pool_bitmap (pool_of pf s)) r 1 Hwf) as (b & Hset & Hwb & Hlen & Hlb & Hbit);
    [pose proof (wf_bits _ Hwf); lia|by right|].
  exists r, b. unfold palloc. rewrite (M_bind_Ret _ _ _ _ _ (get_pool_eq pf s)), Hr, bind_lift.
  destruct (Z.eqb_spec r (-1)); [lia|]. rewrite Hset, bind_lift.
  rewrite (M_bind_Ret _ _ _ _ _ (set_pool_eq _ _ _)), ret_eq. unfold frame_addr, PG_SIZE.
  rewrite u32_id by (unfold is_u32; lia). split_and!; try done; try lia.
  - do 2 f_equal. lia.
  - split; cbn; [done..|by rewrite Hlen].
Qed.

Lemma palloc_full pf s :
  wf_bitmap (pool_bitmap (pool_of pf s)) → has_guard_byte (pool_bitmap (pool_of pf s)) →
  (∀ i, frame_index (pool_of pf s) i → bit (pool_bitmap (pool_of pf s)) i = true) →
  palloc pf s = Panic.
Proof.
  intros Hwf Hg Hall. unfold palloc. rewrite (M_bind_Ret _ _ _ _ _ (get_pool_eq pf s)).
  by rewrite bitmap_scan_full by done.
Qed.

(** ** Entries *)

Lemma lor_flags f : is_u32 f → f mod 4096 = 0 →
  u32 (Z.lor f PG_FLAGS) = f + 7 ∧ frame (f + 7) = f ∧ present (f + 7) = true ∧ is_u32 (f + 7).
Proof.
  intros Hf Hal. unfold is_u32 in Hf.
  assert (Z.lor f PG_FLAGS = f + 7) as E.
  { change PG_FLAGS with 7. rewrite <-Z.add_lor_land.
    assert (Z.land f 7 = 0) as ->; [|lia].
    change 7 with (Z.ones 3). rewrite Z.land_ones by done. change (2 ^ 3) with 8. zlia. }
  assert (is_u32 (f + 7)) as Hu by (unfold is_u32; zlia).
  rewrite E, u32_id by done. split_and!; [done| | |done].
  - rewrite frame_eq by done. zlia.
  - unfold present. change 1 with (Z.ones 1). rewrite Z.land_ones by done. change (2 ^ 1) with 2.
    destruct (Z.eqb_spec ((f + 7) mod 2) 0); [zlia|done].
Qed.

(** A page whose table exists and which is not mapped; its entry is no
    directory entry. *)
Record mappable (m : pmem) (v a : Z) : Prop := {
  mp_u32 : is_u32 v;
  mp_slot : pte_slot m v = Some a;
  mp_entry : ∃ pte, phys m !! a = Some pte ∧ present pte = false;
  mp_dir : ∀ i, a ≠ frame (cr3 m) + i * 4 ∨ i < 0 ∨ 1024 ≤ i
}.

Definition map_entry (m : pmem) (a f : Z) : pmem := PMem (<[a := f + 7]> (phys m)) (cr3 m).

Lemma mappable_pde m v a v' : mappable m v a → is_u32 v' → pde_slot m v' ≠ a.
Proof.
  intros [_ _ _ Hd] Hv E. unfold pde_slot in E. pose proof (PDE_IDX_range v' Hv).
  destruct (Hd (PDE_IDX v')) as [?|[?|?]]; [by subst|lia|lia].
Qed.

Lemma self_map_entry m v a f : self_map m → mappable m v a → self_map (map_entry m a f).
Proof.
  intros [Hc (e & He & Hp & Hf)] [_ _ _ Hd]. split; [done|]. exists e. split; [|done]. cbn.
  rewrite lookup_insert_ne; [done|]. destruct (Hd 1023) as [?|[?|?]]; [congruence|lia|lia].
Qed.

Lemma page_table_add_spec s v a f :
  self_map (mem s) → mappable (mem s) v a → is_u32 f → f mod 4096 = 0 →
  page_table_add v f s = Ret ((), with_mem (map_entry (mem s) a f) s).
Proof.
  intros Hm Hmp Hf Hal. pose proof Hmp as [Hv Hs (pte & Hpte & Hnp) _].
  assert (∃ pde, load32 (pde_ptr v) (mem s) = Ret (pde, mem s) ∧ present pde = true)
    as (pde & Hpde & Hpp).
  { unfold load32. rewrite walk_pde_ptr by done. unfold pte_slot in Hs.
    destruct (phys (mem s) !! pde_slot (mem s) v) as [pde|]; [|done].
    exists pde. destruct (present pde); done. }
  assert (with_mem (mem s) s = s) as Hid by (by destruct s).
  unfold page_table_add. rewrite (bind_zoom mem_lens _ _ s _ _ Hpde), Hpp.
  change (over mem_lens (mem s) s) with (with_mem (mem s) s). rewrite Hid.
  rewrite (bind_zoom mem_lens _ _ s _ _ (load_pte _ _ _ _ Hm Hv Hs Hpte)), Hnp.
  change (over mem_lens (mem s) s) with (with_mem (mem s) s). rewrite Hid. cbn [negb].
  rewrite bind_ASSERT_true.
  apply (zoom_Ret mem_lens). cbn. rewrite (store_pte _ _ _ _ _ Hm Hv Hs Hpte).
  by destruct (lor_flags f Hf Hal) as (-> & _).
Qed.

(** The new entry maps the page and changes no other page. *)
Lemma walk_map_entry m v a f : mappable m v a → is_u32 f → f mod 4096 = 0 →
  walk (map_entry m a f) v = Some (f + Z.land v 0xfff) ∧
  ∀ v', is_u32 v' → pte_slot m v' ≠ Some a → walk (map_entry m a f) v' = walk m v'.
Proof.
  intros Hmp Hf Hal. pose proof Hmp as [Hv Hs _ _].
  destruct (lor_flags f Hf Hal) as (_ & Hfr & Hp & _). split.
  - unfold walk, map_entry. rewrite pte_slot_write by (by eapply mappable_pde). rewrite Hs. cbn.
    by rewrite lookup_insert_eq, Hp, Hfr.
  - intros v' Hv' Hne. apply walk_frame; [by eapply mappable_pde|done].
Qed.

Lemma mappable_entry m v a f v' a' :
  mappable m v a → mappable m v' a' → a ≠ a' → mappable (map_entry m a f) v' a'.
Proof.
  intros Hmp [Hv Hs (pte & Hpte & Hnp) Hd] Hne. split; [done| | |done].
  - unfold map_entry. rewrite pte_slot_write; [done|]. by eapply mappable_pde.
  - exists pte. cbn. by rewrite lookup_insert_ne.
Qed.

(** ** Runs of pages *)

(** At least [n] frames of the pool are free. *)
Definition free_frames (p : pool) (n : nat) : Prop := ∃ fs : list Z,
  NoDup fs ∧ length fs = n ∧ Forall (λ i, frame_index p i ∧ bit (pool_bitmap p) i = false) fs.

Lemma free_frames_take p b r n :
  free_frames p (S n) → btmp_bytes_len b = btmp_bytes_len (pool_bitmap p) →
  (∀ j, 0 ≤ j → bit b j = if decide (j = r) then true else bit (pool_bitmap p) j) →
  free_frames (with_bits b p) n.
Proof.
  intros (fs & Hnd & Hl & Hfs) Hlen Hbit.
  assert (∃ fs', NoDup fs' ∧ length fs' = n ∧ (r ∉ fs') ∧ ∀ i, i ∈ fs' → i ∈ fs)
    as (fs' & Hnd' & Hl' & Hr & Hsub).
  { destruct (decide (r ∈ fs)) as [Hin|Hni].
    - apply elem_of_Permutation in Hin as [fs' Hp]. rewrite Hp in Hnd. apply NoDup_cons in Hnd as [??].
      exists fs'. split_and!; [done| |done|].
      + apply Permutation_length in Hp. cbn in Hp. lia.
      + intros i Hi. rewrite Hp. by right.
    - destruct fs as [|i fs]; [done|]. apply NoDup_cons in Hnd as [_ Hnd].
      exists fs. split_and!; [done|by injection Hl|intros Hin; apply Hni; by right|by right]. }
  exists fs'. split_and!; [done|done|]. apply Forall_forall. intros i Hi.
  rewrite Forall_forall in Hfs. destruct (Hfs i (Hsub i Hi)) as [Hidx Hb].
  unfold frame_index, with_bits in *. cbn. rewrite Hlen. split; [done|].
  rewrite Hbit by lia. rewrite decide_False; [done|]. by intros ->.
Qed.

(** The state after mapping: the frames [fs] of the pool are used and the
    page tables have changed. *)
Record mapped (pf : pool_flags) (s s' : mstate) (v : Z) (slots fs : list Z) : Prop := {
  md_nodup : NoDup fs;
  md_length : length fs = length slots;
  md_free : Forall (λ i, frame_index (pool_of pf s) i ∧
    bit (pool_bitmap (pool_of pf s)) i = false) fs;
  md_walk : ∀ k i, fs !! k = Some i → walk (mem s') (v + Z.of_nat k * 4096) =
    Some (frame_addr (pool_of pf s) i + Z.land (v + Z.of_nat k * 4096) 0xfff);
  md_frame : ∀ v', is_u32 v' → (∀ a, a ∈ slots → pte_slot (mem s) v' ≠ Some a) →
    walk (mem s') v' = walk (mem s) v';
  md_self : self_map (mem s');
  md_pool : ∃ b, s' = with_pool pf (with_bits b (pool_of pf s)) (with_mem (mem s') s) ∧
    btmp_bytes_len b = btmp_bytes_len (pool_bitmap (pool_of pf s)) ∧
    ∀ j, 0 ≤ j → bit b j = if decide (j ∈ fs) then true else bit (pool_bitmap (pool_of pf s)) j
}.

Lemma mapped_nil pf s v : self_map (mem s) → mapped pf s s v [] [].
Proof.
  intros Hm. split; try done; [constructor|]. exists (pool_bitmap (pool_of pf s)).
  split_and!; [|done|done]. destruct pf, s as [m [] [] ? ? ? ?]; done.
Qed.

Lemma mapped_cons pf s v a r b slots fs s' :
  let p := pool_of pf s in
  let f := frame_addr p r in
  let s1 := with_pool pf (with_bits b p) (with_mem (map_entry (mem s) a f) s) in
  wf_pool p → frame_index p r → bit (pool_bitmap p) r = false →
  btmp_bytes_len b = btmp_bytes_len (pool_bitmap p) →
  (∀ j, 0 ≤ j → bit b j = if decide (j = r) then true else bit (pool_bitmap p) j) →
  mappable (mem s) v a → a ∉ slots →
  mapped pf s1 s' (v + 4096) slots fs → mapped pf s s' v (a :: slots) (r :: fs).
Proof.
  intros p f s1 Hwf Hr Hbr Hlen Hbit Hmp Ha H.
  pose proof Hwf as [_ Hst Hal Hend]. destruct H as [Hnd Hl Hfree Hwalk Hframe Hself (b' & Hs' & Hlb & Hb')].
  unfold s1 in *. rewrite pool_of_with in *. rewrite mem_with_pool in *. cbn [mem with_mem] in *.
  assert (is_u32 f ∧ f mod 4096 = 0) as [Hfu Hfal].
  { unfold f, frame_addr, is_u32, frame_index in *. fold p in Hst, Hal, Hend. split; [lia|zlia]. }
  destruct (walk_map_entry (mem s) v a f Hmp Hfu Hfal) as [Hw Hwf'].
  assert (r ∉ fs) as Hrn.
  { intros Hin. rewrite Forall_forall in Hfree. destruct (Hfree r Hin) as [Hi0 Hb0].
    cbn in Hb0. rewrite Hbit in Hb0 by (unfold frame_index in Hr; lia). by rewrite decide_True in Hb0. }
  split.
  - by apply NoDup_cons.
  - cbn. by rewrite Hl.
  - constructor; [done|]. eapply Forall_impl; [exact Hfree|]. intros i [Hi Hb].
    unfold frame_index in *. cbn in Hi, Hb. rewrite Hlen in Hi. split; [done|].
    rewrite Hbit in Hb by lia. by case_decide.
  - intros [|k] i.
    + intros [= <-]. change (Z.of_nat 0) with 0. rewrite Z.mul_0_l, Z.add_0_r.
      rewrite Hframe; [exact Hw|by apply Hmp|].
      intros a' Ha' E. unfold map_entry in E. rewrite pte_slot_write in E by (by eapply mappable_pde, Hmp).
      rewrite (mp_slot _ _ _ Hmp) in E. congruence.
    + intros Hk. replace (v + Z.of_nat (S k) * 4096) with (v + 4096 + Z.of_nat k * 4096) by lia.
      by rewrite (Hwalk k i Hk).
  - intros v' Hv' Hne. rewrite Hframe; [apply Hwf'; [done|apply Hne; by left]|done|].
    intros a' Ha' E. unfold map_entry in E. rewrite pte_slot_write in E by (by eapply mappable_pde).
    apply (Hne a'); [by right|done].
  - done.
  - exists b'. rewrite Hs'. rewrite with_mem_pool, with_pool_twice. split_and!.
    + rewrite mem_with_pool. by destruct pf.
    + rewrite Hlb. done.
    + intros j Hj. rewrite Hb' by done. cbn. rewrite Hbit by done.
      destruct (decide (j ∈ fs)), (decide (j = r)), (decide (j ∈ r :: fs)); set_solver.
Qed.

Lemma map_pages_spec n pf s v slots :
  self_map (mem s) → wf_pool (pool_of pf s) → free_frames (pool_of pf s) n →
  length slots = n → NoDup slots →
  (∀ k a, slots !! k = Some a → mappable (mem s) (v + Z.of_nat k * 4096) a) →
  ∃ s' fs, map_pages n pf v s = Ret (true, s') ∧ mapped pf s s' v slots fs.
Proof.
  revert s v slots. induction n as [|n IH]; intros s v slots Hm Hwf Hfree Hl Hnd Hmp.
  { destruct slots; [|done]. exists s, []. split; [done|by apply mapped_nil]. }
  destruct slots as [|a slots]; [done|]. apply NoDup_cons in Hnd as [Ha Hnd].
  pose proof (Hmp 0%nat a eq_refl) as Hmp0. rewrite Z.mul_0_l, Z.add_0_r in Hmp0.
  destruct Hfree as ([|i fs0] & Hnd0 & Hl0 & Hf0) eqn:E; [done|]. clear E.
  apply Forall_cons in Hf0 as Hf1. destruct Hf1 as [[Hi Hbi] _].
  destruct (palloc_spec pf s i Hwf Hi Hbi) as (r & b & Hpa & Hr & Hbr & _ & Hwb & Hlen & Hbit).
  pose proof Hwf as [_ Hst Hal Hend].
  set (p := pool_of pf s) in *. set (f := frame_addr p r) in *.
  assert (is_u32 f ∧ f mod 4096 = 0 ∧ f ≠ NULL) as (Hfu & Hfal & Hfn).
  { unfold f, frame_addr, is_u32, frame_index, NULL in *. split_and!; [lia|lia|zlia|lia]. }
  set (s1 := with_pool pf (with_bits b p) (with_mem (map_entry (mem s) a f) s)).
  destruct (IH s1 (v + 4096) slots) as (s' & fs & Hrun & Hmd).
  - unfold s1. rewrite mem_with_pool. by eapply self_map_entry.
  - unfold s1. by rewrite pool_of_with.
  - unfold s1. rewrite pool_of_with. eapply free_frames_take; [|done|exact Hbit].
    by exists (i :: fs0).
  - by injection Hl.
  - done.
  - intros k a' Hk. unfold s1. rewrite mem_with_pool. apply (mappable_entry (mem s) v); [done| |].
    + replace (v + 4096 + Z.of_nat k * 4096) with (v + Z.of_nat (S k) * 4096) by lia. by apply Hmp.
    + intros ->. apply Ha. by eapply list_elem_of_lookup_2.
  - exists s', (r :: fs). split; [|by eapply mapped_cons].
    cbn [map_pages]. rewrite (M_bind_Ret _ _ _ _ _ Hpa).
    destruct (Z.eqb_spec f NULL); [done|].
    erewrite M_bind_Ret; [|apply (page_table_add_spec _ v a); [by rewrite mem_with_pool..|done|done]].
    rewrite mem_with_pool, with_mem_pool. fold s1.
    destruct n as [|n].
    + cbn in Hl. destruct slots; [|done]. exact Hrun.
    + destruct slots as [|a2 slots]; [discriminate Hl|].
      pose proof (mp_u32 _ _ _ (Hmp 1%nat a2 eq_refl)) as Hu. unfold PG_SIZE.
      rewrite u32_id; [exact Hrun|]. by replace (v + 4096) with (v + Z.of_nat 1 * 4096) by lia.
Qed.

(** ** Virtual addresses *)

Lemma set_bits_spec n btmp start v :
  wf_bitmap btmp → 0 ≤ start → start + Z.of_nat n ≤ 8 * Z.of_nat (length (bits btmp)) →
  v = 0 ∨ v = 1 →
  ∃ b, set_bits n btmp start v = Ret b ∧ wf_bitmap b ∧ btmp_bytes_len b = btmp_bytes_len btmp ∧
    length (bits b) = length (bits btmp) ∧
    ∀ j, 0 ≤ j → bit b j = if decide (start ≤ j < start + Z.of_nat n) then v =? 1 else bit btmp j.
Proof.
  revert btmp start. induction n as [|n IH]; intros btmp start Hwf Hs Hl Hv.
  { exists btmp. split_and!; try done. intros j Hj. rewrite decide_False by lia. done. }
  destruct (bitmap_set_spec btmp start v Hwf) as (b1 & H1 & Hwf1 & Hlen1 & Hl1 & Hb1); [lia|done|].
  destruct (IH b1 (start + 1)) as (b & H & Hwfb & Hlen & Hlb & Hb); [done|lia|rewrite Hl1; lia|done|].
  exists b. cbn [set_bits]. rewrite H1. split_and!; [exact H|done|congruence|congruence|].
  intros j Hj. rewrite Hb, Hb1 by done.
  destruct (decide (start + 1 ≤ j < start + 1 + Z.of_nat n)),
    (decide (start ≤ j < start + Z.of_nat (S n))), (decide (j = start)); try done; lia.
Qed.

Definition vaddr_of (pf : pool_flags) (s : mstate) : virtual_addr :=
  match pf with PF_KERNEL => kernel_vaddr s | PF_USER => user_vaddr s end.
Definition with_vaddr (pf : pool_flags) (v : virtual_addr) (s : mstate) : mstate :=
  match pf with
  | PF_KERNEL => MState (mem s) (kernel_pool s) (user_pool s) v (user_vaddr s) (cur s) (cur_pgdir s)
  | PF_USER => MState (mem s) (kernel_pool s) (user_pool s) (kernel_vaddr s) v (cur s) (cur_pgdir s)
  end.

Lemma get_vaddr_eq pf s : get_vaddr pf s = Ret (vaddr_of pf s, s).
Proof. by destruct pf. Qed.
Lemma set_vaddr_eq pf v s : set_vaddr pf v s = Ret ((), with_vaddr pf v s).
Proof. by destruct pf. Qed.
Lemma pool_of_vaddr pf pf' v s : pool_of pf (with_vaddr pf' v s) = pool_of pf s.
Proof. by destruct pf, pf'. Qed.
Lemma mem_vaddr pf v s : mem (with_vaddr pf v s) = mem s.
Proof. by destruct pf. Qed.

(** The first address of [r] pages into the pool of virtual addresses. *)
Definition page_addr (va : virtual_addr) (r : Z) : Z := vaddr_start va + r * 4096.

Lemma vaddr_get_spec pf s cnt r :
  let va := vaddr_of pf s in
  wf_bitmap (vaddr_bitmap va) → 0 < cnt → bitmap_scan (vaddr_bitmap va) cnt = Ret r → 0 ≤ r →
  r + cnt ≤ 8 * Z.of_nat (length (bits (vaddr_bitmap va))) →
  is_u32 (page_addr va r) → (pf = PF_USER → page_addr va r < 0xc0000000 - 4096) →
  ∃ b, vaddr_get pf cnt s = Ret (page_addr va r, with_vaddr pf (VAddr b (vaddr_start va)) s) ∧
    ∀ j, 0 ≤ j → bit b j = if decide (r ≤ j < r + cnt) then true else bit (vaddr_bitmap va) j.
Proof.
  intros va Hwf Hcnt Hscan Hr Hlen Hu Huser.
  destruct (set_bits_spec (Z.to_nat cnt) (vaddr_bitmap va) r 1 Hwf) as (b & Hset & _ & _ & _ & Hb);
    [done|lia|by right|].
  exists b. split.
  - unfold vaddr_get. rewrite (M_bind_Ret _ _ _ _ _ (get_vaddr_eq pf s)). fold va.
    rewrite Hscan, bind_lift. destruct (Z.eqb_spec r (-1)); [lia|].
    rewrite Hset, bind_lift, (M_bind_Ret _ _ _ _ _ (set_vaddr_eq _ _ _)).
    unfold page_addr, PG_SIZE in *. rewrite u32_id by done. destruct pf; [done|].
    destruct (Z.ltb_spec (vaddr_start va + r * 4096) (0xc0000000 - 4096)); [done|].
    specialize (Huser eq_refl). lia.
  - intros j Hj. rewrite Hb by done. rewrite Z2Nat.id by lia. done.
Qed.

(** ** Properties *)

(** C8: [malloc_page] of [cnt] pages, for which there are virtual addresses
    (the run [r] the first-fit scan finds), frames and page tables, returns
    the first address; every page is mapped to its own frame, which was free
    and is now used; the virtual pages are marked; no other address is
    translated differently. *)
Theorem malloc_page_correct pf cnt s r slots :
  let va := vaddr_of pf s in
  0 < cnt < 3840 → wf_bitmap (vaddr_bitmap va) → bitmap_scan (vaddr_bitmap va) cnt = Ret r →
  0 ≤ r → r + cnt ≤ 8 * Z.of_nat (length (bits (vaddr_bitmap va))) →
  is_u32 (page_addr va r) → page_addr va r ≠ NULL →
  (pf = PF_USER → page_addr va r < 0xc0000000 - 4096) →
  self_map (mem s) → wf_pool (pool_of pf s) → free_frames (pool_of pf s) (Z.to_nat cnt) →
  length slots = Z.to_nat cnt → NoDup slots →
  (∀ k a, slots !! k = Some a → mappable (mem s) (page_addr va r + Z.of_nat k * 4096) a) →
  ∃ b s1 s' fs, malloc_page pf cnt s = Ret (page_addr va r, s') ∧
    s1 = with_vaddr pf (VAddr b (vaddr_start va)) s ∧
    (∀ j, 0 ≤ j → bit b j = if decide (r ≤ j < r + cnt) then true else bit (vaddr_bitmap va) j) ∧
    mapped pf s1 s' (page_addr va r) slots fs.
Proof.
  intros va Hcnt Hwf Hscan Hr Hlen Hu Hn Huser Hm Hwp Hfree Hl Hnd Hmp.
  destruct (vaddr_get_spec pf s cnt r) as (b & Hget & Hb); [done|lia|done..|].
  set (s1 := with_vaddr pf (VAddr b (vaddr_start va)) s).
  destruct (map_pages_spec (Z.to_nat cnt) pf s1 (page_addr va r) slots) as (s' & fs & Hrun & Hmd);
    try (unfold s1; rewrite ?mem_vaddr, ?pool_of_vaddr; done).
  exists b, s1, s', fs. split_and!; [|done|done|done].
  unfold malloc_page. destruct (Z.ltb_spec 0 cnt), (Z.ltb_spec cnt 3840); try lia.
  cbn [andb]. rewrite bind_ASSERT_true, (M_bind_Ret _ _ _ _ _ Hget). fold va. fold s1.
  destruct (Z.eqb_spec (page_addr va r) NULL); [done|].
  by rewrite (M_bind_Ret _ _ _ _ _ Hrun).
Qed.

(** Allocation of a frame takes the lowest free one; when all are used it
    panics, so the checks for NULL of its callers are never reached. *)
Theorem palloc_first_free pf s :
  wf_pool (pool_of pf s) → has_guard_byte (pool_bitmap (pool_of pf s)) →
  (palloc pf s = Panic ∧ ∀ i, frame_index (pool_of pf s) i → bit (pool_bitmap (pool_of pf s)) i = true) ∨
  ∃ r b, palloc pf s = Ret (frame_addr (pool_of pf s) r, with_pool pf (with_bits b (pool_of pf s)) s) ∧
    frame_addr (pool_of pf s) r ≠ NULL ∧
    frame_index (pool_of pf s) r ∧ bit (pool_bitmap (pool_of pf s)) r = false ∧
    (∀ j, 0 ≤ j < r → bit (pool_bitmap (pool_of pf s)) j = true) ∧
    ∀ j, 0 ≤ j → bit b j = if decide (j = r) then true else bit (pool_bitmap (pool_of pf s)) j.
Proof.
  intros Hwf Hg. set (p := pool_of pf s) in *.
  assert ((∀ i, frame_index p i → bit (pool_bitmap p) i = true) ∨
    ∃ i, frame_index p i ∧ bit (pool_bitmap p) i = false) as [Hall|(i & Hi & Hb)].
  { unfold frame_index.
    destruct (list_find (λ i, bit (pool_bitmap p) i = false) (seqZ 0 (8 * btmp_bytes_len (pool_bitmap p))))
      as [[k i]|] eqn:E.
    - right. apply list_find_Some in E as (Hk & Hb & _). apply lookup_seqZ in Hk. exists i.
      split; [lia|done].
    - left. apply list_find_None in E. intros i Hi. rewrite Forall_forall in E.
      specialize (E i). destruct (bit (pool_bitmap p) i); [done|]. exfalso. apply E; [|done].
      apply elem_of_seqZ. lia. }
  - left. split; [|done]. apply palloc_full; [apply Hwf|done|done].
  - right. destruct (palloc_spec pf s i Hwf Hi Hb) as (r & b & H & Hr & Hbr & Hmin & _ & _ & Hbit).
    exists r, b. split_and!; try done. destruct Hwf. unfold frame_addr, frame_index, NULL in *.
    fold p in wp_start0. lia.
Qed.

(** One page table for the kernel heap and a pool of 8 frames. *)
Definition ex_mem : pmem := PMem {[ 0x100ffc := 0x100007; 0x100c00 := 0x101007; 0x101400 := 0 ]} 0x100000.
Definition ex_pool (start : Z) (bs : list Z) : pool := Pool (Bitmap 1 bs) start 0x8000 (Lock NULL 0).
Definition ex_mstate : mstate :=
  MState ex_mem (ex_pool 0x200000 [1; 0]) (ex_pool 0x208000 [0; 0])
    (VAddr (Bitmap 1 [0; 0]) K_HEAP_START) (VAddr (Bitmap 1 [0; 0]) 0x8048000) 0x9e000 NULL.

Lemma ex_bitmap_ok l : Forall is_u8 l → (1 ≤ length l)%nat → wf_bitmap (Bitmap 1 l).
Proof. intros Hl Hn. split; cbn; [lia|lia|done]. Qed.

Lemma ex_mstate_wf pf : wf_pool (pool_of pf ex_mstate) ∧ has_guard_byte (pool_bitmap (pool_of pf ex_mstate)).
Proof.
  destruct pf; (split; [split; [apply ex_bitmap_ok; [|cbn; lia]| | |]|]); try by vm_compute.
  all: repeat constructor; unfold is_u8; lia.
Qed.

Lemma ex_mappable : mappable ex_mem 0xc0100000 0x101400.
Proof.
  split; [unfold is_u32; lia|by vm_compute|by exists 0; vm_compute|].
  intros i. change (frame (cr3 ex_mem)) with 0x100000. lia.
Qed.

Lemma malloc_page_correct_witness :
  ∃ s', malloc_page PF_KERNEL 1 ex_mstate = Ret (0xc0100000, s').
Proof.
  destruct (malloc_page_correct PF_KERNEL 1 ex_mstate 0 [0x101400]) as (b & s1 & s' & fs & H & _).
  - lia.
  - apply ex_bitmap_ok; [repeat constructor; unfold is_u8; lia|cbn; lia].
  - by vm_compute.
  - lia.
  - by vm_compute.
  - by vm_compute.
  - by vm_compute.
  - done.
  - split; [done|]. exists 0x100007. split_and!; by vm_compute.
  - apply ex_mstate_wf.
  - exists [3]. split_and!; [apply NoDup_singleton|done|]. constructor; [|constructor].
    split; [by vm_compute|by vm_compute].
  - done.
  - apply NoDup_singleton.
  - intros [|k] a; [|done]. intros [= <-]. exact ex_mappable.
  - exists s'. exact H.
Defined.

Lemma palloc_first_free_witness : ∃ s', palloc PF_KERNEL ex_mstate = Ret (0x201000, s').
Proof.
  destruct (palloc_first_free PF_KERNEL ex_mstate (proj1 (ex_mstate_wf _)) (proj2 (ex_mstate_wf _)))
    as [[H _]|(r & b & H & _ & Hi & Hb & Hmin & _)]; [by vm_compute in H|].
  assert (r = 1) as ->.
  { destruct (decide (r = 1)); [done|]. unfold frame_index in Hi. cbn in Hi.
    destruct (decide (r = 0)) as [->|]; [by vm_compute in Hb|].
    specialize (Hmin 1 ltac:(lia)). by vm_compute in Hmin. }
  eexists. exact H.
Defined.

Lemma bitmap_init_spec n l : 0 ≤ n < 268435455 → n ≤ Z.of_nat (length l) → Forall is_u8 l →
  ∃ b, bitmap_init (Bitmap n l) = Ret b ∧ wf_bitmap b ∧ btmp_bytes_len b = n ∧
    ∀ i, 0 ≤ i < 8 * n → bit b i = false.
Proof.
  intros Hn Hl Hu. unfold bitmap_init. cbn.
  destruct (Z.ltb_spec (Z.of_nat (length l)) n); [lia|]. eexists. split; [done|].
  split_and!; [split; cbn|done|].
  - lia.
  - rewrite length_app, length_replicate, length_drop. lia.
  - apply Forall_app. split; [|by apply Forall_drop].
    apply Forall_replicate. unfold is_u8. lia.
  - intros i Hi. unfold bit. cbn.
    rewrite lookup_app_l, lookup_replicate_2 by (rewrite ?length_replicate; zlia).
    apply Z.bits_0.
Qed.

(** [mem_pool_init] divides the memory above 2 MB: with fewer than 65536
    free pages the kernel's and the user's frames are disjoint, below
    [all_mem], all free, and both pools are well formed. *)
Theorem mem_pool_init_correct all_mem kbits ubits vbits :
  0x200000 ≤ all_mem < 0x200000 + 65536 * 4096 →
  Forall is_u8 kbits → Forall is_u8 ubits → Forall is_u8 vbits →
  all_mem / 65536 ≤ Z.of_nat (length kbits) → all_mem / 65536 ≤ Z.of_nat (length ubits) →
  all_mem / 65536 ≤ Z.of_nat (length vbits) →
  ∃ kp up va, mem_pool_init all_mem kbits ubits vbits = Ret (kp, up, va) ∧
    wf_pool kp ∧ wf_pool up ∧
    (∀ i j, frame_index kp i → frame_index up j →
       0x200000 ≤ frame_addr kp i ∧ frame_addr kp i + 4096 ≤ frame_addr up j ∧
       frame_addr up j + 4096 ≤ all_mem) ∧
    (∀ i, frame_index kp i → bit (pool_bitmap kp) i = false) ∧
    (∀ i, frame_index up i → bit (pool_bitmap up) i = false).
Proof.
  intros Hall Hk Hu Hv Hlk Hlu Hlv. unfold mem_pool_init, PG_SIZE.
  rewrite (u32_id (all_mem - _)) by (unfold is_u32; lia).
  set (F := (all_mem - (4096 * 256 + 0x100000)) / 4096).
  assert (0 ≤ F < 65536 ∧ F * 4096 ≤ all_mem - 0x200000 < F * 4096 + 4096) as [HF Hall'] by (unfold F; zlia).
  rewrite (u16_id F) by lia. rewrite (u16_id (F - F / 2)) by zlia.
  assert (0 ≤ F / 2 < 32768 ∧ 2 * (F / 2) ≤ F < 2 * (F / 2) + 2) as [Hk2 Hk2'] by zlia.
  set (k := F / 2) in *. clearbody k. clearbody F.
  destruct (bitmap_init_spec (k / 8) kbits) as (kb & -> & Hwk & Hlenk & Hfk); [zlia|zlia|done|].
  destruct (bitmap_init_spec ((F - k) / 8) ubits) as (ub & -> & Hwu & Hlenu & Hfu); [zlia|zlia|done|].
  destruct (bitmap_init_spec (k / 8) vbits) as (vb & -> & _ & _ & _); [zlia|zlia|done|].
  cbn. eexists _, _, _. split; [done|].
  rewrite (u32_id (4096 * 256 + 0x100000 + k * 4096)) by (unfold is_u32; lia).
  assert (8 * (k / 8) ≤ k ∧ 8 * ((F - k) / 8) ≤ F - k) as [Hk8 Hu8] by zlia.
  unfold frame_index, frame_addr. cbn. rewrite Hlenk, Hlenu. split_and!.
  - split; cbn; [done|lia|done|]. rewrite Hlenk. lia.
  - split; cbn; [done|lia|zlia|]. rewrite Hlenu. lia.
  - lia.
  - done.
  - done.
Qed.

Lemma mem_pool_init_correct_witness :
  ∃ kp up va, mem_pool_init 0x2000000 (replicate 512 7) (replicate 512 7) (replicate 512 7) =
    Ret (kp, up, va) ∧ wf_pool kp ∧ wf_pool up.
Proof.
  assert (Forall is_u8 (replicate 512 7)) as Hu by (apply Forall_replicate; unfold is_u8; lia).
  destruct (mem_pool_init_correct 0x2000000 (replicate 512 7) (replicate 512 7) (replicate 512 7)
    ltac:(lia) Hu Hu Hu ltac:(by vm_compute) ltac:(by vm_compute) ltac:(by vm_compute))
    as (kp & up & va & H & Hk & Hup & _).
  exists kp, up, va. split; [exact H|split; [exact Hk|exact Hup]].
Defined.

(** The page count is 16 bits wide: with 258 MB of memory, 65536 free
    pages, it wraps to 0 and both pools are empty. *)
Theorem mem_pool_init_wraps kbits ubits vbits :
  ∃ kp up va, mem_pool_init 0x10200000 kbits ubits vbits = Ret (kp, up, va) ∧
    pool_size kp = 0 ∧ pool_size up = 0 ∧
    btmp_bytes_len (pool_bitmap kp) = 0 ∧ btmp_bytes_len (pool_bitmap up) = 0.
Proof.
  unfold mem_pool_init. change (u16 (u32 (0x10200000 - _) / PG_SIZE)) with 0.
  change (0 / 2) with 0. change (u16 (0 - 0)) with 0. change (0 / 8) with 0.
  unfold bitmap_init. cbn [btmp_bytes_len bits].
  destruct (Z.ltb_spec (Z.of_nat (length kbits)) 0); [lia|].
  destruct (Z.ltb_spec (Z.of_nat (length ubits)) 0); [lia|].
  destruct (Z.ltb_spec (Z.of_nat (length vbits)) 0); [lia|].
  cbn. eexists _, _, _. split; done.
Qed.
