(* ===== verification/Arena.v ===== *)
(** * The heap (kernel/memory.c, [sys_malloc] and [sys_free])

    Requests above 1024 bytes get pages of their own; smaller ones get a
    block of an arena, a page divided into blocks of one of seven sizes. The
    heap works on the pool of the running thread, through the interface
    [PageAlloc] of the page functions of [Memory]; [PageAllocSpec] is what it
    relies on. The free lists are sequences of block addresses: the list
    operations implement those ([Queue.dlist_sim]) as long as no element is
    linked twice, which is a [Fault] here. *)

From Stdlib Require Import ZArith Lia.
From stdpp Require Import base numbers list gmap.
From S2P Require Import Prelude DList Paging Thread Memory.

(** ** The interface of the page allocator *)

(** [malloc_page], [mfree_page] and the lock of the pool [PF], the running
    thread's, and the pool's size. *)
Class PageAlloc (P : Type) := {
  pa_pf : pool_flags;
  pa_size : P → Z;
  pa_malloc : Z → M P Z;
  pa_free : Z → Z → M P unit;
  pa_lock : M P unit;
  pa_unlock : M P unit
}.

(** ** Data *)

(** [desc] is an index into the descriptors, [None] for NULL. *)
Record arena := Arena { a_desc : option nat; a_cnt : Z; a_large : bool }.

Record mem_block_desc := Desc {
  block_size : Z;
  blocks_per_arena : Z;
  free_list : list Z
}.

Definition DESC_CNT : nat := 7.
(** [sizeof(struct arena)] *)
Definition sizeof_arena : Z := 12.

(** [headers] are the arena structures at the start of their pages, [bytes]
    the contents of the heap's memory. *)
Record heap (P : Type) := Heap {
  pages : P;
  descs : list mem_block_desc;
  headers : gmap Z arena;
  bytes : Z → Z
}.
Arguments Heap {P}. Arguments pages {P}. Arguments descs {P}.
Arguments headers {P}. Arguments bytes {P}.

(** ** Operations *)

(** [block_desc_init]: seven sizes from 16 on, doubled in a [uint16_t]. *)
Fixpoint desc_init_loop (n : nat) (block_size : Z) : list mem_block_desc :=
  match n with
  | O => []
  | S n => Desc block_size ((PG_SIZE - sizeof_arena) / block_size) [] ::
           desc_init_loop n (u16 (block_size * 2))
  end.
Definition block_desc_init : list mem_block_desc := desc_init_loop DESC_CNT 16.

Definition block2arena (b : Z) : Z := Z.land b 0xfffff000.

(** [for (desc_idx = 0; desc_idx < DESC_CNT; ...) if (size <= block_size) break] *)
Fixpoint find_desc (ds : list mem_block_desc) (size : Z) : nat :=
  match ds with
  | [] => O
  | d :: ds => if size <=? block_size d then O else S (find_desc ds size)
  end.

(** The address lies in [n] bytes from [a] on. *)
Definition in_range (a n x : Z) : bool := (a <=? x) && (x <? a + n).

Section ops.
Context {P : Type} {PA : PageAlloc P}.
Abbreviation H := (M (heap P)).

Definition pages_lens : lens (heap P) P :=
  Lens pages (λ p h, Heap p (descs h) (headers h) (bytes h)).
Definition get_desc (d : nat) : H mem_block_desc := λ h,
  match descs h !! d with Some D => Ret (D, h) | None => Fault end.
Definition set_free (d : nat) (fl : list Z) : H unit := modify (λ h,
  Heap (pages h) (alter (λ D, Desc (block_size D) (blocks_per_arena D) fl) d (descs h))
    (headers h) (bytes h)).
Definition get_arena (a : Z) : H arena := λ h,
  match headers h !! a with Some ar => Ret (ar, h) | None => Fault end.
Definition set_arena (a : Z) (ar : arena) : H unit := modify (λ h,
  Heap (pages h) (descs h) (<[a := ar]> (headers h)) (bytes h)).

(** [memset(a, 0, n)]: it would destroy the headers and the nodes of free
    lists that it covers. *)
Definition drop_headers (a n : Z) (hd : gmap Z arena) : gmap Z arena :=
  filter (λ x, in_range a n x.1 = false) hd.
Definition memset0 (a n : Z) : H unit := λ h,
  if existsb (λ D, existsb (in_range a n) (free_list D)) (descs h) then Fault
  else Ret ((), Heap (pages h) (descs h) (drop_headers a n (headers h))
                  (λ x, if in_range a n x then 0 else bytes h x)).

(** List operations on a free list; an element that is already linked
    would be linked twice. *)
Definition fl_append (d : nat) (b : Z) : H unit :=
  D ← get_desc d;
  linked ← gets (λ h : heap P, existsb (λ D, existsb (Z.eqb b) (free_list D)) (descs h));
  if linked : bool then lift Fault else set_free d (free_list D ++ [b]).
Definition fl_find (d : nat) (b : Z) : H bool :=
  D ← get_desc d; mret (existsb (Z.eqb b) (free_list D)).
Definition fl_pop (d : nat) : H Z :=
  D ← get_desc d;
  match free_list D with
  | [] => lift Fault
  | b :: fl => _ ← set_free d fl; mret b
  end.
Definition fl_remove (d : nat) (b : Z) : H unit :=
  D ← get_desc d; set_free d (filter (λ x, x ≠ b) (free_list D)).

(** [a->desc] is [d]. *)
Definition arena2block (a : Z) (d : nat) (idx : Z) : H Z :=
  D ← get_desc d; mret (u32 (a + sizeof_arena + idx * block_size D)).

Definition malloc_large (size : Z) : H Z :=
  let page_cnt := DIV_ROUND_UP (u32 (size + sizeof_arena)) PG_SIZE in
  a ← zoom pages_lens (pa_malloc page_cnt);
  if negb (a =? NULL) then
    _ ← memset0 a (u32 (page_cnt * PG_SIZE));
    _ ← set_arena a (Arena None page_cnt true);
    _ ← zoom pages_lens pa_unlock;
    mret (u32 (a + sizeof_arena))
  else
    _ ← zoom pages_lens pa_unlock; mret NULL.

Fixpoint add_blocks (n : nat) (a : Z) (d : nat) (block_idx : Z) : H unit :=
  match n with
  | O => mret ()
  | S n =>
    b ← arena2block a d block_idx;
    f ← fl_find d b;
    _ ← ASSERT (negb f);
    _ ← fl_append d b;
    add_blocks n a d (block_idx + 1)
  end.

(** A new arena for the descriptor; false when there is no page. *)
Definition new_arena (d : nat) : H bool :=
  a ← zoom pages_lens (pa_malloc 1);
  if a =? NULL then mret false else
  _ ← memset0 a PG_SIZE;
  D ← get_desc d;
  _ ← set_arena a (Arena (Some d) (blocks_per_arena D) false);
  _ ← add_blocks (Z.to_nat (blocks_per_arena D)) a d 0;
  mret true.

Definition take_block (d : nat) : H Z :=
  b ← fl_pop d;
  D ← get_desc d;
  _ ← memset0 b (block_size D);
  let a := block2arena b in
  ar ← get_arena a;
  _ ← set_arena a (Arena (a_desc ar) (u32 (a_cnt ar - 1)) (a_large ar));
  mret b.

Definition malloc_small (size : Z) : H Z :=
  ds ← gets descs;
  let desc_idx := find_desc ds size in
  D ← get_desc desc_idx;
  ok ← (match free_list D with [] => new_arena desc_idx | _ => mret true end);
  if negb ok then _ ← zoom pages_lens pa_unlock; mret NULL else
  b ← take_block desc_idx;
  _ ← zoom pages_lens pa_unlock;
  mret b.

Definition sys_malloc (size : Z) : H Z :=
  pool_size ← gets (λ h, pa_size (pages h));
  if negb ((0 <? size) && (size <? pool_size)) then mret NULL else
  _ ← zoom pages_lens pa_lock;
  if 1024 <? size then malloc_large size else malloc_small size.

(** [mfree_page] unmaps the pages: their arena header is gone. *)
Definition free_arena (a pg_cnt : Z) : H unit :=
  _ ← zoom pages_lens (pa_free a pg_cnt);
  modify (λ h, Heap (pages h) (descs h) (drop_headers a (pg_cnt * PG_SIZE) (headers h)) (bytes h)).

Fixpoint remove_blocks (n : nat) (a : Z) (d : nat) (block_idx : Z) : H unit :=
  match n with
  | O => mret ()
  | S n =>
    b ← arena2block a d block_idx;
    f ← fl_find d b;
    _ ← ASSERT f;
    _ ← fl_remove d b;
    remove_blocks n a d (block_idx + 1)
  end.

(** A block of an arena goes back; a complete arena is given up. *)
Definition free_small (ptr a : Z) (d : nat) : H unit :=
  _ ← fl_append d ptr;
  ar ← get_arena a;
  let cnt := u32 (a_cnt ar + 1) in
  _ ← set_arena a (Arena (a_desc ar) cnt (a_large ar));
  D ← get_desc d;
  if cnt =? blocks_per_arena D then
    _ ← remove_blocks (Z.to_nat (blocks_per_arena D)) a d 0;
    free_arena a 1
  else mret ().

Definition sys_free (ptr : Z) : H unit :=
  _ ← ASSERT (negb (ptr =? NULL));
  _ ← (match pa_pf with
       | PF_KERNEL => ASSERT (K_HEAP_START <=? ptr)
       | PF_USER => mret ()
       end);
  _ ← zoom pages_lens pa_lock;
  let a := block2arena ptr in
  ar ← get_arena a;
  _ ← (match a_desc ar, a_large ar with
       | None, true => free_arena a (a_cnt ar)
       | None, false => lift Fault
       | Some d, _ => free_small ptr a d
       end);
  zoom pages_lens pa_unlock.
End ops.

(** ** What the heap relies on *)

(** The addresses of [cnt] pages from [v] on. *)
Definition in_pages (v cnt x : Z) : Prop := ∃ k, 0 ≤ k < cnt ∧ x = v + k * 4096.

(** [pa_inv held] is the invariant of the page allocator while the lock is
    free or held by the running thread; [pa_page p x]: the page at [x] is
    allocated. Only runs that return are described: without memory the
    allocator may stop the kernel. *)
Class PageAllocSpec (P : Type) {PA : PageAlloc P} := {
  pa_inv : bool → P → Prop;
  pa_page : P → Z → Prop;
  pa_size_bound held p : pa_inv held p → pa_size p ≤ 0x10000000;
  pa_kernel held p x : pa_inv held p → pa_pf = PF_KERNEL → pa_page p x → K_HEAP_START ≤ x;
  pa_lock_ok p : pa_inv false p →
    ∃ p', pa_lock p = Ret ((), p') ∧ pa_inv true p' ∧ ∀ x, pa_page p' x ↔ pa_page p x;
  pa_unlock_ok p : pa_inv true p →
    ∃ p', pa_unlock p = Ret ((), p') ∧ pa_inv false p' ∧ ∀ x, pa_page p' x ↔ pa_page p x;
  pa_malloc_ok p cnt v p' : pa_inv true p → 1 ≤ cnt → pa_malloc cnt p = Ret (v, p') →
    pa_inv true p' ∧
    if v =? NULL then ∀ x, pa_page p x → pa_page p' x
    else 0 < v ∧ v mod 4096 = 0 ∧ v + cnt * 4096 ≤ 4294967296 ∧
      (∀ x, pa_page p x → ¬ in_pages v cnt x) ∧
      ∀ x, pa_page p' x ↔ pa_page p x ∨ in_pages v cnt x;
  pa_free_ok p cnt v p' : pa_inv true p → 1 ≤ cnt → (∀ x, in_pages v cnt x → pa_page p x) →
    pa_free v cnt p = Ret ((), p') →
    pa_inv true p' ∧ ∀ x, pa_page p' x ↔ pa_page p x ∧ ¬ in_pages v cnt x
}.

(** ** Blocks *)

Definition desc_ok (d : nat) (D : mem_block_desc) : Prop :=
  block_size D = 16 * 2 ^ Z.of_nat d ∧ blocks_per_arena D = 4084 / block_size D.

(** [b] is a block of an arena at [a] with descriptor [D]. *)
Definition is_block (D : mem_block_desc) (a b : Z) : Prop :=
  ∃ i, 0 ≤ i < blocks_per_arena D ∧ b = a + sizeof_arena + i * block_size D.

Definition npages (ar : arena) : Z := match a_desc ar with None => a_cnt ar | Some _ => 1 end.

Lemma block_desc_init_ok d D : block_desc_init !! d = Some D → desc_ok d D ∧ free_list D = [].
Proof.
  do 7 (destruct d as [|d]; [intros [= <-]; split; [by split|done]|]). done.
Qed.

Lemma desc_bounds d D : (d < DESC_CNT)%nat → desc_ok d D →
  16 ≤ block_size D ≤ 1024 ∧ 3 ≤ blocks_per_arena D ≤ 255 ∧
  sizeof_arena + blocks_per_arena D * block_size D ≤ 4096.
Proof.
  unfold DESC_CNT, sizeof_arena. intros Hd [Hs Hb]. rewrite Hb, Hs. clear Hs Hb.
  do 7 (destruct d as [|d]; [split_and!; by vm_compute|]). lia.
Qed.

Lemma block2arena_eq a off : a mod 4096 = 0 → is_u32 a → 0 ≤ off < 4096 → block2arena (a + off) = a.
Proof.
  intros Ha Hu Ho. change (block2arena (a + off)) with (frame (a + off)).
  rewrite frame_eq by zlia. zlia.
Qed.

Lemma is_block_range d D a b : (d < DESC_CNT)%nat → desc_ok d D → is_block D a b →
  a + 12 ≤ b ∧ b + block_size D ≤ a + 4096.
Proof.
  intros Hd HD (i & Hi & ->). pose proof (desc_bounds d D Hd HD) as (H1 & H2 & H3).
  unfold sizeof_arena in *. nia.
Qed.

Lemma is_block_disjoint d D a b b' : (d < DESC_CNT)%nat → desc_ok d D →
  is_block D a b → is_block D a b' → b ≠ b' →
  b + block_size D ≤ b' ∨ b' + block_size D ≤ b.
Proof.
  intros Hd HD (i & Hi & ->) (j & Hj & ->) Hne.
  pose proof (desc_bounds d D Hd HD) as (H1 & H2 & H3).
  destruct (decide (i < j)); [left; nia|]. right. assert (j < i) by nia. nia.
Qed.

(** The [i]-th block of an arena. *)
Definition blk (D : mem_block_desc) (a i : Z) : Z := a + sizeof_arena + i * block_size D.

Lemma is_block_seq D a b : is_block D a b ↔ b ∈ map (blk D a) (seqZ 0 (blocks_per_arena D)).
Proof.
  rewrite list_elem_of_fmap. unfold is_block, blk. setoid_rewrite elem_of_seqZ.
  split; intros (i & H1 & H2); exists i; (split; [done|lia]) || (split; [lia|done]).
Qed.

Lemma blk_NoDup D a n : 0 < block_size D → NoDup (map (blk D a) (seqZ 0 n)).
Proof.
  intros Hs. apply NoDup_fmap; [|apply NoDup_seqZ]. intros i j. unfold blk. nia.
Qed.

(** ** The invariant *)

Definition in_arena (a b : Z) : Prop := block2arena b = a.
#[export] Instance in_arena_dec a b : Decision (in_arena a b).
Proof. unfold in_arena. apply _. Defined.

(** The arenas, the descriptors and the live blocks (address and size) fit
    together. *)
Record arenas_ok (hd : gmap Z arena) (ds : list mem_block_desc) (live : gmap Z Z) : Prop := {
  ao_len : length ds = DESC_CNT;
  ao_descs d D : ds !! d = Some D → desc_ok d D;
  ao_arena a ar : hd !! a = Some ar →
    0 < a ∧ a mod 4096 = 0 ∧ 1 ≤ npages ar ∧ a + npages ar * 4096 ≤ 4294967296;
  ao_large a ar : hd !! a = Some ar → a_desc ar = None →
    a_large ar = true ∧ live !! (a + 12) = Some (a_cnt ar * 4096 - 12);
  ao_small a ar d : hd !! a = Some ar → a_desc ar = Some d →
    ∃ D, ds !! d = Some D ∧ a_large ar = false ∧
      a_cnt ar = Z.of_nat (length (filter (in_arena a) (free_list D))) ∧
      ∀ b, is_block D a b →
        (b ∈ free_list D ∧ live !! b = None) ∨ ((b ∉ free_list D) ∧ live !! b = Some (block_size D));
  ao_nodup d D : ds !! d = Some D → NoDup (free_list D);
  ao_free d D b : ds !! d = Some D → b ∈ free_list D →
    ∃ a ar, hd !! a = Some ar ∧ a_desc ar = Some d ∧ is_block D a b;
  ao_live v n : live !! v = Some n →
    ∃ a ar, hd !! a = Some ar ∧
      match a_desc ar with
      | None => v = a + 12
      | Some d => ∃ D, ds !! d = Some D ∧ is_block D a v
      end;
  ao_disj a1 a2 ar1 ar2 : a1 ≠ a2 → hd !! a1 = Some ar1 → hd !! a2 = Some ar2 →
    a1 + npages ar1 * 4096 ≤ a2 ∨ a2 + npages ar2 * 4096 ≤ a1
}.

Definition with_free (D : mem_block_desc) (fl : list Z) : mem_block_desc :=
  Desc (block_size D) (blocks_per_arena D) fl.
Definition set_fl (d : nat) (fl : list Z) (ds : list mem_block_desc) : list mem_block_desc :=
  alter (λ D, with_free D fl) d ds.

Lemma set_fl_lookup d fl ds d' D' : set_fl d fl ds !! d' = Some D' ↔
  ∃ D, ds !! d' = Some D ∧ D' = if decide (d' = d) then with_free D fl else D.
Proof.
  unfold set_fl. destruct (decide (d' = d)) as [->|].
  - rewrite list_lookup_alter_eq. destruct (ds !! d); cbn; naive_solver.
  - rewrite list_lookup_alter_ne by done. naive_solver.
Qed.

Section arenas.
Context (hd : gmap Z arena) (ds : list mem_block_desc) (live : gmap Z Z).
Context (Hok : arenas_ok hd ds live).

Lemma desc_lt d D : ds !! d = Some D → (d < DESC_CNT)%nat.
Proof. rewrite <-(ao_len _ _ _ Hok). apply lookup_lt_Some. Qed.

Lemma block_in_arena a ar d D b :
  hd !! a = Some ar → ds !! d = Some D → is_block D a b → block2arena b = a.
Proof.
  intros Ha HD Hb. destruct (ao_arena _ _ _ Hok a ar Ha) as (H1 & H2 & H3 & H4).
  destruct (is_block_range d D a b); [by eapply desc_lt|by apply (ao_descs _ _ _ Hok)|done|].
  pose proof (desc_bounds d D (desc_lt _ _ HD) (ao_descs _ _ _ Hok _ _ HD)).
  replace b with (a + (b - a)) by lia. apply block2arena_eq; [done|unfold is_u32; lia|lia].
Qed.

(** The free blocks of an arena are counted by [cnt]; it is complete when all
    its blocks are free. *)
Lemma arena_count a ar d D : hd !! a = Some ar → a_desc ar = Some d → ds !! d = Some D →
  0 ≤ a_cnt ar ≤ blocks_per_arena D ∧
  (a_cnt ar = blocks_per_arena D → ∀ b, is_block D a b → b ∈ free_list D).
Proof.
  intros Ha Hd HD. destruct (ao_small _ _ _ Hok a ar d Ha Hd) as (D' & HD' & _ & Hcnt & _).
  rewrite HD in HD'. injection HD' as <-.
  set (bl := map (blk D a) (seqZ 0 (blocks_per_arena D))).
  pose proof (desc_bounds d D (desc_lt _ _ HD) (ao_descs _ _ _ Hok _ _ HD)).
  assert (Z.of_nat (length bl) = blocks_per_arena D) as Hbl.
  { unfold bl. rewrite length_map, length_seqZ. lia. }
  assert (filter (in_arena a) (free_list D) ⊆+ bl) as Hsub.
  { apply NoDup_submseteq; [by eapply NoDup_filter, (ao_nodup _ _ _ Hok)|].
    intros x [Hxa Hx]%list_elem_of_filter.
    destruct (ao_free _ _ _ Hok d D x HD Hx) as (a' & ar' & Ha' & Hd' & Hb).
    assert (a' = a) as -> by (rewrite <-Hxa; symmetry; by eapply block_in_arena).
    by apply is_block_seq. }
  pose proof (submseteq_length _ _ Hsub). split; [lia|]. intros Hc b Hb%is_block_seq.
  assert (filter (in_arena a) (free_list D) ≡ₚ bl) as Hp.
  { apply submseteq_length_Permutation; [done|lia]. }
  fold bl in Hb. rewrite <-Hp in Hb. by apply list_elem_of_filter in Hb as [_ ?].
Qed.

(** An arena without a live block is complete. *)
Lemma arena_complete a ar d D : hd !! a = Some ar → a_desc ar = Some d → ds !! d = Some D →
  (∀ b, is_block D a b → live !! b = None) → a_cnt ar = blocks_per_arena D.
Proof.
  intros Ha Hd HD Hnone. pose proof (proj1 (arena_count a ar d D Ha Hd HD)) as Hle.
  destruct (ao_small _ _ _ Hok a ar d Ha Hd) as (D' & HD' & _ & Hcnt & Hbl).
  rewrite HD in HD'. injection HD' as <-.
  pose proof (desc_bounds d D (desc_lt _ _ HD) (ao_descs _ _ _ Hok _ _ HD)).
  assert (map (blk D a) (seqZ 0 (blocks_per_arena D)) ⊆+ filter (in_arena a) (free_list D)) as Hsub.
  { apply NoDup_submseteq; [apply blk_NoDup; lia|]. intros b Hb%is_block_seq. apply list_elem_of_filter.
    split; [by eapply block_in_arena|]. destruct (Hbl b Hb) as [[? _]|[_ Hs]]; [done|]. by rewrite Hnone in Hs. }
  apply submseteq_length in Hsub. rewrite length_map, length_seqZ in Hsub. lia.
Qed.

(** A block of an arena is in the page of the arena, behind its header. *)
Lemma live_place v n : live !! v = Some n → ∃ a ar, hd !! a = Some ar ∧ 
  a + 12 ≤ v ∧ v + n ≤ a + npages ar * 4096 ∧ block2arena v = a ∧ 0 < n.
Proof.
  intros Hv. destruct (ao_live _ _ _ Hok v n Hv) as (a & ar & Ha & Hm). exists a, ar.
  destruct (ao_arena _ _ _ Hok a ar Ha) as (H1 & H2 & H3 & H4).
  split; [done|]. unfold npages in *. destruct (a_desc ar) as [d|] eqn:Hd.
  - destruct Hm as (D & HD & Hb).
    destruct (ao_small _ _ _ Hok a ar d Ha Hd) as (D' & HD' & _ & _ & Hbl).
    rewrite HD in HD'. injection HD' as <-.
    destruct (is_block_range d D a v) as [H5 H6]; [by eapply desc_lt|by apply (ao_descs _ _ _ Hok)|done|].
    pose proof (desc_bounds d D (desc_lt _ _ HD) (ao_descs _ _ _ Hok _ _ HD)).
    destruct (Hbl v Hb) as [[_ Hn]|[_ Hn]]; [congruence|].
    rewrite Hv in Hn. injection Hn as ->. split_and!; [lia|lia|by eapply block_in_arena|lia].
  - destruct (ao_large _ _ _ Hok a ar Ha Hd) as [_ Hl]. subst v. rewrite Hv in Hl.
    injection Hl as ->. split_and!; [lia|lia| |lia].
    apply block2arena_eq; [done|unfold is_u32; lia|lia].
Qed.

(** Live blocks do not overlap. *)
Lemma live_disjoint v n w m : live !! v = Some n → live !! w = Some m → v ≠ w →
  v + n ≤ w ∨ w + m ≤ v.
Proof.
  intros Hv Hw Hne.
  destruct (ao_live _ _ _ Hok v n Hv) as (a & ar & Ha & Hm).
  destruct (ao_live _ _ _ Hok w m Hw) as (a' & ar' & Ha' & Hm').
  destruct (live_place v n Hv) as (a1 & ar1 & Ha1 & Hp1 & Hp2 & Hp3 & _).
  destruct (live_place w m Hw) as (a2 & ar2 & Ha2 & Hq1 & Hq2 & Hq3 & _).
  destruct (decide (a1 = a2)) as [He|Hne2].
  2: { destruct (ao_disj _ _ _ Hok _ _ _ _ Hne2 Ha1 Ha2); lia. }
  rewrite <-He in *. rewrite Ha1 in Ha2. injection Ha2 as <-.
  assert (∀ v a ar, hd !! a = Some ar → match a_desc ar with None => v = a + 12
    | Some d => ∃ D, ds !! d = Some D ∧ is_block D a v end → block2arena v = a) as Hplace.
  { intros x b br Hb Hx. destruct (a_desc br) as [d|].
    - destruct Hx as (D & HD & Hbl). by eapply block_in_arena.
    - subst x. destruct (ao_arena _ _ _ Hok b br Hb) as (? & ? & ? & ?).
      apply block2arena_eq; [done|unfold is_u32; lia|lia]. }
  assert (a = a1) as -> by (rewrite <-Hp3; symmetry; by eapply Hplace).
  assert (a' = a1) as -> by (rewrite <-Hq3; symmetry; by eapply Hplace).
  rewrite Ha1 in Ha, Ha'. injection Ha as <-. injection Ha' as <-.
  destruct (a_desc ar1) as [d|] eqn:Hd; [|congruence].
  destruct Hm as (D & HD & Hb), Hm' as (D' & HD' & Hb'). rewrite HD in HD'. injection HD' as <-.
  destruct (ao_small _ _ _ Hok a1 ar1 d Ha1 Hd) as (D' & HD' & _ & _ & Hbl).
  rewrite HD in HD'. injection HD' as <-.
  destruct (Hbl v Hb) as [[_ ?]|[_ Hn]], (Hbl w Hb') as [[_ ?]|[_ Hn']]; try congruence.
  rewrite Hv in Hn. rewrite Hw in Hn'. injection Hn as ->. injection Hn' as ->.
  eapply is_block_disjoint; [by eapply desc_lt|by apply (ao_descs _ _ _ Hok)|done..].
Qed.
End arenas.

(** ** Transitions of the invariant *)

Section moves.
Context (hd : gmap Z arena) (ds : list mem_block_desc) (live : gmap Z Z).
Context (Hok : arenas_ok hd ds live).

(** The headers after one of them changed, but not its descriptor. *)
Section insert.
Context (a : Z) (ar ar1 : arena).
Context (Ha : hd !! a = Some ar) (Hd : a_desc ar1 = a_desc ar) (Hn : npages ar1 = npages ar).

Lemma insert_header a' ar' : <[a := ar1]> hd !! a' = Some ar' →
  ∃ ar0, hd !! a' = Some ar0 ∧ a_desc ar0 = a_desc ar' ∧ npages ar0 = npages ar' ∧
    (a' ≠ a → ar0 = ar') ∧ (a' = a → ar' = ar1).
Proof.
  intros [[<- <-]|[Hne H']]%lookup_insert_Some; [exists ar|exists ar']; by split_and!.
Qed.

Lemma header_insert a' ar' : hd !! a' = Some ar' →
  ∃ ar2, <[a := ar1]> hd !! a' = Some ar2 ∧ a_desc ar2 = a_desc ar'.
Proof.
  intros H'. destruct (decide (a' = a)) as [->|].
  - rewrite lookup_insert_eq. eexists. split; [done|]. congruence.
  - rewrite lookup_insert_ne by done. by eexists.
Qed.
End insert.

(** A block of a small arena changes between free and live. *)
Lemma arenas_move a ar d D b fl cnt live' :
  hd !! a = Some ar → a_desc ar = Some d → ds !! d = Some D → is_block D a b →
  NoDup fl → (∀ x, x ≠ b → x ∈ fl ↔ x ∈ free_list D) → (∀ x, x ≠ b → live' !! x = live !! x) →
  (b ∈ fl ∧ live' !! b = None) ∨ ((b ∉ fl) ∧ live' !! b = Some (block_size D)) →
  cnt = Z.of_nat (length (filter (in_arena a) fl)) →
  (∀ a', a' ≠ a → length (filter (in_arena a') fl) = length (filter (in_arena a') (free_list D))) →
  arenas_ok (<[a := Arena (Some d) cnt false]> hd) (set_fl d fl ds) live'.
Proof.
  intros Ha Hd HD Hb Hnd Hfl Hlive Hb' Hcnt Hother.
  pose proof (block_in_arena _ _ _ Hok a ar d D b Ha HD Hb) as Hba.
  assert (a_desc (Arena (Some d) cnt false) = a_desc ar) as Hd1 by done.
  assert (npages (Arena (Some d) cnt false) = npages ar) as Hn1 by (unfold npages; by rewrite Hd).
  pose proof (insert_header a ar _ Ha Hd1 Hn1) as Hhd.
  pose proof (header_insert a ar _ Ha Hd1) as Hhd2. clear Hd1 Hn1.
  assert (∀ a' ar' D' x, a' ≠ a → hd !! a' = Some ar' → ds !! d = Some D' → is_block D' a' x → x ≠ b) as Hxb.
  { intros a' ar' D' x Hna H0 HD' Hx ->. apply Hna. rewrite <-Hba. symmetry. by eapply block_in_arena. }
  split.
  - unfold set_fl. rewrite length_alter. apply Hok.
  - intros d' D' (D0 & H0 & ->)%set_fl_lookup. case_decide; apply (ao_descs _ _ _ Hok _ _ H0).
  - intros a' ar' (ar0 & H0 & _ & <- & _)%Hhd. by apply (ao_arena _ _ _ Hok).
  - intros a' ar' (ar0 & H0 & Hd0 & _ & Hne & He)%Hhd Hdn.
    destruct (decide (a' = a)) as [->|Hna]; [by rewrite He in Hdn|]. rewrite <-(Hne Hna) in *.
    destruct (ao_large _ _ _ Hok a' ar0 H0 Hdn) as [? Hl]. split; [done|].
    rewrite Hlive; [done|]. intros Hab. apply Hna. rewrite <-Hba, <-Hab. symmetry.
    destruct (ao_arena _ _ _ Hok a' ar0 H0) as (? & ? & ? & ?).
    apply block2arena_eq; [done|unfold is_u32; lia|lia].
  - intros a' ar' d' (ar0 & H0 & Hd0 & _ & Hne & He)%Hhd Hd'.
    rewrite <-Hd0 in Hd'.
    destruct (ao_small _ _ _ Hok a' ar0 d' H0 Hd') as (D' & HD' & Hlg & Hc & Hbl).
    eexists. split; [apply set_fl_lookup; by exists D'|].
    destruct (decide (a' = a)) as [->|Hna].
    + rewrite (He eq_refl). rewrite Ha in H0. injection H0 as <-.
      rewrite Hd in Hd'. injection Hd' as <-. rewrite HD in HD'. injection HD' as <-.
      rewrite decide_True by done. cbn. split_and!; [done|done|].
      intros x Hx. destruct (decide (x = b)) as [->|]; [done|].
      rewrite Hfl, Hlive by done. by apply Hbl.
    + rewrite <-(Hne Hna) in *. split; [done|]. destruct (decide (d' = d)) as [->|]; cbn.
      * rewrite HD in HD'. injection HD' as <-. split; [by rewrite Hother by done|].
        intros x Hx. assert (x ≠ b) by (by eapply Hxb).
        rewrite Hfl, Hlive by done. by apply Hbl.
      * split; [done|]. intros x Hx. assert (x ≠ b).
        { intros ->. apply Hna. rewrite <-Hba. symmetry. by eapply block_in_arena. }
        rewrite Hlive by done. by apply Hbl.
  - intros d' D' (D0 & H0 & ->)%set_fl_lookup. case_decide; [done|].
    apply (ao_nodup _ _ _ Hok _ _ H0).
  - intros d' D' x (D0 & H0 & ->)%set_fl_lookup. destruct (decide (d' = d)) as [->|]; cbn.
    + rewrite HD in H0. injection H0 as <-. intros Hx.
      destruct (decide (x = b)) as [->|].
      * exists a. eexists. rewrite lookup_insert_eq. by split_and!.
      * apply Hfl in Hx; [|done].
        destruct (ao_free _ _ _ Hok d D x HD Hx) as (a' & ar' & Ha' & Hd' & Hx').
        destruct (Hhd2 a' ar' Ha') as (ar1 & H1 & Hd1). exists a', ar1. by rewrite Hd1.
    + intros Hx. destruct (ao_free _ _ _ Hok d' D0 x H0 Hx) as (a' & ar' & Ha' & Hd' & Hx').
      destruct (Hhd2 a' ar' Ha') as (ar1 & H1 & Hd1). exists a', ar1. by rewrite Hd1.
  - intros v n Hv. assert (v = b ∨ (v ≠ b ∧ live !! v = Some n)) as [->|[Hvb Hv']].
    { destruct (decide (v = b)); [by left|]. right. by rewrite <-Hlive. }
    + exists a. eexists. rewrite lookup_insert_eq. split; [done|]. cbn.
      exists (with_free D fl). split; [|done]. apply set_fl_lookup. exists D. by rewrite decide_True.
    + destruct (ao_live _ _ _ Hok v n Hv') as (a' & ar' & Ha' & Hm).
      destruct (Hhd2 a' ar' Ha') as (ar1 & H1 & Hd1). exists a', ar1. split; [done|]. rewrite Hd1.
      destruct (a_desc ar') as [d'|]; [|done]. destruct Hm as (D' & HD' & Hx).
      eexists. split; [apply set_fl_lookup; by exists D'|]. by case_decide.
  - intros a1 a2 ar1 ar2 Hne (ar1' & H1 & _ & <- & _)%Hhd (ar2' & H2 & _ & <- & _)%Hhd.
    by eapply (ao_disj _ _ _ Hok).
Qed.

(** Pages that no arena has. *)
Definition fresh (a cnt : Z) : Prop :=
  0 < a ∧ a mod 4096 = 0 ∧ 1 ≤ cnt ∧ a + cnt * 4096 ≤ 4294967296 ∧
  ∀ a' ar', hd !! a' = Some ar' → a' + npages ar' * 4096 ≤ a ∨ a + cnt * 4096 ≤ a'.

Lemma fresh_header a cnt : fresh a cnt → hd !! a = None.
Proof.
  intros (H1 & H2 & H3 & H4 & Hf). destruct (hd !! a) as [ar|] eqn:Ha; [|done].
  destruct (ao_arena _ _ _ Hok a ar Ha). destruct (Hf a ar Ha); lia.
Qed.

Lemma fresh_live a cnt v : fresh a cnt → a ≤ v < a + cnt * 4096 → live !! v = None.
Proof.
  intros (H1 & H2 & H3 & H4 & Hf) Hv. destruct (live !! v) as [n|] eqn:Hl; [|done].
  destruct (live_place _ _ _ Hok v n Hl) as (a' & ar' & Ha' & ? & ? & _ & ?). destruct (Hf a' ar' Ha'); lia.
Qed.

Lemma free_place d D b : ds !! d = Some D → b ∈ free_list D →
  ∃ a ar, hd !! a = Some ar ∧ block2arena b = a ∧
    a ≤ b < a + npages ar * 4096.
Proof.
  intros HD Hb. destruct (ao_free _ _ _ Hok d D b HD Hb) as (a & ar & Ha & Hd & Hbl).
  exists a, ar. split; [done|]. split; [by eapply block_in_arena|].
  destruct (is_block_range d D a b); [by eapply desc_lt|by apply (ao_descs _ _ _ Hok)|done|].
  pose proof (desc_bounds d D ltac:(by eapply desc_lt) ltac:(by apply (ao_descs _ _ _ Hok))).
  unfold npages. rewrite Hd. lia.
Qed.

Lemma fresh_free a cnt d D b : fresh a cnt → ds !! d = Some D → b ∈ free_list D →
  b < a ∨ a + cnt * 4096 ≤ b.
Proof.
  intros (H1 & H2 & H3 & H4 & Hf) HD Hb.
  destruct (free_place d D b HD Hb) as (a' & ar' & Ha' & _ & Hr). destruct (Hf a' ar' Ha'); lia.
Qed.

(** A block is apart from the headers and from the free blocks. *)
Section block.
Context (a : Z) (ar : arena) (d : nat) (D : mem_block_desc) (b : Z).
Context (Ha : hd !! a = Some ar) (Hd : a_desc ar = Some d) (HD : ds !! d = Some D).
Context (Hb : is_block D a b).

Lemma block_header_apart x ar' : hd !! x = Some ar' → x < b ∨ b + block_size D ≤ x.
Proof.
  intros Hx. destruct (is_block_range d D a b) as [H1 H2];
    [by eapply desc_lt|by apply (ao_descs _ _ _ Hok)|done|].
  pose proof (ao_arena _ _ _ Hok x ar' Hx). destruct (decide (x = a)) as [->|Hne]; [lia|].
  destruct (ao_disj _ _ _ Hok x a ar' ar Hne Hx Ha); [lia|]. unfold npages in *. rewrite Hd in *. lia.
Qed.

Lemma block_free_apart d' D' b' : ds !! d' = Some D' → b' ∈ free_list D' → b' ≠ b →
  b' < b ∨ b + block_size D ≤ b'.
Proof.
  intros HD' Hb' Hne. destruct (is_block_range d D a b) as [H1 H2];
    [by eapply desc_lt|by apply (ao_descs _ _ _ Hok)|done|].
  destruct (ao_free _ _ _ Hok d' D' b' HD' Hb') as (a' & ar' & Ha' & Hd' & Hbl').
  destruct (is_block_range d' D' a' b') as [H3 H4];
    [by eapply desc_lt|by apply (ao_descs _ _ _ Hok)|done|].
  pose proof (desc_bounds d' D' ltac:(by eapply desc_lt) ltac:(by apply (ao_descs _ _ _ Hok))).
  destruct (decide (a' = a)) as [->|Hna].
  - rewrite Ha in Ha'. injection Ha' as <-. rewrite Hd in Hd'. injection Hd' as <-.
    rewrite HD in HD'. injection HD' as <-.
    destruct (is_block_disjoint d D a b b'); [by eapply desc_lt|by apply (ao_descs _ _ _ Hok)|done|done|done|lia|lia].
  - pose proof (ao_arena _ _ _ Hok a ar Ha). pose proof (ao_arena _ _ _ Hok a' ar' Ha').
    destruct (ao_disj _ _ _ Hok a' a ar' ar Hna Ha' Ha); unfold npages in *; rewrite Hd, Hd' in *; lia.
Qed.
End block.

(** The fields about page ranges after a new arena. *)
Lemma fresh_ranges a cnt ar : fresh a cnt → npages ar = cnt →
  (∀ a' ar', <[a := ar]> hd !! a' = Some ar' →
    0 < a' ∧ a' mod 4096 = 0 ∧ 1 ≤ npages ar' ∧ a' + npages ar' * 4096 ≤ 4294967296) ∧
  (∀ a1 a2 ar1 ar2, a1 ≠ a2 → <[a := ar]> hd !! a1 = Some ar1 → <[a := ar]> hd !! a2 = Some ar2 →
    a1 + npages ar1 * 4096 ≤ a2 ∨ a2 + npages ar2 * 4096 ≤ a1).
Proof.
  intros (H1 & H2 & H3 & H4 & Hf) <-. split.
  - intros a' ar' [[<- <-]|[Hne H']]%lookup_insert_Some; [done|by apply (ao_arena _ _ _ Hok)].
  - intros a1 a2 ar1 ar2 Hne [[<- <-]|[Hne1 H1']]%lookup_insert_Some
      [[<- <-]|[Hne2 H2']]%lookup_insert_Some; [done| | |by eapply (ao_disj _ _ _ Hok)].
    + destruct (Hf a2 ar2 H2'); lia.
    + destruct (Hf a1 ar1 H1'); lia.
Qed.

Lemma arenas_add_large a cnt : fresh a cnt →
  arenas_ok (<[a := Arena None cnt true]> hd) ds (<[a + 12 := cnt * 4096 - 12]> live).
Proof.
  intros Hfr. pose proof Hfr as (H1 & H2 & H3 & H4 & Hf).
  destruct (fresh_ranges a cnt (Arena None cnt true) Hfr eq_refl) as [Hr Hdj].
  pose proof (fresh_header _ _ Hfr) as Ha.
  assert (∀ v n, live !! v = Some n → v ≠ a + 12) as Hne.
  { intros v n Hv ->. rewrite (fresh_live a cnt) in Hv by (done || lia). done. }
  split; try apply Hok; try done.
  - intros a' ar' [[<- <-]|[Hna H']]%lookup_insert_Some Hd.
    + by rewrite lookup_insert_eq.
    + destruct (ao_large _ _ _ Hok a' ar' H' Hd) as [? Hl]. split; [done|].
      rewrite lookup_insert_ne; [done|]. intros He. symmetry in He. by apply (Hne _ _ Hl).
  - intros a' ar' d [[<- <-]|[Hna H']]%lookup_insert_Some Hd; [done|].
    destruct (ao_small _ _ _ Hok a' ar' d H' Hd) as (D & HD & ? & ? & Hbl).
    exists D. split_and!; try done. intros b Hb. rewrite lookup_insert_ne; [by apply Hbl|].
    intros <-. destruct (is_block_range d D a' (a + 12)) as [H5 H6];
      [by eapply desc_lt|by apply (ao_descs _ _ _ Hok)|done|].
    pose proof (desc_bounds d D ltac:(by eapply desc_lt) ltac:(by apply (ao_descs _ _ _ Hok))).
    pose proof (ao_arena _ _ _ Hok a' ar' H'). destruct (Hf a' ar' H'); unfold npages in *;
      rewrite Hd in *; lia.
  - intros d D b HD Hb. destruct (ao_free _ _ _ Hok d D b HD Hb) as (a' & ar' & Ha' & ?).
    exists a', ar'. rewrite lookup_insert_ne by congruence. done.
  - intros v n [[<- <-]|[Hv Hl]]%lookup_insert_Some.
    + exists a. eexists. rewrite lookup_insert_eq. by split.
    + destruct (ao_live _ _ _ Hok v n Hl) as (a' & ar' & Ha' & ?). exists a', ar'.
      rewrite lookup_insert_ne by congruence. done.
Qed.

Lemma arenas_add_small a d D bl : fresh a 1 → ds !! d = Some D →
  NoDup bl → (∀ b, b ∈ bl ↔ is_block D a b) →
  arenas_ok (<[a := Arena (Some d) (Z.of_nat (length bl)) false]> hd)
    (set_fl d (free_list D ++ bl) ds) live.
Proof.
  intros Hfr HD Hnd Hbl. pose proof Hfr as (H1 & H2 & H3 & H4 & Hf).
  set (ar := Arena (Some d) (Z.of_nat (length bl)) false).
  destruct (fresh_ranges a 1 ar Hfr eq_refl) as [Hr Hdj].
  pose proof (fresh_header _ _ Hfr) as Ha.
  assert (∀ b, b ∈ bl → a + 12 ≤ b < a + 4096 ∧ in_arena a b) as Hin.
  { intros b Hb%Hbl. destruct (is_block_range d D a b) as [H5 H6];
      [by eapply desc_lt|by apply (ao_descs _ _ _ Hok)|done|].
    pose proof (desc_bounds d D ltac:(by eapply desc_lt) ltac:(by apply (ao_descs _ _ _ Hok))).
    split; [lia|]. unfold in_arena. replace b with (a + (b - a)) by lia.
    apply block2arena_eq; [done|unfold is_u32; lia|lia]. }
  assert (∀ b, b ∈ bl → ∀ d' D', ds !! d' = Some D' → b ∉ free_list D') as Hnf.
  { intros b Hb d' D' HD' Hb'. destruct (Hin b Hb). pose proof (fresh_free a 1 d' D' b Hfr HD' Hb'). lia. }
  assert (∀ a', a' ≠ a → filter (in_arena a') bl = []) as Hflt.
  { intros a' Hne. apply list_filter_none. intros b Hb Hb'. destruct (Hin b Hb) as [_ Hb2].
    unfold in_arena in *. congruence. }
  split; try done.
  - unfold set_fl. rewrite length_alter. apply Hok.
  - intros d' D' (D0 & H0 & ->)%set_fl_lookup. case_decide; apply (ao_descs _ _ _ Hok _ _ H0).
  - intros a' ar' [[<- <-]|[Hna H']]%lookup_insert_Some Hd; [done|]. by apply (ao_large _ _ _ Hok).
  - intros a' ar' d' [[<- <-]|[Hna H']]%lookup_insert_Some Hd.
    + injection Hd as <-. eexists. split; [apply set_fl_lookup; by exists D|].
      rewrite decide_True by done. cbn. split_and!; [done| |].
      * rewrite filter_app, length_app. rewrite (list_filter_none _ (free_list D)).
        2: { intros b Hb Hb'. destruct (free_place d D b HD Hb) as (a' & ar' & Ha' & Hp & _).
             unfold in_arena in Hb'. congruence. }
        cbn. f_equal. f_equal. symmetry. apply list_filter_all.
        intros b Hb. by apply Hin.
      * intros b Hb%Hbl. left. rewrite elem_of_app. split; [by right|].
        apply (fresh_live a 1); [done|]. destruct (Hin b Hb). lia.
    + destruct (ao_small _ _ _ Hok a' ar' d' H' Hd) as (D' & HD' & ? & Hc & Hb').
      eexists. split; [apply set_fl_lookup; by exists D'|].
      destruct (decide (d' = d)) as [->|]; cbn; [|done].
      rewrite HD in HD'. injection HD' as <-. split; [done|].
      rewrite filter_app, Hflt, app_nil_r by done. split; [done|].
      intros b Hb. rewrite elem_of_app.
      assert (b ∉ bl) as Hn.
      { intros [_ He]%Hin. unfold in_arena in He. apply Hna. rewrite <-He.
        by eapply (block_in_arena _ _ _ Hok). }
      destruct (Hb' b Hb) as [[??]|[??]]; [left|right]; (split; [naive_solver|done]).
  - intros d' D' (D0 & H0 & ->)%set_fl_lookup. destruct (decide (d' = d)) as [->|]; cbn.
    + rewrite HD in H0. injection H0 as <-. apply NoDup_app. split_and!; [by eapply (ao_nodup _ _ _ Hok)| |done].
      intros b Hb Hb'. by apply (Hnf b Hb' d D).
    + by eapply (ao_nodup _ _ _ Hok).
  - intros d' D' b (D0 & H0 & ->)%set_fl_lookup. destruct (decide (d' = d)) as [->|]; cbn.
    + rewrite HD in H0. injection H0 as <-. rewrite elem_of_app. intros [Hb|Hb%Hbl].
      * destruct (ao_free _ _ _ Hok d D b HD Hb) as (a' & ar' & Ha' & ?).
        exists a', ar'. rewrite lookup_insert_ne by congruence. done.
      * exists a, ar. rewrite lookup_insert_eq. done.
    + intros Hb. destruct (ao_free _ _ _ Hok d' D0 b H0 Hb) as (a' & ar' & Ha' & ?).
      exists a', ar'. rewrite lookup_insert_ne by congruence. done.
  - intros v n Hl. destruct (ao_live _ _ _ Hok v n Hl) as (a' & ar' & Ha' & Hm). exists a', ar'.
    rewrite lookup_insert_ne by congruence. split; [done|]. destruct (a_desc ar') as [d'|]; [|done].
    destruct Hm as (D' & HD' & Hv). eexists. split; [apply set_fl_lookup; by exists D'|]. by case_decide.
Qed.

(** The blocks of an arena are not those of another. *)
Lemma other_block a a' ar ar' d d' D D' b : a' ≠ a →
  hd !! a = Some ar → ds !! d = Some D → hd !! a' = Some ar' → ds !! d' = Some D' →
  is_block D a b → is_block D' a' b → False.
Proof.
  intros Hne Ha HD Ha' HD' Hb Hb'. apply Hne.
  rewrite <-(block_in_arena _ _ _ Hok a ar d D b Ha HD Hb).
  symmetry. by eapply (block_in_arena _ _ _ Hok).
Qed.

Lemma arenas_delete_large a ar : hd !! a = Some ar → a_desc ar = None →
  arenas_ok (delete a hd) ds (delete (a + 12) live).
Proof.
  intros Ha Hd.
  assert (block2arena (a + 12) = a) as Hba.
  { pose proof (ao_arena _ _ _ Hok a ar Ha). apply block2arena_eq; [lia|unfold is_u32; lia|lia]. }
  split; try apply Hok.
  - intros a' ar' [Hne H']%lookup_delete_Some. by apply (ao_arena _ _ _ Hok).
  - intros a' ar' [Hne H']%lookup_delete_Some Hd'.
    destruct (ao_large _ _ _ Hok a' ar' H' Hd'). split; [done|].
    rewrite lookup_delete_ne by lia. done.
  - intros a' ar' d [Hne H']%lookup_delete_Some Hd'.
    destruct (ao_small _ _ _ Hok a' ar' d H' Hd') as (D & HD & ? & ? & Hbl).
    exists D. split_and!; try done. intros b Hb. rewrite lookup_delete_ne; [by apply Hbl|].
    intros <-. apply Hne. rewrite <-Hba. by eapply (block_in_arena _ _ _ Hok).
  - intros d D b HD Hb. destruct (ao_free _ _ _ Hok d D b HD Hb) as (a' & ar' & Ha' & Hd' & ?).
    exists a', ar'. rewrite lookup_delete_ne by congruence. done.
  - intros v n [Hne Hv]%lookup_delete_Some.
    destruct (ao_live _ _ _ Hok v n Hv) as (a' & ar' & Ha' & Hm). exists a', ar'. split; [|done].
    apply lookup_delete_Some. split; [|done]. intros <-. rewrite Ha in Ha'. injection Ha' as <-.
    rewrite Hd in Hm. done.
  - intros a1 a2 ar1 ar2 Hne [_ H1]%lookup_delete_Some [_ H2]%lookup_delete_Some.
    by eapply (ao_disj _ _ _ Hok).
Qed.

Lemma arenas_delete_small a ar d D fl : hd !! a = Some ar → a_desc ar = Some d →
  ds !! d = Some D → (∀ b, is_block D a b → b ∈ free_list D) → NoDup fl →
  (∀ x, x ∈ fl ↔ x ∈ free_list D ∧ ¬ is_block D a x) →
  (∀ a', a' ≠ a → filter (in_arena a') fl = filter (in_arena a') (free_list D)) →
  arenas_ok (delete a hd) (set_fl d fl ds) live.
Proof.
  intros Ha Hd HD Hall Hnd Hfl Hflt.
  split.
  - unfold set_fl. rewrite length_alter. apply Hok.
  - intros d' D' (D0 & H0 & ->)%set_fl_lookup. case_decide; apply (ao_descs _ _ _ Hok _ _ H0).
  - intros a' ar' [Hne H']%lookup_delete_Some. by apply (ao_arena _ _ _ Hok).
  - intros a' ar' [Hne H']%lookup_delete_Some. by apply (ao_large _ _ _ Hok).
  - intros a' ar' d' [Hne H']%lookup_delete_Some Hd'.
    destruct (ao_small _ _ _ Hok a' ar' d' H' Hd') as (D' & HD' & ? & Hc & Hbl).
    eexists. split; [apply set_fl_lookup; by exists D'|].
    destruct (decide (d' = d)) as [->|]; cbn; [|done].
    rewrite HD in HD'. injection HD' as <-. rewrite Hflt by done. split_and!; [done|done|].
    intros b Hb. rewrite Hfl.
    assert (¬ is_block D a b) by (intros ?; by eapply (other_block a a')).
    destruct (Hbl b Hb) as [[??]|[??]]; [left|right]; (split; [naive_solver|done]).
  - intros d' D' (D0 & H0 & ->)%set_fl_lookup. case_decide; [done|]. by eapply (ao_nodup _ _ _ Hok).
  - intros d' D' b (D0 & H0 & ->)%set_fl_lookup Hb.
    assert (b ∈ free_list D0 ∧ (d' = d → ¬ is_block D0 a b)) as [Hb0 Hnb].
    { destruct (decide (d' = d)) as [->|]; [|done]. rewrite HD in H0. injection H0 as <-.
      apply Hfl in Hb as [??]. done. }
    destruct (ao_free _ _ _ Hok d' D0 b H0 Hb0) as (a' & ar' & Ha' & Hd' & Hb').
    exists a', ar'. split_and!; [|done|by case_decide]. apply lookup_delete_Some. split; [|done].
    intros <-. rewrite Ha in Ha'. injection Ha' as <-. rewrite Hd in Hd'. injection Hd' as <-.
    by apply Hnb.
  - intros v n Hv.
    destruct (ao_live _ _ _ Hok v n Hv) as (a' & ar' & Ha' & Hm). exists a', ar'.
    split; [apply lookup_delete_Some; split; [|done]|].
    + intros <-. rewrite Ha in Ha'. injection Ha' as <-. rewrite Hd in Hm.
      destruct Hm as (D' & HD' & Hb). rewrite HD in HD'. injection HD' as <-.
      destruct (ao_small _ _ _ Hok a ar d Ha Hd) as (D' & HD' & _ & _ & Hbl).
      rewrite HD in HD'. injection HD' as <-. destruct (Hbl v Hb) as [[_ ?]|[Hn _]]; [congruence|].
      by apply Hn, Hall.
    + destruct (a_desc ar') as [d'|]; [|done]. destruct Hm as (D' & HD' & Hx).
      eexists. split; [apply set_fl_lookup; by exists D'|]. by case_decide.
  - intros a1 a2 ar1 ar2 Hne [_ H1]%lookup_delete_Some [_ H2]%lookup_delete_Some.
    by eapply (ao_disj _ _ _ Hok).
Qed.
End moves.

(** ** Runs *)

Lemma set_fl_twice d fl fl' ds : set_fl d fl' (set_fl d fl ds) = set_fl d fl' ds.
Proof.
  apply list_eq. intros d'. apply option_eq. intros D'. rewrite !set_fl_lookup.
  split.
  - intros (D & (D0 & H0 & ->)%set_fl_lookup & ->). exists D0. split; [done|]. by case_decide.
  - intros (D0 & H0 & ->). eexists. split; [apply set_fl_lookup; by exists D0|]. by case_decide.
Qed.

Lemma set_fl_same d D ds : ds !! d = Some D → set_fl d (free_list D) ds = ds.
Proof.
  intros HD. apply list_eq. intros d'. apply option_eq. intros D'. rewrite set_fl_lookup. split.
  - intros (D0 & H0 & ->). case_decide; [|done]. subst. rewrite HD in H0. injection H0 as <-.
    by destruct D.
  - intros H0. exists D'. split; [done|]. case_decide; [|done]. subst. rewrite HD in H0.
    injection H0 as <-. by destruct D.
Qed.

Lemma in_range_spec a n x : in_range a n x = true ↔ a ≤ x < a + n.
Proof. unfold in_range. rewrite andb_true_iff, Z.leb_le, Z.ltb_lt. lia. Qed.

Lemma in_range_false a n x : in_range a n x = false ↔ x < a ∨ a + n ≤ x.
Proof. unfold in_range. rewrite andb_false_iff, Z.leb_gt, Z.ltb_ge. lia. Qed.

Lemma drop_headers_lookup a n hd x :
  drop_headers a n hd !! x = if in_range a n x then None else hd !! x.
Proof.
  apply option_eq. intros ar. unfold drop_headers. rewrite map_lookup_filter_Some. cbn.
  destruct (in_range a n x); split; intros; naive_solver.
Qed.

Lemma drop_headers_none a n hd : (∀ x ar, hd !! x = Some ar → x < a ∨ a + n ≤ x) →
  drop_headers a n hd = hd.
Proof.
  intros Hn. apply map_eq. intros x. rewrite drop_headers_lookup.
  destruct (in_range a n x) eqn:Hr; [|done]. apply in_range_spec in Hr.
  destruct (hd !! x) as [ar|] eqn:Hx; [|done]. destruct (Hn x ar Hx); lia.
Qed.

Lemma drop_headers_one hd ds live a ar : arenas_ok hd ds live → hd !! a = Some ar →
  drop_headers a (npages ar * 4096) hd = delete a hd.
Proof.
  intros Hok Ha. apply map_eq. intros x. rewrite drop_headers_lookup.
  pose proof (ao_arena _ _ _ Hok a ar Ha) as (?&?&?&?).
  destruct (decide (x = a)) as [->|Hne].
  - rewrite lookup_delete_eq. rewrite (proj2 (in_range_spec _ _ _)); [done|lia].
  - rewrite lookup_delete_ne by done. destruct (in_range _ _ x) eqn:Hr; [|done].
    apply in_range_spec in Hr. destruct (hd !! x) as [ar'|] eqn:Hx; [|done].
    pose proof (ao_arena _ _ _ Hok x ar' Hx).
    destruct (ao_disj _ _ _ Hok a x ar ar'); [congruence|done..|lia|lia].
Qed.

Section runs.
Context {P : Type} {PA : PageAlloc P}.
Implicit Types h : heap P.

Lemma get_desc_eq d D h : descs h !! d = Some D → get_desc d h = Ret (D, h).
Proof. unfold get_desc. by intros ->. Qed.
Lemma get_arena_eq a ar h : headers h !! a = Some ar → get_arena a h = Ret (ar, h).
Proof. unfold get_arena. by intros ->. Qed.

Definition zeroed (a n : Z) (f : Z → Z) : Z → Z := λ x, if in_range a n x then 0 else f x.

Lemma memset0_run a n h :
  (∀ d D b, descs h !! d = Some D → b ∈ free_list D → b < a ∨ a + n ≤ b) →
  (∀ x ar, headers h !! x = Some ar → x < a ∨ a + n ≤ x) →
  memset0 a n h = Ret ((), Heap (pages h) (descs h) (headers h) (zeroed a n (bytes h))).
Proof.
  intros Hfree Hhd. unfold memset0. rewrite drop_headers_none by done.
  replace (existsb _ _) with false; [done|]. symmetry. apply existsb_false.
  intros D [d HD]%list_elem_of_lookup. apply existsb_false. intros b Hb.
  apply in_range_false. by eapply Hfree.
Qed.

Lemma arena2block_run a d D i h : descs h !! d = Some D → is_u32 (blk D a i) →
  arena2block a d i h = Ret (blk D a i, h).
Proof.
  intros HD Hu. unfold arena2block. rewrite (M_bind_Ret _ _ _ _ _ (get_desc_eq _ _ _ HD)).
  unfold blk in *. by rewrite ret_eq, u32_id.
Qed.

Lemma fl_find_run d D b h : descs h !! d = Some D →
  fl_find d b h = Ret (bool_decide (b ∈ free_list D), h).
Proof.
  intros HD. unfold fl_find. rewrite (M_bind_Ret _ _ _ _ _ (get_desc_eq _ _ _ HD)).
  by rewrite ret_eq, existsb_eqb.
Qed.

Definition upd_fl (d : nat) (fl : list Z) h : heap P :=
  Heap (pages h) (set_fl d fl (descs h)) (headers h) (bytes h).

Lemma fl_append_run d D b h : descs h !! d = Some D →
  (∀ d' D', descs h !! d' = Some D' → b ∉ free_list D') →
  fl_append d b h = Ret ((), upd_fl d (free_list D ++ [b]) h).
Proof.
  intros HD Hn. unfold fl_append. rewrite (M_bind_Ret _ _ _ _ _ (get_desc_eq _ _ _ HD)), bind_gets.
  replace (existsb _ _) with false; [done|]. symmetry. apply existsb_false.
  intros D' [d' HD']%list_elem_of_lookup. rewrite existsb_eqb. apply bool_decide_eq_false.
  by eapply Hn.
Qed.

Lemma upd_fl_lookup d D fl h : descs h !! d = Some D →
  descs (upd_fl d fl h) !! d = Some (with_free D fl).
Proof. intros HD. apply set_fl_lookup. exists D. by rewrite decide_True. Qed.

Lemma add_blocks_run n a d i D h : descs h !! d = Some D → 0 < block_size D →
  (∀ j, i ≤ j < i + Z.of_nat n → is_u32 (blk D a j) ∧
    ∀ d' D', descs h !! d' = Some D' → blk D a j ∉ free_list D') →
  add_blocks n a d i h = Ret ((), upd_fl d (free_list D ++ map (blk D a) (seqZ i (Z.of_nat n))) h).
Proof.
  revert i D h. induction n as [|n IH]; intros i D h HD Hbs Hn.
  { cbn. rewrite app_nil_r. unfold upd_fl. rewrite set_fl_same by done. by destruct h. }
  cbn [add_blocks]. destruct (Hn i ltac:(lia)) as [Hu Hni].
  rewrite (M_bind_Ret _ _ _ _ _ (arena2block_run a d D i h HD Hu)).
  rewrite (M_bind_Ret _ _ _ _ _ (fl_find_run d D _ h HD)).
  rewrite bool_decide_eq_false_2 by (by eapply Hni). cbn [negb]. rewrite bind_ASSERT_true.
  rewrite (M_bind_Ret _ _ _ _ _ (fl_append_run d D _ h HD Hni)).
  rewrite (IH (i + 1) (with_free D (free_list D ++ [blk D a i]))).
  - unfold upd_fl. cbn [pages descs headers bytes]. rewrite set_fl_twice, (seqZ_cons i) by lia.
    replace (Z.pred (Z.of_nat (S n))) with (Z.of_nat n) by lia.
    cbn [map free_list with_free]. by rewrite <-app_assoc.
  - by apply upd_fl_lookup.
  - done.
  - intros j Hj. change (blk (with_free D _) a j) with (blk D a j). destruct (Hn j ltac:(lia)) as [? Hnj].
    split; [done|]. intros d' D' (D0 & H0 & ->)%set_fl_lookup. case_decide; [|by eapply Hnj].
    subst. cbn. rewrite HD in H0. injection H0 as <-.
    rewrite elem_of_app, list_elem_of_singleton. intros [?|He]; [by eapply Hnj|].
    unfold blk in He. nia.
Qed.

Lemma fl_remove_run d D b h : descs h !! d = Some D →
  fl_remove d b h = Ret ((), upd_fl d (filter (λ x, x ≠ b) (free_list D)) h).
Proof. intros HD. unfold fl_remove. by rewrite (M_bind_Ret _ _ _ _ _ (get_desc_eq _ _ _ HD)). Qed.

Lemma remove_blocks_run n a d i D h : descs h !! d = Some D → 0 < block_size D →
  NoDup (free_list D) →
  (∀ j, i ≤ j < i + Z.of_nat n → is_u32 (blk D a j) ∧ blk D a j ∈ free_list D) →
  ∃ fl, remove_blocks n a d i h = Ret ((), upd_fl d fl h) ∧ NoDup fl ∧
    (∀ x, x ∈ fl ↔ x ∈ free_list D ∧ ¬ ∃ j, i ≤ j < i + Z.of_nat n ∧ x = blk D a j) ∧
    (∀ a', (∀ j, i ≤ j < i + Z.of_nat n → ¬ in_arena a' (blk D a j)) →
       filter (in_arena a') fl = filter (in_arena a') (free_list D)).
Proof.
  revert i D h. induction n as [|n IH]; intros i D h HD Hbs Hnd Hn.
  { exists (free_list D). cbn. unfold upd_fl. rewrite set_fl_same by done. destruct h.
    split_and!; [done|done| |done]. intros x. split; [|by intros [? _]].
    intros Hx. split; [done|]. intros (j & ? & _). lia. }
  cbn [remove_blocks]. destruct (Hn i ltac:(lia)) as [Hu Hin].
  rewrite (M_bind_Ret _ _ _ _ _ (arena2block_run a d D i h HD Hu)).
  rewrite (M_bind_Ret _ _ _ _ _ (fl_find_run d D _ h HD)).
  rewrite bool_decide_eq_true_2 by done. rewrite bind_ASSERT_true.
  rewrite (M_bind_Ret _ _ _ _ _ (fl_remove_run d D _ h HD)).
  set (fl1 := filter (λ x, x ≠ blk D a i) (free_list D)).
  destruct (IH (i + 1) (with_free D fl1) (upd_fl d fl1 h)) as (fl & Hrun & Hnd' & Hfl & Hflt).
  - by apply upd_fl_lookup.
  - done.
  - cbn. by apply NoDup_filter.
  - intros j Hj. destruct (Hn j ltac:(lia)) as [Huj Hinj]. split; [done|].
    apply list_elem_of_filter. split; [|done]. change (blk (with_free D fl1) a j) with (blk D a j).
    unfold blk. nia.
  - exists fl. rewrite Hrun. unfold upd_fl at 1 2. cbn [pages descs headers bytes].
    rewrite set_fl_twice. split_and!; [done|done| |].
    + intros x. rewrite Hfl. change (free_list (with_free D fl1)) with fl1.
      unfold fl1 at 1. rewrite list_elem_of_filter.
      change (blk (with_free D fl1) a) with (blk D a). split.
      * intros [[Hx1 Hx2] Hx3]. split; [done|]. intros (j & Hj & ->).
        destruct (decide (j = i)) as [->|]; [done|]. apply Hx3. exists j. split; [lia|done].
      * intros [Hx1 Hx2]. split_and!; [|done|].
        -- intros ->. apply Hx2. exists i. split; [lia|done].
        -- intros (j & Hj & ->). apply Hx2. exists j. split; [lia|done].
    + intros a' Ha'. rewrite Hflt.
      * cbn. unfold fl1. rewrite list_filter_filter. apply list_filter_iff. intros x.
        split; [by intros [??]|]. intros Hx. split; [done|]. intros ->. apply (Ha' i); [lia|done].
      * intros j Hj. apply Ha'. lia.
Qed.
End runs.

(** ** Allocation *)

Section spec.
Context {P : Type} {PA : PageAlloc P} {PS : PageAllocSpec P}.
Implicit Types h : heap P.

(** The invariant of the heap; [live] are the blocks given out. *)
Record heap_inv (held : bool) (h : heap P) (live : gmap Z Z) : Prop := {
  hi_pages : pa_inv held (pages h);
  hi_arenas : arenas_ok (headers h) (descs h) live;
  hi_alloc a ar x : headers h !! a = Some ar → in_pages a (npages ar) x → pa_page (pages h) x
}.

Lemma alloc_fresh h live a cnt : heap_inv true h live → 0 < a → a mod 4096 = 0 → 1 ≤ cnt →
  a + cnt * 4096 ≤ 4294967296 → (∀ x, pa_page (pages h) x → ¬ in_pages a cnt x) →
  fresh (headers h) a cnt.
Proof.
  intros Hh H1 H2 H3 H4 Hn. split_and!; try done. intros a' ar' Ha'.
  pose proof (ao_arena _ _ _ (hi_arenas _ _ _ Hh) a' ar' Ha') as (H5 & H6 & H7 & H8).
  destruct (decide (a' + npages ar' * 4096 ≤ a ∨ a + cnt * 4096 ≤ a')) as [|Hov]; [done|].
  exfalso. destruct (decide (a' ≤ a)).
  - apply (Hn a); [|by exists 0; split; [lia|lia]]. apply (hi_alloc _ _ _ Hh a' ar'); [done|].
    exists ((a - a') / 4096). zlia.
  - apply (Hn a'); [|exists ((a' - a) / 4096); zlia]. apply (hi_alloc _ _ _ Hh a' ar'); [done|].
    exists 0. lia.
Qed.

Lemma fresh_memset h live a cnt : heap_inv true h live → fresh (headers h) a cnt →
  memset0 a (cnt * 4096) h =
    Ret ((), Heap (pages h) (descs h) (headers h) (zeroed a (cnt * 4096) (bytes h))).
Proof.
  intros Hh Hfr. apply memset0_run.
  - intros d D b. by apply (fresh_free _ _ _ (hi_arenas _ _ _ Hh)).
  - intros x ar Hx. destruct Hfr as (? & ? & ? & ? & Hf).
    pose proof (ao_arena _ _ _ (hi_arenas _ _ _ Hh) x ar Hx). destruct (Hf x ar Hx); lia.
Qed.

(** What a caller of [sys_malloc] gets: a block of at least [size] bytes, all
    zero, that overlaps no live block; live blocks keep their contents. *)
Definition allocated (size v : Z) h h' (live : gmap Z Z) : Prop :=
  ∃ n, size ≤ n ∧ live !! v = None ∧ heap_inv false h' (<[v := n]> live) ∧
    (∀ w m, live !! w = Some m → v + n ≤ w ∨ w + m ≤ v) ∧
    (∀ x, v ≤ x < v + n → bytes h' x = 0) ∧
    ∀ w m x, live !! w = Some m → w ≤ x < w + m → bytes h' x = bytes h x.

(** The pages [sys_malloc] may ask for. *)
Definition pages_for (size : Z) : Z := if 1024 <? size then (size + 4107) / 4096 else 1.

(** The only reasons to give out nothing: the size is 0 or not below that of the
    pool, or the page allocator has no pages and, for a small size, no block of
    its class is free. *)
Definition out_of_pages (size : Z) (p : P) h : Prop :=
  (∃ p', pa_malloc (pages_for size) p = Ret (NULL, p')) ∧
  (size ≤ 1024 → ∀ D, descs h !! find_desc (descs h) size = Some D → free_list D = []).
Definition refused (size : Z) h : Prop :=
  size = 0 ∨ pa_size (pages h) ≤ size ∨
  ∃ p, pa_lock (pages h) = Ret ((), p) ∧ out_of_pages size p h.

(** No block, and nothing changed for the callers. *)
Definition not_allocated v h h' (live : gmap Z Z) : Prop :=
  v = NULL ∧ heap_inv false h' live ∧
    ∀ w m x, live !! w = Some m → w ≤ x < w + m → bytes h' x = bytes h x.

Definition with_pages (p : P) h : heap P := Heap p (descs h) (headers h) (bytes h).

Lemma unlock_pages h live : heap_inv true h live → ∃ p, zoom pages_lens pa_unlock h =
    Ret ((), with_pages p h) ∧ heap_inv false (with_pages p h) live ∧ ∀ x, pa_page p x ↔ pa_page (pages h) x.
Proof.
  intros [Hp Ha Hal]. destruct (pa_unlock_ok _ Hp) as (p & Hu & Hp' & Hpg).
  exists p. split; [apply (zoom_Ret pages_lens pa_unlock h () p Hu)|]. split; [|done].
  split; [done|done|]. intros a ar x Hx Hi. apply Hpg. by eapply Hal.
Qed.
Lemma unlock_run h live : heap_inv true h live → ∃ p, zoom pages_lens pa_unlock h =
    Ret ((), with_pages p h) ∧ heap_inv false (with_pages p h) live.
Proof. intros Hh. destruct (unlock_pages h live Hh) as (p & Hu & Hh' & _). by exists p. Qed.

(** Pages of the page allocator, in the heap. *)
Lemma malloc_run h live cnt a p : heap_inv true h live → 1 ≤ cnt →
  pa_malloc cnt (pages h) = Ret (a, p) →
  zoom pages_lens (pa_malloc cnt) h = Ret (a, with_pages p h) ∧
  heap_inv true (with_pages p h) live ∧
  (a ≠ NULL → fresh (headers h) a cnt ∧ ∀ x, in_pages a cnt x → pa_page p x).
Proof.
  intros Hh Hcnt Hm. destruct (pa_malloc_ok _ _ _ _ (hi_pages _ _ _ Hh) Hcnt Hm) as [Hp' Hres].
  split; [apply (zoom_Ret pages_lens _ h a p Hm)|].
  assert (∀ x, pa_page (pages h) x → pa_page p x) as Hmono.
  { intros x Hx. destruct (a =? NULL); [by apply Hres|]. apply Hres. by left. }
  split; [split; [done|by apply Hh|]|].
  - intros b ar x Hb Hx. apply Hmono. by apply (hi_alloc _ _ _ Hh b ar).
  - intros Hne. destruct (Z.eqb_spec a NULL); [done|]. destruct Hres as (? & ? & ? & Hn & Hpg).
    split; [by eapply alloc_fresh|]. intros x Hx. apply Hpg. by right.
Qed.

Lemma malloc_large_spec h live size a p : heap_inv true h live → 1024 < size < 0x10000000 →
  pa_malloc ((size + 4107) / 4096) (pages h) = Ret (a, p) →
  ∃ v h', malloc_large size h = Ret (v, h') ∧
    (not_allocated v h h' live ∧ a = NULL ∨ allocated size v h h' live).
Proof.
  intros Hh Hs Hm. set (cnt := (size + 4107) / 4096) in *.
  assert (1 ≤ cnt < 65538 ∧ size + 12 ≤ cnt * 4096) as [Hcnt Hsz] by (unfold cnt; zlia).
  destruct (malloc_run h live cnt a p Hh) as (Hrun & Hh1 & Hfr); [lia|done|].
  unfold malloc_large, DIV_ROUND_UP, PG_SIZE, sizeof_arena.
  rewrite (u32_id (size + 12)) by (unfold is_u32; lia).
  replace (u32 (size + 12 + 4096 - 1)) with (size + 4107) by (rewrite u32_id; unfold is_u32; lia).
  fold cnt. rewrite (M_bind_Ret _ _ _ _ _ Hrun). rewrite (u32_id (cnt * 4096)) by (unfold is_u32; lia).
  destruct (Z.eqb_spec a NULL) as [->|Hne]; cbn [negb].
  { destruct (unlock_run _ _ Hh1) as (p' & Hu & Hh2). rewrite (M_bind_Ret _ _ _ _ _ Hu), ret_eq.
    eexists _, _. split; [done|]. left. by split_and!. }
  destruct (Hfr Hne) as [Hfresh Hpg]. clear Hfr.
  rewrite (M_bind_Ret _ _ _ _ _ (fresh_memset _ live a cnt Hh1 Hfresh)).
  unfold set_arena. rewrite bind_modify. cbn [pages descs headers bytes with_pages].
  pose proof Hfresh as (Ha1 & Ha2 & Ha3 & Ha4 & Hdisj).
  pose proof (arenas_add_large _ _ _ (hi_arenas _ _ _ Hh) a cnt Hfresh) as Hok.
  assert (heap_inv true (Heap p (descs h) (<[a:=Arena None cnt true]> (headers h))
    (zeroed a (cnt * 4096) (bytes h))) (<[a + 12 := cnt * 4096 - 12]> live)) as Hh2.
  { split; [by apply Hh1|done|]. cbn. intros b ar x [[<- <-]|[Hb H']]%lookup_insert_Some; [apply Hpg|].
    by apply (hi_alloc _ _ _ Hh1). }
  destruct (unlock_run _ _ Hh2) as (p' & Hu & Hh3). rewrite (M_bind_Ret _ _ _ _ _ Hu), ret_eq.
  assert (live !! (a + 12) = None) as Hnone.
  { apply (fresh_live _ _ _ (hi_arenas _ _ _ Hh) a cnt); [done|lia]. }
  assert (∀ w m, live !! w = Some m → a + 12 + (cnt * 4096 - 12) ≤ w ∨ w + m ≤ a) as Hw.
  { intros w m Hw. destruct (live_place _ _ _ (hi_arenas _ _ _ Hh) w m Hw) as (b & br & Hb & ? & ? & _).
    destruct (Hdisj b br Hb); lia. }
  eexists _, _. split; [done|]. right. rewrite u32_id by (unfold is_u32; lia).
  exists (cnt * 4096 - 12). split_and!; [lia|done|done| | |].
  - intros w m Hl. destruct (Hw w m Hl); lia.
  - intros x Hx. cbn. unfold zeroed. rewrite (proj2 (in_range_spec _ _ _)); [done|lia].
  - intros w m x Hl Hx. cbn. unfold zeroed. rewrite (proj2 (in_range_false _ _ _)); [done|].
    destruct (Hw w m Hl); lia.
Qed.

(** Bytes of live blocks keep their values. *)
Definition bytes_kept h h' (live : gmap Z Z) : Prop :=
  ∀ w m x, live !! w = Some m → w ≤ x < w + m → bytes h' x = bytes h x.

Lemma new_arena_spec h live d D a p : heap_inv true h live → descs h !! d = Some D →
  pa_malloc 1 (pages h) = Ret (a, p) →
  ∃ ok h', new_arena d h = Ret (ok, h') ∧ heap_inv true h' live ∧ bytes_kept h h' live ∧
    (if ok : bool then ∃ b fl, descs h' !! d = Some (with_free D (b :: fl)) else a = NULL).
Proof.
  intros Hh HD Hm. destruct (malloc_run h live 1 a p Hh) as (Hrun & Hh1 & Hfr); [lia|done|].
  unfold new_arena. rewrite (M_bind_Ret _ _ _ _ _ Hrun).
  destruct (Z.eqb_spec a NULL) as [->|Hne].
  { exists false. eexists. rewrite ret_eq. by split_and!. }
  destruct (Hfr Hne) as [Hfresh Hpg]. clear Hfr.
  pose proof (hi_arenas _ _ _ Hh) as Hok.
  pose proof (desc_bounds d D ltac:(by eapply desc_lt) ltac:(by apply (ao_descs _ _ _ Hok)))
    as (Hb1 & Hb2 & Hb3). unfold sizeof_arena in Hb3.
  pose proof Hfresh as (Ha1 & Ha2 & Ha3 & Ha4 & Hdisj).
  change PG_SIZE with (1 * 4096).
  rewrite (M_bind_Ret _ _ _ _ _ (fresh_memset _ live a 1 Hh1 Hfresh)).
  erewrite M_bind_Ret; [|apply get_desc_eq; exact HD].
  unfold set_arena. rewrite bind_modify. cbn [pages descs headers bytes with_pages].
  set (bl := map (blk D a) (seqZ 0 (blocks_per_arena D))).
  assert (Z.of_nat (length bl) = blocks_per_arena D) as Hbl.
  { unfold bl. rewrite length_map, length_seqZ. lia. }
  assert (∀ j, 0 ≤ j < blocks_per_arena D → a + 12 ≤ blk D a j < a + 4096) as Hj.
  { intros j Hj. unfold blk, sizeof_arena. nia. }
  erewrite M_bind_Ret; [|apply (add_blocks_run _ _ _ _ D); [exact HD|lia|]].
  2: { intros j Hjn. pose proof (Hj j ltac:(lia)). split; [unfold is_u32; lia|].
       intros d' D' HD' Hin. pose proof (fresh_free _ _ _ Hok a 1 d' D' _ Hfresh HD' Hin). lia. }
  rewrite ret_eq, Z2Nat.id by lia. fold bl. eexists true, _. split; [done|].
  pose proof (arenas_add_small _ _ _ Hok a d D bl Hfresh HD (blk_NoDup D a _ ltac:(lia))
    (λ b, iff_sym (is_block_seq D a b))) as Hok'. rewrite Hbl in Hok'.
  split_and!; [split| |].
  - apply Hh1.
  - exact Hok'.
  - cbn. intros b ar x [[<- <-]|[Hb H']]%lookup_insert_Some; [apply Hpg|].
    by apply (hi_alloc _ _ _ Hh1).
  - intros w m x Hw Hx. cbn. unfold zeroed. rewrite (proj2 (in_range_false _ _ _)); [done|].
    destruct (live_place _ _ _ Hok w m Hw) as (b & br & Hb & ? & ? & _). destruct (Hdisj b br Hb); lia.
  - destruct (free_list D ++ bl) as [|b fl] eqn:Hf.
    + apply (f_equal length) in Hf. rewrite length_app in Hf. cbn in Hf. lia.
    + exists b, fl. rewrite <-Hf. by apply upd_fl_lookup.
Qed.

Lemma take_block_spec h live d D b fl : heap_inv true h live → descs h !! d = Some D →
  free_list D = b :: fl →
  ∃ h', take_block d h = Ret (b, h') ∧ live !! b = None ∧
    heap_inv true h' (<[b := block_size D]> live) ∧
    bytes h' = zeroed b (block_size D) (bytes h).
Proof.
  intros Hh HD Hfl. pose proof (hi_arenas _ _ _ Hh) as Hok.
  assert (b ∈ free_list D) as Hb by (rewrite Hfl; left).
  destruct (ao_free _ _ _ Hok d D b HD Hb) as (a & ar & Ha & Hd & Hbl).
  pose proof (block_in_arena _ _ _ Hok a ar d D b Ha HD Hbl) as Hba.
  destruct (ao_small _ _ _ Hok a ar d Ha Hd) as (D' & HD' & Hlg & Hcnt & Hblocks).
  rewrite HD in HD'. injection HD' as <-.
  destruct (Hblocks b Hbl) as [[_ Hnone]|[Hn _]]; [|by destruct Hn].
  pose proof (ao_nodup _ _ _ Hok d D HD) as Hnd. rewrite Hfl in Hnd. apply NoDup_cons in Hnd as [Hnb Hnd].
  pose proof (desc_lt _ _ _ Hok _ _ HD) as Hdlt. pose proof (ao_descs _ _ _ Hok _ _ HD) as Hdok.
  pose proof (desc_bounds d D Hdlt Hdok) as (Hs1 & Hs2 & Hs3).
  destruct (is_block_range d D a b Hdlt Hdok Hbl) as [Hr1 Hr2].
  destruct (arena_count _ _ _ Hok a ar d D Ha Hd HD) as [Hcb _].
  assert (a_cnt ar - 1 = Z.of_nat (length (filter (in_arena a) fl))) as Hc.
  { rewrite Hcnt, Hfl, filter_cons_True by done. cbn. lia. }
  unfold take_block, fl_pop. rewrite bind_assoc.
  rewrite (M_bind_Ret _ _ _ _ _ (get_desc_eq d D h HD)), Hfl.
  unfold set_free. rewrite bind_assoc, bind_modify, bind_ret.
  change (Heap (pages h) _ (headers h) (bytes h)) with (upd_fl d fl h).
  rewrite (M_bind_Ret _ _ _ _ _ (get_desc_eq d _ _ (upd_fl_lookup d D fl h HD))).
  change (block_size (with_free D fl)) with (block_size D).
  erewrite M_bind_Ret; [|apply memset0_run].
  2: { intros d' D' b' (D0 & H0 & ->)%set_fl_lookup Hb'.
       destruct (decide (d' = d)) as [->|Hnd']; cbn in Hb'.
       - apply (block_free_apart _ _ _ Hok a ar d D b Ha Hd HD Hbl d D b' HD); [rewrite Hfl; by right|].
         by intros ->.
       - apply (block_free_apart _ _ _ Hok a ar d D b Ha Hd HD Hbl d' D0 b' H0 Hb'). intros ->.
         destruct (ao_free _ _ _ Hok d' D0 b H0 Hb') as (a' & ar' & Ha' & Hd' & Hbl').
         pose proof (block_in_arena _ _ _ Hok a' ar' d' D0 b Ha' H0 Hbl'). congruence. }
  2: { exact (block_header_apart _ _ _ Hok a ar d D b Ha Hd HD Hbl). }
  rewrite Hba. erewrite M_bind_Ret; [|apply get_arena_eq; exact Ha].
  unfold set_arena. rewrite bind_modify, ret_eq. eexists. split; [done|].
  split; [done|]. split; [|done].
  rewrite Hd, Hlg, u32_id by (unfold is_u32; lia).
  split; cbn; [by apply Hh| |].
  - apply (arenas_move _ _ _ Hok a ar d D b); try done.
    + intros x Hx. rewrite Hfl, elem_of_cons. naive_solver.
    + intros x Hx. by rewrite lookup_insert_ne.
    + right. by rewrite lookup_insert_eq.
    + intros a' Hne. rewrite Hfl, filter_cons_False; [done|]. unfold in_arena. congruence.
  - intros a' ar' x [[<- <-]|[Hne H']]%lookup_insert_Some; [|by apply (hi_alloc _ _ _ Hh)].
    intros Hx. apply (hi_alloc _ _ _ Hh a ar); [done|]. unfold npages in *. by rewrite Hd.
Qed.

Lemma find_desc_spec ds size d D : ds !! d = Some D → size ≤ block_size D →
  ∃ D', ds !! find_desc ds size = Some D' ∧ size ≤ block_size D'.
Proof.
  revert d. induction ds as [|D0 ds IH]; intros d HD Hs; [done|]. cbn.
  destruct (Z.leb_spec size (block_size D0)); [by exists D0|].
  destruct d as [|d]; [injection HD as ->; lia|]. by apply (IH d).
Qed.

(** With room in the page allocator, [malloc_small] returns. *)
Lemma malloc_small_spec h live size : heap_inv true h live → 0 < size ≤ 1024 →
  (∃ v h', malloc_small size h = Ret (v, h') ∧
    (not_allocated v h h' live ∧ out_of_pages size (pages h) h ∨ allocated size v h h' live)) ∨
  ∀ r, pa_malloc 1 (pages h) ≠ Ret r.
Proof.
  intros Hh Hs. pose proof (hi_arenas _ _ _ Hh) as Hok.
  destruct (lookup_lt_is_Some_2 (descs h) 6) as [D6 H6]; [rewrite (ao_len _ _ _ Hok); unfold DESC_CNT; lia|].
  destruct (find_desc_spec (descs h) size 6 D6 H6) as (D & HD & HsD).
  { destruct (ao_descs _ _ _ Hok 6%nat D6 H6) as [-> _]. cbn. lia. }
  set (d := find_desc (descs h) size) in *.
  assert ((∃ ok h', (match free_list D with [] => new_arena d | _ => mret true end) h = Ret (ok, h') ∧
    heap_inv true h' live ∧ bytes_kept h h' live ∧
    (if ok : bool then ∃ b fl, descs h' !! d = Some (with_free D (b :: fl)) else out_of_pages size (pages h) h)) ∨
    ∀ r, pa_malloc 1 (pages h) ≠ Ret r) as [(ok & h1 & Hrun & Hh1 & Hk & Hok1)|]; [|left|by right].
  { destruct (free_list D) as [|b fl] eqn:Hfl.
    - destruct (pa_malloc 1 (pages h)) as [[a p]| | |] eqn:Hm; [left|by right..].
      destruct (new_arena_spec h live d D a p) as (ok & h' & Hr & Hi & Hk & Hok'); [done..|].
      exists ok, h'. split_and!; [done..|]. destruct ok; [done|]. subst a. split.
      + unfold pages_for. destruct (Z.ltb_spec 1024 size); [lia|]. by exists p.
      + intros _ D' HD'. fold d in HD'. rewrite HD in HD'. by injection HD' as <-.
    - left. exists true, h. split_and!; [done|done|done|]. exists b, fl.
      rewrite HD, <-Hfl. by destruct D. }
  unfold malloc_small. rewrite bind_gets. fold d.
  rewrite (M_bind_Ret _ _ _ _ _ (get_desc_eq d D h HD)).
  rewrite (M_bind_Ret _ _ _ _ _ Hrun).
  destruct ok; cbn [negb].
  2: { destruct (unlock_run _ _ Hh1) as (p & Hu & Hh2). rewrite (M_bind_Ret _ _ _ _ _ Hu), ret_eq.
       eexists _, _. split; [done|]. left. by split_and!. }
  destruct Hok1 as (b & fl & HD1).
  destruct (take_block_spec h1 live d _ b fl Hh1 HD1 eq_refl) as (h2 & Ht & Hnone & Hh2 & Hby).
  rewrite (M_bind_Ret _ _ _ _ _ Ht).
  destruct (unlock_run _ _ Hh2) as (p & Hu & Hh3). rewrite (M_bind_Ret _ _ _ _ _ Hu), ret_eq.
  change (block_size (with_free D (b :: fl))) with (block_size D) in *.
  assert (∀ w m, live !! w = Some m → b + block_size D ≤ w ∨ w + m ≤ b) as Hdj.
  { intros w m Hw. assert (b ≠ w) by congruence.
    apply (live_disjoint _ _ _ (hi_arenas _ _ _ Hh3)); rewrite ?lookup_insert_eq, ?lookup_insert_ne; done. }
  eexists _, _. split; [done|]. right. exists (block_size D). split_and!; try done; cbn; rewrite Hby.
  - intros x Hx. unfold zeroed. by rewrite (proj2 (in_range_spec _ _ _)).
  - intros w m x Hw Hx. unfold zeroed. rewrite (proj2 (in_range_false _ _ _)); [by eapply Hk|].
    destruct (Hdj w m Hw); lia.
Qed.

Lemma lock_run h live : heap_inv false h live → ∃ p, zoom pages_lens pa_lock h =
    Ret ((), with_pages p h) ∧ heap_inv true (with_pages p h) live ∧
    ∀ x, pa_page p x ↔ pa_page (pages h) x.
Proof.
  intros [Hp Ha Hal]. destruct (pa_lock_ok _ Hp) as (p & Hu & Hp' & Hpg).
  exists p. split; [apply (zoom_Ret pages_lens pa_lock h () p Hu)|]. split; [|done].
  split; [done|done|]. intros a ar x Hx Hi. apply Hpg. by eapply Hal.
Qed.

(** ** Freeing *)

(** The arena of a live block, as [sys_free] finds it. *)
Lemma live_arena h live v n : heap_inv true h live → live !! v = Some n →
  ∃ ar, headers h !! block2arena v = Some ar ∧
    match a_desc ar with
    | None => v = block2arena v + 12 ∧ a_large ar = true
    | Some d => ∃ D, descs h !! d = Some D ∧ is_block D (block2arena v) v
    end.
Proof.
  intros Hh Hv. pose proof (hi_arenas _ _ _ Hh) as Hok.
  destruct (ao_live _ _ _ Hok v n Hv) as (a & ar & Ha & Hm).
  assert (block2arena v = a) as Hva.
  { destruct (a_desc ar) as [d|] eqn:Hd.
    - destruct Hm as (D & HD & Hb). by eapply (block_in_arena _ _ _ Hok).
    - pose proof (ao_arena _ _ _ Hok a ar Ha). subst v.
      apply block2arena_eq; [lia|unfold is_u32; lia|lia]. }
  exists ar. rewrite Hva. split; [done|]. destruct (a_desc ar) as [d|] eqn:Hd; [done|].
  split; [done|]. by apply (ao_large _ _ _ Hok a ar).
Qed.

(** What freeing [v] does to the pages: when no other live block is in its arena
    the arena is gone and its pages with it; otherwise no page is given up. *)
Definition alone (v : Z) (live : gmap Z Z) : Prop :=
  ∀ w, is_Some (live !! w) → block2arena w = block2arena v → w = v.
Definition gives_up (v : Z) h h' (live : gmap Z Z) : Prop :=
  ∃ ar, headers h !! block2arena v = Some ar ∧
    (alone v live → headers h' = delete (block2arena v) (headers h) ∧
      ∀ x, pa_page (pages h') x ↔ pa_page (pages h) x ∧ ¬ in_pages (block2arena v) (npages ar) x) ∧
    (∀ w, w ≠ v → is_Some (live !! w) → block2arena w = block2arena v →
      is_Some (headers h' !! block2arena v) ∧ ∀ x, pa_page (pages h') x ↔ pa_page (pages h) x).

(** Giving an arena back to the page allocator. *)
Lemma free_arena_spec h live live' a ar ds : heap_inv true h live → headers h !! a = Some ar →
  arenas_ok (delete a (headers h)) ds live' →
  (∃ p, pa_free a (npages ar) (pages h) = Ret ((), p) ∧
    free_arena a (npages ar) (Heap (pages h) ds (headers h) (bytes h)) =
      Ret ((), Heap p ds (delete a (headers h)) (bytes h)) ∧
    heap_inv true (Heap p ds (delete a (headers h)) (bytes h)) live' ∧
    ∀ x, pa_page p x ↔ pa_page (pages h) x ∧ ¬ in_pages a (npages ar) x) ∨
  (∀ r, pa_free a (npages ar) (pages h) ≠ Ret r).
Proof.
  intros Hh Ha Hok'. pose proof (hi_arenas _ _ _ Hh) as Hok.
  pose proof (ao_arena _ _ _ Hok a ar Ha) as (H1 & H2 & H3 & H4).
  destruct (pa_free a (npages ar) (pages h)) as [[[] p]| | |] eqn:Hf; [left|by right..].
  destruct (pa_free_ok _ _ _ _ (hi_pages _ _ _ Hh) H3 (λ x, hi_alloc _ _ _ Hh a ar x Ha) Hf) as [Hp Hpg].
  exists p. split; [done|]. split.
  - unfold free_arena. erewrite M_bind_Ret; [|by apply (zoom_Ret pages_lens)]. rewrite modify_eq.
    cbn. unfold PG_SIZE. by rewrite (drop_headers_one _ _ _ a ar Hok Ha).
  - split; [|exact Hpg]. split; [done|done|]. cbn. intros a' ar' x [Hne Ha']%lookup_delete_Some Hx. apply Hpg.
    split; [by eapply (hi_alloc _ _ _ Hh)|]. intros (k & Hk & Hkx). destruct Hx as (k' & Hk' & Hkx').
    pose proof (ao_arena _ _ _ Hok a' ar' Ha'). destruct (ao_disj _ _ _ Hok a a' ar ar'); [done..|lia|lia].
Qed.

(** The first half of [free_small]: the block goes to the free list. *)
Lemma free_block_spec h live v n ar d D : heap_inv true h live → live !! v = Some n →
  headers h !! block2arena v = Some ar → a_desc ar = Some d → descs h !! d = Some D →
  is_block D (block2arena v) v →
  let ar' := Arena (Some d) (a_cnt ar + 1) false in
  let h' := Heap (pages h) (set_fl d (free_list D ++ [v]) (descs h))
              (<[block2arena v := ar']> (headers h)) (bytes h) in
  heap_inv true h' (delete v live) ∧ a_large ar = false ∧
  (∀ d' D', descs h !! d' = Some D' → v ∉ free_list D').
Proof.
  intros Hh Hv Ha Hd HD Hb ar' h'. pose proof (hi_arenas _ _ _ Hh) as Hok.
  destruct (ao_small _ _ _ Hok _ ar d Ha Hd) as (D' & HD' & Hlg & Hcnt & Hbl).
  rewrite HD in HD'. injection HD' as <-.
  destruct (Hbl v Hb) as [[_ ?]|[Hnf _]]; [congruence|].
  split; [|split; [done|]].
  - split; [by apply Hh| |].
    + apply (arenas_move _ _ _ Hok _ ar d D v); try done.
      * apply NoDup_app. split_and!; [by eapply (ao_nodup _ _ _ Hok)| |apply NoDup_singleton].
        intros x Hx ->%list_elem_of_singleton. done.
      * intros x Hx. rewrite elem_of_app, list_elem_of_singleton. naive_solver.
      * intros x Hx. by rewrite lookup_delete_ne.
      * left. rewrite lookup_delete_eq, elem_of_app, list_elem_of_singleton. auto.
      * rewrite filter_app, length_app, filter_cons_True by done. rewrite Hcnt. cbn. lia.
      * intros a' Hne. rewrite filter_app, filter_cons_False; [by rewrite app_nil_r|].
        unfold in_arena. congruence.
    + cbn. intros a' ar2 x [[<- <-]|[Hne H']]%lookup_insert_Some; [|by apply (hi_alloc _ _ _ Hh)].
      intros Hx. apply (hi_alloc _ _ _ Hh (block2arena v) ar); [done|]. unfold npages in *. by rewrite Hd.
  - intros d' D' HD' Hin. destruct (ao_free _ _ _ Hok d' D' v HD' Hin) as (a' & ar2 & Ha' & Hd' & Hb').
    pose proof (block_in_arena _ _ _ Hok a' ar2 d' D' v Ha' HD' Hb') as He. subst a'.
    rewrite Ha in Ha'. injection Ha' as <-. rewrite Hd in Hd'. injection Hd' as <-.
    rewrite HD in HD'. by injection HD' as <-.
Qed.

Lemma free_small_spec h live v n ar d D : heap_inv true h live → live !! v = Some n →
  headers h !! block2arena v = Some ar → a_desc ar = Some d → descs h !! d = Some D →
  is_block D (block2arena v) v →
  (∃ h', free_small v (block2arena v) d h = Ret ((), h') ∧
    heap_inv true h' (delete v live) ∧ bytes h' = bytes h ∧ gives_up v h h' live) ∨
  (∀ r, pa_free (block2arena v) 1 (pages h) ≠ Ret r).
Proof.
  intros Hh Hv Ha Hd HD Hb.
  destruct (free_block_spec h live v n ar d D Hh Hv Ha Hd HD Hb) as (Hh1 & Hlg & Hnf).
  set (a := block2arena v) in *. set (ar' := Arena (Some d) (a_cnt ar + 1) false) in *.
  set (D' := with_free D (free_list D ++ [v])).
  set (h1 := Heap _ _ _ _) in Hh1. pose proof (hi_arenas _ _ _ Hh1) as Hok.
  assert (descs h1 !! d = Some D') as HD1 by (by apply (upd_fl_lookup d D _ h)).
  assert (headers h1 !! a = Some ar') as Ha1 by apply lookup_insert_eq.
  destruct (arena_count _ _ _ Hok a ar' d D' Ha1 eq_refl HD1) as [Hc Hall].
  pose proof (desc_bounds d D' ltac:(by eapply (desc_lt _ _ _ Hok)) ltac:(by apply (ao_descs _ _ _ Hok)))
    as (Hs1 & Hs2 & Hs3). unfold sizeof_arena in Hs3.
  pose proof (ao_arena _ _ _ Hok a ar' Ha1) as (Ha2 & Ha3 & _ & Ha4).
  change (0 ≤ a_cnt ar + 1 ≤ blocks_per_arena D') in Hc. cbn in Ha4.
  unfold free_small. rewrite (M_bind_Ret _ _ _ _ _ (fl_append_run d D v h HD Hnf)).
  erewrite M_bind_Ret; [|apply (get_arena_eq a ar); done].
  unfold set_arena. rewrite bind_modify. rewrite Hd, Hlg, u32_id by (unfold is_u32; lia).
  change (Heap _ (descs _) _ _) with h1.
  rewrite (M_bind_Ret _ _ _ _ _ (get_desc_eq d D' h1 HD1)).
  destruct (Z.eqb_spec (a_cnt ar + 1) (blocks_per_arena D')) as [Hfull|Hpart].
  2: { left. exists h1. split_and!; [done..|]. exists ar. split; [done|]. split; [|by intros; split; [exists ar'|]].
       intros Halone. exfalso. apply Hpart. apply (arena_complete _ _ _ Hok a ar' d D'); [done..|].
       intros b Hb'. destruct (decide (b = v)) as [->|Hne]; [apply lookup_delete_eq|]. rewrite lookup_delete_ne by done.
       destruct (live !! b) eqn:El; [|done]. exfalso. apply Hne, Halone; [done|].
       by apply (block_in_arena _ _ _ Hok a ar' d D'). }
  destruct (remove_blocks_run (Z.to_nat (blocks_per_arena D')) a d 0 D' h1 HD1) as (fl & Hrm & Hnd & Hfl & Hflt).
  { lia. }
  { by eapply (ao_nodup _ _ _ Hok). }
  { intros j Hj. split; [unfold blk, is_u32, sizeof_arena; nia|].
    apply Hall; [done|]. exists j. split; [lia|done]. }
  rewrite Z2Nat.id in Hfl, Hflt by lia.
  destruct (free_arena_spec h1 (delete v live) (delete v live) a ar' (set_fl d fl (descs h1)) Hh1 Ha1)
    as [(p & _ & Hf & Hinv & Hpg)|Hno]; [|left|by right].
  - apply (arenas_delete_small _ _ _ Hok a ar' d D' fl); try done.
    + by apply Hall.
    + intros a' Hne. apply Hflt. intros j Hj He. apply Hne. rewrite <-He.
      apply (block_in_arena _ _ _ Hok a ar' d D'); [done|done|]. by exists j.
  - rewrite (M_bind_Ret _ _ _ _ _ Hrm).
    eexists. split; [apply Hf|]. split; [done|]. split; [done|]. exists ar. split; [done|]. split.
    + intros _. split; [apply delete_insert_eq|]. cbn. intros x. rewrite Hpg. unfold npages. by rewrite Hd.
    + intros w Hne [m Hw] Hwa. exfalso.
      destruct (live_arena h1 (delete v live) w m Hh1) as (arw & Haw & Hbw); [by rewrite lookup_delete_ne|].
      rewrite Hwa in Haw, Hbw. fold a in Haw, Hbw. rewrite Ha1 in Haw. injection Haw as <-. cbn [a_desc ar'] in Hbw.
      destruct Hbw as (D2 & HD2 & Hbw). rewrite HD1 in HD2. injection HD2 as <-.
      destruct (ao_small _ _ _ Hok a ar' d Ha1 eq_refl) as (D2 & HD2 & _ & _ & Hbl). rewrite HD1 in HD2. injection HD2 as <-.
      destruct (Hbl w Hbw) as [[_ Hn]|[Hn _]]; [by rewrite lookup_delete_ne, Hw in Hn|by apply Hn, Hall].
Qed.

(** ** The whole operations *)

(** When the page allocator returns, so does [sys_malloc]. *)
Lemma sys_malloc_spec h live size : heap_inv false h live → is_u32 size →
  (∀ p, pa_lock (pages h) = Ret ((), p) → ∃ r, pa_malloc (pages_for size) p = Ret r) →
  ∃ v h', sys_malloc size h = Ret (v, h') ∧
    (not_allocated v h h' live ∧ refused size h ∨ allocated size v h h' live).
Proof.
  intros Hh Hsz Hm. unfold sys_malloc. rewrite bind_gets.
  pose proof (pa_size_bound _ _ (hi_pages _ _ _ Hh)) as Hbound.
  destruct (Z.ltb_spec 0 size), (Z.ltb_spec size (pa_size (pages h))); cbn [andb negb];
    try (rewrite ret_eq; eexists _, _; split; [done|]; left; split; [by split_and!|unfold refused, is_u32 in *; lia]).
  destruct (lock_run h live Hh) as (p & Hl & Hh1 & _). rewrite (M_bind_Ret _ _ _ _ _ Hl).
  destruct (pa_lock_ok _ (hi_pages _ _ _ Hh)) as (p' & Hp' & _).
  assert (p' = p) as ->.
  { unfold zoom in Hl. cbn in Hl. rewrite Hp' in Hl. by injection Hl. }
  destruct (Hm p Hp') as [[a p1] Hr]. pose proof Hr as Hr'. unfold pages_for in Hr'.
  destruct (Z.ltb_spec 1024 size).
  - destruct (malloc_large_spec _ live size a p1 Hh1) as (v & h' & Hrun & Hres); [lia|done|].
    exists v, h'. split; [done|]. destruct Hres as [[Hres ->]|?]; [left|by right]. split; [done|].
    right; right. exists p. split; [done|]. split; [by exists p1|lia].
  - destruct (malloc_small_spec _ live size Hh1) as [(v & h' & Hrun & Hres)|Hno]; [lia| |by destruct (Hno (a, p1))].
    exists v, h'. split; [done|]. destruct Hres as [[Hres Ho]|?]; [left|by right]. split; [done|].
    right; right. by exists p.
Qed.

Lemma sys_free_spec h live v n : heap_inv false h live → live !! v = Some n →
  (∀ p ar, pa_lock (pages h) = Ret ((), p) → headers h !! block2arena v = Some ar →
     ∃ r, pa_free (block2arena v) (npages ar) p = Ret r) →
  ∃ h', sys_free v h = Ret ((), h') ∧ heap_inv false h' (delete v live) ∧ bytes h' = bytes h ∧ gives_up v h h' live.
Proof.
  intros Hh Hv Hf. destruct (lock_run h live Hh) as (p & Hl & Hh1 & Hpg).
  destruct (pa_lock_ok _ (hi_pages _ _ _ Hh)) as (p' & Hp' & _).
  assert (p' = p) as -> by (unfold zoom in Hl; cbn in Hl; rewrite Hp' in Hl; by injection Hl).
  destruct (live_arena _ live v n Hh1 Hv) as (ar & Ha & Hm). cbn in Ha.
  pose proof (ao_arena _ _ _ (hi_arenas _ _ _ Hh) _ ar Ha) as (Ha1 & Ha2 & Ha3 & Ha4).
  destruct (live_place _ _ _ (hi_arenas _ _ _ Hh) v n Hv) as (a0 & ? & _ & Hge & _ & Hva & _).
  rewrite <-Hva in Hge.
  destruct (Hf p ar Hp' Ha) as [[[] p1] Hfree].
  unfold sys_free. destruct (Z.eqb_spec v NULL) as [->|_]; [unfold NULL in *; lia|].
  cbn [negb]. rewrite bind_ASSERT_true. erewrite (M_bind_Ret _ _ h ()).
  2: { destruct pa_pf eqn:Hpf; [|done]. unfold ASSERT. destruct (Z.leb_spec K_HEAP_START v); [done|].
       assert (K_HEAP_START ≤ block2arena v); [|lia].
       apply (pa_kernel _ _ _ (hi_pages _ _ _ Hh) Hpf), (hi_alloc _ _ _ Hh (block2arena v) ar); [done|].
       exists 0. lia. }
  rewrite (M_bind_Ret _ _ _ _ _ Hl).
  rewrite (M_bind_Ret _ _ _ _ _ (get_arena_eq (block2arena v) ar (with_pages p h) Ha)).
  assert (∃ h', (match a_desc ar, a_large ar with
       | None, true => free_arena (block2arena v) (a_cnt ar)
       | None, false => lift Fault
       | Some d, _ => free_small v (block2arena v) d
       end) (with_pages p h) = Ret ((), h') ∧ heap_inv true h' (delete v live) ∧
       bytes h' = bytes h ∧ gives_up v (with_pages p h) h' live) as (h' & Hrun & Hinv & Hb & Hgu).
  { destruct (a_desc ar) as [d|] eqn:Hd.
    - destruct Hm as (D & HD & Hb).
      destruct (free_small_spec _ live v n ar d D Hh1 Hv Ha Hd HD Hb) as [(h' & ?)|Hno]; [by exists h'|].
      unfold npages in Hfree. rewrite Hd in Hfree. by destruct (Hno ((), p1)).
    - destruct Hm as [Hv12 ->].
      destruct (free_arena_spec _ live (delete v live) (block2arena v) ar (descs h) Hh1 Ha)
        as [(p2 & _ & Hrun & Hinv & Hpg2)|Hno].
      + rewrite Hv12 at 2. by apply (arenas_delete_large _ _ _ (hi_arenas _ _ _ Hh) _ ar).
      + unfold npages in Hrun. rewrite Hd in Hrun. eexists. split; [exact Hrun|]. split; [done|]. split; [done|].
        exists ar. split; [done|]. split; [by intros _; split|]. intros w Hne [m Hw] Hwa. exfalso.
        destruct (live_arena _ live w m Hh1 Hw) as (arw & Haw & Hbw). rewrite Hwa in Haw, Hbw.
        cbn [headers with_pages] in Haw. rewrite Ha in Haw. injection Haw as <-. rewrite Hd in Hbw. destruct Hbw as [-> _].
        by apply Hne.
      + by destruct (Hno ((), p1)). }
  rewrite (M_bind_Ret _ _ _ _ _ Hrun).
  destruct (unlock_pages _ _ Hinv) as (p2 & Hu & Hinv2 & Hpg2). rewrite Hu. eexists. split; [done|]. split; [done|]. split; [done|].
  destruct Hgu as (ar0 & Har0 & G1 & G2). exists ar0. split; [done|]. cbn [pages headers with_pages] in *. split.
  - intros Hal. destruct (G1 Hal) as [H1 H2]. split; [done|]. intros y. by rewrite Hpg2, H2, Hpg.
  - intros w Hne Hw Hwa. destruct (G2 w Hne Hw Hwa) as [H1 H2]. split; [done|]. intros y. by rewrite Hpg2, H2, Hpg.
Qed.
End spec.
