(* ===== verification/Heap.v ===== *)
(** * The heap on the page allocator

    The page functions of [Memory], for the pool of the running thread, are a
    [PageAlloc] and keep its promises; with them the allocator of [Arena]
    gives out disjoint, zeroed blocks and takes them back. *)

From Stdlib Require Import ZArith Lia.
From stdpp Require Import base numbers list gmap.
From S2P Require Import Prelude Bitmap DList Paging Thread Memory Arena.

(** ** The instance *)

Definition mem_pages (pf : pool_flags) : PageAlloc mstate := {|
  pa_pf := pf;
  pa_size := λ s, pool_size (pool_of pf s);
  pa_malloc := malloc_page pf;
  pa_free := mfree_page pf;
  pa_lock := pool_lock_acquire pf;
  pa_unlock := pool_lock_release pf
|}.

(** ** What the frame and page table functions leave alone *)

(** Everything but the page tables and the bitmaps of the pools. *)
Record keeps (s s' : mstate) : Prop := {
  k_vaddr pf : vaddr_of pf s' = vaddr_of pf s;
  k_cur : cur s' = cur s;
  k_lock pf : pool_lock (pool_of pf s') = pool_lock (pool_of pf s);
  k_size pf : pool_size (pool_of pf s') = pool_size (pool_of pf s)
}.

#[export] Instance keeps_preorder : PreOrder keeps.
Proof.
  split; [by intros s|]. intros s1 s2 s3 [] []. split; intros; congruence.
Qed.

Definition keeping {A} (m : MM A) : Prop := ∀ s a s', m s = Ret (a, s') → keeps s s'.

Lemma keeping_bind {A B} (m : MM A) (f : A → MM B) :
  keeping m → (∀ a, keeping (f a)) → keeping (m ≫= f).
Proof.
  intros Hm Hf s b s' (a & s1 & H1 & H2)%M_bind_inv. transitivity s1; [by eapply Hm|by eapply Hf].
Qed.
Lemma keeping_ret {A} (a : A) : keeping (mret a).
Proof. by intros s b s' [= <- <-]. Qed.
Lemma keeping_gets {A} (g : mstate → A) : keeping (gets g).
Proof. by intros s b s' [= <- <-]. Qed.
Lemma keeping_lift {A} (x : outcome A) : keeping (lift x).
Proof. intros s b s'. destruct x; [|done..]. by intros [= <- <-]. Qed.
Lemma keeping_ASSERT b : keeping (ASSERT b).
Proof. intros s a s'. destruct b; [|done]. by intros [= <- <-]. Qed.
Lemma keeping_PANIC {A} : keeping (A := A) PANIC.
Proof. done. Qed.
Lemma keeping_mem {A} (m : M pmem A) : keeping (zoom mem_lens m).
Proof.
  intros s a s'. unfold zoom. destruct (m _) as [[a' m']| | |]; [|done..]. intros [= <- <-].
  split; [intros []|..|intros []|intros []]; done.
Qed.
Lemma keeping_bits pf p b s a s' : pool_of pf s = p →
  set_pool pf (Pool b (phy_addr_start p) (pool_size p) (pool_lock p)) s = Ret (a, s') → keeps s s'.
Proof.
  intros <- [= <- <-]. split; [intros []|..|intros []|intros []]; by destruct pf.
Qed.

Create HintDb keeping discriminated.
#[export] Hint Resolve keeping_ret keeping_gets keeping_lift keeping_ASSERT keeping_PANIC
  keeping_mem : keeping.
Ltac keeping1 :=
  repeat first [solve [auto with keeping] | apply keeping_bind; [|intros ?] | case_match].

Lemma keeping_palloc pf : keeping (palloc pf).
Proof.
  intros s a s'. unfold palloc. rewrite (M_bind_Ret _ _ _ _ _ (get_pool_eq pf s)).
  destruct (bitmap_scan _ 1) as [i| | |]; [rewrite bind_lift|done..].
  destruct (i =? -1); [intros [= <- <-]; done|].
  destruct (bitmap_set _ _ _) as [b| | |]; [rewrite bind_lift|done..].
  intros ([] & s1 & H1 & [= <- <-])%M_bind_inv. by eapply keeping_bits.
Qed.

Lemma keeping_pfree a : keeping (pfree a).
Proof.
  intros s r s'. unfold pfree. rewrite bind_gets.
  set (pf := if _ : bool then PF_USER else PF_KERNEL). clearbody pf.
  rewrite (M_bind_Ret _ _ _ _ _ (get_pool_eq pf s)).
  destruct (bitmap_set _ _ _) as [b| | |]; [rewrite bind_lift|done..].
  by apply keeping_bits.
Qed.
#[export] Hint Resolve keeping_palloc keeping_pfree : keeping.

Lemma keeping_page_table_add v a : keeping (page_table_add v a).
Proof.
  unfold page_table_add. keeping1.
Qed.
#[export] Hint Resolve keeping_page_table_add : keeping.

Lemma keeping_map_pages n pf v : keeping (map_pages n pf v).
Proof. revert v. induction n as [|n IH]; intros v; cbn [map_pages]; keeping1. Qed.

Lemma keeping_free_pages n ok v : keeping (free_pages n ok v).
Proof. revert v. induction n as [|n IH]; intros v; cbn [free_pages]; keeping1. Qed.
#[export] Hint Resolve keeping_map_pages keeping_free_pages : keeping.

(** ** The promises *)

Section instance.
Context (pf : pool_flags).

Record mem_inv (held : bool) (s : mstate) : Prop := {
  mi_wf : wf_bitmap (vaddr_bitmap (vaddr_of pf s));
  mi_guard : has_guard_byte (vaddr_bitmap (vaddr_of pf s));
  mi_start : 0 < vaddr_start (vaddr_of pf s) ∧ vaddr_start (vaddr_of pf s) mod 4096 = 0;
  mi_end : page_addr (vaddr_of pf s) (8 * btmp_bytes_len (vaddr_bitmap (vaddr_of pf s)) + 1) ≤ 4294967296;
  mi_kernel : pf = PF_KERNEL → K_HEAP_START ≤ vaddr_start (vaddr_of pf s);
  mi_size : pool_size (pool_of pf s) ≤ 0x10000000;
  mi_cur : cur s ≠ NULL;
  mi_lock : pool_lock (pool_of pf s) = if held then Lock (cur s) 1 else Lock NULL 0
}.

(** The page at [x] is marked in the bitmap of virtual addresses. *)
Definition mem_page (s : mstate) (x : Z) : Prop :=
  ∃ i, 0 ≤ i ≤ 8 * btmp_bytes_len (vaddr_bitmap (vaddr_of pf s)) ∧
    x = page_addr (vaddr_of pf s) i ∧ bit (vaddr_bitmap (vaddr_of pf s)) i = true.

Lemma keeps_inv held s s' : keeps s s' → mem_inv held s →
  mem_inv held s' ∧ ∀ x, mem_page s' x ↔ mem_page s x.
Proof.
  intros [Hv Hc Hl Hs] []. unfold mem_page. rewrite Hv.
  split; [split; rewrite ?Hv, ?Hc, ?Hl, ?Hs; done|done].
Qed.

(** A new bitmap of virtual addresses. *)
Lemma vaddr_inv held s b : mem_inv held s → wf_bitmap b →
  btmp_bytes_len b = btmp_bytes_len (vaddr_bitmap (vaddr_of pf s)) →
  length (bits b) = length (bits (vaddr_bitmap (vaddr_of pf s))) →
  mem_inv held (with_vaddr pf (VAddr b (vaddr_start (vaddr_of pf s))) s).
Proof.
  intros [] Hwf Hlen Hl.
  assert (vaddr_of pf (with_vaddr pf (VAddr b (vaddr_start (vaddr_of pf s))) s) =
    VAddr b (vaddr_start (vaddr_of pf s))) as Hva by (by destruct pf).
  assert (cur (with_vaddr pf (VAddr b (vaddr_start (vaddr_of pf s))) s) = cur s) as Hcur by (by destruct pf).
  split; rewrite ?Hva, ?pool_of_vaddr, ?Hcur; cbn; try done.
  - unfold has_guard_byte. by rewrite Hlen, Hl.
  - by rewrite Hlen.
Qed.

Lemma vaddr_of_with v s : vaddr_of pf (with_vaddr pf v s) = v.
Proof. by destruct pf. Qed.

(** The scan for virtual pages, when it returns. *)
Lemma scan_cases held s cnt r : mem_inv held s → 1 ≤ cnt →
  bitmap_scan (vaddr_bitmap (vaddr_of pf s)) cnt = Ret r →
  r = -1 ∨ (0 ≤ r ∧ r + cnt ≤ 8 * btmp_bytes_len (vaddr_bitmap (vaddr_of pf s)) + 1 ∧
    free_run (vaddr_bitmap (vaddr_of pf s)) r cnt).
Proof.
  intros Hi Hcnt Hr. set (b := vaddr_bitmap (vaddr_of pf s)) in *.
  pose proof (mi_wf _ _ Hi) as Hwf. pose proof (mi_guard _ _ Hi) as Hg. fold b in Hwf, Hg.
  destruct (decide (Forall (λ i, bit b i = true) (seqZ 0 (8 * btmp_bytes_len b)))) as [Hall|Hex].
  { rewrite bitmap_scan_full in Hr; [done|done|done|]. intros i Hi'.
    rewrite Forall_forall in Hall. apply Hall, elem_of_seqZ. lia. }
  apply not_Forall_Exists in Hex; [|intros ?; apply _].
  apply Exists_exists in Hex as (i & Hi'%elem_of_seqZ & Hb).
  apply not_true_is_false in Hb.
  destruct (decide (cnt = 1)) as [->|].
  - destruct (bitmap_scan_one b Hwf i) as (r' & Hr' & ? & ? & ?); [lia|done|].
    rewrite Hr in Hr'. injection Hr' as <-. right. split_and!; [lia|lia|].
    intros k Hk. by replace k with r by lia.
  - destruct (bitmap_scan_many b Hwf cnt i Hg) as (r' & Hr' & Hc); [lia|lia|done|].
    rewrite Hr in Hr'. injection Hr' as <-. destruct Hc as [[? _]|(? & ? & ? & _)]; auto.
Qed.

Lemma malloc_page_law s cnt v s' : mem_inv true s → 1 ≤ cnt → malloc_page pf cnt s = Ret (v, s') →
  mem_inv true s' ∧
  if v =? NULL then ∀ x, mem_page s x → mem_page s' x
  else 0 < v ∧ v mod 4096 = 0 ∧ v + cnt * 4096 ≤ 4294967296 ∧
    (∀ x, mem_page s x → ¬ in_pages v cnt x) ∧
    ∀ x, mem_page s' x ↔ mem_page s x ∨ in_pages v cnt x.
Proof.
  intros Hi Hcnt. unfold malloc_page.
  destruct ((0 <? cnt) && (cnt <? 3840)); [rewrite bind_ASSERT_true|done].
  intros (v0 & s1 & Hget & Hrest)%M_bind_inv. revert Hget. unfold vaddr_get.
  rewrite (M_bind_Ret _ _ _ _ _ (get_vaddr_eq pf s)).
  destruct (bitmap_scan _ cnt) as [r| | |] eqn:Hscan; [rewrite bind_lift|done..].
  destruct (scan_cases _ _ _ _ Hi Hcnt Hscan) as [->|(Hr & Hrc & Hfree)].
  { change (-1 =? -1) with true. intros [= <- <-]. revert Hrest. change (NULL =? NULL) with true.
    intros [= <- <-]. change (NULL =? NULL) with true. by split. }
  destruct (Z.eqb_spec r (-1)); [lia|].
  pose proof Hi as [Hwf Hg [Hs1 Hs2] He Hk Hsz Hc Hl].
  pose proof (wf_bits _ Hwf). unfold has_guard_byte in Hg.
  destruct (set_bits_spec (Z.to_nat cnt) _ r 1 Hwf) as (b & Hset & Hwb & Hlen & Hlb & Hb);
    [lia|lia|by right|].
  rewrite Hset, bind_lift, (M_bind_Ret _ _ _ _ _ (set_vaddr_eq _ _ _)).
  unfold page_addr in He. unfold PG_SIZE.
  rewrite u32_id by (unfold is_u32; lia).
  set (s2 := with_vaddr pf _ s). set (v1 := vaddr_start (vaddr_of pf s) + r * 4096).
  intros ([] & s3 & Hassert & [= <- <-])%M_bind_inv.
  assert (s3 = s2) as ->.
  { revert Hassert. clear. destruct pf; [by intros [= ->]|].
    unfold ASSERT. case_match; [|done]. by intros [= ->]. }
  assert (mem_inv true s2) as Hi2 by (by apply vaddr_inv).
  assert (∀ x, mem_page s2 x ↔ mem_page s x ∨ in_pages v1 cnt x) as Hpg.
  { intros x. unfold mem_page, s2. rewrite vaddr_of_with. unfold page_addr. cbn. rewrite Hlen. split.
    - intros (i & H1 & -> & H2). rewrite Hb in H2 by lia. case_decide as Hd; [|left; by exists i].
      right. exists (i - r). unfold v1. lia.
    - intros [(i & H1 & -> & H2)|(k & Hk1 & ->)].
      + exists i. rewrite Hb by lia. by case_decide.
      + exists (r + k). split_and!; [lia|lia|unfold v1; lia|]. rewrite Hb, decide_True by lia. done. }
  revert Hrest. destruct (Z.eqb_spec v1 NULL) as [Hv|Hv]; [unfold v1, NULL in Hv; lia|].
  intros (ok & s4 & Hmap & Hres)%M_bind_inv.
  destruct (keeps_inv true s2 s4) as [Hi4 Hpg4]; [by eapply keeping_map_pages|done|].
  revert Hres. intros [= <- <-]. split; [done|]. destruct ok.
  - destruct (Z.eqb_spec v1 NULL); [done|]. unfold v1. split_and!; [lia|zlia|lia| |].
    + intros x (i & H1 & -> & H2) (k & Hk1 & He2). unfold page_addr in He2.
      assert (i = r + k) as -> by lia. by rewrite Hfree in H2 by lia.
    + intros x. rewrite Hpg4. apply Hpg.
  - change (NULL =? NULL) with true. intros x Hx. apply Hpg4, Hpg. by left.
Qed.

Lemma mfree_page_law s cnt v s' : mem_inv true s → 1 ≤ cnt →
  (∀ x, in_pages v cnt x → mem_page s x) → mfree_page pf v cnt s = Ret ((), s') →
  mem_inv true s' ∧ ∀ x, mem_page s' x ↔ mem_page s x ∧ ¬ in_pages v cnt x.
Proof.
  intros Hi Hcnt Hall Hrun.
  assert (∃ s1, keeps s s1 ∧ vaddr_remove pf v cnt s1 = Ret ((), s')) as (s1 & Hk & Hrm).
  { revert Hrun. unfold mfree_page. intros ([] & s1 & H1%keeping_ASSERT & Hrun)%M_bind_inv.
    apply M_bind_inv in Hrun as (p & s2 & H2%keeping_mem & Hrun).
    apply M_bind_inv in Hrun as ([] & s3 & H3%keeping_ASSERT & Hrun). rewrite !bind_gets in Hrun.
    assert (keeps s s3) as Hk3 by (by rewrite H1, H2).
    destruct (_ <=? p); apply M_bind_inv in Hrun as ([] & s4 & H4%keeping_free_pages & Hrun);
      exists s4; (split; [by rewrite Hk3|done]). }
  destruct (keeps_inv true s s1 Hk Hi) as [Hi1 Hpg1]. clear Hrun Hi Hk.
  setoid_rewrite <-Hpg1. assert (∀ x, in_pages v cnt x → mem_page s1 x) as Hall1.
  { intros x Hx. by apply Hpg1, Hall. }
  clear Hall Hpg1 s. destruct Hi1 as [Hwf Hg [Hs1 Hs2] He Hk Hsz Hc Hl] eqn:HI.
  destruct (Hall1 v) as (i & Hi & Hv & _); [by exists 0; split; [lia|lia]|].
  unfold page_addr in *.   destruct (Hall1 (v + (cnt - 1) * 4096)) as (il & Hil & Hvl & _); [by exists (cnt - 1); split; [lia|]|].
  unfold page_addr in Hvl. pose proof (wf_bits _ Hwf). pose proof (wf_len _ Hwf).
  unfold has_guard_byte in Hg.
  revert Hrm. unfold vaddr_remove. rewrite (M_bind_Ret _ _ _ _ _ (get_vaddr_eq pf s1)).
  replace (v - vaddr_start (vaddr_of pf s1)) with (i * 4096) by lia.
  unfold PG_SIZE. rewrite u32_id by (unfold is_u32; lia). rewrite Z.div_mul by done.
  destruct (set_bits_spec (Z.to_nat cnt) _ i 0 Hwf) as (b & Hset & Hwb & Hlen & Hlb & Hb);
    [lia|lia|by left|].
  rewrite Hset, bind_lift, set_vaddr_eq. intros [= <-]. split; [by apply vaddr_inv|].
  intros x. unfold mem_page. rewrite vaddr_of_with. unfold page_addr. cbn. rewrite Hlen. split.
  - intros (j & Hj & -> & Hbj). rewrite Hb in Hbj by lia. case_decide as Hd; [done|].
    split; [by exists j|]. intros (k & Hk1 & He1). lia.
  - intros [(j & Hj & -> & Hbj) Hn]. exists j. rewrite Hb by lia. case_decide as Hd; [|done].
    exfalso. apply Hn. exists (j - i). lia.
Qed.

(** A new lock in the pool. *)
Lemma lock_inv held (held' : bool) s (k : lock) : mem_inv held s →
  k = (if held' then Lock (cur s) 1 else Lock NULL 0) →
  let p := pool_of pf s in
  let s' := with_pool pf (Pool (pool_bitmap p) (phy_addr_start p) (pool_size p) k) s in
  mem_inv held' s' ∧ ∀ x, mem_page s' x ↔ mem_page s x.
Proof.
  intros [] Hk p s'. assert (vaddr_of pf s' = vaddr_of pf s) as Hv by (unfold s'; by destruct pf).
  assert (cur s' = cur s) as Hc by (unfold s'; by destruct pf).
  unfold mem_page. rewrite Hv. split; [|done].
  split; rewrite ?Hv, ?Hc; unfold s'; rewrite ?pool_of_with; done.
Qed.

Lemma lock_law s : mem_inv false s →
  ∃ s', pool_lock_acquire pf s = Ret ((), s') ∧ mem_inv true s' ∧ ∀ x, mem_page s' x ↔ mem_page s x.
Proof.
  intros Hi. pose proof (mi_lock _ _ Hi) as Hl. pose proof (mi_cur _ _ Hi) as Hc.
  unfold pool_lock_acquire. rewrite (M_bind_Ret _ _ _ _ _ (get_pool_eq pf s)), bind_gets, Hl.
  unfold acquire. cbn [holder]. destruct (Z.eqb_spec NULL (cur s)) as [He|_]; [congruence|].
  change (NULL =? NULL) with true. cbv iota.
  rewrite bind_lift, set_pool_eq.
  eexists. split; [done|]. by apply (lock_inv false).
Qed.

Lemma unlock_law s : mem_inv true s →
  ∃ s', pool_lock_release pf s = Ret ((), s') ∧ mem_inv false s' ∧ ∀ x, mem_page s' x ↔ mem_page s x.
Proof.
  intros Hi. pose proof (mi_lock _ _ Hi) as Hl.
  unfold pool_lock_release. rewrite (M_bind_Ret _ _ _ _ _ (get_pool_eq pf s)), bind_gets, Hl.
  assert (release (Lock (cur s) 1) (cur s) = Ret (Lock NULL 0)) as ->.
  { unfold release. cbn [holder]. rewrite (Z.eqb_refl (cur s)).
    done. }
  rewrite bind_lift, set_pool_eq. eexists. split; [done|]. by apply (lock_inv true).
Qed.

#[export] Instance mem_pages_spec : PageAllocSpec mstate (PA := mem_pages pf).
Proof.
  refine {| pa_inv := mem_inv : bool → mstate → Prop; pa_page := mem_page |}.
  - intros held s Hi. apply Hi.
  - intros held s x Hi Hpf (i & Hi' & -> & _). pose proof (mi_kernel _ _ Hi Hpf).
    unfold page_addr. lia.
  - exact lock_law.
  - exact unlock_law.
  - exact malloc_page_law.
  - intros s cnt v s' Hi Hc Hall Hrun. by apply (mfree_page_law s cnt v s').
Defined.
End instance.

(** ** Properties *)

(** C9: on the page allocator of the running thread's pool, [sys_malloc]
    returns when the allocator does. It gives out a block of at least [size]
    zero bytes that overlaps no live block, except for a size of 0 or not below
    the pool's, or when [malloc_page] gives NULL for its pages and no block of
    the size's class is free: then it returns NULL. Live blocks keep their
    contents, and the arenas, free lists and counters stay consistent. *)
Theorem sys_malloc_correct pf (h : heap mstate) live size :
  heap_inv (PS := mem_pages_spec pf) false h live → is_u32 size →
  (∀ s, pool_lock_acquire pf (pages h) = Ret ((), s) → ∃ r, malloc_page pf (pages_for size) s = Ret r) →
  ∃ v h', sys_malloc (PA := mem_pages pf) size h = Ret (v, h') ∧
    (not_allocated (PS := mem_pages_spec pf) v h h' live ∧
       (size = 0 ∨ pool_size (pool_of pf (pages h)) ≤ size ∨
        ∃ s s', pool_lock_acquire pf (pages h) = Ret ((), s) ∧ malloc_page pf (pages_for size) s = Ret (NULL, s') ∧
          (size ≤ 1024 → ∀ D, descs h !! find_desc (descs h) size = Some D → free_list D = [])) ∨
     allocated (PS := mem_pages_spec pf) size v h h' live).
Proof.
  intros Hh Hs Hm. destruct (sys_malloc_spec (PS := mem_pages_spec pf) h live size Hh Hs Hm) as (v & h' & Hr & Hc).
  exists v, h'. split; [exact Hr|]. destruct Hc as [[Hn Hc]|Ha]; [left; split; [exact Hn|]|by right].
  destruct Hc as [?|[?|(s & Hl & (s' & Hp) & Hfl)]]; [by left|by right; left|]. right; right. by exists s, s'.
Qed.


(** The heap of the kernel before its first allocation. *)
Definition ex_heap : heap mstate := Heap ex_mstate block_desc_init ∅ (λ _, 0).

Lemma arenas_empty : arenas_ok ∅ block_desc_init ∅.
Proof.
  split.
  - done.
  - intros d D HD. by apply block_desc_init_ok.
  - intros a ar Ha. by rewrite lookup_empty in Ha.
  - intros a ar Ha. by rewrite lookup_empty in Ha.
  - intros a ar d Ha. by rewrite lookup_empty in Ha.
  - intros d D HD. apply block_desc_init_ok in HD as [_ ->]. constructor.
  - intros d D b HD. apply block_desc_init_ok in HD as [_ ->]. by intros ?%elem_of_nil.
  - intros v n Hv. by rewrite lookup_empty in Hv.
  - intros a1 a2 ar1 ar2 _ Ha. by rewrite lookup_empty in Ha.
Qed.

Lemma ex_heap_inv : heap_inv (PS := mem_pages_spec PF_KERNEL) false ex_heap ∅.
Proof.
  split; [|exact arenas_empty|intros a ar x Ha; cbn in Ha; by rewrite lookup_empty in Ha].
  split; try done.
  apply ex_bitmap_ok; [repeat constructor; unfold is_u8; lia|cbn; lia].
Qed.

Lemma sys_malloc_correct_witness :
  ∃ v h', sys_malloc (PA := mem_pages PF_KERNEL) 100 ex_heap = Ret (v, h') ∧
    allocated (PS := mem_pages_spec PF_KERNEL) 100 v ex_heap h' ∅.
Proof.
  destruct (sys_malloc_correct PF_KERNEL ex_heap ∅ 100 ex_heap_inv ltac:(unfold is_u32; lia))
    as (v & h' & Hrun & [[[Hv _] _]|Hal]).
  - intros s Hs. vm_compute in Hs. injection Hs as <-. eexists. vm_compute. reflexivity.
  - exfalso. assert (Ret v = x ← sys_malloc (PA := mem_pages PF_KERNEL) 100 ex_heap; Ret x.1) as Hc
      by (by rewrite Hrun). vm_compute in Hc. injection Hc as Hc. rewrite Hv in Hc. discriminate Hc.
  - exists v, h'. split; [exact Hrun|exact Hal].
Defined.


