(* ===== verification/Space.v ===== *)
(** * Address spaces (userprog/process.c and userprog/fork.c)

    Page directories and the copy of a process's pages into the address space
    of its child, on the memory of [Memory]: the running address space is the
    one that [cr3] selects, and the code switches it between the copies. What
    the loop of [copy_body_stack3] does is described by the translation of the
    processor in the parent's and the child's directory. *)

From Stdlib Require Import ZArith Lia.
From stdpp Require Import base numbers list gmap.
From S2P Require Import Prelude Bitmap Paging DList Thread Memory.

(** ** Operations *)

(** [memcpy(dst, src, 4 * n)] of mapped memory, a dword at a time. *)
Fixpoint copy_dwords (n : nat) (dst src : Z) : M pmem unit :=
  match n with
  | O => mret ()
  | S n => w ← load32 src; _ ← store32 dst w; copy_dwords n (dst + 4) (src + 4)
  end.

(** [page_dir_activate] of a thread with this [pgdir]. *)
Definition activate_dir (pgdir : Z) : M pmem unit :=
  pagedir_phy_addr ← (if negb (pgdir =? NULL) then addr_v2p pgdir else mret 0x100000);
  modify (λ m, PMem (phys m) pagedir_phy_addr).

Definition create_page_dir : MM Z :=
  page_dir_vaddr ← get_kernel_pages 1;
  if page_dir_vaddr =? NULL then mret NULL else
  _ ← zoom mem_lens (copy_dwords 256 (u32 (page_dir_vaddr + 0x300 * 4)) (0xfffff000 + 0x300 * 4));
  new_page_dir_phy_addr ← zoom mem_lens (addr_v2p page_dir_vaddr);
  _ ← zoom mem_lens (store32 (page_dir_vaddr + 1023 * 4) (Z.lor new_page_dir_phy_addr PG_FLAGS));
  mret page_dir_vaddr.

(** The body of the inner loop of [copy_body_stack3]; [child] and [parent] are
    the fields [pgdir] of the two threads. *)
Definition copy_page (child parent buf_page prog_vaddr : Z) : MM unit :=
  _ ← zoom mem_lens (copy_dwords 1024 buf_page prog_vaddr);
  _ ← zoom mem_lens (activate_dir child);
  _ ← get_a_page_without_opvaddrbitmap PF_USER prog_vaddr;
  _ ← zoom mem_lens (copy_dwords 1024 prog_vaddr buf_page);
  zoom mem_lens (activate_dir parent).

(** [while (idx_bit < 8)] with [n] rounds left; [copy] is the body. *)
Fixpoint copy_bits (n : nat) (copy : Z → MM unit) (byte vaddr_start idx_byte idx_bit : Z) : MM unit :=
  match n with
  | O => mret ()
  | S n =>
    _ ← (if negb (Z.land (Z.shiftl BITMAP_MASK idx_bit) byte =? 0)
         then copy (u32 ((idx_byte * 8 + idx_bit) * PG_SIZE + vaddr_start)) else mret ());
    copy_bits n copy byte vaddr_start idx_byte (idx_bit + 1)
  end.

(** [while (idx_byte < btmp_bytes_len)] with [n] rounds left. *)
Fixpoint copy_bytes (n : nat) (copy : Z → MM unit) (vaddr_btmp : list Z) (vaddr_start idx_byte : Z) : MM unit :=
  match n with
  | O => mret ()
  | S n =>
    byte ← lift (load vaddr_btmp idx_byte);
    _ ← (if negb (byte =? 0) then copy_bits 8 copy byte vaddr_start idx_byte 0 else mret ());
    copy_bytes n copy vaddr_btmp vaddr_start (idx_byte + 1)
  end.

Definition copy_body_stack3 (child parent : Z) (userprog_vaddr : virtual_addr) (buf_page : Z) : MM unit :=
  copy_bytes (Z.to_nat (btmp_bytes_len (vaddr_bitmap userprog_vaddr))) (copy_page child parent buf_page)
    (bits (vaddr_bitmap userprog_vaddr)) (vaddr_start userprog_vaddr) 0.

(** ** Memory outside a range is as before *)

Definition inside (f n a : Z) : Prop := f ≤ a < f + n.
(** All dwords outside [X] are kept, none is lost, and [cr3] is the same. *)
Record kept (X : Z → Prop) (m m' : pmem) : Prop := {
  kp_cr3 : cr3 m' = cr3 m;
  kp_same : ∀ a, ¬ X a → phys m' !! a = phys m !! a;
  kp_some : ∀ a, is_Some (phys m !! a) → is_Some (phys m' !! a);
  kp_words : words_ok m → words_ok m'
}.

Lemma kept_refl X m : kept X m m.
Proof. done. Qed.
Lemma kept_trans X m1 m2 m3 : kept X m1 m2 → kept X m2 m3 → kept X m1 m3.
Proof. intros [?? ? ?] [? Hs ? ?]. split; [congruence| |auto|auto]. intros a Ha. rewrite Hs by done. auto. Qed.
Lemma kept_weaken (X Y : Z → Prop) m m' : (∀ a, X a → Y a) → kept X m m' → kept Y m m'.
Proof. intros HXY [? Hs ? ?]. split; [done| |done|done]. intros a Ha. apply Hs. auto. Qed.
Lemma kept_write (X : Z → Prop) m a w : X a → is_u32 w → kept X m (PMem (<[a := w]> (phys m)) (cr3 m)).
Proof.
  intros HX Hw. split; cbn; [done| | |].
  - intros b Hb. rewrite lookup_insert_ne; [done|]. by intros ->.
  - intros b Hb. destruct (decide (a = b)) as [->|]; [by rewrite lookup_insert_eq|by rewrite lookup_insert_ne].
  - intros H. by apply map_Forall_insert_2.
Qed.

(** ** A page that a page table maps *)

(** In the running address space the page [v] is mapped by the table [t] to the frame [f]. *)
Record leaf (m : pmem) (v t f : Z) : Prop := {
  lf_pde : ∃ e, phys m !! pde_slot m v = Some e ∧ present e = true ∧ frame e = t;
  lf_pte : ∃ e, phys m !! (t + PTE_IDX v * 4) = Some e ∧ present e = true ∧ frame e = f
}.

Lemma leaf_slot m v t f : leaf m v t f → pte_slot m v = Some (t + PTE_IDX v * 4).
Proof. intros [(e & He & Hp & <-) _]. unfold pte_slot. by rewrite He, Hp. Qed.

Lemma page_idx v o : is_u32 v → v mod 4096 = 0 → 0 ≤ o < 4096 →
  is_u32 (v + o) ∧ PDE_IDX (v + o) = PDE_IDX v ∧ PTE_IDX (v + o) = PTE_IDX v ∧ Z.land (v + o) 0xfff = o.
Proof.
  intros Hv Ha Ho. assert (is_u32 (v + o)) by zlia.
  rewrite !PDE_IDX_eq, !PTE_IDX_eq, land_fff by done. split_and!; [done|zlia..].
Qed.

Lemma leaf_walk m v t f o : leaf m v t f → is_u32 v → v mod 4096 = 0 → 0 ≤ o < 4096 →
  walk m (v + o) = Some (f + o).
Proof.
  intros [(e & He & Hp & <-) (e' & He' & Hp' & <-)] Hv Ha Ho. destruct (page_idx v o) as (_ & Hd & Ht & Hl); [done..|].
  unfold walk, pte_slot, pde_slot in *. by rewrite Hd, He, Hp, Ht, He', Hp', Hl.
Qed.

Lemma leaf_kept X m m' v t f : leaf m v t f → kept X m m' → ¬ X (pde_slot m v) → ¬ X (t + PTE_IDX v * 4) →
  leaf m' v t f.
Proof.
  intros [Hd Ht] Hk Hx Hx'. pose proof (kp_cr3 _ _ _ Hk) as Hc. split.
  - unfold pde_slot in *. rewrite Hc, (kp_same _ _ _ Hk) by done. done.
  - by rewrite (kp_same _ _ _ Hk).
Qed.

Lemma self_map_kept X m m' : self_map m → kept X m m' → ¬ X (frame (cr3 m) + 1023 * 4) → self_map m'.
Proof.
  intros [Hu He] [Hc Hs _ _] Hx. split; rewrite Hc; [done|]. rewrite Hs by done. done.
Qed.

(** [addr_v2p] of a mapped page. *)
Lemma addr_v2p_leaf m v t f : self_map m → is_u32 v → v mod 4096 = 0 → is_u32 f → leaf m v t f →
  addr_v2p v m = Ret (f, m).
Proof.
  intros Hm Hv Ha Hf Hl. pose proof (leaf_slot _ _ _ _ Hl) as Hs. destruct (lf_pte _ _ _ _ Hl) as (e & He & Hp & Hfr).
  unfold addr_v2p. rewrite (M_bind_Ret _ _ _ _ _ (load_pte _ _ _ _ Hm Hv Hs He)), ret_eq.
  fold (frame e). rewrite Hfr, land_fff, Ha, Z.add_0_r, u32_id by done. done.
Qed.

Lemma activate_dir_leaf m v t f : self_map m → is_u32 v → v mod 4096 = 0 → v ≠ NULL → is_u32 f → leaf m v t f →
  activate_dir v m = Ret ((), PMem (phys m) f).
Proof.
  intros Hm Hv Ha Hn Hf Hl. unfold activate_dir. destruct (Z.eqb_spec v NULL); [done|]. cbn [negb].
  by rewrite (M_bind_Ret _ _ _ _ _ (addr_v2p_leaf m v t f Hm Hv Ha Hf Hl)).
Qed.

(** ** Loops over the dwords of a page *)

(** [v] keeps pointing to [f] while the [n] dwords at [f] change. *)
Definition points (m : pmem) (n : nat) (v f g : Z) : Prop :=
  ∀ m', kept (inside g (4 * Z.of_nat n)) m m' → ∀ k, 0 ≤ k < Z.of_nat n → walk m' (v + 4 * k) = Some (f + 4 * k).

Lemma points_leaf m n v t f o g : leaf m v t f → is_u32 v → v mod 4096 = 0 → 0 ≤ o → o + 4 * Z.of_nat n ≤ 4096 →
  ¬ inside g (4 * Z.of_nat n) (pde_slot m v) → ¬ inside g (4 * Z.of_nat n) (t + PTE_IDX v * 4) →
  points m n (v + o) (f + o) g.
Proof.
  intros Hl Hv Ha Ho Hn Hd Ht m' Hk k Hkn.
  rewrite <-!Z.add_assoc. eapply leaf_walk; [by eapply leaf_kept|done|done|lia].
Qed.

Lemma points_next m n v f g m' :
  points m (S n) v f g → kept (inside g 4) m m' → points m' n (v + 4) (f + 4) (g + 4).
Proof.
  intros Hp Hk m2 Hk2 k Hkn. replace (v + 4 + 4 * k) with (v + 4 * (k + 1)) by lia.
  replace (f + 4 + 4 * k) with (f + 4 * (k + 1)) by lia. apply Hp; [|lia].
  eapply kept_trans; (eapply kept_weaken; [|eassumption]); unfold inside; lia.
Qed.

Definition backed (m : pmem) (f : Z) (n : nat) : Prop := ∀ k, 0 ≤ k < Z.of_nat n → is_Some (phys m !! (f + 4 * k)).

Lemma store_at m v a w : walk m v = Some a → is_Some (phys m !! a) → is_u32 w →
  store32 v w m = Ret ((), PMem (<[a := w]> (phys m)) (cr3 m)).
Proof. intros Hw [x Hx] Hu. unfold store32. by rewrite Hw, Hx, u32_id. Qed.

Lemma points_here m n v f g : points m (S n) v f g → walk m v = Some f.
Proof. intros Hp. specialize (Hp m (kept_refl _ _) 0 ltac:(lia)). by rewrite Z.mul_0_r, !Z.add_0_r in Hp. Qed.

Lemma backed_next X m m' f n : backed m f (S n) → kept X m m' → backed m' (f + 4) n.
Proof.
  intros Hb Hk k Hkn. apply (kp_some _ _ _ Hk). specialize (Hb (k + 1) ltac:(lia)).
  by replace (f + 4 + 4 * k) with (f + 4 * (k + 1)) by lia.
Qed.
Lemma backed_here m f n : backed m f (S n) → is_Some (phys m !! f).
Proof. intros Hb. specialize (Hb 0 ltac:(lia)). by rewrite Z.mul_0_r, Z.add_0_r in Hb. Qed.

Lemma clear_dwords_run n v f m : points m n v f f → backed m f n →
  ∃ m', clear_dwords n v m = Ret ((), m') ∧ kept (inside f (4 * Z.of_nat n)) m m' ∧
    ∀ k, 0 ≤ k < Z.of_nat n → phys m' !! (f + 4 * k) = Some 0.
Proof.
  revert v f m. induction n as [|n IH]; intros v f m Hp Hb.
  { exists m. split_and!; [done|apply kept_refl|lia]. }
  cbn [clear_dwords].
  rewrite (M_bind_Ret _ _ _ _ _ (store_at m v f 0 (points_here _ _ _ _ _ Hp) (backed_here _ _ _ Hb) ltac:(done))).
  set (m1 := PMem (<[f := 0]> (phys m)) (cr3 m)).
  assert (kept (inside f 4) m m1) as Hk by (apply kept_write; [unfold inside; lia|done]).
  destruct (IH (v + 4) (f + 4) m1) as (m' & Hr & Hk' & Hz); [by eapply points_next|by eapply backed_next|].
  exists m'. split_and!; [done| |].
  - eapply kept_trans; (eapply kept_weaken; [|eassumption]); unfold inside; lia.
  - intros k Hkn. destruct (decide (k = 0)) as [->|].
    + rewrite Z.mul_0_r, Z.add_0_r, (kp_same _ _ _ Hk') by (unfold inside; lia). apply lookup_insert_eq.
    + replace (f + 4 * k) with (f + 4 + 4 * (k - 1)) by lia. apply Hz. lia.
Qed.

(** The source is not written. *)
Lemma copy_dwords_run n dst src fd fs m : points m n dst fd fd → points m n src fs fd →
  backed m fd n → backed m fs n → words_ok m → fs + 4 * Z.of_nat n ≤ fd ∨ fd + 4 * Z.of_nat n ≤ fs →
  ∃ m', copy_dwords n dst src m = Ret ((), m') ∧ kept (inside fd (4 * Z.of_nat n)) m m' ∧
    ∀ k, 0 ≤ k < Z.of_nat n → phys m' !! (fd + 4 * k) = phys m !! (fs + 4 * k).
Proof.
  revert dst src fd fs m. induction n as [|n IH]; intros dst src fd fs m Hd Hs Hbd Hbs Hw Hdis.
  { exists m. split_and!; [done|apply kept_refl|lia]. }
  destruct (backed_here _ _ _ Hbs) as [w Hwm]. pose proof (Hw _ _ Hwm) as Hwu. cbn in Hwu.
  cbn [copy_dwords].
  assert (load32 src m = Ret (w, m)) as Hld by (unfold load32; by rewrite (points_here _ _ _ _ _ Hs), Hwm).
  rewrite (M_bind_Ret _ _ _ _ _ Hld).
  rewrite (M_bind_Ret _ _ _ _ _ (store_at m dst fd w (points_here _ _ _ _ _ Hd) (backed_here _ _ _ Hbd) Hwu)).
  set (m1 := PMem (<[fd := w]> (phys m)) (cr3 m)).
  assert (kept (inside fd 4) m m1) as Hk by (apply kept_write; [unfold inside; lia|done]).
  destruct (IH (dst + 4) (src + 4) (fd + 4) (fs + 4) m1) as (m' & Hr & Hk' & Hz);
    [by eapply points_next|by eapply points_next|by eapply backed_next|by eapply backed_next
    |by apply (kp_words _ _ _ Hk)|lia|].
  exists m'. split_and!; [done| |].
  - eapply kept_trans; (eapply kept_weaken; [|eassumption]); unfold inside; lia.
  - intros k Hkn. destruct (decide (k = 0)) as [->|].
    + rewrite !Z.mul_0_r, !Z.add_0_r, (kp_same _ _ _ Hk'), Hwm by (unfold inside; lia). apply lookup_insert_eq.
    + replace (fd + 4 * k) with (fd + 4 + 4 * (k - 1)) by lia. rewrite Hz by lia.
      replace (fs + 4 + 4 * (k - 1)) with (fs + 4 * k) by lia. apply (kp_same _ _ _ Hk). unfold inside. lia.
Qed.

(** ** The user half of a page directory *)

(** The user half of the directory at [d]: [T] gives the page table of a
    directory entry that is present, [P] the frame of a page that is mapped. *)
Record utables (d : Z) (m : pmem) (T P : gmap Z Z) : Prop := {
  ut_dir : ∀ k, 0 ≤ k < 768 → ∃ e, phys m !! (d + k * 4) = Some e ∧
    match T !! k with Some t => present e = true ∧ frame e = t | None => present e = false end;
  ut_table : ∀ k t, T !! k = Some t → 0 ≤ k < 768 ∧ t mod 4096 = 0 ∧ is_u32 t ∧ ∀ j, 0 ≤ j < 1024 →
    ∃ e, phys m !! (t + j * 4) = Some e ∧
      match P !! (k * 4194304 + j * 4096) with Some f => present e = true ∧ frame e = f | None => present e = false end;
  ut_inj : ∀ k k' t, T !! k = Some t → T !! k' = Some t → k = k';
  ut_pages : ∀ v f, P !! v = Some f → 0 ≤ v < 0xc0000000 ∧ v mod 4096 = 0 ∧ is_Some (T !! (v / 4194304))
}.

(** The translation of a user address. *)
Lemma utables_walk m T P v : utables (frame (cr3 m)) m T P → 0 ≤ v < 0xc0000000 →
  walk m v = (λ f, f + v mod 4096) <$> P !! (v / 4096 * 4096).
Proof.
  intros [Hd Ht _ Hp] Hv. assert (is_u32 v) as Hu by (unfold is_u32; lia).
  unfold walk, pte_slot, pde_slot. rewrite PDE_IDX_eq, PTE_IDX_eq, land_fff by done.
  destruct (Hd (v / 4194304) ltac:(zlia)) as (e & -> & He).
  destruct (T !! (v / 4194304)) as [t|] eqn:HT.
  - destruct He as [-> ->]. destruct (Ht _ _ HT) as (_ & _ & _ & Hj).
    destruct (Hj (v / 4096 mod 1024) ltac:(zlia)) as (e' & -> & He').
    replace (v / 4194304 * 4194304 + v / 4096 mod 1024 * 4096) with (v / 4096 * 4096) in He' by zlia.
    destruct (P !! (v / 4096 * 4096)) as [f|]; [by destruct He' as [-> ->]|by rewrite He'].
  - rewrite He. destruct (P !! (v / 4096 * 4096)) as [f|] eqn:HP; [|done].
    destruct (Hp _ _ HP) as (_ & _ & Hs). replace (v / 4096 * 4096 / 4194304) with (v / 4194304) in Hs by zlia.
    rewrite HT in Hs. by destruct Hs.
Qed.

Lemma utables_kept X d m m' T P : utables d m T P → kept X m m' →
  (∀ a, X a → ¬ inside d 3072 a) → (∀ k t a, T !! k = Some t → X a → ¬ inside t 4096 a) → utables d m' T P.
Proof.
  intros [Hd Ht Hi Hp] Hk HX HT. split; [| |done|done].
  - intros k Hk'. rewrite (kp_same _ _ _ Hk); [by apply Hd|]. intros Hx. apply (HX _ Hx). unfold inside. lia.
  - intros k t HTk. destruct (Ht k t HTk) as (? & ? & ? & Hj). split_and!; [lia|lia|done|done|].
    intros j Hj'. rewrite (kp_same _ _ _ Hk); [by apply Hj|]. intros Hx. apply (HT _ _ _ HTk Hx). unfold inside. lia.
Qed.

Lemma utables_leaf m T P v f : utables (frame (cr3 m)) m T P → P !! v = Some f →
  ∃ t, T !! (v / 4194304) = Some t ∧ leaf m v t f.
Proof.
  intros [Hd Ht _ Hp] HP. destruct (Hp _ _ HP) as (Hv & Ha & [t HT]). exists t. split; [done|].
  assert (is_u32 v) as Hu by (unfold is_u32; lia). split.
  - unfold pde_slot. rewrite PDE_IDX_eq by done. destruct (Hd (v / 4194304) ltac:(zlia)) as (e & He & Hm).
    rewrite HT in Hm. by exists e.
  - rewrite PTE_IDX_eq by done. destruct (Ht _ _ HT) as (_ & _ & _ & Hj).
    destruct (Hj (v / 4096 mod 1024) ltac:(zlia)) as (e & He & Hm).
    replace (v / 4194304 * 4194304 + v / 4096 mod 1024 * 4096) with v in Hm by zlia. rewrite HP in Hm. by exists e.
Qed.

(** A new entry in an existing table. *)
Lemma utables_map d m T P v t f : utables d m T P → 0 ≤ v < 0xc0000000 → v mod 4096 = 0 → is_u32 f → f mod 4096 = 0 →
  T !! (v / 4194304) = Some t → (∀ k t', T !! k = Some t' → t' ≠ d) → d mod 4096 = 0 →
  utables d (PMem (<[t + PTE_IDX v * 4 := f + 7]> (phys m)) (cr3 m)) T (<[v := f]> P).
Proof.
  intros [Hd Ht Hi Hp] Hv Ha Hf Hfa HT Htd Hda. assert (is_u32 v) as Hu by (unfold is_u32; lia).
  destruct (lor_flags f Hf Hfa) as (_ & Hfr & Hpr & _). destruct (Ht _ _ HT) as (_ & Hta & Htu & _).
  pose proof (PTE_IDX_range v Hu) as Hr. pose proof (Htd _ _ HT) as Hne.
  split; cbn [phys cr3]; [| |done|].
  - intros k Hk. rewrite lookup_insert_ne by zlia. by apply Hd.
  - intros k t' HT'. destruct (Ht _ _ HT') as (? & Hta' & ? & Hj). split_and!; [lia|lia|done|done|].
    intros j Hj'. destruct (Hj j Hj') as (e & He & Hm).
    destruct (decide (v = k * 4194304 + j * 4096)) as [->|Hvn].
    + assert (t' = t) as -> by (replace ((k * 4194304 + j * 4096) / 4194304) with k in HT by zlia; congruence).
      rewrite lookup_insert_eq, PTE_IDX_eq by done.
      replace ((k * 4194304 + j * 4096) / 4096 mod 1024) with j by zlia.
      exists (f + 7). by rewrite lookup_insert_eq.
    + rewrite (lookup_insert_ne P), lookup_insert_ne; [by exists e| |done].
      intros Heq. assert (t = t' ∧ PTE_IDX v = j) as [<- Hjj] by zlia.
      pose proof (Hi _ _ _ HT HT') as Hkk. rewrite PTE_IDX_eq in Hjj by done. zlia.
  - intros v' f'. destruct (decide (v = v')) as [<-|Hne'].
    + intros _. split_and!; [lia|lia|done|by exists t].
    + rewrite lookup_insert_ne by done. apply Hp.
Qed.

(** A new, empty table. *)
Lemma utables_table d m m' T P k t : utables d m T P → 0 ≤ k < 768 → T !! k = None → t mod 4096 = 0 → is_u32 t →
  (∀ k t', T !! k = Some t' → t' ≠ t ∧ t' ≠ d) → t ≠ d → d mod 4096 = 0 →
  kept (λ a, a = d + k * 4 ∨ inside t 4096 a) m m' → phys m' !! (d + k * 4) = Some (t + 7) →
  (∀ j, 0 ≤ j < 1024 → phys m' !! (t + 4 * j) = Some 0) → utables d m' (<[k := t]> T) P.
Proof.
  intros [Hd Ht Hi Hp] Hk HT Hta Htu Hne Htd Hda Hkp He Hz. destruct (lor_flags t Htu Hta) as (_ & Hfr & Hpr & _). split.
  - intros k' Hk'. destruct (decide (k = k')) as [<-|Hkk].
    + rewrite lookup_insert_eq, He. by exists (t + 7).
    + rewrite lookup_insert_ne, (kp_same _ _ _ Hkp) by (unfold inside; first [done|zlia]). by apply Hd.
  - intros k' t'. destruct (decide (k = k')) as [<-|Hkk].
    + rewrite lookup_insert_eq. intros [= <-]. split_and!; [lia|lia|done|done|]. intros j Hj. exists 0.
      rewrite Z.mul_comm, Hz by done. split; [done|].
      destruct (P !! (k * 4194304 + j * 4096)) as [f|] eqn:HP; [|done].
      destruct (Hp _ _ HP) as (_ & _ & [t' HT']).
      replace ((k * 4194304 + j * 4096) / 4194304) with k in HT' by zlia. congruence.
    + rewrite lookup_insert_ne by done. intros HT'. destruct (Ht _ _ HT') as (? & Hta' & ? & Hj).
      destruct (Hne _ _ HT'). split_and!; [lia|lia|done|done|]. intros j Hj'.
      rewrite (kp_same _ _ _ Hkp) by (unfold inside; zlia). by apply Hj.
  - intros k1 k2 t'. destruct (decide (k = k1)) as [<-|H1], (decide (k = k2)) as [<-|H2];
      rewrite ?lookup_insert_eq, ?lookup_insert_ne by done; [done| | |by apply Hi].
    + intros [= <-] HT'. by destruct (Hne _ _ HT').
    + intros HT' [= <-]. by destruct (Hne _ _ HT').
  - intros v f HP. destruct (Hp _ _ HP) as (? & ? & Hs). split_and!; [lia|lia|done|].
    destruct (decide (k = v / 4194304)) as [->|]; [by rewrite lookup_insert_eq|by rewrite lookup_insert_ne].
Qed.

(** ** [page_table_add] in the running address space *)

Lemma with_mem_id s : with_mem (mem s) s = s.
Proof. by destruct s. Qed.
Lemma with_mem_twice m m' s : with_mem m' (with_mem m s) = with_mem m' s.
Proof. done. Qed.
Lemma mem_with_mem m s : mem (with_mem m s) = m.
Proof. done. Qed.

Lemma bind_mem {A B} (c : M pmem A) (f : A → MM B) s a m :
  c (mem s) = Ret (a, m) → (zoom mem_lens c ≫= f) s = f a (with_mem m s).
Proof. intros H. by rewrite (bind_zoom mem_lens _ _ s _ _ H). Qed.
Lemma bind_mem_same {A B} (c : M pmem A) (f : A → MM B) s a :
  c (mem s) = Ret (a, mem s) → (zoom mem_lens c ≫= f) s = f a s.
Proof. intros H. by rewrite (bind_mem _ _ _ _ _ H), with_mem_id. Qed.

Lemma load_pde m v e : self_map m → is_u32 v → phys m !! pde_slot m v = Some e → load32 (pde_ptr v) m = Ret (e, m).
Proof. intros Hm Hv He. unfold load32. by rewrite walk_pde_ptr, He. Qed.

Lemma store_entry m p a f : walk m p = Some a → is_Some (phys m !! a) → is_u32 f → f mod 4096 = 0 →
  store32 p (Z.lor f PG_FLAGS) m = Ret ((), map_entry m a f).
Proof.
  intros Hw [x Hx] Hf Ha. unfold store32. rewrite Hw, Hx. by destruct (lor_flags f Hf Ha) as (-> & _).
Qed.

(** The window on the page table of [v]. *)
Lemma points_window m v t e : self_map m → is_u32 v → phys m !! pde_slot m v = Some e → present e = true → frame e = t →
  t mod 4096 = 0 → frame (cr3 m) mod 4096 = 0 → t ≠ frame (cr3 m) →
  points m 1024 (Z.land (pte_ptr v) 0xfffff000) t t.
Proof.
  intros Hm Hv He Hp Hf Hta Hda Hne m' Hk k Hkn. pose proof (PDE_IDX_range v Hv) as Hr. 
  set (w := PDE_IDX v * 4194304 + k * 4096).
  assert (is_u32 w) as Hw by (unfold is_u32, w; lia).
  assert (PDE_IDX w = PDE_IDX v ∧ PTE_IDX w = k) as [Hd Ht].
  { rewrite (PDE_IDX_eq w), PTE_IDX_eq by done. unfold w. split; zlia. }
  destruct (window_parts v Hv) as (Hpu & _). change (Z.land (pte_ptr v) 0xfffff000) with (frame (pte_ptr v)).
  replace (frame (pte_ptr v) + 4 * k) with (pte_ptr w).
  2:{ rewrite frame_eq, !pte_ptr_eq, Hd, Ht by done. pose proof (PTE_IDX_range v Hv). zlia. }
  rewrite walk_pte_ptr; [|eapply self_map_kept; [done|done|unfold inside; zlia]|done].
  unfold pte_slot, pde_slot in *. rewrite Hd, (kp_cr3 _ _ _ Hk), (kp_same _ _ _ Hk), He, Hp, Hf, Ht by (unfold inside; zlia).
  f_equal. lia.
Qed.

Lemma page_table_add_old s d T P v f t : self_map (mem s) → frame (cr3 (mem s)) = d → d mod 4096 = 0 →
  utables d (mem s) T P → (∀ k t', T !! k = Some t' → t' ≠ d) → 0 ≤ v < 0xc0000000 → v mod 4096 = 0 → P !! v = None →
  is_u32 f → f mod 4096 = 0 → T !! (v / 4194304) = Some t →
  page_table_add v f s = Ret ((), with_mem (map_entry (mem s) (t + PTE_IDX v * 4) f) s) ∧
  utables d (map_entry (mem s) (t + PTE_IDX v * 4) f) T (<[v := f]> P) ∧
  kept (inside t 4096) (mem s) (map_entry (mem s) (t + PTE_IDX v * 4) f).
Proof.
  intros Hm Hd Hda Hut Htd Hv Ha HP Hf Hfa HT. assert (is_u32 v) as Hu by (unfold is_u32; lia).
  destruct Hut as [Hdir Htab Hi Hp] eqn:E. clear E. destruct (Htab _ _ HT) as (_ & Hta & Htu & Hj).
  destruct (Hdir (v / 4194304) ltac:(zlia)) as (e & He & Hme). rewrite HT in Hme. destruct Hme as [Hpe Hfe].
  pose proof (PTE_IDX_range v Hu) as Hr. pose proof (Htd _ _ HT) as Hne.
  destruct (Hj (PTE_IDX v) Hr) as (e' & He' & Hme'). rewrite PTE_IDX_eq in Hme' by done.
  replace (v / 4194304 * 4194304 + v / 4096 mod 1024 * 4096) with v in Hme' by zlia. rewrite HP in Hme'.
  split_and!.
  - apply page_table_add_spec; [done| |done|done]. split; [done| |by exists e'|].
    + unfold pte_slot, pde_slot. by rewrite Hd, PDE_IDX_eq, He, Hpe, Hfe by done.
    + rewrite Hd. intros i. zlia.
  - apply utables_map; [by split|done..].
  - destruct (lor_flags f Hf Hfa) as (_ & _ & _ & Hw). apply kept_write; [unfold inside; lia|done].
Qed.

Lemma page_table_add_new s d T P v f i : self_map (mem s) → frame (cr3 (mem s)) = d → d mod 4096 = 0 →
  utables d (mem s) T P → (∀ k t', T !! k = Some t' → t' ≠ d) → 0 ≤ v < 0xc0000000 → v mod 4096 = 0 → P !! v = None →
  is_u32 f → f mod 4096 = 0 → T !! (v / 4194304) = None →
  wf_pool (kernel_pool s) → frame_index (kernel_pool s) i → bit (pool_bitmap (kernel_pool s)) i = false →
  (∀ i, frame_index (kernel_pool s) i → bit (pool_bitmap (kernel_pool s)) i = false →
     backed (mem s) (frame_addr (kernel_pool s) i) 1024 ∧ frame_addr (kernel_pool s) i ≠ d ∧
     ∀ k, T !! k ≠ Some (frame_addr (kernel_pool s) i)) →
  ∃ r b m', let t := frame_addr (kernel_pool s) r in
    page_table_add v f s = Ret ((), with_pool PF_KERNEL (with_bits b (kernel_pool s)) (with_mem m' s)) ∧
    frame_index (kernel_pool s) r ∧ bit (pool_bitmap (kernel_pool s)) r = false ∧
    wf_pool (with_bits b (kernel_pool s)) ∧ btmp_bytes_len b = btmp_bytes_len (pool_bitmap (kernel_pool s)) ∧
    (∀ j, 0 ≤ j → bit b j = if decide (j = r) then true else bit (pool_bitmap (kernel_pool s)) j) ∧
    kept (λ a, a = d + v / 4194304 * 4 ∨ inside t 4096 a) (mem s) m' ∧
    utables d m' (<[v / 4194304 := t]> T) (<[v := f]> P).
Proof.
  intros Hm Hd Hda Hut Htd Hv Ha HP Hf Hfa HT Hwf Hi Hbi Hfree. assert (is_u32 v) as Hu by (unfold is_u32; lia).
  destruct (palloc_spec PF_KERNEL s i Hwf Hi Hbi) as (r & b & Hpa & Hri & Hbr & _ & Hwb & Hlen & Hbit).
  cbn [pool_of] in *. destruct (Hfree r Hri Hbr) as (Hback & Hrd & HrT). set (t := frame_addr (kernel_pool s) r) in *.
  assert (is_u32 t ∧ t mod 4096 = 0) as [Htu Hta].
  { destruct Hwf. unfold t, frame_addr, is_u32, frame_index in *. split; [lia|zlia]. }
  destruct (ut_dir _ _ _ _ Hut (v / 4194304) ltac:(zlia)) as (e & He & Hne). rewrite HT in Hne.
  assert (pde_slot (mem s) v = d + v / 4194304 * 4) as Hslot by (unfold pde_slot; by rewrite Hd, PDE_IDX_eq).
  destruct (lor_flags t Htu Hta) as (_ & Hft & Hpt & Hwt).
  set (m1 := map_entry (mem s) (d + v / 4194304 * 4) t).
  assert (kept (λ a, a = d + v / 4194304 * 4) (mem s) m1) as Hk1 by (by apply kept_write).
  assert (self_map m1) as Hm1 by (eapply self_map_kept; [done|done|rewrite Hd; zlia]).
  assert (phys m1 !! pde_slot m1 v = Some (t + 7)) as He1.
  { unfold pde_slot. cbn. rewrite Hd, PDE_IDX_eq by done. apply lookup_insert_eq. }
  destruct (clear_dwords_run 1024 (Z.land (pte_ptr v) 0xfffff000) t m1) as (m2 & Hc & Hk2 & Hz).
  { apply (points_window m1 v t (t + 7)); try done; cbn [cr3 m1 map_entry]; rewrite Hd; done. }
  { intros k Hk. apply (kp_some _ _ _ Hk1). by apply Hback. }
  set (s2 := with_pool PF_KERNEL (with_bits b (kernel_pool s)) (with_mem m2 s)).
  assert (utables d m2 (<[v / 4194304 := t]> T) P) as Hut2.
  { eapply utables_table; [exact Hut|zlia|done|done|done| |done|done| | |].
    - intros k t' HT'. split; [|by eapply Htd]. intros ->. by apply (HrT k).
    - eapply kept_trans; (eapply kept_weaken; [|eassumption]); unfold inside; cbn; intuition.
    - rewrite (kp_same _ _ _ Hk2) by (unfold inside; zlia). apply lookup_insert_eq.
    - exact Hz. }
  assert (self_map m2) as Hm2.
  { eapply self_map_kept; [exact Hm1|exact Hk2|]. cbn [cr3 m1 map_entry]. rewrite Hd. unfold inside. zlia. }
  assert (frame (cr3 m2) = d) as Hd2 by (rewrite (kp_cr3 _ _ _ Hk2); done).
  assert (pte_slot m2 v = Some (t + PTE_IDX v * 4)) as Hs2.
  { unfold pte_slot, pde_slot. rewrite Hd2, PDE_IDX_eq, (kp_same _ _ _ Hk2) by (unfold inside; first [done|zlia]).
    unfold m1, map_entry. cbn [phys]. by rewrite lookup_insert_eq, Hpt, Hft. }
  pose proof (PTE_IDX_range v Hu) as Hrg. pose proof (Hz (PTE_IDX v) ltac:(lia)) as Hz'. rewrite Z.mul_comm in Hz'.
  set (m3 := map_entry m2 (t + PTE_IDX v * 4) f).
  exists r, b, m3. cbn zeta. split_and!; [|done|done|done|done|done| |].
  - unfold page_table_add. rewrite (bind_mem_same _ _ _ e), Hne.
    2:{ apply load_pde; [done|done|]. by rewrite Hslot. }
    rewrite (M_bind_Ret _ _ _ _ _ Hpa). fold t.
    erewrite bind_mem; [|rewrite mem_with_pool; apply store_entry; [by apply walk_pde_ptr|rewrite Hslot; by eexists|done|done]].
    rewrite Hslot. fold m1. erewrite bind_mem; [|rewrite mem_with_mem; exact Hc]. rewrite with_mem_twice, with_mem_pool. fold s2.
    erewrite (bind_mem_same _ _ s2); [|eapply load_pte; [done|done|exact Hs2|exact Hz']].
    change (present 0) with false. cbn [negb]. rewrite bind_ASSERT_true.
    rewrite (zoom_Ret mem_lens _ s2 () m3); [reflexivity|].
    apply (store_entry m2); [by rewrite walk_pte_ptr|by eexists|done|done].
  - destruct (lor_flags f Hf Hfa) as (_ & _ & _ & Hw).
    eapply kept_trans; [eapply kept_weaken; [|exact Hk1]; cbn; auto|].
    eapply kept_trans; [eapply kept_weaken; [|exact Hk2]; unfold inside; cbn; auto|].
    eapply kept_weaken; [|apply (kept_write (inside t 4096)); [unfold inside; lia|exact Hw]]. cbn; auto.
  - apply utables_map; try done; [by apply lookup_insert_eq|].
    intros k t'. destruct (decide (v / 4194304 = k)) as [<-|];
      [rewrite lookup_insert_eq; by intros [= <-]|rewrite lookup_insert_ne by done; apply Htd].
Qed.

(** ** Free frames *)

Definition free_frame (p : pool) (f : Z) : Prop :=
  ∃ i, frame_index p i ∧ bit (pool_bitmap p) i = false ∧ f = frame_addr p i.

Lemma free_frame_ok p f : wf_pool p → free_frame p f → is_u32 f ∧ f mod 4096 = 0 ∧ f ≠ NULL.
Proof. intros [_ ???] (i & Hi & _ & ->). unfold frame_index, frame_addr, is_u32, NULL in *. split_and!; [lia|lia|zlia|lia]. Qed.

(** [q] is [p] with the frame [r] taken. *)
Record taken (p q : pool) (r : Z) : Prop := {
  tk_wf : wf_pool q;
  tk_start : phy_addr_start q = phy_addr_start p;
  tk_lock : pool_lock q = pool_lock p;
  tk_free : ∀ f, free_frame q f ↔ free_frame p f ∧ f ≠ frame_addr p r;
  tk_count : ∀ n, free_frames p (S n) → free_frames q n
}.

Lemma taken_bits p b r : wf_pool (with_bits b p) → btmp_bytes_len b = btmp_bytes_len (pool_bitmap p) →
  (∀ j, 0 ≤ j → bit b j = if decide (j = r) then true else bit (pool_bitmap p) j) → taken p (with_bits b p) r.
Proof.
  intros Hwf Hlen Hbit. split; [done|done|done| |].
  - intros f. unfold free_frame, frame_index, frame_addr. cbn. rewrite Hlen. split.
    + intros (i & Hi & Hb & ->). rewrite Hbit in Hb by lia. case_decide; [done|]. split; [by exists i|lia].
    + intros [(i & Hi & Hb & ->) Hne]. exists i. split_and!; [lia|lia| |done]. rewrite Hbit by lia.
      rewrite decide_False; [done|]. by intros ->.
  - intros n Hn. by eapply free_frames_take.
Qed.

(** The lock is taken and given back. *)
Lemma get_page_run s v i : pool_lock (user_pool s) = Lock NULL 0 → cur s ≠ NULL → wf_pool (user_pool s) →
  frame_index (user_pool s) i → bit (pool_bitmap (user_pool s)) i = false →
  ∃ r b, let f := frame_addr (user_pool s) r in let p := user_pool s in
    free_frame p f ∧ taken p (with_bits b p) r ∧
    ∀ s', page_table_add v f (with_pool PF_USER (Pool b (phy_addr_start p) (pool_size p) (Lock (cur s) 1)) s) = Ret ((), s') →
      user_pool s' = Pool b (phy_addr_start p) (pool_size p) (Lock (cur s) 1) → cur s' = cur s →
      get_a_page_without_opvaddrbitmap PF_USER v s = Ret (v, with_pool PF_USER (with_bits b p) s').
Proof.
  intros Hl Hc Hwf Hi Hb. set (s1 := with_pool PF_USER
    (Pool (pool_bitmap (user_pool s)) (phy_addr_start (user_pool s)) (pool_size (user_pool s)) (Lock (cur s) 1)) s).
  destruct (palloc_spec PF_USER s1 i) as (r & b & Hpa & Hri & Hbr & _ & Hwb & Hlen & Hbit); [by destruct Hwf|done|done|].
  cbn [pool_of s1 with_pool user_pool] in *. exists r, b. cbn zeta. unfold frame_addr in *. cbn [phy_addr_start pool_bitmap] in *.
  split_and!.
  - exists r. split_and!; [done|done|done].
  - apply taken_bits; [by destruct Hwb|done|done].
  - intros s' Hadd Hu Hcur. unfold get_a_page_without_opvaddrbitmap.
    assert (pool_lock_acquire PF_USER s = Ret ((), s1)) as Hacq.
    { unfold pool_lock_acquire, acquire. rewrite (M_bind_Ret _ _ _ _ _ (get_pool_eq PF_USER s)), bind_gets. cbn [pool_of].
      rewrite Hl. cbn [holder holder_repeat_nr]. destruct (Z.eqb_spec NULL (cur s)) as [He|_]; [by symmetry in He|].
      change (NULL =? NULL) with true. cbv iota. by rewrite bind_lift. }
    assert (pool_lock_release PF_USER s' = Ret ((), with_pool PF_USER (with_bits b (user_pool s)) s')) as Hrel.
    { unfold pool_lock_release, release. rewrite (M_bind_Ret _ _ _ _ _ (get_pool_eq PF_USER s')), bind_gets. cbn [pool_of].
      rewrite Hu, Hcur. cbn [pool_lock holder holder_repeat_nr]. rewrite (Z.eqb_refl (cur s)).
      unfold with_bits. rewrite Hl. reflexivity. }
    rewrite (M_bind_Ret _ _ _ _ _ Hacq), (M_bind_Ret _ _ _ _ _ Hpa).
    destruct (Z.eqb_spec (phy_addr_start (user_pool s) + r * 4096) NULL) as [He|_].
    { destruct Hwf. unfold NULL, frame_index in *. cbn in Hri. lia. }
    change (with_pool PF_USER (with_bits b _) s1) with
      (with_pool PF_USER (Pool b (phy_addr_start (user_pool s)) (pool_size (user_pool s)) (Lock (cur s) 1)) s).
    by rewrite (M_bind_Ret _ _ _ _ _ Hadd), (M_bind_Ret _ _ _ _ _ Hrel).
Qed.

Lemma utables_phys d m m' T P : utables d m T P → phys m' = phys m → utables d m' T P.
Proof. intros [Hd Ht Hi Hp] E. split; rewrite ?E; done. Qed.

Lemma kept_recast X m m' c : kept X m m' → kept X (PMem (phys m) c) (PMem (phys m') c).
Proof. intros [? ? ? ?]. by split. Qed.

(** Frames of a page that overlap are the same. *)
Lemma frames_apart f g a : f mod 4096 = 0 → g mod 4096 = 0 → inside f 4096 a → inside g 4096 a → f = g.
Proof. unfold inside. zlia. Qed.

(** ** Parent and child *)

Section fork.
Context (s0 : mstate) (dc : Z) (vp tp vc tc vb tb B : Z).

(** What the copy may write: the buffer, the user half of the child's
    directory, and frames that are free. *)
Definition changes (a : Z) : Prop := inside B 4096 a ∨ inside dc 3072 a ∨
  ∃ f, (free_frame (kernel_pool s0) f ∨ free_frame (user_pool s0) f) ∧ inside f 4096 a.

(** The memory as the child sees it. *)
Definition child_mem (m : pmem) : pmem := PMem (phys m) dc.

(** A kernel page that both address spaces map with the same table. *)
Record shared (v t f : Z) : Prop := {
  sh_addr : is_u32 v ∧ v mod 4096 = 0 ∧ v ≠ NULL ∧ is_u32 f ∧ f mod 4096 = 0;
  sh_parent : leaf (mem s0) v t f;
  sh_child : leaf (child_mem (mem s0)) v t f;
  sh_keep : ¬ changes (pde_slot (mem s0) v) ∧ ¬ changes (pde_slot (child_mem (mem s0)) v) ∧
    ¬ changes (t + PTE_IDX v * 4)
}.

(** A page of the parent, with its data in the frame [g]. *)
Record user_page (v g : Z) : Prop := {
  up_range : 0 ≤ v < 0xc0000000 ∧ v mod 4096 = 0;
  up_leaf : ∃ t, leaf (mem s0) v t g ∧ ¬ changes (pde_slot (mem s0) v) ∧ ¬ changes (t + PTE_IDX v * 4);
  up_data : g mod 4096 = 0 ∧ backed (mem s0) g 1024 ∧ ∀ o, 0 ≤ o < 4096 → ¬ changes (g + o)
}.

Record fork_ready : Prop := {
  fr_self : self_map (mem s0);
  fr_child : self_map (child_mem (mem s0));
  fr_words : words_ok (mem s0);
  fr_parent_dir : shared vp tp (cr3 (mem s0));
  fr_child_dir : shared vc tc dc;
  fr_buf : shared vb tb B ∧ backed (mem s0) B 1024 ∧ B ≠ dc;
  fr_recursive : ¬ changes (cr3 (mem s0) + 1023 * 4) ∧ ¬ changes (dc + 1023 * 4);
  fr_pools : ∀ pf, wf_pool (pool_of pf s0);
  fr_apart : ∀ f, free_frame (kernel_pool s0) f → ¬ free_frame (user_pool s0) f;
  fr_free : ∀ pf f, free_frame (pool_of pf s0) f → f ≠ B ∧ f ≠ dc ∧ backed (mem s0) f 1024;
  fr_idle : pool_lock (user_pool s0) = Lock NULL 0 ∧ cur s0 ≠ NULL;
  fr_empty : utables dc (mem s0) ∅ ∅
}.

(** The pages [P] are copied, with the tables [T]. *)
Record copied (s : mstate) (T P : gmap Z Z) : Prop := {
  cp_kept : kept changes (mem s0) (mem s);
  cp_tables : utables dc (mem s) T P;
  cp_T : ∀ k t, T !! k = Some t → free_frame (kernel_pool s0) t ∧ ¬ free_frame (kernel_pool s) t;
  cp_P : ∀ v f, P !! v = Some f → free_frame (user_pool s0) f ∧ ¬ free_frame (user_pool s) f;
  cp_inj : ∀ v v' f, P !! v = Some f → P !! v' = Some f → v = v';
  cp_data : ∀ v f, P !! v = Some f → ∃ g, walk (mem s0) v = Some g ∧
    ∀ k, 0 ≤ k < 1024 → phys (mem s) !! (f + 4 * k) = phys (mem s0) !! (g + 4 * k);
  cp_pools : ∀ pf, wf_pool (pool_of pf s) ∧ pool_lock (pool_of pf s) = pool_lock (pool_of pf s0) ∧
    ∀ f, free_frame (pool_of pf s) f → free_frame (pool_of pf s0) f;
  cp_rest : kernel_vaddr s = kernel_vaddr s0 ∧ user_vaddr s = user_vaddr s0 ∧ cur s = cur s0 ∧
    cur_pgdir s = cur_pgdir s0
}.

Context (Hready : fork_ready).

Lemma copied_nil : copied s0 ∅ ∅.
Proof.
  destruct Hready. split; try done.
Qed.

Lemma dir_frame v t d : shared v t d → frame d = d.
Proof. intros [(_ & _ & _ & Hd & Ha) _ _ _]. rewrite frame_eq by done. zlia. Qed.

Section seen.
Context (m : pmem) (Hk : kept changes (mem s0) m).

Lemma self_parent : self_map m.
Proof.
  eapply self_map_kept; [apply Hready|exact Hk|]. rewrite (dir_frame _ _ _ (fr_parent_dir Hready)). apply (fr_recursive Hready).
Qed.
Lemma kept_child : kept changes (child_mem (mem s0)) (child_mem m).
Proof. by apply kept_recast. Qed.
Lemma self_child : self_map (child_mem m).
Proof.
  eapply self_map_kept; [apply (fr_child Hready)|exact kept_child|]. cbn.
  rewrite (dir_frame _ _ _ (fr_child_dir Hready)). apply (fr_recursive Hready).
Qed.
Lemma shared_parent v t f : shared v t f → leaf m v t f.
Proof. intros [_ Hp _ (H1 & _ & H3)]. by eapply leaf_kept. Qed.
Lemma shared_child v t f : shared v t f → leaf (child_mem m) v t f.
Proof. intros [_ _ Hp (_ & H2 & H3)]. eapply leaf_kept; [done|exact kept_child|done|done]. Qed.

(** The two switches. *)
Lemma enter_child : activate_dir vc m = Ret ((), child_mem m).
Proof.
  destruct (fr_child_dir Hready) as [(? & ? & ? & ? & ?) _ _ _].
  eapply (activate_dir_leaf m vc tc dc); [by apply self_parent|done|done|done|done|]. apply shared_parent, Hready.
Qed.
Lemma leave_child : activate_dir vp (child_mem m) = Ret ((), m).
Proof.
  destruct (fr_parent_dir Hready) as [(? & ? & ? & ? & ?) _ _ _].
  etransitivity; [eapply (activate_dir_leaf _ vp tp); [by apply self_child|done|done|done|done|]|].
  - apply shared_child, Hready.
  - cbn. rewrite <-(kp_cr3 _ _ _ Hk). by destruct m.
Qed.
End seen.

(** *** The page into the buffer *)
Lemma into_buffer s T P v g : copied s T P → user_page v g →
  ∃ m, copy_dwords 1024 vb v (mem s) = Ret ((), m) ∧ kept (inside B 4096) (mem s) m ∧
    ∀ k, 0 ≤ k < 1024 → phys m !! (B + 4 * k) = phys (mem s0) !! (g + 4 * k).
Proof.
  intros Hc [[Hv Ha] (t & Hl & Hp & Ht) (Hga & Hbk & Hg)]. destruct (fr_buf Hready) as (Hsb & HbB & _).
  pose proof (cp_kept _ _ _ Hc) as Hk. destruct Hsb as [(Hbu & Hba & _ & HBu & HBa) _ _ _].
  pose proof (shared_parent _ Hk _ _ _ (proj1 (fr_buf Hready))) as Hlb.
  assert (leaf (mem s) v t g) as Hlv by (by eapply leaf_kept).
  assert (Hpde : ∀ w, pde_slot (mem s) w = pde_slot (mem s0) w) by (intros; unfold pde_slot; by rewrite (kp_cr3 _ _ _ Hk)).
  destruct (fr_buf Hready) as ([_ _ _ (Hb1 & _ & Hb3)] & _ & _).
  destruct (copy_dwords_run 1024 vb v B g (mem s)) as (m & Hr & Hkm & Hd).
  - rewrite <-(Z.add_0_r vb), <-(Z.add_0_r B) at 1. apply (points_leaf _ _ vb tb B 0 B); try done; rewrite ?Hpde; unfold changes in *; naive_solver lia.
  - rewrite <-(Z.add_0_r v), <-(Z.add_0_r g). apply (points_leaf _ _ v t g 0 B); try done; rewrite ?Hpde; unfold changes, is_u32 in *; naive_solver lia.
  - intros k Hkk. by apply (kp_some _ _ _ Hk), HbB.
  - intros k Hkk. by apply (kp_some _ _ _ Hk), Hbk.
  - by apply (kp_words _ _ _ Hk), Hready.
  - pose proof (Hg 0 ltac:(lia)) as H0. unfold changes, inside in H0. zlia.
  - exists m. split_and!; [done|done|]. intros k Hkk. rewrite Hd by done.
    apply (kp_same _ _ _ Hk). apply Hg. lia.
Qed.

(** *** The new entry in the child's tables *)
Definition table_area (a : Z) : Prop := inside dc 3072 a ∨ ∃ t, free_frame (kernel_pool s0) t ∧ inside t 4096 a.

Lemma dc_aligned : is_u32 dc ∧ dc mod 4096 = 0 ∧ frame dc = dc.
Proof.
  destruct (sh_addr _ _ _ (fr_child_dir Hready)) as (_ & _ & _ & ? & ?). split_and!; [done|done|].
  eapply dir_frame, (fr_child_dir Hready).
Qed.

Lemma free_aligned pf f : free_frame (pool_of pf s0) f → f mod 4096 = 0.
Proof. intros Hf. by eapply free_frame_ok; [apply (fr_pools Hready)|]. Qed.

Lemma add_step s m T P v f : kept changes (mem s0) m → mem s = child_mem m → utables dc m T P →
  (∀ k t, T !! k = Some t → free_frame (kernel_pool s0) t ∧ ¬ free_frame (kernel_pool s) t) →
  wf_pool (kernel_pool s) → (∀ g, free_frame (kernel_pool s) g → free_frame (kernel_pool s0) g) →
  0 ≤ v < 0xc0000000 → v mod 4096 = 0 → P !! v = None → is_u32 f → f mod 4096 = 0 →
  (T !! (v / 4194304) = None → ∃ g, free_frame (kernel_pool s) g) →
  ∃ kp m' T', page_table_add v f s = Ret ((), with_pool PF_KERNEL kp (with_mem m' s)) ∧
    kept table_area (mem s) m' ∧ utables dc m' T' (<[v := f]> P) ∧
    (T' = T ∧ kp = kernel_pool s ∧ is_Some (T !! (v / 4194304)) ∨
     ∃ r, T !! (v / 4194304) = None ∧ T' = <[v / 4194304 := frame_addr (kernel_pool s) r]> T ∧
       taken (kernel_pool s) kp r ∧ free_frame (kernel_pool s) (frame_addr (kernel_pool s) r)).
Proof.
  intros Hk Hm Hut HT Hwf Hsub Hv Ha HP Hf Hfa Hspare. destruct dc_aligned as (Hdu & Hda & Hdf).
  pose proof (self_child m Hk) as Hself. rewrite <-Hm in Hself.
  assert (frame (cr3 (mem s)) = dc) as Hfr by (by rewrite Hm).
  assert (utables dc (mem s) T P) as Hut' by (rewrite Hm; by eapply utables_phys).
  assert (∀ k t, T !! k = Some t → t ≠ dc) as Htd.
  { intros k t HTk. by destruct (fr_free Hready PF_KERNEL t (proj1 (HT _ _ HTk))) as (_ & ? & _). }
  destruct (T !! (v / 4194304)) as [t|] eqn:HTv.
  - destruct (page_table_add_old s dc T P v f t) as (Hr & Hu & Hkp); try done.
    exists (kernel_pool s), (map_entry (mem s) (t + PTE_IDX v * 4) f), T. split_and!; [by rewrite Hr; destruct s| |done|left; by eauto].
    eapply kept_weaken; [|exact Hkp]. intros a Hin. right. exists t. split; [by apply (HT _ _ HTv)|done].
  - destruct (Hspare eq_refl) as (g & i & Hi & Hbi & _).
    destruct (page_table_add_new s dc T P v f i) as (r & b & m' & Hr & Hri & Hbr & Hwb & Hlen & Hbit & Hkp & Hu); try done.
    { intros j Hj Hbj. assert (free_frame (kernel_pool s) (frame_addr (kernel_pool s) j)) as Hfj by (by exists j).
      destruct (fr_free Hready PF_KERNEL _ (Hsub _ Hfj)) as (_ & Hd & Hb). split_and!; [|done|].
      - intros k Hkk. rewrite Hm. apply (kp_some _ _ _ Hk). by apply Hb.
      - intros k HTk. by apply (HT k _ HTk). }
    assert (free_frame (kernel_pool s) (frame_addr (kernel_pool s) r)) as Hfr' by (by exists r).
    exists (with_bits b (kernel_pool s)), m', (<[v / 4194304 := frame_addr (kernel_pool s) r]> T).
    split_and!; [done| |done|].
    + eapply kept_weaken; [|exact Hkp]. intros a [->|Hin]; [left; unfold inside; zlia|].
      right. eexists. split; [by apply Hsub|done].
    + right. exists r. split_and!; try done. by apply taken_bits.
Qed.

(** *** The buffer into the child's page; [m] is the memory of the child. *)
Lemma from_buffer m T P v f : kept changes (child_mem (mem s0)) m → utables dc m T P → P !! v = Some f →
  (∀ k t, T !! k = Some t → free_frame (kernel_pool s0) t) → free_frame (user_pool s0) f →
  ∃ m', copy_dwords 1024 v vb m = Ret ((), m') ∧ kept (inside f 4096) m m' ∧ utables dc m' T P ∧
    ∀ k, 0 ≤ k < 1024 → phys m' !! (f + 4 * k) = phys m !! (B + 4 * k).
Proof.
  intros Hk Hut HP HT Hff. destruct dc_aligned as (Hdu & Hda & Hdf). pose proof (kp_cr3 _ _ _ Hk) as Hcr. cbn in Hcr.
  assert (utables (frame (cr3 m)) m T P) as Hutc by (by rewrite Hcr, Hdf).
  destruct (utables_leaf m T P v f Hutc HP) as (t & HTv & Hl).
  destruct (ut_pages _ _ _ _ Hut _ _ HP) as (Hv & Ha & _). assert (is_u32 v) as Hu by (unfold is_u32; lia).
  destruct (fr_free Hready PF_USER f Hff) as (HfB & Hfd & Hfb).
  pose proof (free_aligned PF_USER _ Hff) as Hfa. pose proof (free_aligned PF_KERNEL _ (HT _ _ HTv)) as Hta.
  assert (t ≠ f) as Htf by (intros ->; by apply (fr_apart Hready f (HT _ _ HTv))).
  destruct (fr_buf Hready) as ([(Hbu & Hba & _ & HBu & HBa) _ Hlb (_ & Hb2 & Hb3)] & HbB & _).
  assert (leaf m vb tb B) as Hlb' by (by eapply leaf_kept).
  assert (∀ a, inside f 4096 a → changes a) as Hfc by (intros a ?; right; right; exists f; auto).
  assert (pde_slot m vb = pde_slot (child_mem (mem s0)) vb) as Hpb by (unfold pde_slot; by rewrite Hcr).
  pose proof (PDE_IDX_range v Hu) as Hpr. pose proof (PTE_IDX_range v Hu) as Htr.
  destruct (copy_dwords_run 1024 v vb f B m) as (m' & Hr & Hkm & Hd).
  - rewrite <-(Z.add_0_r v), <-(Z.add_0_r f) at 1. apply (points_leaf _ _ v t f 0 f); try done.
    + unfold pde_slot. rewrite Hcr, Hdf, PDE_IDX_eq by done. unfold inside. zlia.
    + unfold inside. zlia.
  - rewrite <-(Z.add_0_r vb), <-(Z.add_0_r B). apply (points_leaf _ _ vb tb B 0 f); try done.
    + rewrite Hpb. auto.
    + auto.
  - intros k Hkk. by apply (kp_some _ _ _ Hk), Hfb.
  - intros k Hkk. by apply (kp_some _ _ _ Hk), HbB.
  - by apply (kp_words _ _ _ Hk), Hready.
  - zlia.
  - exists m'. split_and!; [done|done| |done].
    eapply utables_kept; [exact Hut|exact Hkm| |].
    + intros a Hin Hin'. apply Hfd. eapply frames_apart; [done|done|exact Hin|unfold inside in *; lia].
    + intros k t' a HTk Hin Hin'. apply (fr_apart Hready t' (HT _ _ HTk)).
      replace t' with f; [done|]. eapply frames_apart; [done|by apply (free_aligned PF_KERNEL), (HT _ _ HTk)|exact Hin|done].
Qed.

(** The invariant after a page: [m] is the new memory. *)
Lemma copied_next s T P v f g T' kp up r m : copied s T P → user_page v g → P !! v = None →
  kept changes (mem s0) m → utables dc m T' (<[v := f]> P) →
  f = frame_addr (user_pool s) r → free_frame (user_pool s) f → taken (user_pool s) up r →
  (T' = T ∧ kp = kernel_pool s ∨
   ∃ j, T' = <[v / 4194304 := frame_addr (kernel_pool s) j]> T ∧ taken (kernel_pool s) kp j ∧
     free_frame (kernel_pool s) (frame_addr (kernel_pool s) j)) →
  (∀ v' f' k, P !! v' = Some f' → 0 ≤ k < 1024 → phys m !! (f' + 4 * k) = phys (mem s) !! (f' + 4 * k)) →
  (∀ k, 0 ≤ k < 1024 → phys m !! (f + 4 * k) = phys (mem s0) !! (g + 4 * k)) →
  copied (with_pool PF_USER up (with_pool PF_KERNEL kp (with_mem m s))) T' (<[v := f]> P).
Proof.
  intros Hc Hup HP Hk Hut Hfr Hff Htk Hcase Hold Hnew. destruct (cp_pools _ _ _ Hc PF_KERNEL) as (Hwk & Hlk & Hfk).
  destruct (cp_pools _ _ _ Hc PF_USER) as (Hwu & Hlu & Hfu). cbn [pool_of] in *.
  assert (Hkf : ∀ t, free_frame kp t → free_frame (kernel_pool s) t).
  { intros t. destruct Hcase as [[_ ->]|(j & _ & Hj & _)]; [done|]. by intros [? _]%(tk_free _ _ _ Hj). }
  split; cbn [mem kernel_pool user_pool with_pool with_mem kernel_vaddr user_vaddr cur cur_pgdir]; [done|done| | | | | |].
  - intros k t HT'. assert (T !! k = Some t ∨ free_frame (kernel_pool s) t ∧ ¬ free_frame kp t) as [HT|[H1 H2]].
    { destruct Hcase as [[-> _]|(j & -> & Hj & Hjf)]; [by left|]. apply lookup_insert_Some in HT' as [[<- <-]|[_ ?]]; [|by left].
      right. split; [done|]. by intros [_ ?]%(tk_free _ _ _ Hj). }
    + destruct (cp_T _ _ _ Hc _ _ HT). auto.
    + auto.
  - intros v' f' [[<- <-]|[_ HP']]%lookup_insert_Some.
    + split; [auto|]. intros [_ ?]%(tk_free _ _ _ Htk). congruence.
    + destruct (cp_P _ _ _ Hc _ _ HP') as [? Hn]. split; [done|]. intros [? _]%(tk_free _ _ _ Htk). auto.
  - intros v1 v2 f' [[<- <-]|[_ H1]]%lookup_insert_Some [[<- ?]|[_ H2]]%lookup_insert_Some; [done| | |by eapply (cp_inj _ _ _ Hc)].
    + by destruct (cp_P _ _ _ Hc _ _ H2).
    + subst f'. by destruct (cp_P _ _ _ Hc _ _ H1).
  - intros v' f' [[<- <-]|[_ HP']]%lookup_insert_Some.
    + exists g. split; [|done]. destruct (up_leaf _ _ Hup) as (t & Hl & _), (up_range _ _ Hup) as [Hv Ha].
      rewrite <-(Z.add_0_r v), <-(Z.add_0_r g). eapply leaf_walk; [done|unfold is_u32; lia|done|lia].
    + destruct (cp_data _ _ _ Hc _ _ HP') as (g' & Hw & Hd). exists g'. split; [done|].
      intros k Hkk. rewrite (Hold v' f') by done. by apply Hd.
  - intros []; cbn [pool_of kernel_pool user_pool].
    + destruct Hcase as [[_ ->]|(j & _ & Hj & _)]; [done|]. split_and!; [apply Hj|by rewrite (tk_lock _ _ _ Hj)|auto].
    + split_and!; [apply Htk|by rewrite (tk_lock _ _ _ Htk)|]. intros f' [? _]%(tk_free _ _ _ Htk). auto.
  - apply (cp_rest _ _ _ Hc).
Qed.

(** *** One page *)
Lemma copy_page_step s T P v g : copied s T P → user_page v g → P !! v = None →
  (∃ f, free_frame (user_pool s) f) → (T !! (v / 4194304) = None → ∃ f, free_frame (kernel_pool s) f) →
  ∃ s' T' f, copy_page vc vp vb v s = Ret ((), s') ∧ copied s' T' (<[v := f]> P) ∧
    (∀ n, free_frames (user_pool s) (S n) → free_frames (user_pool s') n) ∧
    (T' = T ∧ kernel_pool s' = kernel_pool s ∧ is_Some (T !! (v / 4194304)) ∨
     ∃ t, T !! (v / 4194304) = None ∧ T' = <[v / 4194304 := t]> T ∧
       ∀ n, free_frames (kernel_pool s) (S n) → free_frames (kernel_pool s') n).
Proof.
  intros Hc Hup HP (f0 & i & Hi & Hbi & _) Hspare. destruct dc_aligned as (Hdu & Hda & Hdf).
  destruct (into_buffer s T P v g Hc Hup) as (m1 & Hr1 & Hk1 & Hd1).
  pose proof (cp_pools _ _ _ Hc) as Hpools. destruct (cp_rest _ _ _ Hc) as (Hrk & Hru & Hrc & Hrp).
  destruct (Hpools PF_USER) as (Hwu & Hlu & Hfu), (Hpools PF_KERNEL) as (Hwk & Hlk & Hfk). cbn [pool_of] in *.
  assert (kept changes (mem s0) m1) as Hk01.
  { eapply kept_trans; [apply Hc|]. eapply kept_weaken; [|exact Hk1]. intros a ?. by left. }
  set (sA := with_mem (child_mem m1) s).
  destruct (get_page_run sA v i) as (r & b & Hff & Htk & Hget); try done.
  { by rewrite <-(proj1 (fr_idle Hready)). }
  { change (cur sA) with (cur s). rewrite Hrc. apply (fr_idle Hready). }
  change (user_pool sA) with (user_pool s) in *. change (cur sA) with (cur s) in *. cbn zeta in Hff, Htk, Hget.
  set (f := frame_addr (user_pool s) r) in *.
  destruct (free_frame_ok _ _ Hwu Hff) as (Hfu32 & Hfa & Hfn).
  set (sB := with_pool PF_USER (Pool b (phy_addr_start (user_pool s)) (pool_size (user_pool s)) (Lock (cur s) 1)) sA) in *.
  destruct (up_range _ _ Hup) as [Hv Ha].
  destruct (add_step sB m1 T P v f) as (kp & m2 & T' & Hadd & Hk2 & Hut2 & Hcase); try done.
  { eapply utables_kept; [apply Hc|exact Hk1| |].
    - intros a Hin Hin'. apply (proj2 (proj2 (fr_buf Hready))).
      destruct (fr_buf Hready) as ([(_ & _ & _ & _ & HBa) _ _ _] & _). eapply frames_apart; [done|done|exact Hin|].
      unfold inside in *. lia.
    - intros k t a HTk Hin Hin'. destruct (cp_T _ _ _ Hc _ _ HTk) as [Hft _].
      destruct (fr_free Hready PF_KERNEL _ Hft) as (HtB & _). apply HtB.
      destruct (fr_buf Hready) as ([(_ & _ & _ & _ & HBa) _ _ _] & _).
      eapply frames_apart; [by eapply (free_aligned PF_KERNEL)|done|exact Hin'|done]. }
  { apply (cp_T _ _ _ Hc). }
  specialize (Hget _ Hadd eq_refl eq_refl).
  assert (Htc : ∀ a, table_area a → changes a).
  { intros a [?|(t & ? & ?)]; [by right; left|right; right; exists t; auto]. }
  assert (kept changes (child_mem (mem s0)) m2) as Hk02.
  { eapply kept_trans; [apply (kept_child _ Hk01)|]. eapply kept_weaken; [exact Htc|exact Hk2]. }
  assert (∀ k t, T' !! k = Some t → free_frame (kernel_pool s0) t) as HT'.
  { intros k t. destruct Hcase as [(-> & _ & _)|(j & _ & -> & _ & Hj)]; [apply (cp_T _ _ _ Hc)|].
    intros [[_ <-]|[_ ?]]%lookup_insert_Some; [by apply Hfk|by apply (cp_T _ _ _ Hc k)]. }
  destruct (from_buffer m2 T' (<[v := f]> P) v f Hk02 Hut2) as (m3 & Hr3 & Hk3 & Hut3 & Hd3);
    [by apply lookup_insert_eq|done|by apply Hfu|].
  assert (kept changes (child_mem (mem s0)) m3) as Hk03.
  { eapply kept_trans; [exact Hk02|]. eapply kept_weaken; [|exact Hk3]. intros a ?. right; right. exists f. auto. }
  set (m4 := PMem (phys m3) (cr3 (mem s0))).
  assert (kept changes (mem s0) m4) as Hk04.
  { apply (kept_recast _ _ _ (cr3 (mem s0))) in Hk03. by destruct (mem s0). }
  assert (m3 = child_mem m4) as Hm34 by (destruct m3; pose proof (kp_cr3 _ _ _ Hk03) as E; cbn in E; by subst).
  exists (with_pool PF_USER (with_bits b (user_pool s)) (with_pool PF_KERNEL kp (with_mem m4 s))), T', f. split_and!.
  - unfold copy_page. rewrite (bind_mem _ _ _ _ _ Hr1).
    erewrite bind_mem; [|rewrite mem_with_mem; apply (enter_child _ Hk01)].
    rewrite with_mem_twice. fold sA. rewrite (M_bind_Ret _ _ _ _ _ Hget).
    erewrite bind_mem; [|exact Hr3]. erewrite (zoom_Ret mem_lens); [|cbn; rewrite Hm34; apply (leave_child _ Hk04)].
    by destruct s.
  - eapply (copied_next s T P v f g T' kp _ r m4); try done.
    + by eapply utables_phys.
    + destruct Hcase as [(-> & -> & _)|(j & _ & -> & ? & ?)]; [by left|right; by exists j].
    + intros v' f' k HP' Hkk. destruct (cp_P _ _ _ Hc _ _ HP') as [Hf0 Hnf].
      pose proof (free_aligned PF_USER _ Hf0) as Hfa'. destruct (fr_free Hready PF_USER _ Hf0) as (HB' & Hd' & _).
      assert (inside f' 4096 (f' + 4 * k)) as Hin by (unfold inside; lia).
      cbn [phys m4]. rewrite (kp_same _ _ _ Hk3); [rewrite (kp_same _ _ _ Hk2); [apply (kp_same _ _ _ Hk1)|]|].
      * intros Hin'. apply HB'. eapply frames_apart; [done| |exact Hin|exact Hin'].
        by destruct (fr_buf Hready) as ([(_ & _ & _ & _ & ?) _ _ _] & _).
      * intros [Hin'|(t & Ht & Hin')].
        -- apply Hd'. eapply frames_apart; [done|exact Hda|exact Hin|unfold inside in *; lia].
        -- apply (fr_apart Hready t Ht). replace t with f'; [done|].
           eapply frames_apart; [done|by apply (free_aligned PF_KERNEL)|exact Hin|done].
      * intros Hin'. apply Hnf. replace f' with f; [done|]. by eapply frames_apart; [..|exact Hin].
    + intros k Hkk. cbn [phys m4]. rewrite Hd3 by done. rewrite <-Hd1 by done. apply (kp_same _ _ _ Hk2).
      destruct (fr_buf Hready) as ([(_ & _ & _ & _ & HBa) _ _ _] & _ & HBd).
      assert (inside B 4096 (B + 4 * k)) as Hin by (unfold inside; lia). intros [Hin'|(t & Ht & Hin')].
      * apply HBd. eapply frames_apart; [done|exact Hda|exact Hin|unfold inside in *; lia].
      * destruct (fr_free Hready PF_KERNEL t Ht) as (HtB & _). apply HtB.
        eapply frames_apart; [by apply (free_aligned PF_KERNEL)|done|exact Hin'|done].
  - apply (tk_count _ _ _ Htk).
  - destruct Hcase as [(-> & -> & ?)|(j & ? & -> & Hj & ?)]; [by left|right].
    eexists. split_and!; [done|done|apply (tk_count _ _ _ Hj)].
Qed.

(** *** All pages *)
Fixpoint copy_all (copy : Z → MM unit) (l : list Z) : MM unit :=
  match l with [] => mret () | v :: l => _ ← copy v; copy_all copy l end.

Definition dirs_of (l : list Z) : gset Z := list_to_set (map (λ v, v / 4194304) l).

Lemma free_frames_one p n : free_frames p (S n) → ∃ f, free_frame p f.
Proof. intros ([|i fs] & _ & Hl & Hf); [done|]. apply Forall_cons in Hf as [[Hi Hb] _]. by exists (frame_addr p i), i. Qed.

Lemma copy_all_run l s T P : copied s T P → NoDup l → Forall (λ v, ∃ g, user_page v g) l → (∀ v, v ∈ l → P !! v = None) →
  free_frames (user_pool s) (length l) → free_frames (kernel_pool s) (size (dirs_of l ∖ dom T)) →
  ∃ s' T' P', copy_all (copy_page vc vp vb) l s = Ret ((), s') ∧ copied s' T' P' ∧ dom P' = dom P ∪ list_to_set l.
Proof.
  revert s T P. induction l as [|v l IH]; intros s T P Hc Hnd Hup HP Hu Hkf.
  { exists s, T, P. split_and!; [done|done|set_solver]. }
  apply NoDup_cons in Hnd as [Hv Hnd]. apply Forall_cons in Hup as [[g Hg] Hup].
  cbn [length] in Hu.
  destruct (copy_page_step s T P v g) as (s1 & T1 & f & Hr & Hc1 & Hu1 & Hcase); [done|done|apply HP; by left|by eapply free_frames_one| |].
  { intros HT. apply (free_frames_one _ (pred (size (dirs_of (v :: l) ∖ dom T)))). rewrite Nat.succ_pred; [done|].
    apply size_non_empty_iff. intros He. apply (not_elem_of_empty (C := gset Z) (v / 4194304)). rewrite <-He.
    apply elem_of_difference. split; [unfold dirs_of; cbn; set_solver|by apply not_elem_of_dom]. }
  destruct (IH s1 T1 (<[v := f]> P)) as (s' & T' & P' & Hr' & Hc' & Hd'); [done|done|done| |by apply Hu1| |].
  - intros v' Hv'. rewrite lookup_insert_ne by (intros ->; done). apply HP. by right.
  - destruct Hcase as [(-> & -> & [t Ht])|(t & Ht & -> & Hn)].
    + replace (dirs_of l ∖ dom T) with (dirs_of (v :: l) ∖ dom T); [done|]. unfold dirs_of. cbn.
      apply elem_of_dom_2 in Ht. set_solver.
    + apply Hn. rewrite dom_insert_L. replace (S (size (dirs_of l ∖ ({[v / 4194304]} ∪ dom T))))
        with (size (dirs_of (v :: l) ∖ dom T)); [done|].
      apply not_elem_of_dom in Ht.
      replace (dirs_of (v :: l) ∖ dom T) with ({[v / 4194304]} ∪ (dirs_of l ∖ ({[v / 4194304]} ∪ dom T))).
      * rewrite size_union by set_solver. by rewrite size_singleton.
      * apply set_eq. intros x. unfold dirs_of. cbn. destruct (decide (x = v / 4194304)); set_solver.
  - exists s', T', P'. cbn [copy_all]. rewrite (M_bind_Ret _ _ _ _ _ Hr). split_and!; [done|done|]. rewrite Hd'. set_solver.
Qed.
End fork.

(** ** The loops of [copy_body_stack3] *)

(** The pages that the bitmap marks, in the order of their addresses. *)
Definition page_of (start i : Z) : Z := i * 4096 + start.
Definition marked (va : virtual_addr) (i n : Z) : list Z :=
  map (page_of (vaddr_start va)) (filter (λ i, bit (vaddr_bitmap va) i = true) (seqZ i n)).

Lemma copy_all_app copy l1 l2 s : copy_all copy (l1 ++ l2) s = (copy_all copy l1 ≫= λ _, copy_all copy l2) s.
Proof.
  revert s. induction l1 as [|v l1 IH]; intros s; [done|]. cbn [app copy_all]. rewrite bind_assoc.
  apply bind_ext. intros [] s'. apply IH.
Qed.

Lemma copy_bits_run (va : virtual_addr) (copy : Z → MM unit) byte ib n it s :
  (∀ j, it ≤ j < it + Z.of_nat n → bit (vaddr_bitmap va) (ib * 8 + j) = Z.testbit byte j) → 0 ≤ it → 0 ≤ ib →
  0 ≤ vaddr_start va → (ib * 8 + it + Z.of_nat n) * 4096 + vaddr_start va ≤ 4294967296 →
  copy_bits n copy byte (vaddr_start va) ib it s = copy_all copy (marked va (ib * 8 + it) (Z.of_nat n)) s.
Proof.
  revert it s. induction n as [|n IH]; intros it s Hb Hit Hib Hst Hmax; [done|].
  assert (marked va (ib * 8 + it) (Z.of_nat (S n)) =
    (if Z.testbit byte it then [page_of (vaddr_start va) (ib * 8 + it)] else []) ++
    marked va (ib * 8 + (it + 1)) (Z.of_nat n)) as ->.
  { unfold marked. rewrite seqZ_cons by lia. rewrite filter_cons, (Hb it) by lia.
    replace (Z.succ (ib * 8 + it)) with (ib * 8 + (it + 1)) by lia.
    replace (Z.pred (Z.of_nat (S n))) with (Z.of_nat n) by lia. by destruct (Z.testbit byte it). }
  cbn [copy_bits]. unfold BITMAP_MASK. rewrite Z.land_comm, land_mask, negb_involutive by lia. rewrite copy_all_app.
  assert (∀ s', copy_bits n copy byte (vaddr_start va) ib (it + 1) s' =
    copy_all copy (marked va (ib * 8 + (it + 1)) (Z.of_nat n)) s') as Hrest.
  { intros s'. apply IH; [intros j Hj; apply Hb; lia|lia..]. }
  destruct (Z.testbit byte it).
  - cbn [copy_all]. rewrite bind_assoc. change PG_SIZE with 4096. unfold page_of. rewrite u32_id by (unfold is_u32; lia).
    apply bind_ext. intros [] s'. rewrite bind_ret. apply Hrest.
  - rewrite !bind_ret. apply Hrest.
Qed.

Lemma copy_bytes_run (va : virtual_addr) (copy : Z → MM unit) n ib s :
  0 ≤ ib → ib + Z.of_nat n ≤ Z.of_nat (length (bits (vaddr_bitmap va))) →
  0 ≤ vaddr_start va → ((ib + Z.of_nat n) * 8) * 4096 + vaddr_start va ≤ 4294967296 →
  copy_bytes n copy (bits (vaddr_bitmap va)) (vaddr_start va) ib s =
  copy_all copy (marked va (ib * 8) (8 * Z.of_nat n)) s.
Proof.
  revert ib s. induction n as [|n IH]; intros ib s Hib Hl Hst Hmax; [done|].
  assert (marked va (ib * 8) (8 * Z.of_nat (S n)) =
    marked va (ib * 8 + 0) (Z.of_nat 8) ++ marked va ((ib + 1) * 8) (8 * Z.of_nat n)) as ->.
  { unfold marked. rewrite <-map_app, <-filter_app. do 2 f_equal.
    replace (8 * Z.of_nat (S n)) with (Z.of_nat 8 + 8 * Z.of_nat n) by lia.
    rewrite seqZ_app by lia. f_equal; f_equal; lia. }
  destruct (lookup_lt_is_Some_2 (bits (vaddr_bitmap va)) (Z.to_nat ib) ltac:(lia)) as [x Hx].
  assert (load (bits (vaddr_bitmap va)) ib = Ret x) as Hld by (by apply load_Ret).
  assert (∀ j, 0 ≤ j < 8 → bit (vaddr_bitmap va) (ib * 8 + j) = Z.testbit x j) as Hbit.
  { intros j Hj. unfold bit. replace ((ib * 8 + j) / 8) with ib by zlia. rewrite Hx. f_equal. zlia. }
  cbn [copy_bytes]. rewrite Hld, bind_lift, copy_all_app.
  transitivity ((copy_bits 8 copy x (vaddr_start va) ib 0
    ≫= λ _, copy_bytes n copy (bits (vaddr_bitmap va)) (vaddr_start va) (ib + 1)) s).
  - destruct (Z.eqb_spec x 0) as [->|]; [|done]. rewrite (M_bind_Ret (copy_bits 8 _ _ _ _ _) _ s () s); [done|].
    cbn [copy_bits]. unfold BITMAP_MASK. by rewrite !Z.land_0_r.
  - unfold mbind, M_bind. rewrite (copy_bits_run va copy x ib 8 0) by first [lia|intros; apply Hbit; lia].
    destruct (copy_all _ _ s) as [[[] s']| | |]; [|done..]. apply IH; lia.
Qed.

Lemma marked_NoDup va i n : NoDup (marked va i n).
Proof.
  apply NoDup_fmap_2_strong; [|apply NoDup_filter, NoDup_seqZ]. unfold page_of. intros x y _ _. lia.
Qed.

(** ** A fresh kernel page *)

(** A page [v] that the kernel can map at the entry [a]: the first free address,
    a frame is free, and no free frame is part of the running address space. *)
Record page_ready (s : mstate) (r v a : Z) : Prop := {
  pr_self : self_map (mem s);
  pr_dir : frame (cr3 (mem s)) = cr3 (mem s);
  pr_words : words_ok (mem s);
  pr_scan : wf_bitmap (vaddr_bitmap (kernel_vaddr s)) ∧ bitmap_scan (vaddr_bitmap (kernel_vaddr s)) 1 = Ret r ∧
    0 ≤ r < 8 * Z.of_nat (length (bits (vaddr_bitmap (kernel_vaddr s))));
  pr_addr : v = page_addr (kernel_vaddr s) r ∧ v mod 4096 = 0 ∧ v ≠ NULL;
  pr_map : mappable (mem s) v a;
  pr_pool : wf_pool (kernel_pool s) ∧ ∃ f, free_frame (kernel_pool s) f;
  pr_free : ∀ f, free_frame (kernel_pool s) f → f ≠ cr3 (mem s) ∧ ¬ inside f 4096 a ∧ backed (mem s) f 1024
}.

Lemma mappable_leaf m v a f : mappable m v a → is_u32 f → f mod 4096 = 0 → frame (cr3 m) mod 4096 = 0 →
  ∃ t, a = t + PTE_IDX v * 4 ∧ leaf (map_entry m a f) v t f.
Proof.
  intros Hmp Hf Hfa Hda. pose proof Hmp as [Hv Hs _ _]. destruct (lor_flags f Hf Hfa) as (_ & Hfr & Hp & _).
  pose proof (mappable_pde m v a v Hmp Hv) as Hne. unfold pte_slot in Hs.
  destruct (phys m !! pde_slot m v) as [e|] eqn:He; [|done]. destruct (present e) eqn:Hpe; [|done]. injection Hs as <-.
  exists (frame e). split; [done|]. split.
  - exists e. cbn. rewrite lookup_insert_ne by done. done.
  - exists (f + 7). cbn. by rewrite lookup_insert_eq.
Qed.

Lemma get_kernel_page_run s r v a : page_ready s r v a →
  ∃ f j b b' m t, get_kernel_pages 1 s = Ret (v, with_pool PF_KERNEL (with_bits b (kernel_pool s))
      (with_mem m (with_vaddr PF_KERNEL (VAddr b' (vaddr_start (kernel_vaddr s))) s))) ∧
    f = frame_addr (kernel_pool s) j ∧ free_frame (kernel_pool s) f ∧ taken (kernel_pool s) (with_bits b (kernel_pool s)) j ∧
    (∀ i, 0 ≤ i → bit b' i = if decide (i = r) then true else bit (vaddr_bitmap (kernel_vaddr s)) i) ∧
    kept (λ x, x = a ∨ inside f 4096 x) (mem s) m ∧ a = t + PTE_IDX v * 4 ∧ leaf m v t f ∧
    (∀ k, 0 ≤ k < 1024 → phys m !! (f + 4 * k) = Some 0).
Proof.
  intros [Hm Hdir Hw (Hwb & Hscan & Hr) (Hv & Hva & Hvn) Hmp [Hwp (f0 & i & Hi & Hbi & _)] Hfree].
  pose proof (mp_u32 _ _ _ Hmp) as Hvu.
  destruct (vaddr_get_spec PF_KERNEL s 1 r) as (b' & Hget & Hb'); try done; try (cbn [vaddr_of]; lia); [change (is_u32 (page_addr (kernel_vaddr s) r)); by rewrite <-Hv|].
  set (s1 := with_vaddr PF_KERNEL (VAddr b' (vaddr_start (kernel_vaddr s))) s).
  destruct (palloc_spec PF_KERNEL s1 i) as (j & b & Hpa & Hj & Hbj & _ & Hwb' & Hlen & Hbit); [done..|].
  cbn [pool_of s1 with_vaddr kernel_pool] in *. set (f := frame_addr (kernel_pool s) j) in *.
  assert (free_frame (kernel_pool s) f) as Hff by (by exists j).
  destruct (free_frame_ok _ _ Hwp Hff) as (Hfu & Hfa & Hfn). destruct (Hfree f Hff) as (Hfd & Hfa' & Hfb).
  assert (frame (cr3 (mem s)) mod 4096 = 0) as Hda by (rewrite frame_eq by (apply Hm); zlia).
  destruct (mappable_leaf (mem s) v a f Hmp Hfu Hfa Hda) as (t & Ha & Hl).
  set (m1 := map_entry (mem s) a f) in *. destruct (lor_flags f Hfu Hfa) as (_ & _ & _ & Hu7).
  assert (kept (λ x, x = a) (mem s) m1) as Hk1 by (by apply kept_write).
  assert (¬ inside f 4096 (pde_slot m1 v)) as Hpf.
  { unfold pde_slot. cbn. pose proof (PDE_IDX_range v Hvu). rewrite Hdir in *. unfold inside. zlia. }
  destruct (clear_dwords_run 1024 v f m1) as (m & Hc & Hk & Hz).
  { rewrite <-(Z.add_0_r v), <-(Z.add_0_r f) at 1. apply (points_leaf _ _ v t f 0 f); try done. by rewrite <-Ha. }
  { intros k Hkk. by apply (kp_some _ _ _ Hk1), Hfb. }
  exists f, j, b, b', m, t. split_and!; [|done|done|by apply taken_bits| | |done| |done].
  - unfold get_kernel_pages, malloc_page. change ((0 <? 1) && (1 <? 3840)) with true. rewrite bind_assoc, bind_ASSERT_true.
    rewrite bind_assoc, (M_bind_Ret _ _ _ _ _ Hget). cbn [vaddr_of]. rewrite <-Hv. destruct (Z.eqb_spec v NULL); [done|].
    fold s1. change (Z.to_nat 1) with 1%nat. cbn [map_pages]. rewrite !bind_assoc, (M_bind_Ret _ _ _ _ _ Hpa).
    destruct (Z.eqb_spec f NULL); [done|]. rewrite bind_assoc.
    erewrite M_bind_Ret; [|by apply (page_table_add_spec _ v a)]. cbn [negb].
    rewrite bind_ret. cbn [mret]. rewrite bind_ret. unfold clear_pages. change (Z.to_nat (1 * 1024)) with 1024%nat.
    destruct (Z.eqb_spec v NULL); [done|]. cbn [negb].
    erewrite bind_mem; [|exact Hc]. by rewrite ret_eq.
  - intros x Hx. rewrite Hb' by done. cbn [vaddr_of].
    destruct (decide (r ≤ x < r + 1)), (decide (x = r)); try done; lia.
  - eapply kept_trans; (eapply kept_weaken; [|eassumption]); unfold inside; cbn; intuition.
  - eapply leaf_kept; [exact Hl|exact Hk|done|by rewrite <-Ha].
Qed.

(** ** Properties *)

(** A page directory as [create_page_dir] makes it, in the frame [d]: the user
    half maps nothing, the kernel half is that of the running directory, and
    the last entry refers to the directory itself. *)
Record fresh_dir (m : pmem) (d : Z) : Prop := {
  fd_user : utables d m ∅ ∅;
  fd_kernel : ∀ v, 0xc0000000 ≤ v < 0xffc00000 → walk (PMem (phys m) d) v = walk m v;
  fd_self : self_map (PMem (phys m) d)
}.

Lemma dir_window m n : self_map m → 0 ≤ n → 4 * n + 4 * Z.of_nat 256 ≤ 4096 → ∀ k, 0 ≤ k < Z.of_nat 256 →
  walk m (0xfffff000 + 4 * n + 4 * k) = Some (frame (cr3 m) + 4 * n + 4 * k).
Proof.
  intros Hm Hn Hmax k Hk. set (w := (n + k) * 4194304).
  assert (is_u32 w) as Hw by (unfold w, is_u32; lia).
  assert (PDE_IDX w = n + k) as Hd by (rewrite PDE_IDX_eq by done; unfold w; zlia).
  replace (0xfffff000 + 4 * n + 4 * k) with (pde_ptr w) by (rewrite pde_ptr_eq, Hd by done; lia).
  rewrite walk_pde_ptr by done. unfold pde_slot. rewrite Hd. f_equal. lia.
Qed.

(** What [create_page_dir] does to a memory in which [v] is mapped to a zeroed frame. *)
Lemma fill_dir m v t f : self_map m → frame (cr3 m) = cr3 m → words_ok m → is_u32 v → v mod 4096 = 0 →
  is_u32 f → f mod 4096 = 0 → f ≠ cr3 m → leaf m v t f → ¬ inside f 4096 (t + PTE_IDX v * 4) →
  (∀ k, 0 ≤ k < 1024 → phys m !! (f + 4 * k) = Some 0) → (∀ k, 768 ≤ k < 1024 → is_Some (phys m !! (cr3 m + 4 * k))) →
  ∃ m1 m2, copy_dwords 256 (u32 (v + 0x300 * 4)) (0xfffff000 + 0x300 * 4) m = Ret ((), m1) ∧
    addr_v2p v m1 = Ret (f, m1) ∧ store32 (v + 1023 * 4) (Z.lor f PG_FLAGS) m1 = Ret ((), m2) ∧
    kept (inside f 4096) m m2 ∧
    (∀ k, 0 ≤ k < 768 → phys m2 !! (f + 4 * k) = Some 0) ∧
    (∀ k, 768 ≤ k < 1023 → phys m2 !! (f + 4 * k) = phys m !! (cr3 m + 4 * k)) ∧
    phys m2 !! (f + 4092) = Some (f + 7).
Proof.
  intros Hm Hdir Hw Hv Hva Hf Hfa Hfd Hl Hent Hz Hdb.
  assert (cr3 m mod 4096 = 0) as Hda by (rewrite <-Hdir, frame_eq by (apply Hm); zlia).
  assert (¬ inside f 4096 (pde_slot m v)) as Hpf.
  { unfold pde_slot. rewrite Hdir. pose proof (PDE_IDX_range v Hv). unfold inside. zlia. }
  rewrite u32_id by zlia. unfold inside in Hpf, Hent.
  destruct (copy_dwords_run 256 (v + 0x300 * 4) (0xfffff000 + 0x300 * 4) (f + 0x300 * 4) (cr3 m + 0x300 * 4) m)
    as (m1 & Hr & Hk1 & Hd1).
  - apply (points_leaf _ _ v t f); try done; unfold inside; lia.
  - intros m' Hk k Hkk. rewrite (dir_window m' 768) by (first [lia|eapply self_map_kept; [exact Hm|exact Hk|rewrite Hdir; unfold inside; zlia]]).
    by rewrite (kp_cr3 _ _ _ Hk), Hdir.
  - intros k Hkk. replace (f + 0x300 * 4 + 4 * k) with (f + 4 * (768 + k)) by lia. rewrite Hz by lia. by eexists.
  - intros k Hkk. replace (cr3 m + 0x300 * 4 + 4 * k) with (cr3 m + 4 * (768 + k)) by lia. apply Hdb. lia.
  - done.
  - zlia.
  - assert (leaf m1 v t f) as Hl1 by (eapply leaf_kept; [done|exact Hk1|unfold inside; lia|unfold inside; lia]).
    assert (self_map m1) as Hm1 by (eapply self_map_kept; [exact Hm|exact Hk1|rewrite Hdir; unfold inside; zlia]).
    assert (is_Some (phys m1 !! (f + 1023 * 4))) as Hs.
    { apply (kp_some _ _ _ Hk1). replace (f + 1023 * 4) with (f + 4 * 1023) by lia. rewrite Hz by lia. by eexists. }
    pose proof (store_entry m1 _ _ f (leaf_walk m1 v t f (1023 * 4) Hl1 Hv Hva ltac:(lia)) Hs Hf Hfa) as Hst.
    exists m1, (map_entry m1 (f + 1023 * 4) f). split_and!; [done|by eapply addr_v2p_leaf|exact Hst| | | |].
    + eapply kept_trans; [eapply kept_weaken; [|exact Hk1]; unfold inside; lia|].
      destruct (lor_flags f Hf Hfa) as (_ & _ & _ & Hu7). apply kept_write; [unfold inside; lia|done].
    + intros k Hkk. cbn. rewrite lookup_insert_ne, (kp_same _ _ _ Hk1) by (unfold inside; lia). apply Hz. lia.
    + intros k Hkk. cbn. rewrite lookup_insert_ne by lia.
      replace (f + 4 * k) with (f + 0x300 * 4 + 4 * (k - 768)) by lia. rewrite Hd1 by lia. f_equal. lia.
    + cbn. replace (f + 4092) with (f + 1023 * 4) by lia. apply lookup_insert_eq.
Qed.

(** The kernel half of a directory with the same entries. *)
Lemma walk_same_dir m d : frame (cr3 m) = cr3 m → frame d = d → ∀ v, is_u32 v →
  phys m !! (d + 4 * (v / 4194304)) = phys m !! (cr3 m + 4 * (v / 4194304)) → walk (PMem (phys m) d) v = walk m v.
Proof.
  intros Hm Hd v Hv He. unfold walk, pte_slot, pde_slot. cbn. rewrite Hm, Hd, PDE_IDX_eq by done.
  rewrite Z.mul_comm. by rewrite He.
Qed.

Lemma create_page_dir_run s r v a : page_ready s r v a → 0xc0000000 ≤ v →
  (∀ k, 768 ≤ k < 1024 → is_Some (phys (mem s) !! (cr3 (mem s) + 4 * k))) →
  a ≠ cr3 (mem s) + 4092 →
  ∃ s' d t, create_page_dir s = Ret (v, s') ∧ free_frame (kernel_pool s) d ∧ ¬ free_frame (kernel_pool s') d ∧
    a = t + PTE_IDX v * 4 ∧ leaf (mem s') v t d ∧ fresh_dir (mem s') d ∧
    kept (λ x, x = a ∨ inside d 4096 x) (mem s) (mem s').
Proof.
  intros Hp Hvk Hdb Ha'. pose proof Hp as [Hm Hdir Hw _ (_ & Hva & Hvn) Hmp [Hwp _] Hfree].
  destruct (get_kernel_page_run s r v a Hp) as (f & j & b & b' & m & t & Hget & Hf & Hff & Htk & _ & Hk & Ha & Hl & Hz).
  destruct (free_frame_ok _ _ Hwp Hff) as (Hfu & Hfa & Hfn). destruct (Hfree f Hff) as (Hfd & Hfna & _).
  pose proof (mp_u32 _ _ _ Hmp) as Hvu.
  assert (cr3 (mem s) mod 4096 = 0) as Hda by (rewrite <-Hdir, frame_eq by (apply Hm); zlia).
  pose proof (kp_cr3 _ _ _ Hk) as Hc.
  assert (self_map m) as Hm' by (eapply self_map_kept; [exact Hm|exact Hk|rewrite Hdir; unfold inside; zlia]).
  destruct (fill_dir m v t f Hm') as (m1 & m2 & Hcp & Hv2p & Hst & Hk2 & Hz2 & Hd2 & He2); rewrite ?Hc; try done;
    [by apply (kp_words _ _ _ Hk)|by rewrite <-Ha| |].
  { intros k Hkk. apply (kp_some _ _ _ Hk). by apply Hdb. }
  set (s1 := with_pool PF_KERNEL (with_bits b (kernel_pool s)) (with_mem m
    (with_vaddr PF_KERNEL (VAddr b' (vaddr_start (kernel_vaddr s))) s))) in *.
  rewrite Hc in Hd2. pose proof (kp_cr3 _ _ _ Hk2) as Hc2. rewrite Hc in Hc2.
  assert (frame f = f) as Hff' by (rewrite frame_eq by done; zlia).
  destruct (lor_flags f Hfu Hfa) as (_ & Hfr7 & Hp7 & _).
  exists (with_mem m2 s1), f, t. split_and!; [|done| |done| | |].
  - unfold create_page_dir. rewrite (M_bind_Ret _ _ _ _ _ Hget). destruct (Z.eqb_spec v NULL); [done|].
    erewrite bind_mem; [|exact Hcp]. erewrite bind_mem; [|rewrite mem_with_mem; exact Hv2p].
    erewrite bind_mem; [|rewrite mem_with_mem; exact Hst]. by rewrite ret_eq.
  - change (kernel_pool (with_mem m2 s1)) with (with_bits b (kernel_pool s)).
    intros [_ Hne]%(tk_free _ _ _ Htk). by apply Hne.
  - cbn [mem with_mem]. eapply leaf_kept; [exact Hl|exact Hk2| |by rewrite <-Ha].
    unfold pde_slot. rewrite Hc, Hdir. pose proof (PDE_IDX_range v Hvu). unfold inside. zlia.
  - cbn [mem with_mem]. split.
    + split; [|done..]. intros k Hkk. exists 0. rewrite lookup_empty. rewrite Z.mul_comm, Hz2 by lia. done.
    + intros v' Hv'. apply walk_same_dir; [by rewrite Hc2|done|unfold is_u32; lia|].
      rewrite Hc2, Hd2 by zlia. symmetry. apply (kp_same _ _ _ Hk2). unfold inside. zlia.
    + split; [done|]. exists (f + 7). cbn. rewrite Hff', <-He2. split_and!; [f_equal; lia|done|done].
  - cbn [mem with_mem]. eapply kept_trans; [exact Hk|]. eapply kept_weaken; [|exact Hk2]. cbn. auto.
Qed.

(** C34: [create_page_dir] maps a free frame at the first free kernel page and
    makes a page directory of it: its user half is empty, its kernel half
    translates as the running directory does, its last entry refers to itself.
    Besides this frame only the page's entry is written. *)
Theorem create_page_dir_correct s r v a : page_ready s r v a → 0xc0000000 ≤ v →
  (∀ k, 768 ≤ k < 1024 → is_Some (phys (mem s) !! (cr3 (mem s) + 4 * k))) → a ≠ cr3 (mem s) + 4092 →
  ∃ s' d t, create_page_dir s = Ret (v, s') ∧ free_frame (kernel_pool s) d ∧ ¬ free_frame (kernel_pool s') d ∧
    a = t + PTE_IDX v * 4 ∧ leaf (mem s') v t d ∧ fresh_dir (mem s') d ∧
    kept (λ x, x = a ∨ inside d 4096 x) (mem s) (mem s').
Proof. apply create_page_dir_run. Qed.

Lemma copy_body_stack3_run s dc vp tp vc tc vb tb B va :
  fork_ready s dc vp tp vc tc vb tb B → wf_bitmap (vaddr_bitmap va) → 0 ≤ vaddr_start va →
  vaddr_start va + 8 * btmp_bytes_len (vaddr_bitmap va) * 4096 ≤ 0xc0000000 →
  let pages := marked va 0 (8 * btmp_bytes_len (vaddr_bitmap va)) in
  (∀ v, v ∈ pages → ∃ g, user_page s dc B v g) →
  free_frames (user_pool s) (length pages) → free_frames (kernel_pool s) (size (dirs_of pages)) →
  ∃ s' T P, copy_body_stack3 vc vp va vb s = Ret ((), s') ∧ copied s dc B s' T P ∧ dom P = list_to_set pages.
Proof.
  intros Hr Hwf Hst Hmax pages Hup Hu Hk. pose proof (wf_bits _ Hwf) as Hl. destruct Hwf as [Hlen _ _].
  destruct (copy_all_run s dc vp tp vc tc vb tb B Hr pages s ∅ ∅) as (s' & T & P & Hrun & Hc & Hd).
  - by eapply copied_nil.
  - apply marked_NoDup.
  - by apply Forall_forall.
  - intros v _. apply lookup_empty.
  - done.
  - by rewrite dom_empty_L, difference_empty_L.
  - exists s', T, P. split_and!; [|done|by rewrite Hd, dom_empty_L, union_empty_l_L].
    unfold copy_body_stack3. rewrite copy_bytes_run by lia. rewrite Z2Nat.id by lia. exact Hrun.
Qed.

(** C11: [copy_body_stack3] gives the child a copy of the parent's pages: with
    frames for the marked pages and for their page tables, the loop ends; the
    user half of the child's directory maps exactly the marked pages, each to a
    frame of its own that was free, with the parent's data; only the buffer,
    the child's user half and frames that were free have changed, so the parent
    sees what it saw. *)
Theorem fork_copies_pages s dc vp tp vc tc vb tb B va :
  fork_ready s dc vp tp vc tc vb tb B → wf_bitmap (vaddr_bitmap va) → 0 ≤ vaddr_start va →
  vaddr_start va + 8 * btmp_bytes_len (vaddr_bitmap va) * 4096 ≤ 0xc0000000 →
  let pages := marked va 0 (8 * btmp_bytes_len (vaddr_bitmap va)) in
  (∀ v, v ∈ pages → ∃ g, user_page s dc B v g) →
  free_frames (user_pool s) (length pages) → free_frames (kernel_pool s) (size (dirs_of pages)) →
  ∃ s' (P : gmap Z Z), copy_body_stack3 vc vp va vb s = Ret ((), s') ∧ dom P = list_to_set pages ∧
    (∀ v, 0 ≤ v < 0xc0000000 → walk (child_mem dc (mem s')) v = (λ f, f + v mod 4096) <$> P !! (v / 4096 * 4096)) ∧
    (∀ v f, P !! v = Some f → free_frame (user_pool s) f ∧ ∃ g, walk (mem s) v = Some g ∧
       ∀ k, 0 ≤ k < 1024 → phys (mem s') !! (f + 4 * k) = phys (mem s) !! (g + 4 * k)) ∧
    (∀ v v' f, P !! v = Some f → P !! v' = Some f → v = v') ∧
    kept (changes s dc B) (mem s) (mem s') ∧
    (∀ v g o, user_page s dc B v g → 0 ≤ o < 4096 → walk (mem s') (v + o) = Some (g + o) ∧
       phys (mem s') !! (g + o) = phys (mem s) !! (g + o)).
Proof.
  intros Hr Hwf Hst Hmax pages Hup Hu Hk.
  destruct (copy_body_stack3_run s dc vp tp vc tc vb tb B va) as (s' & T & P & Hrun & Hc & Hd); [done..|].
  destruct (dc_aligned _ _ _ _ _ _ _ _ _ Hr) as (_ & _ & Hdf).
  exists s', P. split_and!; [done|done| | |apply (cp_inj _ _ _ _ _ _ Hc)|apply Hc|].
  - intros v Hv. apply (utables_walk _ T); [|done]. cbn. rewrite Hdf. eapply utables_phys; [apply Hc|done].
  - intros v f HP. split; [by apply (cp_P _ _ _ _ _ _ Hc v)|by apply (cp_data _ _ _ _ _ _ Hc)].
  - intros v g o [[Hv Ha] (t & Hl & Hp & Ht) (_ & _ & Hg)] Ho. pose proof (cp_kept _ _ _ _ _ _ Hc) as Hkp. split.
    + eapply leaf_walk; [by eapply leaf_kept|unfold is_u32; lia|done|done].
    + apply (kp_same _ _ _ Hkp). by apply Hg.
Qed.

(** *** A small machine

    The parent's directory is the frame 0x100000, with the page table 0x101000
    of kernel pages and the page table 0x104000 of its only page, 0x8048000,
    whose data is the frame 0x105000. The child's directory is the frame
    0x102000 and the buffer the frame 0x103000; one kernel frame, 0x200000, and
    one user frame, 0x208000, are free. *)
Definition zero_frame (f : Z) (m : gmap Z Z) : gmap Z Z := foldr (λ k m, <[f + 4 * k := 0]> m) m (seqZ 0 1024).

Lemma zero_frame_lookup f m a :
  zero_frame f m !! a = if decide (inside f 4096 a ∧ (a - f) mod 4 = 0) then Some 0 else m !! a.
Proof.
  unfold zero_frame.
  assert (∀ l, foldr (λ k m, <[f + 4 * k := 0]> m) m l !! a = if decide ((a - f) mod 4 = 0 ∧ (a - f) / 4 ∈ l) then Some 0 else m !! a) as ->.
  { induction l as [|k l IH]; cbn [foldr]; [rewrite decide_False; [done|]; by intros [_ ?%not_elem_of_nil]|].
    destruct (decide (a = f + 4 * k)) as [->|Hne].
    - rewrite lookup_insert_eq, decide_True; [done|]. split; [zlia|]. apply elem_of_cons. left. zlia.
    - rewrite lookup_insert_ne, IH by congruence. apply decide_ext. rewrite elem_of_cons. split; [tauto|].
      intros [Hm [Hk|?]]; [|done]. zlia. }
  apply decide_ext. rewrite elem_of_seqZ. unfold inside. split; intros [? ?]; (split; [zlia|zlia]).
Qed.

Definition ex_frames : gmap Z Z := foldr zero_frame ∅
  [0x100000; 0x101000; 0x102000; 0x103000; 0x104000; 0x105000; 0x200000; 0x208000].
Definition ex_entries : list (Z * Z) :=
  [(0x100c00, 0x101007); (0x100080, 0x104007); (0x100ffc, 0x100007);
   (0x101400, 0x100007); (0x101404, 0x102007); (0x101408, 0x103007);
   (0x102c00, 0x101007); (0x102ffc, 0x102007); (0x104120, 0x105007); (0x105008, 42)].
Definition ex_phys : gmap Z Z := foldr (λ x m, <[x.1 := x.2]> m) ex_frames ex_entries.

Lemma ex_phys_lookup a : ex_phys !! a =
  match find (λ x, x.1 =? a) ex_entries with
  | Some x => Some x.2
  | None => if existsb (λ f, (f <=? a) && (a <? f + 4096) && ((a - f) mod 4 =? 0))
      [0x100000; 0x101000; 0x102000; 0x103000; 0x104000; 0x105000; 0x200000; 0x208000] then Some 0 else None
  end.
Proof.
  unfold ex_phys. induction ex_entries as [|[b w] l IH].
  - cbn [foldr find]. unfold ex_frames. induction ([0x100000; 0x101000; 0x102000; 0x103000; 0x104000; 0x105000; 0x200000; 0x208000])
      as [|f fs IH]; [apply lookup_empty|]. cbn [foldr existsb]. rewrite zero_frame_lookup, IH. unfold inside.
    destruct (Z.leb_spec f a), (Z.ltb_spec a (f + 4096)), (Z.eqb_spec ((a - f) mod 4) 0); cbn [andb orb]; case_decide; try done; lia.
  - cbn [foldr find fst snd]. destruct (Z.eqb_spec b a) as [->|]; [apply lookup_insert_eq|by rewrite lookup_insert_ne].
Qed.

#[local] Opaque ex_phys ex_frames.

Definition ex_space : mstate :=
  MState (PMem ex_phys 0x100000) (ex_pool 0x200000 [0xfe; 0]) (ex_pool 0x208000 [0xfe; 0])
    (VAddr (Bitmap 1 [7; 0]) K_HEAP_START) (VAddr (Bitmap 1 [1; 0]) 0x8048000) 0x9e000 0xc0100000.

Lemma ex_phys_words : words_ok (mem ex_space).
Proof.
  intros a w. cbn. rewrite ex_phys_lookup. destruct (find _ _) as [[b x]|] eqn:E.
  - intros [= <-]. apply find_some in E as [E _]. apply list_elem_of_In in E.
    assert (Forall (λ x, is_u32 x.2) ex_entries) as Hall by (repeat (constructor; [unfold is_u32; cbn; lia|]); constructor).
    rewrite Forall_forall in Hall. by apply (Hall (b, x)).
  - destruct (existsb _ _); [|done]. by intros [= <-].
Qed.

Lemma ex_backed f : f ∈ [0x100000; 0x101000; 0x102000; 0x103000; 0x104000; 0x105000; 0x200000; 0x208000] → backed (mem ex_space) f 1024.
Proof.
  intros Hf k Hk. cbn. rewrite ex_phys_lookup. destruct (find _ _); [by eexists|].
  match goal with |- context [existsb ?p ?l] => replace (existsb p l) with true; [by eexists|symmetry; apply existsb_exists] end.
  exists f. split; [by apply list_elem_of_In|].
  destruct (Z.leb_spec f (f + 4 * k)), (Z.ltb_spec (f + 4 * k) (f + 4096)), (Z.eqb_spec ((f + 4 * k - f) mod 4) 0); try done; zlia.
Qed.

Lemma ex_free st f : free_frame (ex_pool st [0xfe; 0]) f ↔ f = st.
Proof.
  unfold free_frame, frame_index, frame_addr. cbn. split.
  - intros (i & Hi & Hb & ->). destruct (decide (i = 0)) as [->|]; [lia|]. exfalso.
    assert (i ∈ seqZ 1 7) as Hin by (apply elem_of_seqZ; lia). vm_compute in Hin.
    by repeat (apply elem_of_cons in Hin as [->|Hin]; [by vm_compute in Hb|]); apply not_elem_of_nil in Hin.
  - intros ->. exists 0. split_and!; [lia|lia|by vm_compute|lia].
Qed.
Lemma ex_changes a : changes ex_space 0x102000 0x103000 a ↔
  0x102000 ≤ a < 0x102c00 ∨ 0x103000 ≤ a < 0x104000 ∨ 0x200000 ≤ a < 0x201000 ∨ 0x208000 ≤ a < 0x209000.
Proof.
  unfold changes, inside. cbn [kernel_pool user_pool ex_space]. split.
  - intros [?|[?|(f & [Hf%ex_free|Hf%ex_free] & ?)]]; lia.
  - intros [?|[?|[?|?]]]; [right; left; lia|left; lia|right; right; exists 0x200000|right; right; exists 0x208000].
    + split; [left; by apply ex_free|lia].
    + split; [right; by apply ex_free|lia].
Qed.

Lemma ex_shared v f w : 0xc0000000 ≤ v < 0xc0400000 → v mod 4096 = 0 → is_u32 f → f mod 4096 = 0 →
  ex_phys !! (0x101000 + PTE_IDX v * 4) = Some w → present w = true → frame w = f →
  shared ex_space 0x102000 0x103000 v 0x101000 f.
Proof.
  intros Hv Ha Hf Hfa Hl Hp Hfr. assert (is_u32 v) as Hu by (unfold is_u32; lia).
  assert (PDE_IDX v = 768) as Hd by (rewrite PDE_IDX_eq by done; clear -Hv; zlia).
  pose proof (PTE_IDX_range v Hu) as Hr.
  assert (∀ d, d = 0x100000 ∨ d = 0x102000 → frame d + PDE_IDX v * 4 = d + 0xc00 ∧
    ex_phys !! (d + 0xc00) = Some 0x101007) as Hdir.
  { intros d [-> | ->]; rewrite Hd; split; first [by vm_compute|rewrite ex_phys_lookup; by vm_compute]. }
  split.
  - split_and!; [done|done|unfold NULL; lia|done|done].
  - destruct (Hdir 0x100000 ltac:(by left)) as [Hs He]. split; [|exists w; split_and!; [exact Hl|exact Hp|exact Hfr]].
    unfold pde_slot. cbn [cr3 phys mem ex_space child_mem]. rewrite Hs. exists 0x101007. split_and!; [exact He|by vm_compute|by vm_compute].
  - destruct (Hdir 0x102000 ltac:(by right)) as [Hs He]. split; [|exists w; split_and!; [exact Hl|exact Hp|exact Hfr]].
    unfold pde_slot. cbn [cr3 phys mem ex_space child_mem]. rewrite Hs. exists 0x101007. split_and!; [exact He|by vm_compute|by vm_compute].
  - rewrite !ex_changes. unfold pde_slot. cbn [cr3 phys mem ex_space child_mem].
    rewrite (proj1 (Hdir 0x100000 ltac:(by left))), (proj1 (Hdir 0x102000 ltac:(by right))). lia.
Qed.

Lemma ex_pool_wf st : 0x102000 ≤ st < 0x300000 → st mod 4096 = 0 → wf_pool (ex_pool st [0xfe; 0]).
Proof.
  intros Hs Ha. split; cbn; [|lia|lia|lia]. apply ex_bitmap_ok; [|cbn; lia].
  constructor; [unfold is_u8; lia|]. constructor; [unfold is_u8; lia|constructor].
Qed.

Lemma ex_ready : fork_ready ex_space 0x102000 0xc0100000 0x101000 0xc0101000 0x101000 0xc0102000 0x101000 0x103000.
Proof.
  assert (Hsh : ∀ v f w, 0xc0000000 ≤ v < 0xc0400000 → v mod 4096 = 0 → is_u32 f → f mod 4096 = 0 →
    ex_phys !! (0x101000 + PTE_IDX v * 4) = Some w → present w = true → frame w = f →
    shared ex_space 0x102000 0x103000 v 0x101000 f) by (intros; by eapply ex_shared).
  split.
  - split; [by vm_compute|]. exists 0x100007. cbn [phys cr3 mem ex_space]. rewrite ex_phys_lookup. split_and!; by vm_compute.
  - split; [by vm_compute|]. exists 0x102007. cbn [phys cr3 mem ex_space child_mem]. rewrite ex_phys_lookup. split_and!; by vm_compute.
  - apply ex_phys_words.
  - apply (Hsh _ _ 0x100007); 
      [lia|done|by vm_compute|done|rewrite ex_phys_lookup; by vm_compute|by vm_compute|by vm_compute].
  - apply (Hsh _ _ 0x102007); 
      [lia|done|by vm_compute|done|rewrite ex_phys_lookup; by vm_compute|by vm_compute|by vm_compute].
  - split_and!; [|apply ex_backed, list_elem_of_In; cbn; lia|done].
    apply (Hsh _ _ 0x103007); 
      [lia|done|by vm_compute|done|rewrite ex_phys_lookup; by vm_compute|by vm_compute|by vm_compute].
  - rewrite !ex_changes. cbn [cr3 mem ex_space]. lia.
  - intros []; cbn [pool_of kernel_pool user_pool ex_space]; by apply ex_pool_wf.
  - intros f. cbn [kernel_pool user_pool ex_space]. by intros ->%ex_free Hf%ex_free.
  - intros pf f Hf. assert (f = 0x200000 ∨ f = 0x208000) as [-> | ->] by (destruct pf; apply ex_free in Hf; auto).
    + split_and!; [lia|lia|]. apply ex_backed, list_elem_of_In. cbn. lia.
    + split_and!; [lia|lia|]. apply ex_backed, list_elem_of_In. cbn. lia.
  - split; [done|]. by vm_compute.
  - split; [|by intros k t [=]|by intros k k' t [=]|by intros v f [=]].
    intros k Hk. exists 0. cbn [phys mem ex_space]. rewrite lookup_empty, ex_phys_lookup. split; [|by vm_compute].
    destruct (find _ _) as [[b w]|] eqn:E.
    + apply find_some in E as [Hin Heq%Z.eqb_eq]. cbn in Heq. subst b. apply list_elem_of_In in Hin.
      assert (Forall (λ x, x.1 < 0x102000 ∨ 0x102c00 ≤ x.1) ex_entries) as Hall.
      { repeat (constructor; [cbn; lia|]). constructor. }
      rewrite Forall_forall in Hall. specialize (Hall _ Hin). cbn in Hall. lia.
    + pose proof (ex_backed 0x102000 ltac:(apply list_elem_of_In; cbn; lia) k ltac:(lia)) as [w Hw]. cbn [phys mem ex_space] in Hw.
      rewrite ex_phys_lookup in Hw. replace (0x102000 + 4 * k) with (0x102000 + k * 4) in Hw by lia.
      rewrite E in Hw. destruct (existsb _ _); congruence.
Qed.

Lemma ex_page : user_page ex_space 0x102000 0x103000 0x8048000 0x105000.
Proof.
  split; [split; [lia|done]| |].
  - exists 0x104000. split_and!.
    + split; [exists 0x104007|exists 0x105007]; cbn [phys mem ex_space].
      * rewrite ex_phys_lookup. split_and!; by vm_compute.
      * rewrite ex_phys_lookup. split_and!; by vm_compute.
    + rewrite ex_changes. change (pde_slot (mem ex_space) 0x8048000) with 0x100080. lia.
    + rewrite ex_changes. change (PTE_IDX 0x8048000) with 72. lia.
  - split_and!; [done|apply ex_backed, list_elem_of_In; cbn; lia|]. intros o Ho. rewrite ex_changes. lia.
Qed.

Lemma ex_walk : walk (mem ex_space) 0x8048000 = Some 0x105000.
Proof.
  assert (leaf (mem ex_space) 0x8048000 0x104000 0x105000) as Hl.
  { split; [exists 0x104007|exists 0x105007]; cbn [phys mem ex_space]; rewrite ex_phys_lookup; split_and!; by vm_compute. }
  pose proof (leaf_walk _ _ _ _ 0 Hl ltac:(by vm_compute) ltac:(done) ltac:(lia)) as H. by rewrite !Z.add_0_r in H.
Qed.

Lemma fork_copies_pages_witness :
  ∃ s' f, copy_body_stack3 0xc0101000 0xc0100000 (user_vaddr ex_space) 0xc0102000 ex_space = Ret ((), s') ∧
    walk (child_mem 0x102000 (mem s')) 0x8048008 = Some (f + 8) ∧ phys (mem s') !! (f + 8) = Some 42.
Proof.
  destruct (fork_copies_pages ex_space 0x102000 0xc0100000 0x101000 0xc0101000 0x101000 0xc0102000 0x101000 0x103000
    (user_vaddr ex_space) ex_ready) as (s' & P & Hr & Hd & Hw & Hp & _).
  - apply ex_bitmap_ok; [|cbn; lia]. constructor; [unfold is_u8; lia|]. constructor; [unfold is_u8; lia|constructor].
  - cbn. lia.
  - cbn. lia.
  - intros v Hv. assert (v = 0x8048000) as -> by (vm_compute in Hv; apply list_elem_of_singleton in Hv; by rewrite Hv).
    exists 0x105000. exact ex_page.
  - exists [0]. split_and!; [apply NoDup_singleton|by vm_compute|]. constructor; [|constructor]. split; by vm_compute.
  - exists [0]. split_and!; [apply NoDup_singleton|by vm_compute|]. constructor; [|constructor]. split; by vm_compute.
  - assert (is_Some (P !! 0x8048000)) as [f Hf].
    { apply elem_of_dom. rewrite Hd. apply elem_of_list_to_set. vm_compute. by left. }
    exists s', f. split; [exact Hr|]. specialize (Hw 0x8048008 ltac:(lia)).
    change (0x8048008 / 4096 * 4096) with 0x8048000 in Hw. rewrite Hf in Hw. split; [exact Hw|].
    destruct (Hp _ _ Hf) as (_ & g & Hg & Hk).
    assert (Some g = Some 0x105000) as [= ->].
    { rewrite <-Hg. exact ex_walk. }
    specialize (Hk 2 ltac:(lia)). change (4 * 2) with 8 in Hk. rewrite Hk. cbn [phys mem ex_space].
    rewrite ex_phys_lookup. by vm_compute.
Defined.

Lemma create_page_dir_correct_witness :
  ∃ s' d, create_page_dir ex_space = Ret (0xc0103000, s') ∧ fresh_dir (mem s') d.
Proof.
  destruct (create_page_dir_correct ex_space 3 0xc0103000 0x10140c) as (s' & d & t & Hr & _ & _ & _ & _ & Hf & _).
  - split.
    + apply ex_ready.
    + by vm_compute.
    + apply ex_phys_words.
    + split_and!; [|by vm_compute|lia|cbn; lia]. apply ex_bitmap_ok; [|cbn; lia].
      constructor; [unfold is_u8; lia|]. constructor; [unfold is_u8; lia|constructor].
    + split_and!; by vm_compute.
    + split.
      * by vm_compute.
      * unfold pte_slot. change (pde_slot (mem ex_space) 0xc0103000) with 0x100c00. cbn [phys mem ex_space].
        rewrite ex_phys_lookup. by vm_compute.
      * exists 0. cbn [phys mem ex_space]. rewrite ex_phys_lookup. split; by vm_compute.
      * intros i. change (frame (cr3 (mem ex_space))) with 0x100000. lia.
    + split; [by apply ex_pool_wf|]. exists 0x200000. by apply ex_free.
    + intros f Hf. apply ex_free in Hf as ->. split_and!; [by vm_compute|unfold inside; lia|].
      apply ex_backed, list_elem_of_In. cbn. lia.
  - lia.
  - intros k Hk. apply (ex_backed 0x100000); [|lia]. apply list_elem_of_In. cbn. lia.
  - by vm_compute.
  - exists s', d. split; [exact Hr|exact Hf].
Defined.
