(* ===== verification/Stdio.v ===== *)
(** * Formatted output (lib/stdio.c)

    The destination is split at the write pointer: the bytes before it and
    the accessible bytes from it on. Arguments are 32-bit words on the stack,
    or pointers to strings; reading behind the last one is a [Fault]. *)

From Stdlib Require Import ZArith Lia.
From stdpp Require Import base numbers list.
From S2P Require Import Prelude CString.

(** ** The functions *)

(** [buf_ptr]: what is written, and the bytes from the pointer on. *)
Definition out_buf : Type := list Z * list Z.

(** [*( *buf_ptr)++ = c] *)
Definition put (c : Z) (b : out_buf) : outcome out_buf :=
  match b with
  | (_, []) => Fault
  | (pre, _ :: post) => Ret (pre ++ [u8 c], post)
  end.

(** Each call divides [value], so the recursion is at most 32 deep. *)
Fixpoint itoa (fuel : nat) (value base : Z) (b : out_buf) : outcome out_buf :=
  match fuel with
  | O => Spin
  | S fuel =>
    let m := value mod base in
    let i := value / base in
    b ← (if negb (i =? 0) then itoa fuel i base b else Ret b);
    if m <? 10 then put (m + 48) b else put (m - 10 + 65) b
  end.

Inductive va_arg := VWord (w : Z) | VPtr (s : list Z).

Definition va_word (ap : list va_arg) : outcome (Z * list va_arg) :=
  match ap with VWord w :: ap => Ret (u32 w, ap) | _ => Fault end.
Definition va_ptr (ap : list va_arg) : outcome (list Z * list va_arg) :=
  match ap with VPtr s :: ap => Ret (s, ap) | _ => Fault end.

(** [strcpy(buf_ptr, arg_str); buf_ptr += strlen(arg_str)] *)
Definition put_str (s : list Z) (b : out_buf) : outcome out_buf :=
  post ← strcpy b.2 s;
  n ← strlen s;
  Ret (b.1 ++ take (Z.to_nat n) post, drop (Z.to_nat n) post).

(** Case ['d']: a negative number is printed as its absolute value. *)
Definition put_dec (w : Z) (b : out_buf) : outcome out_buf :=
  let arg_int := i32 w in
  if arg_int <? 0 then
    b ← put 45 b; itoa 33 (u32 (i32 (0 - arg_int))) 10 b
  else itoa 33 (u32 arg_int) 10 b.

(** The loop over [index_ptr]. An unknown letter behind ['%'] is not skipped:
    the next turn prints it. *)
Fixpoint vsprintf_loop (format : list Z) (ap : list va_arg) (b : out_buf) : outcome out_buf :=
  match format with
  | [] => Fault
  | index_char :: format =>
    if index_char =? 0 then Ret b
    else if negb (index_char =? 37) then b ← put index_char b; vsprintf_loop format ap b
    else match format with
    | [] => Fault
    | index_char :: rest =>
      if index_char =? 115 then '(arg_str, ap) ← va_ptr ap; b ← put_str arg_str b; vsprintf_loop rest ap b
      else if index_char =? 99 then '(w, ap) ← va_word ap; b ← put w b; vsprintf_loop rest ap b
      else if index_char =? 100 then '(w, ap) ← va_word ap; b ← put_dec w b; vsprintf_loop rest ap b
      else if index_char =? 120 then '(w, ap) ← va_word ap; b ← itoa 33 w 16 b; vsprintf_loop rest ap b
      else vsprintf_loop format ap b
    end
  end.

(** The buffer afterwards and [strlen(str)]; no terminator is written. *)
Definition vsprintf (str format : list Z) (ap : list va_arg) : outcome (list Z * Z) :=
  '(pre, post) ← vsprintf_loop format ap ([], str);
  n ← strlen (pre ++ post);
  Ret (pre ++ post, n).

Definition sprintf (buf format : list Z) (args : list va_arg) : outcome (list Z * Z) :=
  vsprintf buf format args.

(** The string [printk] gives to [console_put_str]. *)
Definition printk (format : list Z) (args : list va_arg) : outcome (list Z) :=
  '(buf, _) ← vsprintf (replicate 1024 0) format args; Ret buf.

(** ** Numbers *)

(** The digits of [v], and the number that digits stand for. *)
Fixpoint digits_go (fuel : nat) (base v : Z) : list Z :=
  match fuel with
  | O => []
  | S fuel => (if v / base =? 0 then [] else digits_go fuel base (v / base)) ++ [v mod base]
  end.
Definition digits (base v : Z) : list Z := digits_go 33 base v.
Definition undigits (base : Z) (ds : list Z) : Z := foldl (λ n d, n * base + d) 0 ds.
(** ['0' .. '9', 'A' .. 'F'] *)
Definition digit_char (d : Z) : Z := if d <? 10 then d + 48 else d + 55.

Lemma digits_go_spec n base v : 2 ≤ base → 0 ≤ v < 2 ^ Z.of_nat n → (n ≠ 0)%nat →
  undigits base (digits_go n base v) = v ∧ Forall (λ d, 0 ≤ d < base) (digits_go n base v) ∧
  (1 ≤ length (digits_go n base v) ≤ n)%nat ∧ (head (digits_go n base v) = Some 0 → v = 0).
Proof.
  intros Hb. revert v. induction n as [|n IH]; intros v Hv Hn; [done|]. clear Hn. cbn [digits_go].
  assert (0 ≤ v mod base < base) as Hm by (apply Z.mod_pos_bound; lia).
  assert (v = base * (v / base) + v mod base) as Hdm by (apply Z.div_mod; lia).
  destruct (Z.eqb_spec (v / base) 0) as [He|He].
  - cbn. split_and!; [unfold undigits; cbn; lia|by constructor|lia|lia|intros [= ?]; lia].
  - assert (0 ≤ v / base) as H0 by (apply Z.div_pos; lia).
    assert (v / base < 2 ^ Z.of_nat n) as H1.
    { apply Z.div_lt_upper_bound; [lia|]. replace (Z.of_nat (S n)) with (Z.of_nat n + 1) in Hv by lia.
      rewrite Z.pow_add_r in Hv by lia. nia. }
    assert (n ≠ 0%nat) as Hn by (intros ->; cbn in H1; lia).
    destruct (IH (v / base)) as (Hu & Hf & Hl & Hh); [lia|done|].
    split_and!.
    + unfold undigits in *. rewrite foldl_app, Hu. cbn. lia.
    + apply Forall_app. split; [done|by constructor].
    + rewrite length_app. cbn. lia.
    + rewrite length_app. cbn. lia.
    + destruct (digits_go n base (v / base)) as [|d ds]; [cbn in Hl; lia|]. cbn in *. intros [= ->].
      by rewrite Hh in He.
Qed.

Lemma digits_go_length n k base v : 2 ≤ base → 0 ≤ v < base ^ Z.of_nat (S k) →
  (length (digits_go n base v) ≤ S k)%nat.
Proof.
  intros Hb. revert k v. induction n as [|n IH]; intros k v Hv; cbn [digits_go]; [cbn; lia|].
  rewrite length_app. cbn [length]. destruct (Z.eqb_spec (v / base) 0) as [He|He]; [cbn; lia|].
  assert (0 ≤ v / base) by (apply Z.div_pos; lia).
  destruct k as [|k]; [change (Z.of_nat 1) with 1 in Hv; rewrite Z.pow_1_r in Hv; rewrite Z.div_small in He by lia; done|].
  assert (v / base < base ^ Z.of_nat (S k)).
  { apply Z.div_lt_upper_bound; [lia|]. rewrite (Nat2Z.inj_succ (S k)), Z.pow_succ_r in Hv by lia. lia. }
  specialize (IH k (v / base)). lia.
Qed.

Lemma put_run c pre post : (post ≠ []) → put c (pre, post) = Ret (pre ++ [u8 c], drop 1 post).
Proof. by destruct post. Qed.

Lemma itoa_run n value base pre post : 2 ≤ base ≤ 16 → 0 ≤ value < 2 ^ Z.of_nat n → (n ≠ 0)%nat →
  (length (digits_go n base value) ≤ length post)%nat →
  itoa n value base (pre, post) = Ret (pre ++ map digit_char (digits_go n base value),
    drop (length (digits_go n base value)) post).
Proof.
  intros Hb. revert value pre post. induction n as [|n IH]; intros value pre post Hv Hn Hl; [done|].
  clear Hn. cbn [itoa digits_go] in *.
  assert (0 ≤ value mod base < base) as Hm by (apply Z.mod_pos_bound; lia).
  assert (∀ pre post, post ≠ [] → (if value mod base <? 10 then put (value mod base + 48) (pre, post)
      else put (value mod base - 10 + 65) (pre, post)) =
    Ret (pre ++ [digit_char (value mod base)], drop 1 post)) as Hput.
  { intros p q Hq. unfold digit_char. destruct (Z.ltb_spec (value mod base) 10);
      rewrite put_run by done; rewrite u8_id by (unfold is_u8; lia); [done|].
    do 4 f_equal. lia. }
  destruct (Z.eqb_spec (value / base) 0) as [He|He]; cbn [negb].
  - cbn in *. rewrite Hput; [done|]. by destruct post; [cbn in Hl; lia|].
  - assert (0 ≤ value / base) as H0 by (apply Z.div_pos; lia).
    assert (value / base < 2 ^ Z.of_nat n) as H1.
    { apply Z.div_lt_upper_bound; [lia|]. replace (Z.of_nat (S n)) with (Z.of_nat n + 1) in Hv by lia.
      rewrite Z.pow_add_r in Hv by lia. nia. }
    assert (n ≠ 0%nat) as Hn by (intros ->; cbn in H1; lia).
    rewrite length_app in Hl. cbn in Hl. rewrite (IH (value / base)) by (done || lia).
    cbn [mbind outcome_bind]. rewrite Hput.
    + rewrite map_app, drop_drop, length_app. cbn. by rewrite <-app_assoc.
    + intros He2. apply (f_equal length) in He2. rewrite length_drop in He2. cbn in He2. lia.
Qed.

(** ** Formats *)

(** A format as a sequence of characters and directives. *)
Inductive piece :=
  | Lit (c : Z)
  | Str (s tl : list Z)
  | Chr (c : Z)
  | Dec (w : Z)
  | Hex (w : Z).

Definition piece_fmt (p : piece) : list Z :=
  match p with
  | Lit c => [c] | Str _ _ => [37; 115] | Chr _ => [37; 99] | Dec _ => [37; 100] | Hex _ => [37; 120]
  end.
Definition piece_args (p : piece) : list va_arg :=
  match p with
  | Lit _ => [] | Str s tl => [VPtr (s ++ 0 :: tl)] | Chr c => [VWord c] | Dec w => [VWord w]
  | Hex w => [VWord w]
  end.
Definition decimal (z : Z) : list Z :=
  (if z <? 0 then [45] else []) ++ map digit_char (digits 10 (Z.abs z)).
Definition piece_out (p : piece) : list Z :=
  match p with
  | Lit c => [c] | Str s _ => s | Chr c => [c] | Dec w => decimal (i32 w)
  | Hex w => map digit_char (digits 16 (u32 w))
  end.
Definition piece_ok (p : piece) : Prop :=
  match p with
  | Lit c => char_ok c ∧ c ≠ 37
  | Str s _ => str_ok s ∧ Z.of_nat (length s) < 4294967296
  | Chr c => char_ok c
  | Dec _ | Hex _ => True
  end.

Lemma digit_char_ok d : 0 ≤ d < 16 → char_ok (digit_char d).
Proof. unfold digit_char, char_ok. destruct (Z.ltb_spec d 10); lia. Qed.

Lemma digits_spec base v : 2 ≤ base ≤ 16 → is_u32 v →
  undigits base (digits base v) = v ∧ Forall (λ d, 0 ≤ d < base) (digits base v) ∧
  (1 ≤ length (digits base v) ≤ 33)%nat ∧ (head (digits base v) = Some 0 → v = 0).
Proof.
  intros Hb Hv. unfold digits. apply digits_go_spec; [lia| |done]. unfold is_u32 in Hv.
  change (2 ^ Z.of_nat 33) with 8589934592. lia.
Qed.

Lemma digits_chars base v : 2 ≤ base ≤ 16 → is_u32 v → str_ok (map digit_char (digits base v)).
Proof.
  intros Hb Hv. destruct (digits_spec base v Hb Hv) as (_ & Hf & _).
  apply Forall_map. eapply Forall_impl; [exact Hf|]. intros d Hd. cbn in Hd. apply digit_char_ok. lia.
Qed.

Lemma itoa_digits base v pre post : 2 ≤ base ≤ 16 → is_u32 v →
  (length (digits base v) ≤ length post)%nat →
  itoa 33 v base (pre, post) =
    Ret (pre ++ map digit_char (digits base v), drop (length (digits base v)) post).
Proof.
  intros Hb Hv Hl. apply itoa_run; [done| |done|done]. unfold is_u32 in Hv.
  change (2 ^ Z.of_nat 33) with 8589934592. lia.
Qed.

(** The output of [%d]: the most negative number overflows in [0 - arg_int],
    but the unsigned conversion gives its absolute value again. *)
Lemma put_dec_run w pre post : (length (decimal (i32 w)) ≤ length post)%nat →
  put_dec w (pre, post) = Ret (pre ++ decimal (i32 w), drop (length (decimal (i32 w))) post).
Proof.
  unfold put_dec, decimal. assert (-2147483648 ≤ i32 w < 2147483648) as Hw by zlia.
  set (z := i32 w) in *. clearbody z. destruct (Z.ltb_spec z 0); intros Hl;
    rewrite length_app, length_map in *; cbn [length] in Hl.
  - rewrite put_run by (intros ->; cbn [length] in Hl; lia). cbn [mbind outcome_bind].
    replace (u32 (i32 (0 - z))) with (Z.abs z) by zlia.
    rewrite itoa_digits; [|lia|unfold is_u32; lia|rewrite length_drop; lia].
    rewrite drop_drop, <-app_assoc. done.
  - replace (u32 z) with (Z.abs z) by zlia.
    rewrite itoa_digits; [|lia|unfold is_u32; lia|lia]. done.
Qed.

Lemma decimal_chars z : -2147483648 ≤ z < 2147483648 → str_ok (decimal z).
Proof.
  intros Hz. unfold decimal. apply Forall_app. split.
  - destruct (z <? 0); [|done]. constructor; [|done]. unfold char_ok. lia.
  - apply digits_chars; [lia|unfold is_u32; lia].
Qed.

Lemma piece_out_ok p : piece_ok p → str_ok (piece_out p).
Proof.
  destruct p; cbn; intros Hp.
  - constructor; [apply Hp|done].
  - apply Hp.
  - by constructor.
  - apply decimal_chars. zlia.
  - apply digits_chars; [lia|apply u32_range].
Qed.

Lemma put_str_run s tl pre n : str_ok s → Z.of_nat (length s) < 4294967296 → (length s < n)%nat →
  put_str (s ++ 0 :: tl) (pre, replicate n 0) = Ret (pre ++ s, replicate (n - length s) 0).
Proof.
  intros Hs Hl Hn. unfold put_str. cbn [fst snd].
  rewrite strcpy_spec by (rewrite ?length_replicate; done). cbn [mbind outcome_bind].
  rewrite strlen_spec by done. cbn [mbind outcome_bind]. rewrite Nat2Z.id.
  rewrite take_app_length, drop_app_length, drop_replicate.
  replace (n - length s)%nat with (S (n - S (length s))) by lia. done.
Qed.

(** One directive, into zeroed memory with room for its output and a
    terminator. *)
Lemma vsprintf_piece p fmt ap pre n : piece_ok p → (length (piece_out p) < n)%nat →
  vsprintf_loop (piece_fmt p ++ fmt) (piece_args p ++ ap) (pre, replicate n 0) =
  vsprintf_loop fmt ap (pre ++ piece_out p, replicate (n - length (piece_out p)) 0).
Proof.
  destruct p as [c|s tl|c|w|w]; cbn [piece_ok piece_out piece_fmt piece_args app vsprintf_loop];
    intros Hp Hn.
  - destruct Hp as [Hc Hne]. rewrite char_ok_nz by done. destruct (Z.eqb_spec c 37); [done|]. cbn [negb].
    rewrite put_run by (by destruct n; [cbn in Hn; lia|]). rewrite u8_id by (by apply char_ok_u8).
    cbn [mbind outcome_bind]. by rewrite drop_replicate.
  - destruct Hp as [Hs Hl]. cbn [va_ptr mbind outcome_bind]. change (37 =? 0) with false.
    change (37 =? 37) with true. change (115 =? 115) with true. cbn [negb].
    by rewrite put_str_run.
  - change (37 =? 0) with false. change (37 =? 37) with true. change (99 =? 115) with false.
    change (99 =? 99) with true. cbn [negb va_word mbind outcome_bind].
    rewrite put_run by (by destruct n; [cbn in Hn; lia|]).
    apply char_ok_u8 in Hp. replace (u8 (u32 c)) with c by zlia.
    cbn [mbind outcome_bind]. by rewrite drop_replicate.
  - change (37 =? 0) with false. change (37 =? 37) with true. change (100 =? 115) with false.
    change (100 =? 99) with false. change (100 =? 100) with true. cbn [negb va_word mbind outcome_bind].
    replace (i32 w) with (i32 (u32 w)) in * by zlia.
    rewrite put_dec_run by (rewrite length_replicate; lia).
    cbn [mbind outcome_bind]. by rewrite drop_replicate.
  - change (37 =? 0) with false. change (37 =? 37) with true. change (120 =? 115) with false.
    change (120 =? 99) with false. change (120 =? 100) with false. change (120 =? 120) with true.
    cbn [negb va_word mbind outcome_bind]. rewrite length_map in *.
    rewrite itoa_digits by (lia || apply u32_range || (rewrite length_replicate; lia)).
    cbn [mbind outcome_bind]. by rewrite drop_replicate.
Qed.

Definition fmt_of (ps : list piece) : list Z := concat (map piece_fmt ps).
Definition args_of (ps : list piece) : list va_arg := concat (map piece_args ps).
Definition out_of (ps : list piece) : list Z := concat (map piece_out ps).

Lemma out_of_ok ps : Forall piece_ok ps → str_ok (out_of ps).
Proof.
  induction 1 as [|p ps Hp Hps IH]; [constructor|]. apply Forall_app. split; [by apply piece_out_ok|done].
Qed.

Lemma vsprintf_loop_run ps tl ap pre n : Forall piece_ok ps → (length (out_of ps) < n)%nat →
  vsprintf_loop (fmt_of ps ++ 0 :: tl) (args_of ps ++ ap) (pre, replicate n 0) =
  Ret (pre ++ out_of ps, replicate (n - length (out_of ps)) 0).
Proof.
  intros Hps. revert pre n. induction Hps as [|p ps Hp Hps IH]; intros pre n Hn.
  - cbn. rewrite app_nil_r. by rewrite Nat.sub_0_r.
  - unfold fmt_of, args_of, out_of in *. cbn [map concat] in *. rewrite length_app in Hn.
    rewrite <-!app_assoc, vsprintf_piece by (done || lia). rewrite IH by lia.
    rewrite length_app, <-app_assoc. do 3 f_equal. lia.
Qed.

Lemma vsprintf_run ps tl n :
  Forall piece_ok ps → (length (out_of ps) < n)%nat → Z.of_nat n ≤ 4294967296 →
  vsprintf (replicate n 0) (fmt_of ps ++ 0 :: tl) (args_of ps) =
    Ret (out_of ps ++ replicate (n - length (out_of ps)) 0, Z.of_nat (length (out_of ps))).
Proof.
  intros Hps Hn Hmax. unfold vsprintf.
  pose proof (vsprintf_loop_run ps tl [] [] n Hps Hn) as Hrun. rewrite app_nil_r in Hrun. rewrite Hrun.
  cbn [mbind outcome_bind app].
  replace (n - length (out_of ps))%nat with (S (n - S (length (out_of ps)))) by lia.
  cbn [replicate]. rewrite strlen_spec; [done|by apply out_of_ok|lia].
Qed.

(** ** Properties *)

(** [itoa] writes the digits of the number: for every 32-bit value and
    every base up to 16 they are digits of the base, without leading zeros, and
    read back as the value; the recursion is at most 33 deep. *)
Theorem itoa_correct value base pre post :
  2 ≤ base ≤ 16 → is_u32 value → (33 ≤ length post)%nat →
  ∃ ds, itoa 33 value base (pre, post) = Ret (pre ++ map digit_char ds, drop (length ds) post) ∧
    undigits base ds = value ∧ Forall (λ d, 0 ≤ d < base) ds ∧
    (1 ≤ length ds)%nat ∧ (head ds = Some 0 → value = 0).
Proof.
  intros Hb Hv Hl. destruct (digits_spec base value Hb Hv) as (Hu & Hf & [Hn Hn2] & Hh).
  exists (digits base value). rewrite itoa_digits by (done || lia). by split_and!.
Qed.

Lemma itoa_correct_witness :
  ∃ ds, itoa 33 255 16 ([], replicate 40 0) = Ret (map digit_char ds, drop (length ds) (replicate 40 0)) ∧
    undigits 16 ds = 255.
Proof.
  destruct (itoa_correct 255 16 [] (replicate 40 0)) as (ds & H & Hu & _);
    [lia|unfold is_u32; lia|cbn; lia|].
  exists ds. split; [exact H|exact Hu].
Defined.

(** C37: a format of characters and the directives [%s], [%c], [%d] and [%x]
    with their arguments is printed as the concatenation of their outputs, into
    a zeroed buffer with room for it and a terminator; the result is the
    length. Signed numbers print right, the most negative one too. *)
Theorem vsprintf_correct ps tl n :
  Forall piece_ok ps → (length (out_of ps) < n)%nat → Z.of_nat n ≤ 4294967296 →
  vsprintf (replicate n 0) (fmt_of ps ++ 0 :: tl) (args_of ps) =
    Ret (out_of ps ++ replicate (n - length (out_of ps)) 0, Z.of_nat (length (out_of ps))).
Proof. apply vsprintf_run. Qed.

Lemma vsprintf_correct_witness :
  vsprintf (replicate 16 0) [97; 61; 37; 100; 33; 0] [VWord (-2147483648)] =
    Ret ([97; 61; 45; 50; 49; 52; 55; 52; 56; 51; 54; 52; 56; 33; 0; 0], 14).
Proof.
  assert (Forall piece_ok [Lit 97; Lit 61; Dec (-2147483648); Lit 33]) as Hok.
  { repeat constructor; done. }
  exact (vsprintf_correct [Lit 97; Lit 61; Dec (-2147483648); Lit 33] [] 16 Hok
    ltac:(vm_compute; lia) ltac:(lia)).
Defined.
