(* ===== verification/Disk.v ===== *)
(** * Sectors and the block device interface

    Byte buffers, little-endian words in them, and [BlockDev]: what the file
    system uses of the disk driver, [ide_read] and [ide_write] (device/ide.c).
    [BlockDevSpec] is the promise of the driver; [Ide] discharges it. *)

From Stdlib Require Import ZArith Lia.
From stdpp Require Import base numbers list gmap.
From S2P Require Import Prelude.

(** ** Buffers *)

(** [memcpy(buf + off, data, length data)]; writing behind the buffer is a
    [Fault]. *)
Definition splice (buf : list Z) (off : Z) (data : list Z) : list Z :=
  take (Z.to_nat off) buf ++ data ++ drop (Z.to_nat off + length data) buf.
Definition put_bytes (buf : list Z) (off : Z) (data : list Z) : outcome (list Z) :=
  if (0 <=? off) && (off + Z.of_nat (length data) <=? Z.of_nat (length buf))
  then Ret (splice buf off data) else Fault.

(** [n] bytes from [buf + off]. *)
Definition slice (buf : list Z) (off n : Z) : list Z := take (Z.to_nat n) (drop (Z.to_nat off) buf).
Definition get_bytes (buf : list Z) (off n : Z) : outcome (list Z) :=
  if (0 <=? off) && (0 <=? n) && (off + n <=? Z.of_nat (length buf))
  then Ret (slice buf off n) else Fault.

Lemma put_bytes_eq buf off data : 0 ≤ off → off + Z.of_nat (length data) ≤ Z.of_nat (length buf) →
  put_bytes buf off data = Ret (splice buf off data).
Proof. intros H1 H2. unfold put_bytes. by rewrite (proj2 (Z.leb_le _ _) H1), (proj2 (Z.leb_le _ _) H2). Qed.

Lemma get_bytes_eq buf off n : 0 ≤ off → 0 ≤ n → off + n ≤ Z.of_nat (length buf) →
  get_bytes buf off n = Ret (slice buf off n).
Proof.
  intros H1 H2 H3. unfold get_bytes.
  by rewrite (proj2 (Z.leb_le _ _) H1), (proj2 (Z.leb_le _ _) H2), (proj2 (Z.leb_le _ _) H3).
Qed.

Lemma splice_length buf off data : 0 ≤ off → off + Z.of_nat (length data) ≤ Z.of_nat (length buf) →
  length (splice buf off data) = length buf.
Proof. intros. unfold splice. rewrite !length_app, length_take, length_drop. lia. Qed.

Lemma slice_length buf off n : 0 ≤ off → 0 ≤ n → off + n ≤ Z.of_nat (length buf) →
  length (slice buf off n) = Z.to_nat n.
Proof. intros. unfold slice. rewrite length_take, length_drop. lia. Qed.

Lemma slice_splice_same buf off data : 0 ≤ off → off + Z.of_nat (length data) ≤ Z.of_nat (length buf) →
  slice (splice buf off data) off (Z.of_nat (length data)) = data.
Proof.
  intros. unfold slice, splice. rewrite drop_app_length' by (rewrite length_take; lia).
  apply take_app_length'. lia.
Qed.

(** Bytes outside the stretch that was written keep their values. *)
Lemma splice_lookup_other buf off data i : 0 ≤ off →
  off + Z.of_nat (length data) ≤ Z.of_nat (length buf) →
  Z.of_nat i < off ∨ off + Z.of_nat (length data) ≤ Z.of_nat i →
  splice buf off data !! i = buf !! i.
Proof.
  intros H1 H2 Hi. unfold splice. destruct Hi as [Hi|Hi].
  - rewrite lookup_app_l by (rewrite length_take; lia). apply lookup_take_lt. lia.
  - rewrite lookup_app_r by (rewrite length_take; lia). rewrite length_take.
    rewrite lookup_app_r by lia. rewrite lookup_drop. f_equal. lia.
Qed.

Lemma splice_lookup buf off data i : 0 ≤ off →
  off + Z.of_nat (length data) ≤ Z.of_nat (length buf) →
  off ≤ Z.of_nat i < off + Z.of_nat (length data) →
  splice buf off data !! i = data !! (i - Z.to_nat off)%nat.
Proof.
  intros H1 H2 Hi. unfold splice. rewrite lookup_app_r by (rewrite length_take; lia).
  rewrite lookup_app_l by (rewrite length_take; lia). f_equal. rewrite length_take. lia.
Qed.

Lemma slice_lookup buf off n i : 0 ≤ off → slice buf off n !! i =
  if decide (Z.of_nat i < n) then buf !! (Z.to_nat off + i)%nat else None.
Proof.
  intros Ho. unfold slice. case_decide.
  - rewrite lookup_take_lt by lia. by rewrite lookup_drop.
  - apply lookup_take_ge. lia.
Qed.

Lemma slice_splice_other buf off data off' n : 0 ≤ off → 0 ≤ off' →
  off + Z.of_nat (length data) ≤ Z.of_nat (length buf) →
  off' + n ≤ off ∨ off + Z.of_nat (length data) ≤ off' →
  slice (splice buf off data) off' n = slice buf off' n.
Proof.
  intros H1 H2 H3 H4. apply list_eq. intros i. rewrite !slice_lookup by done. case_decide; [|done].
  apply splice_lookup_other; lia.
Qed.

Lemma slice_slice buf off n off' n' : 0 ≤ off → 0 ≤ off' → off' + n' ≤ n →
  slice (slice buf off n) off' n' = slice buf (off + off') n'.
Proof.
  intros H1 H2 H3. apply list_eq. intros i. rewrite (slice_lookup _ (off + off')) by lia.
  rewrite slice_lookup by done. case_decide; [|done]. rewrite slice_lookup, decide_True by lia.
  f_equal. lia.
Qed.

Lemma slice_app buf off n m : 0 ≤ off → 0 ≤ n → 0 ≤ m →
  slice buf off (n + m) = slice buf off n ++ slice buf (off + n) m.
Proof.
  intros Ho Hn Hm. unfold slice. rewrite !Z2Nat.inj_add by lia. rewrite <-drop_drop.
  by rewrite take_take_drop.
Qed.

(** ** Little-endian words *)

Definition le32 (w : Z) : list Z := [u8 w; u8 (w / 256); u8 (w / 65536); u8 (w / 16777216)].
Definition of_le32 (bs : list Z) : outcome Z :=
  match bs with
  | [a; b; c; d] => Ret (a + 256 * b + 65536 * c + 16777216 * d)
  | _ => Fault
  end.
(** The 32-bit word at [buf + off]. *)
Definition get_u32 (buf : list Z) (off : Z) : outcome Z := bs ← get_bytes buf off 4; of_le32 bs.

Lemma of_le32_le32 w : is_u32 w → of_le32 (le32 w) = Ret w.
Proof. intros Hw. unfold of_le32, le32. f_equal. zlia. Qed.

Lemma le32_of_le32 a b c d : is_u8 a → is_u8 b → is_u8 c → is_u8 d →
  le32 (a + 256 * b + 65536 * c + 16777216 * d) = [a; b; c; d].
Proof. intros. unfold le32. repeat (apply (f_equal2 cons); [zlia|]). done. Qed.

Lemma le32_length w : length (le32 w) = 4%nat.
Proof. done. Qed.

Lemma le32_u8 w : Forall is_u8 (le32 w).
Proof. unfold le32. repeat constructor; apply u8_range. Qed.

(** ** Block devices *)

(** [ide_read(hd, lba, buf, sec_cnt)] gives back the buffer after the read. *)
Class BlockDev (D : Type) := {
  bd_read : Z → list Z → Z → M D (list Z);
  bd_write : Z → list Z → Z → M D unit
}.

(** The first address behind an 80 MB disk, the driver's limit. *)
Definition disk_end : Z := 163840.

(** A device whose sectors can be read one at a time. *)
Class SectorReads (D : Type) {BD : BlockDev D} := {
  bd_inv : D → Prop;
  bd_sector : D → Z → list Z;
  bd_length d x : bd_inv d → length (bd_sector d x) = 512%nat;
  bd_read_one d lba buf : bd_inv d → 0 ≤ lba → lba + 1 ≤ disk_end → 512 ≤ Z.of_nat (length buf) →
    ∃ d', bd_read lba buf 1 d = Ret (bd_sector d lba ++ drop 512 buf, d') ∧
      bd_inv d' ∧ ∀ x, bd_sector d' x = bd_sector d x
}.

(** One with transfers of any number of sectors. *)
Class BlockDevSpec (D : Type) {BD : BlockDev D} := {
  bd_reads :: SectorReads D;
  bd_read_ok d lba buf cnt : bd_inv d → 0 ≤ lba → 1 ≤ cnt → lba + cnt ≤ disk_end →
    512 * cnt ≤ Z.of_nat (length buf) →
    ∃ d', bd_read lba buf cnt d =
        Ret (concat (map (bd_sector d) (seqZ lba cnt)) ++ drop (Z.to_nat (512 * cnt)) buf, d') ∧
      bd_inv d' ∧ ∀ x, bd_sector d' x = bd_sector d x;
  bd_write_ok d lba buf cnt : bd_inv d → 0 ≤ lba → 1 ≤ cnt → lba + cnt ≤ disk_end →
    512 * cnt ≤ Z.of_nat (length buf) →
    ∃ d', bd_write lba buf cnt d = Ret ((), d') ∧ bd_inv d' ∧
      ∀ x, bd_sector d' x =
        if decide (lba ≤ x < lba + cnt) then slice buf (512 * (x - lba)) 512 else bd_sector d x
}.

(** ** The disk as bytes *)

Section bytes.
Context {D : Type} {BD : BlockDev D} {SR : SectorReads D}.
Implicit Types d : D.

Lemma map_seqZ_lookup (f : Z → Z) a n i : (i < Z.to_nat n)%nat →
  map f (seqZ a n) !! i = Some (f (a + Z.of_nat i)).
Proof.
  intros Hi. change (map f) with (fmap (M := list) f). by rewrite list_lookup_fmap, lookup_seqZ_lt by lia.
Qed.

Lemma map_seqZ_eq (f : Z → Z) a n l : length l = Z.to_nat n →
  (∀ i, (i < Z.to_nat n)%nat → l !! i = Some (f (a + Z.of_nat i))) → map f (seqZ a n) = l.
Proof.
  intros Hl Hi. apply list_eq. intros i. destruct (decide (i < Z.to_nat n)%nat) as [H|H].
  - by rewrite map_seqZ_lookup, Hi.
  - rewrite !lookup_ge_None_2; [done|lia|rewrite List.length_map, length_seqZ; lia].
Qed.

Definition dbyte d (k : Z) : Z := bd_sector d (k / 512) !!! Z.to_nat (k mod 512).
Definition dbytes d (a n : Z) : list Z := map (dbyte d) (seqZ a n).

(** [d'] is [d] with [data] stored at byte [a]. *)
Record wrote d d' (a : Z) (data : list Z) : Prop := {
  wr_inv : bd_inv d';
  wr_byte k : dbyte d' k =
    if decide (a ≤ k < a + Z.of_nat (length data)) then data !!! Z.to_nat (k - a) else dbyte d k
}.
Definition same_bytes d d' : Prop := bd_inv d' ∧ ∀ k, dbyte d' k = dbyte d k.

Lemma dbytes_length d a n : length (dbytes d a n) = Z.to_nat n.
Proof. unfold dbytes. rewrite List.length_map. apply length_seqZ. Qed.

Lemma dbytes_lookup d a n i : (i < Z.to_nat n)%nat → dbytes d a n !! i = Some (dbyte d (a + Z.of_nat i)).
Proof.
  intros Hi. unfold dbytes. change (map (dbyte d)) with (fmap (M := list) (dbyte d)).
  rewrite list_lookup_fmap, lookup_seqZ_lt by lia. done.
Qed.

Lemma dbytes_eq d a n l : length l = Z.to_nat n →
  (∀ i, (i < Z.to_nat n)%nat → l !!! i = dbyte d (a + Z.of_nat i)) → dbytes d a n = l.
Proof.
  intros Hl Hi. apply list_eq. intros i. destruct (decide (i < Z.to_nat n)%nat) as [H|H].
  - rewrite dbytes_lookup by done. rewrite <-Hi by done. symmetry.
    apply list_lookup_lookup_total_lt. lia.
  - rewrite !lookup_ge_None_2; [done|lia|rewrite dbytes_length; lia].
Qed.

Lemma dbytes_ext d d' a n : (∀ k, a ≤ k < a + n → dbyte d' k = dbyte d k) → dbytes d' a n = dbytes d a n.
Proof.
  intros H. apply dbytes_eq; [apply dbytes_length|]. intros i Hi.
  rewrite (list_lookup_total_correct _ _ _ (dbytes_lookup d a n i Hi)). symmetry. apply H. lia.
Qed.

Lemma dbytes_slice d a n off m : 0 ≤ off → 0 ≤ m → off + m ≤ n → slice (dbytes d a n) off m = dbytes d (a + off) m.
Proof.
  intros. symmetry. apply dbytes_eq; [rewrite slice_length by (rewrite ?dbytes_length; lia); lia|].
  intros i Hi. apply list_lookup_total_correct. rewrite slice_lookup, decide_True by lia.
  rewrite dbytes_lookup by lia. do 2 f_equal. lia.
Qed.

Lemma dbytes_same d d' a n : same_bytes d d' → dbytes d' a n = dbytes d a n.
Proof. intros [_ H]. apply dbytes_ext. auto. Qed.

Lemma wrote_same d d' a data : wrote d d' a data → dbytes d' a (Z.of_nat (length data)) = data.
Proof.
  intros [_ H]. apply dbytes_eq; [lia|]. intros i Hi. rewrite H, decide_True by lia. f_equal. lia.
Qed.

Lemma wrote_other d d' a data a' n : wrote d d' a data →
  a' + n ≤ a ∨ a + Z.of_nat (length data) ≤ a' → dbytes d' a' n = dbytes d a' n.
Proof. intros [_ H] Ha. apply dbytes_ext. intros k Hk. rewrite H, decide_False by lia. done. Qed.

Lemma wrote_part d d' a data a' n : wrote d d' a data → a ≤ a' → 0 ≤ n →
  a' + n ≤ a + Z.of_nat (length data) → dbytes d' a' n = slice data (a' - a) n.
Proof.
  intros H Ha Hn Hl. pose proof (dbytes_slice d' a (Z.of_nat (length data)) (a' - a) n) as Hs.
  rewrite (wrote_same _ _ _ _ H) in Hs. rewrite Hs by lia. f_equal. lia.
Qed.

Lemma same_bytes_refl d : bd_inv d → same_bytes d d.
Proof. by split. Qed.
Lemma same_bytes_trans d d1 d2 : same_bytes d d1 → same_bytes d1 d2 → same_bytes d d2.
Proof. intros [_ H1] [Hi H2]. split; [done|]. intros k. by rewrite H2, H1. Qed.
Lemma same_wrote d d1 d2 a data : same_bytes d d1 → wrote d1 d2 a data → wrote d d2 a data.
Proof. intros [_ H1] [Hi H2]. split; [done|]. intros k. rewrite H2. by case_decide. Qed.

Lemma concat_lookup (f : Z → list Z) (n : nat) (lba : Z) i : (∀ x, length (f x) = 512%nat) →
  (i < 512 * n)%nat → concat (map f (seqZ lba (Z.of_nat n))) !! i =
    f (lba + Z.of_nat i / 512) !! Z.to_nat (Z.of_nat i mod 512).
Proof.
  intros Hf. revert lba i. induction n as [|n IH]; intros lba i Hi; [lia|].
  rewrite seqZ_cons by lia. cbn [map concat].
  replace (Z.pred (Z.of_nat (S n))) with (Z.of_nat n) by lia.
  destruct (decide (i < 512)%nat) as [Hlt|Hge].
  - rewrite lookup_app_l by (rewrite Hf; done).
    rewrite Z.div_small, Z.mod_small by lia. by rewrite Z.add_0_r, Nat2Z.id.
  - rewrite lookup_app_r by (rewrite Hf; lia). rewrite Hf, IH by lia.
    replace (Z.of_nat i) with (Z.of_nat (i - 512) + 1 * 512) by lia.
    rewrite Z.div_add, Z_mod_plus_full by lia. f_equal. f_equal. lia.
Qed.

Lemma sectors_bytes d lba cnt : bd_inv d → 0 ≤ cnt →
  concat (map (bd_sector d) (seqZ lba cnt)) = dbytes d (512 * lba) (512 * cnt).
Proof.
  intros Hd Hc. assert (Hf : ∀ x, length (bd_sector d x) = 512%nat) by (intros; by apply bd_length).
  pose proof (concat_lookup (bd_sector d) (Z.to_nat cnt) lba) as Hl. rewrite Z2Nat.id in Hl by done.
  symmetry. assert (Hlen : length (concat (map (bd_sector d) (seqZ lba cnt))) = Z.to_nat (512 * cnt)).
  { clear Hl. rewrite length_concat. rewrite <-(Z2Nat.id cnt) at 1 by done. generalize lba.
    replace (Z.to_nat (512 * cnt)) with (512 * Z.to_nat cnt)%nat by lia.
    induction (Z.to_nat cnt) as [|n IH]; intros l; [done|]. rewrite seqZ_cons by lia. cbn.
    rewrite Hf. replace (Z.pred (Z.of_nat (S n))) with (Z.of_nat n) by lia. rewrite IH. lia. }
  apply dbytes_eq; [done|]. intros i Hi.
  pose proof (list_lookup_lookup_total_lt (concat (map (bd_sector d) (seqZ lba cnt))) i) as Ht.
  rewrite Hl in Ht by (done || lia). unfold dbyte.
  replace (512 * lba + Z.of_nat i) with (Z.of_nat i + lba * 512) by lia.
  rewrite Z.div_add, Z_mod_plus_full by lia. rewrite (Z.add_comm _ lba).
  symmetry. apply list_lookup_total_correct. apply Ht. lia.
Qed.

Lemma bd_read_sector d lba buf : bd_inv d → 0 ≤ lba → lba + 1 ≤ disk_end → 512 ≤ Z.of_nat (length buf) →
  ∃ d', bd_read lba buf 1 d = Ret (dbytes d (512 * lba) 512 ++ drop 512 buf, d') ∧ same_bytes d d'.
Proof.
  intros Hd H1 H2 H3. destruct (bd_read_one d lba buf Hd H1 H2 H3) as (d' & Hr & Hi & Hs).
  exists d'. pose proof (sectors_bytes d lba 1 Hd ltac:(lia)) as Hb. change (seqZ lba 1) with [lba] in Hb.
  cbn [map concat] in Hb. rewrite app_nil_r in Hb. change (512 * 1) with 512 in Hb.
  rewrite Hr, Hb. split; [done|]. split; [done|]. intros k. unfold dbyte. by rewrite Hs.
Qed.
End bytes.

Section transfers.
Context {D : Type} {BD : BlockDev D} {BS : BlockDevSpec D}.
Implicit Types d : D.

Lemma bd_read_bytes d lba buf cnt : bd_inv d → 0 ≤ lba → 1 ≤ cnt → lba + cnt ≤ disk_end →
  512 * cnt ≤ Z.of_nat (length buf) →
  ∃ d', bd_read lba buf cnt d =
      Ret (dbytes d (512 * lba) (512 * cnt) ++ drop (Z.to_nat (512 * cnt)) buf, d') ∧ same_bytes d d'.
Proof.
  intros Hd H1 H2 H3 H4. destruct (bd_read_ok d lba buf cnt Hd H1 H2 H3 H4) as (d' & Hr & Hi & Hs).
  exists d'. rewrite Hr, sectors_bytes by (done || lia). split; [done|]. split; [done|].
  intros k. unfold dbyte. by rewrite Hs.
Qed.

Lemma bd_write_bytes d lba buf cnt : bd_inv d → 0 ≤ lba → 1 ≤ cnt → lba + cnt ≤ disk_end →
  512 * cnt ≤ Z.of_nat (length buf) →
  ∃ d', bd_write lba buf cnt d = Ret ((), d') ∧
    wrote d d' (512 * lba) (take (Z.to_nat (512 * cnt)) buf).
Proof.
  intros Hd H1 H2 H3 H4. destruct (bd_write_ok d lba buf cnt Hd H1 H2 H3 H4) as (d' & Hr & Hi & Hs).
  exists d'. split; [done|]. split; [done|]. intros k. rewrite length_take. unfold dbyte. rewrite Hs.
  repeat case_decide; [|zlia|zlia|done].
  rewrite lookup_total_take by zlia. apply list_lookup_total_correct.
  rewrite slice_lookup, decide_True by zlia. rewrite list_lookup_lookup_total_lt by zlia.
  rewrite decide_True by zlia. do 2 f_equal. zlia.
Qed.
End transfers.

(** ** A disk in memory: the interface can be met *)

Definition ram : Type := Z → list Z.
Definition ram_sector (d : ram) (x : Z) : list Z := resize 512 0 (d x).

#[export] Instance ram_dev : BlockDev ram := {|
  bd_read lba buf cnt := λ d,
    Ret (concat (map (ram_sector d) (seqZ lba cnt)) ++ drop (Z.to_nat (512 * cnt)) buf, d);
  bd_write lba buf cnt := λ d,
    Ret ((), λ x, if decide (lba ≤ x < lba + cnt) then slice buf (512 * (x - lba)) 512 else d x)
|}.

#[export, program] Instance ram_reads : SectorReads ram := {|
  bd_inv _ := True; bd_sector := ram_sector
|}.
Next Obligation. intros d x _. apply length_resize. Qed.
Next Obligation.
  intros d lba buf _ _ _ _. exists d. cbn [bd_read ram_dev]. change (seqZ lba 1) with [lba].
  cbn [map concat]. by rewrite app_nil_r.
Qed.

#[export, program] Instance ram_spec : BlockDevSpec ram := {| bd_reads := ram_reads |}.
Next Obligation. intros d lba buf cnt _ _ _ _ _. by exists d. Qed.
Next Obligation.
  intros d lba buf cnt _ H1 H2 H3 H4. eexists. split; [done|]. split; [done|].
  intros x. cbn. unfold ram_sector. cbn. case_decide; [|done].
  rewrite resize_ge, slice_length; rewrite ?slice_length; try lia. by rewrite app_nil_r.
Qed.
