(* ===== verification/Ide.v ===== *)
(** * The disk driver (device/ide.c)

    Transfers of sectors through an ATA channel in PIO mode. The controller
    is the parameter [Ata]: port accesses and its interrupts; its documented
    behaviour is [AtaSpec], a block of data and an interrupt for every sector.
    The driver waits once for a command. On any controller it moves single
    sectors ([SectorReads]); on one that is ready for the next block at once,
    [AtaPrompt], it moves any number, a [BlockDev] that keeps [BlockDevSpec]. The scan of the partition tables is in [Parts], the start
    of the driver in [IdeInit]. *)

From Stdlib Require Import ZArith Lia.
From stdpp Require Import base numbers list gmap.
From S2P Require Import Prelude DList Thread Memory Disk.

(** ** The controller *)

(** [outb], [inb], [insw] and [outsw] of lib/kernel/io.h on the controller's
    ports; [wait_intr] lets time pass until its interrupt comes and gives the
    interrupt's number, [raised] is the interrupt that has come meanwhile, if
    one has. *)
Class Ata (H : Type) := {
  outb : Z → Z → M H unit;
  inb : Z → M H Z;
  insw : Z → Z → M H (list Z);
  outsw : Z → list Z → M H unit;
  wait_intr : M H Z;
  raised : M H (option Z)
}.

(** [struct ide_channel], with the state of its controller. *)
Record ide_channel (H : Type) := Channel {
  hw : H;
  port_base : Z;
  irq_no : Z;
  ch_lock : lock;
  expecting_intr : bool;
  disk_done : Z
}.
Arguments Channel {H}. Arguments hw {H}. Arguments port_base {H}. Arguments irq_no {H}.
Arguments ch_lock {H}. Arguments expecting_intr {H}. Arguments disk_done {H}.

Definition BIT_STAT_BSY : Z := 0x80.
Definition BIT_STAT_DRQ : Z := 0x8.
Definition BIT_DEV_MBS : Z := 0xa0.
Definition BIT_DEV_LBA : Z := 0x40.
Definition BIT_DEV_DEV : Z := 0x10.
Definition CMD_IDENTIFY : Z := 0xec.
Definition CMD_READ_SECTOR : Z := 0x20.
Definition CMD_WRITE_SECTOR : Z := 0x30.
Definition max_lba : Z := 80 * 1024 * 1024 / 512 - 1.

(** ** The driver *)

Section driver.
Context {H : Type} {A : Ata H}.
Abbreviation C := (M (ide_channel H)).

Definition hw_lens : lens (ide_channel H) H := Lens hw (λ h c,
  Channel h (port_base c) (irq_no c) (ch_lock c) (expecting_intr c) (disk_done c)).
Definition set_expecting (b : bool) : C unit := modify (λ c,
  Channel (hw c) (port_base c) (irq_no c) (ch_lock c) b (disk_done c)).
Definition set_done (v : Z) : C unit := modify (λ c,
  Channel (hw c) (port_base c) (irq_no c) (ch_lock c) (expecting_intr c) v).
Definition set_ch_lock (k : lock) : C unit := modify (λ c,
  Channel (hw c) (port_base c) (irq_no c) k (expecting_intr c) (disk_done c)).

Definition reg_data : C Z := gets (λ c, port_base c + 0).
Definition reg_sect_cnt : C Z := gets (λ c, port_base c + 2).
Definition reg_lba_l : C Z := gets (λ c, port_base c + 3).
Definition reg_lba_m : C Z := gets (λ c, port_base c + 4).
Definition reg_lba_h : C Z := gets (λ c, port_base c + 5).
Definition reg_dev : C Z := gets (λ c, port_base c + 6).
Definition reg_status : C Z := gets (λ c, port_base c + 7).
Definition reg_cmd : C Z := reg_status.

(** An [outb] to a register of the channel; the data are a byte. *)
Definition out_reg (reg : C Z) (v : Z) : C unit := p ← reg; zoom hw_lens (outb p (u8 v)).

Definition dev_bit (dev_no : Z) : Z := if dev_no =? 1 then BIT_DEV_DEV else 0.

Definition select_disk (dev_no : Z) : C unit :=
  out_reg reg_dev (Z.lor (Z.lor BIT_DEV_MBS BIT_DEV_LBA) (dev_bit dev_no)).

(** [sec_cnt] is a [uint8_t] here: 256 becomes 0. *)
Definition select_sector (dev_no lba sec_cnt : Z) : C unit :=
  _ ← ASSERT (lba <=? max_lba);
  _ ← out_reg reg_sect_cnt sec_cnt;
  _ ← out_reg reg_lba_l lba;
  _ ← out_reg reg_lba_m (Z.shiftr lba 8);
  _ ← out_reg reg_lba_h (Z.shiftr lba 16);
  out_reg reg_dev (Z.lor (Z.lor (Z.lor BIT_DEV_MBS BIT_DEV_LBA) (dev_bit dev_no)) (Z.shiftr lba 24)).

Definition cmd_out (cmd : Z) : C unit :=
  _ ← set_expecting true;
  out_reg reg_cmd cmd.

Definition size_in_byte (sec_cnt : Z) : Z := if sec_cnt =? 0 then 256 * 512 else sec_cnt * 512.

Definition intr_hd_handler (irq : Z) : C unit :=
  _ ← ASSERT ((irq =? 0x2e) || (irq =? 0x2f));
  no ← gets irq_no;
  _ ← ASSERT (no =? irq);
  e ← gets expecting_intr;
  if e : bool then
    _ ← set_expecting false;
    v ← gets disk_done;
    _ ← ASSERT (v =? 0);
    _ ← set_done 1;
    p ← reg_status;
    _ ← zoom hw_lens (inb p);
    mret ()
  else mret ().

(** The processor takes the interrupt that has come. *)
Definition take_intr : C unit :=
  o ← zoom hw_lens raised;
  match o with None => mret () | Some irq => intr_hd_handler irq end.

(** [rep insw] and [rep outsw] over the blocks of 256 words that the controller
    has ready or waits for one after the other. Interrupts are on, and what the
    controller raises after a block is taken. *)
Fixpoint insw_blocks (n : nat) (port : Z) : C (list Z) :=
  match n with
  | O => mret []
  | S n =>
    data ← zoom hw_lens (insw port 256);
    _ ← take_intr;
    rest ← insw_blocks n port;
    mret (data ++ rest)
  end.
Definition rep_insw (port words : Z) : C (list Z) := insw_blocks (Z.to_nat (words / 256)) port.

Fixpoint outsw_blocks (n : nat) (port : Z) (data : list Z) : C unit :=
  match n with
  | O => mret ()
  | S n =>
    _ ← zoom hw_lens (outsw port (take 512 data));
    _ ← take_intr;
    outsw_blocks n port (drop 512 data)
  end.
Definition rep_outsw (port : Z) (data : list Z) (words : Z) : C unit := outsw_blocks (Z.to_nat (words / 256)) port data.

(** The buffer [buf] from offset [off] on is filled. *)
Definition read_from_sector (buf : list Z) (off sec_cnt : Z) : C (list Z) :=
  p ← reg_data;
  data ← rep_insw p (size_in_byte (u8 sec_cnt) / 2);
  lift (put_bytes buf off data).

Definition write2sector (buf : list Z) (off sec_cnt : Z) : C unit :=
  data ← lift (get_bytes buf off (size_in_byte (u8 sec_cnt)));
  p ← reg_data;
  rep_outsw p data (size_in_byte (u8 sec_cnt) / 2).

(** [while (time_limit -= 10 >= 0)] subtracts 1. *)
Fixpoint busy_wait_loop (time_limit : nat) : C bool :=
  match time_limit with
  | O | S O => mret false
  | S time_limit =>
    p ← reg_status;
    st ← zoom hw_lens (inb p);
    if Z.land st BIT_STAT_BSY =? 0 then
      st ← zoom hw_lens (inb p);
      mret (negb (Z.land st BIT_STAT_DRQ =? 0))
    else busy_wait_loop time_limit
  end.
Definition busy_wait : C bool := busy_wait_loop (Z.to_nat (30 * 1000)).

(** [sema_down(&channel->disk_done)]: the thread sleeps until the handler of
    the controller's interrupt wakes it, unless that has come already. *)
Definition disk_done_down : C unit :=
  v ← gets disk_done;
  if v =? 0 then
    irq ← zoom hw_lens wait_intr;
    _ ← intr_hd_handler irq;
    v ← gets disk_done;
    if v =? 0 then lift Spin else set_done (v - 1)
  else set_done (v - 1).

Definition channel_lock (t : Z) : C unit := k ← gets ch_lock; k ← lift (acquire k t); set_ch_lock k.
Definition channel_unlock (t : Z) : C unit := k ← gets ch_lock; k ← lift (release k t); set_ch_lock k.

(** The sectors of one command. *)
Definition secs_op (secs_done sec_cnt : Z) : Z :=
  if u32 (secs_done + 256) <=? sec_cnt then 256 else sec_cnt - secs_done.

Definition read_op (dev_no lba op : Z) (buf : list Z) (off : Z) : C (list Z) :=
  _ ← select_sector dev_no lba op;
  _ ← cmd_out CMD_READ_SECTOR;
  _ ← disk_done_down;
  ok ← busy_wait;
  if negb ok then PANIC else read_from_sector buf off op.

Fixpoint ide_read_loop (fuel : nat) (dev_no lba : Z) (buf : list Z) (secs_done sec_cnt : Z)
    : C (list Z) :=
  match fuel with
  | O => lift Spin
  | S fuel =>
    if secs_done <? sec_cnt then
      let op := secs_op secs_done sec_cnt in
      buf ← read_op dev_no (u32 (lba + secs_done)) op buf (secs_done * 512);
      ide_read_loop fuel dev_no lba buf (secs_done + op) sec_cnt
    else mret buf
  end.

(** [t] is the running thread. *)
Definition ide_read (t dev_no lba : Z) (buf : list Z) (sec_cnt : Z) : C (list Z) :=
  _ ← ASSERT (lba <=? max_lba);
  _ ← ASSERT (0 <? sec_cnt);
  _ ← channel_lock t;
  _ ← select_disk dev_no;
  buf ← ide_read_loop (S (Z.to_nat sec_cnt)) dev_no lba buf 0 sec_cnt;
  _ ← channel_unlock t;
  mret buf.

Definition write_op (dev_no lba op : Z) (buf : list Z) (off : Z) : C unit :=
  _ ← select_sector dev_no lba op;
  _ ← cmd_out CMD_WRITE_SECTOR;
  ok ← busy_wait;
  if negb ok then PANIC else
  _ ← write2sector buf off op;
  disk_done_down.

Fixpoint ide_write_loop (fuel : nat) (dev_no lba : Z) (buf : list Z) (secs_done sec_cnt : Z)
    : C unit :=
  match fuel with
  | O => lift Spin
  | S fuel =>
    if secs_done <? sec_cnt then
      let op := secs_op secs_done sec_cnt in
      _ ← write_op dev_no (u32 (lba + secs_done)) op buf (secs_done * 512);
      ide_write_loop fuel dev_no lba buf (secs_done + op) sec_cnt
    else mret ()
  end.

Definition ide_write (t dev_no lba : Z) (buf : list Z) (sec_cnt : Z) : C unit :=
  _ ← ASSERT (lba <=? max_lba);
  _ ← ASSERT (0 <? sec_cnt);
  _ ← channel_lock t;
  _ ← select_disk dev_no;
  _ ← ide_write_loop (S (Z.to_nat sec_cnt)) dev_no lba buf 0 sec_cnt;
  channel_unlock t.
End driver.

(** ** The documented behaviour of the controller *)

(** What the drive that was selected does. Of the [cnt] sectors that are left of a
    command the first is [lba]; [Reading] and [Writing] are for a drive that
    moves a sector between its buffer and the medium, [DataIn] and [DataOut] for
    one whose buffer holds a sector or waits for one. *)
Inductive phase :=
  | Idle
  | Reading (dev lba cnt : Z)
  | DataIn (dev lba cnt : Z)
  | DataOut (dev lba cnt : Z)
  | Writing (dev lba cnt : Z)
  | Identify (dev : Z)
  | IdentifyIn (dev : Z).

(** The drive has data or waits for them. *)
Definition has_data (p : phase) : bool :=
  match p with DataIn _ _ _ | DataOut _ _ _ | IdentifyIn _ => true | _ => false end.
(** The drive works, and becomes ready with an interrupt. *)
Definition working (p : phase) : bool :=
  match p with Reading _ _ _ | Writing _ _ _ | Identify _ => true | _ => false end.
Definition ready_phase (p : phase) : phase :=
  match p with
  | Reading dev lba cnt => DataIn dev lba cnt
  | Writing dev lba cnt => if cnt =? 0 then Idle else DataOut dev lba cnt
  | Identify dev => IdentifyIn dev
  | _ => p
  end.

(** Reading and writing sectors in PIO mode: a block of 256 words and an
    interrupt for every sector. A drive between two commands has its registers
    [a_reg]; [a_busy] is for how many more polls the status of a drive that is
    ready says busy, short of the driver's time limit; [a_intrq] is the
    interrupt line, which the command and reading the status take back and
    which interrupts when it rises. The drive may become ready at any time after
    a block ([a_raised]); what the data port does before is not documented.
    [a_id] is what a drive says of itself. *)
Class AtaSpec (H : Type) {A : Ata H} (base irq : Z) := {
  a_reg : H → Z → Z;
  a_disk : H → Z → Z → list Z;
  a_phase : H → phase;
  a_busy : H → Z;
  a_intrq : H → bool;
  a_disk_length h dev x : length (a_disk h dev x) = 512%nat;
  a_busy_pos h : 0 ≤ a_busy h;
  a_out_reg h r v : 2 ≤ r ≤ 6 → a_phase h = Idle →
    ∃ h', outb (base + r) v h = Ret ((), h') ∧ a_phase h' = Idle ∧
      (∀ dev x, a_disk h' dev x = a_disk h dev x) ∧
      ∀ r', a_reg h' r' = if decide (r' = r) then v else a_reg h r';
  a_command h c dev lba cnt : c = CMD_READ_SECTOR ∨ c = CMD_WRITE_SECTOR → a_phase h = Idle →
    dev = (if Z.testbit (a_reg h 6) 4 then 1 else 0) → Z.testbit (a_reg h 6) 6 = true →
    lba = a_reg h 3 + 256 * a_reg h 4 + 65536 * a_reg h 5 + 16777216 * (a_reg h 6 mod 16) →
    cnt = (if a_reg h 2 =? 0 then 256 else a_reg h 2) → lba + cnt ≤ disk_end →
    ∃ h', outb (base + 7) c h = Ret ((), h') ∧
      a_phase h' = (if c =? CMD_READ_SECTOR then Reading dev lba cnt else DataOut dev lba cnt) ∧
      a_busy h' < 29998 ∧ a_intrq h' = false ∧ ∀ dev x, a_disk h' dev x = a_disk h dev x;
  a_wait h : working (a_phase h) = true → a_intrq h = false →
    ∃ h', wait_intr h = Ret (irq, h') ∧ a_phase h' = ready_phase (a_phase h) ∧ a_busy h' < 29998 ∧
      ∀ dev x, a_disk h' dev x = a_disk h dev x;
  a_raised h : ∃ o h', raised h = Ret (o, h') ∧ (∀ dev x, a_disk h' dev x = a_disk h dev x) ∧
    (o = None ∧ a_phase h' = a_phase h ∧ a_intrq h' = a_intrq h ∨
     working (a_phase h) = true ∧ a_phase h' = ready_phase (a_phase h) ∧ a_intrq h' = true ∧
       o = if a_intrq h then None else Some irq);
  a_status h : working (a_phase h) = false → ∃ v h', inb (base + 7) h = Ret (v, h') ∧ a_phase h' = a_phase h ∧
    a_busy h' = Z.max 0 (a_busy h - 1) ∧ a_intrq h' = false ∧ (∀ dev x, a_disk h' dev x = a_disk h dev x) ∧
    ((Z.land v BIT_STAT_BSY =? 0) = (a_busy h =? 0)) ∧
    (a_busy h = 0 → has_data (a_phase h) = true →
      (Z.land v BIT_STAT_DRQ =? 0) = false);
  a_data_in h dev lba cnt : a_phase h = DataIn dev lba cnt →
    ∃ h', insw base 256 h = Ret (a_disk h dev lba, h') ∧
      a_phase h' = (if cnt =? 1 then Idle else Reading dev (lba + 1) (cnt - 1)) ∧
      ∀ dev x, a_disk h' dev x = a_disk h dev x;
  a_data_out h dev lba cnt bs : a_phase h = DataOut dev lba cnt → length bs = 512%nat →
    ∃ h', outsw base bs h = Ret ((), h') ∧ a_phase h' = Writing dev (lba + 1) (cnt - 1) ∧
      a_intrq h' = a_intrq h ∧
      ∀ dev' x, a_disk h' dev' x = if decide (dev' = dev ∧ x = lba) then bs else a_disk h dev' x;
  a_id : Z → list Z;
  a_id_length dev : length (a_id dev) = 512%nat;
  a_identify h dev : a_phase h = Idle → dev = (if Z.testbit (a_reg h 6) 4 then 1 else 0) →
    ∃ h', outb (base + 7) CMD_IDENTIFY h = Ret ((), h') ∧ a_phase h' = Identify dev ∧ a_intrq h' = false ∧
      ∀ dev x, a_disk h' dev x = a_disk h dev x;
  a_data_identify h dev : a_phase h = IdentifyIn dev →
    ∃ h', insw base 256 h = Ret (a_id dev, h') ∧ a_phase h' = Idle ∧
      ∀ dev x, a_disk h' dev x = a_disk h dev x
}.

(** A drive, or an emulator, that after a block is ready for the next one at
    once. The driver asks the drive only once for all the blocks of a command,
    so that with commands of several sectors it works on such drives only. *)
Class AtaPrompt (H : Type) {A : Ata H} (base irq : Z) {AS : AtaSpec H base irq} : Prop :=
  a_prompt (h : H) : working (a_phase h) = true →
    match raised h with Ret (_, h') => a_phase h' = ready_phase (a_phase h) | _ => False end.

(** ** Transfers *)

Section transfers.
Context {H : Type} {A : Ata H} {base irq : Z} {AS : AtaSpec H base irq}.
Implicit Types c : ide_channel H.

Definition with_hw (h : H) c : ide_channel H :=
  Channel h (port_base c) (irq_no c) (ch_lock c) (expecting_intr c) (disk_done c).

(** The same drives, with the same sectors. *)
Definition same_disk (h h' : H) : Prop := ∀ dev x, a_disk h' dev x = a_disk h dev x.

(** A channel of this controller. *)
Record channel_ok c : Prop := {
  co_base : port_base c = base;
  co_irq : irq_no c = irq ∧ (irq = 0x2e ∨ irq = 0x2f);
  co_done : disk_done c = 0
}.
Definition idle c : Prop := a_phase (hw c) = Idle.

Lemma channel_ok_hw h c : channel_ok c → channel_ok (with_hw h c).
Proof. intros []. by split. Qed.

(** The same, with an interrupt that was not waited for yet. *)
Definition wired c : Prop := port_base c = base ∧ irq_no c = irq ∧ (irq = 0x2e ∨ irq = 0x2f).
Lemma channel_wired c : channel_ok c → wired c.
Proof. intros [? [? ?] ?]. by split_and!. Qed.

Lemma same_disk_trans h1 h2 h3 : same_disk h1 h2 → same_disk h2 h3 → same_disk h1 h3.
Proof. intros H1 H2 d x. by rewrite H2, H1. Qed.

Lemma working_ready p : working (ready_phase p) = false.
Proof. destruct p as [| | | |dev lba cnt| |]; try done. cbn. by destruct (cnt =? 0). Qed.
Lemma has_data_working p : has_data p = true → working p = false.
Proof. by destruct p. Qed.

Lemma out_reg_run (reg : M (ide_channel H) Z) r v c : (∀ c, reg c = Ret (port_base c + r, c)) →
  channel_ok c → idle c → 2 ≤ r ≤ 6 →
  ∃ h', out_reg reg v c = Ret ((), with_hw h' c) ∧ a_phase h' = Idle ∧ same_disk (hw c) h' ∧
    ∀ r', a_reg h' r' = if decide (r' = r) then u8 v else a_reg (hw c) r'.
Proof.
  intros Hreg Hc Hi Hr. destruct (a_out_reg (hw c) r (u8 v) Hr Hi) as (h' & Hrun & Hp & Hs & Hrg).
  exists h'. split; [|done]. unfold out_reg. rewrite (M_bind_Ret _ _ _ _ _ (Hreg c)), (co_base _ Hc).
  apply (zoom_Ret hw_lens _ c () h' Hrun).
Qed.

(** The registers after [select_sector], read as the drive reads them. *)
Lemma select_sector_run dev lba op c : channel_ok c → idle c → dev = 0 ∨ dev = 1 →
  0 ≤ lba → 1 ≤ op ≤ 256 → lba + op ≤ disk_end →
  ∃ h', select_sector dev lba op c = Ret ((), with_hw h' c) ∧ a_phase h' = Idle ∧
    same_disk (hw c) h' ∧ (if Z.testbit (a_reg h' 6) 4 then 1 else 0) = dev ∧
    Z.testbit (a_reg h' 6) 6 = true ∧
    a_reg h' 3 + 256 * a_reg h' 4 + 65536 * a_reg h' 5 + 16777216 * (a_reg h' 6 mod 16) = lba ∧
    (if a_reg h' 2 =? 0 then 256 else a_reg h' 2) = op.
Proof.
  unfold disk_end. intros Hc Hi Hdev Hlba Hop Hend.
  assert (Z.shiftr lba 24 = 0) as H24 by (rewrite Z.shiftr_div_pow2 by done; zlia).
  unfold select_sector. change max_lba with 163839. destruct (Z.leb_spec lba 163839); [|lia].
  rewrite bind_ASSERT_true, H24, !Z.shiftr_div_pow2 by done.
  destruct (out_reg_run reg_sect_cnt 2 op c) as (h1 & H1 & Hp1 & Hs1 & Hr1); [done|done|done|lia|].
  rewrite (M_bind_Ret _ _ _ _ _ H1).
  destruct (out_reg_run reg_lba_l 3 lba (with_hw h1 c)) as (h2 & H2 & Hp2 & Hs2 & Hr2);
    [done|by apply channel_ok_hw|done|lia|]. rewrite (M_bind_Ret _ _ _ _ _ H2).
  destruct (out_reg_run reg_lba_m 4 (lba / 2 ^ 8) (with_hw h2 c)) as (h3 & H3 & Hp3 & Hs3 & Hr3);
    [done|by apply channel_ok_hw|done|lia|]. rewrite (M_bind_Ret _ _ _ _ _ H3).
  destruct (out_reg_run reg_lba_h 5 (lba / 2 ^ 16) (with_hw h3 c)) as (h4 & H4 & Hp4 & Hs4 & Hr4);
    [done|by apply channel_ok_hw|done|lia|]. rewrite (M_bind_Ret _ _ _ _ _ H4).
  destruct (out_reg_run reg_dev 6 (Z.lor (Z.lor (Z.lor BIT_DEV_MBS BIT_DEV_LBA) (dev_bit dev)) 0)
    (with_hw h4 c)) as (h5 & H5 & Hp5 & Hs5 & Hr5); [done|by apply channel_ok_hw|done|lia|].
  exists h5. split; [exact H5|]. split; [done|].
  split; [intros d x; by rewrite Hs5, Hs4, Hs3, Hs2, Hs1|].
  cbn [hw with_hw] in *.
  assert (a_reg h5 2 = u8 op) as -> by (by rewrite Hr5, Hr4, Hr3, Hr2, Hr1).
  assert (a_reg h5 3 = u8 lba) as -> by (by rewrite Hr5, Hr4, Hr3, Hr2).
  assert (a_reg h5 4 = u8 (lba / 2 ^ 8)) as -> by (by rewrite Hr5, Hr4, Hr3).
  assert (a_reg h5 5 = u8 (lba / 2 ^ 16)) as -> by (by rewrite Hr5, Hr4).
  rewrite (Hr5 6), decide_True by done.
  split_and!.
  - by destruct Hdev as [-> | ->].
  - by destruct Hdev as [-> | ->].
  - replace (u8 _ mod 16) with 0 by (by destruct Hdev as [-> | ->]). zlia.
  - destruct (Z.eqb_spec (u8 op) 0); zlia.
Qed.

Lemma cmd_run cmd dev lba op c : channel_ok c → idle c → dev = 0 ∨ dev = 1 →
  0 ≤ lba → 1 ≤ op ≤ 256 → lba + op ≤ disk_end → cmd = CMD_READ_SECTOR ∨ cmd = CMD_WRITE_SECTOR →
  ∃ h', (_ ← select_sector dev lba op; cmd_out cmd) c =
      Ret ((), Channel h' (port_base c) (irq_no c) (ch_lock c) true (disk_done c)) ∧
    a_phase h' = (if cmd =? CMD_READ_SECTOR then Reading dev lba op else DataOut dev lba op) ∧
    a_busy h' < 29998 ∧ a_intrq h' = false ∧ same_disk (hw c) h'.
Proof.
  intros Hc Hi Hdev Hlba Hop Hend Hcmd.
  destruct (select_sector_run dev lba op c) as (h1 & H1 & Hp & Hs & Hd & H6 & Hl & Ho); [done..|].
  rewrite (M_bind_Ret _ _ _ _ _ H1).
  destruct (a_command h1 cmd dev lba op Hcmd Hp (eq_sym Hd) H6 (eq_sym Hl) (eq_sym Ho) Hend)
    as (h2 & H2 & Hp2 & Hb2 & Hq2 & Hs2).
  exists h2. split; [|split_and!; [done|done|done|intros d x; by rewrite Hs2]].
  unfold cmd_out, set_expecting. rewrite bind_modify. unfold out_reg, reg_cmd, reg_status.
  rewrite bind_gets. replace (u8 cmd) with cmd by (by destruct Hcmd as [-> | ->]).
  rewrite (zoom_Ret hw_lens _ _ () h2); [done|]. cbn. by rewrite (co_base _ Hc).
Qed.

Lemma busy_wait_run n c : channel_ok c → a_busy (hw c) + 2 ≤ Z.of_nat n →
  has_data (a_phase (hw c)) = true →
  ∃ h', busy_wait_loop n c = Ret (true, with_hw h' c) ∧ a_phase h' = a_phase (hw c) ∧
    a_intrq h' = false ∧ same_disk (hw c) h'.
Proof.
  revert c. induction n as [|n IH]; intros c Hc Hn Hph; [pose proof (a_busy_pos (hw c)); lia|].
  pose proof (a_busy_pos (hw c)) as Hpos. destruct n as [|n]; [lia|].
  cbn [busy_wait_loop]. unfold reg_status. rewrite bind_gets.
  destruct (a_status (hw c) (has_data_working _ Hph)) as (v & h1 & Hin & Hp1 & Hb1 & _ & Hs1 & Hbsy & _).
  rewrite (co_base _ Hc). rewrite (bind_zoom hw_lens _ _ c v h1 Hin), Hbsy.
  change (over hw_lens h1 c) with (with_hw h1 c).
  destruct (Z.eqb_spec (a_busy (hw c)) 0) as [Hz|Hz].
  - destruct (a_status h1) as (v2 & h2 & Hin2 & Hp2 & _ & Hq2 & Hs2 & _ & Hdrq); [by rewrite Hp1; apply has_data_working|].
    rewrite (bind_zoom hw_lens _ _ (with_hw h1 c) v2 h2 Hin2), ret_eq, Hdrq by (lia || by rewrite Hp1).
    exists h2. split; [done|]. split; [congruence|]. split; [done|]. intros d x. by rewrite Hs2.
  - destruct (IH (with_hw h1 c)) as (h2 & H2 & Hp2 & Hq2 & Hs2); [by apply channel_ok_hw|cbn; lia|cbn; by rewrite Hp1|].
    exists h2. split; [exact H2|]. cbn in Hp2. split; [congruence|]. split; [done|]. intros d x. by rewrite Hs2.
Qed.

(** A drive that stays busy uses up the time limit. *)
Lemma busy_wait_timeout n c : channel_ok c → (n ≠ 0)%nat → Z.of_nat n ≤ a_busy (hw c) + 1 →
  has_data (a_phase (hw c)) = true →
  ∃ h', busy_wait_loop n c = Ret (false, with_hw h' c) ∧ a_phase h' = a_phase (hw c) ∧
    same_disk (hw c) h'.
Proof.
  revert c. induction n as [|n IH]; intros c Hc Hn0 Hn Hph; [done|]. clear Hn0.
  destruct n as [|n].
  { exists (hw c). split_and!; [|done|done]. by destruct c. }
  cbn [busy_wait_loop]. unfold reg_status. rewrite bind_gets.
  destruct (a_status (hw c) (has_data_working _ Hph)) as (v & h1 & Hin & Hp1 & Hb1 & _ & Hs1 & Hbsy & _).
  rewrite (co_base _ Hc). rewrite (bind_zoom hw_lens _ _ c v h1 Hin), Hbsy.
  destruct (Z.eqb_spec (a_busy (hw c)) 0); [lia|]. change (over hw_lens h1 c) with (with_hw h1 c).
  destruct (IH (with_hw h1 c)) as (h2 & H2 & Hp2 & Hs2); [by apply channel_ok_hw|done|cbn; lia|cbn; by rewrite Hp1|].
  exists h2. split; [exact H2|]. cbn in Hp2. split; [congruence|]. intros d x. by rewrite Hs2.
Qed.

(** The handler of an interrupt that is expected, and of one that is not. *)
Lemma handler_taken c : wired c → expecting_intr c = true → disk_done c = 0 → working (a_phase (hw c)) = false →
  ∃ h', intr_hd_handler irq c = Ret ((), Channel h' (port_base c) (irq_no c) (ch_lock c) false 1) ∧
    a_phase h' = a_phase (hw c) ∧ a_busy h' ≤ a_busy (hw c) ∧ same_disk (hw c) h'.
Proof.
  intros (Hb & Hq & Hq') He Hd Hw. destruct (a_status (hw c) Hw) as (v & h2 & Hin & Hp2 & Hb2 & _ & Hs2 & _).
  pose proof (a_busy_pos (hw c)). exists h2. split; [|split_and!; [done|lia|done]].
  unfold intr_hd_handler. replace ((irq =? 0x2e) || (irq =? 0x2f)) with true by (by destruct Hq' as [-> | ->]).
  rewrite bind_ASSERT_true, bind_gets, Hq, Z.eqb_refl, bind_ASSERT_true, bind_gets, He.
  unfold set_expecting, set_done, reg_status. rewrite bind_modify, bind_gets. cbn [disk_done]. rewrite Hd.
  change (0 =? 0) with true. rewrite bind_ASSERT_true, bind_modify, bind_gets.
  cbn [hw port_base irq_no ch_lock expecting_intr disk_done]. rewrite Hb.
  erewrite (bind_zoom hw_lens); [|exact Hin]. cbn. by rewrite Hq.
Qed.

Lemma handler_ignored c : wired c → expecting_intr c = false → intr_hd_handler irq c = Ret ((), c).
Proof.
  intros (Hb & Hq & Hq') He. unfold intr_hd_handler.
  replace ((irq =? 0x2e) || (irq =? 0x2f)) with true by (by destruct Hq' as [-> | ->]).
  by rewrite bind_ASSERT_true, bind_gets, Hq, Z.eqb_refl, bind_ASSERT_true, bind_gets, He.
Qed.

(** The wait for the interrupt: the handler finds the channel expecting it. *)
Lemma disk_done_down_run c h1 : channel_ok c → expecting_intr c = true →
  wait_intr (hw c) = Ret (irq, h1) → working (a_phase h1) = false →
  ∃ h', disk_done_down c = Ret ((), Channel h' (port_base c) (irq_no c) (ch_lock c) false 0) ∧
    a_phase h' = a_phase h1 ∧ a_busy h' ≤ a_busy h1 ∧ same_disk h1 h'.
Proof.
  intros Hc He Hw Hwk. pose proof (channel_wired _ (channel_ok_hw h1 c Hc)) as Hwi.
  destruct (handler_taken (with_hw h1 c) Hwi He (co_done _ Hc) Hwk) as (h2 & Hh & Hrest). exists h2. split; [|done].
  unfold disk_done_down. rewrite bind_gets, (co_done _ Hc). change (0 =? 0) with true. cbv iota.
  rewrite (bind_zoom hw_lens _ _ c irq h1 Hw). change (over hw_lens h1 c) with (with_hw h1 c).
  by rewrite (M_bind_Ret _ _ _ _ _ Hh), bind_gets.
Qed.

(** It has come already. *)
Lemma disk_done_down_now c : disk_done c = 1 →
  disk_done_down c = Ret ((), Channel (hw c) (port_base c) (irq_no c) (ch_lock c) (expecting_intr c) 0).
Proof. intros Hd. unfold disk_done_down. by rewrite bind_gets, Hd. Qed.

(** An interrupt between two blocks that is not expected changes nothing. *)
Lemma take_intr_ignored c : wired c → expecting_intr c = false →
  ∃ h', take_intr c = Ret ((), with_hw h' c) ∧ same_disk (hw c) h' ∧
    (working (a_phase (hw c)) = false → a_phase h' = a_phase (hw c)) ∧
    (AtaPrompt H base irq → a_phase h' = ready_phase (a_phase (hw c))).
Proof.
  intros Hwi He. destruct (a_raised (hw c)) as (o & h' & Hr & Hs & Hcase). exists h'. split; [|split; [done|split]].
  - unfold take_intr. rewrite (bind_zoom hw_lens _ _ c o h' Hr). change (over hw_lens h' c) with (with_hw h' c).
    assert (Ho : o = None ∨ o = Some irq) by (destruct Hcase as [(-> & _)|(_ & _ & _ & ->)]; [|case_match]; auto).
    destruct Ho as [-> | ->]; [done|]. by apply handler_ignored.
  - intros Hw. destruct Hcase as [(_ & -> & _)|(Hw' & _)]; [done|congruence].
  - intros Hpr. destruct (working (a_phase (hw c))) eqn:Hw; [by pose proof (a_prompt (hw c) Hw) as Hx; rewrite Hr in Hx|].
    destruct Hcase as [(_ & -> & _)|(Hw' & _)]; [|congruence]. destruct (a_phase (hw c)); by try discriminate Hw.
Qed.

(** The first block of a command to write: the interrupt that it raises is
    expected. *)
Definition data_sent c : Prop :=
  expecting_intr c = true ∧ disk_done c = 0 ∧ a_intrq (hw c) = false ∨
  expecting_intr c = false ∧ disk_done c = 1 ∧ working (a_phase (hw c)) = false.

Lemma take_intr_sent c : wired c → expecting_intr c = true → disk_done c = 0 → a_intrq (hw c) = false →
  ∃ h' e d, take_intr c = Ret ((), Channel h' (port_base c) (irq_no c) (ch_lock c) e d) ∧ same_disk (hw c) h' ∧
    data_sent (Channel h' (port_base c) (irq_no c) (ch_lock c) e d) ∧
    (e = true ∧ a_phase h' = a_phase (hw c) ∨ e = false ∧ a_phase h' = ready_phase (a_phase (hw c))) ∧
    (AtaPrompt H base irq → working (a_phase (hw c)) = true → e = false).
Proof.
  intros Hwi He Hd Hq. destruct (a_raised (hw c)) as (o & h1 & Hr & Hs & Hcase).
  unfold take_intr. rewrite (bind_zoom hw_lens _ _ c o h1 Hr). change (over hw_lens h1 c) with (with_hw h1 c).
  destruct Hcase as [(-> & Hp & Hq1)|(Hw & Hp & Hq1 & ->)].
  - exists h1, true, 0. split; [rewrite ret_eq; unfold with_hw; by rewrite He, Hd|]. split; [done|].
    split; [left; cbn; by rewrite Hq1|]. split; [by left|]. intros Hpr Hw. exfalso.
    pose proof (a_prompt (hw c) Hw) as Hx. rewrite Hr, Hp in Hx. destruct (a_phase (hw c)) as [| | | |? ? cnt| |]; try done.
    cbn in Hx. by destruct (cnt =? 0).
  - rewrite Hq. assert (Hw1 : working (a_phase h1) = false) by (rewrite Hp; apply working_ready).
    destruct (handler_taken (with_hw h1 c) Hwi He Hd Hw1) as (h2 & Hh & Hp2 & _ & Hs2).
    exists h2, false, 1. split; [exact Hh|]. split; [by eapply same_disk_trans|].
    split; [right; cbn in *; by rewrite Hp2|]. split; [|done]. right. split; [done|]. cbn in Hp2. congruence.
Qed.

(** The channel between two commands. *)
Record ready (k : lock) c : Prop := {
  rd_ok : channel_ok c;
  rd_idle : idle c;
  rd_lock : ch_lock c = k
}.

(** The contents of [cnt] sectors from [lba] on. *)
Definition sectors (h : H) (dev lba cnt : Z) : list Z := concat (map (a_disk h dev) (seqZ lba cnt)).

Lemma sectors_length h dev lba cnt : 0 ≤ cnt → Z.of_nat (length (sectors h dev lba cnt)) = 512 * cnt.
Proof.
  intros Hc. unfold sectors. rewrite <-(Z2Nat.id cnt) at 2 by done.
  replace (seqZ lba cnt) with (seqZ lba (Z.of_nat (Z.to_nat cnt))) by (by rewrite Z2Nat.id).
  generalize (Z.to_nat cnt). clear Hc cnt. intros n. revert lba.
  induction n as [|n IH]; intros lba; [done|]. rewrite seqZ_cons by lia.
  replace (Z.pred (Z.of_nat (S n))) with (Z.of_nat n) by lia.
  cbn [map concat]. rewrite length_app, a_disk_length. specialize (IH (Z.succ lba)). lia.
Qed.

Lemma sectors_app h dev lba n m : 0 ≤ n → 0 ≤ m →
  sectors h dev lba (n + m) = sectors h dev lba n ++ sectors h dev (lba + n) m.
Proof. intros Hn Hm. unfold sectors. by rewrite seqZ_app, map_app, concat_app. Qed.

Lemma sectors_same h h' dev lba cnt : same_disk h h' → sectors h' dev lba cnt = sectors h dev lba cnt.
Proof. intros Hs. unfold sectors. f_equal. apply map_ext. intros x. apply Hs. Qed.

Lemma size_in_byte_op op : 1 ≤ op ≤ 256 → size_in_byte (u8 op) = 512 * op.
Proof. intros Hop. unfold size_in_byte. destruct (Z.eqb_spec (u8 op) 0); zlia. Qed.

(** One sector at a time on any drive, more on a prompt one. *)
Definition servable (n : Z) : Prop := n = 1 ∨ AtaPrompt H base irq.

Lemma insw_blocks_run n dev lba c : (n ≠ 0)%nat → wired c → expecting_intr c = false →
  a_phase (hw c) = DataIn dev lba (Z.of_nat n) → servable (Z.of_nat n) →
  ∃ h', insw_blocks n base c = Ret (sectors (hw c) dev lba (Z.of_nat n), with_hw h' c) ∧ a_phase h' = Idle ∧
    same_disk (hw c) h'.
Proof.
  revert lba c. induction n as [|n IH]; intros lba c Hn Hwi He Hp Hserv; [done|]. clear Hn.
  destruct (a_data_in (hw c) dev lba _ Hp) as (h1 & H1 & Hp1 & Hs1). cbn [insw_blocks].
  rewrite (bind_zoom hw_lens _ _ c _ h1 H1). change (over hw_lens h1 c) with (with_hw h1 c).
  destruct (take_intr_ignored (with_hw h1 c) Hwi He) as (h2 & H2 & Hs2 & Hidle & Hprompt). cbn [hw with_hw] in *.
  rewrite (M_bind_Ret _ _ _ _ _ H2). change (with_hw h2 (with_hw h1 c)) with (with_hw h2 c).
  assert (Hsec : sectors (hw c) dev lba (Z.of_nat (S n)) = a_disk (hw c) dev lba ++ sectors h2 dev (lba + 1) (Z.of_nat n)).
  { rewrite (sectors_same (hw c) h2) by (by eapply same_disk_trans). unfold sectors. rewrite seqZ_cons by lia.
    cbn [map concat]. do 4 f_equal; lia. }
  destruct n as [|n].
  - rewrite Hp1 in Hidle. cbn [insw_blocks]. rewrite bind_ret, ret_eq, Hsec. exists h2. split; [done|].
    split; [by apply Hidle|by eapply same_disk_trans].
  - destruct Hserv as [|Hpr]; [lia|]. rewrite (proj2 (Z.eqb_neq _ 1)) in Hp1 by lia.
    destruct (IH (lba + 1) (with_hw h2 c)) as (h3 & H3 & Hp3 & Hs3); [done|done|done| |by right|].
    { cbn [hw with_hw]. rewrite (Hprompt Hpr), Hp1. cbn [ready_phase]. f_equal. lia. }
    rewrite (M_bind_Ret _ _ _ _ _ H3), ret_eq, Hsec. exists h3. split; [done|]. split; [done|].
    intros d x. rewrite Hs3. cbn. by rewrite Hs2, Hs1.
Qed.

Lemma read_op_run k dev lba op buf off c : ready k c → dev = 0 ∨ dev = 1 →
  0 ≤ lba → 1 ≤ op ≤ 256 → lba + op ≤ disk_end → 0 ≤ off → off + 512 * op ≤ Z.of_nat (length buf) → servable op →
  ∃ c', read_op dev lba op buf off c = Ret (splice buf off (sectors (hw c) dev lba op), c') ∧
    ready k c' ∧ same_disk (hw c) (hw c').
Proof.
  intros [Hc Hi Hk] Hdev Hlba Hop Hend Hoff Hlen Hserv.
  destruct (cmd_run CMD_READ_SECTOR dev lba op c) as (h1 & H1 & Hp1 & _ & Hq1 & Hs1); try done; [by left|].
  change (CMD_READ_SECTOR =? CMD_READ_SECTOR) with true in Hp1. cbv iota in Hp1.
  set (c1 := Channel h1 _ _ _ _ _) in H1.
  assert (channel_ok c1) as Hc1 by (split; apply Hc).
  destruct (a_wait (hw c1)) as (h2 & H2 & Hp2 & Hb2 & Hs2); [by cbn; rewrite Hp1|exact Hq1|].
  cbn [hw c1] in Hp2. rewrite Hp1 in Hp2. cbn [ready_phase] in Hp2.
  destruct (disk_done_down_run c1 h2 Hc1 eq_refl H2) as (h3 & H3 & Hp3 & Hb3 & Hs3); [by rewrite Hp2|].
  set (c3 := Channel h3 _ _ _ _ _) in H3. assert (channel_ok c3) as Hc3 by (split; [apply Hc|apply Hc|done]).
  rewrite Hp2 in Hp3.
  destruct (busy_wait_run (Z.to_nat (30 * 1000)) c3 Hc3) as (h4 & H4 & Hp4 & _ & Hs4).
  { rewrite Z2Nat.id by done. cbn [hw c3]. lia. }
  { cbn [hw c3]. by rewrite Hp3. }
  cbn [hw c3] in Hp4. rewrite Hp3 in Hp4.
  assert (Hop' : Z.of_nat (Z.to_nat op) = op) by lia.
  destruct (insw_blocks_run (Z.to_nat op) dev lba (with_hw h4 c3)) as (h5 & H5 & Hp5 & Hs5);
    [lia|exact (channel_wired _ (channel_ok_hw h4 c3 Hc3))|done|by rewrite Hop'|by rewrite Hop'|].
  rewrite Hop' in H5. cbn [hw with_hw] in H5, Hs5.
  assert (sectors h4 dev lba op = sectors (hw c) dev lba op) as Hsec.
  { apply sectors_same. intros d x. by rewrite Hs4, Hs3, Hs2, Hs1. }
  exists (with_hw h5 c3). split; [|split; [by split; [apply (channel_ok_hw h5 c3)| |]|]].
  2: { intros d x. cbn. by rewrite Hs5, Hs4, Hs3, Hs2, Hs1. }
  unfold read_op. rewrite <-(bind_assoc (select_sector dev lba op) (λ _, cmd_out CMD_READ_SECTOR)).
  rewrite (M_bind_Ret _ _ _ _ _ H1), (M_bind_Ret _ _ _ _ _ H3).
  unfold busy_wait. rewrite (M_bind_Ret _ _ _ _ _ H4). cbn [negb].
  unfold read_from_sector, reg_data, rep_insw. rewrite bind_gets, size_in_byte_op by done.
  replace (512 * op / 2 / 256) with op by zlia.
  rewrite (co_base _ (channel_ok_hw h4 c3 Hc3)), Z.add_0_r. rewrite (M_bind_Ret _ _ _ _ _ H5).
  unfold lift. rewrite put_bytes_eq; [by rewrite Hsec|done|rewrite sectors_length; lia].
Qed.

Lemma secs_op_range secs_done cnt : 0 ≤ secs_done < cnt → cnt ≤ disk_end →
  1 ≤ secs_op secs_done cnt ≤ 256 ∧ secs_done + secs_op secs_done cnt ≤ cnt.
Proof.
  unfold disk_end. intros H1 H2. unfold secs_op. rewrite u32_id by (unfold is_u32; lia).
  destruct (Z.leb_spec (secs_done + 256) cnt); lia.
Qed.

Lemma splice_next (A0 buf B0 : list Z) n m : Z.of_nat (length A0) = n → Z.of_nat (length B0) = m →
  n + m ≤ Z.of_nat (length buf) →
  splice (A0 ++ drop (Z.to_nat n) buf) n B0 = (A0 ++ B0) ++ drop (Z.to_nat (n + m)) buf.
Proof.
  intros HA HB Hl. unfold splice. rewrite take_app_length' by lia. rewrite <-app_assoc. do 2 f_equal.
  rewrite drop_app_ge, drop_drop by lia. f_equal. lia.
Qed.

Lemma ide_read_loop_run fuel k dev lba secs_done cnt buf0 buf c : ready k c → dev = 0 ∨ dev = 1 →
  0 ≤ lba → 0 ≤ secs_done ≤ cnt → lba + cnt ≤ disk_end → 512 * cnt ≤ Z.of_nat (length buf0) → servable cnt →
  buf = sectors (hw c) dev lba secs_done ++ drop (Z.to_nat (512 * secs_done)) buf0 →
  cnt - secs_done < Z.of_nat fuel →
  ∃ c', ide_read_loop fuel dev lba buf secs_done cnt c =
      Ret (sectors (hw c) dev lba cnt ++ drop (Z.to_nat (512 * cnt)) buf0, c') ∧
    ready k c' ∧ same_disk (hw c) (hw c').
Proof.
  revert secs_done buf c. induction fuel as [|fuel IH];
    intros secs_done buf c Hr Hdev Hlba Hd Hend Hlen Hserv Hbuf Hf; [lia|].
  cbn [ide_read_loop]. destruct (Z.ltb_spec secs_done cnt) as [Hlt|].
  2: { assert (secs_done = cnt) as -> by lia. exists c. rewrite Hbuf. by split_and!. }
  destruct (secs_op_range secs_done cnt) as [Hop Hle]; [lia|unfold disk_end in *; lia|].
  set (op := secs_op secs_done cnt) in *. pose proof Hend as Hend'. unfold disk_end in Hend'.
  rewrite u32_id by (unfold is_u32; lia).
  pose proof (sectors_length (hw c) dev lba secs_done ltac:(lia)) as Hsl.
  destruct (read_op_run k dev (lba + secs_done) op buf (secs_done * 512) c) as (c1 & H1 & Hr1 & Hs1);
    [done|done|lia|done|lia|lia|rewrite Hbuf, length_app, length_drop; lia|destruct Hserv; [left; lia|by right]|].
  rewrite (M_bind_Ret _ _ _ _ _ H1).
  destruct (IH (secs_done + op) (splice buf (secs_done * 512) (sectors (hw c) dev (lba + secs_done) op)) c1)
    as (c2 & H2 & Hr2 & Hs2); try done; [lia| |lia|].
  - rewrite Hbuf, (sectors_same _ _ _ _ _ Hs1), sectors_app by lia.
    replace (secs_done * 512) with (512 * secs_done) by lia.
    rewrite (splice_next _ buf0 _ (512 * secs_done) (512 * op)); [|lia|rewrite sectors_length; lia|lia].
    do 3 f_equal. lia.
  - exists c2. rewrite H2, (sectors_same _ _ _ _ _ Hs1). split; [done|]. split; [done|].
    intros d x. by rewrite Hs2.
Qed.

(** The sectors after a transfer of [cnt] sectors from [buf] to [lba]. *)
Definition written (h h' : H) (dev lba cnt : Z) (buf : list Z) : Prop :=
  ∀ d x, a_disk h' d x = if decide (d = dev ∧ lba ≤ x < lba + cnt)
    then slice buf (512 * (x - lba)) 512 else a_disk h d x.

Lemma written_cons h h1 h2 dev lba n bs : 0 ≤ n →
  (∀ d x, a_disk h1 d x = if decide (d = dev ∧ x = lba) then take 512 bs else a_disk h d x) →
  written h1 h2 dev (lba + 1) n (drop 512 bs) → written h h2 dev lba (n + 1) bs.
Proof.
  intros Hn H1 H2 d x. rewrite H2, H1. unfold slice. rewrite drop_drop.
  destruct (decide (d = dev)) as [->|Hd]; [|rewrite !decide_False by tauto; done].
  destruct (decide (x = lba)) as [->|Hx].
  - rewrite decide_False, decide_True, decide_True by lia. replace (lba - lba) with 0 by lia. done.
  - destruct (decide (lba + 1 ≤ x < lba + 1 + n)).
    + rewrite !decide_True by lia. do 2 f_equal. lia.
    + rewrite !decide_False by lia. done.
Qed.

(** While the blocks are sent the first interrupt ups the semaphore. *)
Lemma outsw_blocks_run n dev lba bs c : (n ≠ 0)%nat → wired c → a_phase (hw c) = DataOut dev lba (Z.of_nat n) →
  length bs = (512 * n)%nat → servable (Z.of_nat n) →
  (expecting_intr c = true ∧ disk_done c = 0 ∧ a_intrq (hw c) = false) ∨
  (expecting_intr c = false ∧ disk_done c = 1 ∧ AtaPrompt H base irq) →
  ∃ h' e d, outsw_blocks n base bs c = Ret ((), Channel h' (port_base c) (irq_no c) (ch_lock c) e d) ∧
    written (hw c) h' dev lba (Z.of_nat n) bs ∧
    (e = true ∧ d = 0 ∧ a_intrq h' = false ∧ a_phase h' = Writing dev (lba + 1) 0 ∨ e = false ∧ d = 1 ∧ a_phase h' = Idle) ∧
    (e = true → expecting_intr c = true).
Proof.
  revert lba bs c. induction n as [|n IH]; intros lba bs c Hn Hwi Hp Hl Hserv Hst; [done|]. clear Hn.
  destruct (a_data_out (hw c) dev lba _ (take 512 bs) Hp) as (h1 & H1 & Hp1 & Hq1 & Hd1); [rewrite length_take; lia|].
  replace (Z.of_nat (S n) - 1) with (Z.of_nat n) in Hp1 by lia. cbn [outsw_blocks].
  rewrite (bind_zoom hw_lens _ _ c () h1 H1). change (over hw_lens h1 c) with (with_hw h1 c).
  assert (Hnext : ∃ h2 e d, take_intr (with_hw h1 c) = Ret ((), Channel h2 (port_base c) (irq_no c) (ch_lock c) e d) ∧
    same_disk h1 h2 ∧
    (e = true ∧ d = 0 ∧ a_intrq h2 = false ∧ a_phase h2 = Writing dev (lba + 1) (Z.of_nat n) ∧ ¬ AtaPrompt H base irq ∨
     e = false ∧ d = 1 ∧ a_phase h2 = ready_phase (Writing dev (lba + 1) (Z.of_nat n))) ∧
    (e = true → expecting_intr c = true)).
  { destruct Hst as [(He & Hd & Hq)|(He & Hd & Hpr)].
    - destruct (take_intr_sent (with_hw h1 c)) as (h2 & e & d & H2 & Hs2 & Hsent & Hcase & Hpr); [done..|cbn; congruence|].
      exists h2, e, d. cbn [hw with_hw] in *. rewrite Hp1 in *. split; [exact H2|]. split; [done|].
      unfold data_sent in Hsent. cbn [expecting_intr disk_done hw] in Hsent.
      destruct Hsent as [(-> & -> & Hq2)|(-> & -> & _)].
      + split; [|done]. left. destruct Hcase as [[_ Hp2]|[? _]]; [|done]. split_and!; try done. intros Hx. by specialize (Hpr Hx eq_refl).
      + split; [|done]. right. destruct Hcase as [[? _]|[_ Hp2]]; [done|]. by split_and!.
    - destruct (take_intr_ignored (with_hw h1 c) Hwi He) as (h2 & H2 & Hs2 & _ & Hprompt).
      exists h2, false, 1. cbn [hw with_hw] in *. rewrite H2.
      split; [unfold with_hw; cbn; by rewrite He, Hd|]. split; [done|].
      split; [|congruence]. right. split; [congruence|]. split; [congruence|]. by rewrite (Hprompt Hpr), Hp1. }
  destruct Hnext as (h2 & e & d & H2 & Hs2 & Hcase & Hcaseh). rewrite (M_bind_Ret _ _ _ _ _ H2).
  assert (Hd2 : ∀ d x, a_disk h2 d x = if decide (d = dev ∧ x = lba) then take 512 bs else a_disk (hw c) d x).
  { intros d' x. by rewrite Hs2, Hd1. }
  replace (Z.of_nat (S n)) with (Z.of_nat n + 1) by lia. destruct n as [|n].
  - exists h2, e, d. split; [done|]. split.
    + apply (written_cons _ h2); [lia|exact Hd2|]. intros d' x. by rewrite decide_False by lia.
    + split; [|done]. destruct Hcase as [(-> & -> & Hq2 & Hp2 & _)|(-> & -> & Hp2)]; [by left|by right].
  - destruct Hserv as [|Hpr]; [lia|]. destruct Hcase as [(_ & _ & _ & _ & []) |(-> & -> & Hp2)]; [done|].
    destruct (IH (lba + 1) (drop 512 bs) (Channel h2 (port_base c) (irq_no c) (ch_lock c) false 1))
      as (h3 & e & d & H3 & Hw3 & Hend & Hx); [done|exact Hwi| |rewrite length_drop; lia|by right|right; by split_and!|].
    { cbn [hw]. rewrite Hp2. cbn [ready_phase]. by rewrite (proj2 (Z.eqb_neq _ 0)) by lia. }
    exists h3, e, d. split; [exact H3|]. split; [by apply (written_cons _ h2); [lia|exact Hd2|]|].
    destruct Hend as [(-> & _)|Hend]; [by specialize (Hx eq_refl)|]. split; [by right|]. destruct Hend as [-> _]. done.
Qed.

(** The wait after the data: for the interrupt, or it has come. *)
Lemma write_wait_run k c dev lba : wired c → ch_lock c = k →
  (expecting_intr c = true ∧ disk_done c = 0 ∧ a_intrq (hw c) = false ∧ a_phase (hw c) = Writing dev lba 0 ∨
   expecting_intr c = false ∧ disk_done c = 1 ∧ a_phase (hw c) = Idle) →
  ∃ c', disk_done_down c = Ret ((), c') ∧ ready k c' ∧ same_disk (hw c) (hw c').
Proof.
  intros (Hb & Hq & Hq') Hk [(He & Hd & Hi & Hp)|(He & Hd & Hp)].
  - destruct (a_wait (hw c)) as (h4 & H4 & Hp4 & _ & Hs4); [by rewrite Hp|done|]. rewrite Hp in Hp4.
    change (ready_phase (Writing dev lba 0)) with Idle in Hp4. assert (channel_ok c) as Hc by by split.
    destruct (disk_done_down_run c h4 Hc He H4) as (h5 & H5 & Hp5 & _ & Hs5); [by rewrite Hp4|].
    eexists. split; [exact H5|]. split; [split; [by split|unfold idle; cbn; congruence|done]|].
    intros d x. cbn. by rewrite Hs5, Hs4.
  - rewrite disk_done_down_now by done. eexists. split; [done|]. split; [|by intros d x].
    split; [by split|exact Hp|done].
Qed.

Lemma write_op_run k dev lba op buf off c : ready k c → dev = 0 ∨ dev = 1 →
  0 ≤ lba → 1 ≤ op ≤ 256 → lba + op ≤ disk_end → 0 ≤ off → off + 512 * op ≤ Z.of_nat (length buf) → servable op →
  ∃ c', write_op dev lba op buf off c = Ret ((), c') ∧ ready k c' ∧
    written (hw c) (hw c') dev lba op (slice buf off (512 * op)).
Proof.
  intros [Hc Hi Hk] Hdev Hlba Hop Hend Hoff Hlen Hserv.
  destruct (cmd_run CMD_WRITE_SECTOR dev lba op c) as (h1 & H1 & Hp1 & Hb1 & _ & Hs1); try done; [by right|].
  change (CMD_WRITE_SECTOR =? CMD_READ_SECTOR) with false in Hp1. cbv iota in Hp1.
  set (c1 := Channel h1 _ _ _ _ _) in H1.
  assert (channel_ok c1) as Hc1 by (split; apply Hc).
  destruct (busy_wait_run (Z.to_nat (30 * 1000)) c1 Hc1) as (h2 & H2 & Hp2 & Hq2 & Hs2).
  { rewrite Z2Nat.id by done. cbn [hw c1]. lia. }
  { cbn [hw c1]. by rewrite Hp1. }
  cbn [hw c1] in Hp2. rewrite Hp1 in Hp2. set (c2 := with_hw h2 c1) in *.
  assert (Hop' : Z.of_nat (Z.to_nat op) = op) by lia. set (bs := slice buf off (512 * op)).
  assert (Hwi : wired c2) by exact (channel_wired _ (channel_ok_hw h2 c1 Hc1)).
  destruct (outsw_blocks_run (Z.to_nat op) dev lba bs c2) as (h3 & e & d & H3 & Hw3 & Hend3 & _);
    [lia|done|by rewrite Hop'|unfold bs; rewrite slice_length by lia; lia|by rewrite Hop'|left; split; [done|split; [apply Hc|done]]|].
  rewrite Hop' in Hw3. set (c3 := Channel h3 _ _ _ _ _) in H3.
  destruct (write_wait_run k c3 dev (lba + 1)) as (c4 & H4 & Hr4 & Hs4); [exact Hwi|exact Hk| |].
  { cbn [c3 expecting_intr disk_done hw]. destruct Hend3 as [(? & ? & ? & ?)|(? & ? & ?)]; [left|right]; by split_and!. }
  exists c4. split; [|split; [done|]].
  - unfold write_op. rewrite <-(bind_assoc (select_sector dev lba op) (λ _, cmd_out CMD_WRITE_SECTOR)).
    rewrite (M_bind_Ret _ _ _ _ _ H1). unfold busy_wait. rewrite (M_bind_Ret _ _ _ _ _ H2). cbn [negb].
    unfold write2sector, reg_data, rep_outsw. rewrite size_in_byte_op, get_bytes_eq by lia.
    rewrite bind_assoc, bind_lift, bind_assoc, bind_gets.
    replace (512 * op / 2 / 256) with op by zlia.
    rewrite (co_base c2 (channel_ok_hw h2 c1 Hc1)), Z.add_0_r. by rewrite (M_bind_Ret _ _ _ _ _ H3).
  - intros d' x. rewrite Hs4. cbn [c3 hw]. rewrite Hw3. case_decide; [done|]. cbn [c2 with_hw hw c1]. by rewrite Hs2, Hs1.
Qed.

Lemma ide_write_loop_run fuel k dev lba secs_done cnt buf c : ready k c → dev = 0 ∨ dev = 1 →
  0 ≤ lba → 0 ≤ secs_done ≤ cnt → lba + cnt ≤ disk_end → 512 * cnt ≤ Z.of_nat (length buf) → servable cnt →
  cnt - secs_done < Z.of_nat fuel →
  ∃ c', ide_write_loop fuel dev lba buf secs_done cnt c = Ret ((), c') ∧ ready k c' ∧
    ∀ d x, a_disk (hw c') d x = if decide (d = dev ∧ lba + secs_done ≤ x < lba + cnt)
      then slice buf (512 * (x - lba)) 512 else a_disk (hw c) d x.
Proof.
  revert secs_done c. induction fuel as [|fuel IH];
    intros secs_done c Hr Hdev Hlba Hd Hend Hlen Hserv Hf; [lia|].
  cbn [ide_write_loop]. destruct (Z.ltb_spec secs_done cnt) as [Hlt|].
  2: { exists c. split_and!; try done. intros d x. rewrite decide_False by lia. done. }
  destruct (secs_op_range secs_done cnt) as [Hop Hle]; [lia|unfold disk_end in *; lia|].
  set (op := secs_op secs_done cnt) in *. pose proof Hend as Hend'. unfold disk_end in Hend'.
  rewrite u32_id by (unfold is_u32; lia).
  destruct (write_op_run k dev (lba + secs_done) op buf (secs_done * 512) c) as (c1 & H1 & Hr1 & Hw1);
    [done|done|lia|done|lia|lia|lia|destruct Hserv; [left; lia|by right]|].
  rewrite (M_bind_Ret _ _ _ _ _ H1).
  destruct (IH (secs_done + op) c1) as (c2 & H2 & Hr2 & Hw2); [done|done|done|lia|lia|lia|done|lia|].
  exists c2. split; [done|]. split; [done|]. intros d x. rewrite Hw2, Hw1.
  destruct (decide (d = dev ∧ lba + (secs_done + op) ≤ x < lba + cnt)).
  - rewrite decide_True by (split; [tauto|lia]). done.
  - destruct (decide (d = dev ∧ lba + secs_done ≤ x < lba + secs_done + op)).
    + rewrite decide_True by (split; [tauto|lia]).
      rewrite slice_slice by lia. f_equal. lia.
    + rewrite decide_False; [done|]. intros [-> ?]. destruct (decide (x < lba + secs_done + op)); naive_solver lia.
Qed.

(** Bracketed by the lock of the channel. *)
Lemma channel_lock_run t c : t ≠ NULL → ch_lock c = Lock NULL 0 → channel_ok c → idle c →
  ∃ c', channel_lock t c = Ret ((), c') ∧ ready (Lock t 1) c' ∧ hw c' = hw c.
Proof.
  intros Ht Hl Hc Hi. unfold channel_lock. rewrite bind_gets, Hl. unfold acquire. cbn [holder].
  destruct (Z.eqb_spec NULL t); [congruence|]. change (NULL =? NULL) with true. cbv iota.
  rewrite bind_lift. unfold set_ch_lock. rewrite modify_eq. eexists. split; [done|].
  split; [|done]. split; [split; apply Hc|done|done].
Qed.

Lemma channel_unlock_run t c : ready (Lock t 1) c →
  ∃ c', channel_unlock t c = Ret ((), c') ∧ ready (Lock NULL 0) c' ∧ hw c' = hw c.
Proof.
  intros [Hc Hi Hk]. unfold channel_unlock. rewrite bind_gets, Hk. unfold release. cbn [holder].
  rewrite (Z.eqb_refl t). change (1 <? holder_repeat_nr (Lock t 1)) with false.
  cbn [assert_ mbind outcome_bind]. change (1 =? 1) with true.
  change (lift _ ≫= _) with (lift (Ret (Lock NULL 0)) ≫= set_ch_lock (H := H)).
  rewrite bind_lift. unfold set_ch_lock. rewrite modify_eq. eexists. split; [done|].
  split; [|done]. split; [split; apply Hc|done|done].
Qed.

Lemma select_disk_reg k dev c : ready k c → dev = 0 ∨ dev = 1 → ∃ h', select_disk dev c = Ret ((), with_hw h' c) ∧
  ready k (with_hw h' c) ∧ (if Z.testbit (a_reg h' 6) 4 then 1 else 0) = dev ∧ same_disk (hw c) h'.
Proof.
  intros [Hc Hi Hk] Hdev. unfold select_disk.
  destruct (out_reg_run reg_dev 6 (Z.lor (Z.lor BIT_DEV_MBS BIT_DEV_LBA) (dev_bit dev)) c)
    as (h & Hr & Hp & Hs & Hreg); [done|done|done|lia|].
  exists h. split; [exact Hr|]. split; [split; [by apply channel_ok_hw|done|done]|]. split; [|exact Hs].
  rewrite Hreg, decide_True by done. by destruct Hdev as [-> | ->].
Qed.

Lemma select_disk_run k dev c : ready k c → ∃ c', select_disk dev c = Ret ((), c') ∧ ready k c' ∧
  same_disk (hw c) (hw c').
Proof.
  intros [Hc Hi Hk]. unfold select_disk.
  destruct (out_reg_run reg_dev 6 (Z.lor (Z.lor BIT_DEV_MBS BIT_DEV_LBA) (dev_bit dev)) c)
    as (h & Hr & Hp & Hs & _); [done|done|done|lia|].
  exists (with_hw h c). split; [done|]. split; [|done]. split; [by apply channel_ok_hw|done|done].
Qed.

(** A channel that no thread uses. *)
Definition free_channel c : Prop := ready (Lock NULL 0) c.

Lemma ide_read_spec t dev lba buf cnt c : t ≠ NULL → free_channel c → dev = 0 ∨ dev = 1 →
  0 ≤ lba → 1 ≤ cnt → lba + cnt ≤ disk_end → 512 * cnt ≤ Z.of_nat (length buf) → servable cnt →
  ∃ c', ide_read t dev lba buf cnt c =
      Ret (sectors (hw c) dev lba cnt ++ drop (Z.to_nat (512 * cnt)) buf, c') ∧
    free_channel c' ∧ same_disk (hw c) (hw c').
Proof.
  intros Ht [Hc Hi Hk] Hdev Hlba Hcnt Hend Hlen Hserv. unfold ide_read, disk_end in *.
  change max_lba with 163839. destruct (Z.leb_spec lba 163839) as [Hb|Hb], (Z.ltb_spec 0 cnt) as [Hb'|Hb']; try lia.
  rewrite !bind_ASSERT_true. destruct (channel_lock_run t c) as (c1 & H1 & Hr1 & Hh1); [done..|].
  rewrite (M_bind_Ret _ _ _ _ _ H1).
  destruct (select_disk_run _ dev c1 Hr1) as (c2 & H2 & Hr2 & Hs2). rewrite (M_bind_Ret _ _ _ _ _ H2).
  destruct (ide_read_loop_run (S (Z.to_nat cnt)) _ dev lba 0 cnt buf buf c2 Hr2)
    as (c3 & H3 & Hr3 & Hs3); [done|done|lia|done|done|done|done|lia|].
  rewrite (M_bind_Ret _ _ _ _ _ H3).
  destruct (channel_unlock_run t c3 Hr3) as (c4 & H4 & Hr4 & Hh4). rewrite (M_bind_Ret _ _ _ _ _ H4), ret_eq.
  exists c4. rewrite (sectors_same _ _ dev lba cnt Hs2), Hh1. split; [done|]. split; [done|].
  intros d x. by rewrite Hh4, Hs3, Hs2, Hh1.
Qed.

Lemma ide_write_spec t dev lba buf cnt c : t ≠ NULL → free_channel c → dev = 0 ∨ dev = 1 →
  0 ≤ lba → 1 ≤ cnt → lba + cnt ≤ disk_end → 512 * cnt ≤ Z.of_nat (length buf) → servable cnt →
  ∃ c', ide_write t dev lba buf cnt c = Ret ((), c') ∧ free_channel c' ∧
    written (hw c) (hw c') dev lba cnt buf.
Proof.
  intros Ht [Hc Hi Hk] Hdev Hlba Hcnt Hend Hlen Hserv. unfold ide_write. pose proof Hend as Hend'.
  unfold disk_end in Hend'. change max_lba with 163839.
  destruct (Z.leb_spec lba 163839) as [Hb|Hb], (Z.ltb_spec 0 cnt) as [Hb'|Hb']; try lia.
  rewrite !bind_ASSERT_true. destruct (channel_lock_run t c) as (c1 & H1 & Hr1 & Hh1); [done..|].
  rewrite (M_bind_Ret _ _ _ _ _ H1).
  destruct (select_disk_run _ dev c1 Hr1) as (c2 & H2 & Hr2 & Hs2). rewrite (M_bind_Ret _ _ _ _ _ H2).
  destruct (ide_write_loop_run (S (Z.to_nat cnt)) _ dev lba 0 cnt buf c2 Hr2)
    as (c3 & H3 & Hr3 & Hw3); [done|done|lia|done|done|done|lia|].
  rewrite (M_bind_Ret _ _ _ _ _ H3).
  destruct (channel_unlock_run t c3 Hr3) as (c4 & H4 & Hr4 & Hh4). exists c4. split; [done|]. split; [done|].
  intros d x. rewrite Hh4, Hw3, Z.add_0_r. case_decide; [done|]. by rewrite Hs2, Hh1.
Qed.
End transfers.

(** ** The driver is a block device *)

Definition ide_dev {H} {A : Ata H} (t dev : Z) : BlockDev (ide_channel H) := {|
  bd_read := ide_read t dev;
  bd_write := ide_write t dev
|}.

(** Sectors are read one at a time from any drive. *)
#[export] Instance ide_dev_reads {H} {A : Ata H} {base irq} {AS : AtaSpec H base irq} t dev
    (Ht : t ≠ NULL) (Hdev : dev = 0 ∨ dev = 1) : SectorReads (ide_channel H) (BD := ide_dev t dev).
Proof.
  refine {| bd_inv := (free_channel : ide_channel H → Prop);
            bd_sector := λ c : ide_channel H, a_disk (hw c) dev |}.
  - intros c x _. apply a_disk_length.
  - intros c lba buf Hc Hl He Hb.
    destruct (ide_read_spec t dev lba buf 1 c) as (c' & H1 & H2 & H3); [done..|by left|].
    exists c'. split; [|split; [done|]; intros x; apply H3].
    change (sectors (hw c) dev lba 1) with (a_disk (hw c) dev lba ++ []) in H1. by rewrite app_nil_r in H1.
Defined.

#[export] Instance ide_dev_spec {H} {A : Ata H} {base irq} {AS : AtaSpec H base irq} {AP : AtaPrompt H base irq} t dev
    (Ht : t ≠ NULL) (Hdev : dev = 0 ∨ dev = 1) : BlockDevSpec (ide_channel H) (BD := ide_dev t dev).
Proof.
  refine {| bd_reads := ide_dev_reads t dev Ht Hdev |}.
  - intros c lba buf cnt Hc Hl Hn He Hb.
    destruct (ide_read_spec t dev lba buf cnt c) as (c' & H1 & H2 & H3); [done..|by right|].
    exists c'. split; [exact H1|]. split; [done|]. intros x. apply H3.
  - intros c lba buf cnt Hc Hl Hn He Hb.
    destruct (ide_write_spec t dev lba buf cnt c) as (c' & H1 & H2 & H3); [done..|by right|].
    exists c'. split; [exact H1|]. split; [done|]. intros x. cbn. rewrite H3.
    case_decide; case_decide; naive_solver.
Defined.


(** ** A controller *)

(** Drives at the ports from 0x1f0 on: prompt ones, or [slow] ones that become
    ready for the next block only when they are waited for. A drive that works
    says busy; its data port reads as all ones, and what is written to it is
    lost. *)
Record ata_sim (slow : bool) := Sim { s_reg : Z → Z; s_disk : Z → Z → list Z; s_phase : phase; s_intrq : bool }.
Arguments Sim {slow}. Arguments s_reg {slow}. Arguments s_disk {slow}. Arguments s_phase {slow}. Arguments s_intrq {slow}.

Definition sim_sector {slow} (s : ata_sim slow) (dev x : Z) : list Z := resize 512 0 (s_disk s dev x).
Definition sim_to {slow} (s : ata_sim slow) (p : phase) : ata_sim slow := Sim (s_reg s) (s_disk s) p (s_intrq s).
Definition sim_line {slow} (s : ata_sim slow) (b : bool) : ata_sim slow := Sim (s_reg s) (s_disk s) (s_phase s) b.

(** The drives call themselves by the letters from A on, and have 163840 sectors. *)
Definition sim_id (dev : Z) : list Z := replicate 120 (65 + dev) ++ [0; 128; 2; 0] ++ replicate 388 0.

#[export] Instance sim_ata slow : Ata (ata_sim slow) := {|
  outb := λ p v s,
    match s_phase s with
    | Idle =>
      if (0x1f2 <=? p) && (p <=? 0x1f6) then
        Ret ((), Sim (λ r, if decide (r = p - 0x1f0) then v else s_reg s r) (s_disk s) Idle (s_intrq s))
      else
        let dev := if Z.testbit (s_reg s 6) 4 then 1 else 0 in
        let lba := s_reg s 3 + 256 * s_reg s 4 + 65536 * s_reg s 5 + 16777216 * (s_reg s 6 mod 16) in
        let cnt := if s_reg s 2 =? 0 then 256 else s_reg s 2 in
        let command p := Ret ((), sim_line (sim_to s p) false) in
        if (p =? 0x1f7) && (v =? CMD_READ_SECTOR) then command (Reading dev lba cnt)
        else if (p =? 0x1f7) && (v =? CMD_WRITE_SECTOR) then command (DataOut dev lba cnt)
        else if (p =? 0x1f7) && (v =? CMD_IDENTIFY) then command (Identify dev)
        else Fault
    | _ => Fault
    end;
  inb := λ p s, if p =? 0x1f7 then Ret (if working (s_phase s) then 0x80 else 0x48, sim_line s false) else Fault;
  insw := λ p n s,
    match s_phase s with
    | DataIn dev lba cnt => Ret (sim_sector s dev lba, sim_to s (if cnt =? 1 then Idle else Reading dev (lba + 1) (cnt - 1)))
    | IdentifyIn dev => Ret (sim_id dev, sim_to s Idle)
    | _ => Ret (replicate (Z.to_nat (2 * n)) 255, s)
    end;
  outsw := λ p bs s,
    match s_phase s with
    | DataOut dev lba cnt => Ret ((), Sim (s_reg s) (λ d x, if decide (d = dev ∧ x = lba) then bs else s_disk s d x)
        (Writing dev (lba + 1) (cnt - 1)) (s_intrq s))
    | _ => Ret ((), s)
    end;
  wait_intr := λ s,
    if working (s_phase s) then Ret (0x2e, sim_line (sim_to s (ready_phase (s_phase s))) true) else Spin;
  raised := λ s,
    if working (s_phase s) && negb slow then
      Ret (if s_intrq s then None else Some 0x2e, sim_line (sim_to s (ready_phase (s_phase s))) true)
    else Ret (None, s)
|}.

#[export] Instance sim_spec slow : AtaSpec (ata_sim slow) 0x1f0 0x2e.
Proof.
  refine {| a_reg := s_reg; a_disk := sim_sector; a_phase := s_phase; a_busy := λ _, 0; a_intrq := s_intrq; a_id := sim_id |}.
  - intros s dev x. unfold sim_sector. by rewrite length_resize.
  - done.
  - intros s r v Hr Hp. cbn. rewrite Hp.
    destruct (Z.leb_spec 0x1f2 (0x1f0 + r)), (Z.leb_spec (0x1f0 + r) 0x1f6); try lia.
    eexists. split; [done|]. split_and!; [done|done|]. intros r'. cbn.
    by replace (0x1f0 + r - 0x1f0) with r by lia.
  - intros s c dev lba cnt [-> | ->] Hp -> _ -> -> _; cbn; rewrite Hp; eexists; by split_and!.
  - intros s Hw _. cbn. rewrite Hw. eexists. by split_and!.
  - intros s. cbn. destruct (working (s_phase s) && negb slow) eqn:Hw.
    + apply andb_true_iff in Hw as [Hw _]. eexists _, _. split; [done|]. split; [done|]. right. by split_and!.
    + eexists _, _. split; [done|]. split; [done|]. by left.
  - intros s Hw. cbn. rewrite Hw. eexists _, _. by split_and!.
  - intros s dev lba cnt Hp. cbn. rewrite Hp. eexists. by split_and!.
  - intros s dev lba cnt bs Hp Hl. cbn. rewrite Hp. eexists. split_and!; [done|done|done|].
    intros d x. unfold sim_sector. cbn. case_decide as Hd; [|done]. by rewrite resize_ge, Hl, app_nil_r by lia.
  - done.
  - intros s dev Hp ->. cbn. rewrite Hp. eexists. by split_and!.
  - intros s dev Hp. cbn. rewrite Hp. eexists. by split_and!.
Defined.


(** ** Properties *)

Section properties.
Context {H : Type} {A : Ata H} {base irq : Z} {AS : AtaSpec H base irq}.



(** [busy_wait] always ends: it says true when the drive becomes ready
    within 29998 polls and false, on which the callers panic, when it is busy
    for longer. *)
Theorem busy_wait_bounded (c : ide_channel H) : channel_ok (base := base) (irq := irq) c →
  has_data (a_phase (hw c)) = true →
  ∃ h', busy_wait c = Ret (a_busy (hw c) <? 29999, with_hw h' c) ∧ same_disk (hw c) h'.
Proof.
  intros Hc Hp. unfold busy_wait. destruct (Z.ltb_spec (a_busy (hw c)) 29999).
  - destruct (busy_wait_run (Z.to_nat (30 * 1000)) c Hc) as (h & Hr & _ & _ & Hs); [lia|done|by exists h].
  - destruct (busy_wait_timeout (Z.to_nat (30 * 1000)) c Hc) as (h & Hr & _ & Hs); [lia|lia|done|by exists h].
Qed.
End properties.

(** A free channel whose second drive has a recognisable sector 7. *)
Definition ex_channel slow : ide_channel (ata_sim slow) :=
  Channel (Sim (λ _, 0) (λ dev x, if (dev =? 1) && (x =? 7) then replicate 512 42 else []) Idle false)
    0x1f0 0x2e (Lock NULL 0) false 0.

Lemma ex_channel_free slow : free_channel (base := 0x1f0) (irq := 0x2e) (ex_channel slow).
Proof. split; [split; [done|split; [done|by left]|done]|done|done]. Qed.



(** A drive that keeps to its documentation but is slow: of two sectors that are
    read the second is not read, ... *)
Theorem ide_read_overrun :
  match ide_read 0x9e000 1 6 (replicate 1024 1) 2 (ex_channel true) with
  | Ret (buf, _) => buf = replicate 512 0 ++ replicate 512 255 ∧ sim_sector (hw (ex_channel true)) 1 7 = replicate 512 42
  | _ => False
  end.
Proof. by vm_compute. Qed.

(** ... and of two that are written the second never arrives. *)
Theorem ide_write_lost :
  match ide_write 0x9e000 1 6 (replicate 1024 9) 2 (ex_channel true) with
  | Ret (_, c) => sim_sector (hw c) 1 6 = replicate 512 9 ∧ sim_sector (hw c) 1 7 = replicate 512 42
  | _ => False
  end.
Proof. by vm_compute. Qed.

Lemma busy_wait_bounded_witness :
  ∃ h, busy_wait (with_hw (Sim (λ _, 0) (λ _ _, []) (DataIn 0 0 1) false) (ex_channel false)) = Ret (true, h).
Proof.
  destruct (busy_wait_bounded (AS := sim_spec false) (with_hw (Sim (λ _, 0) (λ _ _, []) (DataIn 0 0 1) false) (ex_channel false))
    (channel_ok_hw _ _ (rd_ok _ _ (ex_channel_free false))) eq_refl) as (h & Hr & _).
  eexists. exact Hr.
Defined.
