(* ===== verification/Parts.v ===== *)
(** * Partition tables (device/ide.c)

    [partition_scan] reads the partition table of a disk and the chain of
    extended boot records, fills the partitions of the [struct disk] and puts
    them on [partition_list]. An element of the list is named by its place in
    the disk's arrays. Works on any [BlockDev]. *)

From Stdlib Require Import ZArith Lia.
From stdpp Require Import base numbers list.
From S2P Require Import Prelude CString Stdio DList Disk.

(** A partition: its name, first sector and size. *)
Record part_info := PartInfo { part_name : list Z; part_start : Z; part_cnt : Z }.

(** [&hd->prim_parts[k]] and [&hd->logic_parts[k]] *)
Inductive part_ref := Prim (k : Z) | Logic (k : Z).

(** The disk's name and its two arrays. *)
Record disk := Disk { disk_name : list Z; prim_parts : list part_info; logic_parts : list part_info }.

(** The disk [hd] that is scanned and the globals of the scan; [scan_mem] says
    which of the coming calls of [sys_malloc] fail. *)
Record scan (D : Type) := Scan {
  scan_dev : D;
  hd : disk;
  ext_lba_base : Z;
  p_no : Z;
  l_no : Z;
  partition_list : list part_ref;
  scan_mem : list bool
}.
Arguments Scan {D}. Arguments scan_dev {D}. Arguments hd {D}. Arguments ext_lba_base {D}. Arguments p_no {D}.
Arguments l_no {D}. Arguments partition_list {D}. Arguments scan_mem {D}.

(** [fs_type], [start_lba] and [sec_cnt] of entry [k] of the boot sector. *)
Definition table_entry (bs : list Z) (k : Z) : outcome (Z * Z * Z) :=
  t ← load bs (446 + 16 * k + 4);
  s ← get_u32 bs (446 + 16 * k + 8);
  c ← get_u32 bs (446 + 16 * k + 12);
  Ret (t, s, c).

(** A partition with its name printed by [sprintf(name, "%s%d", hd->name, no)]. *)
Definition named_part (d : disk) (p : part_info) (no start cnt : Z) : outcome part_info :=
  '(name, _) ← sprintf (part_name p) [37; 115; 37; 100; 0] [VPtr (disk_name d); VWord no];
  Ret (PartInfo name start cnt).

Section ops.
Context {D : Type} {BD : BlockDev D}.
Abbreviation P := (M (scan D)).

Definition scan_lens : lens (scan D) D := Lens scan_dev (λ d s,
  Scan d (hd s) (ext_lba_base s) (p_no s) (l_no s) (partition_list s) (scan_mem s)).
Definition set_ext_base (b : Z) : P unit := modify (λ s,
  Scan (scan_dev s) (hd s) b (p_no s) (l_no s) (partition_list s) (scan_mem s)).

(** [sys_malloc(sizeof(struct boot_sector))] succeeds. *)
Definition scan_malloc : P bool :=
  l ← gets scan_mem;
  match l with
  | [] => mret true
  | ok :: l => _ ← modify (λ s, Scan (scan_dev s) (hd s) (ext_lba_base s) (p_no s) (l_no s) (partition_list s) l); mret ok
  end.

Definition add_prim (start cnt : Z) : P unit :=
  s ← gets id;
  let d := hd s in
  p ← lift (load (prim_parts d) (p_no s));
  p ← lift (named_part d p (p_no s + 1) start cnt);
  ps ← lift (store (prim_parts d) (p_no s) p);
  let no := u8 (p_no s + 1) in
  _ ← modify (λ s, Scan (scan_dev s) (Disk (disk_name d) ps (logic_parts d)) (ext_lba_base s) no (l_no s)
    (partition_list s ++ [Prim (p_no s)]) (scan_mem s));
  ASSERT (no <? 4).

(** True when the array of logical partitions is full. *)
Definition add_logic (start cnt : Z) : P bool :=
  s ← gets id;
  let d := hd s in
  p ← lift (load (logic_parts d) (l_no s));
  p ← lift (named_part d p (l_no s + 5) start cnt);
  ps ← lift (store (logic_parts d) (l_no s) p);
  let no := u8 (l_no s + 1) in
  _ ← modify (λ s, Scan (scan_dev s) (Disk (disk_name d) (prim_parts d) ps) (ext_lba_base s) (p_no s) no
    (partition_list s ++ [Logic (l_no s)]) (scan_mem s));
  mret (8 <=? no).

(** The last [n] entries of the boot sector [bs], from entry [k] on; [rec] is
    the recursive call. *)
Fixpoint scan_entries (rec : Z → P unit) (n : nat) (bs : list Z) (k ext_lba : Z) : P unit :=
  match n with
  | O => mret ()
  | S n =>
    '(fs_type, start, cnt) ← lift (table_entry bs k);
    if fs_type =? 5 then
      base ← gets ext_lba_base;
      _ ← (if negb (base =? 0) then rec (u32 (start + base)) else _ ← set_ext_base (i32 start); rec start);
      scan_entries rec n bs (k + 1) ext_lba
    else if negb (fs_type =? 0) then
      if ext_lba =? 0 then
        _ ← add_prim (u32 (ext_lba + start)) cnt;
        scan_entries rec n bs (k + 1) ext_lba
      else
        full ← add_logic (u32 (ext_lba + start)) cnt;
        if full : bool then mret () else scan_entries rec n bs (k + 1) ext_lba
    else scan_entries rec n bs (k + 1) ext_lba
  end.

(** The kernel's stack bounds the recursion; here it is [fuel]. *)
Fixpoint partition_scan (fuel : nat) (ext_lba : Z) : P unit :=
  match fuel with
  | O => lift Spin
  | S fuel =>
    ok ← scan_malloc;
    if negb ok then lift Fault else
    bs ← zoom scan_lens (bd_read ext_lba (replicate 512 0) 1);
    scan_entries (partition_scan fuel) 4 bs 0 ext_lba
  end.
End ops.

(** The partitions of the list. *)
Definition part_of_ref (d : disk) (r : part_ref) : option part_info :=
  match r with
  | Prim k => prim_parts d !! Z.to_nat k
  | Logic k => logic_parts d !! Z.to_nat k
  end.

(** ** The layout of a partitioned disk *)

Section layout.
Context {D : Type} {BD : BlockDev D} {SR : SectorReads D}.
Implicit Types d : D.
Implicit Types es : list (Z * Z * Z).
Implicit Types ps ls : list (Z * Z).

(** The partition table in sector [lba]. *)
Definition table_at d (lba : Z) es : Prop :=
  0 ≤ lba < disk_end ∧ length es = 4%nat ∧
  ∀ k e, es !! k = Some e → table_entry (dbytes d (512 * lba) 512) (Z.of_nat k) = Ret e.

Definition unused (e : Z * Z * Z) : Prop := e.1.1 = 0.

(** A chain of extended boot records from sector [lba] on, each with one
    partition; the records are relative to [base], the partitions to their
    record. *)
Inductive chain d (base : Z) : Z → list (Z * Z) → Prop :=
  | chain_last lba t s c es : 0 < lba → t ≠ 0 → t ≠ 5 → table_at d lba ((t, s, c) :: es) → Forall unused es →
      chain d base lba [(u32 (lba + s), c)]
  | chain_next lba t s c o n es ls : 0 < lba → t ≠ 0 → t ≠ 5 → table_at d lba ((t, s, c) :: (5, o, n) :: es) →
      Forall unused es → chain d base (u32 (o + base)) ls → chain d base lba ((u32 (lba + s), c) :: ls).

(** A table of primary partitions [ps] and, while [ext], at most one extended
    partition with the logical partitions [ls]. *)
Inductive layout d : bool → list (Z * Z * Z) → list (Z * Z) → list (Z * Z) → Prop :=
  | layout_nil ext : layout d ext [] [] []
  | layout_empty ext s c es ps ls : layout d ext es ps ls → layout d ext ((0, s, c) :: es) ps ls
  | layout_prim ext t s c es ps ls : t ≠ 0 → t ≠ 5 → layout d ext es ps ls →
      layout d ext ((t, s, c) :: es) ((u32 s, c) :: ps) ls
  | layout_ext s c es ps ls : 0 < s → chain d s s ls → layout d false es ps [] → layout d true ((5, s, c) :: es) ps ls.

(** The order on the list of partitions, the primary ones from [k] on. *)
Fixpoint refs_of (k : Z) es ls : list part_ref :=
  match es with
  | [] => []
  | (t, _, _) :: es =>
    if t =? 0 then refs_of k es ls
    else if t =? 5 then map Logic (seqZ 0 (Z.min 8 (Z.of_nat (length ls)))) ++ refs_of k es ls
    else Prim k :: refs_of (k + 1) es ls
  end.

(** Disks with the same bytes have the same layout. *)
Lemma table_at_same d d' lba es : same_bytes d d' → table_at d lba es → table_at d' lba es.
Proof. intros Hs (Hl & Hn & He). split_and!; [lia..|done|]. intros k e Hk. rewrite (dbytes_same d d'); auto. Qed.
Lemma chain_same d d' base lba ls : same_bytes d d' → chain d base lba ls → chain d' base lba ls.
Proof.
  intros Hs. induction 1; [eapply chain_last|eapply chain_next]; eauto using table_at_same.
Qed.

Lemma layout_same d d' ext es ps ls : same_bytes d d' → layout d ext es ps ls → layout d' ext es ps ls.
Proof. intros Hs. induction 1; econstructor; eauto using chain_same. Qed.
End layout.

(** Partition [no] of the disk [nm]. *)
Definition blank : part_info := PartInfo (replicate 8 0) 0 0.
Definition part_of (nm : list Z) (no : Z) (x : Z * Z) : part_info :=
  PartInfo (nm ++ decimal no ++ replicate (8 - length (nm ++ decimal no)) 0) x.1 x.2.
Definition filled (n : nat) (nm : list Z) (first : Z) (l : list (Z * Z)) : list part_info :=
  imap (λ k x, part_of nm (first + Z.of_nat k) x) l ++ replicate (n - length l) blank.

Lemma filled_lookup n nm first l : (length l < n)%nat → filled n nm first l !! length l = Some blank.
Proof.
  intros Hl. unfold filled. rewrite lookup_app_r by (by rewrite length_imap). rewrite length_imap, Nat.sub_diag.
  by apply lookup_replicate_2; lia.
Qed.

Lemma filled_length n nm first l : (length l ≤ n)%nat → length (filled n nm first l) = n.
Proof. intros Hl. unfold filled. rewrite length_app, length_imap, length_replicate. lia. Qed.

Lemma filled_insert n nm first l x : (length l < n)%nat →
  <[length l := part_of nm (first + Z.of_nat (length l)) x]> (filled n nm first l) = filled n nm first (l ++ [x]).
Proof.
  intros Hl. unfold filled. rewrite insert_app_r_alt by (by rewrite length_imap). rewrite length_imap, Nat.sub_diag.
  rewrite imap_app, <-app_assoc. f_equal. rewrite length_app. cbn [length].
  replace (n - length l)%nat with (S (n - (length l + 1))) by lia. cbn. by rewrite Nat.add_0_r.
Qed.

Lemma decimal_short no : 0 ≤ no < 100 → (length (decimal no) ≤ 2)%nat.
Proof.
  intros Hno. unfold decimal. destruct (Z.ltb_spec no 0); [lia|]. cbn [app]. rewrite length_map, Z.abs_eq by lia.
  unfold digits. change 33%nat with (S (S 31)). cbn [digits_go].
  destruct (Z.eqb_spec (no / 10) 0); [cbn; lia|]. destruct (Z.eqb_spec (no / 10 / 10) 0); [cbn; lia|zlia].
Qed.

Lemma named_part_run nm tl ps ls no start cnt : str_ok nm → (length nm ≤ 5)%nat → 0 ≤ no < 100 →
  named_part (Disk (nm ++ 0 :: tl) ps ls) blank no start cnt = Ret (part_of nm no (start, cnt)).
Proof.
  intros Hnm Hl Hno. unfold named_part, sprintf. cbn [part_name blank disk_name].
  pose proof (vsprintf_run [Str nm tl; Dec no] [] 8) as Hr. unfold fmt_of, args_of, out_of in Hr.
  cbn [map concat piece_fmt piece_args piece_out app] in Hr. rewrite app_nil_r in Hr. rewrite i32_id in Hr by lia.
  pose proof (decimal_short no Hno) as Hd. rewrite Hr; [|repeat constructor; [done|lia]|rewrite length_app; lia|lia].
  cbn [mbind outcome_bind]. unfold part_of. cbn [fst snd]. by rewrite <-app_assoc.
Qed.

(** ** The scan *)

Section runs.
Context {D : Type} {BD : BlockDev D} {SR : SectorReads D}.
Context (nm tl : list Z) (Hnm : str_ok nm) (Hlen : (length nm ≤ 5)%nat).
Implicit Types d : D.
Implicit Types ps ls : list (Z * Z).

(** The scan behind the partitions [ps] and [ls]. *)
Definition at_parts d (base : Z) ps ls (refs : list part_ref) : scan D :=
  Scan d (Disk (nm ++ 0 :: tl) (filled 4 nm 1 ps) (filled 8 nm 5 ls)) base (Z.of_nat (length ps))
    (Z.of_nat (length ls)) refs [].

Lemma add_prim_store d base ps ls refs start cnt : (length ps < 4)%nat →
  add_prim start cnt (at_parts d base ps ls refs) =
    (ASSERT (Z.of_nat (length ps) <? 3)) (at_parts d base (ps ++ [(start, cnt)]) ls (refs ++ [Prim (Z.of_nat (length ps))])).
Proof.
  intros Hl. unfold add_prim. rewrite bind_gets. cbn [id hd at_parts prim_parts disk_name logic_parts p_no].
  assert (Hld : load (filled 4 nm 1 ps) (Z.of_nat (length ps)) = Ret blank).
  { apply load_Ret. rewrite Nat2Z.id. split; [lia|by apply filled_lookup]. }
  rewrite Hld, bind_lift, named_part_run, bind_lift by (done || lia).
  rewrite store_in by (rewrite filled_length by lia; lia).
  rewrite bind_lift, bind_modify, Nat2Z.id. replace (Z.of_nat (length ps) + 1) with (1 + Z.of_nat (length ps)) by lia.
  rewrite filled_insert by done. unfold at_parts. cbn [scan_dev ext_lba_base l_no partition_list scan_mem].
  rewrite length_app. cbn [length]. replace (u8 (1 + Z.of_nat (length ps))) with (Z.of_nat (length ps + 1)) by zlia.
  f_equal. destruct (Z.ltb_spec (Z.of_nat (length ps + 1)) 4), (Z.ltb_spec (Z.of_nat (length ps)) 3); done || lia.
Qed.

Lemma add_logic_run d base ps ls refs start cnt : (length ls < 8)%nat →
  add_logic start cnt (at_parts d base ps ls refs) =
    Ret (8 <=? Z.of_nat (length ls) + 1,
      at_parts d base ps (ls ++ [(start, cnt)]) (refs ++ [Logic (Z.of_nat (length ls))])).
Proof.
  intros Hl. unfold add_logic. rewrite bind_gets. cbn [id hd at_parts prim_parts disk_name logic_parts l_no].
  assert (Hld : load (filled 8 nm 5 ls) (Z.of_nat (length ls)) = Ret blank).
  { apply load_Ret. rewrite Nat2Z.id. split; [lia|by apply filled_lookup]. }
  rewrite Hld, bind_lift, named_part_run, bind_lift by (done || lia).
  rewrite store_in by (rewrite filled_length by lia; lia).
  rewrite bind_lift, bind_modify, Nat2Z.id, ret_eq. replace (Z.of_nat (length ls) + 5) with (5 + Z.of_nat (length ls)) by lia.
  rewrite filled_insert by done. unfold at_parts. cbn [scan_dev ext_lba_base p_no partition_list scan_mem].
  rewrite length_app. cbn [length]. replace (u8 (Z.of_nat (length ls) + 1)) with (Z.of_nat (length ls + 1)) by zlia.
  do 3 f_equal. lia.
Qed.

(** Entries of a buffer, from entry [k] on. *)
Definition entries_from (bs : list Z) (k : Z) (es : list (Z * Z * Z)) : Prop :=
  ∀ j e, es !! j = Some e → table_entry bs (k + Z.of_nat j) = Ret e.

Lemma entries_cons bs k e es : entries_from bs k (e :: es) → table_entry bs k = Ret e ∧ entries_from bs (k + 1) es.
Proof.
  intros He. split.
  - rewrite <-(Z.add_0_r k). by apply (He 0%nat).
  - intros j x Hj. replace (k + 1 + Z.of_nat j) with (k + Z.of_nat (S j)) by lia. by apply He.
Qed.

(** One entry. *)
Lemma scan_cons (rec : Z → M (scan D) unit) n bs k t st c es lba s : entries_from bs k ((t, st, c) :: es) →
  scan_entries rec (S n) bs k lba s =
    (if t =? 5 then
      base ← gets ext_lba_base;
      _ ← (if negb (base =? 0) then rec (u32 (st + base)) else _ ← set_ext_base (i32 st); rec st);
      scan_entries rec n bs (k + 1) lba
    else if negb (t =? 0) then
      if lba =? 0 then
        _ ← add_prim (u32 (lba + st)) c;
        scan_entries rec n bs (k + 1) lba
      else
        full ← add_logic (u32 (lba + st)) c;
        if full : bool then mret () else scan_entries rec n bs (k + 1) lba
    else scan_entries rec n bs (k + 1) lba) s.
Proof. intros [He _]%entries_cons. cbn [scan_entries]. by rewrite He, bind_lift. Qed.

Lemma scan_unused (rec : Z → M (scan D) unit) bs es k lba s : entries_from bs k es → Forall unused es →
  scan_entries rec (length es) bs k lba s = Ret ((), s).
Proof.
  intros He Hu. revert k He. induction Hu as [|[[t st] c] es Ht Hu IH]; intros k He; [done|].
  cbn [length]. rewrite (scan_cons _ _ _ _ _ _ _ _ _ _ He). apply entries_cons in He as [_ Hes].
  unfold unused in Ht. cbn in Ht. subst t. change (0 =? 5) with false. change (negb (0 =? 0)) with false. by apply IH.
Qed.

(** A primary partition, and one too many. *)
Lemma scan_prim (rec : Z → M (scan D) unit) n bs k t st c es d base ps ls refs : entries_from bs k ((t, st, c) :: es) →
  t ≠ 0 → t ≠ 5 → (length ps < 3)%nat →
  scan_entries rec (S n) bs k 0 (at_parts d base ps ls refs) =
    scan_entries rec n bs (k + 1) 0 (at_parts d base (ps ++ [(u32 st, c)]) ls (refs ++ [Prim (Z.of_nat (length ps))])).
Proof.
  intros He Ht Ht5 Hl. rewrite (scan_cons _ _ _ _ _ _ _ _ _ _ He), (proj2 (Z.eqb_neq t 5)), (proj2 (Z.eqb_neq t 0)) by done.
  cbn [negb]. change (0 =? 0) with true. cbv iota. unfold mbind at 1, M_bind at 1. rewrite add_prim_store by lia.
  unfold ASSERT. rewrite Z.add_0_l. destruct (Z.ltb_spec (Z.of_nat (length ps)) 3); [done|lia].
Qed.

Lemma scan_prim_full (rec : Z → M (scan D) unit) n bs k t st c es d base ps ls refs : entries_from bs k ((t, st, c) :: es) →
  t ≠ 0 → t ≠ 5 → length ps = 3%nat → scan_entries rec (S n) bs k 0 (at_parts d base ps ls refs) = Panic.
Proof.
  intros He Ht Ht5 Hl. rewrite (scan_cons _ _ _ _ _ _ _ _ _ _ He), (proj2 (Z.eqb_neq t 5)), (proj2 (Z.eqb_neq t 0)) by done.
  cbn [negb]. change (0 =? 0) with true. cbv iota. unfold mbind, M_bind. rewrite add_prim_store by lia. by rewrite Hl.
Qed.

Lemma scan_sector_read fuel d base ps ls refs lba es : bd_inv d → table_at d lba es →
  ∃ d', same_bytes d d' ∧ partition_scan (S fuel) lba (at_parts d base ps ls refs) =
    scan_entries (partition_scan fuel) 4 (dbytes d (512 * lba) 512) 0 lba (at_parts d' base ps ls refs) ∧
    entries_from (dbytes d (512 * lba) 512) 0 es.
Proof.
  intros Hd (Hlba & Hl & He). cbn [partition_scan].
  assert (scan_malloc (at_parts d base ps ls refs) = Ret (true, at_parts d base ps ls refs)) as Hm by done.
  rewrite (M_bind_Ret _ _ _ _ _ Hm). cbn [negb].
  destruct (bd_read_sector d lba (replicate 512 0)) as (d' & Hr & Hs); [done|lia|lia|rewrite length_replicate; lia|].
  exists d'. split; [done|]. rewrite (bind_zoom scan_lens _ _ (at_parts d base ps ls refs) _ d' Hr). change (512 * 1) with 512.
  rewrite drop_ge, app_nil_r by (rewrite length_replicate; lia). split; [done|]. intros j e Hj. rewrite Z.add_0_l. by apply He.
Qed.

Definition logic_refs (from n : nat) : list part_ref :=
  map Logic (seqZ (Z.of_nat from) (Z.of_nat n)).

Lemma chain_scan d base lba ls : 0 < base → chain d base lba ls →
  ∀ fuel d1 ps ls0 refs, same_bytes d d1 → (length ls ≤ fuel)%nat → (length ls0 < 8)%nat →
  ∃ d', same_bytes d d' ∧ partition_scan fuel lba (at_parts d1 base ps ls0 refs) =
    Ret ((), at_parts d' base ps (take 8 (ls0 ++ ls)) (refs ++ logic_refs (length ls0) (min (length ls) (8 - length ls0)))).
Proof.
  intros Hbase. induction 1 as [lba t st c es Hlba Ht Ht5 Htab Hu|lba t st c o n es ls Hlba Ht Ht5 Htab Hu Hch IH];
    intros fuel d1 ps ls0 refs Hs Hf Hl; (destruct fuel as [|fuel]; [cbn in Hf; lia|]);
    (destruct (scan_sector_read fuel d1 base ps ls0 refs lba _ (proj1 Hs) (table_at_same _ _ _ _ Hs Htab)) as (d2 & Hs2 & Hr & He));
    rewrite Hr; clear Hr; destruct Htab as (_ & Hlen4 & _); cbn in Hlen4;
    rewrite (scan_cons _ _ _ _ _ _ _ _ _ _ He); apply entries_cons in He as [_ Hes];
    rewrite (proj2 (Z.eqb_neq t 5)), (proj2 (Z.eqb_neq t 0)), (proj2 (Z.eqb_neq lba 0)) by lia; cbn [negb];
    rewrite (M_bind_Ret _ _ _ _ _ (add_logic_run _ _ _ _ _ _ _ Hl)).
  - exists d2. split; [by eapply same_bytes_trans|]. cbn [length]. rewrite Nat.min_l by lia.
    rewrite take_ge by (rewrite length_app; cbn; lia). unfold logic_refs. rewrite seqZ_cons by lia. cbn [map seqZ].
    destruct (8 <=? _); [done|]. replace 3%nat with (length es) by lia. by apply scan_unused.
  - destruct (Z.leb_spec 8 (Z.of_nat (length ls0) + 1)) as [H8|H8].
    + exists d2. split; [by eapply same_bytes_trans|]. cbn [length]. rewrite Nat.min_r by lia.
      replace (8 - length ls0)%nat with 1%nat by lia. rewrite firstn_app. rewrite (take_ge ls0) by lia. replace (8 - length ls0)%nat with 1%nat by lia.
      cbn [take]. rewrite take_0. done.
    + rewrite (scan_cons _ _ _ _ _ _ _ _ _ _ Hes). apply entries_cons in Hes as [_ Hes].
      change (5 =? 5) with true. cbv iota. rewrite bind_gets. cbn [ext_lba_base at_parts].
      rewrite (proj2 (Z.eqb_neq base 0)) by lia. cbn [negb].
      destruct (IH fuel d2 ps (ls0 ++ [(u32 (lba + st), c)]) (refs ++ [Logic (Z.of_nat (length ls0))])) as (d3 & Hs3 & Hr);
        [by eapply same_bytes_trans|cbn in Hf; lia|rewrite length_app; cbn; lia|].
      exists d3. split; [done|]. fold (at_parts d2 base ps (ls0 ++ [(u32 (lba + st), c)]) (refs ++ [Logic (Z.of_nat (length ls0))])).
      rewrite (M_bind_Ret _ _ _ _ _ Hr). replace 2%nat with (length es) by lia. rewrite scan_unused by done.
      rewrite <-!app_assoc, length_app. cbn [length app].
      replace (S (length ls) `min` (8 - length ls0))%nat with (S (length ls `min` (8 - (length ls0 + 1)))) by lia.
      do 4 f_equal. unfold logic_refs. rewrite (seqZ_cons (Z.of_nat (length ls0))) by lia. cbn [map].
      do 3 f_equal; lia.
Qed.

Lemma layout_false d es ps ls : layout d false es ps ls → ls = [] ∧ ∀ k ls', refs_of k es ls' = refs_of k es [].
Proof.
  intros Hl. remember false as ext eqn:Hext. induction Hl as [|? s c ? ? ? Hl IH|? t s c ? ? ? Ht Ht5 Hl IH|]; [done| | |done].
  - destruct (IH Hext) as [-> Hr]. split; [done|]. intros k ls'. cbn. apply Hr.
  - destruct (IH Hext) as [-> Hr]. split; [done|]. intros k ls'. cbn.
    rewrite (proj2 (Z.eqb_neq t 5)), (proj2 (Z.eqb_neq t 0)) by done. f_equal. apply Hr.
Qed.

Lemma mbr_scan d ext es ps ls : layout d ext es ps ls →
  ∀ fuel bs k d1 base ps0 ls0 refs, same_bytes d d1 → entries_from bs k es → (length ls ≤ fuel)%nat →
  (length ps0 + length ps ≤ 3)%nat → (ext = true → base = 0 ∧ ls0 = []) →
  ∃ d' base', same_bytes d d' ∧ scan_entries (partition_scan fuel) (length es) bs k 0 (at_parts d1 base ps0 ls0 refs) =
    Ret ((), at_parts d' base' (ps0 ++ ps) (ls0 ++ take 8 ls) (refs ++ refs_of (Z.of_nat (length ps0)) es ls)).
Proof.
  induction 1 as [ext|ext s c es ps ls Hl IH|ext t s c es ps ls Ht Ht5 Hl IH|s c es ps ls Hs Hch Hl IH];
    intros fuel bs k d1 base ps0 ls0 refs Hsame He Hf Hps Hx; [|cbn [length];
    rewrite (scan_cons _ _ _ _ _ _ _ _ _ _ He); apply entries_cons in He as [_ Hes]| |cbn [length];
    rewrite (scan_cons _ _ _ _ _ _ _ _ _ _ He); apply entries_cons in He as [_ Hes]].
  - exists d1, base. split; [done|]. rewrite take_nil, !app_nil_r. done.
  - destruct (IH fuel bs (k + 1) d1 base ps0 ls0 refs) as (d' & b' & Hs' & Hr); [done..|]. exists d', b'. split; [done|]. exact Hr.
  - cbn [length]. rewrite (scan_prim _ _ _ _ _ _ _ _ _ _ _ _ _ He) by (done || (cbn in Hps; lia)). apply entries_cons in He as [_ Hes].
    destruct (IH fuel bs (k + 1) d1 base (ps0 ++ [(u32 s, c)]) ls0 (refs ++ [Prim (Z.of_nat (length ps0))])) as (d' & b' & Hs' & Hr);
      [done..|rewrite length_app; cbn in *; lia|done|].
    exists d', b'. split; [done|]. rewrite Hr, <-!app_assoc, length_app. cbn [app length refs_of].
    rewrite (proj2 (Z.eqb_neq t 5)), (proj2 (Z.eqb_neq t 0)) by done. by rewrite Nat2Z.inj_add.
  - destruct (Hx eq_refl) as [-> ->]. change (5 =? 5) with true. cbv iota. rewrite bind_gets. cbn [ext_lba_base at_parts].
    change (negb (0 =? 0)) with false. cbv iota. assert (s < disk_end) by (inversion Hch; subst; match goal with H : table_at _ _ _ |- _ => apply H end).
    destruct (layout_false _ _ _ _ Hl) as [_ Hrefs].
    destruct (chain_scan d s s ls Hs Hch fuel d1 ps0 [] refs Hsame Hf ltac:(cbn; lia)) as (d2 & Hs2 & Hr).
    assert (Hrec : (_ ← set_ext_base (i32 s); partition_scan fuel s) (at_parts d1 0 ps0 [] refs) =
      Ret ((), at_parts d2 s ps0 (take 8 ls) (refs ++ logic_refs 0 (length ls `min` 8)))).
    { unfold set_ext_base. rewrite bind_modify. rewrite i32_id by (unfold disk_end in *; lia). exact Hr. }
    fold (at_parts d1 0 ps0 [] refs). rewrite (M_bind_Ret _ _ _ _ _ Hrec).
    destruct (IH fuel bs (k + 1) d2 s ps0 (take 8 ls) (refs ++ logic_refs 0 (length ls `min` 8))) as (d' & b' & Hs' & Hr');
      [done|done|cbn; lia|done|done|].
    exists d', b'. split; [done|]. rewrite Hr', <-app_assoc, app_nil_r. cbn [refs_of]. change (5 =? 0) with false.
    change (5 =? 5) with true. cbv iota. rewrite (Hrefs _ ls). do 5 f_equal. unfold logic_refs. do 2 f_equal. lia.
Qed.

Lemma partition_scan_run d es ps ls fuel : bd_inv d → table_at d 0 es → layout d true es ps ls →
  (length ps ≤ 3)%nat → (length ls < fuel)%nat →
  ∃ d' b', partition_scan fuel 0 (Scan d (Disk (nm ++ 0 :: tl) (replicate 4 blank) (replicate 8 blank)) 0 0 0 [] []) =
      Ret ((), at_parts d' b' ps (take 8 ls) (refs_of 0 es ls)) ∧ same_bytes d d'.
Proof.
  intros Hd Htab Hl Hps Hf. destruct fuel as [|fuel]; [lia|].
  destruct (scan_sector_read fuel d 0 [] [] [] 0 es Hd Htab) as (d1 & Hs & Hr & He).
  destruct (mbr_scan d true es ps ls Hl fuel (dbytes d (512 * 0) 512) 0 d1 0 [] [] []) as (d' & b' & Hs' & Hr');
    [done|done|lia|cbn; lia|done|].
  rewrite (proj1 (proj2 Htab)) in Hr'. rewrite Hr' in Hr. exists d', b'. split; [exact Hr|done].
Qed.

(** ** Properties *)

(** C16: on a disk with at most three primary partitions and a chain of extended
    boot records the scan ends, changes nothing on the disk, and lists the
    primary partitions and the first eight logical ones with their names,
    absolute first sectors and sizes, in the order of the tables. *)
Theorem partition_scan_correct d es ps ls fuel : bd_inv d → table_at d 0 es → layout d true es ps ls →
  (length ps ≤ 3)%nat → (length ls < fuel)%nat →
  ∃ s', partition_scan fuel 0 (Scan d (Disk (nm ++ 0 :: tl) (replicate 4 blank) (replicate 8 blank)) 0 0 0 [] []) =
      Ret ((), s') ∧ same_bytes d (scan_dev s') ∧
    prim_parts (hd s') = filled 4 nm 1 ps ∧ logic_parts (hd s') = filled 8 nm 5 (take 8 ls) ∧
    partition_list s' = refs_of 0 es ls.
Proof.
  intros Hd Htab Hl Hps Hf. destruct (partition_scan_run d es ps ls fuel) as (d' & b' & Hr & Hs); [done..|].
  eexists. split; [exact Hr|]. by split.
Qed.

(** A disk with four primary partitions stops the kernel: the assertion
    behind the increment fails for the last of the four allowed ones. *)
Theorem partition_scan_four_primaries d es fuel : bd_inv d → table_at d 0 es →
  Forall (λ e, e.1.1 ≠ 0 ∧ e.1.1 ≠ 5) es →
  partition_scan (S fuel) 0 (Scan d (Disk (nm ++ 0 :: tl) (replicate 4 blank) (replicate 8 blank)) 0 0 0 [] []) = Panic.
Proof.
  intros Hd Htab Hall. destruct (scan_sector_read fuel d 0 [] [] [] 0 es Hd Htab) as (d1 & _ & Hr & He).
  etransitivity; [exact Hr|]. clear Hr. destruct Htab as (_ & Hl & _).
  destruct es as [|[[t1 s1] c1] [|[[t2 s2] c2] [|[[t3 s3] c3] [|[[t4 s4] c4] [|]]]]]; try done. clear Hl.
  repeat (apply Forall_cons in Hall as [[? ?] Hall]). cbn [fst snd] in *.
  do 3 (rewrite (scan_prim _ _ _ _ _ _ _ _ _ _ _ _ _ He) by (done || (cbn; lia)); apply entries_cons in He as [_ He]).
  by apply (scan_prim_full _ _ _ _ _ _ _ _ _ _ _ _ _ He).
Qed.
End runs.

(** ** Examples *)

Definition ex_entry (t s c : Z) : list Z := [0; 0; 0; 0; t; 0; 0; 0] ++ le32 s ++ le32 c.
Definition ex_table (es : list (Z * Z * Z)) : list Z :=
  replicate 446 0 ++ concat (map (λ e, ex_entry e.1.1 e.1.2 e.2) es) ++ [0x55; 0xaa].

(** A primary partition and two logical ones. *)
Definition ex_mbr : list (Z * Z * Z) := [(0x83, 2048, 16384); (5, 20000, 10000); (0, 0, 0); (0, 0, 0)].
Definition ex_ebr1 : list (Z * Z * Z) := [(0x83, 63, 1000); (5, 5000, 600); (0, 0, 0); (0, 0, 0)].
Definition ex_ebr2 : list (Z * Z * Z) := [(0x83, 63, 500); (0, 0, 0); (0, 0, 0); (0, 0, 0)].
Definition ex_parts_dev : ram := λ x,
  if x =? 0 then ex_table ex_mbr else if x =? 20000 then ex_table ex_ebr1
  else if x =? 25000 then ex_table ex_ebr2 else [].
Definition ex_full_dev : ram := λ x, ex_table (replicate 4 (0x83, 2048, 100)).

Ltac table_tac := split; [unfold disk_end; lia|split; [done|]];
  intros k e Hk; do 4 (destruct k as [|k]; [injection Hk as <-; by vm_compute|]); done.

Lemma ex_mbr_at : table_at ex_parts_dev 0 ex_mbr.
Proof. table_tac. Qed.
Lemma ex_ebr1_at : table_at ex_parts_dev 20000 ex_ebr1.
Proof. table_tac. Qed.
Lemma ex_ebr2_at : table_at ex_parts_dev 25000 ex_ebr2.
Proof. table_tac. Qed.
Lemma ex_full_at : table_at ex_full_dev 0 (replicate 4 (0x83, 2048, 100)).
Proof. table_tac. Qed.

Lemma ex_layout : layout ex_parts_dev true ex_mbr [(2048, 16384)] [(20063, 1000); (25063, 500)].
Proof.
  apply (layout_prim _ true 0x83 2048); [done..|]. apply layout_ext; [lia| |].
  - apply (chain_next _ _ 20000 0x83 63 1000 5000 600 [(0, 0, 0); (0, 0, 0)]); [lia|done|done|exact ex_ebr1_at|by repeat constructor|].
    apply (chain_last _ _ 25000 0x83 63 500 [(0, 0, 0); (0, 0, 0); (0, 0, 0)]); [lia|done|done|exact ex_ebr2_at|by repeat constructor].
  - do 2 apply layout_empty. apply layout_nil.
Qed.

Lemma partition_scan_correct_witness :
  ∃ s', partition_scan 3 0 (Scan ex_parts_dev (Disk [115; 100; 98; 0; 0; 0; 0; 0] (replicate 4 blank) (replicate 8 blank)) 0 0 0 [] []) =
      Ret ((), s') ∧
    omap (part_of_ref (hd s')) (partition_list s') =
      [PartInfo [115; 100; 98; 49; 0; 0; 0; 0] 2048 16384; PartInfo [115; 100; 98; 53; 0; 0; 0; 0] 20063 1000;
       PartInfo [115; 100; 98; 54; 0; 0; 0; 0] 25063 500].
Proof.
  destruct (partition_scan_correct [115; 100; 98] [0; 0; 0; 0] ltac:(repeat constructor; lia) ltac:(cbn; lia)
    ex_parts_dev ex_mbr [(2048, 16384)] [(20063, 1000); (25063, 500)] 3) as (s' & Hr & _ & Hp & Hl & Hrefs);
    [exact I|exact ex_mbr_at|exact ex_layout|cbn; lia|cbn; lia|].
  exists s'. split; [exact Hr|]. rewrite Hrefs. unfold part_of_ref. destruct (hd s'). cbn in Hp, Hl. subst. by vm_compute.
Defined.

Lemma partition_scan_four_primaries_witness :
  partition_scan 1 0 (Scan ex_full_dev (Disk [115; 100; 98; 0; 0; 0; 0; 0] (replicate 4 blank) (replicate 8 blank)) 0 0 0 [] []) =
    Panic.
Proof.
  apply (partition_scan_four_primaries [115; 100; 98] [0; 0; 0; 0] ltac:(repeat constructor; lia) ltac:(cbn; lia)
    ex_full_dev (replicate 4 (0x83, 2048, 100)) 0); [exact I|exact ex_full_at|by repeat constructor].
Defined.
