(* ===== verification/IdeInit.v ===== *)
(** * The disks at start (device/ide.c: swap_pairs_bytes, identify_disk, ide_init)

    What the kernel finds out about its disks: the identification data of each
    drive, the table of channels and the partitions of every second drive. The
    channels' controllers are those of [Ide], the partitions are scanned as in
    [Parts]. *)

From Stdlib Require Import ZArith Lia String.
From stdpp Require Import base numbers list.
From S2P Require Import Prelude Interrupt CString Stdio DList Thread Memory Disk Ide Parts.
#[local] Open Scope list_scope.

(** ** Identification *)

(** The loop of [swap_pairs_bytes]: [d] is the offset of [dst], [idx] is a byte. *)
Fixpoint swap_loop (fuel : nat) (dst : list Z) (d : Z) (buf : list Z) (idx len : Z) : outcome (list Z * Z) :=
  match fuel with
  | O => Spin
  | S fuel =>
    if idx <? len then
      a ← load dst d; buf ← store buf (idx + 1) a;
      b ← load dst (d + 1); buf ← store buf idx b;
      swap_loop fuel dst (d + 2) buf (u8 (idx + 2)) len
    else Ret (buf, idx)
  end.
Definition swap_pairs_bytes (dst buf : list Z) (len : Z) : outcome (list Z) :=
  '(buf, idx) ← swap_loop (S (Z.to_nat len)) dst 0 buf 0 len;
  store buf idx 0.

Section identify.
Context {H : Type} {A : Ata H}.
Abbreviation C := (M (ide_channel H)).

(** [identify_disk] with the text that it prints; [id_info] and [buf] are the
    local arrays before they are written. *)
Definition identify_disk (dev_no : Z) (nm id_info buf : list Z) : C (list Z) :=
  _ ← select_disk dev_no;
  _ ← cmd_out CMD_IDENTIFY;
  _ ← disk_done_down;
  ok ← busy_wait;
  if negb ok then PANIC else
  id_info ← read_from_sector id_info 0 1;
  buf ← lift (swap_pairs_bytes (drop 20 id_info) buf 20);
  t1 ← lift (printk (chars "   disk %s info:" ++ [10] ++ line "      SN: %s") [VPtr nm; VPtr buf]);
  buf ← lift (memset buf 0 64);
  buf ← lift (swap_pairs_bytes (drop 54 id_info) buf 40);
  t2 ← lift (printk (line "      MODULE: %s") [VPtr buf]);
  sectors ← lift (get_u32 id_info 120);
  t3 ← lift (printk (line "      SECTORS: %d") [VWord sectors]);
  t4 ← lift (printk (line "      CAPACITY: %dMB") [VWord (u32 (sectors * 512) / 1024 / 1024)]);
  mret (c_str t1 ++ c_str t2 ++ c_str t3 ++ c_str t4).
End identify.

(** ** What identification reads *)

(** The pairs of bytes with the two exchanged. *)
Fixpoint swapped (l : list Z) : list Z :=
  match l with a :: b :: l => b :: a :: swapped l | _ => [] end.

Lemma swap_loop_run k l pre rest acc post fuel : length l = (2 * k)%nat → length acc = length pre →
  (length l ≤ length post)%nat → Z.of_nat (length pre + length l) < 255 → (k < fuel)%nat →
  swap_loop fuel (pre ++ l ++ rest) (Z.of_nat (length pre)) (acc ++ post) (Z.of_nat (length pre)) (Z.of_nat (length pre + length l)) =
    Ret (acc ++ swapped l ++ drop (length l) post, Z.of_nat (length pre + length l)).
Proof.
  revert l pre acc post fuel. induction k as [|k IH]; intros l pre acc post fuel Hl Hacc Hpost Hlen Hf; (destruct fuel as [|fuel]; [lia|]).
  - destruct l; [|done]. cbn [swap_loop length swapped app drop]. rewrite Nat.add_0_r.
    destruct (Z.ltb_spec (Z.of_nat (length pre)) (Z.of_nat (length pre))); [lia|done].
  - destruct l as [|a [|b l]]; [done|cbn in Hl; lia|]. cbn [length] in *.
    destruct post as [|x [|y post]]; [cbn in Hpost; lia|cbn in Hpost; lia|]. cbn [swap_loop length].
    destruct (Z.ltb_spec (Z.of_nat (length pre)) (Z.of_nat (length pre + S (S (length l))))); [|lia].
    assert (load (pre ++ (a :: b :: l) ++ rest) (Z.of_nat (length pre)) = Ret a) as ->.
    { apply load_Ret. split; [lia|]. by rewrite Nat2Z.id, lookup_app_r, Nat.sub_diag by lia. }
    assert (load (pre ++ (a :: b :: l) ++ rest) (Z.of_nat (length pre) + 1) = Ret b) as ->.
    { apply load_Ret. split; [lia|]. replace (Z.to_nat _) with (length pre + 1)%nat by lia.
      rewrite lookup_app_r by lia. by replace (length pre + 1 - length pre)%nat with 1%nat by lia. }
    cbn [mbind outcome_bind]. rewrite store_in by (rewrite length_app; cbn; lia). cbn [mbind outcome_bind].
    rewrite store_in by (rewrite length_insert, length_app; cbn; lia). cbn [mbind outcome_bind].
    replace (Z.to_nat (Z.of_nat (length pre) + 1)) with (length acc + 1)%nat by lia. rewrite Nat2Z.id, <-Hacc.
    rewrite insert_app_r. cbn [insert list_insert].
    rewrite insert_app_r_alt, Nat.sub_diag by done. cbn [insert list_insert].
    replace (u8 (Z.of_nat (length acc) + 2)) with (Z.of_nat (length (pre ++ [a; b]))) by (rewrite length_app; cbn; zlia).
    replace (Z.of_nat (length acc) + 2) with (Z.of_nat (length (pre ++ [a; b]))) by (rewrite length_app; cbn; lia).
    replace (length acc + S (S (length l)))%nat with (length (pre ++ [a; b]) + length l)%nat by (rewrite length_app; cbn; lia).
    pose proof (IH l (pre ++ [a; b]) (acc ++ [b; a]) post fuel) as E. rewrite <-!app_assoc in E. cbn [app] in E.
    change ((a :: b :: l) ++ rest) with (a :: b :: l ++ rest). rewrite E; [done|lia|rewrite !length_app; cbn; lia|cbn in Hpost; lia|rewrite length_app; cbn; lia|lia].
Qed.

(** A field of an even length is stored with its bytes exchanged, and terminated. *)
Lemma swap_pairs_run k l rest buf : length l = (2 * k)%nat → (k < 127)%nat → (length l < length buf)%nat →
  swap_pairs_bytes (l ++ rest) buf (Z.of_nat (length l)) = Ret (swapped l ++ 0 :: drop (S (length l)) buf).
Proof.
  intros Hl Hk Hb. unfold swap_pairs_bytes. rewrite Nat2Z.id.
  pose proof (swap_loop_run k l [] rest [] buf (S (length l)) Hl eq_refl ltac:(lia) ltac:(cbn; lia) ltac:(lia)) as E.
  cbn [app length Nat.add] in E. change (Z.of_nat 0) with 0 in E. rewrite E. cbn [mbind outcome_bind].
  assert (length (swapped l) = length l) as Hs.
  { clear -Hl. revert l Hl. induction k as [|k IH]; intros [|a [|b l]] Hl; cbn in *; try lia. rewrite (IH l); lia. }
  rewrite store_in by (rewrite length_app, length_drop; lia). rewrite Nat2Z.id, <-Hs at 1.
  rewrite insert_app_r_alt by lia. rewrite Nat.sub_diag. f_equal. f_equal.
  destruct (drop (length l) buf) as [|x d] eqn:Ed; [apply (f_equal length) in Ed; rewrite length_drop in Ed; cbn in Ed; lia|].
  cbn [insert list_insert]. f_equal. rewrite <-Nat.add_1_r, <-drop_drop, Ed. done.
Qed.

Lemma printk_run ps : Forall piece_ok ps → (length (out_of ps) < 1024)%nat →
  ∃ r, printk (fmt_of ps ++ [0]) (args_of ps) = Ret r ∧ c_str r = out_of ps.
Proof.
  intros Hps Hl. unfold printk. rewrite vsprintf_run by (done || lia). cbn [mbind outcome_bind].
  eexists. split; [done|]. replace (1024 - length (out_of ps))%nat with (S (1023 - length (out_of ps))) by lia.
  cbn [replicate]. apply c_str_app. by apply out_of_ok.
Qed.

(** A piece of the format without a directive. *)
Abbreviation lits l := (map Lit l).

Lemma lits_ok l : forallb (λ c, (0 <? c) && (c <? 256) && negb (c =? 37)) l = true → Forall piece_ok (lits l).
Proof.
  induction l as [|c l IH]; cbn [forallb map]; [done|]. rewrite !andb_true_iff. intros [[[? ?] Hc] Hl].
  constructor; [|by apply IH]. unfold piece_ok, char_ok. destruct (Z.eqb_spec c 37); [done|]. lia.
Qed.

(** A format of literal text and of strings that are known to be well formed. *)
Ltac pieces := repeat first
  [ by apply lits_ok | apply Forall_app; split | apply Forall_cons; split | by apply Forall_nil
  | split; [done|lia] | exact I | split; [unfold char_ok; lia|lia] ].

Section identity.
Context {H : Type} {A : Ata H} {base irq : Z} {AS : AtaSpec H base irq}.
Implicit Types c : ide_channel H.

(** The serial number, the model and the number of sectors in the data. *)
Record identity (dev : Z) (sn md : list Z) (sectors : Z) : Prop := {
  id_sn : sn = swapped (slice (a_id dev) 20 20) ∧ str_ok sn;
  id_md : md = swapped (slice (a_id dev) 54 40) ∧ str_ok md;
  id_sectors : get_u32 (a_id dev) 120 = Ret sectors ∧ is_u32 sectors
}.

(** What [identify_disk] prints of them. *)
Definition id_text (nm sn md : list Z) (sectors : Z) : list Z :=
  chars "   disk " ++ nm ++ chars " info:" ++ [10] ++ chars "      SN: " ++ sn ++ [10] ++
  chars "      MODULE: " ++ md ++ [10] ++ chars "      SECTORS: " ++ decimal (i32 sectors) ++ [10] ++
  chars "      CAPACITY: " ++ decimal (u32 (sectors * 512) / 1048576) ++ chars "MB" ++ [10].

(** The drive's data, when the command is done. *)
Lemma identify_read k dev c : ready k c → dev = 0 ∨ dev = 1 → ∀ info, length info = 512%nat →
  ∃ c', (_ ← select_disk dev; _ ← cmd_out CMD_IDENTIFY; _ ← disk_done_down; ok ← busy_wait;
      if negb ok then PANIC else read_from_sector info 0 1) c = Ret (a_id dev, c') ∧ ready k c' ∧ same_disk (hw c) (hw c').
Proof.
  intros Hr Hdev info Hinfo. destruct (select_disk_reg k dev c Hr Hdev) as (h1 & H1 & [Hc1 Hi1 Hk1] & Hd1 & Hs1).
  destruct (a_identify h1 dev Hi1 (eq_sym Hd1)) as (h2 & H2 & Hp2 & Hq2 & Hs2).
  set (c2 := Channel h2 (port_base c) (irq_no c) (ch_lock c) true (disk_done c)).
  assert (channel_ok c2) as Hc2 by (split; apply Hc1).
  assert (cmd_out CMD_IDENTIFY (with_hw h1 c) = Ret ((), c2)) as Hcmd.
  { unfold cmd_out, set_expecting. rewrite bind_modify. unfold out_reg, reg_cmd, reg_status. rewrite bind_gets.
    change (u8 CMD_IDENTIFY) with CMD_IDENTIFY. rewrite (zoom_Ret hw_lens _ _ () h2); [done|].
    cbn. by rewrite (co_base _ Hc1 : port_base c = base). }
  destruct (a_wait h2) as (h3 & H3 & Hp3 & Hb3 & Hs3); [by rewrite Hp2|exact Hq2|].
  rewrite Hp2 in Hp3. cbn [ready_phase] in Hp3.
  destruct (disk_done_down_run c2 h3 Hc2 eq_refl H3) as (h4 & H4 & Hp4 & Hb4 & Hs4); [by rewrite Hp3|].
  set (c4 := Channel h4 _ _ _ _ _) in H4. assert (channel_ok c4) as Hc4 by (split; [apply Hc1|apply Hc1|done]).
  rewrite Hp3 in Hp4.
  destruct (busy_wait_run (Z.to_nat (30 * 1000)) c4 Hc4) as (h5 & H5 & Hp5 & _ & Hs5).
  { rewrite Z2Nat.id by done. cbn [hw c4]. lia. }
  { cbn [hw c4]. by rewrite Hp4. }
  cbn [hw c4] in Hp5. rewrite Hp4 in Hp5.
  destruct (a_data_identify h5 dev Hp5) as (h6 & H6 & Hp6 & Hs6).
  destruct (take_intr_ignored (with_hw h6 c4)) as (h7 & H7 & Hs7 & Hidle & _);
    [exact (channel_wired _ (channel_ok_hw h6 c4 Hc4))|done|]. cbn [hw with_hw] in Hs7, Hidle. rewrite Hp6 in Hidle.
  exists (with_hw h7 c4). split; [|split; [split; [apply (channel_ok_hw h7 c4 Hc4)|by apply Hidle|exact Hk1]|]].
  2: { intros d x. cbn. by rewrite Hs7, Hs6, Hs5, Hs4, Hs3, Hs2, Hs1. }
  rewrite (M_bind_Ret _ _ _ _ _ H1), (M_bind_Ret _ _ _ _ _ Hcmd), (M_bind_Ret _ _ _ _ _ H4).
  unfold busy_wait. rewrite (M_bind_Ret _ _ _ _ _ H5). cbn [negb].
  unfold read_from_sector, reg_data, rep_insw. rewrite bind_gets. change (Z.to_nat (size_in_byte (u8 1) / 2 / 256)) with 1%nat.
  rewrite (co_base _ (channel_ok_hw h5 c4 Hc4)), Z.add_0_r. cbn [insw_blocks]. rewrite bind_assoc.
  rewrite (bind_zoom hw_lens _ _ _ (a_id dev) h6); [|exact H6].
  rewrite bind_assoc. etransitivity; [by apply (M_bind_Ret _ _ _ _ _ H7)|]. cbv beta. rewrite bind_assoc, bind_ret, bind_ret, app_nil_r.
  unfold lift. rewrite put_bytes_eq by (rewrite ?a_id_length; lia). unfold splice. cbn [take app].
  rewrite drop_ge, app_nil_r by (rewrite a_id_length; lia). done.
Qed.

Lemma half_field id a n : 0 ≤ a → 0 ≤ n → a + n ≤ Z.of_nat (length id) →
  drop (Z.to_nat a) id = slice id a n ++ drop (Z.to_nat n) (drop (Z.to_nat a) id).
Proof. intros. unfold slice. by rewrite take_drop. Qed.

Lemma swapped_length k l : length l = (2 * k)%nat → length (swapped l) = length l.
Proof. revert l. induction k as [|k IH]; intros [|a [|b l]] Hl; cbn in *; try lia. rewrite (IH l); lia. Qed.

Lemma capacity_dec x : i32 (u32 x / 1024 / 1024) = u32 x / 1048576.
Proof. zlia. Qed.

Lemma decimal_length w : (length (decimal (i32 w)) ≤ 34)%nat.
Proof.
  unfold decimal. rewrite length_app, length_map.
  destruct (digits_spec 10 (Z.abs (i32 w))) as (_ & _ & ? & _); [lia|zlia|]. destruct (_ <? 0); cbn [length]; lia.
Qed.

(** The lines that [identify_disk] prints. *)
Lemma print_sn nm tl sn r : str_ok nm → str_ok sn → (length nm ≤ 7)%nat → length sn = 20%nat →
  ∃ t, printk (chars "   disk %s info:" ++ [10] ++ line "      SN: %s") [VPtr (nm ++ 0 :: tl); VPtr (sn ++ 0 :: r)] = Ret t ∧
    c_str t = chars "   disk " ++ nm ++ chars " info:" ++ [10] ++ chars "      SN: " ++ sn ++ [10].
Proof.
  intros Hnm Hsn Hl Hs.
  apply (printk_run (lits (chars "   disk ") ++ Str nm tl :: lits (chars " info:" ++ [10] ++ chars "      SN: ") ++ [Str sn r; Lit 10])).
  - pieces.
  - change (length (chars "   disk " ++ nm ++ (chars " info:" ++ [10%Z] ++ chars "      SN: ") ++ sn ++ [10%Z]) < 1024)%nat.
    rewrite !length_app. cbn. lia.
Qed.

Lemma print_module md r : str_ok md → length md = 40%nat →
  ∃ t, printk (line "      MODULE: %s") [VPtr (md ++ 0 :: r)] = Ret t ∧ c_str t = chars "      MODULE: " ++ md ++ [10].
Proof.
  intros Hmd Hl. apply (printk_run (lits (chars "      MODULE: ") ++ [Str md r; Lit 10])).
  - pieces.
  - change (length (chars "      MODULE: " ++ md ++ [10%Z]) < 1024)%nat. rewrite !length_app. cbn. lia.
Qed.

Lemma print_sectors w :
  ∃ t, printk (line "      SECTORS: %d") [VWord w] = Ret t ∧ c_str t = chars "      SECTORS: " ++ decimal (i32 w) ++ [10].
Proof.
  pose proof (decimal_length w). apply (printk_run (lits (chars "      SECTORS: ") ++ [Dec w; Lit 10])).
  - pieces.
  - change (length (chars "      SECTORS: " ++ decimal (i32 w) ++ [10%Z]) < 1024)%nat. rewrite !length_app. cbn. lia.
Qed.

Lemma print_capacity w :
  ∃ t, printk (line "      CAPACITY: %dMB") [VWord w] = Ret t ∧
    c_str t = chars "      CAPACITY: " ++ decimal (i32 w) ++ chars "MB" ++ [10].
Proof.
  pose proof (decimal_length w). apply (printk_run (lits (chars "      CAPACITY: ") ++ Dec w :: lits (chars "MB" ++ [10]))).
  - pieces.
  - change (length (chars "      CAPACITY: " ++ decimal (i32 w) ++ chars "MB" ++ [10%Z]) < 1024)%nat. rewrite !length_app. cbn. lia.
Qed.

Lemma identify_disk_run k dev nm tl sn md sectors info buf c : ready k c → dev = 0 ∨ dev = 1 →
  identity dev sn md sectors → str_ok nm → (length nm ≤ 7)%nat → length info = 512%nat → length buf = 64%nat →
  ∃ c', identify_disk dev (nm ++ 0 :: tl) info buf c = Ret (id_text nm sn md sectors, c') ∧ ready k c' ∧
    same_disk (hw c) (hw c').
Proof.
  intros Hr Hdev [[Hsn Hsk] [Hmd Hmk] [Hse Hsu]] Hnm Hnl Hinfo Hbuf.
  destruct (identify_read k dev c Hr Hdev info Hinfo) as (c' & Hread & Hr' & Hs'). exists c'. split; [|done].
  pose proof (a_id_length dev) as Hid.
  assert (length (slice (a_id dev) 20 20) = 20%nat) as Hl20 by (by rewrite slice_length by (rewrite ?Hid; lia)).
  assert (length (slice (a_id dev) 54 40) = 40%nat) as Hl40 by (by rewrite slice_length by (rewrite ?Hid; lia)).
  assert (length sn = 20%nat) as Hsnl by (by rewrite Hsn, (swapped_length 10)).
  assert (length md = 40%nat) as Hmdl by (by rewrite Hmd, (swapped_length 20)).
  assert (swap_pairs_bytes (drop 20 (a_id dev)) buf 20 = Ret (sn ++ 0 :: drop 21 buf)) as Hp1.
  { rewrite (half_field (a_id dev) 20 20), Hsn by (rewrite ?Hid; lia).
    pose proof (swap_pairs_run 10 (slice (a_id dev) 20 20) (drop (Z.to_nat 20) (drop (Z.to_nat 20) (a_id dev))) buf) as E.
    rewrite Hl20 in E. apply E; lia. }
  destruct (print_sn nm tl sn (drop 21 buf)) as (t1 & Ht1 & E1); [done..|].
  assert (memset (sn ++ 0 :: drop 21 buf) 0 64 = Ret (replicate 64 0)) as H2.
  { unfold memset. rewrite memset_loop_spec by (rewrite length_app; cbn [length]; rewrite length_drop; lia).
    rewrite drop_ge by (rewrite length_app; cbn [length]; rewrite length_drop; lia). done. }
  assert (swap_pairs_bytes (drop 54 (a_id dev)) (replicate 64 0) 40 = Ret (md ++ 0 :: replicate 23 0)) as H3.
  { rewrite (half_field (a_id dev) 54 40), Hmd by (rewrite ?Hid; lia).
    pose proof (swap_pairs_run 20 (slice (a_id dev) 54 40) (drop (Z.to_nat 40) (drop (Z.to_nat 54) (a_id dev))) (replicate 64 0)) as E.
    rewrite Hl40, length_replicate in E. apply E; lia. }
  destruct (print_module md (replicate 23 0)) as (t2 & Ht2 & E2); [done..|].
  destruct (print_sectors sectors) as (t3 & Ht3 & E3).
  destruct (print_capacity (u32 (sectors * 512) / 1024 / 1024)) as (t4 & Ht4 & E4). rewrite capacity_dec in E4.
  unfold identify_disk. rewrite <-!bind_assoc in Hread |- *.
  assert (∀ ok (f : list Z → M (ide_channel H) (list Z)) s,
    (if negb ok then PANIC else read_from_sector info 0 1 ≫= f) s = ((if negb ok then PANIC else read_from_sector info 0 1) ≫= f) s) as Hif
    by (by intros [] f s).
  etransitivity; [apply bind_ext; intros ok s; apply Hif|]. rewrite <-bind_assoc. rewrite (M_bind_Ret _ _ _ _ _ Hread).
  rewrite Hp1, bind_lift, Ht1, bind_lift, H2, bind_lift, H3, bind_lift, Ht2, bind_lift, Hse, bind_lift, Ht3, bind_lift, Ht4, bind_lift.
  rewrite E1, E2, E3, E4. unfold id_text. by rewrite <-!app_assoc.
Qed.
End identity.

(** ** Initialisation *)

(** An element of [channels]: its name, its controller and its two disks. *)
Record channel (H : Type) := Chan { ch_name : list Z; ctrl : ide_channel H; devices : list disk }.
Arguments Chan {H}. Arguments ch_name {H}. Arguments ctrl {H}. Arguments devices {H}.

(** The driver's globals, the table of interrupt handlers and what was printed;
    an element of the partition list is named by its channel and disk. The
    results of the coming calls of [sys_malloc] are in [init_mem]. *)
Record ide (H : Type) := IdeState {
  channel_cnt : Z;
  channels : list (channel H);
  ext_base : Z;
  prim_no : Z;
  logic_no : Z;
  partitions : list (Z * Z * part_ref);
  handlers : list handler;
  printed : list Z;
  init_mem : list bool
}.
Arguments IdeState {H}. Arguments channel_cnt {H}. Arguments channels {H}. Arguments ext_base {H}. Arguments prim_no {H}.
Arguments logic_no {H}. Arguments partitions {H}. Arguments handlers {H}. Arguments printed {H}. Arguments init_mem {H}.

Section init.
Context {H : Type} {A : Ata H}.
(** The running thread, the depth of the recursion of [partition_scan], and the
    local arrays of [identify_disk]. *)
Context (t : Z) (depth : nat) (id_info buf : list Z).
Abbreviation I := (M (ide H)).

Definition get_chan (n : Z) : I (channel H) := λ s, c ← load (channels s) n; Ret (c, s).
Definition set_chan (n : Z) (c : channel H) : I unit := λ s,
  l ← store (channels s) n c;
  Ret ((), IdeState (channel_cnt s) l (ext_base s) (prim_no s) (logic_no s) (partitions s) (handlers s) (printed s) (init_mem s)).
Definition put_text (text : list Z) : I unit := modify (λ s,
  IdeState (channel_cnt s) (channels s) (ext_base s) (prim_no s) (logic_no s) (partitions s) (handlers s)
    (printed s ++ text) (init_mem s)).
Definition set_numbers (p l : Z) : I unit := modify (λ s,
  IdeState (channel_cnt s) (channels s) (ext_base s) p l (partitions s) (handlers s) (printed s) (init_mem s)).
Definition set_handlers (l : list handler) : I unit := modify (λ s,
  IdeState (channel_cnt s) (channels s) (ext_base s) (prim_no s) (logic_no s) (partitions s) l (printed s) (init_mem s)).

(** [switch (channel_no)]: the port base and the interrupt number. *)
Definition channel_ports (channel_no : Z) (c : ide_channel H) : ide_channel H :=
  let '(base, irq) := if channel_no =? 0 then (0x1f0, 0x20 + 14)
    else if channel_no =? 1 then (0x170, 0x20 + 15) else (port_base c, irq_no c) in
  Channel (hw c) base irq (ch_lock c) (expecting_intr c) (disk_done c).

(** The channel up to its disks. *)
Definition init_channel (channel_no : Z) : I unit :=
  c ← get_chan channel_no;
  '(nm, _) ← lift (sprintf (ch_name c) (text "ide%d") [VWord channel_no]);
  let x := channel_ports channel_no (ctrl c) in
  let x := Channel (hw x) (port_base x) (irq_no x) (Lock NULL 0) false 0 in
  _ ← set_chan channel_no (Chan nm x (devices c));
  l ← gets handlers;
  l ← lift (register_handler l (irq_no x) Interrupt.intr_hd_handler);
  set_handlers l.

(** [partition_scan(hd, 0)] with the driver's globals. *)
Definition scan_disk (channel_no dev_no : Z) : I unit := λ s,
  c ← load (channels s) channel_no;
  d ← load (devices c) dev_no;
  '(_, r) ← partition_scan (BD := ide_dev t dev_no) depth 0
    (Scan (ctrl c) d (ext_base s) (prim_no s) (logic_no s) [] (init_mem s));
  ds ← store (devices c) dev_no (hd r);
  l ← store (channels s) channel_no (Chan (ch_name c) (scan_dev r) ds);
  Ret ((), IdeState (channel_cnt s) l (ext_lba_base r) (p_no r) (l_no r)
    (partitions s ++ map (λ p, (channel_no, dev_no, p)) (partition_list r)) (handlers s) (printed s) (scan_mem r)).

(** The body of [while (dev_no < 2)]. *)
Definition init_disk (channel_no dev_no : Z) : I unit :=
  c ← get_chan channel_no;
  d ← lift (load (devices c) dev_no);
  '(nm, _) ← lift (sprintf (disk_name d) (text "sd%c") [VWord (97 + channel_no * 2 + dev_no)]);
  ds ← lift (store (devices c) dev_no (Disk nm (prim_parts d) (logic_parts d)));
  '(out, x) ← lift (identify_disk dev_no nm id_info buf (ctrl c));
  _ ← set_chan channel_no (Chan (ch_name c) x ds);
  _ ← put_text out;
  _ ← (if negb (dev_no =? 0) then scan_disk channel_no dev_no else mret ());
  set_numbers 0 0.

(** [while (channel_no < channel_cnt)] with [n] channels left. *)
Fixpoint init_channels (n : nat) (channel_no : Z) : I unit :=
  match n with
  | O => mret ()
  | S n =>
    _ ← init_channel channel_no;
    _ ← init_disk channel_no 0;
    _ ← init_disk channel_no 1;
    init_channels n (u8 (channel_no + 1))
  end.

(** [partition_info], called for each element of the list. *)
Definition partition_info (r : Z * Z * part_ref) : I unit :=
  let '(channel_no, dev_no, p) := r in
  c ← get_chan channel_no;
  d ← lift (load (devices c) dev_no);
  part ← lift (match part_of_ref d p with Some part => Ret part | None => Fault end);
  out ← lift (printk (line "   %s start_lba:0x%x, sec_cnt:0x%x") [VPtr (part_name part); VWord (part_start part); VWord (part_cnt part)]);
  put_text (c_str out).
Fixpoint print_partitions (l : list (Z * Z * part_ref)) : I unit :=
  match l with [] => mret () | r :: l => _ ← partition_info r; print_partitions l end.

(** [hd_cnt] is the byte at 0x475 that the BIOS wrote. *)
Definition ide_init (hd_cnt : Z) : I unit :=
  _ ← put_text (c_str (line "ide_init start"));
  _ ← ASSERT (0 <? hd_cnt);
  let cnt := u8 (DIV_ROUND_UP hd_cnt 2) in
  _ ← modify (λ s, IdeState cnt (channels s) (ext_base s) (prim_no s) (logic_no s) [] (handlers s) (printed s) (init_mem s));
  _ ← init_channels (Z.to_nat cnt) 0;
  _ ← put_text (c_str ([10] ++ line "   all partition info"));
  l ← gets partitions;
  _ ← print_partitions l;
  put_text (c_str (line "ide_init done")).
End init.

(** ** A start with one channel *)

(** The line for a partition. *)
Definition part_line (p : part_info) : list Z :=
  chars "   " ++ c_str (part_name p) ++ chars " start_lba:0x" ++ map digit_char (digits 16 (u32 (part_start p))) ++
  chars ", sec_cnt:0x" ++ map digit_char (digits 16 (u32 (part_cnt p))) ++ [10].

Definition named (p : part_info) : Prop := ∃ s tl, part_name p = s ++ 0 :: tl ∧ str_ok s ∧ (length s ≤ 8)%nat.

Lemma decimal_ok z : is_u32 (Z.abs z) → str_ok (decimal z).
Proof.
  intros Hz. unfold decimal. apply Forall_app. split; [|apply digits_chars; [lia|done]].
  destruct (z <? 0); [constructor; [unfold char_ok; lia|constructor]|constructor].
Qed.

Lemma filled_named n nm first l : str_ok nm → (length nm ≤ 5)%nat → 0 ≤ first → first + Z.of_nat (length l) ≤ 100 →
  Forall named (filled n nm first l).
Proof.
  intros Hnm Hl Hf Hn. unfold filled. apply Forall_app. split.
  - apply Forall_forall. intros p Hp. apply list_elem_of_lookup in Hp as [k Hk]. rewrite list_lookup_imap in Hk.
    destruct (l !! k) eqn:El; [|done]. injection Hk as <-. apply lookup_lt_Some in El.
    pose proof (decimal_short (first + Z.of_nat k) ltac:(lia)) as Hd.
    exists (nm ++ decimal (first + Z.of_nat k)), (replicate (7 - length (nm ++ decimal (first + Z.of_nat k))) 0).
    rewrite length_app. split; [|split; [apply Forall_app; split; [done|apply decimal_ok; unfold is_u32; lia]|lia]].
    cbn [part_name part_of]. rewrite <-app_assoc. do 2 f_equal.
    rewrite length_app. by replace (8 - (length nm + length (decimal (first + Z.of_nat k))))%nat
      with (S (7 - (length nm + length (decimal (first + Z.of_nat k)))))%nat by lia.
  - apply Forall_replicate. exists [], (replicate 7 0). split_and!; [done|constructor|cbn; lia].
Qed.

Lemma print_part p : named p → ∃ t,
  printk (line "   %s start_lba:0x%x, sec_cnt:0x%x") [VPtr (part_name p); VWord (part_start p); VWord (part_cnt p)] = Ret t ∧
  c_str t = part_line p.
Proof.
  intros (s & tl & Hs & Hok & Hl). unfold part_line. rewrite Hs, c_str_app by done.
  destruct (digits_spec 16 (u32 (part_start p))) as (_ & _ & Hd1 & _); [lia|zlia|].
  destruct (digits_spec 16 (u32 (part_cnt p))) as (_ & _ & Hd2 & _); [lia|zlia|].
  apply (printk_run (lits (chars "   ") ++ Str s tl :: lits (chars " start_lba:0x") ++ Hex (part_start p) ::
    lits (chars ", sec_cnt:0x") ++ [Hex (part_cnt p); Lit 10])).
  - pieces.
  - change (length (chars "   " ++ s ++ chars " start_lba:0x" ++ map digit_char (digits 16 (u32 (part_start p))) ++
      chars ", sec_cnt:0x" ++ map digit_char (digits 16 (u32 (part_cnt p))) ++ [10%Z]) < 1024)%nat.
    rewrite !length_app, !length_map. cbn [length chars map String.list_ascii_of_string]. lia.
Qed.

Section start.
Context {H : Type} {A : Ata H} {AS : AtaSpec H 0x1f0 0x2e}.
Context (t : Z) (depth : nat) (id_info buf : list Z).
Context (Ht : t ≠ NULL) (Hinfo : length id_info = 512%nat) (Hbuf : length buf = 64%nat).
Implicit Types x : ide_channel H.
Abbreviation free x := (free_channel (base := 0x1f0) (irq := 0x2e) x).

(** A disk of the table before it is used, and the first channel's controller
    when the channel is set up. *)
Definition zero_disk : disk := Disk (replicate 8 0) (replicate 4 blank) (replicate 8 blank).
Definition fresh (h : H) : ide_channel H := Channel h 0x1f0 0x2e (Lock NULL 0) false 0.
Definition ide0 x ds : channel H := Chan (chars "ide0" ++ replicate 4 0) x ds.
Definition sd (c : Z) ps ls : disk := Disk ([115; 100; c] ++ 0 :: replicate 4 0) ps ls.

Lemma fresh_ready h : a_phase h = Idle → free (fresh h).
Proof. intros Hi. split; [split; [done|split; [done|by left]|done]|exact Hi|done]. Qed.

Lemma init_channel_run cnt x ds chs b p l parts hs out mem : (46 < length hs)%nat →
  init_channel 0 (IdeState cnt (Chan (replicate 8 0) x ds :: chs) b p l parts hs out mem) =
  Ret ((), IdeState cnt (ide0 (fresh (hw x)) ds :: chs) b p l parts (<[46%nat := Interrupt.intr_hd_handler]> hs) out mem).
Proof.
  intros Hl. unfold init_channel, get_chan. cbn [channels load].
  assert (store hs 46 Interrupt.intr_hd_handler = Ret (<[46%nat := Interrupt.intr_hd_handler]> hs)) as Hst
    by (by apply store_in; lia).
  etransitivity; [by apply M_bind_Ret|]. cbv beta.
  assert (sprintf (ch_name (Chan (replicate 8 0) x ds)) (text "ide%d") [VWord 0] = Ret (chars "ide0" ++ replicate 4 0, 4)) as ->
    by (by vm_compute).
  rewrite bind_lift. cbv beta iota zeta. cbn [channel_ports ctrl hw port_base irq_no Z.eqb devices].
  etransitivity; [by apply M_bind_Ret|]. rewrite bind_gets. cbn [handlers irq_no]. unfold register_handler.
  match goal with |- context [store hs ?n _] => change n with 46 end. rewrite Hst, bind_lift. done.
Qed.

(** Drive 1 as the block device that is scanned. *)
Definition drive1 : SectorReads (BD := ide_dev t 1) (ide_channel H) := ide_dev_reads t 1 Ht (or_intror eq_refl).

(** The two drives of the channel. *)
Lemma init_disk0_run sn md n cnt x ps ls d1 chs b p l parts hs out mem : free x → identity 0 sn md n →
  ∃ x', init_disk t depth id_info buf 0 0
      (IdeState cnt (ide0 x [Disk (replicate 8 0) ps ls; d1] :: chs) b p l parts hs out mem) =
    Ret ((), IdeState cnt (ide0 x' [sd 97 ps ls; d1] :: chs) b 0 0 parts hs (out ++ id_text [115; 100; 97] sn md n) mem) ∧
    free x' ∧ same_disk (hw x) (hw x').
Proof.
  intros Hx Hid. assert (str_ok [115; 100; 97]) as Hok by (by apply str_ok_check).
  destruct (identify_disk_run _ 0 [115; 100; 97] (replicate 4 0) sn md n id_info buf x Hx) as (x' & Hr & Hx' & Hs);
    [by left|done|done|cbn; lia|done|done|].
  exists x'. split; [|done]. unfold init_disk, get_chan. etransitivity; [by apply M_bind_Ret|]. cbv beta.
  change (load (devices (ide0 x [Disk (replicate 8 0) ps ls; d1])) 0) with (Ret (Disk (replicate 8 0) ps ls)). rewrite bind_lift.
  assert (sprintf (disk_name (Disk (replicate 8 0) ps ls)) (text "sd%c") [VWord (97 + 0 * 2 + 0)] =
    Ret ([115; 100; 97] ++ 0 :: replicate 4 0, 3)) as -> by (by vm_compute).
  rewrite bind_lift. cbv beta iota.
  change (store (devices (ide0 x [Disk (replicate 8 0) ps ls; d1])) 0 ?d) with (Ret [d; d1]). rewrite bind_lift. cbn [ctrl ide0]. rewrite Hr, bind_lift. cbv beta iota.
  reflexivity.
Qed.

Lemma init_disk1_run sn md n es ps ls cnt x d0 chs parts hs out : free x → identity 1 sn md n →
  table_at (SR := drive1) x 0 es → layout (SR := drive1) x true es ps ls → (length ps ≤ 3)%nat → (length ls < depth)%nat →
  ∃ x' b', init_disk t depth id_info buf 0 1
      (IdeState cnt (ide0 x [d0; zero_disk] :: chs) 0 0 0 parts hs out []) =
    Ret ((), IdeState cnt (ide0 x' [d0; sd 98 (filled 4 [115; 100; 98] 1 ps) (filled 8 [115; 100; 98] 5 (take 8 ls))] :: chs)
      b' 0 0 (parts ++ map (λ r, (0, 1, r)) (refs_of 0 es ls)) hs (out ++ id_text [115; 100; 98] sn md n) []) ∧
    free x' ∧ same_bytes (SR := drive1) x x'.
Proof.
  intros Hx Hid Htab Hlay Hps Hls. assert (str_ok [115; 100; 98]) as Hok by (by apply str_ok_check).
  destruct (identify_disk_run _ 1 [115; 100; 98] (replicate 4 0) sn md n id_info buf x Hx) as (x1 & Hr & Hx1 & Hs1);
    [by right|done|done|cbn; lia|done|done|].
  assert (same_bytes (SR := drive1) x x1) as Hsame.
  { split; [exact Hx1|]. intros k. unfold dbyte. cbn. by rewrite Hs1. }
  destruct (partition_scan_run (SR := drive1) [115; 100; 98] (replicate 4 0) Hok ltac:(cbn; lia) x1 es ps ls depth) as (x2 & b' & Hscan & Hi2 & Hb2);
    [exact Hx1|exact (table_at_same x x1 0 es Hsame Htab)|exact (layout_same x x1 true es ps ls Hsame Hlay)|done|done|].
  exists x2, b'. split; [|split; [exact Hi2|]; apply (same_bytes_trans x x1 x2 Hsame); by split].
  unfold init_disk, get_chan. etransitivity; [by apply M_bind_Ret|]. cbv beta.
  change (load (devices (ide0 x [d0; zero_disk])) 1) with (Ret zero_disk). rewrite bind_lift.
  assert (sprintf (disk_name zero_disk) (text "sd%c") [VWord (97 + 0 * 2 + 1)] =
    Ret ([115; 100; 98] ++ 0 :: replicate 4 0, 3)) as -> by (by vm_compute).
  rewrite bind_lift. cbv beta iota.
  change (store (devices (ide0 x [d0; zero_disk])) 1 ?d) with (Ret [d0; d]). rewrite bind_lift. cbn [ctrl ide0]. rewrite Hr, bind_lift.
  cbv beta iota. etransitivity; [by apply M_bind_Ret|]. cbv beta. etransitivity; [by apply M_bind_Ret|]. cbv beta.
  assert (scan_disk t depth 0 1 (IdeState cnt (ide0 x1 [d0; Disk ([115; 100; 98] ++ 0 :: replicate 4 0) (prim_parts zero_disk) (logic_parts zero_disk)] :: chs)
      0 0 0 parts hs (out ++ id_text [115; 100; 98] sn md n) []) =
    Ret ((), IdeState cnt (ide0 x2 [d0; sd 98 (filled 4 [115; 100; 98] 1 ps) (filled 8 [115; 100; 98] 5 (take 8 ls))] :: chs)
      b' (Z.of_nat (length ps)) (Z.of_nat (length (take 8 ls))) (parts ++ map (λ r, (0, 1, r)) (refs_of 0 es ls)) hs (out ++ id_text [115; 100; 98] sn md n) [])) as Hsc.
  { unfold scan_disk. cbn [channels ext_base prim_no logic_no init_mem partitions channel_cnt handlers printed].
    change (load (?c :: chs) 0) with (Ret c). cbn [mbind outcome_bind ctrl devices ide0].
    change (load [d0; ?d] 1) with (Ret d). cbn [mbind outcome_bind zero_disk prim_parts logic_parts].
    rewrite Hscan. reflexivity. }
  etransitivity; [apply M_bind_Ret; exact Hsc|]. reflexivity.
Qed.

(** The listing. *)
Definition part_lines (d : disk) (refs : list part_ref) : list Z :=
  concat (map (λ r, from_option part_line [] (part_of_ref d r)) refs).

Lemma print_partitions_run d refs cnt x d0 chs b p l parts hs mem : Forall (λ r, ∃ q, part_of_ref d r = Some q ∧ named q) refs →
  ∀ out, print_partitions (map (λ r, (0, 1, r)) refs) (IdeState cnt (ide0 x [d0; d] :: chs) b p l parts hs out mem) =
    Ret ((), IdeState cnt (ide0 x [d0; d] :: chs) b p l parts hs (out ++ part_lines d refs) mem).
Proof.
  induction 1 as [|r refs (q & Hq & Hn) Hf IH]; intros out; unfold part_lines; cbn [map concat print_partitions].
  - by rewrite app_nil_r.
  - destruct (print_part q Hn) as (text & Hp & Ho).
    assert (partition_info (0, 1, r) (IdeState cnt (ide0 x [d0; d] :: chs) b p l parts hs out mem) =
      Ret ((), IdeState cnt (ide0 x [d0; d] :: chs) b p l parts hs (out ++ part_line q) mem)) as Hr.
    { unfold partition_info, get_chan. etransitivity; [by apply M_bind_Ret|]. cbv beta.
      change (load (devices (ide0 x [d0; d])) 1) with (Ret d). rewrite bind_lift, Hq, bind_lift, Hp, bind_lift, Ho. done. }
    rewrite (M_bind_Ret _ _ _ _ _ Hr), IH, Hq. by rewrite <-app_assoc.
Qed.

(** The references of the list are inside the arrays. *)
Lemma refs_bounds D (BD : BlockDev D) (SR : SectorReads D) (d : D) ext es ps ls ls' : layout d ext es ps ls → ∀ k, 0 ≤ k →
  Forall (λ r, match r with Prim j => 0 ≤ j < k + Z.of_nat (length ps) | Logic j => 0 ≤ j < 8 ∧ j < Z.of_nat (length ls') end) (refs_of k es ls').
Proof.
  induction 1 as [|? s c es ps ls Hl IH|? t' s c es ps ls H0 H5 Hl IH|s c es ps ls Hs Hc Hl IH]; intros k Hk; cbn [refs_of].
  - constructor.
  - by apply IH.
  - rewrite (proj2 (Z.eqb_neq t' 5)), (proj2 (Z.eqb_neq t' 0)) by done. constructor; [cbn; lia|].
    eapply Forall_impl; [apply IH; lia|]. intros []; cbn; lia.
  - change (5 =? 0) with false. change (5 =? 5) with true. cbv iota. apply Forall_app. split; [|by apply IH].
    apply List.Forall_map, Forall_forall. intros j Hj. apply elem_of_seqZ in Hj. lia.
Qed.

Lemma listed_named nm tl es x ps ls : str_ok nm → (length nm ≤ 5)%nat → layout (SR := drive1) x true es ps ls → (length ps ≤ 3)%nat →
  Forall (λ r, ∃ q, part_of_ref (Disk tl (filled 4 nm 1 ps) (filled 8 nm 5 (take 8 ls))) r = Some q ∧ named q) (refs_of 0 es ls).
Proof.
  intros Hok Hnl Hlay Hps.
  assert (∀ n first l k, 0 ≤ k → k < Z.of_nat n → (length l ≤ n)%nat → 0 ≤ first → first + Z.of_nat (length l) ≤ 100 →
    ∃ q, filled n nm first l !! Z.to_nat k = Some q ∧ named q) as Hin.
  { intros n first l k H0 Hk Hl Hf Hn. destruct (lookup_lt_is_Some_2 (filled n nm first l) (Z.to_nat k)) as [q Hq];
      [rewrite filled_length by done; lia|]. exists q. split; [done|].
    by apply (Forall_lookup_1 _ _ _ _ (filled_named n nm first l Hok Hnl Hf Hn) Hq). }
  assert (length (take 8 ls) ≤ 8)%nat as H8 by (rewrite length_take; lia).
  eapply Forall_impl; [exact (refs_bounds _ _ _ _ _ _ _ _ ls Hlay 0 ltac:(lia))|].
  intros [k|k] Hk; cbn [part_of_ref prim_parts logic_parts]; apply Hin; lia.
Qed.

Lemma bind_put_text {B} text (f : unit → M (ide H) B) cnt chs b p l parts hs out mem :
  (put_text text ≫= f) (IdeState cnt chs b p l parts hs out mem) = f () (IdeState cnt chs b p l parts hs (out ++ text) mem).
Proof. done. Qed.

(** ** Properties *)

(** C17: with one or two disks reported, whose drives say who they are and the
    second of which is partitioned, [ide_init] sets up the first channel at its
    ports with a free lock and the interrupt handler registered, names its
    disks sda and sdb, lists the partitions of sdb with their names, first
    sectors and sizes, prints the identification of both drives and the
    listing, and leaves the channel free and the bytes of sdb as they were. *)
Theorem ide_init_correct hd_cnt x chs hs sn0 md0 n0 sn1 md1 n1 es ps ls : 1 ≤ hd_cnt ≤ 2 →
  a_phase (hw x) = Idle → identity 0 sn0 md0 n0 → identity 1 sn1 md1 n1 →
  table_at (SR := drive1) (fresh (hw x)) 0 es → layout (SR := drive1) (fresh (hw x)) true es ps ls →
  (length ps ≤ 3)%nat → (length ls < depth)%nat → (46 < length hs)%nat →
  let sdb := sd 98 (filled 4 [115; 100; 98] 1 ps) (filled 8 [115; 100; 98] 5 (take 8 ls)) in
  ∃ x' b, ide_init t depth id_info buf hd_cnt
      (IdeState 0 (Chan (replicate 8 0) x [zero_disk; zero_disk] :: chs) 0 0 0 [] hs [] []) =
    Ret ((), IdeState 1 (ide0 x' [sd 97 (replicate 4 blank) (replicate 8 blank); sdb] :: chs) b 0 0
      (map (λ r, (0, 1, r)) (refs_of 0 es ls)) (<[46%nat := Interrupt.intr_hd_handler]> hs)
      (chars "ide_init start" ++ [10] ++ id_text [115; 100; 97] sn0 md0 n0 ++ id_text [115; 100; 98] sn1 md1 n1 ++
       [10] ++ chars "   all partition info" ++ [10] ++ part_lines sdb (refs_of 0 es ls) ++ chars "ide_init done" ++ [10]) []) ∧
    free x' ∧ same_bytes (SR := drive1) (fresh (hw x)) x'.
Proof.
  intros Hcnt Hidle Hid0 Hid1 Htab Hlay Hps Hls Hhs sdb. pose proof (fresh_ready _ Hidle) as Hf.
  destruct (init_disk0_run sn0 md0 n0 1 (fresh (hw x)) (replicate 4 blank) (replicate 8 blank) zero_disk chs 0 0 0 []
    (<[46%nat := Interrupt.intr_hd_handler]> hs) (chars "ide_init start" ++ [10]) [] Hf Hid0) as (x1 & H1 & Hf1 & Hs1).
  assert (same_bytes (SR := drive1) (fresh (hw x)) x1) as Hsame.
  { split; [exact Hf1|]. intros k. unfold dbyte. cbn. by rewrite Hs1. }
  destruct (init_disk1_run sn1 md1 n1 es ps ls 1 x1 (sd 97 (replicate 4 blank) (replicate 8 blank)) chs []
    (<[46%nat := Interrupt.intr_hd_handler]> hs) ((chars "ide_init start" ++ [10]) ++ id_text [115; 100; 97] sn0 md0 n0) Hf1 Hid1) as (x2 & b & H2 & Hf2 & Hs2);
    [exact (table_at_same _ _ _ _ Hsame Htab)|exact (layout_same _ _ _ _ _ _ Hsame Hlay)|done|done|].
  exists x2, b. split; [|split; [exact Hf2|by apply (same_bytes_trans _ _ _ Hsame)]].
  unfold ide_init. rewrite bind_put_text.
  rewrite (proj2 (Z.ltb_lt 0 hd_cnt)), bind_ASSERT_true by lia.
  assert (u8 (DIV_ROUND_UP hd_cnt 2) = 1) as -> by (assert (hd_cnt = 1 ∨ hd_cnt = 2) as [-> | ->] by lia; reflexivity).
  rewrite bind_modify. change (Z.to_nat 1) with 1%nat.
  assert (init_channels t depth id_info buf 1 0 (IdeState 1 (Chan (replicate 8 0) x [zero_disk; zero_disk] :: chs) 0 0 0 [] hs (chars "ide_init start" ++ [10]) []) =
    Ret ((), IdeState 1 (ide0 x2 [sd 97 (replicate 4 blank) (replicate 8 blank); sdb] :: chs) b 0 0
      (map (λ r, (0, 1, r)) (refs_of 0 es ls)) (<[46%nat := Interrupt.intr_hd_handler]> hs)
      (((chars "ide_init start" ++ [10]) ++ id_text [115; 100; 97] sn0 md0 n0) ++ id_text [115; 100; 98] sn1 md1 n1) [])) as Hch.
  { cbn [init_channels]. rewrite (M_bind_Ret _ _ _ _ _ (init_channel_run _ _ _ _ _ _ _ _ _ _ _ Hhs)).
    rewrite (M_bind_Ret _ _ _ _ _ H1), (M_bind_Ret _ _ _ _ _ H2). reflexivity. }
  etransitivity; [apply M_bind_Ret; exact Hch|]. cbv beta. rewrite bind_put_text, bind_gets. cbn [partitions].
  assert (Forall (λ r, ∃ q, part_of_ref sdb r = Some q ∧ named q) (refs_of 0 es ls)) as Hn.
  { eapply listed_named; [by apply str_ok_check|cbn; lia|exact Hlay|done]. }
  etransitivity; [apply M_bind_Ret; by apply print_partitions_run|].
  unfold put_text, modify. cbn [channel_cnt channels ext_base prim_no logic_no partitions handlers printed init_mem].
  rewrite <-!app_assoc. done.
Qed.
End start.

(** ** Examples *)

(** A channel as the loader leaves it; its second drive has a primary and two
    logical partitions. *)
Definition ex_ide : ide_channel (ata_sim true) :=
  Channel (Sim (λ _, 0) (λ dev x, if dev =? 1 then ex_parts_dev x else []) Idle false) 0 0 (Lock NULL 0) false 0.

Lemma ex_identity (AS := sim_spec true) dev : dev = 0 ∨ dev = 1 → identity dev (replicate 20 (65 + dev)) (replicate 40 (65 + dev)) 163840.
Proof.
  intros [-> | ->]; (split; [split; [by vm_compute|by apply str_ok_check]|split; [by vm_compute|by apply str_ok_check]|
    split; [by vm_compute|unfold is_u32; lia]]).
Qed.

Lemma ide_init_correct_witness :
  let chan := Chan (replicate 8 0) ex_ide [zero_disk; zero_disk] in
  ∃ s', ide_init 0x9e000 3 (replicate 512 7) (replicate 64 7) 2
      (IdeState 0 [chan; chan] 0 0 0 [] (replicate 48 Interrupt.general_intr_handler) [] []) = Ret ((), s') ∧
    channel_cnt s' = 1 ∧ partitions s' = [(0, 1, Prim 0); (0, 1, Logic 0); (0, 1, Logic 1)].
Proof.
  assert (Ht : 0x9e000 ≠ NULL) by done.
  assert (table_at (SR := drive1 0x9e000 Ht) (fresh (hw ex_ide)) 0 ex_mbr) as T0 by table_tac.
  assert (table_at (SR := drive1 0x9e000 Ht) (fresh (hw ex_ide)) 20000 ex_ebr1) as T1 by table_tac.
  assert (table_at (SR := drive1 0x9e000 Ht) (fresh (hw ex_ide)) 25000 ex_ebr2) as T2 by table_tac.
  destruct (ide_init_correct (AS := sim_spec true) 0x9e000 3 (replicate 512 7) (replicate 64 7) Ht eq_refl eq_refl 2 ex_ide
    [Chan (replicate 8 0) ex_ide [zero_disk; zero_disk]] (replicate 48 Interrupt.general_intr_handler) _ _ _ _ _ _
    ex_mbr [(2048, 16384)] [(20063, 1000); (25063, 500)] ltac:(lia) eq_refl (ex_identity 0 (or_introl eq_refl))
    (ex_identity 1 (or_intror eq_refl)) T0) as (x' & b & Hr & _).
  - apply (layout_prim _ true 0x83 2048); [done..|]. apply layout_ext; [lia| |].
    + apply (chain_next _ _ 20000 0x83 63 1000 5000 600 [(0, 0, 0); (0, 0, 0)]); [lia|done|done|exact T1|by repeat constructor|].
      apply (chain_last _ _ 25000 0x83 63 500 [(0, 0, 0); (0, 0, 0); (0, 0, 0)]); [lia|done|done|exact T2|by repeat constructor].
    + do 2 apply layout_empty. apply layout_nil.
  - cbn. lia.
  - cbn. lia.
  - rewrite length_replicate. lia.
  - eexists. split; [exact Hr|]. by split.
Defined.
