(* ===== verification/Inode.v ===== *)
(** * Partitions and inodes (fs/inode.c, fs/super_block.h, fs/fs.h)

    The state of the file system on one mounted partition, on any
    [BlockDev]: superblock, the two bitmaps, the inodes in memory with the
    list of open inodes, and the table of open files. An inode in memory is
    named by its address, because files, directories and the list share it.
    Buffers from [sys_malloc] are zeroed byte lists; [fs_mem] says which of
    the coming calls of [sys_malloc] fail. *)

From Stdlib Require Import ZArith Lia.
From stdpp Require Import base numbers list gmap.
From S2P Require Import Prelude Bitmap DList Disk.

(** ** Data *)

Definition SECTOR_SIZE : Z := 512.
Definition BLOCK_SIZE : Z := SECTOR_SIZE.
Definition MAX_FILES_PER_PART : Z := 4096.
Definition BITS_PER_SECTOR : Z := 4096.
Definition MAX_FILE_OPEN : Z := 32.
Definition MAX_FILES_OPEN_PER_PROC : Z := 8.

Record super_block := SuperBlock {
  magic : Z; sb_sec_cnt : Z; inode_cnt : Z; part_lba_base : Z;
  block_bitmap_lba : Z; block_bitmap_sects : Z;
  inode_bitmap_lba : Z; inode_bitmap_sects : Z;
  inode_table_lba : Z; inode_table_sects : Z;
  data_start_lba : Z; root_inode_no : Z; dir_entry_size : Z
}.

(** [inode_tag] is the place in [open_inodes]. *)
Record inode := Inode {
  i_no : Z; i_size : Z; i_open_cnts : Z; write_deny : bool; i_sectors : list Z
}.
Definition sizeof_inode : Z := 76.

Record partition := Partition {
  start_lba : Z; sec_cnt : Z; sb : super_block;
  block_bitmap : bitmap; inode_bitmap : bitmap; open_inodes : list Z
}.

Record file := File { fd_pos : Z; fd_flag : Z; fd_inode : Z }.

(** [struct dir]; [dir_buf] only holds the sector that [dir_read] is reading. *)
Record dir := Dir { d_inode : Z; dir_pos : Z }.

(** Of the running thread and the terminal: the current directory, the
    characters that will be typed and those printed since the screen was cleared. *)
Record session := Session { cwd_inode_nr : Z; tty_in : list Z; tty_out : list Z }.

(** [fd_table] is the running thread's; [next_inode] is the address of the
    next object. *)
Record fs (D : Type) := Fs {
  dev : D; cur_part : partition; inodes : gmap Z inode; next_inode : Z;
  file_table : list file; fd_table : list Z; fs_mem : list bool; dirs : gmap Z dir;
  fs_session : session
}.
Arguments Fs {D}. Arguments dev {D}. Arguments cur_part {D}. Arguments inodes {D}.
Arguments next_inode {D}. Arguments file_table {D}. Arguments fd_table {D}. Arguments fs_mem {D}. Arguments dirs {D}. Arguments fs_session {D}.

Definition inode_opened (n : Z) (i : inode) := Inode (i_no i) (i_size i) n (write_deny i) (i_sectors i).
Definition inode_deny (b : bool) (i : inode) := Inode (i_no i) (i_size i) (i_open_cnts i) b (i_sectors i).
Definition inode_sized (n : Z) (i : inode) := Inode (i_no i) n (i_open_cnts i) (write_deny i) (i_sectors i).
Definition inode_sectored (l : list Z) (i : inode) := Inode (i_no i) (i_size i) (i_open_cnts i) (write_deny i) l.

Definition part_blocks (b : bitmap) (p : partition) :=
  Partition (start_lba p) (sec_cnt p) (sb p) b (inode_bitmap p) (open_inodes p).
Definition part_inodes (b : bitmap) (p : partition) :=
  Partition (start_lba p) (sec_cnt p) (sb p) (block_bitmap p) b (open_inodes p).
Definition part_open (l : list Z) (p : partition) :=
  Partition (start_lba p) (sec_cnt p) (sb p) (block_bitmap p) (inode_bitmap p) l.

Section state.
Context {D : Type}.
Definition with_dev (d : D) (s : fs D) : fs D :=
  Fs d (cur_part s) (inodes s) (next_inode s) (file_table s) (fd_table s) (fs_mem s) (dirs s) (fs_session s).
Definition with_part (p : partition) (s : fs D) : fs D :=
  Fs (dev s) p (inodes s) (next_inode s) (file_table s) (fd_table s) (fs_mem s) (dirs s) (fs_session s).
Definition with_inodes (m : gmap Z inode) (s : fs D) : fs D :=
  Fs (dev s) (cur_part s) m (next_inode s) (file_table s) (fd_table s) (fs_mem s) (dirs s) (fs_session s).
Definition with_next (n : Z) (s : fs D) : fs D :=
  Fs (dev s) (cur_part s) (inodes s) n (file_table s) (fd_table s) (fs_mem s) (dirs s) (fs_session s).
Definition with_files (l : list file) (s : fs D) : fs D :=
  Fs (dev s) (cur_part s) (inodes s) (next_inode s) l (fd_table s) (fs_mem s) (dirs s) (fs_session s).
Definition with_fds (l : list Z) (s : fs D) : fs D :=
  Fs (dev s) (cur_part s) (inodes s) (next_inode s) (file_table s) l (fs_mem s) (dirs s) (fs_session s).
Definition with_mem (l : list bool) (s : fs D) : fs D :=
  Fs (dev s) (cur_part s) (inodes s) (next_inode s) (file_table s) (fd_table s) l (dirs s) (fs_session s).
Definition with_dirs (m : gmap Z dir) (s : fs D) : fs D :=
  Fs (dev s) (cur_part s) (inodes s) (next_inode s) (file_table s) (fd_table s) (fs_mem s) m (fs_session s).
Definition with_session (x : session) (s : fs D) : fs D :=
  Fs (dev s) (cur_part s) (inodes s) (next_inode s) (file_table s) (fd_table s) (fs_mem s) (dirs s) x.
End state.

(** ** The layout on disk *)

Definition words (ws : list Z) : list Z := concat (map le32 ws).

(** [n] words from [buf + off]. *)
Fixpoint get_words (n : nat) (buf : list Z) (off : Z) : outcome (list Z) :=
  match n with
  | O => Ret []
  | S n => w ← get_u32 buf off; ws ← get_words n buf (off + 4); Ret (w :: ws)
  end.

(** The [struct inode] that [inode_sync] writes: the fields that only make
    sense in memory are 0. *)
Definition inode_bytes (i : inode) : list Z :=
  words ([i_no i; i_size i; 0; 0] ++ i_sectors i ++ [0; 0]).

Definition inode_of_bytes (buf : list Z) (off : Z) : outcome inode :=
  ws ← get_words 17 buf off;
  match ws with
  | no :: size :: cnts :: deny :: secs => Ret (Inode no size cnts (negb (deny =? 0)) secs)
  | _ => Fault
  end.

(** ** Operations *)

Section ops.
Context {D : Type} {BD : BlockDev D}.
Abbreviation F := (M (fs D)).

Definition dev_lens : lens (fs D) D := Lens dev with_dev.

(** [ide_read] and [ide_write] on [cur_part->my_disk]. *)
Definition disk_read (lba : Z) (buf : list Z) (cnt : Z) : F (list Z) := zoom dev_lens (bd_read lba buf cnt).
Definition disk_write (lba : Z) (buf : list Z) (cnt : Z) : F unit := zoom dev_lens (bd_write lba buf cnt).

(** Whether the next [sys_malloc] has memory. *)
Definition mem_ok : F bool :=
  l ← gets fs_mem;
  match l with [] => mret true | b :: l => _ ← modify (with_mem l); mret b end.
(** [sys_malloc(n)] for a buffer. *)
Definition kmalloc (n : Z) : F (option (list Z)) :=
  ok ← mem_ok; mret (if ok : bool then Some (replicate (Z.to_nat n) 0) else None).

Definition get_inode (h : Z) : F inode :=
  m ← gets inodes; match m !! h with Some i => mret i | None => lift Fault end.
Definition set_inode (h : Z) (i : inode) : F unit := modify (λ s, with_inodes (<[h := i]> (inodes s)) s).
Definition upd_inode (h : Z) (f : inode → inode) : F unit := i ← get_inode h; set_inode h (f i).
Definition upd_part (f : partition → partition) : F unit := modify (λ s, with_part (f (cur_part s)) s).

(** [inode_position]: two_sec, sec_lba, off_size. *)
Definition inode_locate (inode_no : Z) : F (bool * Z * Z) :=
  _ ← ASSERT (inode_no <? 4096);
  p ← gets cur_part;
  let off_size := u32 (inode_no * sizeof_inode) in
  let off_sec := off_size / 512 in
  let off_size_in_sec := off_size mod 512 in
  let left_in_sec := 512 - off_size_in_sec in
  mret (left_in_sec <? sizeof_inode, u32 (inode_table_lba (sb p) + off_sec), off_size_in_sec).

(** The bytes of an inode on disk are replaced through [io_buf]. *)
Definition inode_patch (pos : bool * Z * Z) (bytes io_buf : list Z) : F (list Z) :=
  let '(two_sec, sec_lba, off) := pos in
  let n := if two_sec : bool then 2 else 1 in
  buf ← disk_read sec_lba io_buf n;
  buf ← lift (put_bytes buf off bytes);
  _ ← disk_write sec_lba buf n;
  mret buf.

Definition in_part (pos : bool * Z * Z) : F unit :=
  p ← gets cur_part; ASSERT (pos.1.2 <=? u32 (start_lba p + sec_cnt p)).

(** [uint8_t inode_no = inode->i_no] *)
Definition inode_sync_of (i : inode) (io_buf : list Z) : F (list Z) :=
  pos ← inode_locate (u8 (i_no i));
  _ ← in_part pos;
  inode_patch pos (inode_bytes i) io_buf.
Definition inode_sync (h : Z) (io_buf : list Z) : F (list Z) :=
  i ← get_inode h; inode_sync_of i io_buf.

(** The search of [open_inodes]. *)
Fixpoint find_open (l : list Z) (inode_no : Z) : F (option Z) :=
  match l with
  | [] => mret None
  | h :: l => i ← get_inode h; if i_no i =? inode_no then mret (Some h) else find_open l inode_no
  end.

(** The inode is read from the disk into fresh memory; [memcpy] asserts that
    there is some. *)
Definition inode_load (inode_no : Z) : F Z :=
  pos ← inode_locate inode_no;
  ok ← mem_ok;
  let '(two_sec, sec_lba, off) := pos in
  let n := if two_sec : bool then 2 else 1 in
  ob ← kmalloc (512 * n);
  match ob with
  | None => lift Fault
  | Some buf =>
    buf ← disk_read sec_lba buf n;
    _ ← ASSERT ok;
    i ← lift (inode_of_bytes buf off);
    h ← gets next_inode;
    _ ← modify (with_next (h + 1));
    _ ← set_inode h (inode_opened 1 i);
    _ ← upd_part (λ p, part_open (h :: open_inodes p) p);
    mret h
  end.

Definition inode_open (inode_no : Z) : F Z :=
  p ← gets cur_part;
  found ← find_open (open_inodes p) inode_no;
  match found with
  | Some h => _ ← upd_inode h (λ i, inode_opened (u32 (i_open_cnts i + 1)) i); mret h
  | None => inode_load inode_no
  end.

(** [inode_delete] clears the inode on the disk. *)
Definition inode_delete (inode_no : Z) (io_buf : list Z) : F (list Z) :=
  _ ← ASSERT (inode_no <? 4096);
  pos ← inode_locate inode_no;
  _ ← in_part pos;
  inode_patch pos (replicate (Z.to_nat sizeof_inode) 0) io_buf.

(** The inode leaves the list and its memory is freed with the last user. *)
Definition inode_close (h : Z) : F unit :=
  i ← get_inode h;
  let n := u32 (i_open_cnts i - 1) in
  _ ← set_inode h (inode_opened n i);
  if n =? 0 then
    _ ← upd_part (λ p, part_open (filter (λ x, x ≠ h) (open_inodes p)) p);
    modify (λ s, with_inodes (delete h (inodes s)) s)
  else mret ().

Definition inode_init (inode_no : Z) : inode := Inode inode_no 0 0 false (replicate 13 0).

(** [bitmap_sync] (fs/file.c) *)
Inductive bitmap_type := INODE_BITMAP | BLOCK_BITMAP.

Definition bitmap_sync (bit_idx : Z) (btmp : bitmap_type) : F unit :=
  p ← gets cur_part;
  let off_sec := bit_idx / 4096 in
  let off_size := off_sec * BLOCK_SIZE in
  let '(sec_lba, bm) := match btmp with
    | INODE_BITMAP => (u32 (inode_bitmap_lba (sb p) + off_sec), inode_bitmap p)
    | BLOCK_BITMAP => (u32 (block_bitmap_lba (sb p) + off_sec), block_bitmap p)
    end in
  buf ← lift (get_bytes (bits bm) off_size 512);
  disk_write sec_lba buf 1.

Definition inode_bitmap_set (bit_idx value : Z) : F unit :=
  p ← gets cur_part;
  bm ← lift (bitmap_set (inode_bitmap p) bit_idx value);
  upd_part (part_inodes bm).
Definition block_bitmap_set (bit_idx value : Z) : F unit :=
  p ← gets cur_part;
  bm ← lift (bitmap_set (block_bitmap p) bit_idx value);
  upd_part (part_blocks bm).

(** [inode_bitmap_alloc] and [block_bitmap_alloc] (fs/file.c) *)
Definition inode_bitmap_alloc : F Z :=
  p ← gets cur_part;
  bit_idx ← lift (bitmap_scan (inode_bitmap p) 1);
  if bit_idx =? -1 then mret (-1) else
  _ ← inode_bitmap_set bit_idx 1;
  mret bit_idx.
Definition block_bitmap_alloc : F Z :=
  p ← gets cur_part;
  bit_idx ← lift (bitmap_scan (block_bitmap p) 1);
  if bit_idx =? -1 then mret (-1) else
  _ ← block_bitmap_set bit_idx 1;
  mret (i32 (data_start_lba (sb p) + bit_idx)).

(** The words [all_blocks + 12] from the table at [lba], and back. *)
Definition table_read (lba : Z) (all_blocks : list Z) : F (list Z) :=
  buf ← disk_read lba (words (drop 12 all_blocks)) 1;
  ws ← lift (get_words 128 buf 0);
  mret (take 12 all_blocks ++ ws).
Definition table_write (lba : Z) (all_blocks : list Z) : F unit :=
  disk_write lba (words (drop 12 all_blocks)) 1.

(** A block goes back to the bitmap. *)
Definition block_free (lba : Z) : F unit :=
  p ← gets cur_part;
  let idx := u32 (lba - data_start_lba (sb p)) in
  _ ← ASSERT (0 <? idx);
  _ ← block_bitmap_set idx 0;
  bitmap_sync idx BLOCK_BITMAP.

Fixpoint blocks_free (blocks : list Z) : F unit :=
  match blocks with
  | [] => mret ()
  | b :: blocks => _ ← (if negb (b =? 0) then block_free b else mret ()); blocks_free blocks
  end.

Definition inode_release (inode_no : Z) : F unit :=
  h ← inode_open inode_no;
  i ← get_inode h;
  _ ← ASSERT (i_no i =? inode_no);
  let direct := take 12 (i_sectors i) in
  ind ← lift (load (i_sectors i) 12);
  all_blocks ← (if negb (ind =? 0) then
      all_blocks ← table_read ind (direct ++ replicate 128 0);
      _ ← block_free ind;
      mret all_blocks
    else mret direct);
  _ ← blocks_free all_blocks;
  _ ← inode_bitmap_set inode_no 0;
  _ ← bitmap_sync inode_no INODE_BITMAP;
  ob ← kmalloc 1024;
  match ob with
  | None => lift Fault
  | Some io_buf => _ ← inode_delete inode_no io_buf; inode_close h
  end.
End ops.

(** ** Words on disk *)

Lemma words_length ws : length (words ws) = (4 * length ws)%nat.
Proof.
  induction ws as [|w ws IH]; [done|]. change (words (w :: ws)) with (le32 w ++ words ws).
  rewrite length_app, IH, le32_length. cbn [length]. lia.
Qed.

Lemma words_cons w ws : words (w :: ws) = le32 w ++ words ws.
Proof. done. Qed.

Lemma get_words_ok ws buf off : Forall is_u32 ws → 0 ≤ off →
  off + 4 * Z.of_nat (length ws) ≤ Z.of_nat (length buf) →
  slice buf off (4 * Z.of_nat (length ws)) = words ws →
  get_words (length ws) buf off = Ret ws.
Proof.
  revert off. induction ws as [|w ws IH]; intros off Hu Ho Hl Hs; [done|].
  apply Forall_cons in Hu as [Hw Hu]. cbn [length] in *. cbn [get_words]. unfold get_u32.
  rewrite get_bytes_eq by lia.
  assert (Hs1 : slice buf off 4 = le32 w).
  { transitivity (slice (slice buf off (4 * Z.of_nat (S (length ws)))) 0 4).
    - rewrite slice_slice by lia. f_equal. lia.
    - rewrite Hs. apply (take_app_length (le32 w)). }
  cbn [mbind outcome_bind]. rewrite Hs1, of_le32_le32 by done. cbn [mbind outcome_bind].
  rewrite IH; [done|done|lia|lia|].
  transitivity (slice (slice buf off (4 * Z.of_nat (S (length ws)))) 4 (4 * Z.of_nat (length ws))).
  - rewrite slice_slice by lia. done.
  - rewrite Hs. rewrite words_cons. unfold slice. rewrite drop_app_length' by done.
    apply take_ge. rewrite words_length. lia.
Qed.

(** ** The layout of a partition *)

Definition inode_addr (p : partition) (no : Z) : Z := 512 * inode_table_lba (sb p) + sizeof_inode * no.

(** The sectors over which an inode lies. *)
Definition inode_sects (no : Z) : Z := if 512 <? (76 * no) mod 512 + 76 then 2 else 1.

(** The areas of a mounted partition follow one another, the bitmaps in
    memory are as long as their areas, the block of the root directory is
    taken, and free blocks lie on the disk. *)
Record part_ok (p : partition) : Prop := {
  po_start : 0 ≤ start_lba p ∧ 0 ≤ sec_cnt p;
  po_blocks : start_lba p + 2 ≤ block_bitmap_lba (sb p);
  po_inodes : block_bitmap_lba (sb p) + block_bitmap_sects (sb p) ≤ inode_bitmap_lba (sb p);
  po_table : inode_bitmap_lba (sb p) + inode_bitmap_sects (sb p) ≤ inode_table_lba (sb p);
  po_data : inode_table_lba (sb p) + 608 ≤ data_start_lba (sb p);
  po_end : data_start_lba (sb p) ≤ start_lba p + sec_cnt p ≤ disk_end;
  po_bbm : wf_bitmap (block_bitmap p) ∧ btmp_bytes_len (block_bitmap p) = 512 * block_bitmap_sects (sb p) ∧
    Z.of_nat (length (bits (block_bitmap p))) = 512 * block_bitmap_sects (sb p);
  po_ibm : wf_bitmap (inode_bitmap p) ∧ btmp_bytes_len (inode_bitmap p) = 512 * inode_bitmap_sects (sb p) ∧
    Z.of_nat (length (bits (inode_bitmap p))) = 512 * inode_bitmap_sects (sb p);
  po_root : bit (block_bitmap p) 0 = true;
  po_free i : 0 ≤ i < 8 * btmp_bytes_len (block_bitmap p) → bit (block_bitmap p) i = false →
    data_start_lba (sb p) + i < disk_end
}.

Lemma part_ranges p : part_ok p →
  0 ≤ start_lba p ∧ start_lba p + 2 ≤ block_bitmap_lba (sb p) ∧ 0 ≤ block_bitmap_sects (sb p) ∧
  block_bitmap_lba (sb p) + block_bitmap_sects (sb p) ≤ inode_bitmap_lba (sb p) ∧
  0 ≤ inode_bitmap_sects (sb p) ∧
  inode_bitmap_lba (sb p) + inode_bitmap_sects (sb p) ≤ inode_table_lba (sb p) ∧
  inode_table_lba (sb p) + 608 ≤ data_start_lba (sb p) ∧
  data_start_lba (sb p) ≤ start_lba p + sec_cnt p ≤ 163840.
Proof. intros []. unfold disk_end in *. lia. Qed.

(** An inode whose fields are 32-bit words. *)
Record inode_ok (i : inode) : Prop := {
  io_no : 0 ≤ i_no i < 4096;
  io_size : is_u32 (i_size i);
  io_len : length (i_sectors i) = 13%nat;
  io_words : Forall is_u32 (i_sectors i)
}.

Lemma inode_bytes_length i : inode_ok i → length (inode_bytes i) = 76%nat.
Proof. intros Hi. unfold inode_bytes. rewrite words_length, !length_app, (io_len _ Hi). done. Qed.

Lemma inode_bytes_read i buf off : inode_ok i → 0 ≤ off → off + 76 ≤ Z.of_nat (length buf) →
  slice buf off 76 = inode_bytes i →
  inode_of_bytes buf off = Ret (Inode (i_no i) (i_size i) 0 false (i_sectors i)).
Proof.
  intros Hi Ho Hl Hs. pose proof (io_len _ Hi) as Hlen.
  unfold inode_of_bytes.
  pose proof (get_words_ok ([i_no i; i_size i; 0; 0] ++ i_sectors i) buf off) as Hw.
  rewrite length_app, Hlen in Hw. change (length _ + 13)%nat with 17%nat in Hw.
  rewrite Hw; [done| |done|lia|].
  - apply Forall_app. split; [|apply Hi]. pose proof (io_no _ Hi). pose proof (io_size _ Hi).
    repeat constructor; zlia.
  - transitivity (slice (slice buf off 76) 0 68).
    + rewrite slice_slice by lia. f_equal; lia.
    + rewrite Hs. unfold inode_bytes. rewrite app_assoc.
      unfold words. rewrite List.map_app, concat_app. fold (words ([i_no i; i_size i; 0; 0] ++ i_sectors i)).
      apply take_app_length'. rewrite words_length, length_app, Hlen. done.
Qed.

(** ** The operations on a valid disk *)

Section proofs.
Context {D : Type} {BD : BlockDev D} {BS : BlockDevSpec D}.
Implicit Types s : fs D.

Lemma disk_read_run s lba buf cnt : bd_inv (dev s) → 0 ≤ lba → 1 ≤ cnt → lba + cnt ≤ disk_end →
  512 * cnt ≤ Z.of_nat (length buf) →
  ∃ d', disk_read lba buf cnt s =
      Ret (dbytes (dev s) (512 * lba) (512 * cnt) ++ drop (Z.to_nat (512 * cnt)) buf, with_dev d' s) ∧
    same_bytes (dev s) d'.
Proof.
  intros Hd H1 H2 H3 H4. destruct (bd_read_bytes (dev s) lba buf cnt) as (d' & Hr & Hs); [done..|].
  exists d'. split; [|done]. unfold disk_read, zoom. cbn. by rewrite Hr.
Qed.

Lemma disk_write_run s lba buf cnt : bd_inv (dev s) → 0 ≤ lba → 1 ≤ cnt → lba + cnt ≤ disk_end →
  512 * cnt ≤ Z.of_nat (length buf) →
  ∃ d', disk_write lba buf cnt s = Ret ((), with_dev d' s) ∧
    wrote (dev s) d' (512 * lba) (take (Z.to_nat (512 * cnt)) buf).
Proof.
  intros Hd H1 H2 H3 H4. destruct (bd_write_bytes (dev s) lba buf cnt) as (d' & Hr & Hs); [done..|].
  exists d'. split; [|done]. unfold disk_write, zoom. cbn. by rewrite Hr.
Qed.

(** Reading a stretch, changing it in memory and writing it back changes only
    the bytes that were changed in memory. *)
Lemma splice_wrote d d1 d2 lba cnt off bytes buf : 0 ≤ off → 0 ≤ cnt →
  off + Z.of_nat (length bytes) ≤ 512 * cnt → same_bytes d d1 →
  wrote d1 d2 (512 * lba)
    (take (Z.to_nat (512 * cnt)) (splice (dbytes d (512 * lba) (512 * cnt) ++ buf) off bytes)) →
  wrote d d2 (512 * lba + off) bytes.
Proof.
  intros Ho Hc Hl [_ Hs] [Hi Hw]. split; [done|]. intros k.
  assert (Hb : Z.of_nat (length (dbytes d (512 * lba) (512 * cnt))) = 512 * cnt)
    by (rewrite dbytes_length; lia).
  rewrite Hw, Hs. rewrite length_take, splice_length by (rewrite ?length_app; lia).
  rewrite length_app.
  destruct (decide (512 * lba ≤ k < 512 * lba + 512 * cnt)) as [Hk|Hk].
  2: { rewrite !decide_False by lia. done. }
  rewrite decide_True by lia. rewrite lookup_total_take, decide_True by lia.
  apply list_lookup_total_correct. case_decide as Hin.
  - assert (Hsl := slice_splice_same (dbytes d (512 * lba) (512 * cnt) ++ buf) off bytes Ho).
    rewrite length_app in Hsl.
    pose proof (slice_lookup (splice (dbytes d (512 * lba) (512 * cnt) ++ buf) off bytes) off
      (Z.of_nat (length bytes)) (Z.to_nat (k - (512 * lba + off))) Ho) as Hx.
    rewrite Hsl, decide_True in Hx by lia.
    rewrite list_lookup_lookup_total_lt in Hx by lia. rewrite Hx. f_equal. lia.
  - rewrite splice_lookup_other by (rewrite ?length_app; lia).
    rewrite lookup_app_l by lia. rewrite dbytes_lookup by lia. do 2 f_equal. lia.
Qed.

Lemma inode_patch_run s two lba off bytes io_buf : bd_inv (dev s) →
  let n := if two : bool then 2 else 1 in
  0 ≤ lba → lba + n ≤ disk_end → 0 ≤ off → off + Z.of_nat (length bytes) ≤ 512 * n →
  512 * n ≤ Z.of_nat (length io_buf) →
  ∃ buf d', inode_patch (two, lba, off) bytes io_buf s = Ret (buf, with_dev d' s) ∧
    length buf = length io_buf ∧ wrote (dev s) d' (512 * lba + off) bytes.
Proof.
  intros Hd n Hlba Hend Ho Hl Hb. assert (Hn : 1 ≤ n) by (unfold n; by destruct two).
  unfold inode_patch. cbn zeta. fold n.
  destruct (disk_read_run s lba io_buf n) as (d1 & Hr & Hs1); [done..|]. rewrite (M_bind_Ret _ _ _ _ _ Hr).
  assert (Hlb : length (dbytes (dev s) (512 * lba) (512 * n) ++ drop (Z.to_nat (512 * n)) io_buf)
    = length io_buf) by (rewrite length_app, dbytes_length, length_drop; lia).
  rewrite put_bytes_eq by lia. rewrite bind_lift.
  destruct (disk_write_run (with_dev d1 s) lba (splice (dbytes (dev s) (512 * lba) (512 * n) ++
    drop (Z.to_nat (512 * n)) io_buf) off bytes) n) as (d2 & Hw & Hs2);
    [apply Hs1|done..|rewrite splice_length by lia; lia|].
  rewrite (M_bind_Ret _ _ _ _ _ Hw), ret_eq. eexists _, d2. split; [reflexivity|].
  split; [rewrite splice_length by lia; done|]. by eapply splice_wrote; [..|exact Hs2]; [lia..|].
Qed.

Lemma inode_locate_run s no : part_ok (cur_part s) → 0 ≤ no < 4096 →
  ∃ (two : bool) lba off, inode_locate no s = Ret ((two, lba, off), s) ∧
    let n := inode_sects no in
    (if two then 2 else 1) = n ∧
    512 * lba + off = inode_addr (cur_part s) no ∧ 0 ≤ off ∧ off + 76 ≤ 512 * n ∧
    inode_table_lba (sb (cur_part s)) ≤ lba ∧ lba + n ≤ data_start_lba (sb (cur_part s)).
Proof.
  intros Hp Hno. pose proof (part_ranges _ Hp). unfold inode_locate, sizeof_inode.
  replace (no <? 4096) with true by (symmetry; apply Z.ltb_lt; lia).
  rewrite bind_ASSERT_true, bind_gets, (u32_id (no * 76)) by zlia. rewrite u32_id by zlia.
  eexists _, _, _. split; [reflexivity|]. cbn zeta. unfold inode_addr, sizeof_inode, inode_sects.
  destruct (Z.ltb_spec (512 - (no * 76) mod 512) 76), (Z.ltb_spec 512 ((76 * no) mod 512 + 76));
    split_and!; zlia.
Qed.

Lemma in_part_run s two lba off : part_ok (cur_part s) → lba ≤ start_lba (cur_part s) + sec_cnt (cur_part s) →
  in_part (two, lba, off) s = Ret ((), s).
Proof.
  intros Hp Hl. pose proof (part_ranges _ Hp). unfold in_part. rewrite bind_gets. cbn [fst snd].
  rewrite u32_id by zlia. by rewrite (proj2 (Z.leb_le _ _) Hl).
Qed.

(** [inode_sync] replaces the inode's bytes in the table and no others. *)
Lemma inode_sync_of_run s io_buf i : bd_inv (dev s) → part_ok (cur_part s) →
  inode_ok i → i_no i < 256 → 512 * inode_sects (i_no i) ≤ Z.of_nat (length io_buf) →
  ∃ buf d', inode_sync_of i io_buf s = Ret (buf, with_dev d' s) ∧ length buf = length io_buf ∧
    wrote (dev s) d' (inode_addr (cur_part s) (i_no i)) (inode_bytes i).
Proof.
  intros Hd Hp Hi Hno Hl. pose proof (io_no _ Hi). pose proof (part_ranges _ Hp).
  unfold inode_sync_of. rewrite u8_id by zlia.
  destruct (inode_locate_run s (i_no i) Hp) as (two & lba & off & Hloc & Hn & Ha & Ho & Hoff & Hlo & Hhi);
    [lia|]. rewrite (M_bind_Ret _ _ _ _ _ Hloc).
  assert (1 ≤ inode_sects (i_no i)) by (rewrite <-Hn; by destruct two).
  rewrite (M_bind_Ret _ _ _ _ _ (in_part_run s two lba off Hp ltac:(lia))).
  destruct (inode_patch_run s two lba off (inode_bytes i) io_buf) as (buf & d' & Hr & Hlb & Hw);
    rewrite ?Hn, ?inode_bytes_length by done; try (unfold disk_end; lia); [done|].
  exists buf, d'. split; [done|]. split; [done|]. by rewrite <-Ha.
Qed.

Lemma inode_sync_run s h io_buf i : bd_inv (dev s) → part_ok (cur_part s) →
  inodes s !! h = Some i → inode_ok i → i_no i < 256 →
  512 * inode_sects (i_no i) ≤ Z.of_nat (length io_buf) →
  ∃ buf d', inode_sync h io_buf s = Ret (buf, with_dev d' s) ∧ length buf = length io_buf ∧
    wrote (dev s) d' (inode_addr (cur_part s) (i_no i)) (inode_bytes i).
Proof.
  intros Hd Hp Hh. unfold inode_sync, get_inode. rewrite bind_assoc, bind_gets, Hh, bind_ret.
  by apply inode_sync_of_run.
Qed.

Lemma mem_ok_run s : fs_mem s = [] → mem_ok s = Ret (true, s).
Proof. intros H. unfold mem_ok. rewrite bind_gets, H. done. Qed.
Lemma kmalloc_run s n : fs_mem s = [] → kmalloc n s = Ret (Some (replicate (Z.to_nat n) 0), s).
Proof. intros H. unfold kmalloc. by rewrite (M_bind_Ret _ _ _ _ _ (mem_ok_run s H)). Qed.

(** The state after an inode is read into memory. *)
Definition loaded s d' (i : inode) : fs D :=
  with_part (part_open (next_inode s :: open_inodes (cur_part s)) (cur_part s))
    (with_inodes (<[next_inode s := Inode (i_no i) (i_size i) 1 false (i_sectors i)]> (inodes s))
      (with_next (next_inode s + 1) (with_dev d' s))).

Lemma inode_load_run s no i : bd_inv (dev s) → part_ok (cur_part s) → fs_mem s = [] →
  0 ≤ no < 4096 → inode_ok i → dbytes (dev s) (inode_addr (cur_part s) no) 76 = inode_bytes i →
  ∃ d', inode_load no s = Ret (next_inode s, loaded s d' i) ∧ same_bytes (dev s) d'.
Proof.
  intros Hd Hp Hm Hno Hi Hb. pose proof (part_ranges _ Hp). unfold inode_load.
  destruct (inode_locate_run s no Hp Hno) as (two & lba & off & Hloc & Hn & Ha & Ho & Hoff & Hlo & Hhi).
  rewrite (M_bind_Ret _ _ _ _ _ Hloc), (M_bind_Ret _ _ _ _ _ (mem_ok_run s Hm)). rewrite Hn.
  assert (1 ≤ inode_sects no) by (rewrite <-Hn; by destruct two).
  rewrite (M_bind_Ret _ _ _ _ _ (kmalloc_run s _ Hm)).
  destruct (disk_read_run s lba (replicate (Z.to_nat (512 * inode_sects no)) 0) (inode_sects no))
    as (d' & Hr & Hs); [done|lia|lia|unfold disk_end; lia|rewrite length_replicate; lia|].
  rewrite (M_bind_Ret _ _ _ _ _ Hr), bind_ASSERT_true, drop_ge, app_nil_r by (rewrite length_replicate; lia).
  rewrite (inode_bytes_read i) by (rewrite ?dbytes_length, ?dbytes_slice, ?Ha by lia; done || lia).
  rewrite bind_lift. exists d'. split; [reflexivity|done].
Qed.

(** ** The open inodes *)

(** Every inode is in memory at most once, and every one on the list has a
    user. *)
Record cache_ok s : Prop := {
  ca_nodup : NoDup (open_inodes (cur_part s));
  ca_open h : h ∈ open_inodes (cur_part s) → ∃ i, inodes s !! h = Some i ∧ 1 ≤ i_open_cnts i < 2147483648;
  ca_uniq h h' i i' : h ∈ open_inodes (cur_part s) → h' ∈ open_inodes (cur_part s) →
    inodes s !! h = Some i → inodes s !! h' = Some i' → i_no i = i_no i' → h = h';
  ca_next h i : inodes s !! h = Some i → h < next_inode s
}.

(** The inode numbered [no] is in memory at [h]. *)
Definition opened s (no h : Z) (i : inode) : Prop :=
  h ∈ open_inodes (cur_part s) ∧ inodes s !! h = Some i ∧ i_no i = no.

Lemma find_open_some l s no h i : h ∈ l → inodes s !! h = Some i → i_no i = no →
  (∀ h', h' ∈ l → ∃ i', inodes s !! h' = Some i' ∧ (i_no i' = no → h' = h)) →
  find_open l no s = Ret (Some h, s).
Proof.
  intros Hin Hh Hno Hall. induction l as [|x l IH]; [by apply elem_of_nil in Hin|]. cbn [find_open].
  destruct (Hall x ltac:(left)) as (ix & Hx & Hu). unfold get_inode. rewrite bind_assoc, bind_gets, Hx, bind_ret.
  destruct (Z.eqb_spec (i_no ix) no) as [He|Hne]; [by rewrite (Hu He)|].
  apply elem_of_cons in Hin as [<-|Hin]; [congruence|].
  apply IH; [done|]. intros h' H'. apply Hall. by right.
Qed.

Lemma find_open_none l s no :
  (∀ h, h ∈ l → ∃ i, inodes s !! h = Some i ∧ i_no i ≠ no) → find_open l no s = Ret (None, s).
Proof.
  intros Hall. induction l as [|x l IH]; [done|]. cbn [find_open].
  destruct (Hall x ltac:(left)) as (ix & Hx & Hne). unfold get_inode. rewrite bind_assoc, bind_gets, Hx, bind_ret.
  rewrite (proj2 (Z.eqb_neq _ _) Hne). apply IH. intros h Hh. apply Hall. by right.
Qed.

Lemma inode_open_hit s no h i : cache_ok s → opened s no h i →
  inode_open no s = Ret (h, with_inodes (<[h := inode_opened (u32 (i_open_cnts i + 1)) i]> (inodes s)) s).
Proof.
  intros Hc (Hin & Hh & Hno). unfold inode_open. rewrite bind_gets.
  erewrite M_bind_Ret; [|apply (find_open_some _ s no h i Hin Hh Hno)].
  - unfold upd_inode, get_inode. rewrite !bind_assoc, bind_gets, Hh, !bind_ret. done.
  - intros h' H'. destruct (ca_open _ Hc h' H') as (i' & Hi' & _). exists i'. split; [done|].
    intros He. apply (ca_uniq _ Hc h' h i' i); try done. congruence.
Qed.

Lemma inode_open_miss s no i : cache_ok s → (∀ h j, ¬ opened s no h j) →
  bd_inv (dev s) → part_ok (cur_part s) → fs_mem s = [] → 0 ≤ no < 4096 →
  inode_ok i → dbytes (dev s) (inode_addr (cur_part s) no) 76 = inode_bytes i →
  ∃ d', inode_open no s = Ret (next_inode s, loaded s d' i) ∧ same_bytes (dev s) d'.
Proof.
  intros Hc Hn Hd Hp Hm Hno Hi Hb. unfold inode_open. rewrite bind_gets.
  erewrite M_bind_Ret; [|apply find_open_none]; [by apply inode_load_run|].
  intros h Hh. destruct (ca_open _ Hc h Hh) as (j & Hj & _). exists j. split; [done|].
  intros He. by destruct (Hn h j).
Qed.

Lemma opened_cache s no h i n : cache_ok s → opened s no h i → 1 ≤ n < 2147483648 →
  cache_ok (with_inodes (<[h := inode_opened n i]> (inodes s)) s).
Proof.
  intros Hc (Hin & Hh & Hno) Hn. destruct Hc as [c1 c2 c3 c4].
  assert (Hkeep : ∀ x j, <[h := inode_opened n i]> (inodes s) !! x = Some j →
    ∃ j', inodes s !! x = Some j' ∧ i_no j' = i_no j).
  { intros x j. destruct (decide (x = h)) as [->|Hne]; [rewrite lookup_insert_eq; intros [= <-]; by exists i|].
    rewrite lookup_insert_ne by congruence. by exists j. }
  split; cbn; [done| | |].
  - intros x Hx. destruct (decide (x = h)) as [->|Hne]; [rewrite lookup_insert_eq; by eexists|].
    rewrite lookup_insert_ne by congruence. auto.
  - intros x x' j j' Hx Hx' (k & Hk & Hk2)%Hkeep (k' & Hk' & Hk2')%Hkeep He.
    apply (c3 x x' k k'); try done. congruence.
  - intros x j (k & Hk & _)%Hkeep. eauto.
Qed.

Lemma loaded_cache s d' no i : cache_ok s → (∀ h j, ¬ opened s no h j) → i_no i = no →
  cache_ok (loaded s d' i).
Proof.
  intros Hc Hn Hno. destruct Hc as [c1 c2 c3 c4].
  assert (Hfresh : next_inode s ∉ open_inodes (cur_part s)).
  { intros Hin. destruct (c2 _ Hin) as (j & Hj & _). specialize (c4 _ _ Hj). lia. }
  assert (Hold : ∀ x, x ∈ open_inodes (cur_part s) → ∃ j, inodes s !! x = Some j ∧
    <[next_inode s := Inode (i_no i) (i_size i) 1 false (i_sectors i)]> (inodes s) !! x = Some j ∧
    i_no j ≠ no ∧ 1 ≤ i_open_cnts j < 2147483648).
  { intros x Hx. destruct (c2 _ Hx) as (j & Hj & Hcnt). exists j.
    rewrite lookup_insert_ne by (intros <-; done). split_and!; [done|done|intros He; by destruct (Hn x j)|lia..]. }
  split; cbn.
  - by constructor.
  - intros x [->|Hx]%elem_of_cons; [rewrite lookup_insert_eq; by eexists|].
    destruct (Hold x Hx) as (j & _ & Hj & _ & Hcnt). by exists j.
  - intros x x' j j' [->|Hx]%elem_of_cons [->|Hx']%elem_of_cons; [done| | |].
    + rewrite lookup_insert_eq. destruct (Hold x' Hx') as (k & _ & -> & Hk & _). intros [= <-] [= <-].
      cbn. congruence.
    + rewrite lookup_insert_eq. destruct (Hold x Hx) as (k & _ & -> & Hk & _). intros [= <-] [= <-].
      cbn. congruence.
    + destruct (Hold x Hx) as (k & Hk & -> & _), (Hold x' Hx') as (k' & Hk' & -> & _).
      intros [= <-] [= <-]. by apply c3.
  - intros x j. destruct (decide (x = next_inode s)) as [->|Hne]; [intros; lia|].
    rewrite lookup_insert_ne by congruence. intros Hj. specialize (c4 _ _ Hj). lia.
Qed.

(** Closing: the last user frees the inode. *)
Definition closed s h (i : inode) : fs D :=
  if i_open_cnts i =? 1 then
    with_inodes (delete h (inodes s))
      (with_part (part_open (filter (λ x, x ≠ h) (open_inodes (cur_part s))) (cur_part s)) s)
  else with_inodes (<[h := inode_opened (i_open_cnts i - 1) i]> (inodes s)) s.

Lemma inode_close_run s h i : inodes s !! h = Some i → 1 ≤ i_open_cnts i < 2147483648 →
  inode_close h s = Ret ((), closed s h i).
Proof.
  intros Hh Hc. unfold inode_close, get_inode, closed. rewrite bind_assoc, bind_gets, Hh, bind_ret.
  rewrite u32_id by zlia. unfold set_inode. rewrite bind_modify.
  destruct (Z.eqb_spec (i_open_cnts i - 1) 0), (Z.eqb_spec (i_open_cnts i) 1); try lia; [|done].
  unfold upd_part. rewrite bind_modify, modify_eq. cbn. by rewrite delete_insert_eq.
Qed.

Lemma closed_cache s no h i : cache_ok s → opened s no h i → cache_ok (closed s h i).
Proof.
  intros Hc Ho. pose proof Ho as (Hin & Hh & Hno). unfold closed.
  destruct (ca_open _ Hc h Hin) as (i' & Hi' & Hcnt).
  assert (i' = i) as -> by congruence. destruct (Z.eqb_spec (i_open_cnts i) 1).
  2: { eapply opened_cache; [done..|lia]. }
  destruct Hc as [c1 c2 c3 c4].
  split; cbn.
  - by apply NoDup_filter.
  - intros x [Hne Hx]%list_elem_of_filter. rewrite lookup_delete_ne by congruence. auto.
  - intros x x' j j' [Hne Hx]%list_elem_of_filter [Hne' Hx']%list_elem_of_filter.
    rewrite !lookup_delete_ne by congruence. by apply c3.
  - intros x j [_ Hj]%lookup_delete_Some. eauto.
Qed.

Lemma loaded_closed s d' i : cache_ok s →
  let s2 := closed (loaded s d' i) (next_inode s) (Inode (i_no i) (i_size i) 1 false (i_sectors i)) in
  inodes s2 = inodes s ∧ open_inodes (cur_part s2) = open_inodes (cur_part s).
Proof.
  intros Hc. unfold closed. cbn [i_open_cnts]. change (1 =? 1) with true. cbn -[filter].
  assert (Hfresh : inodes s !! next_inode s = None).
  { destruct (inodes s !! next_inode s) eqn:E; [|done]. pose proof (ca_next _ Hc _ _ E). lia. }
  split; [by rewrite delete_insert_id|].
  rewrite filter_cons_False by (intros Hx; by apply Hx). apply list_filter_all.
  intros x Hx ->. destruct (ca_open _ Hc _ Hx) as (j & Hj & _). congruence.
Qed.
End proofs.

(** ** Properties *)

Section properties.
Context {D : Type} {BD : BlockDev D} {BS : BlockDevSpec D}.
Implicit Types s : fs D.

(** C29: an inode written by [inode_sync] is what [inode_open] later reads
    from the disk; the sync changes the 76 bytes of this inode and nothing
    else on the disk. The inode number is below 256: [inode_sync] keeps it in
    a [uint8_t]. *)
Theorem inode_sync_open s s' h io_buf i :
  bd_inv (dev s) → part_ok (cur_part s) → inodes s !! h = Some i → inode_ok i → i_no i < 256 →
  512 * inode_sects (i_no i) ≤ Z.of_nat (length io_buf) →
  cur_part s' = part_open [] (cur_part s) → cache_ok s' → fs_mem s' = [] →
  ∃ buf d', inode_sync h io_buf s = Ret (buf, with_dev d' s) ∧
    (∀ a n, a + n ≤ inode_addr (cur_part s) (i_no i) ∨ inode_addr (cur_part s) (i_no i) + 76 ≤ a →
      dbytes d' a n = dbytes (dev s) a n) ∧
    ∃ h' d'', inode_open (i_no i) (with_dev d' s') =
        Ret (h', loaded (with_dev d' s') d'' i) ∧ same_bytes d' d''.
Proof.
  intros Hd Hp Hh Hi Hno Hl Hpart Hc Hm.
  destruct (inode_sync_run s h io_buf i) as (buf & d' & Hr & _ & Hw); [done..|].
  exists buf, d'. split; [done|]. split.
  { intros a n Ha. apply (wrote_other _ _ _ _ _ _ Hw). by rewrite inode_bytes_length. }
  destruct (inode_open_miss (with_dev d' s') (i_no i) i) as (d'' & Ho & Hs).
  - by destruct Hc.
  - intros x j (Hx & _). cbn in Hx. rewrite Hpart in Hx. by apply elem_of_nil in Hx.
  - apply Hw.
  - cbn. rewrite Hpart. by destruct Hp.
  - done.
  - pose proof (io_no _ Hi). lia.
  - done.
  - cbn [dev cur_part with_dev]. rewrite Hpart. pose proof (wrote_same _ _ _ _ Hw) as Hb.
    by rewrite inode_bytes_length in Hb.
  - by exists (next_inode (with_dev d' s')), d''.
Qed.

(** C30: an inode is in memory at most once, as long as it has users: opening
    gives the copy in memory when there is one and reads the disk otherwise,
    and closing undoes the opening. *)
Theorem inode_cache_correct s no i :
  bd_inv (dev s) → part_ok (cur_part s) → cache_ok s → fs_mem s = [] → 0 ≤ no < 4096 →
  i_no i = no → i_open_cnts i < 2147483647 →
  ((∃ h, opened s no h i) ∨ (∀ h j, ¬ opened s no h j) ∧ inode_ok i ∧
      dbytes (dev s) (inode_addr (cur_part s) no) 76 = inode_bytes i) →
  ∃ h s1 i1 s2, inode_open no s = Ret (h, s1) ∧ cache_ok s1 ∧ opened s1 no h i1 ∧
    i_size i1 = i_size i ∧ i_sectors i1 = i_sectors i ∧
    inode_close h s1 = Ret ((), s2) ∧ cache_ok s2 ∧
    inodes s2 = inodes s ∧ open_inodes (cur_part s2) = open_inodes (cur_part s).
Proof.
  intros Hd Hp Hc Hm Hno Hn Hcnt [[h Ho]|(Hnone & Hi & Hb)].
  - pose proof Ho as (Hin & Hh & _). destruct (ca_open _ Hc h Hin) as (j & Hj & Hjc).
    assert (j = i) as -> by congruence. pose proof (inode_open_hit s no h i Hc Ho) as Hr.
    rewrite u32_id in Hr by zlia.
    assert (Ho1 : opened (with_inodes (<[h := inode_opened (i_open_cnts i + 1) i]> (inodes s)) s) no h
      (inode_opened (i_open_cnts i + 1) i)) by (split_and!; [done|cbn; by rewrite lookup_insert_eq|done]).
    assert (Hc1 := opened_cache s no h i (i_open_cnts i + 1) Hc Ho ltac:(lia)).
    eexists h, _, _, _. split; [exact Hr|]. split; [exact Hc1|]. split; [exact Ho1|]. split; [done|]. split; [done|].
    split; [apply inode_close_run; [apply Ho1|cbn; lia]|]. split; [by eapply closed_cache|].
    unfold closed. cbn. destruct (Z.eqb_spec (i_open_cnts i + 1) 1); [lia|]. cbn. split; [|done].
    rewrite insert_insert_eq, Z.add_simpl_r. apply insert_id. rewrite Hh. f_equal. by destruct i.
  - destruct (inode_open_miss s no i) as (d' & Hr & _); [done..|].
    assert (Hc1 := loaded_cache s d' no i Hc Hnone Hn).
    assert (Ho1 : opened (loaded s d' i) no (next_inode s) (Inode (i_no i) (i_size i) 1 false (i_sectors i)))
      by (split_and!; [cbn; left|cbn; by rewrite lookup_insert_eq|done]).
    eexists _, _, _, _. split; [exact Hr|]. split; [exact Hc1|]. split; [exact Ho1|]. split; [done|]. split; [done|].
    split; [apply inode_close_run; [apply Ho1|cbn; lia]|]. split; [by eapply closed_cache|].
    by apply loaded_closed.
Qed.
End properties.

(** A partition of 8 MB with its metadata laid out as [partition_format] does. *)
Definition ex_part (open : list Z) : partition :=
  Partition 2048 16384 (SuperBlock 0x19590318 16384 4096 2048 2050 4 2054 1 2055 608 2663 0 24)
    (Bitmap 2048 (1 :: replicate 2047 0)) (Bitmap 512 (1 :: replicate 511 0)) open.
Definition ex_fs (open : list Z) (m : gmap Z inode) (files : list file) : fs ram :=
  Fs (λ _, []) (ex_part open) m 100 files [-1; -1; -1; -1; -1; -1; -1; -1] [] ∅ (Session 0 [] []).

Lemma zero_bytes_u8 n : Forall is_u8 (1 :: replicate n 0).
Proof. constructor; [zlia|]. apply Forall_replicate. zlia. Qed.

Lemma ex_part_ok open : part_ok (ex_part open).
Proof.
  split; cbn [ex_part sb start_lba sec_cnt block_bitmap inode_bitmap bits btmp_bytes_len block_bitmap_lba
    block_bitmap_sects inode_bitmap_lba inode_bitmap_sects inode_table_lba data_start_lba];
    unfold disk_end; try lia.
  - cbn [length]. rewrite length_replicate. split_and!; [|lia|lia]. split; cbn [bits btmp_bytes_len length];
      rewrite ?length_replicate; [lia|lia|apply zero_bytes_u8].
  - cbn [length]. rewrite length_replicate. split_and!; [|lia|lia]. split; cbn [bits btmp_bytes_len length];
      rewrite ?length_replicate; [lia|lia|apply zero_bytes_u8].
  - by vm_compute.
Qed.

Definition ex_inode : inode := Inode 7 600 1 false ([2700; 2701] ++ replicate 11 0).

Lemma ex_inode_ok : inode_ok ex_inode.
Proof.
  split; [cbn; lia|cbn; unfold is_u32; lia|done|].
  repeat constructor; unfold is_u32; lia.
Qed.

Lemma ex_cache_ok : cache_ok (ex_fs [] ∅ []).
Proof.
  split; [constructor|intros h []%elem_of_nil|intros h h' i i' []%elem_of_nil|].
  intros h i Hi. cbn in Hi. by apply lookup_empty_Some in Hi.
Qed.

Lemma inode_sync_open_witness :
  ∃ buf d', inode_sync 9 (replicate 1024 0) (ex_fs [9] {[9 := ex_inode]} []) =
      Ret (buf, with_dev d' (ex_fs [9] {[9 := ex_inode]} [])) ∧
    ∃ h' s'', inode_open 7 (with_dev d' (ex_fs [] ∅ [])) = Ret (h', s'').
Proof.
  destruct (inode_sync_open (ex_fs [9] {[9 := ex_inode]} []) (ex_fs [] ∅ []) 9 (replicate 1024 0) ex_inode)
    as (buf & d' & Hr & _ & h' & d'' & Ho & _);
    [exact I|apply ex_part_ok|reflexivity|exact ex_inode_ok|reflexivity|by vm_compute|reflexivity|
     exact ex_cache_ok|reflexivity|].
  exists buf, d'. split; [exact Hr|]. eexists h', _. exact Ho.
Defined.

Lemma ex_cache_open : cache_ok (ex_fs [9] {[9 := ex_inode]} []) ∧ opened (ex_fs [9] {[9 := ex_inode]} []) 7 9 ex_inode.
Proof.
  split; [split|].
  - apply NoDup_singleton.
  - intros h ->%list_elem_of_singleton. exists ex_inode. split; [reflexivity|cbn; lia].
  - by intros h h' i i' ->%list_elem_of_singleton ->%list_elem_of_singleton.
  - intros h i Hi. cbn [inodes ex_fs] in Hi. apply lookup_singleton_Some in Hi as [<- _]. cbn. lia.
  - split_and!; [by apply list_elem_of_singleton|reflexivity|reflexivity].
Qed.

Lemma inode_cache_correct_witness :
  ∃ h s1 s2, inode_open 7 (ex_fs [9] {[9 := ex_inode]} []) = Ret (h, s1) ∧
    inode_close h s1 = Ret ((), s2) ∧ inodes s2 = {[9 := ex_inode]}.
Proof.
  destruct (inode_cache_correct (ex_fs [9] {[9 := ex_inode]} []) 7 ex_inode)
    as (h & s1 & i1 & s2 & Hr & _ & _ & _ & _ & Hcl & _ & Hi & _);
    [exact I|apply ex_part_ok|exact (proj1 ex_cache_open)|reflexivity|lia|reflexivity|cbn; lia|
     left; exists 9; exact (proj2 ex_cache_open)|].
  exists h, s1, s2. split; [exact Hr|]. split; [exact Hcl|exact Hi].
Defined.
