(* ===== verification/FileData.v ===== *)
(** * Reading and writing files (fs/file.c)

    [file_write] appends to a file, [file_read] reads from the file's
    position: the blocks are listed in [all_blocks], 12 from the inode and 128
    from the table of indirect blocks. *)

From Stdlib Require Import ZArith Lia.
From stdpp Require Import base numbers list gmap.
From S2P Require Import Prelude Bitmap DList Disk Inode.

(** ** The functions *)

Section ops.
Context {D : Type} {BD : BlockDev D}.
Abbreviation F := (M (fs D)).

(** [file_table[fd]] *)
Definition get_file (fd : Z) : F file := l ← gets file_table; lift (load l fd).
Definition set_file (fd : Z) (f : file) : F unit :=
  l ← gets file_table; l ← lift (store l fd f); modify (with_files l).
Definition set_pos (fd pos : Z) : F unit :=
  f ← get_file fd; set_file fd (File pos (fd_flag f) (fd_inode f)).

Definition get_sector (h idx : Z) : F Z := i ← get_inode h; lift (load (i_sectors i) idx).
Definition set_sector (h idx v : Z) : F unit :=
  i ← get_inode h; l ← lift (store (i_sectors i) idx v); set_inode h (inode_sectored l i).

(** The bitmap sector of the block at [lba] is written. *)
Definition sync_block (lba : Z) : F unit :=
  p ← gets cur_part;
  bitmap_sync (u32 (lba - data_start_lba (sb p))) BLOCK_BITMAP.

(** The blocks from [idx] on are allocated, [n] of them. The three loops of
    [file_write] are this one: the first sees only direct blocks, the last
    only indirect ones. *)
Fixpoint grow (n : nat) (h idx : Z) (all_blocks : list Z) : F (option (list Z)) :=
  match n with
  | O => mret (Some all_blocks)
  | S n =>
    lba ← block_bitmap_alloc;
    if lba =? -1 then mret None else
    _ ← (if idx <? 12 then
        v ← get_sector h idx;
        _ ← ASSERT (v =? 0);
        set_sector h idx (u32 lba)
      else mret ());
    all_blocks ← lift (store all_blocks idx (u32 lba));
    _ ← sync_block lba;
    grow n h (idx + 1) all_blocks
  end.

(** No new block is needed. *)
Definition blocks_same (h has : Z) (all_blocks : list Z) : F (option (list Z)) :=
  if has <=? 12 then
    v ← get_sector h (has - 1);
    all_blocks ← lift (store all_blocks (has - 1) v);
    mret (Some all_blocks)
  else
    ind ← get_sector h 12;
    _ ← ASSERT (negb (ind =? 0));
    all_blocks ← table_read ind all_blocks;
    mret (Some all_blocks).

(** The direct blocks are enough. *)
Definition blocks_direct (h has will : Z) (all_blocks : list Z) : F (option (list Z)) :=
  v ← get_sector h (has - 1);
  _ ← ASSERT (negb (v =? 0));
  all_blocks ← lift (store all_blocks (has - 1) v);
  grow (Z.to_nat (will - has)) h has all_blocks.

(** The first indirect blocks: the table is allocated. *)
Definition blocks_table (h has will : Z) (all_blocks : list Z) : F (option (list Z)) :=
  v ← get_sector h (has - 1);
  all_blocks ← lift (store all_blocks (has - 1) v);
  lba ← block_bitmap_alloc;
  if lba =? -1 then mret None else
  ind ← get_sector h 12;
  _ ← ASSERT (ind =? 0);
  _ ← set_sector h 12 (u32 lba);
  r ← grow (Z.to_nat (will - has)) h has all_blocks;
  match r with
  | None => mret None
  | Some all_blocks => _ ← table_write (u32 lba) all_blocks; mret (Some all_blocks)
  end.

(** More indirect blocks. *)
Definition blocks_indirect (h has will : Z) (all_blocks : list Z) : F (option (list Z)) :=
  ind ← get_sector h 12;
  _ ← ASSERT (negb (ind =? 0));
  all_blocks ← table_read ind all_blocks;
  r ← grow (Z.to_nat (will - has)) h has all_blocks;
  match r with
  | None => mret None
  | Some all_blocks => _ ← table_write ind all_blocks; mret (Some all_blocks)
  end.

Definition blocks_for_write (h has will : Z) (all_blocks : list Z) : F (option (list Z)) :=
  if u32 (will - has) =? 0 then blocks_same h has all_blocks
  else if will <=? 12 then blocks_direct h has will all_blocks
  else if has <=? 12 then blocks_table h has will all_blocks
  else blocks_indirect h has will all_blocks.

(** The first block of a file that has none. *)
Definition first_block (h : Z) : F bool :=
  v ← get_sector h 0;
  if v =? 0 then
    lba ← block_bitmap_alloc;
    if lba =? -1 then mret false else
    _ ← set_sector h 0 (u32 lba);
    p ← gets cur_part;
    _ ← ASSERT (negb (u32 (lba - data_start_lba (sb p)) =? 0));
    _ ← sync_block lba;
    mret true
  else mret true.

(** [while (bytes_written < count)]: at most one block each turn. *)
Fixpoint write_loop (fuel : nat) (fd h : Z) (all_blocks buf : list Z) (count bytes_written : Z)
    (first_write_block : bool) (io_buf : list Z) : F (list Z) :=
  match fuel with
  | O => lift Spin
  | S fuel =>
    if bytes_written <? count then
      let io_buf := replicate 512 0 in
      i ← get_inode h;
      sec_lba ← lift (load all_blocks (i_size i / BLOCK_SIZE));
      let sec_off_bytes := i_size i mod BLOCK_SIZE in
      let chunk_size := Z.min (count - bytes_written) (BLOCK_SIZE - sec_off_bytes) in
      io_buf ← (if first_write_block then disk_read sec_lba io_buf 1 else mret io_buf);
      data ← lift (get_bytes buf bytes_written chunk_size);
      io_buf ← lift (put_bytes io_buf sec_off_bytes data);
      _ ← disk_write sec_lba io_buf 1;
      _ ← upd_inode h (inode_sized (u32 (i_size i + chunk_size)));
      f ← get_file fd;
      _ ← set_pos fd (u32 (fd_pos f + chunk_size));
      write_loop fuel fd h all_blocks buf count (bytes_written + chunk_size) false io_buf
    else mret io_buf
  end.

Definition write_fuel (count : Z) : nat := (Z.to_nat (count / 512) + 3)%nat.

Definition file_write (fd : Z) (buf : list Z) (count : Z) : F Z :=
  f ← get_file fd;
  let h := fd_inode f in
  i ← get_inode h;
  if BLOCK_SIZE * 140 <? u32 (i_size i + count) then mret (-1) else
  ob ← kmalloc BLOCK_SIZE;
  match ob with None => mret (-1) | Some io_buf =>
  ok ← mem_ok;
  if negb ok then mret (-1) else
  ok ← first_block h;
  if negb ok then mret (-1) else
  let file_has_used_blocks := i_size i / BLOCK_SIZE + 1 in
  let file_will_use_blocks := u32 (i_size i + count) / BLOCK_SIZE + 1 in
  _ ← ASSERT (file_will_use_blocks <=? 140);
  r ← blocks_for_write h file_has_used_blocks file_will_use_blocks (replicate 140 0);
  match r with None => mret (-1) | Some all_blocks =>
  _ ← set_pos fd (u32 (i_size i - 1));
  io_buf ← write_loop (write_fuel count) fd h all_blocks buf count 0 true io_buf;
  _ ← inode_sync h io_buf;
  mret (i32 count)
  end end.

(** The direct blocks from [idx] on, [n] of them, are copied. *)
Fixpoint copy_direct (n : nat) (h idx : Z) (all_blocks : list Z) : F (list Z) :=
  match n with
  | O => mret all_blocks
  | S n =>
    v ← get_sector h idx;
    all_blocks ← lift (store all_blocks idx v);
    copy_direct n h (idx + 1) all_blocks
  end.

Definition blocks_for_read (h start end_ : Z) (all_blocks : list Z) : F (list Z) :=
  if u32 (start - end_) =? 0 then
    _ ← ASSERT (end_ =? start);
    if end_ <? 12 then copy_direct 1 h end_ all_blocks
    else ind ← get_sector h 12; table_read ind all_blocks
  else if end_ <? 12 then copy_direct (Z.to_nat (end_ - start + 1)) h start all_blocks
  else if start <? 12 then
    all_blocks ← copy_direct (Z.to_nat (12 - start)) h start all_blocks;
    ind ← get_sector h 12;
    _ ← ASSERT (negb (ind =? 0));
    table_read ind all_blocks
  else
    ind ← get_sector h 12;
    _ ← ASSERT (negb (ind =? 0));
    table_read ind all_blocks.

(** [while (bytes_read < size)]; the buffer is filled from [buf_dst] on.
    [memset] asserts that there is an [io_buf]. *)
Fixpoint read_loop (fuel : nat) (fd : Z) (all_blocks : list Z) (io : bool) (buf : list Z)
    (size bytes_read : Z) : F (list Z) :=
  match fuel with
  | O => lift Spin
  | S fuel =>
    if bytes_read <? size then
      f ← get_file fd;
      sec_lba ← lift (load all_blocks (fd_pos f / BLOCK_SIZE));
      let sec_off_bytes := fd_pos f mod BLOCK_SIZE in
      let chunk_size := Z.min (size - bytes_read) (BLOCK_SIZE - sec_off_bytes) in
      _ ← ASSERT io;
      io_buf ← disk_read sec_lba (replicate 512 0) 1;
      data ← lift (get_bytes io_buf sec_off_bytes chunk_size);
      buf ← lift (put_bytes buf bytes_read data);
      _ ← set_pos fd (u32 (fd_pos f + chunk_size));
      read_loop fuel fd all_blocks io buf size (bytes_read + chunk_size)
    else mret buf
  end.

(** The buffer afterwards and the result. A failed [sys_malloc] of [io_buf]
    is only reported; [sys_free] asserts that there is one. *)
Definition file_read (fd : Z) (buf : list Z) (count : Z) : F (list Z * Z) :=
  f ← get_file fd;
  let h := fd_inode f in
  i ← get_inode h;
  let size := if i_size i <? u32 (fd_pos f + count) then u32 (i_size i - fd_pos f) else count in
  if (i_size i <? u32 (fd_pos f + count)) && (size =? 0) then mret (buf, -1) else
  io ← mem_ok;
  ok ← mem_ok;
  if negb ok then mret (buf, -1) else
  let block_read_start_idx := fd_pos f / BLOCK_SIZE in
  let block_read_end_idx := u32 (fd_pos f + size) / BLOCK_SIZE in
  _ ← ASSERT ((block_read_start_idx <? 139) && (block_read_end_idx <? 139));
  all_blocks ← blocks_for_read h block_read_start_idx block_read_end_idx (replicate 140 0);
  buf ← read_loop (write_fuel size) fd all_blocks io buf size 0;
  _ ← ASSERT io;
  mret (buf, i32 size).
End ops.

(** ** Blocks *)

(** At least [n] bits of the bitmap are clear. *)
Definition has_free (bm : bitmap) (n : nat) : Prop :=
  ∃ l, NoDup l ∧ (n ≤ length l)%nat ∧ ∀ j, j ∈ l → 0 ≤ j < 8 * btmp_bytes_len bm ∧ bit bm j = false.

(** A block of the data area that is taken. *)
Definition taken (p : partition) (b : Z) : Prop :=
  data_start_lba (sb p) ≤ b < disk_end ∧ b - data_start_lba (sb p) < 8 * btmp_bytes_len (block_bitmap p) ∧
  bit (block_bitmap p) (b - data_start_lba (sb p)) = true.

Lemma filter_ne_length (r : Z) (l : list Z) : NoDup l → (length l ≤ S (length (filter (λ j, j ≠ r) l)))%nat.
Proof.
  induction l as [|x l IH]; [cbn; lia|]. intros [Hx Hl]%NoDup_cons.
  destruct (decide (x = r)) as [->|Hne].
  - rewrite filter_cons_False by (intros H; by apply H). rewrite list_filter_all; [cbn; lia|].
    intros y Hy ->. done.
  - rewrite filter_cons_True by done. cbn [length]. specialize (IH Hl). lia.
Qed.

(** [bm] is the bitmap of [p] with the blocks [new] taken. *)
Record takes (p : partition) (bm : bitmap) (new : list Z) : Prop := {
  tk_nodup : NoDup new;
  tk_free b : b ∈ new → ¬ taken p b ∧ taken (part_blocks bm p) b;
  tk_len : btmp_bytes_len bm = btmp_bytes_len (block_bitmap p);
  tk_old x : taken p x → taken (part_blocks bm p) x;
  tk_new x : taken (part_blocks bm p) x → x ∈ new ∨ taken p x
}.

(** The block of the root directory, the first of the data area, is never new. *)
Lemma takes_pos p bm new b : part_ok p → takes p bm new → b ∈ new → data_start_lba (sb p) < b.
Proof.
  intros Hp Ht Hb. destruct (tk_free _ _ _ Ht b Hb) as [Hno (Hr & Hl & _)]. cbn in Hr, Hl.
  rewrite (tk_len _ _ _ Ht) in Hl. destruct (Z.eq_dec b (data_start_lba (sb p))) as [->|]; [|lia].
  destruct Hno. split_and!; [lia..|]. rewrite Z.sub_diag. apply (po_root _ Hp).
Qed.

Lemma takes_nil p : takes p (block_bitmap p) [].
Proof.
  split; [constructor|by intros b []%elem_of_nil|done|by destruct p|by destruct p; right].
Qed.

Lemma takes_app p bm1 bm2 l1 l2 : takes p bm1 l1 → takes (part_blocks bm1 p) bm2 l2 → takes p bm2 (l1 ++ l2).
Proof.
  intros [n1 f1 e1 o1 w1] [n2 f2 e2 o2 w2]. cbn in *. split.
  - apply NoDup_app. split_and!; [done| |done]. intros x Hx Hx2.
    destruct (f2 x Hx2) as [Hn _]. by destruct Hn, (f1 x Hx).
  - intros b [Hb|Hb]%elem_of_app.
    + destruct (f1 b Hb). split; [done|]. by apply o2.
    + destruct (f2 b Hb) as [Hn Ht]. split; [|done]. intros Hc. apply Hn. by apply o1.
  - congruence.
  - intros x Hx. apply o2, o1, Hx.
  - intros x Hx. rewrite elem_of_app. destruct (w2 x Hx) as [|Hx1]; [auto|]. destruct (w1 x Hx1); auto.
Qed.

Section proofs.
Context {D : Type} {BD : BlockDev D} {BS : BlockDevSpec D}.
Implicit Types s : fs D.

Lemma block_alloc_run s n : part_ok (cur_part s) → has_free (block_bitmap (cur_part s)) (S n) →
  ∃ bm b, block_bitmap_alloc s = Ret (b, with_part (part_blocks bm (cur_part s)) s) ∧
    part_ok (part_blocks bm (cur_part s)) ∧ has_free bm n ∧ takes (cur_part s) bm [b].
Proof.
  intros Hp (l & Hnd & Hlen & Hl). pose proof (part_ranges _ Hp). destruct (po_bbm _ Hp) as (Hwf & Hb1 & Hb2).
  destruct l as [|i l']; [cbn in Hlen; lia|].
  destruct (Hl i ltac:(left)) as [Hi Hbit].
  destruct (bitmap_scan_one (block_bitmap (cur_part s)) Hwf i Hi Hbit) as (r & Hr & Hr0 & Hrb & _).
  unfold block_bitmap_alloc. rewrite bind_gets, Hr, bind_lift.
  destruct (Z.eqb_spec r (-1)); [lia|]. unfold block_bitmap_set. rewrite bind_assoc, bind_gets.
  destruct (bitmap_set_spec (block_bitmap (cur_part s)) r 1 Hwf) as (bm & Hs & Hwf' & Hl1 & Hl2 & Hbits);
    [lia|by right|]. rewrite Hs, !bind_assoc, bind_lift. unfold upd_part. rewrite bind_modify, ret_eq.
  pose proof (po_free _ Hp r ltac:(lia) Hrb). unfold disk_end in *.
  exists bm, (data_start_lba (sb (cur_part s)) + r). rewrite i32_id by lia.
  split; [reflexivity|]. split; [|split].
  - destruct Hp. split; cbn; try done.
    + rewrite Hl1, Hl2. done.
    + rewrite Hbits by lia. by case_decide.
    + intros j Hj. rewrite Hl1 in Hj. rewrite Hbits by lia. case_decide; [done|]. by apply po_free.
  - exists (filter (λ j, j ≠ r) (i :: l')). split; [by apply NoDup_filter|].
    split; [pose proof (filter_ne_length r _ Hnd); lia|].
    intros j [Hne Hj]%list_elem_of_filter. destruct (Hl j Hj). rewrite Hl1, Hbits by lia.
    rewrite decide_False by done. done.
  - assert (r ≠ 0) by (intros ->; pose proof (po_root _ Hp); congruence).
    split; unfold taken; cbn; rewrite ?Hl1; unfold disk_end.
    + apply NoDup_singleton.
    + intros b ->%list_elem_of_singleton.
      replace (data_start_lba (sb (cur_part s)) + r - data_start_lba (sb (cur_part s))) with r by lia.
      rewrite Hbits, decide_True by lia. split; [intros (_ & _ & ?); congruence|split_and!; lia || done].
    + done.
    + intros x (Hx & Hx2 & Hx3). rewrite Hbits by lia. split_and!; [lia..|]. by case_decide.
    + intros x (Hx & Hx2 & Hx3). rewrite Hbits in Hx3 by lia. rewrite list_elem_of_singleton.
      case_decide; [left; lia|right; split_and!; lia || done].
Qed.

(** The bytes that may change between two disks. *)
Definition framed (R : Z → Prop) (d d' : D) : Prop := bd_inv d' ∧ ∀ k, ¬ R k → dbyte d' k = dbyte d k.

Lemma framed_refl R d : bd_inv d → framed R d d.
Proof. by split. Qed.
Lemma framed_trans R d1 d2 d3 : framed R d1 d2 → framed R d2 d3 → framed R d1 d3.
Proof. intros [_ H1] [Hi H2]. split; [done|]. intros k Hk. by rewrite H2, H1. Qed.
Lemma framed_mono (R R' : Z → Prop) d d' : (∀ k, R k → R' k) → framed R d d' → framed R' d d'.
Proof. intros HR [Hi H]. split; [done|]. intros k Hk. apply H. auto. Qed.
Lemma framed_same R d d' : same_bytes d d' → framed R d d'.
Proof. intros [Hi H]. split; [done|]. auto. Qed.
Lemma framed_wrote (R : Z → Prop) d d' a data : wrote d d' a data →
  (∀ k, a ≤ k < a + Z.of_nat (length data) → R k) → framed R d d'.
Proof. intros [Hi H] HR. split; [done|]. intros k Hk. rewrite H, decide_False; [done|]. auto. Qed.
Lemma framed_bytes (R : Z → Prop) d d' a n : framed R d d' → (∀ k, a ≤ k < a + n → ¬ R k) →
  dbytes d' a n = dbytes d a n.
Proof. intros [_ H] HR. apply dbytes_ext. auto. Qed.

(** The bytes of the block bitmap, and of the sector [b]. *)
Definition in_bbm (p : partition) (k : Z) : Prop :=
  512 * block_bitmap_lba (sb p) ≤ k < 512 * (block_bitmap_lba (sb p) + block_bitmap_sects (sb p)).
Definition in_sector (b k : Z) : Prop := 512 * b ≤ k < 512 * b + 512.

Lemma bitmap_sync_blocks_run s idx : bd_inv (dev s) → part_ok (cur_part s) →
  0 ≤ idx < 8 * btmp_bytes_len (block_bitmap (cur_part s)) →
  ∃ d', bitmap_sync idx BLOCK_BITMAP s = Ret ((), with_dev d' s) ∧ framed (in_bbm (cur_part s)) (dev s) d'.
Proof.
  intros Hd Hp Hi. pose proof (part_ranges _ Hp). destruct (po_bbm _ Hp) as (Hwf & Hb1 & Hb2).
  unfold bitmap_sync, BLOCK_SIZE, SECTOR_SIZE. rewrite bind_gets. rewrite u32_id by zlia.
  rewrite get_bytes_eq by zlia. rewrite bind_lift.
  destruct (disk_write_run s (block_bitmap_lba (sb (cur_part s)) + idx / 4096)
    (slice (bits (block_bitmap (cur_part s))) (idx / 4096 * 512) 512) 1)
    as (d' & Hr & Hw); [done|zlia|lia|unfold disk_end; zlia|rewrite slice_length by zlia; lia|].
  exists d'. split; [exact Hr|]. eapply framed_wrote; [exact Hw|].
  intros k. rewrite length_take, slice_length by zlia. unfold in_bbm. intros Hk. zlia.
Qed.

Lemma sync_block_run s b : bd_inv (dev s) → part_ok (cur_part s) → taken (cur_part s) b →
  ∃ d', sync_block b s = Ret ((), with_dev d' s) ∧ framed (in_bbm (cur_part s)) (dev s) d'.
Proof.
  intros Hd Hp (Hb & Hlt & _). pose proof (part_ranges _ Hp). unfold disk_end in *.
  unfold sync_block. rewrite bind_gets, u32_id by zlia. apply bitmap_sync_blocks_run; [done|done|lia].
Qed.

(** ** Growing a file *)

Lemma splice_nil (l : list Z) off : splice l off [] = l.
Proof. unfold splice. cbn. rewrite Nat.add_0_r. apply take_drop. Qed.

Lemma splice_insert (l : list Z) idx b new : 0 ≤ idx < Z.of_nat (length l) →
  splice (<[Z.to_nat idx := b]> l) (idx + 1) new = splice l idx (b :: new).
Proof.
  intros Hi. unfold splice. replace (Z.to_nat (idx + 1)) with (S (Z.to_nat idx)) by lia.
  rewrite (take_S_r _ _ b) by (apply list_lookup_insert_eq; lia).
  rewrite take_insert_ge by lia. rewrite drop_insert_lt by lia. rewrite <-app_assoc. cbn [app length].
  do 4 f_equal. lia.
Qed.

Definition grown s h (i : inode) (secs : list Z) (bm : bitmap) (d : D) : fs D :=
  with_inodes (<[h := inode_sectored secs i]> (inodes s)) (with_part (part_blocks bm (cur_part s)) (with_dev d s)).

Lemma grown_self s h i : inodes s !! h = Some i →
  grown s h i (i_sectors i) (block_bitmap (cur_part s)) (dev s) = s.
Proof.
  intros Hh. unfold grown. rewrite insert_id; [by destruct s as [? []]|]. rewrite Hh. by destruct i.
Qed.

Lemma set_sector_run s h i idx v : inodes s !! h = Some i → 0 ≤ idx < Z.of_nat (length (i_sectors i)) →
  set_sector h idx v s =
    Ret ((), with_inodes (<[h := inode_sectored (<[Z.to_nat idx := v]> (i_sectors i)) i]> (inodes s)) s).
Proof.
  intros Hh Hi. unfold set_sector, get_inode. rewrite bind_assoc, bind_gets, Hh, bind_ret.
  by rewrite store_in, bind_lift by done.
Qed.

Lemma get_inode_run s h i : inodes s !! h = Some i → get_inode h s = Ret (i, s).
Proof. intros Hh. unfold get_inode. by rewrite bind_gets, Hh. Qed.

Lemma get_sector_run s h i idx v : inodes s !! h = Some i → 0 ≤ idx → i_sectors i !! Z.to_nat idx = Some v →
  get_sector h idx s = Ret (v, s).
Proof.
  intros Hh Hi Hv. unfold get_sector, get_inode. rewrite bind_assoc, bind_gets, Hh, bind_ret.
  assert (load (i_sectors i) idx = Ret v) as -> by (apply load_Ret; done). done.
Qed.

(** The blocks [new] come from the bitmap and go into [all_blocks] and, when
    they are direct, into the inode. *)
Lemma grow_run n extra s h idx ab i :
  bd_inv (dev s) → part_ok (cur_part s) → has_free (block_bitmap (cur_part s)) (n + extra) →
  inodes s !! h = Some i → length (i_sectors i) = 13%nat → length ab = 140%nat →
  0 ≤ idx → idx + Z.of_nat n ≤ 140 →
  (∀ k, idx ≤ k < idx + Z.of_nat n → k < 12 → i_sectors i !! Z.to_nat k = Some 0) →
  ∃ new bm d', grow n h idx ab s =
      Ret (Some (splice ab idx new), grown s h i (splice (i_sectors i) idx (take (Z.to_nat (12 - idx)) new)) bm d') ∧
    length new = n ∧ takes (cur_part s) bm new ∧ part_ok (part_blocks bm (cur_part s)) ∧
    has_free bm extra ∧ framed (in_bbm (cur_part s)) (dev s) d'.
Proof.
  revert s idx ab i. induction n as [|n IH]; intros s idx ab i Hd Hp Hf Hh Hl Hab Hidx Hmax H0.
  { exists [], (block_bitmap (cur_part s)), (dev s). cbn [grow]. rewrite take_nil, !splice_nil, grown_self by done.
    split_and!; try done; [apply takes_nil|by destruct (cur_part s)]. }
  cbn [grow]. destruct (block_alloc_run s (n + extra) Hp Hf) as (bm & b & Hr & Hp1 & Hf1 & Ht1).
  rewrite (M_bind_Ret _ _ _ _ _ Hr).
  destruct (tk_free _ _ _ Ht1 b) as [Hfree Htak]; [by apply list_elem_of_singleton|].
  pose proof (part_ranges _ Hp) as Hrg. destruct (proj1 Htak) as [Hlo Hhi]. cbn in Hlo. unfold disk_end in Hhi.
  rewrite (proj2 (Z.eqb_neq b (-1))) by lia. rewrite (u32_id b) by zlia.
  set (s1 := with_part (part_blocks bm (cur_part s)) s).
  assert (Hh1 : inodes s1 !! h = Some i) by exact Hh.
  set (secs1 := if idx <? 12 then <[Z.to_nat idx := b]> (i_sectors i) else i_sectors i).
  assert (Hstep : (if idx <? 12 then v ← get_sector h idx; _ ← ASSERT (v =? 0); set_sector h idx b else mret ()) s1
    = Ret ((), with_inodes (<[h := inode_sectored secs1 i]> (inodes s)) s1)).
  { unfold secs1. destruct (Z.ltb_spec idx 12) as [Hlt|Hge].
    - rewrite (M_bind_Ret _ _ _ _ _ (get_sector_run s1 h i idx 0 Hh1 Hidx (H0 idx ltac:(lia) Hlt))).
      change (0 =? 0) with true. rewrite bind_ASSERT_true.
      rewrite (set_sector_run s1 h i idx b Hh1) by lia. done.
    - rewrite insert_id; [by destruct s|]. rewrite Hh. by destruct i. }
  rewrite (M_bind_Ret _ _ _ _ _ Hstep), store_in by lia. rewrite bind_lift.
  set (s2 := with_inodes _ s1).
  destruct (sync_block_run s2 b Hd Hp1 Htak) as (d1 & Hs & Hfr). rewrite (M_bind_Ret _ _ _ _ _ Hs).
  destruct (IH (with_dev d1 s2) (idx + 1) (<[Z.to_nat idx := b]> ab) (inode_sectored secs1 i))
    as (new & bm2 & d2 & Hr2 & Hn & Ht2 & Hp2 & Hf2 & Hfr2).
  - apply Hfr.
  - exact Hp1.
  - exact Hf1.
  - cbn. by rewrite lookup_insert_eq.
  - cbn. unfold secs1. destruct (idx <? 12); by rewrite ?length_insert.
  - by rewrite length_insert.
  - lia.
  - lia.
  - intros k Hk Hk12. cbn. unfold secs1. destruct (idx <? 12); [rewrite list_lookup_insert_ne by lia|]; apply H0; lia.
  - assert (Hsecs : splice secs1 (idx + 1) (take (Z.to_nat (12 - (idx + 1))) new) =
      splice (i_sectors i) idx (take (Z.to_nat (12 - idx)) (b :: new))).
    { unfold secs1. destruct (Z.ltb_spec idx 12).
      - replace (Z.to_nat (12 - idx)) with (S (Z.to_nat (12 - (idx + 1)))) by lia. cbn [take].
        by rewrite splice_insert by lia.
      - replace (Z.to_nat (12 - (idx + 1))) with 0%nat by lia. replace (Z.to_nat (12 - idx)) with 0%nat by lia.
        cbn [take]. by rewrite !splice_nil. }
    exists (b :: new), bm2, d2. rewrite Hr2. split; [|split_and!].
    + rewrite splice_insert by lia. do 2 f_equal. unfold grown, s2, s1. cbn -[take splice].
      by rewrite insert_insert_eq, Hsecs.
    + cbn. by rewrite Hn.
    + exact (takes_app _ _ _ [b] new Ht1 Ht2).
    + exact Hp2.
    + exact Hf2.
    + eapply framed_trans; [exact Hfr|exact Hfr2].
Qed.

(** ** Files *)

(** The byte at position [x] of the file in [blocks]. *)
Definition fbyte (d : D) (blocks : list Z) (x : Z) : Z :=
  dbyte d (512 * (blocks !!! Z.to_nat (x / 512)) + x mod 512).
Definition fbytes (d : D) (blocks : list Z) (a n : Z) : list Z := map (fbyte d blocks) (seqZ a n).

(** The entries of the block list, 0 behind its end; those from 12 on are the
    table of indirect blocks. *)
Definition slot (blocks : list Z) (k : nat) : Z := default 0 (blocks !! k).
Definition table (blocks : list Z) : list Z := map (slot blocks) (seq 12 128).
Definition tbl (i : inode) : Z := i_sectors i !!! 12%nat.

(** The blocks that belong to the file. *)
Definition used (i : inode) (blocks : list Z) : list Z :=
  blocks ++ (if tbl i =? 0 then [] else [tbl i]).

(** The inode [i] at [h] is a file with these blocks and this content. *)
Record file_at s (h : Z) (i : inode) (blocks content : list Z) : Prop := {
  fa_inode : inodes s !! h = Some i;
  fa_ok : inode_ok i;
  fa_max : (length blocks ≤ 140)%nat;
  fa_direct k : (k < 12)%nat → i_sectors i !! k = Some (slot blocks k);
  fa_table : if decide (length blocks ≤ 12)%nat then tbl i = 0
    else tbl i ≠ 0 ∧ dbytes (dev s) (512 * tbl i) 512 = words (table blocks);
  fa_used : NoDup (used i blocks);
  fa_taken b : b ∈ used i blocks → taken (cur_part s) b;
  fa_size : i_size i ≤ 512 * Z.of_nat (length blocks);
  fa_content : content = fbytes (dev s) blocks 0 (i_size i)
}.

Lemma fbytes_ext d d' blocks a n : 0 ≤ a → a + n ≤ 512 * Z.of_nat (length blocks) →
  (∀ b k, b ∈ blocks → in_sector b k → dbyte d' k = dbyte d k) → fbytes d' blocks a n = fbytes d blocks a n.
Proof.
  intros Ha Hn H. unfold fbytes. apply map_ext_in. intros x Hx%list_elem_of_In%elem_of_seqZ. unfold fbyte.
  destruct (lookup_lt_is_Some_2 blocks (Z.to_nat (x / 512))) as [b Hb]; [zlia|].
  rewrite (list_lookup_total_correct _ _ _ Hb). eapply H; [by eapply list_elem_of_lookup_2|].
  unfold in_sector. zlia.
Qed.

(** A file survives changes elsewhere. *)
Lemma file_at_frame R s s' h i blocks content : file_at s h i blocks content →
  inodes s' !! h = Some i → framed R (dev s) (dev s') →
  (∀ b k, b ∈ used i blocks → in_sector b k → ¬ R k) →
  (∀ b, taken (cur_part s) b → taken (cur_part s') b) → file_at s' h i blocks content.
Proof.
  intros [] Hh Hf HR Ht. split; try done.
  - case_decide; [done|]. destruct fa_table0 as [Hnz Hd]. split; [done|]. rewrite <-Hd.
    eapply framed_bytes; [done|]. intros k Hk. apply (HR (tbl i)).
    + unfold used. rewrite (proj2 (Z.eqb_neq _ _) Hnz). apply elem_of_app. right. by apply list_elem_of_singleton.
    + unfold in_sector. lia.
  - intros b Hb. auto.
  - rewrite fa_content0. symmetry. pose proof (io_size _ fa_ok0). apply fbytes_ext; [lia|lia|].
    intros b k Hb Hk. apply Hf. apply (HR b); [unfold used; apply elem_of_app; by left|done].
Qed.

Lemma taken_bbm p b k : part_ok p → taken p b → in_sector b k → ¬ in_bbm p k.
Proof.
  intros Hp (Hb & _ & _) Hk. pose proof (part_ranges _ Hp). unfold in_sector, in_bbm in *. lia.
Qed.

Lemma sector_apart b c k : b ≠ c → in_sector b k → ¬ in_sector c k.
Proof. unfold in_sector. lia. Qed.

Lemma words_table_length blocks : length (words (table blocks)) = 512%nat.
Proof. rewrite words_length. unfold table. by rewrite List.length_map, List.length_seq. Qed.

Lemma taken_range p b : part_ok p → taken p b → 0 < b ∧ b + 1 ≤ disk_end ∧ is_u32 b.
Proof. intros Hp (Hb & _ & _). pose proof (part_ranges _ Hp). unfold disk_end, is_u32 in *. lia. Qed.

Lemma slot_app_l blocks new k : (k < length blocks)%nat → slot (blocks ++ new) k = slot blocks k.
Proof. intros Hk. unfold slot. by rewrite lookup_app_l. Qed.
Lemma slot_app_r blocks new k : (length blocks ≤ k)%nat → slot (blocks ++ new) k = slot new (k - length blocks).
Proof. intros Hk. unfold slot. by rewrite lookup_app_r. Qed.
Lemma slot_ge blocks k : (length blocks ≤ k)%nat → slot blocks k = 0.
Proof. intros Hk. unfold slot. by rewrite lookup_ge_None_2. Qed.
Lemma slot_lookup blocks k b : blocks !! k = Some b → slot blocks k = b.
Proof. unfold slot. by intros ->. Qed.
Lemma slot_in blocks k : slot blocks k = 0 ∨ slot blocks k ∈ blocks.
Proof.
  unfold slot. destruct (blocks !! k) eqn:E; [right; by eapply list_elem_of_lookup_2|by left].
Qed.

(** The file gets the blocks [new]; [fresh] are these and the block of the
    table when it is new. *)
Lemma file_at_grow R s h i blocks content new fresh secs bm d' :
  file_at s h i blocks content → part_ok (part_blocks bm (cur_part s)) → takes (cur_part s) bm fresh →
  length secs = 13%nat → (length (blocks ++ new) ≤ 140)%nat →
  (∀ k, (k < 12)%nat → secs !! k = Some (slot (blocks ++ new) k)) →
  used (inode_sectored secs i) (blocks ++ new) ≡ₚ used i blocks ++ fresh →
  framed R (dev s) d' → (∀ b k, b ∈ blocks → in_sector b k → ¬ R k) →
  (if decide (length (blocks ++ new) ≤ 12)%nat then tbl (inode_sectored secs i) = 0
    else tbl (inode_sectored secs i) ≠ 0 ∧
      dbytes d' (512 * tbl (inode_sectored secs i)) 512 = words (table (blocks ++ new))) →
  file_at (grown s h i secs bm d') h (inode_sectored secs i) (blocks ++ new) content.
Proof.
  intros [] Hp Ht Hl Hmax Hdir Hperm Hf HR Htab.
  assert (Htk : ∀ b, b ∈ used (inode_sectored secs i) (blocks ++ new) → taken (part_blocks bm (cur_part s)) b).
  { intros b. rewrite Hperm, elem_of_app. intros [Hb|Hb]; [by eapply tk_old, fa_taken0|].
    by apply (tk_free _ _ _ Ht). }
  split; cbn; try done.
  - by rewrite lookup_insert_eq.
  - destruct fa_ok0. split; cbn; try done. apply Forall_lookup. intros k x Hx.
    assert (x = 0 ∨ x ∈ used (inode_sectored secs i) (blocks ++ new)) as [->|Hin]; [|unfold is_u32; lia|].
    + destruct (decide (k < 12)%nat) as [Hk|Hk].
      * rewrite (Hdir k Hk) in Hx. injection Hx as <-. destruct (slot_in (blocks ++ new) k) as [|Hs]; [by left|].
        right. unfold used. apply elem_of_app. by left.
      * assert (k = 12%nat) as -> by (apply lookup_lt_Some in Hx; lia).
        unfold used, tbl in *. cbn in *. rewrite (list_lookup_total_correct _ _ _ Hx) in *.
        destruct (Z.eqb_spec x 0); [by left|]. right. apply elem_of_app. right. by apply list_elem_of_singleton.
    + by apply (taken_range _ _ Hp), Htk.
  - rewrite Hperm. apply NoDup_app. split; [done|]. split; [|apply Ht].
    intros x Hx Hx2. destruct (tk_free _ _ _ Ht x Hx2) as [Hno _]. by apply Hno, fa_taken0.
  - rewrite length_app. lia.
  - rewrite fa_content0. unfold fbytes. pose proof (io_size _ fa_ok0) as Hsz. unfold is_u32 in Hsz.
    transitivity (fbytes d' blocks 0 (i_size i)).
    + symmetry. apply fbytes_ext; [lia|lia|]. intros b k Hb Hk. apply Hf. by apply (HR b).
    + unfold fbytes. apply map_ext_in. intros x Hx%list_elem_of_In%elem_of_seqZ. unfold fbyte.
      destruct (lookup_lt_is_Some_2 blocks (Z.to_nat (x / 512))) as [b Hb]; [zlia|].
      rewrite (list_lookup_total_correct _ _ _ Hb).
      by rewrite (list_lookup_total_correct _ _ _ (lookup_app_l_Some _ new _ _ Hb)).
Qed.

(** The table of indirect blocks is read into [all_blocks]. *)
Lemma table_read_run s h i blocks content ab : bd_inv (dev s) → part_ok (cur_part s) →
  file_at s h i blocks content → (12 < length blocks)%nat → length ab = 140%nat →
  ∃ d', table_read (tbl i) ab s = Ret (take 12 ab ++ table blocks, with_dev d' s) ∧ same_bytes (dev s) d'.
Proof.
  intros Hd Hp Hfa Hl Hab. pose proof (fa_table _ _ _ _ _ Hfa) as Ht. rewrite decide_False in Ht by lia.
  destruct Ht as [Hnz Hb]. assert (Htk : taken (cur_part s) (tbl i)).
  { apply (fa_taken _ _ _ _ _ Hfa). unfold used. rewrite (proj2 (Z.eqb_neq _ _) Hnz).
    apply elem_of_app. right. by apply list_elem_of_singleton. }
  destruct (taken_range _ _ Hp Htk) as (H1 & H2 & _).
  assert (Hlw : length (words (drop 12 ab)) = 512%nat) by (rewrite words_length, length_drop, Hab; done).
  unfold table_read. destruct (disk_read_run s (tbl i) (words (drop 12 ab)) 1) as (d' & Hr & Hs);
    [done|lia|lia|lia|lia|]. rewrite (M_bind_Ret _ _ _ _ _ Hr).
  rewrite drop_ge, app_nil_r by lia. change (512 * 1) with 512. rewrite Hb.
  pose proof (get_words_ok (table blocks) (words (table blocks)) 0) as Hw.
  assert (Hlt : length (table blocks) = 128%nat) by done. rewrite Hlt in Hw.
  rewrite Hw; [rewrite bind_lift; by exists d'| |done|by rewrite words_table_length|].
  - apply Forall_map, Forall_forall. intros k _. destruct (slot_in blocks k) as [->|Hin]; [unfold is_u32; lia|].
    apply (taken_range _ _ Hp), (fa_taken _ _ _ _ _ Hfa). unfold used. apply elem_of_app. by left.
  - unfold slice. change (Z.to_nat 0) with 0%nat. rewrite drop_0. apply take_ge. rewrite words_table_length. lia.
Qed.

Lemma table_lookup blocks k : (12 ≤ k < 140)%nat → table blocks !! (k - 12)%nat = Some (slot blocks k).
Proof.
  intros Hk. unfold table. change (map (slot blocks)) with (fmap (M := list) (slot blocks)).
  rewrite list_lookup_fmap, lookup_seq_lt by lia. cbn [fmap option_fmap option_map]. do 2 f_equal. lia.
Qed.

Lemma table_write_run s t ab blocks : bd_inv (dev s) → part_ok (cur_part s) → taken (cur_part s) t →
  length ab = 140%nat → (∀ k, (12 ≤ k < 140)%nat → ab !! k = Some (slot blocks k)) →
  ∃ d', table_write t ab s = Ret ((), with_dev d' s) ∧ wrote (dev s) d' (512 * t) (words (table blocks)).
Proof.
  intros Hd Hp Htk Hab Hk. destruct (taken_range _ _ Hp Htk) as (H1 & H2 & _).
  assert (Heq : drop 12 ab = table blocks).
  { apply list_eq. intros k. rewrite lookup_drop. destruct (decide (k < 128)%nat) as [Hlt|Hge].
    - rewrite Hk by lia. replace k with (12 + k - 12)%nat at 2 by lia. by rewrite table_lookup by lia.
    - rewrite !lookup_ge_None_2; [done|change (length (table blocks)) with 128%nat; lia|lia]. }
  unfold table_write. rewrite Heq. destruct (disk_write_run s t (words (table blocks)) 1) as (d' & Hr & Hw);
    [done|lia|lia|lia|rewrite words_table_length; lia|].
  exists d'. split; [done|]. by rewrite take_ge in Hw by (rewrite words_table_length; lia).
Qed.

(** The direct entries after [grow]. *)
Lemma grown_direct i blocks new : length (i_sectors i) = 13%nat →
  (∀ k, (k < 12)%nat → i_sectors i !! k = Some (slot blocks k)) →
  let n := Z.of_nat (length blocks) in
  let secs := splice (i_sectors i) n (take (Z.to_nat (12 - n)) new) in
  length secs = 13%nat ∧ secs !! 12%nat = i_sectors i !! 12%nat ∧
  ∀ k, (k < 12)%nat → secs !! k = Some (slot (blocks ++ new) k).
Proof.
  intros Hl Hd n secs. subst n. destruct (decide (length blocks ≤ 12)%nat) as [Hle|Hgt].
  - assert (Hb : Z.of_nat (length blocks) + Z.of_nat (length (take (Z.to_nat (12 - Z.of_nat (length blocks))) new)) ≤ 12)
      by (rewrite length_take; lia).
    assert (Hlen : length (take (Z.to_nat (12 - Z.of_nat (length blocks))) new) =
      (Nat.min (12 - length blocks) (length new))%nat) by (rewrite length_take; lia).
    split; [unfold secs; rewrite splice_length; lia|].
    split; [unfold secs; apply splice_lookup_other; lia|]. intros k Hk. unfold secs.
    destruct (decide (k < length blocks)%nat); [rewrite splice_lookup_other, slot_app_l by lia; by apply Hd|].
    rewrite slot_app_r by lia. destruct (decide (k - length blocks < length new)%nat).
    + rewrite splice_lookup by lia. rewrite Nat2Z.id, lookup_take_lt by lia.
      unfold slot. destruct (lookup_lt_is_Some_2 new (k - length blocks)%nat) as [b ->]; [lia|done].
    + rewrite splice_lookup_other by lia. rewrite Hd, !slot_ge by lia. done.
  - assert (Z.to_nat (12 - Z.of_nat (length blocks)) = 0%nat) as Hz by lia. unfold secs.
    rewrite Hz, take_0, splice_nil. split_and!; [done|done|].
    intros k Hk. rewrite slot_app_l by lia. by apply Hd.
Qed.

(** What [blocks_for_write] achieves. *)
Record grew s h i blocks content (will extra : nat) secs bm d' new fresh ab : Prop := {
  gr_file : file_at (grown s h i secs bm d') h (inode_sectored secs i) (blocks ++ new) content;
  gr_len : length (blocks ++ new) = will;
  gr_part : part_ok (part_blocks bm (cur_part s));
  gr_takes : takes (cur_part s) bm fresh;
  gr_free : has_free bm extra;
  gr_used : used (inode_sectored secs i) (blocks ++ new) ≡ₚ used i blocks ++ fresh;
  gr_disk : framed (λ k, in_bbm (cur_part s) k ∨
    (tbl (inode_sectored secs i) ≠ 0 ∧ in_sector (tbl (inode_sectored secs i)) k)) (dev s) d';
  gr_ab_len : length ab = 140%nat;
  gr_ab k : (length blocks ≤ S k)%nat → (k < will)%nat → ab !! k = Some (slot (blocks ++ new) k)
}.

Lemma used_direct i blocks : tbl i = 0 → used i blocks = blocks.
Proof. intros Ht. unfold used. rewrite Ht. apply app_nil_r. Qed.
Lemma used_table i blocks : tbl i ≠ 0 → used i blocks = blocks ++ [tbl i].
Proof. intros Ht. unfold used. by rewrite (proj2 (Z.eqb_neq _ _) Ht). Qed.

Lemma tbl_lookup i v : i_sectors i !! 12%nat = Some v → tbl i = v.
Proof. apply list_lookup_total_correct. Qed.
Lemma tbl_some i : inode_ok i → i_sectors i !! 12%nat = Some (tbl i).
Proof. intros Hi. apply list_lookup_lookup_total_lt. rewrite (io_len _ Hi). lia. Qed.

Lemma grow_splice blocks new (ab : list Z) : length ab = 140%nat → (length (blocks ++ new) ≤ 140)%nat →
  (1 ≤ length blocks)%nat → ab !! (length blocks - 1)%nat = Some (slot blocks (length blocks - 1)) →
  let ab' := splice ab (Z.of_nat (length blocks)) new in
  length ab' = 140%nat ∧ (∀ k, (length blocks ≤ S k)%nat → (k < length (blocks ++ new))%nat →
    ab' !! k = Some (slot (blocks ++ new) k)) ∧
  ∀ k, (length (blocks ++ new) ≤ k ∨ k < length blocks)%nat → ab' !! k = ab !! k.
Proof.
  rewrite length_app. intros Hl Hmax H1 Hv ab'. unfold ab'. split; [rewrite splice_length; lia|]. split.
  - intros k Hk Hk2. destruct (decide (S k = length blocks)) as [He|Hne].
    + rewrite splice_lookup_other by lia. rewrite slot_app_l by lia. replace k with (length blocks - 1)%nat by lia.
      done.
    + rewrite splice_lookup by lia. rewrite slot_app_r by lia. rewrite Nat2Z.id.
      unfold slot. destruct (lookup_lt_is_Some_2 new (k - length blocks)%nat) as [b ->]; [lia|done].
  - intros k Hk. apply splice_lookup_other; lia.
Qed.

Lemma blocks_direct_run s h i blocks content will extra : bd_inv (dev s) → part_ok (cur_part s) →
  file_at s h i blocks content → (1 ≤ length blocks ≤ will)%nat → (will ≤ 12)%nat →
  has_free (block_bitmap (cur_part s)) (will - length blocks + extra) →
  ∃ secs bm d' new fresh ab,
    blocks_direct h (Z.of_nat (length blocks)) (Z.of_nat will) (replicate 140 0) s =
      Ret (Some ab, grown s h i secs bm d') ∧
    grew s h i blocks content will extra secs bm d' new fresh ab.
Proof.
  intros Hd Hp Hfa Hb Hw Hf. pose proof Hfa as []. pose proof (io_len _ fa_ok0) as Hl.
  rewrite decide_True in fa_table0 by lia. unfold blocks_direct.
  assert (Hin : slot blocks (length blocks - 1) ∈ used i blocks).
  { rewrite used_direct by done. destruct (lookup_lt_is_Some_2 blocks (length blocks - 1)%nat) as [b Hb']; [lia|].
    rewrite (slot_lookup _ _ _ Hb'). by eapply list_elem_of_lookup_2. }
  destruct (taken_range _ _ Hp (fa_taken0 _ Hin)) as [Hpos _].
  rewrite (M_bind_Ret _ _ _ _ _ (get_sector_run s h i (Z.of_nat (length blocks) - 1) _ fa_inode0 ltac:(lia)
    ltac:(replace (Z.to_nat (Z.of_nat (length blocks) - 1)) with (length blocks - 1)%nat by lia; apply fa_direct0; lia))).
  rewrite (proj2 (Z.eqb_neq _ 0)) by lia. rewrite bind_ASSERT_true.
  rewrite store_in by (rewrite length_replicate; lia). rewrite bind_lift.
  replace (Z.to_nat (Z.of_nat will - Z.of_nat (length blocks))) with (will - length blocks)%nat by lia.
  destruct (grow_run (will - length blocks) extra s h (Z.of_nat (length blocks))
    (<[Z.to_nat (Z.of_nat (length blocks) - 1) := slot blocks (length blocks - 1)]> (replicate 140 0)) i)
    as (new & bm & d' & Hr & Hn & Ht & Hp' & Hf' & Hfr); try done; try lia.
  { by rewrite length_insert. }
  { intros k Hk Hk12. rewrite fa_direct0 by lia. by rewrite slot_ge by lia. }
  destruct (grown_direct i blocks new Hl fa_direct0) as (Hsl & Hs12 & Hsd).
  set (secs := splice (i_sectors i) _ _) in *.
  assert (Hlen : length (blocks ++ new) = will) by (rewrite length_app; lia).
  destruct (grow_splice blocks new (<[Z.to_nat (Z.of_nat (length blocks) - 1) := slot blocks (length blocks - 1)]>
    (replicate 140 0))) as (Hab & Hab1 & _); [by rewrite length_insert|lia|lia| |].
  { replace (Z.to_nat (Z.of_nat (length blocks) - 1)) with (length blocks - 1)%nat by lia.
    rewrite list_lookup_insert_eq; [done|rewrite length_replicate; lia]. }
  assert (Htb : tbl (inode_sectored secs i) = 0).
  { rewrite <-fa_table0. apply tbl_lookup. cbn. rewrite Hs12. by apply tbl_some. }
  assert (Hperm : used (inode_sectored secs i) (blocks ++ new) ≡ₚ used i blocks ++ new)
    by by rewrite !used_direct.
  exists secs, bm, d', new, new. eexists. split; [exact Hr|].
  split; try done; [|by eapply framed_mono, Hfr; auto|by rewrite <-Hlen].
  eapply (file_at_grow (in_bbm (cur_part s))); try done; [lia| |by rewrite decide_True by lia].
  intros b k Hb' Hk. eapply taken_bbm; [done| |done]. apply fa_taken0. by rewrite used_direct.
Qed.

Lemma inode_tbl_table s h i blocks content : file_at s h i blocks content → (12 < length blocks)%nat →
  get_sector h 12 s = Ret (tbl i, s) ∧ tbl i ≠ 0 ∧ tbl i ∈ used i blocks.
Proof.
  intros [] Hl. rewrite decide_False in fa_table0 by lia. destruct fa_table0 as [Hnz _].
  split; [by apply (get_sector_run s h i 12); [|lia|apply tbl_some]|]. split; [done|].
  rewrite used_table by done. apply elem_of_app. right. by apply list_elem_of_singleton.
Qed.

Lemma used_not_bbm s h i blocks content b k : part_ok (cur_part s) → file_at s h i blocks content →
  b ∈ used i blocks → in_sector b k → ¬ in_bbm (cur_part s) k.
Proof. intros Hp Hfa Hb. apply taken_bbm; [done|]. by apply (fa_taken _ _ _ _ _ Hfa). Qed.

(** [grown] on a state that is itself [grown]. *)
Lemma grown_grown s h i secs1 bm1 d1 secs2 bm2 d2 :
  grown (grown s h i secs1 bm1 d1) h (inode_sectored secs1 i) secs2 bm2 d2 = grown s h i secs2 bm2 d2.
Proof. unfold grown. cbn. by rewrite insert_insert_eq. Qed.
Lemma grown_dev s h i secs bm d d1 : with_dev d1 (grown s h i secs bm d) = grown s h i secs bm d1.
Proof. done. Qed.
Lemma grown_with_dev s h i secs bm d d1 : grown (with_dev d1 s) h i secs bm d = grown s h i secs bm d.
Proof. done. Qed.

Lemma blocks_indirect_run s h i blocks content will extra : bd_inv (dev s) → part_ok (cur_part s) →
  file_at s h i blocks content → (12 < length blocks)%nat → (length blocks ≤ will ≤ 140)%nat →
  has_free (block_bitmap (cur_part s)) (will - length blocks + extra) →
  ∃ secs bm d' new fresh ab,
    blocks_indirect h (Z.of_nat (length blocks)) (Z.of_nat will) (replicate 140 0) s =
      Ret (Some ab, grown s h i secs bm d') ∧
    grew s h i blocks content will extra secs bm d' new fresh ab.
Proof.
  intros Hd Hp Hfa Hb Hw Hf. pose proof Hfa as []. pose proof (io_len _ fa_ok0) as Hl.
  destruct (inode_tbl_table _ _ _ _ _ Hfa Hb) as (Hget & Hnz & Hin). unfold blocks_indirect.
  rewrite (M_bind_Ret _ _ _ _ _ Hget), (proj2 (Z.eqb_neq _ _) Hnz), bind_ASSERT_true.
  destruct (table_read_run s h i blocks content (replicate 140 0)) as (d1 & Hr1 & Hs1);
    [done..|apply length_replicate|]. rewrite (M_bind_Ret _ _ _ _ _ Hr1).
  set (ab := take 12 (replicate 140 0) ++ table blocks).
  assert (Hab : length ab = 140%nat) by done.
  assert (Hab1 : ∀ k, (12 ≤ k < 140)%nat → ab !! k = Some (slot blocks k)).
  { intros k Hk. unfold ab. rewrite lookup_app_r by (rewrite length_take, length_replicate; lia).
    rewrite length_take, length_replicate. by apply (table_lookup blocks k). }
  replace (Z.to_nat (Z.of_nat will - Z.of_nat (length blocks))) with (will - length blocks)%nat by lia.
  destruct (grow_run (will - length blocks) extra (with_dev d1 s) h (Z.of_nat (length blocks)) ab i)
    as (new & bm & d2 & Hr & Hn & Ht & Hp' & Hf' & Hfr); try done; try lia; [apply Hs1|].
  rewrite (M_bind_Ret _ _ _ _ _ Hr), grown_with_dev. rewrite grown_with_dev in Hr.
  destruct (grown_direct i blocks new Hl fa_direct0) as (Hsl & Hs12 & Hsd).
  set (secs := splice (i_sectors i) _ _) in *.
  assert (Hlen : length (blocks ++ new) = will) by (rewrite length_app; lia).
  destruct (grow_splice blocks new ab) as (Hab2 & Hab3 & Hab4); [done|lia|lia|apply Hab1; lia|].
  assert (Htb : tbl (inode_sectored secs i) = tbl i) by (apply tbl_lookup; cbn; rewrite Hs12; by apply tbl_some).
  assert (Hperm : used (inode_sectored secs i) (blocks ++ new) ≡ₚ used i blocks ++ new).
  { rewrite !used_table, Htb by congruence. rewrite <-!app_assoc. apply Permutation_app_head, Permutation_app_comm. }
  destruct (table_write_run (grown s h i secs bm d2) (tbl i) (splice ab (Z.of_nat (length blocks)) new)
    (blocks ++ new)) as (d3 & Hr3 & Hw3); [apply Hfr|done|apply (tk_old _ _ _ Ht); by apply fa_taken0|done| |].
  { intros k Hk. pose proof (length_app blocks new). destruct (decide (k < length blocks)%nat).
    - rewrite Hab4, Hab1, slot_app_l by lia. done.
    - destruct (decide (k < length (blocks ++ new))%nat); [apply Hab3; lia|].
      by rewrite Hab4, Hab1, !slot_ge by lia. }
  rewrite (M_bind_Ret _ _ _ _ _ Hr3). rewrite grown_dev.
  assert (Hdisk : framed (λ k, in_bbm (cur_part s) k ∨
    (tbl (inode_sectored secs i) ≠ 0 ∧ in_sector (tbl (inode_sectored secs i)) k)) (dev s) d3).
  { eapply framed_trans; [eapply framed_same, Hs1|]. eapply framed_trans; [eapply framed_mono, Hfr; auto|].
    eapply framed_wrote; [exact Hw3|]. rewrite words_table_length. intros k Hk. right. rewrite Htb.
    split; [done|]. unfold in_sector. lia. }
  exists secs, bm, d3, new, new. eexists. split; [reflexivity|].
  split; try done; [|intros k Hk Hk2; by apply Hab3; rewrite ?Hlen].
  eapply file_at_grow; try done; [lia| |].
  - intros b k Hb' Hk. rewrite Htb. assert (b ∈ used i blocks) by (unfold used; apply elem_of_app; by left).
    intros [Hk2|[_ Hk2]]; [by eapply used_not_bbm|]. revert Hk2. apply (sector_apart b); [|done]. intros ->.
    rewrite used_table in fa_used0 by done. apply NoDup_app in fa_used0 as (_ & Hdis & _).
    apply (Hdis _ Hb'). by apply list_elem_of_singleton.
  - rewrite decide_False, Htb by lia. split; [done|]. pose proof (wrote_same _ _ _ _ Hw3) as Hx.
    by rewrite words_table_length in Hx.
Qed.

Lemma last_slot s h i blocks content : file_at s h i blocks content → (1 ≤ length blocks ≤ 12)%nat →
  get_sector h (Z.of_nat (length blocks) - 1) s = Ret (slot blocks (length blocks - 1), s).
Proof.
  intros [] Hl. apply (get_sector_run s h i); [done|lia|].
  replace (Z.to_nat (Z.of_nat (length blocks) - 1)) with (length blocks - 1)%nat by lia. apply fa_direct0. lia.
Qed.

(** The disk after the allocation of a table: its block is new. *)
Lemma table_alloc_file s h i blocks content bm1 t bm2 d2 d3 new :
  bd_inv (dev s) → part_ok (cur_part s) → file_at s h i blocks content →
  (length blocks ≤ 12 < length (blocks ++ new))%nat → (length (blocks ++ new) ≤ 140)%nat →
  takes (cur_part s) bm1 [t] → takes (part_blocks bm1 (cur_part s)) bm2 new →
  part_ok (part_blocks bm2 (cur_part s)) →
  framed (in_bbm (cur_part s)) (dev s) d2 → wrote d2 d3 (512 * t) (words (table (blocks ++ new))) →
  let secs := splice (<[12%nat := t]> (i_sectors i)) (Z.of_nat (length blocks))
    (take (Z.to_nat (12 - Z.of_nat (length blocks))) new) in
  let i' := inode_sectored secs i in
  tbl i' = t ∧ t ≠ 0 ∧ takes (cur_part s) bm2 (t :: new) ∧
  used i' (blocks ++ new) ≡ₚ used i blocks ++ t :: new ∧
  framed (λ k, in_bbm (cur_part s) k ∨ (t ≠ 0 ∧ in_sector t k)) (dev s) d3 ∧
  file_at (grown s h i secs bm2 d3) h i' (blocks ++ new) content.
Proof.
  intros Hd Hp Hfa Hlen Hmax Ht1 Ht2 Hp2 Hfr Hw secs i'. pose proof Hfa as [].
  pose proof (io_len _ fa_ok0) as Hl. rewrite decide_True in fa_table0 by lia.
  assert (Htk : takes (cur_part s) bm2 (t :: new)) by exact (takes_app _ _ _ [t] new Ht1 Ht2).
  destruct (taken_range _ _ Hp2 (proj2 (tk_free _ _ _ Htk t ltac:(left)))) as [Hpos _].
  destruct (grown_direct (inode_sectored (<[12%nat := t]> (i_sectors i)) i) blocks new) as (Hsl & Hs12 & Hsd).
  { cbn. by rewrite length_insert. }
  { intros k Hk. cbn. rewrite list_lookup_insert_ne by lia. by apply fa_direct0. }
  cbn [i_sectors inode_sectored] in *. fold secs in Hsl, Hs12, Hsd.
  assert (Htb : tbl i' = t).
  { apply tbl_lookup. cbn. rewrite Hs12. apply list_lookup_insert_eq. lia. }
  assert (Hperm : used i' (blocks ++ new) ≡ₚ used i blocks ++ t :: new).
  { rewrite used_table, Htb by (rewrite Htb; lia). rewrite used_direct by done. rewrite <-app_assoc.
    apply Permutation_app_head. symmetry. apply Permutation_cons_append. }
  assert (Hdisk : framed (λ k, in_bbm (cur_part s) k ∨ (t ≠ 0 ∧ in_sector t k)) (dev s) d3).
  { eapply framed_trans; [eapply framed_mono, Hfr; auto|]. eapply framed_wrote; [exact Hw|].
    rewrite words_table_length. intros k Hk. right. split; [lia|]. unfold in_sector. lia. }
  split_and!; try done; [lia|]. unfold i' in *. eapply file_at_grow; try done.
  - intros b k Hb Hk. assert (Hbu : b ∈ used i blocks) by by rewrite used_direct.
    intros [Hk2|[_ Hk2]]; [by eapply used_not_bbm|]. revert Hk2. apply (sector_apart b); [|done]. intros ->.
    destruct (tk_free _ _ _ Htk t ltac:(left)) as [Hno _]. by apply Hno, fa_taken0.
  - rewrite decide_False, Htb by lia. split; [lia|]. pose proof (wrote_same _ _ _ _ Hw) as Hx.
    by rewrite words_table_length in Hx.
Qed.

Lemma blocks_table_run s h i blocks content will extra : bd_inv (dev s) → part_ok (cur_part s) →
  file_at s h i blocks content → (1 ≤ length blocks ≤ 12)%nat → (12 < will ≤ 140)%nat →
  has_free (block_bitmap (cur_part s)) (S (will - length blocks + extra)) →
  ∃ secs bm d' new fresh ab,
    blocks_table h (Z.of_nat (length blocks)) (Z.of_nat will) (replicate 140 0) s =
      Ret (Some ab, grown s h i secs bm d') ∧
    grew s h i blocks content will extra secs bm d' new fresh ab.
Proof.
  intros Hd Hp Hfa Hb Hw Hf. pose proof Hfa as []. pose proof (io_len _ fa_ok0) as Hl.
  rewrite decide_True in fa_table0 by lia. unfold blocks_table.
  rewrite (M_bind_Ret _ _ _ _ _ (last_slot _ _ _ _ _ Hfa ltac:(lia))).
  rewrite store_in by (rewrite length_replicate; lia). rewrite bind_lift.
  replace (Z.to_nat (Z.of_nat (length blocks) - 1)) with (length blocks - 1)%nat by lia.
  set (ab := <[(length blocks - 1)%nat := _]> (replicate 140 0)).
  assert (Hab0 : length ab = 140%nat) by (unfold ab; by rewrite length_insert).
  destruct (block_alloc_run s _ Hp Hf) as (bm1 & t & Hr1 & Hp1 & Hf1 & Ht1). rewrite (M_bind_Ret _ _ _ _ _ Hr1).
  destruct (taken_range _ _ Hp1 (proj2 (tk_free _ _ _ Ht1 t ltac:(left)))) as (Hpos & Hend & Hu).
  rewrite (proj2 (Z.eqb_neq t (-1))), (u32_id t Hu) by lia.
  set (s1 := with_part (part_blocks bm1 (cur_part s)) s).
  assert (Hh1 : inodes s1 !! h = Some i) by done.
  rewrite (M_bind_Ret _ _ _ _ _ (get_sector_run s1 h i 12 0 Hh1 ltac:(lia) ltac:(rewrite <-fa_table0; by apply tbl_some))).
  change (0 =? 0) with true. rewrite bind_ASSERT_true.
  rewrite (M_bind_Ret _ _ _ _ _ (set_sector_run s1 h i 12 t Hh1 ltac:(lia))).
  change (with_inodes _ s1) with (grown s h i (<[12%nat := t]> (i_sectors i)) bm1 (dev s)).
  replace (Z.to_nat (Z.of_nat will - Z.of_nat (length blocks))) with (will - length blocks)%nat by lia.
  destruct (grow_run (will - length blocks) extra (grown s h i (<[12%nat := t]> (i_sectors i)) bm1 (dev s)) h
    (Z.of_nat (length blocks)) ab (inode_sectored (<[12%nat := t]> (i_sectors i)) i))
    as (new & bm2 & d2 & Hr & Hn & Ht & Hp' & Hf' & Hfr); try done; try lia.
  { cbn. by rewrite lookup_insert_eq. }
  { cbn. by rewrite length_insert. }
  { intros k Hk Hk12. cbn. rewrite list_lookup_insert_ne by lia. rewrite fa_direct0 by lia. by rewrite slot_ge by lia. }
  rewrite (M_bind_Ret _ _ _ _ _ Hr), grown_grown. cbn [i_sectors inode_sectored].
  set (secs := splice _ _ (take _ new)).
  assert (Hlen : length (blocks ++ new) = will) by (rewrite length_app; lia).
  destruct (grow_splice blocks new ab) as (Hab2 & Hab3 & Hab4); [done|lia|lia| |].
  { unfold ab. rewrite list_lookup_insert_eq; [done|rewrite length_replicate; lia]. }
  destruct (table_write_run (grown s h i secs bm2 d2) t (splice ab (Z.of_nat (length blocks)) new) (blocks ++ new))
    as (d3 & Hr3 & Hw3); [apply Hfr|done|apply (tk_old _ _ _ Ht), (tk_free _ _ _ Ht1 t); by left|done| |].
  { intros k Hk. destruct (decide (k < length (blocks ++ new))%nat); [apply Hab3; lia|].
    rewrite Hab4, slot_ge by lia. unfold ab. rewrite list_lookup_insert_ne by lia. apply lookup_replicate_2. lia. }
  rewrite (M_bind_Ret _ _ _ _ _ Hr3), grown_dev.
  destruct (table_alloc_file s h i blocks content bm1 t bm2 d2 d3 new) as (Htb & Hnz & Htk & Hperm & Hdisk & Hfile);
    try done; [lia..|]. fold secs in Htb, Hperm, Hfile.
  exists secs, bm2, d3, new, (t :: new). eexists. split; [reflexivity|]. split; try done.
  - by rewrite Htb.
  - intros k Hk Hk2. apply Hab3; lia.
Qed.

Lemma blocks_same_run s h i blocks content extra : bd_inv (dev s) → part_ok (cur_part s) →
  file_at s h i blocks content → (1 ≤ length blocks)%nat → has_free (block_bitmap (cur_part s)) extra →
  ∃ secs bm d' new fresh ab,
    blocks_same h (Z.of_nat (length blocks)) (replicate 140 0) s = Ret (Some ab, grown s h i secs bm d') ∧
    grew s h i blocks content (length blocks) extra secs bm d' new fresh ab.
Proof.
  intros Hd Hp Hfa Hb Hf. pose proof Hfa as []. pose proof (io_len _ fa_ok0) as Hl.
  assert (Hpost : ∀ d1 ab, same_bytes (dev s) d1 → length ab = 140%nat →
    (∀ k, (length blocks ≤ S k)%nat → (k < length blocks)%nat → ab !! k = Some (slot blocks k)) →
    grew s h i blocks content (length blocks) extra (i_sectors i) (block_bitmap (cur_part s)) d1 [] [] ab).
  { intros d1 ab Hs Hab Hk. assert (Hpp : part_blocks (block_bitmap (cur_part s)) (cur_part s) = cur_part s)
      by by destruct (cur_part s).
    assert (Hsi : inode_sectored (i_sectors i) i = i) by by destruct i.
    split; rewrite ?app_nil_r, ?Hpp, ?Hsi; try done; [|apply takes_nil|by apply framed_same].
    eapply (file_at_frame (λ _, False)); [exact Hfa|cbn; by rewrite Hsi, lookup_insert_eq|by apply framed_same|tauto|].
    cbn. by rewrite Hpp. }
  unfold blocks_same. destruct (Z.leb_spec (Z.of_nat (length blocks)) 12).
  - rewrite (M_bind_Ret _ _ _ _ _ (last_slot _ _ _ _ _ Hfa ltac:(lia))).
    rewrite store_in by (rewrite length_replicate; lia). rewrite bind_lift, ret_eq.
    eexists _, _, (dev s), [], [], _. rewrite grown_self by done. split; [reflexivity|].
    apply Hpost; [by apply same_bytes_refl|by rewrite length_insert|]. intros k Hk1 Hk2.
    replace (Z.to_nat (Z.of_nat (length blocks) - 1)) with k by lia.
    replace (length blocks - 1)%nat with k by lia. apply list_lookup_insert_eq. rewrite length_replicate. lia.
  - destruct (inode_tbl_table _ _ _ _ _ Hfa ltac:(lia)) as (Hget & Hnz & Hin).
    rewrite (M_bind_Ret _ _ _ _ _ Hget), (proj2 (Z.eqb_neq _ _) Hnz), bind_ASSERT_true.
    destruct (table_read_run s h i blocks content (replicate 140 0)) as (d1 & Hr1 & Hs1);
      [done..|lia|apply length_replicate|]. rewrite (M_bind_Ret _ _ _ _ _ Hr1), ret_eq.
    eexists _, _, d1, [], [], _. rewrite <-(grown_with_dev s h i _ _ d1 d1), (grown_self (with_dev d1 s)) by done.
    split; [reflexivity|]. apply Hpost; [done|done|]. intros k Hk1 Hk2.
    rewrite lookup_app_r by (rewrite length_take, length_replicate; lia). rewrite length_take, length_replicate.
    apply (table_lookup blocks k). lia.
Qed.

Lemma blocks_for_write_run s h i blocks content will extra : bd_inv (dev s) → part_ok (cur_part s) →
  file_at s h i blocks content → (1 ≤ length blocks ≤ will)%nat → (will ≤ 140)%nat →
  has_free (block_bitmap (cur_part s)) (S (will - length blocks + extra)) →
  ∃ secs bm d' new fresh ab,
    blocks_for_write h (Z.of_nat (length blocks)) (Z.of_nat will) (replicate 140 0) s =
      Ret (Some ab, grown s h i secs bm d') ∧
    grew s h i blocks content will extra secs bm d' new fresh ab.
Proof.
  intros Hd Hp Hfa Hb Hw Hf. unfold blocks_for_write. rewrite u32_id by zlia.
  assert (Hf' : has_free (block_bitmap (cur_part s)) (will - length blocks + extra)).
  { destruct Hf as (l & Hnd & Hl & Hin). exists l. split_and!; [done|lia|done]. }
  destruct (Z.eqb_spec (Z.of_nat will - Z.of_nat (length blocks)) 0).
  - assert (will = length blocks) as -> by lia. apply blocks_same_run; try done; [lia|].
    by replace extra with (length blocks - length blocks + extra)%nat by lia.
  - destruct (Z.leb_spec (Z.of_nat will) 12); [apply blocks_direct_run; done || lia|].
    destruct (Z.leb_spec (Z.of_nat (length blocks)) 12); [apply blocks_table_run; done || lia|].
    apply blocks_indirect_run; done || lia.
Qed.

(** ** The write loop *)

Lemma fbytes_length d blocks a n : length (fbytes d blocks a n) = Z.to_nat n.
Proof. unfold fbytes. by rewrite List.length_map, length_seqZ. Qed.

Lemma fbytes_app d blocks a n m : 0 ≤ n → 0 ≤ m →
  fbytes d blocks a (n + m) = fbytes d blocks a n ++ fbytes d blocks (a + n) m.
Proof. intros Hn Hm. unfold fbytes. by rewrite seqZ_app, List.map_app by done. Qed.

(** A sector write that puts [data] at the end of the file. *)
Lemma write_chunk d d' blocks sz data sec b : NoDup blocks → 0 ≤ sz →
  blocks !! Z.to_nat (sz / 512) = Some b → wrote d d' (512 * b) sec → length sec = 512%nat →
  sz mod 512 + Z.of_nat (length data) ≤ 512 →
  take (Z.to_nat (sz mod 512)) sec = dbytes d (512 * b) (sz mod 512) →
  slice sec (sz mod 512) (Z.of_nat (length data)) = data →
  fbytes d' blocks 0 (sz + Z.of_nat (length data)) = fbytes d blocks 0 sz ++ data.
Proof.
  intros Hnd Hsz Hb [Hi Hw] Hl Hoff Hpre Hdata. rewrite fbytes_app by lia. f_equal.
  - apply map_ext_in. intros x Hx%list_elem_of_In%elem_of_seqZ. unfold fbyte.
    destruct (lookup_lt_is_Some_2 blocks (Z.to_nat (x / 512))) as [c Hc].
    { apply lookup_lt_Some in Hb. zlia. }
    rewrite (list_lookup_total_correct _ _ _ Hc), Hw. case_decide as Hk; [|done].
    assert (c = b) as -> by zlia. assert (Hq : Z.to_nat (x / 512) = Z.to_nat (sz / 512))
      by (eapply NoDup_lookup; eauto). assert (Hlt : x mod 512 < sz mod 512) by zlia.
    pose proof (dbytes_lookup d (512 * b) (sz mod 512) (Z.to_nat (x mod 512))) as Hx2.
    rewrite <-Hpre, lookup_take_lt in Hx2 by zlia.
    replace (512 * b + x mod 512 - 512 * b) with (x mod 512) by lia.
    assert (Hlt2 : (Z.to_nat (x mod 512) < Z.to_nat (sz mod 512))%nat) by zlia.
    specialize (Hx2 Hlt2). rewrite (list_lookup_total_correct _ _ _ Hx2). f_equal. zlia.
  - apply map_seqZ_eq; [lia|]. intros k Hk. unfold fbyte.
    replace ((0 + sz + Z.of_nat k) / 512) with (sz / 512) by zlia.
    rewrite (list_lookup_total_correct _ _ _ Hb), Hw, decide_True by zlia.
    replace (512 * b + (0 + sz + Z.of_nat k) mod 512 - 512 * b) with (sz mod 512 + Z.of_nat k) by zlia.
    rewrite <-Hdata at 1. rewrite slice_lookup, decide_True by zlia.
    replace (Z.to_nat (sz mod 512 + Z.of_nat k)) with (Z.to_nat (sz mod 512) + k)%nat by zlia.
    apply list_lookup_lookup_total_lt. zlia.
Qed.

Lemma take_splice (buf : list Z) off data : 0 ≤ off ≤ Z.of_nat (length buf) →
  take (Z.to_nat off) (splice buf off data) = take (Z.to_nat off) buf.
Proof. intros Ho. unfold splice. apply take_app_length'. rewrite length_take. lia. Qed.

Lemma set_pos_run s fd f pos : load (file_table s) fd = Ret f →
  set_pos fd pos s = Ret ((), with_files (<[Z.to_nat fd := File pos (fd_flag f) (fd_inode f)]> (file_table s)) s).
Proof.
  intros Hf. unfold set_pos, get_file, set_file. rewrite bind_assoc, bind_gets, Hf, bind_lift, bind_gets.
  apply load_Ret in Hf as [H0 Hl%lookup_lt_Some]. by rewrite store_in, bind_lift by lia.
Qed.

Lemma load_insert (l : list file) fd f g : load l fd = Ret f → load (<[Z.to_nat fd := g]> l) fd = Ret g.
Proof.
  intros [H0 Hl%lookup_lt_Some]%load_Ret. apply load_Ret. split; [done|]. by apply list_lookup_insert_eq.
Qed.

(** The sector buffer of one turn of the loop. *)
Lemma chunk_sector d d1 b off data (first : bool) : bd_inv d → 0 ≤ off →
  off + Z.of_nat (length data) ≤ 512 → (first = false → off = 0) →
  let sec := splice (if first then dbytes d (512 * b) 512 else replicate 512 0) off data in
  wrote d d1 (512 * b) (take (Z.to_nat (512 * 1)) sec) →
  length sec = 512%nat ∧ wrote d d1 (512 * b) sec ∧
  take (Z.to_nat off) sec = dbytes d (512 * b) off ∧ slice sec off (Z.of_nat (length data)) = data.
Proof.
  intros Hd Ho Hl Hfirst sec Hw. set (base := if first then _ else _) in *.
  assert (Hb : length base = 512%nat) by (unfold base; destruct first; [by rewrite dbytes_length|done]).
  assert (Hsl : length sec = 512%nat) by (unfold sec; rewrite splice_length; lia).
  rewrite take_ge in Hw by lia. split_and!; [done|done| |unfold sec; apply slice_splice_same; lia].
  unfold sec. rewrite take_splice by lia. unfold base. destruct first.
  - pose proof (dbytes_slice d (512 * b) 512 0 off) as Hs. rewrite Z.add_0_r in Hs. rewrite <-Hs by lia.
    unfold slice. done.
  - rewrite Hfirst by done. done.
Qed.

Definition written s fd h (i : inode) (f : file) (n : Z) (d : D) : fs D :=
  with_files (<[Z.to_nat fd := File (u32 (fd_pos f + n)) (fd_flag f) (fd_inode f)]> (file_table s))
    (with_inodes (<[h := inode_sized (i_size i + n) i]> (inodes s)) (with_dev d s)).

Definition in_blocks (blocks : list Z) (k : Z) : Prop := ∃ b, b ∈ blocks ∧ in_sector b k.

Lemma write_loop_run fuel s fd h i f blocks ab buf count w first io :
  bd_inv (dev s) → inodes s !! h = Some i → load (file_table s) fd = Ret f → is_u32 (fd_pos f) →
  NoDup blocks → (∀ b, b ∈ blocks → 0 < b ∧ b + 1 ≤ disk_end) → (length blocks ≤ 140)%nat →
  0 ≤ i_size i → 0 ≤ w ≤ count → count ≤ Z.of_nat (length buf) →
  i_size i + (count - w) ≤ 512 * Z.of_nat (length blocks) →
  (∀ k, (i_size i / 512 ≤ Z.of_nat k) → (k < length blocks)%nat → ab !! k = Some (slot blocks k)) →
  (first = false → w < count → i_size i mod 512 = 0) → length io = 512%nat →
  (1 ≤ fuel)%nat → (w < count → i_size i mod 512 + (count - w) ≤ 512 * (Z.of_nat fuel - 1)) →
  ∃ io' d', write_loop fuel fd h ab buf count w first io s =
      Ret (io', written s fd h i f (count - w) d') ∧
    length io' = 512%nat ∧ framed (in_blocks blocks) (dev s) d' ∧
    fbytes d' blocks 0 (i_size i + (count - w)) = fbytes (dev s) blocks 0 (i_size i) ++ slice buf w (count - w).
Proof.
  revert s i f w first io. induction fuel as [|fuel IH];
    intros s i f w first io Hd Hh Hf Hpos Hnd Hbl Hmax Hsz Hw Hbuf Hfit Hab Hfirst Hio Hfuel Hleft; [lia|].
  cbn [write_loop]. destruct (Z.ltb_spec w count) as [Hlt|Hge].
  2: { assert (w = count) as -> by lia. exists io, (dev s). rewrite Z.sub_diag, Z.add_0_r.
    split; [|split_and!; [done|by apply framed_refl|]].
    - unfold written. rewrite Z.add_0_r, Z.add_0_r, u32_id by done.
      rewrite ret_eq. do 2 f_equal. apply load_Ret in Hf as [_ Hf]. rewrite list_insert_id by (rewrite Hf; by destruct f).
      rewrite insert_id by (rewrite Hh; by destruct i). by destruct s.
    - unfold slice. cbn. by rewrite app_nil_r. }
  set (c := Z.min (count - w) (512 - i_size i mod 512)).
  destruct (lookup_lt_is_Some_2 blocks (Z.to_nat (i_size i / 512))) as [b Hb]; [zlia|].
  assert (Hbin : b ∈ blocks) by (by eapply list_elem_of_lookup_2). destruct (Hbl b Hbin) as [Hb0 Hb1].
  unfold get_inode. rewrite bind_assoc, bind_gets, Hh, bind_ret. unfold BLOCK_SIZE, SECTOR_SIZE. fold c.
  assert (Hload : load ab (i_size i / 512) = Ret b).
  { apply load_Ret. split; [zlia|]. rewrite Hab by (apply lookup_lt_Some in Hb; zlia). by rewrite (slot_lookup _ _ _ Hb). }
  rewrite Hload, bind_lift.
  assert (Hstep : ∃ d1, (if first : bool then disk_read b (replicate 512 0) 1 else mret (replicate 512 0)) s =
    Ret (if first then dbytes (dev s) (512 * b) 512 else replicate 512 0, with_dev d1 s) ∧ same_bytes (dev s) d1).
  { destruct first; [|exists (dev s); split; [by destruct s|by apply same_bytes_refl]].
    destruct (disk_read_run s b (replicate 512 0) 1) as (d1 & Hr & Hs); [done|lia..|done|].
    exists d1. by rewrite app_nil_r in Hr. }
  destruct Hstep as (d1 & Hstep & Hs1). rewrite (M_bind_Ret _ _ _ _ _ Hstep).
  assert (Hc : 1 ≤ c ∧ i_size i mod 512 + c ≤ 512 ∧ w + c ≤ count) by (unfold c; zlia).
  rewrite get_bytes_eq by lia. rewrite bind_lift.
  assert (Hdl : Z.of_nat (length (slice buf w c)) = c) by (rewrite slice_length; lia).
  rewrite put_bytes_eq by (destruct first; rewrite ?dbytes_length, ?length_replicate; zlia). rewrite bind_lift.
  set (sec := splice _ _ (slice buf w c)).
  assert (Hoff0 : first = false → i_size i mod 512 = 0) by (intros; by apply Hfirst).
  assert (Hsec : length sec = 512%nat)
    by (unfold sec; rewrite splice_length; destruct first; rewrite ?dbytes_length, ?length_replicate; zlia).
  destruct (disk_write_run (with_dev d1 s) b sec 1) as (d2 & Hr2 & Hw2); [apply Hs1|lia..|].
  rewrite (M_bind_Ret _ _ _ _ _ Hr2).
  destruct (chunk_sector (dev s) d2 b (i_size i mod 512) (slice buf w c) first) as (_ & Hwr & Hpre & Hdat);
    [done|zlia|lia|done|by eapply same_wrote|]. fold sec in Hwr, Hpre, Hdat.
  unfold upd_inode, get_inode. rewrite !bind_assoc, bind_gets. cbn [inodes with_dev]. rewrite Hh, bind_ret.
  unfold set_inode. rewrite bind_modify. unfold get_file. rewrite bind_assoc, bind_gets. cbn [file_table with_inodes with_dev].
  rewrite Hf, bind_lift. erewrite M_bind_Ret by (apply set_pos_run; exact Hf).
  rewrite (u32_id (i_size i + c)) by zlia.
  pose proof (write_chunk (dev s) d2 blocks (i_size i) (slice buf w c) sec b Hnd Hsz Hb Hwr Hsec
    ltac:(lia) Hpre Hdat) as Hchunk. rewrite Hdl in Hchunk.
  match goal with |- context [write_loop fuel fd h ab buf count (w + c) false sec ?st] => set (s2 := st) end.
  destruct (IH s2 (inode_sized (i_size i + c) i) (File (u32 (fd_pos f + c)) (fd_flag f) (fd_inode f)) (w + c) false sec)
    as (io' & d' & Hr & Hio' & Hfr & Hbytes); cbn [i_size inode_sized fd_pos]; try done; try lia.
  { apply Hwr. }
  { cbn. by rewrite lookup_insert_eq. }
  { cbn. by eapply load_insert. }
  { zlia. }
  { intros k Hk. apply Hab. zlia. }
  { intros _ Hlt2. unfold c in *. zlia. }
  { zlia. }
  { intros Hlt2. unfold c in *. zlia. }
  exists io', d'. rewrite Hr. split; [|split_and!; [done| |]].
  - assert (He : u32 (u32 (fd_pos f + c) + (count - (w + c))) = u32 (fd_pos f + (count - w))) by zlia.
    unfold written. cbn. rewrite insert_insert_eq, list_insert_insert_eq, He.
    by replace (i_size i + (count - w)) with (i_size i + c + (count - (w + c))) by lia.
  - eapply framed_trans; [|exact Hfr]. eapply framed_wrote; [exact Hwr|]. intros k Hk. exists b. split; [done|].
    unfold in_sector. lia.
  - cbn [dev with_files with_inodes with_dev i_size inode_sized] in Hbytes. replace (i_size i + (count - w)) with
      (i_size i + c + (count - (w + c))) by lia. rewrite Hbytes. change (dev s2) with d2. rewrite Hchunk, <-app_assoc.
    f_equal. rewrite <-slice_app by lia. f_equal. lia.
Qed.

(** ** The whole write *)

(** A file has a block more than its full ones, once it has any. *)
Definition file_full (i : inode) (blocks : list Z) : Prop :=
  (blocks = [] ∧ i_size i = 0) ∨ Z.of_nat (length blocks) = i_size i / 512 + 1.

Lemma has_free_le bm n m : (m ≤ n)%nat → has_free bm n → has_free bm m.
Proof. intros Hl (l & Hnd & Hn & Hin). exists l. split_and!; [done|lia|done]. Qed.

(** What the two allocation steps give. *)
Record extended s h i blocks content (will extra : nat) secs bm d' new fresh : Prop := {
  xt_file : file_at (grown s h i secs bm d') h (inode_sectored secs i) (blocks ++ new) content;
  xt_len : length (blocks ++ new) = will;
  xt_part : part_ok (part_blocks bm (cur_part s));
  xt_takes : takes (cur_part s) bm fresh;
  xt_free : has_free bm extra;
  xt_used : used (inode_sectored secs i) (blocks ++ new) ≡ₚ used i blocks ++ fresh;
  xt_disk : framed (λ k, in_bbm (cur_part s) k ∨
    (tbl (inode_sectored secs i) ≠ 0 ∧ in_sector (tbl (inode_sectored secs i)) k)) (dev s) d'
}.

Lemma first_block_run s h i blocks content extra : bd_inv (dev s) → part_ok (cur_part s) →
  file_at s h i blocks content → file_full i blocks → has_free (block_bitmap (cur_part s)) (S extra) →
  ∃ secs bm d' new fresh, first_block h s = Ret (true, grown s h i secs bm d') ∧
    extended s h i blocks content (Z.to_nat (i_size i / 512 + 1)) extra secs bm d' new fresh ∧
    framed (in_bbm (cur_part s)) (dev s) d'.
Proof.
  intros Hd Hp Hfa Hfull Hf. pose proof Hfa as []. pose proof (io_len _ fa_ok0) as Hl. unfold first_block.
  rewrite (M_bind_Ret _ _ _ _ _ (get_sector_run s h i 0 _ fa_inode0 ltac:(lia) (fa_direct0 0%nat ltac:(lia)))).
  destruct Hfull as [[-> Hz]|Hlen].
  - change (slot [] 0) with 0. change (0 =? 0) with true. cbv iota.
    destruct (block_alloc_run s extra Hp Hf) as (bm & b & Hr & Hp1 & Hf1 & Ht). rewrite (M_bind_Ret _ _ _ _ _ Hr).
    destruct (tk_free _ _ _ Ht b ltac:(left)) as [Hno Htk]. destruct (taken_range _ _ Hp1 Htk) as (Hb0 & Hb1 & Hbu).
    rewrite (proj2 (Z.eqb_neq b (-1))), (u32_id b Hbu) by lia.
    set (s1 := with_part (part_blocks bm (cur_part s)) s). assert (Hh1 : inodes s1 !! h = Some i) by done.
    rewrite (M_bind_Ret _ _ _ _ _ (set_sector_run s1 h i 0 b Hh1 ltac:(lia))).
    rewrite bind_gets. pose proof (takes_pos _ _ _ b Hp Ht ltac:(left)) as Hlo. pose proof (part_ranges _ Hp).
    cbn [cur_part with_inodes s1 with_part sb part_blocks].
    rewrite u32_id by (unfold disk_end in *; zlia). rewrite (proj2 (Z.eqb_neq _ 0)) by lia. rewrite bind_ASSERT_true.
    set (s2 := with_inodes _ s1).
    destruct (sync_block_run s2 b Hd Hp1 Htk) as (d1 & Hs & Hfr). rewrite (M_bind_Ret _ _ _ _ _ Hs), ret_eq.
    exists (<[0%nat := b]> (i_sectors i)), bm, d1, [b], [b]. split; [reflexivity|].
    assert (Htb : tbl (inode_sectored (<[0%nat := b]> (i_sectors i)) i) = 0).
    { unfold tbl. cbn. rewrite list_lookup_total_insert_ne by lia. exact fa_table0. }
    assert (Hperm : used (inode_sectored (<[0%nat := b]> (i_sectors i)) i) ([] ++ [b]) ≡ₚ used i [] ++ [b])
      by by rewrite !used_direct.
    split; [|exact Hfr]. split; try done; [|by rewrite Hz|by eapply framed_mono, Hfr; auto].
    eapply (file_at_grow (in_bbm (cur_part s))); try done; [by rewrite length_insert|cbn; lia| |].
    + intros [|k] Hk; [by rewrite list_lookup_insert_eq by lia|].
      rewrite list_lookup_insert_ne by lia. rewrite fa_direct0 by lia. done.
    + intros x k []%elem_of_nil.
  - destruct (lookup_lt_is_Some_2 blocks 0%nat) as [b Hb]; [pose proof (io_size _ fa_ok0); zlia|].
    rewrite (slot_lookup _ _ _ Hb). assert (Hbu : b ∈ used i blocks)
      by (unfold used; apply elem_of_app; left; by eapply list_elem_of_lookup_2).
    destruct (taken_range _ _ Hp (fa_taken0 b Hbu)) as [Hb0 _].
    rewrite (proj2 (Z.eqb_neq b 0)), ret_eq by lia.
    exists (i_sectors i), (block_bitmap (cur_part s)), (dev s), [], []. rewrite grown_self by done. split; [done|].
    assert (Hpp : part_blocks (block_bitmap (cur_part s)) (cur_part s) = cur_part s) by by destruct (cur_part s).
    assert (Hsi : inode_sectored (i_sectors i) i = i) by by destruct i.
    split; [|by apply framed_refl].
    split; rewrite ?app_nil_r, ?Hpp, ?Hsi, ?grown_self; try done; [lia|apply takes_nil|by eapply has_free_le, Hf; lia].
Qed.

Lemma extend_run s h i blocks content will extra : bd_inv (dev s) → part_ok (cur_part s) →
  file_at s h i blocks content → file_full i blocks →
  (Z.to_nat (i_size i / 512 + 1) ≤ will ≤ 140)%nat →
  has_free (block_bitmap (cur_part s)) (S (S (will - Z.to_nat (i_size i / 512 + 1) + extra))) →
  ∃ secs1 bm1 d1 secs bm d' new fresh ab,
    first_block h s = Ret (true, grown s h i secs1 bm1 d1) ∧
    blocks_for_write h (i_size i / 512 + 1) (Z.of_nat will) (replicate 140 0) (grown s h i secs1 bm1 d1) =
      Ret (Some ab, grown s h i secs bm d') ∧
    extended s h i blocks content will extra secs bm d' new fresh ∧
    (∀ k, i_size i / 512 ≤ Z.of_nat k → (k < will)%nat → ab !! k = Some (slot (blocks ++ new) k)).
Proof.
  intros Hd Hp Hfa Hfull Hw Hf. pose proof (io_size _ (fa_ok _ _ _ _ _ Hfa)) as Hsz. unfold is_u32 in Hsz.
  destruct (first_block_run s h i blocks content _ Hd Hp Hfa Hfull Hf) as (secs1 & bm1 & d1 & new1 & fresh1 & Hr1 & [] & Hfr1).
  destruct (blocks_for_write_run (grown s h i secs1 bm1 d1) h (inode_sectored secs1 i) (blocks ++ new1) content
    will extra) as (secs & bm & d' & new & fresh & ab & Hr & []); try done.
  { apply xt_disk0. }
  { rewrite xt_len0. zlia. }
  { lia. }
  { cbn. rewrite xt_len0. done. }
  rewrite xt_len0, Z2Nat.id in Hr by zlia. rewrite grown_grown in *.
  exists secs1, bm1, d1, secs, bm, d', (new1 ++ new), (fresh1 ++ fresh), ab.
  split; [done|]. split; [done|]. rewrite app_assoc in *. change (inode_sectored secs (inode_sectored secs1 i))
    with (inode_sectored secs i) in *.
  split; [split; rewrite ?(app_assoc blocks); try done|].
  - by eapply takes_app.
  - rewrite gr_used0, xt_used0. by rewrite app_assoc.
  - eapply framed_trans; [|eapply framed_mono, gr_disk0; intros k [Hk|Hk]; [by left|by right]].
    eapply framed_mono, Hfr1. by left.
  - intros k Hk Hk2. apply gr_ab0; [rewrite xt_len0; zlia|done].
Qed.

(** The bytes that an operation on the file with blocks [l] may change: the
    block bitmap, the inode table and these blocks. *)
Definition touched (p : partition) (l : list Z) (k : Z) : Prop :=
  512 * block_bitmap_lba (sb p) ≤ k < 512 * data_start_lba (sb p) ∨ in_blocks l k.

Lemma touched_other p l b k : part_ok p → taken p b → b ∉ l → in_sector b k → ¬ touched p l k.
Proof.
  intros Hp (Hb & _) Hl Hk. pose proof (part_ranges _ Hp). intros [Ht|(c & Hc & Hk2)].
  - unfold in_sector in *. lia.
  - revert Hk2. apply (sector_apart b); [|done]. by intros ->.
Qed.

Lemma extended_touched s h i blocks content will extra secs bm d' new fresh :
  part_ok (cur_part s) → extended s h i blocks content will extra secs bm d' new fresh →
  framed (touched (cur_part s) (used (inode_sectored secs i) (blocks ++ new))) (dev s) d'.
Proof.
  intros Hp []. eapply framed_mono, xt_disk0. pose proof (part_ranges _ Hp). intros k [Hk|[Hnz Hk]].
  - left. unfold in_bbm in Hk. lia.
  - right. eexists. split; [|exact Hk]. rewrite used_table by done. apply elem_of_app. right.
    by apply list_elem_of_singleton.
Qed.

(** What a successful write leaves. *)
Record wrote_file s fd h (i : inode) (f : file) blocks content data s' : Prop := {
  wf_dev : bd_inv (dev s');
  wf_part : part_ok (cur_part s');
  wf_mem : fs_mem s' = fs_mem s;
  wf_file : ∃ i' blocks', file_at s' h i' blocks' (content ++ data) ∧ file_full i' blocks' ∧ i_no i' = i_no i ∧
    i_size i' = i_size i + Z.of_nat (length data) ∧
    dbytes (dev s') (inode_addr (cur_part s') (i_no i)) 76 = inode_bytes i';
  wf_pos : load (file_table s') fd =
    Ret (File (u32 (i_size i + Z.of_nat (length data) - 1)) (fd_flag f) (fd_inode f));
  wf_other h2 i2 blocks2 content2 : h2 ≠ h → file_at s h2 i2 blocks2 content2 →
    (∀ b, b ∈ used i2 blocks2 → b ∉ used i blocks) → file_at s' h2 i2 blocks2 content2;
  wf_shape : ∃ i' bm, i_no i' = i_no i ∧ i_open_cnts i' = i_open_cnts i ∧ s' = with_files
    (<[Z.to_nat fd := File (u32 (i_size i + Z.of_nat (length data) - 1)) (fd_flag f) (fd_inode f)]> (file_table s))
    (with_inodes (<[h := i']> (inodes s)) (with_part (part_blocks bm (cur_part s)) (with_dev (dev s') s)));
  wf_taken b : taken (cur_part s) b → taken (cur_part s') b;
  wf_kept b k : taken (cur_part s) b → b ∉ used i blocks → in_sector b k → dbyte (dev s') k = dbyte (dev s) k
}.

(** The state that [write_loop] leaves is a file with the data at its end. *)
Lemma written_file s fd h i f secs bm d1 blocks2 content count data d2 : part_ok (cur_part s) →
  file_at (grown s h i secs bm d1) h (inode_sectored secs i) blocks2 content →
  part_ok (part_blocks bm (cur_part s)) → 0 ≤ count → i_size i + count ≤ 512 * Z.of_nat (length blocks2) →
  is_u32 (i_size i + count) → framed (in_blocks blocks2) d1 d2 →
  fbytes d2 blocks2 0 (i_size i + count) = fbytes d1 blocks2 0 (i_size i) ++ data →
  file_at (written (grown s h i secs bm d1) fd h (inode_sectored secs i) f count d2) h
    (inode_sized (i_size i + count) (inode_sectored secs i)) blocks2 (content ++ data).
Proof.
  intros Hp [] Hp2 Hc Hfit Hu Hfr Hb. split; cbn -[tbl used table]; try done.
  - by rewrite lookup_insert_eq.
  - destruct fa_ok0. by split.
  - change (tbl (inode_sized (i_size i + count) (inode_sectored secs i))) with (tbl (inode_sectored secs i)).
    case_decide; [done|]. destruct fa_table0 as [Hnz Hd]. split; [done|]. rewrite <-Hd.
    eapply framed_bytes; [exact Hfr|]. intros k Hk (b & Hb1 & Hb2). revert Hb2.
    apply (sector_apart (tbl (inode_sectored secs i))); [|unfold in_sector; lia].
    intros <-. rewrite used_table in fa_used0 by done. apply NoDup_app in fa_used0 as (_ & Hdis & _).
    apply (Hdis _ Hb1). by apply list_elem_of_singleton.
  - by rewrite Hb, fa_content0.
Qed.

Lemma write_fuel_ok count off : 0 ≤ count → 0 ≤ off < 512 → off + count ≤ 512 * (Z.of_nat (write_fuel count) - 1).
Proof. intros Hc Ho. unfold write_fuel. zlia. Qed.

Lemma file_at_same s s' h i blocks content : bd_inv (dev s) → inodes s' !! h = inodes s !! h →
  dev s' = dev s → cur_part s' = cur_part s → file_at s h i blocks content → file_at s' h i blocks content.
Proof.
  intros Hd Hi Hde Hp Hfa. apply (file_at_frame (λ _, False) s); [done| | |tauto|by rewrite Hp].
  - rewrite Hi. by destruct Hfa.
  - rewrite Hde. by apply framed_refl.
Qed.

(** The inode is synced and the result is there. *)
Lemma file_write_finish s fd h i f f2 secs bm d2 d3 will extra new fresh blocks content count data io :
  part_ok (cur_part s) → extended s h i blocks content will extra secs bm d2 new fresh →
  i_no i < 256 → inode_sects (i_no i) = 1 → load (file_table s) fd = Ret f → fd_inode f = h →
  f2 = File (u32 (i_size i - 1)) (fd_flag f) (fd_inode f) → length data = Z.to_nat count →
  0 ≤ count → i_size i + count < 71680 →
  Z.of_nat (length (blocks ++ new)) = (i_size i + count) / 512 + 1 → length io = 512%nat →
  framed (in_blocks (blocks ++ new)) d2 d3 →
  fbytes d3 (blocks ++ new) 0 (i_size i + count) = fbytes d2 (blocks ++ new) 0 (i_size i) ++ data →
  ∃ s', (_ ← inode_sync h io; mret (i32 count))
      (written (with_files (<[Z.to_nat fd := f2]> (file_table s)) (grown s h i secs bm d2)) fd h
        (inode_sectored secs i) f2 count d3) = Ret (count, s') ∧
    wrote_file s fd h i f blocks content data s'.
Proof.
  intros Hp Hext Hno Hsect Hf Hfh -> Hdl Hc Hmax Hlen Hio Hfr3 Hb3.
  pose proof (extended_touched _ _ _ _ _ _ _ _ _ _ _ _ Hp Hext) as Htouch. destruct Hext.
  pose proof (io_size _ (fa_ok _ _ _ _ _ xt_file0)) as Hsz. cbn in Hsz. unfold is_u32 in Hsz.
  pose proof (part_ranges _ Hp) as Hrg. pose proof (io_no _ (fa_ok _ _ _ _ _ xt_file0)) as Hn. cbn in Hn.
  set (i4 := inode_sized (i_size i + count) (inode_sectored secs i)).
  match goal with |- context [written ?a fd h ?b ?c count d3] => set (s4 := written a fd h b c count d3) end.
  assert (Hfile4 : file_at s4 h i4 (blocks ++ new) (content ++ data)).
  { eapply (file_at_same (written (grown s h i secs bm d2) fd h (inode_sectored secs i) f count d3));
      [apply Hfr3|done|done|done|]. eapply written_file; try done; [zlia|zlia]. }
  destruct (inode_sync_run s4 h io i4) as (buf' & d5 & Hr5 & _ & Hw5); try done;
    [apply Hfr3|apply Hfile4|apply Hfile4|cbn; rewrite Hsect; lia|].
  rewrite (M_bind_Ret _ _ _ _ _ Hr5), ret_eq, i32_id by lia. eexists. split; [reflexivity|].
  pose proof (inode_bytes_length _ (fa_ok _ _ _ _ _ Hfile4)) as Hbl.
  assert (Haddr : 512 * inode_table_lba (sb (cur_part s)) ≤ inode_addr (cur_part s) (i_no i) ∧
    inode_addr (cur_part s) (i_no i) + 76 ≤ 512 * data_start_lba (sb (cur_part s))).
  { unfold inode_addr, sizeof_inode. lia. }
  assert (Hfr5 : framed (λ k, inode_addr (cur_part s) (i_no i) ≤ k < inode_addr (cur_part s) (i_no i) + 76) d3 d5).
  { eapply framed_wrote; [exact Hw5|]. rewrite Hbl. by intros. }
  assert (Hall : framed (touched (cur_part s) (used (inode_sectored secs i) (blocks ++ new))) (dev s) d5).
  { eapply framed_trans; [exact Htouch|]. eapply framed_trans.
    - eapply framed_mono, Hfr3. intros k (b & Hb & Hk). right. exists b. split; [|done].
      unfold used. apply elem_of_app. by left.
    - eapply framed_mono, Hfr5. intros k Hk. left. cbn beta in Hk. lia. }
  assert (Hother : ∀ b k, taken (cur_part s) b → b ∉ used i blocks → in_sector b k →
    ¬ touched (cur_part s) (used (inode_sectored secs i) (blocks ++ new)) k).
  { intros b k Htk Hbn Hk. apply (touched_other _ _ b); [done|done| |done]. rewrite xt_used0, elem_of_app.
    intros [Hb2|Hb2]; [done|]. by destruct (tk_free _ _ _ xt_takes0 b Hb2). }
  split.
  - apply Hw5.
  - exact xt_part0.
  - done.
  - exists i4, (blocks ++ new). split_and!; [|by right|done|cbn; lia|].
    + eapply file_at_frame; [exact Hfile4|apply Hfile4|exact Hfr5| |done].
      intros b k Hb Hk Hk2. destruct (fa_taken _ _ _ _ _ Hfile4 b Hb) as [Hlo _]. cbn in Hlo.
      unfold in_sector in Hk. lia.
    + pose proof (wrote_same _ _ _ _ Hw5) as Hx. by rewrite Hbl in Hx.
  - cbn. rewrite list_insert_insert_eq. erewrite load_insert by exact Hf. do 2 f_equal. rewrite Hdl. zlia.
  - intros h2 i2 blocks2 content2 Hne Hfa2 Hdis.
    eapply (file_at_frame (touched (cur_part s) (used (inode_sectored secs i) (blocks ++ new)))); [exact Hfa2| | | |].
    + cbn. rewrite !lookup_insert_ne by done. apply Hfa2.
    + exact Hall.
    + intros b k Hb Hk. pose proof (fa_taken _ _ _ _ _ Hfa2 b Hb) as Htk. apply (Hother b); auto.
    + intros b Hb. by apply (tk_old _ _ _ xt_takes0).
  - exists i4, bm. split; [done|]. split; [done|]. unfold s4, written, grown, i4. cbn. rewrite insert_insert_eq, list_insert_insert_eq, Hdl.
    replace (u32 (u32 (i_size i - 1) + count)) with (u32 (i_size i + Z.of_nat (Z.to_nat count) - 1)) by zlia. done.
  - apply (tk_old _ _ _ xt_takes0).
  - intros b k Hb Hbn Hk. apply Hall. by apply (Hother b).
Qed.

Lemma file_write_run s fd h i f blocks content buf count :
  bd_inv (dev s) → part_ok (cur_part s) → file_at s h i blocks content → file_full i blocks →
  i_no i < 256 → inode_sects (i_no i) = 1 → load (file_table s) fd = Ret f → fd_inode f = h → fs_mem s = [] →
  0 ≤ count ≤ Z.of_nat (length buf) → i_size i + count < 71680 →
  has_free (block_bitmap (cur_part s)) (Z.to_nat ((i_size i + count) / 512 - i_size i / 512) + 2) →
  ∃ s', file_write fd buf count s = Ret (count, s') ∧
    wrote_file s fd h i f blocks content (take (Z.to_nat count) buf) s'.
Proof.
  intros Hd Hp Hfa Hfull Hno Hsect Hf Hfh Hm Hc Hmax Hfree. pose proof Hfa as [].
  pose proof (io_size _ fa_ok0) as Hsz. unfold is_u32 in Hsz.
  unfold file_write, get_file. rewrite bind_assoc, bind_gets, Hf, bind_lift, Hfh.
  unfold get_inode at 1. rewrite bind_assoc, bind_gets, fa_inode0, bind_ret.
  unfold BLOCK_SIZE, SECTOR_SIZE. rewrite (u32_id (i_size i + count)) by zlia.
  destruct (Z.ltb_spec (512 * 140) (i_size i + count)); [lia|].
  rewrite (M_bind_Ret _ _ _ _ _ (kmalloc_run s 512 Hm)), (M_bind_Ret _ _ _ _ _ (mem_ok_run s Hm)). cbn [negb].
  destruct (extend_run s h i blocks content (Z.to_nat ((i_size i + count) / 512 + 1)) 0 Hd Hp Hfa Hfull)
    as (secs1 & bm1 & d1 & secs & bm & d2 & new & fresh & ab & Hr1 & Hr2 & Hext & Hab); [zlia| |].
  { eapply has_free_le, Hfree. zlia. }
  pose proof (extended_touched _ _ _ _ _ _ _ _ _ _ _ _ Hp Hext) as Htouch. pose proof Hext as [].
  rewrite (M_bind_Ret _ _ _ _ _ Hr1). cbn [negb].
  rewrite (proj2 (Z.leb_le _ 140)), bind_ASSERT_true by zlia.
  rewrite Z2Nat.id in Hr2 by zlia. rewrite (M_bind_Ret _ _ _ _ _ Hr2).
  set (s2 := grown s h i secs bm d2) in *.
  rewrite (M_bind_Ret _ _ _ _ _ (set_pos_run s2 fd f (u32 (i_size i - 1)) Hf)).
  set (f2 := File (u32 (i_size i - 1)) (fd_flag f) (fd_inode f)).
  set (s3 := with_files (<[Z.to_nat fd := f2]> (file_table s2)) s2).
  assert (Hnd : NoDup (blocks ++ new)).
  { pose proof (fa_used _ _ _ _ _ xt_file0) as Hu. unfold used in Hu at 1. by apply NoDup_app in Hu as [? _]. }
  assert (Hrange : ∀ b, b ∈ blocks ++ new → 0 < b ∧ b + 1 ≤ disk_end).
  { intros b Hb. destruct (taken_range _ b xt_part0) as (? & ? & _); [|done].
    apply (fa_taken _ _ _ _ _ xt_file0). unfold used. apply elem_of_app. by left. }
  destruct (write_loop_run (write_fuel count) s3 fd h (inode_sectored secs i) f2 (blocks ++ new) ab buf count 0 true
    (replicate 512 0)) as (io & d3 & Hr3 & Hio & Hfr3 & Hb3); try done; cbn [i_size inode_sectored]; try lia.
  { apply Htouch. }
  { cbn. by rewrite lookup_insert_eq. }
  { cbn. by eapply load_insert. }
  { apply u32_range. }
  { rewrite xt_len0. zlia. }
  { rewrite xt_len0. zlia. }
  { intros k Hk Hk2. apply Hab; [done|]. by rewrite <-xt_len0. }
  { unfold write_fuel. lia. }
  { intros _. rewrite Z.sub_0_r. apply write_fuel_ok; zlia. }
  change (Z.to_nat 512) with 512%nat. rewrite (M_bind_Ret _ _ _ _ _ Hr3). rewrite Z.sub_0_r in *.
  apply (file_write_finish s fd h i f f2 secs bm d2 d3 _ _ new fresh blocks content count
    (take (Z.to_nat count) buf) io Hp Hext); try done.
  all: [> rewrite length_take; lia | lia | rewrite xt_len0; zlia].
Qed.

(** ** Reading *)

Lemma copy_direct_run n s h i blocks content idx ab : file_at s h i blocks content →
  0 ≤ idx → idx + Z.of_nat n ≤ 12 → length ab = 140%nat →
  ∃ ab', copy_direct n h idx ab s = Ret (ab', s) ∧ length ab' = 140%nat ∧
    ∀ k, ab' !! k = if decide (idx ≤ Z.of_nat k < idx + Z.of_nat n) then Some (slot blocks k) else ab !! k.
Proof.
  intros Hfa. revert idx ab. induction n as [|n IH]; intros idx ab Hi Hn Hl; cbn [copy_direct].
  { exists ab. split_and!; [done|done|]. intros k. by rewrite decide_False by lia. }
  rewrite (M_bind_Ret _ _ _ _ _ (get_sector_run s h i idx _ (fa_inode _ _ _ _ _ Hfa) Hi
    (fa_direct _ _ _ _ _ Hfa (Z.to_nat idx) ltac:(lia)))).
  rewrite store_in, bind_lift by lia.
  destruct (IH (idx + 1) (<[Z.to_nat idx := slot blocks (Z.to_nat idx)]> ab)) as (ab' & Hr & Hl' & Hk);
    [lia|lia|by rewrite length_insert|]. exists ab'. split; [done|]. split; [done|].
  intros k. rewrite Hk. destruct (decide (k = Z.to_nat idx)) as [->|Hne].
  - rewrite decide_False, decide_True by lia. apply list_lookup_insert_eq. lia.
  - rewrite list_lookup_insert_ne by done. repeat case_decide; done || lia.
Qed.

Lemma table_read_slots s h i blocks content ab : bd_inv (dev s) → part_ok (cur_part s) →
  file_at s h i blocks content → (12 < length blocks)%nat → length ab = 140%nat →
  ∃ ab' d', table_read (tbl i) ab s = Ret (ab', with_dev d' s) ∧ same_bytes (dev s) d' ∧
    ∀ k, (k < 140)%nat → ab' !! k = if decide (k < 12)%nat then ab !! k else Some (slot blocks k).
Proof.
  intros Hd Hp Hfa Hl Hab. destruct (table_read_run s h i blocks content ab) as (d1 & Hr & Hs); [done..|].
  eexists _, d1. split; [exact Hr|]. split; [done|]. intros k Hk. case_decide.
  - rewrite lookup_app_l by (rewrite length_take; lia). by apply lookup_take_lt.
  - rewrite lookup_app_r by (rewrite length_take; lia). rewrite length_take, Hab. by apply (table_lookup blocks k); lia.
Qed.

Lemma blocks_for_read_run s h i blocks content start end_ : bd_inv (dev s) → part_ok (cur_part s) →
  file_at s h i blocks content → 0 ≤ start ≤ end_ → end_ < 140 → (12 ≤ end_ → (12 < length blocks)%nat) →
  ∃ ab d', blocks_for_read h start end_ (replicate 140 0) s = Ret (ab, with_dev d' s) ∧
    same_bytes (dev s) d' ∧ ∀ k, start ≤ Z.of_nat k ≤ end_ → ab !! k = Some (slot blocks k).
Proof.
  intros Hd Hp Hfa Hse Hmax Hind. unfold blocks_for_read.
  assert (Hdir : ∀ n, start + Z.of_nat n ≤ 12 → end_ < start + Z.of_nat n → ∃ ab d',
    copy_direct n h start (replicate 140 0) s = Ret (ab, with_dev d' s) ∧
    same_bytes (dev s) d' ∧ ∀ k, start ≤ Z.of_nat k ≤ end_ → ab !! k = Some (slot blocks k)).
  { intros n Hn1 Hn2. destruct (copy_direct_run n s h i blocks content start (replicate 140 0)) as (ab & Hr & _ & Hk);
      [done|lia|lia|done|]. exists ab, (dev s). split; [rewrite Hr; by destruct s|]. split; [by apply same_bytes_refl|].
    intros k Hk'. rewrite Hk, decide_True by lia. done. }
  assert (Htab : 12 ≤ end_ → ∃ ab d', table_read (tbl i) (replicate 140 0) s = Ret (ab, with_dev d' s) ∧
    same_bytes (dev s) d' ∧ ∀ k, (12 ≤ k < 140)%nat → ab !! k = Some (slot blocks k)).
  { intros He. destruct (table_read_slots s h i blocks content (replicate 140 0)) as (ab & d' & Hr & Hs & Hk);
      [done..|by apply Hind|done|]. exists ab, d'. split_and!; [done|done|].
    intros k Hk'. rewrite Hk, decide_False by lia. done. }
  destruct (Z.eqb_spec (u32 (start - end_)) 0) as [Heq|Hne].
  - assert (end_ = start) as -> by zlia. rewrite Z.eqb_refl, bind_ASSERT_true.
    destruct (Z.ltb_spec start 12); [apply Hdir; lia|].
    destruct (inode_tbl_table _ _ _ _ _ Hfa (Hind ltac:(lia))) as (Hget & _ & _).
    rewrite (M_bind_Ret _ _ _ _ _ Hget). destruct (Htab ltac:(lia)) as (ab & d' & Hr & Hs & Hk).
    exists ab, d'. split_and!; [done|done|]. intros k Hk'. apply Hk. lia.
  - destruct (Z.ltb_spec end_ 12); [apply Hdir; lia|].
    destruct (inode_tbl_table _ _ _ _ _ Hfa (Hind ltac:(lia))) as (Hget & Hnz & _).
    destruct (Z.ltb_spec start 12).
    + destruct (copy_direct_run (Z.to_nat (12 - start)) s h i blocks content start (replicate 140 0))
        as (ab & Hr & Hl & Hk); [done|lia|lia|done|]. rewrite (M_bind_Ret _ _ _ _ _ Hr), (M_bind_Ret _ _ _ _ _ Hget).
      rewrite (proj2 (Z.eqb_neq _ _) Hnz), bind_ASSERT_true.
      destruct (table_read_slots s h i blocks content ab) as (ab' & d' & Hr' & Hs & Hk'); [done..|by apply Hind|done|].
      exists ab', d'. split_and!; [done|done|]. intros k Hkk. rewrite Hk' by lia. case_decide; [|done].
      rewrite Hk, decide_True by lia. done.
    + rewrite (M_bind_Ret _ _ _ _ _ Hget), (proj2 (Z.eqb_neq _ _) Hnz), bind_ASSERT_true.
      destruct (Htab ltac:(lia)) as (ab & d' & Hr & Hs & Hk). exists ab, d'. split_and!; [done|done|].
      intros k Hk'. apply Hk. lia.
Qed.

Lemma fbytes_slice d blocks n a m : 0 ≤ a → 0 ≤ m → a + m ≤ n →
  slice (fbytes d blocks 0 n) a m = fbytes d blocks a m.
Proof.
  intros Ha Hm Hn. symmetry. apply map_seqZ_eq; [rewrite slice_length; rewrite ?fbytes_length; lia|].
  intros k Hk. rewrite slice_lookup, decide_True by lia. unfold fbytes. rewrite map_seqZ_lookup by lia.
  do 2 f_equal. lia.
Qed.

Lemma fbytes_sector d blocks a n b : 0 ≤ a → 0 ≤ n → blocks !! Z.to_nat (a / 512) = Some b →
  a mod 512 + n ≤ 512 → fbytes d blocks a n = dbytes d (512 * b + a mod 512) n.
Proof.
  intros Ha Hn Hb Ho. apply map_seqZ_eq; [apply dbytes_length|]. intros k Hk. rewrite dbytes_lookup by done.
  unfold fbyte. replace ((a + Z.of_nat k) / 512) with (a / 512) by zlia.
  rewrite (list_lookup_total_correct _ _ _ Hb). do 2 f_equal. zlia.
Qed.

Lemma splice_splice (buf : list Z) off x y : 0 ≤ off →
  off + Z.of_nat (length x) + Z.of_nat (length y) ≤ Z.of_nat (length buf) →
  splice (splice buf off x) (off + Z.of_nat (length x)) y = splice buf off (x ++ y).
Proof.
  intros Ho Hl. unfold splice at 1.
  assert (Htl : length (take (Z.to_nat off) buf ++ x) = Z.to_nat (off + Z.of_nat (length x)))
    by (rewrite length_app, length_take; lia).
  unfold splice. rewrite (app_assoc (take _ buf)). rewrite take_app_length' by done.
  rewrite drop_app_ge by lia. rewrite drop_drop, Htl, length_app, <-!app_assoc. do 4 f_equal. lia.
Qed.

Lemma read_loop_run fuel s fd h i f blocks content ab buf size r : bd_inv (dev s) → part_ok (cur_part s) →
  file_at s h i blocks content → load (file_table s) fd = Ret f → 0 ≤ fd_pos f → 0 ≤ r ≤ size →
  fd_pos f + (size - r) ≤ i_size i → size ≤ Z.of_nat (length buf) →
  (∀ k, fd_pos f / 512 ≤ Z.of_nat k → 512 * Z.of_nat k < fd_pos f + (size - r) → ab !! k = Some (slot blocks k)) →
  (1 ≤ fuel)%nat → (r < size → fd_pos f mod 512 + (size - r) ≤ 512 * (Z.of_nat fuel - 1)) →
  ∃ d', read_loop fuel fd ab true buf size r s =
      Ret (splice buf r (slice content (fd_pos f) (size - r)),
        with_files (<[Z.to_nat fd := File (fd_pos f + (size - r)) (fd_flag f) (fd_inode f)]> (file_table s)) (with_dev d' s)) ∧
    same_bytes (dev s) d'.
Proof.
  revert s f buf r. induction fuel as [|fuel IH]; intros s f buf r Hd Hp Hfa Hf Hpos Hr Hfit Hbuf Hab Hfuel Hleft; [lia|].
  pose proof (io_size _ (fa_ok _ _ _ _ _ Hfa)) as Hsz. unfold is_u32 in Hsz.
  pose proof (fa_size _ _ _ _ _ Hfa) as Hcap. pose proof (fa_max _ _ _ _ _ Hfa) as Hmax.
  cbn [read_loop]. destruct (Z.ltb_spec r size) as [Hlt|Hge].
  2: { assert (r = size) as -> by lia. exists (dev s). rewrite Z.sub_diag, Z.add_0_r. split; [|by apply same_bytes_refl].
    unfold slice. cbn. rewrite splice_nil. do 2 f_equal. apply load_Ret in Hf as [_ Hf].
    rewrite list_insert_id by (rewrite Hf; by destruct f). by destruct s. }
  set (c := Z.min (size - r) (512 - fd_pos f mod 512)).
  assert (Hc : 1 ≤ c ∧ fd_pos f mod 512 + c ≤ 512 ∧ r + c ≤ size) by (unfold c; zlia).
  destruct (lookup_lt_is_Some_2 blocks (Z.to_nat (fd_pos f / 512))) as [b Hb]; [zlia|].
  destruct (taken_range (cur_part s) b Hp) as (Hb0 & Hb1 & _).
  { apply (fa_taken _ _ _ _ _ Hfa). unfold used. apply elem_of_app. left. by eapply list_elem_of_lookup_2. }
  unfold get_file. rewrite bind_assoc, bind_gets, Hf, bind_lift. unfold BLOCK_SIZE, SECTOR_SIZE. fold c.
  assert (Hload : load ab (fd_pos f / 512) = Ret b).
  { apply load_Ret. split; [zlia|]. rewrite Hab; [by rewrite (slot_lookup _ _ _ Hb)|zlia|zlia]. }
  rewrite Hload, bind_lift, bind_ASSERT_true.
  destruct (disk_read_run s b (replicate 512 0) 1) as (d1 & Hr1 & Hs1); [done|lia..|done|].
  rewrite (M_bind_Ret _ _ _ _ _ Hr1), drop_ge, app_nil_r by done. change (512 * 1) with 512.
  rewrite get_bytes_eq by (rewrite ?dbytes_length; zlia). rewrite bind_lift, dbytes_slice by zlia.
  assert (Hdata : dbytes (dev s) (512 * b + fd_pos f mod 512) c = slice content (fd_pos f) c).
  { rewrite (fa_content _ _ _ _ _ Hfa), fbytes_slice by lia. symmetry. apply fbytes_sector; done || lia. }
  rewrite Hdata. assert (Hcl : Z.of_nat (length (slice content (fd_pos f) c)) = c).
  { rewrite <-Hdata, dbytes_length. lia. }
  rewrite put_bytes_eq by lia. rewrite bind_lift.
  erewrite M_bind_Ret by (apply set_pos_run; exact Hf). rewrite u32_id by zlia.
  match goal with |- context [read_loop fuel fd ab true ?b2 size (r + c) ?st] => set (s2 := st); set (buf2 := b2) end.
  assert (Hfa2 : file_at s2 h i blocks content).
  { eapply (file_at_frame (λ _, False)); [exact Hfa|apply Hfa|by apply framed_same|tauto|done]. }
  destruct (IH s2 (File (fd_pos f + c) (fd_flag f) (fd_inode f)) buf2 (r + c)) as (d' & Hr2 & Hs2);
    cbn [fd_pos]; try done; try lia.
  { apply Hs1. }
  { cbn. by eapply load_insert. }
  { unfold buf2. rewrite splice_length; lia. }
  { intros k Hk1 Hk2. apply Hab; zlia. }
  { zlia. }
  { unfold c in *. zlia. }
  exists d'. split; [|eapply same_bytes_trans; [exact Hs1|exact Hs2]].
  rewrite Hr2. cbn. rewrite list_insert_insert_eq.
  replace (fd_pos f + c + (size - (r + c))) with (fd_pos f + (size - r)) by lia. do 2 f_equal.
  unfold buf2.
  pose proof (splice_splice buf r (slice content (fd_pos f) c) (slice content (fd_pos f + c) (size - (r + c)))) as Hss.
  rewrite Hcl in Hss. rewrite Hss; [|lia|].
  - f_equal. rewrite <-slice_app by lia. f_equal. lia.
  - rewrite slice_length; rewrite ?(fa_content _ _ _ _ _ Hfa), ?fbytes_length; lia.
Qed.

Lemma splice_0 (buf x : list Z) : splice buf 0 x = x ++ drop (length x) buf.
Proof. done. Qed.

Lemma file_read_run s fd h i f blocks content buf count : bd_inv (dev s) → part_ok (cur_part s) →
  file_at s h i blocks content → file_full i blocks → load (file_table s) fd = Ret f → fd_inode f = h →
  fs_mem s = [] → 0 ≤ fd_pos f ≤ i_size i → 0 ≤ count ≤ Z.of_nat (length buf) →
  fd_pos f + count < 4294967296 →
  let n := Z.min count (i_size i - fd_pos f) in
  fd_pos f + n < 71168 →
  if (0 <? count) && (n =? 0) then file_read fd buf count s = Ret ((buf, -1), s)
  else ∃ d', file_read fd buf count s =
      Ret ((slice content (fd_pos f) n ++ drop (Z.to_nat n) buf, n),
        with_files (<[Z.to_nat fd := File (fd_pos f + n) (fd_flag f) (fd_inode f)]> (file_table s)) (with_dev d' s)) ∧
    same_bytes (dev s) d'.
Proof.
  intros Hd Hp Hfa Hfull Hf Hfh Hm Hpos Hc Hov n Hn. pose proof (io_size _ (fa_ok _ _ _ _ _ Hfa)) as Hsz.
  unfold is_u32 in Hsz. unfold file_read, get_file. rewrite bind_assoc, bind_gets, Hf, bind_lift, Hfh.
  rewrite (M_bind_Ret _ _ _ _ _ (get_inode_run s h i (fa_inode _ _ _ _ _ Hfa))).
  rewrite (u32_id (fd_pos f + count)) by zlia. rewrite (u32_id (i_size i - fd_pos f)) by zlia.
  assert (Hsize : (if i_size i <? fd_pos f + count then i_size i - fd_pos f else count) = n)
    by (unfold n; destruct (Z.ltb_spec (i_size i) (fd_pos f + count)); lia). rewrite Hsize.
  assert (Hcond : (i_size i <? fd_pos f + count) && (n =? 0) = (0 <? count) && (n =? 0)).
  { destruct (Z.eqb_spec n 0); [|by rewrite !andb_false_r]. rewrite !andb_true_r. unfold n in *.
    destruct (Z.ltb_spec (i_size i) (fd_pos f + count)), (Z.ltb_spec 0 count); lia || done. }
  rewrite Hcond. destruct ((0 <? count) && (n =? 0)) eqn:Hstop; [done|]. cbv iota.
  rewrite (M_bind_Ret _ _ _ _ _ (mem_ok_run s Hm)), (M_bind_Ret _ _ _ _ _ (mem_ok_run s Hm)). cbn [negb].
  unfold BLOCK_SIZE, SECTOR_SIZE. rewrite (u32_id (fd_pos f + n)) by zlia.
  rewrite (proj2 (Z.ltb_lt (fd_pos f / 512) 139)), (proj2 (Z.ltb_lt ((fd_pos f + n) / 512) 139)) by zlia.
  rewrite bind_ASSERT_true.
  destruct (blocks_for_read_run s h i blocks content (fd_pos f / 512) ((fd_pos f + n) / 512)) as (ab & d1 & Hr1 & Hs1 & Hk);
    [done..|zlia|zlia| |].
  { intros He. destruct Hfull as [[-> Hz]|Hlen]; zlia. }
  rewrite (M_bind_Ret _ _ _ _ _ Hr1).
  assert (Hfa1 : file_at (with_dev d1 s) h i blocks content).
  { eapply (file_at_frame (λ _, False)); [exact Hfa|apply Hfa|by apply framed_same|tauto|done]. }
  destruct (read_loop_run (write_fuel n) (with_dev d1 s) fd h i f blocks content ab buf n 0) as (d2 & Hr2 & Hs2);
    try done; try lia.
  { apply Hs1. }
  { intros k Hk1 Hk2. apply Hk. zlia. }
  { unfold write_fuel. lia. }
  { intros _. rewrite Z.sub_0_r. apply write_fuel_ok; zlia. }
  rewrite (M_bind_Ret _ _ _ _ _ Hr2), bind_ASSERT_true, ret_eq, i32_id by zlia. rewrite Z.sub_0_r in *.
  exists d2. split; [|by eapply same_bytes_trans]. rewrite splice_0.
  rewrite slice_length by (rewrite ?(fa_content _ _ _ _ _ Hfa), ?fbytes_length; lia). by rewrite Hfh.
Qed.
End proofs.

(** ** Properties *)

Section properties.
Context {D : Type} {BD : BlockDev D} {BS : BlockDevSpec D}.
Implicit Types s : fs D.

(** C18: [file_write] appends the bytes to the file, allocating the blocks it
    needs, in every case of the block list (direct, first indirect, more
    indirect); the inode and its block table on disk describe the new file,
    and every other file keeps its content. The file's inode number is below
    256 and its inode in one sector, as the code's [uint8_t] and its buffer of
    one sector need, and the file stays below 140 blocks. *)
Theorem file_write_correct s fd h i f blocks content buf count :
  bd_inv (dev s) → part_ok (cur_part s) → file_at s h i blocks content → file_full i blocks →
  i_no i < 256 → inode_sects (i_no i) = 1 → load (file_table s) fd = Ret f → fd_inode f = h → fs_mem s = [] →
  0 ≤ count ≤ Z.of_nat (length buf) → i_size i + count < 71680 →
  has_free (block_bitmap (cur_part s)) (Z.to_nat ((i_size i + count) / 512 - i_size i / 512) + 2) →
  ∃ s', file_write fd buf count s = Ret (count, s') ∧
    wrote_file s fd h i f blocks content (take (Z.to_nat count) buf) s'.
Proof. apply file_write_run. Qed.

(** C19: [file_read] fills the buffer with the bytes from the file's position
    on, as many as asked for and left in the file, and moves the position;
    at the end of the file it returns -1 and changes nothing. The read stays
    below block 139, which the code asserts. *)
Theorem file_read_correct s fd h i f blocks content buf count : bd_inv (dev s) → part_ok (cur_part s) →
  file_at s h i blocks content → file_full i blocks → load (file_table s) fd = Ret f → fd_inode f = h →
  fs_mem s = [] → 0 ≤ fd_pos f ≤ i_size i → 0 ≤ count ≤ Z.of_nat (length buf) →
  fd_pos f + count < 4294967296 → fd_pos f + Z.min count (i_size i - fd_pos f) < 71168 →
  let n := Z.min count (i_size i - fd_pos f) in
  if (0 <? count) && (n =? 0) then file_read fd buf count s = Ret ((buf, -1), s)
  else ∃ d', file_read fd buf count s =
      Ret ((slice content (fd_pos f) n ++ drop (Z.to_nat n) buf, n),
        with_files (<[Z.to_nat fd := File (fd_pos f + n) (fd_flag f) (fd_inode f)]> (file_table s)) (with_dev d' s)) ∧
    same_bytes (dev s) d'.
Proof. intros. by eapply file_read_run. Qed.

(** What [file_write] appended, [file_read] reads back from the old end of
    the file. *)
Theorem file_write_read s fd h i f blocks content buf buf' count :
  bd_inv (dev s) → part_ok (cur_part s) → file_at s h i blocks content → file_full i blocks →
  i_no i < 256 → inode_sects (i_no i) = 1 → load (file_table s) fd = Ret f → fd_inode f = h → fs_mem s = [] →
  0 < count → Z.of_nat (length buf) = count → length buf' = length buf → i_size i + count < 71168 →
  has_free (block_bitmap (cur_part s)) (Z.to_nat ((i_size i + count) / 512 - i_size i / 512) + 2) →
  ∃ s1 s2, file_write fd buf count s = Ret (count, s1) ∧
    file_read fd buf' count (with_files (<[Z.to_nat fd := File (i_size i) (fd_flag f) h]> (file_table s1)) s1) =
      Ret ((buf, count), s2).
Proof.
  intros Hd Hp Hfa Hfull Hno Hsect Hf Hfh Hm Hc Hl Hl' Hmax Hfree.
  destruct (file_write_run s fd h i f blocks content buf count) as (s1 & Hr & []); try done; [lia|lia|].
  destruct wf_file0 as (i' & blocks' & Hfa' & Hfull' & _ & Hsize & _).
  rewrite length_take in *. pose proof (io_size _ (fa_ok _ _ _ _ _ Hfa)) as Hsz. unfold is_u32 in Hsz.
  set (s1' := with_files (<[Z.to_nat fd := File (i_size i) (fd_flag f) h]> (file_table s1)) s1).
  assert (Hlen : Z.of_nat (length content) = i_size i)
    by (rewrite (fa_content _ _ _ _ _ Hfa), fbytes_length; lia).
  pose proof (file_read_run s1' fd h i' (File (i_size i) (fd_flag f) h) blocks' (content ++ take (Z.to_nat count) buf)
    buf' count) as Hread. cbn [fd_pos] in Hread.
  replace (Z.min count (i_size i' - i_size i)) with count in Hread by lia.
  replace ((0 <? count) && (count =? 0)) with false in Hread
    by (destruct (Z.eqb_spec count 0); [lia|by rewrite andb_false_r]).
  destruct Hread as (d' & Hr' & _); try done; try lia.
  - eapply file_at_same; [..|exact Hfa']; done.
  - cbn. by eapply load_insert.
  - cbn. congruence.
  - exists s1. eexists. split; [exact Hr|]. unfold s1' in Hr'. rewrite Hr'. do 3 f_equal. unfold slice.
    rewrite drop_app_length' by lia. rewrite drop_ge, app_nil_r by lia.
    rewrite take_take. apply take_ge. lia.
Qed.
End properties.

(** ** Examples *)

(** A file of 600 bytes in two blocks, open as file 3. *)
Definition ex_bits : list Z := 1 :: 0 :: 0 :: 0 :: 96 :: replicate 2043 0.
Definition ex_file_fs (pos : Z) : fs ram :=
  Fs (λ x, replicate 512 (if x =? 2700 then 65 else 66))
    (part_blocks (Bitmap 2048 ex_bits) (ex_part [9])) {[9 := ex_inode]} 100
    (replicate 3 (File 0 0 0) ++ File pos 2 9 :: replicate 28 (File 0 0 0))
    [-1; -1; -1; 3; -1; -1; -1; -1] [] ∅ (Session 0 [] []).
Definition ex_content : list Z := replicate 512 65 ++ replicate 88 66.

Lemma ex_file_part pos : part_ok (cur_part (ex_file_fs pos)).
Proof.
  destruct (ex_part_ok [9]). split; try done.
  - cbn [cur_part ex_file_fs part_blocks block_bitmap btmp_bytes_len bits ex_part sb block_bitmap_sects].
    assert (Hl : length ex_bits = 2048%nat) by (by vm_compute).
    rewrite Hl. split_and!; [|lia|lia]. split; cbn [btmp_bytes_len bits]; [lia|rewrite Hl; lia|].
    do 5 (constructor; [zlia|]). apply Forall_replicate. zlia.
  - cbn. intros i Hi _. unfold disk_end. lia.
Qed.

Lemma ex_file_at pos : file_at (ex_file_fs pos) 9 ex_inode [2700; 2701] ex_content.
Proof.
  split.
  - reflexivity.
  - exact ex_inode_ok.
  - cbn. lia.
  - intros k Hk. do 12 (destruct k as [|k]; [reflexivity|]). lia.
  - reflexivity.
  - change (used ex_inode [2700; 2701]) with [2700; 2701].
    apply NoDup_cons. split; [by intros H%list_elem_of_singleton|apply NoDup_singleton].
  - change (used ex_inode [2700; 2701]) with [2700; 2701]. intros b Hb.
    apply elem_of_cons in Hb as [->| ->%list_elem_of_singleton]; (split_and!; [cbn; lia|unfold disk_end; lia|cbn; lia|by vm_compute]).
  - cbn. lia.
  - by vm_compute.
Qed.

Lemma ex_file_free pos : has_free (block_bitmap (cur_part (ex_file_fs pos))) 5.
Proof.
  exists (seqZ 1 5). split; [apply NoDup_seqZ|]. split; [rewrite length_seqZ; lia|].
  intros j Hj%elem_of_seqZ. split; [cbn; lia|].
  assert (j = 1 ∨ j = 2 ∨ j = 3 ∨ j = 4 ∨ j = 5) as [->|[->|[->|[->| ->]]]] by lia; by vm_compute.
Qed.

Lemma ex_file_full : file_full ex_inode [2700; 2701].
Proof. by right. Qed.

Lemma file_write_correct_witness :
  ∃ s' i' blocks', file_write 3 (replicate 700 67) 700 (ex_file_fs 0) = Ret (700, s') ∧
    file_at s' 9 i' blocks' (ex_content ++ replicate 700 67).
Proof.
  destruct (file_write_correct (ex_file_fs 0) 3 9 ex_inode (File 0 2 9) [2700; 2701] ex_content (replicate 700 67) 700)
    as (s' & Hr & [_ _ _ (i' & blocks' & Hfa & _) _ _ _ _ _]);
    [exact I|apply ex_file_part|apply ex_file_at|exact ex_file_full|reflexivity|reflexivity|reflexivity|reflexivity|
     reflexivity|by vm_compute|reflexivity|apply (has_free_le _ 5); [by vm_compute; lia|apply ex_file_free]|].
  exists s', i', blocks'. split; [exact Hr|exact Hfa].
Defined.

Lemma file_read_correct_witness :
  ∃ s', file_read 3 (replicate 6 0) 4 (ex_file_fs 510) = Ret (([65; 65; 66; 66; 0; 0], 4), s').
Proof.
  destruct (file_read_correct (ex_file_fs 510) 3 9 ex_inode (File 510 2 9) [2700; 2701] ex_content (replicate 6 0) 4)
    as (d' & Hr & _);
    [exact I|apply ex_file_part|apply ex_file_at|exact ex_file_full|reflexivity|reflexivity|reflexivity|by vm_compute|
     by vm_compute|reflexivity|reflexivity|].
  eexists. exact Hr.
Defined.

Lemma file_write_read_witness :
  ∃ s1 s2, file_write 3 (replicate 20 7) 20 (ex_file_fs 0) = Ret (20, s1) ∧
    file_read 3 (replicate 20 0) 20 (with_files (<[3%nat := File 600 2 9]> (file_table s1)) s1) =
      Ret ((replicate 20 7, 20), s2).
Proof.
  destruct (file_write_read (ex_file_fs 0) 3 9 ex_inode (File 0 2 9) [2700; 2701] ex_content (replicate 20 7)
    (replicate 20 0) 20) as (s1 & s2 & Hw & Hr);
    [exact I|apply ex_file_part|apply ex_file_at|exact ex_file_full|reflexivity|reflexivity|reflexivity|reflexivity|
     reflexivity|reflexivity|reflexivity|reflexivity|reflexivity|
     apply (has_free_le _ 5); [by vm_compute; lia|apply ex_file_free]|].
  exists s1, s2. split; [exact Hw|exact Hr].
Defined.
