(* ===== verification/Dir.v ===== *)
(** * Directories (fs/dir.c)

    A directory is a file of 24-byte entries that do not cross sectors, 21 in
    a sector; a free entry has type 0. *)

From Stdlib Require Import ZArith Lia.
From stdpp Require Import base numbers list gmap.
From S2P Require Import Prelude Bitmap DList CString Path Disk Inode FileData.

(** ** Data *)

Definition FT_UNKNOWN : Z := 0.
Definition FT_REGULAR : Z := 1.
Definition FT_DIRECTORY : Z := 2.

(** [struct dir_entry]; the name fills 16 bytes. *)
Record dir_entry := DirEntry { filename : list Z; de_i_no : Z; f_type : Z }.
Definition sizeof_dir_entry : Z := 24.

Definition dir_entry_bytes (e : dir_entry) : list Z := filename e ++ le32 (de_i_no e) ++ le32 (f_type e).
Definition dir_entry_of (buf : list Z) (off : Z) : outcome dir_entry :=
  name ← get_bytes buf off 16;
  no ← get_u32 buf (off + 16);
  ft ← get_u32 buf (off + 20);
  Ret (DirEntry name no ft).

(** The memory from the entry's name on, as [strcmp] sees it. *)
Definition name_at (buf : list Z) (off : Z) : list Z := drop (Z.to_nat off) buf.

(** The address of the root directory's [struct dir]. *)
Definition root_dir : Z := 1.

Section ops.
Context {D : Type} {BD : BlockDev D}.
Abbreviation F := (M (fs D)).

Definition get_dir (pdir : Z) : F dir :=
  m ← gets dirs; match m !! pdir with Some d => mret d | None => lift Fault end.
Definition set_dir (pdir : Z) (d : dir) : F unit := modify (λ s, with_dirs (<[pdir := d]> (dirs s)) s).

Definition open_root_dir : F unit :=
  p ← gets cur_part;
  h ← inode_open (root_inode_no (sb p));
  set_dir root_dir (Dir h 0).

Definition dir_open (inode_no : Z) : F Z :=
  ok ← mem_ok;
  h ← inode_open inode_no;
  if negb ok then lift Fault else
  a ← gets next_inode;
  _ ← modify (with_next (a + 1));
  _ ← set_dir a (Dir h 0);
  mret a.

Definition dir_close (pdir : Z) : F unit :=
  if pdir =? root_dir then mret () else
  d ← get_dir pdir;
  _ ← inode_close (d_inode d);
  modify (λ s, with_dirs (delete pdir (dirs s)) s).

(** [cur_part->sb->dir_entry_size], and the entries of a sector. *)
Definition entry_size : F Z := p ← gets cur_part; mret (dir_entry_size (sb p)).
Definition entry_cnt : F Z := size ← entry_size; if size =? 0 then lift Fault else mret (512 / size).

(** All 140 block addresses; the table only when there is one. *)
Definition all_blocks_of (h : Z) : F (list Z) :=
  i ← get_inode h;
  ind ← lift (load (i_sectors i) 12);
  let ab := take 12 (i_sectors i) ++ replicate 128 0 in
  if negb (ind =? 0) then table_read ind ab else mret ab.

(** The entries of the sector [buf] from entry [idx] on. *)
Fixpoint search_sector (n : nat) (buf : list Z) (idx : Z) (name : list Z) : outcome (option Z) :=
  match n with
  | O => Ret None
  | S n =>
    r ← strcmp (name_at buf (24 * idx)) name;
    if r =? 0 then Ret (Some idx) else search_sector n buf (idx + 1) name
  end.

Fixpoint search_blocks (blocks : list Z) (cnt : Z) (buf name : list Z) : F (option dir_entry) :=
  match blocks with
  | [] => mret None
  | b :: blocks =>
    if b =? 0 then search_blocks blocks cnt buf name
    else
      buf ← disk_read b buf 1;
      r ← lift (search_sector (Z.to_nat cnt) buf 0 name);
      match r with
      | Some idx => e ← lift (dir_entry_of buf (24 * idx)); mret (Some e)
      | None => search_blocks blocks cnt (replicate 512 0) name
      end
  end.

(** [None] for false. Without memory for the sector the first read faults;
    [sys_free] asserts that there is some. *)
Definition search_dir_entry (pdir : Z) (name : list Z) : F (option dir_entry) :=
  ok ← mem_ok;
  if negb ok then mret None else
  d ← get_dir pdir;
  all_blocks ← all_blocks_of (d_inode d);
  ob ← kmalloc SECTOR_SIZE;
  cnt ← entry_cnt;
  match ob with
  | None => if existsb (λ b, negb (b =? 0)) all_blocks then lift Fault else PANIC
  | Some buf => search_blocks all_blocks cnt buf name
  end.

Definition create_dir_entry (name : list Z) (inode_no file_type : Z) (de : dir_entry) : outcome dir_entry :=
  n ← strlen name;
  _ ← assert_ (n <=? MAX_FILE_NAME_LEN);
  fn ← put_bytes (filename de) 0 (take (Z.to_nat n) name);
  Ret (DirEntry fn inode_no file_type).

(** A free entry of the sector. *)
Fixpoint free_entry (n : nat) (buf : list Z) (idx : Z) : outcome (option Z) :=
  match n with
  | O => Ret None
  | S n =>
    ft ← get_u32 buf (24 * idx + 20);
    if ft =? FT_UNKNOWN then Ret (Some idx) else free_entry n buf (idx + 1)
  end.

Definition grow_dir (h : Z) : F unit :=
  size ← entry_size; upd_inode h (λ i, inode_sized (u32 (i_size i + size)) i).

(** A block for the entries: [None] when the bitmap has none. *)
Definition new_block : F (option Z) :=
  lba ← block_bitmap_alloc;
  if lba =? -1 then mret None else
  p ← gets cur_part;
  _ ← ASSERT (negb (i32 (lba - data_start_lba (sb p)) =? -1));
  _ ← sync_block lba;
  mret (Some (u32 lba)).

(** The new block becomes block [idx] of the directory. *)
Definition dir_new_block (h idx : Z) (all_blocks : list Z) : F (option (list Z)) :=
  b ← new_block;
  match b with
  | None => mret None
  | Some lba =>
    if idx <? 12 then
      _ ← set_sector h idx lba;
      all_blocks ← lift (store all_blocks idx lba);
      mret (Some all_blocks)
    else if idx =? 12 then
      _ ← set_sector h 12 lba;
      b ← new_block;
      match b with
      | None =>
        p ← gets cur_part;
        _ ← block_bitmap_set (u32 (lba - data_start_lba (sb p))) 0;
        _ ← set_sector h 12 0;
        mret None
      | Some lba2 =>
        all_blocks ← lift (store all_blocks 12 lba2);
        _ ← table_write lba all_blocks;
        mret (Some all_blocks)
      end
    else
      all_blocks ← lift (store all_blocks idx lba);
      ind ← get_sector h 12;
      _ ← table_write ind all_blocks;
      mret (Some all_blocks)
  end.

Fixpoint sync_blocks (n : nat) (h idx cnt : Z) (all_blocks : list Z) (de : dir_entry) (io_buf : list Z)
    : F (bool * list Z) :=
  match n with
  | O => mret (false, io_buf)
  | S n =>
    b ← lift (load all_blocks idx);
    if b =? 0 then
      r ← dir_new_block h idx all_blocks;
      match r with
      | None => mret (false, io_buf)
      | Some all_blocks =>
        size ← entry_size;
        io_buf ← lift (put_bytes io_buf 0 (replicate 512 0));
        io_buf ← lift (put_bytes io_buf 0 (take (Z.to_nat size) (dir_entry_bytes de)));
        b ← lift (load all_blocks idx);
        _ ← disk_write b io_buf 1;
        _ ← grow_dir h;
        mret (true, io_buf)
      end
    else
      io_buf ← disk_read b io_buf 1;
      r ← lift (free_entry (Z.to_nat cnt) io_buf 0);
      match r with
      | Some e =>
        size ← entry_size;
        io_buf ← lift (put_bytes io_buf (24 * e) (take (Z.to_nat size) (dir_entry_bytes de)));
        _ ← disk_write b io_buf 1;
        _ ← grow_dir h;
        mret (true, io_buf)
      | None => sync_blocks n h (idx + 1) cnt all_blocks de io_buf
      end
  end.

(** Only the direct blocks are listed; [io_buf] comes back changed. *)
Definition sync_dir_entry (parent_dir : Z) (de : dir_entry) (io_buf : list Z) : F (bool * list Z) :=
  d ← get_dir parent_dir;
  i ← get_inode (d_inode d);
  size ← entry_size;
  cnt ← entry_cnt;
  _ ← ASSERT (i_size i mod size =? 0);
  sync_blocks 140 (d_inode d) 0 cnt (take 12 (i_sectors i) ++ replicate 128 0) de io_buf.

(** What [delete_dir_entry] finds in a sector: whether it holds ".", how many
    other entries, and the entry of the inode. *)
Fixpoint scan_sector (n : nat) (buf : list Z) (idx inode_no : Z) (first : bool) (cnt : Z) (found : option Z)
    : outcome (bool * Z * option Z) :=
  match n with
  | O => Ret (first, cnt, found)
  | S n =>
    ft ← get_u32 buf (24 * idx + 20);
    if ft =? FT_UNKNOWN then scan_sector n buf (idx + 1) inode_no first cnt found
    else
      dot ← strcmp (name_at buf (24 * idx)) [46; 0];
      if dot =? 0 then scan_sector n buf (idx + 1) inode_no true cnt found
      else
        dotdot ← strcmp (name_at buf (24 * idx)) [46; 46; 0];
        if dotdot =? 0 then scan_sector n buf (idx + 1) inode_no first cnt found
        else
          no ← get_u32 buf (24 * idx + 16);
          if no =? inode_no then
            _ ← assert_ (match found with None => true | Some _ => false end);
            scan_sector n buf (idx + 1) inode_no first (u8 (cnt + 1)) (Some idx)
          else scan_sector n buf (idx + 1) inode_no first (u8 (cnt + 1)) found
  end.

(** The block [idx] of the directory, empty but for the entry, is given up.
    For an indirect block the loop that counts the blocks of the table never
    advances its index. *)
Definition drop_block (h idx b : Z) : F unit :=
  p ← gets cur_part;
  let bit_idx := u32 (b - data_start_lba (sb p)) in
  _ ← block_bitmap_set bit_idx 0;
  _ ← bitmap_sync bit_idx BLOCK_BITMAP;
  if idx <? 12 then set_sector h idx 0 else lift Spin.

Definition shrink_dir (h : Z) (io_buf : list Z) : F (list Z) :=
  i ← get_inode h;
  size ← entry_size;
  _ ← ASSERT (size <=? i_size i);
  _ ← set_inode h (inode_sized (i_size i - size) i);
  io_buf ← lift (put_bytes io_buf 0 (replicate 1024 0));
  inode_sync h io_buf.

Fixpoint delete_blocks (blocks : list Z) (h idx cnt inode_no : Z) (io_buf : list Z) : F (bool * list Z) :=
  match blocks with
  | [] => mret (false, io_buf)
  | b :: blocks =>
    if b =? 0 then delete_blocks blocks h (idx + 1) cnt inode_no io_buf
    else
      io_buf ← lift (put_bytes io_buf 0 (replicate 512 0));
      io_buf ← disk_read b io_buf 1;
      '(first, n, found) ← lift (scan_sector (Z.to_nat cnt) io_buf 0 inode_no false 0 None);
      match found with
      | None => delete_blocks blocks h (idx + 1) cnt inode_no io_buf
      | Some e =>
        _ ← ASSERT (1 <=? n);
        io_buf ← (if (n =? 1) && negb first then _ ← drop_block h idx b; mret io_buf
          else
            size ← entry_size;
            io_buf ← lift (put_bytes io_buf (24 * e) (replicate (Z.to_nat size) 0));
            _ ← disk_write b io_buf 1;
            mret io_buf);
        io_buf ← shrink_dir h io_buf;
        mret (true, io_buf)
      end
  end.

Definition delete_dir_entry (pdir inode_no : Z) (io_buf : list Z) : F (bool * list Z) :=
  d ← get_dir pdir;
  all_blocks ← all_blocks_of (d_inode d);
  cnt ← entry_cnt;
  delete_blocks all_blocks (d_inode d) 0 cnt inode_no io_buf.

(** The entries of a sector, from entry [idx] on, while [cur_pos] entries were
    passed: the new position and the entry that is at [pos]. *)
Fixpoint read_sector (n : nat) (buf : list Z) (idx size pos cur_pos : Z) : outcome (Z * option Z) :=
  match n with
  | O => Ret (cur_pos, None)
  | S n =>
    ft ← get_u32 buf (24 * idx + 20);
    if ft =? FT_UNKNOWN then read_sector n buf (idx + 1) size pos cur_pos
    else if cur_pos <? pos then read_sector n buf (idx + 1) size pos (u32 (cur_pos + size))
    else
      _ ← assert_ (cur_pos =? pos);
      Ret (cur_pos, Some idx)
  end.

Fixpoint read_blocks (blocks : list Z) (pdir size cnt cur_pos : Z) : F (option dir_entry) :=
  match blocks with
  | [] => mret None
  | b :: blocks =>
    d ← get_dir pdir;
    i ← get_inode (d_inode d);
    if i_size i <=? dir_pos d then mret None
    else if b =? 0 then read_blocks blocks pdir size cnt cur_pos
    else
      buf ← disk_read b (replicate 512 0) 1;
      '(cur_pos, r) ← lift (read_sector (Z.to_nat cnt) buf 0 size (dir_pos d) cur_pos);
      match r with
      | None => read_blocks blocks pdir size cnt cur_pos
      | Some idx =>
        _ ← set_dir pdir (Dir (d_inode d) (u32 (dir_pos d + size)));
        e ← lift (dir_entry_of buf (24 * idx));
        mret (Some e)
      end
  end.

(** [None] for NULL; 12 or 140 blocks are looked at. *)
Definition dir_read (pdir : Z) : F (option dir_entry) :=
  d ← get_dir pdir;
  ind ← get_sector (d_inode d) 12;
  all_blocks ← all_blocks_of (d_inode d);
  size ← entry_size;
  cnt ← entry_cnt;
  read_blocks (if ind =? 0 then take 12 all_blocks else all_blocks) pdir size cnt 0.

Definition dir_is_empty (pdir : Z) : F bool :=
  d ← get_dir pdir;
  i ← get_inode (d_inode d);
  size ← entry_size;
  mret (i_size i =? u32 (size * 2)).

Definition dir_remove (parent_dir child_dir : Z) : F Z :=
  d ← get_dir child_dir;
  i ← get_inode (d_inode d);
  _ ← ASSERT (forallb (λ b, b =? 0) (take 12 (drop 1 (i_sectors i))));
  ob ← kmalloc (SECTOR_SIZE * 2);
  match ob with
  | None => mret (-1)
  | Some io_buf =>
    _ ← delete_dir_entry parent_dir (i_no i) io_buf;
    _ ← inode_release (i_no i);
    mret 0
  end.
End ops.
