(* ===== verification/DirSpec.v ===== *)
(** * Directories as lists of entries

    The contents of a directory over its direct blocks and those of its table of
    indirect blocks ([dir_all]), lookup and listing: [search_dir_entry] is a
    search in the list of the slots and [dir_read] returns the used slots one
    after the other. Directories that change have no table ([dir_at]): with one
    [sync_dir_entry] would put a new table in its place, since it does not read
    it, and [delete_dir_entry] does not end when a block of it becomes empty. *)

From Stdlib Require Import ZArith Lia.
From stdpp Require Import base numbers list gmap.
From S2P Require Import Prelude Bitmap DList CString Path Disk Inode FileData Dir.

(** ** Entries in a buffer *)

(** The name is terminated within its 16 bytes; free entries have one too. *)
Record entry_wf (e : dir_entry) : Prop := {
  ew_len : length (filename e) = 16%nat;
  ew_chars : Forall is_u8 (filename e);
  ew_nul : 0 ∈ filename e;
  ew_no : is_u32 (de_i_no e);
  ew_type : is_u32 (f_type e)
}.

(** The name in an entry. *)
Abbreviation name_of e := (c_str (filename e)).

Definition entries_bytes (es : list dir_entry) : list Z := concat (map dir_entry_bytes es).

Lemma dir_entry_bytes_length e : entry_wf e → length (dir_entry_bytes e) = 24%nat.
Proof. intros H. unfold dir_entry_bytes. by rewrite !length_app, !le32_length, (ew_len _ H). Qed.

Lemma entries_bytes_length es : Forall entry_wf es → length (entries_bytes es) = (24 * length es)%nat.
Proof.
  induction 1 as [|e es He Hes IH]; [done|]. unfold entries_bytes in *. cbn [map concat length].
  rewrite length_app, dir_entry_bytes_length, IH by done. lia.
Qed.

Lemma entries_bytes_app es es' : entries_bytes (es ++ es') = entries_bytes es ++ entries_bytes es'.
Proof. unfold entries_bytes. by rewrite List.map_app, concat_app. Qed.

(** The buffer holds the entry at index [k]. *)
Definition holds (buf : list Z) (k : Z) (e : dir_entry) : Prop :=
  ∃ tl, drop (Z.to_nat (24 * k)) buf = dir_entry_bytes e ++ tl.

Lemma holds_entry es rest k e : Forall entry_wf es → es !! k = Some e →
  holds (entries_bytes es ++ rest) (Z.of_nat k) e.
Proof.
  intros Hes Hk. exists (entries_bytes (drop (S k) es) ++ rest).
  assert (Hlt := lookup_lt_Some _ _ _ Hk).
  rewrite <-(take_drop_middle _ _ _ Hk) at 1. rewrite entries_bytes_app, <-app_assoc.
  rewrite drop_app_length'; [unfold entries_bytes; cbn [map concat]; by rewrite <-app_assoc|].
  rewrite entries_bytes_length by by apply Forall_take. rewrite length_take. lia.
Qed.

Section holds.
Context (buf : list Z) (k : Z) (e : dir_entry) (He : entry_wf e) (Hk : 0 ≤ k) (Hh : holds buf k e).

Lemma holds_slice off n : 0 ≤ off → 0 ≤ n → off + n ≤ 24 →
  get_bytes buf (24 * k + off) n = Ret (slice (dir_entry_bytes e) off n).
Proof.
  intros Ho Hn Hle. destruct Hh as (tl & Htl). pose proof (dir_entry_bytes_length e He) as Hl.
  assert (Hlen : 24 * k + 24 ≤ Z.of_nat (length buf)).
  { assert (H : length (drop (Z.to_nat (24 * k)) buf) = length (dir_entry_bytes e ++ tl)) by by rewrite Htl.
    rewrite length_drop, length_app in H. lia. }
  rewrite get_bytes_eq by lia. unfold slice. rewrite Z2Nat.inj_add by lia. rewrite <-drop_drop, Htl.
  rewrite skipn_app, take_app_le; [done|]. rewrite length_drop. lia.
Qed.

Lemma holds_u32 off w : 0 ≤ off → off + 4 ≤ 24 → is_u32 w → slice (dir_entry_bytes e) off 4 = le32 w →
  get_u32 buf (24 * k + off) = Ret w.
Proof.
  intros Ho Hle Hw Hs. unfold get_u32. rewrite holds_slice by lia. cbn [mbind outcome_bind].
  by rewrite Hs, of_le32_le32.
Qed.

Lemma holds_no : get_u32 buf (24 * k + 16) = Ret (de_i_no e).
Proof.
  apply holds_u32; [lia|lia|apply He|]. unfold slice, dir_entry_bytes.
  rewrite drop_app_length' by by rewrite (ew_len _ He). apply take_app_length'. by rewrite le32_length.
Qed.

Lemma holds_type : get_u32 buf (24 * k + 20) = Ret (f_type e).
Proof.
  apply holds_u32; [lia|lia|apply He|]. unfold slice, dir_entry_bytes. rewrite app_assoc.
  rewrite drop_app_length' by (rewrite length_app, le32_length, (ew_len _ He); done). done.
Qed.

Lemma holds_of : dir_entry_of buf (24 * k) = Ret e.
Proof.
  unfold dir_entry_of. rewrite <-(Z.add_0_r (24 * k)) at 1. rewrite holds_slice by lia. cbn [mbind outcome_bind].
  rewrite holds_no, holds_type. cbn [mbind outcome_bind]. f_equal. destruct e as [nm no ft]. cbn. f_equal.
  unfold slice, dir_entry_bytes. cbn [filename]. rewrite drop_0. apply take_app_length'. symmetry. apply (ew_len _ He).
Qed.

Lemma holds_strcmp nm tl : str_ok nm →
  ∃ r, strcmp (name_at buf (24 * k)) (nm ++ 0 :: tl) = Ret r ∧ (r = 0 ↔ name_of e = nm).
Proof.
  intros Hnm. destruct (c_str_split (filename e)) as (ntl & Hn & Hok); [apply He..|].
  destruct Hh as (btl & Hb). unfold name_at. rewrite Hb. unfold dir_entry_bytes.
  set (nme := name_of e) in *. rewrite Hn.
  rewrite <-!app_assoc. cbn [app]. rewrite strcmp_spec by done. eexists. split; [done|]. by apply lex_cmp_eq.
Qed.
End holds.

(** ** The sector of a block *)

Lemma search_sector_run es rest nm tl n idx : Forall entry_wf es → str_ok nm → (idx + n = length es)%nat →
  search_sector n (entries_bytes es ++ rest) (Z.of_nat idx) (nm ++ 0 :: tl) =
    Ret ((λ p, Z.of_nat (idx + p.1)) <$> list_find (λ e, name_of e = nm) (drop idx es)).
Proof.
  intros Hes Hnm. revert idx. induction n as [|n IH]; intros idx Hl.
  { rewrite drop_ge by lia. done. }
  destruct (lookup_lt_is_Some_2 es idx) as [e He]; [lia|]. rewrite (drop_S _ _ _ He). cbn [search_sector list_find].
  assert (Hwf : entry_wf e) by (by eapply Forall_lookup_1).
  destruct (holds_strcmp _ _ e Hwf (holds_entry es rest idx e Hes He) nm tl Hnm) as (r & -> & Hr).
  cbn [mbind outcome_bind]. destruct (decide (name_of e = nm)) as [Heq|Hne].
  - rewrite (proj2 (Z.eqb_eq r 0)) by by apply Hr. cbn. by rewrite Nat.add_0_r.
  - rewrite (proj2 (Z.eqb_neq r 0)) by by rewrite Hr.
    replace (Z.of_nat idx + 1) with (Z.of_nat (S idx)) by lia. rewrite IH by lia. f_equal.
    destruct (list_find _ _) as [[p x]|]; [|done]. cbn. f_equal. lia.
Qed.

Lemma list_find_None_app {A} (P : A → Prop) `{!∀ x, Decision (P x)} (l l' : list A) :
  list_find P l = None → snd <$> list_find P (l ++ l') = snd <$> list_find P l'.
Proof. intros Hn. rewrite list_find_app_r by done. by destruct (list_find P l') as [[]|]. Qed.

Lemma list_find_Some_app {A} (P : A → Prop) `{!∀ x, Decision (P x)} (l l' : list A) k x :
  list_find P l = Some (k, x) → snd <$> list_find P (l ++ l') = Some x.
Proof. intros Hn. by rewrite (list_find_app_l P l l' k x). Qed.

Lemma search_sector_all es rest nm tl : Forall entry_wf es → str_ok nm → length es = 21%nat →
  search_sector (Z.to_nat 21) (entries_bytes es ++ rest) 0 (nm ++ 0 :: tl) =
    Ret ((λ p, Z.of_nat p.1) <$> list_find (λ e, name_of e = nm) es).
Proof. intros Hes Hnm Hl. apply (search_sector_run es rest nm tl 21 0); [done|done|lia]. Qed.

(** ** Directories *)

Section dirs.
Context {D : Type} {BD : BlockDev D} {BS : BlockDevSpec D}.
Implicit Types s : fs D.
Implicit Types ss : list (list dir_entry).

(** A block that is not there has no slots, a block has 21. *)
Definition dir_sector (d : D) (b : Z) (es : list dir_entry) : Prop :=
  if decide (b = 0) then es = [] else
  length es = 21%nat ∧ Forall entry_wf es ∧ ∃ rest, dbytes d (512 * b) 512 = entries_bytes es ++ rest.

Definition is_used (e : dir_entry) : Prop := f_type e ≠ FT_UNKNOWN.
#[global] Instance is_used_dec e : Decision (is_used e) := ltac:(unfold is_used; apply _).
(** The entries in the order of the slots. *)
Definition used_entries ss : list dir_entry := filter is_used (concat ss).

(** The inode [i] in memory at [h] is a directory with the slots [ss] in its
    direct blocks and without a table of indirect ones. *)
Record dir_at s (h : Z) (i : inode) ss : Prop := {
  da_inode : inodes s !! h = Some i;
  da_ok : inode_ok i;
  da_table : i_sectors i !! 12%nat = Some 0;
  da_slots : Forall2 (dir_sector (dev s)) (take 12 (i_sectors i)) ss;
  da_taken b : b ∈ take 12 (i_sectors i) → b ≠ 0 → taken (cur_part s) b;
  da_apart : NoDup (filter (λ b, b ≠ 0) (take 12 (i_sectors i)));
  da_size : i_size i = 24 * Z.of_nat (length (used_entries ss))
}.

Lemma dir_sector_same d d' b es : same_bytes d d' → dir_sector d b es → dir_sector d' b es.
Proof.
  intros Hs. unfold dir_sector. case_decide; [done|]. intros (Hl & Hwf & rest & Hb).
  split_and!; [done..|]. exists rest. by rewrite (dbytes_same d d').
Qed.

Lemma dir_at_same s d' h i ss : same_bytes (dev s) d' → dir_at s h i ss → dir_at (with_dev d' s) h i ss.
Proof.
  intros Hs []. split; try done. eapply Forall2_impl; [done|]. intros. by eapply dir_sector_same.
Qed.

(** The table of indirect blocks: 128 addresses, all 0 when there is none. *)
Definition dir_table s (i : inode) (tb : list Z) : Prop :=
  length tb = 128%nat ∧ Forall is_u32 tb ∧
  if decide (tbl i = 0) then tb = replicate 128 0
  else taken (cur_part s) (tbl i) ∧ dbytes (dev s) (512 * tbl i) 512 = words tb.

(** The inode [i] in memory at [h] is a directory with the slots [ss] in its
    140 blocks, the direct ones and those of the table [tb]. *)
Record dir_all s (h : Z) (i : inode) (tb : list Z) ss : Prop := {
  dw_inode : inodes s !! h = Some i;
  dw_ok : inode_ok i;
  dw_table : dir_table s i tb;
  dw_slots : Forall2 (dir_sector (dev s)) (take 12 (i_sectors i) ++ tb) ss;
  dw_taken b : b ∈ take 12 (i_sectors i) ++ tb → b ≠ 0 → taken (cur_part s) b;
  dw_size : i_size i = 24 * Z.of_nat (length (used_entries ss))
}.

Lemma dir_all_same s d' h i tb ss : same_bytes (dev s) d' → dir_all s h i tb ss → dir_all (with_dev d' s) h i tb ss.
Proof.
  intros Hs [? ? (Hl & Hu & Ht) Hsl ? ?]. split; try done.
  - split; [done|]. split; [done|]. case_decide; [done|]. destruct Ht as [Htk Hb]. split; [done|].
    by rewrite (dbytes_same (dev s) d').
  - eapply Forall2_impl; [exact Hsl|]. intros. by eapply dir_sector_same.
Qed.

(** Blocks that are not there add no slots. *)
Lemma concat_nils n : concat (replicate n (@nil dir_entry)) = [].
Proof. by induction n. Qed.

Lemma dir_sectors_none d n ss : Forall2 (dir_sector d) (replicate n 0) ss → ss = replicate n [].
Proof.
  revert ss. induction n as [|n IH]; intros ss Hss; inversion Hss as [|? es ? ss' Hes Hss']; subst; [done|].
  unfold dir_sector in Hes. rewrite decide_True in Hes by done. cbn. by rewrite Hes, (IH ss').
Qed.

(** A directory without a table has 128 blocks more that are not there. *)
Lemma dir_at_all s h i ss : dir_at s h i ss → dir_all s h i (replicate 128 0) (ss ++ replicate 128 []) ∧
  concat (ss ++ replicate 128 []) = concat ss.
Proof.
  intros Ha. assert (Hc : concat (ss ++ replicate 128 []) = concat ss)
    by by rewrite concat_app, concat_nils, app_nil_r.
  split; [|done]. pose proof Ha as []. split; try done.
  - split; [done|]. split; [apply Forall_replicate; unfold is_u32; lia|].
    unfold tbl. rewrite (list_lookup_total_correct _ _ _ da_table0). by rewrite decide_True.
  - apply Forall2_app; [done|]. apply Forall2_replicate. unfold dir_sector. by rewrite decide_True.
  - intros b [Hb|Hb]%elem_of_app Hne; [auto|]. by apply elem_of_replicate_inv in Hb.
  - unfold used_entries. by rewrite Hc.
Qed.

(** Reading the block of a directory gives its slots. *)
Lemma dir_sector_read s b es buf : bd_inv (dev s) → part_ok (cur_part s) → taken (cur_part s) b →
  dir_sector (dev s) b es → 512 ≤ Z.of_nat (length buf) →
  ∃ rest d', disk_read b buf 1 s = Ret (entries_bytes es ++ rest, with_dev d' s) ∧ same_bytes (dev s) d' ∧
    length es = 21%nat ∧ Forall entry_wf es ∧ Z.of_nat (length (entries_bytes es ++ rest)) = Z.of_nat (length buf) ∧
    dbytes (dev s) (512 * b) 512 = take 512 (entries_bytes es ++ rest).
Proof.
  intros Hd Hp Ht Hb Hl. destruct (taken_range _ _ Hp Ht) as (H0 & H1 & _).
  unfold dir_sector in Hb. rewrite decide_False in Hb by lia. destruct Hb as (Hes & Hwf & rest & Hb).
  destruct (disk_read_run s b buf 1) as (d' & Hr & Hs); [done|lia|lia|done|lia|]. change (512 * 1) with 512 in Hr.
  exists (rest ++ drop 512 buf), d'.
  assert (Hb512 : length (entries_bytes es ++ rest) = 512%nat) by (by rewrite <-Hb, dbytes_length).
  split; [rewrite Hr, Hb, <-app_assoc; do 2 f_equal|]. split_and!; try done.
  - rewrite app_assoc, length_app, Hb512, length_drop. lia.
  - rewrite app_assoc. rewrite take_app_length' by done. done.
Qed.

(** ** Lookup *)

Lemma entry_cnt_run s : dir_entry_size (sb (cur_part s)) = 24 → entry_cnt s = Ret (21, s).
Proof. intros He. unfold entry_cnt, entry_size. by rewrite bind_assoc, bind_gets, bind_ret, He. Qed.

Lemma entry_size_run s : dir_entry_size (sb (cur_part s)) = 24 → entry_size s = Ret (24, s).
Proof. intros He. unfold entry_size. by rewrite bind_gets, He. Qed.

Lemma get_dir_run s p d : dirs s !! p = Some d → get_dir p s = Ret (d, s).
Proof. intros Hp. unfold get_dir. by rewrite bind_gets, Hp. Qed.

Lemma all_blocks_of_run s h i ss : dir_at s h i ss →
  all_blocks_of h s = Ret (take 12 (i_sectors i) ++ replicate 128 0, s).
Proof.
  intros Ha. unfold all_blocks_of. rewrite (M_bind_Ret _ _ _ _ _ (get_inode_run _ _ _ (da_inode _ _ _ _ Ha))).
  assert (load (i_sectors i) 12 = Ret 0) as -> by (apply load_Ret; split; [lia|apply Ha]). by rewrite bind_lift.
Qed.

Lemma search_blocks_run blocks ss s buf nm tl : bd_inv (dev s) → part_ok (cur_part s) →
  Forall2 (dir_sector (dev s)) blocks ss → (∀ b, b ∈ blocks → b ≠ 0 → taken (cur_part s) b) →
  length buf = 512%nat → str_ok nm →
  ∃ d', search_blocks blocks 21 buf (nm ++ 0 :: tl) s =
      Ret (snd <$> list_find (λ e, name_of e = nm) (concat ss), with_dev d' s) ∧ same_bytes (dev s) d'.
Proof.
  intros Hd Hp Hb Ht Hl Hnm. revert s buf Hd Hp Hb Ht Hl. revert ss.
  induction blocks as [|b blocks IH]; intros ss s buf Hd Hp Hb Ht Hl; inversion Hb as [|? es ? ss' Hes Hss]; subst.
  { exists (dev s). split; [by destruct s|by apply same_bytes_refl]. }
  cbn [search_blocks concat]. destruct (Z.eqb_spec b 0) as [->|Hne].
  { unfold dir_sector in Hes. rewrite decide_True in Hes by done. subst es. cbn [app].
    apply IH; try done. intros b' Hb'. apply Ht. by right. }
  destruct (dir_sector_read s b es buf) as (rest & d1 & Hr & Hs1 & H21 & Hwf & _); [done|done|apply Ht; [left|done]|done|lia|].
  rewrite (M_bind_Ret _ _ _ _ _ Hr). rewrite search_sector_all, bind_lift by done.
  destruct (list_find (λ e, name_of e = nm) es) as [[k e]|] eqn:Hf; cbn [fmap option_fmap option_map fst].
  - rewrite (list_find_Some_app _ _ _ _ _ Hf). pose proof (proj1 (list_find_Some _ _ _ _) Hf) as (Hk & _).
    rewrite (holds_of _ _ e); [|by eapply Forall_lookup_1|lia|by apply holds_entry]. rewrite bind_lift.
    exists d1. by split.
  - destruct (IH ss' (with_dev d1 s) (replicate 512 0)) as (d2 & Hr2 & Hs2); try done.
    { apply Hs1. }
    { eapply Forall2_impl; [done|]. intros. by eapply dir_sector_same. }
    { intros b' Hb'. apply Ht. by right. }
    exists d2. rewrite Hr2, list_find_None_app by done. split; [done|]. by eapply same_bytes_trans.
Qed.

(** The table, when there is one, is read from its sector. *)
Lemma all_blocks_run s h i tb ss : bd_inv (dev s) → part_ok (cur_part s) → dir_all s h i tb ss →
  ∃ d', all_blocks_of h s = Ret (take 12 (i_sectors i) ++ tb, with_dev d' s) ∧ same_bytes (dev s) d'.
Proof.
  intros Hd Hp Ha. pose proof (io_len _ (dw_ok _ _ _ _ _ Ha)) as H13. destruct (dw_table _ _ _ _ _ Ha) as (Hl & Hu & Ht).
  unfold all_blocks_of. rewrite (M_bind_Ret _ _ _ _ _ (get_inode_run _ _ _ (dw_inode _ _ _ _ _ Ha))).
  assert (load (i_sectors i) 12 = Ret (tbl i)) as ->.
  { apply load_Ret. split; [lia|]. apply list_lookup_lookup_total_lt. rewrite H13. apply Nat.ltb_lt. reflexivity. }
  rewrite bind_lift. case_decide as H0.
  { rewrite H0, Ht. exists (dev s). split; [by destruct s|by apply same_bytes_refl]. }
  destruct Ht as [Htk Hb]. rewrite (proj2 (Z.eqb_neq _ _) H0). cbn [negb].
  destruct (taken_range _ _ Hp Htk) as (H1 & H2 & _).
  set (ab := take 12 (i_sectors i) ++ replicate 128 0).
  assert (Hw : length (words (drop 12 ab)) = 512%nat).
  { rewrite words_length. unfold ab. rewrite length_drop, length_app, length_take, length_replicate, H13. done. }
  destruct (disk_read_run s (tbl i) (words (drop 12 ab)) 1) as (d' & Hr & Hs); [done|lia|lia|lia|lia|].
  unfold table_read. rewrite (M_bind_Ret _ _ _ _ _ Hr). rewrite drop_ge, app_nil_r by lia.
  change (512 * 1) with 512. rewrite Hb. pose proof (get_words_ok tb (words tb) 0 Hu) as Hg. rewrite Hl in Hg.
  assert (Hwt : length (words tb) = 512%nat) by by rewrite words_length, Hl.
  rewrite Hg; [rewrite bind_lift|lia|lia|unfold slice; change (Z.to_nat 0) with 0%nat; rewrite drop_0; apply take_ge; lia].
  exists d'. split; [|done]. rewrite ret_eq. do 3 f_equal. unfold ab. rewrite take_app_length'; [done|].
  rewrite length_take, H13. done.
Qed.

Lemma search_all_run s p h pos i tb ss nm tl : bd_inv (dev s) → part_ok (cur_part s) →
  dir_entry_size (sb (cur_part s)) = 24 → fs_mem s = [] → dirs s !! p = Some (Dir h pos) → dir_all s h i tb ss →
  str_ok nm →
  ∃ d', search_dir_entry p (nm ++ 0 :: tl) s =
      Ret (snd <$> list_find (λ e, name_of e = nm) (concat ss), with_dev d' s) ∧ same_bytes (dev s) d'.
Proof.
  intros Hd Hp H24 Hm Hdir Ha Hnm. unfold search_dir_entry. rewrite (M_bind_Ret _ _ _ _ _ (mem_ok_run s Hm)).
  cbn [negb]. rewrite (M_bind_Ret _ _ _ _ _ (get_dir_run _ _ _ Hdir)). cbn [d_inode].
  destruct (all_blocks_run s h i tb ss Hd Hp Ha) as (d1 & Hr1 & Hs1). rewrite (M_bind_Ret _ _ _ _ _ Hr1).
  set (s1 := with_dev d1 s) in *. apply (dir_all_same _ _ _ _ _ _ Hs1) in Ha.
  rewrite (M_bind_Ret _ _ _ _ _ (kmalloc_run s1 _ Hm)), (M_bind_Ret _ _ _ _ _ (entry_cnt_run s1 H24)).
  destruct (search_blocks_run (take 12 (i_sectors i) ++ tb) ss s1 (replicate (Z.to_nat SECTOR_SIZE) 0) nm tl)
    as (d2 & Hr2 & Hs2); [apply Hs1|done|apply Ha|apply Ha|by rewrite length_replicate|done|].
  exists d2. split; [exact Hr2|]. by eapply same_bytes_trans.
Qed.

Lemma search_dir_entry_run s p h pos i ss nm tl : bd_inv (dev s) → part_ok (cur_part s) →
  dir_entry_size (sb (cur_part s)) = 24 → fs_mem s = [] → dirs s !! p = Some (Dir h pos) → dir_at s h i ss →
  str_ok nm →
  ∃ d', search_dir_entry p (nm ++ 0 :: tl) s =
      Ret (snd <$> list_find (λ e, name_of e = nm) (concat ss), with_dev d' s) ∧ same_bytes (dev s) d'.
Proof.
  intros Hd Hp H24 Hm Hdir Ha Hnm. destruct (dir_at_all _ _ _ _ Ha) as [Hall <-]. by eapply search_all_run.
Qed.

(** ** Listing *)

Lemma read_sector_run es rest n idx m c : Forall entry_wf es → (idx + n = length es)%nat → (c ≤ m)%nat →
  24 * Z.of_nat m < 4294967272 →
  let u := filter is_used (drop idx es) in
  match u !! (m - c)%nat with
  | Some e => ∃ k, read_sector n (entries_bytes es ++ rest) (Z.of_nat idx) 24 (24 * Z.of_nat m) (24 * Z.of_nat c) =
      Ret (24 * Z.of_nat m, Some (Z.of_nat k)) ∧ es !! k = Some e
  | None => read_sector n (entries_bytes es ++ rest) (Z.of_nat idx) 24 (24 * Z.of_nat m) (24 * Z.of_nat c) =
      Ret (24 * Z.of_nat (c + length u), None)
  end.
Proof.
  intros Hes. revert idx c. induction n as [|n IH]; intros idx c Hl Hc Hm; cbv zeta.
  { rewrite drop_ge by lia. cbn. by rewrite Nat.add_0_r. }
  destruct (lookup_lt_is_Some_2 es idx) as [e He]; [lia|]. rewrite (drop_S _ _ _ He). cbn [read_sector].
  assert (Hwf : entry_wf e) by (by eapply Forall_lookup_1).
  rewrite (holds_type _ _ e); [|done|lia|by apply holds_entry]. cbn [mbind outcome_bind].
  replace (Z.of_nat idx + 1) with (Z.of_nat (S idx)) by lia.
  destruct (Z.eqb_spec (f_type e) FT_UNKNOWN) as [Hu|Hu].
  - rewrite filter_cons_False by (unfold is_used; by intros ?). apply IH; lia.
  - rewrite filter_cons_True by done. destruct (Z.ltb_spec (24 * Z.of_nat c) (24 * Z.of_nat m)) as [Hlt|Hge].
    + replace (m - c)%nat with (S (m - S c)) by lia. cbn [lookup list_lookup length].
      rewrite u32_id by zlia. replace (24 * Z.of_nat c + 24) with (24 * Z.of_nat (S c)) by lia.
      specialize (IH (S idx) (S c) ltac:(lia) ltac:(lia) Hm). cbv zeta in IH.
      destruct (filter is_used (drop (S idx) es) !! (m - S c)%nat); [exact IH|]. rewrite IH. do 3 f_equal. lia.
    + replace (m - c)%nat with 0%nat by lia. cbn [lookup list_lookup]. exists idx.
      replace c with m by lia. rewrite Z.eqb_refl. done.
Qed.

Lemma read_blocks_run blocks ss s p h i m c : bd_inv (dev s) → part_ok (cur_part s) →
  Forall2 (dir_sector (dev s)) blocks ss → (∀ b, b ∈ blocks → b ≠ 0 → taken (cur_part s) b) →
  inodes s !! h = Some i → dirs s !! p = Some (Dir h (24 * Z.of_nat m)) → (c ≤ m)%nat →
  24 * Z.of_nat m < 4294967272 → 24 * Z.of_nat m < i_size i →
  ∃ d', same_bytes (dev s) d' ∧ read_blocks blocks p 24 21 (24 * Z.of_nat c) s =
    match used_entries ss !! (m - c)%nat with
    | Some e => Ret (Some e, with_dirs (<[p := Dir h (24 * Z.of_nat (S m))]> (dirs s)) (with_dev d' s))
    | None => Ret (None, with_dev d' s)
    end.
Proof.
  intros Hd Hp Hb Ht Hi Hdir Hc Hm Hsz. revert s c Hd Hp Hb Ht Hi Hdir Hc. revert ss.
  induction blocks as [|b blocks IH]; intros ss s c Hd Hp Hb Ht Hi Hdir Hc; inversion Hb as [|? es ? ss' Hes Hss]; subst.
  { exists (dev s). split; [by apply same_bytes_refl|]. by destruct s. }
  cbn [read_blocks]. rewrite (M_bind_Ret _ _ _ _ _ (get_dir_run _ _ _ Hdir)). cbn [d_inode dir_pos].
  rewrite (M_bind_Ret _ _ _ _ _ (get_inode_run _ _ _ Hi)), (proj2 (Z.leb_gt _ _) Hsz).
  unfold used_entries. cbn [concat]. rewrite filter_app. destruct (Z.eqb_spec b 0) as [->|Hne].
  { unfold dir_sector in Hes. rewrite decide_True in Hes by done. subst es. cbn [app].
    apply IH; try done. intros b' Hb'. apply Ht. by right. }
  destruct (dir_sector_read s b es (replicate 512 0)) as (rest & d1 & Hr & Hs1 & H21 & Hwf & _);
    [done|done|apply Ht; [left|done]|done|rewrite length_replicate; lia|].
  rewrite (M_bind_Ret _ _ _ _ _ Hr). change (Z.to_nat 21) with 21%nat.
  pose proof (read_sector_run es rest 21 0 m c Hwf ltac:(lia) Hc Hm) as Hrs. cbv zeta in Hrs. rewrite drop_0 in Hrs.
  change (Z.of_nat 0) with 0 in Hrs. destruct (filter is_used es !! (m - c)%nat) as [e|] eqn:He.
  - destruct Hrs as (k & Hrs & Hk). rewrite Hrs, bind_lift. rewrite (lookup_app_l_Some _ _ _ _ He).
    exists d1. split; [done|]. unfold set_dir. rewrite bind_modify, u32_id by zlia.
    rewrite (holds_of _ _ e); [|by eapply Forall_lookup_1|lia|by apply holds_entry]. rewrite bind_lift, ret_eq.
    cbn [dirs with_dev]. do 5 f_equal. lia.
  - rewrite Hrs, bind_lift. apply lookup_ge_None_1 in He. rewrite lookup_app_r by done.
    destruct (IH ss' (with_dev d1 s) (c + length (filter is_used es))%nat) as (d2 & Hs2 & Hr2); try done.
    { apply Hs1. }
    { eapply Forall2_impl; [done|]. intros. by eapply dir_sector_same. }
    { intros b' Hb'. apply Ht. by right. }
    { lia. }
    exists d2. split; [by eapply same_bytes_trans|]. rewrite Hr2. unfold used_entries.
    replace (m - (c + length (filter is_used es)))%nat with (m - c - length (filter is_used es))%nat by lia. done.
Qed.

(** Without a table the blocks behind the twelfth are not looked at. *)
Lemma dir_blocks_read s h i tb ss : dir_all s h i tb ss →
  let blocks := if tbl i =? 0 then take 12 (take 12 (i_sectors i) ++ tb) else take 12 (i_sectors i) ++ tb in
  ∃ ss', Forall2 (dir_sector (dev s)) blocks ss' ∧ used_entries ss' = used_entries ss ∧ blocks ≠ [] ∧
    (∀ b, b ∈ blocks → b ≠ 0 → taken (cur_part s) b).
Proof.
  intros Ha. pose proof (io_len _ (dw_ok _ _ _ _ _ Ha)) as H13. destruct (dw_table _ _ _ _ _ Ha) as (_ & _ & Ht).
  pose proof (dw_slots _ _ _ _ _ Ha) as Hss. pose proof (dw_taken _ _ _ _ _ Ha) as Htk.
  assert (Hl : length (take 12 (i_sectors i)) = 12%nat) by by rewrite length_take, H13.
  assert (Hnil : take 12 (i_sectors i) ≠ []) by (intros Hn; by rewrite Hn in Hl).
  cbv zeta. destruct (Z.eqb_spec (tbl i) 0) as [H0|H0].
  - rewrite decide_True in Ht by done. subst tb. rewrite take_app_length' by done.
    apply Forall2_app_inv_l in Hss as (ss1 & ss2 & H1 & H2 & ->). apply dir_sectors_none in H2 as ->.
    exists ss1. split; [done|]. split; [|split; [done|]].
    + unfold used_entries. by rewrite concat_app, concat_nils, app_nil_r.
    + intros b Hb. apply Htk, elem_of_app. by left.
  - exists ss. split; [done|]. split; [done|]. split; [|done]. by destruct (take 12 (i_sectors i)).
Qed.

Lemma dir_read_run s p h i tb ss m : bd_inv (dev s) → part_ok (cur_part s) →
  dir_entry_size (sb (cur_part s)) = 24 → dirs s !! p = Some (Dir h (24 * Z.of_nat m)) → dir_all s h i tb ss →
  ∃ d', same_bytes (dev s) d' ∧ dir_read p s =
    match used_entries ss !! m with
    | Some e => Ret (Some e, with_dirs (<[p := Dir h (24 * Z.of_nat (S m))]> (dirs s)) (with_dev d' s))
    | None => Ret (None, with_dev d' s)
    end.
Proof.
  intros Hd Hp H24 Hdir Ha. unfold dir_read. rewrite (M_bind_Ret _ _ _ _ _ (get_dir_run _ _ _ Hdir)).
  pose proof (dw_inode _ _ _ _ _ Ha) as Hi. pose proof (dw_size _ _ _ _ _ Ha) as Hsz.
  pose proof (io_len _ (dw_ok _ _ _ _ _ Ha)) as H13. pose proof (io_size _ (dw_ok _ _ _ _ _ Ha)) as Hu32.
  assert (Htb : i_sectors i !! 12%nat = Some (tbl i)).
  { apply list_lookup_lookup_total_lt. rewrite H13. apply Nat.ltb_lt. reflexivity. }
  cbn [d_inode]. rewrite (M_bind_Ret _ _ _ _ _ (get_sector_run _ _ _ 12 _ Hi ltac:(lia) Htb)).
  destruct (all_blocks_run s h i tb ss Hd Hp Ha) as (d1 & Hr1 & Hs1). rewrite (M_bind_Ret _ _ _ _ _ Hr1).
  set (s1 := with_dev d1 s) in *. apply (dir_all_same _ _ _ _ _ _ Hs1) in Ha. fold s1 in Ha.
  rewrite (M_bind_Ret _ _ _ _ _ (entry_size_run s1 H24)), (M_bind_Ret _ _ _ _ _ (entry_cnt_run s1 H24)).
  destruct (dir_blocks_read s1 h i tb ss Ha) as (ss' & Hss & Hu & Hne & Htk). cbv zeta in Hss, Hne, Htk.
  rewrite <-Hu in *.
  set (blocks := if tbl i =? 0 then _ else _) in *.
  destruct (Z.ltb_spec (24 * Z.of_nat m) (i_size i)) as [Hlt|Hge].
  - destruct (read_blocks_run blocks ss' s1 p h i m 0) as (d2 & Hs2 & Hr2); [apply Hs1|done..|lia|unfold is_u32 in *; lia|done|].
    exists d2. split; [by eapply same_bytes_trans|]. rewrite Nat.sub_0_r in Hr2. exact Hr2.
  - exists d1. split; [done|]. rewrite lookup_ge_None_2 by lia.
    destruct blocks as [|b blocks]; [done|]. cbn [read_blocks].
    rewrite (M_bind_Ret _ _ _ _ _ (get_dir_run s1 _ _ Hdir)). cbn [d_inode dir_pos].
    rewrite (M_bind_Ret _ _ _ _ _ (get_inode_run s1 _ _ Hi)), (proj2 (Z.leb_le _ _) Hge). done.
Qed.

(** Reading until NULL comes back. *)
Fixpoint read_entries (fuel : nat) (p : Z) : M (fs D) (list dir_entry) :=
  match fuel with
  | O => lift Spin
  | S fuel =>
    e ← dir_read p;
    match e with
    | None => mret []
    | Some e => l ← read_entries fuel p; mret (e :: l)
    end
  end.

Lemma read_entries_run fuel s p h i tb ss m : bd_inv (dev s) → part_ok (cur_part s) →
  dir_entry_size (sb (cur_part s)) = 24 → dirs s !! p = Some (Dir h (24 * Z.of_nat m)) → dir_all s h i tb ss →
  (m ≤ length (used_entries ss) < m + fuel)%nat →
  ∃ s', read_entries fuel p s = Ret (drop m (used_entries ss), s') ∧ same_bytes (dev s) (dev s').
Proof.
  revert s m. induction fuel as [|fuel IH]; intros s m Hd Hp H24 Hdir Ha Hf; [lia|]. cbn [read_entries].
  destruct (dir_read_run s p h i tb ss m) as (d' & Hs & Hr); [done..|].
  destruct (used_entries ss !! m) as [e|] eqn:He.
  - rewrite (M_bind_Ret _ _ _ _ _ Hr). set (s1 := with_dirs _ _) in *.
    assert (Ha1 : dir_all s1 h i tb ss) by (by apply (dir_all_same s d') in Ha as []).
    destruct (IH s1 (S m)) as (s2 & Hr2 & Hs2); [apply Hs|done|done| |exact Ha1|apply lookup_lt_Some in He; lia|].
    { cbn. apply lookup_insert_eq. }
    exists s2. rewrite (M_bind_Ret _ _ _ _ _ Hr2), ret_eq, (drop_S _ _ _ He). split; [done|].
    by eapply same_bytes_trans.
  - rewrite (M_bind_Ret _ _ _ _ _ Hr), ret_eq. apply lookup_ge_None_1 in He. rewrite drop_ge by done.
    eexists. by split.
Qed.
End dirs.
