(* ===== verification/DirUpdate.v ===== *)
(** * Adding and deleting directory entries

    [sync_dir_entry] puts an entry into the first free slot, [place] and
    [first_free]; what else the directory holds stays, and no other block of the
    disk changes. *)

From Stdlib Require Import ZArith Lia.
From stdpp Require Import base numbers list gmap.
From S2P Require Import Prelude Bitmap DList CString Path Disk Inode FileData Dir DirSpec.

(** ** Placing an entry *)

Definition null_entry : dir_entry := DirEntry (replicate 16 0) 0 0.

Fixpoint place (e : dir_entry) (ss : list (list dir_entry)) : list (list dir_entry) :=
  match ss with
  | [] => []
  | [] :: ss => (e :: replicate 20 null_entry) :: ss
  | es :: ss =>
    match list_find (λ x, ¬ is_used x) es with
    | Some (k, _) => <[k := e]> es :: ss
    | None => es :: place e ss
    end
  end.

(** There is a free slot, or a direct block that is not allocated. *)
Definition has_room (ss : list (list dir_entry)) : Prop :=
  Exists (λ es, es = [] ∨ Exists (λ x, ¬ is_used x) es) ss.

Lemma place_full e es ss : es ≠ [] → list_find (λ x, ¬ is_used x) es = None → place e (es :: ss) = es :: place e ss.
Proof. intros Hne Hf. cbn [place]. rewrite Hf. by destruct es. Qed.
Lemma place_slot e es ss k x : list_find (λ x, ¬ is_used x) es = Some (k, x) → place e (es :: ss) = <[k := e]> es :: ss.
Proof. intros Hf. cbn [place]. rewrite Hf. by destruct es. Qed.

(** [ss'] is [ss] with [e] in the first free slot: the blocks before are there
    and full; the block is new, or [e] follows the used entries at its front. *)
Definition first_free (e : dir_entry) (ss ss' : list (list dir_entry)) : Prop :=
  ∃ ss1 es es' ss2, ss = ss1 ++ es :: ss2 ∧ ss' = ss1 ++ es' :: ss2 ∧
    Forall (λ b, b ≠ [] ∧ Forall is_used b) ss1 ∧
    (es = [] ∧ es' = e :: replicate 20 null_entry ∨
     ∃ k x, es !! k = Some x ∧ ¬ is_used x ∧ Forall is_used (take k es) ∧ es' = <[k := e]> es).

Lemma none_unused es : list_find (λ x, ¬ is_used x) es = None → Forall is_used es.
Proof. intros Hf%list_find_None. eapply Forall_impl; [exact Hf|]. intros x Hx. by apply dec_stable. Qed.

Lemma place_first e ss : has_room ss → first_free e ss (place e ss).
Proof.
  induction ss as [|es ss IH]; [by intros []%Exists_nil|]. intros Hr.
  destruct (decide (es = [])) as [->|Hne].
  { exists [], [], (e :: replicate 20 null_entry), ss. split_and!; try done. by left. }
  destruct (list_find (λ x, ¬ is_used x) es) as [[k x]|] eqn:Hf.
  - exists [], es, (<[k := e]> es), ss. rewrite (place_slot _ _ _ _ _ Hf). split_and!; try done. right.
    apply list_find_Some in Hf as (Hk & Hx & Hb). exists k, x. split_and!; try done.
    apply Forall_lookup. intros j y Hj. assert (j < k)%nat by (apply lookup_lt_Some in Hj; rewrite length_take in Hj; lia).
    rewrite lookup_take_lt in Hj by done. apply dec_stable. by eapply Hb.
  - rewrite place_full by done. apply none_unused in Hf. apply Exists_cons in Hr as [[|Hr]|Hr]; [done| |].
    { apply Exists_exists in Hr as (x & Hin & Hx). by destruct Hx; apply (proj1 (Forall_forall _ _) Hf). }
    destruct (IH Hr) as (ss1 & es1 & es' & ss2 & -> & -> & Hall & Hc). exists (es :: ss1), es1, es', ss2.
    split_and!; try done. by constructor.
Qed.

Lemma null_unused : ¬ is_used null_entry.
Proof. unfold is_used. by intros []. Qed.

Lemma filter_unused_nil l : (∀ x, x ∈ l → ¬ is_used x) → filter is_used l = [].
Proof. apply list_filter_none. Qed.

(** Filling a free slot adds one used entry. *)
Lemma used_insert es k x e : es !! k = Some x → ¬ is_used x → is_used e →
  filter is_used (<[k := e]> es) ≡ₚ e :: filter is_used es.
Proof.
  intros Hk Hx He. rewrite insert_take_drop by (by eapply lookup_lt_Some).
  rewrite <-(take_drop_middle _ _ _ Hk) at 3. rewrite !filter_app, filter_cons_True, filter_cons_False by done.
  by rewrite Permutation_middle.
Qed.

Lemma used_place e ss : is_used e → has_room ss → used_entries (place e ss) ≡ₚ e :: used_entries ss.
Proof.
  intros He. unfold used_entries. induction ss as [|es ss IH]; [by intros []%Exists_nil|]. intros Hr.
  destruct (decide (es = [])) as [->|Hne].
  - cbn [place concat]. rewrite filter_app, filter_cons_True by done.
    rewrite (filter_unused_nil (replicate 20 null_entry)) by (intros x ->%elem_of_replicate_inv; apply null_unused). done.
  - destruct (list_find (λ x, ¬ is_used x) es) as [[k x]|] eqn:Hf.
    + rewrite (place_slot _ _ _ _ _ Hf). apply list_find_Some in Hf as (Hk & Hx & _). cbn [concat].
      rewrite !filter_app. by rewrite used_insert by done.
    + rewrite place_full by done. cbn [concat]. rewrite !filter_app, IH.
      * by rewrite Permutation_middle.
      * apply Exists_cons in Hr as [[|Hr]|Hr]; [done| |done]. apply Exists_exists in Hr as (x & Hin & Hx).
        apply list_elem_of_lookup in Hin as (k & Hk). apply list_find_None in Hf.
        by destruct (proj1 (Forall_lookup _ _) Hf k x Hk).
Qed.

Lemma elem_of_insert (l : list dir_entry) k x e : x ∈ <[k := e]> l → x = e ∨ x ∈ l.
Proof.
  intros (j & Hj)%list_elem_of_lookup. apply list_lookup_insert_Some in Hj as [(_ & <- & _)|(_ & Hj)]; [by left|].
  right. by eapply list_elem_of_lookup_2.
Qed.

Lemma elem_of_place e ss x : x ∈ concat (place e ss) → x = e ∨ x = null_entry ∨ x ∈ concat ss.
Proof.
  induction ss as [|es ss IH]; [by intros []%elem_of_nil|]. destruct (decide (es = [])) as [->|Hne].
  - cbn [place concat]. intros [[->|Hx%elem_of_replicate_inv]%elem_of_cons|Hx]%elem_of_app; auto.
  - destruct (list_find (λ x, ¬ is_used x) es) as [[k y]|] eqn:Hf.
    + rewrite (place_slot _ _ _ _ _ Hf). cbn [concat]. rewrite !elem_of_app.
      intros [Hx|Hx]; [|auto]. apply elem_of_insert in Hx as [->|Hx]; auto.
    + rewrite place_full by done. cbn [concat]. rewrite !elem_of_app. intros [Hx|Hx]; [auto|].
      destruct (IH Hx) as [->|[->|?]]; auto.
Qed.

Lemma place_elem e ss : has_room ss → e ∈ concat (place e ss).
Proof.
  induction ss as [|es ss IH]; [by intros []%Exists_nil|]. intros Hr.
  destruct (decide (es = [])) as [->|Hne]; [by left|].
  destruct (list_find (λ x, ¬ is_used x) es) as [[k y]|] eqn:Hf.
  - rewrite (place_slot _ _ _ _ _ Hf). cbn [concat]. apply elem_of_app. left. apply list_elem_of_insert.
    apply list_find_Some in Hf as (Hk & _). by eapply lookup_lt_Some.
  - rewrite place_full by done. cbn [concat]. apply elem_of_app. right. apply IH.
    apply Exists_cons in Hr as [[|Hr]|Hr]; [done| |done]. apply Exists_exists in Hr as (x & Hin & Hx).
    apply list_find_None in Hf. by destruct (proj1 (Forall_forall _ _) Hf x Hin).
Qed.

(** ** Bytes *)

Lemma null_wf : entry_wf null_entry.
Proof.
  split; cbn; [done| |left|unfold is_u32; lia|unfold is_u32; lia].
  repeat constructor; unfold is_u8; lia.
Qed.

Lemma entry_splice es rest k e : Forall entry_wf es → entry_wf e → (k < length es)%nat →
  splice (entries_bytes es ++ rest) (24 * Z.of_nat k) (dir_entry_bytes e) = entries_bytes (<[k := e]> es) ++ rest.
Proof.
  intros Hes He Hk. destruct (lookup_lt_is_Some_2 es k Hk) as [x Hx].
  pose proof (take_drop_middle _ _ _ Hx) as Hmid. rewrite insert_take_drop by done.
  rewrite <-Hmid at 1. rewrite !entries_bytes_app. unfold splice. rewrite dir_entry_bytes_length by done.
  assert (Hl : length (entries_bytes (take k es)) = Z.to_nat (24 * Z.of_nat k)).
  { rewrite entries_bytes_length by by apply Forall_take. rewrite length_take. lia. }
  assert (Hwx : entry_wf x) by (by eapply Forall_lookup_1). pose proof (dir_entry_bytes_length x Hwx) as Hlx.
  change (entries_bytes (x :: drop (S k) es)) with (dir_entry_bytes x ++ entries_bytes (drop (S k) es)).
  change (entries_bytes (e :: drop (S k) es)) with (dir_entry_bytes e ++ entries_bytes (drop (S k) es)).
  rewrite <-!app_assoc. rewrite take_app_length' by done. do 2 f_equal.
  rewrite <-drop_drop. rewrite (drop_app_length' (entries_bytes (take k es))) by done.
  by rewrite drop_app_length'.
Qed.

Lemma entry_new_sector e io : entry_wf e → (512 ≤ length io)%nat →
  splice (splice io 0 (replicate 512 0)) 0 (dir_entry_bytes e) =
    entries_bytes (e :: replicate 20 null_entry) ++ replicate 8 0 ++ drop 512 io.
Proof.
  intros He Hl. rewrite !splice_0, dir_entry_bytes_length, length_replicate by done.
  change (entries_bytes (e :: replicate 20 null_entry)) with (dir_entry_bytes e ++ entries_bytes (replicate 20 null_entry)).
  assert (entries_bytes (replicate 20 null_entry) = replicate 480 0) as -> by by vm_compute.
  rewrite drop_app_le by (rewrite length_replicate; lia). rewrite drop_replicate. by rewrite <-app_assoc.
Qed.

(** ** A changed sector of a directory *)

Section update.
Context {D : Type} {BD : BlockDev D} {BS : BlockDevSpec D}.
Implicit Types s : fs D.
Implicit Types ss : list (list dir_entry).

Definition resized (i : inode) (n : Z) (secs : list Z) : inode := inode_sized n (inode_sectored secs i).

Lemma dir_sector_ext (d d' : D) b es : (∀ k, in_sector b k → dbyte d' k = dbyte d k) →
  dir_sector d b es → dir_sector d' b es.
Proof.
  intros Hd. unfold dir_sector. case_decide; [done|]. intros (Hl & Hwf & rest & Hb). split_and!; [done..|].
  exists rest. rewrite <-Hb. apply dbytes_ext. intros k Hk. apply Hd. unfold in_sector. lia.
Qed.

Lemma Forall2_impl_in {A B} (P Q : A → B → Prop) (l : list A) (k : list B) :
  (∀ x y, x ∈ l → P x y → Q x y) → Forall2 P l k → Forall2 Q l k.
Proof.
  intros HPQ Hf. induction Hf as [|x y l k Hxy Hf IH]; constructor.
  - apply HPQ; [left|done].
  - apply IH. intros x' y' Hx'. apply HPQ. by right.
Qed.

Lemma filter_apart (l1 l2 : list Z) b : NoDup (filter (λ b, b ≠ 0) (l1 ++ b :: l2)) → b ≠ 0 → b ∉ l1 ++ l2.
Proof.
  rewrite filter_app, filter_cons. intros Hnd Hb. rewrite decide_True in Hnd by done.
  apply NoDup_app in Hnd as (_ & H1 & H2). apply NoDup_cons in H2 as [H2 _]. intros [Hin|Hin]%elem_of_app.
  - apply (H1 b); [by apply list_elem_of_filter|left].
  - by apply H2, list_elem_of_filter.
Qed.

Lemma dir_sector_wrote (d d' : D) b es rest : length es = 21%nat → Forall entry_wf es → b ≠ 0 →
  (512 ≤ length (entries_bytes es ++ rest))%nat →
  wrote d d' (512 * b) (take (Z.to_nat (512 * 1)) (entries_bytes es ++ rest)) → dir_sector d' b es.
Proof.
  intros H21 Hwf Hb Hl Hw. unfold dir_sector. rewrite decide_False by done. split_and!; [done..|].
  change (Z.to_nat (512 * 1)) with 512%nat in Hw. apply wrote_same in Hw.
  rewrite length_take, Nat.min_l in Hw by lia. change (Z.of_nat 512) with 512 in Hw. rewrite Hw.
  exists (take 8 rest). rewrite take_app_ge; rewrite entries_bytes_length, H21 by done; [done|lia].
Qed.

(** The slots of one block become [es'], its address [b']. *)
Lemma dir_at_update s s' h i n ss1 es es' ss2 old b' : dir_at s h i (ss1 ++ es :: ss2) →
  i_sectors i !! length ss1 = Some old → is_u32 b' → is_u32 n →
  inodes s' !! h = Some (resized i n (<[length ss1 := b']> (i_sectors i))) →
  dir_sector (dev s') b' es' →
  (∀ b k, b ∈ take 12 (i_sectors i) → b ≠ 0 → b ≠ old → in_sector b k → dbyte (dev s') k = dbyte (dev s) k) →
  (∀ b, b ∈ take 12 (i_sectors i) → b ≠ 0 → b ≠ old → taken (cur_part s') b) →
  (b' ≠ 0 → taken (cur_part s') b') → (b' = 0 ∨ b' = old ∨ ¬ taken (cur_part s) b') →
  n = 24 * Z.of_nat (length (used_entries (ss1 ++ es' :: ss2))) →
  dir_at s' h (resized i n (<[length ss1 := b']> (i_sectors i))) (ss1 ++ es' :: ss2).
Proof.
  intros [] Hold Hb' Hn Hi' Hsec Hdev Htk Htk' Hfresh Hsz.
  apply Forall2_app_inv_r in da_slots as (pre & post0 & Hpre & Hpost0 & Hsplit).
  inversion Hpost0 as [|old' ? post ? Holds Hpost]; subst post0. subst.
  assert (Hlen : length pre = length ss1) by (by eapply Forall2_length).
  assert (Hk12 : (length ss1 < 12)%nat).
  { assert (Hl : (length (take 12 (i_sectors i)) ≤ 12)%nat) by (rewrite length_take; lia).
    rewrite Hsplit, length_app in Hl. cbn [length] in Hl. lia. }
  assert (old' = old) as ->.
  { rewrite <-(lookup_take_lt _ 12) in Hold by done. rewrite Hsplit, list_lookup_middle in Hold by done. congruence. }
  assert (Htake : take 12 (<[length ss1 := b']> (i_sectors i)) = pre ++ b' :: post).
  { rewrite take_insert_lt by done. rewrite Hsplit, <-Hlen. by rewrite insert_app_r_alt, Nat.sub_diag by done. }
  assert (Hother : ∀ b, b ∈ pre ++ post → b ≠ 0 → b ≠ old).
  { intros b Hb Hne ->. rewrite Hsplit in da_apart. by apply (filter_apart _ _ _ da_apart). }
  assert (Hin : ∀ b, b ∈ pre ++ post → b ∈ take 12 (i_sectors i)).
  { intros b. rewrite Hsplit, !elem_of_app, elem_of_cons. tauto. }
  split; cbn [i_sectors i_size resized inode_sized inode_sectored]; rewrite ?Htake; try done.
  - destruct da_ok. split; cbn; [done|done|by rewrite length_insert|]. by apply Forall_insert.
  - by rewrite list_lookup_insert_ne by lia.
  - assert (Hmono : ∀ bs es0, (∀ b, b ∈ bs → b ∈ pre ++ post) → Forall2 (dir_sector (dev s)) bs es0 →
      Forall2 (dir_sector (dev s')) bs es0).
    { intros bs es0 Hbs Hf. eapply Forall2_impl_in; [|exact Hf]. cbn. intros b e Hb Hds.
      destruct (decide (b = 0)) as [->|Hne]; [exact Hds|]. eapply dir_sector_ext; [|exact Hds].
      intros k Hk. apply (Hdev b); auto. }
    apply Forall2_app; [apply Hmono; [|done]; set_solver|]. constructor; [done|]. apply Hmono; [|done]. set_solver.
  - intros b Hb Hne. apply elem_of_app in Hb as [Hb|[->|Hb]%elem_of_cons]; [|by auto|];
      apply Htk; auto; try (apply Hin; set_solver); apply Hother; set_solver.
  - rewrite Hsplit in da_apart. rewrite filter_app, filter_cons in *. destruct (decide (b' ≠ 0)) as [Hne|Hz].
    + assert (Hb'n : b' ∉ pre ++ post).
      { intros Hb. destruct Hfresh as [|[->|Hf]]; [done|by apply (Hother old)|]. apply Hf, da_taken; auto. }
      case_decide; cbn in da_apart.
      * apply NoDup_app in da_apart as (H1 & H2 & H3). apply NoDup_cons in H3 as [_ H3].
        apply NoDup_app. split; [done|]. split; [|constructor; [|done]; rewrite list_elem_of_filter; set_solver].
        intros x Hx. rewrite elem_of_cons, list_elem_of_filter. specialize (H2 x Hx).
        rewrite elem_of_cons, list_elem_of_filter in H2. apply list_elem_of_filter in Hx as [_ Hx]. set_solver.
      * apply NoDup_app in da_apart as (H1 & H2 & H3).
        apply NoDup_app. split; [done|]. split; [|constructor; [|done]; rewrite list_elem_of_filter; set_solver].
        intros x Hx. rewrite elem_of_cons. specialize (H2 x Hx). apply list_elem_of_filter in Hx as [_ Hx]. set_solver.
    + case_decide; [|done]. apply NoDup_app in da_apart as (H1 & H2 & H3). apply NoDup_cons in H3 as [_ H3].
      apply NoDup_app. split; [done|]. split; [|done]. intros x Hx. specialize (H2 x Hx). set_solver.
Qed.

(** ** Adding an entry *)

Lemma free_entry_run es rest n idx : Forall entry_wf es → (idx + n = length es)%nat →
  free_entry n (entries_bytes es ++ rest) (Z.of_nat idx) =
    Ret ((λ p, Z.of_nat (idx + p.1)) <$> list_find (λ x, ¬ is_used x) (drop idx es)).
Proof.
  intros Hes. revert idx. induction n as [|n IH]; intros idx Hl.
  { rewrite drop_ge by lia. done. }
  destruct (lookup_lt_is_Some_2 es idx) as [e He]; [lia|]. rewrite (drop_S _ _ _ He). cbn [free_entry list_find].
  rewrite (holds_type _ _ e); [|by eapply Forall_lookup_1|lia|by apply holds_entry]. cbn [mbind outcome_bind].
  unfold is_used. destruct (Z.eqb_spec (f_type e) FT_UNKNOWN) as [Hu|Hu].
  - rewrite decide_True by auto. cbn. by rewrite Nat.add_0_r.
  - rewrite decide_False by auto.
    replace (Z.of_nat idx + 1) with (Z.of_nat (S idx)) by lia. rewrite IH by lia. f_equal.
    unfold is_used. destruct (list_find _ _) as [[p x]|]; [|done]. cbn. f_equal. lia.
Qed.

Lemma new_block_run s n : bd_inv (dev s) → part_ok (cur_part s) → has_free (block_bitmap (cur_part s)) (S n) →
  ∃ bm b d', new_block s = Ret (Some b, with_dev d' (with_part (part_blocks bm (cur_part s)) s)) ∧
    part_ok (part_blocks bm (cur_part s)) ∧ has_free bm n ∧ takes (cur_part s) bm [b] ∧
    framed (in_bbm (cur_part s)) (dev s) d'.
Proof.
  intros Hd Hp Hf. destruct (block_alloc_run s n Hp Hf) as (bm & b & Hr & Hp1 & Hf1 & Ht).
  destruct (tk_free _ _ _ Ht b) as [_ Htak]; [by apply list_elem_of_singleton|].
  destruct (taken_range _ _ Hp1 Htak) as (H0 & H1 & Hu). pose proof (part_ranges _ Hp) as Hrg.
  destruct (proj1 Htak) as [Hlo Hhi]. cbn in Hlo. unfold disk_end in *.
  unfold new_block. rewrite (M_bind_Ret _ _ _ _ _ Hr). rewrite (proj2 (Z.eqb_neq b (-1))) by lia.
  rewrite bind_gets. cbn [cur_part with_part sb part_blocks]. rewrite i32_id by zlia.
  rewrite (proj2 (Z.eqb_neq _ (-1))) by lia. cbn [negb]. rewrite bind_ASSERT_true.
  destruct (sync_block_run (with_part (part_blocks bm (cur_part s)) s) b Hd Hp1 Htak) as (d' & Hs & Hfr).
  rewrite (M_bind_Ret _ _ _ _ _ Hs), ret_eq, u32_id by done. exists bm, b, d'. by split_and!.
Qed.

Lemma dir_new_block_run s h i idx ab n : bd_inv (dev s) → part_ok (cur_part s) →
  has_free (block_bitmap (cur_part s)) (S n) → inodes s !! h = Some i → length (i_sectors i) = 13%nat →
  0 ≤ idx < 12 → length ab = 140%nat →
  ∃ bm b d', dir_new_block h idx ab s =
      Ret (Some (<[Z.to_nat idx := b]> ab), grown s h i (<[Z.to_nat idx := b]> (i_sectors i)) bm d') ∧
    part_ok (part_blocks bm (cur_part s)) ∧ has_free bm n ∧ takes (cur_part s) bm [b] ∧
    framed (in_bbm (cur_part s)) (dev s) d'.
Proof.
  intros Hd Hp Hf Hi H13 Hidx Hab. destruct (new_block_run s n Hd Hp Hf) as (bm & b & d' & Hr & Hp1 & Hf1 & Ht & Hfr).
  exists bm, b, d'. split; [|by split_and!]. unfold dir_new_block. rewrite (M_bind_Ret _ _ _ _ _ Hr).
  rewrite (proj2 (Z.ltb_lt idx 12)) by lia.
  set (s1 := with_dev d' _). rewrite (M_bind_Ret _ _ _ _ _ (set_sector_run s1 h i idx b Hi ltac:(lia))).
  rewrite store_in, bind_lift by lia. done.
Qed.

(** The directory with the entry in place; at most one block is new. *)
Record synced s (h : Z) (i : inode) ss (e : dir_entry) (secs : list Z) (bm : bitmap) (d' : D) (new : list Z) : Prop := {
  sy_dir : dir_at (grown s h (inode_sized (i_size i + 24) i) secs bm d') h (resized i (i_size i + 24) secs) (place e ss);
  sy_takes : takes (cur_part s) bm new;
  sy_len : (length new ≤ 1)%nat;
  sy_part : part_ok (part_blocks bm (cur_part s));
  sy_frame : framed (λ k, in_bbm (cur_part s) k ∨ in_blocks (filter (λ b, b ≠ 0) (take 12 secs)) k) (dev s) d'
}.

Lemma grow_dir_run s h i : inodes s !! h = Some i → dir_entry_size (sb (cur_part s)) = 24 →
  grow_dir h s = Ret ((), with_inodes (<[h := inode_sized (u32 (i_size i + 24)) i]> (inodes s)) s).
Proof.
  intros Hi H24. unfold grow_dir, upd_inode. rewrite (M_bind_Ret _ _ _ _ _ (entry_size_run s H24)).
  by rewrite (M_bind_Ret _ _ _ _ _ (get_inode_run s h i Hi)).
Qed.

Lemma free_entry_all es rest : Forall entry_wf es → length es = 21%nat →
  free_entry (Z.to_nat 21) (entries_bytes es ++ rest) 0 =
    Ret ((λ p, Z.of_nat p.1) <$> list_find (λ x, ¬ is_used x) es).
Proof. intros Hes Hl. apply (free_entry_run es rest 21 0); [done|lia]. Qed.

(** The new contents of block [length ss1] are on the disk, at [b'], which is
    the old block or a new one. *)
Lemma synced_intro s h i ss1 es es' ss2 e old b' bm d' new : part_ok (cur_part s) → bd_inv (dev s) →
  dir_at s h i (ss1 ++ es :: ss2) → i_sectors i !! length ss1 = Some old → (length ss1 < 12)%nat →
  place e (ss1 ++ es :: ss2) = ss1 ++ es' :: ss2 → is_u32 (i_size i + 24) →
  i_size i + 24 = 24 * Z.of_nat (length (used_entries (ss1 ++ es' :: ss2))) →
  takes (cur_part s) bm new → (length new ≤ 1)%nat → part_ok (part_blocks bm (cur_part s)) →
  b' ≠ 0 → taken (part_blocks bm (cur_part s)) b' → (b' = old ∨ ¬ taken (cur_part s) b') →
  dir_sector d' b' es' → framed (λ k, in_bbm (cur_part s) k ∨ in_sector b' k) (dev s) d' →
  synced s h i (ss1 ++ es :: ss2) e (<[length ss1 := b']> (i_sectors i)) bm d' new.
Proof.
  intros Hp Hd Ha Hold H12 Hpl Hsz Hused Ht Hlen1 Hp' Hne Htk Hfresh Hsec Hfr.
  pose proof (io_len _ (da_ok _ _ _ _ Ha)) as H13. destruct (taken_range _ _ Hp' Htk) as (_ & _ & Hu32).
  split; [|done|done|done|].
  - rewrite Hpl. apply (dir_at_update s _ h i _ ss1 es es' ss2 old b'); try done.
    + cbn. by rewrite lookup_insert_eq.
    + intros b k Hb Hb0 Hbo Hk. apply Hfr. pose proof (da_taken _ _ _ _ Ha b Hb Hb0) as Hbt. intros [Hbm|Hk'].
      * by apply (taken_bbm (cur_part s) b k).
      * apply (sector_apart b b' k); [|done|done]. by destruct Hfresh as [->|Hf]; [|intros ->].
    + intros b Hb Hb0 _. apply (tk_old _ _ _ Ht). by apply (da_taken _ _ _ _ Ha).
    + by right.
  - eapply framed_mono, Hfr. intros k [Hk|Hk]; [by left|right]. exists b'. split; [|done].
    apply list_elem_of_filter. split; [done|]. rewrite take_insert_lt by done. apply list_elem_of_insert.
    rewrite length_take. lia.
Qed.

Abbreviation all_direct i := (take 12 (i_sectors i) ++ replicate 128 0).

(** One turn of the search for a place, at block [length ss1]. *)
Section sync_step.
Context (n : nat) (s : fs D) (h : Z) (i : inode) (ss1 : list (list dir_entry)) (es : list dir_entry)
  (ss2 : list (list dir_entry)) (e : dir_entry) (io : list Z).
Context (Hd : bd_inv (dev s)) (Hp : part_ok (cur_part s)) (H24 : dir_entry_size (sb (cur_part s)) = 24)
  (Hu : is_used e) (Hwf : entry_wf e) (Ha : dir_at s h i (ss1 ++ es :: ss2))
  (Hpl : place e (ss1 ++ es :: ss2) = ss1 ++ place e (es :: ss2)) (Hio : (512 ≤ length io)%nat)
  (Hsz : i_size i + 24 < 4294967296).

Abbreviation step := (sync_blocks (S n) h (Z.of_nat (length ss1)) 21 (all_direct i) e io s).

Lemma sync_step_block : ∃ b, i_sectors i !! length ss1 = Some b ∧ (length ss1 < 12)%nat ∧
  dir_sector (dev s) b es ∧ load (all_direct i) (Z.of_nat (length ss1)) = Ret b ∧
  (b ≠ 0 → taken (cur_part s) b).
Proof.
  destruct (Forall2_lookup_r _ _ _ (length ss1) es (da_slots _ _ _ _ Ha)) as (b & Hb & Hes);
    [by rewrite list_lookup_middle|].
  assert (Hk12 : (length ss1 < 12)%nat) by (apply lookup_lt_Some in Hb; rewrite length_take in Hb; lia).
  exists b. split; [by rewrite lookup_take_lt in Hb|]. split; [done|]. split; [done|]. split.
  - apply load_Ret. split; [lia|]. rewrite Nat2Z.id. by apply lookup_app_l_Some.
  - intros Hne. apply (da_taken _ _ _ _ Ha); [by eapply list_elem_of_lookup_2|done].
Qed.

Lemma sync_step_size : has_room (es :: ss2) → is_u32 (i_size i + 24) ∧
  i_size i + 24 = 24 * Z.of_nat (length (used_entries (ss1 ++ place e (es :: ss2)))).
Proof.
  intros Hr. pose proof (io_size _ (da_ok _ _ _ _ Ha)). split; [unfold is_u32 in *; lia|].
  rewrite <-Hpl, used_place; [|done|apply Exists_app; by right]. rewrite (da_size _ _ _ _ Ha). cbn [length]. lia.
Qed.

Lemma sync_step_new : es = [] → has_free (block_bitmap (cur_part s)) 1 →
  ∃ io' secs bm d' new, step = Ret ((true, io'), grown s h (inode_sized (i_size i + 24) i) secs bm d') ∧
    length io' = length io ∧ synced s h i (ss1 ++ es :: ss2) e secs bm d' new.
Proof.
  intros He Hfree. destruct sync_step_block as (b0 & Hb13 & Hk12 & Hes & Hload & _).
  destruct sync_step_size as [Hsz32 Hsize]; [by left; left|].
  assert (b0 = 0) as ->.
  { destruct (decide (b0 = 0)); [done|]. unfold dir_sector in Hes. rewrite decide_False in Hes by done.
    destruct Hes as [Hl _]. by rewrite He in Hl. }
  pose proof (da_inode _ _ _ _ Ha) as Hi. pose proof (io_len _ (da_ok _ _ _ _ Ha)) as H13.
  pose proof (dir_entry_bytes_length e Hwf) as Hel. rewrite He in Hpl, Hsize |- *. cbn [sync_blocks].
  rewrite Hload, bind_lift. change (0 =? 0) with true. cbv iota.
  destruct (dir_new_block_run s h i (Z.of_nat (length ss1)) (all_direct i) 0)
    as (bm & b & d1 & Hr & Hp1 & _ & Ht & Hfr); [done..|lia|rewrite length_app, length_take, H13; done|].
  rewrite Nat2Z.id in Hr. rewrite (M_bind_Ret _ _ _ _ _ Hr).
  destruct (tk_free _ _ _ Ht b) as [Hnew Htak]; [by apply list_elem_of_singleton|].
  destruct (taken_range _ _ Hp1 Htak) as (H0 & H1 & _). set (s1 := grown s h i _ bm d1).
  rewrite (M_bind_Ret _ _ _ _ _ (entry_size_run s1 H24)). change (Z.to_nat 24) with 24%nat.
  rewrite (take_ge (dir_entry_bytes e)) by lia. rewrite put_bytes_eq, bind_lift by (rewrite ?length_replicate; lia).
  rewrite put_bytes_eq, bind_lift by (rewrite ?splice_length; rewrite ?length_replicate; lia).
  assert (load (<[length ss1 := b]> (all_direct i)) (Z.of_nat (length ss1)) = Ret b) as ->.
  { apply load_Ret. split; [lia|]. rewrite Nat2Z.id. apply list_lookup_insert_eq. rewrite length_app, length_take. lia. }
  rewrite bind_lift. rewrite entry_new_sector by done. set (io2 := entries_bytes _ ++ _).
  assert (Hio2 : length io2 = length io).
  { unfold io2. rewrite <-entry_new_sector by done.
    rewrite splice_length; [apply splice_length|lia|rewrite splice_length]; rewrite ?length_replicate; lia. }
  destruct (disk_write_run s1 b io2 1) as (d2 & Hw & Hwr); [apply Hfr|lia|lia|done|lia|].
  rewrite (M_bind_Ret _ _ _ _ _ Hw).
  rewrite (M_bind_Ret _ _ _ _ _ (grow_dir_run (with_dev d2 s1) h (inode_sectored (<[length ss1 := b]> (i_sectors i)) i)
    ltac:(cbn; apply lookup_insert_eq) H24)).
  exists io2, (<[length ss1 := b]> (i_sectors i)), bm, d2, [b]. split; [|split; [done|]].
  - rewrite ret_eq. cbn [i_size inode_sectored]. rewrite u32_id by done. do 2 f_equal.
    unfold grown, s1. cbn. by rewrite insert_insert_eq.
  - rewrite He in Ha. apply (synced_intro s h i ss1 [] (e :: replicate 20 null_entry) ss2 e 0 b); try done; [lia|by right| |].
    + apply (dir_sector_wrote d1 d2 b _ (replicate 8 0 ++ drop 512 io)); [done| |lia|fold io2; lia|done].
      constructor; [done|]. apply Forall_replicate. apply null_wf.
    + eapply framed_trans; [eapply framed_mono, Hfr; by left|]. eapply framed_wrote; [exact Hwr|].
      intros k Hk. right. unfold in_sector. rewrite length_take in Hk. lia.
Qed.

Lemma sync_step_slot k x : list_find (λ x, ¬ is_used x) es = Some (k, x) →
  ∃ io' secs bm d' new, step = Ret ((true, io'), grown s h (inode_sized (i_size i + 24) i) secs bm d') ∧
    length io' = length io ∧ synced s h i (ss1 ++ es :: ss2) e secs bm d' new.
Proof.
  intros Hf. destruct sync_step_block as (b & Hb13 & Hk12 & Hes & Hload & Htk).
  pose proof (proj1 (list_find_Some _ _ _ _) Hf) as (Hk & Hx & _). assert (Hkl := lookup_lt_Some _ _ _ Hk).
  destruct sync_step_size as [Hsz32 Hsize].
  { left. right. apply Exists_exists. exists x. split; [by eapply list_elem_of_lookup_2|done]. }
  assert (Hbne : b ≠ 0).
  { intros ->. unfold dir_sector in Hes. rewrite decide_True in Hes by done. by rewrite Hes in Hk. }
  specialize (Htk Hbne). destruct (taken_range _ _ Hp Htk) as (H0 & H1 & _).
  pose proof (da_inode _ _ _ _ Ha) as Hi. pose proof (dir_entry_bytes_length e Hwf) as Hel. cbn [sync_blocks].
  rewrite Hload, bind_lift, (proj2 (Z.eqb_neq b 0)) by done.
  destruct (dir_sector_read s b es io) as (rest & d1 & Hr & Hs1 & H21 & Hwfs & Hbl & _); [done..|lia|].
  rewrite (M_bind_Ret _ _ _ _ _ Hr), free_entry_all, bind_lift, Hf by done. cbn [fmap option_fmap option_map fst].
  rewrite (M_bind_Ret _ _ _ _ _ (entry_size_run (with_dev d1 s) H24)). change (Z.to_nat 24) with 24%nat.
  rewrite (take_ge (dir_entry_bytes e)) by lia. rewrite put_bytes_eq, bind_lift by lia. rewrite entry_splice by done.
  assert (Hio2 : length (entries_bytes (<[k := e]> es) ++ rest) = length io).
  { rewrite <-entry_splice by done. rewrite splice_length; lia. }
  destruct (disk_write_run (with_dev d1 s) b (entries_bytes (<[k := e]> es) ++ rest) 1) as (d2 & Hw & Hwr);
    [apply Hs1|lia|lia|done|lia|]. rewrite (M_bind_Ret _ _ _ _ _ Hw).
  rewrite (M_bind_Ret _ _ _ _ _ (grow_dir_run (with_dev d2 (with_dev d1 s)) h i Hi H24)).
  exists (entries_bytes (<[k := e]> es) ++ rest), (<[length ss1 := b]> (i_sectors i)), (block_bitmap (cur_part s)), d2, [].
  assert (Hpart : part_blocks (block_bitmap (cur_part s)) (cur_part s) = cur_part s) by by destruct (cur_part s).
  split; [|split; [done|]].
  - rewrite ret_eq, u32_id by done. do 2 f_equal. unfold grown. rewrite Hpart, list_insert_id by done.
    destruct s. cbn. by destruct i.
  - rewrite (place_slot _ _ _ _ _ Hf) in Hpl, Hsize.
    apply (synced_intro s h i ss1 es (<[k := e]> es) ss2 e b b); rewrite ?Hpart; try done.
    + apply takes_nil.
    + cbn. lia.
    + by left.
    + apply (dir_sector_wrote d1 d2 b _ rest); [by rewrite length_insert|by apply Forall_insert|done|lia|done].
    + eapply framed_trans; [by apply framed_same|]. eapply framed_wrote; [exact Hwr|].
      intros j Hj. right. unfold in_sector. rewrite length_take in Hj. lia.
Qed.

Lemma sync_step_full : es ≠ [] → list_find (λ x, ¬ is_used x) es = None →
  ∃ io' d1, step = sync_blocks n h (Z.of_nat (S (length ss1))) 21 (all_direct i) e io' (with_dev d1 s) ∧
    same_bytes (dev s) d1 ∧ length io' = length io.
Proof.
  intros Hne Hf. destruct sync_step_block as (b & Hb13 & Hk12 & Hes & Hload & Htk).
  assert (Hbne : b ≠ 0).
  { intros ->. unfold dir_sector in Hes. rewrite decide_True in Hes by done. by rewrite Hes in Hne. }
  cbn [sync_blocks]. rewrite Hload, bind_lift, (proj2 (Z.eqb_neq b 0)) by done.
  destruct (dir_sector_read s b es io) as (rest & d1 & Hr & Hs1 & H21 & Hwfs & Hbl & _); [by auto..|lia|].
  rewrite (M_bind_Ret _ _ _ _ _ Hr), free_entry_all, bind_lift, Hf by done. cbn [fmap option_fmap option_map fst].
  exists (entries_bytes es ++ rest), d1. split; [|split; [done|lia]]. do 2 f_equal. lia.
Qed.
End sync_step.

Lemma synced_same s d1 h i ss e secs bm d' new : same_bytes (dev s) d1 →
  synced (with_dev d1 s) h i ss e secs bm d' new → synced s h i ss e secs bm d' new.
Proof.
  intros Hs [Hsy1 Hsy2 Hsy3 Hsy4 Hsy5]. rewrite grown_with_dev in Hsy1. split; [done|done|done|done|].
  eapply framed_trans; [by apply framed_same|exact Hsy5].
Qed.

Lemma sync_blocks_run n s h i ss1 ss2 e io : bd_inv (dev s) → part_ok (cur_part s) →
  dir_entry_size (sb (cur_part s)) = 24 → is_used e → entry_wf e → dir_at s h i (ss1 ++ ss2) →
  place e (ss1 ++ ss2) = ss1 ++ place e ss2 → has_room ss2 → (length ss2 ≤ n)%nat → (512 ≤ length io)%nat →
  has_free (block_bitmap (cur_part s)) 1 → i_size i + 24 < 4294967296 →
  ∃ io' secs bm d' new,
    sync_blocks n h (Z.of_nat (length ss1)) 21 (all_direct i) e io s =
      Ret ((true, io'), grown s h (inode_sized (i_size i + 24) i) secs bm d') ∧
    length io' = length io ∧ synced s h i (ss1 ++ ss2) e secs bm d' new.
Proof.
  revert s ss1 ss2 io. induction n as [|n IH]; intros s ss1 ss2 io Hd Hp H24 Hu Hwf Ha Hpl Hroom Hn Hio Hfree Hsz.
  { destruct ss2; [by apply Exists_nil in Hroom|cbn in Hn; lia]. }
  destruct ss2 as [|es ss2]; [by apply Exists_nil in Hroom|].
  destruct (decide (es = [])) as [He|Hne]; [by apply sync_step_new|].
  destruct (list_find (λ x, ¬ is_used x) es) as [[k x]|] eqn:Hf; [by eapply sync_step_slot|].
  destruct (sync_step_full n s h i ss1 es ss2 e io Hd Hp Ha Hio Hne Hf) as (io1 & d1 & Hstep & Hs1 & Hl1).
  destruct (IH (with_dev d1 s) (ss1 ++ [es]) ss2 io1) as (io' & secs & bm & d' & new & Hrun & Hl & Hsy); try done.
  - apply Hs1.
  - rewrite <-app_assoc. by apply dir_at_same.
  - rewrite <-!app_assoc. cbn [app]. rewrite Hpl. by rewrite place_full.
  - apply Exists_cons in Hroom as [[|Hr2]|Hr2]; [done| |done]. apply Exists_exists in Hr2 as (x & Hin & Hx).
    apply list_find_None in Hf. by destruct (proj1 (Forall_forall _ _) Hf x Hin).
  - cbn in Hn. lia.
  - lia.
  - rewrite <-app_assoc in Hsy. cbn [app] in Hsy. exists io', secs, bm, d', new.
    rewrite length_app in Hrun. replace (length ss1 + length [es])%nat with (S (length ss1)) in Hrun by (cbn [length]; lia).
    rewrite Hstep, Hrun, grown_with_dev. split; [done|]. split; [lia|]. by eapply synced_same.
Qed.

Lemma sync_dir_entry_run s p h pos i ss e io : bd_inv (dev s) → part_ok (cur_part s) →
  dir_entry_size (sb (cur_part s)) = 24 → dirs s !! p = Some (Dir h pos) → dir_at s h i ss →
  is_used e → entry_wf e → has_room ss → (512 ≤ length io)%nat →
  has_free (block_bitmap (cur_part s)) 1 → i_size i + 24 < 4294967296 →
  ∃ io' secs bm d' new, sync_dir_entry p e io s =
      Ret ((true, io'), grown s h (inode_sized (i_size i + 24) i) secs bm d') ∧
    length io' = length io ∧ synced s h i ss e secs bm d' new.
Proof.
  intros Hd Hp H24 Hdir Ha Hu Hwf Hroom Hio Hfree Hsz. unfold sync_dir_entry.
  rewrite (M_bind_Ret _ _ _ _ _ (get_dir_run _ _ _ Hdir)). cbn [d_inode].
  rewrite (M_bind_Ret _ _ _ _ _ (get_inode_run _ _ _ (da_inode _ _ _ _ Ha))).
  rewrite (M_bind_Ret _ _ _ _ _ (entry_size_run s H24)), (M_bind_Ret _ _ _ _ _ (entry_cnt_run s H24)).
  assert (i_size i mod 24 = 0) as -> by (rewrite (da_size _ _ _ _ Ha), Z.mul_comm; by apply Z.mod_mul).
  rewrite bind_ASSERT_true. apply (sync_blocks_run 140 s h i [] ss); try done.
  pose proof (Forall2_length _ _ _ (da_slots _ _ _ _ Ha)) as Hl.
  rewrite length_take in Hl. lia.
Qed.
End update.
