(* ===== verification/DirDelete.v ===== *)
(** * Deleting directory entries

    [delete_dir_entry] finds the entry of an inode, clears it or gives its
    block up, and writes the directory's inode back; [take_out] is what happens
    to the slots. *)

From Stdlib Require Import ZArith Lia.
From stdpp Require Import base numbers list gmap.
From S2P Require Import Prelude Bitmap DList CString Path Disk Inode FileData Dir DirSpec DirUpdate.

(** ** Taking an entry out *)

Definition is_dot (e : dir_entry) : Prop := is_used e ∧ name_of e = [46].
Definition is_child (e : dir_entry) : Prop := is_used e ∧ name_of e ≠ [46] ∧ name_of e ≠ [46; 46].
Definition is_target (no : Z) (e : dir_entry) : Prop := is_child e ∧ de_i_no e = no.
#[global] Instance is_dot_dec e : Decision (is_dot e) := ltac:(unfold is_dot; apply _).
#[global] Instance is_child_dec e : Decision (is_child e) := ltac:(unfold is_child; apply _).
#[global] Instance is_target_dec no e : Decision (is_target no e) := ltac:(unfold is_target; apply _).

(** A block with nothing but the entry is given up, but not the one with ".". *)
Definition gives_up (es : list dir_entry) : bool :=
  (length (filter is_child es) =? 1)%nat && bool_decide (¬ Exists is_dot es).

Fixpoint take_out (no : Z) (ss : list (list dir_entry)) : list (list dir_entry) :=
  match ss with
  | [] => []
  | es :: ss =>
    match list_find (is_target no) es with
    | Some (k, _) => (if gives_up es then [] else <[k := null_entry]> es) :: ss
    | None => es :: take_out no ss
    end
  end.

(** ".." lies beside ".". *)
Definition dots_ok (ss : list (list dir_entry)) : Prop :=
  ∀ es e, es ∈ ss → e ∈ es → is_used e → name_of e = [46; 46] → Exists is_dot es.

Lemma gives_up_used es e : gives_up es = true → dots_ok [es] → e ∈ es → is_child e → filter is_used es = [e].
Proof.
  unfold gives_up. intros [Hlen Hdot%bool_decide_eq_true]%andb_true_iff Hok He Hc.
  assert (Heq : filter is_used es = filter is_child es).
  { clear Hlen. assert (Hall : ∀ x, x ∈ es → is_used x → is_child x).
    { intros x Hx Hux. split; [done|]. split; intros Hn.
      - apply Hdot, Exists_exists. exists x. by split.
      - apply Hdot, (Hok es x); [left|done..]. }
    clear He Hc Hok Hdot. induction es as [|y es IH]; [done|]. rewrite !filter_cons.
    rewrite IH by (intros x Hx; apply Hall; by right).
    destruct (decide (is_used y)) as [Hy|Hy].
    - by rewrite decide_True by (apply Hall; [left|done]).
    - rewrite decide_False; [done|]. by intros [? _]. }
  rewrite Heq. assert (Hin : e ∈ filter is_child es) by by apply list_elem_of_filter.
  apply Nat.eqb_eq in Hlen. destruct (filter is_child es) as [|y [|]]; [by apply elem_of_nil in Hin| |done].
  by apply list_elem_of_singleton in Hin as ->.
Qed.

(** A block that is given up has no slots any more. *)
Lemma take_out_gone no ss e k es : filter (is_target no) (concat ss) = [e] → ss !! k = Some es → e ∈ es →
  is_target no e → gives_up es = true → take_out no ss !! k = Some [].
Proof.
  revert k. induction ss as [|es0 ss IH]; intros k Hf Hk He Ht Hg; [done|]. cbn [concat take_out] in *.
  rewrite filter_app in Hf. destruct (list_find (is_target no) es0) as [[j x]|] eqn:Hfind.
  - assert (Hnil : filter (is_target no) (concat ss) = []).
    { apply list_find_Some in Hfind as (Hj & Hx & _).
      assert (Hin : x ∈ filter (is_target no) es0) by (apply list_elem_of_filter; split; [done|by eapply list_elem_of_lookup_2]).
      destruct (filter (is_target no) es0) as [|y [|]]; [by apply elem_of_nil in Hin| |done]. by injection Hf as _ ->. }
    destruct k as [|k]; [injection Hk as ->; by rewrite Hg|].
    assert (Hin : e ∈ filter (is_target no) (concat ss)).
    { apply list_elem_of_filter. split; [done|]. apply list_elem_of_In, in_concat. exists es.
      split; apply list_elem_of_In; [by eapply list_elem_of_lookup_2|done]. }
    rewrite Hnil in Hin. by apply elem_of_nil in Hin.
  - apply list_find_None in Hfind. destruct k as [|k].
    { injection Hk as ->. by destruct (proj1 (Forall_forall _ _) Hfind e He). }
    rewrite list_filter_none in Hf by (intros x Hx; by apply (proj1 (Forall_forall _ _) Hfind)). by apply IH.
Qed.

Lemma used_clear es k e : es !! k = Some e → is_used e →
  filter is_used es ≡ₚ e :: filter is_used (<[k := null_entry]> es).
Proof.
  intros Hk He. rewrite insert_take_drop by (by eapply lookup_lt_Some).
  rewrite <-(take_drop_middle _ _ _ Hk) at 1. rewrite !filter_app, filter_cons_True by done.
  rewrite (filter_cons_False _ null_entry) by apply null_unused. by rewrite Permutation_middle.
Qed.

Lemma used_take_out no ss e : dots_ok ss → e ∈ concat ss → is_target no e → filter (is_target no) (concat ss) = [e] →
  used_entries ss ≡ₚ e :: used_entries (take_out no ss).
Proof.
  unfold used_entries. induction ss as [|es ss IH]; intros Hok Hin Ht Hf; [by apply elem_of_nil in Hin|].
  cbn [take_out concat] in *. rewrite filter_app in Hf. destruct (list_find (is_target no) es) as [[k x]|] eqn:Hk.
  - apply list_find_Some in Hk as (Hk & Hx & _).
    assert (x = e) as ->.
    { assert (Hxin : x ∈ filter (is_target no) es)
        by (apply list_elem_of_filter; split; [done|by eapply list_elem_of_lookup_2]).
      assert (Hxe : x ∈ [e]) by (rewrite <-Hf; apply elem_of_app; by left). by apply list_elem_of_singleton in Hxe. }
    cbn [concat]. rewrite !filter_app. destruct (gives_up es) eqn:Hg.
    + rewrite (gives_up_used es e Hg); [done| |by eapply list_elem_of_lookup_2|apply Ht].
      intros es' e' ->%list_elem_of_singleton. apply Hok. left.
    + rewrite (used_clear es k e Hk) by apply Ht. done.
  - apply list_find_None in Hk. cbn [concat]. rewrite !filter_app.
    rewrite (list_filter_none _ es) in Hf by (intros x Hx; by apply (proj1 (Forall_forall _ _) Hk)).
    apply elem_of_app in Hin as [Hin|Hin]; [by destruct (proj1 (Forall_forall _ _) Hk e Hin)|].
    rewrite IH; [by rewrite Permutation_middle| |done..]. intros es' e' Hes'. apply Hok. by right.
Qed.

Lemma elem_of_take_out no ss x : x ∈ concat (take_out no ss) → x = null_entry ∨ x ∈ concat ss.
Proof.
  induction ss as [|es ss IH]; [by intros []%elem_of_nil|]. cbn [take_out].
  destruct (list_find (is_target no) es) as [[k y]|] eqn:Hk; cbn [concat]; rewrite !elem_of_app.
  - intros [Hx|Hx]; [|auto]. destruct (gives_up es); [by apply elem_of_nil in Hx|].
    apply elem_of_insert in Hx as [->|Hx]; auto.
  - intros [Hx|Hx]; [auto|]. destruct (IH Hx); auto.
Qed.

(** ** Reading a sector *)

Lemma lookup_scan es no idx e : es !! idx = Some e →
  list_find (is_target no) (drop idx es) =
  if decide (is_target no e) then Some (0%nat, e) else (λ p, (S p.1, p.2)) <$> list_find (is_target no) (drop (S idx) es).
Proof. intros He. rewrite (drop_S _ _ _ He). cbn [list_find]. case_decide; [done|]. by destruct (list_find _ _) as [[]|]. Qed.

(** What the scan of the entries from [idx] on finds. *)
Definition scanned (es : list dir_entry) (no : Z) (idx : nat) (first : bool) (cnt : Z) (found : option Z)
    : bool * Z * option Z :=
  (first || bool_decide (Exists is_dot (drop idx es)), cnt + Z.of_nat (length (filter is_child (drop idx es))),
   match list_find (is_target no) (drop idx es) with Some (k, _) => Some (Z.of_nat (idx + k)) | None => found end).

Lemma scanned_next es no idx first cnt found e : es !! idx = Some e → ¬ is_target no e →
  scanned es no idx first cnt found =
  scanned es no (S idx) (first || bool_decide (is_dot e)) (cnt + if bool_decide (is_child e) then 1 else 0) found.
Proof.
  intros He Ht. unfold scanned. rewrite (lookup_scan _ _ _ _ He), decide_False by done. rewrite (drop_S _ _ _ He).
  f_equal; [f_equal|].
  - rewrite <-orb_assoc. f_equal. rewrite <-bool_decide_or. apply bool_decide_ext. by rewrite Exists_cons.
  - rewrite filter_cons. destruct (decide (is_child e)).
    + rewrite bool_decide_eq_true_2 by done. cbn [length]. lia.
    + rewrite bool_decide_eq_false_2 by done. lia.
  - destruct (list_find _ _) as [[k x]|]; [|done]. cbn. f_equal. lia.
Qed.

Lemma scanned_target es no idx first cnt found e : es !! idx = Some e → is_target no e →
  list_find (is_target no) (drop (S idx) es) = None →
  scanned es no idx first cnt found = scanned es no (S idx) first (cnt + 1) (Some (Z.of_nat idx)).
Proof.
  intros He Ht Hn. unfold scanned. rewrite (lookup_scan _ _ _ _ He), decide_True, Hn by done. rewrite (drop_S _ _ _ He).
  assert (Hnd : ¬ is_dot e) by (intros [_ Hd]; destruct Ht as [(_ & Hc & _) _]; done).
  f_equal; [f_equal|].
  - f_equal. apply bool_decide_ext. rewrite Exists_cons. tauto.
  - rewrite filter_cons_True by apply Ht. cbn [length]. lia.
  - by rewrite Nat.add_0_r.
Qed.

Lemma scan_sector_run es rest n idx no first cnt found : Forall entry_wf es → (idx + n = length es)%nat →
  0 ≤ cnt → cnt + Z.of_nat n < 256 →
  (length (filter (is_target no) (drop idx es)) ≤ match found with None => 1 | Some _ => 0 end)%nat →
  scan_sector n (entries_bytes es ++ rest) (Z.of_nat idx) no first cnt found = Ret (scanned es no idx first cnt found).
Proof.
  intros Hes. revert idx first cnt found. induction n as [|n IH]; intros idx first cnt found Hl H0 Hc Hone.
  { unfold scanned. rewrite drop_ge by lia. cbn. by rewrite orb_false_r, Z.add_0_r. }
  destruct (lookup_lt_is_Some_2 es idx) as [e He]; [lia|]. rewrite (drop_S _ _ _ He) in Hone.
  assert (Hwf : entry_wf e) by (by eapply Forall_lookup_1). pose proof (holds_entry es rest idx e Hes He) as Hh.
  cbn [scan_sector]. rewrite (holds_type _ _ e) by (done || lia). cbn [mbind outcome_bind].
  replace (Z.of_nat idx + 1) with (Z.of_nat (S idx)) by lia.
  assert (Hskip : ∀ f, ¬ is_target no e → ¬ is_child e → f = bool_decide (is_dot e) →
    scan_sector n (entries_bytes es ++ rest) (Z.of_nat (S idx)) no (first || f) cnt found =
      Ret (scanned es no idx first cnt found)).
  { intros f Ht Hnc ->. rewrite (scanned_next _ _ _ _ _ _ e), (bool_decide_eq_false_2 (is_child e)), Z.add_0_r by done.
    apply IH; [lia|lia|lia|]. by rewrite filter_cons_False in Hone. }
  destruct (Z.eqb_spec (f_type e) FT_UNKNOWN) as [Hu|Hu].
  { rewrite <-(orb_false_r first) at 1. apply Hskip; [by intros [[? _] _]|by intros [? _]|].
    symmetry. apply bool_decide_eq_false_2. by intros [? _]. }
  destruct (holds_strcmp _ _ e Hwf Hh [46] []) as (r & Hr & Hr0); [repeat constructor; lia|]. cbn [app] in Hr. rewrite Hr.
  cbn [mbind outcome_bind]. destruct (Z.eqb_spec r 0) as [Hz|Hz].
  { rewrite <-(orb_true_r first). apply Hskip.
    - intros [(_ & Hn & _) _]. apply Hn. by apply Hr0.
    - intros (_ & Hn & _). apply Hn. by apply Hr0.
    - symmetry. apply bool_decide_eq_true_2. split; [done|]. by apply Hr0. }
  assert (Hnd : name_of e ≠ [46]) by by rewrite <-Hr0.
  destruct (holds_strcmp _ _ e Hwf Hh [46; 46] []) as (r2 & Hr2 & Hr20); [repeat constructor; lia|]. cbn [app] in Hr2.
  rewrite Hr2. cbn [mbind outcome_bind].
  assert (Hndot : false = bool_decide (is_dot e)) by (symmetry; apply bool_decide_eq_false_2; by intros [_ ?]).
  destruct (Z.eqb_spec r2 0) as [Hz2|Hz2].
  { rewrite <-(orb_false_r first) at 1. apply Hskip; [| |done].
    - intros [(_ & _ & Hn) _]. apply Hn. by apply Hr20.
    - intros (_ & _ & Hn). apply Hn. by apply Hr20. }
  assert (Hch : is_child e) by (split; [done|]; split; [done|]; by rewrite <-Hr20).
  rewrite (holds_no _ _ e) by (done || lia). cbn [mbind outcome_bind].
  rewrite u8_id by (unfold is_u8; lia). destruct (Z.eqb_spec (de_i_no e) no) as [Hno|Hno].
  - assert (Ht : is_target no e) by done. rewrite filter_cons_True in Hone by done. cbn [length] in Hone.
    destruct found as [f|]; [lia|]. cbn [assert_]. cbn [mbind outcome_bind].
    assert (Hnone : length (filter (is_target no) (drop (S idx) es)) = 0%nat) by lia.
    rewrite (scanned_target _ _ _ _ _ _ e); [|done|done|].
    + apply IH; [lia|lia|lia|]. lia.
    + apply list_find_None. apply Forall_forall. intros x Hx Htx. apply length_zero_iff_nil in Hnone.
      assert (Hin : x ∈ filter (is_target no) (drop (S idx) es)) by by apply list_elem_of_filter.
      rewrite Hnone in Hin. by apply elem_of_nil in Hin.
  - assert (Ht : ¬ is_target no e) by (by intros [_ ?]). rewrite (scanned_next _ _ _ _ _ _ e) by done.
    rewrite <-Hndot, orb_false_r, (bool_decide_eq_true_2 (is_child e)) by done.
    apply IH; [lia|lia|lia|]. by rewrite filter_cons_False in Hone.
Qed.

(** ** Giving a block up, clearing a slot *)

Section delete.
Context {D : Type} {BD : BlockDev D} {BS : BlockDevSpec D}.
Implicit Types s : fs D.
Implicit Types ss : list (list dir_entry).

(** The first block of the data area is the root directory's block with ".". *)
Definition root_dots (p : partition) (i : inode) ss : Prop :=
  ∀ k es, i_sectors i !! k = Some (data_start_lba (sb p)) → ss !! k = Some es → Exists is_dot es.

(** [bm] is the bitmap of [p] without the block [b]. *)
Record frees (p : partition) (bm : bitmap) (b : Z) : Prop := {
  fr_part : part_ok (part_blocks bm p);
  fr_old x : taken p x → x ≠ b → taken (part_blocks bm p) x;
  fr_new x : taken (part_blocks bm p) x → taken p x ∧ x ≠ b
}.

Lemma block_clear_run s b : part_ok (cur_part s) → taken (cur_part s) b →
  b ≠ data_start_lba (sb (cur_part s)) →
  ∃ bm, block_bitmap_set (b - data_start_lba (sb (cur_part s))) 0 s =
      Ret ((), with_part (part_blocks bm (cur_part s)) s) ∧ frees (cur_part s) bm b ∧
    btmp_bytes_len bm = btmp_bytes_len (block_bitmap (cur_part s)).
Proof.
  intros Hp (Hb & Hlt & Hbit) Hns. destruct (po_bbm _ Hp) as (Hwf & Hb1 & Hb2). pose proof (part_ranges _ Hp).
  destruct (bitmap_set_spec (block_bitmap (cur_part s)) (b - data_start_lba (sb (cur_part s))) 0 Hwf)
    as (bm & Hs & Hwf' & Hl1 & Hl2 & Hbits); [lia|by left|].
  exists bm. unfold block_bitmap_set. rewrite bind_gets, Hs, bind_lift. split; [done|]. split; [|done]. split.
  - destruct Hp. split; cbn; try done.
    + by rewrite Hl1, Hl2.
    + rewrite Hbits, decide_False by lia. done.
    + intros j Hj. rewrite Hl1 in Hj. rewrite Hbits by lia. case_decide; [intros _; lia|]. by apply po_free.
  - intros x (Hx & Hx2 & Hx3) Hne. unfold taken. cbn. rewrite Hl1, Hbits, decide_False by lia. done.
  - intros x (Hx & Hx2 & Hx3). cbn in Hx, Hx2, Hx3. rewrite Hl1 in Hx2. rewrite Hbits in Hx3 by lia.
    case_decide; [done|]. split; [done|]. intros ->. lia.
Qed.

Lemma drop_block_run s h i idx b : bd_inv (dev s) → part_ok (cur_part s) → taken (cur_part s) b →
  b ≠ data_start_lba (sb (cur_part s)) →
  inodes s !! h = Some i → length (i_sectors i) = 13%nat → 0 ≤ idx < 12 →
  ∃ bm d', drop_block h idx b s = Ret ((), grown s h i (<[Z.to_nat idx := 0]> (i_sectors i)) bm d') ∧
    frees (cur_part s) bm b ∧ framed (in_bbm (cur_part s)) (dev s) d'.
Proof.
  intros Hd Hp Ht Hns Hi H13 Hidx. destruct (block_clear_run s b Hp Ht Hns) as (bm & Hr & Hf & Hl).
  destruct Ht as (Hb & Hlt & Hbit). pose proof (part_ranges _ Hp). unfold disk_end in *.
  unfold drop_block. rewrite bind_gets, u32_id by zlia. rewrite (M_bind_Ret _ _ _ _ _ Hr).
  destruct (bitmap_sync_blocks_run (with_part (part_blocks bm (cur_part s)) s) (b - data_start_lba (sb (cur_part s))))
    as (d' & Hs & Hfr); [done|apply Hf|cbn; lia|]. rewrite (M_bind_Ret _ _ _ _ _ Hs).
  rewrite (proj2 (Z.ltb_lt idx 12)) by lia. exists bm, d'. split; [|done].
  by rewrite (set_sector_run (with_dev d' (with_part (part_blocks bm (cur_part s)) s)) h i) by (done || lia).
Qed.

Lemma shrink_dir_run s h i io : bd_inv (dev s) → part_ok (cur_part s) → dir_entry_size (sb (cur_part s)) = 24 →
  inodes s !! h = Some i → inode_ok i → i_no i < 256 → 24 ≤ i_size i → length io = 1024%nat →
  ∃ io' d', shrink_dir h io s =
      Ret (io', with_dev d' (with_inodes (<[h := inode_sized (i_size i - 24) i]> (inodes s)) s)) ∧
    length io' = 1024%nat ∧
    wrote (dev s) d' (inode_addr (cur_part s) (i_no i)) (inode_bytes (inode_sized (i_size i - 24) i)).
Proof.
  intros Hd Hp H24 Hi Hok Hno Hsz Hio. unfold shrink_dir. rewrite (M_bind_Ret _ _ _ _ _ (get_inode_run _ _ _ Hi)).
  rewrite (M_bind_Ret _ _ _ _ _ (entry_size_run s H24)), (proj2 (Z.leb_le _ _) Hsz), bind_ASSERT_true.
  unfold set_inode. rewrite bind_modify. rewrite put_bytes_eq, bind_lift by (rewrite ?length_replicate; lia).
  set (s1 := with_inodes _ s).
  destruct (inode_sync_run s1 h (splice io 0 (replicate 1024 0)) (inode_sized (i_size i - 24) i))
    as (buf & d' & Hr & Hl & Hw); [done|done|cbn; apply lookup_insert_eq| |done| |].
  - destruct Hok. split; cbn; [done|unfold is_u32 in *; lia|done|done].
  - cbn [i_no inode_sized]. rewrite splice_length by (rewrite ?length_replicate; lia). unfold inode_sects. case_match; lia.
  - exists buf, d'. rewrite Hr. split; [done|]. split; [|done]. rewrite Hl, splice_length; rewrite ?length_replicate; lia.
Qed.

(** ** Deleting an entry *)

Definition in_inode (p : partition) (no k : Z) : Prop := inode_addr p no ≤ k < inode_addr p no + 76.

(** The directory without the entry, its inode on the disk. *)
Record deleted s (h : Z) (i : inode) ss (no : Z) (secs : list Z) (bm : bitmap) (d' : D) : Prop := {
  dl_dir : dir_at (grown s h (inode_sized (i_size i - 24) i) secs bm d') h (resized i (i_size i - 24) secs)
    (take_out no ss);
  dl_part : part_ok (part_blocks bm (cur_part s));
  dl_taken x : taken (part_blocks bm (cur_part s)) x → taken (cur_part s) x;
  dl_kept x : taken (cur_part s) x → x ∉ take 12 (i_sectors i) → taken (part_blocks bm (cur_part s)) x;
  dl_gone x : x ∈ take 12 (i_sectors i) → taken (part_blocks bm (cur_part s)) x → x ∈ take 12 secs;
  dl_other j x : secs !! j = Some x → x = 0 ∨ i_sectors i !! j = Some x;
  dl_inode : dbytes d' (inode_addr (cur_part s) (i_no i)) 76 = inode_bytes (resized i (i_size i - 24) secs);
  dl_frame : framed (λ k, in_bbm (cur_part s) k ∨ in_inode (cur_part s) (i_no i) k ∨
    in_blocks (filter (λ b, b ≠ 0) (take 12 (i_sectors i))) k) (dev s) d'
}.

Lemma taken_inode p b no k : part_ok p → taken p b → 0 ≤ no < 4096 → in_sector b k → ¬ in_inode p no k.
Proof.
  intros Hp (Hb & _) Hno. pose proof (part_ranges _ Hp). unfold in_sector, in_inode, inode_addr, sizeof_inode. lia.
Qed.

Lemma deleted_intro s h i ss1 es es' ss2 no old b' bm dm d' : part_ok (cur_part s) →
  dir_at s h i (ss1 ++ es :: ss2) → i_sectors i !! length ss1 = Some old → (length ss1 < 12)%nat → old ≠ 0 →
  take_out no (ss1 ++ es :: ss2) = ss1 ++ es' :: ss2 →
  i_size i - 24 = 24 * Z.of_nat (length (used_entries (ss1 ++ es' :: ss2))) →
  part_ok (part_blocks bm (cur_part s)) → (∀ x, taken (part_blocks bm (cur_part s)) x → taken (cur_part s) x) →
  (∀ x, taken (cur_part s) x → x ≠ old → taken (part_blocks bm (cur_part s)) x) →
  (b' = 0 ∧ ¬ taken (part_blocks bm (cur_part s)) old ∨ b' = old ∧ taken (part_blocks bm (cur_part s)) old) →
  dir_sector dm b' es' →
  framed (λ k, in_bbm (cur_part s) k ∨ in_sector old k) (dev s) dm →
  wrote dm d' (inode_addr (cur_part s) (i_no i)) (inode_bytes (resized i (i_size i - 24) (<[length ss1 := b']> (i_sectors i)))) →
  deleted s h i (ss1 ++ es :: ss2) no (<[length ss1 := b']> (i_sectors i)) bm d'.
Proof.
  intros Hp Ha Hold H12 Hnz Hpl Hused Hp' Htk Hkept Hb' Hsec Hfr Hw.
  pose proof (da_ok _ _ _ _ Ha) as Hok. pose proof (io_len _ Hok) as H13.
  assert (Holdin : old ∈ take 12 (i_sectors i))
    by (rewrite <-(lookup_take_lt _ 12) in Hold by done; by eapply list_elem_of_lookup_2).
  assert (Holdt : taken (cur_part s) old) by by apply (da_taken _ _ _ _ Ha).
  assert (Hu32 : is_u32 (i_size i - 24)) by (pose proof (io_size _ Hok); unfold is_u32 in *; lia).
  assert (Hbu : is_u32 b').
  { destruct Hb' as [[-> _]|[-> _]]; [unfold is_u32; lia|]. by apply (taken_range (cur_part s)). }
  assert (Hres : inode_ok (resized i (i_size i - 24) (<[length ss1 := b']> (i_sectors i)))).
  { destruct Hok. split; cbn; [done|done|by rewrite length_insert|by apply Forall_insert]. }
  pose proof (inode_bytes_length _ Hres) as Hl76.
  assert (Hfr' : framed (λ k, in_bbm (cur_part s) k ∨ in_inode (cur_part s) (i_no i) k ∨ in_sector old k) (dev s) d').
  { eapply framed_trans; [eapply framed_mono, Hfr; naive_solver|]. eapply framed_wrote; [exact Hw|].
    intros k Hk. right. left. unfold in_inode. lia. }
  split; [|done|done| | | | |].
  - rewrite Hpl. apply (dir_at_update s _ h i _ ss1 es es' ss2 old b'); try done.
    + cbn. by rewrite lookup_insert_eq.
    + destruct (decide (b' = 0)) as [->|Hne].
      { unfold dir_sector in *. by rewrite decide_True in *. }
      destruct Hb' as [[? _]|[-> _]]; [done|]. eapply dir_sector_ext; [|exact Hsec]. intros k Hk. cbn.
      eapply (framed_wrote (in_inode (cur_part s) (i_no i))); [exact Hw|unfold in_inode; intros; lia|].
      eapply taken_inode; [done|exact Holdt|apply Hok|done].
    + intros b k Hb Hb0 Hbo Hk. apply Hfr'. pose proof (da_taken _ _ _ _ Ha b Hb Hb0) as Hbt.
      intros [Hbm|[Hin|Hk']]; [by apply (taken_bbm (cur_part s) b k)| |by apply (sector_apart b old k)].
      by apply (taken_inode (cur_part s) b (i_no i) k); [| |apply Hok| |].
    + intros b Hb Hb0 Hbo. apply Hkept; [|done]. by apply (da_taken _ _ _ _ Ha).
    + intros Hne. by destruct Hb' as [[? _]|[-> ?]].
    + destruct Hb' as [[-> _]|[-> _]]; auto.
  - intros x Hx Hxn. apply Hkept; [done|]. by intros ->.
  - intros x Hx Hxt. destruct Hb' as [[-> Hno]|[-> _]]; [|by rewrite list_insert_id].
    apply list_elem_of_lookup in Hx as (j & Hj). assert (Hj12 : (j < 12)%nat).
    { apply lookup_lt_Some in Hj. rewrite length_take in Hj. lia. }
    rewrite lookup_take_lt in Hj by done. destruct (decide (j = length ss1)) as [->|Hne].
    { rewrite Hj in Hold. injection Hold as ->. done. }
    apply (list_elem_of_lookup_2 _ j). rewrite lookup_take_lt by done. by rewrite list_lookup_insert_ne.
  - intros j x Hj. apply list_lookup_insert_Some in Hj as [(<- & <- & _)|[_ Hj]]; [|by right].
    destruct Hb' as [[-> _]|[-> _]]; [by left|by right].
  - rewrite <-(wrote_same _ _ _ _ Hw), Hl76. done.
  - eapply framed_mono, Hfr'. intros k [Hk|[Hk|Hk]]; auto. right. right. exists old. split; [|done].
    by apply list_elem_of_filter.
Qed.

Lemma scan_sector_all es rest no : Forall entry_wf es → length es = 21%nat →
  (length (filter (is_target no) es) ≤ 1)%nat →
  scan_sector (Z.to_nat 21) (entries_bytes es ++ rest) 0 no false 0 None = Ret (scanned es no 0 false 0 None).
Proof. intros Hes Hl Hone. apply (scan_sector_run es rest 21 0); [done|lia|lia|lia|]. by rewrite drop_0. Qed.

Lemma scanned_all es no : scanned es no 0 false 0 None =
  (bool_decide (Exists is_dot es), Z.of_nat (length (filter is_child es)), (λ p, Z.of_nat p.1) <$> list_find (is_target no) es).
Proof. unfold scanned. rewrite drop_0. by destruct (list_find _ es) as [[]|]. Qed.

(** The block with nothing but the entry is no block of the directory any more
    and free in the bitmap. *)
Lemma deleted_gone s h i ss no secs bm d' e k es b : deleted s h i ss no secs bm d' → dir_at s h i ss →
  filter (is_target no) (concat ss) = [e] → is_target no e → ss !! k = Some es → e ∈ es → gives_up es = true →
  i_sectors i !! k = Some b → secs !! k = Some 0 ∧ ¬ taken (part_blocks bm (cur_part s)) b.
Proof.
  intros Hdl Ha Hf Ht Hk He Hg Hb. pose proof (take_out_gone _ _ _ _ _ Hf Hk He Ht Hg) as Hgone.
  destruct (Forall2_lookup_r _ _ _ k [] (da_slots _ _ _ _ (dl_dir _ _ _ _ _ _ _ _ Hdl)) Hgone) as (b' & Hb' & Hsec).
  cbn [i_sectors resized inode_sized inode_sectored] in Hb'.
  assert (b' = 0) as ->. { apply dec_stable. intros Hne. unfold dir_sector in Hsec. rewrite decide_False in Hsec by done. by destruct Hsec. }
  assert (H12 : (k < 12)%nat) by (apply lookup_lt_Some in Hb'; rewrite length_take in Hb'; lia).
  rewrite lookup_take_lt in Hb' by done. split; [done|]. intros Htk.
  destruct (taken_range _ _ (dl_part _ _ _ _ _ _ _ _ Hdl) Htk) as (Hb0 & _).
  assert (Hbk : take 12 (i_sectors i) !! k = Some b) by by rewrite lookup_take_lt.
  pose proof (dl_gone _ _ _ _ _ _ _ _ Hdl b (list_elem_of_lookup_2 _ _ _ Hbk) Htk) as Hin.
  apply list_elem_of_lookup in Hin as (j & Hj). assert (Hj12 : (j < 12)%nat).
  { apply lookup_lt_Some in Hj. rewrite length_take in Hj. lia. }
  rewrite lookup_take_lt in Hj by done. destruct (decide (j = k)) as [->|Hne]; [rewrite Hb' in Hj; injection Hj as <-; lia|].
  destruct (dl_other _ _ _ _ _ _ _ _ Hdl j b Hj) as [->|Hj']; [lia|].
  pose proof (da_apart _ _ _ _ Ha) as Hnd. rewrite <-(take_drop_middle _ _ _ Hbk) in Hnd.
  apply (filter_apart _ _ b) in Hnd; [|lia]. apply Hnd.
  assert (Hjb : take 12 (i_sectors i) !! j = Some b) by by rewrite lookup_take_lt.
  apply elem_of_app. destruct (decide (j < k)%nat).
  - left. apply (list_elem_of_lookup_2 _ j). by rewrite lookup_take_lt.
  - right. apply (list_elem_of_lookup_2 _ (j - S k)). rewrite lookup_drop, <-Hjb. f_equal. lia.
Qed.

Section delete_step.
Context (s : fs D) (h : Z) (i : inode) (ss1 : list (list dir_entry)) (es : list dir_entry)
  (ss2 : list (list dir_entry)) (no : Z) (b : Z) (blocks : list Z) (io : list Z).
Context (Hd : bd_inv (dev s)) (Hp : part_ok (cur_part s)) (H24 : dir_entry_size (sb (cur_part s)) = 24)
  (Ha : dir_at s h i (ss1 ++ es :: ss2)) (Hio : length io = 1024%nat)
  (Hb : i_sectors i !! length ss1 = Some b) (H12 : (length ss1 < 12)%nat) (Hb0 : b ≠ 0)
  (Hone : (length (filter (is_target no) es) ≤ 1)%nat)
  (Hroot : root_dots (cur_part s) i (ss1 ++ es :: ss2)).

Abbreviation step := (delete_blocks (b :: blocks) h (Z.of_nat (length ss1)) 21 no io s).

Lemma delete_step_taken : taken (cur_part s) b ∧ dir_sector (dev s) b es.
Proof.
  assert (Hb' : take 12 (i_sectors i) !! length ss1 = Some b) by by rewrite lookup_take_lt.
  split; [apply (da_taken _ _ _ _ Ha); [by eapply list_elem_of_lookup_2|done]|].
  destruct (Forall2_lookup_r _ _ _ (length ss1) es (da_slots _ _ _ _ Ha)) as (b1 & Hb1 & Hes);
    [by rewrite list_lookup_middle|]. congruence.
Qed.

(** The sector in the buffer, with what the scan finds in it. *)
Lemma delete_step_read : ∃ rest d1, same_bytes (dev s) d1 ∧ length es = 21%nat ∧ Forall entry_wf es ∧
  length (entries_bytes es ++ rest) = 1024%nat ∧
  step = (match (λ p, Z.of_nat p.1) <$> list_find (is_target no) es with
    | None => delete_blocks blocks h (Z.of_nat (S (length ss1))) 21 no (entries_bytes es ++ rest)
    | Some k =>
      _ ← ASSERT (1 <=? Z.of_nat (length (filter is_child es)));
      io_buf ← (if gives_up es
        then _ ← drop_block h (Z.of_nat (length ss1)) b; mret (entries_bytes es ++ rest)
        else
          size ← entry_size;
          io_buf ← lift (put_bytes (entries_bytes es ++ rest) (24 * k) (replicate (Z.to_nat size) 0));
          _ ← disk_write b io_buf 1;
          mret io_buf);
      io_buf ← shrink_dir h io_buf;
      mret (true, io_buf)
    end) (with_dev d1 s).
Proof.
  destruct delete_step_taken as [Ht Hes]. cbn [delete_blocks]. rewrite (proj2 (Z.eqb_neq b 0)) by done.
  rewrite put_bytes_eq, bind_lift by (rewrite ?length_replicate; lia).
  assert (Hl1 : length (splice io 0 (replicate 512 0)) = 1024%nat)
    by (rewrite splice_length; rewrite ?length_replicate; lia).
  destruct (dir_sector_read s b es (splice io 0 (replicate 512 0))) as (rest & d1 & Hr & Hs1 & H21 & Hwfs & Hbl & _);
    [done..|lia|].
  exists rest, d1. split; [done|]. split; [done|]. split; [done|]. split; [lia|].
  rewrite (M_bind_Ret _ _ _ _ _ Hr), scan_sector_all, bind_lift, scanned_all by done.
  replace (Z.of_nat (length ss1) + 1) with (Z.of_nat (S (length ss1))) by lia.
  assert (Hg : (Z.of_nat (length (filter is_child es)) =? 1) && negb (bool_decide (Exists is_dot es)) = gives_up es).
  { unfold gives_up. rewrite bool_decide_not. f_equal. destruct (Nat.eqb_spec (length (filter is_child es)) 1), (Z.eqb_spec (Z.of_nat (length (filter is_child es))) 1); lia || done. }
  rewrite Hg. done.
Qed.

(** The block is given up, or the slot is cleared. *)
Lemma delete_step_write k x rest d1 : list_find (is_target no) es = Some (k, x) → same_bytes (dev s) d1 →
  length es = 21%nat → Forall entry_wf es → length (entries_bytes es ++ rest) = 1024%nat →
  ∃ io2 b' bm d2, (if gives_up es
      then _ ← drop_block h (Z.of_nat (length ss1)) b; mret (entries_bytes es ++ rest)
      else
        size ← entry_size;
        io_buf ← lift (put_bytes (entries_bytes es ++ rest) (24 * Z.of_nat k) (replicate (Z.to_nat size) 0));
        _ ← disk_write b io_buf 1;
        mret io_buf) (with_dev d1 s) =
      Ret (io2, grown s h i (<[length ss1 := b']> (i_sectors i)) bm d2) ∧
    length io2 = 1024%nat ∧ part_ok (part_blocks bm (cur_part s)) ∧
    (∀ x, taken (part_blocks bm (cur_part s)) x → taken (cur_part s) x) ∧
    (∀ x, taken (cur_part s) x → x ≠ b → taken (part_blocks bm (cur_part s)) x) ∧
    (b' = 0 ∧ ¬ taken (part_blocks bm (cur_part s)) b ∨ b' = b ∧ taken (part_blocks bm (cur_part s)) b) ∧
    dir_sector d2 b' (if gives_up es then [] else <[k := null_entry]> es) ∧
    framed (λ k, in_bbm (cur_part s) k ∨ in_sector b k) (dev s) d2.
Proof.
  intros Hf Hs1 H21 Hwfs Hl. destruct delete_step_taken as [Ht Hes]. destruct (taken_range _ _ Hp Ht) as (Hr0 & Hr1 & _).
  pose proof (da_inode _ _ _ _ Ha) as Hi. pose proof (io_len _ (da_ok _ _ _ _ Ha)) as H13.
  pose proof (proj1 (list_find_Some _ _ _ _) Hf) as (Hk & Hx & _). assert (Hkl := lookup_lt_Some _ _ _ Hk).
  destruct (gives_up es) eqn:Hg.
  - assert (Hns : b ≠ data_start_lba (sb (cur_part s))).
    { intros ->. apply andb_true_iff in Hg as [_ Hg%bool_decide_eq_true]. apply Hg, (Hroot (length ss1)); [done|].
      by rewrite list_lookup_middle. }
    destruct (drop_block_run (with_dev d1 s) h i (Z.of_nat (length ss1)) b) as (bm & d2 & Hr & Hf2 & Hfr);
      [apply Hs1|done|done|done|done|done|lia|]. rewrite (M_bind_Ret _ _ _ _ _ Hr), ret_eq, Nat2Z.id, grown_with_dev.
    exists (entries_bytes es ++ rest), 0, bm, d2. destruct Hf2 as [Hf2p Hf2o Hf2n]. split_and!; try done.
    + intros y Hy. by apply Hf2n.
    + left. split; [done|]. intros Hy. by destruct (Hf2n _ Hy).
    + eapply framed_trans; [by apply framed_same|]. eapply framed_mono, Hfr. by left.
  - rewrite (M_bind_Ret _ _ _ _ _ (entry_size_run (with_dev d1 s) H24)).
    change (replicate (Z.to_nat 24) 0) with (dir_entry_bytes null_entry).
    rewrite put_bytes_eq, bind_lift, entry_splice
      by (apply null_wf || done || (rewrite ?(dir_entry_bytes_length null_entry null_wf); lia)).
    assert (Hl2 : length (entries_bytes (<[k := null_entry]> es) ++ rest) = 1024%nat).
    { rewrite <-entry_splice by (done || apply null_wf).
      rewrite splice_length; [done|lia|rewrite ?(dir_entry_bytes_length null_entry null_wf); lia]. }
    destruct (disk_write_run (with_dev d1 s) b (entries_bytes (<[k := null_entry]> es) ++ rest) 1) as (d2 & Hw & Hwr);
      [apply Hs1|lia|lia|done|lia|]. rewrite (M_bind_Ret _ _ _ _ _ Hw), ret_eq.
    assert (Hpart : part_blocks (block_bitmap (cur_part s)) (cur_part s) = cur_part s) by by destruct (cur_part s).
    exists (entries_bytes (<[k := null_entry]> es) ++ rest), b, (block_bitmap (cur_part s)), d2. rewrite Hpart.
    split_and!; try done.
    + do 2 f_equal. unfold grown. rewrite Hpart, list_insert_id by done.
      rewrite insert_id by (by rewrite Hi; destruct i). by destruct s.
    + by right.
    + apply (dir_sector_wrote d1 d2 b _ rest); [by rewrite length_insert| |done|lia|done].
      apply Forall_insert; [done|apply null_wf].
    + eapply framed_trans; [by apply framed_same|]. eapply framed_wrote; [exact Hwr|].
      intros j Hj. right. unfold in_sector. rewrite length_take in Hj. lia.
Qed.

Lemma delete_step_hit k x : list_find (is_target no) es = Some (k, x) → i_no i < 256 →
  take_out no (ss1 ++ es :: ss2) = ss1 ++ take_out no (es :: ss2) →
  i_size i - 24 = 24 * Z.of_nat (length (used_entries (ss1 ++ take_out no (es :: ss2)))) →
  ∃ io' secs bm d', step = Ret ((true, io'), grown s h (inode_sized (i_size i - 24) i) secs bm d') ∧
    deleted s h i (ss1 ++ es :: ss2) no secs bm d'.
Proof.
  intros Hf Hno Hpl Hsz. destruct delete_step_read as (rest & d1 & Hs1 & H21 & Hwfs & Hl & ->).
  rewrite Hf. cbn [fmap option_fmap option_map fst].
  pose proof (proj1 (list_find_Some _ _ _ _) Hf) as (Hk & Hx & _).
  assert (Hcnt : (1 ≤ length (filter is_child es))%nat).
  { assert (Hin : x ∈ filter is_child es) by (apply list_elem_of_filter; split; [apply Hx|by eapply list_elem_of_lookup_2]).
    destruct (filter is_child es); [by apply elem_of_nil in Hin|cbn; lia]. }
  rewrite (proj2 (Z.leb_le 1 _)), bind_ASSERT_true by lia.
  destruct (delete_step_write k x rest d1 Hf Hs1 H21 Hwfs Hl) as (io2 & b' & bm & d2 & Hw & Hl2 & Hp2 & Ht1 & Ht2 & Hb' & Hsec & Hfr).
  rewrite (M_bind_Ret _ _ _ _ _ Hw). set (secs := <[length ss1 := b']> (i_sectors i)) in *.
  pose proof (da_ok _ _ _ _ Ha) as Hok.
  destruct (shrink_dir_run (grown s h i secs bm d2) h (inode_sectored secs i) io2) as (io3 & d3 & Hr3 & Hl3 & Hw3).
  - apply Hfr.
  - exact Hp2.
  - exact H24.
  - cbn. apply lookup_insert_eq.
  - destruct Hok. split; cbn; [done|done|by unfold secs; rewrite length_insert|]. apply Forall_insert; [done|].
    destruct Hb' as [[-> _]|[-> ?]]; [unfold is_u32; lia|]. by eapply taken_range.
  - exact Hno.
  - cbn. lia.
  - done.
  - rewrite (M_bind_Ret _ _ _ _ _ Hr3), ret_eq. exists io3, secs, bm, d3. split.
    + do 2 f_equal. unfold grown. cbn. by rewrite insert_insert_eq.
    + cbn [take_out] in Hpl, Hsz. rewrite Hf in Hpl, Hsz.
      by eapply (deleted_intro s h i ss1 es _ ss2 no b b' bm d2 d3).
Qed.
End delete_step.

Lemma deleted_same s d1 h i ss no secs bm d' : same_bytes (dev s) d1 →
  deleted (with_dev d1 s) h i ss no secs bm d' → deleted s h i ss no secs bm d'.
Proof.
  intros Hs [H1 H2 H3 H4 H5 H6 H7 H8]. rewrite grown_with_dev in H1. split; try done.
  eapply framed_trans; [by apply framed_same|exact H8].
Qed.

Lemma delete_blocks_run blocks tl s h i ss1 ss2 no e io : bd_inv (dev s) → part_ok (cur_part s) →
  dir_entry_size (sb (cur_part s)) = 24 → dir_at s h i (ss1 ++ ss2) → length io = 1024%nat → i_no i < 256 →
  drop (length ss1) (take 12 (i_sectors i)) = blocks → filter (is_target no) (concat ss2) = [e] →
  take_out no (ss1 ++ ss2) = ss1 ++ take_out no ss2 → root_dots (cur_part s) i (ss1 ++ ss2) →
  i_size i - 24 = 24 * Z.of_nat (length (used_entries (ss1 ++ take_out no ss2))) →
  ∃ io' secs bm d', delete_blocks (blocks ++ tl) h (Z.of_nat (length ss1)) 21 no io s =
      Ret ((true, io'), grown s h (inode_sized (i_size i - 24) i) secs bm d') ∧
    deleted s h i (ss1 ++ ss2) no secs bm d'.
Proof.
  revert s ss1 ss2 io. induction blocks as [|b blocks IH]; intros s ss1 ss2 io Hd Hp H24 Ha Hio Hno Hdrop Hf Hpl Hroot Hsz.
  { assert (Hl := Forall2_length _ _ _ (da_slots _ _ _ _ Ha)). apply (f_equal length) in Hdrop.
    rewrite length_drop, Hl, length_app in Hdrop. cbn in Hdrop. destruct ss2; [done|cbn in Hdrop; lia]. }
  assert (Hlk : take 12 (i_sectors i) !! length ss1 = Some b).
  { rewrite <-(Nat.add_0_r (length ss1)), <-lookup_drop, Hdrop. done. }
  assert (H12 : (length ss1 < 12)%nat) by (apply lookup_lt_Some in Hlk; rewrite length_take in Hlk; lia).
  assert (Hlk' := Hlk). rewrite lookup_take_lt in Hlk' by done.
  destruct (Forall2_lookup_l _ _ _ _ _ (da_slots _ _ _ _ Ha) Hlk) as (es & Hes & Hsec).
  destruct ss2 as [|es' ss2]; [done|]. rewrite list_lookup_middle in Hes by done. injection Hes as ->.
  cbn [concat] in Hf. rewrite filter_app in Hf.
  assert (Hone : (length (filter (is_target no) es) ≤ 1)%nat).
  { apply (f_equal length) in Hf. rewrite length_app in Hf. cbn in Hf. lia. }
  assert (Hnext : ∀ io' s', list_find (is_target no) es = None → bd_inv (dev s') → (∃ d1, same_bytes (dev s) d1 ∧ s' = with_dev d1 s) →
    length io' = 1024%nat →
    ∃ io2 secs bm d', delete_blocks (blocks ++ tl) h (Z.of_nat (S (length ss1))) 21 no io' s' =
        Ret ((true, io2), grown s h (inode_sized (i_size i - 24) i) secs bm d') ∧
      deleted s h i (ss1 ++ es :: ss2) no secs bm d').
  { intros io' s' Hn Hd' (d1 & Hs1 & ->) Hio'. cbn [take_out] in Hpl, Hsz. rewrite Hn in Hpl, Hsz.
    apply list_find_None in Hn. rewrite list_filter_none in Hf by (intros x Hx; by apply (proj1 (Forall_forall _ _) Hn)).
    replace (S (length ss1)) with (length (ss1 ++ [es])) by (rewrite length_app; cbn; lia).
    destruct (IH (with_dev d1 s) (ss1 ++ [es]) ss2 io') as (io2 & secs & bm & d' & Hr & Hdl); try done.
    - rewrite <-app_assoc. by apply dir_at_same.
    - rewrite length_app. cbn [length]. rewrite <-drop_drop, Hdrop. done.
    - by rewrite <-!app_assoc.
    - by rewrite <-app_assoc.
    - by rewrite <-app_assoc.
    - rewrite <-app_assoc in Hdl. exists io2, secs, bm, d'. rewrite Hr, grown_with_dev. split; [done|].
      by eapply deleted_same. }
  destruct (decide (b = 0)) as [->|Hb0].
  - unfold dir_sector in Hsec. rewrite decide_True in Hsec by done. cbn [app delete_blocks].
    change (0 =? 0) with true. cbv iota. replace (Z.of_nat (length ss1) + 1) with (Z.of_nat (S (length ss1))) by lia.
    apply Hnext; [by rewrite Hsec|done| |done]. exists (dev s). split; [by apply same_bytes_refl|by destruct s].
  - cbn [app]. destruct (list_find (is_target no) es) as [[k x]|] eqn:Hfind; [by eapply delete_step_hit|].
    edestruct (delete_step_read s h i ss1 es ss2 no b (blocks ++ tl) io) as (rest & d1 & Hs1 & H21 & Hwfs & Hl & ->); try done.
    rewrite Hfind. cbn [fmap option_fmap option_map]. apply Hnext; [done|apply Hs1|by exists d1|done].
Qed.

Lemma delete_dir_entry_run s p h pos i ss no e io : bd_inv (dev s) → part_ok (cur_part s) →
  dir_entry_size (sb (cur_part s)) = 24 → dirs s !! p = Some (Dir h pos) → dir_at s h i ss → length io = 1024%nat →
  i_no i < 256 → dots_ok ss → root_dots (cur_part s) i ss → filter (is_target no) (concat ss) = [e] →
  ∃ io' secs bm d', delete_dir_entry p no io s =
      Ret ((true, io'), grown s h (inode_sized (i_size i - 24) i) secs bm d') ∧
    deleted s h i ss no secs bm d'.
Proof.
  intros Hd Hp H24 Hdir Ha Hio Hno Hdots Hroot Hf. unfold delete_dir_entry.
  rewrite (M_bind_Ret _ _ _ _ _ (get_dir_run _ _ _ Hdir)). cbn [d_inode].
  rewrite (M_bind_Ret _ _ _ _ _ (all_blocks_of_run _ _ _ _ Ha)), (M_bind_Ret _ _ _ _ _ (entry_cnt_run s H24)).
  assert (Hin : e ∈ filter (is_target no) (concat ss)) by (rewrite Hf; left). apply list_elem_of_filter in Hin as [Ht Hin].
  pose proof (Permutation_length (used_take_out no ss e Hdots Hin Ht Hf)) as Hlen. cbn [length] in Hlen.
  apply (delete_blocks_run (take 12 (i_sectors i)) _ s h i [] ss no e io); try done.
  cbn [app]. rewrite (da_size _ _ _ _ Ha). lia.
Qed.
End delete.
