(* ===== verification/File.v ===== *)
(** * Opening, creating and closing files (fs/file.c)

    The global table of open files, the running thread's table of
    descriptors, and the functions that fill and clear them. *)

From Stdlib Require Import ZArith Lia.
From stdpp Require Import base numbers list gmap.
From S2P Require Import Prelude Bitmap DList CString Path Disk Inode FileData Dir.

Definition O_RDONLY : Z := 0.
Definition O_WRONLY : Z := 1.
Definition O_RDWR : Z := 2.
Definition O_CREAT : Z := 4.

(** The first index from [idx] on that satisfies [P]. *)
Fixpoint find_from {A} (P : A → bool) (l : list A) (idx : Z) : option Z :=
  match l with
  | [] => None
  | x :: l => if P x then Some idx else find_from P l (idx + 1)
  end.

Section ops.
Context {D : Type} {BD : BlockDev D}.
Abbreviation F := (M (fs D)).

(** The first three slots are reserved; -1 when all are in use. *)
Definition get_free_slot_in_global : F Z :=
  l ← gets file_table;
  mret (match find_from (λ f, fd_inode f =? 0) (drop 3 l) 3 with Some fd => fd | None => -1 end).

Definition pcb_fd_install (global_fd_idx : Z) : F Z :=
  l ← gets fd_table;
  match find_from (λ x, x =? -1) (drop 3 l) 3 with
  | None => mret (-1)
  | Some fd => l ← lift (store l fd global_fd_idx); _ ← modify (with_fds l); mret fd
  end.

(** [flag & O_WRONLY || flag & O_RDWR] *)
Definition writes (flag : Z) : bool := negb (Z.land flag O_WRONLY =? 0) || negb (Z.land flag O_RDWR =? 0).

(** The steps of [file_create] once the inode has its slot. *)
Definition file_create_entry (parent_dir : Z) (name : list Z) (inode_no fd_idx h : Z) (io_buf : list Z) : F Z :=
  de ← lift (create_dir_entry name inode_no FT_REGULAR (DirEntry (replicate 16 0) 0 0));
  '(ok, _) ← sync_dir_entry parent_dir de io_buf;
  if negb ok then
    _ ← set_file fd_idx (File 0 0 0);
    _ ← modify (λ s, with_inodes (delete h (inodes s)) s);
    _ ← inode_bitmap_set inode_no 0;
    mret (-1)
  else
    d ← get_dir parent_dir;
    _ ← inode_sync (d_inode d) (replicate 1024 0);
    _ ← inode_sync h (replicate 1024 0);
    _ ← bitmap_sync inode_no INODE_BITMAP;
    _ ← upd_part (λ p, part_open (h :: open_inodes p) p);
    _ ← upd_inode h (inode_opened 1);
    pcb_fd_install fd_idx.

Definition file_create (parent_dir : Z) (name : list Z) (flag : Z) : F Z :=
  ob ← kmalloc 1024;
  match ob with None => mret (-1) | Some io_buf =>
  inode_no ← inode_bitmap_alloc;
  if inode_no =? -1 then mret (-1) else
  ok ← mem_ok;
  if negb ok then _ ← inode_bitmap_set inode_no 0; mret (-1) else
  fd_idx ← get_free_slot_in_global;
  if fd_idx =? -1 then _ ← inode_bitmap_set inode_no 0; mret (-1) else
  h ← gets next_inode;
  _ ← modify (with_next (h + 1));
  _ ← set_inode h (inode_init inode_no);
  _ ← set_file fd_idx (File 0 flag h);
  file_create_entry parent_dir name inode_no fd_idx h io_buf
  end.

Definition file_open (inode_no flag : Z) : F Z :=
  fd_idx ← get_free_slot_in_global;
  if fd_idx =? -1 then mret (-1) else
  h ← inode_open inode_no;
  _ ← set_file fd_idx (File 0 flag h);
  i ← get_inode h;
  if writes flag then
    if write_deny i then mret (-1)
    else _ ← set_inode h (inode_deny true i); pcb_fd_install fd_idx
  else pcb_fd_install fd_idx.

Definition file_close (fd_idx : Z) : F Z :=
  f ← get_file fd_idx;
  _ ← upd_inode (fd_inode f) (inode_deny false);
  _ ← inode_close (fd_inode f);
  _ ← set_file fd_idx (File (fd_pos f) (fd_flag f) 0);
  mret 0.
End ops.
