(* ===== verification/Fs.v ===== *)
(** * The file system calls (fs/fs.c)

    Path lookup and the system calls on files and directories. Messages on the
    console are left out, except what [sys_write] prints. *)

From Stdlib Require Import ZArith Lia.
From stdpp Require Import base numbers list gmap.
From S2P Require Import Prelude Bitmap DList CString Path Disk Inode FileData Dir File.

Definition SEEK_SET : Z := 1.
Definition SEEK_CUR : Z := 2.
Definition SEEK_END : Z := 3.

(** [struct path_search_record] *)
Record path_search_record := Searched { searched_path : list Z; parent_dir : Z; file_type : Z }.

Record stat := Stat { st_ino : Z; st_size : Z; st_filetype : Z }.

(** [strrchr(path, '/') + 1] *)
Definition last_name (path : list Z) : outcome (list Z) :=
  p ← strrchr path 47;
  match p with None => Fault | Some o => Ret (drop (Z.to_nat (o + 1)) path) end.

(** Whether the path is "/", "/." or "/..". *)
Definition is_root (path : list Z) : outcome bool :=
  a ← strcmp path [47; 0];
  if a =? 0 then Ret true else
  b ← strcmp path [47; 46; 0];
  if b =? 0 then Ret true else
  c ← strcmp path [47; 46; 46; 0];
  Ret (c =? 0).

Section ops.
Context {D : Type} {BD : BlockDev D}.
Abbreviation F := (M (fs D)).

(** The end of a path that is a directory: its parent is opened again. *)
Definition search_done (parent_inode_no : Z) (dir_e : option dir_entry) (rec : path_search_record)
    : F (Z * path_search_record) :=
  _ ← dir_close (parent_dir rec);
  p ← dir_open parent_inode_no;
  match dir_e with
  | None => lift Fault
  | Some e => mret (i32 (de_i_no e), Searched (searched_path rec) p FT_DIRECTORY)
  end.

(** [while (name[0])]; every turn takes a component off the path. *)
Fixpoint search_loop (fuel : nat) (sub_path : option (list Z)) (name : list Z) (parent_inode_no : Z)
    (dir_e : option dir_entry) (rec : path_search_record) : F (Z * path_search_record) :=
  match fuel with
  | O => lift Spin
  | S fuel =>
    c ← lift (load name 0);
    if c =? 0 then search_done parent_inode_no dir_e rec else
    n ← lift (strlen (searched_path rec));
    _ ← ASSERT (n <? 512);
    sp ← lift (strcat (searched_path rec) [47; 0]);
    sp ← lift (strcat sp name);
    let rec := Searched sp (parent_dir rec) (file_type rec) in
    r ← search_dir_entry (parent_dir rec) name;
    match r with
    | None => mret (-1, rec)
    | Some e =>
      '(sub_path, name) ← lift (parse_next sub_path (replicate 16 0));
      if f_type e =? FT_DIRECTORY then
        d ← get_dir (parent_dir rec);
        i ← get_inode (d_inode d);
        _ ← dir_close (parent_dir rec);
        p ← dir_open (de_i_no e);
        search_loop fuel sub_path name (i_no i) (Some e) (Searched sp p (file_type rec))
      else if f_type e =? FT_REGULAR then
        mret (i32 (de_i_no e), Searched sp (parent_dir rec) FT_REGULAR)
      else search_loop fuel sub_path name parent_inode_no (Some e) rec
    end
  end.

(** The inode number or -1, and the record, which was zeroed by the caller. *)
Definition search_file (pathname : list Z) : F (Z * path_search_record) :=
  root ← lift (is_root pathname);
  if root : bool then mret (0, Searched (replicate 512 0) root_dir FT_DIRECTORY) else
  path_len ← lift (strlen pathname);
  c ← lift (load pathname 0);
  _ ← ASSERT ((c =? 47) && (1 <? path_len) && (path_len <? MAX_PATH_LEN));
  '(sub_path, name) ← lift (path_parse pathname (replicate 16 0));
  search_loop (S (length pathname)) sub_path name 0 None (Searched (replicate 512 0) root_dir FT_UNKNOWN).

(** Closes the parent directory and fails. *)
Definition fail_close (rec : path_search_record) : F Z := _ ← dir_close (parent_dir rec); mret (-1).

(** [stk] is the memory on the stack in which [path_depth_cnt] keeps names. *)
Definition sys_open (stk pathname : list Z) (flags : Z) : F Z :=
  n ← lift (strlen pathname);
  c ← lift (load pathname (n - 1));
  if c =? 47 then mret (-1) else
  _ ← ASSERT (flags <=? 7);
  pathname_depth ← lift (path_depth_cnt stk pathname);
  '(inode_no, rec) ← search_file pathname;
  let found := negb (inode_no =? -1) in
  if file_type rec =? FT_DIRECTORY then fail_close rec else
  path_searched_depth ← lift (path_depth_cnt stk (searched_path rec));
  if negb (pathname_depth =? path_searched_depth) then fail_close rec else
  let creat := negb (Z.land flags O_CREAT =? 0) in
  if negb found && negb creat then fail_close rec
  else if found && creat then fail_close rec
  else if creat then
    name ← lift (last_name pathname);
    fd ← file_create (parent_dir rec) name flags;
    _ ← dir_close (parent_dir rec);
    mret fd
  else file_open inode_no flags.

Definition fd_local2global (local_fd : Z) : F Z :=
  l ← gets fd_table;
  g ← lift (load l local_fd);
  _ ← ASSERT ((0 <=? g) && (g <? MAX_FILE_OPEN));
  mret g.

Definition sys_close (fd : Z) : F Z :=
  if 2 <? fd then
    g ← fd_local2global fd;
    ret ← file_close g;
    l ← gets fd_table;
    l ← lift (store l fd (-1));
    _ ← modify (with_fds l);
    mret ret
  else mret (-1).

(** [console_put_str(tmp_buf)] *)
Definition print (buf : list Z) : F unit :=
  n ← lift (strlen buf);
  modify (λ s, with_session (Session (cwd_inode_nr (fs_session s)) (tty_in (fs_session s))
    (tty_out (fs_session s) ++ take (Z.to_nat n) buf)) s).

Definition sys_write (fd : Z) (buf : list Z) (count : Z) : F Z :=
  if fd <? 0 then mret (-1)
  else if fd =? 1 then
    tmp_buf ← lift (memcpy (replicate 1024 0) buf count);
    _ ← print tmp_buf;
    mret (i32 count)
  else
    g ← fd_local2global fd;
    f ← get_file g;
    if writes (fd_flag f) then file_write g buf count else mret (-1).

(** [ioq_getchar(&kbd_buf)] waits for a key. *)
Definition getchar : F Z :=
  x ← gets fs_session;
  match tty_in x with
  | [] => lift Spin
  | c :: l => _ ← modify (with_session (Session (cwd_inode_nr x) l (tty_out x))); mret c
  end.
Fixpoint read_keys (n : nat) (buf : list Z) (pos : Z) : F (list Z) :=
  match n with
  | O => mret buf
  | S n => c ← getchar; buf ← lift (store buf pos c); read_keys n buf (pos + 1)
  end.

Definition sys_read (fd : Z) (buf : list Z) (count : Z) : F (list Z * Z) :=
  if (fd <? 0) || (fd =? 1) || (fd =? 2) then mret (buf, -1)
  else if fd =? 0 then
    buf ← read_keys (Z.to_nat count) buf 0;
    mret (buf, if count =? 0 then -1 else i32 count)
  else
    g ← fd_local2global fd;
    file_read g buf count.

Definition sys_lseek (fd offset whence : Z) : F Z :=
  if fd <? 0 then mret (-1) else
  _ ← ASSERT ((0 <? whence) && (whence <? 4));
  g ← fd_local2global fd;
  f ← get_file g;
  i ← get_inode (fd_inode f);
  let file_size := i32 (i_size i) in
  let new_pos := if whence =? SEEK_SET then offset
    else if whence =? SEEK_CUR then i32 (i32 (fd_pos f) + offset)
    else i32 (file_size + offset) in
  if (new_pos <? 0) || (i32 (file_size - 1) <? new_pos) then mret (-1) else
  _ ← set_pos g new_pos;
  mret new_pos.

(** Whether an open file of the list has this inode. *)
Fixpoint in_use (l : list file) (inode_no : Z) : F bool :=
  match l with
  | [] => mret false
  | f :: l =>
    if fd_inode f =? 0 then in_use l inode_no
    else i ← get_inode (fd_inode f); if u32 inode_no =? i_no i then mret true else in_use l inode_no
  end.

Definition sys_unlink (pathname : list Z) : F Z :=
  n ← lift (strlen pathname);
  _ ← ASSERT (n <? MAX_PATH_LEN);
  '(inode_no, rec) ← search_file pathname;
  _ ← ASSERT (negb (inode_no =? 0));
  if inode_no =? -1 then fail_close rec
  else if file_type rec =? FT_DIRECTORY then fail_close rec
  else
    l ← gets file_table;
    busy ← in_use l inode_no;
    if busy : bool then fail_close rec else
    ob ← kmalloc (SECTOR_SIZE + SECTOR_SIZE);
    match ob with
    | None => fail_close rec
    | Some io_buf =>
      _ ← delete_dir_entry (parent_dir rec) inode_no io_buf;
      _ ← inode_release inode_no;
      _ ← dir_close (parent_dir rec);
      mret 0
    end.

(** The sector with the entries "." and "..". *)
Definition dot_entries (self parent : Z) : list Z :=
  dir_entry_bytes (DirEntry (46 :: replicate 15 0) self FT_DIRECTORY) ++
  dir_entry_bytes (DirEntry (46 :: 46 :: replicate 14 0) parent FT_DIRECTORY).

(** Undoing the allocation of the inode. *)
Definition mkdir_undo (inode_no : Z) (rec : path_search_record) : F Z :=
  _ ← inode_bitmap_set inode_no 0; fail_close rec.

Definition mkdir_new (dirname : list Z) (rec : path_search_record) : F Z :=
  inode_no ← inode_bitmap_alloc;
  if inode_no =? -1 then fail_close rec else
  block_lba ← block_bitmap_alloc;
  if block_lba =? -1 then mkdir_undo inode_no rec else
  p ← gets cur_part;
  _ ← ASSERT (negb (u32 (block_lba - data_start_lba (sb p)) =? 0));
  _ ← sync_block block_lba;
  pd ← get_dir (parent_dir rec);
  pi ← get_inode (d_inode pd);
  io_buf ← lift (put_bytes (replicate 1024 0) 0 (dot_entries inode_no (i_no pi)));
  _ ← disk_write (u32 block_lba) io_buf 1;
  size ← entry_size;
  let new_dir_inode := Inode inode_no (u32 (2 * size)) 0 false (<[0%nat := u32 block_lba]> (replicate 13 0)) in
  de ← lift (create_dir_entry dirname inode_no FT_DIRECTORY (DirEntry (replicate 16 0) 0 0));
  '(ok, _) ← sync_dir_entry (parent_dir rec) de (replicate 1024 0);
  if negb ok then mkdir_undo inode_no rec else
  _ ← inode_sync (d_inode pd) (replicate 1024 0);
  _ ← inode_sync_of new_dir_inode (replicate 1024 0);
  _ ← bitmap_sync inode_no INODE_BITMAP;
  _ ← dir_close (parent_dir rec);
  mret 0.

Definition sys_mkdir (stk pathname : list Z) : F Z :=
  ob ← kmalloc (SECTOR_SIZE * 2);
  match ob with None => mret (-1) | Some _ =>
  '(inode_no, rec) ← search_file pathname;
  if negb (inode_no =? -1) then fail_close rec else
  pathname_depth ← lift (path_depth_cnt stk pathname);
  path_searched_depth ← lift (path_depth_cnt stk (searched_path rec));
  if negb (pathname_depth =? path_searched_depth) then fail_close rec else
  dirname ← lift (last_name (searched_path rec));
  mkdir_new dirname rec
  end.

(** The guard tests [name[0]] twice, so only "/" is recognised. *)
Definition sys_opendir (name : list Z) : F Z :=
  n ← lift (strlen name);
  _ ← ASSERT (n <? MAX_PATH_LEN);
  c0 ← lift (load name 0);
  c1 ← lift (if c0 =? 47 then load name 1 else Ret 0);
  if (c0 =? 47) && ((c1 =? 0) || (c0 =? 46)) then mret root_dir else
  '(inode_no, rec) ← search_file name;
  ret ← (if inode_no =? -1 then mret 0
    else if file_type rec =? FT_REGULAR then mret 0
    else if file_type rec =? FT_DIRECTORY then dir_open inode_no
    else mret 0);
  _ ← dir_close (parent_dir rec);
  mret ret.

Definition sys_closedir (pdir : Z) : F Z :=
  _ ← (if negb (pdir =? 0) then dir_close pdir else mret ()); mret 0.

Definition sys_readdir (pdir : Z) : F (option dir_entry) :=
  _ ← ASSERT (negb (pdir =? 0)); dir_read pdir.

Definition sys_rewinddir (pdir : Z) : F unit := d ← get_dir pdir; set_dir pdir (Dir (d_inode d) 0).

Definition sys_rmdir (pathname : list Z) : F Z :=
  '(inode_no, rec) ← search_file pathname;
  _ ← ASSERT (negb (inode_no =? 0));
  ret ← (if inode_no =? -1 then mret (-1)
    else if file_type rec =? FT_REGULAR then mret (-1)
    else
      pdir ← dir_open inode_no;
      empty ← dir_is_empty pdir;
      ret ← (if negb empty then mret (-1)
        else r ← dir_remove (parent_dir rec) pdir; mret (if r =? 0 then 0 else -1));
      _ ← dir_close pdir;
      mret ret);
  _ ← dir_close (parent_dir rec);
  mret ret.

(** The inode number in the entry "..", and the sector it is in. *)
Definition get_parent_dir_inode_nr (child_inode_nr : Z) (io_buf : list Z) : F (Z * list Z) :=
  h ← inode_open child_inode_nr;
  block_lba ← get_sector h 0;
  p ← gets cur_part;
  _ ← ASSERT (data_start_lba (sb p) <=? block_lba);
  _ ← inode_close h;
  io_buf ← disk_read block_lba io_buf 1;
  no ← lift (get_u32 io_buf (24 + 16));
  ft ← lift (get_u32 io_buf (24 + 20));
  _ ← ASSERT ((no <? 4096) && (ft =? FT_DIRECTORY));
  mret (no, io_buf).

Fixpoint child_entry (n : nat) (buf : list Z) (idx c_inode_nr : Z) : outcome (option Z) :=
  match n with
  | O => Ret None
  | S n =>
    no ← get_u32 buf (24 * idx + 16);
    if no =? c_inode_nr then Ret (Some idx) else child_entry n buf (idx + 1) c_inode_nr
  end.

(** The path with the child's name appended, [None] when it is not there. *)
Fixpoint child_name (blocks : list Z) (cnt c_inode_nr : Z) (path io_buf : list Z)
    : F (option (list Z) * list Z) :=
  match blocks with
  | [] => mret (None, io_buf)
  | b :: blocks =>
    if b =? 0 then child_name blocks cnt c_inode_nr path io_buf
    else
      io_buf ← disk_read b io_buf 1;
      r ← lift (child_entry (Z.to_nat cnt) io_buf 0 c_inode_nr);
      match r with
      | Some idx =>
        path ← lift (strcat path [47; 0]);
        path ← lift (strcat path (name_at io_buf (24 * idx)));
        mret (Some path, io_buf)
      | None => child_name blocks cnt c_inode_nr path io_buf
      end
  end.

Definition get_child_dir_name (p_inode_nr c_inode_nr : Z) (path io_buf : list Z)
    : F (option (list Z) * list Z) :=
  h ← inode_open p_inode_nr;
  ind ← get_sector h 12;
  all_blocks ← all_blocks_of h;
  _ ← inode_close h;
  cnt ← entry_cnt;
  child_name (if ind =? 0 then take 12 all_blocks else all_blocks) cnt c_inode_nr path io_buf.

(** Up to the root; every step lengthens the path, which has 512 bytes. *)
Fixpoint cwd_loop (fuel : nat) (child_inode_nr : Z) (path io_buf : list Z) : F (option (list Z)) :=
  match fuel with
  | O => lift Spin
  | S fuel =>
    if child_inode_nr =? 0 then mret (Some path) else
    '(parent_inode_nr, io_buf) ← get_parent_dir_inode_nr child_inode_nr io_buf;
    '(r, io_buf) ← get_child_dir_name parent_inode_nr child_inode_nr path io_buf;
    match r with
    | None => mret None
    | Some path => cwd_loop fuel parent_inode_nr path io_buf
    end
  end.

(** The components are moved to [buf] in reverse order. *)
Fixpoint reverse_path (fuel : nat) (full buf : list Z) : outcome (list Z) :=
  match fuel with
  | O => Spin
  | S fuel =>
    p ← strrchr full 47;
    match p with
    | None => Ret buf
    | Some o =>
      len ← strlen buf;
      let len := u16 len in
      tail ← strcpy (drop (Z.to_nat len) buf) (drop (Z.to_nat o) full);
      full ← store full o 0;
      reverse_path fuel full (take (Z.to_nat len) buf ++ tail)
    end
  end.

(** [None] for NULL; [buf] has [size] bytes. *)
Definition sys_getcwd (buf : list Z) (size : Z) : F (option (list Z)) :=
  ob ← kmalloc SECTOR_SIZE;
  match ob with None => mret None | Some io_buf =>
  x ← gets fs_session;
  let child := cwd_inode_nr x in
  _ ← ASSERT ((0 <=? child) && (child <? 4096));
  if child =? 0 then
    buf ← lift (store buf 0 47);
    buf ← lift (store buf 1 0);
    mret (Some buf)
  else
    buf ← lift (memset buf 0 size);
    r ← cwd_loop 513 child (replicate 512 0) io_buf;
    match r with
    | None => mret None
    | Some full =>
      n ← lift (strlen full);
      _ ← ASSERT (n <=? size);
      buf ← lift (reverse_path 513 full buf);
      mret (Some buf)
    end
  end.

Definition sys_chdir (path : list Z) : F Z :=
  '(inode_no, rec) ← search_file path;
  ret ← (if negb (inode_no =? -1) && (file_type rec =? FT_DIRECTORY) then
      _ ← modify (λ s, with_session (Session inode_no (tty_in (fs_session s)) (tty_out (fs_session s))) s);
      mret 0
    else mret (-1));
  _ ← dir_close (parent_dir rec);
  mret ret.

Definition sys_stat (path : list Z) (buf : stat) : F (stat * Z) :=
  root ← lift (is_root path);
  if root : bool then
    d ← get_dir root_dir;
    i ← get_inode (d_inode d);
    mret (Stat 0 (i_size i) FT_DIRECTORY, 0)
  else
    '(inode_no, rec) ← search_file path;
    r ← (if negb (inode_no =? -1) then
        h ← inode_open inode_no;
        i ← get_inode h;
        _ ← inode_close h;
        mret (Stat (u32 inode_no) (i_size i) (file_type rec), 0)
      else mret (buf, -1));
    _ ← dir_close (parent_dir rec);
    mret r.
End ops.
