(* ===== verification/Directory.v ===== *)
(** * What the directory operations promise

    Lookup, listing, adding and deleting, stated on the list of the slots, with
    directories of three and four entries as examples, one with a table of
    indirect blocks and one with a block that is given up. *)

From Stdlib Require Import ZArith Lia.
From stdpp Require Import base numbers list gmap.
From S2P Require Import Prelude Bitmap DList CString Path Disk Inode FileData Dir File Fs DirSpec DirUpdate DirDelete.

(** ** Searching changed slots *)

Lemma list_find_unique (P : dir_entry → Prop) `{!∀ x, Decision (P x)} (l : list dir_entry) e :
  e ∈ l → P e → (∀ x, x ∈ l → P x → x = e) → snd <$> list_find P l = Some e.
Proof.
  intros He HP Hu. destruct (list_find P l) as [[k x]|] eqn:Hf.
  - apply list_find_Some in Hf as (Hk & Hx & _). cbn. f_equal. apply Hu; [by eapply list_elem_of_lookup_2|done].
  - apply list_find_None in Hf. by destruct (proj1 (Forall_forall _ _) Hf e He).
Qed.

Lemma search_place e ss nm : has_room ss → name_of e = nm → nm ≠ [] → (∀ x, x ∈ concat ss → name_of x ≠ nm) →
  snd <$> list_find (λ x, name_of x = nm) (concat (place e ss)) = Some e.
Proof.
  intros Hr He Hnm Hn. apply list_find_unique; [by apply place_elem|done|].
  intros x Hx Hxn. apply elem_of_place in Hx as [->|[->|Hx]]; [done|cbn in Hxn; by destruct nm|by destruct (Hn x Hx)].
Qed.

Lemma search_take_out no e ss : dots_ok ss → filter (is_target no) (concat ss) = [e] → name_of e ≠ [] →
  (∀ x, x ∈ concat ss → name_of x = name_of e → x = e) →
  list_find (λ x, name_of x = name_of e) (concat (take_out no ss)) = None.
Proof.
  intros Hok Hf Hnm Hu. assert (Hin : e ∈ filter (is_target no) (concat ss)) by (rewrite Hf; left).
  apply list_elem_of_filter in Hin as [Ht Hin].
  apply list_find_None, Forall_forall. intros x Hx Hxn.
  destruct (elem_of_take_out _ _ _ Hx) as [->|Hx2]; [by apply Hnm|]. assert (x = e) as -> by auto.
  pose proof (used_take_out no ss e Hok Hin Ht Hf) as Hp. apply (filter_Permutation (is_target no)) in Hp.
  unfold used_entries in Hp. rewrite filter_cons_True in Hp by done.
  rewrite !list_filter_filter_l, Hf in Hp by (intros y Hy; apply Hy). apply Permutation_length in Hp. cbn [length] in Hp.
  assert (He : e ∈ filter (is_target no) (concat (take_out no ss))) by by apply list_elem_of_filter.
  destruct (filter (is_target no) (concat (take_out no ss))); [by apply elem_of_nil in He|cbn in Hp; lia].
Qed.

(** ** Properties *)

Section properties.
Context {D : Type} {BD : BlockDev D} {BS : BlockDevSpec D}.
Implicit Types s : fs D.
Implicit Types ss : list (list dir_entry).

(** C23: [search_dir_entry] gives the first slot of the directory with the name,
    in the order of its 140 blocks, those of the table of indirect blocks
    included, or fails when there is none; it only reads. *)
Theorem dir_search_correct s p h pos i tb ss nm tl : bd_inv (dev s) → part_ok (cur_part s) →
  dir_entry_size (sb (cur_part s)) = 24 → fs_mem s = [] → dirs s !! p = Some (Dir h pos) → dir_all s h i tb ss →
  str_ok nm →
  ∃ d', search_dir_entry p (nm ++ 0 :: tl) s =
      Ret (snd <$> list_find (λ e, name_of e = nm) (concat ss), with_dev d' s) ∧ same_bytes (dev s) d'.
Proof. apply search_all_run. Qed.

(** C22: after [sys_rewinddir], reading a directory until NULL ends and gives the
    used entries of its 140 blocks, those of the table of indirect blocks
    included, each once and in the order of the slots. *)
Theorem dir_listing_correct s p h pos i tb ss : bd_inv (dev s) → part_ok (cur_part s) →
  dir_entry_size (sb (cur_part s)) = 24 → dirs s !! p = Some (Dir h pos) → dir_all s h i tb ss →
  ∃ s', (_ ← sys_rewinddir p; read_entries (S (length (used_entries ss))) p) s = Ret (used_entries ss, s') ∧
    same_bytes (dev s) (dev s').
Proof.
  intros Hd Hp H24 Hdir Ha. unfold sys_rewinddir. rewrite bind_assoc.
  rewrite (M_bind_Ret _ _ _ _ _ (get_dir_run _ _ _ Hdir)). unfold set_dir. rewrite bind_modify.
  set (s1 := with_dirs _ s). apply (read_entries_run _ s1 p h i tb ss 0); try done; [|destruct Ha; by split|lia].
  cbn. apply lookup_insert_eq.
Qed.

(** C20: a directory without a table of indirect blocks and with room in its
    twelve direct ones takes an entry with a new name in the first free slot: the
    blocks before are full, in the block it is the first unused slot or the first
    of a new block, and every other slot is as it was. The used entries are the
    old ones and the new one, a lookup of the name gives it, and nothing outside
    the block bitmap and the directory's blocks has changed. *)
Theorem dir_insert_correct s p h pos i ss e nm tl io : bd_inv (dev s) → part_ok (cur_part s) →
  dir_entry_size (sb (cur_part s)) = 24 → fs_mem s = [] → dirs s !! p = Some (Dir h pos) → dir_at s h i ss →
  is_used e → entry_wf e → has_room ss → (512 ≤ length io)%nat → has_free (block_bitmap (cur_part s)) 1 →
  i_size i + 24 < 4294967296 → str_ok nm → name_of e = nm → nm ≠ [] → (∀ x, x ∈ concat ss → name_of x ≠ nm) →
  ∃ io' s' i' ss' d2, sync_dir_entry p e io s = Ret ((true, io'), s') ∧
    dir_at s' h i' ss' ∧ part_ok (cur_part s') ∧ first_free e ss ss' ∧ used_entries ss' ≡ₚ e :: used_entries ss ∧
    i_size i' = i_size i + 24 ∧ (∀ x, taken (cur_part s) x → taken (cur_part s') x) ∧
    framed (λ k, in_bbm (cur_part s) k ∨ in_blocks (filter (λ b, b ≠ 0) (take 12 (i_sectors i'))) k) (dev s) (dev s') ∧
    search_dir_entry p (nm ++ 0 :: tl) s' = Ret (Some e, with_dev d2 s').
Proof.
  intros Hd Hp H24 Hm Hdir Ha Hu Hwf Hroom Hio Hfree Hsz Hok Hnm Hne Hnew.
  destruct (sync_dir_entry_run s p h pos i ss e io) as (io' & secs & bm & d' & new & Hr & _ & []); [done..|].
  set (s' := grown s h _ secs bm d') in *.
  destruct (search_dir_entry_run s' p h pos (resized i (i_size i + 24) secs) (place e ss) nm tl) as (d2 & Hs & _);
    [apply sy_frame|done..|].
  exists io', s', (resized i (i_size i + 24) secs), (place e ss), d2. rewrite Hs, search_place by done.
  split_and!; try done; [by apply place_first|by apply used_place|apply sy_takes].
Qed.

(** C21: [delete_dir_entry] on a directory without a table of indirect blocks
    clears the slot of the one entry of the inode and no other. It is
    supposed that ".." lies beside ".", and that the first block of the data
    area, which is the root directory's, is the one with its ".". A block with "."
    in it or with another file stays; otherwise the block is given up: it has no
    slots, its address in the inode is 0 and its bit in the bitmap is free. The
    directory's inode is written back, the name is not found any more, and
    nothing else on the disk has changed. *)
Theorem dir_delete_correct s p h pos i ss no e tl io : bd_inv (dev s) → part_ok (cur_part s) →
  dir_entry_size (sb (cur_part s)) = 24 → fs_mem s = [] → dirs s !! p = Some (Dir h pos) → dir_at s h i ss →
  length io = 1024%nat → i_no i < 256 → dots_ok ss → root_dots (cur_part s) i ss →
  filter (is_target no) (concat ss) = [e] → name_of e ≠ [] →
  (∀ x, x ∈ concat ss → name_of x = name_of e → x = e) → entry_wf e →
  ∃ io' s' i' d2, delete_dir_entry p no io s = Ret ((true, io'), s') ∧
    dir_at s' h i' (take_out no ss) ∧ part_ok (cur_part s') ∧ used_entries ss ≡ₚ e :: used_entries (take_out no ss) ∧
    i_size i' = i_size i - 24 ∧ dbytes (dev s') (inode_addr (cur_part s') (i_no i)) 76 = inode_bytes i' ∧
    (∀ k es b, ss !! k = Some es → e ∈ es → gives_up es = true → i_sectors i !! k = Some b →
      i_sectors i' !! k = Some 0 ∧ ¬ taken (cur_part s') b) ∧
    (∀ x, taken (cur_part s) x → x ∉ take 12 (i_sectors i) → taken (cur_part s') x) ∧
    framed (λ k, in_bbm (cur_part s) k ∨ in_inode (cur_part s) (i_no i) k ∨
      in_blocks (filter (λ b, b ≠ 0) (take 12 (i_sectors i))) k) (dev s) (dev s') ∧
    search_dir_entry p (name_of e ++ 0 :: tl) s' = Ret (None, with_dev d2 s').
Proof.
  intros Hd Hp H24 Hm Hdir Ha Hio Hno Hdots Hroot Hf Hne Hu Hwf.
  assert (Hin : e ∈ filter (is_target no) (concat ss)) by (rewrite Hf; left).
  apply list_elem_of_filter in Hin as [Ht Hin].
  destruct (delete_dir_entry_run s p h pos i ss no e io) as (io' & secs & bm & d' & Hr & Hdl); [done..|].
  set (s' := grown s h _ secs bm d') in *. destruct (c_str_split (filename e)) as (ntl & _ & Hok); [apply Hwf..|].
  destruct (search_dir_entry_run s' p h pos (resized i (i_size i - 24) secs) (take_out no ss) (name_of e) tl)
    as (d2 & Hs & _); [apply Hdl|apply Hdl|done..|apply Hdl|done|].
  exists io', s', (resized i (i_size i - 24) secs), d2. rewrite Hs, search_take_out by done.
  split_and!; try done; [apply Hdl|apply Hdl|by apply used_take_out|apply Hdl| |apply Hdl|apply Hdl].
  intros k es b Hk He Hg Hb. by eapply deleted_gone.
Qed.
End properties.

(** ** An example *)

(** The root directory, open at 5, with a file "a"; block 2700 holds it. *)
Definition ex_dot (nm : list Z) (no ft : Z) : dir_entry := DirEntry (nm ++ replicate (16 - length nm) 0) no ft.
Definition ex_slots : list dir_entry :=
  [ex_dot [46] 0 FT_DIRECTORY; ex_dot [46; 46] 0 FT_DIRECTORY; ex_dot [97] 7 FT_REGULAR] ++ replicate 18 null_entry.
Definition ex_dir_slots : list (list dir_entry) := ex_slots :: replicate 11 [].
Definition ex_dir_inode : inode := Inode 0 72 1 false (2700 :: replicate 12 0).
Definition ex_dir_fs : fs ram :=
  Fs (λ x, if x =? 2700 then entries_bytes ex_slots else []) (part_blocks (Bitmap 2048 ex_bits) (ex_part [5]))
    {[5 := ex_dir_inode]} 100 (replicate 32 (File 0 0 0)) [0; 1; 2; -1; -1; -1; -1; -1] []
    {[root_dir := Dir 5 0]} (Session 0 [] []).

Lemma ex_dir_part : part_ok (cur_part ex_dir_fs).
Proof. destruct (ex_file_part 0). by split. Qed.

Lemma ex_dot_wf nm no ft : str_ok nm → (length nm < 16)%nat → is_u32 no → is_u32 ft → entry_wf (ex_dot nm no ft).
Proof.
  intros Hnm Hl Hno Hft. split; cbn [ex_dot filename de_i_no f_type]; [|apply Forall_app; split| |done|done].
  - rewrite length_app, length_replicate. lia.
  - eapply Forall_impl; [exact Hnm|]. apply char_ok_u8.
  - apply Forall_replicate. unfold is_u8. lia.
  - apply elem_of_app. right. apply elem_of_replicate. split; [done|lia].
Qed.

Lemma ex_slots_wf : Forall entry_wf ex_slots.
Proof.
  apply Forall_app. split; [|apply Forall_replicate; apply null_wf].
  repeat (constructor; [apply ex_dot_wf; [repeat constructor; lia|cbn; lia|unfold is_u32, FT_DIRECTORY, FT_REGULAR; lia..]|]).
  constructor.
Qed.

Lemma ex_dir_at : dir_at ex_dir_fs 5 ex_dir_inode ex_dir_slots.
Proof.
  split.
  - reflexivity.
  - split; [cbn; lia|cbn; unfold is_u32; lia|done|]. repeat constructor; unfold is_u32; lia.
  - reflexivity.
  - unfold ex_dir_slots. cbn [ex_dir_inode i_sectors take]. constructor.
    + unfold dir_sector. rewrite decide_False by done. split; [by vm_compute|]. split; [apply ex_slots_wf|].
      exists (replicate 8 0). by vm_compute.
    + apply (Forall2_replicate _ 11). unfold dir_sector. by rewrite decide_True.
  - intros b Hb Hne. assert (b = 2700) as ->.
    { change (take 12 (i_sectors ex_dir_inode)) with (2700 :: replicate 11 0) in Hb.
      apply elem_of_cons in Hb as [->|Hb%elem_of_replicate_inv]; done. }
    split_and!; [cbn; lia|unfold disk_end; lia|cbn; lia|by vm_compute].
  - assert (filter (λ b, b ≠ 0) (take 12 (i_sectors ex_dir_inode)) = [2700]) as -> by by vm_compute.
    apply NoDup_singleton.
  - by vm_compute.
Qed.

Lemma ex_dir_names : Forall (λ x, name_of x = [97] → x = ex_dot [97] 7 FT_REGULAR) (concat ex_dir_slots).
Proof.
  assert (concat ex_dir_slots = ex_slots) as -> by by vm_compute.
  apply Forall_app. split; [by repeat constructor|]. apply Forall_replicate. done.
Qed.

(** The same directory with the table of indirect blocks 2701, whose first block,
    2663, holds a file "b". *)
Definition ex_table : list Z := 2663 :: replicate 127 0.
Definition ex_far_slots : list dir_entry := ex_dot [98] 8 FT_REGULAR :: replicate 20 null_entry.
Definition ex_all_slots : list (list dir_entry) := ex_slots :: replicate 11 [] ++ ex_far_slots :: replicate 127 [].
Definition ex_all_inode : inode := Inode 0 96 1 false (2700 :: replicate 11 0 ++ [2701]).
Definition ex_all_fs : fs ram :=
  Fs (λ x, if x =? 2700 then entries_bytes ex_slots else if x =? 2701 then words ex_table
       else if x =? 2663 then entries_bytes ex_far_slots else [])
    (part_blocks (Bitmap 2048 ex_bits) (ex_part [5]))
    {[5 := ex_all_inode]} 100 (replicate 32 (File 0 0 0)) [0; 1; 2; -1; -1; -1; -1; -1] []
    {[root_dir := Dir 5 0]} (Session 0 [] []).

Lemma ex_taken b : b = 2700 ∨ b = 2701 ∨ b = 2663 → taken (cur_part ex_dir_fs) b.
Proof. intros [->|[->| ->]]; (split_and!; [cbn; lia|unfold disk_end; lia|cbn; lia|by vm_compute]). Qed.

Lemma ex_far_wf : Forall entry_wf ex_far_slots.
Proof.
  constructor; [|apply Forall_replicate; apply null_wf].
  apply ex_dot_wf; [repeat constructor; lia|cbn; lia|unfold is_u32, FT_REGULAR; lia..].
Qed.

Lemma ex_dir_all : dir_all ex_all_fs 5 ex_all_inode ex_table ex_all_slots.
Proof.
  assert (Hnil : ∀ n, Forall2 (dir_sector (dev ex_all_fs)) (replicate n 0) (replicate n [])).
  { intros n. apply Forall2_replicate. unfold dir_sector. by rewrite decide_True. }
  assert (Hsec : ∀ b es, b ≠ 0 → length es = 21%nat → Forall entry_wf es →
    dbytes (dev ex_all_fs) (512 * b) 512 = entries_bytes es ++ replicate 8 0 → dir_sector (dev ex_all_fs) b es).
  { intros b es Hne Hl Hwf Hb. unfold dir_sector. rewrite decide_False by done. split_and!; [done..|].
    by exists (replicate 8 0). }
  assert (Hin : ∀ b, b ∈ take 12 (i_sectors ex_all_inode) ++ ex_table → b ≠ 0 → b = 2700 ∨ b = 2701 ∨ b = 2663).
  { intros b [Hb|Hb]%elem_of_app Hne.
    - change (take 12 (i_sectors ex_all_inode)) with (2700 :: replicate 11 0) in Hb.
      apply elem_of_cons in Hb as [->|Hb%elem_of_replicate_inv]; [by left|done].
    - apply elem_of_cons in Hb as [->|Hb%elem_of_replicate_inv]; [by right; right|done]. }
  split.
  - reflexivity.
  - split; [cbn; lia|cbn; unfold is_u32; lia|done|].
    constructor; [unfold is_u32; lia|]. apply Forall_app. split; [apply Forall_replicate; unfold is_u32; lia|].
    repeat constructor; unfold is_u32; lia.
  - split; [done|]. split; [constructor; [|apply Forall_replicate]; unfold is_u32; lia|].
    rewrite decide_False by done. split; [apply ex_taken; by right; left|by vm_compute].
  - change (take 12 (i_sectors ex_all_inode) ++ ex_table) with (2700 :: replicate 11 0 ++ 2663 :: replicate 127 0).
    constructor; [apply Hsec; [done|by vm_compute|apply ex_slots_wf|by vm_compute]|].
    apply Forall2_app; [apply Hnil|]. constructor; [|apply Hnil].
    apply Hsec; [done|by vm_compute|apply ex_far_wf|by vm_compute].
  - intros b Hb Hne. by apply (ex_taken b), Hin.
  - by vm_compute.
Qed.

(** "b" is found through the table. *)
Lemma dir_search_correct_witness :
  ∃ d', search_dir_entry root_dir [98; 0] ex_all_fs = Ret (Some (ex_dot [98] 8 FT_REGULAR), with_dev d' ex_all_fs).
Proof.
  destruct (dir_search_correct ex_all_fs root_dir 5 0 ex_all_inode ex_table ex_all_slots [98] []) as (d' & Hr & _);
    [exact I|exact ex_dir_part|reflexivity|reflexivity|reflexivity|exact ex_dir_all|repeat constructor; lia|].
  exists d'. exact Hr.
Defined.

Lemma dir_listing_correct_witness :
  ∃ s', (_ ← sys_rewinddir root_dir; read_entries 5 root_dir) ex_all_fs =
    Ret (take 3 ex_slots ++ [ex_dot [98] 8 FT_REGULAR], s').
Proof.
  destruct (dir_listing_correct ex_all_fs root_dir 5 0 ex_all_inode ex_table ex_all_slots) as (s' & Hr & _);
    [exact I|exact ex_dir_part|reflexivity|reflexivity|exact ex_dir_all|]. exists s'. exact Hr.
Defined.

Lemma dir_insert_correct_witness :
  ∃ io' s' d2, sync_dir_entry root_dir (ex_dot [98] 8 FT_REGULAR) (replicate 1024 0) ex_dir_fs = Ret ((true, io'), s') ∧
    search_dir_entry root_dir [98; 0] s' = Ret (Some (ex_dot [98] 8 FT_REGULAR), with_dev d2 s').
Proof.
  destruct (dir_insert_correct ex_dir_fs root_dir 5 0 ex_dir_inode ex_dir_slots (ex_dot [98] 8 FT_REGULAR) [98] []
    (replicate 1024 0)) as (io' & s' & i' & ss' & d2 & Hr & _ & _ & _ & _ & _ & _ & _ & Hs);
    [exact I|exact ex_dir_part|reflexivity|reflexivity|reflexivity|exact ex_dir_at|done| | |
     rewrite length_replicate; lia|exact (has_free_le _ 5 1 ltac:(lia) (ex_file_free 0))|cbn; lia|repeat constructor; lia|reflexivity|done| |].
  - apply ex_dot_wf; [repeat constructor; lia|cbn; lia|unfold is_u32, FT_REGULAR; lia..].
  - right. left. by left.
  - intros x Hx Hn. assert (concat ex_dir_slots = ex_slots) as Heq by by vm_compute. rewrite Heq in Hx. clear Heq.
    apply elem_of_app in Hx as [Hx|Hx%elem_of_replicate_inv]; [|by subst].
    repeat (apply elem_of_cons in Hx as [->|Hx]; [done|]). by apply elem_of_nil in Hx.
  - exists io', s', d2. split; [exact Hr|exact Hs].
Defined.

(** A directory with a file "a" alone in its second block, 2701. *)
Definition ex_two_slots : list (list dir_entry) :=
  (take 2 ex_slots ++ replicate 19 null_entry) :: (ex_dot [97] 7 FT_REGULAR :: replicate 20 null_entry) :: replicate 10 [].
Definition ex_two_inode : inode := Inode 0 72 1 false (2663 :: 2701 :: replicate 11 0).
Definition ex_two_fs : fs ram :=
  Fs (λ x, if x =? 2663 then entries_bytes (take 2 ex_slots) else if x =? 2701 then dir_entry_bytes (ex_dot [97] 7 FT_REGULAR) else [])
    (part_blocks (Bitmap 2048 ex_bits) (ex_part [5]))
    {[5 := ex_two_inode]} 100 (replicate 32 (File 0 0 0)) [0; 1; 2; -1; -1; -1; -1; -1] []
    {[root_dir := Dir 5 0]} (Session 0 [] []).

Lemma ex_two_wf : Forall (Forall entry_wf) (take 2 ex_two_slots).
Proof.
  pose proof ex_slots_wf as Hw. rewrite <-(take_drop 2 ex_slots) in Hw. apply Forall_app in Hw as [Hw _].
  assert (Hnull : ∀ n, Forall entry_wf (replicate n null_entry)) by (intros n; apply Forall_replicate, null_wf).
  constructor; [|constructor; [|constructor]].
  - apply Forall_app. by split.
  - constructor; [|apply Hnull]. apply ex_dot_wf; [repeat constructor; lia|cbn; lia|unfold is_u32, FT_REGULAR; lia..].
Qed.

Lemma ex_two_at : dir_at ex_two_fs 5 ex_two_inode ex_two_slots.
Proof.
  pose proof ex_two_wf as Hwf. apply Forall_cons in Hwf as [Hwf1 Hwf]. apply Forall_cons in Hwf as [Hwf2 _].
  split.
  - reflexivity.
  - split; [cbn; lia|cbn; unfold is_u32; lia|done|]. repeat constructor; unfold is_u32; lia.
  - reflexivity.
  - unfold ex_two_slots. cbn [ex_two_inode i_sectors take]. constructor; [|constructor].
    + unfold dir_sector. rewrite decide_False by done. split; [by vm_compute|]. split; [exact Hwf1|].
      exists (replicate 8 0). by vm_compute.
    + unfold dir_sector. rewrite decide_False by done. split; [by vm_compute|]. split; [exact Hwf2|].
      exists (replicate 8 0). by vm_compute.
    + apply (Forall2_replicate _ 10). unfold dir_sector. by rewrite decide_True.
  - intros b Hb Hne. apply (ex_taken b).
    change (take 12 (i_sectors ex_two_inode)) with (2663 :: 2701 :: replicate 10 0) in Hb.
    apply elem_of_cons in Hb as [->|Hb]; [by right; right|].
    apply elem_of_cons in Hb as [->|Hb%elem_of_replicate_inv]; [by right; left|done].
  - assert (filter (λ b, b ≠ 0) (take 12 (i_sectors ex_two_inode)) = [2663; 2701]) as -> by by vm_compute.
    constructor; [set_solver|apply NoDup_singleton].
  - by vm_compute.
Qed.

(** The slots that are used: ".", ".." and "a". *)
Lemma ex_two_in x : x ∈ concat ex_two_slots → x ∈ take 3 ex_slots ∨ x = null_entry.
Proof.
  assert (concat ex_two_slots = take 2 ex_slots ++ replicate 19 null_entry ++ ex_dot [97] 7 FT_REGULAR :: replicate 20 null_entry)
    as -> by by vm_compute.
  assert (H3 : take 3 ex_slots = take 2 ex_slots ++ [ex_dot [97] 7 FT_REGULAR]) by done.
  intros [Hx|[Hx%elem_of_replicate_inv|[->|Hx%elem_of_replicate_inv]%elem_of_cons]%elem_of_app]%elem_of_app; [|by right| |by right].
  - left. rewrite H3. apply elem_of_app. by left.
  - left. rewrite H3. apply elem_of_app. right. by left.
Qed.

(** With "a" its block goes back to the bitmap. *)
Lemma dir_delete_correct_witness :
  ∃ io' s' i' d2, delete_dir_entry root_dir 7 (replicate 1024 0) ex_two_fs = Ret ((true, io'), s') ∧
    i_sectors i' !! 1%nat = Some 0 ∧ ¬ taken (cur_part s') 2701 ∧
    search_dir_entry root_dir [97; 0] s' = Ret (None, with_dev d2 s').
Proof.
  destruct (dir_delete_correct ex_two_fs root_dir 5 0 ex_two_inode ex_two_slots 7 (ex_dot [97] 7 FT_REGULAR) []
    (replicate 1024 0)) as (io' & s' & i' & d2 & Hr & _ & _ & _ & _ & _ & Hg & _ & _ & Hs);
    [exact I|exact ex_dir_part|reflexivity|reflexivity|reflexivity|exact ex_two_at|apply length_replicate|cbn; lia| | |
     by vm_compute|done| | |].
  - intros es e Hes He _ Hn. unfold ex_two_slots in Hes. apply elem_of_cons in Hes as [->|Hes]; [by left|].
    apply elem_of_cons in Hes as [->|Hes%elem_of_replicate_inv]; [|by subst; apply elem_of_nil in He].
    apply elem_of_cons in He as [->|He%elem_of_replicate_inv]; [done|by subst].
  - intros k es Hk Hes. change (data_start_lba (sb (cur_part ex_two_fs))) with 2663 in Hk.
    destruct k as [|[|k]]; [injection Hes as <-; by left|done|].
    change (replicate 11 0 !! k = Some 2663) in Hk. by apply lookup_replicate in Hk as [Hk _].
  - intros x [Hx| ->]%ex_two_in Hn; [|done].
    repeat (apply elem_of_cons in Hx as [->|Hx]; [done|]). by apply elem_of_nil in Hx.
  - apply ex_dot_wf; [repeat constructor; lia|cbn; lia|unfold is_u32, FT_REGULAR; lia..].
  - exists io', s', i', d2. split; [exact Hr|].
    destruct (Hg 1%nat (ex_dot [97] 7 FT_REGULAR :: replicate 20 null_entry) 2701) as [Hg1 Hg2];
      [reflexivity|by left|by vm_compute|reflexivity|]. split; [exact Hg1|]. split; [exact Hg2|exact Hs].
Defined.
