(* ===== verification/Create.v ===== *)
(** * Creating, opening and closing files

    The tables of open files, the inode bitmap, and what [file_create],
    [file_open] and [file_close] leave behind. *)

From Stdlib Require Import ZArith Lia.
From stdpp Require Import base numbers list gmap.
From S2P Require Import Prelude Bitmap DList CString Path Disk Inode FileData Dir DirSpec DirUpdate File.

(** ** The tables *)

Lemma find_from_Some {A} (P : A → bool) (l : list A) k x idx : l !! k = Some x → P x = true →
  ∃ j y, find_from P l idx = Some (idx + Z.of_nat j) ∧ (j ≤ k)%nat ∧ l !! j = Some y ∧ P y = true.
Proof.
  revert k idx. induction l as [|y l IH]; intros k idx Hk HP; [done|]. cbn [find_from].
  destruct (P y) eqn:Hy; [exists 0%nat, y; rewrite Z.add_0_r; split_and!; lia || done|].
  destruct k as [|k]; [cbn in Hk; congruence|]. destruct (IH k (idx + 1) Hk HP) as (j & z & -> & Hj & Hz & HPz).
  exists (S j), z. split; [f_equal; lia|]. split; [lia|]. by split.
Qed.

Section create.
Context {D : Type} {BD : BlockDev D} {BS : BlockDevSpec D}.
Implicit Types s : fs D.
Implicit Types ss : list (list dir_entry).

(** A slot of the table of open files, a descriptor of the thread. *)
Definition free_file s : Prop := ∃ k f, file_table s !! (3 + k)%nat = Some f ∧ fd_inode f = 0.
Definition free_fd s : Prop := ∃ k, fd_table s !! (3 + k)%nat = Some (-1).

Lemma get_free_slot_run s : free_file s →
  ∃ g f, get_free_slot_in_global s = Ret (g, s) ∧ 3 ≤ g ∧ load (file_table s) g = Ret f ∧ fd_inode f = 0.
Proof.
  intros (k & f & Hk & Hf). unfold get_free_slot_in_global. rewrite bind_gets.
  destruct (find_from_Some (λ f, fd_inode f =? 0) (drop 3 (file_table s)) k f 3) as (j & y & -> & _ & Hy & Hz).
  { by rewrite lookup_drop. } { by rewrite Hf. }
  rewrite lookup_drop in Hy. exists (3 + Z.of_nat j), y. split; [done|]. split; [lia|]. split; [|by apply Z.eqb_eq].
  apply load_Ret. split; [lia|]. by replace (Z.to_nat (3 + Z.of_nat j)) with (3 + j)%nat by lia.
Qed.

Lemma pcb_fd_install_run s g : free_fd s →
  ∃ fd, pcb_fd_install g s = Ret (fd, with_fds (<[Z.to_nat fd := g]> (fd_table s)) s) ∧ 3 ≤ fd ∧
    load (fd_table s) fd = Ret (-1).
Proof.
  intros (k & Hk). unfold pcb_fd_install. rewrite bind_gets.
  destruct (find_from_Some (λ x, x =? -1) (drop 3 (fd_table s)) k (-1) 3) as (j & y & -> & _ & Hy & Hz).
  { by rewrite lookup_drop. } { done. }
  rewrite lookup_drop in Hy. apply Z.eqb_eq in Hz. subst y. assert (Hlt := lookup_lt_Some _ _ _ Hy).
  exists (3 + Z.of_nat j). rewrite store_in, bind_lift by lia. split; [done|]. split; [lia|].
  apply load_Ret. split; [lia|]. by replace (Z.to_nat (3 + Z.of_nat j)) with (3 + j)%nat by lia.
Qed.

Lemma set_file_run s g x f : load (file_table s) g = Ret x →
  set_file g f s = Ret ((), with_files (<[Z.to_nat g := f]> (file_table s)) s).
Proof.
  intros Hl. apply load_Ret in Hl as [H0 Hl%lookup_lt_Some]. unfold set_file. rewrite bind_gets.
  by rewrite store_in, bind_lift by lia.
Qed.

(** ** The inode bitmap *)

Definition in_ibm (p : partition) (k : Z) : Prop :=
  512 * inode_bitmap_lba (sb p) ≤ k < 512 * (inode_bitmap_lba (sb p) + inode_bitmap_sects (sb p)).

Lemma inode_alloc_run s no0 : part_ok (cur_part s) → 0 ≤ no0 < 8 * btmp_bytes_len (inode_bitmap (cur_part s)) →
  bit (inode_bitmap (cur_part s)) no0 = false → no0 < 4096 →
  ∃ no bm, inode_bitmap_alloc s = Ret (no, with_part (part_inodes bm (cur_part s)) s) ∧ 0 ≤ no ≤ no0 ∧
    bit (inode_bitmap (cur_part s)) no = false ∧ part_ok (part_inodes bm (cur_part s)) ∧
    btmp_bytes_len bm = btmp_bytes_len (inode_bitmap (cur_part s)) ∧
    (∀ j, 0 ≤ j → bit bm j = if decide (j = no) then true else bit (inode_bitmap (cur_part s)) j).
Proof.
  intros Hp Hi Hbit H4. destruct (po_ibm _ Hp) as (Hwf & Hb1 & Hb2).
  destruct (bitmap_scan_one (inode_bitmap (cur_part s)) Hwf no0 Hi Hbit) as (r & Hr & Hr0 & Hrb & _).
  unfold inode_bitmap_alloc. rewrite bind_gets, Hr, bind_lift. rewrite (proj2 (Z.eqb_neq r (-1))) by lia.
  unfold inode_bitmap_set. rewrite bind_assoc, bind_gets.
  destruct (bitmap_set_spec (inode_bitmap (cur_part s)) r 1 Hwf) as (bm & Hs & Hwf' & Hl1 & Hl2 & Hbits);
    [lia|by right|]. rewrite Hs, !bind_assoc, bind_lift. unfold upd_part. rewrite bind_modify, ret_eq.
  exists r, bm. split; [done|]. split; [done|]. split; [done|]. split; [|split; [done|]].
  - destruct Hp. split; cbn; try done. by rewrite Hl1, Hl2.
  - intros j Hj. rewrite Hbits by done. by case_decide.
Qed.

Lemma bitmap_sync_inodes_run s idx : bd_inv (dev s) → part_ok (cur_part s) →
  0 ≤ idx < 8 * btmp_bytes_len (inode_bitmap (cur_part s)) →
  ∃ d', bitmap_sync idx INODE_BITMAP s = Ret ((), with_dev d' s) ∧ framed (in_ibm (cur_part s)) (dev s) d'.
Proof.
  intros Hd Hp Hi. pose proof (part_ranges _ Hp). destruct (po_ibm _ Hp) as (Hwf & Hb1 & Hb2).
  unfold bitmap_sync, BLOCK_SIZE, SECTOR_SIZE. rewrite bind_gets. rewrite u32_id by zlia.
  rewrite get_bytes_eq by zlia. rewrite bind_lift.
  destruct (disk_write_run s (inode_bitmap_lba (sb (cur_part s)) + idx / 4096)
    (slice (bits (inode_bitmap (cur_part s))) (idx / 4096 * 512) 512) 1)
    as (d' & Hr & Hw); [done|zlia|lia|unfold disk_end; zlia|rewrite slice_length by zlia; lia|].
  exists d'. split; [exact Hr|]. eapply framed_wrote; [exact Hw|].
  intros k. rewrite length_take, slice_length by zlia. unfold in_ibm. intros Hk. zlia.
Qed.

(** ** What stays of a directory *)

(** A state in which the directory's blocks and inode are as before. *)
Lemma dir_at_frame s s' h i ss : dir_at s h i ss → inodes s' !! h = Some i →
  (∀ b k, b ∈ take 12 (i_sectors i) → b ≠ 0 → in_sector b k → dbyte (dev s') k = dbyte (dev s) k) →
  (∀ b, taken (cur_part s) b → taken (cur_part s') b) → dir_at s' h i ss.
Proof.
  intros [] Hi Hd Ht. split; try done; [|by auto]. eapply Forall2_impl_in; [|done]. cbn. intros b es Hb Hes.
  destruct (decide (b = 0)) as [->|Hne]; [exact Hes|]. eapply dir_sector_ext; [|exact Hes]. intros k Hk. by apply (Hd b).
Qed.

(** Writing the metadata changes no block. *)
Definition in_meta (p : partition) (k : Z) : Prop :=
  512 * block_bitmap_lba (sb p) ≤ k < 512 * data_start_lba (sb p).

Lemma taken_meta p b k : part_ok p → taken p b → in_sector b k → ¬ in_meta p k.
Proof. intros Hp (Hb & _). pose proof (part_ranges _ Hp). unfold in_sector, in_meta. lia. Qed.

Lemma dir_at_meta s s' h i ss : part_ok (cur_part s) → dir_at s h i ss → inodes s' !! h = Some i →
  framed (in_meta (cur_part s)) (dev s) (dev s') → (∀ b, taken (cur_part s) b → taken (cur_part s') b) → dir_at s' h i ss.
Proof.
  intros Hp Ha Hi Hf Ht. eapply dir_at_frame; [exact Ha|done| |done]. intros b k Hb Hne Hk. apply Hf.
  eapply taken_meta; [done| |done]. by apply (da_taken _ _ _ _ Ha).
Qed.

Lemma inode_meta p no k : part_ok p → 0 ≤ no < 4096 → inode_addr p no ≤ k < inode_addr p no + 76 → in_meta p k.
Proof. intros Hp Hno. pose proof (part_ranges _ Hp). unfold in_meta, inode_addr, sizeof_inode. lia. Qed.

(** Bits of the bitmap that stay clear. *)
Lemma takes_free p bm new n : part_ok p → takes p bm new → has_free (block_bitmap p) (length new + n) → has_free bm n.
Proof.
  intros Hp Ht (l & Hnd & Hlen & Hl). exists (filter (λ j, data_start_lba (sb p) + j ∉ new) l).
  split; [by apply NoDup_filter|]. split.
  - assert (Hsub : (length (filter (λ j, ¬ ((data_start_lba (sb p) + j)%Z ∉ new)) l) ≤ length new)%nat).
    { rewrite <-(length_fmap (Z.add (data_start_lba (sb p)))). apply submseteq_length, NoDup_submseteq.
      - apply NoDup_fmap_2_strong; [intros x y _ _; lia|by apply NoDup_filter].
      - intros b (j & -> & Hj)%list_elem_of_fmap. apply list_elem_of_filter in Hj as [Hj _]. by apply dec_stable. }
    pose proof (Permutation_length (filter_app_complement (λ j, data_start_lba (sb p) + j ∉ new) l)) as Hpl.
    rewrite length_app in Hpl. lia.
  - intros j [Hj Hin]%list_elem_of_filter. destruct (Hl j Hin) as [Hr Hb]. rewrite (tk_len _ _ _ Ht). split; [done|].
    destruct (bit bm j) eqn:Hbj; [|done]. exfalso.
    assert (j ≠ 0) by (intros ->; pose proof (po_root _ Hp); congruence).
    destruct (tk_new _ _ _ Ht (data_start_lba (sb p) + j)) as [|(_ & _ & Hb')]; [|done|].
    + split_and!; cbn; [lia|by apply po_free|rewrite (tk_len _ _ _ Ht); lia|].
      by replace (data_start_lba (sb p) + j - data_start_lba (sb p)) with j by lia.
    + replace (data_start_lba (sb p) + j - data_start_lba (sb p)) with j in Hb' by lia. congruence.
Qed.

(** ** A directory open in memory *)

Record ready s (p h : Z) (i : inode) ss : Prop := {
  rd_dev : bd_inv (dev s);
  rd_part : part_ok (cur_part s);
  rd_mem : fs_mem s = [];
  rd_24 : dir_entry_size (sb (cur_part s)) = 24;
  rd_pdir : ∃ pos, dirs s !! p = Some (Dir h pos);
  rd_open : opened s (i_no i) h i;
  rd_dir : dir_at s h i ss;
  rd_no : i_no i < 256;
  rd_cache : cache_ok s;
  rd_bits no h' j : opened s no h' j → 0 ≤ no ∧ bit (inode_bitmap (cur_part s)) no = true;
  rd_next : 0 < next_inode s
}.

(** The cache depends on the list, the inodes and the next address. *)
Lemma cache_ext s s' : open_inodes (cur_part s') = open_inodes (cur_part s) → inodes s' = inodes s →
  next_inode s' = next_inode s → cache_ok s → cache_ok s'.
Proof. intros H1 H2 H3 []. split; rewrite ?H1, ?H2, ?H3; done. Qed.

(** Replacing an inode by one with the same number and users. *)
Lemma cache_update s h i i' : cache_ok s → opened s (i_no i) h i → i_no i' = i_no i → i_open_cnts i' = i_open_cnts i →
  cache_ok (with_inodes (<[h := i']> (inodes s)) s).
Proof.
  intros Hc (Hin & Hh & _) Hno Hcnt. destruct (ca_open _ Hc h Hin) as (j & Hj & Hjc). rewrite Hh in Hj. injection Hj as <-.
  destruct Hc as [c1 c2 c3 c4].
  assert (Hkeep : ∀ x j, <[h := i']> (inodes s) !! x = Some j →
    ∃ j', inodes s !! x = Some j' ∧ i_no j' = i_no j).
  { intros x j. destruct (decide (x = h)) as [->|Hne]; [rewrite lookup_insert_eq; intros [= <-]; exists i; by split|].
    rewrite lookup_insert_ne by congruence. by exists j. }
  split; cbn; [done| | |].
  - intros x Hx. destruct (decide (x = h)) as [->|Hne]; [rewrite lookup_insert_eq; exists i'; split; [done|lia]|].
    rewrite lookup_insert_ne by congruence. auto.
  - intros x x' j j' Hx Hx' (k & Hk & Hk2)%Hkeep (k' & Hk' & Hk2')%Hkeep He.
    apply (c3 x x' k k'); try done. congruence.
  - intros x j (k & Hk & _)%Hkeep. eauto.
Qed.

(** ** Creating a file *)

Definition file_entry (nm : list Z) (no : Z) : dir_entry := DirEntry (nm ++ replicate (16 - length nm) 0) no FT_REGULAR.

Lemma file_entry_wf nm no : str_ok nm → (length nm ≤ 15)%nat → is_u32 no → entry_wf (file_entry nm no).
Proof.
  intros Hnm Hl Hno. split; cbn [file_entry filename de_i_no f_type]; [|apply Forall_app; split| |done|].
  - rewrite length_app, length_replicate. lia.
  - eapply Forall_impl; [exact Hnm|]. apply char_ok_u8.
  - apply Forall_replicate. unfold is_u8. lia.
  - apply elem_of_app. right. apply elem_of_replicate. split; [done|lia].
  - unfold is_u32, FT_REGULAR. lia.
Qed.

Lemma file_entry_name nm no : str_ok nm → (length nm ≤ 15)%nat → name_of (file_entry nm no) = nm.
Proof.
  intros Hnm Hl. cbn [file_entry filename]. replace (16 - length nm)%nat with (S (15 - length nm)) by lia.
  cbn [replicate]. by apply c_str_app.
Qed.

Lemma create_entry_run nm no ft tl : str_ok nm → (length nm ≤ 15)%nat →
  create_dir_entry (nm ++ 0 :: tl) no ft (DirEntry (replicate 16 0) 0 0) =
    Ret (DirEntry (nm ++ replicate (16 - length nm) 0) no ft).
Proof.
  intros Hnm Hl. unfold create_dir_entry. rewrite strlen_spec by (done || lia). cbn [mbind outcome_bind].
  rewrite (proj2 (Z.leb_le _ MAX_FILE_NAME_LEN)) by (unfold MAX_FILE_NAME_LEN; lia). cbn [assert_ mbind outcome_bind filename].
  rewrite take_app_length' by lia. rewrite put_bytes_eq by (rewrite ?length_replicate; lia). cbn [mbind outcome_bind].
  by rewrite splice_0, drop_replicate.
Qed.

Definition new_inode (no : Z) : inode := Inode no 0 1 false (replicate 13 0).

Lemma new_inode_ok no : 0 ≤ no < 4096 → inode_ok (new_inode no).
Proof.
  intros Hno. split; cbn [new_inode i_no i_size i_sectors]; [done|unfold is_u32; lia|done|].
  apply Forall_replicate. unfold is_u32. lia.
Qed.

Lemma empty_file_at s h no : inodes s !! h = Some (new_inode no) → 0 ≤ no < 4096 → file_at s h (new_inode no) [] [].
Proof.
  intros Hi Hno. split; [done|by apply new_inode_ok|cbn; lia| |done|constructor|by intros b []%elem_of_nil|cbn; lia|done].
  intros k Hk. cbn [new_inode i_sectors]. rewrite lookup_replicate_2 by lia. done.
Qed.

Lemma inode_apart p no no' k : no ≠ no' → inode_addr p no ≤ k < inode_addr p no + 76 →
  ¬ (inode_addr p no' ≤ k < inode_addr p no' + 76).
Proof. unfold inode_addr, sizeof_inode. lia. Qed.

(** The state of [file_create] behind [sync_dir_entry]: the two inodes and the
    inode bitmap are written. *)
Lemma create_sync_run s h hn i i' no : bd_inv (dev s) → part_ok (cur_part s) →
  inodes s !! h = Some i → inodes s !! hn = Some i' → inode_ok i → inode_ok i' → i_no i < 256 → i_no i' = no → no < 256 →
  i_no i ≠ no → 0 ≤ no < 8 * btmp_bytes_len (inode_bitmap (cur_part s)) →
  ∃ d', (∀ B (k : M (fs D) B), (_ ← inode_sync h (replicate 1024 0); _ ← inode_sync hn (replicate 1024 0);
      _ ← bitmap_sync no INODE_BITMAP; k) s = k (with_dev d' s)) ∧ framed (in_meta (cur_part s)) (dev s) d' ∧
    dbytes d' (inode_addr (cur_part s) (i_no i)) 76 = inode_bytes i ∧
    dbytes d' (inode_addr (cur_part s) no) 76 = inode_bytes i'.
Proof.
  intros Hd Hp Hi Hi' Hok Hok' H256 Hno Hn256 Hne Hr. pose proof (part_ranges _ Hp) as Hrg.
  pose proof (io_no _ Hok) as Hr1. pose proof (io_no _ Hok') as Hr2. subst no.
  assert (Hs : ∀ x, 512 * inode_sects x ≤ Z.of_nat (length (replicate 1024 0)))
    by (intros x; rewrite length_replicate; unfold inode_sects; case_match; lia).
  destruct (inode_sync_run s h (replicate 1024 0) i) as (b1 & d1 & Hr1' & _ & Hw1); [done..|apply Hs|].
  destruct (inode_sync_run (with_dev d1 s) hn (replicate 1024 0) i') as (b2 & d2 & Hr2' & _ & Hw2);
    [apply Hw1|done..|apply Hs|].
  destruct (bitmap_sync_inodes_run (with_dev d2 (with_dev d1 s)) (i_no i')) as (d3 & Hr3 & Hf3); [apply Hw2|done|done|].
  exists d3. split.
  { intros B k. by rewrite (M_bind_Ret _ _ _ _ _ Hr1'), (M_bind_Ret _ _ _ _ _ Hr2'), (M_bind_Ret _ _ _ _ _ Hr3). }
  pose proof (inode_bytes_length _ Hok) as Hl1. pose proof (inode_bytes_length _ Hok') as Hl2.
  assert (Hibm : ∀ k no, in_ibm (cur_part s) k → 0 ≤ no < 4096 → ¬ (inode_addr (cur_part s) no ≤ k < inode_addr (cur_part s) no + 76)).
  { intros k no Hk Hno. unfold in_ibm, inode_addr, sizeof_inode in *. lia. }
  change (dev (with_dev d1 s)) with d1 in Hw2. change (cur_part (with_dev d1 s)) with (cur_part s) in Hw2.
  change (cur_part (with_dev d2 (with_dev d1 s))) with (cur_part s) in Hf3. split; [|split].
  - eapply framed_trans; [eapply framed_wrote; [exact Hw1|]|eapply framed_trans; [eapply framed_wrote; [exact Hw2|]|]].
    + intros k Hk. apply (inode_meta _ (i_no i)); [done|done|lia].
    + intros k Hk. apply (inode_meta _ (i_no i')); [done|done|lia].
    + eapply framed_mono, Hf3. unfold in_ibm, in_meta. lia.
  - rewrite (framed_bytes _ _ _ _ _ Hf3) by (intros k Hk Hb; by apply (Hibm k (i_no i))).
    rewrite (wrote_other _ _ _ _ _ _ Hw2) by (rewrite Hl2; unfold inode_addr, sizeof_inode; lia).
    pose proof (wrote_same _ _ _ _ Hw1) as Hx. by rewrite Hl1 in Hx.
  - rewrite (framed_bytes _ _ _ _ _ Hf3) by (intros k Hk Hb; by apply (Hibm k (i_no i'))).
    pose proof (wrote_same _ _ _ _ Hw2) as Hx. by rewrite Hl2 in Hx.
Qed.

(** The new file is open, empty, in the directory and on the disk. *)
Record created s p h i ss (nm : list Z) flag (no g fd : Z) (n : nat) s' : Prop := {
  cr_ready : ∃ i', ready s' p h i' (place (file_entry nm no) ss) ∧ i_no i' = i_no i ∧ i_size i' = i_size i + 24 ∧
    dbytes (dev s') (inode_addr (cur_part s') (i_no i)) 76 = inode_bytes i';
  cr_no : 0 ≤ no < 256 ∧ bit (inode_bitmap (cur_part s)) no = false;
  cr_file : opened s' no (next_inode s) (new_inode no) ∧ file_at s' (next_inode s) (new_inode no) [] [];
  cr_other : next_inode s ≠ h;
  cr_fd : 3 ≤ fd ∧ load (fd_table s') fd = Ret g;
  cr_slot : 3 ≤ g ∧ load (file_table s') g = Ret (File 0 flag (next_inode s));
  cr_free : has_free (block_bitmap (cur_part s')) n;
  cr_disk : dbytes (dev s') (inode_addr (cur_part s') no) 76 = inode_bytes (new_inode no);
  cr_tables : length (file_table s') = length (file_table s) ∧ length (fd_table s') = length (fd_table s)
}.

(** The inode bitmap with the bit of a new inode. *)
Definition bit_taken (bm bm' : bitmap) (no : Z) : Prop :=
  btmp_bytes_len bm' = btmp_bytes_len bm ∧ ∀ j, 0 ≤ j → bit bm' j = if decide (j = no) then true else bit bm j.

(** The last state: everything but the disk is a field of the first. *)
Lemma created_intro s p h i ss nm flag no bm g f fd secs bm2 d3 d4 new n :
  ready s p h i ss → bit_taken (inode_bitmap (cur_part s)) bm no → part_ok (part_inodes bm (cur_part s)) →
  0 ≤ no < 256 → bit (inode_bitmap (cur_part s)) no = false → 3 ≤ g → load (file_table s) g = Ret f →
  3 ≤ fd → load (fd_table s) fd = Ret (-1) → has_free (block_bitmap (cur_part s)) (S n) →
  let p1 := part_inodes bm (cur_part s) in
  let i' := resized i (i_size i + 24) secs in
  (∀ s3, inodes s3 !! h = Some i' → dev s3 = d3 → cur_part s3 = part_blocks bm2 p1 →
    dir_at s3 h i' (place (file_entry nm no) ss)) →
  takes p1 bm2 new → (length new ≤ 1)%nat → part_ok (part_blocks bm2 p1) → framed (in_meta p1) d3 d4 →
  dbytes d4 (inode_addr p1 (i_no i)) 76 = inode_bytes i' → dbytes d4 (inode_addr p1 no) 76 = inode_bytes (new_inode no) →
  created s p h i ss nm flag no g fd n
    (Fs d4 (part_open (next_inode s :: open_inodes (cur_part s)) (part_blocks bm2 p1))
      (<[next_inode s := new_inode no]> (<[h := i']> (inodes s))) (next_inode s + 1)
      (<[Z.to_nat g := File 0 flag (next_inode s)]> (file_table s)) (<[Z.to_nat fd := g]> (fd_table s))
      (fs_mem s) (dirs s) (fs_session s)).
Proof.
  intros [] [Hbl Hbits] Hp1 Hno Hfree Hg Hgl Hfd Hfdl Hf p1 i' Hdir Ht Hlen1 Hp2 Hfr Hdi Hdn.
  destruct rd_open0 as (Hopen & Hi & _).
  assert (Hne : next_inode s ≠ h) by (pose proof (ca_next _ rd_cache0 h i Hi); lia).
  assert (Hih : <[next_inode s := new_inode no]> (<[h := i']> (inodes s)) !! h = Some i')
    by (by rewrite lookup_insert_ne, lookup_insert_eq by congruence).
  assert (Hnone : ∀ h' j, ¬ opened s no h' j) by (intros h' j Ho; destruct (rd_bits0 no h' j Ho) as [_ Hb]; congruence).
  apply load_Ret in Hgl as [_ Hgl%lookup_lt_Some], Hfdl as [_ Hfdl%lookup_lt_Some].
  assert (Hop' : ∀ x h' j, opened (Fs d4 (part_open (next_inode s :: open_inodes (cur_part s)) (part_blocks bm2 p1))
      (<[next_inode s := new_inode no]> (<[h := i']> (inodes s))) (next_inode s + 1) (file_table s) (fd_table s)
      (fs_mem s) (dirs s) (fs_session s)) x h' j → x = no ∨ ∃ j', opened s x h' j').
  { intros x h' j (Hin & Hj & Hx). cbn in Hin, Hj. apply elem_of_cons in Hin as [->|Hin].
    - rewrite lookup_insert_eq in Hj. left. injection Hj as <-. by rewrite <-Hx.
    - right. destruct (decide (h' = next_inode s)) as [->|Hn].
      { destruct (ca_open _ rd_cache0 _ Hin) as (j' & Hj' & _). pose proof (ca_next _ rd_cache0 _ _ Hj'). lia. }
      rewrite lookup_insert_ne in Hj by congruence. destruct (decide (h' = h)) as [->|Hn2].
      + rewrite lookup_insert_eq in Hj. injection Hj as <-. exists i. split; [done|]. split; [done|]. by rewrite <-Hx.
      + rewrite lookup_insert_ne in Hj by congruence. exists j. by split_and!. }
  split.
  - exists i'. split; [|done]. split; cbn [dev cur_part fs_mem dirs inodes next_inode part_open sb open_inodes inode_bitmap]; try done.
    + apply Hfr.
    + by destruct Hp2.
    + split; [by right|]. split; [exact Hih|done].
    + eapply (dir_at_meta (Fs d3 (part_blocks bm2 p1) (<[h := i']> (inodes s)) 0 [] [] [] ∅ (fs_session s))); try done.
      apply Hdir; [apply lookup_insert_eq|done|done].
    + apply (cache_ext (loaded (with_inodes (<[h := i']> (inodes s)) s) d4 (new_inode no))); try done.
      apply (loaded_cache _ _ no); [by apply (cache_update s h i)| |done].
      intros h' j (Hin & Hj & Hjn). cbn in Hin, Hj. destruct (decide (h' = h)) as [->|Hn].
      * rewrite lookup_insert_eq in Hj. injection Hj as <-. by apply (Hnone h i).
      * rewrite lookup_insert_ne in Hj by congruence. by apply (Hnone h' j).
    + intros x h' j Ho. destruct (Hop' x h' j Ho) as [->|(j' & Ho')].
      * split; [lia|]. change (bit bm no = true). by rewrite Hbits, decide_True by lia.
      * destruct (rd_bits0 x h' j' Ho') as [H0 Hb]. split; [done|]. change (bit bm x = true).
        rewrite Hbits by done. by case_decide.
    + lia.
  - done.
  - assert (Hlk : <[next_inode s := new_inode no]> (<[h := i']> (inodes s)) !! next_inode s = Some (new_inode no))
      by apply lookup_insert_eq.
    split; [split_and!; [by left|exact Hlk|done]|]. apply empty_file_at; [exact Hlk|lia].
  - done.
  - split; [done|]. apply load_Ret. split; [lia|]. by apply list_lookup_insert_eq.
  - split; [done|]. apply load_Ret. split; [lia|]. by apply list_lookup_insert_eq.
  - apply (takes_free p1 bm2 new n Hp1 Ht). eapply has_free_le; [|exact Hf]. lia.
  - done.
  - cbn. by rewrite !length_insert.
Qed.

Lemma in_bbm_meta p k : part_ok p → in_bbm p k → in_meta p k.
Proof. intros Hp. pose proof (part_ranges _ Hp). unfold in_bbm, in_meta. lia. Qed.

Lemma file_create_run s p h i ss nm tl flag no0 n : ready s p h i ss → has_room ss → free_file s → free_fd s →
  0 ≤ no0 < 256 → no0 < 8 * btmp_bytes_len (inode_bitmap (cur_part s)) → bit (inode_bitmap (cur_part s)) no0 = false →
  has_free (block_bitmap (cur_part s)) (S n) → i_size i + 24 < 4294967296 → str_ok nm → (length nm ≤ 15)%nat →
  ∃ no g fd s', file_create p (nm ++ 0 :: tl) flag s = Ret (fd, s') ∧ no ≤ no0 ∧
    created s p h i ss nm flag no g fd n s'.
Proof.
  intros Hrd Hroom Hgf Hff Hno0 Hlen0 Hbit0 Hfree Hsz Hnm Hnl. pose proof Hrd as []. destruct rd_pdir0 as (pos & Hpd).
  unfold file_create. rewrite (M_bind_Ret _ _ _ _ _ (kmalloc_run s _ rd_mem0)).
  destruct (inode_alloc_run s no0) as (no & bm & Hr & Hno & Hbit & Hp1 & Hbl & Hbits); [done|lia|done|lia|].
  rewrite (M_bind_Ret _ _ _ _ _ Hr), (proj2 (Z.eqb_neq no (-1))) by lia.
  set (s1 := with_part _ s). rewrite (M_bind_Ret _ _ _ _ _ (mem_ok_run s1 rd_mem0)). cbn [negb].
  destruct (get_free_slot_run s1 Hgf) as (g & f & Hg & Hg3 & Hgl & Hg0).
  rewrite (M_bind_Ret _ _ _ _ _ Hg), (proj2 (Z.eqb_neq g (-1))), bind_gets, bind_modify by lia.
  unfold set_inode. rewrite bind_modify. set (s2 := with_inodes _ _).
  rewrite (M_bind_Ret _ _ _ _ _ (set_file_run s2 g f _ Hgl)). set (s3 := with_files _ s2).
  destruct rd_open0 as (Hopen & Hi & _).
  assert (Hne : next_inode s ≠ h) by (pose proof (ca_next _ rd_cache0 h i Hi); lia).
  assert (Hi3 : inodes s3 !! h = Some i) by (cbn; by rewrite lookup_insert_ne by congruence).
  assert (Ha3 : dir_at s3 h i ss) by (by apply (dir_at_frame s)).
  unfold file_create_entry. rewrite create_entry_run, bind_lift by done.
  destruct (sync_dir_entry_run s3 p h pos i ss (file_entry nm no) (replicate (Z.to_nat 1024) 0))
    as (io' & secs & bm2 & d3 & new & Hs & _ & [Hdir Ht Hl1 Hp2 Hfr]); try done;
    [by apply file_entry_wf; [| |unfold is_u32; lia]|rewrite length_replicate; lia|by eapply has_free_le; [|exact Hfree]; lia|].
  rewrite (M_bind_Ret _ _ _ _ _ Hs). cbn [negb].
  set (s4 := grown s3 h _ secs bm2 d3) in *. set (i' := resized i (i_size i + 24) secs) in *.
  rewrite (M_bind_Ret _ _ _ _ _ (get_dir_run s4 p _ Hpd)). cbn [d_inode].
  assert (Hi4 : inodes s4 !! h = Some i') by apply lookup_insert_eq.
  assert (Hn4 : inodes s4 !! next_inode s = Some (inode_init no))
    by (cbn; by rewrite lookup_insert_ne, lookup_insert_eq by congruence).
  assert (Hni : i_no i ≠ no) by (intros He; destruct (rd_bits0 (i_no i) h i) as [_ Hb]; [by split_and!|congruence]).
  assert (Hnok : inode_ok (inode_init no)) by (destruct (new_inode_ok no ltac:(lia)); by split).
  destruct (create_sync_run s4 h (next_inode s) i' (inode_init no) no) as (d4 & Hsy & Hfr4 & Hdi & Hdn); try done;
    [apply Hfr|apply Hdir|lia|cbn; rewrite Hbl; lia|].
  rewrite Hsy. unfold upd_part. rewrite bind_modify. set (s5 := with_part _ (with_dev d4 s4)).
  unfold upd_inode. rewrite bind_assoc.
  rewrite (M_bind_Ret _ _ _ _ _ (get_inode_run s5 (next_inode s) (inode_init no) Hn4)). unfold set_inode. rewrite bind_modify.
  set (s6 := with_inodes _ s5). destruct (pcb_fd_install_run s6 g Hff) as (fd & Hfd & Hfd3 & Hfdl). rewrite Hfd.
  exists no, g, fd. eexists. split; [reflexivity|]. split; [lia|].
  assert (Hfin : inodes s6 = <[next_inode s := new_inode no]> (<[h := i']> (inodes s))).
  { cbn. rewrite (insert_insert_ne _ h (next_inode s)) by congruence. by rewrite insert_insert_eq. }
  pose proof (created_intro s p h i ss nm flag no bm g f fd secs bm2 d3 d4 new n Hrd) as Hcr. cbv zeta in Hcr.
  fold i' in Hcr. rewrite <-Hfin in Hcr. apply Hcr; try done; [lia|].
  intros s7 H1 H2 H3. apply (dir_at_frame s4); [done|done| |].
  - intros b k _ _ _. by rewrite H2.
  - intros b. by rewrite H3.
Qed.
End create.
