(* ===== verification/Session.v ===== *)
(** * Sessions: the system calls on files of the root directory

    Path lookup and [sys_open] for "/name", and the sequences create, write,
    seek, read and close, open, read that programs run. *)

From Stdlib Require Import ZArith Lia.
From stdpp Require Import base numbers list gmap.
From S2P Require Import Prelude Bitmap DList CString Path Disk Inode FileData Dir File Fs DirSpec DirUpdate Directory Create.

(** ** The path of a file in the root directory *)

(** A name that fits an entry with its terminator. *)
Record name_ok (nm : list Z) : Prop := {
  no_wf : name_wf nm;
  no_len : (length nm ≤ 15)%nat;
  no_dot : nm ≠ [46];
  no_dotdot : nm ≠ [46; 46]
}.

(** "/name" in memory. *)
Definition root_path (nm tl : list Z) : list Z := 47 :: nm ++ 0 :: tl.

Section names.
Context (nm tl : list Z) (Hnm : name_ok nm).

Lemma name_str : str_ok nm.
Proof. apply (no_wf _ Hnm). Qed.
Lemma path_str : str_ok (47 :: nm).
Proof. constructor; [unfold char_ok; lia|apply name_str]. Qed.

Lemma path_comps : comps (47 :: nm) = [nm].
Proof.
  rewrite comps_slash. rewrite <-(app_nil_r nm) at 1. destruct (no_wf _ Hnm) as (_ & H1 & H2).
  rewrite comps_word by (done || by left). done.
Qed.

Lemma root_path_strlen : strlen (root_path nm tl) = Ret (Z.of_nat (S (length nm))).
Proof. pose proof (no_len _ Hnm). apply (strlen_spec (47 :: nm) tl path_str). cbn [length]. lia. Qed.

Lemma root_path_last : ∃ c, load (root_path nm tl) (Z.of_nat (S (length nm)) - 1) = Ret c ∧ c ≠ 47.
Proof.
  destruct (no_wf _ Hnm) as (_ & Hs & Hne). destruct (exists_last Hne) as (l & c & ->). exists c. split.
  - apply load_Ret. rewrite length_app. cbn [length]. split; [lia|].
    replace (Z.to_nat (Z.of_nat (S (length l + 1)) - 1)) with (S (length l)) by lia. unfold root_path.
    cbn [lookup list_lookup]. rewrite <-app_assoc. by apply list_lookup_middle.
  - apply Forall_app in Hs as [_ Hc]. by apply Forall_cons in Hc as [Hc _].
Qed.

Lemma root_path_parse name : length name = 16%nat →
  ∃ po, path_parse (root_path nm tl) name = Ret (po, nm ++ drop (length nm) name) ∧ rest_ok po tl [] (S (length nm)).
Proof.
  intros Hl. pose proof (path_parse_spec (47 :: nm) tl name path_str) as Hp. rewrite path_comps in Hp.
  pose proof (no_len _ Hnm). destruct Hp as [Hp _]. destruct Hp as (po & Hr & Hrest); [lia|]. by exists po.
Qed.

Lemma root_path_depth stk : length stk = 16%nat → path_depth_cnt stk (root_path nm tl) = Ret 1.
Proof.
  intros Hl. pose proof (no_len _ Hnm). unfold path_depth_cnt. destruct (root_path_parse stk Hl) as (po & -> & Hrest).
  cbn [mbind outcome_bind].
  destruct (comps_head_nz _ _ _ (drop (length nm) stk) path_str path_comps) as (c & Hc & Hnz).
  rewrite (path_depth_loop_spec _ po tl [] (S (length nm)) _ c 0); try done; try lia.
  - cbn [length root_path]. lia.
  - rewrite length_app, length_drop. lia.
Qed.

Lemma root_path_not_root : is_root (root_path nm tl) = Ret false.
Proof.
  assert (Hcmp : ∀ q q0 : list Z, q0 = q ++ [0] → str_ok q → 47 :: nm ≠ q →
    ∃ r, strcmp (root_path nm tl) q0 = Ret r ∧ (r =? 0) = false).
  { intros q q0 -> Hq Hne. exists (lex_cmp (47 :: nm) q). split; [apply (strcmp_spec (47 :: nm) tl q []); [apply path_str|done]|].
    apply Z.eqb_neq. intros He. apply Hne. apply lex_cmp_eq; [apply path_str|done|done]. }
  unfold is_root. destruct (Hcmp [47] _ eq_refl) as (r1 & Hs1 & Hr1); [repeat constructor; lia| |].
  { intros [= He]. by destruct (no_wf _ Hnm) as (_ & _ & Hne). }
  cbn [app] in Hs1. rewrite Hs1. cbn [mbind outcome_bind]. rewrite Hr1. destruct (Hcmp [47; 46] _ eq_refl) as (r2 & Hs2 & Hr2); [repeat constructor; lia| |].
  { intros [= He]. by apply (no_dot _ Hnm). }
  cbn [app] in Hs2. rewrite Hs2. cbn [mbind outcome_bind]. rewrite Hr2. destruct (Hcmp [47; 46; 46] _ eq_refl) as (r3 & Hs3 & Hr3); [repeat constructor; lia| |].
  { intros [= He]. by apply (no_dotdot _ Hnm). }
  cbn [app] in Hs3. rewrite Hs3. cbn [mbind outcome_bind]. by rewrite Hr3.
Qed.

Lemma root_path_last_name : last_name (root_path nm tl) = Ret (nm ++ 0 :: tl).
Proof.
  unfold last_name, strrchr. pose proof (strrchr_loop_spec (47 :: nm) tl 47 0 None path_str ltac:(lia)) as Hs.
  cbn [app] in Hs. unfold root_path. rewrite Hs.
  pose proof (last_slash [] nm ltac:(apply (no_wf _ Hnm))) as Hl. cbn [app] in Hl. rewrite Hl. cbn [mbind outcome_bind length]. done.
Qed.
End names.

(** ** Lookup *)

Section session.
Context {D : Type} {BD : BlockDev D} {BS : BlockDevSpec D}.
Implicit Types s : fs D.
Implicit Types ss : list (list dir_entry).

Lemma ready_same s d' p h i ss : same_bytes (dev s) d' → ready s p h i ss → ready (with_dev d' s) p h i ss.
Proof. intros Hs []. split; try done; [apply Hs|by apply dir_at_same|by apply (cache_ext s)]. Qed.

(** The searched path, as [search_file] leaves it. *)
Definition searched (nm : list Z) : list Z := root_path nm (drop (length nm) (replicate 510 0)).

Lemma search_file_run s h i ss nm tl : ready s root_dir h i ss → name_ok nm →
  ∃ d', same_bytes (dev s) d' ∧
  match snd <$> list_find (λ e, name_of e = nm) (concat ss) with
  | None => search_file (root_path nm tl) s = Ret ((-1, Searched (searched nm) root_dir FT_UNKNOWN), with_dev d' s)
  | Some e => f_type e = FT_REGULAR →
      search_file (root_path nm tl) s = Ret ((i32 (de_i_no e), Searched (searched nm) root_dir FT_REGULAR), with_dev d' s)
  end.
Proof.
  intros Hrd Hnm. pose proof Hrd as []. destruct rd_pdir as (pos & Hpd). pose proof (name_str _ Hnm) as Hstr.
  pose proof (no_len _ Hnm) as Hnl.
  destruct (search_dir_entry_run s root_dir h pos i ss nm (replicate (15 - length nm) 0)) as (d' & Hs & Hsame); [done..|].
  exists d'. split; [done|]. unfold search_file. rewrite root_path_not_root, bind_lift by done. cbv iota.
  rewrite root_path_strlen, bind_lift by done.
  assert (load (root_path nm tl) 0 = Ret 47) as -> by by apply load_Ret. rewrite bind_lift.
  assert (Hne : (0 < length nm)%nat) by (destruct (no_wf _ Hnm) as (_ & _ & Hne); destruct nm; [done|cbn; lia]).
  rewrite (proj2 (Z.ltb_lt 1 _)), (proj2 (Z.ltb_lt _ MAX_PATH_LEN)) by (unfold MAX_PATH_LEN; lia).
  cbn [andb]. rewrite bind_ASSERT_true.
  destruct (root_path_parse nm tl Hnm (replicate 16 0)) as (po & Hparse & Hrest); [done|]. rewrite Hparse, bind_lift.
  rewrite drop_replicate. change (nm ++ replicate (16 - length nm) 0) with (namebuf nm). cbn [search_loop].
  destruct (comps_head_nz _ _ _ (replicate (16 - length nm) 0) (path_str nm Hnm) (path_comps nm Hnm)) as (c & Hc & Hnz).
  change (nm ++ replicate (16 - length nm) 0) with (namebuf nm) in Hc. rewrite Hc, bind_lift, Hnz. cbn [searched_path].
  assert (strlen (replicate 512 0) = Ret 0) as -> by done. rewrite bind_lift, bind_ASSERT_true.
  assert (strcat (replicate 512 0) [47; 0] = Ret (47 :: 0 :: replicate 510 0)) as -> by by vm_compute. rewrite bind_lift.
  rewrite (namebuf_str nm) by done.
  pose proof (strcat_spec [47] (replicate 510 0) nm (replicate (15 - length nm) 0) ltac:(repeat constructor; lia) Hstr
    ltac:(rewrite length_replicate; lia)) as Hcat. cbn [app] in Hcat.
  rewrite Hcat, bind_lift. cbn [Fs.parent_dir Fs.file_type].
  fold (root_path nm (drop (length nm) (replicate 510 0))). fold (searched nm).
  rewrite (M_bind_Ret _ _ _ _ _ Hs).
  destruct (snd <$> list_find (λ e, name_of e = nm) (concat ss)) as [e|]; [|done]. intros Hreg.
  change (replicate 16 0) with (namebuf []).
  destruct (parse_next_spec po tl [] _ Hrest) as (po' & Hnext); [constructor|]. rewrite Hnext, bind_lift.
  rewrite Hreg. done.
Qed.

(** ** Opening *)

Lemma sys_open_found_run stk s h i ss nm tl flags e : ready s root_dir h i ss → name_ok nm → length stk = 16%nat →
  0 ≤ flags < 4 → snd <$> list_find (λ e, name_of e = nm) (concat ss) = Some e → f_type e = FT_REGULAR →
  0 ≤ de_i_no e < 4096 →
  ∃ d', same_bytes (dev s) d' ∧ sys_open stk (root_path nm tl) flags s = file_open (de_i_no e) flags (with_dev d' s).
Proof.
  intros Hrd Hnm Hstk Hfl Hf Hreg Hno. destruct (search_file_run s h i ss nm tl Hrd Hnm) as (d' & Hs & Hr).
  rewrite Hf in Hr. specialize (Hr Hreg). exists d'. split; [done|]. unfold sys_open.
  rewrite root_path_strlen, bind_lift by done. destruct (root_path_last nm tl Hnm) as (c & -> & Hc). rewrite bind_lift.
  rewrite (proj2 (Z.eqb_neq c 47)), (proj2 (Z.leb_le flags 7)), bind_ASSERT_true by (done || lia).
  rewrite root_path_depth, bind_lift by done. rewrite (M_bind_Ret _ _ _ _ _ Hr). cbn [Fs.file_type Fs.parent_dir searched_path].
  change (FT_REGULAR =? FT_DIRECTORY) with false. cbv iota. unfold searched. rewrite root_path_depth, bind_lift by done.
  change (1 =? 1) with true. cbn [negb]. rewrite i32_id by lia. rewrite (proj2 (Z.eqb_neq (de_i_no e) (-1))) by lia.
  assert (Z.land flags O_CREAT = 0) as ->.
  { unfold O_CREAT. assert (flags = 0 ∨ flags = 1 ∨ flags = 2 ∨ flags = 3) as [->|[->|[->| ->]]] by lia; done. }
  done.
Qed.

Lemma sys_open_create_run stk s h i ss nm tl flags : ready s root_dir h i ss → name_ok nm → length stk = 16%nat →
  4 ≤ flags < 8 → list_find (λ e, name_of e = nm) (concat ss) = None →
  ∃ d', same_bytes (dev s) d' ∧ sys_open stk (root_path nm tl) flags s =
    (fd ← file_create root_dir (nm ++ 0 :: tl) flags; mret fd) (with_dev d' s).
Proof.
  intros Hrd Hnm Hstk Hfl Hf. destruct (search_file_run s h i ss nm tl Hrd Hnm) as (d' & Hs & Hr).
  rewrite Hf in Hr. cbn [fmap option_fmap option_map] in Hr. exists d'. split; [done|]. unfold sys_open.
  rewrite root_path_strlen, bind_lift by done. destruct (root_path_last nm tl Hnm) as (c & -> & Hc). rewrite bind_lift.
  rewrite (proj2 (Z.eqb_neq c 47)), (proj2 (Z.leb_le flags 7)), bind_ASSERT_true by (done || lia).
  rewrite root_path_depth, bind_lift by done. rewrite (M_bind_Ret _ _ _ _ _ Hr). cbn [Fs.file_type Fs.parent_dir searched_path].
  change (FT_UNKNOWN =? FT_DIRECTORY) with false. cbv iota. unfold searched. rewrite root_path_depth, bind_lift by done.
  change (1 =? 1) with true. change (-1 =? -1) with true. cbn [negb andb].
  assert (Z.land flags O_CREAT = 4) as ->.
  { unfold O_CREAT. assert (flags = 4 ∨ flags = 5 ∨ flags = 6 ∨ flags = 7) as [->|[->|[->| ->]]] by lia; done. }
  change (4 =? 0) with false. cbn [negb andb]. rewrite root_path_last_name, bind_lift by done.
  unfold dir_close. change (root_dir =? root_dir) with true. cbv iota. done.
Qed.

(** ** Descriptors *)

(** The descriptor [fd] of the thread is the open file [g], at inode [h]. *)
Definition fd_open s (fd g h pos flag : Z) : Prop :=
  3 ≤ fd ∧ load (fd_table s) fd = Ret g ∧ 0 ≤ g < MAX_FILE_OPEN ∧ load (file_table s) g = Ret (File pos flag h).

Lemma fd_local2global_run s fd g : load (fd_table s) fd = Ret g → 0 ≤ g < MAX_FILE_OPEN →
  fd_local2global fd s = Ret (g, s).
Proof.
  intros Hl Hg. unfold fd_local2global. rewrite bind_gets, Hl, bind_lift.
  rewrite (proj2 (Z.leb_le 0 g)), (proj2 (Z.ltb_lt g _)) by lia. by rewrite bind_ASSERT_true.
Qed.

Lemma get_file_run s g f : load (file_table s) g = Ret f → get_file g s = Ret (f, s).
Proof. intros Hl. unfold get_file. by rewrite bind_gets, Hl. Qed.

Lemma sys_lseek_run s fd g h pos flag i offset whence : fd_open s fd g h pos flag → inodes s !! h = Some i →
  1 ≤ whence ≤ 3 → 0 ≤ pos < 2147483648 → 0 ≤ i_size i < 2147483648 →
  let target := (if whence =? SEEK_SET then 0 else if whence =? SEEK_CUR then pos else i_size i) + offset in
  -2147483648 ≤ target < 2147483648 →
  sys_lseek fd offset whence s =
    if decide (0 ≤ target < i_size i)
    then Ret (target, with_files (<[Z.to_nat g := File target flag h]> (file_table s)) s) else Ret (-1, s).
Proof.
  intros (Hfd & Hl & Hg & Hf) Hi Hw Hpos Hsz target Ht. unfold sys_lseek. rewrite (proj2 (Z.ltb_ge fd 0)) by lia.
  rewrite (proj2 (Z.ltb_lt 0 whence)), (proj2 (Z.ltb_lt whence 4)) by lia. cbn [andb]. rewrite bind_ASSERT_true.
  rewrite (M_bind_Ret _ _ _ _ _ (fd_local2global_run s fd g Hl Hg)), (M_bind_Ret _ _ _ _ _ (get_file_run s g _ Hf)).
  cbn [fd_inode fd_pos]. rewrite (M_bind_Ret _ _ _ _ _ (get_inode_run s h i Hi)). rewrite !(i32_id (i_size i)), (i32_id pos) by lia.
  assert ((if whence =? SEEK_SET then offset else if whence =? SEEK_CUR then i32 (pos + offset) else i32 (i_size i + offset))
    = target) as ->.
  { unfold target in *. destruct (whence =? SEEK_SET); [lia|]. destruct (whence =? SEEK_CUR); by rewrite i32_id by lia. }
  rewrite (i32_id (i_size i - 1)) by lia. destruct (decide (0 ≤ target < i_size i)) as [Hin|Hout].
  - rewrite (proj2 (Z.ltb_ge target 0)), (proj2 (Z.ltb_ge (i_size i - 1) target)) by lia. cbn [orb].
    by rewrite (M_bind_Ret _ _ _ _ _ (set_pos_run s g _ target Hf)).
  - destruct (Z.ltb_spec target 0), (Z.ltb_spec (i_size i - 1) target); try done; lia.
Qed.

Lemma sys_write_run s fd g h pos flag buf count : fd_open s fd g h pos flag → writes flag = true →
  sys_write fd buf count s = file_write g buf count s.
Proof.
  intros (Hfd & Hl & Hg & Hf) Hw. unfold sys_write. rewrite (proj2 (Z.ltb_ge fd 0)), (proj2 (Z.eqb_neq fd 1)) by lia.
  rewrite (M_bind_Ret _ _ _ _ _ (fd_local2global_run s fd g Hl Hg)), (M_bind_Ret _ _ _ _ _ (get_file_run s g _ Hf)).
  cbn [fd_flag]. by rewrite Hw.
Qed.

Lemma sys_read_run s fd g h pos flag buf count : fd_open s fd g h pos flag →
  sys_read fd buf count s = file_read g buf count s.
Proof.
  intros (Hfd & Hl & Hg & Hf). unfold sys_read. rewrite (proj2 (Z.ltb_ge fd 0)), (proj2 (Z.eqb_neq fd 1)) by lia.
  rewrite (proj2 (Z.eqb_neq fd 2)), (proj2 (Z.eqb_neq fd 0)) by lia. cbn [orb].
  by rewrite (M_bind_Ret _ _ _ _ _ (fd_local2global_run s fd g Hl Hg)).
Qed.

(** Closing the last descriptor of a file frees its slot and its inode. *)
Lemma sys_close_run s fd g h pos flag i : fd_open s fd g h pos flag → inodes s !! h = Some i → i_open_cnts i = 1 →
  sys_close fd s = Ret (0, with_fds (<[Z.to_nat fd := -1]> (fd_table s))
    (with_files (<[Z.to_nat g := File pos flag 0]> (file_table s))
      (with_inodes (delete h (inodes s))
        (with_part (part_open (filter (λ x, x ≠ h) (open_inodes (cur_part s))) (cur_part s)) s)))).
Proof.
  intros (Hfd & Hl & Hg & Hf) Hi Hc. unfold sys_close. rewrite (proj2 (Z.ltb_lt 2 fd)) by lia.
  rewrite (M_bind_Ret _ _ _ _ _ (fd_local2global_run s fd g Hl Hg)). unfold file_close. rewrite !bind_assoc.
  rewrite (M_bind_Ret _ _ _ _ _ (get_file_run s g _ Hf)). cbn [fd_inode fd_pos fd_flag].
  unfold upd_inode. rewrite !bind_assoc. rewrite (M_bind_Ret _ _ _ _ _ (get_inode_run s h i Hi)).
  unfold set_inode. rewrite bind_modify. set (s1 := with_inodes _ s).
  rewrite bind_assoc. rewrite (M_bind_Ret _ _ _ _ _ (inode_close_run s1 h (inode_deny false i)
    ltac:(apply lookup_insert_eq) ltac:(cbn; lia))).
  unfold closed. change (i_open_cnts (inode_deny false i)) with (i_open_cnts i). rewrite Hc.
  change (1 =? 1) with true. cbv iota. rewrite bind_assoc.
  set (s2 := with_inodes (delete h (inodes s1)) _).
  rewrite (M_bind_Ret _ _ _ _ _ (set_file_run s2 g _ (File pos flag 0) Hf)), bind_ret, bind_gets.
  apply load_Ret in Hl as [H0 Hl%lookup_lt_Some]. cbn [fd_table with_files s2 with_inodes with_part s1].
  rewrite store_in, bind_lift, bind_modify, ret_eq by lia. do 2 f_equal. unfold s2, s1.
  cbn. by rewrite delete_insert_eq.
Qed.

(** ** Creating and writing *)

(** The root directory is open and takes a new file "name", whose inode will be
    [no]; the disk has room for [count] bytes. *)
Record can_create s (h : Z) (i : inode) ss (nm : list Z) (no count : Z) : Prop := {
  cc_ready : ready s root_dir h i ss;
  cc_name : name_ok nm;
  cc_new : list_find (λ e, name_of e = nm) (concat ss) = None;
  cc_room : has_room ss;
  cc_file : free_file s;
  cc_fd : free_fd s;
  cc_files : Z.of_nat (length (file_table s)) = MAX_FILE_OPEN;
  cc_no : 0 ≤ no < 256 ∧ no < 8 * btmp_bytes_len (inode_bitmap (cur_part s));
  cc_free : bit (inode_bitmap (cur_part s)) no = false ∧ ∀ j, 0 ≤ j < no → bit (inode_bitmap (cur_part s)) j = true;
  cc_one : inode_sects no = 1;
  cc_blocks : has_free (block_bitmap (cur_part s)) (Z.to_nat (count / 512) + 3);
  cc_size : i_size i + 24 < 4294967296
}.

(** The file is in the directory, open as [fd], and has the data. *)
Record holds_file s (h hn : Z) ss (nm data : list Z) (no fd g pos flag : Z) (i2 : inode) (blocks : list Z) : Prop := {
  hf_ready : ∃ i', ready s root_dir h i' (place (file_entry nm no) ss);
  hf_open : opened s no hn i2 ∧ h ≠ hn;
  hf_file : file_at s hn i2 blocks data;
  hf_full : file_full i2 blocks;
  hf_size : i_size i2 = Z.of_nat (length data);
  hf_users : i_open_cnts i2 = 1;
  hf_fd : fd_open s fd g hn pos flag;
  hf_slot : 3 ≤ g;
  hf_disk : dbytes (dev s) (inode_addr (cur_part s) no) 76 = inode_bytes i2
}.

Lemma created_fd_open s h i ss nm flag no g fd n s' : Z.of_nat (length (file_table s)) = MAX_FILE_OPEN →
  created s root_dir h i ss nm flag no g fd n s' → fd_open s' fd g (next_inode s) 0 flag.
Proof.
  intros Hl []. destruct cr_fd as [Hfd Hfl], cr_slot as [Hg Hgl], cr_tables as [Ht _].
  split; [done|]. split; [done|]. split; [|done]. assert (Hlt := Hgl). apply load_Ret in Hlt as [_ Hlt%lookup_lt_Some]. lia.
Qed.

(** What [file_write] does to the rest of the state. *)
Lemma ready_written s s' h hn i2 f ss i' data no g : ready s root_dir h i' ss → opened s no hn i2 → h ≠ hn →
  i2 = new_inode no → wrote_file s g hn i2 f [] [] data s' → ready s' root_dir h i' ss.
Proof.
  intros [] Ho Hne He [? ? ? ? ? ? (i3 & bm & Hno & Hcnt & Hs') Htk Hkept]. rewrite Hs' in *. clear Hs'.
  cbn [dev with_files with_inodes with_part with_dev cur_part fs_mem] in *. split; try done.
  - destruct rd_open as (? & ? & ?). split_and!; [done| |done]. cbn. by rewrite lookup_insert_ne by congruence.
  - eapply (dir_at_frame s); [done| | |done].
    + cbn. rewrite lookup_insert_ne by congruence. apply rd_open.
    + intros b k Hb Hb0 Hk. cbn. apply (Hkept b); [by apply (da_taken _ _ _ _ rd_dir)| |done]. rewrite He. by intros []%elem_of_nil.
  - eapply (cache_ext (with_inodes (<[hn := i3]> (inodes s)) s)); try done.
    destruct Ho as (H1 & H2 & H3). apply (cache_update s hn i2); [done|split_and!; done|done|done].
  - intros x h' j (Hin & Hj & Hx). cbn in *. destruct (decide (h' = hn)) as [->|Hn].
    + rewrite lookup_insert_eq in Hj. injection Hj as <-. apply (rd_bits x hn i2). destruct Ho as (H1 & H2 & H3).
      split_and!; [done|done|congruence].
    + rewrite lookup_insert_ne in Hj by congruence. by apply (rd_bits x h' j).
Qed.

Lemma create_write_run stk s h i ss nm tl no count data : can_create s h i ss nm no count → length stk = 16%nat →
  0 < count < 71168 → Z.of_nat (length data) = count →
  ∃ fd g s1 s2 i2 blocks, sys_open stk (root_path nm tl) 6 s = Ret (fd, s1) ∧ sys_write fd data count s1 = Ret (count, s2) ∧
    holds_file s2 h (next_inode s) ss nm data no fd g (count - 1) 6 i2 blocks ∧
    Z.of_nat (length (file_table s2)) = MAX_FILE_OPEN.
Proof.
  intros [] Hstk Hc Hlen.
  destruct (sys_open_create_run stk s h i ss nm tl 6) as (d0 & Hs0 & Hopen); [done..|lia|done|].
  set (s0 := with_dev d0 s) in *. pose proof (ready_same s d0 _ _ _ _ Hs0 cc_ready0) as Hrd0. fold s0 in Hrd0.
  destruct (file_create_run s0 root_dir h i ss nm tl 6 no (Z.to_nat (count / 512) + 2)) as (no' & g & fd & s1 & Hcr & Hle & Hcd);
    [done..|lia|apply cc_no0|apply cc_free0| |done|apply cc_name0|apply cc_name0|].
  { eapply has_free_le; [|exact cc_blocks0]. lia. }
  rewrite (M_bind_Ret _ _ _ _ _ Hcr), ret_eq in Hopen.
  assert (no' = no) as ->.
  { destruct (cr_no _ _ _ _ _ _ _ _ _ _ _ _ Hcd) as [Hr Hb]. destruct cc_free0 as [_ Hall].
    destruct (decide (no' = no)); [done|]. pose proof (Hall no' ltac:(lia)). change (cur_part s0) with (cur_part s) in Hb. congruence. }
  pose proof (created_fd_open s0 _ _ _ _ _ _ _ _ _ _ cc_files0 Hcd) as Hfd. destruct Hcd as [(i' & Hrd1 & _) _ [Ho1 Hf1] Hne _ [Hg3 Hgl] Hfree _ [Htab _]].
  destruct (file_write_run s1 g (next_inode s0) (new_inode no) (File 0 6 (next_inode s0)) [] [] data count)
    as (s2 & Hw & Hwf).
  { apply Hrd1. } { apply Hrd1. } { exact Hf1. } { by left. } { cbn. lia. } { exact cc_one0. } { exact Hgl. } { done. }
  { apply Hrd1. } { lia. } { cbn. lia. }
  { cbn [i_size new_inode]. change (0 / 512) with 0. rewrite Z.add_0_l, Z.sub_0_r. done. }
  rewrite take_ge in Hwf by lia. pose proof (ready_written _ _ _ _ _ _ _ _ _ _ _ Hrd1 Ho1 ltac:(congruence) eq_refl Hwf) as Hrd2.
  destruct Hwf as [_ _ _ (i2 & blocks & Hfa & Hfull & Hno2 & Hsz & Hdisk) Hpos _ (i3 & bm & Hno3 & Hcnt & Hs2) _ _].
  assert (i3 = i2) as ->.
  { pose proof (fa_inode _ _ _ _ _ Hfa) as Hi2. rewrite Hs2 in Hi2. cbn in Hi2. rewrite lookup_insert_eq in Hi2. congruence. }
  exists fd, g, s1, s2, i2, blocks. split; [exact Hopen|]. split; [by rewrite (sys_write_run _ _ _ _ _ _ _ _ Hfd)|].
  assert (Hfds : fd_table s2 = fd_table s1) by by rewrite Hs2.
  assert (Hopl : open_inodes (cur_part s2) = open_inodes (cur_part s1)) by by rewrite Hs2.
  assert (Hfiles : Z.of_nat (length (file_table s2)) = MAX_FILE_OPEN)
    by (rewrite Hs2; cbn; rewrite length_insert, Htab; exact cc_files0).
  destruct Hfd as (Hfd3 & Hfdl & Hg & _). cbn [i_size new_inode i_no] in *. split; [|done]. split; try done.
  - by exists i'.
  - split; [|by intros ->]. destruct Ho1 as (Hin & _ & _). split_and!; [by rewrite Hopl|by apply Hfa|done].
  - split; [done|]. split; [by rewrite Hfds|]. split; [done|]. rewrite Hpos. cbn [fd_flag fd_inode]. do 2 f_equal.
    rewrite u32_id by (unfold is_u32; lia). lia.
Qed.

(** ** Reading back *)

Lemma read_whole_run s fd g h flag i blocks data buf : bd_inv (dev s) → part_ok (cur_part s) → fs_mem s = [] →
  fd_open s fd g h 0 flag → file_at s h i blocks data → file_full i blocks → i_size i = Z.of_nat (length data) →
  0 < Z.of_nat (length data) < 71168 → length buf = length data →
  ∃ s', sys_read fd buf (Z.of_nat (length data)) s = Ret ((data, Z.of_nat (length data)), s').
Proof.
  intros Hd Hp Hm Hfd Hfa Hfull Hsz Hlen Hbuf. rewrite (sys_read_run _ _ _ _ _ _ _ _ Hfd).
  destruct Hfd as (_ & _ & _ & Hf).
  pose proof (file_read_run s g h i (File 0 flag h) blocks data buf (Z.of_nat (length data))) as Hr. cbn [fd_pos fd_inode] in Hr.
  rewrite Hsz, Z.sub_0_r, Z.min_id in Hr. specialize (Hr Hd Hp Hfa Hfull Hf eq_refl Hm ltac:(lia) ltac:(lia) ltac:(lia) ltac:(lia)).
  rewrite (proj2 (Z.eqb_neq (Z.of_nat (length data)) 0)), andb_false_r in Hr by lia. destruct Hr as (d' & Hr & _).
  rewrite Hr. eexists. do 3 f_equal. unfold slice. change (Z.to_nat 0) with 0%nat. rewrite drop_0, Nat2Z.id.
  rewrite take_ge, drop_ge by lia. apply app_nil_r.
Qed.

(** The same file at another address, in a state with the same disk. *)
Lemma file_at_reload s s' h h' i i' blocks content : file_at s h i blocks content → inodes s' !! h' = Some i' →
  i_no i' = i_no i → i_size i' = i_size i → i_sectors i' = i_sectors i → same_bytes (dev s) (dev s') →
  (∀ b, taken (cur_part s) b → taken (cur_part s') b) → file_at s' h' i' blocks content.
Proof.
  intros [] Hi Hno Hsz Hsec Hs Ht. assert (Htbl : tbl i' = tbl i) by (unfold tbl; by rewrite Hsec).
  assert (Hus : FileData.used i' blocks = FileData.used i blocks) by (unfold FileData.used; by rewrite Htbl).
  split; rewrite ?Hus, ?Htbl, ?Hsec, ?Hsz; try done.
  - destruct fa_ok. by split; rewrite ?Hno, ?Hsz, ?Hsec.
  - destruct (decide _); [done|]. destruct fa_table as [Hn Hb]. split; [done|]. by rewrite (dbytes_same (dev s)).
  - auto.
  - rewrite fa_content. apply fbytes_ext; [lia|lia|]. intros b k _ _. symmetry. apply Hs.
Qed.

Lemma file_open_run s no i : bd_inv (dev s) → part_ok (cur_part s) → fs_mem s = [] → cache_ok s →
  (∀ h j, ¬ opened s no h j) → free_file s → Z.of_nat (length (file_table s)) = MAX_FILE_OPEN → free_fd s →
  0 ≤ no < 4096 → inode_ok i → dbytes (dev s) (inode_addr (cur_part s) no) 76 = inode_bytes i →
  ∃ fd g d' s', file_open no O_RDONLY s = Ret (fd, s') ∧ fd_open s' fd g (next_inode s) 0 O_RDONLY ∧ same_bytes (dev s) d' ∧
    s' = with_fds (fd_table s') (with_files (file_table s') (loaded s d' i)).
Proof.
  intros Hd Hp Hm Hc Hn Hff Hfl Hfd Hno Hok Hb. unfold file_open.
  destruct (get_free_slot_run s Hff) as (g & f & Hg & Hg3 & Hgl & Hg0).
  rewrite (M_bind_Ret _ _ _ _ _ Hg), (proj2 (Z.eqb_neq g (-1))) by lia.
  destruct (inode_open_miss s no i) as (d' & Hr & Hs); [done..|]. rewrite (M_bind_Ret _ _ _ _ _ Hr).
  set (s1 := loaded s d' i) in *. rewrite (M_bind_Ret _ _ _ _ _ (set_file_run s1 g f _ Hgl)). set (s2 := with_files _ s1).
  rewrite (M_bind_Ret _ _ _ _ _ (get_inode_run s2 (next_inode s) (Inode (i_no i) (i_size i) 1 false (i_sectors i))
    ltac:(apply lookup_insert_eq))).
  change (writes O_RDONLY) with false. cbv iota. destruct (pcb_fd_install_run s2 g Hfd) as (fd & Hi & Hfd3 & Hfdl).
  rewrite Hi. apply load_Ret in Hgl as [_ Hgl%lookup_lt_Some], Hfdl as [_ Hfdl%lookup_lt_Some].
  cbn [fd_table s2 with_files s1] in Hfdl. exists fd, g, d'. eexists. split; [reflexivity|].
  split; [|by split]. split; [done|]. split; [|split; [lia|]].
  - apply load_Ret. split; [lia|]. by apply list_lookup_insert_eq.
  - apply load_Ret. split; [lia|]. by apply list_lookup_insert_eq.
Qed.

(** The state behind [sys_close]. *)
Definition after_close s (fd g h pos flag : Z) : fs D :=
  with_fds (<[Z.to_nat fd := -1]> (fd_table s))
    (with_files (<[Z.to_nat g := File pos flag 0]> (file_table s))
      (with_inodes (delete h (inodes s))
        (with_part (part_open (filter (λ x, x ≠ h) (open_inodes (cur_part s))) (cur_part s)) s))).

Lemma opened_closed s fd g h pos flag no h' j : opened (after_close s fd g h pos flag) no h' j → h' ≠ h ∧ opened s no h' j.
Proof.
  intros (Hin & Hj & Hno). cbn in Hin, Hj. apply list_elem_of_filter in Hin as [Hne Hin].
  rewrite lookup_delete_ne in Hj by congruence. by split.
Qed.

Lemma holds_file_closed s h hn ss nm data no fd g pos flag i2 blocks :
  holds_file s h hn ss nm data no fd g pos flag i2 blocks →
  let s' := after_close s fd g hn pos flag in
  (∃ i', ready s' root_dir h i' (place (file_entry nm no) ss)) ∧ (∀ h' j, ¬ opened s' no h' j) ∧ free_file s' ∧ free_fd s'.
Proof.
  intros [(i' & Hrd) [Ho Hne] Hfa _ _ Hu (Hfd3 & Hfdl & Hg & Hgl) Hg3 _]. cbv zeta. split_and!.
  - exists i'. destruct Hrd. split; try done.
    + destruct rd_part. by split.
    + destruct rd_open as (Hin & Hi & _). split_and!; [|cbn; by rewrite lookup_delete_ne by congruence|done].
      cbn. apply list_elem_of_filter. by split.
    + eapply (dir_at_frame s); try done. cbn. rewrite lookup_delete_ne by congruence. apply rd_open.
    + apply (cache_ext (closed s hn i2)); try (unfold closed; rewrite Hu; done). by apply (closed_cache s no).
    + intros x h' j [_ Hx]%opened_closed. by apply (rd_bits x h' j).
  - intros h' j [Hn (Hin & Hj & Hno)]%opened_closed. apply Hn. destruct Ho as (Hin2 & Hj2 & Hno2).
    destruct Hrd. apply (ca_uniq _ rd_cache h' hn j i2); try done. congruence.
  - apply load_Ret in Hgl as [_ Hgl]. exists (Z.to_nat g - 3)%nat, (File pos flag 0). split; [|done].
    replace (3 + (Z.to_nat g - 3))%nat with (Z.to_nat g) by lia. cbn. apply list_lookup_insert_eq.
    by eapply lookup_lt_Some.
  - apply load_Ret in Hfdl as [_ Hfdl]. exists (Z.to_nat fd - 3)%nat.
    replace (3 + (Z.to_nat fd - 3))%nat with (Z.to_nat fd) by lia. cbn. apply list_lookup_insert_eq.
    by eapply lookup_lt_Some.
Qed.

Lemma search_new_file ss nm no : has_room ss → name_ok nm → list_find (λ e, name_of e = nm) (concat ss) = None →
  snd <$> list_find (λ e, name_of e = nm) (concat (place (file_entry nm no) ss)) = Some (file_entry nm no).
Proof.
  intros Hr Hnm Hn. apply search_place; [done|apply file_entry_name; apply Hnm|by destruct (no_wf _ Hnm) as (_ & _ & ?)|].
  apply list_find_None in Hn. intros x Hx. by apply (proj1 (Forall_forall _ _) Hn).
Qed.

Lemma reopen_run stk s h hn ss nm tl data no fd g pos flag i2 blocks buf :
  holds_file s h hn ss nm data no fd g pos flag i2 blocks → Z.of_nat (length (file_table s)) = MAX_FILE_OPEN →
  has_room ss → name_ok nm → list_find (λ e, name_of e = nm) (concat ss) = None → length stk = 16%nat →
  0 < Z.of_nat (length data) < 71168 → length buf = length data →
  ∃ fd' s3 s4 s5, sys_close fd s = Ret (0, s3) ∧ (∀ h' j, ¬ opened s3 no h' j) ∧
    sys_open stk (root_path nm tl) O_RDONLY s3 = Ret (fd', s4) ∧
    sys_read fd' buf (Z.of_nat (length data)) s4 = Ret ((data, Z.of_nat (length data)), s5).
Proof.
  intros Hh Hfl Hroom Hnm Hnew Hstk Hlen Hbuf. pose proof Hh as [_ Ho Hfa Hfull Hsz Hu Hfd Hg3 Hdisk].
  destruct (holds_file_closed _ _ _ _ _ _ _ _ _ _ _ _ _ Hh) as ((i' & Hrd) & Hnone & Hff & Hfdf).
  set (s3 := after_close s fd g hn pos flag) in *.
  pose proof (sys_close_run s fd g hn pos flag i2 Hfd (fa_inode _ _ _ _ _ Hfa) Hu) as Hclose. fold (after_close s fd g hn pos flag) in Hclose.
  fold s3 in Hclose. pose proof (io_no _ (fa_ok _ _ _ _ _ Hfa)) as Hno. destruct Ho as [(_ & _ & Hino) _].
  destruct (sys_open_found_run stk s3 h i' (place (file_entry nm no) ss) nm tl O_RDONLY (file_entry nm no)) as (d3 & Hs3 & Hopen);
    [done|done|done|unfold O_RDONLY; lia|by apply search_new_file|done|cbn; lia|].
  set (s3' := with_dev d3 s3) in *. pose proof (ready_same s3 d3 _ _ _ _ Hs3 Hrd) as Hrd'. fold s3' in Hrd'.
  destruct (file_open_run s3' no i2) as (fd' & g' & d4 & s4 & Hop & Hfd4 & Hs4 & Heq); try done; try apply Hrd'.
  { cbn. by rewrite length_insert. } { lia. } { apply Hfa. }
  { change (dev s3') with d3. rewrite (dbytes_same (dev s3) d3) by done. exact Hdisk. }
  cbn [de_i_no file_entry] in Hopen. rewrite Hop in Hopen.
  assert (Hdev : dev s4 = d4) by by rewrite Heq.
  destruct (read_whole_run s4 fd' g' (next_inode s3') O_RDONLY (Inode (i_no i2) (i_size i2) 1 false (i_sectors i2)) blocks data buf)
    as (s5 & Hr); try done.
  - rewrite Hdev. apply Hs4.
  - rewrite Heq. cbn. destruct (rd_part _ _ _ _ _ Hrd'). by split.
  - rewrite Heq. apply Hrd'.
  - eapply file_at_reload; [exact Hfa| |done|done|done| |].
    + rewrite Heq. cbn. apply lookup_insert_eq.
    + rewrite Hdev. by eapply same_bytes_trans.
    + intros b Hb. by rewrite Heq.
  - exists fd', s3, s4, s5. by split_and!.
Qed.

(** ** Properties *)

(** Creating a file in the root directory, writing to it, seeking to its
    start and reading gives the data back. *)
Theorem create_write_read stk s h i ss nm tl no data buf : can_create s h i ss nm no (Z.of_nat (length data)) →
  length stk = 16%nat → 0 < Z.of_nat (length data) < 71168 → length buf = length data →
  ∃ fd s1 s2 s3 s4, sys_open stk (root_path nm tl) (O_CREAT + O_RDWR) s = Ret (fd, s1) ∧
    sys_write fd data (Z.of_nat (length data)) s1 = Ret (Z.of_nat (length data), s2) ∧
    sys_lseek fd 0 SEEK_SET s2 = Ret (0, s3) ∧
    sys_read fd buf (Z.of_nat (length data)) s3 = Ret ((data, Z.of_nat (length data)), s4).
Proof.
  intros Hc Hstk Hlen Hbuf.
  destruct (create_write_run stk s h i ss nm tl no _ data Hc Hstk Hlen eq_refl)
    as (fd & g & s1 & s2 & i2 & blocks & Hopen & Hwrite & [[(i' & Hrd) Ho Hfa Hfull Hsz Hu Hfd Hg3 Hdisk] _]).
  pose proof (sys_lseek_run s2 fd g _ _ _ i2 0 SEEK_SET Hfd (fa_inode _ _ _ _ _ Hfa)) as Hseek. cbv zeta in Hseek.
  unfold SEEK_SET in Hseek. change (1 =? 1) with true in Hseek. cbv iota in Hseek.
  rewrite decide_True in Hseek by lia.
  specialize (Hseek ltac:(lia) ltac:(lia) ltac:(lia) ltac:(lia)). set (s3 := with_files _ s2) in Hseek.
  destruct Hfd as (Hfd3 & Hfdl & Hg & Hgl). apply load_Ret in Hgl as [_ Hgl%lookup_lt_Some].
  destruct (read_whole_run s3 fd g (next_inode s) 6 i2 blocks data buf) as (s4 & Hr); try done; try apply Hrd.
  - split; [done|]. split; [done|]. split; [done|]. apply load_Ret. split; [lia|]. by apply list_lookup_insert_eq.
  - apply (file_at_same s2); try done. apply Hrd.
  - exists fd, s1, s2, s3, s4. by split_and!.
Qed.

(** C6: what was written survives closing: after [sys_close] the inode is not in
    memory any more, and opening the path again and reading gives the data from
    the disk. *)
Theorem create_close_reopen stk s h i ss nm tl no data buf : can_create s h i ss nm no (Z.of_nat (length data)) →
  length stk = 16%nat → 0 < Z.of_nat (length data) < 71168 → length buf = length data →
  ∃ fd fd' s1 s2 s3 s4 s5, sys_open stk (root_path nm tl) (O_CREAT + O_RDWR) s = Ret (fd, s1) ∧
    sys_write fd data (Z.of_nat (length data)) s1 = Ret (Z.of_nat (length data), s2) ∧
    sys_close fd s2 = Ret (0, s3) ∧ (∀ h' j, ¬ opened s3 no h' j) ∧
    sys_open stk (root_path nm tl) O_RDONLY s3 = Ret (fd', s4) ∧
    sys_read fd' buf (Z.of_nat (length data)) s4 = Ret ((data, Z.of_nat (length data)), s5).
Proof.
  intros Hc Hstk Hlen Hbuf.
  destruct (create_write_run stk s h i ss nm tl no _ data Hc Hstk Hlen eq_refl)
    as (fd & g & s1 & s2 & i2 & blocks & Hopen & Hwrite & Hh & Hfl).
  destruct (reopen_run stk s2 h (next_inode s) ss nm tl data no fd g _ 6 i2 blocks buf Hh Hfl) as (fd' & s3 & s4 & s5 & Hrest);
    [apply Hc|apply Hc|apply Hc|done..|]. by exists fd, fd', s1, s2, s3, s4, s5.
Qed.

(** C24: [sys_lseek] moves the position of an open file to the target that offset
    and whence give, when it lies within the file, and else fails and changes
    nothing; the end of the file itself is not allowed. *)
Theorem sys_lseek_correct s fd g h pos flag i offset whence : fd_open s fd g h pos flag → inodes s !! h = Some i →
  1 ≤ whence ≤ 3 → 0 ≤ pos < 2147483648 → 0 ≤ i_size i < 2147483648 →
  let target := (if whence =? SEEK_SET then 0 else if whence =? SEEK_CUR then pos else i_size i) + offset in
  -2147483648 ≤ target < 2147483648 →
  sys_lseek fd offset whence s =
    if decide (0 ≤ target < i_size i)
    then Ret (target, with_files (<[Z.to_nat g := File target flag h]> (file_table s)) s) else Ret (-1, s).
Proof. apply sys_lseek_run. Qed.
End session.

(** ** Examples *)

Lemma ex_dir_inode_only h : h ∈ open_inodes (cur_part ex_dir_fs) → h = 5.
Proof. intros Hh. by apply list_elem_of_singleton in Hh. Qed.

Lemma ex_dir_cache : cache_ok ex_dir_fs.
Proof.
  split.
  - apply NoDup_singleton.
  - intros h ->%ex_dir_inode_only. exists ex_dir_inode. split; [reflexivity|cbn; lia].
  - intros h h' i i' ->%ex_dir_inode_only ->%ex_dir_inode_only. done.
  - intros h i Hi. cbn in Hi. apply lookup_singleton_Some in Hi as [<- _]. cbn. lia.
Qed.

Lemma ex_dir_ready : ready ex_dir_fs root_dir 5 ex_dir_inode ex_dir_slots.
Proof.
  split; try reflexivity.
  - exact ex_dir_part.
  - by exists 0.
  - split_and!; [by apply list_elem_of_singleton|reflexivity|reflexivity].
  - exact ex_dir_at.
  - exact ex_dir_cache.
  - intros no h' j (->%ex_dir_inode_only & Hj & <-). cbn in Hj. rewrite lookup_singleton_eq in Hj. injection Hj as <-.
    split; [cbn; lia|reflexivity].
Qed.

Lemma ex_can_create count : 0 ≤ count < 1024 → can_create ex_dir_fs 5 ex_dir_inode ex_dir_slots [98] 1 count.
Proof.
  intros Hc. split; try reflexivity.
  - exact ex_dir_ready.
  - assert (name_wf [98]) as Hw by (split; [repeat constructor; lia|split; [repeat constructor; lia|done]]).
    split; [exact Hw|cbn; lia|done|done].
  - right. left. by left.
  - by exists 0%nat, (File 0 0 0).
  - by exists 0%nat.
  - cbn. lia.
  - split; [reflexivity|]. intros j Hj. assert (j = 0) as -> by lia. reflexivity.
  - apply (has_free_le _ 5); [|exact (ex_file_free 0)]. pose proof (Z.div_lt_upper_bound count 512 2). lia.
Qed.

Lemma create_write_read_witness :
  ∃ fd s1 s2 s3 s4, sys_open (replicate 16 0) [47; 98; 0] 6 ex_dir_fs = Ret (fd, s1) ∧
    sys_write fd (replicate 700 67) 700 s1 = Ret (700, s2) ∧ sys_lseek fd 0 SEEK_SET s2 = Ret (0, s3) ∧
    sys_read fd (replicate 700 0) 700 s3 = Ret ((replicate 700 67, 700), s4).
Proof.
  exact (create_write_read (replicate 16 0) ex_dir_fs 5 ex_dir_inode ex_dir_slots [98] [] 1 (replicate 700 67) (replicate 700 0)
    (ex_can_create 700 ltac:(lia)) eq_refl ltac:(cbn; lia) eq_refl).
Defined.

Lemma create_close_reopen_witness :
  ∃ fd fd' s1 s2 s3 s4 s5, sys_open (replicate 16 0) [47; 98; 0] 6 ex_dir_fs = Ret (fd, s1) ∧
    sys_write fd [7; 8; 9] 3 s1 = Ret (3, s2) ∧ sys_close fd s2 = Ret (0, s3) ∧
    sys_open (replicate 16 0) [47; 98; 0] O_RDONLY s3 = Ret (fd', s4) ∧
    sys_read fd' [0; 0; 0] 3 s4 = Ret (([7; 8; 9], 3), s5).
Proof.
  destruct (create_close_reopen (replicate 16 0) ex_dir_fs 5 ex_dir_inode ex_dir_slots [98] [] 1 [7; 8; 9] [0; 0; 0]
    (ex_can_create 3 ltac:(lia)) eq_refl ltac:(cbn; lia) eq_refl) as (fd & fd' & s1 & s2 & s3 & s4 & s5 & H1 & H2 & H3 & _ & H5).
  exists fd, fd', s1, s2, s3, s4, s5. split; [exact H1|]. split; [exact H2|]. split; [exact H3|exact H5].
Defined.

Lemma sys_lseek_correct_witness :
  sys_lseek 3 (-10) SEEK_END (ex_file_fs 0) =
    Ret (590, with_files (<[3%nat := File 590 2 9]> (file_table (ex_file_fs 0))) (ex_file_fs 0)).
Proof.
  apply (sys_lseek_correct (ex_file_fs 0) 3 3 9 0 2 ex_inode (-10) SEEK_END);
    [split_and!; [lia|reflexivity|unfold MAX_FILE_OPEN; lia|unfold MAX_FILE_OPEN; lia|reflexivity]|reflexivity|unfold SEEK_END; lia|lia|cbn; lia|split; by vm_compute].
Defined.
