(* ===== verification/Format.v ===== *)
(** * Formatting and mounting a partition (fs/fs.c)

    [partition_format] lays out the superblock, the bitmaps, the inode table
    and the root directory; [mount_partition] reads them back. *)

From Stdlib Require Import ZArith Lia.
From stdpp Require Import base numbers list gmap.
From S2P Require Import Prelude Bitmap DList CString Path Disk Parts Inode FileData Dir File Fs.

(** ** Formatting *)

(** The fields, and the padding of the structure, which has 512 bytes. *)
Definition super_block_bytes (b : super_block) (pad : list Z) : list Z :=
  words [magic b; sb_sec_cnt b; inode_cnt b; part_lba_base b; block_bitmap_lba b; block_bitmap_sects b;
    inode_bitmap_lba b; inode_bitmap_sects b; inode_table_lba b; inode_table_sects b; data_start_lba b;
    root_inode_no b; dir_entry_size b] ++ pad.

Definition super_block_of (buf : list Z) : outcome super_block :=
  ws ← get_words 13 buf 0;
  match ws with
  | [a; b; c; d; e; f; g; h; i; j; k; l; m] => Ret (SuperBlock a b c d e f g h i j k l m)
  | _ => Fault
  end.

Definition inode_bitmap_len : Z := DIV_ROUND_UP MAX_FILES_PER_PART BITS_PER_SECTOR.
Definition inode_table_len : Z := DIV_ROUND_UP (sizeof_inode * MAX_FILES_PER_PART) SECTOR_SIZE.

(** The bits of the block bitmap and its sectors, from the partition's size. *)
Definition block_bitmap_bit_len (cnt : Z) : Z :=
  let free_sects := u32 (cnt - (1 + 1 + inode_bitmap_len + inode_table_len)) in
  u32 (free_sects - DIV_ROUND_UP free_sects BITS_PER_SECTOR).
Definition block_bitmap_len (cnt : Z) : Z := DIV_ROUND_UP (block_bitmap_bit_len cnt) BITS_PER_SECTOR.

Definition new_super_block (start cnt : Z) : super_block :=
  let bb_lba := u32 (start + 2) in
  let ib_lba := u32 (bb_lba + block_bitmap_len cnt) in
  let table_lba := u32 (ib_lba + inode_bitmap_len) in
  SuperBlock 0x19590318 cnt MAX_FILES_PER_PART start bb_lba (block_bitmap_len cnt) ib_lba inode_bitmap_len
    table_lba inode_table_len (u32 (table_lba + inode_table_len)) 0 sizeof_dir_entry.

(** [while (bit_idx <= block_bitmap_last_bit)] *)
Fixpoint clear_bits (n : nat) (bit_idx byte : Z) : Z :=
  match n with
  | O => byte
  | S n => clear_bits n (bit_idx + 1) (u8 (Z.land byte (Z.lnot (Z.shiftl 1 bit_idx))))
  end.

(** The buffer with the block bitmap: block 0 and the bits behind the last
    block are taken. *)
Definition block_bitmap_init (buf : list Z) (bit_len : Z) : outcome (list Z) :=
  b0 ← load buf 0;
  buf ← store buf 0 (Z.lor b0 1);
  let last_byte := bit_len / 8 in
  let last_bit := bit_len mod 8 in
  let last_size := 512 - last_byte mod 512 in
  buf ← put_bytes buf last_byte (replicate (Z.to_nat last_size) 0xff);
  b ← load buf last_byte;
  store buf last_byte (clear_bits (Z.to_nat (last_bit + 1)) 0 b).

Section format.
Context {D : Type} {BD : BlockDev D}.

(** [pad] is what the stack holds behind the fields of [sb]. [sys_malloc] gives
    [buf], without a check; that [sys_free] takes it back at the end is left
    out, as are the messages. *)
Definition partition_format (pad : list Z) (ok : bool) (start cnt : Z) : M D unit :=
  let b := new_super_block start cnt in
  _ ← bd_write (u32 (start + 1)) (super_block_bytes b pad) 1;
  let buf_size := Z.max (Z.max (block_bitmap_sects b) (inode_bitmap_sects b)) (inode_table_sects b) * 512 in
  if negb ok then lift Fault else
  let zeros := replicate (Z.to_nat buf_size) 0 in
  buf ← lift (block_bitmap_init zeros (block_bitmap_bit_len cnt));
  _ ← bd_write (block_bitmap_lba b) buf (block_bitmap_sects b);
  buf ← lift (store zeros 0 (Z.lor 0 1));
  _ ← bd_write (inode_bitmap_lba b) buf (inode_bitmap_sects b);
  buf ← lift (put_bytes zeros 0
    (inode_bytes (Inode 0 (u32 (dir_entry_size b * 2)) 0 false (data_start_lba b :: replicate 12 0))));
  _ ← bd_write (inode_table_lba b) buf (inode_table_sects b);
  buf ← lift (put_bytes zeros 0 (dot_entries 0 0));
  bd_write (data_start_lba b) buf 1.

(** ** Mounting *)

Definition read_bitmap (lba sects : Z) : M (fs D) bitmap :=
  ob ← kmalloc (u32 (sects * 512));
  match ob with
  | None => PANIC
  | Some bits => bits ← disk_read lba bits sects; mret (Bitmap (u32 (sects * 512)) bits)
  end.

(** True ends the traversal of the partition list. *)
Definition mount_partition (part : part_info) (arg : list Z) : M (fs D) bool :=
  r ← lift (strcmp (part_name part) arg);
  if negb (r =? 0) then mret false else
  ob ← kmalloc SECTOR_SIZE;
  ok ← mem_ok;
  match ob with
  | Some _ =>
    _ ← ASSERT ok;
    sb_buf ← disk_read (u32 (part_start part + 1)) (replicate 512 9) 1;
    b ← lift (super_block_of sb_buf);
    blocks ← read_bitmap (block_bitmap_lba b) (block_bitmap_sects b);
    inodes ← read_bitmap (inode_bitmap_lba b) (inode_bitmap_sects b);
    _ ← modify (with_part (Partition (part_start part) (part_cnt part) b blocks inodes []));
    mret true
  | None => if ok then lift Fault else PANIC
  end.

(** [list_traversal(&partition_list, mount_partition, default_part)] *)
Fixpoint mount_first (parts : list part_info) (arg : list Z) : M (fs D) bool :=
  match parts with
  | [] => mret false
  | p :: parts => r ← mount_partition p arg; if r : bool then mret true else mount_first parts arg
  end.

(** The partitions of the second disk are formatted unless they hold a file
    system. *)
Definition format_if_new (pad : list Z) (part : part_info) : M (fs D) unit :=
  if part_cnt part =? 0 then mret () else
  sb_buf ← disk_read (u32 (part_start part + 1)) (replicate 512 0) 1;
  b ← lift (super_block_of sb_buf);
  if magic b =? 0x19590318 then mret () else
  ok ← mem_ok;
  zoom dev_lens (partition_format pad ok (part_start part) (part_cnt part)).

Fixpoint format_all (pad : list Z) (parts : list part_info) : M (fs D) unit :=
  match parts with
  | [] => mret ()
  | p :: parts => _ ← format_if_new pad p; format_all pad parts
  end.

(** [parts] are the 12 entries of the second disk of the first channel, [list]
    is the partition list. Without a mounted partition [cur_part] is NULL. *)
Definition filesys_init (pad : list Z) (parts list : list part_info) : M (fs D) unit :=
  ok ← mem_ok;
  if negb ok then PANIC else
  _ ← format_all pad parts;
  mounted ← mount_first list [115; 100; 98; 49; 0];
  if negb mounted then lift Fault else
  _ ← open_root_dir;
  modify (λ s, with_files (map (λ f, File (fd_pos f) (fd_flag f) 0) (file_table s)) s).
End format.

(** ** The layout *)

Section layout.
Variables start cnt : Z.
Hypothesis Hstart : 0 ≤ start.
Hypothesis Hcnt : 700 ≤ cnt.
Hypothesis Hend : start + cnt < disk_end.

Abbreviation bbs := (block_bitmap_len cnt).
Abbreviation bit_len := (block_bitmap_bit_len cnt).

Lemma layout_len : 88 ≤ bit_len ∧ 4096 * (bbs - 1) < bit_len ≤ 4096 * bbs ∧ 1 ≤ bbs ≤ 40 ∧
  bit_len + bbs ≤ cnt - 611.
Proof.
  unfold block_bitmap_len, block_bitmap_bit_len, inode_bitmap_len, inode_table_len, DIV_ROUND_UP,
    MAX_FILES_PER_PART, BITS_PER_SECTOR, SECTOR_SIZE, sizeof_inode, disk_end in *.
  change (u32 (4096 + 4096 - 1) / 4096) with 1. change (u32 (76 * 4096 + 512 - 1) / 512) with 608.
  rewrite (u32_id (cnt - (1 + 1 + 1 + 608))) by zlia. rewrite (u32_id (cnt - (1 + 1 + 1 + 608) + 4096 - 1)) by zlia.
  rewrite (u32_id (cnt - (1 + 1 + 1 + 608) - _)) by zlia. rewrite u32_id by zlia. zlia.
Qed.

Lemma layout_eq : new_super_block start cnt =
  SuperBlock 0x19590318 cnt 4096 start (start + 2) bbs (start + 2 + bbs) 1 (start + 3 + bbs) 608 (start + 611 + bbs) 0 24.
Proof.
  pose proof layout_len. unfold new_super_block, inode_bitmap_len, inode_table_len, disk_end in *. cbv zeta.
  change (DIV_ROUND_UP MAX_FILES_PER_PART BITS_PER_SECTOR) with 1.
  change (DIV_ROUND_UP (sizeof_inode * MAX_FILES_PER_PART) SECTOR_SIZE) with 608.
  rewrite (u32_id (start + 2)) by zlia. rewrite (u32_id (start + 2 + bbs)) by zlia.
  rewrite (u32_id (start + 2 + bbs + 1)) by zlia. rewrite u32_id by zlia.
  unfold MAX_FILES_PER_PART, sizeof_dir_entry. f_equal; lia.
Qed.

Lemma super_block_read pad buf : length pad = 460%nat → buf = super_block_bytes (new_super_block start cnt) pad →
  super_block_of buf = Ret (new_super_block start cnt).
Proof.
  intros Hp ->. pose proof layout_len. rewrite layout_eq. unfold super_block_of, super_block_bytes. cbn [magic sb_sec_cnt
    inode_cnt part_lba_base block_bitmap_lba block_bitmap_sects inode_bitmap_lba inode_bitmap_sects inode_table_lba
    inode_table_sects data_start_lba root_inode_no dir_entry_size].
  match goal with |- context [words ?l ++ pad] => pose proof (get_words_ok l (words l ++ pad) 0) as Hw end.
  cbn [length] in Hw. rewrite Hw; [done| |done| |].
  - unfold disk_end in *. repeat (constructor; [unfold is_u32; lia|]). constructor.
  - rewrite length_app, words_length. cbn [length]. lia.
  - unfold slice. change (Z.to_nat 0) with 0%nat. rewrite drop_0. apply take_app_length'.
    rewrite words_length. cbn [length]. lia.
Qed.
End layout.

(** ** The block bitmap *)

Lemma clear_bits_spec lb k : 0 ≤ lb < 8 → 0 ≤ k < 8 →
  Z.testbit (clear_bits (Z.to_nat (lb + 1)) 0 255) k = (lb <? k).
Proof.
  intros Hl Hk.
  assert (lb = 0 ∨ lb = 1 ∨ lb = 2 ∨ lb = 3 ∨ lb = 4 ∨ lb = 5 ∨ lb = 6 ∨ lb = 7)
    as [->|[->|[->|[->|[->|[->|[->| ->]]]]]]] by lia;
  assert (k = 0 ∨ k = 1 ∨ k = 2 ∨ k = 3 ∨ k = 4 ∨ k = 5 ∨ k = 6 ∨ k = 7)
    as [->|[->|[->|[->|[->|[->|[->| ->]]]]]]] by lia; by vm_compute.
Qed.

Lemma clear_bits_u8 lb : 0 ≤ lb < 8 → is_u8 (clear_bits (Z.to_nat (lb + 1)) 0 255).
Proof.
  intros Hl. assert (lb = 0 ∨ lb = 1 ∨ lb = 2 ∨ lb = 3 ∨ lb = 4 ∨ lb = 5 ∨ lb = 6 ∨ lb = 7)
    as [->|[->|[->|[->|[->|[->|[->| ->]]]]]]] by lia; by vm_compute.
Qed.

(** The bytes of the buffer after its initialisation. *)
Lemma block_bitmap_init_run n bit_len : 88 ≤ bit_len → bit_len / 8 + 512 ≤ Z.of_nat n →
  ∃ buf, block_bitmap_init (replicate n 0) bit_len = Ret buf ∧ length buf = n ∧ Forall is_u8 buf ∧
    ∀ i, (i < n)%nat → buf !! i = Some (
      if decide (Z.of_nat i < bit_len / 8) then (if decide (i = 0%nat) then 1 else 0)
      else if decide (Z.of_nat i = bit_len / 8) then clear_bits (Z.to_nat (bit_len mod 8 + 1)) 0 255
      else if decide (Z.of_nat i < bit_len / 8 + 512 - (bit_len / 8) mod 512) then 255 else 0).
Proof.
  intros Hb Hn. assert (Hn0 : (600 ≤ n + 88)%nat) by zlia. assert (Hlb : 11 ≤ bit_len / 8) by zlia. unfold block_bitmap_init.
  assert (load (replicate n 0) 0 = Ret 0) as -> by (apply load_Ret; split; [done|apply lookup_replicate_2; lia]).
  cbn [mbind outcome_bind]. change (Z.lor 0 1) with 1. rewrite store_in by (rewrite length_replicate; lia).
  cbn [mbind outcome_bind]. change (Z.to_nat 0) with 0%nat.
  set (lb := bit_len / 8) in *. set (b1 := <[0%nat := 1]> (replicate n 0)).
  assert (Hl1 : length b1 = n) by (unfold b1; by rewrite length_insert, length_replicate).
  assert (Hm : 0 ≤ lb mod 512 < 512) by zlia.
  assert (Hrl : Z.of_nat (length (replicate (Z.to_nat (512 - lb mod 512)) 255)) = 512 - lb mod 512)
    by (rewrite length_replicate; lia).
  rewrite put_bytes_eq by zlia. cbn [mbind outcome_bind].
  set (b2 := splice b1 lb _).
  assert (Hl2 : length b2 = n) by (unfold b2; rewrite splice_length by zlia; done).
  assert (Hlook : b2 !! Z.to_nat lb = Some 255).
  { unfold b2. rewrite splice_lookup by zlia. rewrite Nat.sub_diag. apply lookup_replicate_2. lia. }
  assert (load b2 lb = Ret 255) as -> by (apply load_Ret; split; [zlia|done]). cbn [mbind outcome_bind].
  rewrite store_in by zlia. eexists. split; [reflexivity|].
  set (c := clear_bits _ _ _). assert (Hc : is_u8 c) by (apply clear_bits_u8; zlia).
  assert (Hall : ∀ i, (i < n)%nat → <[Z.to_nat lb:=c]> b2 !! i = Some (
      if decide (Z.of_nat i < lb) then (if decide (i = 0%nat) then 1 else 0)
      else if decide (Z.of_nat i = lb) then c
      else if decide (Z.of_nat i < lb + 512 - lb mod 512) then 255 else 0)).
  { intros i Hi. destruct (decide (i = Z.to_nat lb)) as [->|Hne].
    - rewrite list_lookup_insert_eq by lia. rewrite decide_False, decide_True by zlia. done.
    - rewrite list_lookup_insert_ne by done. unfold b2.
      destruct (decide (lb ≤ Z.of_nat i < lb + (512 - lb mod 512))) as [Hin|Hout].
      + rewrite splice_lookup by lia. rewrite decide_False, decide_False, decide_True by lia.
        apply lookup_replicate_2. lia.
      + rewrite splice_lookup_other by zlia. unfold b1.
        destruct (decide (i = 0%nat)) as [->|Hi0].
        * rewrite list_lookup_insert_eq by (rewrite length_replicate; lia). rewrite decide_True by zlia. done.
        * rewrite list_lookup_insert_ne by done. rewrite lookup_replicate_2 by done.
          repeat case_decide; done || lia. }
  split; [by rewrite length_insert|]. split; [|exact Hall].
  apply Forall_lookup. intros i x Hx. assert (Hi : (i < n)%nat)
    by (apply lookup_lt_Some in Hx; rewrite length_insert in Hx; lia).
  rewrite (Hall i Hi) in Hx. injection Hx as <-. unfold is_u8 in *. repeat case_decide; lia.
Qed.

(** The block bitmap of a new file system: the root directory's block is
    taken, the blocks up to number [bit_len] are free, one more than the
    partition has, and the rest of the last sector is taken. *)
Lemma format_bits cnt buf i : 88 ≤ block_bitmap_bit_len cnt →
  4096 * (block_bitmap_len cnt - 1) < block_bitmap_bit_len cnt ≤ 4096 * block_bitmap_len cnt →
  512 * block_bitmap_len cnt ≤ Z.of_nat (length buf) →
  (∀ i, (i < length buf)%nat → buf !! i = Some (
      if decide (Z.of_nat i < block_bitmap_bit_len cnt / 8) then (if decide (i = 0%nat) then 1 else 0)
      else if decide (Z.of_nat i = block_bitmap_bit_len cnt / 8)
        then clear_bits (Z.to_nat (block_bitmap_bit_len cnt mod 8 + 1)) 0 255
      else if decide (Z.of_nat i < block_bitmap_bit_len cnt / 8 + 512 - (block_bitmap_bit_len cnt / 8) mod 512)
        then 255 else 0)) →
  0 ≤ i < 4096 * block_bitmap_len cnt →
  bit (Bitmap (512 * block_bitmap_len cnt) (take (Z.to_nat (512 * block_bitmap_len cnt)) buf)) i =
    negb ((1 <=? i) && (i <=? block_bitmap_bit_len cnt)).
Proof.
  intros Hb Hs Hl Hbuf Hi. unfold bit. cbn [bits].
  set (n := block_bitmap_bit_len cnt) in *. set (len := block_bitmap_len cnt) in *.
  assert (Hk : 0 ≤ i mod 8 < 8) by zlia.
  rewrite lookup_take_lt by zlia. rewrite Hbuf by zlia.
  destruct (decide (Z.of_nat (Z.to_nat (i / 8)) < n / 8)) as [H1|H1].
  - destruct (decide (Z.to_nat (i / 8) = 0%nat)) as [H0|H0].
    + assert (Hv : Z.testbit 1 (i mod 8) = (i =? 0)).
      { destruct (Z.eqb_spec i 0) as [->|Hne]; [done|]. change 1 with (2 ^ 0). rewrite Z.pow2_bits_eqb by lia.
        apply Z.eqb_neq. zlia. }
      rewrite Hv. destruct (Z.eqb_spec i 0), (Z.leb_spec 1 i), (Z.leb_spec i n); try done; zlia.
    + rewrite Z.testbit_0_l. destruct (Z.leb_spec 1 i), (Z.leb_spec i n); try done; zlia.
  - destruct (decide (Z.of_nat (Z.to_nat (i / 8)) = n / 8)) as [H2|H2].
    + rewrite clear_bits_spec by zlia.
      destruct (Z.ltb_spec (n mod 8) (i mod 8)), (Z.leb_spec 1 i), (Z.leb_spec i n); try done; zlia.
    + destruct (decide (Z.of_nat (Z.to_nat (i / 8)) < n / 8 + 512 - (n / 8) mod 512)) as [H3|H3]; [|zlia].
      assert (Hv : Z.testbit 255 (i mod 8) = true).
      { change 255 with (Z.ones 8). apply Z.ones_spec_low. lia. }
      rewrite Hv. destruct (Z.leb_spec 1 i), (Z.leb_spec i n); try done; zlia.
Qed.

(** ** The result of formatting *)

Definition root_inode (start cnt : Z) : inode :=
  Inode 0 48 0 false (start + 611 + block_bitmap_len cnt :: replicate 12 0).

Section formatted.
Context {D : Type} {BD : BlockDev D} {BS : BlockDevSpec D}.

Record formatted (d : D) (pad : list Z) (start cnt : Z) : Prop := {
  fm_inv : bd_inv d;
  fm_sb : dbytes d (512 * (start + 1)) 512 = super_block_bytes (new_super_block start cnt) pad;
  fm_blocks : ∃ buf, block_bitmap_init (replicate (Z.to_nat 311296) 0) (block_bitmap_bit_len cnt) = Ret buf ∧
    dbytes d (512 * (start + 2)) (512 * block_bitmap_len cnt) = take (Z.to_nat (512 * block_bitmap_len cnt)) buf;
  fm_inodes : dbytes d (512 * (start + 2 + block_bitmap_len cnt)) 512 = 1 :: replicate 511 0;
  fm_table : dbytes d (512 * (start + 3 + block_bitmap_len cnt)) 76 = inode_bytes (root_inode start cnt);
  fm_root : dbytes d (512 * (start + 611 + block_bitmap_len cnt)) 512 = dot_entries 0 0 ++ replicate 464 0
}.

Lemma write_run d lba buf cnt : bd_inv d → 0 ≤ lba → 1 ≤ cnt → lba + cnt ≤ disk_end →
  512 * cnt ≤ Z.of_nat (length buf) →
  ∃ d', bd_write lba buf cnt d = Ret ((), d') ∧ bd_inv d' ∧
    (∀ a n, 512 * lba ≤ a → 0 ≤ n → a + n ≤ 512 * (lba + cnt) → dbytes d' a n = slice buf (a - 512 * lba) n) ∧
    (∀ a n, a + n ≤ 512 * lba ∨ 512 * (lba + cnt) ≤ a → dbytes d' a n = dbytes d a n).
Proof.
  intros Hd H1 H2 H3 H4. destruct (bd_write_bytes d lba buf cnt) as (d' & Hr & Hw); [done..|].
  assert (Hl : Z.of_nat (length (take (Z.to_nat (512 * cnt)) buf)) = 512 * cnt) by (rewrite length_take; lia).
  exists d'. split; [done|]. split; [apply Hw|]. split.
  - intros a n Ha Hn Hb. rewrite (wrote_part _ _ _ _ a n Hw) by lia. unfold slice.
    rewrite skipn_firstn_comm, take_take. f_equal. lia.
  - intros a n Ha. apply (wrote_other _ _ _ _ _ _ Hw). lia.
Qed.

Lemma slice_splice_prefix (data : list Z) n m : (length data ≤ n)%nat → 0 ≤ m ≤ Z.of_nat n →
  Z.of_nat (length data) ≤ m →
  slice (splice (replicate n 0) 0 data) 0 m = data ++ replicate (Z.to_nat m - length data) 0.
Proof.
  intros Hl Hm Hd. unfold slice, splice. change (Z.to_nat 0) with 0%nat. rewrite take_0, drop_0. cbn [app].
  rewrite Nat.add_0_l, drop_replicate. rewrite take_app_ge by lia. f_equal. rewrite take_replicate. f_equal. lia.
Qed.

Lemma dot_entries_length a b : length (dot_entries a b) = 48%nat.
Proof. done. Qed.

Lemma partition_format_run d pad start cnt : bd_inv d → length pad = 460%nat → 0 ≤ start → 700 ≤ cnt →
  start + cnt < disk_end → ∃ d', partition_format pad true start cnt d = Ret ((), d') ∧ formatted d' pad start cnt.
Proof.
  intros Hd Hpad Hs Hc He. destruct (layout_len start cnt) as (Hb1 & Hb2 & Hb3 & Hb4); try done.
  unfold partition_format. cbv zeta. rewrite (layout_eq start cnt) by done.
  cbn [block_bitmap_sects inode_bitmap_sects inode_table_sects block_bitmap_lba inode_bitmap_lba inode_table_lba
    data_start_lba dir_entry_size].
  replace (Z.max (Z.max (block_bitmap_len cnt) 1) 608 * 512) with 311296 by lia.
  rewrite <-(layout_eq start cnt) by done. unfold disk_end in He. rewrite (u32_id (start + 1)) by zlia.
  change (u32 (24 * 2)) with 48. cbn [negb].
  set (sbb := super_block_bytes (new_super_block start cnt) pad).
  assert (Hsbl : length sbb = 512%nat).
  { unfold sbb, super_block_bytes. rewrite length_app, words_length, Hpad. done. }
  set (bbs := block_bitmap_len cnt) in *. set (zeros := replicate (Z.to_nat 311296) 0).
  assert (Hz : length zeros = Z.to_nat 311296) by apply length_replicate.
  destruct (write_run d (start + 1) sbb 1) as (d1 & Hr1 & Hi1 & Hin1 & _); [done|lia|lia|unfold disk_end; lia|lia|].
  rewrite (M_bind_Ret _ _ _ _ _ Hr1).
  destruct (block_bitmap_init_run (Z.to_nat 311296) (block_bitmap_bit_len cnt)) as (buf & Hbuf & Hbl & _); [lia|zlia|].
  fold zeros in Hbuf. rewrite Hbuf, bind_lift.
  destruct (write_run d1 (start + 2) buf bbs) as (d2 & Hr2 & Hi2 & Hin2 & Hout2);
    [done|lia|lia|unfold disk_end; lia|lia|]. rewrite (M_bind_Ret _ _ _ _ _ Hr2).
  change (Z.lor 0 1) with 1. rewrite store_in by (rewrite Hz; lia). rewrite bind_lift.
  destruct (write_run d2 (start + 2 + bbs) (<[Z.to_nat 0 := 1]> zeros) 1) as (d3 & Hr3 & Hi3 & Hin3 & Hout3);
    [done|lia|lia|unfold disk_end; lia|rewrite length_insert, Hz; lia|]. rewrite (M_bind_Ret _ _ _ _ _ Hr3).
  change (Inode 0 48 0 false (start + 611 + bbs :: replicate 12 0)) with (root_inode start cnt). assert (Hrl : length (inode_bytes (root_inode start cnt)) = 76%nat) by done.
  rewrite (put_bytes_eq zeros 0 (inode_bytes (root_inode start cnt))) by (rewrite ?Hrl, ?Hz; lia). rewrite bind_lift.
  destruct (write_run d3 (start + 3 + bbs) (splice zeros 0 (inode_bytes (root_inode start cnt))) 608)
    as (d4 & Hr4 & Hi4 & Hin4 & Hout4);
    [done|lia|lia|unfold disk_end; lia|rewrite splice_length by (rewrite ?Hrl, ?Hz; lia); lia|].
  rewrite (M_bind_Ret _ _ _ _ _ Hr4). rewrite (put_bytes_eq zeros 0 (dot_entries 0 0)) by (rewrite ?dot_entries_length, ?Hz; lia). rewrite bind_lift.
  destruct (write_run d4 (start + 611 + bbs) (splice zeros 0 (dot_entries 0 0)) 1) as (d5 & Hr5 & Hi5 & Hin5 & Hout5);
    [done|lia|lia|unfold disk_end; lia|rewrite splice_length by (rewrite ?dot_entries_length, ?Hz; lia); lia|].
  exists d5. split; [exact Hr5|]. split; [done| | | | |].
  - rewrite Hout5, Hout4, Hout3, Hout2 by lia. rewrite Hin1 by lia. rewrite Z.sub_diag.
    unfold slice. change (Z.to_nat 0) with 0%nat. rewrite drop_0. apply take_ge. fold sbb. lia.
  - exists buf. split; [done|]. rewrite Hout5, Hout4, Hout3 by lia. fold bbs. rewrite Hin2 by lia. rewrite Z.sub_diag.
    unfold slice. change (Z.to_nat 0) with 0%nat. by rewrite drop_0.
  - fold bbs. rewrite Hout5, Hout4 by lia. rewrite Hin3 by lia. rewrite Z.sub_diag. unfold slice.
    change (Z.to_nat 0) with 0%nat. rewrite drop_0. unfold zeros.
    replace (Z.to_nat 311296) with (S (Z.to_nat 311295)) by lia. cbn [replicate].
    change (<[0%nat := 1]> (0 :: replicate (Z.to_nat 311295) 0)) with (1 :: replicate (Z.to_nat 311295) 0).
    change (Z.to_nat 512) with 512%nat. rewrite firstn_cons, take_replicate. do 2 f_equal.
  - fold bbs. rewrite Hout5 by lia. rewrite Hin4 by lia. rewrite Z.sub_diag. unfold zeros.
    rewrite slice_splice_prefix by (rewrite ?Hrl; lia). rewrite Hrl. change (Z.to_nat 76 - 76)%nat with 0%nat.
    apply app_nil_r.
  - fold bbs. rewrite Hin5 by lia. rewrite Z.sub_diag. unfold zeros.
    rewrite slice_splice_prefix by (rewrite ?dot_entries_length; lia). rewrite dot_entries_length. f_equal.
Qed.

(** ** Mounting what was formatted *)

Implicit Types s : fs D.

Definition new_part (start cnt : Z) (buf : list Z) : partition :=
  Partition start cnt (new_super_block start cnt)
    (Bitmap (512 * block_bitmap_len cnt) (take (Z.to_nat (512 * block_bitmap_len cnt)) buf))
    (Bitmap 512 (1 :: replicate 511 0)) [].

Lemma read_bitmap_run s lba sects : bd_inv (dev s) → fs_mem s = [] → 0 ≤ lba → 1 ≤ sects → lba + sects ≤ disk_end →
  ∃ d', read_bitmap lba sects s =
      Ret (Bitmap (512 * sects) (dbytes (dev s) (512 * lba) (512 * sects)), with_dev d' s) ∧ same_bytes (dev s) d'.
Proof.
  intros Hd Hm Hl Hs He. unfold disk_end in *. unfold read_bitmap. rewrite u32_id by zlia.
  rewrite (M_bind_Ret _ _ _ _ _ (kmalloc_run s _ Hm)).
  destruct (disk_read_run s lba (replicate (Z.to_nat (sects * 512)) 0) sects) as (d' & Hr & Hsame);
    [done|done|done|done|rewrite length_replicate; lia|].
  rewrite (M_bind_Ret _ _ _ _ _ Hr), ret_eq, drop_ge, app_nil_r by (rewrite length_replicate; lia).
  exists d'. by rewrite (Z.mul_comm sects).
Qed.

Lemma mount_run s pad start cnt nm tl tl' : formatted (dev s) pad start cnt → length pad = 460%nat →
  0 ≤ start → 700 ≤ cnt → start + cnt < disk_end → fs_mem s = [] → str_ok nm →
  ∃ buf d', block_bitmap_init (replicate (Z.to_nat 311296) 0) (block_bitmap_bit_len cnt) = Ret buf ∧
    mount_partition (PartInfo (nm ++ 0 :: tl) start cnt) (nm ++ 0 :: tl') s =
      Ret (true, with_part (new_part start cnt buf) (with_dev d' s)) ∧ same_bytes (dev s) d'.
Proof.
  intros [] Hpad Hs Hc He Hm Hnm. destruct fm_blocks0 as (buf & Hbuf & Hbb). exists buf.
  destruct (layout_len start cnt) as (Hb1 & Hb2 & Hb3 & Hb4); try done. unfold disk_end in He.
  unfold mount_partition. cbn [part_name part_start part_cnt]. rewrite strcmp_spec by done.
  rewrite bind_lift, (proj2 (lex_cmp_eq nm nm Hnm Hnm)) by done. change (negb (0 =? 0)) with false. cbv iota.
  rewrite (M_bind_Ret _ _ _ _ _ (kmalloc_run s _ Hm)), (M_bind_Ret _ _ _ _ _ (mem_ok_run s Hm)), bind_ASSERT_true.
  rewrite u32_id by zlia.
  destruct (disk_read_run s (start + 1) (replicate 512 9) 1) as (d1 & Hr1 & Hs1); [done|lia|lia|unfold disk_end; lia|done|].
  rewrite (M_bind_Ret _ _ _ _ _ Hr1), drop_ge, app_nil_r by done. change (512 * 1) with 512.
  rewrite (super_block_read start cnt Hs Hc He pad _ Hpad fm_sb0), bind_lift.
  rewrite (layout_eq start cnt) by done. cbn [block_bitmap_lba block_bitmap_sects inode_bitmap_lba inode_bitmap_sects].
  destruct (read_bitmap_run (with_dev d1 s) (start + 2) (block_bitmap_len cnt)) as (d2 & Hr2 & Hs2);
    [apply Hs1|done|lia|lia|unfold disk_end; lia|]. rewrite (M_bind_Ret _ _ _ _ _ Hr2).
  destruct (read_bitmap_run (with_dev d2 (with_dev d1 s)) (start + 2 + block_bitmap_len cnt) 1) as (d3 & Hr3 & Hs3);
    [apply Hs2|done|lia|lia|unfold disk_end; lia|]. rewrite (M_bind_Ret _ _ _ _ _ Hr3), bind_modify, ret_eq.
  change (dev (with_dev d1 s)) with d1 in *. change (dev (with_dev d2 (with_dev d1 s))) with d2 in *.
  exists d3. split; [done|]. split; [|eapply same_bytes_trans; [exact Hs1|]; by eapply same_bytes_trans].
  change (512 * 1) with 512. rewrite (dbytes_same d1 d2 (512 * (start + 2 + block_bitmap_len cnt))) by done.
  rewrite !(dbytes_same (dev s) d1) by done. rewrite Hbb, fm_inodes0.
  rewrite <-(layout_eq start cnt) by done. done.
Qed.

Lemma new_part_ok start cnt buf : 0 ≤ start → 700 ≤ cnt → start + cnt < disk_end →
  block_bitmap_init (replicate (Z.to_nat 311296) 0) (block_bitmap_bit_len cnt) = Ret buf →
  part_ok (new_part start cnt buf) ∧
  ∀ i, 0 ≤ i < 4096 * block_bitmap_len cnt →
    bit (block_bitmap (new_part start cnt buf)) i = negb ((1 <=? i) && (i <=? block_bitmap_bit_len cnt)).
Proof.
  intros Hs Hc He Hbuf. destruct (layout_len start cnt) as (Hb1 & Hb2 & Hb3 & Hb4); try done. unfold disk_end in He.
  destruct (block_bitmap_init_run (Z.to_nat 311296) (block_bitmap_bit_len cnt)) as (buf' & Hbuf' & Hbl & Hu8 & Hk);
    [lia|zlia|]. assert (buf' = buf) as -> by congruence.
  assert (Hl : Z.of_nat (length (take (Z.to_nat (512 * block_bitmap_len cnt)) buf)) = 512 * block_bitmap_len cnt)
    by (rewrite length_take; lia).
  assert (Hbits : ∀ i, 0 ≤ i < 4096 * block_bitmap_len cnt →
    bit (block_bitmap (new_part start cnt buf)) i = negb ((1 <=? i) && (i <=? block_bitmap_bit_len cnt))).
  { intros i Hi. apply (format_bits cnt buf i); try done; [lia|]. by rewrite Hbl. }
  split; [|exact Hbits].
  split; cbn [new_part sb start_lba sec_cnt block_bitmap inode_bitmap bits btmp_bytes_len]; rewrite ?(layout_eq start cnt) by done;
    cbn [block_bitmap_lba block_bitmap_sects inode_bitmap_lba inode_bitmap_sects inode_table_lba data_start_lba];
    unfold disk_end; try lia.
  - split_and!; [|lia|lia]. split; cbn [bits btmp_bytes_len]; [lia|lia|by apply Forall_take].
  - split_and!; [|lia|by vm_compute]. split; cbn [bits btmp_bytes_len]; [lia|by vm_compute|apply zero_bytes_u8].
  - change (bit (block_bitmap (new_part start cnt buf)) 0 = true). by rewrite Hbits by lia.
  - intros i Hi Hbit. change (bit (block_bitmap (new_part start cnt buf)) i = false) in Hbit.
    rewrite Hbits in Hbit by lia. destruct (Z.leb_spec 1 i), (Z.leb_spec i (block_bitmap_bit_len cnt)); try done; lia.
Qed.

Lemma root_inode_ok start cnt : 0 ≤ start → 700 ≤ cnt → start + cnt < disk_end → inode_ok (root_inode start cnt).
Proof.
  intros Hs Hc He. destruct (layout_len start cnt) as (Hb1 & Hb2 & Hb3 & Hb4); try done. unfold disk_end in He.
  split; cbn [root_inode i_no i_size i_sectors]; [lia|unfold is_u32; lia|done|].
  constructor; [unfold is_u32; lia|]. apply Forall_replicate. unfold is_u32. lia.
Qed.
End formatted.

(** ** Properties *)

Section properties.
Context {D : Type} {BD : BlockDev D} {BS : BlockDevSpec D}.
Implicit Types s : fs D.

(** C7: mounting a freshly formatted partition gives a valid file system:
    the areas that [part_ok] asks for, block 0 and inode 0 taken by the root
    directory and the other blocks free, among them one block behind the last
    one; opening the root directory then reads an inode of two entries whose
    block holds "." and "..". *)
Theorem format_mount_correct s pad start cnt nm tl tl' :
  bd_inv (dev s) → length pad = 460%nat → 0 ≤ start → 700 ≤ cnt → start + cnt < disk_end →
  fs_mem s = [] → str_ok nm → (∀ h i, inodes s !! h = Some i → h < next_inode s) →
  ∃ d1 s2 s3 i, partition_format pad true start cnt (dev s) = Ret ((), d1) ∧
    mount_partition (PartInfo (nm ++ 0 :: tl) start cnt) (nm ++ 0 :: tl') (with_dev d1 s) = Ret (true, s2) ∧
    part_ok (cur_part s2) ∧ cache_ok s2 ∧
    (∀ j, 0 ≤ j < 4096 * block_bitmap_len cnt →
      bit (block_bitmap (cur_part s2)) j = negb ((1 <=? j) && (j <=? block_bitmap_bit_len cnt))) ∧
    bits (inode_bitmap (cur_part s2)) = 1 :: replicate 511 0 ∧
    open_root_dir s2 = Ret ((), s3) ∧ cache_ok s3 ∧
    dirs s3 !! root_dir = Some (Dir (next_inode s) 0) ∧ opened s3 0 (next_inode s) i ∧ i_size i = 48 ∧
    dbytes (dev s3) (512 * (i_sectors i !!! 0%nat)) 512 = dot_entries 0 0 ++ replicate 464 0.
Proof.
  intros Hd Hpad Hs Hc He Hm Hnm Hnext. destruct (layout_len start cnt) as (Hb1 & Hb2 & Hb3 & Hb4); try done.
  destruct (partition_format_run (dev s) pad start cnt) as (d1 & Hr1 & Hfm); [done..|].
  destruct (mount_run (with_dev d1 s) pad start cnt nm tl tl') as (buf & d2 & Hbuf & Hr2 & Hs2); [done..|].
  destruct (new_part_ok start cnt buf Hs Hc He Hbuf) as [Hp Hbits].
  set (s2 := with_part (new_part start cnt buf) (with_dev d2 (with_dev d1 s))) in *.
  assert (Hcache : cache_ok s2).
  { split; [constructor|intros h []%elem_of_nil|intros h h' i i' []%elem_of_nil|exact Hnext]. }
  destruct Hfm. assert (Hnone : ∀ h j, ¬ opened s2 0 h j) by (intros h j (Hin & _); by apply elem_of_nil in Hin).
  assert (Hbytes : dbytes (dev s2) (inode_addr (cur_part s2) 0) 76 = inode_bytes (root_inode start cnt)).
  { rewrite <-fm_table0, <-(dbytes_same d1 d2) by done. change (dev s2) with d2. f_equal.
    unfold inode_addr. cbn [s2 cur_part with_part new_part sb]. rewrite (layout_eq start cnt) by done.
    cbn [inode_table_lba]. unfold sizeof_inode. lia. }
  destruct (inode_open_miss s2 0 (root_inode start cnt) Hcache Hnone) as (d3 & Hr3 & Hs3);
    [apply Hs2|exact Hp|done|lia|by apply root_inode_ok|exact Hbytes|].
  exists d1, s2. eexists _, (Inode 0 48 1 false (i_sectors (root_inode start cnt))).
  split; [exact Hr1|]. split; [exact Hr2|]. split; [exact Hp|]. split; [exact Hcache|]. split; [exact Hbits|].
  split; [done|]. split.
  - unfold open_root_dir. rewrite bind_gets. cbn [s2 cur_part with_part new_part sb].
    rewrite (layout_eq start cnt) by done. cbn [root_inode_no]. rewrite (M_bind_Ret _ _ _ _ _ Hr3). reflexivity.
  - pose proof (loaded_cache s2 d3 0 (root_inode start cnt) Hcache Hnone eq_refl) as Hc3. split; [by destruct Hc3|].
    split; [cbn; apply lookup_insert_eq|]. split; [split_and!; [cbn; left|cbn; apply lookup_insert_eq|done]|].
    split; [done|]. rewrite <-fm_root0, <-(dbytes_same d1 d2), <-(dbytes_same d2 d3) by done. done.
Qed.
End properties.

Lemma format_mount_correct_witness :
  ∃ d1 s2, partition_format (replicate 460 0) true 2048 16384 (dev (ex_fs [] ∅ [])) = Ret ((), d1) ∧
    mount_partition (PartInfo [115; 100; 98; 49; 0; 0; 0; 0] 2048 16384) [115; 100; 98; 49; 0]
      (with_dev d1 (ex_fs [] ∅ [])) = Ret (true, s2) ∧ part_ok (cur_part s2).
Proof.
  destruct (format_mount_correct (ex_fs [] ∅ []) (replicate 460 0) 2048 16384 [115; 100; 98; 49] [0; 0; 0] [])
    as (d1 & s2 & s3 & i & Hr1 & Hr2 & Hp & _);
    [exact I|reflexivity|lia|lia|reflexivity|reflexivity|repeat constructor; unfold char_ok; lia|
     exact (ca_next _ ex_cache_ok)|].
  exists d1, s2. split; [exact Hr1|]. split; [exact Hr2|exact Hp].
Defined.
