(* ===== verification/Process.v ===== *)
(** * User processes (userprog/tss.c, userprog/process.c, userprog/fork.c)

    The segments of user code and the task state segment; the start of a
    process; fork. A process is a thread with an address space: the thread part
    is that of [Thread], the memory part is an instance of [ProcMem], which the
    page functions of [Memory] and [Space] implement, and the open files are
    those of [Inode]. Interrupts are disabled, so no other thread runs in
    between. *)

From Stdlib Require Import ZArith Lia.
From stdpp Require Import base numbers list gmap strings.
From S2P Require Import Prelude Bitmap Interrupt DList CString Paging Queue Keyboard Disk Inode FileData Fs Thread Sync Sched SchedInv Memory Arena Space.

(** ** Segments (tss.c) *)

Record gdt_desc := GdtDesc {
  limit_low_word : Z; base_low_word : Z; base_mid_byte : Z; attr_low_byte : Z;
  limit_high_attr_high : Z; base_high_byte : Z
}.

Definition make_gdt_desc (desc_addr limit attr_low attr_high : Z) : gdt_desc :=
  GdtDesc (Z.land limit 0x0000ffff) (Z.land desc_addr 0x0000ffff)
    (Z.shiftr (Z.land desc_addr 0x00ff0000) 16) (u8 attr_low)
    (u8 (Z.shiftr (Z.land limit 0x000f0000) 16 + u8 attr_high)) (Z.shiftr desc_addr 24).

Definition SELECTOR_K_STACK : Z := Z.shiftl 2 3.
Definition SELECTOR_U_CODE : Z := Z.shiftl 5 3 + 3.
Definition SELECTOR_U_DATA : Z := Z.shiftl 6 3 + 3.
Definition SELECTOR_TSS : Z := Z.shiftl 4 3.
Definition GDT_ATTR_HIGH : Z := Z.shiftl 1 7 + Z.shiftl 1 6.
Definition GDT_CODE_ATTR_LOW_DPL3 : Z := Z.shiftl 1 7 + Z.shiftl 3 5 + Z.shiftl 1 4 + 8.
Definition GDT_DATA_ATTR_LOW_DPL3 : Z := Z.shiftl 1 7 + Z.shiftl 3 5 + Z.shiftl 1 4 + 2.
Definition TSS_ATTR_HIGH : Z := Z.shiftl 1 7.
Definition TSS_ATTR_LOW : Z := Z.shiftl 1 7 + 9.
(** [sizeof(struct tss)]: 27 words. *)
Definition sizeof_tss : Z := 108.

(** What [tss_init] sets up: two words of the tss at [tss], the rest of it is
    zero; the descriptors by their addresses; the operand of lgdt and the
    selector in TR. *)
Record segments := Segments {
  ss0 : Z; io_base : Z; gdt : gmap Z gdt_desc; gdt_operand : Z; task_register : Z
}.
Definition tss_init (tss : Z) : segments :=
  Segments SELECTOR_K_STACK sizeof_tss
    (<[0xc0000920 := make_gdt_desc tss (sizeof_tss - 1) TSS_ATTR_LOW TSS_ATTR_HIGH]>
    (<[0xc0000928 := make_gdt_desc 0 0xfffff GDT_CODE_ATTR_LOW_DPL3 GDT_ATTR_HIGH]>
    (<[0xc0000930 := make_gdt_desc 0 0xfffff GDT_DATA_ATTR_LOW_DPL3 GDT_ATTR_HIGH]> ∅)))
    (Z.lor (8 * 7 - 1) (Z.shiftl 0xc0000900 16)) SELECTOR_TSS.

(** ** Data *)

(** [struct intr_stack] *)
Record intr_stack := IntrStack {
  st_vec_no : Z; st_edi : Z; st_esi : Z; st_ebp : Z; st_esp_dummy : Z; st_ebx : Z; st_edx : Z; st_ecx : Z; st_eax : Z;
  st_gs : Z; st_fs : Z; st_es : Z; st_ds : Z;
  st_err_code : Z; st_eip : Z; st_cs : Z; st_eflags : Z; st_esp : Z; st_ss : Z
}.
Definition st_eax_set (x : Z) (f : intr_stack) : intr_stack :=
  IntrStack (st_vec_no f) (st_edi f) (st_esi f) (st_ebp f) (st_esp_dummy f) (st_ebx f) (st_edx f) (st_ecx f) x
    (st_gs f) (st_fs f) (st_es f) (st_ds f) (st_err_code f) (st_eip f) (st_cs f) (st_eflags f) (st_esp f) (st_ss f).

Definition USER_STACK3_VADDR : Z := 0xc0000000 - 0x1000.
Definition USER_VADDR_START : Z := 0x8048000.
Definition default_prio : Z := 31.

(** The memory of a process: physical memory, the user addresses of the running
    thread, [get_kernel_pages], [create_page_dir], [copy_body_stack3] (the two
    fields [pgdir], the parent's addresses and the buffer),
    [get_a_page(PF_USER, )] and [mfree_page(PF_KERNEL, , )]. *)
Class ProcMem (P : Type) := {
  pm_vm : lens P pmem;
  pm_user : lens P virtual_addr;
  pm_pages : Z → M P Z;
  pm_page_dir : M P Z;
  pm_copy : Z → Z → virtual_addr → Z → M P unit;
  pm_user_page : Z → M P Z;
  pm_free : Z → Z → M P unit
}.

(** Allocation in the kernel does not touch the user addresses. *)
Class ProcMemSpec (P : Type) `{ProcMem P} := {
  pm_vm_laws :: LensLaws pm_vm;
  pm_pages_user n m v m' : pm_pages n m = Ret (v, m') → view pm_user m' = view pm_user m;
  pm_page_dir_user m v m' : pm_page_dir m = Ret (v, m') → view pm_user m' = view pm_user m
}.

Definition user_lens : lens mstate virtual_addr := Lens user_vaddr (λ v s, with_vaddr PF_USER v s).
#[export] Instance memory_proc : ProcMem mstate := {|
  pm_vm := mem_lens;
  pm_user := user_lens;
  pm_pages := get_kernel_pages;
  pm_page_dir := create_page_dir;
  pm_copy := copy_body_stack3;
  pm_user_page := get_a_page PF_USER;
  pm_free := mfree_page PF_KERNEL
|}.

(** [kern] has the threads, [space] the memory (the field [vm] of [kern] is not
    used); [spaces], [descs] and [stacks] are the fields [userprog_vaddr] of the
    threads that do not run, [u_block_desc], and the interrupt stacks, by address. *)
Record pstate (L P D : Type) := PState {
  kern : kstate L;
  space : P;
  files : fs D;
  spaces : gmap Z virtual_addr;
  descs : gmap Z (list mem_block_desc);
  stacks : gmap Z intr_stack
}.
Arguments PState {L P D}. Arguments kern {L P D}. Arguments space {L P D}. Arguments files {L P D}.
Arguments spaces {L P D}. Arguments descs {L P D}. Arguments stacks {L P D}.

(** ** Operations *)

Section ops.
Context {L : Type} `{ListOps L} {P : Type} {PM : ProcMem P} {D : Type}.
Context (ly : layout).
Abbreviation S := (M (pstate L P D)).

(** The threads see the memory of [space]. *)
Definition kern_lens : lens (pstate L P D) (kstate L) := Lens
  (λ s, set_vm (view pm_vm (space s)) (kern s))
  (λ k s, PState k (over pm_vm (vm k) (space s)) (files s) (spaces s) (descs s) (stacks s)).
Definition space_lens : lens (pstate L P D) P := Lens space
  (λ m s, PState (kern s) m (files s) (spaces s) (descs s) (stacks s)).
Definition files_lens : lens (pstate L P D) (fs D) := Lens files
  (λ f s, PState (kern s) (space s) f (spaces s) (descs s) (stacks s)).
Definition on_kern {A} (m : M (kstate L) A) : S A := zoom kern_lens m.
Definition on_space {A} (m : M P A) : S A := zoom space_lens m.

Definition set_space (p : Z) (v : virtual_addr) : S unit := modify (λ s,
  PState (kern s) (space s) (files s) (<[p := v]> (spaces s)) (descs s) (stacks s)).
Definition set_descs (p : Z) (l : list mem_block_desc) : S unit := modify (λ s,
  PState (kern s) (space s) (files s) (spaces s) (<[p := l]> (descs s)) (stacks s)).
Definition set_stack (a : Z) (f : intr_stack) : S unit := modify (λ s,
  PState (kern s) (space s) (files s) (spaces s) (descs s) (<[a := f]> (stacks s))).
Definition get_space (p : Z) : S virtual_addr := λ s,
  match spaces s !! p with Some v => Ret (v, s) | None => Fault end.
Definition get_stack (a : Z) : S intr_stack := λ s,
  match stacks s !! a with Some f => Ret (f, s) | None => Fault end.
Definition set_prog (p : Z) (l : list instr) : M (kstate L) unit := modify (λ k, set_progs (<[p := l]> (progs k)) k).

(** [allocate_pid] with interrupts disabled. *)
Definition fork_pid : M (kstate L) Z :=
  cur ← running_thread;
  k ← gets (λ k, locks k !! pid_lock ly);
  k ← lift (match k with Some k => acquire k cur | None => Fault end);
  _ ← increment_pid;
  k ← lift (release k cur);
  _ ← modify (λ s, set_locks (<[pid_lock ly := k]> (locks s)) s);
  gets next_pid.

(** *** process.c *)

Definition create_user_vaddr_bitmap (user_prog : Z) : S unit :=
  let bitmap_pg_cnt := DIV_ROUND_UP ((0xc0000000 - USER_VADDR_START) / PG_SIZE / 8) PG_SIZE in
  bits ← on_space (pm_pages bitmap_pg_cnt);
  b ← lift (if bits =? NULL then Fault else
    bitmap_init (Bitmap ((0xc0000000 - USER_VADDR_START) / PG_SIZE / 8) (replicate (Z.to_nat (bitmap_pg_cnt * PG_SIZE)) 0)));
  set_space user_prog (VAddr b USER_VADDR_START).

Definition task_pgdir_set (x : Z) (t : task_struct) : task_struct :=
  Task (self_kstack t) (pid t) (status t) (name t) (priority t) (ticks t) (elapsed_ticks t)
    (fd_table t) x (cwd_inode_nr t) (parent_pid t) (stack_magic t).
Definition task_name_set (x : list Z) (t : task_struct) : task_struct :=
  Task (self_kstack t) (pid t) (status t) x (priority t) (ticks t) (elapsed_ticks t)
    (fd_table t) (pgdir t) (cwd_inode_nr t) (parent_pid t) (stack_magic t).

(** A new page that becomes a thread control block; a write to NULL faults. *)
Definition new_task (p : Z) : M (kstate L) unit :=
  if p =? NULL then lift Fault else modify (λ k, set_tasks (<[p := zero_task]> (tasks k)) k).

(** [start] is the program of a thread that calls [start_process(filename)]. *)
Definition process_execute (start : list instr) (nm : list Z) : S unit :=
  thread ← on_space (pm_pages 1);
  _ ← on_kern (new_task thread);
  _ ← on_kern (init_thread_clear thread);
  new_pid ← on_kern fork_pid;
  _ ← on_kern (init_thread_rest thread nm default_prio new_pid);
  _ ← create_user_vaddr_bitmap thread;
  _ ← on_kern (thread_create thread start);
  pgdir ← on_space pm_page_dir;
  _ ← on_kern (upd_task thread (task_pgdir_set pgdir));
  _ ← set_descs thread block_desc_init;
  old_status ← on_kern k_disable;
  _ ← on_kern (thread_enqueue (thread_ready_list ly) (general_tag thread));
  _ ← on_kern (thread_enqueue (thread_all_list ly) (all_list_tag thread));
  on_kern (k_set_status old_status).

(** [start_process]; it ends in [intr_exit], the rest of the thread's program. *)
Definition start_process (filename : Z) : S unit :=
  cur ← on_kern running_thread;
  _ ← on_kern (upd_task cur (λ t, task_kstack_set (u32 (self_kstack t + sizeof_thread_stack * 4)) t));
  t ← on_kern (get_task cur);
  let proc_stack := self_kstack t in
  f ← get_stack proc_stack;
  page ← on_space (pm_user_page USER_STACK3_VADDR);
  let eflags := Z.lor (Z.lor 0 (Z.shiftl 1 1)) (Z.shiftl 1 9) in
  _ ← set_stack proc_stack (IntrStack (st_vec_no f) 0 0 0 0 0 0 0 0 0
    SELECTOR_U_DATA SELECTOR_U_DATA SELECTOR_U_DATA (st_err_code f) filename SELECTOR_U_CODE eflags
    (u32 (page + PG_SIZE)) SELECTOR_U_DATA);
  on_kern (set_prog cur [IIret eflags]).

(** *** fork.c *)

(** The interrupt stack at the end of the page of a thread. *)
Definition intr_0_stack (p : Z) : Z := u32 (p + PG_SIZE - sizeof_intr_stack).

(** [memcpy(child_thread, parent_thread, PG_SIZE)]: the control block with its
    fields in [spaces] and [descs], and the interrupt stack. The two tags of the
    child, which the code sets to NULL, are in no list. *)
Definition memcpy_pcb (child parent : Z) : S unit :=
  t ← on_kern (get_task parent);
  _ ← on_kern (modify (λ k, set_tasks (<[child := t]> (tasks k)) k));
  modify (λ s, PState (kern s) (space s) (files s) (<[child := view pm_user (space s)]> (spaces s))
    (partial_alter (λ _, descs s !! parent) child (descs s))
    (partial_alter (λ _, stacks s !! intr_0_stack parent) (intr_0_stack child) (stacks s))).

(** [memcpy(vaddr_btmp, bits, n)] into new pages. *)
Definition copy_bitmap (b : bitmap) (n : Z) : outcome bitmap :=
  if Z.of_nat (length (bits b)) <? n then Fault
  else Ret (Bitmap (btmp_bytes_len b) (take (Z.to_nat n) (bits b))).

Definition copy_pcb_vaddrbitmap_stack0 (child_thread parent_thread : Z) : S Z :=
  _ ← memcpy_pcb child_thread parent_thread;
  new_pid ← on_kern fork_pid;
  parent ← on_kern (get_task parent_thread);
  _ ← on_kern (upd_task child_thread (λ t,
    Task (self_kstack t) new_pid TASK_READY (name t) (priority t) (priority t) 0
      (fd_table t) (pgdir t) (cwd_inode_nr t) (pid parent) (stack_magic t)));
  _ ← set_descs child_thread block_desc_init;
  let bitmap_pg_cnt := DIV_ROUND_UP ((0xc0000000 - USER_VADDR_START) / PG_SIZE / 8) PG_SIZE in
  vaddr_btmp ← on_space (pm_pages bitmap_pg_cnt);
  if vaddr_btmp =? NULL then mret (-1) else
  va ← get_space child_thread;
  b ← lift (copy_bitmap (vaddr_bitmap va) (bitmap_pg_cnt * PG_SIZE));
  _ ← set_space child_thread (VAddr b (vaddr_start va));
  t ← on_kern (get_task child_thread);
  n ← lift (strlen (name t));
  _ ← ASSERT (n <? 11);
  nm ← lift (strcat (name t) [95; 102; 111; 114; 107; 0]);
  _ ← on_kern (upd_task child_thread (task_name_set nm));
  mret 0.

(** The five words below the interrupt stack are the [thread_stack] that
    [switch_to] takes: it returns to [intr_exit], the child's program. *)
Definition build_child_stack (child_thread : Z) : S Z :=
  f ← get_stack (intr_0_stack child_thread);
  _ ← set_stack (intr_0_stack child_thread) (st_eax_set 0 f);
  _ ← on_kern (set_prog child_thread [IIret (st_eflags f)]);
  _ ← on_kern (upd_task child_thread (task_kstack_set (u32 (intr_0_stack child_thread - 5 * 4))));
  mret 0.

(** [while (local_fd < MAX_FILES_OPEN_PER_PROC)] over the rest of the table. *)
Fixpoint open_cnts_loop (fds : list Z) : M (fs D) unit :=
  match fds with
  | [] => mret ()
  | global_fd :: fds =>
    _ ← ASSERT (global_fd <? MAX_FILE_OPEN);
    _ ← (if negb (global_fd =? -1) then
        l ← gets file_table;
        f ← lift (load l global_fd);
        i ← get_inode (fd_inode f);
        set_inode (fd_inode f) (inode_opened (u32 (i_open_cnts i + 1)) i)
      else mret ());
    open_cnts_loop fds
  end.
Definition update_inode_open_cnts (fds : list Z) : M (fs D) unit :=
  open_cnts_loop (take (MAX_FILES_OPEN_PER_PROC - 3) (drop 3 fds)).

Definition copy_process (child_thread parent_thread : Z) : S Z :=
  buf_page ← on_space (pm_pages 1);
  if buf_page =? NULL then mret (-1) else
  r ← copy_pcb_vaddrbitmap_stack0 child_thread parent_thread;
  if r =? -1 then mret (-1) else
  pgdir ← on_space pm_page_dir;
  _ ← on_kern (upd_task child_thread (task_pgdir_set pgdir));
  if pgdir =? NULL then mret (-1) else
  parent ← on_kern (get_task parent_thread);
  va ← gets (λ s, view pm_user (space s));
  _ ← on_space (pm_copy pgdir (Thread.pgdir parent) va buf_page);
  _ ← build_child_stack child_thread;
  child ← on_kern (get_task child_thread);
  _ ← zoom files_lens (update_inode_open_cnts (fd_table child));
  _ ← on_space (pm_free buf_page 1);
  mret 0.

Definition sys_fork : S Z :=
  parent_thread ← on_kern running_thread;
  child_thread ← on_space (pm_pages 1);
  if child_thread =? NULL then mret (-1) else
  st ← on_kern (zoom flags_lens intr_get_status);
  parent ← on_kern (get_task parent_thread);
  _ ← ASSERT (bool_decide (st = INTR_OFF) && negb (pgdir parent =? NULL));
  r ← copy_process child_thread parent_thread;
  if r =? -1 then mret (-1) else
  _ ← on_kern (thread_enqueue (thread_ready_list ly) (general_tag child_thread));
  _ ← on_kern (thread_enqueue (thread_all_list ly) (all_list_tag child_thread));
  child ← on_kern (get_task child_thread);
  mret (pid child).
End ops.

(** ** The memory of [Memory] keeps the promise *)

Section keeps.
Definition keeps_user {A} (m : MM A) : Prop := ∀ s a s', m s = Ret (a, s') → user_vaddr s' = user_vaddr s.

Lemma ku_bind {A B} (m : MM A) (f : A → MM B) : keeps_user m → (∀ a, keeps_user (f a)) → keeps_user (m ≫= f).
Proof. intros Hm Hf s b s' (a & s1 & H1 & H2)%M_bind_inv. rewrite (Hf _ _ _ _ H2). by eapply Hm. Qed.
Lemma ku_ret {A} (a : A) : keeps_user (mret a).
Proof. by intros s b s' [= _ <-]. Qed.
Lemma ku_lift {A} (x : outcome A) : keeps_user (lift x).
Proof. intros s b s'. unfold lift. destruct x; by intros [= _ <-]. Qed.
Lemma ku_gets {A} (g : mstate → A) : keeps_user (gets g).
Proof. by intros s b s' [= _ <-]. Qed.
Lemma ku_ASSERT b : keeps_user (ASSERT b).
Proof. intros s a s'. unfold ASSERT. destruct b; by intros [= _ <-]. Qed.
Lemma ku_PANIC {A} : keeps_user (@PANIC mstate A).
Proof. by intros s a s'. Qed.
Lemma ku_zoom {A} (m : M pmem A) : keeps_user (zoom mem_lens m).
Proof. intros s a s'. unfold zoom. destruct (m _) as [[x t]| | |]; by intros [= _ <-]. Qed.
Lemma ku_pool pf : keeps_user (get_pool pf).
Proof. apply ku_gets. Qed.
Lemma ku_set_pool pf p : keeps_user (set_pool pf p).
Proof. intros s a s'. rewrite set_pool_eq. intros [= _ <-]. by destruct pf. Qed.
Lemma ku_set_vaddr v : keeps_user (set_vaddr PF_KERNEL v).
Proof. by intros s a s' [= _ <-]. Qed.

Create HintDb keeps.
#[local] Hint Resolve ku_bind ku_ret ku_lift ku_gets ku_ASSERT ku_PANIC ku_zoom ku_pool ku_set_pool ku_set_vaddr : keeps.

Ltac keeps := repeat (first [solve [auto with keeps] | apply ku_bind; [|intros] | case_match]).

Lemma ku_palloc pf : keeps_user (palloc pf).
Proof. unfold palloc. keeps. Qed.
#[local] Hint Resolve ku_palloc : keeps.
Lemma ku_page_table_add v f : keeps_user (page_table_add v f).
Proof. unfold page_table_add. keeps. Qed.
#[local] Hint Resolve ku_page_table_add : keeps.
Lemma ku_map_pages n pf v : keeps_user (map_pages n pf v).
Proof. revert v. induction n as [|n IH]; intros v; cbn [map_pages]; keeps. Qed.
#[local] Hint Resolve ku_map_pages : keeps.
Lemma ku_get_kernel_pages n : keeps_user (get_kernel_pages n).
Proof. unfold get_kernel_pages, malloc_page, vaddr_get, clear_pages, get_vaddr. keeps. Qed.
#[local] Hint Resolve ku_get_kernel_pages : keeps.
Lemma ku_create_page_dir : keeps_user create_page_dir.
Proof.
  unfold create_page_dir. keeps.
Qed.
End keeps.

#[export] Instance memory_proc_spec : ProcMemSpec mstate.
Proof.
  split.
  - split; [done|by intros []|done].
  - intros n m v m'. apply ku_get_kernel_pages.
  - intros m v m'. apply ku_create_page_dir.
Qed.

(** ** Segments *)

(** A descriptor as the processor reads it. *)
Definition desc_base (d : gdt_desc) : Z :=
  base_low_word d + Z.shiftl (base_mid_byte d) 16 + Z.shiftl (base_high_byte d) 24.
Definition desc_limit (d : gdt_desc) : Z :=
  limit_low_word d + Z.shiftl (Z.land (limit_high_attr_high d) 0xf) 16.
(** The bytes of the segment: with the granularity bit the limit counts pages. *)
Definition desc_size (d : gdt_desc) : Z :=
  (desc_limit d + 1) * (if Z.testbit (limit_high_attr_high d) 7 then 4096 else 1).
Definition desc_dpl (d : gdt_desc) : Z := Z.land (Z.shiftr (attr_low_byte d) 5) 3.
Definition desc_present (d : gdt_desc) : bool := Z.testbit (attr_low_byte d) 7.
(** Type and the bit that tells code and data from system segments. *)
Definition desc_type (d : gdt_desc) : Z := Z.land (attr_low_byte d) 0x1f.

Lemma make_gdt_desc_run base limit al k : is_u32 base → 0 ≤ limit < 1048576 → is_u8 al → 0 ≤ k < 16 →
  let d := make_gdt_desc base limit al (16 * k) in
  desc_base d = base ∧ desc_limit d = limit ∧ attr_low_byte d = al ∧
  Z.testbit (limit_high_attr_high d) 7 = Z.testbit k 3.
Proof.
  intros Hb Hl Ha Hk. unfold desc_base, desc_limit, make_gdt_desc.
  cbn [limit_low_word base_low_word base_mid_byte attr_low_byte limit_high_attr_high base_high_byte].
  assert (Z.shiftr (Z.land base 0xff0000) 16 = base / 65536 mod 256) as ->.
  { rewrite Z.shiftr_land. change (Z.shiftr 0xff0000 16) with (Z.ones 8). by rewrite Z.land_ones, Z.shiftr_div_pow2. }
  assert (Z.shiftr (Z.land limit 0xf0000) 16 = limit / 65536 mod 16) as ->.
  { rewrite Z.shiftr_land. change (Z.shiftr 0xf0000 16) with (Z.ones 4). by rewrite Z.land_ones, Z.shiftr_div_pow2. }
  change 0xffff with (Z.ones 16). change 0xf with (Z.ones 4). rewrite !Z.land_ones by done.
  change (2 ^ 16) with 65536. change (2 ^ 4) with 16. rewrite !Z.shiftl_mul_pow2, Z.shiftr_div_pow2 by done.
  change (2 ^ 24) with 16777216. change (2 ^ 16) with 65536.
  rewrite (u8_id (16 * k)), (u8_id al), (u8_id (limit / 65536 mod 16 + 16 * k)) by (unfold is_u8 in *; zlia).
  split_and!; [unfold is_u32 in Hb; zlia|zlia|done|].
  replace 7 with (3 + 4) by done. rewrite <-(Z.shiftr_spec _ 4 3), Z.shiftr_div_pow2 by done. change (2 ^ 4) with 16. f_equal. zlia.
Qed.

(** C35: after [tss_init] the selector in TR names a present system segment at
    the tss and the two user selectors name present code and data segments of
    privilege 3 over the whole 4 GB; all lie in the table that lgdt is given.
    The limit of the tss counts pages: it reaches far behind [io_base], so the
    memory behind the tss is read as the map of ports that user code may use. *)
Theorem tss_init_correct tss : is_u32 tss →
  let g := tss_init tss in
  let at_selector sel := gdt g !! (Z.shiftr (gdt_operand g) 16 + Z.land sel 0xfff8) in
  (∃ d, at_selector (task_register g) = Some d ∧ desc_base d = tss ∧ desc_size d = sizeof_tss * 4096 ∧
     io_base g < desc_size d ∧ desc_present d = true ∧ desc_type d = 9 ∧ desc_dpl d = 0) ∧
  (∃ d, at_selector SELECTOR_U_CODE = Some d ∧ desc_base d = 0 ∧ desc_size d = 4294967296 ∧
     desc_present d = true ∧ desc_type d = 0x18 ∧ desc_dpl d = 3) ∧
  (∃ d, at_selector SELECTOR_U_DATA = Some d ∧ desc_base d = 0 ∧ desc_size d = 4294967296 ∧
     desc_present d = true ∧ desc_type d = 0x12 ∧ desc_dpl d = 3) ∧
  Forall (λ sel, Z.land sel 0xfff8 + 7 ≤ Z.land (gdt_operand g) 0xffff)
    [task_register g; SELECTOR_U_CODE; SELECTOR_U_DATA; ss0 g].
Proof.
  intros Ht g at_selector.
  destruct (make_gdt_desc_run tss (sizeof_tss - 1) TSS_ATTR_LOW 8 Ht ltac:(done) ltac:(done) ltac:(done)) as (Hb & Hl & Ha & Hg).
  change (16 * 8) with TSS_ATTR_HIGH in *.
  split_and!.
  - exists (make_gdt_desc tss (sizeof_tss - 1) TSS_ATTR_LOW TSS_ATTR_HIGH).
    unfold desc_size, desc_dpl, desc_present, desc_type. rewrite Hb, Hl, Ha, Hg.
    by split_and!.
  - exists (make_gdt_desc 0 0xfffff GDT_CODE_ATTR_LOW_DPL3 GDT_ATTR_HIGH). by split_and!.
  - exists (make_gdt_desc 0 0xfffff GDT_DATA_ATTR_LOW_DPL3 GDT_ATTR_HIGH). by split_and!.
  - repeat (constructor; [vm_compute; done|]). constructor.
Qed.

Lemma tss_init_correct_witness :
  ∃ d, gdt (tss_init 0xc0006000) !! 0xc0000920 = Some d ∧ desc_base d = 0xc0006000 ∧ io_base (tss_init 0xc0006000) < desc_size d.
Proof.
  destruct (tss_init_correct 0xc0006000) as ((d & Hd & Hb & _ & Hi & _) & _); [unfold is_u32; lia|].
  exists d. split; [exact Hd|]. split; [exact Hb|exact Hi].
Defined.

(** ** Open files *)

(** How often the descriptors [fds] refer to the inode at [h]. *)
Definition opens (tbl : list file) (fds : list Z) (h : Z) : Z :=
  Z.of_nat (length (filter (λ g, g ≠ -1 ∧ fd_inode <$> tbl !! Z.to_nat g = Some h) fds)).
Definition counted (tbl : list file) (fds : list Z) (m : gmap Z inode) : gmap Z inode :=
  map_imap (λ h i, Some (inode_opened (i_open_cnts i + opens tbl fds h) i)) m.

(** Every descriptor is unused or refers to an open file with its inode. *)
Definition fds_ok {D} (st : fs D) (fds : list Z) : Prop :=
  Forall (λ g, g = -1 ∨ 0 ≤ g < 32 ∧ ∃ f i, file_table st !! Z.to_nat g = Some f ∧ inodes st !! fd_inode f = Some i) fds ∧
  map_Forall (λ _ i, 0 ≤ i_open_cnts i ∧ i_open_cnts i + Z.of_nat (length fds) < 4294967296) (inodes st).

Lemma open_cnts_run {D} (st : fs D) fds : fds_ok st fds →
  open_cnts_loop fds st = Ret ((), with_inodes (counted (file_table st) fds (inodes st)) st).
Proof.
  revert st. induction fds as [|g fds IH]; intros st [Hf Hc].
  { cbn. replace (counted (file_table st) [] (inodes st)) with (inodes st); [by destruct st|].
    apply map_eq. intros h. unfold counted. rewrite map_lookup_imap. destruct (inodes st !! h) as [[]|]; [|done].
    cbn. unfold inode_opened. cbn. by rewrite Z.add_0_r. }
  apply Forall_cons in Hf as [Hg Hf]. cbn [open_cnts_loop length] in *.
  assert (∀ st' : fs D, inodes st' = inodes st → file_table st' = file_table st → fds_ok st' fds) as Hok.
  { intros st' E1 E2. unfold fds_ok. rewrite E1, E2. split; [done|]. intros h i Hi. specialize (Hc h i Hi). cbn in Hc. lia. }
  destruct Hg as [->|[Hg (f & i & Hft & Hi)]].
  - change (-1 <? MAX_FILE_OPEN) with true. change (-1 =? -1) with true. cbn [negb]. rewrite bind_ASSERT_true, bind_ret, IH by (by apply Hok).
    done.
  - unfold MAX_FILE_OPEN. destruct (Z.ltb_spec g 32); [|lia]. rewrite bind_ASSERT_true.
    destruct (Z.eqb_spec g (-1)); [lia|]. cbn [negb]. rewrite !bind_assoc, bind_gets.
    assert (load (file_table st) g = Ret f) as -> by (apply load_Ret; split; [lia|done]).
    rewrite !bind_assoc, bind_lift, !bind_assoc, (M_bind_Ret _ _ _ _ _ (get_inode_run _ _ _ Hi)).
    unfold set_inode. rewrite bind_modify. pose proof (Hc _ _ Hi) as Hci. cbn in Hci.
    rewrite (u32_id (i_open_cnts i + 1)) by (unfold is_u32; lia).
    rewrite IH.
    2:{ split; cbn [file_table inodes with_inodes].
      - eapply Forall_impl; [exact Hf|]. intros g' [->|[? (f' & i' & Hf' & Hi')]]; [by left|right].
        split; [done|]. destruct (decide (fd_inode f = fd_inode f')) as [E|E].
        + eexists f', _. split; [done|]. rewrite <-E. apply lookup_insert_eq.
        + exists f', i'. split; [done|]. by rewrite lookup_insert_ne.
      - apply map_Forall_insert_2; [cbn; lia|]. intros h i' Hi'. specialize (Hc h i' Hi'). cbn in Hc. lia. }
    assert (counted (file_table st) fds (<[fd_inode f := inode_opened (i_open_cnts i + 1) i]> (inodes st)) =
      counted (file_table st) (g :: fds) (inodes st)) as <-; [|done].
    apply map_eq. intros h. unfold counted, opens. rewrite !map_lookup_imap, filter_cons.
    destruct (decide (fd_inode f = h)) as [<-|Hne].
    + rewrite lookup_insert_eq, Hi. cbn. rewrite decide_True by (rewrite Hft; done). cbn [length].
      unfold inode_opened. cbn. do 2 f_equal. lia.
    + rewrite lookup_insert_ne by done. destruct (inodes st !! h) as [i'|]; [|done]. cbn.
      rewrite decide_False; [done|]. rewrite Hft. cbn. intros [_ [= ?]]. done.
Qed.

Lemma update_inode_open_cnts_run {D} (st : fs D) (fds : list Z) :
  let l := take (MAX_FILES_OPEN_PER_PROC - 3) (drop 3 fds) in fds_ok st l →
  update_inode_open_cnts fds st = Ret ((), with_inodes (counted (file_table st) l (inodes st)) st).
Proof. intros l Hl. by apply open_cnts_run. Qed.

(** ** Runs of the pieces *)

Section runs.
Context {P : Type} {PM : ProcMem P} {PS : ProcMemSpec P} {D : Type}.
Context (ly : layout).
Implicit Types (k : kstate qstate) (s : pstate qstate P D).

Definition with_kern k s : pstate qstate P D := PState k (space s) (files s) (spaces s) (descs s) (stacks s).
Definition with_space (m : P) s : pstate qstate P D := PState (kern s) m (files s) (spaces s) (descs s) (stacks s).
(** The threads as they see the memory. *)
Definition seen s : kstate qstate := set_vm (view pm_vm (space s)) (kern s).

Lemma bind_kern {A B} (m : M (kstate qstate) A) (f : A → M (pstate qstate P D) B) s a k :
  m (seen s) = Ret (a, k) → vm k = view pm_vm (space s) → (on_kern m ≫= f) s = f a (with_kern k s).
Proof.
  intros Hm Hv. unfold on_kern. rewrite (bind_zoom kern_lens m f s a k Hm). cbn. rewrite Hv, over_view. done.
Qed.
Lemma bind_space {A B} (m : M P A) (f : A → M (pstate qstate P D) B) s a p :
  m (space s) = Ret (a, p) → (on_space m ≫= f) s = f a (with_space p s).
Proof. intros Hm. unfold on_space. by rewrite (bind_zoom space_lens m f s a p Hm). Qed.

Lemma get_task_run p t k : tasks k !! p = Some t → get_task p k = Ret (t, k).
Proof. intros Ht. unfold get_task. by rewrite Ht. Qed.
Lemma upd_task_run p t f k : tasks k !! p = Some t → upd_task p f k = Ret ((), set_tasks (<[p := f t]> (tasks k)) k).
Proof. intros Ht. unfold upd_task. by rewrite Ht. Qed.

Lemma fork_pid_run k : let p := Z.land (esp k) 0xfffff000 in p ≠ NULL → locks k !! pid_lock ly = Some (Lock NULL 0) →
  fork_pid ly k = Ret (i16 (next_pid k + 1), set_next_pid (i16 (next_pid k + 1)) k).
Proof.
  intros p Hp Hl. unfold fork_pid, running_thread. rewrite !bind_gets, Hl. fold p. unfold acquire, release.
  cbn [holder holder_repeat_nr]. destruct (Z.eqb_spec NULL p) as [E|_]; [by subst|].
  change (NULL =? NULL) with true. cbv iota. rewrite bind_lift. unfold increment_pid. rewrite bind_modify.
  cbn [holder holder_repeat_nr]. rewrite (Z.eqb_refl p). change (1 <? 1) with false. change (1 =? 1) with true.
  cbn -[insert]. rewrite bind_lift, bind_modify, gets_eq. cbn -[insert]. rewrite insert_id by done. by destruct k.
Qed.

Lemma status_run k : if_on (q_eflags (lists k)) = false → zoom flags_lens intr_get_status k = Ret (INTR_OFF, k).
Proof.
  intros Ho. assert (intr_get_status (view flags_lens k) = Ret (INTR_OFF, view flags_lens k)) as E.
  { unfold intr_get_status. rewrite bind_gets, status_if. cbn. by rewrite Ho. }
  rewrite (zoom_Ret flags_lens _ _ _ _ E). by destruct k as [[]].
Qed.

Lemma thread_enqueue_run l e k xs : queues (lists k) !! l = Some xs → e ∉ xs → free_node (lists k) e →
  thread_enqueue l e k = Ret ((), set_lists (set_queue l (xs ++ [e]) (lists k)) k).
Proof.
  intros Hq Hn Hf. unfold thread_enqueue.
  assert (k_find l e k = Ret (false, k)) as Hfd.
  { unfold k_find, zoom. cbn. unfold q_find. rewrite Hq, bool_decide_eq_false_2 by done. by destruct k. }
  rewrite (M_bind_Ret _ _ _ _ _ Hfd). cbn [negb]. rewrite bind_ASSERT_true.
  unfold k_append, zoom. cbn. unfold q_append. rewrite Hq, decide_True by done. done.
Qed.

Lemma insert_partial_alter {A} (m : gmap Z A) f i x : <[i := x]> (partial_alter f i m) = <[i := x]> m.
Proof.
  apply map_eq. intros j. destruct (decide (i = j)) as [<-|]; [by rewrite !lookup_insert_eq|].
  by rewrite !lookup_insert_ne, lookup_partial_alter_ne.
Qed.

(** The child's control block after [copy_pcb_vaddrbitmap_stack0]. *)
Definition child_pcb (t : task_struct) (n : Z) (nm tl : list Z) : task_struct :=
  Task (self_kstack t) n TASK_READY (nm ++ [95; 102; 111; 114; 107; 0] ++ drop 5 tl) (priority t) (priority t) 0
    (fd_table t) (pgdir t) (cwd_inode_nr t) (pid t) (stack_magic t).

Definition bitmap_pages : Z := 23.

Record pcb_ready s (c p : Z) (t : task_struct) (nm tl : list Z) (vb : Z) (m : P) : Prop := {
  pc_cur : p = Z.land (esp (kern s)) 0xfffff000 ∧ p ≠ NULL ∧ p ≠ c;
  pc_task : tasks (kern s) !! p = Some t;
  pc_lock : locks (kern s) !! pid_lock ly = Some (Lock NULL 0);
  pc_name : name t = nm ++ 0 :: tl ∧ str_ok nm ∧ (length nm < 11)%nat ∧ (5 ≤ length tl)%nat;
  pc_pages : pm_pages bitmap_pages (space s) = Ret (vb, m) ∧ vb ≠ NULL;
  pc_bits : bitmap_pages * 4096 ≤ Z.of_nat (length (bits (vaddr_bitmap (view pm_user (space s)))))
}.

Lemma copy_pcb_run s c p t nm tl vb m : pcb_ready s c p t nm tl vb m →
  let n := i16 (next_pid (kern s) + 1) in let va := view pm_user (space s) in
  ∃ k, copy_pcb_vaddrbitmap_stack0 ly c p s = Ret (0, PState k m (files s)
      (<[c := VAddr (Bitmap (btmp_bytes_len (vaddr_bitmap va)) (take (Z.to_nat (bitmap_pages * 4096)) (bits (vaddr_bitmap va))))
        (vaddr_start va)]> (spaces s))
      (<[c := block_desc_init]> (descs s))
      (partial_alter (λ _, stacks s !! intr_0_stack p) (intr_0_stack c) (stacks s))) ∧
    ∃ v, k = set_vm v (set_tasks (<[c := child_pcb t n nm tl]> (tasks (kern s))) (set_next_pid n (kern s))).
Proof.
  intros [(Hp & Hpn & Hpc) Ht Hl (Hnm & Hok & Hlen & Htl) (Hpg & Hvb) Hbits] n va.
  eexists. split.
  - unfold copy_pcb_vaddrbitmap_stack0, memcpy_pcb. rewrite bind_assoc.
    erewrite bind_kern; [|by apply get_task_run|done].
    rewrite bind_assoc. erewrite bind_kern; [|done|done]. rewrite bind_modify.
    erewrite bind_kern; [|apply fork_pid_run; [by rewrite Hp in Hpn|done]|done].
    erewrite bind_kern; [|apply (get_task_run p t); cbn; by rewrite lookup_insert_ne|done].
    erewrite bind_kern; [|apply (upd_task_run c t); cbn; apply lookup_insert_eq|done].
    unfold set_descs. rewrite bind_modify.
    change (DIV_ROUND_UP _ _) with bitmap_pages.
    erewrite bind_space; [|exact Hpg]. destruct (Z.eqb_spec vb NULL); [done|].
    erewrite M_bind_Ret; [|unfold get_space; cbn [spaces with_kern with_space]; by rewrite lookup_insert_eq].
    unfold copy_bitmap. change (bitmap_pages * PG_SIZE) with (bitmap_pages * 4096).
    cbn [space with_kern with_space]. fold va.
    destruct (Z.ltb_spec (Z.of_nat (length (bits (vaddr_bitmap va)))) (bitmap_pages * 4096)); [unfold va in *; lia|].
    rewrite bind_lift. unfold set_space. rewrite bind_modify.
    erewrite bind_kern; [|apply get_task_run; cbn; apply lookup_insert_eq|done]. cbn [name].
    rewrite Hnm, strlen_spec, bind_lift by (done || lia).
    destruct (Z.ltb_spec (Z.of_nat (length nm)) 11); [|lia]. rewrite bind_ASSERT_true.
    change [95; 102; 111; 114; 107; 0] with ([95; 102; 111; 114; 107] ++ [0]).
    rewrite (strcat_spec nm tl [95; 102; 111; 114; 107] []), bind_lift; [|done|by apply str_ok_check|cbn; lia].
    erewrite bind_kern; [|apply upd_task_run; cbn; apply lookup_insert_eq|done].
    rewrite ret_eq. cbn -[insert take block_desc_init partial_alter]. rewrite !insert_insert_eq, insert_partial_alter. reflexivity.
  - eexists. unfold child_pcb, set_vm, set_tasks, set_next_pid. cbn -[insert]. reflexivity.
Qed.

Lemma build_child_stack_run s c t f : tasks (kern s) !! c = Some t → stacks s !! intr_0_stack c = Some f →
  ∃ k, build_child_stack c s = Ret (0, PState k (space s) (files s) (spaces s) (descs s)
      (<[intr_0_stack c := st_eax_set 0 f]> (stacks s))) ∧
    ∃ v, k = set_vm v (set_progs (<[c := [IIret (st_eflags f)]]> (progs (kern s)))
      (set_tasks (<[c := task_kstack_set (u32 (intr_0_stack c - 20)) t]> (tasks (kern s))) (kern s))).
Proof.
  intros Ht Hf. eexists. split.
  - unfold build_child_stack. erewrite M_bind_Ret; [|unfold get_stack; by rewrite Hf].
    unfold set_stack. rewrite bind_modify. erewrite bind_kern; [|done|done].
    erewrite bind_kern; [|by apply (upd_task_run c t)|done]. rewrite ret_eq. reflexivity.
  - eexists. unfold set_vm, set_tasks, set_progs. cbn -[insert]. reflexivity.
Qed.

(** What fork finds: the running thread [t] is a process in a system call with
    the interrupt stack [f], its queues hold [rs] and [xs], and the calls of the
    memory management give the pages [c], [b] and [vb] and the directory [d]. *)
Record forkable s (t : task_struct) (nm tl : list Z) (f : intr_stack) (rs xs : list Z) (c b vb d : Z)
    (m1 m2 m3 m4 m5 m6 : P) : Prop := {
  fk_cur : Z.land (esp (kern s)) 0xfffff000 ≠ NULL ∧ tasks (kern s) !! Z.land (esp (kern s)) 0xfffff000 = Some t ∧
    Thread.pgdir t ≠ NULL;
  fk_off : if_on (q_eflags (lists (kern s))) = false;
  fk_lock : locks (kern s) !! pid_lock ly = Some (Lock NULL 0);
  fk_name : name t = nm ++ 0 :: tl ∧ str_ok nm ∧ (length nm < 11)%nat ∧ (5 ≤ length tl)%nat;
  fk_bits : bitmap_pages * 4096 ≤ Z.of_nat (length (bits (vaddr_bitmap (view pm_user (space s)))));
  fk_stack : stacks s !! intr_0_stack (Z.land (esp (kern s)) 0xfffff000) = Some f;
  fk_child : c ≠ NULL ∧ c ≠ Z.land (esp (kern s)) 0xfffff000 ∧ is_u32 c ∧ c mod 4096 = 0;
  fk_calls : pm_pages 1 (space s) = Ret (c, m1) ∧ pm_pages 1 m1 = Ret (b, m2) ∧
    pm_pages bitmap_pages m2 = Ret (vb, m3) ∧ pm_page_dir m3 = Ret (d, m4) ∧
    pm_copy d (Thread.pgdir t) (view pm_user (space s)) b m4 = Ret ((), m5) ∧ pm_free b 1 m5 = Ret ((), m6);
  fk_some : b ≠ NULL ∧ vb ≠ NULL ∧ d ≠ NULL;
  fk_queues : queues (lists (kern s)) !! thread_ready_list ly = Some rs ∧
    queues (lists (kern s)) !! thread_all_list ly = Some xs ∧ thread_ready_list ly ≠ thread_all_list ly ∧
    free_node (lists (kern s)) (general_tag c) ∧ free_node (lists (kern s)) (all_list_tag c);
  fk_files : fds_ok (files s) (take (MAX_FILES_OPEN_PER_PROC - 3) (drop 3 (fd_table t)))
}.

(** The control block of the child that is put into the queues. *)
Definition forked (t : task_struct) (n : Z) (nm tl : list Z) (c d : Z) : task_struct :=
  task_kstack_set (u32 (intr_0_stack c - 20)) (task_pgdir_set d (child_pcb t n nm tl)).

Lemma free_node_other q x l ys : free_node q x → Forall (λ y, y ≠ x) ys → queues q !! l = Some (take (length ys - 1) ys) →
  free_node (set_queue l ys q) x.
Proof.
  intros [Hm Hf] Hy Hq. split; [done|]. cbn. apply map_Forall_insert_2; [|done].
  specialize (Hf l _ Hq). cbn in Hf. rewrite chain_elem in *. rewrite Forall_forall in Hy.
  intros [?|[Hin|?]]; [tauto| |tauto]. by apply (Hy x).
Qed.

Lemma copy_process_run s t nm tl f rs xs c b vb d m1 m2 m3 m4 m5 m6 :
  let p := Z.land (esp (kern s)) 0xfffff000 in
  forkable s t nm tl f rs xs c b vb d m1 m2 m3 m4 m5 m6 →
  let n := i16 (next_pid (kern s) + 1) in let va := view pm_user (space s) in
  ∀ s1 v0, space s1 = m1 → kern s1 = set_vm v0 (kern s) → files s1 = files s → spaces s1 = spaces s → descs s1 = descs s →
    stacks s1 = stacks s →
  ∃ s' v, copy_process ly c p s1 = Ret (0, s') ∧ space s' = m6 ∧
    kern s' = set_vm v (set_progs (<[c := [IIret (st_eflags f)]]> (progs (kern s)))
      (set_tasks (<[c := forked t n nm tl c d]> (tasks (kern s))) (set_next_pid n (kern s)))) ∧
    files s' = with_inodes (counted (file_table (files s)) (take (MAX_FILES_OPEN_PER_PROC - 3) (drop 3 (fd_table t)))
      (inodes (files s))) (files s) ∧
    spaces s' = <[c := VAddr (Bitmap (btmp_bytes_len (vaddr_bitmap va)) (take (Z.to_nat (bitmap_pages * 4096)) (bits (vaddr_bitmap va))))
      (vaddr_start va)]> (spaces s) ∧
    descs s' = <[c := block_desc_init]> (descs s) ∧
    stacks s' !! intr_0_stack c = Some (st_eax_set 0 f).
Proof.
  intros p [(Hp & Ht & Hpd) Hoff Hl Hnm Hbits Hst (Hc & Hcp & Hcu & Hca) (H1 & H2 & H3 & H4 & H5 & H6)
    (Hb & Hvb & Hd) Hq Hfl] n va s1 v0 Es Ek Ef Esp Ed Est. fold p in Hp, Ht, Hst, Hcp.
  pose proof (pm_pages_user _ _ _ _ H1) as U1. pose proof (pm_pages_user _ _ _ _ H2) as U2.
  pose proof (pm_pages_user _ _ _ _ H3) as U3. pose proof (pm_page_dir_user _ _ _ H4) as U4.
  destruct (copy_pcb_run (with_space m2 s1) c p t nm tl vb m3) as (k & Hr & v & Hk).
  { split; cbn [kern space with_space]; rewrite ?Ek; cbn [esp tasks locks set_vm]; [|done|done|done|done|].
    - split_and!; [done|done|by intros E; apply Hcp].
    - by rewrite U2, U1. }
  cbn [kern space files spaces descs stacks with_space] in Hr, Hk. rewrite U2, U1, Ef, Esp, Ed, Est in Hr. rewrite Ek in Hk.
  cbn [next_pid tasks set_vm] in Hr, Hk. fold n va in Hr, Hk.
  set (s2 := PState k m3 _ _ _ _) in Hr.
  assert (tasks k !! c = Some (child_pcb t n nm tl)) as Htc by (rewrite Hk; cbn; apply lookup_insert_eq).
  assert (tasks k !! p = Some t) as Htp by (rewrite Hk; cbn; by rewrite lookup_insert_ne).
  set (s3 := with_space m5 (with_kern (set_tasks (<[c := task_pgdir_set d (child_pcb t n nm tl)]> (tasks k))
    (set_vm (view pm_vm m4) k)) (with_space m4 s2))).
  destruct (build_child_stack_run s3 c (task_pgdir_set d (child_pcb t n nm tl)) f) as (k' & Hr' & v' & Hk').
  { cbn. apply lookup_insert_eq. }
  { cbn [stacks s3 s2 with_space with_kern]. rewrite lookup_partial_alter_eq. exact Hst. }
  assert (view pm_user m4 = view pm_user (space s)) as U by congruence.
  assert (tasks k' !! c = Some (forked t n nm tl c d)) as Htc' by (rewrite Hk'; cbn; apply lookup_insert_eq).
  eexists (PState _ m6 (with_inodes _ (files s)) _ _ _), _. split_and!.
  - unfold copy_process. erewrite bind_space; [|rewrite Es; exact H2]. destruct (Z.eqb_spec b NULL); [done|].
    rewrite (M_bind_Ret _ _ _ _ _ Hr). change (0 =? -1) with false. cbv iota.
    erewrite (bind_space _ _ s2); [|exact H4].
    erewrite bind_kern; [|by apply upd_task_run; cbn|done]. destruct (Z.eqb_spec d NULL); [done|].
    erewrite bind_kern; [|apply (get_task_run p t); cbn; by rewrite lookup_insert_ne|done].
    rewrite bind_gets. cbn [space with_kern with_space]. rewrite U.
    erewrite bind_space; [|exact H5].
    rewrite (M_bind_Ret _ _ _ _ _ Hr').
    erewrite bind_kern; [|by apply get_task_run; cbn|done].
    change (fd_table (forked t n nm tl c d)) with (fd_table t).
    erewrite (bind_zoom files_lens); [|apply update_inode_open_cnts_run; exact Hfl].
    erewrite bind_space; [|exact H6]. rewrite ret_eq. reflexivity.
  - done.
  - cbn [kern with_kern with_space]. unfold seen. rewrite Hk'. unfold s3, s2. cbn [kern with_kern with_space].
    rewrite Hk. unfold forked. clear.
    destruct (kern s). cbn -[insert intr_0_stack]. rewrite !insert_insert_eq. reflexivity.
  - done.
  - done.
  - done.
  - cbn [stacks]. apply lookup_insert_eq.
Qed.

(** The whole call. *)
Lemma sys_fork_run s t nm tl f rs xs c b vb d m1 m2 m3 m4 m5 m6 :
  forkable s t nm tl f rs xs c b vb d m1 m2 m3 m4 m5 m6 →
  let n := i16 (next_pid (kern s) + 1) in let va := view pm_user (space s) in
  ∃ s' v, sys_fork ly s = Ret (n, s') ∧ space s' = m6 ∧
    kern s' = set_vm v (set_lists (set_queue (thread_all_list ly) (xs ++ [all_list_tag c])
      (set_queue (thread_ready_list ly) (rs ++ [general_tag c]) (lists (kern s))))
      (set_progs (<[c := [IIret (st_eflags f)]]> (progs (kern s)))
      (set_tasks (<[c := forked t n nm tl c d]> (tasks (kern s))) (set_next_pid n (kern s))))) ∧
    files s' = with_inodes (counted (file_table (files s)) (take (MAX_FILES_OPEN_PER_PROC - 3) (drop 3 (fd_table t)))
      (inodes (files s))) (files s) ∧
    spaces s' = <[c := VAddr (Bitmap (btmp_bytes_len (vaddr_bitmap va)) (take (Z.to_nat (bitmap_pages * 4096)) (bits (vaddr_bitmap va))))
      (vaddr_start va)]> (spaces s) ∧
    descs s' = <[c := block_desc_init]> (descs s) ∧
    stacks s' !! intr_0_stack c = Some (st_eax_set 0 f).
Proof.
  intros Hfk n va. pose proof Hfk as [(Hp & Ht & Hpd) Hoff Hl _ _ _ (Hc & Hcp & _) (H1 & _) _ (Hq1 & Hq2 & Hql & Hf1 & Hf2) _].
  set (p := Z.land (esp (kern s)) 0xfffff000) in *.
  set (s1 := with_kern (set_vm (view pm_vm m1) (set_vm (view pm_vm m1) (set_vm (view pm_vm (space s)) (kern s)))) (with_space m1 s)).
  destruct (copy_process_run s t nm tl f rs xs c b vb d m1 m2 m3 m4 m5 m6 Hfk s1 (view pm_vm m1))
    as (s2 & v & Hr & Hsp & Hk & Hfi & Hspc & Hds & Hst); [done..|]. fold n va in Hk, Hspc.
  assert (lists (kern s2) = lists (kern s)) as Hls by (by rewrite Hk).
  eexists (PState _ _ _ _ _ _), _. split_and!.
  - unfold sys_fork. erewrite bind_kern; [|done|done]. change (Z.land _ _) with p at 1.
    erewrite bind_space; [|exact H1]. destruct (Z.eqb_spec c NULL); [done|].
    erewrite bind_kern; [|by apply status_run|done].
    erewrite bind_kern; [|by apply (get_task_run p t)|done].
    rewrite bool_decide_eq_true_2 by done. destruct (Z.eqb_spec (Thread.pgdir t) NULL); [done|]. rewrite bind_ASSERT_true.
    etransitivity; [apply M_bind_Ret; exact Hr|]. change (0 =? -1) with false. cbv iota.
    erewrite bind_kern; [|apply (thread_enqueue_run _ _ _ rs)|done].
    + erewrite bind_kern; [|apply (thread_enqueue_run _ _ _ xs)|done].
      * erewrite bind_kern; [|apply get_task_run; cbn; rewrite Hk; apply lookup_insert_eq|done].
        rewrite ret_eq. reflexivity.
      * cbn. rewrite Hls. cbn. by rewrite lookup_insert_ne.
      * destruct Hf2 as [_ Hf2]. specialize (Hf2 _ _ Hq2). cbn in Hf2. rewrite chain_elem in Hf2. tauto.
      * cbn. rewrite Hls. eapply (free_node_other _ _ _ (rs ++ [general_tag c])); [done| |].
        -- apply Forall_app. split; [|constructor; [unfold general_tag, all_list_tag, offset_general_tag, offset_all_list_tag; lia|constructor]].
           apply Forall_forall. intros y Hy ->. destruct Hf2 as [_ Hf2]. specialize (Hf2 _ _ Hq1). cbn in Hf2.
           rewrite chain_elem in Hf2. tauto.
        -- rewrite length_app. cbn [length]. replace (length rs + 1 - 1)%nat with (length rs) by lia. by rewrite take_app_length.
    + cbn. by rewrite Hls.
    + destruct Hf1 as [_ Hf1]. specialize (Hf1 _ _ Hq1). cbn in Hf1. rewrite chain_elem in Hf1. tauto.
    + cbn. by rewrite Hls.
  - done.
  - cbn [kern with_kern]. unfold seen. cbn. rewrite Hls, Hk. cbn. reflexivity.
  - done.
  - done.
  - done.
  - done.
Qed.
End runs.

(** ** Properties *)

Lemma child_kstack c : is_u32 c → c mod 4096 = 0 → Z.land (u32 (intr_0_stack c - 20)) 0xfffff000 = c.
Proof.
  intros Hc Ha. change (Z.land (u32 (intr_0_stack c - 20)) 0xfffff000) with (frame (u32 (intr_0_stack c - 20))).
  rewrite frame_eq by zlia. unfold intr_0_stack, PG_SIZE, sizeof_intr_stack. zlia.
Qed.

(** The child is a ready thread of the scheduler. *)
Lemma fork_kinv ly (k k' : kstate qstate) c (t t' : task_struct) prog rs xs : kinv ly k → ¬ live k c →
  status t' = TASK_READY → Z.land (self_kstack t') 0xfffff000 = c →
  queues (lists k) !! thread_ready_list ly = Some rs → queues (lists k) !! thread_all_list ly = Some xs →
  thread_ready_list ly ≠ thread_all_list ly →
  core k' = core (set_lists (set_queue (thread_all_list ly) (xs ++ [all_list_tag c])
      (set_queue (thread_ready_list ly) (rs ++ [general_tag c]) (lists k)))
    (set_progs (<[c := prog]> (progs k)) (set_tasks (<[c := t']> (tasks k)) k))) → kinv ly k'.
Proof.
  intros Hk Hc Hst Hks Hr Hx Hne Hcore. eapply kinv_core; [exact Hcore|]. clear Hcore k'.
  destruct (lo_ready _ _ (proj1 Hk)) as (ps & Hps & _). rewrite Hr in Hps. injection Hps as ->.
  set (k1 := set_tasks (<[c := t]> (tasks k)) k).
  assert (kinv ly k1) as Hk1 by (eapply (kinv_unstarted ly k); [done|exact Hc|done]).
  set (k2 := set_lists (set_queue (thread_ready_list ly) ((general_tag <$> ps) ++ [general_tag c]) (lists k))
    (set_progs (<[c := prog]> (progs k)) (set_tasks (<[c := t']> (tasks k)) k))).
  assert (kinv ly k2) as Hk2.
  { eapply (kinv_start ly k1 k2 c t t' prog ps); [done|exact Hc|apply lookup_insert_eq|done|done|done|].
    unfold core. cbn -[insert fmap]. rewrite insert_insert_eq, fmap_app. done. }
  apply (kinv_loose ly k2); [done| |done|done].
  eapply (loose_queue ly k2); [by destruct Hk2|done|done|done].
Qed.

(** C12: a process that calls fork, when the memory management can give the child
    its pages, gets the child's new pid; the child is a copy of its control
    block with its own directory and address bitmap, is ready, and is appended
    to the ready queue and the list of all threads; its interrupt stack is the
    parent's with the result 0; the open files are counted once more; the
    scheduler's invariant is kept. *)
Theorem sys_fork_correct {P D : Type} {PM : ProcMem P} {PS : ProcMemSpec P} ly (s : pstate qstate P D)
    t nm tl f rs xs c b vb d m1 m2 m3 m4 m5 m6 :
  forkable ly s t nm tl f rs xs c b vb d m1 m2 m3 m4 m5 m6 →
  let n := i16 (next_pid (kern s) + 1) in
  let va := view pm_user (space s) in
  ∃ s', sys_fork ly s = Ret (n, s') ∧ space s' = m6 ∧
    tasks (kern s') = <[c := forked t n nm tl c d]> (tasks (kern s)) ∧
    progs (kern s') = <[c := [IIret (st_eflags f)]]> (progs (kern s)) ∧
    queues (lists (kern s')) = <[thread_all_list ly := xs ++ [all_list_tag c]]>
      (<[thread_ready_list ly := rs ++ [general_tag c]]> (queues (lists (kern s)))) ∧
    stacks s' !! intr_0_stack c = Some (st_eax_set 0 f) ∧
    inodes (files s') = counted (file_table (files s)) (take (MAX_FILES_OPEN_PER_PROC - 3) (drop 3 (fd_table t)))
      (inodes (files s)) ∧
    spaces s' !! c = Some (VAddr (Bitmap (btmp_bytes_len (vaddr_bitmap va))
      (take (Z.to_nat (bitmap_pages * 4096)) (bits (vaddr_bitmap va)))) (vaddr_start va)) ∧
    (kinv ly (kern s) → ¬ live (kern s) c → kinv ly (kern s')).
Proof.
  intros Hf n va. destruct (sys_fork_run ly s t nm tl f rs xs c b vb d m1 m2 m3 m4 m5 m6 Hf)
    as (s' & v & Hr & Hsp & Hk & Hfi & Hspc & _ & Hst).
  destruct (fk_child _ _ _ _ _ _ _ _ _ _ _ _ _ _ _ _ _ _ Hf) as (_ & _ & Hcu & Hca).
  destruct (fk_queues _ _ _ _ _ _ _ _ _ _ _ _ _ _ _ _ _ _ Hf) as (Hq1 & Hq2 & Hne & _).
  exists s'. rewrite Hk, Hfi, Hspc. split_and!; try done; [apply lookup_insert_eq|].
  intros Hkinv Hlive. eapply (fork_kinv ly (kern s) _ c t (forked t n nm tl c d) [IIret (st_eflags f)] rs xs); try done.
  by apply child_kstack.
Qed.

(** *** A small kernel

    Pages are numbered upwards; the parent at 0x9f000 has the descriptor 3 on
    the entry 0 of the table of open files. *)
Record pages := Pages { next_page : Z; pages_vm : pmem; pages_user : virtual_addr }.
#[local] Instance pages_proc : ProcMem pages := {|
  pm_vm := Lens pages_vm (λ m s, Pages (next_page s) m (pages_user s));
  pm_user := Lens pages_user (λ v s, Pages (next_page s) (pages_vm s) v);
  pm_pages := λ n s, Ret (next_page s, Pages (next_page s + n * 4096) (pages_vm s) (pages_user s));
  pm_page_dir := λ s, Ret (next_page s, Pages (next_page s + 4096) (pages_vm s) (pages_user s));
  pm_copy := λ _ _ _ _, mret ();
  pm_user_page := λ v, mret v;
  pm_free := λ _ _, mret ()
|}.
#[local] Instance pages_proc_spec : ProcMemSpec pages.
Proof. split; [split; [done|by intros []|done]| |]; by intros; simplify_eq/=. Qed.

Definition ex_layout : layout := Layout 0x1000 0x2000 0x3000 0x4000 0x5000.
Definition ex_parent : task_struct :=
  Task 0x9fe00 4 TASK_RUNNING ([105; 110; 105; 116] ++ 0 :: replicate 11 0) 31 7 100 [0; 1; 2; 0; -1; -1; -1; -1] 0xc0105000 0 (-1) 0x19870916.
Definition ex_user : virtual_addr := VAddr (Bitmap 94199 (replicate (Z.to_nat (bitmap_pages * 4096)) 0)) 0x8048000.
Definition ex_frame : intr_stack := IntrStack 0x80 1 2 3 0 4 5 6 7 0 0x33 0x33 0x33 0 0x8049000 0x2b 0x202 0xbffffff0 0x33.
Definition ex_inode : inode := Inode 5 100 1 false [].
Definition ex_kernel : pstate qstate pages ram :=
  PState (KState (QState 0 {[ 0x1000 := []; 0x2000 := [all_list_tag 0x9f000] ]}
      {[ general_tag 0xc0200000; all_list_tag 0xc0200000 ]})
      {[ 0x9f000 := ex_parent ]} ∅ 0x9fe00 (PMem ∅ 0) 0 ∅ {[ 0x3000 := Lock NULL 0 ]} ∅ (Kbd false false false false false) 0 4 0 0 [])
    (Pages 0xc0200000 (PMem ∅ 0x100000) ex_user) (ex_fs [] {[ 40 := ex_inode ]} [File 10 0 40])
    ∅ ∅ {[ intr_0_stack 0x9f000 := ex_frame ]}.

Lemma sys_fork_correct_witness : ∃ s', sys_fork ex_layout ex_kernel = Ret (5, s') ∧
  stacks s' !! intr_0_stack 0xc0200000 = Some (st_eax_set 0 ex_frame) ∧
  i_open_cnts <$> inodes (files s') !! 40 = Some 2.
Proof.
  destruct (sys_fork_correct ex_layout ex_kernel ex_parent [105; 110; 105; 116] (replicate 11 0) ex_frame [] [all_list_tag 0x9f000]
    0xc0200000 0xc0201000 0xc0202000 0xc0219000
    (Pages 0xc0201000 (PMem ∅ 0x100000) ex_user) (Pages 0xc0202000 (PMem ∅ 0x100000) ex_user)
    (Pages 0xc0219000 (PMem ∅ 0x100000) ex_user) (Pages 0xc021a000 (PMem ∅ 0x100000) ex_user)
    (Pages 0xc021a000 (PMem ∅ 0x100000) ex_user) (Pages 0xc021a000 (PMem ∅ 0x100000) ex_user))
    as (s' & Hr & _ & _ & _ & _ & Hst & Hi & _).
  - split.
    + by vm_compute.
    + by vm_compute.
    + by vm_compute.
    + split_and!; [done|by apply str_ok_check|cbn; lia|cbn; lia].
    + cbn [view pm_user pages_proc space ex_kernel pages_user ex_user vaddr_bitmap bits]. rewrite length_replicate. by vm_compute.
    + by vm_compute.
    + split_and!; by vm_compute.
    + split_and!; reflexivity.
    + split_and!; done.
    + split_and!; [by vm_compute|by vm_compute|done|apply (bool_decide_unpack _); by vm_compute|apply (bool_decide_unpack _); by vm_compute].
    + split; [|change (inodes (files ex_kernel)) with ({[ 40 := ex_inode ]} : gmap Z inode); apply map_Forall_singleton; cbn; lia].
      constructor; [right; split; [lia|by exists (File 10 0 40), ex_inode]|].
      repeat (constructor; [by left|]). constructor.
  - exists s'. split; [exact Hr|]. split; [exact Hst|]. rewrite Hi. by vm_compute.
Defined.
