(* ===== verification/Boot.v ===== *)
(** * Initialisation (thread/thread.c, device/console.c, device/timer.c, kernel/interrupt.c)

    The threads that exist after the kernel has started, the console, and what
    the kernel writes to the ports of the timer and the interrupt controllers.
    Interrupts are still off, so [allocate_pid] runs without a break, as in
    [Process.fork_pid]. *)

From Stdlib Require Import ZArith Lia.
From stdpp Require Import base numbers list gmap.
From S2P Require Import Prelude Interrupt DList CString Paging Queue Keyboard Thread Sync IoQueue Sched SchedInv Process.

(** ** Threads *)

Section ops.
Context {L : Type} `{ListOps L}.
Context (ly : layout).
Abbreviation K := (M (kstate L)).

Definition set_main (x : Z) (s : kstate L) : kstate L :=
  KState (lists s) (tasks s) (progs s) (esp s) (vm s) (tss_esp0 s) (sems s) (locks s) (ioqs s) (kbd_st s)
    (clock s) (next_pid s) (idle_thread s) x (screen s).
Definition set_idle (x : Z) (s : kstate L) : kstate L :=
  KState (lists s) (tasks s) (progs s) (esp s) (vm s) (tss_esp0 s) (sems s) (locks s) (ioqs s) (kbd_st s)
    (clock s) (next_pid s) x (main_thread s) (screen s).

(** [init_thread] *)
Definition init_thread_off (pthread : Z) (nm : list Z) (prio : Z) : K unit :=
  _ ← init_thread_clear pthread;
  new_pid ← fork_pid ly;
  init_thread_rest pthread nm prio new_pid.

Definition make_main_thread (nm : list Z) : K unit :=
  main_thread ← running_thread;
  _ ← modify (set_main main_thread);
  _ ← init_thread_off main_thread nm 31;
  thread_enqueue (thread_all_list ly) (all_list_tag main_thread).

(** [thread_start]; [thread] is the page that [get_kernel_pages] gives. *)
Definition thread_start_off (thread : Z) (nm : list Z) (prio : Z) (function : list instr) : K Z :=
  _ ← init_thread_off thread nm prio;
  _ ← thread_create thread function;
  _ ← thread_enqueue (thread_ready_list ly) (general_tag thread);
  _ ← thread_enqueue (thread_all_list ly) (all_list_tag thread);
  mret thread.

(** The names "main" and "idle". *)
Definition main_name : list Z := [109; 97; 105; 110; 0].
Definition idle_name : list Z := [105; 100; 108; 101; 0].

Definition thread_lists_init : K unit :=
  _ ← zoom lists_lens (op_init (thread_ready_list ly));
  _ ← zoom lists_lens (op_init (thread_all_list ly));
  lock_init (pid_lock ly).

Definition thread_init (page : Z) : K unit :=
  _ ← thread_lists_init;
  _ ← make_main_thread main_name;
  idle_thread ← thread_start_off page idle_name 10 [IIdle];
  modify (set_idle idle_thread).

(** [sys_getpid] (userprog/syscall-init.c) *)
Definition sys_getpid : K Z :=
  cur ← running_thread; t ← get_task cur; mret (u32 (pid t)).

(** ** Console and keyboard *)

Definition console_init : K unit := lock_init (console_lock ly).
Definition console_acquire : K (list instr) := mret [ILockAcquire (console_lock ly)].
Definition console_release : K (list instr) := mret [ILockRelease (console_lock ly)].
Definition console_put_char (char_asci : Z) : K (list instr) :=
  mret [ILockAcquire (console_lock ly); IPutStr [u8 char_asci]; ILockRelease (console_lock ly)].
(** [put_int] is assembly code: [digits] is what it prints. *)
Definition console_put_int (digits : Z → list Z) (num : Z) : K (list instr) :=
  mret [ILockAcquire (console_lock ly); IPutStr (digits (u32 num)); ILockRelease (console_lock ly)].
(** [ioqueue_init(&kbd_buf)] *)
Definition keyboard_queue_init (b : list Z) : K unit :=
  _ ← lock_init (kbd_buf ly); ioqueue_init_fields (kbd_buf ly) b.
End ops.

(** ** Thread initialisation establishes the scheduler's invariant *)

Section boot.
Context (ly : layout).
Abbreviation ready := (thread_ready_list ly).
Abbreviation all := (thread_all_list ly).
Abbreviation wait := (waiters (lock_sema (pid_lock ly))).

(** The list nodes of the scheduler's static objects and of two threads. *)
Definition nodes (m i : Z) : list Z :=
  [head ready; tail ready; head all; tail all; head wait; tail wait; general_tag m; general_tag i;
   all_list_tag m; all_list_tag i].

(** The kernel before [thread_init]: it runs on the stack in the page of [m],
    with [prog] to do; the page [i] is free. *)
Record booting (s : kstate qstate) (m i : Z) (prog : list instr) : Prop := {
  bt_run : running s = m;
  bt_null : m ≠ NULL ∧ i ≠ NULL ∧ m ≠ i;
  bt_page : is_u32 i ∧ i mod 4096 = 0;
  bt_tasks : is_Some (tasks s !! m) ∧ is_Some (tasks s !! i);
  bt_progs : progs s = {[ m := prog ]};
  bt_queues : queues (lists s) = ∅;
  bt_nodes : NoDup (nodes m i) ∧ Forall (λ x, x ∈ members (lists s)) (nodes m i);
  bt_empty : sems s = ∅ ∧ ioqs s = ∅ ∧ next_pid s = 0
}.

Lemma free_set q l xs x : free_node q x → x ∉ chain l xs → free_node (set_queue l xs q) x.
Proof. intros [Hm Hq] Hx. split; [done|]. by apply map_Forall_insert_2. Qed.

Lemma op_init_run l (k : kstate qstate) : free_node (lists k) (head l) → free_node (lists k) (tail l) →
  zoom lists_lens (op_init l) k = Ret ((), set_lists (set_queue l [] (lists k)) k).
Proof. intros H1 H2. unfold zoom. cbn. unfold q_init. by rewrite decide_True. Qed.

(** The control block that [init_thread] leaves. *)
Definition fresh_task (p n prio : Z) (nm : list Z) (st : task_status) : task_struct :=
  Task (u32 (p + PG_SIZE)) n st (nm ++ drop (length nm) (replicate 16 0)) prio prio 0
    ([0; 1; 2] ++ replicate (MAX_FILES_OPEN_PER_PROC - 3) (-1)) 0 0 (-1) 0x19870916.

Lemma init_thread_off_run (k : kstate qstate) p nm prio : is_Some (tasks k !! p) → running k ≠ NULL →
  locks k !! pid_lock ly = Some (Lock NULL 0) → str_ok nm → (length nm < 16)%nat → is_u8 prio → 0 ≤ next_pid k < 100 →
  init_thread_off ly p (nm ++ [0]) prio k = Ret ((),
    set_tasks (<[p := fresh_task p (next_pid k + 1) prio (nm ++ [0]) (if p =? main_thread k then TASK_RUNNING else TASK_READY)]> (tasks k))
      (set_next_pid (next_pid k + 1) k)).
Proof.
  intros [t0 Ht] Hr Hl Hs Hlen Hp Hn. unfold init_thread_off, init_thread_clear.
  rewrite (bind_upd_task p _ _ k t0 Ht). set (k1 := set_tasks _ k).
  rewrite (M_bind_Ret _ _ _ _ _ (fork_pid_run ly k1 Hr Hl)).
  replace (i16 (next_pid k1 + 1)) with (next_pid k + 1) by (cbn; zlia).
  unfold init_thread_rest. erewrite bind_get_task by (cbn; apply lookup_insert_eq).
  cbn [name zero_task]. rewrite strcpy_spec, bind_lift by (done || cbn; lia). rewrite bind_gets.
  unfold upd_task. cbn [tasks set_next_pid k1 set_tasks]. rewrite lookup_insert_eq. f_equal. f_equal.
  unfold set_tasks, set_next_pid. cbn. rewrite insert_insert_eq. unfold fresh_task.
  rewrite (u8_id prio) by done. replace (i16 (next_pid k + 1)) with (next_pid k + 1) by zlia.
  rewrite length_app, <-app_assoc. cbn [length app]. by rewrite Nat.add_1_r.
Qed.

(** A node is still free after some lists of other nodes were made. *)
Ltac other_nodes := unfold chain; cbn [app]; rewrite ?not_elem_of_cons; split_and!;
  lazymatch goal with
  | H : ?a ≠ ?b |- ?a ≠ ?b => exact H
  | H : ?b ≠ ?a |- ?a ≠ ?b => exact (not_eq_sym H)
  | |- _ => apply not_elem_of_nil
  end.
Ltac free_after Hfree := repeat (apply free_set; [|other_nodes]); apply Hfree; repeat first [apply list_elem_of_here | apply list_elem_of_further].

(** The static lists are made. *)
Definition static_lists (q : qstate) : qstate := set_queue wait [] (set_queue all [] (set_queue ready [] q)).

Lemma thread_lists_init_run (k : kstate qstate) : free_node (lists k) (head ready) → free_node (lists k) (tail ready) →
  free_node (set_queue ready [] (lists k)) (head all) → free_node (set_queue ready [] (lists k)) (tail all) →
  free_node (set_queue all [] (set_queue ready [] (lists k))) (head wait) →
  free_node (set_queue all [] (set_queue ready [] (lists k))) (tail wait) →
  thread_lists_init ly k = Ret ((), set_lists (static_lists (lists k))
    (set_sems (<[lock_sema (pid_lock ly) := 1]> (sems k)) (set_locks (<[pid_lock ly := Lock NULL 0]> (locks k)) k))).
Proof.
  intros. unfold thread_lists_init. erewrite M_bind_Ret; [|by apply op_init_run].
  erewrite M_bind_Ret; [|by apply op_init_run]. unfold lock_init, set_lock. rewrite bind_modify.
  unfold sema_init, set_sema. rewrite bind_modify. by rewrite op_init_run.
Qed.

Lemma make_main_run (k : kstate qstate) m q : running k = m → m ≠ NULL → is_Some (tasks k !! m) →
  locks k !! pid_lock ly = Some (Lock NULL 0) → 0 ≤ next_pid k < 100 → queues q !! all = Some [] → lists k = q →
  free_node q (all_list_tag m) →
  make_main_thread ly main_name k = Ret ((), set_lists (set_queue all [all_list_tag m] q) (set_main m
    (set_tasks (<[m := fresh_task m (next_pid k + 1) 31 main_name TASK_RUNNING]> (tasks k)) (set_next_pid (next_pid k + 1) k)))).
Proof.
  intros Hr Hm Ht Hl Hn Hq <- Hf. unfold make_main_thread, running_thread. rewrite bind_gets. fold (running k). rewrite Hr, bind_modify.
  change main_name with ([109; 97; 105; 110] ++ [0]).
  erewrite M_bind_Ret; [|apply init_thread_off_run; [done|change (running k ≠ NULL); by rewrite Hr|done|by apply str_ok_check|cbn; lia|unfold is_u8; lia|done]].
  change (main_thread (set_main m k)) with m. rewrite (Z.eqb_refl m). by rewrite (thread_enqueue_run _ _ _ []) by (done || apply not_elem_of_nil).
Qed.

Lemma thread_start_run (k : kstate qstate) p nm prio fn q rs xs : running k ≠ NULL → is_Some (tasks k !! p) →
  locks k !! pid_lock ly = Some (Lock NULL 0) → str_ok nm → (length nm < 16)%nat → is_u8 prio → 0 ≤ next_pid k < 100 →
  p ≠ main_thread k → lists k = q → queues q !! ready = Some rs → general_tag p ∉ rs → free_node q (general_tag p) →
  queues q !! all = Some xs → ready ≠ all → all_list_tag p ∉ xs →
  free_node (set_queue ready (rs ++ [general_tag p]) q) (all_list_tag p) →
  let t := fresh_task p (next_pid k + 1) prio (nm ++ [0]) TASK_READY in
  thread_start_off ly p (nm ++ [0]) prio fn k = Ret (p, set_lists (set_queue all (xs ++ [all_list_tag p]) (set_queue ready (rs ++ [general_tag p]) q))
    (set_progs (<[p := kernel_thread fn]> (progs k))
    (set_tasks (<[p := task_kstack_set (u32 (self_kstack t - sizeof_intr_stack * 4 - sizeof_thread_stack * 4)) t]> (tasks k))
    (set_next_pid (next_pid k + 1) k)))).
Proof.
  intros Hr Ht Hl Hs Hlen Hp Hn Hm <- Hq1 Hg Hfg Hq2 Hne Ha Hfa t. unfold thread_start_off.
  erewrite M_bind_Ret; [|by apply init_thread_off_run].
  destruct (Z.eqb_spec p (main_thread k)); [done|]. fold t.
  unfold thread_create. rewrite bind_assoc. erewrite bind_upd_task by (cbn; apply lookup_insert_eq). rewrite bind_modify.
  erewrite M_bind_Ret; [|apply thread_enqueue_run; [exact Hq1|exact Hg|exact Hfg]].
  erewrite M_bind_Ret; [|apply thread_enqueue_run; [cbn; rewrite lookup_insert_ne by done; exact Hq2|done|exact Hfa]].
  destruct k as [x1 x2 x3 x4 x5 x6 x7 x8 x9 x10 x11 x12 x13 x14 x15]. lazy [set_tasks set_progs set_lists set_next_pid lists tasks progs esp vm tss_esp0 sems locks ioqs kbd_st clock
    next_pid Thread.idle_thread main_thread screen]. by rewrite insert_insert_eq.
Qed.

(** The control block of the idle thread and the lists after [thread_init]. *)
Definition idle_task (i : Z) : task_struct :=
  task_kstack_set (u32 (u32 (i + PG_SIZE) - sizeof_intr_stack * 4 - sizeof_thread_stack * 4)) (fresh_task i 2 10 idle_name TASK_READY).
Definition booted_lists (q : qstate) (m i : Z) : qstate :=
  set_queue all [all_list_tag m; all_list_tag i] (set_queue ready [general_tag i] (set_queue all [all_list_tag m] (static_lists q))).

Record booted (s s' : kstate qstate) (m i : Z) : Prop := {
  bd_lists : lists s' = booted_lists (lists s) m i;
  bd_tasks : tasks s' = <[i := idle_task i]> (<[m := fresh_task m 1 31 main_name TASK_RUNNING]> (tasks s));
  bd_progs : progs s' = <[i := kernel_thread [IIdle]]> (progs s);
  bd_esp : esp s' = esp s;
  bd_ioqs : ioqs s' = ioqs s;
  bd_sems : sems s' = <[lock_sema (pid_lock ly) := 1]> (sems s);
  bd_pid : next_pid s' = 2;
  bd_idle : idle_thread s' = i;
  bd_main : main_thread s' = m
}.

Lemma nodes_ne m i : NoDup (nodes m i) → ready ≠ all ∧ ready ≠ wait ∧ all ≠ wait.
Proof. unfold nodes. rewrite !NoDup_cons, !not_elem_of_cons. intros. by destruct_and!. Qed.

Lemma thread_init_run s m i prog : booting s m i prog → ∃ s', thread_init ly i s = Ret ((), s') ∧ booted s s' m i.
Proof.
  intros [Hr (Hm & Hi & Hmi) _ [Htm Hti] _ Hq [Hnd Hmem] (_ & _ & Hn)].
  pose proof (nodes_ne m i Hnd) as (Hra & Hrw & Haw).
  assert (∀ x, x ∈ nodes m i → free_node (lists s) x) as Hfree.
  { intros x Hx. split; [exact (proj1 (Forall_forall _ _) Hmem x Hx)|]. rewrite Hq. apply map_Forall_empty. }
  unfold nodes in Hnd, Hfree. rewrite !NoDup_cons, !not_elem_of_cons in Hnd. destruct_and! Hnd.
  eexists. split; [unfold thread_init|].
  - erewrite M_bind_Ret; [|apply thread_lists_init_run; free_after Hfree].
    set (k1 := set_lists _ _).
    assert (locks k1 !! pid_lock ly = Some (Lock NULL 0)) as Hk1 by apply lookup_insert_eq.
    assert (queues (static_lists (lists s)) !! all = Some []) as Hk2.
    { cbn. by rewrite lookup_insert_ne, lookup_insert_eq by done. }
    assert (free_node (static_lists (lists s)) (all_list_tag m)) as Hk3 by (unfold static_lists; free_after Hfree).
    assert (0 ≤ next_pid k1 < 100) as Hk4 by (change (next_pid k1) with (next_pid s); rewrite Hn; clear; lia).
    rewrite (M_bind_Ret _ _ _ _ _ (make_main_run k1 m (static_lists (lists s)) Hr Hm Htm Hk1 Hk4 Hk2 eq_refl Hk3)).
    set (q2 := set_queue all [all_list_tag m] _). change (next_pid k1) with (next_pid s). rewrite Hn.
    set (k2 := set_lists _ _). change idle_name with ([105; 100; 108; 101] ++ [0]).
    erewrite M_bind_Ret; [|apply (thread_start_run k2 i _ 10 [IIdle] q2 [] [all_list_tag m])].
    + rewrite modify_eq. reflexivity.
    + change (running s ≠ NULL). by rewrite Hr.
    + cbn. by rewrite lookup_insert_ne.
    + apply lookup_insert_eq.
    + by apply str_ok_check.
    + cbn. clear. lia.
    + unfold is_u8. clear. lia.
    + cbn. clear. lia.
    + cbn. by apply not_eq_sym.
    + done.
    + cbn. rewrite lookup_insert_ne, lookup_insert_ne, lookup_insert_ne, lookup_insert_eq by done. done.
    + apply not_elem_of_nil.
    + unfold q2, static_lists. free_after Hfree.
    + cbn. apply lookup_insert_eq.
    + done.
    + rewrite list_elem_of_singleton. by apply not_eq_sym.
    + unfold q2, static_lists. free_after Hfree.
  - by split.
Qed.

(** [s'] is a good state of the scheduler. *)
Lemma booted_kinv s s' m i prog : booting s m i prog → booted s s' m i → kinv ly s'.
Proof.
  intros [Hr (Hm & Hi & Hmi) [Hi32 Hia] _ Hp Hq [Hnd _] (Hse & Hio & _)] [Hl Ht Hpr He Hio' Hse' _ Hid _].
  pose proof (nodes_ne m i Hnd) as (Hra & Hrw & Haw).
  assert (running s' = m) as Hr' by (unfold running; by rewrite He).
  assert (∀ p, live s' p ↔ p = m ∨ p = i) as Hlive.
  { intros p. unfold live. rewrite Hpr, Hp, lookup_insert_is_Some', lookup_singleton_is_Some. naive_solver. }
  assert (tasks s' !! m = Some (fresh_task m 1 31 main_name TASK_RUNNING)) as Htm.
  { rewrite Ht, lookup_insert_ne by done. apply lookup_insert_eq. }
  assert (tasks s' !! i = Some (idle_task i)) as Hti by (rewrite Ht; apply lookup_insert_eq).
  assert (∀ p st, live s' p → status_of s' p st ↔ (p = m ∧ st = TASK_RUNNING) ∨ (p = i ∧ st = TASK_READY)) as Hst.
  { intros p st Hlp. apply Hlive in Hlp as [->| ->]; unfold status_of; rewrite ?Htm, ?Hti; naive_solver. }
  assert (queues (lists s') !! ready = Some (general_tag <$> [i])) as Hqr.
  { rewrite Hl. cbn. by rewrite lookup_insert_ne, lookup_insert_eq by done. }
  split; [|rewrite Hr', Hst; [by left|apply Hlive; by left]]. split; rewrite ?Hr'.
  - apply Hlive. by left.
  - intros p [->| ->]%Hlive; by eexists.
  - intros p Hlp Hs. apply Hst in Hs; [|done]. naive_solver.
  - exists [i]. split_and!; [done|apply NoDup_singleton|]. intros p. rewrite list_elem_of_singleton. split.
    + intros ->. assert (live s' i) by (apply Hlive; by right). split; [done|]. apply Hst; [done|by right].
    + intros [Hlp Hs]. apply Hst in Hs; [|done]. naive_solver.
  - intros p t [->| ->]%Hlive Hne Htp; [done|]. rewrite Hti in Htp. injection Htp as <-. cbn [self_kstack idle_task task_kstack_set].
    change (frame (u32 (u32 (i + PG_SIZE) - sizeof_intr_stack * 4 - sizeof_thread_stack * 4)) = i).
    rewrite frame_eq by zlia. unfold PG_SIZE, sizeof_intr_stack, sizeof_thread_stack. zlia.
  - intros l xs x Hlx Hne Hx. rewrite Hl in Hlx. cbn in Hlx. rewrite Hq in Hlx.
    rewrite lookup_insert_ne in Hlx by done. apply lookup_insert_Some in Hlx as [[<- <-]|[_ Hlx]].
    + apply list_elem_of_singleton in Hx as ->. rewrite tag2task_general. apply Hlive. by right.
    + rewrite lookup_insert_ne in Hlx by done.
      repeat (apply lookup_insert_Some in Hlx as [[_ <-]|[_ Hlx]]; [by apply not_elem_of_nil in Hx|]). done.
  - intros q b Hqb. rewrite Hio', Hio in Hqb. done.
  - rewrite Hid. apply Hlive. by right.
  - intros p Hps. rewrite Hse', Hse, insert_empty, dom_singleton_L in Hps. apply elem_of_singleton in Hps as ->. done.
Qed.
End boot.

(** C3: from a kernel whose main program runs alone on its own page,
    [thread_init] returns with the scheduler's invariant established: main runs
    with pid 1, the idle thread waits in the ready queue with pid 2, both are in
    the list of all threads, and the invariant holds in every state that the
    kernel reaches from there. *)
Theorem thread_init_correct ly s m i prog : booting ly s m i prog →
  ∃ s', thread_init ly i s = Ret ((), s') ∧ running s' = m ∧ sys_getpid s' = Ret (1, s') ∧
    queues (lists s') !! thread_ready_list ly = Some [general_tag i] ∧
    queues (lists s') !! thread_all_list ly = Some [all_list_tag m; all_list_tag i] ∧
    progs s' = {[ m := prog; i := [IIntrEnable; IIdle] ]} ∧ idle_thread s' = i ∧
    ∀ s2, rtc (kstep_ok ly) s' s2 → kinv ly s2.
Proof.
  intros Hb. destruct (thread_init_run ly s m i prog Hb) as (s' & Hr & Hd). exists s'.
  pose proof (booted_kinv ly s s' m i prog Hb Hd) as Hk.
  destruct Hb as [Hm (Hn & _ & Hmi) _ _ Hp _ [Hnd _] _]. pose proof (nodes_ne ly m i Hnd) as (Hra & _ & _).
  destruct Hd as [Hl Ht Hpr He _ _ _ Hid _].
  assert (running s' = m) as Hrun by (unfold running; by rewrite He).
  split_and!; [done|done| | | | |done|].
  - unfold sys_getpid, running_thread. rewrite bind_gets. fold (running s'). rewrite Hrun.
    rewrite (bind_get_task m _ s' (fresh_task m 1 31 main_name TASK_RUNNING)); [done|].
    rewrite Ht, lookup_insert_ne by done. apply lookup_insert_eq.
  - rewrite Hl. cbn. by rewrite lookup_insert_ne, lookup_insert_eq by done.
  - rewrite Hl. apply lookup_insert_eq.
  - rewrite Hpr, Hp. by apply insert_insert_ne.
  - intros s2 Hs2. by apply (kinv_reach ly s').
Qed.

(** A kernel that starts on the page 0x9e000; the page 0xc0100000 is free. *)
Definition ex_boot : kstate qstate :=
  KState (QState 0 ∅ (list_to_set (nodes ex_layout 0x9e000 0xc0100000)))
    {[ 0x9e000 := zero_task; 0xc0100000 := zero_task ]} {[ 0x9e000 := [IIdle] ]} 0x9ef00 (PMem ∅ 0x100000) 0 ∅ ∅ ∅
    kbd_init 0 0 0 0 [].

Lemma thread_init_correct_witness : ∃ s', thread_init ex_layout 0xc0100000 ex_boot = Ret ((), s') ∧ kinv ex_layout s'.
Proof.
  destruct (thread_init_correct ex_layout ex_boot 0x9e000 0xc0100000 [IIdle]) as (s' & Hr & _ & _ & _ & _ & _ & _ & Hk).
  - split.
    + by vm_compute.
    + done.
    + split; [unfold is_u32; lia|done].
    + split; by eexists.
    + done.
    + done.
    + split; apply (bool_decide_unpack _); by vm_compute.
    + done.
  - exists s'. split; [exact Hr|]. apply Hk. apply rtc_refl.
Defined.
