(* ===== verification/Ports.v ===== *)
(** * The timer chip and the interrupt controllers (device/timer.c, kernel/interrupt.c)

    What the initialisation writes to the ports, and what these words mean by
    the documentation of the two chips: the 8253 counts down from the value that
    two bytes give; the 8259A takes four words after the first and then masks. *)

From Stdlib Require Import ZArith Lia.
From stdpp Require Import base numbers list strings.
From S2P Require Import Prelude Interrupt.

(** ** The code *)

(** The writes to ports, in their order. *)
Definition ports : Type := list (Z * Z).
Definition outb (port data : Z) : M ports unit := modify (λ l, l ++ [(u16 port, u8 data)]).

(** [COUNTER0_VALUE] is [INPUT_FREQUENCY / IRQ0_FREQUENCY], without parentheses. *)
Definition IRQ0_FREQUENCY : Z := 100.
Definition INPUT_FREQUENCY : Z := 1193180.
Definition COUNTER0_VALUE : Z := INPUT_FREQUENCY / IRQ0_FREQUENCY.
Definition CONTRER0_PORT : Z := 0x40.
Definition PIT_CONTROL_PORT : Z := 0x43.

(** The cast in [(uint8_t)counter_value >> 8] comes before the shift. *)
Definition frequency_set (counter_port counter_no rwl counter_mode counter_value : Z) : M ports unit :=
  _ ← outb PIT_CONTROL_PORT (u8 (Z.lor (Z.lor (Z.shiftl counter_no 6) (Z.shiftl rwl 4)) (Z.shiftl counter_mode 1)));
  _ ← outb counter_port (u8 counter_value);
  outb counter_port (Z.shiftr (u8 counter_value) 8).





(** ** What the chips make of it *)

(** The fields of a control word of the 8253: the counter, the bytes that will
    be written (3: low, then high) and the mode. *)
Definition pit_counter (w : Z) : Z := Z.shiftr w 6.
Definition pit_access (w : Z) : Z := Z.land (Z.shiftr w 4) 3.
Definition pit_mode (w : Z) : Z := Z.land (Z.shiftr w 1) 7.



(** ** Properties *)

Lemma control_fields no rwl mode : 0 ≤ no < 4 → 0 ≤ rwl < 4 → 0 ≤ mode < 8 →
  let w := u8 (u8 (Z.lor (Z.lor (Z.shiftl no 6) (Z.shiftl rwl 4)) (Z.shiftl mode 1))) in
  pit_counter w = no ∧ pit_access w = rwl ∧ pit_mode w = mode.
Proof.
  intros Hn Hr Hm.
  assert (∀ P : Z → Prop, P 0 → P 1 → P 2 → P 3 → ∀ x, 0 ≤ x < 4 → P x) as four.
  { intros P ???? x Hx. assert (x = 0 ∨ x = 1 ∨ x = 2 ∨ x = 3) as [-> |[-> |[-> | ->]]] by lia; done. }
  assert (∀ P : Z → Prop, (∀ y, 0 ≤ y < 4 → P y) → (∀ y, 0 ≤ y < 4 → P (y + 4)) → ∀ x, 0 ≤ x < 8 → P x) as eight.
  { intros P H1 H2 x Hx. destruct (decide (x < 4)); [apply H1; lia|]. replace x with ((x - 4) + 4) by lia. apply H2. lia. }
  revert no Hn. apply four; revert rwl Hr; apply four; revert mode Hm; apply eight; apply four; by vm_compute.
Qed.

Lemma frequency_set_run port no rwl mode v l : 0 ≤ port < 65536 →
  frequency_set port no rwl mode v l = Ret ((), l ++ [(0x43, u8 (u8 (Z.lor (Z.lor (Z.shiftl no 6) (Z.shiftl rwl 4)) (Z.shiftl mode 1))));
    (port, u8 v); (port, 0)]).
Proof.
  intros Hp. unfold frequency_set, outb. rewrite !bind_modify, modify_eq, <-!app_assoc. cbn [app].
  rewrite (u16_id port) by done. rewrite (u8_id (u8 v)) by apply u8_range.
  assert (Z.shiftr (u8 v) 8 = 0) as -> by (rewrite Z.shiftr_div_pow2 by lia; change (2 ^ 8) with 256; pose proof (u8_range v); zlia).
  done.
Qed.

(** [frequency_set] selects the counter, the mode and the access of both bytes,
    but its second byte is always 0: the counter is loaded with the value modulo
    256. At start the timer gets 155 instead of 11931, so the clock runs at
    7697 interrupts a second where the constants say 100. *)
Theorem frequency_set_truncates port no rwl mode v l : 0 ≤ port < 65536 → 0 ≤ no < 4 → 0 ≤ rwl < 4 → 0 ≤ mode < 8 →
  ∃ w lo hi, frequency_set port no rwl mode v l = Ret ((), l ++ [(PIT_CONTROL_PORT, w); (port, lo); (port, hi)]) ∧
    pit_counter w = no ∧ pit_access w = rwl ∧ pit_mode w = mode ∧ lo + 256 * hi = v mod 256 ∧
    (lo + 256 * hi = v ↔ 0 ≤ v < 256).
Proof.
  intros Hp Hn Hr Hm. eexists _, _, _. rewrite frequency_set_run by done. split; [done|].
  destruct (control_fields no rwl mode Hn Hr Hm) as (? & ? & ?). split_and!; [done..|unfold u8; lia|]. zlia.
Qed.

Lemma frequency_set_truncates_witness : ∃ w lo hi,
  frequency_set CONTRER0_PORT 0 3 2 COUNTER0_VALUE [] = Ret ((), [(PIT_CONTROL_PORT, w); (CONTRER0_PORT, lo); (CONTRER0_PORT, hi)]) ∧
  pit_mode w = 2 ∧ lo + 256 * hi = 155 ∧ COUNTER0_VALUE = 11931 ∧ INPUT_FREQUENCY / 155 = 7697.
Proof.
  destruct (frequency_set_truncates CONTRER0_PORT 0 3 2 COUNTER0_VALUE []) as (w & lo & hi & H & _ & _ & Hm & Hv & _); [done..|].
  exists w, lo, hi. split; [exact H|]. split; [exact Hm|]. split; [exact Hv|done].
Defined.




