(* ===== verification/Syscall.v ===== *)
(** * System calls (lib/user/syscall.c, userprog/syscall-init.c, kernel/kernel.S)

    The way of a call from user code to its handler: the stub puts the number
    and the arguments into registers, the entry of interrupt 0x80 pushes them
    and calls through the table of handlers, which takes from the stack what its
    parameters say. The handlers are the class [Handlers]; what they do is
    modelled in the files of their components. *)

From Stdlib Require Import ZArith Lia.
From stdpp Require Import base numbers list.
From S2P Require Import Prelude.

(** ** Numbers and handlers *)

(** [enum SYSCALL_NR] *)
Inductive SYSCALL_NR :=
  | SYS_GETPID | SYS_WRITE | SYS_MALLOC | SYS_FREE | SYS_FORK | SYS_READ | SYS_PUTCHAR | SYS_CLEAR
  | SYS_GETCWD | SYS_OPEN | SYS_CLOSE | SYS_LSEEK | SYS_UNLINK | SYS_MKDIR | SYS_OPENDIR | SYS_CLOSEDIR
  | SYS_CHDIR | SYS_RMDIR | SYS_READDIR | SYS_REWINDDIR | SYS_STAT | SYS_PS.

Definition nr (n : SYSCALL_NR) : Z :=
  match n with
  | SYS_GETPID => 0 | SYS_WRITE => 1 | SYS_MALLOC => 2 | SYS_FREE => 3 | SYS_FORK => 4 | SYS_READ => 5
  | SYS_PUTCHAR => 6 | SYS_CLEAR => 7 | SYS_GETCWD => 8 | SYS_OPEN => 9 | SYS_CLOSE => 10 | SYS_LSEEK => 11
  | SYS_UNLINK => 12 | SYS_MKDIR => 13 | SYS_OPENDIR => 14 | SYS_CLOSEDIR => 15 | SYS_CHDIR => 16
  | SYS_RMDIR => 17 | SYS_READDIR => 18 | SYS_REWINDDIR => 19 | SYS_STAT => 20 | SYS_PS => 21
  end.

(** The functions the table points to. *)
Inductive handler :=
  | F_getpid | F_write | F_malloc | F_free | F_fork | F_read | F_putchar | F_cls_screen | F_getcwd | F_open
  | F_close | F_lseek | F_unlink | F_mkdir | F_opendir | F_closedir | F_chdir | F_rmdir | F_readdir
  | F_rewinddir | F_stat | F_ps.

(** What the handlers do, on values of their parameter types; pointers are words. *)
Class Handlers (S : Type) := {
  sys_getpid : M S Z;
  sys_write (fd buf count : Z) : M S Z;
  sys_malloc (size : Z) : M S Z;
  sys_free (ptr : Z) : M S unit;
  sys_fork : M S Z;
  sys_read (fd buf count : Z) : M S Z;
  sys_putchar (char_asci : Z) : M S unit;
  cls_screen : M S unit;
  sys_getcwd (buf size : Z) : M S Z;
  sys_open (pathname flags : Z) : M S Z;
  sys_close (fd : Z) : M S Z;
  sys_lseek (fd offset whence : Z) : M S Z;
  sys_unlink (pathname : Z) : M S Z;
  sys_mkdir (pathname : Z) : M S Z;
  sys_opendir (pathname : Z) : M S Z;
  sys_closedir (dir : Z) : M S Z;
  sys_chdir (path : Z) : M S Z;
  sys_rmdir (pathname : Z) : M S Z;
  sys_readdir (dir : Z) : M S Z;
  sys_rewinddir (dir : Z) : M S unit;
  sys_stat (path buf : Z) : M S Z;
  sys_ps : M S unit
}.

Definition is_i32 (x : Z) : Prop := -2147483648 ≤ x < 2147483648.
Definition is_i16 (x : Z) : Prop := -32768 ≤ x < 32768.
Definition is_char (x : Z) : Prop := -128 ≤ x < 128.

(** The results of a run have the type of the function. *)
Definition returns {S} (P : Z → Prop) (m : M S Z) : Prop := ∀ s r s', m s = Ret (r, s') → P r.

Class HandlersTyped (S : Type) `{Handlers S} := {
  ty_getpid : returns is_u32 sys_getpid;
  ty_write fd buf count : returns is_i32 (sys_write fd buf count);
  ty_malloc size : returns is_u32 (sys_malloc size);
  ty_fork : returns is_i16 sys_fork;
  ty_read fd buf count : returns is_i32 (sys_read fd buf count);
  ty_getcwd buf size : returns is_u32 (sys_getcwd buf size);
  ty_open pathname flags : returns is_i32 (sys_open pathname flags);
  ty_close fd : returns is_i32 (sys_close fd);
  ty_lseek fd offset whence : returns is_i32 (sys_lseek fd offset whence);
  ty_unlink pathname : returns is_i32 (sys_unlink pathname);
  ty_mkdir pathname : returns is_i32 (sys_mkdir pathname);
  ty_opendir pathname : returns is_u32 (sys_opendir pathname);
  ty_closedir dir : returns is_i32 (sys_closedir dir);
  ty_chdir path : returns is_i32 (sys_chdir path);
  ty_rmdir pathname : returns is_i32 (sys_rmdir pathname);
  ty_readdir dir : returns is_u32 (sys_readdir dir);
  ty_stat path buf : returns is_i32 (sys_stat path buf)
}.

(** ** The table *)

Definition syscall_nr : Z := 32.
(** A static array: its entries are NULL before [syscall_init]. *)
Definition syscall_table : list (option handler) := replicate (Z.to_nat syscall_nr) None.
Definition set_entry (n : SYSCALL_NR) (h : handler) (tbl : list (option handler)) : outcome (list (option handler)) :=
  store tbl (nr n) (Some h).

Definition syscall_init (tbl : list (option handler)) : outcome (list (option handler)) :=
  tbl ← set_entry SYS_GETPID F_getpid tbl;
  tbl ← set_entry SYS_WRITE F_write tbl;
  tbl ← set_entry SYS_MALLOC F_malloc tbl;
  tbl ← set_entry SYS_FREE F_free tbl;
  tbl ← set_entry SYS_FORK F_fork tbl;
  tbl ← set_entry SYS_READ F_read tbl;
  tbl ← set_entry SYS_PUTCHAR F_putchar tbl;
  tbl ← set_entry SYS_CLEAR F_cls_screen tbl;
  tbl ← set_entry SYS_GETCWD F_getcwd tbl;
  tbl ← set_entry SYS_OPEN F_open tbl;
  tbl ← set_entry SYS_CLOSE F_close tbl;
  tbl ← set_entry SYS_LSEEK F_lseek tbl;
  tbl ← set_entry SYS_UNLINK F_unlink tbl;
  tbl ← set_entry SYS_MKDIR F_mkdir tbl;
  tbl ← set_entry SYS_OPENDIR F_opendir tbl;
  tbl ← set_entry SYS_CLOSEDIR F_closedir tbl;
  tbl ← set_entry SYS_CHDIR F_chdir tbl;
  tbl ← set_entry SYS_RMDIR F_rmdir tbl;
  tbl ← set_entry SYS_READDIR F_readdir tbl;
  tbl ← set_entry SYS_REWINDDIR F_rewinddir tbl;
  tbl ← set_entry SYS_STAT F_stat tbl;
  set_entry SYS_PS F_ps tbl.

(** ** The entry of interrupt 0x80 *)

Record regs := Regs { eax : Z; ebx : Z; ecx : Z; edx : Z }.

Section calls.
Context {S : Type} `{Handlers S}.
(** The table after [syscall_init]; what the registers hold when the code does
    not say: before the call, in the bytes above a narrow argument or result,
    and after a function without result. *)
Context (tbl : list (option handler)) (r0 : regs) (junk : Z).

(** A result in [eax]. *)
Definition ret32 (m : M S Z) : M S Z := r ← m; mret (u32 r).
Definition ret16 (m : M S Z) : M S Z := r ← m; mret (u32 (junk * 65536 + u16 r)).
Definition ret_void (m : M S unit) : M S Z := _ ← m; mret (u32 junk).

(** The handler reads its parameters from the three words on the stack. *)
Definition call_entry (h : handler) (a b c : Z) : M S Z :=
  match h with
  | F_getpid => ret32 sys_getpid
  | F_write => ret32 (sys_write (i32 a) (u32 b) (u32 c))
  | F_malloc => ret32 (sys_malloc (u32 a))
  | F_free => ret_void (sys_free (u32 a))
  | F_fork => ret16 sys_fork
  | F_read => ret32 (sys_read (i32 a) (u32 b) (u32 c))
  | F_putchar => ret_void (sys_putchar (i8 a))
  | F_cls_screen => ret_void cls_screen
  | F_getcwd => ret32 (sys_getcwd (u32 a) (u32 b))
  | F_open => ret32 (sys_open (u32 a) (u8 b))
  | F_close => ret32 (sys_close (i32 a))
  | F_lseek => ret32 (sys_lseek (i32 a) (i32 b) (u8 c))
  | F_unlink => ret32 (sys_unlink (u32 a))
  | F_mkdir => ret32 (sys_mkdir (u32 a))
  | F_opendir => ret32 (sys_opendir (u32 a))
  | F_closedir => ret32 (sys_closedir (u32 a))
  | F_chdir => ret32 (sys_chdir (u32 a))
  | F_rmdir => ret32 (sys_rmdir (u32 a))
  | F_readdir => ret32 (sys_readdir (u32 a))
  | F_rewinddir => ret_void (sys_rewinddir (u32 a))
  | F_stat => ret32 (sys_stat (u32 a) (u32 b))
  | F_ps => ret_void sys_ps
  end.

(** [syscall_handler] of kernel.S: [call [syscall_table + eax * 4]]; a NULL
    entry and one behind the table, where the processor would go on at whatever
    address is there, are a [Fault]. *)
Definition int_0x80 (r : regs) : M S regs :=
  entry ← lift (load tbl (u32 (eax r * 4) / 4));
  h ← lift (match entry with Some h => Ret h | None => Fault end);
  v ← call_entry h (ebx r) (ecx r) (edx r);
  mret (Regs v (ebx r) (ecx r) (edx r)).

(** ** The stubs *)

Definition _syscall0 (number : Z) : M S Z :=
  r ← int_0x80 (Regs (u32 number) (ebx r0) (ecx r0) (edx r0)); mret (i32 (eax r)).
Definition _syscall1 (number arg1 : Z) : M S Z :=
  r ← int_0x80 (Regs (u32 number) (u32 arg1) (ecx r0) (edx r0)); mret (i32 (eax r)).
Definition _syscall2 (number arg1 arg2 : Z) : M S Z :=
  r ← int_0x80 (Regs (u32 number) (u32 arg1) (u32 arg2) (edx r0)); mret (i32 (eax r)).
Definition _syscall3 (number arg1 arg2 arg3 : Z) : M S Z :=
  r ← int_0x80 (Regs (u32 number) (u32 arg1) (u32 arg2) (u32 arg3)); mret (i32 (eax r)).

(** A narrow value in a register. *)
Definition narrow (x : Z) : Z := junk * 256 + u8 x.

Definition getpid : M S Z := r ← _syscall0 (nr SYS_GETPID); mret (u32 r).
Definition write (fd buf count : Z) : M S Z := r ← _syscall3 (nr SYS_WRITE) fd buf count; mret (u32 r).
Definition malloc (size : Z) : M S Z := r ← _syscall1 (nr SYS_MALLOC) size; mret (u32 r).
Definition free (ptr : Z) : M S unit := _ ← _syscall1 (nr SYS_FREE) ptr; mret ().
Definition fork : M S Z := r ← _syscall0 (nr SYS_FORK); mret (i16 r).
Definition read (fd buf count : Z) : M S Z := _syscall3 (nr SYS_READ) fd buf count.
Definition putchar (char_asci : Z) : M S unit := _ ← _syscall1 (nr SYS_PUTCHAR) (narrow char_asci); mret ().
Definition clear : M S unit := _ ← _syscall0 (nr SYS_CLEAR); mret ().
Definition getcwd (buf size : Z) : M S Z := r ← _syscall2 (nr SYS_GETCWD) buf size; mret (u32 r).
Definition open (pathname flag : Z) : M S Z := _syscall2 (nr SYS_OPEN) pathname (narrow flag).
Definition close (fd : Z) : M S Z := _syscall1 (nr SYS_CLOSE) fd.
Definition lseek (fd offset whence : Z) : M S Z := _syscall3 (nr SYS_LSEEK) fd offset (narrow whence).
Definition unlink (pathname : Z) : M S Z := _syscall1 (nr SYS_UNLINK) pathname.
Definition mkdir (pathname : Z) : M S Z := _syscall1 (nr SYS_MKDIR) pathname.
Definition opendir (name : Z) : M S Z := r ← _syscall1 (nr SYS_OPENDIR) name; mret (u32 r).
Definition closedir (dir : Z) : M S Z := _syscall1 (nr SYS_CLOSEDIR) dir.
Definition rmdir (pathname : Z) : M S Z := _syscall1 (nr SYS_RMDIR) pathname.
Definition readdir (dir : Z) : M S Z := r ← _syscall1 (nr SYS_READDIR) dir; mret (u32 r).
Definition rewinddir (dir : Z) : M S unit := _ ← _syscall1 (nr SYS_REWINDDIR) dir; mret ().
Definition stat (path buf : Z) : M S Z := _syscall2 (nr SYS_STAT) path buf.
Definition chdir (path : Z) : M S Z := _syscall1 (nr SYS_CHDIR) path.
Definition ps : M S unit := _ ← _syscall0 (nr SYS_PS); mret ().
End calls.

(** ** Every stub is its handler *)

Definition same {S A} (m1 m2 : M S A) : Prop := ∀ s, m1 s = m2 s.

(** The table after [syscall_init]. *)
Definition full_table : list (option handler) :=
  map Some [F_getpid; F_write; F_malloc; F_free; F_fork; F_read; F_putchar; F_cls_screen; F_getcwd; F_open;
    F_close; F_lseek; F_unlink; F_mkdir; F_opendir; F_closedir; F_chdir; F_rmdir; F_readdir; F_rewinddir; F_stat; F_ps]
  ++ replicate 10 None.

Lemma syscall_init_eq : syscall_init syscall_table = Ret full_table.
Proof. by vm_compute. Qed.

Lemma fault_entry {S} `{Handlers S} junk n b c d (s : S) : 22 ≤ n < 1073741824 →
  int_0x80 full_table junk (Regs n b c d) s = Fault.
Proof.
  intros Hn. unfold int_0x80. cbn [eax]. replace (u32 (n * 4) / 4) with n by zlia.
  destruct (decide (n < 32)) as [Hlt|Hge].
  - assert (full_table !! Z.to_nat n = Some None) as Hl.
    { unfold full_table. rewrite lookup_app_r by (cbn; lia). apply lookup_replicate. cbn. split; [done|lia]. }
    rewrite (proj2 (load_Ret _ _ _)) by (split; [lia|exact Hl]). done.
  - rewrite load_out by (cbn; lia). done.
Qed.

Lemma conv_i32 x : is_i32 x → i32 (u32 x) = x.
Proof. unfold is_i32. zlia. Qed.
Lemma conv_u32 x : is_u32 x → u32 (u32 x) = x.
Proof. zlia. Qed.
Lemma conv_u8 junk x : is_u8 x → u8 (u32 (narrow junk x)) = x.
Proof. unfold narrow. zlia. Qed.
Lemma conv_char junk x : is_char x → i8 (u32 (narrow junk x)) = x.
Proof. unfold narrow, is_char. zlia. Qed.
Lemma conv_result x : is_u32 x → u32 (i32 (u32 x)) = x.
Proof. zlia. Qed.
Lemma conv_pid junk x : is_i16 x → i16 (i32 (u32 (junk * 65536 + u16 x))) = x.
Proof. unfold is_i16. zlia. Qed.

Section stubs.
Context {S : Type} `{HS : Handlers S} (junk : Z).

Lemma int_0x80_eq n h b c d s : 0 ≤ n < 22 → full_table !! Z.to_nat n = Some (Some h) →
  int_0x80 full_table junk (Regs (u32 n) b c d) s = (v ← call_entry junk h b c d; mret (Regs v b c d)) s.
Proof.
  intros Hn Hl. unfold int_0x80. cbn [eax ebx ecx edx]. replace (u32 (u32 n * 4) / 4) with n by zlia.
  rewrite (proj2 (load_Ret _ _ _)) by (split; [lia|exact Hl]). done.
Qed.

(** The value in [eax] after the call. *)
Abbreviation raw n b c d := (r ← int_0x80 full_table junk (Regs (u32 n) b c d); mret (i32 (eax r))).
Lemma raw_eq n h b c d : 0 ≤ n < 22 → full_table !! Z.to_nat n = Some (Some h) →
  same (raw n b c d) (v ← call_entry junk h b c d; mret (i32 v)).
Proof.
  intros Hn Hl s. unfold mbind at 1, M_bind at 1. rewrite (int_0x80_eq n h b c d s Hn Hl).
  unfold mbind, M_bind. by destruct (call_entry junk h b c d s) as [[v s']| | |].
Qed.

Lemma stub_conv n h b c d m (P : Z → Prop) (k : Z → Z) : 0 ≤ n < 22 → full_table !! Z.to_nat n = Some (Some h) →
  call_entry junk h b c d = ret32 m → returns P m → (∀ r, P r → k (i32 (u32 r)) = r) →
  same (r ← raw n b c d; mret (k r)) m.
Proof.
  intros Hn Hl He Hm Hk s. unfold mbind at 1, M_bind at 1. rewrite (raw_eq n h b c d Hn Hl s), He.
  unfold ret32, mbind, M_bind. destruct (m s) as [[r s']| | |] eqn:E; [|done..]. cbn. by rewrite (Hk r) by (by eapply Hm).
Qed.
(** The caller sees the result through another type. *)
Lemma stub_seen n h b c d m (k g : Z → Z) : 0 ≤ n < 22 → full_table !! Z.to_nat n = Some (Some h) →
  call_entry junk h b c d = ret32 m → (∀ r, k (i32 (u32 r)) = g r) → same (r ← raw n b c d; mret (k r)) (r ← m; mret (g r)).
Proof.
  intros Hn Hl He Hk s. unfold mbind at 1, M_bind at 1. rewrite (raw_eq n h b c d Hn Hl s), He.
  unfold ret32, mbind, M_bind. destruct (m s) as [[r s']| | |]; [|done..]. cbn. by rewrite Hk.
Qed.
Lemma stub_id n h b c d m : 0 ≤ n < 22 → full_table !! Z.to_nat n = Some (Some h) →
  call_entry junk h b c d = ret32 m → returns is_i32 m → same (raw n b c d) m.
Proof.
  intros Hn Hl He Hm s. rewrite (raw_eq n h b c d Hn Hl s), He.
  unfold ret32, mbind, M_bind. destruct (m s) as [[r s']| | |] eqn:E; [|done..]. cbn.
  by rewrite (conv_i32 r) by (by eapply Hm).
Qed.
Lemma stub_void n h b c d m : 0 ≤ n < 22 → full_table !! Z.to_nat n = Some (Some h) →
  call_entry junk h b c d = ret_void junk m → same (_ ← raw n b c d; mret ()) m.
Proof.
  intros Hn Hl He s. unfold mbind at 1, M_bind at 1. rewrite (raw_eq n h b c d Hn Hl s), He.
  unfold ret_void, mbind, M_bind. by destruct (m s) as [[[] s']| | |].
Qed.
Lemma stub_pid n h b c d m : 0 ≤ n < 22 → full_table !! Z.to_nat n = Some (Some h) →
  call_entry junk h b c d = ret16 junk m → returns is_i16 m → same (r ← raw n b c d; mret (i16 r)) m.
Proof.
  intros Hn Hl He Hm s. unfold mbind at 1, M_bind at 1. rewrite (raw_eq n h b c d Hn Hl s), He.
  unfold ret16, mbind, M_bind. destruct (m s) as [[r s']| | |] eqn:E; [|done..]. cbn.
  by rewrite conv_pid by (by eapply Hm).
Qed.
End stubs.

(** What a stub pushes is what its handler reads. *)
Ltac reads := cbn [call_entry]; rewrite ?conv_i32, ?conv_u32, ?conv_u8, ?conv_char by assumption; reflexivity.
(** A stub is its handler: [t] is the typing law of the handler. *)
Ltac by_stub t := intros;
  first [eapply stub_void; [|reflexivity|reads]; cbn; lia
        |eapply stub_id; [|reflexivity|reads|apply t]; cbn; lia
        |eapply stub_pid; [|reflexivity|reads|apply t]; cbn; lia
        |eapply stub_conv; [|reflexivity|reads|apply t|first [exact conv_result]]; cbn; lia].

(** C13: after [syscall_init] every stub of user code does what its handler does,
    with its arguments in their order and the handler's result, whatever the
    unused registers and the bytes above narrow values hold; only [write]
    shows the result of its handler, which is signed, as an unsigned number. The
    numbers above the last call, which nothing tests, lead to a fault. *)
Theorem stubs_reach_handlers {S : Type} `{HandlersTyped S} (r0 : regs) (junk : Z) :
  ∃ tbl, syscall_init syscall_table = Ret tbl ∧
  (same (getpid tbl r0 junk) sys_getpid ∧ same (fork tbl r0 junk) sys_fork ∧ same (clear tbl r0 junk) cls_screen ∧
   same (ps tbl r0 junk) sys_ps) ∧
  (∀ fd buf count, is_i32 fd → is_u32 buf → is_u32 count →
     same (write tbl junk fd buf count) (r ← sys_write fd buf count; mret (u32 r)) ∧ same (read tbl junk fd buf count) (sys_read fd buf count)) ∧
  (∀ fd offset whence, is_i32 fd → is_i32 offset → is_u8 whence →
     same (lseek tbl junk fd offset whence) (sys_lseek fd offset whence)) ∧
  (∀ p flag, is_u32 p → is_u8 flag → same (open tbl r0 junk p flag) (sys_open p flag)) ∧
  (∀ c, is_char c → same (putchar tbl r0 junk c) (sys_putchar c)) ∧
  (∀ fd, is_i32 fd → same (close tbl r0 junk fd) (sys_close fd)) ∧
  (∀ p q, is_u32 p → is_u32 q →
     same (getcwd tbl r0 junk p q) (sys_getcwd p q) ∧ same (stat tbl r0 junk p q) (sys_stat p q)) ∧
  (∀ p, is_u32 p →
     same (malloc tbl r0 junk p) (sys_malloc p) ∧ same (free tbl r0 junk p) (sys_free p) ∧
     same (unlink tbl r0 junk p) (sys_unlink p) ∧ same (mkdir tbl r0 junk p) (sys_mkdir p) ∧
     same (opendir tbl r0 junk p) (sys_opendir p) ∧ same (closedir tbl r0 junk p) (sys_closedir p) ∧
     same (chdir tbl r0 junk p) (sys_chdir p) ∧ same (rmdir tbl r0 junk p) (sys_rmdir p) ∧
     same (readdir tbl r0 junk p) (sys_readdir p) ∧ same (rewinddir tbl r0 junk p) (sys_rewinddir p)) ∧
  (∀ n b c d s, 22 ≤ n < 1073741824 → int_0x80 tbl junk (Regs n b c d) s = Fault).
Proof.
  exists full_table. split; [exact syscall_init_eq|]. split_and!; intros; try split_and!.
  - by_stub ty_getpid.
  - by_stub ty_fork.
  - by_stub I.
  - by_stub I.
  - intros s. unfold write, _syscall3. rewrite (stub_seen junk (nr SYS_WRITE) F_write (u32 fd) (u32 buf) (u32 count) (sys_write fd buf count) u32 u32 ltac:(cbn; lia) eq_refl ltac:(reads)); [done|].
    intros r. pose proof (conv_result (u32 r) (u32_range r)) as E. by rewrite (u32_id (u32 r)) in E by apply u32_range.
  - by_stub ty_read.
  - by_stub ty_lseek.
  - by_stub ty_open.
  - by_stub I.
  - by_stub ty_close.
  - by_stub ty_getcwd.
  - by_stub ty_stat.
  - by_stub ty_malloc.
  - by_stub I.
  - by_stub ty_unlink.
  - by_stub ty_mkdir.
  - by_stub ty_opendir.
  - by_stub ty_closedir.
  - by_stub ty_chdir.
  - by_stub ty_rmdir.
  - by_stub ty_readdir.
  - by_stub I.
  - by apply fault_entry.
Qed.

(** *** Handlers that keep a log of their calls *)

Definition calls : Type := list (handler * list Z).
Definition logged {A} (h : handler) (args : list Z) (a : A) : M calls A := λ s, Ret (a, s ++ [(h, args)]).
#[local] Instance log_handlers : Handlers calls := {|
  sys_getpid := logged F_getpid [] 3;
  sys_write := λ fd buf count, logged F_write [fd; buf; count] (-1);
  sys_malloc := λ size, logged F_malloc [size] 0xc0100000;
  sys_free := λ ptr, logged F_free [ptr] ();
  sys_fork := logged F_fork [] (-1);
  sys_read := λ fd buf count, logged F_read [fd; buf; count] 2;
  sys_putchar := λ c, logged F_putchar [c] ();
  cls_screen := logged F_cls_screen [] ();
  sys_getcwd := λ buf size, logged F_getcwd [buf; size] 0;
  sys_open := λ p flags, logged F_open [p; flags] 3;
  sys_close := λ fd, logged F_close [fd] 0;
  sys_lseek := λ fd offset whence, logged F_lseek [fd; offset; whence] 5;
  sys_unlink := λ p, logged F_unlink [p] 0;
  sys_mkdir := λ p, logged F_mkdir [p] 0;
  sys_opendir := λ p, logged F_opendir [p] 0;
  sys_closedir := λ p, logged F_closedir [p] 0;
  sys_chdir := λ p, logged F_chdir [p] 0;
  sys_rmdir := λ p, logged F_rmdir [p] (-1);
  sys_readdir := λ p, logged F_readdir [p] 0;
  sys_rewinddir := λ p, logged F_rewinddir [p] ();
  sys_stat := λ p buf, logged F_stat [p; buf] 0;
  sys_ps := logged F_ps [] ()
|}.
#[local] Instance log_typed : HandlersTyped calls.
Proof. split; intros; intros s r s' [= <- _]; unfold is_u32, is_i32, is_i16; lia. Qed.

Lemma stubs_reach_handlers_witness : ∃ tbl, syscall_init syscall_table = Ret tbl ∧
  lseek tbl 7 3 (-4) 2 [] = Ret (5, [(F_lseek, [3; -4; 2])]) ∧ write tbl 7 1 0x8049000 10 [] = Ret (4294967295, [(F_write, [1; 0x8049000; 10])]).
Proof.
  destruct (stubs_reach_handlers (S := calls) (Regs 1 2 3 4) 7) as (tbl & Ht & _ & Hw & Hl & _).
  exists tbl. split; [exact Ht|]. split.
  - rewrite (Hl 3 (-4) 2); [reflexivity|unfold is_i32; lia|unfold is_i32; lia|unfold is_u8; lia].
  - rewrite (proj1 (Hw 1 0x8049000 10 ltac:(unfold is_i32; lia) ltac:(unfold is_u32; lia) ltac:(unfold is_u32; lia))). reflexivity.
Defined.
