(* ===== verification/Ps.v ===== *)
(** * The list of tasks (thread/thread.c: pad_print, elem2thread_info, sys_ps)

    [sys_ps] prints a line per element of [thread_all_list]; the list is given
    here by the threads it goes through. *)

From Stdlib Require Import ZArith Lia String Ascii.
From stdpp Require Import base numbers list.
From S2P Require Import Prelude CString Stdio Thread Disk Inode Fs.

(** What [ptr] points to, with the format: a string; an [int16_t], which
    [case 'x'] then reads again as a [uint32_t]; a [uint32_t]. *)
Inductive pad_arg := PadStr (s : list Z) | PadDec (d x : Z) | PadHex (x : Z).

(** [while (out_pad_0idx < buf_len)] *)
Fixpoint pad_loop (n : nat) (buf : list Z) (idx : Z) : outcome (list Z) :=
  match n with
  | O => Ret buf
  | S n => buf ← store buf idx 32; pad_loop n buf (idx + 1)
  end.

(** The padded buffer. [case 'd'] has no break. *)
Definition pad_buf (buf : list Z) (buf_len : Z) (p : pad_arg) : outcome (list Z) :=
  buf ← memset buf 0 buf_len;
  '(buf, n) ← match p with
    | PadStr s => sprintf buf (text "%s") [VPtr s]
    | PadDec d x =>
      '(buf, _) ← sprintf buf (text "%d") [VWord d];
      sprintf buf (text "%x") [VWord x]
    | PadHex x => sprintf buf (text "%x") [VWord x]
    end;
  pad_loop (Z.to_nat (buf_len - u8 n)) buf (u8 n).

Definition status_name (st : task_status) : list Z :=
  match st with
  | TASK_RUNNING => text "RUNNING" | TASK_READY => text "READY" | TASK_BLOCKED => text "BLOCKED"
  | TASK_WAITING => text "WAITING" | TASK_HANGING => text "HANGING" | TASK_DIED => text "DIED"
  end.

(** A [pid_t] is followed by two bytes of padding, which are zero. *)
Definition pad_pid (p : Z) : pad_arg := PadDec (i16 p) (u16 p).

Section ops.
Context {D : Type} {BD : BlockDev D}.
Abbreviation F := (M (fs D)).

Definition pad_print (buf : list Z) (buf_len : Z) (p : pad_arg) : F (list Z) :=
  buf ← lift (pad_buf buf buf_len p);
  _ ← sys_write 1 buf (buf_len - 1);
  mret buf.

Definition elem2thread_info (pthread : task_struct) : F unit :=
  out_pad ← pad_print (replicate 16 0) 16 (pad_pid (pid pthread));
  out_pad ← pad_print out_pad 16 (if parent_pid pthread =? -1 then PadStr (text "NULL") else pad_pid (parent_pid pthread));
  out_pad ← pad_print out_pad 16 (PadStr (status_name (status pthread)));
  out_pad ← pad_print out_pad 16 (PadHex (elapsed_ticks pthread));
  out_pad ← lift (memset out_pad 0 16);
  n ← lift (strlen (name pthread));
  _ ← ASSERT (n <? 17);
  out_pad ← lift (memcpy out_pad (name pthread) n);
  out_pad ← lift (strcat out_pad [10; 0]);
  n ← lift (strlen out_pad);
  _ ← sys_write 1 out_pad n;
  mret ().

Fixpoint ps_list (l : list task_struct) : F unit :=
  match l with [] => mret () | t :: l => _ ← elem2thread_info t; ps_list l end.

Definition sys_ps (l : list task_struct) : F unit :=
  let ps_title := line "PID            PPID           STAT           TICKS          COMMAND" in
  n ← lift (strlen ps_title);
  _ ← sys_write 1 ps_title n;
  ps_list l.
End ops.

(** ** What is printed *)

(** The state behind printing [s]. *)
Definition printed {D} (s : list Z) (st : fs D) : fs D :=
  with_session (Session (cwd_inode_nr (fs_session st)) (tty_in (fs_session st)) (tty_out (fs_session st) ++ s)) st.

Lemma printed_app {D} s1 s2 (st : fs D) : printed s2 (printed s1 st) = printed (s1 ++ s2) st.
Proof. unfold printed. cbn. by rewrite <-app_assoc. Qed.

Lemma printed_nil {D} (st : fs D) : printed [] st = st.
Proof. destruct st as [? ? ? ? ? ? ? ? []]. unfold printed. cbn. by rewrite app_nil_r. Qed.

Lemma sys_write_out {D} {BD : BlockDev D} (st : fs D) s tl : str_ok s → (length s < 1024)%nat →
  sys_write 1 (s ++ tl) (Z.of_nat (length s)) st = Ret (Z.of_nat (length s), printed s st).
Proof.
  intros Hs Hl. unfold sys_write. change (1 <? 0) with false. change (1 =? 1) with true. cbv iota.
  unfold memcpy. rewrite Nat2Z.id, memcpy_loop_spec by (rewrite ?length_replicate, ?length_app; lia).
  rewrite bind_lift, take_app_length. rewrite drop_replicate.
  replace (1024 - length s)%nat with (S (1023 - length s)) by lia. cbn [replicate].
  unfold print. rewrite bind_assoc, strlen_spec, bind_lift by (done || lia). rewrite bind_modify, ret_eq.
  rewrite Nat2Z.id, take_app_length, i32_id by lia. done.
Qed.

Definition hex (x : Z) : list Z := map digit_char (digits 16 x).

(** What [pad_print] shows: a number printed with ['d'] is its hexadecimal
    digits over its decimal ones. *)
Definition pad_text (p : pad_arg) : list Z :=
  match p with
  | PadStr s => c_str s
  | PadDec d x => hex (u32 x) ++ drop (length (hex (u32 x))) (decimal (i32 d))
  | PadHex x => hex (u32 x)
  end.
Definition column (s : list Z) : list Z := take 15 (s ++ replicate 15 32).

Lemma pad_loop_spec n pre buf : (n ≤ length buf)%nat →
  pad_loop n (pre ++ buf) (Z.of_nat (length pre)) = Ret (pre ++ replicate n 32 ++ drop n buf).
Proof.
  revert pre buf. induction n as [|n IH]; intros pre buf Hn; cbn [pad_loop]; [done|].
  destruct buf as [|c buf]; cbn in Hn; [lia|]. rewrite store_in by (rewrite length_app; cbn; lia).
  cbn [mbind outcome_bind]. rewrite Nat2Z.id.
  rewrite insert_app_r_alt, Nat.sub_diag by done. cbn [list_insert insert].
  change (<[0%nat:=32]> (c :: buf)) with (32 :: buf). specialize (IH (pre ++ [32]) buf ltac:(lia)).
  rewrite <-app_assoc, length_app in IH. cbn [app length] in IH.
  replace (Z.of_nat (length pre) + 1) with (Z.of_nat (length pre + 1)) by lia. rewrite IH. cbn [replicate drop].
  by rewrite <-app_assoc.
Qed.

Definition pad_ok (p : pad_arg) : Prop :=
  match p with PadStr s => ∃ t tl, s = t ++ 0 :: tl ∧ str_ok t | _ => True end ∧ (length (pad_text p) ≤ 15)%nat.

Lemma hex_ok x : str_ok (hex (u32 x)).
Proof. apply digits_chars; [lia|apply u32_range]. Qed.

Lemma pad_text_ok p : pad_ok p → str_ok (pad_text p).
Proof.
  intros [Hp _]. destruct p as [s|d x|x]; cbn [pad_text].
  - destruct Hp as (t & tl & -> & Ht). by rewrite c_str_app.
  - apply Forall_app. split; [apply hex_ok|]. apply Forall_drop, decimal_chars. zlia.
  - apply hex_ok.
Qed.

(** [%x] over what the buffer holds. *)
Lemma vsprintf_hex b x : (length (hex (u32 x)) ≤ length b)%nat →
  vsprintf_loop (text "%x") [VWord x] ([], b) = Ret (hex (u32 x), drop (length (hex (u32 x))) b).
Proof.
  intros Hl. change (text "%x") with [37; 120; 0]. cbn [vsprintf_loop]. change (37 =? 0) with false.
  change (37 =? 37) with true. change (120 =? 115) with false. change (120 =? 99) with false. change (120 =? 100) with false.
  change (120 =? 120) with true. cbn [negb va_word mbind outcome_bind]. unfold hex in *. rewrite length_map in *.
  rewrite itoa_digits by (done || lia || apply u32_range). cbn [mbind outcome_bind]. done.
Qed.

Lemma pad_sprintf p : pad_ok p → ∃ b n,
  (match p with
   | PadStr s => sprintf (replicate 16 0) (text "%s") [VPtr s]
   | PadDec d x => '(buf, _) ← sprintf (replicate 16 0) (text "%d") [VWord d]; sprintf buf (text "%x") [VWord x]
   | PadHex x => sprintf (replicate 16 0) (text "%x") [VWord x]
   end) = Ret (b, n) ∧ n = Z.of_nat (length (pad_text p)) ∧ b = pad_text p ++ replicate (16 - length (pad_text p)) 0.
Proof.
  intros Hp. pose proof (pad_text_ok _ Hp) as Ht. destruct Hp as [Hp Hl]. destruct p as [s|d x|x]; cbn [pad_text] in *.
  - destruct Hp as (t & tl & -> & Hok). rewrite c_str_app in * by done.
    pose proof (vsprintf_run [Str t tl] [] 16) as Hr. unfold fmt_of, args_of, out_of in Hr.
    cbn [map concat piece_fmt piece_args piece_out app] in Hr. rewrite app_nil_r in Hr.
    eexists _, _. split; [apply Hr; [repeat constructor; [done|lia]|lia|lia]|done].
  - pose proof (vsprintf_run [Dec d] [] 16) as Hr. unfold fmt_of, args_of, out_of in Hr.
    cbn [map concat piece_fmt piece_args piece_out app] in Hr. rewrite app_nil_r in Hr.
    pose proof Hl as Hlt. rewrite length_app, length_drop in Hl. unfold sprintf. change (text "%d") with [37; 100; 0].
    rewrite Hr by (try lia; by repeat constructor). cbn [mbind outcome_bind]. unfold vsprintf.
    rewrite vsprintf_hex by (rewrite length_app, length_replicate; lia). cbn [mbind outcome_bind].
    rewrite drop_app, app_assoc, drop_replicate.
    replace (16 - length (decimal (i32 d)) - (length (hex (u32 x)) - length (decimal (i32 d))))%nat
      with (S (15 - length (hex (u32 x) ++ drop (length (hex (u32 x))) (decimal (i32 d)))))
      by (rewrite length_app, length_drop; lia).
    cbn [replicate]. rewrite strlen_spec by (done || lia). cbn [mbind outcome_bind]. eexists _, _. split; [done|].
    split; [done|]. f_equal. rewrite length_app, length_drop.
    replace (16 - (length (hex (u32 x)) + (length (decimal (i32 d)) - length (hex (u32 x)))))%nat
      with (S (15 - (length (hex (u32 x)) + (length (decimal (i32 d)) - length (hex (u32 x))))))%nat by lia. done.
  - pose proof (vsprintf_run [Hex x] [] 16) as Hr. unfold fmt_of, args_of, out_of in Hr.
    cbn [map concat piece_fmt piece_args piece_out app] in Hr. rewrite app_nil_r in Hr. fold (hex (u32 x)) in Hr.
    eexists _, _. split; [apply Hr; [by repeat constructor|lia|lia]|done].
Qed.

Lemma column_spec t : (length t ≤ 15)%nat → t ++ replicate (16 - length t) 32 = column t ++ [32].
Proof.
  intros Hl. unfold column. rewrite firstn_app, (take_ge t), <-app_assoc, take_replicate by lia. f_equal.
  replace (16 - length t)%nat with (((15 - length t) `min` 15) + 1)%nat by lia. by rewrite replicate_add.
Qed.

Lemma column_length t : length (column t) = 15%nat.
Proof. unfold column. rewrite length_take, length_app, length_replicate. lia. Qed.

Lemma column_ok t : str_ok t → str_ok (column t).
Proof. intros Ht. apply Forall_take, Forall_app. split; [done|]. apply Forall_replicate. unfold char_ok. lia. Qed.

Lemma pad_print_run {D} {BD : BlockDev D} (st : fs D) buf p : length buf = 16%nat → pad_ok p →
  pad_print buf 16 p st = Ret (column (pad_text p) ++ [32], printed (column (pad_text p)) st).
Proof.
  intros Hb Hp. destruct (pad_sprintf p Hp) as (b & n & Hs & -> & Heq). pose proof (pad_text_ok p Hp) as Ht.
  destruct Hp as [_ Hl]. unfold pad_print, pad_buf, memset. change (Z.to_nat 16) with 16%nat. change (u8 0) with 0.
  rewrite memset_loop_spec, drop_ge, app_nil_r by lia. cbn [mbind outcome_bind]. rewrite Hs. cbn [mbind outcome_bind]. subst b.
  rewrite u8_id by (unfold is_u8; lia). replace (Z.to_nat (16 - Z.of_nat (length (pad_text p)))) with (16 - length (pad_text p))%nat by lia.
  rewrite pad_loop_spec, drop_ge, app_nil_r by (rewrite length_replicate; lia). rewrite bind_lift, column_spec by done.
  assert (Hw : sys_write 1 (column (pad_text p) ++ [32]) (16 - 1) st = Ret (15, printed (column (pad_text p)) st)).
  { pose proof (sys_write_out st (column (pad_text p)) [32] (column_ok _ Ht)) as Hw. rewrite column_length in Hw. apply Hw. lia. }
  by rewrite (M_bind_Ret _ _ _ _ _ Hw).
Qed.

(** What [sys_ps] shows of a thread. *)
Definition pid_text (p : Z) : list Z := hex (u16 p) ++ drop (length (hex (u16 p))) (decimal (i16 p)).
Definition task_line (t : task_struct) : list Z :=
  column (pid_text (pid t)) ++ column (if parent_pid t =? -1 then chars "NULL" else pid_text (parent_pid t)) ++
  column (c_str (status_name (status t))) ++ column (hex (elapsed_ticks t)) ++ c_str (name t) ++ [10].

(** The fields that [sys_ps] prints. *)
Record task_shown (t : task_struct) : Prop := {
  ts_pid : 0 ≤ pid t < 32768;
  ts_ppid : -1 ≤ parent_pid t < 32768;
  ts_ticks : is_u32 (elapsed_ticks t);
  ts_name : ∃ s tl, name t = s ++ 0 :: tl ∧ str_ok s ∧ (length s ≤ 14)%nat
}.

Lemma hex_length x : is_u32 x → (length (hex x) ≤ 8)%nat.
Proof. intros Hx. unfold hex, digits. rewrite length_map. by apply (digits_go_length _ 7); unfold is_u32 in Hx; change (16 ^ Z.of_nat 8) with 4294967296. Qed.

Lemma pid_text_length p : (length (pid_text p) ≤ 15)%nat.
Proof.
  unfold pid_text. rewrite length_app, length_drop.
  pose proof (hex_length (u16 p) ltac:(zlia)) as Hh. assert (length (decimal (i16 p)) ≤ 6)%nat; [|lia].
  assert (-32768 ≤ i16 p < 32768) as Hi by zlia. unfold decimal. rewrite length_app, length_map.
  pose proof (digits_go_length 33 4 10 (Z.abs (i16 p)) ltac:(lia) ltac:(change (10 ^ Z.of_nat 5) with 100000; lia)) as Hd.
  unfold digits. destruct (i16 p <? 0); cbn [length]; lia.
Qed.

Lemma pad_pid_ok p : pad_ok (pad_pid p) ∧ pad_text (pad_pid p) = pid_text p.
Proof.
  assert (pad_text (pad_pid p) = pid_text p) as He.
  { unfold pad_pid, pid_text. cbn [pad_text]. rewrite u32_id, i32_id by zlia. done. }
  split; [|done]. split; [done|]. rewrite He. apply pid_text_length.
Qed.

Lemma status_ok st : pad_ok (PadStr (status_name st)).
Proof.
  destruct st; (split; [|by vm_compute; lia]);
  match goal with |- ∃ t tl, ?s = _ ∧ _ => exists (c_str s), [] end; (split; [reflexivity|repeat constructor; vm_compute; by split]).
Qed.

Lemma null_ok : pad_ok (PadStr (text "NULL")).
Proof. split; [|by vm_compute; lia]. exists (chars "NULL"), []. split; [done|]. repeat constructor; vm_compute; by split. Qed.

Lemma ticks_ok x : is_u32 x → pad_ok (PadHex x) ∧ pad_text (PadHex x) = hex x.
Proof. intros Hx. split; [split; [done|]|]; cbn [pad_text]; rewrite u32_id by done; [|done]. pose proof (hex_length x Hx). lia. Qed.

Lemma elem2thread_info_run {D} {BD : BlockDev D} (st : fs D) t : task_shown t →
  elem2thread_info t st = Ret ((), printed (task_line t) st).
Proof.
  intros [_ _ Hticks (s & tl & Hn & Hs & Hl)]. unfold elem2thread_info.
  rewrite (M_bind_Ret _ _ _ _ _ (pad_print_run st (replicate 16 0) _ eq_refl (proj1 (pad_pid_ok (pid t))))).
  rewrite (proj2 (pad_pid_ok (pid t))). set (st1 := printed _ st).
  assert (Hp : pad_print (column (pid_text (pid t)) ++ [32]) 16 (if parent_pid t =? -1 then PadStr (text "NULL") else pad_pid (parent_pid t)) st1 =
    Ret (column (if parent_pid t =? -1 then chars "NULL" else pid_text (parent_pid t)) ++ [32],
      printed (column (if parent_pid t =? -1 then chars "NULL" else pid_text (parent_pid t))) st1)).
  { destruct (parent_pid t =? -1).
    - apply (pad_print_run st1 _ (PadStr (text "NULL"))); [rewrite length_app, column_length; done|exact null_ok].
    - rewrite <-(proj2 (pad_pid_ok (parent_pid t))). apply pad_print_run; [rewrite length_app, column_length; done|apply pad_pid_ok]. }
  rewrite (M_bind_Ret _ _ _ _ _ Hp). clear Hp. set (st2 := printed _ st1).
  rewrite (M_bind_Ret _ _ _ _ _ (pad_print_run st2 (column _ ++ [32]) _ ltac:(rewrite length_app, column_length; done) (status_ok (status t)))).
  cbn [pad_text]. set (st3 := printed _ st2). destruct (ticks_ok _ Hticks) as [Htok Ht].
  rewrite (M_bind_Ret _ _ _ _ _ (pad_print_run st3 (column _ ++ [32]) _ ltac:(rewrite length_app, column_length; done) Htok)), Ht.
  set (st4 := printed _ st3). unfold memset. change (u8 0) with 0. change (Z.to_nat 16) with 16%nat.
  rewrite memset_loop_spec, drop_ge, app_nil_r by (rewrite length_app, column_length; cbn; lia). rewrite bind_lift, Hn, strlen_spec by (done || lia).
  rewrite bind_lift. destruct (Z.ltb_spec (Z.of_nat (length s)) 17); [|lia]. rewrite bind_ASSERT_true.
  unfold memcpy. rewrite Nat2Z.id, memcpy_loop_spec by (rewrite ?length_replicate, ?length_app; lia).
  rewrite bind_lift, take_app_length, drop_replicate. replace (16 - length s)%nat with (S (15 - length s)) by lia. cbn [replicate].
  pose proof (strcat_spec s (replicate (15 - length s) 0) [10] []) as Hc. cbn [app] in Hc.
  rewrite Hc by (try done; try (repeat constructor; unfold char_ok; lia); rewrite ?length_replicate; cbn; lia). clear Hc.
  rewrite bind_lift. match goal with |- context [strlen ?b] => set (b0 := b) end.
  assert (Hb : ∃ r, b0 = (s ++ [10]) ++ 0 :: r) by (subst b0; eexists; by rewrite <-?app_assoc). destruct Hb as [r ->].
  assert (str_ok (s ++ [10])) as Hso by (apply Forall_app; split; [done|]; repeat constructor; unfold char_ok; lia).
  rewrite strlen_spec by (done || rewrite length_app; cbn; lia). rewrite bind_lift.
  assert (length (s ++ [10%Z]) < 1024)%nat as Hsl by (rewrite length_app; cbn; lia).
  rewrite (M_bind_Ret _ _ _ _ _ (sys_write_out st4 (s ++ [10]) (0 :: r) Hso Hsl)), ret_eq.
  do 2 f_equal. unfold st4, st3, st2, st1. rewrite !printed_app. unfold task_line. rewrite Hn, c_str_app by done. rewrite <-?app_assoc. done.
Qed.

Lemma sys_ps_run {D} {BD : BlockDev D} (st : fs D) l : Forall task_shown l →
  sys_ps l st = Ret ((), printed (c_str (line "PID            PPID           STAT           TICKS          COMMAND") ++
    concat (map task_line l)) st).
Proof.
  intros Hl. unfold sys_ps. set (title := line _). assert (Ht : title = c_str title ++ [0]) by reflexivity.
  assert (Hok : str_ok (c_str title)) by (repeat constructor; vm_compute; by split).
  rewrite Ht at 1. rewrite strlen_spec by (done || by vm_compute). rewrite bind_lift.
  assert (Hw : sys_write 1 title (Z.of_nat (length (c_str title))) st = Ret (Z.of_nat (length (c_str title)), printed (c_str title) st)).
  { rewrite Ht at 1. apply sys_write_out; [done|vm_compute; lia]. }
  rewrite (M_bind_Ret _ _ _ _ _ Hw). clear Hw. rewrite <-printed_app. generalize (printed (c_str title) st). clear -Hl.
  induction Hl as [|t l Ht Hl IH]; intros st; cbn [ps_list map concat]; [by rewrite printed_nil|].
  rewrite (M_bind_Ret _ _ _ _ _ (elem2thread_info_run st t Ht)), IH. by rewrite printed_app.
Qed.

(** ** Properties *)

(** C28: [sys_ps] prints its title and for every thread of the list a line of
    columns of 15 characters: pid, parent, status and ticks, and the name; it
    changes nothing else. *)
Theorem sys_ps_correct {D} {BD : BlockDev D} (st : fs D) l : Forall task_shown l →
  sys_ps l st = Ret ((), printed (c_str (line "PID            PPID           STAT           TICKS          COMMAND") ++
    concat (map task_line l)) st).
Proof. apply sys_ps_run. Qed.

(** A pid below 10 is shown as it is; 10 is shown as "A0". *)
Lemma pid_text_small p : 0 ≤ p < 10 → pid_text p = decimal p.
Proof.
  intros Hp. assert (p = 0 ∨ p = 1 ∨ p = 2 ∨ p = 3 ∨ p = 4 ∨ p = 5 ∨ p = 6 ∨ p = 7 ∨ p = 8 ∨ p = 9)
    as [->|[->|[->|[->|[->|[->|[->|[->|[->| ->]]]]]]]]] by lia; reflexivity.
Qed.
Example pid_text_10 : pid_text 10 = chars "A0".
Proof. reflexivity. Qed.

Definition ex_task : task_struct :=
  Task 0 2 TASK_READY (chars "init_fork" ++ replicate 7 0)%list 31 31 255 [] 0 0 1 0x19870916.

Lemma ex_task_shown : Forall task_shown [ex_task].
Proof.
  constructor; [|constructor]. split; cbn [ex_task pid parent_pid elapsed_ticks name]; [lia|lia|unfold is_u32; lia|].
  exists (chars "init_fork"), (replicate 6 0). split; [reflexivity|]. split; [|cbn; lia].
  repeat constructor; vm_compute; by split.
Qed.

Lemma sys_ps_correct_witness :
  tty_out (fs_session (printed (task_line ex_task) (ex_fs [] ∅ []))) =
    chars "2              1              READY          FF             init_fork" ++ [10] ∧
  sys_ps [ex_task] (ex_fs [] ∅ []) = Ret ((), printed (c_str
    (line "PID            PPID           STAT           TICKS          COMMAND") ++ concat (map task_line [ex_task])) (ex_fs [] ∅ [])).
Proof. split; [reflexivity|exact (sys_ps_correct (ex_fs [] ∅ []) [ex_task] ex_task_shown)]. Defined.
