(* ===== verification/Shell.v ===== *)
(** * The shell (shell/shell.c, shell/buildin_cmd.c)

    The shell runs on the system calls of [Fs]; a call through [int 0x80] is
    the call of its function. Its globals are [cmd_line], [final_path] and
    [cwd_cache]; [argv] holds offsets into [cmd_line]. [MAX_ARG_NR] is 16. *)

From Stdlib Require Import ZArith Lia String.
From stdpp Require Import base numbers list gmap.
From S2P Require Import Prelude CString Stdio Path Thread Disk Inode Dir Fs Ps.

Definition MAX_ARG_NR : Z := 16.

(** ** Parsing a command line *)

(** The first offset from [next] on whose character does not satisfy [P]. *)
Fixpoint skip (n : nat) (P : Z → bool) (s : list Z) (next : Z) : outcome Z :=
  match n with
  | O => Spin
  | S n => c ← load s next; if P c then skip n P s (next + 1) else Ret next
  end.

Fixpoint parse_loop (fuel : nat) (token : Z) (s : list Z) (argv : list (option Z)) (next argc : Z)
    : outcome (list Z * list (option Z) * Z) :=
  match fuel with
  | O => Spin
  | S fuel =>
    c ← load s next;
    if c =? 0 then Ret (s, argv, argc) else
    next ← skip (S (length s)) (λ c, c =? token) s next;
    c ← load s next;
    if c =? 0 then Ret (s, argv, argc) else
    argv ← store argv argc (Some next);
    next ← skip (S (length s)) (λ c, negb (c =? 0) && negb (c =? token)) s next;
    c ← load s next;
    '(s, next) ← (if negb (c =? 0) then s ← store s next 0; Ret (s, next + 1) else Ret (s, next));
    if MAX_ARG_NR <? argc then Ret (s, argv, -1)
    else parse_loop fuel token s argv next (argc + 1)
  end.

(** The line with its words terminated, [argv] and the result. *)
Definition cmd_parse (s : list Z) (token : Z) : outcome (list Z * list (option Z) * Z) :=
  parse_loop (S (length s)) token s (replicate (Z.to_nat MAX_ARG_NR) None) 0 0.

Section ops.
Context {D : Type} {BD : BlockDev D}.
Abbreviation F := (M (fs D)).

(** ** Output *)

Definition printf (format : list Z) (args : list va_arg) : F Z :=
  '(buf, _) ← lift (vsprintf (replicate 1024 0) format args);
  n ← lift (strlen buf);
  sys_write 1 buf n.

Definition put_out (s : list Z) : F unit :=
  modify (λ st, with_session (Session (cwd_inode_nr (fs_session st)) (tty_in (fs_session st))
    (tty_out (fs_session st) ++ s)) st).
Definition putchar (char_asci : Z) : F unit := put_out [u8 char_asci].

(** [cls_screen]: what was printed is gone. *)
Definition clear : F unit :=
  modify (λ st, with_session (Session (cwd_inode_nr (fs_session st)) (tty_in (fs_session st)) []) st).

Definition print_prompt (cwd_cache : list Z) : F unit :=
  _ ← printf (text "[zy@localhost %s]") [VPtr cwd_cache]; mret ().

(** ** Reading a line *)

(** [while (buf != pos)] of ctrl+u, from [pos = buf + n]. *)
Fixpoint erase_line (n : nat) (buf : list Z) : F (list Z) :=
  match n with
  | O => mret buf
  | S m =>
    _ ← putchar 8;
    buf ← lift (store buf (Z.of_nat n) 0);
    erase_line m buf
  end.

(** Every turn reads a key. *)
Fixpoint readline_loop (fuel : nat) (cwd_cache buf : list Z) (pos count : Z) : F (list Z) :=
  match fuel with
  | O => lift Spin
  | S fuel =>
    '(rest, r) ← sys_read 0 (drop (Z.to_nat pos) buf) 1;
    let buf := take (Z.to_nat pos) buf ++ rest in
    if (r =? -1) || (count <=? pos) then
      _ ← printf (line "readline: can not find enter_key in the cmd_line, max num of char is 128") [];
      mret buf
    else
      c ← lift (load buf pos);
      if (c =? 10) || (c =? 13) then
        buf ← lift (store buf pos 0);
        _ ← putchar 10;
        mret buf
      else if c =? 8 then
        c0 ← lift (load buf 0);
        if negb (c0 =? 8) then _ ← putchar 8; readline_loop fuel cwd_cache buf (pos - 1) count
        else readline_loop fuel cwd_cache buf pos count
      else if c =? 11 then
        buf ← lift (store buf pos 0);
        _ ← clear;
        _ ← print_prompt cwd_cache;
        _ ← printf (text "%s") [VPtr buf];
        readline_loop fuel cwd_cache buf pos count
      else if c =? 20 then
        buf ← erase_line (Z.to_nat pos) buf;
        readline_loop fuel cwd_cache buf 0 count
      else
        _ ← putchar c;
        readline_loop fuel cwd_cache buf (pos + 1) count
  end.

(** The fuel is one more than the keys that will be typed. *)
Definition readline (cwd_cache buf : list Z) (count : Z) : F (list Z) :=
  keys ← gets (λ st, tty_in (fs_session st));
  readline_loop (S (length keys)) cwd_cache buf 0 count.
End ops.

(** ** The commands (shell/buildin_cmd.c) *)

(** The kernel's state, as the shell sees it through the system calls, and the
    shell's globals. *)
Record shell (D : Type) := Sh { kern : fs D; cmd_line : list Z; final_path : list Z; cwd_cache : list Z }.
Arguments Sh {D}. Arguments kern {D}. Arguments cmd_line {D}. Arguments final_path {D}. Arguments cwd_cache {D}.

Section commands.
Context {D : Type} {BD : BlockDev D}.
Abbreviation F := (M (fs D)).
Abbreviation S := (M (shell D)).

Definition sh_lens : lens (shell D) (fs D) :=
  Lens kern (λ k s, Sh k (cmd_line s) (final_path s) (cwd_cache s)).
Definition sys {A} (m : F A) : S A := zoom sh_lens m.
Definition set_final (p : list Z) : S unit := modify (λ s, Sh (kern s) (cmd_line s) p (cwd_cache s)).
Definition set_line (l : list Z) : S unit := modify (λ s, Sh (kern s) l (final_path s) (cwd_cache s)).
Definition set_cwd (l : list Z) : S unit := modify (λ s, Sh (kern s) (cmd_line s) (final_path s) l).
Definition say (format : list Z) (args : list va_arg) : S unit := _ ← sys (printf format args); mret ().

(** The memory at [argv[k]]. *)
Definition arg (argv : list (option Z)) (k : Z) : S (list Z) :=
  p ← lift (load argv k);
  match p with
  | None => lift Fault
  | Some o => l ← gets cmd_line; mret (drop (Z.to_nat o) l)
  end.

(** [make_clear_abs_path(path, final_path)] with the system call [getcwd]. *)
Definition clear_abs_path (path : list Z) : S unit :=
  c ← lift (load path 0);
  cwd ← (if negb (c =? 47) then sys (sys_getcwd (replicate 512 0) MAX_PATH_LEN) else mret None);
  fp ← gets final_path;
  fp ← lift (make_clear_abs_path (λ _ _, Ret cwd) path fp);
  set_final fp.

Definition buildin_pwd (argc : Z) : S unit :=
  if negb (argc =? 1) then say (line "pwd: no argument support!") [] else
  fp ← gets final_path;
  r ← sys (sys_getcwd fp MAX_PATH_LEN);
  match r with
  | Some fp => _ ← set_final fp; say (line "%s") [VPtr fp]
  | None => say (line "pwd: get current work directory failed.") []
  end.

(** False for NULL. *)
Definition buildin_cd (argc : Z) (argv : list (option Z)) : S bool :=
  if 2 <? argc then _ ← say (line "cd: only support 1 argument!") []; mret false else
  _ ← (if argc =? 1 then
      fp ← gets final_path;
      fp ← lift (store fp 0 47);
      fp ← lift (store fp 1 0);
      set_final fp
    else a ← arg argv 1; clear_abs_path a);
  fp ← gets final_path;
  r ← sys (sys_chdir fp);
  if r =? -1 then _ ← say (line "cd: no such directory %s") [VPtr fp]; mret false
  else mret true.

(** The options of [ls]: [None] when it stops, else whether [-l] was given and
    the path. *)
Fixpoint ls_options (n : nat) (argv : list (option Z)) (arg_idx : Z) (long_info : bool) (pathname : option (list Z))
    : S (option (bool * option (list Z))) :=
  match n with
  | O => mret (Some (long_info, pathname))
  | Datatypes.S n =>
    a ← arg argv arg_idx;
    c ← lift (load a 0);
    if c =? 45 then
      r ← lift (strcmp (text "-l") a);
      if r =? 0 then ls_options n argv (arg_idx + 1) true pathname
      else
        r ← lift (strcmp (text "-h") a);
        if r =? 0 then
          _ ← say (chars "usage: -l list all infomation about the file." ++ [10] ++ chars "-h for help" ++ [10] ++
            line "list all files in the current dirctory if no option") [];
          mret None
        else
          _ ← say (chars "ls: invalid option %s" ++ [10] ++ line "Try `ls -h' for more information.") [VPtr a];
          mret None
    else
      match pathname with
      | None => ls_options n argv (arg_idx + 1) long_info (Some a)
      | Some _ => _ ← say (line "ls: only support one path") []; mret None
      end
  end.

(** Every turn reads an entry. *)
Fixpoint ls_short (fuel : nat) (dir : Z) : S unit :=
  match fuel with
  | O => lift Spin
  | Datatypes.S fuel =>
    e ← sys (sys_readdir dir);
    match e with
    | None => mret ()
    | Some e => _ ← say (text "%s ") [VPtr (dir_entry_bytes e)]; ls_short fuel dir
    end
  end.

(** False when [ls] stops. *)
Fixpoint ls_long (fuel : nat) (dir : Z) (sub_pathname : list Z) (pathname_len : Z) : S bool :=
  match fuel with
  | O => lift Spin
  | Datatypes.S fuel =>
    e ← sys (sys_readdir dir);
    match e with
    | None => mret true
    | Some e =>
      let ftype := if f_type e =? FT_REGULAR then 45 else 100 in
      sub_pathname ← lift (store sub_pathname pathname_len 0);
      sub_pathname ← lift (strcat sub_pathname (dir_entry_bytes e));
      '(file_stat, r) ← sys (sys_stat sub_pathname (Stat 0 0 0));
      if r =? -1 then
        _ ← say (line "ls: cannot access %s: No such file or directory") [VPtr (dir_entry_bytes e)];
        mret false
      else
        _ ← say (line "%c  %d  %d  %s")
          [VWord ftype; VWord (de_i_no e); VWord (st_size file_stat); VPtr (dir_entry_bytes e)];
        ls_long fuel dir sub_pathname pathname_len
    end
  end.

(** A directory has at most 140 * 21 entries. *)
Definition ls_fuel : nat := 2941.

Definition ls_dir (long_info : bool) (pathname : list Z) (size : Z) : S unit :=
  dir ← sys (sys_opendir pathname);
  pathname_len ← lift (strlen pathname);
  sub_pathname ← lift (memcpy (replicate 512 0) pathname pathname_len);
  c ← lift (load sub_pathname (u32 (pathname_len - 1)));
  '(sub_pathname, pathname_len) ← (if negb (c =? 47) then
      sub_pathname ← lift (store sub_pathname pathname_len 47); mret (sub_pathname, pathname_len + 1)
    else mret (sub_pathname, pathname_len));
  _ ← sys (sys_rewinddir dir);
  if long_info then
    _ ← say (line "total: %d") [VWord size];
    ok ← ls_long ls_fuel dir sub_pathname pathname_len;
    if ok : bool then _ ← sys (sys_closedir dir); mret () else mret ()
  else
    _ ← ls_short ls_fuel dir;
    _ ← say [10; 0] [];
    _ ← sys (sys_closedir dir);
    mret ().

Definition ls_path (long_info : bool) (pathname : list Z) : S unit :=
  '(file_stat, r) ← sys (sys_stat pathname (Stat 0 0 0));
  if r =? -1 then say (line "ls: cannot access %s: No such file or directory") [VPtr pathname]
  else if st_filetype file_stat =? FT_DIRECTORY then ls_dir long_info pathname (st_size file_stat)
  else if long_info then
    say (line "-  %d  %d  %s") [VWord (st_ino file_stat); VWord (st_size file_stat); VPtr pathname]
  else say (line "%s") [VPtr pathname].

Definition buildin_ls (argc : Z) (argv : list (option Z)) : S unit :=
  o ← ls_options (Z.to_nat (argc - 1)) argv 1 false None;
  match o with
  | None => mret ()
  | Some (long_info, Some a) =>
    _ ← clear_abs_path a;
    fp ← gets final_path;
    ls_path long_info fp
  | Some (long_info, None) =>
    fp ← gets final_path;
    r ← sys (sys_getcwd fp MAX_PATH_LEN);
    match r with
    | None => say (line "ls: getcwd for default path failed") []
    | Some fp => _ ← set_final fp; ls_path long_info fp
    end
  end.

Definition buildin_ps (tasks : list task_struct) (argc : Z) : S unit :=
  if negb (argc =? 1) then say (line "ps: no argument support!") [] else sys (sys_ps tasks).
Definition buildin_clear (argc : Z) : S unit :=
  if negb (argc =? 1) then say (line "clear: no argument support!") [] else sys clear.

(** The common part of [mkdir], [rmdir] and [rm]: the call on the path of the
    argument, unless it is the root. *)
Definition path_command (usage failed : list Z) (call : list Z → F Z) (argc : Z) (argv : list (option Z)) : S Z :=
  if negb (argc =? 2) then _ ← say usage []; mret (-1) else
  a ← arg argv 1;
  _ ← clear_abs_path a;
  fp ← gets final_path;
  r ← lift (strcmp (text "/") fp);
  if r =? 0 then mret (-1) else
  r ← sys (call fp);
  if r =? 0 then mret 0 else
  a ← arg argv 1;
  _ ← say failed [VPtr a];
  mret (-1).

(** [stk] is the stack memory that [sys_mkdir] uses. *)
Definition buildin_mkdir (stk : list Z) : Z → list (option Z) → S Z :=
  path_command (line "mkdir: only support 1 argument!") (line "mkdir: create directory %s failed.") (sys_mkdir stk).
Definition buildin_rmdir : Z → list (option Z) → S Z :=
  path_command (line "rmdir: only support 1 argument!") (line "rmdir: remove %s failed.") sys_rmdir.
Definition buildin_rm : Z → list (option Z) → S Z :=
  path_command (line "rm: only support 1 argument!") (line "rm: delete %s failed.") sys_unlink.

(** ** The loop of the shell *)

Definition about : list (list Z) :=
  [chars "####################" ++ [10]; chars "#                  #" ++ [10]; chars "#   zyos is good   #" ++ [10];
   chars "#                  #" ++ [10]; chars "####################" ++ [10]].
Fixpoint say_all (ls : list (list Z)) : S unit :=
  match ls with [] => mret () | l :: ls => _ ← say (l ++ [0]) []; say_all ls end.

(** Running the command of the parsed line. *)
Definition run_command (stk : list Z) (tasks : list task_struct) (argc : Z) (argv : list (option Z)) : S unit :=
  name ← arg argv 0;
  let is_cmd cmd := (r ← lift (strcmp (text cmd) name); mret (r =? 0)) in
  b ← is_cmd "ls"%string; if b : bool then buildin_ls argc argv else
  b ← is_cmd "cd"%string;
  if b : bool then
    ok ← buildin_cd argc argv;
    if ok : bool then
      l ← gets cwd_cache;
      l ← lift (memset l 0 MAX_PATH_LEN);
      fp ← gets final_path;
      l ← lift (strcpy l fp);
      set_cwd l
    else mret ()
  else
  b ← is_cmd "pwd"%string; if b : bool then buildin_pwd argc else
  b ← is_cmd "ps"%string; if b : bool then buildin_ps tasks argc else
  b ← is_cmd "clear"%string; if b : bool then buildin_clear argc else
  b ← is_cmd "mkdir"%string; if b : bool then _ ← buildin_mkdir stk argc argv; mret () else
  b ← is_cmd "rmdir"%string; if b : bool then _ ← buildin_rmdir argc argv; mret () else
  b ← is_cmd "rm"%string; if b : bool then _ ← buildin_rm argc argv; mret () else
  b ← is_cmd "about"%string; if b : bool then say_all about else
  say (line "external command") [].

(** One turn of [while (1)]. *)
Definition shell_turn (stk : list Z) (tasks : list task_struct) : S unit :=
  l ← gets cwd_cache;
  _ ← sys (print_prompt l);
  fp ← gets final_path;
  fp ← lift (memset fp 0 MAX_PATH_LEN);
  _ ← set_final fp;
  c ← gets cmd_line;
  c ← lift (memset c 0 MAX_PATH_LEN);
  c ← sys (readline l c MAX_PATH_LEN);
  _ ← set_line c;
  c0 ← lift (load c 0);
  if c0 =? 0 then mret () else
  '(c, argv, argc) ← lift (cmd_parse c 32);
  _ ← set_line c;
  if argc =? -1 then say (line "num of arguments exceed %d") [VWord MAX_ARG_NR]
  else run_command stk tasks argc argv.

(** [my_shell], as far as its first [n] turns. *)
Fixpoint shell_loop (n : nat) (stk : list Z) (tasks : list task_struct) : S unit :=
  match n with
  | O => mret ()
  | Datatypes.S n => _ ← shell_turn stk tasks; shell_loop n stk tasks
  end.

Definition my_shell (n : nat) (stk : list Z) (tasks : list task_struct) : S unit :=
  l ← gets cwd_cache;
  l ← lift (store l 0 47);
  _ ← set_cwd l;
  shell_loop n stk tasks.
End commands.

(** ** What the terminal shows *)

Section output.
Context {D : Type} {BD : BlockDev D}.
Implicit Types st : fs D.

(** The state with the keys [k] still to come and [out] on the screen. *)
Definition term (k out : list Z) st : fs D := with_session (Session (cwd_inode_nr (fs_session st)) k out) st.

Lemma printed_term k out s st : printed s (term k out st) = term k (out ++ s) st.
Proof. done. Qed.
Lemma term_self st : term (tty_in (fs_session st)) (tty_out (fs_session st)) st = st.
Proof. by destruct st as [? ? ? ? ? ? ? ? []]. Qed.
Lemma term_term k out k' out' st : term k out (term k' out' st) = term k out st.
Proof. done. Qed.

Lemma printf_run ps st : Forall piece_ok ps → (length (out_of ps) < 1024)%nat →
  printf (fmt_of ps ++ [0]) (args_of ps) st = Ret (Z.of_nat (length (out_of ps)), printed (out_of ps) st).
Proof.
  intros Hps Hl. unfold printf. rewrite vsprintf_run by (done || lia). rewrite bind_lift. cbv beta iota.
  replace (1024 - length (out_of ps))%nat with (S (1023 - length (out_of ps))) by lia. cbn [replicate].
  rewrite strlen_spec by (done || lia || by apply out_of_ok). rewrite bind_lift.
  apply sys_write_out; [by apply out_of_ok|done].
Qed.

(** A format that is printed as it is. *)
Lemma lit_pieces s : fmt_of (map Lit s) = s ∧ args_of (map Lit s) = [] ∧ out_of (map Lit s) = s.
Proof.
  unfold fmt_of, args_of, out_of. induction s as [|c s (H1 & H2 & H3)]; [done|]. cbn. rewrite H1, H2, H3. done.
Qed.

Definition prompt (cwd : list Z) : list Z := chars "[zy@localhost " ++ cwd ++ [93].

Lemma prompt_run cwd tl st : str_ok cwd → (length cwd < 1000)%nat →
  print_prompt (cwd ++ 0 :: tl) st = Ret ((), printed (prompt cwd) st).
Proof.
  intros Hs Hl. unfold print_prompt. set (ps := map Lit (chars "[zy@localhost ") ++ [Str cwd tl; Lit 93]).
  assert (text "[zy@localhost %s]" = fmt_of ps ++ [0] ∧ [VPtr (cwd ++ 0 :: tl)] = args_of ps ∧ out_of ps = prompt cwd) as (-> & -> & Ho)
    by done.
  assert (Hrun : printf (fmt_of ps ++ [0]) (args_of ps) st = Ret (Z.of_nat (length (out_of ps)), printed (out_of ps) st)).
  { apply printf_run.
    - unfold ps. apply Forall_app. split; [|constructor; [split; [done|lia]|constructor; [split; [unfold char_ok; lia|lia]|constructor]]].
      repeat constructor; vm_compute; done.
    - rewrite Ho. unfold prompt. rewrite !length_app. cbn. lia. }
  by rewrite (M_bind_Ret _ _ _ _ _ Hrun), Ho.
Qed.

Lemma print_str_run s tl st : str_ok s → (length s < 1024)%nat →
  printf (text "%s") [VPtr (s ++ 0 :: tl)] st = Ret (Z.of_nat (length s), printed s st).
Proof.
  intros Hs Hl. pose proof (printf_run [Str s tl] st) as Hr. unfold fmt_of, args_of, out_of in Hr.
  cbn [map concat piece_fmt piece_args piece_out app] in Hr. rewrite app_nil_r in Hr.
  apply Hr; [constructor; [split; [done|lia]|constructor]|lia].
Qed.

(** ** Line editing *)

(** The line and the screen after a key. *)
Definition key_step (cwd : list Z) (x : list Z * list Z) (c : Z) : list Z * list Z :=
  let (l, out) := x in
  if c =? 8 then (take (length l - 1) l, if decide (l = []) then out else out ++ [8])
  else if c =? 11 then (l, prompt cwd ++ l)
  else if c =? 20 then ([], out ++ replicate (length l) 8)
  else (l ++ [c], out ++ [c]).
Definition typed (cwd ks out : list Z) : list Z * list Z := foldl (key_step cwd) ([], out) ks.

Definition is_enter (c : Z) : Prop := c = 10 ∨ c = 13.

Lemma erase_line_run n k out st l tl : length l = n → tl ≠ [] →
  ∃ tl', erase_line n (l ++ tl) (term k out st) = Ret (tl', term k (out ++ replicate n 8) st) ∧ length tl' = length (l ++ tl).
Proof.
  revert out l tl. induction n as [|n IH]; intros out l tl Hl Ht; cbn [erase_line].
  { destruct l; [|done]. exists tl. cbn. by rewrite app_nil_r. }
  unfold putchar, put_out. rewrite bind_modify. change (u8 8) with 8.
  rewrite store_in by (rewrite length_app; destruct tl; [done|cbn; lia]). rewrite bind_lift, Nat2Z.id.
  rewrite insert_app_r_alt, Hl, Nat.sub_diag by lia.
  assert (∃ l0 x, l = l0 ++ [x] ∧ length l0 = n) as (l0 & x & -> & Hl0).
  { destruct l as [|y l _] using rev_ind; [done|]. rewrite length_app in Hl. exists l, y. cbn in Hl. split; [done|lia]. }
  destruct (IH (out ++ [8]) l0 (x :: <[0%nat := 0]> tl) Hl0 ltac:(done)) as (tl' & Hr & Hlen).
  exists tl'. rewrite <-app_assoc. cbn [app]. split.
  - etransitivity; [exact Hr|]. rewrite <-app_assoc. done.
  - rewrite Hlen, !length_app. cbn [length]. rewrite length_insert. lia.
Qed.
(** Reading one key into the buffer at [length l]. *)
Lemma read_key c k out st b tl :
  sys_read 0 (b :: tl) 1 (term (c :: k) out st) = Ret ((c :: tl, 1), term k out st).
Proof. reflexivity. Qed.

Lemma readline_step fuel cw l b tl c k out st count : Z.of_nat (length l) < count →
  readline_loop (S fuel) cw (l ++ b :: tl) (Z.of_nat (length l)) count (term (c :: k) out st) =
    (if (c =? 10) || (c =? 13) then _ ← putchar 10; mret (l ++ 0 :: tl)
     else if c =? 8 then
       c0 ← lift (load (l ++ c :: tl) 0);
       if negb (c0 =? 8) then _ ← putchar 8; readline_loop fuel cw (l ++ c :: tl) (Z.of_nat (length l) - 1) count
       else readline_loop fuel cw (l ++ c :: tl) (Z.of_nat (length l)) count
     else if c =? 11 then
       _ ← clear;
       _ ← print_prompt cw;
       _ ← printf (text "%s") [VPtr (l ++ 0 :: tl)];
       readline_loop fuel cw (l ++ 0 :: tl) (Z.of_nat (length l)) count
     else if c =? 20 then
       buf ← erase_line (length l) (l ++ c :: tl);
       readline_loop fuel cw buf 0 count
     else
       _ ← putchar c;
       readline_loop fuel cw (l ++ c :: tl) (Z.of_nat (length l) + 1) count) (term k out st).
Proof.
  intros Hc. cbn [readline_loop]. rewrite Nat2Z.id, drop_app_length, take_app_length.
  rewrite (M_bind_Ret _ _ _ _ _ (read_key c k out st b tl)). cbv beta iota zeta. change (1 =? -1) with false.
  destruct (Z.leb_spec count (Z.of_nat (length l))); [lia|]. cbn [orb].
  assert (load (l ++ c :: tl) (Z.of_nat (length l)) = Ret c) as ->
    by (apply load_Ret; rewrite Nat2Z.id; split; [lia|by apply list_lookup_middle]).
  assert (∀ x, store (l ++ c :: tl) (Z.of_nat (length l)) x = Ret (l ++ x :: tl)) as Hst.
  { intros x. rewrite store_in by (rewrite length_app; cbn; lia). by rewrite Nat2Z.id, insert_app_r_alt, Nat.sub_diag by lia. }
  rewrite bind_lift, !Hst. destruct ((c =? 10) || (c =? 13)); [by rewrite bind_lift|].
  destruct (c =? 8); [done|]. destruct (c =? 11); [by rewrite bind_lift|]. by destruct (c =? 20).
Qed.

Definition line_ok (l : list Z) : Prop := Forall (λ c, char_ok c ∧ c ≠ 8) l.
Definition key_ok (c : Z) : Prop := char_ok c ∧ ¬ is_enter c.

Lemma line_ok_str l : line_ok l → str_ok l.
Proof. intros Hl. eapply Forall_impl; [exact Hl|]. by intros c []. Qed.

Lemma key_step_ok cwd l out c : line_ok l → key_ok c → line_ok (key_step cwd (l, out) c).1.
Proof.
  intros Hl [Hc _]. unfold key_step. destruct (Z.eqb_spec c 8); cbn; [by apply Forall_take|].
  destruct (Z.eqb_spec c 11); cbn; [done|]. destruct (Z.eqb_spec c 20); cbn; [constructor|].
  apply Forall_app. split; [done|]. constructor; [done|constructor].
Qed.

Section line.
Context (cwd ctl : list Z) (Hcwd : str_ok cwd) (Hclen : (length cwd < 1000)%nat) (n : nat) (Hn : (n ≤ 1023)%nat).

(** One key that is not enter. *)
Lemma readline_one fuel l tl c k out st : line_ok l → key_ok c → length (l ++ tl) = n → (length l < n)%nat →
  ∃ tl', readline_loop (S fuel) (cwd ++ 0 :: ctl) (l ++ tl) (Z.of_nat (length l)) (Z.of_nat n) (term (c :: k) out st) =
      readline_loop fuel (cwd ++ 0 :: ctl) ((key_step cwd (l, out) c).1 ++ tl') (Z.of_nat (length (key_step cwd (l, out) c).1))
        (Z.of_nat n) (term k (key_step cwd (l, out) c).2 st) ∧
    length ((key_step cwd (l, out) c).1 ++ tl') = n.
Proof.
  intros Hl [Hc Hne] Hlen Hlt. destruct tl as [|b tl]; [rewrite app_nil_r in Hlen; lia|].
  rewrite readline_step by lia. rewrite length_app in Hlen. cbn [length] in Hlen. unfold key_step.
  assert ((c =? 10) || (c =? 13) = false) as ->.
  { unfold is_enter in Hne. destruct (Z.eqb_spec c 10), (Z.eqb_spec c 13); tauto. }
  destruct (Z.eqb_spec c 8) as [->|H8]; [|destruct (Z.eqb_spec c 11) as [->|H11]; [|destruct (Z.eqb_spec c 20) as [->|H20]]];
    cbn [fst snd].
  - destruct l as [|x l _] using rev_ind.
    + cbn. exists (8 :: tl). split; [done|]. cbn in *. lia.
    + destruct l as [|y l']; cbn [app length] in *.
      * match goal with |- context [load ?b 0] => change (load b 0) with (Ret x) end. rewrite bind_lift.
        assert (x ≠ 8) by (inversion Hl as [|? ? []]; done). rewrite (proj2 (Z.eqb_neq x 8)) by done.
        exists (x :: 8 :: tl). split; [done|]. cbn in *. lia.
      * match goal with |- context [load ?b 0] => change (load b 0) with (Ret y) end. rewrite bind_lift.
        assert (y ≠ 8) by (inversion Hl as [|? ? []]; done). rewrite (proj2 (Z.eqb_neq y 8)) by done.
        rewrite length_app in *. cbn [length] in *. exists (x :: 8 :: tl).
        replace (S (length l' + 1) - 1)%nat with (length (y :: l')) by (cbn; lia).
        change (y :: l' ++ [x]) with ((y :: l') ++ [x]). rewrite take_app_length. split; [|rewrite length_app; cbn; lia].
        rewrite <-app_assoc. cbn [app negb length].
        replace (Z.of_nat (S (length l' + 1)) - 1) with (Z.of_nat (S (length l'))) by lia. done.
  - exists (0 :: tl). split; [|rewrite length_app; cbn; lia]. unfold clear. rewrite bind_modify.
    change (with_session _ (term k out st)) with (term k [] st).
    rewrite (M_bind_Ret _ _ _ _ _ (prompt_run cwd ctl (term k [] st) Hcwd Hclen)), printed_term.
    rewrite (M_bind_Ret _ _ _ _ _ (print_str_run l tl _ (line_ok_str _ Hl) ltac:(lia))), printed_term. done.
  - destruct (erase_line_run (length l) k out st l (20 :: tl)) as (tl' & Hr & Hl'); [done|done|].
    rewrite (M_bind_Ret _ _ _ _ _ Hr). exists tl'. cbn [length app]. split; [done|]. rewrite Hl', length_app. cbn. lia.
  - exists tl. unfold putchar, put_out. rewrite bind_modify, u8_id by (by apply char_ok_u8).
    rewrite <-app_assoc, length_app. cbn [app length]. replace (Z.of_nat (length l + 1)) with (Z.of_nat (length l) + 1) by lia.
    split; [done|]. rewrite length_app. cbn. lia.
Qed.

Lemma readline_run ks e rest st : Forall key_ok ks → is_enter e →
  ∀ fuel l tl out, line_ok l → length (l ++ tl) = n → (length ks < fuel)%nat →
  (∀ j, (j ≤ length ks)%nat → (length (foldl (key_step cwd) (l, out) (take j ks)).1 < n)%nat) →
  ∃ tl', readline_loop fuel (cwd ++ 0 :: ctl) (l ++ tl) (Z.of_nat (length l)) (Z.of_nat n) (term (ks ++ e :: rest) out st) =
      Ret ((foldl (key_step cwd) (l, out) ks).1 ++ 0 :: tl', term rest ((foldl (key_step cwd) (l, out) ks).2 ++ [10]) st) ∧
    length ((foldl (key_step cwd) (l, out) ks).1 ++ 0 :: tl') = n.
Proof.
  intros Hks He. induction Hks as [|c ks Hc Hks IH]; intros fuel l tl out Hl Hlen Hf Hj;
    (destruct fuel as [|fuel]; [cbn in Hf; lia|]); pose proof (Hj 0%nat ltac:(lia)) as H0; cbn [take foldl fst] in H0.
  - destruct tl as [|b tl]; [rewrite app_nil_r in Hlen; lia|]. cbn [app foldl]. rewrite readline_step by lia.
    assert ((e =? 10) || (e =? 13) = true) as -> by (by destruct He as [-> | ->]). exists tl. split; [done|].
    rewrite length_app in *. done.
  - destruct (readline_one fuel l tl c (ks ++ e :: rest) out st Hl Hc Hlen H0) as (tl' & Hr & Hlen').
    cbn [app]. rewrite Hr. cbn [foldl]. pose proof (key_step_ok cwd l out c Hl Hc) as Hl2.
    destruct (key_step cwd (l, out) c) as [l2 out2] eqn:Hk. cbn [fst snd] in *.
    apply IH; [done|done|cbn in Hf; lia|]. intros j Hj2. specialize (Hj (S j) ltac:(cbn; lia)). cbn [take foldl] in Hj.
    by rewrite Hk in Hj.
Qed.
End line.
End output.

(** ** The words of a line *)

Fixpoint words_go (cur s : list Z) : list (list Z) :=
  match s with
  | [] => match cur with [] => [] | _ => [cur] end
  | c :: s =>
    if c =? 32 then match cur with [] => words_go [] s | _ => cur :: words_go [] s end
    else words_go (cur ++ [c]) s
  end.
Definition line_words (s : list Z) : list (list Z) := words_go [] s.

Definition no_space (w : list Z) : Prop := Forall (λ c, c ≠ 32) w.

Lemma words_spaces sp r : Forall (eq 32) sp → line_words (sp ++ r) = line_words r.
Proof. induction 1 as [|c sp <- Hsp IH]; [done|]. exact IH. Qed.

Lemma words_go_word cur w r : no_space w → words_go cur (w ++ r) = words_go (cur ++ w) r.
Proof.
  intros Hw. revert cur. induction Hw as [|c w Hc Hw IH]; intros cur; cbn; [by rewrite app_nil_r|].
  rewrite (proj2 (Z.eqb_neq c 32)) by done. by rewrite IH, <-app_assoc.
Qed.

Lemma words_last w : w ≠ [] → no_space w → line_words w = [w].
Proof.
  intros Hne Hw. unfold line_words. rewrite <-(app_nil_r w) at 1. rewrite words_go_word by done. by destruct w.
Qed.
Lemma words_first w r : w ≠ [] → no_space w → line_words (w ++ 32 :: r) = w :: line_words r.
Proof. intros Hne Hw. unfold line_words. rewrite words_go_word by done. by destruct w. Qed.

(** The longest prefix of characters with [P]. *)
Lemma span_list (P : Z → Prop) `{!∀ c, Decision (P c)} s :
  ∃ a b, s = a ++ b ∧ Forall P a ∧ (b = [] ∨ ∃ c b', b = c :: b' ∧ ¬ P c).
Proof.
  induction s as [|c s (a & b & -> & Ha & Hb)]; [by exists [], []; split_and!; [| |left]|].
  destruct (decide (P c)) as [Hc|Hc].
  - exists (c :: a), b. by split_and!; [|constructor|].
  - exists [], (c :: a ++ b). split_and!; [done|done|right; eauto].
Qed.

Lemma load_middle (pre : list Z) c r : load (pre ++ c :: r) (Z.of_nat (length pre)) = Ret c.
Proof. apply load_Ret. rewrite Nat2Z.id. split; [lia|by apply list_lookup_middle]. Qed.

Lemma skip_spec n (P : Z → bool) pre w c r : Forall (λ x, P x = true) w → P c = false → (length w < n)%nat →
  skip n P (pre ++ w ++ c :: r) (Z.of_nat (length pre)) = Ret (Z.of_nat (length (pre ++ w))).
Proof.
  intros Hw Hc. revert pre n. induction Hw as [|x w Hx Hw IH]; intros pre n Hn; (destruct n as [|n]; [cbn in Hn; lia|]);
    cbn [skip app]; rewrite load_middle; cbn [mbind outcome_bind].
  - by rewrite Hc, app_nil_r.
  - rewrite Hx. specialize (IH (pre ++ [x]) n ltac:(cbn in Hn; lia)). rewrite <-!app_assoc in IH. cbn [app] in IH.
    rewrite length_app in IH. cbn [length] in IH. replace (Z.of_nat (length pre) + 1) with (Z.of_nat (length pre + 1)) by lia. exact IH.
Qed.

(** One word: its argument is stored, if there is room, and it is terminated. *)
Lemma parse_word fuel pre sp w r tl argv argc : Forall (eq 32) sp → w ≠ [] → no_space w → str_ok w → 0 ≤ argc ≤ 16 →
  (r = [] ∨ ∃ r', r = 32 :: r') →
  parse_loop (S fuel) 32 (pre ++ (sp ++ w ++ r) ++ 0 :: tl) argv (Z.of_nat (length pre)) argc =
    (argv ← store argv argc (Some (Z.of_nat (length (pre ++ sp))));
     match r with
     | [] => parse_loop fuel 32 (pre ++ (sp ++ w) ++ 0 :: tl) argv (Z.of_nat (length (pre ++ sp ++ w))) (argc + 1)
     | _ :: r' => parse_loop fuel 32 ((pre ++ sp ++ w ++ [0]) ++ r' ++ 0 :: tl) argv
         (Z.of_nat (length (pre ++ sp ++ w ++ [0]))) (argc + 1)
     end).
Proof.
  intros Hsp Hne Hns Hok Hargc Hr. destruct w as [|c w]; [done|]. clear Hne.
  assert (c ≠ 0 ∧ c ≠ 32) as [Hc0 Hc] by (split; [inversion Hok as [|? ? []]; lia|by inversion Hns]).
  cbn [parse_loop].
  assert (∃ x l, (sp ++ (c :: w) ++ r) ++ 0 :: tl = x :: l ∧ x ≠ 0) as (x & l & Hx & Hx0).
  { destruct Hsp as [|? ? <-]; cbn; eexists _, _; (split; [done|lia]). }
  rewrite Hx, load_middle. cbn [mbind outcome_bind]. rewrite (proj2 (Z.eqb_neq x 0)) by done. rewrite <-Hx. clear x l Hx Hx0.
  set (big := pre ++ (sp ++ (c :: w) ++ r) ++ 0 :: tl).
  assert (Hb1 : big = pre ++ sp ++ c :: (w ++ r ++ 0 :: tl)) by (subst big; rewrite <-!app_assoc; done).
  assert (Hlb : (length big = length pre + length sp + S (length w) + length r + S (length tl))%nat)
    by (rewrite Hb1, !length_app; cbn; rewrite !length_app; cbn; lia).
  assert (Hsps : Forall (λ x, (x =? 32) = true) sp) by (eapply Forall_impl; [exact Hsp|]; by intros ? <-).
  rewrite Hb1 at 2. rewrite skip_spec; [|exact Hsps|by apply Z.eqb_neq|lia].
  cbn [mbind outcome_bind]. rewrite Hb1 at 1. rewrite app_assoc, load_middle. cbn [mbind outcome_bind].
  rewrite (proj2 (Z.eqb_neq c 0)) by lia.
  destruct (store argv argc _) as [argv'| | |]; try done. cbn [mbind outcome_bind].
  assert (Hsk : ∀ y z, (y = 0 ∨ y = 32) → big = (pre ++ sp) ++ (c :: w) ++ y :: z →
    skip (S (length big)) (λ c, negb (c =? 0) && negb (c =? 32)) big (Z.of_nat (length (pre ++ sp))) = Ret (Z.of_nat (length ((pre ++ sp) ++ c :: w)))).
  { intros y z Hy Hb. rewrite Hb at 2. apply skip_spec.
    - apply Forall_forall. intros v Hv. pose proof (proj1 (Forall_forall _ _) Hok v Hv) as Hv1. pose proof (proj1 (Forall_forall _ _) Hns v Hv) as Hv2.
      cbn in Hv1, Hv2. unfold char_ok in Hv1. rewrite (proj2 (Z.eqb_neq v 0)), (proj2 (Z.eqb_neq v 32)) by lia. done.
    - by destruct Hy as [-> | ->].
    - cbn. lia. }
  destruct Hr as [-> | [r' ->]].
  - rewrite (Hsk 0 tl); [|by left|subst big; rewrite app_nil_r, <-!app_assoc; done]. cbn [mbind outcome_bind].
    assert (big = ((pre ++ sp) ++ c :: w) ++ 0 :: tl) as -> by (subst big; rewrite app_nil_r, <-!app_assoc; done).
    rewrite load_middle. cbn [mbind outcome_bind]. change (negb (0 =? 0)) with false. cbv iota. cbn [mbind outcome_bind].
    unfold MAX_ARG_NR. destruct (Z.ltb_spec 16 argc); [lia|]. by rewrite <-!app_assoc.
  - rewrite (Hsk 32 (r' ++ 0 :: tl)); [|by right|subst big; rewrite <-!app_assoc; done]. cbn [mbind outcome_bind].
    assert (big = ((pre ++ sp) ++ c :: w) ++ 32 :: r' ++ 0 :: tl) as -> by (subst big; rewrite <-!app_assoc; done).
    rewrite load_middle. cbn [mbind outcome_bind]. change (negb (32 =? 0)) with true. cbv iota.
    rewrite store_in by (rewrite (length_app _ (32 :: _)); cbn [length]; lia). cbn [mbind outcome_bind].
    rewrite Nat2Z.id, insert_app_r_alt, Nat.sub_diag by lia. cbn [list_insert insert].
    unfold MAX_ARG_NR. destruct (Z.ltb_spec 16 argc); [lia|].
    rewrite <-!app_assoc. cbn [app]. rewrite !length_app. cbn [length]. rewrite length_app. cbn [length]. do 2 f_equal. lia.
Qed.

(** A line is empty of words, or starts with one. *)
Lemma line_cases s : (line_words s = [] ∧ Forall (eq 32) s) ∨
  ∃ sp w r, s = sp ++ w ++ r ∧ Forall (eq 32) sp ∧ w ≠ [] ∧ no_space w ∧ (r = [] ∨ ∃ r', r = 32 :: r').
Proof.
  destruct (span_list (eq 32) s) as (sp & b & -> & Hsp & Hb). destruct Hb as [->|(c & b' & -> & Hc)].
  - left. rewrite app_nil_r. split; [|done]. rewrite <-(app_nil_r sp), words_spaces; done.
  - right. destruct (span_list (λ c, c ≠ 32) (c :: b')) as (w & r & Hw & Hns & Hr). exists sp, w, r. rewrite Hw.
    split_and!; [done|done| |done|].
    + intros ->. cbn in Hw. subst r. destruct Hr as [|(c' & ? & [= <- <-] & Hn)]; [done|]. apply Hn. congruence.
    + destruct Hr as [|(c' & r' & -> & Hn)]; [by left|right]. exists r'. f_equal. destruct (decide (c' = 32)); [done|tauto].
Qed.

Lemma parse_empty fuel pre r tl argv argc : Forall (eq 32) r →
  parse_loop (S fuel) 32 (pre ++ r ++ 0 :: tl) argv (Z.of_nat (length pre)) argc = Ret (pre ++ r ++ 0 :: tl, argv, argc).
Proof.
  intros Hr. cbn [parse_loop]. destruct r as [|c r]; [cbn [app]; by rewrite load_middle|].
  assert (32 = c) as <- by by inversion Hr. cbn [app]. rewrite load_middle. cbn [mbind outcome_bind]. change (32 =? 0) with false. cbv iota.
  assert (Hsps : Forall (λ x, (x =? 32) = true) (32 :: r)) by (eapply Forall_impl; [exact Hr|]; by intros ? <-).
  assert (Hsk : ∀ n, (S (length r) < n)%nat → skip n (λ c, c =? 32) (pre ++ 32 :: r ++ 0 :: tl) (Z.of_nat (length pre)) = Ret (Z.of_nat (length (pre ++ 32 :: r)))).
  { intros n Hn. apply (skip_spec n _ pre (32 :: r) 0 tl); done. }
  rewrite Hsk by (rewrite length_app; cbn; rewrite length_app; cbn; lia). cbn [mbind outcome_bind].
  assert (load (pre ++ 32 :: r ++ 0 :: tl) (Z.of_nat (length (pre ++ 32 :: r))) = Ret 0) as ->; [|done].
  change (pre ++ 32 :: r ++ 0 :: tl) with (pre ++ (32 :: r) ++ 0 :: tl). rewrite app_assoc. apply load_middle.
Qed.

Definition args_at (mem : list Z) (offs : list Z) (ws : list (list Z)) : Prop :=
  Forall2 (λ o w, 0 ≤ o ∧ ∃ rest, drop (Z.to_nat o) mem = w ++ 0 :: rest) offs ws.

Lemma argv_cons (argv : list (option Z)) k o offs m : (k < length argv)%nat →
  take (S k) (<[k := Some o]> argv) ++ map Some offs ++ drop (S k + m) (<[k := Some o]> argv) =
  take k argv ++ map Some (o :: offs) ++ drop (k + S m) argv.
Proof.
  intros Hk. rewrite (take_S_r _ _ (Some o)) by (by apply list_lookup_insert_eq). rewrite take_insert_ge by lia.
  rewrite drop_insert_lt by lia. rewrite <-app_assoc. cbn [map app]. do 4 f_equal. lia.
Qed.

Lemma parse_run m r : (length r ≤ m)%nat → ∀ fuel pre tl argv argc, str_ok r → (length r < fuel)%nat → length argv = 16%nat →
  (argc + length (line_words r) ≤ 16)%nat →
  ∃ r' offs, parse_loop fuel 32 (pre ++ r ++ 0 :: tl) argv (Z.of_nat (length pre)) (Z.of_nat argc) =
      Ret (pre ++ r' ++ 0 :: tl, take argc argv ++ map Some offs ++ drop (argc + length (line_words r)) argv,
        Z.of_nat (argc + length (line_words r))) ∧
    length r' = length r ∧ args_at (pre ++ r' ++ 0 :: tl) offs (line_words r).
Proof.
  revert r. induction m as [m IH] using lt_wf_ind. intros r Hm fuel pre tl argv argc Hok Hf Hargv Hargc.
  destruct fuel as [|fuel]; [lia|]. destruct (line_cases r) as [[Hw Hsp]|(sp & w & r1 & -> & Hsp & Hne & Hns & Hr1)].
  - rewrite Hw. exists r, []. rewrite parse_empty by done. cbn [length map app]. rewrite Nat.add_0_r, take_drop.
    split_and!; [done|done|constructor].
  - assert (Hwok : str_ok w) by (do 2 apply Forall_app in Hok as [? Hok]; done || (apply Forall_app in Hok as [_ Hok]; by apply Forall_app in Hok as [? _])).
    assert (Hlw : (1 ≤ length w)%nat) by (destruct w; [done|cbn; lia]).
    rewrite words_spaces in * by done. rewrite !length_app in *.
    assert (Hws : ∃ ws, line_words (w ++ r1) = w :: ws) by (destruct Hr1 as [-> | [r' ->]];
      [rewrite app_nil_r, words_last by done; by eexists|rewrite words_first by done; by eexists]).
    destruct Hws as [ws Hws]. rewrite Hws in *. cbn [length] in *.
    rewrite parse_word by (done || lia). rewrite store_in by lia. cbn [mbind outcome_bind]. rewrite Nat2Z.id.
    set (argv1 := <[argc := Some (Z.of_nat (length (pre ++ sp)))]> argv).
    assert (Hargv1 : length argv1 = 16%nat) by (unfold argv1; by rewrite length_insert).
    destruct Hr1 as [-> | [r' ->]].
    + rewrite app_nil_r, words_last in Hws by done. injection Hws as <-. destruct fuel as [|fuel]; [cbn in Hf; lia|].
      exists (sp ++ w), [Z.of_nat (length (pre ++ sp))].
      pose proof (parse_empty fuel (pre ++ sp ++ w) [] tl argv1 (Z.of_nat argc + 1) ltac:(constructor)) as He.
      cbn [app] in He. rewrite <-!app_assoc in He. rewrite <-!app_assoc, He. split_and!.
      * pose proof (argv_cons argv argc (Z.of_nat (length (pre ++ sp))) [] 0 ltac:(lia)) as Ha.
        cbn [map app length] in *. rewrite Nat.add_0_r, take_drop in Ha. fold argv1 in Ha. rewrite <-Ha. do 2 f_equal. lia.
      * rewrite length_app. cbn. lia.
      * constructor; [|constructor]. split; [lia|]. exists tl. rewrite Nat2Z.id, app_assoc. by rewrite drop_app_length.
    + rewrite words_first in Hws by done. injection Hws as <-.
      assert (Hok' : str_ok r'). { apply Forall_app in Hok as [_ Hok]. apply Forall_app in Hok as [_ Hok]. by inversion Hok. }
      destruct (IH (length r') ltac:(cbn in Hm; lia) r' ltac:(lia) fuel (pre ++ sp ++ w ++ [0]) tl argv1 (S argc) Hok'
        ltac:(cbn in Hf; lia) Hargv1 ltac:(lia)) as (r2 & offs & Hr & Hl & Ha).
      exists (sp ++ w ++ 0 :: r2), (Z.of_nat (length (pre ++ sp)) :: offs).
      replace (Z.of_nat argc + 1) with (Z.of_nat (S argc)) by lia. rewrite Hr. clear Hr.
      assert (Heq : (pre ++ sp ++ w ++ [0]) ++ r2 ++ 0 :: tl = pre ++ (sp ++ w ++ 0 :: r2) ++ 0 :: tl)
        by (rewrite <-!app_assoc; done). rewrite Heq in *. split_and!.
      * unfold argv1. rewrite argv_cons by lia. do 2 f_equal. lia.
      * rewrite !length_app. cbn. lia.
      * constructor; [|exact Ha]. split; [lia|]. exists (r2 ++ 0 :: tl). rewrite Nat2Z.id, app_assoc || idtac.
        rewrite <-!app_assoc, (app_assoc pre sp). by rewrite drop_app_length.
Qed.

Lemma parse_overflow m r : (length r ≤ m)%nat → ∀ fuel pre tl argv argc, str_ok r → (length r < fuel)%nat → length argv = 16%nat →
  (argc ≤ 16 < argc + length (line_words r))%nat →
  parse_loop fuel 32 (pre ++ r ++ 0 :: tl) argv (Z.of_nat (length pre)) (Z.of_nat argc) = Fault.
Proof.
  revert r. induction m as [m IH] using lt_wf_ind. intros r Hm fuel pre tl argv argc Hok Hf Hargv Hargc.
  destruct fuel as [|fuel]; [lia|]. destruct (line_cases r) as [[Hw Hsp]|(sp & w & r1 & -> & Hsp & Hne & Hns & Hr1)].
  { rewrite Hw in Hargc. cbn in Hargc. lia. }
  assert (Hwok : str_ok w) by (apply Forall_app in Hok as [_ Hok]; by apply Forall_app in Hok as [? _]).
  rewrite parse_word by (done || lia). destruct (decide (argc = 16%nat)) as [->|Hn].
  { unfold store. by rewrite Hargv. }
  rewrite store_in by lia. cbn [mbind outcome_bind]. rewrite words_spaces in Hargc by done.
  destruct Hr1 as [-> | [r' ->]].
  - rewrite app_nil_r, words_last in Hargc by done. cbn in Hargc. lia.
  - rewrite words_first in Hargc by done. cbn [length] in Hargc. rewrite !length_app in *. cbn [length] in *.
    replace (Z.of_nat argc + 1) with (Z.of_nat (S argc)) by lia. rewrite Nat2Z.id.
    assert (1 ≤ length w)%nat by (destruct w; [done|cbn; lia]).
    pose proof (IH (length r') ltac:(lia) r' ltac:(lia) fuel (pre ++ sp ++ w ++ [0]) tl
      (<[argc := Some (Z.of_nat (length pre + length sp))]> argv) (S argc)) as H0.
    rewrite !length_app in H0. cbn [length] in H0. apply H0; [|lia|by rewrite length_insert|lia].
    apply Forall_app in Hok as [_ Hok]. apply Forall_app in Hok as [_ Hok]. by inversion Hok.
Qed.

(** ** Commands *)

Section turn.
Context {D : Type} {BD : BlockDev D}.
Implicit Types s : shell D.

Definition with_kern (k : fs D) s : shell D := Sh k (cmd_line s) (final_path s) (cwd_cache s).

Lemma sys_run {A B} (m : M (fs D) A) (f : A → M (shell D) B) s a k :
  m (kern s) = Ret (a, k) → (sys m ≫= f) s = f a (with_kern k s).
Proof. intros H. unfold sys. exact (bind_zoom sh_lens m f s a k H). Qed.

Lemma say_run ps s : Forall piece_ok ps → (length (out_of ps) < 1024)%nat →
  say (fmt_of ps ++ [0]) (args_of ps) s = Ret ((), with_kern (printed (out_of ps) (kern s)) s).
Proof. intros Hps Hl. unfold say. by rewrite (sys_run _ _ _ _ _ (printf_run ps (kern s) Hps Hl)). Qed.

Lemma memset_all l : length l = 512%nat → memset l 0 MAX_PATH_LEN = Ret (replicate 512 0).
Proof.
  intros Hl. unfold memset, MAX_PATH_LEN. change (Z.to_nat 512) with 512%nat. change (u8 0) with 0.
  by rewrite memset_loop_spec, drop_ge, app_nil_r by lia.
Qed.

Lemma typed_word cwd w l out : Forall (λ c, 20 < c < 256) w → foldl (key_step cwd) (l, out) w = (l ++ w, out ++ w).
Proof.
  intros Hw. revert l out. induction Hw as [|c w Hc Hw IH]; intros l out; cbn [foldl]; [by rewrite !app_nil_r|].
  unfold key_step at 2. rewrite (proj2 (Z.eqb_neq c 8)), (proj2 (Z.eqb_neq c 11)), (proj2 (Z.eqb_neq c 20)) by lia.
  by rewrite IH, <-!app_assoc.
Qed.

(** Reading a word, and parsing it. *)
Lemma readline_word (st : fs D) cwd ctl w e rest : str_ok cwd → (length cwd < 1000)%nat → (length w < 512)%nat →
  Forall (λ c, 20 < c < 256) w → is_enter e → tty_in (fs_session st) = w ++ e :: rest →
  ∃ tl, readline (cwd ++ 0 :: ctl) (replicate 512 0) MAX_PATH_LEN st =
    Ret (w ++ 0 :: tl, term rest (tty_out (fs_session st) ++ w ++ [10]) st) ∧ length (w ++ 0 :: tl) = 512%nat.
Proof.
  intros Hc Hcl Hwl Hwc He Hin. set (out := tty_out (fs_session st)). unfold readline. rewrite bind_gets, Hin.
  pose proof (term_self st) as Hself. rewrite Hin in Hself. fold out in Hself.
  destruct (readline_run cwd ctl Hc Hcl 512 ltac:(lia) w e rest st) with (fuel := S (length (w ++ e :: rest))) (l := @nil Z)
    (tl := replicate 512 0) (out := out) as (tl & Hr & Hl); [|done|constructor|done| | |].
  - eapply Forall_impl; [exact Hwc|]. intros c Hcc. cbn in Hcc. split; [unfold char_ok; lia|intros [-> | ->]; lia].
  - rewrite length_app. cbn. lia.
  - intros j Hj. rewrite typed_word by (by apply Forall_take). cbn [fst app]. rewrite length_take. lia.
  - rewrite typed_word in Hr, Hl by done. cbn [fst snd app] in Hr, Hl. exists tl. rewrite <-app_assoc, Hself in Hr.
    split; [exact Hr|exact Hl].
Qed.

Lemma parse_one w tl : w ≠ [] → no_space w → str_ok w → ∃ line' o tl', 0 ≤ o ∧ drop (Z.to_nat o) line' = w ++ 0 :: tl' ∧
  length line' = length (w ++ 0 :: tl) ∧ cmd_parse (w ++ 0 :: tl) 32 = Ret (line', Some o :: replicate 15 None, 1).
Proof.
  intros Hw Hns Hok. destruct (parse_run (length w) w ltac:(lia) (S (length (w ++ 0 :: tl))) [] tl (replicate 16 None) 0 Hok)
    as (r' & offs & Hp & Hl & Ha).
  { rewrite length_app. cbn. lia. } { done. } { rewrite words_last by done. cbn. lia. }
  change (Z.of_nat (length (@nil Z))) with 0 in Hp. change (Z.of_nat 0) with 0 in Hp.
  rewrite words_last in Ha, Hp by done. cbn [app length Nat.add take] in Hp, Ha.
  inversion Ha as [|o ? ? ? (Ho & tl' & Hd) Hnil]; subst. inversion Hnil; subst.
  exists (r' ++ 0 :: tl), o, tl'. split; [done|]. split; [done|]. rewrite !length_app, Hl. split; [done|exact Hp].
Qed.

(** The line "word" that the user types at the prompt is parsed into the command
    "word" without arguments. *)
Lemma turn_word stk tasks s cwd ctl w e rest : cwd_cache s = cwd ++ 0 :: ctl → str_ok cwd → (length cwd < 1000)%nat →
  length (final_path s) = 512%nat → length (cmd_line s) = 512%nat →
  w ≠ [] → (length w < 512)%nat → no_space w → Forall (λ c, 20 < c < 256) w → is_enter e →
  tty_in (fs_session (kern s)) = w ++ e :: rest →
  ∃ line' o tl, 0 ≤ o ∧ drop (Z.to_nat o) line' = w ++ 0 :: tl ∧ length line' = 512%nat ∧
    shell_turn stk tasks s = run_command stk tasks 1 (Some o :: replicate 15 None)
      (Sh (term rest (tty_out (fs_session (kern s)) ++ prompt cwd ++ w ++ [10]) (kern s)) line' (replicate 512 0) (cwd_cache s)).
Proof.
  intros Hcwd Hc Hcl Hfp Hline Hw Hwl Hns Hwc He Hin. unfold shell_turn. rewrite bind_gets, Hcwd.
  rewrite (sys_run _ _ _ _ _ (prompt_run cwd ctl (kern s) Hc Hcl)). rewrite bind_gets. cbn [final_path with_kern].
  rewrite memset_all by done. rewrite bind_lift. unfold set_final. rewrite bind_modify, bind_gets.
  cbn [kern cmd_line cwd_cache with_kern]. rewrite memset_all by done. rewrite bind_lift.
  set (st1 := printed (prompt cwd) (kern s)). set (out1 := tty_out (fs_session st1)).
  assert (Hst1 : st1 = term (w ++ e :: rest) out1 st1) by (rewrite <-(term_self st1) at 1; subst st1 out1; cbn; by rewrite Hin).
  destruct (readline_word st1 cwd ctl w e rest Hc Hcl Hwl Hwc He) as (tl & Hread & Hlen); [by rewrite Hst1|].
  fold out1 in Hread.
  rewrite (sys_run _ _ (Sh st1 _ _ _) _ _ Hread). unfold set_line. rewrite bind_modify. cbn [kern cmd_line final_path cwd_cache with_kern].
  destruct w as [|c w]; [done|]. cbn [app].
  assert (load (c :: w ++ 0 :: tl) 0 = Ret c) as -> by done. rewrite bind_lift.
  assert (c ≠ 0) by (apply Forall_cons in Hwc as [? _]; lia). rewrite (proj2 (Z.eqb_neq c 0)) by done.
  assert (Hok : str_ok (c :: w)) by (eapply Forall_impl; [exact Hwc|]; intros x Hx; cbn in Hx; unfold char_ok; lia).
  destruct (parse_one (c :: w) tl ltac:(done) Hns Hok) as (line' & o & tl' & Ho & Hd & Hl & Hp).
  change (c :: w ++ 0 :: tl) with ((c :: w) ++ 0 :: tl). rewrite Hp, bind_lift. cbv beta iota. rewrite bind_modify.
  cbn [kern cmd_line final_path cwd_cache]. exists line', o, tl'. split_and!; [done|done|congruence|].
  change (1 =? -1) with false. cbv iota. rewrite Hcwd.
  assert (term rest (out1 ++ (c :: w) ++ [10]) st1 = term rest (tty_out (fs_session (kern s)) ++ prompt cwd ++ c :: w ++ [10]) (kern s)) as <-.
  { unfold out1, st1. cbn [fs_session printed with_session tty_out]. by rewrite <-app_assoc. }
  done.
Qed.

(** What a command without arguments leaves on the screen; [ls] and [cd] are
    left out. *)
Definition command_screen (tasks : list task_struct) (w out : list Z) : list Z :=
  if decide (w = chars "pwd") then out ++ [47; 10]
  else if decide (w = chars "ps") then out ++ c_str (line "PID            PPID           STAT           TICKS          COMMAND") ++
    concat (map task_line tasks)
  else if decide (w = chars "clear") then []
  else if decide (w = chars "mkdir") then out ++ chars "mkdir: only support 1 argument!" ++ [10]
  else if decide (w = chars "rmdir") then out ++ chars "rmdir: only support 1 argument!" ++ [10]
  else if decide (w = chars "rm") then out ++ chars "rm: only support 1 argument!" ++ [10]
  else if decide (w = chars "about") then out ++ concat about
  else out ++ chars "external command" ++ [10].

Lemma is_cmd_run {A} cmd w tl s (f g : M (shell D) A) : str_ok (chars cmd) → str_ok w →
  (b ← (r ← lift (strcmp (text cmd) (w ++ 0 :: tl)); mret (r =? 0)); if b : bool then f else g) s =
    if decide (w = chars cmd) then f s else g s.
Proof.
  intros Hc Hw. unfold text. rewrite bind_assoc, strcmp_spec by done. rewrite bind_lift, bind_ret.
  pose proof (lex_cmp_eq (chars cmd) w Hc Hw) as He. case_decide as Hd; subst.
  - by rewrite (proj2 (Z.eqb_eq _ 0) (proj2 He eq_refl)).
  - rewrite (proj2 (Z.eqb_neq _ 0)); [done|]. intros H0. by apply Hd, eq_sym, He.
Qed.

Lemma lit_ok_check l : forallb (λ c, (0 <? c) && (c <? 256) && negb (c =? 37)) l = true → Forall (λ c, char_ok c ∧ c ≠ 37) l.
Proof.
  intros Hl. apply Forall_forall. intros c Hc. rewrite forallb_forall in Hl. specialize (Hl c).
  rewrite <-list_elem_of_In in Hl. specialize (Hl Hc). unfold char_ok. lia.
Qed.

(** Text without directives. *)
Lemma say_text l s : Forall (λ c, char_ok c ∧ c ≠ 37) l → (length l < 1024)%nat →
  say (l ++ [0]) [] s = Ret ((), with_kern (printed l (kern s)) s).
Proof.
  intros Hl Hlen. destruct (lit_pieces l) as (Hf & Ha & Ho). pose proof (say_run (map Lit l) s) as Hr.
  rewrite Hf, Ha, Ho in Hr. apply Hr; [|done]. by apply Forall_map.
Qed.

Lemma say_all_run ls s : Forall (λ l, Forall (λ c, char_ok c ∧ c ≠ 37) l ∧ (length l < 1024)%nat) ls →
  say_all ls s = Ret ((), with_kern (printed (concat ls) (kern s)) s).
Proof.
  intros Hls. revert s. induction Hls as [|l ls [Hl Hlen] Hls IH]; intros s; cbn [say_all concat].
  - rewrite printed_nil. by destruct s.
  - rewrite (M_bind_Ret _ _ _ _ _ (say_text l s Hl Hlen)), IH. cbn [kern with_kern]. by rewrite printed_app.
Qed.

Lemma pwd_run s : fs_mem (kern s) = [] → Inode.cwd_inode_nr (fs_session (kern s)) = 0 → length (final_path s) = 512%nat →
  ∃ fp, length fp = 512%nat ∧ buildin_pwd 1 s = Ret ((), Sh (printed [47; 10] (kern s)) (cmd_line s) fp (cwd_cache s)).
Proof.
  intros Hm Hcwd Hl. unfold buildin_pwd. change (negb (1 =? 1)) with false. cbv iota. rewrite bind_gets.
  destruct (final_path s) as [|a [|b fp]]; [done|done|]. exists (47 :: 0 :: fp). split; [done|].
  assert (Hg : sys_getcwd (a :: b :: fp) MAX_PATH_LEN (kern s) = Ret (Some (47 :: 0 :: fp), kern s)).
  { unfold sys_getcwd, kmalloc. unfold mem_ok. rewrite ?bind_assoc, bind_gets, Hm.
    rewrite ?bind_ret. cbv iota. rewrite ?bind_ret, bind_gets, Hcwd.
    change ((0 <=? 0) && (0 <? 4096)) with true. rewrite bind_ASSERT_true. change (0 =? 0) with true. cbv iota.
    rewrite store_in by (cbn; lia). rewrite bind_lift. rewrite store_in by (rewrite length_insert; cbn; lia). by rewrite bind_lift. }
  rewrite (sys_run _ _ _ _ _ Hg). unfold set_final. rewrite bind_modify.
  change (47 :: 0 :: fp) with ([47] ++ 0 :: fp). change (line "%s") with (fmt_of [Str [47] fp; Lit 10] ++ [0]).
  change [VPtr ([47] ++ 0 :: fp)] with (args_of [Str [47] fp; Lit 10]).
  rewrite say_run; [done| |cbn; lia]. repeat constructor; unfold char_ok; try lia; done.
Qed.

Ltac next_cmd := rewrite is_cmd_run; [|by apply str_ok_check|done]; case_decide.
Ltac say_cmd Hsay l := apply (Hsay l); [by apply lit_ok_check|vm_compute; lia].

Lemma run_word stk tasks s o w tl : drop (Z.to_nat o) (cmd_line s) = w ++ 0 :: tl → str_ok w → w ≠ chars "ls" → w ≠ chars "cd" →
  fs_mem (kern s) = [] → Inode.cwd_inode_nr (fs_session (kern s)) = 0 → length (final_path s) = 512%nat → Forall task_shown tasks →
  ∃ fp, length fp = 512%nat ∧ run_command stk tasks 1 (Some o :: replicate 15 None) s =
    Ret ((), Sh (term (tty_in (fs_session (kern s))) (command_screen tasks w (tty_out (fs_session (kern s)))) (kern s))
      (cmd_line s) fp (cwd_cache s)).
Proof.
  intros Hd Hw Hls Hcd Hm Hcwd Hl Htasks. unfold run_command, arg. change (load (Some o :: replicate 15 None) 0) with (Ret (Some o)).
  rewrite bind_assoc, bind_lift. cbv iota. rewrite bind_assoc, bind_gets, bind_ret, Hd. clear Hd.
  assert (Hsay : ∀ l : list Z, Forall (λ c, char_ok c ∧ c ≠ 37) l → (length l < 1024)%nat →
    ∃ fp, length fp = 512%nat ∧ say (l ++ [0]) [] s = Ret ((), Sh (term (tty_in (fs_session (kern s))) (tty_out (fs_session (kern s)) ++ l) (kern s))
      (cmd_line s) fp (cwd_cache s))).
  { intros l H1 H2. exists (final_path s). split; [done|]. by rewrite say_text. }
  unfold command_screen. do 2 (rewrite is_cmd_run; [|by apply str_ok_check|done]; rewrite decide_False by done).
  next_cmd; [destruct (pwd_run s Hm Hcwd Hl) as (fp & Hfp & Hr); by exists fp|].
  next_cmd.
  { exists (final_path s). split; [done|]. unfold buildin_ps. change (negb (1 =? 1)) with false. cbv iota.
    unfold sys. by rewrite (zoom_Ret sh_lens (sys_ps tasks) s () _ (sys_ps_run (kern s) tasks Htasks)). }
  next_cmd; [by exists (final_path s)|].
  next_cmd; [say_cmd Hsay (chars "mkdir: only support 1 argument!" ++ [10])|].
  next_cmd; [say_cmd Hsay (chars "rmdir: only support 1 argument!" ++ [10])|].
  next_cmd; [say_cmd Hsay (chars "rm: only support 1 argument!" ++ [10])|].
  next_cmd; [exists (final_path s); split; [done|]; rewrite say_all_run; [done|repeat (constructor; [split; [by apply lit_ok_check|vm_compute; lia]|]); constructor]|say_cmd Hsay (chars "external command" ++ [10])].
Qed.
(** The user types nothing but enter. *)
Lemma turn_empty stk tasks s cwd ctl e rest : cwd_cache s = cwd ++ 0 :: ctl → str_ok cwd → (length cwd < 1000)%nat →
  length (final_path s) = 512%nat → length (cmd_line s) = 512%nat → is_enter e → tty_in (fs_session (kern s)) = e :: rest →
  ∃ line', length line' = 512%nat ∧ shell_turn stk tasks s =
    Ret ((), Sh (term rest (tty_out (fs_session (kern s)) ++ prompt cwd ++ [10]) (kern s)) line' (replicate 512 0) (cwd_cache s)).
Proof.
  intros Hcwd Hc Hcl Hfp Hline He Hin. unfold shell_turn. rewrite bind_gets, Hcwd.
  rewrite (sys_run _ _ _ _ _ (prompt_run cwd ctl (kern s) Hc Hcl)). rewrite bind_gets. cbn [final_path with_kern].
  rewrite memset_all by done. rewrite bind_lift. unfold set_final. rewrite bind_modify, bind_gets.
  cbn [kern cmd_line cwd_cache with_kern]. rewrite memset_all by done. rewrite bind_lift.
  set (st1 := printed (prompt cwd) (kern s)).
  destruct (readline_word st1 cwd ctl [] e rest Hc Hcl) as (tl & Hread & Hlen); [cbn; lia|constructor|done|exact Hin|].
  rewrite (sys_run _ _ (Sh st1 _ _ _) _ _ Hread). unfold set_line. rewrite bind_modify. cbn [kern cmd_line final_path cwd_cache with_kern app].
  assert (load (0 :: tl) 0 = Ret 0) as -> by done. rewrite bind_lift. change (0 =? 0) with true. cbv iota.
  exists (0 :: tl). split; [exact Hlen|]. rewrite ret_eq, Hcwd. unfold st1. cbn [fs_session printed with_session tty_out].
  by rewrite <-app_assoc.
Qed.

(** A line of the session: one word or none, not [ls] and not [cd]. *)
Definition typed_line (x : list Z * Z) : Prop :=
  let '(w, e) := x in (length w < 512)%nat ∧ no_space w ∧ Forall (λ c, 20 < c < 256) w ∧
    w ≠ chars "ls" ∧ w ≠ chars "cd" ∧ is_enter e.
Definition line_screen (tasks : list task_struct) (out : list Z) (x : list Z * Z) : list Z :=
  let out := out ++ prompt [47] ++ x.1 ++ [10] in
  if decide (x.1 = []) then out else command_screen tasks x.1 out.
Definition line_keys (ls : list (list Z * Z)) : list Z := concat (map (λ x, x.1 ++ [x.2]) ls).

Record shell_ready (s : shell D) (ctl keys : list Z) : Prop := {
  sr_cwd : cwd_cache s = 47 :: 0 :: ctl;
  sr_final : length (final_path s) = 512%nat;
  sr_line : length (cmd_line s) = 512%nat;
  sr_mem : fs_mem (kern s) = [];
  sr_root : Inode.cwd_inode_nr (fs_session (kern s)) = 0;
  sr_keys : tty_in (fs_session (kern s)) = keys
}.

Lemma turn_run stk tasks s ctl x rest : shell_ready s ctl (x.1 ++ x.2 :: rest) → typed_line x → Forall task_shown tasks →
  ∃ s', shell_turn stk tasks s = Ret ((), s') ∧ shell_ready s' ctl rest ∧
    kern s' = term rest (line_screen tasks (tty_out (fs_session (kern s))) x) (kern s).
Proof.
  destruct x as [w e]. intros [Hcwd Hfp Hline Hm Hroot Hin] (Hwl & Hns & Hwc & Hls & Hcd & He) Htasks. cbn [fst snd] in *.
  assert (Hc : str_ok [47]) by by apply str_ok_check. assert (Hcl : (length [47%Z] < 1000)%nat) by (cbn; lia).
  change (47 :: 0 :: ctl) with ([47] ++ 0 :: ctl) in Hcwd. unfold line_screen. cbn [fst]. case_decide as Hw.
  - subst w. destruct (turn_empty stk tasks s [47] ctl e rest) as (line' & Hl & Hr); [done..|].
    eexists. split; [exact Hr|]. split; [by split|done].
  - destruct (turn_word stk tasks s [47] ctl w e rest) as (line' & o & tl & _ & Hd & Hl & Hr); [done..|]. rewrite Hr.
    assert (Hok : str_ok w) by (eapply Forall_impl; [exact Hwc|]; intros x Hx; cbn in Hx; unfold char_ok; lia).
    destruct (run_word stk tasks (Sh (term rest (tty_out (fs_session (kern s)) ++ prompt [47] ++ w ++ [10]) (kern s)) line'
      (replicate 512 0) (cwd_cache s)) o w tl Hd Hok Hls Hcd Hm Hroot eq_refl Htasks) as (fp & Hfp' & Hrun).
    eexists. split; [exact Hrun|]. split; [by split|done].
Qed.

Lemma shell_loop_run stk tasks ls : Forall typed_line ls → Forall task_shown tasks → ∀ s ctl rest,
  shell_ready s ctl (line_keys ls ++ rest) →
  ∃ s', shell_loop (length ls) stk tasks s = Ret ((), s') ∧ shell_ready s' ctl rest ∧
    kern s' = term rest (foldl (line_screen tasks) (tty_out (fs_session (kern s))) ls) (kern s).
Proof.
  intros Hls Htasks. induction Hls as [|x ls Hx Hls IH]; intros s ctl rest Hs; cbn [length shell_loop foldl].
  { exists s. split; [done|]. split; [exact Hs|]. destruct Hs. cbn in sr_keys0. rewrite <-sr_keys0, term_self. done. }
  assert (Hk : line_keys (x :: ls) ++ rest = x.1 ++ x.2 :: (line_keys ls ++ rest)).
  { unfold line_keys. cbn [map concat]. by rewrite <-!app_assoc. }
  rewrite Hk in Hs. destruct (turn_run stk tasks s ctl x _ Hs Hx Htasks) as (s1 & Hr & Hs1 & Hk1).
  rewrite (M_bind_Ret _ _ _ _ _ Hr). destruct (IH s1 ctl rest Hs1) as (s2 & Hr2 & Hs2 & Hk2).
  exists s2. split; [exact Hr2|]. split; [exact Hs2|]. by rewrite Hk2, Hk1.
Qed.
End turn.

(** ** Properties *)

Section properties.
Context {D : Type} {BD : BlockDev D}.
Implicit Types st : fs D.

(** [cd] without an argument goes to the root directory and then clears 512
    bytes of [cwd_cache], which has 64: the stores behind it are undefined. *)
Theorem cd_overrun stk tasks (s : shell D) ctl e rest : shell_ready s ctl (chars "cd" ++ e :: rest) → is_enter e →
  length (cwd_cache s) = 64%nat → shell_turn stk tasks s = Fault.
Proof.
  intros [Hcwd Hfp Hline Hm Hroot Hin] He H64. change (47 :: 0 :: ctl) with ([47] ++ 0 :: ctl) in Hcwd.
  destruct (turn_word stk tasks s [47] ctl (chars "cd") e rest) as (line' & o & tl & _ & Hd & Hl & ->);
    [done|by apply str_ok_check|cbn; lia|done|done|done|cbn; lia|repeat (constructor; [done|]); constructor| |done|done|].
  { apply Forall_forall. intros x Hx. change (chars "cd") with [99; 100] in Hx.
    repeat (apply elem_of_cons in Hx as [->|Hx]; [lia|]). by apply elem_of_nil in Hx. }
  unfold run_command, arg. change (load (Some o :: replicate 15 None) 0) with (Ret (Some o)).
  rewrite bind_assoc, bind_lift. cbv iota. rewrite bind_assoc, bind_gets, bind_ret. cbn [cmd_line]. rewrite Hd.
  do 2 (rewrite is_cmd_run; [|by apply str_ok_check|by apply str_ok_check]). rewrite decide_False, decide_True by done.
  unfold buildin_cd. change (2 <? 1) with false. change (1 =? 1) with true. cbv iota.
  rewrite ?bind_assoc, bind_gets. cbn [final_path]. rewrite ?bind_assoc. rewrite store_in by by rewrite length_replicate.
  rewrite bind_lift, ?bind_assoc. rewrite store_in by by rewrite length_insert, length_replicate.
  rewrite bind_lift. unfold set_final. rewrite bind_modify, ?bind_assoc, bind_gets. cbn [final_path kern cmd_line cwd_cache].
  match goal with |- context [sys (sys_chdir ?p)] => set (fp := p) end. rewrite ?bind_assoc.
  set (k := term _ _ _).
  assert (Hc : ∃ k', sys_chdir fp k = Ret (0, k')).
  { eexists. unfold sys_chdir, search_file. assert (is_root fp = Ret true) as -> by by vm_compute.
    rewrite bind_assoc, bind_lift, bind_ret. cbv beta iota. reflexivity. }
  destruct Hc as (k' & Hc). rewrite (sys_run _ _ (Sh k _ _ _) _ _ Hc). change (0 =? -1) with false. cbv iota.
  rewrite bind_ret, bind_gets. cbn [cwd_cache with_kern].
  assert (memset (cwd_cache s) 0 MAX_PATH_LEN = Fault) as ->; [|done].
  unfold memset. apply memset_loop_over. rewrite H64. apply Nat.ltb_lt. reflexivity.
Qed.

(** C26: [readline] edits a line: backspace takes the last character away, ctrl+u
    all of them, ctrl+l clears the screen and shows the line again, every other
    key is added and shown. As long as the line fits the buffer, enter gives the
    edited line as a string, takes the keys from the keyboard and leaves the
    screen with the echo. *)
Theorem readline_correct st cwd ctl buf n ks e rest : str_ok cwd → (length cwd < 1000)%nat →
  tty_in (fs_session st) = ks ++ e :: rest → Forall key_ok ks → is_enter e → length buf = n → (n ≤ 1023)%nat →
  (∀ j, (j ≤ length ks)%nat → (length (typed cwd (take j ks) (tty_out (fs_session st))).1 < n)%nat) →
  ∃ tl, readline (cwd ++ 0 :: ctl) buf (Z.of_nat n) st =
      Ret ((typed cwd ks (tty_out (fs_session st))).1 ++ 0 :: tl,
        term rest ((typed cwd ks (tty_out (fs_session st))).2 ++ [10]) st) ∧
    length ((typed cwd ks (tty_out (fs_session st))).1 ++ 0 :: tl) = n.
Proof.
  intros Hc Hcl Hk Hks He Hb Hn Hfit. unfold readline. rewrite bind_gets, Hk, <-(term_self st), Hk.
  rewrite length_app. cbn [length].
  destruct (readline_run cwd ctl Hc Hcl n Hn ks e rest st Hks He (S (length ks + S (length rest))) [] buf (tty_out (fs_session st)))
    as (tl & Hr & Hl); [constructor|done|lia|done|]. exists tl. split; [exact Hr|exact Hl].
Qed.

(** [readline] does not stop at the end of its buffer: when as many
    characters as it holds were typed, the next key is stored behind it. *)
Theorem readline_overflow st cwd ctl buf n ks c rest : str_ok cwd → (length cwd < 1000)%nat →
  tty_in (fs_session st) = ks ++ c :: rest → Forall key_ok ks → length buf = n → (n ≤ 1023)%nat →
  (∀ j, (j < length ks)%nat → (length (typed cwd (take j ks) (tty_out (fs_session st))).1 < n)%nat) →
  length (typed cwd ks (tty_out (fs_session st))).1 = n →
  readline (cwd ++ 0 :: ctl) buf (Z.of_nat n) st = Fault.
Proof.
  intros Hc Hcl Hk Hks Hb Hn Hfit Hfull. unfold readline. rewrite bind_gets, Hk, <-(term_self st), Hk. clear Hk.
  rewrite length_app. cbn [length]. set (fuel := (length ks + S (length rest))%nat).
  assert (Hf : (length ks < S fuel)%nat) by (unfold fuel; lia). clearbody fuel. unfold typed in *.
  change (readline_loop (S fuel) (cwd ++ 0 :: ctl) ([] ++ buf) (Z.of_nat (length (@nil Z))) (Z.of_nat n)
    (term (ks ++ c :: rest) (tty_out (fs_session st)) st) = Fault).
  assert (Hl : line_ok []) by constructor. assert (Hlen : length ([] ++ buf) = n) by done. clear Hb.
  revert Hl Hlen Hfit Hfull Hf. generalize (tty_out (fs_session st)) (@nil Z) buf (S fuel). clear buf fuel.
  induction Hks as [|k ks Hk Hks IH]; intros out l tl fuel Hl Hlen Hfit Hfull Hf; (destruct fuel as [|fuel]; [cbn in Hf; lia|]).
  - cbn [foldl fst] in Hfull. rewrite length_app in Hlen. destruct tl; [|cbn in Hlen; lia].
    cbn [readline_loop]. rewrite Nat2Z.id, drop_ge by (rewrite app_nil_r; lia). reflexivity.
  - pose proof (Hfit 0%nat ltac:(cbn; lia)) as H0. cbn in H0.
    destruct (readline_one cwd ctl Hc Hcl n Hn fuel l tl k (ks ++ c :: rest) out st Hl Hk Hlen H0) as (tl' & Hr & Hl').
    cbn [app]. rewrite Hr. cbn [foldl] in Hfull. pose proof (key_step_ok cwd l out k Hl Hk) as Hl2.
    destruct (key_step cwd (l, out) k) as [l2 out2] eqn:Hst. cbn [fst snd] in *.
    apply IH; [done|done| |done|cbn in Hf; lia]. intros j Hj. specialize (Hfit (S j) ltac:(cbn; lia)). cbn [take foldl] in Hfit.
    by rewrite Hst in Hfit.
Qed.

(** C27: [cmd_parse] splits a line at its spaces: up to 16 words are terminated in
    place and [argv] points to them in order, followed by NULLs; a 17th word is
    stored behind [argv] before the count is checked. *)
Theorem cmd_parse_correct s tl : str_ok s →
  let ws := line_words s in
  if decide (length ws ≤ 16)%nat
  then ∃ s' offs, cmd_parse (s ++ 0 :: tl) 32 =
      Ret (s' ++ 0 :: tl, map Some offs ++ replicate (16 - length ws) None, Z.of_nat (length ws)) ∧
    length s' = length s ∧ args_at (s' ++ 0 :: tl) offs ws
  else cmd_parse (s ++ 0 :: tl) 32 = Fault.
Proof.
  intros Hs ws. unfold cmd_parse. rewrite length_app. cbn [length]. case_decide as Hw.
  - destruct (parse_run (length s) s ltac:(lia) (S (length s + S (length tl))) [] tl (replicate 16 None) 0 Hs ltac:(lia) eq_refl Hw)
      as (s' & offs & Hr & Hl & Ha). exists s', offs. split; [|done]. etransitivity; [exact Hr|]. cbn [take app Nat.add].
    by rewrite drop_replicate.
  - subst ws. apply (parse_overflow (length s) s ltac:(lia) _ [] tl (replicate 16 None) 0); [done|lia|done|lia].
Qed.

(** C25: a session of the shell in the root directory in which the user types
    lines of at most one word, none of them [ls] or [cd] (which overruns its
    buffer, [cd_overrun]): after each prompt the line is echoed and the output of
    the command follows ([command_screen]); the screen shows the lines in turn,
    the keys are taken, and the file system is as before. Words that stand for no
    command are reported. *)
Theorem shell_session_correct stk tasks (s : shell D) c ctl ls rest : cwd_cache s = c :: 0 :: ctl →
  length (final_path s) = 512%nat → length (cmd_line s) = 512%nat →
  Forall typed_line ls → tty_in (fs_session (kern s)) = line_keys ls ++ rest →
  fs_mem (kern s) = [] → Inode.cwd_inode_nr (fs_session (kern s)) = 0 → Forall task_shown tasks →
  ∃ s', my_shell (length ls) stk tasks s = Ret ((), s') ∧ cwd_cache s' = 47 :: 0 :: ctl ∧
    kern s' = term rest (foldl (line_screen tasks) (tty_out (fs_session (kern s))) ls) (kern s).
Proof.
  intros Hcwd Hfp Hline Hls Hin Hm Hroot Htasks. unfold my_shell. rewrite bind_gets, Hcwd.
  rewrite store_in by (cbn; lia). rewrite bind_lift. unfold set_cwd. rewrite bind_modify.
  change (<[Z.to_nat 0 := 47]> (c :: 0 :: ctl)) with (47 :: 0 :: ctl).
  edestruct (shell_loop_run stk tasks ls Hls Htasks) as (s' & Hr & Hs' & Hk); [|rewrite Hr]; [by split|].
  exists s'. split; [done|]. split; [apply Hs'|exact Hk].
Qed.
End properties.

(** ** Examples *)

(** The user types "ax", backspace, "b", enter. *)
Definition ex_tty (keys : list Z) : fs ram := with_session (Session 0 keys []) (ex_fs [] ∅ []).

Lemma readline_correct_witness :
  ∃ tl, readline [47; 0] (replicate 16 7) 16 (ex_tty [97; 120; 8; 98; 13; 99]) =
    Ret ([97; 98] ++ 0 :: tl, with_session (Session 0 [99] [97; 120; 8; 98; 10]) (ex_fs [] ∅ [])).
Proof.
  destruct (readline_correct (ex_tty [97; 120; 8; 98; 13; 99]) [47] [] (replicate 16 7) 16 [97; 120; 8; 98] 13 [99])
    as (tl & Hr & _); [by apply str_ok_check|cbn; lia|reflexivity| |by right|reflexivity|lia| |].
  - repeat (constructor; [split; [unfold char_ok; lia|intros [H|H]; discriminate H]|]). constructor.
  - intros j Hj. cbn in Hj. do 5 (destruct j as [|j]; [vm_compute; lia|]). lia.
  - exists tl. exact Hr.
Defined.

Lemma cmd_parse_correct_witness :
  ∃ s' offs, cmd_parse [108; 115; 32; 32; 45; 108; 0] 32 = Ret (s' ++ [0], map Some offs ++ replicate 14 None, 2) ∧
    args_at (s' ++ [0]) offs [[108; 115]; [45; 108]].
Proof.
  destruct (cmd_parse_correct [108; 115; 32; 32; 45; 108] [] ltac:(by apply str_ok_check)) as (s' & offs & Hr & _ & Ha).
  exists s', offs. split; [exact Hr|exact Ha].
Defined.

(** The lines "pwd", "", "xy". *)
Lemma shell_session_correct_witness :
  ∃ s', my_shell 3 [] [] (Sh (ex_tty [112; 119; 100; 10; 13; 120; 121; 10]) (replicate 512 0) (replicate 512 0) (replicate 64 0)) =
      Ret ((), s') ∧
    kern s' = with_session (Session 0 [] (chars "[zy@localhost /]pwd" ++ [10; 47; 10] ++ chars "[zy@localhost /]" ++ [10] ++
      chars "[zy@localhost /]xy" ++ [10] ++ chars "external command" ++ [10])) (ex_fs [] ∅ []).
Proof.
  destruct (shell_session_correct [] [] (Sh (ex_tty [112; 119; 100; 10; 13; 120; 121; 10]) (replicate 512 0) (replicate 512 0) (replicate 64 0))
    0 (replicate 62 0) [([112; 119; 100], 10); ([], 13); ([120; 121], 10)] []) as (s' & Hr & _ & Hk);
    [reflexivity|reflexivity|reflexivity| |reflexivity|reflexivity|reflexivity|constructor|].
  - repeat constructor; try lia; try done; by (left + right).
  - exists s'. split; [exact Hr|exact Hk].
Defined.
